(* ===== verification/_CoqProject ===== *)
-Q . S2P
Prelude.v
Double.v
UrmTypes.v
SafeOps.v
Message.v
Resource.v
DLManager.v
StdString.v
YamlEvents.v
UrmPlatformAL.v
AuxRoutines.v
StringFacts.v
Strtod.v
JournalConf.v
SignalRegistry.v
AppConfigs.v
TargetRegistry.v
ResourceRegistry.v
Extensions.v
Request.v
CocoTable.v
Events.v
ClientDataManager.v
OrderedQueue.v
RequestManager.v
RateLimiter.v
RequestHandler.v
ResourceHooks.v
HookFacts.v
Effects.v
Server.v
ClientCleanup.v
MemoryPool.v
ThreadPool.v
TimerThread.v
Wire.v
Signal.v
ExtFeatures.v
PropertiesRegistry.v
RestuneParser.v
RestuneInit.v
ParserFacts.v
InitFacts.v
Pipeline.v
SignalHandler.v
Classifier.v
ClassifierFacts.v
ClassifierThreads.v
Plugins.v
PluginsFacts.v
Regex.v
Features.v
FeaturesFacts.v
Sockets.v
SocketsFacts.v
Cli.v
CliFacts.v
Logger.v
LoggerFacts.v
DBus.v
ThreadList.v
TargetTeardown.v
Teardown.v
History.v
Lifecycle.v
Intake.v
ServerFiles.v
