(* ===== verification/Prelude.v ===== *)
(** * Userspace Resource Manager: a model of the resource tuner and its proofs

    URM is a daemon that lets processes ask for temporary settings of kernel tunables
    (resources).  A client calls the library, which sends one fixed-size message to
    the server; the server checks and records the request, queues it by priority, and
    a consumer thread applies it through the CocoTable, which arbitrates between the
    requests that concern the same tunable and calls the hook that writes it; when the
    request is untuned, or its timer expires, the next request in line takes effect, or the
    tunable is reset.  A signal is a named scenario that the server expands into such a request.
    What resources, signals and properties there are is read from YAML files at the start.

    This development is a shallow embedding of that program in Rocq: every function below
    is translated from the C++ code it is named after, and is executable.

    ** The parts of the program and the files that model them

<<
    command line client              Cli, CliFacts    client/ClientCLI.cpp
    the two ends of the socket       Sockets, SocketsFacts
                                                      client/Comm/Socket/SocketClient.cpp, UrmAPIs.cpp,
                                                      resource-tuner/core/Server/RestuneListener.cpp
    message dispatch, end to end     Pipeline         resource-tuner/core/Server/RequestReceiver.cpp,
                                                      submitResProvisionReqMsg of RequestHandler.cpp
    client library, message format   Wire, Signal     client/APIs/UrmAPIs.cpp, FlatBuffEncoder of
                                                      modula/CoreModules/AuxRoutines.*,
                                                      Request::deserialize, modula/Common/Signal.cpp
    request, timer, resource nodes   Message, Resource, Request
                                                      modula/Common/*, modula/Components/Timer.*
    intrusive lists                  DLManager        modula/Components/DLManager.*
    admission of requests            RequestHandler (verification), Server (processIncomingRequest)
                                                      resource-tuner/core/RequestHandler.cpp
    request records, duplicates      RequestManager   resource-tuner/core/RequestManager.*
    client records                   ClientDataManager
                                                      resource-tuner/core/ClientDataManager.*
    rate limits                      RateLimiter, Double
                                                      resource-tuner/core/RateLimiter.*
    priority queue, consumer         OrderedQueue, Server (orderedQueueConsumerHook)
                                                      modula/Components/OrderedQueue.*,
                                                      resource-tuner/core/RequestQueue.*
    arbitration                      CocoTable        resource-tuner/core/CocoTable.*
    queue, table and requests together
                                     Events, History, Lifecycle, Intake,
                                     ServerFiles
                                                      resource-tuner/core/RequestQueue.cpp, CocoTable.cpp
    hooks that touch the device      ResourceHooks, HookFacts, Effects
                                                      resource-tuner/core/ResourceHooks.cpp
    resource configurations          ResourceRegistry resource-tuner/core/ResourceRegistry.*
    extension interface              Extensions       extensions/Extensions.*
    target topology, journal limits  TargetRegistry, JournalConf
                                                      resource-tuner/core/TargetRegistry.*
    signals                          SignalRegistry, SignalHandler, AppConfigs, ExtFeatures
                                                      resource-tuner/signals/*
    properties                       PropertiesRegistry
                                                      resource-tuner/core/PropertiesRegistry.cpp
    configuration files              YamlEvents, RestuneParser, ParserFacts
                                                      resource-tuner/init/RestuneParser.cpp
    start and shutdown               RestuneInit, InitFacts
                                                      resource-tuner/init/RestuneInit.cpp,
                                                      modula/CoreModules/ComponentRegistry.cpp, urm.cpp
    contextual classifier            Classifier, ClassifierFacts, ClassifierThreads
                                                      contextual-classifier/ContextualClassifier.cpp,
                                                      NetLinkComm.cpp, ContextualClassifierInit.cpp
    text features, inference         Features, FeaturesFacts
                                                      contextual-classifier/FeaturePruner.cpp,
                                                      FeatureExtractor.cpp, MLInference.cpp
    plugins                          Plugins, PluginsFacts
                                                      plugins/Extensions/*
    worker threads                   ThreadPool, ThreadList, TimerThread
                                                      modula/Components/ThreadPool.*, Timer.cpp
    dead clients, suspend/resume     ClientCleanup    resource-tuner/core/ClientGarbageCollector.*,
                                                      PulseMonitor.*, dbus-modules/StateDetector.cpp
    system bus                       DBus             dbus-modules/*
    memory pool                      MemoryPool       modula/Components/MemoryPool.*
    logger                           Logger, LoggerFacts
                                                      modula/Components/Logger.*
    destructors, daemons, library    TargetTeardown, Teardown
                                                      the destructors of the registries and pools, the
                                                      timers of PulseMonitor and ClientGarbageCollector,
                                                      the connection of contextual-classifier/NetLinkComm.cpp
    utilities                        AuxRoutines, SafeOps, UrmTypes, UrmPlatformAL
                                                      modula/CoreModules/*, modula/Components/Include/SafeOps.h,
                                                      modula/Common/Include/{ErrCodes,Utils,UrmPlatformAL}.h
>>

    [StdString], [StringFacts] and [Strtod] model what the code uses of the standard library
    on strings ([stoi], [stod], [snprintf], splitting), [Regex] its regular expressions, with the
    backtracking order of their alternatives and repetitions; [Double] gives the operations of IEEE
    binary64 on the Standard Library's [SpecFloat].

    ** State

    - Requests refer to resource nodes, and lists link the nodes themselves.  A [Store]
      (Request.v) holds, per node address, one pair of links per linker (linker 0 for
      the list of a request, linker 1 for a list of the CocoTable) and the resource.  A
      [DLManager] is the head, tail, size and rank of one list; [is_dll h d xs] says that
      [d] represents the sequence [xs] of nodes, and is the abstraction under which the
      list operations are specified.
    - A [World] (CocoTable.v) adds the table and the trace of callbacks called; Effects.v
      replays such a trace on a [Device] (ResourceHooks.v): its files, the registry and the
      kernel's cpu affinities.
    - A [Server] (Server.v) is the state the threads of the daemon share: the world, the
      live requests, the client tables, the request manager, the queue and the target.
    - [Configs] (RestuneParser.v) is what the configuration files fill; a [Daemon]
      (RestuneInit.v) adds the settings, the plugins, the pools and the threads.
    - Each handler is one step on that state.  The code takes a lock for the whole of each
      such step on a component; what runs concurrently is expressed by the order of
      steps, as in the race between a tune request and its untune request (Server.v).  The
      thread pool and the timers, whose locks are released while they wait, are step
      relations with one step per critical section, wake-up and time-out.

    ** Results, undefined behaviour, termination

    A [result] is [Ok] or a [Fault]: null and wild pointers, accesses out of range, signed
    overflow and reads of uninitialised memory are faults, never made-up values, so that
    an [Ok] in a theorem includes the absence of that undefined behaviour.  One such read is recorded
    instead, so that what follows it can be stated: [clear_loop] (Request.v) reads the link of each
    node it has just freed, and returns the list of these reads.  Exceptions the
    code catches, allocation failures included, are ordinary outcomes: an allocation is
    an argument of the operation.  Integers are [Z] with the conversions written out
    ([wrap_u], [wrap_s]) and checked where signed arithmetic could overflow ([chk_s]).

    Loops over a linked list have fuel: the number of nodes in the heap, which no
    duplicate-free list exceeds ([is_dll_fuel]); the consumer's loop and the cleanup loop
    have the length of the queue; decoding has the bytes left.  [OutOfFuel] is a fault, so
    the theorems that give an [Ok] result prove that the fuel is enough.  A parser asks the
    YAML library for events until the stream ends: its fuel is the number of those
    calls.  Each of the seven parsers leaves its loop at the end of the stream by its own branch, so that
    a stream that ends within [n] calls needs no more than [n + 1] ([parsers_terminate]); what
    the parsers return then, or where they dereference null, is the subject of ParserFacts.v.

    The order in which a [std::unordered_map] is traversed, and the choice a
    [std::priority_queue] makes between equal elements, are parameters (classes
    [HashOrder] here and [PriorityQueue] in OrderedQueue.v); so are the two system calls on
    affinities (class [Scheduler] of ResourceHooks.v, with laws from their manual page), the events
    of the YAML library, and the shared objects of plugins and features; the clock and the
    outcome of creating a thread are arguments.  The interface [ResourceConfigs] with its laws
    (ResourceRegistry.v) is what the table of configurations promises to the CocoTable
    and to the request handler, which are proved against it.

    ** What the theorems show

    - Arbitration (CocoTable.v, Effects.v): for every history of insertions and removals on a
      globally applied resource, the value in effect is that of the head of the first
      non-empty priority level, each level ordered by the policy of the resource, and the
      reset value when nothing is pending, both as called and as found in the file of the
      resource; insertion and removal of whole requests; and that across clusters the
      table does let a lower-priority request starve.
    - Hooks (HookFacts.v): for every kind of resource, applying and then resetting leaves the file as it
      was when the resource was registered; affinities of tasks are restored; what the hooks do
      not check.
    - The life of a request (Server.v, RequestHandler.v, RequestManager.v): every incoming
      request ends up queued or freed, never both, or, with a priority the queue refuses, in neither
      place and never freed; the verdict of the verification, resource by resource; duplicates are detected exactly up to
      the compared fields; and an untune request cancels its tune request whichever of
      the two is handled first.
    - The whole life of the server (History.v, Lifecycle.v, Intake.v, ServerFiles.v): the consumer takes requests in
      any order, while others arrive, are cancelled and retuned; the lists of the table are always those
      of the complete requests, without their skipped nodes, the value in effect, and the one each file
      reads, is that of their leader, and no turn faults.  The requests taken are the [consumable] ones: the
      nodes that are not skipped are globally applied, the timer, if any, starts, and a complete request that is retuned has one.
      Admission leaves all of it alone; untuning,
      by the client or by the timer, gives everything back; and a timer that does not start
      leaves freed nodes in the lists.
    - Clients (ClientDataManager.v, RateLimiter.v, ClientCleanup.v): registration up to
      the cap on threads, the handles of a thread, the health of a thread and the length
      of the burst it survives, what one run of the garbage collector does, and what a
      suspend does not do.
    - End to end (Pipeline.v): a request the library accepts is rebuilt by the server as it
      was sent, under the handle the client is given, and is queued or freed.
    - The wire (Wire.v, Signal.v, PropertiesRegistry.v): a request or a signal sent by the library
      is rebuilt by the server, the library refuses the others, a crafted tune message makes
      the server read past it, and a property is read back by the client.
    - Signals (SignalRegistry.v, SignalHandler.v): the registry as a map, the verdict on an
      incoming signal, and its expansion into a tuning request.
    - Configuration (ParserFacts.v, InitFacts.v): a resource file means the fold of its items; signals
      registered from a file are well typed; every parser terminates; the start
      succeeds exactly when the settings can be read at the end, and the layers of property files then
      override one another in order.
    - Start and shutdown (InitFacts.v): a request can only reach a daemon that is built
      completely; the handles of the plugins.
    - Threads (ThreadPool.v, TimerThread.v): tasks are run in order, none is lost, no wake-up is
      lost; a timer calls back at most once, and not after it was killed; the list of the threads
      (ThreadList.v) is joined in full, and a pool can grow only so many times in its life.
    - Ends (TargetTeardown.v, Teardown.v): what each destructor deletes and what it leaks, the timers of
      the daemons, the socket of the classifier.
    - The classifier (ClassifierFacts.v, ClassifierThreads.v): how many applications it keeps
      tuned and which it lets go, the openings it ignores while it remembers the process, and that it cannot be stopped.
    - The socket (SocketsFacts.v): which descriptors a client's calls leave open or close, and how
      clients use up the blocks of the listener.
    - The command line (CliFacts.v): resources are read back as they are written, a tune command line
      makes the one call it says, every call is sound, and what the persistent mode does not do.
    - The logger (LoggerFacts.v): which calls are defined, and where a line goes.
    - Text features (FeaturesFacts.v): splitting through an escaped character class is splitting
      at the delimiters, and the words the model is given.
    - Plugins (PluginsFacts.v): tearing a tuning down restores what readers of the files' first lines found
      before, with the exceptions; the cpu mask as one hexadecimal numeral; which cores and signals post-processing chooses.
    - Data structures (DLManager.v, OrderedQueue.v, MemoryPool.v, Request.v, Resource.v,
      ResourceRegistry.v, AuxRoutines.v): refinement of sequences, maps and free lists.
    - Topology and arithmetic (TargetRegistry.v, SafeOps.v, Message.v): the logical to
      physical mappings, the cpu masks, the saturating operations, the packed fields.

    Several theorems state what the code does where that is not what it means to do (for
    instance [CocoTable_cross_cluster_starvation], [deserialize_bounds], [plugin_handles],
    [hooks_unchecked], [Terminate_never_returns], [client_descriptors], [Listener_starved],
    [persistent_mode], [refused_timer_dangles]); their comments say so.

    ** Not modelled

    The contents of the log beyond the calls of Logger.v and the displays, the test programs and the examples. *)
From Stdlib Require Export ZArith Lia Bool.
From stdpp Require Export base tactics option list gmap sets strings sorting.
Open Scope Z_scope.

(** ** Undefined behaviour and error results

    C++ code that the model cannot give a value to is a [fault], never a made-up
    result: a null or wild pointer, an out-of-range access, a signed overflow,
    an indeterminate read.  [OutOfFuel] marks a loop that did not end within its
    fuel. *)
Inductive fault : Type :=
  | NullDeref
  | WildPtr
  | OutOfRange
  | SignedOverflow
  | Indeterminate
  | BadAlloc
  | OutOfFuel.

#[export] Instance fault_eq_dec : EqDecision fault.
Proof. solve_decision. Defined.

Inductive result (A : Type) : Type :=
  | Ok (a : A)
  | Fault (f : fault).
Arguments Ok {A} a.
Arguments Fault {A} f.

#[export] Instance result_ret : MRet result := fun A a => Ok a.
#[export] Instance result_bind : MBind result := fun A B k m =>
  match m with Ok a => k a | Fault f => Fault f end.
#[export] Instance result_fmap : FMap result := fun A B g m =>
  match m with Ok a => Ok (g a) | Fault f => Fault f end.

(** A pointer that is dereferenced must not be null. *)
Definition deref {A} (p : option A) : result A :=
  match p with Some a => Ok a | None => Fault NullDeref end.

Definition of_option {A} (f : fault) (o : option A) : result A :=
  match o with Some a => Ok a | None => Fault f end.

Definition is_ok {A} (m : result A) : bool :=
  match m with Ok _ => true | Fault _ => false end.

Lemma bind_ok {A B} (k : A -> result B) (m : result A) b :
  m ≫= k = Ok b <-> exists a, m = Ok a /\ k a = Ok b.
Proof.
  destruct m as [a|f]; simpl; split.
  - eauto.
  - intros (a' & E & ?); congruence.
  - discriminate.
  - intros (a' & E & ?); congruence.
Qed.

Lemma ok_bind {A B} (k : A -> result B) (a : A) : Ok a ≫= k = k a.
Proof. reflexivity. Qed.

Lemma fault_bind {A B} (k : A -> result B) f : Fault f ≫= k = Fault f.
Proof. reflexivity. Qed.

Lemma bind_assoc {A B C} (m : result A) (k : A -> result B) (l : B -> result C) :
  (m ≫= k) ≫= l = m ≫= (fun a => k a ≫= l).
Proof. destruct m; reflexivity. Qed.

(** ** Hint databases of the development *)
Create HintDb urm.
Create Rewrite HintDb urm_rw.
#[export] Hint Rewrite @ok_bind @fault_bind : urm_rw.

(** [inv_ok H] splits a successful run of a sequence of binds into its steps. *)
Ltac inv_ok H :=
  repeat match type of H with
         | _ ≫= _ = Ok _ =>
           let a := fresh "a" in let E := fresh "E" in
           apply bind_ok in H as (a & E & H)
         | Ok _ = Ok _ => injection H as H
         end.

(** [case_if] splits on the condition of an [if] in the goal. *)
Ltac case_if :=
  match goal with
  | |- context [if ?b then _ else _] => destruct b eqn:?
  end.

(** [zb] turns boolean comparisons of [Z] in the context into arithmetic. *)
Ltac zb :=
  repeat match goal with
  | H : (_ =? _) = true |- _ => apply Z.eqb_eq in H
  | H : (_ =? _) = false |- _ => apply Z.eqb_neq in H
  | H : (_ <? _) = true |- _ => apply Z.ltb_lt in H
  | H : (_ <? _) = false |- _ => apply Z.ltb_ge in H
  | H : (_ <=? _) = true |- _ => apply Z.leb_le in H
  | H : (_ <=? _) = false |- _ => apply Z.leb_gt in H
  | H : (_ >? _) = _ |- _ => rewrite Z.gtb_ltb in H
  | H : (_ >=? _) = _ |- _ => rewrite Z.geb_leb in H
  | H : (_ && _) = true |- _ => apply andb_prop in H as [? ?]
  | H : (_ && _) = false |- _ => apply andb_false_iff in H
  | H : (_ || _) = true |- _ => apply orb_true_iff in H
  | H : (_ || _) = false |- _ => apply orb_false_iff in H as [? ?]
  | H : negb _ = true |- _ => apply negb_true_iff in H
  | H : negb _ = false |- _ => apply negb_false_iff in H
  end.

(** ** Machine integers

    A value of a [w]-bit C++ integer is the [Z] it denotes.  Conversions wrap. *)
Definition wrap_u (w z : Z) : Z := z mod 2 ^ w.
Definition wrap_s (w z : Z) : Z := (z + 2 ^ (w - 1)) mod 2 ^ w - 2 ^ (w - 1).

Definition in_u (w z : Z) : Prop := 0 <= z < 2 ^ w.
Definition in_s (w z : Z) : Prop := - 2 ^ (w - 1) <= z < 2 ^ (w - 1).

Definition min_s (w : Z) : Z := - 2 ^ (w - 1).
Definition max_s (w : Z) : Z := 2 ^ (w - 1) - 1.

(** The result of signed arithmetic, undefined when it leaves the type. *)
Definition chk_s (w z : Z) : result Z :=
  if (min_s w <=? z) && (z <=? max_s w) then Ok z else Fault SignedOverflow.

Lemma pow2_split w : 0 < w -> 2 ^ w = 2 * 2 ^ (w - 1).
Proof. intros. rewrite <- Z.pow_succ_r by lia. f_equal. lia. Qed.

Lemma wrap_u_range w z : 0 <= w -> in_u w (wrap_u w z).
Proof. intros. apply Z.mod_pos_bound. lia. Qed.

Lemma wrap_u_id w z : in_u w z -> wrap_u w z = z.
Proof. intros. apply Z.mod_small, H. Qed.

Lemma wrap_s_range w z : 0 < w -> in_s w (wrap_s w z).
Proof.
  intros Hw. unfold in_s, wrap_s.
  pose proof (Z.mod_pos_bound (z + 2 ^ (w - 1)) (2 ^ w)).
  pose proof (pow2_split w Hw). lia.
Qed.

Lemma wrap_s_id w z : 0 < w -> in_s w z -> wrap_s w z = z.
Proof.
  intros Hw Hz. unfold in_s, wrap_s in *. pose proof (pow2_split w Hw).
  rewrite Z.mod_small; lia.
Qed.

Lemma wrap_s_mod w z z' : 0 < w -> z mod 2 ^ w = z' mod 2 ^ w -> wrap_s w z = wrap_s w z'.
Proof.
  intros Hw E. unfold wrap_s. f_equal.
  rewrite (Z.add_mod z), (Z.add_mod z') by lia. by rewrite E.
Qed.

Lemma chk_s_ok w z : in_s w z -> chk_s w z = Ok z.
Proof.
  unfold in_s, chk_s, min_s, max_s. intros. 
  destruct (_ && _) eqn:E; [done|]. zb. lia.
Qed.

Lemma chk_s_fault w z : ~ in_s w z -> chk_s w z = Fault SignedOverflow.
Proof.
  unfold in_s, chk_s, min_s, max_s. intros.
  destruct (_ && _) eqn:E; [|done]. zb. lia.
Qed.

#[export] Hint Resolve wrap_u_range wrap_s_range : urm.

(** C++ booleans stored in an [int8_t]. *)
Definition i8_of_bool (b : bool) : Z := if b then 1 else 0.

(** ** Bits *)
Lemma testbit_high n z i : 0 <= n -> in_u n z -> n <= i -> Z.testbit z i = false.
Proof.
  intros Hn Hz Hi. rewrite <- (wrap_u_id n z Hz). unfold wrap_u.
  by apply Z.mod_pow2_bits_high; lia.
Qed.

(** A number whose bits at [n] and above are clear fits [n] bits. *)
Lemma testbit_in_u n z :
  0 <= n -> (forall i, n <= i -> Z.testbit z i = false) -> in_u n z.
Proof.
  intros Hn Hz. assert (z = z mod 2 ^ n) as ->; [|by apply wrap_u_range].
  apply Z.bits_inj'. intros i Hi. destruct (Z.lt_ge_cases i n).
  - by rewrite Z.mod_pow2_bits_low by lia.
  - rewrite Z.mod_pow2_bits_high by lia. by apply Hz.
Qed.

(** Signed range in terms of the sign bits, which bitwise operations preserve. *)
Lemma in_s_shiftr w z : 0 < w -> in_s w z <-> Z.shiftr z (w - 1) = 0 \/ Z.shiftr z (w - 1) = -1.
Proof.
  intros Hw. rewrite Z.shiftr_div_pow2 by lia. unfold in_s.
  pose proof (Z.div_mod z (2 ^ (w - 1))) as E.
  pose proof (Z.mod_pos_bound z (2 ^ (w - 1))) as B.
  split; intros; [|lia].
  assert (0 < 2 ^ (w - 1)) by lia.
  assert (-1 <= z / 2 ^ (w - 1) < 1); [|lia]. nia.
Qed.

Lemma in_s_lor w x y : 0 < w -> in_s w x -> in_s w y -> in_s w (Z.lor x y).
Proof.
  intros Hw. rewrite !in_s_shiftr, Z.shiftr_lor by done.
  intros [-> | ->] [-> | ->]; auto.
Qed.
Lemma in_s_land w x y : 0 < w -> in_s w x -> in_s w y -> in_s w (Z.land x y).
Proof.
  intros Hw. rewrite !in_s_shiftr, Z.shiftr_land by done.
  intros [-> | ->] [-> | ->]; auto.
Qed.
Lemma in_s_lxor w x y : 0 < w -> in_s w x -> in_s w y -> in_s w (Z.lxor x y).
Proof.
  intros Hw. rewrite !in_s_shiftr, Z.shiftr_lxor by done.
  intros [-> | ->] [-> | ->]; auto.
Qed.
#[export] Hint Resolve in_s_lor in_s_land in_s_lxor : urm.

(** Converting to a [w]-bit signed type only depends on the low [w] bits. *)
Lemma wrap_s_bits w x y :
  0 < w -> (forall i, 0 <= i < w -> Z.testbit x i = Z.testbit y i) -> wrap_s w x = wrap_s w y.
Proof.
  intros Hw E. apply wrap_s_mod; [done|]. rewrite <- !Z.land_ones by lia.
  apply Z.bits_inj'. intros i Hi. rewrite !Z.land_spec, Z.testbit_ones by lia.
  destruct (Z.ltb_spec i w).
  - rewrite E by lia. done.
  - rewrite !andb_false_r. done.
Qed.

(** [zbits] proves equalities of bitwise expressions: it compares bit [i] of both
    sides, splitting on [i] against the shifts and masks, with the ranges of the
    operands taken from [in_u] hypotheses. *)
Ltac zbits_step :=
  match goal with
  | |- context [Z.testbit (Z.land _ _) _] => rewrite Z.land_spec
  | |- context [Z.testbit (Z.lor _ _) _] => rewrite Z.lor_spec
  | |- context [Z.testbit (Z.lxor _ _) _] => rewrite Z.lxor_spec
  | |- context [Z.testbit (Z.lnot _) _] => rewrite Z.lnot_spec by lia
  | |- context [Z.testbit (Z.shiftr _ _) _] => rewrite Z.shiftr_spec by lia
  | |- context [Z.testbit (Z.shiftl _ _) _] => rewrite Z.shiftl_spec by lia
  | |- context [Z.testbit 0 _] => rewrite Z.testbit_0_l
  | |- context [Z.testbit (-1) _] => rewrite Z.bits_m1 by lia
  | |- context [Z.testbit (Z.ones _) _] => rewrite Z.testbit_ones by lia
  | |- context [Z.testbit (?z mod 2 ^ ?n) ?i] =>
      destruct (Z.lt_ge_cases i n);
      [rewrite (Z.mod_pow2_bits_low z n i) by lia
      |rewrite (Z.mod_pow2_bits_high z n i) by lia]
  | |- context [Z.testbit ?z (?i - ?k)] =>
      let H := fresh in
      assert (i - k < 0) as H by lia; rewrite (Z.testbit_neg_r z (i - k) H); clear H
  | H : in_u ?n ?z |- context [Z.testbit ?z ?i] =>
      rewrite (testbit_high n z i) by (lia || exact H)
  | |- context [?a <? ?b] => destruct (Z.ltb_spec a b); try lia
  | |- context [?a <=? ?b] => destruct (Z.leb_spec a b); try lia
  | |- context [Z.testbit _ (?i - ?k)] =>
      lazymatch goal with
      | _ : k <= i |- _ => fail
      | _ => destruct (Z.lt_ge_cases i k)
      end
  end.
Ltac zbits_core :=
  repeat zbits_step;
  rewrite ?andb_false_r, ?andb_true_r, ?orb_false_r, ?orb_true_r, ?xorb_false_r; simpl;
  try (f_equal; lia);
  repeat match goal with |- context [Z.testbit ?z ?i] => destruct (Z.testbit z i) end;
  try done.
Ltac zbits :=
  apply Z.bits_inj'; let i := fresh "i" in let Hi := fresh "Hi" in intros i Hi; zbits_core.

Lemma wrap_s_mod_eq w z : 0 < w -> wrap_s w z mod 2 ^ w = z mod 2 ^ w.
Proof.
  intros Hw. unfold wrap_s. rewrite Zminus_mod_idemp_l. f_equal. lia.
Qed.
Lemma wrap_s_testbit w z i : 0 <= i < w -> Z.testbit (wrap_s w z) i = Z.testbit z i.
Proof.
  intros Hi. rewrite <- (Z.mod_pow2_bits_low (wrap_s w z) w) by lia.
  rewrite wrap_s_mod_eq by lia. by rewrite Z.mod_pow2_bits_low by lia.
Qed.
Lemma wrap_s_land_ones w z : 0 < w -> wrap_s w (Z.land z (Z.ones w)) = wrap_s w z.
Proof.
  intros Hw. apply wrap_s_bits; [done|]. intros i Hi. zbits_core.
Qed.
Lemma wrap_s_lor w x y : 0 < w -> wrap_s w (Z.lor (wrap_s w x) y) = wrap_s w (Z.lor x y).
Proof.
  intros Hw. apply wrap_s_bits; [done|]. intros i Hi.
  by rewrite !Z.lor_spec, wrap_s_testbit by lia.
Qed.

(** ** Unordered containers

    The iteration order of a [std::unordered_map] is not specified: it is a
    parameter, a permutation of the entries. *)
Class HashOrder := {
  hash_order : forall {K A : Type} {EqK : EqDecision K} {CK : Countable K},
    gmap K A -> list (K * A);
  hash_order_perm : forall {K A : Type} {EqK : EqDecision K} {CK : Countable K} (m : gmap K A),
    hash_order m ≡ₚ map_to_list m
}.

Lemma elem_of_hash_order `{HashOrder} {K A} `{Countable K} (m : gmap K A) k v :
  (k, v) ∈ hash_order m <-> m !! k = Some v.
Proof. rewrite hash_order_perm. apply elem_of_map_to_list. Qed.

Lemma length_hash_order `{HashOrder} {K A} `{Countable K} (m : gmap K A) :
  length (hash_order m) = size m.
Proof. rewrite hash_order_perm. apply length_map_to_list. Qed.

(** The order used in concrete runs. *)
Definition sorted_hash_order : HashOrder :=
  {| hash_order := fun K A _ _ m => map_to_list m;
     hash_order_perm := fun K A _ _ m => reflexivity _ |}.

(** [m[k]] on a map to pointers, counters or strings: a missing key is inserted with
    the value-initialised [d]. *)
Definition map_index {K A} `{Countable K} (d : A) (k : K) (m : gmap K A) : A * gmap K A :=
  match m !! k with
  | Some v => (v, m)
  | None => (d, <[k := d]> m)
  end.

Lemma map_index_lookup {K A} `{Countable K} (d : A) (k j : K) (m : gmap K A) :
  (map_index d k m).2 !! j = if decide (j = k) then Some (default d (m !! k)) else m !! j.
Proof.
  unfold map_index. destruct (m !! k) eqn:E; simpl; case_decide; subst; simpl.
  - done.
  - done.
  - by rewrite lookup_insert_eq.
  - by rewrite lookup_insert_ne.
Qed.
Lemma map_index_value {K A} `{Countable K} (d : A) (k : K) (m : gmap K A) :
  (map_index d k m).1 = default d (m !! k).
Proof. unfold map_index. by destruct (m !! k). Qed.

(** [zcase] decides a boolean equation of integer comparisons by cases. *)
Ltac zcase :=
  repeat match goal with
         | |- context [?a <? ?b] => destruct (Z.ltb_spec a b)
         | |- context [?a <=? ?b] => destruct (Z.leb_spec a b)
         | |- context [?a =? ?b] => destruct (Z.eqb_spec a b)
         end;
  rewrite ?orb_true_r, ?orb_false_r, ?andb_true_r, ?andb_false_r; simpl; try done; try lia.
