(* ===== verification/Double.v ===== *)
(** IEEE 754 binary64 numbers ([double]), as the Standard Library specifies them
    ([SpecFloat]), for the health of clients and the factors of the rate limiter. *)
From Stdlib Require Import SpecFloat.
From S2P Require Import Prelude.

Definition double : Type := spec_float.
Definition d_prec : Z := 53.
Definition d_emax : Z := 1024.

Definition d_add (x y : double) : double := SFadd d_prec d_emax x y.
Definition d_sub (x y : double) : double := SFsub d_prec d_emax x y.
Definition d_lt (x y : double) : bool := SFltb x y.
Definition d_le (x y : double) : bool := SFleb x y.

(** The double nearest to [z * 2 ^ e]. *)
Definition d_lit (z e : Z) : double := binary_normalize d_prec d_emax z e false.
Definition d_of_Z (z : Z) : double := d_lit z 0.

(** [std::min(a, b)] is [b < a ? b : a]. *)
Definition d_min (a b : double) : double := if d_lt b a then b else a.

Lemma d_lt_le x y : d_lt x y = true -> d_le x y = true.
Proof. unfold d_lt, d_le, SFltb, SFleb. by destruct (SFcompare x y) as [[]|]. Qed.

Lemma d_min_le a b : d_le a a = true -> d_le (d_min a b) a = true.
Proof. unfold d_min. case_if; [|done]. intros _. by apply d_lt_le. Qed.

(** An ordered comparison is false on NaN, and [<] and [<=] exclude each other. *)
Lemma d_lt_not_le x y : d_lt x y = true -> d_le y x = false.
Proof.
  unfold d_lt, d_le, SFltb, SFleb, SFcompare.
  destruct x as [[]|[]| |[] mx ex], y as [[]|[]| |[] my ey]; try done;
    rewrite (Z.compare_antisym ex ey), (Pos.compare_cont_antisym Eq mx my) || idtac;
    rewrite ?(Z.compare_antisym ex ey); destruct (ex ?= ey); simpl; try done;
    change (Pos.compare_cont Eq ?a ?b) with (Pos.compare a b);
    rewrite (Pos.compare_antisym mx my); by destruct (mx ?= my)%positive.
Qed.
