(* ===== verification/UrmTypes.v ===== *)
(** Shared vocabulary of the program: error codes ([modula/Common/Include/ErrCodes.h]),
    request types, permissions, priorities, policies and units
    ([modula/Common/Include/Utils.h]), request priorities and device modes
    ([modula/Common/Include/UrmPlatformAL.h]). *)
From S2P Require Import Prelude Double.

(** ** ErrCodes.h *)
Inductive ErrCode : Type :=
  | RC_REQ_SUBMISSION_FAILURE
  | RC_SUCCESS
  | RC_MODULE_INIT_FAILURE
  | RC_FILE_NOT_FOUND
  | RC_YAML_PARSING_ERROR
  | RC_YAML_INVALID_SYNTAX
  | RC_REQUEST_SANITY_FAILURE
  | RC_REQUEST_VERIFICATION_FAILURE
  | RC_REQUEST_NOT_FOUND
  | RC_DUPLICATE_REQUEST
  | RC_MEMORY_ALLOCATION_FAILURE
  | RC_MEMORY_POOL_ALLOCATION_FAILURE
  | RC_MEMORY_POOL_BLOCK_RETRIEVAL_FAILURE
  | RC_PROP_PARSING_ERROR
  | RC_PROP_NOT_FOUND
  | RC_BAD_ARG
  | RC_INVALID_VALUE
  | RC_SOCKET_CONN_NOT_INITIALIZED
  | RC_SOCKET_OP_FAILURE
  | RC_SOCKET_FD_READ_FAILURE
  | RC_SOCKET_FD_WRITE_FAILURE
  | RC_SOCKET_FD_CLOSE_FAILURE
  | RC_REQUEST_DESERIALIZATION_FAILURE
  | RC_REQUEST_PARSING_FAILED
  | RC_RESOURCE_NOT_SUPPORTED
  | RC_WORKER_THREAD_ASSIGNMENT_FAILURE
  | RC_LOGICAL_TO_PHYSICAL_GEN_FAILED
  | RC_CGROUP_CREATION_FAILURE
  | RC_DBUS_COMM_FAIL.

#[export] Instance ErrCode_eq_dec : EqDecision ErrCode.
Proof. solve_decision. Defined.

Definition RC_IS_OK (rc : ErrCode) : bool := bool_decide (rc = RC_SUCCESS).
Definition RC_IS_NOTOK (rc : ErrCode) : bool := negb (RC_IS_OK rc).

(** ** Utils.h *)
Inductive RequestType : Type :=
  | REQ_RESOURCE_TUNING
  | REQ_RESOURCE_RETUNING
  | REQ_RESOURCE_UNTUNING
  | REQ_PROP_GET
  | REQ_SIGNAL_TUNING
  | REQ_SIGNAL_UNTUNING
  | REQ_SIGNAL_RELAY.

#[export] Instance RequestType_eq_dec : EqDecision RequestType.
Proof. solve_decision. Defined.

(** The [int8_t] value of the enumerator. *)
Definition RequestType_val (t : RequestType) : Z :=
  match t with
  | REQ_RESOURCE_TUNING => 0
  | REQ_RESOURCE_RETUNING => 1
  | REQ_RESOURCE_UNTUNING => 2
  | REQ_PROP_GET => 3
  | REQ_SIGNAL_TUNING => 4
  | REQ_SIGNAL_UNTUNING => 5
  | REQ_SIGNAL_RELAY => 6
  end.

Definition MOD_RESTUNE : Z := 0.
Definition MOD_CLASSIFIER : Z := 1.

Definition PERMISSION_SYSTEM : Z := 0.
Definition PERMISSION_THIRD_PARTY : Z := 1.

Definition SYSTEM_HIGH : Z := 0.
Definition SYSTEM_LOW : Z := 1.
Definition THIRD_PARTY_HIGH : Z := 2.
Definition THIRD_PARTY_LOW : Z := 3.
Definition TOTAL_PRIORITIES : Z := 4.

Inductive Policy : Type :=
  | INSTANT_APPLY
  | HIGHER_BETTER
  | LOWER_BETTER
  | LAZY_APPLY
  | PASS_THROUGH
  | PASS_THROUGH_APPEND.

#[export] Instance Policy_eq_dec : EqDecision Policy.
Proof. solve_decision. Defined.

Inductive TranslationUnit : Type :=
  | U_NA | U_BYTE | U_KB | U_MB | U_GB | U_Hz | U_KHz | U_MHz | U_GHz.

#[export] Instance TranslationUnit_eq_dec : EqDecision TranslationUnit.
Proof. solve_decision. Defined.

Definition TranslationUnit_val (u : TranslationUnit) : Z :=
  match u with
  | U_NA => 1
  | U_BYTE => 1
  | U_KB => 1024
  | U_MB => 1024 * 1024
  | U_GB => 1024 * 1024 * 1024
  | U_Hz => 1
  | U_KHz => 1000
  | U_MHz => 1000 * 1000
  | U_GHz => 1000 * 1000 * 1000
  end.

Definition HIGH_TRANSFER_PRIORITY : Z := -1.
Definition SERVER_CLEANUP_TRIGGER_PRIORITY : Z := -2.

(** ** UrmPlatformAL.h *)
Definition REQ_PRIORITY_HIGH : Z := 0.
Definition REQ_PRIORITY_LOW : Z := 1.
Definition NUMBER_OF_RQUEST_PRIORITIES : Z := 2.

Definition MODE_RESUME : Z := 1.
Definition MODE_SUSPEND : Z := 2.
Definition MODE_DOZE : Z := 4.

(** ** UrmSettings.h *)
Definition REQ_BUFFER_SIZE : Z := 580.

Record MetaConfigs := mkMeta {
  mMaxConcurrentRequests : Z;
  mMaxResourcesPerRequest : Z;
  mDesiredThreadCount : Z;
  mMaxScalingCapacity : Z;
  mListeningPort : Z;
  mPulseDuration : Z;
  mClientGarbageCollectorDuration : Z;
  mDelta : Z;
  mCleanupBatchSize : Z;
  mPenaltyFactor : double;
  mRewardFactor : double;
  mPluginCount : Z;
  mAcceptMode : Z
}.

Record TargetConfigs := mkTargetConfigs {
  targetName : string;
  mTotalCoreCount : Z;
  mTotalClusterCount : Z;
  currMode : Z
}.

Definition set_core_count (n : Z) (c : TargetConfigs) : TargetConfigs :=
  mkTargetConfigs (targetName c) n (mTotalClusterCount c) (currMode c).
Definition set_cluster_count (n : Z) (c : TargetConfigs) : TargetConfigs :=
  mkTargetConfigs (targetName c) (mTotalCoreCount c) n (currMode c).
