(* ===== verification/SafeOps.v ===== *)
(** [modula/Components/Include/SafeOps.h]: the overflow-checked arithmetic templates.

    The templates are modelled at a signed [w]-bit type; every arithmetic
    operation the code performs goes through [chk_s], so a step that leaves the
    type is a [SignedOverflow] fault, and C++ division is [Z.quot]. *)
From S2P Require Import Prelude.

Inductive OperationStatus : Type :=
  | SUCCESS
  | OVERFLOW
  | UNDERFLOW
  | DIVISION_BY_ZERO.

#[export] Instance OperationStatus_eq_dec : EqDecision OperationStatus.
Proof. solve_decision. Defined.

(** C++ [a && b] whose right operand may fault: it is evaluated only if [a]. *)
Definition and_then (a : bool) (b : result bool) : result bool :=
  if a then b else Ok false.

Section SafeOps.
Context (w : Z).

Definition Add (firstArg secondArg : Z) : result (Z * OperationStatus) :=
  c1 ← and_then ((firstArg >=? 0) && (secondArg >=? 0))
         (d ← chk_s w (max_s w - firstArg); Ok (d <? secondArg));
  if (c1 : bool) then Ok (max_s w, OVERFLOW) else
  c2 ← and_then ((firstArg <? 0) && (secondArg <? 0))
         (d ← chk_s w (min_s w - firstArg); Ok (d >? secondArg));
  if (c2 : bool) then Ok (min_s w, UNDERFLOW) else
  r ← chk_s w (firstArg + secondArg);
  Ok (r, SUCCESS).

Definition Subtract (firstArg secondArg : Z) : result (Z * OperationStatus) :=
  c1 ← and_then ((firstArg >=? 0) && (secondArg <? 0))
         (d ← chk_s w (firstArg - max_s w); Ok (d >? secondArg));
  if (c1 : bool) then Ok (max_s w, OVERFLOW) else
  c2 ← and_then ((firstArg <? 0) && (secondArg >=? 0))
         (d ← chk_s w (firstArg - min_s w); Ok (d <? secondArg));
  if (c2 : bool) then Ok (min_s w, UNDERFLOW) else
  r ← chk_s w (firstArg - secondArg);
  Ok (r, SUCCESS).

Definition Multiply (firstArg secondArg : Z) : result (Z * OperationStatus) :=
  c1 ← and_then ((firstArg >? 0) && (secondArg >? 0))
         (q ← chk_s w (Z.quot (max_s w) firstArg); Ok (q <? secondArg));
  if (c1 : bool) then Ok (max_s w, OVERFLOW) else
  c2 ← and_then ((firstArg <? 0) && (secondArg <? 0))
         (q ← chk_s w (Z.quot (max_s w) firstArg); Ok (q >? secondArg));
  if (c2 : bool) then Ok (max_s w, OVERFLOW) else
  c3 ← and_then ((firstArg >? 0) && (secondArg <? 0))
         (q ← chk_s w (Z.quot (min_s w) firstArg); Ok (q >? secondArg));
  if (c3 : bool) then Ok (min_s w, UNDERFLOW) else
  c4 ← and_then ((firstArg <? 0) && (secondArg >? 0))
         (q ← chk_s w (Z.quot (min_s w) firstArg); Ok (q <? secondArg));
  if (c4 : bool) then Ok (min_s w, UNDERFLOW) else
  r ← chk_s w (firstArg * secondArg);
  Ok (r, SUCCESS).

(** At an integral type the tests [0 < secondArg < 1] and [-1 < secondArg < 0]
    of the four guarded branches are false, so their right operands are never
    evaluated. *)
Definition Divide (firstArg secondArg : Z) : result (Z * OperationStatus) :=
  if secondArg =? 0 then Ok (firstArg, DIVISION_BY_ZERO) else
  if ((secondArg >? 0) && (secondArg <? 1) && (firstArg >? 0)) then Fault SignedOverflow else
  if ((secondArg >? 0) && (secondArg <? 1) && (firstArg <? 0)) then Fault SignedOverflow else
  if ((secondArg <? 0) && (secondArg >? -1) && (firstArg >? 0)) then Fault SignedOverflow else
  if ((secondArg <? 0) && (secondArg >? -1) && (firstArg <? 0)) then Fault SignedOverflow else
  r ← chk_s w (Z.quot firstArg secondArg);
  Ok (r, SUCCESS).

(** Specification: the exact result, clamped to the type, with the matching status. *)
Definition saturate (z : Z) : Z * OperationStatus :=
  if z >? max_s w then (max_s w, OVERFLOW)
  else if z <? min_s w then (min_s w, UNDERFLOW)
  else (z, SUCCESS).
End SafeOps.

Section SafeOpsFacts.
Context (w : Z) (Hw : 1 < w).

Local Lemma half_pos : 2 <= 2 ^ (w - 1).
Proof. change 2 with (2 ^ 1) at 1. apply Z.pow_le_mono_r; lia. Qed.

(** The two ways [saturate] is used: the exact result fits, or it does not. *)
Lemma saturate_fits z : in_s w z -> saturate w z = (z, SUCCESS).
Proof.
  unfold in_s, saturate, max_s, min_s. intros.
  repeat case_if; zb; (done || lia).
Qed.
Lemma saturate_above z : max_s w < z -> saturate w z = (max_s w, OVERFLOW).
Proof. unfold saturate. intros. case_if; zb; (done || lia). Qed.
Lemma saturate_below z : z < min_s w -> saturate w z = (min_s w, UNDERFLOW).
Proof.
  unfold saturate, max_s, min_s. pose proof half_pos. intros.
  repeat case_if; zb; (done || lia).
Qed.
End SafeOpsFacts.

#[local] Ltac sat :=
  first [ rewrite saturate_fits by (unfold in_s, max_s, min_s in *; lia)
        | rewrite saturate_above by (unfold in_s, max_s, min_s in *; lia)
        | rewrite saturate_below by (unfold in_s, max_s, min_s in *; lia) ];
  reflexivity.

(** Runs one guarded branch: the checks that the hypotheses decide are removed. *)
#[local] Ltac run_branch :=
  repeat (simpl;
    match goal with
    | |- context [chk_s ?w ?z] =>
      rewrite (chk_s_ok w z) by (unfold in_s, max_s, min_s in *; lia)
    | |- context [if ?b then _ else _] => destruct b eqn:?; zb; try lia
    end); simpl.

Section SafeOpsSpec.
Context (w : Z) (Hw : 1 < w).

Lemma Add_saturates a b :
  in_s w a -> in_s w b -> Add w a b = Ok (saturate w (a + b)).
Proof.
  intros Ha Hb. unfold Add, and_then. pose proof (half_pos w Hw).
  unfold in_s, max_s, min_s in *. run_branch; zb; sat.
Qed.

Lemma Subtract_saturates a b :
  in_s w a -> in_s w b -> Subtract w a b = Ok (saturate w (a - b)).
Proof.
  intros Ha Hb. unfold Subtract, and_then. pose proof (half_pos w Hw).
  unfold in_s, max_s, min_s in *. run_branch; zb; sat.
Qed.
(** Division by a positive number turns the code's pre-checks into bounds on
    the product. *)
Lemma div_lt_iff m a b : 0 < a -> (m / a < b <-> m < a * b).
Proof.
  intros. split; intros.
  - pose proof (Z.mod_pos_bound m a). pose proof (Z.div_mod m a). nia.
  - apply Z.div_lt_upper_bound; lia.
Qed.

Lemma quot_pos m a : 0 <= m -> 0 < a -> Z.quot m a = m / a.
Proof. intros. apply Z.quot_div_nonneg; lia. Qed.
Lemma quot_neg_r m a : 0 <= m -> a < 0 -> Z.quot m a = - (m / - a).
Proof.
  intros. replace a with (- - a) at 1 by lia.
  rewrite Z.quot_opp_r, quot_pos by lia. done.
Qed.
Lemma quot_neg_l m a : m <= 0 -> 0 < a -> Z.quot m a = - (- m / a).
Proof.
  intros. replace m with (- - m) at 1 by lia.
  rewrite Z.quot_opp_l, quot_pos by lia. done.
Qed.
Lemma quot_neg_neg m a : m <= 0 -> a < 0 -> Z.quot m a = - m / - a.
Proof.
  intros. replace m with (- - m) at 1 by lia. replace a with (- - a) at 1 by lia.
  rewrite Z.quot_opp_opp, quot_pos by lia. done.
Qed.

Lemma div_range m a : 0 <= m -> 0 < a -> 0 <= m / a <= m.
Proof.
  intros. split; [apply Z.div_pos; lia|].
  apply Z.div_le_upper_bound; nia.
Qed.

(** Decides the sign tests of [Multiply]. *)
Ltac sign_tests :=
  repeat match goal with
    | |- context [?x >? 0] =>
      first [replace (x >? 0) with true by lia|replace (x >? 0) with false by lia]
    | |- context [?x <? 0] =>
      first [replace (x <? 0) with true by lia|replace (x <? 0) with false by lia]
    end; simpl.

Lemma Multiply_saturates a b :
  in_s w a -> in_s w b -> ~ (a = -1 /\ 0 < b) ->
  Multiply w a b = Ok (saturate w (a * b)).
Proof.
  intros Ha Hb Hm1. unfold Multiply, and_then. pose proof (half_pos w Hw) as Hh.
  destruct (Z.lt_trichotomy a 0) as [Hlt|[->|Hgt]].
  - destruct (Z.lt_trichotomy b 0) as [Hlb|[->|Hgb]].
    + sign_tests.
      rewrite quot_neg_r by (unfold max_s; lia).
      pose proof (div_range (max_s w) (- a) ltac:(unfold max_s; lia) ltac:(lia)).
      pose proof (div_lt_iff (max_s w) (- a) (- b) ltac:(lia)) as Hd.
      replace (- a * - b) with (a * b) in Hd by ring.
      assert (0 < a * b) by nia.
      unfold in_s in *. run_branch; sat.
    + rewrite Z.mul_0_r. unfold in_s in *. run_branch; sat.
    + sign_tests.
      assert (a < -1) by lia.
      rewrite quot_neg_neg by (unfold min_s; lia).
      assert (- min_s w / - a <= - min_s w / 2).
      { apply Z.div_le_compat_l; unfold min_s; lia. }
      pose proof (Z.div_pos (- min_s w) (- a) ltac:(unfold min_s; lia) ltac:(lia)).
      assert (- min_s w / 2 < max_s w + 1).
      { apply Z.div_lt_upper_bound; unfold min_s, max_s; lia. }
      pose proof (div_lt_iff (- min_s w) (- a) b ltac:(lia)) as Hd.
      replace (- a * b) with (- (a * b)) in Hd by ring.
      assert (a * b < 0) by nia.
      unfold in_s in *. run_branch; sat.
  - rewrite Z.mul_0_l. unfold in_s in *. run_branch; sat.
  - destruct (Z.lt_trichotomy b 0) as [Hlb|[->|Hgb]].
    + sign_tests.
      rewrite quot_neg_l by (unfold min_s; lia).
      pose proof (div_range (- min_s w) a ltac:(unfold min_s; lia) ltac:(lia)).
      pose proof (div_lt_iff (- min_s w) a (- b) ltac:(lia)) as Hd.
      replace (a * - b) with (- (a * b)) in Hd by ring.
      assert (a * b < 0) by nia.
      unfold in_s in *. run_branch; sat.
    + rewrite Z.mul_0_r. unfold in_s in *. run_branch; sat.
    + sign_tests.
      rewrite quot_pos by (unfold max_s; lia).
      pose proof (div_range (max_s w) a ltac:(unfold max_s; lia) ltac:(lia)).
      pose proof (div_lt_iff (max_s w) a b ltac:(lia)).
      assert (0 < a * b) by nia.
      unfold in_s in *. run_branch; sat.
Qed.

(** [numeric_limits::lowest() / -1] overflows before the product is looked at. *)
Lemma Multiply_minus_one_faults b :
  in_s w b -> 0 < b -> Multiply w (-1) b = Fault SignedOverflow.
Proof.
  intros Hb Hpos. unfold Multiply, and_then. pose proof (half_pos w Hw).
  replace (b >? 0) with true by lia. replace (b <? 0) with false by lia. simpl.
  assert (Z.quot (min_s w) (-1) = - min_s w) as ->.
  { change (-1) with (- (1)). by rewrite Z.quot_opp_r, Z.quot_1_r. }
  rewrite (chk_s_fault w (- min_s w)); [reflexivity|]. unfold in_s, min_s. lia.
Qed.

Lemma Divide_spec a b :
  in_s w a -> in_s w b -> ~ (a = min_s w /\ b = -1) ->
  Divide w a b =
    Ok (if b =? 0 then (a, DIVISION_BY_ZERO) else (Z.quot a b, SUCCESS)).
Proof.
  intros Ha Hb Hm. unfold Divide. destruct (b =? 0) eqn:E; [done|]. zb.
  replace ((b >? 0) && (b <? 1)) with false by lia.
  replace ((b <? 0) && (b >? -1)) with false by lia. simpl.
  rewrite chk_s_ok; [done|]. unfold in_s, min_s in *.
  pose proof (Z.quot_rem' a b). pose proof (Z.rem_bound_abs a b E).
  assert (Z.abs (Z.quot a b) <= Z.abs a).
  { rewrite <- Z.quot_abs by done. rewrite quot_pos by lia. apply div_range; lia. }
  assert (b = -1 -> Z.quot a b = - a).
  { intros ->. change (-1) with (- (1)). by rewrite Z.quot_opp_r, Z.quot_1_r. }
  assert (b <> -1 -> Z.quot a b = 2 ^ (w - 1) -> False).
  { intros. pose proof (half_pos w Hw). nia. }
  destruct (Z.eq_dec b (-1)); lia.
Qed.
End SafeOpsSpec.

(** ** Properties *)

(** At every signed width above one bit, [Add], [Subtract] and [Multiply] never
    execute an overflowing step and return the exact result clamped to the type
    with the status that says which bound was hit, for all operands of the type,
    except that [Multiply(-1, b)] with a positive [b] divides the lowest value by
    [-1], a signed overflow (a trap on x86). *)
Theorem SafeOps_saturating_arithmetic (w a b : Z) :
  1 < w -> in_s w a -> in_s w b ->
  Add w a b = Ok (saturate w (a + b)) /\
  Subtract w a b = Ok (saturate w (a - b)) /\
  Multiply w a b = (if (a =? -1) && (b >? 0) then Fault SignedOverflow
                    else Ok (saturate w (a * b))).
Proof.
  intros Hw Ha Hb. split; [by apply Add_saturates|].
  split; [by apply Subtract_saturates|].
  destruct ((a =? -1) && (b >? 0)) eqn:E; zb; subst.
  - apply Multiply_minus_one_faults; lia || done.
  - apply Multiply_saturates; [done..|]. lia.
Qed.

Lemma SafeOps_saturating_arithmetic_witness :
  Multiply 64 (2 ^ 40) (2 ^ 30) = Ok (2 ^ 63 - 1, OVERFLOW).
Proof.
  destruct (SafeOps_saturating_arithmetic 64 (2 ^ 40) (2 ^ 30)) as (_ & _ & E);
    [lia | unfold in_s; lia | unfold in_s; lia | exact E].
Defined.
