(* ===== verification/Message.v ===== *)
(** [modula/Common/Message.cpp], [modula/Common/Include/Message.h]: the base type
    of requests and signals, and the bit fields of its properties word.

    [mProperties] is an [int32_t] whose low byte holds the priority and whose second
    byte holds the processing modes.  The setters only ever OR bits in. *)
From S2P Require Import Prelude UrmTypes.

Record Message := mkMessage {
  mHandle : Z;
  mDuration : Z;
  mProperties : Z;
  mClientPID : Z;
  mClientTID : Z;
  mReqType : Z
}.

(** The constructor initialises [mProperties] only; the other members keep what
    the memory held, [junk]. *)
Definition Message_init (junk : Message) : Message :=
  mkMessage (mHandle junk) (mDuration junk) 0
            (mClientPID junk) (mClientTID junk) (mReqType junk).

Definition low_byte : Z := Z.shiftl 1 8 - 1.

Definition getRequestType (m : Message) : Z := mReqType m.
Definition getHandle (m : Message) : Z := mHandle m.
Definition getClientPID (m : Message) : Z := mClientPID m.
Definition getClientTID (m : Message) : Z := mClientTID m.
Definition getDuration (m : Message) : Z := mDuration m.
Definition getProperties (m : Message) : Z := mProperties m.

Definition getPriority (m : Message) : Z :=
  wrap_s 8 (Z.land (mProperties m) low_byte).

Definition getProcessingModes (m : Message) : Z :=
  wrap_s 8 (Z.land (Z.shiftr (mProperties m) 8) low_byte).

Definition setRequestType (reqType : Z) (m : Message) : Message :=
  mkMessage (mHandle m) (mDuration m) (mProperties m) (mClientPID m) (mClientTID m) reqType.
Definition setHandle (handle : Z) (m : Message) : Message :=
  mkMessage handle (mDuration m) (mProperties m) (mClientPID m) (mClientTID m) (mReqType m).
Definition setDuration (duration : Z) (m : Message) : Message :=
  mkMessage (mHandle m) duration (mProperties m) (mClientPID m) (mClientTID m) (mReqType m).
Definition setClientPID (clientPid : Z) (m : Message) : Message :=
  mkMessage (mHandle m) (mDuration m) (mProperties m) clientPid (mClientTID m) (mReqType m).
Definition setClientTID (clientTid : Z) (m : Message) : Message :=
  mkMessage (mHandle m) (mDuration m) (mProperties m) (mClientPID m) clientTid (mReqType m).
Definition setProperties (properties : Z) (m : Message) : Message :=
  mkMessage (mHandle m) (mDuration m) properties (mClientPID m) (mClientTID m) (mReqType m).

Definition setPriority (priority : Z) (m : Message) : Message :=
  setProperties (Z.lor (mProperties m) priority) m.

Definition addProcessingMode (processingMode : Z) (m : Message) : Message :=
  setProperties
    (Z.lor (mProperties m)
           (wrap_s 32 (Z.shiftl (Z.lor (Z.shiftr (mProperties m) 8) processingMode) 8))) m.

Definition setBackgroundProcessing (backgroundProcessing : Z) (m : Message) : Message :=
  setProperties (Z.lor (mProperties m) (Z.shiftl backgroundProcessing 8)) m.

Definition setUntuneProcessingOrder (untuneProcessingOrder : Z) (m : Message) : Message :=
  setProperties (Z.lor (mProperties m) (Z.shiftl untuneProcessingOrder 16)) m.

(** Typing invariant: the members hold values of their C++ types. *)
Record Message_typed (m : Message) : Prop := {
  typed_handle : in_s 64 (mHandle m);
  typed_duration : in_s 64 (mDuration m);
  typed_properties : in_s 32 (mProperties m);
  typed_pid : in_s 32 (mClientPID m);
  typed_tid : in_s 32 (mClientTID m);
  typed_reqtype : in_s 8 (mReqType m)
}.

(** ** The fields of the properties word *)
Lemma getPriority_wrap m : getPriority m = wrap_s 8 (mProperties m).
Proof. unfold getPriority. change low_byte with (Z.ones 8). apply wrap_s_land_ones. lia. Qed.

Lemma getProcessingModes_wrap m :
  getProcessingModes m = wrap_s 8 (Z.shiftr (mProperties m) 8).
Proof.
  unfold getProcessingModes. change low_byte with (Z.ones 8). apply wrap_s_land_ones. lia.
Qed.

(** A setter that only ORs bits at positions 8 and above leaves the priority alone. *)
Lemma priority_or_high m b :
  getPriority (setProperties (Z.lor (mProperties m) (Z.shiftl b 8)) m) = getPriority m.
Proof.
  rewrite !getPriority_wrap. simpl. apply wrap_s_bits; [lia|]. intros i Hi. zbits_core.
Qed.

Lemma addProcessingMode_shift m pm :
  mProperties (addProcessingMode pm m) =
  Z.lor (mProperties m) (wrap_s 32 (Z.shiftl (Z.lor (Z.shiftr (mProperties m) 8) pm) 8)).
Proof. done. Qed.

Lemma addProcessingMode_priority pm m : getPriority (addProcessingMode pm m) = getPriority m.
Proof.
  rewrite !getPriority_wrap, addProcessingMode_shift. apply wrap_s_bits; [lia|]. intros i Hi.
  rewrite Z.lor_spec, wrap_s_testbit by lia. zbits_core.
Qed.

Lemma addProcessingMode_modes pm m :
  getProcessingModes (addProcessingMode pm m) = wrap_s 8 (Z.lor (getProcessingModes m) pm).
Proof.
  rewrite !getProcessingModes_wrap, addProcessingMode_shift, wrap_s_lor by lia.
  apply wrap_s_bits; [lia|]. intros i Hi.
  rewrite Z.shiftr_spec, Z.lor_spec, wrap_s_testbit by lia.
  rewrite Z.shiftl_spec by lia. replace (i + 8 - 8) with i by lia. zbits_core.
Qed.

Lemma setBackgroundProcessing_priority b m :
  getPriority (setBackgroundProcessing b m) = getPriority m.
Proof. apply priority_or_high. Qed.

Lemma setUntuneProcessingOrder_priority b m :
  getPriority (setUntuneProcessingOrder b m) = getPriority m.
Proof.
  unfold setUntuneProcessingOrder.
  replace (Z.shiftl b 16) with (Z.shiftl (Z.shiftl b 8) 8)
    by (rewrite Z.shiftl_shiftl by lia; done).
  apply priority_or_high.
Qed.

Lemma setPriority_or p m :
  in_s 8 p -> getPriority (setPriority p m) = Z.lor (getPriority m) p.
Proof.
  intros Hp. rewrite !getPriority_wrap. simpl. rewrite <- wrap_s_lor by lia.
  apply wrap_s_id; [lia|]. apply in_s_lor; [lia | apply wrap_s_range; lia | done].
Qed.

(** Priority [-1] (all bits set) wins over whatever was there. *)
Lemma setPriority_high_transfer m : getPriority (setPriority HIGH_TRANSFER_PRIORITY m) = -1.
Proof. rewrite setPriority_or by (unfold in_s; done). apply Z.lor_m1_r. Qed.

Lemma setPriority_fresh p junk :
  in_s 8 p -> getPriority (setPriority p (Message_init junk)) = p.
Proof. intros. rewrite setPriority_or by done. done. Qed.

Lemma getPriority_typed m : in_s 8 (getPriority m).
Proof. rewrite getPriority_wrap. apply wrap_s_range. lia. Qed.

Lemma setProperties_typed q m :
  Message_typed m -> in_s 32 q -> Message_typed (setProperties q m).
Proof. intros [] ?. by split. Qed.

Lemma in_s_weaken v w z : 0 < v <= w -> in_s v z -> in_s w z.
Proof.
  unfold in_s. intros. assert (2 ^ (v - 1) <= 2 ^ (w - 1)) by (apply Z.pow_le_mono_r; lia). lia.
Qed.

Lemma in_s_shiftl v k z : 0 < v -> 0 <= k -> in_s v z -> in_s (v + k) (Z.shiftl z k).
Proof.
  unfold in_s. intros. rewrite Z.shiftl_mul_pow2 by lia.
  replace (v + k - 1) with ((v - 1) + k) by lia. rewrite Z.pow_add_r by lia.
  assert (0 < 2 ^ k) by lia. nia.
Qed.

Lemma setters_typed m p pm b u :
  Message_typed m -> in_s 8 p -> in_s 8 pm -> in_s 8 b -> in_s 8 u ->
  Message_typed (setPriority p m) /\ Message_typed (addProcessingMode pm m) /\
  Message_typed (setBackgroundProcessing b m) /\
  Message_typed (setUntuneProcessingOrder u m).
Proof.
  intros Hm Hp Hpm Hb Hu.
  repeat split_and!; apply setProperties_typed; try done;
    (apply in_s_lor; [lia | apply typed_properties, Hm | ]).
  - by apply (in_s_weaken 8); [lia|].
  - apply wrap_s_range. lia.
  - apply (in_s_weaken (8 + 8)); [lia|]. apply in_s_shiftl; lia || done.
  - apply (in_s_weaken (8 + 16)); [lia|]. apply in_s_shiftl; lia || done.
Qed.

(** ** Properties *)

(** The properties word of a message is a record of independent fields.  Adding
    a processing mode, the background flag or the untune order never changes the
    priority a message is queued with; adding a mode ORs it into the modes byte;
    setting a priority ORs it into the priority byte, so an earlier priority is not
    replaced; every setter keeps the message well typed. *)
Theorem Message_properties_fields (m : Message) (p pm b u : Z) :
  Message_typed m -> in_s 8 p -> in_s 8 pm -> in_s 8 b -> in_s 8 u ->
  getPriority (addProcessingMode pm m) = getPriority m /\
  getPriority (setBackgroundProcessing b m) = getPriority m /\
  getPriority (setUntuneProcessingOrder u m) = getPriority m /\
  getProcessingModes (addProcessingMode pm m) = wrap_s 8 (Z.lor (getProcessingModes m) pm) /\
  getPriority (setPriority p m) = Z.lor (getPriority m) p /\
  Message_typed (setPriority p m) /\ Message_typed (addProcessingMode pm m) /\
  Message_typed (setBackgroundProcessing b m) /\
  Message_typed (setUntuneProcessingOrder u m).
Proof.
  intros Hm Hp Hpm Hb Hu.
  pose proof (setters_typed m p pm b u Hm Hp Hpm Hb Hu) as (? & ? & ? & ?).
  repeat split_and!; auto using addProcessingMode_priority, setBackgroundProcessing_priority,
    setUntuneProcessingOrder_priority, addProcessingMode_modes, setPriority_or.
Qed.

Lemma Message_properties_fields_witness :
  getPriority (setPriority 2 (mkMessage 7 (-1) 256 100 101 0)) = 2.
Proof.
  destruct (Message_properties_fields (mkMessage 7 (-1) 256 100 101 0) 2 1 1 1)
    as (_ & _ & _ & _ & E & _);
    [split; unfold in_s; simpl; lia | unfold in_s; lia .. | exact E].
Defined.
