(* ===== verification/Resource.v ===== *)
(** [modula/Common/Resource.cpp], [modula/Common/Include/Resource.h]: one tunable of a
    request, with its packed core/cluster word and its union of inline and
    heap-allocated values.

    The union [mResValue] holds two inline [int32_t] values or a pointer to an
    array.  A null pointer has all bits zero, so a null [valueArr] reads as the
    inline values [0, 0] and conversely; any other cross reading is a fault.
    [new(std::nothrow)] may fail: the allocation outcome is an argument [alloc]. *)
From S2P Require Import Prelude UrmTypes.

Definition RES_FORWARD : Z := 0.
Definition RES_SKIP : Z := 1.

Inductive ResValue : Type :=
  | Inline (v0 v1 : Z)
  | HeapArr (arr : option (list (option Z))). (* a cell is [None] until it is written *)

Record Resource := mkResource {
  mResCode : Z;        (* uint32_t *)
  mResInfo : Z;        (* uint32_t *)
  mOptionalInfo : Z;   (* int32_t *)
  mNumValues : Z;      (* int32_t *)
  mResValue : ResValue;
  mResAction : Z       (* uint8_t *)
}.

Definition Resource_init : Resource := mkResource 0 0 0 0 (HeapArr None) RES_FORWARD.

Definition set_resinfo (x : Z) (r : Resource) : Resource :=
  mkResource (mResCode r) x (mOptionalInfo r) (mNumValues r) (mResValue r) (mResAction r).
Definition set_value (x : ResValue) (r : Resource) : Resource :=
  mkResource (mResCode r) (mResInfo r) (mOptionalInfo r) (mNumValues r) x (mResAction r).

(** Reading the union as [values[2]] and as [valueArr]. *)
Definition as_values (u : ResValue) : result (Z * Z) :=
  match u with
  | Inline a b => Ok (a, b)
  | HeapArr None => Ok (0, 0)
  | HeapArr (Some _) => Fault Indeterminate
  end.
Definition as_valueArr (u : ResValue) : result (option (list (option Z))) :=
  match u with
  | HeapArr p => Ok p
  | Inline a b => if (a =? 0) && (b =? 0) then Ok None else Fault WildPtr
  end.

Definition getCoreValue (r : Resource) : Z :=
  Z.land (wrap_s 32 (mResInfo r)) (Z.shiftl 1 8 - 1).
Definition getClusterValue (r : Resource) : Z :=
  Z.land (wrap_s 32 (Z.shiftr (mResInfo r) 8)) (Z.shiftl 1 8 - 1).
Definition getResInfo (r : Resource) : Z := wrap_s 32 (mResInfo r).
Definition getOptionalInfo (r : Resource) : Z := mOptionalInfo r.
Definition getResCode (r : Resource) : Z := mResCode r.
Definition getValuesCount (r : Resource) : Z := mNumValues r.
Definition getResAction (r : Resource) : Z := mResAction r.

Definition getValueAt (r : Resource) (index : Z) : result Z :=
  if (index <? 0) || (index >=? mNumValues r) then Ok (-1) else
  if mNumValues r <=? 2 then
    vs ← as_values (mResValue r);
    Ok (if index =? 0 then fst vs else snd vs)
  else
    p ← as_valueArr (mResValue r);
    arr ← deref p;
    cell ← of_option OutOfRange (arr !! Z.to_nat index);
    of_option Indeterminate cell.

Definition setCoreValue (core : Z) (r : Resource) : Resource :=
  set_resinfo (wrap_u 32 (Z.lor (Z.lxor (mResInfo r) (getCoreValue r)) core)) r.
Definition setClusterValue (cluster : Z) (r : Resource) : Resource :=
  set_resinfo
    (wrap_u 32 (Z.lor (Z.lxor (mResInfo r) (Z.shiftl (getClusterValue r) 8))
                      (Z.shiftl cluster 8))) r.
Definition setResCode (resCode : Z) (r : Resource) : Resource :=
  mkResource (wrap_u 32 resCode) (mResInfo r) (mOptionalInfo r) (mNumValues r) (mResValue r)
             (mResAction r).
Definition setResInfo (resInfo : Z) (r : Resource) : Resource :=
  set_resinfo (wrap_u 32 resInfo) r.
Definition setOptionalInfo (optionalInfo : Z) (r : Resource) : Resource :=
  mkResource (mResCode r) (mResInfo r) optionalInfo (mNumValues r) (mResValue r) (mResAction r).
Definition setResAction (action : Z) (r : Resource) : Resource :=
  mkResource (mResCode r) (mResInfo r) (mOptionalInfo r) (mNumValues r) (mResValue r) action.

Definition setNumValues (alloc : bool) (numValues : Z) (r : Resource) : Resource :=
  mkResource (mResCode r) (mResInfo r) (mOptionalInfo r) numValues
    (if numValues >? 2 then
       HeapArr (if alloc then Some (replicate (Z.to_nat numValues) None) else None)
     else mResValue r)
    (mResAction r).

Definition setValueAt (index value : Z) (r : Resource) : result (ErrCode * Resource) :=
  if (index <? 0) || (index >=? mNumValues r) then Ok (RC_BAD_ARG, r) else
  if mNumValues r >? 2 then
    p ← as_valueArr (mResValue r);
    match p with
    | None => Ok (RC_MEMORY_ALLOCATION_FAILURE, r)
    | Some arr => Ok (RC_SUCCESS, set_value (HeapArr (Some (<[Z.to_nat index := Some value]> arr))) r)
    end
  else
    vs ← as_values (mResValue r);
    Ok (RC_SUCCESS,
        set_value (if index =? 0 then Inline value (snd vs) else Inline (fst vs) value) r).

(** The copy constructor's loop: values [i ..] of [src] are copied until a
    [setValueAt] fails.  [n] counts the values left. *)
Fixpoint copy_values (n : nat) (i : Z) (src dst : Resource) : result Resource :=
  match n with
  | O => Ok dst
  | S n =>
    v ← getValueAt src i;
    '(rc, dst') ← setValueAt i v dst;
    if RC_IS_NOTOK rc then Ok dst' else copy_values n (i + 1) src dst'
  end.

Definition Resource_copy (alloc : bool) (src : Resource) : result Resource :=
  let n := getValuesCount src in
  let fresh :=
    mkResource (getResCode src) (wrap_u 32 (getResInfo src)) (getOptionalInfo src) n
      (if n >? 2 then
         HeapArr (if alloc then Some (replicate (Z.to_nat n) None) else None)
       else HeapArr None)
      (getResAction src) in
  copy_values (Z.to_nat n) 0 src fresh.

(** ** Well-formed resources

    The union matches the value count and every value has been written. *)
Record res_ok (r : Resource) : Prop := {
  ok_code : in_u 32 (mResCode r);
  ok_info : in_u 32 (mResInfo r);
  ok_count : 0 <= mNumValues r;
  ok_value :
    match mResValue r with
    | Inline _ _ => mNumValues r <= 2
    | HeapArr None => mNumValues r <= 2
    | HeapArr (Some arr) =>
        2 < mNumValues r /\ Z.of_nat (length arr) = mNumValues r /\ Forall is_Some arr
    end
}.

(** The values of a well-formed resource, as a pure function. *)
Definition value_at (r : Resource) (i : Z) : Z :=
  if (i <? 0) || (i >=? mNumValues r) then -1 else
  match mResValue r with
  | Inline a b => if i =? 0 then a else b
  | HeapArr None => 0
  | HeapArr (Some arr) => default (-1) (default None (arr !! Z.to_nat i))
  end.

Lemma getValueAt_ok r i : res_ok r -> getValueAt r i = Ok (value_at r i).
Proof.
  intros [_ _ Hc Hv]. unfold getValueAt, value_at.
  destruct ((i <? 0) || (i >=? mNumValues r)) eqn:E; [done|]. zb.
  destruct (mResValue r) as [a b|[arr|]].
  - replace (mNumValues r <=? 2) with true by lia. done.
  - destruct Hv as (Hgt & Hlen & Hall). replace (mNumValues r <=? 2) with false by lia. simpl.
    destruct (lookup_lt_is_Some_2 arr (Z.to_nat i) ltac:(lia)) as [c Hl].
    rewrite Hl. simpl. eapply Forall_lookup_1 in Hall as [v ->]; done.
  - replace (mNumValues r <=? 2) with true by lia. simpl. by case_if.
Qed.

(** ** The packed info word *)
Section InfoWord.
Context (r : Resource) (Hr : in_u 32 (mResInfo r)).

Lemma getCoreValue_bits : getCoreValue r = Z.land (mResInfo r) (Z.ones 8).
Proof.
  unfold getCoreValue. change (Z.shiftl 1 8 - 1) with (Z.ones 8).
  apply Z.bits_inj'. intros i Hi. rewrite !Z.land_spec, Z.testbit_ones by lia.
  destruct (Z.ltb_spec i 8); rewrite ?andb_false_r, ?andb_true_r; [|done].
  rewrite wrap_s_testbit by lia. done.
Qed.
Lemma getClusterValue_bits :
  getClusterValue r = Z.land (Z.shiftr (mResInfo r) 8) (Z.ones 8).
Proof.
  unfold getClusterValue. change (Z.shiftl 1 8 - 1) with (Z.ones 8).
  apply Z.bits_inj'. intros i Hi. rewrite !Z.land_spec, Z.testbit_ones by lia.
  destruct (Z.ltb_spec i 8); rewrite ?andb_false_r, ?andb_true_r; [|done].
  rewrite wrap_s_testbit by lia. done.
Qed.

Lemma core_range : in_u 8 (getCoreValue r).
Proof. rewrite getCoreValue_bits, Z.land_ones by lia. apply Z.mod_pos_bound. lia. Qed.
Lemma cluster_range : in_u 8 (getClusterValue r).
Proof. rewrite getClusterValue_bits, Z.land_ones by lia. apply Z.mod_pos_bound. lia. Qed.

(** The whole word after a setter, bit by bit. *)
Lemma setCoreValue_testbit c i :
  0 <= i < 32 ->
  Z.testbit (mResInfo (setCoreValue c r)) i =
  (if i <? 8 then false else Z.testbit (mResInfo r) i) || Z.testbit c i.
Proof.
  intros Hi. simpl. unfold wrap_u. rewrite Z.mod_pow2_bits_low, getCoreValue_bits by lia.
  rewrite Z.lor_spec, Z.lxor_spec, Z.land_spec, Z.testbit_ones by lia.
  replace (0 <=? i) with true by lia.
  destruct (i <? 8); destruct (Z.testbit (mResInfo r) i); done.
Qed.
Lemma setClusterValue_testbit c i :
  0 <= i < 32 ->
  Z.testbit (mResInfo (setClusterValue c r)) i =
  (if (8 <=? i) && (i <? 16) then false else Z.testbit (mResInfo r) i)
    || Z.testbit c (i - 8).
Proof.
  intros Hi. simpl. unfold wrap_u. rewrite Z.mod_pow2_bits_low, getClusterValue_bits by lia.
  rewrite Z.lor_spec, Z.lxor_spec, !Z.shiftl_spec, Z.land_spec by lia.
  destruct (Z.leb_spec 8 i); simpl.
  - rewrite Z.shiftr_spec, Z.testbit_ones by lia. replace (i - 8 + 8) with i by lia.
    replace (0 <=? i - 8) with true by lia.
    destruct (Z.ltb_spec i 16).
    + replace (i - 8 <? 8) with true by lia. destruct (Z.testbit (mResInfo r) i); done.
    + replace (i - 8 <? 8) with false by lia. simpl. by rewrite andb_false_r, xorb_false_r.
  - rewrite (Z.testbit_neg_r _ (i - 8)) by lia. simpl. by rewrite xorb_false_r.
Qed.
End InfoWord.

Lemma set_word_range r x : in_u 32 (mResInfo (set_resinfo (wrap_u 32 x) r)).
Proof. simpl. apply wrap_u_range. lia. Qed.

(** Two [n]-bit fields that agree on their bits are equal. *)
Lemma field_ext n x y :
  0 <= n -> in_u n x -> in_u n y ->
  (forall i, 0 <= i < n -> Z.testbit x i = Z.testbit y i) -> x = y.
Proof.
  intros Hn Hx Hy E. apply Z.bits_inj'. intros i Hi.
  destruct (Z.lt_ge_cases i n); [by apply E|].
  by rewrite !(testbit_high n) by (done || lia).
Qed.

Lemma core_testbit r i :
  in_u 32 (mResInfo r) -> 0 <= i < 8 ->
  Z.testbit (getCoreValue r) i = Z.testbit (mResInfo r) i.
Proof.
  intros Hr Hi. rewrite getCoreValue_bits by done. rewrite Z.land_spec, Z.testbit_ones by lia.
  replace (0 <=? i) with true by lia. replace (i <? 8) with true by lia. by rewrite andb_true_r.
Qed.
Lemma cluster_testbit r i :
  in_u 32 (mResInfo r) -> 0 <= i < 8 ->
  Z.testbit (getClusterValue r) i = Z.testbit (mResInfo r) (i + 8).
Proof.
  intros Hr Hi. rewrite getClusterValue_bits by done.
  rewrite Z.land_spec, Z.shiftr_spec, Z.testbit_ones by lia.
  replace (0 <=? i) with true by lia. replace (i <? 8) with true by lia. by rewrite andb_true_r.
Qed.

Lemma setCoreValue_core r c :
  in_u 32 (mResInfo r) -> in_u 8 c -> getCoreValue (setCoreValue c r) = c.
Proof.
  intros Hr Hc. assert (in_u 32 (mResInfo (setCoreValue c r))) by apply set_word_range.
  apply (field_ext 8); [lia | by apply core_range | done |].
  intros i Hi. rewrite core_testbit, setCoreValue_testbit by (done || lia).
  by replace (i <? 8) with true by lia.
Qed.
Lemma setCoreValue_cluster r c :
  in_u 32 (mResInfo r) -> in_u 8 c -> getClusterValue (setCoreValue c r) = getClusterValue r.
Proof.
  intros Hr Hc. assert (in_u 32 (mResInfo (setCoreValue c r))) by apply set_word_range.
  apply (field_ext 8); [lia | by apply cluster_range .. |].
  intros i Hi. rewrite !cluster_testbit, setCoreValue_testbit by (done || lia).
  rewrite (testbit_high 8 c) by (done || lia). replace (i + 8 <? 8) with false by lia.
  by rewrite orb_false_r.
Qed.
Lemma setClusterValue_cluster r c :
  in_u 32 (mResInfo r) -> in_u 8 c -> getClusterValue (setClusterValue c r) = c.
Proof.
  intros Hr Hc. assert (in_u 32 (mResInfo (setClusterValue c r))) by apply set_word_range.
  apply (field_ext 8); [lia | by apply cluster_range | done |].
  intros i Hi. rewrite cluster_testbit, setClusterValue_testbit by (done || lia).
  replace (8 <=? i + 8) with true by lia. replace (i + 8 <? 16) with true by lia. simpl.
  f_equal. lia.
Qed.
Lemma setClusterValue_core r c :
  in_u 32 (mResInfo r) -> in_u 8 c -> getCoreValue (setClusterValue c r) = getCoreValue r.
Proof.
  intros Hr Hc. assert (in_u 32 (mResInfo (setClusterValue c r))) by apply set_word_range.
  apply (field_ext 8); [lia | by apply core_range .. |].
  intros i Hi. rewrite !core_testbit, setClusterValue_testbit by (done || lia).
  replace (8 <=? i) with false by lia. rewrite (Z.testbit_neg_r c) by lia. by rewrite orb_false_r.
Qed.
(** The MPAM half of the word (bits 16 and above). *)
Definition mpam_bits (r : Resource) : Z := Z.shiftr (mResInfo r) 16.

Lemma mpam_range r : in_u 32 (mResInfo r) -> in_u 16 (mpam_bits r).
Proof.
  unfold in_u, mpam_bits. intros. rewrite Z.shiftr_div_pow2 by lia.
  split; [apply Z.div_pos; lia|]. apply Z.div_lt_upper_bound; lia.
Qed.
Lemma setters_mpam r c :
  in_u 32 (mResInfo r) -> in_u 8 c ->
  mpam_bits (setCoreValue c r) = mpam_bits r /\ mpam_bits (setClusterValue c r) = mpam_bits r.
Proof.
  intros Hr Hc. split; (apply (field_ext 16);
    [lia | apply mpam_range, set_word_range | by apply mpam_range |]); intros i Hi;
    unfold mpam_bits; rewrite !Z.shiftr_spec by lia.
  - rewrite setCoreValue_testbit, (testbit_high 8 c) by (done || lia).
    replace (i + 16 <? 8) with false by lia. by rewrite orb_false_r.
  - rewrite setClusterValue_testbit, (testbit_high 8 c) by (done || lia).
    replace (i + 16 <? 16) with false by lia. rewrite andb_false_r. by rewrite orb_false_r.
Qed.

(** A failed translation stores [-1]: the core byte and everything above it become ones. *)
Lemma setClusterValue_minus_one r :
  in_u 32 (mResInfo r) -> getClusterValue (setClusterValue (-1) r) = 255.
Proof.
  intros Hr. assert (in_u 32 (mResInfo (setClusterValue (-1) r))) by apply set_word_range.
  apply (field_ext 8); [lia | by apply cluster_range | unfold in_u; lia |].
  intros i Hi. rewrite cluster_testbit, setClusterValue_testbit by (done || lia).
  rewrite Z.bits_m1, orb_true_r by lia. change 255 with (Z.ones 8).
  rewrite Z.testbit_ones by lia. lia.
Qed.

(** ** The value union *)

(** Storage for all the values is present, written or not. *)
Definition res_alloc (r : Resource) : Prop :=
  match mResValue r with
  | Inline _ _ => mNumValues r <= 2
  | HeapArr None => mNumValues r <= 2
  | HeapArr (Some arr) => 2 < mNumValues r /\ Z.of_nat (length arr) = mNumValues r
  end.

Lemma res_ok_alloc r : res_ok r -> res_alloc r.
Proof. intros [_ _ _ Hv]. unfold res_alloc. destruct (mResValue r) as [|[]]; naive_solver. Qed.

Lemma setValueAt_spec r i v :
  res_alloc r -> 0 <= i < mNumValues r ->
  exists r', setValueAt i v r = Ok (RC_SUCCESS, r') /\ res_alloc r' /\
    r' = set_value (mResValue r') r /\
    forall j, 0 <= j < mNumValues r ->
      getValueAt r' j = if decide (i = j) then Ok v else getValueAt r j.
Proof.
  intros Ha Hi. unfold setValueAt, res_alloc in *.
  replace ((i <? 0) || (i >=? mNumValues r)) with false by lia.
  destruct r as [code info opt n u act]; simpl in *.
  destruct u as [a b|[arr|]]; simpl in *.
  - replace (n >? 2) with false by lia. eexists. split; [done|]. simpl.
    split; [by case_if|]. split; [done|]. intros j Hj. unfold getValueAt; simpl.
    replace ((j <? 0) || (j >=? n)) with false by lia. replace (n <=? 2) with true by lia.
    destruct (decide (i = j)) as [->|].
    + by destruct (j =? 0).
    + destruct (i =? 0) eqn:Ei, (j =? 0) eqn:Ej; zb; simpl; done || lia.
  - destruct Ha as [Hn Hlen]. replace (n >? 2) with true by lia. eexists. split; [done|].
    simpl. rewrite length_insert. split; [done|]. split; [done|].
    intros j Hj. unfold getValueAt; simpl.
    replace ((j <? 0) || (j >=? n)) with false by lia. replace (n <=? 2) with false by lia.
    simpl. destruct (decide (i = j)) as [->|Hne].
    + by rewrite list_lookup_insert_eq by lia.
    + by rewrite list_lookup_insert_ne by lia.
  - replace (n >? 2) with false by lia. eexists. split; [done|]. simpl.
    split; [by case_if|]. split; [done|]. intros j Hj. unfold getValueAt; simpl.
    replace ((j <? 0) || (j >=? n)) with false by lia. replace (n <=? 2) with true by lia.
    destruct (decide (i = j)) as [->|].
    + by destruct (j =? 0).
    + destruct (i =? 0) eqn:Ei, (j =? 0) eqn:Ej; zb; simpl; done || lia.
Qed.

(** A resource all of whose values can be read is well formed. *)
Lemma res_ok_intro r :
  in_u 32 (mResCode r) -> in_u 32 (mResInfo r) -> 0 <= mNumValues r -> res_alloc r ->
  (forall j, 0 <= j < mNumValues r -> is_ok (getValueAt r j) = true) -> res_ok r.
Proof.
  intros Hcode Hinfo Hn Ha Hall. split; [done..|]. unfold res_alloc in Ha.
  destruct (mResValue r) as [a b|[arr|]] eqn:Eu; [done| |done].
  destruct Ha as [Hgt Hlen]. split_and!; [done..|]. apply Forall_lookup. intros k c Hk.
  assert (k < length arr)%nat by by eapply lookup_lt_Some.
  specialize (Hall (Z.of_nat k) ltac:(lia)). unfold getValueAt in Hall.
  replace ((Z.of_nat k <? 0) || (Z.of_nat k >=? mNumValues r)) with false in Hall by lia.
  replace (mNumValues r <=? 2) with false in Hall by lia.
  rewrite Eu, Nat2Z.id in Hall. simpl in Hall. rewrite Hk in Hall. simpl in Hall.
  destruct c; [eauto|done].
Qed.

Lemma copy_values_spec n : forall i src dst,
  res_ok src -> res_alloc dst -> mNumValues dst = mNumValues src ->
  0 <= i -> i + Z.of_nat n = mNumValues src ->
  (forall j, 0 <= j < i -> getValueAt dst j = Ok (value_at src j)) ->
  exists dst', copy_values n i src dst = Ok dst' /\ res_alloc dst' /\
    dst' = set_value (mResValue dst') dst /\
    forall j, 0 <= j < mNumValues src -> getValueAt dst' j = Ok (value_at src j).
Proof.
  induction n as [|n IH]; intros i src dst Hsrc Hdst Hcnt Hi Hin Hpre; simpl.
  - exists dst. split_and!; [done|done|by destruct dst|]. intros. apply Hpre. lia.
  - rewrite getValueAt_ok by done. simpl.
    destruct (setValueAt_spec dst i (value_at src i) Hdst ltac:(lia))
      as (d1 & -> & Ha1 & Hd1 & Hget). simpl.
    assert (mNumValues d1 = mNumValues src) as Hc1 by (rewrite Hd1; done).
    destruct (IH (i + 1) src d1 Hsrc Ha1 Hc1 ltac:(lia) ltac:(lia)) as (d2 & E & Ha2 & Hd2 & Hall).
    { intros j Hj. rewrite Hget by lia. destruct (decide (i = j)) as [->|]; [done|].
      apply Hpre. lia. }
    exists d2. split_and!; [done|done| |done]. rewrite Hd2, Hd1. done.
Qed.

(** ** Properties *)

(** The packed info word keeps its fields apart.  Writing an 8-bit core or cluster
    id and reading it back returns it, and leaves the other id and the MPAM bits
    unchanged; a failed translation, which stores cluster [-1], reads back as
    cluster 255 and never as [-1]. *)
Theorem Resource_info_fields (r : Resource) (c : Z) :
  in_u 32 (mResInfo r) -> in_u 8 c ->
  getCoreValue (setCoreValue c r) = c /\
  getClusterValue (setCoreValue c r) = getClusterValue r /\
  getClusterValue (setClusterValue c r) = c /\
  getCoreValue (setClusterValue c r) = getCoreValue r /\
  mpam_bits (setCoreValue c r) = mpam_bits r /\
  mpam_bits (setClusterValue c r) = mpam_bits r /\
  getClusterValue (setClusterValue (-1) r) = 255.
Proof.
  intros Hr Hc. pose proof (setters_mpam r c Hr Hc) as [? ?].
  auto 10 using setCoreValue_core, setCoreValue_cluster, setClusterValue_cluster,
    setClusterValue_core, setClusterValue_minus_one.
Qed.

Lemma Resource_info_fields_witness :
  getClusterValue (setClusterValue 3 (setResInfo 66051 Resource_init)) = 3.
Proof.
  destruct (Resource_info_fields (setResInfo 66051 Resource_init) 3) as (_ & _ & E & _);
    [vm_compute; split; congruence | unfold in_u; lia | exact E].
Defined.

(** Copying a well-formed resource with a successful allocation gives a
    well-formed resource with the same fields and the same values; when the
    allocation for more than two values fails, the copy still completes and its
    first read dereferences a null array. *)
Theorem Resource_copy_correct (src : Resource) :
  res_ok src ->
  (exists dst, Resource_copy true src = Ok dst /\ res_ok dst /\
     mResCode dst = mResCode src /\ mResInfo dst = mResInfo src /\
     mOptionalInfo dst = mOptionalInfo src /\ mNumValues dst = mNumValues src /\
     mResAction dst = mResAction src /\
     forall j, 0 <= j < mNumValues src -> getValueAt dst j = getValueAt src j) /\
  (2 < mNumValues src ->
   exists dst, Resource_copy false src = Ok dst /\ getValueAt dst 0 = Fault NullDeref).
Proof.
  intros Hok. pose proof (ok_count _ Hok) as Hn. pose proof (ok_info _ Hok) as Hinfo.
  assert (wrap_u 32 (getResInfo src) = mResInfo src) as Ew.
  { apply (field_ext 32); [lia | apply wrap_u_range; lia | done |]. intros i Hi.
    unfold wrap_u. rewrite Z.mod_pow2_bits_low by lia. apply wrap_s_testbit. lia. }
  split.
  - unfold Resource_copy, getValuesCount. rewrite Ew. simpl.
    match goal with |- context [copy_values _ _ _ ?d] => set (fresh := d) end.
    assert (res_alloc fresh) as Hfresh.
    { unfold res_alloc, fresh. simpl. destruct (mNumValues src >? 2) eqn:E; zb; simpl; [|lia].
      rewrite length_replicate. lia. }
    destruct (copy_values_spec (Z.to_nat (mNumValues src)) 0 src fresh) as (d & E & Ha & Hd & Hall);
      [done | done | done | lia | lia | lia |].
    exists d. split; [done|]. assert (mNumValues d = mNumValues src) as Hc by (rewrite Hd; done).
    split.
    { apply res_ok_intro; rewrite ?Hc; try done; try (rewrite Hd; apply Hok).
      intros. rewrite Hall by done. done. }
    repeat split_and!; try (rewrite Hd; done).
    intros j Hj. by rewrite Hall, getValueAt_ok.
  - intros Hgt. unfold Resource_copy, getValuesCount.
    destruct (Z.to_nat (mNumValues src)) eqn:En; [lia|]. simpl.
    rewrite getValueAt_ok by done. simpl. unfold setValueAt. simpl.
    replace (mNumValues src >? 2) with true by lia.
    replace (0 >=? mNumValues src) with false by lia. simpl. eexists. split; [done|].
    unfold getValueAt. simpl. replace (0 >=? mNumValues src) with false by lia.
    by replace (mNumValues src <=? 2) with false by lia.
Qed.

Lemma Resource_copy_correct_witness :
  let src := mkResource 589824 0 0 3 (HeapArr (Some [Some 1; Some 20; Some 30])) 0 in
  exists dst, Resource_copy true src = Ok dst /\ getValueAt dst 2 = Ok 30.
Proof.
  intros src.
  destruct (Resource_copy_correct src) as [(dst & E & _ & _ & _ & _ & _ & _ & Hv) _].
  - split; simpl; [unfold in_u; lia .. |]. split_and!; [lia | done | repeat constructor; eauto].
  - exists dst. split; [exact E|]. rewrite Hv by (simpl; lia). reflexivity.
Defined.
