(* ===== verification/DLManager.v ===== *)
(** [modula/Components/DLManager.cpp], [modula/Components/Include/DLManager.h]: the
    intrusive doubly linked list that chains the resources of a request and, through
    a second pair of links of the same nodes, the pending resources of each CocoTable
    slot.

    Nodes live in a heap that maps a node address to its array of link pairs, one
    per linker ([mLinkages] followed by [mExtraLinks]); [CREATE_N_WAY_ITERABLE(N)]
    gives arrays of length [N + 1].  Each operation runs on the heap and on the
    manager's own fields, reading and writing links in the order of the code.

    [is_dll h d xs] says that the manager [d] represents the sequence [xs] in heap
    [h]; the refinement lemmas show that each operation on pointers implements the
    list operation of the same name, and touches no other node and no other linker. *)
From S2P Require Import Prelude UrmTypes.

Abbreviation ptr := (option positive).

Record Link := mkLink { next : ptr; prev : ptr }.
Abbreviation Heap := (gmap positive (list Link)).

(** The links of node [x] for linker [k]. *)
Definition link_at (h : Heap) (k : nat) (x : positive) : option Link :=
  h !! x ≫= fun ls => ls !! k.

(** ** DLRootNode / ExtIterable1 *)
Definition node_links (h : Heap) (p : ptr) : result (positive * list Link) :=
  x ← deref p;
  ls ← of_option WildPtr (h !! x);
  Ok (x, ls).

Definition linker_ok (linker : Z) (ls : list Link) : bool :=
  negb ((linker <? 0) || (linker >=? Z.of_nat (length ls))).

Definition getNextPtr (h : Heap) (linker : Z) (p : ptr) : result ptr :=
  '(_, ls) ← node_links h p;
  if linker_ok linker ls then
    l ← of_option OutOfRange (ls !! Z.to_nat linker); Ok (next l)
  else Ok None.

Definition getPrevPtr (h : Heap) (linker : Z) (p : ptr) : result ptr :=
  '(_, ls) ← node_links h p;
  if linker_ok linker ls then
    l ← of_option OutOfRange (ls !! Z.to_nat linker); Ok (prev l)
  else Ok None.

Definition set_link (h : Heap) (k : nat) (x : positive) (g : Link -> Link) : Heap :=
  alter (fun ls => alter g k ls) x h.

Definition setNextLinkage (h : Heap) (linker : Z) (p node : ptr) : result Heap :=
  '(x, ls) ← node_links h p;
  if linker_ok linker ls then
    Ok (set_link h (Z.to_nat linker) x (fun l => mkLink node (prev l)))
  else Ok h.

Definition setPrevLinkage (h : Heap) (linker : Z) (p node : ptr) : result Heap :=
  '(x, ls) ← node_links h p;
  if linker_ok linker ls then
    Ok (set_link h (Z.to_nat linker) x (fun l => mkLink (next l) node))
  else Ok h.

(** ** DLManager *)
Definition DLPolicy := positive -> positive -> result bool.

Record PolicyRepo := mkPolicies { mAscPolicy : option DLPolicy; mDescPolicy : option DLPolicy }.

(** [mSize] and [mRank] are [int32_t] in the code; here they are unbounded: lists of more than
    [max_s 32] nodes, and ranks that wrap, are out of the scope of the model. *)
Record DLManager := mkDL {
  mHead : ptr;
  mTail : ptr;
  mLinkerInUse : Z;
  mSize : Z;
  mRank : Z;
  mSavedPolicies : PolicyRepo
}.

Definition DLManager_init (linkerInUse : Z) : DLManager :=
  mkDL None None linkerInUse 0 0 (mkPolicies None None).

Definition set_head (p : ptr) (d : DLManager) : DLManager :=
  mkDL p (mTail d) (mLinkerInUse d) (mSize d) (mRank d) (mSavedPolicies d).
Definition set_tail (p : ptr) (d : DLManager) : DLManager :=
  mkDL (mHead d) p (mLinkerInUse d) (mSize d) (mRank d) (mSavedPolicies d).
Definition set_size (n : Z) (d : DLManager) : DLManager :=
  mkDL (mHead d) (mTail d) (mLinkerInUse d) n (mRank d) (mSavedPolicies d).
Definition set_rank (n : Z) (d : DLManager) : DLManager :=
  mkDL (mHead d) (mTail d) (mLinkerInUse d) (mSize d) n (mSavedPolicies d).

Inductive DLOptions := INSERT_START | INSERT_END | INSERT_N_NODE_START.

Abbreviation dl_result := (result (ErrCode * Heap * DLManager)).

(** [insertHelper(node)]: insert at the end. *)
Definition insert (h : Heap) (d : DLManager) (node : ptr) : dl_result :=
  let k := mLinkerInUse d in
  match node with
  | None => Ok (RC_INVALID_VALUE, h, d)
  | Some _ =>
    let tail := mTail d in
    match tail with
    | Some _ =>
      let d := set_tail node d in
      h ← setNextLinkage h k node None;
      h ← setPrevLinkage h k node tail;
      h ← setNextLinkage h k tail node;
      Ok (RC_SUCCESS, h, set_size (mSize d + 1) d)
    | None =>
      let d := set_tail node (set_head node d) in
      h ← setNextLinkage h k node None;
      h ← setPrevLinkage h k node None;
      Ok (RC_SUCCESS, h, set_size (mSize d + 1) d)
    end
  end.

Definition getLen (d : DLManager) : Z := mSize d.

(** [case DLOptions::INSERT_START]. *)
Definition insert_start (h : Heap) (d : DLManager) (node : ptr) : dl_result :=
  let k := mLinkerInUse d in
  let head := mHead d in
  match head with
  | Some _ =>
    let d := set_head node d in
    h ← setNextLinkage h k node head;
    h ← setPrevLinkage h k node None;
    h ← setPrevLinkage h k head node;
    Ok (RC_SUCCESS, h, set_size (mSize d + 1) d)
  | None =>
    h ← setPrevLinkage h k node None;
    h ← setNextLinkage h k node None;
    let d := set_tail node (set_head node d) in
    Ok (RC_SUCCESS, h, set_size (mSize d + 1) d)
  end.

(** The loop of [INSERT_N_NODE_START], [getNthHelper] and [isNodeNthHelper]: from
    [curNode] at position [curPos] to position [n], or to the null after the last
    node. *)
Fixpoint walk_to (fuel : nat) (h : Heap) (k : Z) (n curPos : Z) (curNode : ptr) : result ptr :=
  match curNode with
  | None => Ok None
  | Some _ =>
    if curPos =? n then Ok curNode else
    match fuel with
    | O => Fault OutOfFuel
    | S fuel => nx ← getNextPtr h k curNode; walk_to fuel h k n (curPos + 1) nx
    end
  end.

Definition insert_opt (h : Heap) (d : DLManager) (node : ptr) (option : DLOptions) (n : Z)
  : dl_result :=
  let k := mLinkerInUse d in
  match node with
  | None => Ok (RC_INVALID_VALUE, h, d)
  | Some _ =>
    match option with
    | INSERT_START => insert_start h d node
    | INSERT_END => insert h d node
    | INSERT_N_NODE_START =>
      if n <? 0 then Ok (RC_BAD_ARG, h, d) else
      if n =? 0 then insert_start h d node else
      if n =? getLen d + 1 then insert h d node else
      if n >? getLen d then Ok (RC_BAD_ARG, h, d) else
      curNode ← walk_to (size h) h k n 1 (mHead d);
      prevNode ← getPrevPtr h k curNode;
      match prevNode with
      | None => insert_start h d node
      | Some _ =>
        h ← setNextLinkage h k prevNode node;
        h ← setPrevLinkage h k node prevNode;
        h ← setPrevLinkage h k curNode node;
        h ← setNextLinkage h k node curNode;
        Ok (RC_SUCCESS, h, set_size (mSize d + 1) d)
      end
    end
  end.

(** The loop of [insertWithPolicyHelper]; [Some] result when the node was linked in
    before [currNode], [None] when the end was reached with [inserted == false]. *)
Fixpoint policy_loop (fuel : nat) (h : Heap) (d : DLManager) (node : positive)
    (policyCB : DLPolicy) (currNode : ptr) : result (option (Heap * DLManager)) :=
  let k := mLinkerInUse d in
  match currNode with
  | None => Ok None
  | Some c =>
    match fuel with
    | O => Fault OutOfFuel
    | S fuel =>
      currNext ← getNextPtr h k currNode;
      b ← policyCB node c;
      if (b : bool) then
        h ← setNextLinkage h k (Some node) currNode;
        p ← getPrevPtr h k currNode;
        h ← setPrevLinkage h k (Some node) p;
        p ← getPrevPtr h k currNode;
        match p with
        | None =>
          h ← setPrevLinkage h k currNode (Some node);
          Ok (Some (h, match mHead d with
                       | None => set_head None (set_tail None d)
                       | Some _ => set_head (Some node) d
                       end))
        | Some _ =>
          h ← setNextLinkage h k p (Some node);
          h ← setPrevLinkage h k currNode (Some node);
          Ok (Some (h, d))
        end
      else policy_loop fuel h d node policyCB currNext
    end
  end.

Definition insertWithPolicy (h : Heap) (d : DLManager) (node : ptr) (policyCB : DLPolicy)
  : dl_result :=
  let k := mLinkerInUse d in
  match node with
  | None => Ok (RC_INVALID_VALUE, h, d)
  | Some n =>
    r ← policy_loop (size h) h d n policyCB (mHead d);
    match r with
    | Some (h, d) => Ok (RC_SUCCESS, h, set_size (mSize d + 1) d)
    | None =>
      let tail := mTail d in
      h ← setNextLinkage h k node None;
      h ← setPrevLinkage h k node tail;
      '(h, d) ← match tail with
                | Some _ => h ← setNextLinkage h k tail node; Ok (h, d)
                | None => Ok (h, set_head node d)
                end;
      let d := set_tail node d in
      Ok (RC_SUCCESS, h, set_size (mSize d + 1) d)
    end
  end.

Definition insertAsc (h : Heap) (d : DLManager) (node : ptr) : dl_result :=
  match mAscPolicy (mSavedPolicies d) with
  | None => Ok (RC_BAD_ARG, h, d)
  | Some cb => insertWithPolicy h d node cb
  end.

Definition insertDesc (h : Heap) (d : DLManager) (node : ptr) : dl_result :=
  match mDescPolicy (mSavedPolicies d) with
  | None => Ok (RC_BAD_ARG, h, d)
  | Some cb => insertWithPolicy h d node cb
  end.

Definition getNth (h : Heap) (d : DLManager) (n : Z) : result ptr :=
  walk_to (size h) h (mLinkerInUse d) n 0 (mHead d).

(** [isNodeNthHelper] runs the same walk and compares the node it stops at. *)
Definition isNodeNth (h : Heap) (d : DLManager) (n : Z) (node : ptr) : result bool :=
  r ← walk_to (size h) h (mLinkerInUse d) n 0 (mHead d);
  Ok match r with None => false | Some _ => bool_decide (r = node) end.

Fixpoint match_loop (fuel : nat) (h : Heap) (k kt : Z) (cmpPolicy : option DLPolicy)
    (srcCur targetCur : ptr) : result bool :=
  match srcCur, targetCur with
  | Some s, Some t =>
    match fuel with
    | O => Fault OutOfFuel
    | S fuel =>
      ok ← match cmpPolicy with
           | None => Ok (bool_decide (s = t))
           | Some cmp => cmp s t
           end;
      if (ok : bool) then
        s' ← getNextPtr h k srcCur;
        t' ← getNextPtr h kt targetCur;
        match_loop fuel h k kt cmpPolicy s' t'
      else Ok false
    end
  | None, None => Ok true
  | _, _ => Ok false
  end.

Definition matchAgainst (h : Heap) (d : DLManager) (target : option DLManager)
    (cmpPolicy : option DLPolicy) : result bool :=
  match target with
  | None => Ok false
  | Some t =>
    if negb (getLen d =? getLen t) then Ok false else
    match_loop (size h) h (mLinkerInUse d) (mLinkerInUse t) cmpPolicy (mHead d) (mHead t)
  end.

Definition deleteNode (h : Heap) (d : DLManager) (node : ptr) : dl_result :=
  let k := mLinkerInUse d in
  match node with
  | None => Ok (RC_INVALID_VALUE, h, d)
  | Some _ =>
    p ← getPrevPtr h k node;
    nx ← getNextPtr h k node;
    '(h, d) ← match p with
              | Some _ => h ← setNextLinkage h k p nx; Ok (h, d)
              | None =>
                let d := set_head nx d in
                Ok (h, match nx with None => set_tail None d | Some _ => d end)
              end;
    nx ← getNextPtr h k node;
    p ← getPrevPtr h k node;
    '(h, d) ← match nx with
              | Some _ => h ← setPrevLinkage h k nx p; Ok (h, d)
              | None =>
                let d := set_tail p d in
                Ok (h, match p with None => set_head None d | Some _ => d end)
              end;
    Ok (RC_SUCCESS, h, set_size (mSize d - 1) d)
  end.

Definition destroy (d : DLManager) : DLManager :=
  set_size 0 (set_head None (set_tail None d)).

(** [DL_ITERATE]: the nodes met by following the next links. *)
Fixpoint iterate_from (fuel : nat) (h : Heap) (k : Z) (p : ptr) : result (list positive) :=
  match p with
  | None => Ok []
  | Some x =>
    match fuel with
    | O => Fault OutOfFuel
    | S fuel => nx ← getNextPtr h k p; xs ← iterate_from fuel h k nx; Ok (x :: xs)
    end
  end.
Definition DL_ITERATE (h : Heap) (d : DLManager) : result (list positive) :=
  iterate_from (size h) h (mLinkerInUse d) (mHead d).

(** ** Links of the heap *)
Lemma link_at_set_link h k x g j y :
  link_at (set_link h k x g) j y =
  if decide (x = y /\ k = j) then g <$> link_at h k x else link_at h j y.
Proof.
  unfold link_at, set_link. destruct (decide (x = y)) as [->|Hx].
  - rewrite lookup_alter_eq. destruct (h !! y) as [ls|]; simpl.
    + destruct (decide (k = j)) as [->|Hk].
      * rewrite decide_True by done. apply list_lookup_alter_eq.
      * rewrite decide_False by naive_solver. by apply list_lookup_alter_ne.
    + by case_decide.
  - rewrite lookup_alter_ne by done. by rewrite decide_False by naive_solver.
Qed.

Lemma link_at_eq h k x g : link_at (set_link h k x g) k x = g <$> link_at h k x.
Proof. rewrite link_at_set_link. by rewrite decide_True. Qed.
Lemma link_at_ne h k x g j y : (x <> y \/ k <> j) -> link_at (set_link h k x g) j y = link_at h j y.
Proof. intros. rewrite link_at_set_link. rewrite decide_False; naive_solver. Qed.

(** Accesses to an allocated node at a linker in range. *)
Section Access.
Context (h : Heap) (linker : Z) (x : positive) (l : Link).
Context (Hl : 0 <= linker) (Hx : link_at h (Z.to_nat linker) x = Some l).

Local Lemma access_links :
  exists ls, node_links h (Some x) = Ok (x, ls) /\ linker_ok linker ls = true /\
             ls !! Z.to_nat linker = Some l.
Proof.
  unfold link_at in Hx. destruct (h !! x) as [ls|] eqn:E; [|done]. simpl in Hx.
  exists ls. unfold node_links. simpl. rewrite E. split_and!; [done| |done].
  apply lookup_lt_Some in Hx. unfold linker_ok. lia.
Qed.
Lemma getNextPtr_ok : getNextPtr h linker (Some x) = Ok (next l).
Proof.
  unfold getNextPtr. destruct access_links as (ls & -> & E1 & E2). simpl.
  rewrite E1. by rewrite E2.
Qed.
Lemma getPrevPtr_ok : getPrevPtr h linker (Some x) = Ok (prev l).
Proof.
  unfold getPrevPtr. destruct access_links as (ls & -> & E1 & E2). simpl.
  rewrite E1. by rewrite E2.
Qed.
Lemma setNextLinkage_ok v :
  setNextLinkage h linker (Some x) v =
  Ok (set_link h (Z.to_nat linker) x (fun l => mkLink v (prev l))).
Proof.
  unfold setNextLinkage. destruct access_links as (ls & -> & E1 & E2). simpl. by rewrite E1.
Qed.
Lemma setPrevLinkage_ok v :
  setPrevLinkage h linker (Some x) v =
  Ok (set_link h (Z.to_nat linker) x (fun l => mkLink (next l) v)).
Proof.
  unfold setPrevLinkage. destruct access_links as (ls & -> & E1 & E2). simpl. by rewrite E1.
Qed.
End Access.

(** [h'] differs from [h] only in linker [k] of the nodes in [xs], and allocates the
    same link arrays. *)
Definition only_links (k : nat) (xs : list positive) (h h' : Heap) : Prop :=
  (forall j y, (j <> k \/ y ∉ xs) -> link_at h' j y = link_at h j y) /\
  (forall j y, is_Some (link_at h' j y) <-> is_Some (link_at h j y)) /\
  dom h' = dom h.

Lemma only_links_refl k xs h : only_links k xs h h.
Proof. done. Qed.
Lemma only_links_trans k xs h1 h2 h3 :
  only_links k xs h1 h2 -> only_links k xs h2 h3 -> only_links k xs h1 h3.
Proof.
  intros (A1 & B1 & C1) (A2 & B2 & C2). split_and!.
  - intros. by rewrite A2, A1.
  - intros. by rewrite B2, B1.
  - congruence.
Qed.
Lemma only_links_set k xs h x g : x ∈ xs -> only_links k xs h (set_link h k x g).
Proof.
  intros Hx. split_and!.
  - intros j y Hjy. apply link_at_ne. set_solver.
  - intros j y. rewrite link_at_set_link. case_decide as Hd; [|done].
    destruct Hd as [-> ->]. by rewrite fmap_is_Some.
  - unfold set_link. apply dom_alter_L.
Qed.
Lemma only_links_weaken k xs ys h h' : xs ⊆ ys -> only_links k xs h h' -> only_links k ys h h'.
Proof. intros Hs (A & B & C). split_and!; [|done|done]. intros. apply A. set_solver. Qed.
Lemma only_links_size k xs h h' : only_links k xs h h' -> size h' = size h.
Proof. intros (_ & _ & E). rewrite <- !size_dom. by rewrite E. Qed.

(** ** Segments *)
Definition hd_or (n : ptr) (xs : list positive) : ptr :=
  match xs with [] => n | x :: _ => Some x end.
Definition last_or (p : ptr) (xs : list positive) : ptr :=
  match last xs with None => p | Some x => Some x end.

(** [xs] are linked in order at linker [k], the first after [p], the last before [n]. *)
Fixpoint dlseg (h : Heap) (k : nat) (p : ptr) (xs : list positive) (n : ptr) : Prop :=
  match xs with
  | [] => True
  | x :: xs => link_at h k x = Some (mkLink (hd_or n xs) p) /\ dlseg h k (Some x) xs n
  end.

Lemma last_or_cons p x xs : last_or p (x :: xs) = last_or (Some x) xs.
Proof.
  unfold last_or. rewrite last_cons. by destruct (last xs).
Qed.
Lemma last_or_snoc p xs x : last_or p (xs ++ [x]) = Some x.
Proof. unfold last_or. by rewrite last_snoc. Qed.
Lemma hd_or_app n xs ys : hd_or n (xs ++ ys) = hd_or (hd_or n ys) xs.
Proof. by destruct xs. Qed.

Lemma dlseg_app h k p xs ys n :
  dlseg h k p (xs ++ ys) n <->
  dlseg h k p xs (hd_or n ys) /\ dlseg h k (last_or p xs) ys n.
Proof.
  revert p. induction xs as [|x xs IH]; intros p; simpl; [tauto|].
  rewrite IH, hd_or_app, last_or_cons. tauto.
Qed.

Lemma dlseg_frame h h' k p xs n :
  (forall x, x ∈ xs -> link_at h' k x = link_at h k x) ->
  dlseg h k p xs n -> dlseg h' k p xs n.
Proof.
  revert p. induction xs as [|x xs IH]; intros p E; simpl; [done|].
  intros [Hx Hxs]. split; [by rewrite E by set_solver|].
  apply IH; [|done]. intros. apply E. set_solver.
Qed.

Lemma dlseg_alloc h k p xs n x : dlseg h k p xs n -> x ∈ xs -> is_Some (link_at h k x).
Proof.
  revert p. induction xs as [|y xs IH]; intros p; simpl; [set_solver|].
  intros [Hy Hxs] [->|Hin]%elem_of_cons; [eauto|by eapply IH].
Qed.

(** [is_dll h d xs]: the manager [d] represents [xs]. *)
Record is_dll (h : Heap) (d : DLManager) (xs : list positive) : Prop := {
  dll_nodup : NoDup xs;
  dll_linker : 0 <= mLinkerInUse d;
  dll_head : mHead d = head xs;
  dll_tail : mTail d = last xs;
  dll_links : dlseg h (Z.to_nat (mLinkerInUse d)) None xs None;
  dll_size : mSize d = Z.of_nat (length xs)
}.

(** A node that may be inserted: allocated at the manager's linker, not in the list. *)
Definition insertable (h : Heap) (d : DLManager) (xs : list positive) (x : positive) : Prop :=
  is_Some (link_at h (Z.to_nat (mLinkerInUse d)) x) /\ x ∉ xs.

Lemma is_dll_init linker h : 0 <= linker -> is_dll h (DLManager_init linker) [].
Proof. intros. split; try done. constructor. Qed.

Lemma is_dll_fuel h d xs : is_dll h d xs -> (length xs <= size h)%nat.
Proof.
  intros Hd. rewrite <- size_dom. rewrite <- (size_list_to_set (C := gset positive) xs) by apply Hd.
  apply subseteq_size. intros x Hx%elem_of_list_to_set. apply elem_of_dom.
  destruct (dlseg_alloc _ _ _ _ _ x (dll_links _ _ _ Hd) Hx) as [l Hl].
  unfold link_at in Hl. destruct (h !! x); [eauto|done].
Qed.

Lemma is_dll_frame h h' d xs :
  (forall x, x ∈ xs ->
    link_at h' (Z.to_nat (mLinkerInUse d)) x = link_at h (Z.to_nat (mLinkerInUse d)) x) ->
  is_dll h d xs -> is_dll h' d xs.
Proof. intros E []. split; try done. by eapply dlseg_frame. Qed.

Lemma is_Some_set_link h k x g j y :
  is_Some (link_at (set_link h k x g) j y) <-> is_Some (link_at h j y).
Proof.
  rewrite link_at_set_link. case_decide as Hd; [|done]. destruct Hd as [-> ->].
  by rewrite fmap_is_Some.
Qed.
Lemma setNextLinkage_some h linker x v :
  0 <= linker -> is_Some (link_at h (Z.to_nat linker) x) ->
  setNextLinkage h linker (Some x) v =
  Ok (set_link h (Z.to_nat linker) x (fun l => mkLink v (prev l))).
Proof. intros ? [l ?]. by eapply setNextLinkage_ok. Qed.
Lemma setPrevLinkage_some h linker x v :
  0 <= linker -> is_Some (link_at h (Z.to_nat linker) x) ->
  setPrevLinkage h linker (Some x) v =
  Ok (set_link h (Z.to_nat linker) x (fun l => mkLink (next l) v)).
Proof. intros ? [l ?]. by eapply setPrevLinkage_ok. Qed.

(** [run_links] executes the link writes of an operation on allocated nodes. *)
Ltac alloc_solve :=
  rewrite ?is_Some_set_link;
  first [ done | assumption | solve [eauto]
        | match goal with H : link_at ?h ?k ?x = Some _ |- is_Some (link_at ?h ?k ?x) =>
            rewrite H; eauto end
        | match goal with H : forall y, y ∈ _ -> is_Some _ |- _ => apply H; set_solver end ].
Ltac run_links :=
  repeat first
    [ rewrite setNextLinkage_some by (assumption || alloc_solve)
    | rewrite setPrevLinkage_some by (assumption || alloc_solve)
    | progress simpl ].
(** [links] computes a link of a heap obtained by writes from known links. *)
Ltac links :=
  repeat first
    [ rewrite link_at_eq
    | rewrite link_at_ne by (left; first [done | congruence | set_solver]) ];
  try (match goal with H : link_at ?h ?k ?x = Some _ |- context [link_at ?h ?k ?x] =>
         rewrite H end);
  simpl; try reflexivity; try done.

Definition same_mgr (d d' : DLManager) : Prop :=
  mLinkerInUse d' = mLinkerInUse d /\ mRank d' = mRank d /\
  mSavedPolicies d' = mSavedPolicies d.

(** What every refinement lemma states: the operation returns [rc], the new state
    represents [ys], only links of [touched] at this manager's linker changed. *)
Definition dl_refines (r : dl_result) (rc : ErrCode) (h : Heap) (d : DLManager)
    (touched ys : list positive) : Prop :=
  exists h' d', r = Ok (rc, h', d') /\ is_dll h' d' ys /\
    only_links (Z.to_nat (mLinkerInUse d)) touched h h' /\ same_mgr d d'.

Ltac only_links_solve :=
  repeat first
    [ apply only_links_refl
    | eapply only_links_trans; [|apply only_links_set; set_solver] ].

Lemma insert_refines h d xs x :
  is_dll h d xs -> insertable h d xs x ->
  dl_refines (insert h d (Some x)) RC_SUCCESS h d (x :: xs) (xs ++ [x]).
Proof.
  intros [Hnd Hk Hh Ht Hl Hs] [Hx Hnin]. unfold insert. rewrite Ht.
  destruct xs as [|t xs _] using rev_ind.
  - simpl. run_links. eexists _, _. split; [done|]. split_and!; [|only_links_solve|done].
    split; simpl; [apply NoDup_singleton|done|done|done| |by rewrite Hs].
    split; [|done]. destruct Hx as [l Hx]. links.
  - rewrite last_snoc. apply dlseg_app in Hl as [Hl1 [Hl2 _]]; simpl in Hl1, Hl2.
    assert (t <> x) by set_solver. assert (t ∉ xs) by (apply NoDup_app in Hnd; set_solver).
    run_links.
    eexists _, _. split; [done|]. split_and!; [|only_links_solve|done].
    split; simpl; [| done | | by rewrite last_snoc | | rewrite !length_app in *; simpl in *; lia ].
    + apply NoDup_app. split_and!; [done|set_solver|apply NoDup_singleton].
    + rewrite Hh. by destruct xs.
    + rewrite !dlseg_app. simpl. rewrite last_or_snoc. destruct Hx as [l Hx].
      split_and!; [| |done| |done].
      * eapply dlseg_frame; [|exact Hl1]. intros y Hy. assert (y <> x) by set_solver.
        assert (y <> t) by set_solver. links.
      * links.
      * links.
Qed.

Lemma insert_start_refines h d xs x :
  is_dll h d xs -> insertable h d xs x ->
  dl_refines (insert_start h d (Some x)) RC_SUCCESS h d (x :: xs) (x :: xs).
Proof.
  intros [Hnd Hk Hh Ht Hl Hs] [Hx Hnin]. unfold insert_start. rewrite Hh.
  destruct xs as [|y xs]; simpl in *.
  - run_links. eexists _, _. split; [done|]. split_and!; [|only_links_solve|done].
    split; simpl; [apply NoDup_singleton|done|done|done| |by rewrite Hs].
    split; [|done]. destruct Hx as [l Hx]. links.
  - destruct Hl as [Hl1 Hl2]. assert (x <> y) by set_solver.
    run_links. eexists _, _. split; [done|]. split_and!; [|only_links_solve|done].
    split; simpl; [by constructor| done | done | | | lia].
    + rewrite Ht. by destruct xs.
    + destruct Hx as [l Hx]. apply NoDup_cons in Hnd as [Hy Hnd]. split_and!.
      * links.
      * links.
      * eapply dlseg_frame; [|exact Hl2]. intros z Hz.
        assert (z <> x) by set_solver. assert (z <> y) by set_solver. links.
Qed.

(** ** Walking *)
Lemma getNextPtr_seg h linker p x xs n :
  0 <= linker -> dlseg h (Z.to_nat linker) p (x :: xs) n ->
  getNextPtr h linker (Some x) = Ok (hd_or n xs).
Proof. intros ? [Hx _]. by rewrite (getNextPtr_ok h linker x _ H Hx). Qed.

Lemma hd_or_head xs : hd_or None xs = head xs.
Proof. by destruct xs. Qed.

Lemma walk_to_seg h linker n : 0 <= linker -> forall xs fuel p pos,
  dlseg h (Z.to_nat linker) p xs None -> (length xs <= fuel)%nat -> pos <= n ->
  walk_to fuel h linker n pos (head xs) = Ok (xs !! Z.to_nat (n - pos)).
Proof.
  intros Hk. induction xs as [|x xs IH]; intros fuel p pos Hs Hf Hp; simpl.
  - by destruct fuel.
  - destruct fuel as [|fuel]; simpl in *; [lia|].
    destruct (pos =? n) eqn:E; zb; subst.
    + by rewrite Z.sub_diag.
    + rewrite (getNextPtr_seg h linker p x xs None) by done. simpl.
      rewrite hd_or_head. destruct Hs as [_ Hs].
      rewrite (IH fuel (Some x)) by (done || lia).
      replace (Z.to_nat (n - pos)) with (S (Z.to_nat (n - (pos + 1)))) by lia. done.
Qed.

Lemma walk_to_dll h d xs n pos :
  is_dll h d xs -> pos <= n ->
  walk_to (size h) h (mLinkerInUse d) n pos (mHead d) = Ok (xs !! Z.to_nat (n - pos)).
Proof.
  intros Hd Hp. rewrite (dll_head _ _ _ Hd).
  eapply walk_to_seg; [apply Hd|apply Hd|by eapply is_dll_fuel|done].
Qed.

Lemma getNth_refines h d xs n : is_dll h d xs -> 0 <= n -> getNth h d n = Ok (xs !! Z.to_nat n).
Proof. intros. unfold getNth. rewrite (walk_to_dll h d xs) by done. by rewrite Z.sub_0_r. Qed.

Lemma isNodeNth_refines h d xs n x :
  is_dll h d xs -> 0 <= n ->
  isNodeNth h d n (Some x) = Ok (bool_decide (xs !! Z.to_nat n = Some x)).
Proof.
  intros. unfold isNodeNth. rewrite (walk_to_dll h d xs) by done. rewrite Z.sub_0_r. simpl.
  by destruct (xs !! Z.to_nat n).
Qed.

Lemma iterate_from_seg h linker : 0 <= linker -> forall xs fuel p,
  dlseg h (Z.to_nat linker) p xs None -> (length xs <= fuel)%nat ->
  iterate_from fuel h linker (head xs) = Ok xs.
Proof.
  intros Hk. induction xs as [|x xs IH]; intros fuel p Hs Hf; simpl.
  - by destruct fuel.
  - destruct fuel as [|fuel]; simpl in *; [lia|].
    rewrite (getNextPtr_seg h linker p x xs None) by done. simpl. rewrite hd_or_head.
    destruct Hs as [_ Hs]. rewrite (IH fuel (Some x)) by (done || lia). done.
Qed.
Lemma DL_ITERATE_refines h d xs : is_dll h d xs -> DL_ITERATE h d = Ok xs.
Proof.
  intros Hd. unfold DL_ITERATE. rewrite (dll_head _ _ _ Hd).
  eapply iterate_from_seg; [apply Hd|apply Hd|by eapply is_dll_fuel].
Qed.

(** ** Linking a node between two neighbours *)

(** The nodes around position [pre]|[post], after linking [x] there: both
    insertion loops write exactly these links. *)
Lemma link_between h k p pre c post x h' :
  NoDup (pre ++ p :: c :: post) -> x ∉ pre ++ p :: c :: post ->
  dlseg h k None (pre ++ p :: c :: post) None ->
  only_links k [p; x; c] h h' ->
  link_at h' k p = Some (mkLink (Some x) (last_or None pre)) ->
  link_at h' k x = Some (mkLink (Some c) (Some p)) ->
  link_at h' k c = Some (mkLink (hd_or None post) (Some x)) ->
  dlseg h' k None (pre ++ p :: x :: c :: post) None.
Proof.
  intros Hnd Hx Hl [Ho _] Ep Ex Ec. rewrite !dlseg_app in *. simpl in *.
  destruct Hl as (H1 & Hp & Hc & H2).
  apply NoDup_app in Hnd as (_ & Hpre & [Hp1 [Hc1 _]%NoDup_cons]%NoDup_cons).
  assert (forall y, y ∈ pre \/ y ∈ post -> link_at h' k y = link_at h k y) as E.
  { intros y Hy. apply Ho. right. set_solver. }
  split_and!; try done; (eapply dlseg_frame; [|done]); auto.
Qed.

(** The same in front of the first node. *)
Lemma link_before_head h k c post x h' :
  NoDup (c :: post) -> x ∉ c :: post -> dlseg h k None (c :: post) None ->
  only_links k [x; c] h h' ->
  link_at h' k x = Some (mkLink (Some c) None) ->
  link_at h' k c = Some (mkLink (hd_or None post) (Some x)) ->
  dlseg h' k None (x :: c :: post) None.
Proof.
  intros Hnd Hx Hl [Ho _] Ex Ec. simpl in *. destruct Hl as [Hc H2].
  apply NoDup_cons in Hnd as [Hc1 _]. split_and!; try done.
  eapply dlseg_frame; [|done]. intros y Hy. apply Ho. right. set_solver.
Qed.

Lemma dlseg_mid h k pre c post n p :
  dlseg h k p (pre ++ c :: post) n -> link_at h k c = Some (mkLink (hd_or n post) (last_or p pre)).
Proof. intros Hl. rewrite dlseg_app in Hl. simpl in Hl. tauto. Qed.

Lemma NoDup_insert pre post (x : positive) :
  NoDup (pre ++ post) -> x ∉ pre ++ post -> NoDup (pre ++ x :: post).
Proof.
  intros Hnd Hx. rewrite <- Permutation_middle. by apply NoDup_cons.
Qed.

(** ** Insertion at a position *)
Definition insert_at (n : nat) (x : positive) (xs : list positive) : list positive :=
  take n xs ++ x :: drop n xs.

(** Splitting a list at an inner position, with its left neighbour. *)
Lemma split_at (xs : list positive) n c :
  xs !! S n = Some c ->
  exists pre p, xs = pre ++ p :: c :: drop (S (S n)) xs /\ take (S n) xs = pre ++ [p].
Proof.
  intros Hc. destruct (lookup_lt_is_Some_2 xs n) as [p Hp].
  { apply lookup_lt_Some in Hc. lia. }
  exists (take n xs), p. split; [|by apply take_S_r].
  rewrite <- (take_drop_middle _ _ _ Hp) at 1. do 2 f_equal. by apply drop_S.
Qed.

Lemma is_dll_neighbours h d pre p c post :
  is_dll h d (pre ++ p :: c :: post) ->
  link_at h (Z.to_nat (mLinkerInUse d)) p = Some (mkLink (Some c) (last_or None pre)) /\
  link_at h (Z.to_nat (mLinkerInUse d)) c = Some (mkLink (hd_or None post) (Some p)) /\ p <> c.
Proof.
  intros [Hnd _ _ _ Hl _]. split_and!.
  - by eapply (dlseg_mid _ _ pre p (c :: post)).
  - pose proof (dlseg_mid h (Z.to_nat (mLinkerInUse d)) (pre ++ [p]) c post None None) as Hc.
    rewrite <- app_assoc, last_or_snoc in Hc. by apply Hc.
  - apply NoDup_app in Hnd as (_ & _ & [Hpc _]%NoDup_cons). set_solver.
Qed.

(** The manager's fields after a node is linked in strictly inside the list. *)
Lemma is_dll_insert_inside h h' d pre p c post x :
  is_dll h d (pre ++ p :: c :: post) -> x ∉ pre ++ p :: c :: post ->
  dlseg h' (Z.to_nat (mLinkerInUse d)) None (pre ++ p :: x :: c :: post) None ->
  is_dll h' (set_size (mSize d + 1) d) (pre ++ p :: x :: c :: post).
Proof.
  intros [Hnd Hk Hh Ht Hl Hs] Hx Hseg. split; simpl; try done.
  - change (pre ++ p :: x :: c :: post) with (pre ++ [p] ++ x :: c :: post).
    rewrite app_assoc. apply NoDup_insert; by rewrite <- app_assoc.
  - rewrite Hh. by destruct pre.
  - rewrite Ht, !last_app, !last_cons. by destruct (last post).
  - rewrite length_app in *. simpl in *. lia.
Qed.

Lemma insert_opt_refines h d xs x n :
  is_dll h d xs -> insertable h d xs x -> 0 <= n <= Z.of_nat (length xs) + 1 ->
  dl_refines (insert_opt h d (Some x) INSERT_N_NODE_START n) RC_SUCCESS h d
    (x :: xs) (insert_at (Z.to_nat (n - 1)) x xs).
Proof.
  intros Hd Hx Hn. unfold insert_opt, insert_at, getLen. rewrite (dll_size _ _ _ Hd).
  replace (n <? 0) with false by lia. destruct (n =? 0) eqn:E0; zb.
  { subst. simpl. by apply insert_start_refines. }
  destruct (n =? Z.of_nat (length xs) + 1) eqn:E1; zb.
  { subst. replace (Z.to_nat _) with (length xs) by lia.
    rewrite take_ge, drop_ge by lia. by apply insert_refines. }
  replace (n >? Z.of_nat (length xs)) with false by lia.
  rewrite (walk_to_dll h d xs) by (done || lia).
  destruct (lookup_lt_is_Some_2 xs (Z.to_nat (n - 1)) ltac:(lia)) as [c Hc]. rewrite Hc. simpl.
  destruct (Z.to_nat (n - 1)) as [|m].
  - destruct xs as [|y xs]; simpl in Hc; [done|]. injection Hc as ->.
    erewrite getPrevPtr_ok; [|apply Hd|apply (dll_links _ _ _ Hd)]. simpl.
    by apply insert_start_refines.
  - destruct (split_at xs m c Hc) as (pre & p & Exs & Etake). rewrite Etake, (drop_S _ _ _ Hc).
    remember (drop (S (S m)) xs) as post. rewrite <- app_assoc. simpl. subst xs.
    destruct (is_dll_neighbours _ _ _ _ _ _ Hd) as (Hp & Hc' & Hpc).
    destruct Hx as [Hx Hnin]. assert (p <> x /\ c <> x) as [Hpx Hcx] by set_solver.
    pose proof (dll_linker _ _ _ Hd) as Hk.
    erewrite getPrevPtr_ok by done. simpl. run_links.
    eexists _, _. split; [done|]. split_and!; [|only_links_solve|done].
    rewrite <- (dll_size _ _ _ Hd). eapply is_dll_insert_inside; [done..|]. destruct Hx as [l Hx].
    eapply (link_between h); [apply Hd|done|apply Hd|only_links_solve|..]; links.
Qed.

Lemma insert_opt_bad_arg h d xs x n :
  is_dll h d xs -> n < 0 \/ n > Z.of_nat (length xs) + 1 ->
  insert_opt h d (Some x) INSERT_N_NODE_START n = Ok (RC_BAD_ARG, h, d).
Proof.
  intros Hd Hn. unfold insert_opt, getLen. rewrite (dll_size _ _ _ Hd).
  destruct (n <? 0) eqn:E; [done|]. zb. replace (n =? 0) with false by lia.
  replace (n =? _) with false by lia. by replace (n >? Z.of_nat (length xs)) with true by lia.
Qed.

(** ** Insertion by policy *)

(** The list operation: the new node goes in front of the first element it is
    better than, or at the end. *)
Fixpoint policy_insert (better : positive -> bool) (x : positive) (xs : list positive)
  : list positive :=
  match xs with
  | [] => [x]
  | y :: ys => if better y then x :: y :: ys else y :: policy_insert better x ys
  end.

(** The policy callback computes [better] on the nodes of the list. *)
Definition policy_is (cb : DLPolicy) (x : positive) (xs : list positive)
    (better : positive -> bool) : Prop :=
  forall y, y ∈ xs -> cb x y = Ok (better y).

Lemma policy_insert_app better x pre c post :
  Forall (fun y => better y = false) pre -> better c = true ->
  policy_insert better x (pre ++ c :: post) = pre ++ x :: c :: post.
Proof.
  intros Hpre Hc. induction Hpre as [|y pre Hy _ IH]; simpl; [by rewrite Hc|].
  rewrite Hy. by rewrite IH.
Qed.
Lemma policy_insert_end better x xs :
  Forall (fun y => better y = false) xs -> policy_insert better x xs = xs ++ [x].
Proof.
  intros H. induction H as [|y xs Hy _ IH]; simpl; [done|]. rewrite Hy. by rewrite IH.
Qed.

(** Reaching [c] with every node of [pre] passed over, the loop links [x] in front
    of [c]. *)
Lemma policy_step_link h d pre c post x cb fuel :
  is_dll h d (pre ++ c :: post) -> insertable h d (pre ++ c :: post) x -> cb x c = Ok true ->
  exists h' d', policy_loop (S fuel) h d x cb (Some c) = Ok (Some (h', d')) /\
    is_dll h' (set_size (mSize d' + 1) d') (pre ++ x :: c :: post) /\
    only_links (Z.to_nat (mLinkerInUse d)) (x :: pre ++ c :: post) h h' /\ same_mgr d d'.
Proof.
  intros Hd [Hx Hnin] Hcb. simpl.
  pose proof (dll_linker _ _ _ Hd) as Hk.
  pose proof (dlseg_mid _ _ _ _ _ _ _ (dll_links _ _ _ Hd)) as Hc.
  assert (c <> x) as Hcx by set_solver.
  erewrite getNextPtr_ok by done. simpl. rewrite Hcb. simpl. run_links.
  erewrite getPrevPtr_ok by (done || links). simpl. run_links.
  erewrite getPrevPtr_ok by (done || links). simpl.
  destruct pre as [|p pre _] using rev_ind.
  - simpl in *. run_links. pose proof (dll_head _ _ _ Hd) as Hh. simpl in Hh. rewrite Hh.
    eexists _, _. split; [done|]. split_and!; [|only_links_solve|done].
    destruct Hd as [Hnd _ _ Ht Hl Hs]. split; simpl; try done.
    + by constructor.
    + destruct Hx as [l Hx].
      eapply (link_before_head h); [done|done|done|only_links_solve|..]; links.
    + simpl in Hs. lia.
  - rewrite last_or_snoc in *. rewrite <- !app_assoc in *. simpl in *.
    destruct (is_dll_neighbours _ _ _ _ _ _ Hd) as (Hp & Hc' & Hpc).
    assert (p <> x) as Hpx by set_solver. run_links.
    eexists _, _. split; [done|]. split_and!; [|only_links_solve|done].
    eapply is_dll_insert_inside; [done..|]. destruct Hx as [l Hx].
    eapply (link_between h); [apply Hd|done|apply Hd|only_links_solve|..]; links.
Qed.

Lemma policy_loop_seg h d cb x better : forall post pre fuel,
  is_dll h d (pre ++ post) -> insertable h d (pre ++ post) x ->
  policy_is cb x post better -> (length post <= fuel)%nat ->
  (exists h' d', policy_loop fuel h d x cb (head post) = Ok (Some (h', d')) /\
     is_dll h' (set_size (mSize d' + 1) d') (pre ++ policy_insert better x post) /\
     only_links (Z.to_nat (mLinkerInUse d)) (x :: pre ++ post) h h' /\ same_mgr d d') \/
  (policy_loop fuel h d x cb (head post) = Ok None /\ policy_insert better x post = post ++ [x]).
Proof.
  induction post as [|c post IH]; intros pre fuel Hd Hx Hcb Hf.
  - right. by destruct fuel.
  - destruct fuel as [|fuel]; simpl in Hf; [lia|].
    pose proof (Hcb c ltac:(set_solver)) as Hc. destruct (better c) eqn:Eb.
    + left. cbn [head]. simpl policy_insert. rewrite Eb. by apply policy_step_link.
    + simpl. rewrite Eb.
      pose proof (dlseg_mid _ _ _ _ _ _ _ (dll_links _ _ _ Hd)) as Hl.
      erewrite getNextPtr_ok by (apply Hd || done). simpl. rewrite Hc. simpl.
      rewrite hd_or_head. destruct (IH (pre ++ [c]) fuel) as [(h' & d' & E & Hr & Ho & Hm)|[E Hr]].
      * by rewrite <- app_assoc.
      * by rewrite <- app_assoc.
      * intros y Hy. apply Hcb. set_solver.
      * lia.
      * left. rewrite <- !app_assoc in *. simpl in *. eauto 10.
      * right. by rewrite Hr.
Qed.

Lemma insertWithPolicy_refines h d xs x cb better :
  is_dll h d xs -> insertable h d xs x -> policy_is cb x xs better ->
  dl_refines (insertWithPolicy h d (Some x) cb) RC_SUCCESS h d (x :: xs)
    (policy_insert better x xs).
Proof.
  intros Hd Hx Hcb. unfold insertWithPolicy. rewrite (dll_head _ _ _ Hd).
  destruct (policy_loop_seg h d cb x better xs [] (size h))
    as [(h' & d' & -> & Hr & Ho & Hm)|[-> ->]]; simpl; try done.
  { by eapply is_dll_fuel. }
  { eexists _, _. split; [done|]. by split_and!. }
  destruct (insert_refines h d xs x Hd Hx) as (h' & d' & E & Hr & Ho & Hm).
  unfold insert in E. destruct (mTail d) as [t|] eqn:Et.
  - simpl in E. inv_ok E. rewrite E0. simpl. rewrite E1. simpl. rewrite E2. simpl.
    exists h', d'. split; [|by split_and!]. congruence.
  - simpl in E. inv_ok E. rewrite E0. simpl. rewrite E1. simpl.
    exists h', d'. split; [|by split_and!]. congruence.
Qed.

(** ** Deletion *)
Definition delete_elem (x : positive) (xs : list positive) : list positive :=
  filter (fun y => y <> x) xs.

Lemma filter_notin (x : positive) (xs : list positive) : x ∉ xs -> filter (fun y => y <> x) xs = xs.
Proof.
  induction xs as [|y xs IH]; intros Hx; [done|]. rewrite filter_cons.
  rewrite decide_True by set_solver. f_equal. apply IH. set_solver.
Qed.
Lemma delete_elem_mid pre x post :
  NoDup (pre ++ x :: post) -> delete_elem x (pre ++ x :: post) = pre ++ post.
Proof.
  intros (_ & H1 & [H2 _]%NoDup_cons)%NoDup_app. unfold delete_elem.
  rewrite filter_app, filter_cons, decide_False by naive_solver.
  rewrite !filter_notin; [done|done|set_solver].
Qed.

(** Unlinking the node between [pre] and [post]. *)
Lemma unlink_seg h h' k pre x post :
  NoDup (pre ++ x :: post) -> dlseg h k None (pre ++ x :: post) None ->
  (forall y l, y ∈ pre ++ post -> link_at h k y = Some l ->
     link_at h' k y =
     Some (mkLink (if decide (last pre = Some y) then hd_or None post else next l)
                  (if decide (head post = Some y) then last_or None pre else prev l))) ->
  dlseg h' k None (pre ++ post) None.
Proof.
  intros Hnd Hl E. rewrite !dlseg_app in *. destruct Hl as [H1 [_ H2]].
  apply NoDup_app in Hnd as (Hnd1 & Hdisj & [Hx Hnd2]%NoDup_cons). split.
  - destruct pre as [|p pre _] using rev_ind; [done|].
    rewrite dlseg_app in *. simpl in *. destruct H1 as (H1 & Hp & _).
    apply NoDup_app in Hnd1 as (_ & Hd1 & _). rewrite last_snoc in E.
    assert (forall y, y ∈ pre ++ [p] -> head post <> Some y) as Hh.
    { intros y Hy. destruct post; [done|]. simpl. set_solver. }
    split_and!; [| |done].
    + eapply dlseg_frame; [|exact H1]. intros y Hy.
      destruct (dlseg_alloc _ _ _ _ _ y H1 Hy) as [l Ey].
      rewrite (E y l) by set_solver. rewrite decide_False by set_solver.
      rewrite decide_False by (apply Hh; set_solver). rewrite Ey. by destruct l.
    + rewrite (E p _ ltac:(set_solver) Hp), decide_True by done.
      rewrite decide_False by (apply Hh; set_solver). done.
  - destruct post as [|n post]; [done|]. simpl in *. destruct H2 as [Hn H2].
    apply NoDup_cons in Hnd2 as [Hnp Hnd2].
    assert (forall y, y ∈ n :: post -> last pre <> Some y) as Hlp.
    { intros y Hy Hlast. apply last_Some_elem_of in Hlast. set_solver. }
    split.
    + rewrite (E n _ ltac:(set_solver) Hn). rewrite decide_False by (apply Hlp; set_solver).
      by rewrite decide_True.
    + eapply dlseg_frame; [|exact H2]. intros y Hy.
      destruct (dlseg_alloc _ _ _ _ _ y H2 Hy) as [l Ey].
      rewrite (E y l) by set_solver. rewrite decide_False by (apply Hlp; set_solver).
      rewrite decide_False by set_solver. rewrite Ey. by destruct l.
Qed.

(** [links_unlink] compares the links after the writes of a deletion with the spec. *)
Ltac links_unlink :=
  let y := fresh "y" in let l := fresh "l" in let Hy := fresh "Hy" in
  intros y l Hy ?; repeat case_decide; cbn [head last] in *; simplify_eq; simpl; try done;
  repeat match goal with
         | H : Some ?a <> Some ?b |- _ => assert (a <> b) by congruence; clear H
         end;
  links; rewrite ?last_or_snoc; try done; by destruct l.

(** The rest of a list around one of its nodes. *)
Lemma is_dll_without h d pre x post :
  is_dll h d (pre ++ x :: post) ->
  (forall y, y ∈ pre ++ post -> is_Some (link_at h (Z.to_nat (mLinkerInUse d)) y)) /\
  NoDup (pre ++ post) /\ (x ∉ pre ++ post) /\ mSize d - 1 = Z.of_nat (length (pre ++ post)).
Proof.
  intros Hd. pose proof (dll_nodup _ _ _ Hd) as Hnd. split_and!.
  - intros y Hy. eapply dlseg_alloc; [apply (dll_links _ _ _ Hd)|set_solver].
  - rewrite <- Permutation_middle in Hnd. apply NoDup_cons in Hnd. tauto.
  - rewrite <- Permutation_middle in Hnd. apply NoDup_cons in Hnd. tauto.
  - rewrite (dll_size _ _ _ Hd), !length_app. simpl. lia.
Qed.

Lemma deleteNode_refines h d xs x :
  is_dll h d xs -> x ∈ xs ->
  dl_refines (deleteNode h d (Some x)) RC_SUCCESS h d xs (delete_elem x xs).
Proof.
  intros Hd Hx. apply list_elem_of_split in Hx as (pre & post & ->).
  rewrite delete_elem_mid by apply Hd.
  pose proof (dlseg_mid _ _ _ _ _ _ _ (dll_links _ _ _ Hd)) as Hc.
  pose proof (dll_linker _ _ _ Hd) as Hk.
  pose proof (dll_nodup _ _ _ Hd) as Hnd.
  destruct (is_dll_without h d pre x post Hd) as (Hal & Hnd' & Hx & Hs).
  unfold deleteNode. erewrite getPrevPtr_ok by done. simpl. erewrite getNextPtr_ok by done. simpl.
  destruct pre as [|p pre _] using rev_ind; destruct post as [|n post].
  all: rewrite ?last_or_snoc in *; simpl in *.
  - erewrite getNextPtr_ok by done. simpl. erewrite getPrevPtr_ok by done. simpl.
    eexists _, _. split; [done|]. split_and!; [|only_links_solve|done]. by split.
  - erewrite getNextPtr_ok by done. simpl. erewrite getPrevPtr_ok by done. simpl.
    run_links. eexists _, _. split; [done|]. split_and!; [|only_links_solve|done].
    split; simpl; try done.
    + rewrite (dll_tail _ _ _ Hd). by destruct post.
    + eapply (unlink_seg h _ _ [] x (n :: post)); [done|apply Hd|links_unlink].
  - assert (p <> x) as Hpx by set_solver. run_links.
    erewrite getNextPtr_ok by (done || links). simpl.
    erewrite getPrevPtr_ok by (done || links). simpl.
    eexists _, _. split; [done|]. split_and!; [|only_links_solve|done].
    rewrite app_nil_r in *.
    split; simpl; try done.
    + rewrite (dll_head _ _ _ Hd). by destruct pre.
    + by rewrite last_snoc.
    + rewrite <- (app_nil_r (pre ++ [p])).
      eapply (unlink_seg h _ _ (pre ++ [p]) x []); [done|apply Hd|].
      rewrite last_snoc. links_unlink.
  - assert (p <> x /\ n <> x) as [Hpx Hnx] by set_solver. run_links.
    erewrite getNextPtr_ok by (done || links). simpl.
    erewrite getPrevPtr_ok by (done || links). simpl. run_links.
    eexists _, _. split; [done|]. split_and!; [|only_links_solve|done].
    split; simpl; try done.
    + rewrite (dll_head _ _ _ Hd). by destruct pre.
    + rewrite (dll_tail _ _ _ Hd), !last_app, !last_cons. by destruct (last post).
    + assert (p <> n) by (apply NoDup_app in Hnd' as (_ & Hpn & _); set_solver).
      eapply (unlink_seg h _ _ (pre ++ [p]) x (n :: post)); [done|apply Hd|].
      rewrite last_snoc. links_unlink.
Qed.

(** ** Comparison of two lists *)

(** The verdict of the policy on two sequences of equal length. *)
Fixpoint all_match (same : positive -> positive -> bool) (xs ys : list positive) : bool :=
  match xs, ys with
  | [], [] => true
  | x :: xs, y :: ys => same x y && all_match same xs ys
  | _, _ => false
  end.

Definition cmp_is (cmpPolicy : option DLPolicy) (xs ys : list positive)
    (same : positive -> positive -> bool) : Prop :=
  forall x y, x ∈ xs -> y ∈ ys ->
    match cmpPolicy with
    | None => same x y = bool_decide (x = y)
    | Some cmp => cmp x y = Ok (same x y)
    end.

Lemma match_loop_seg h k kt cmp same : 0 <= k -> 0 <= kt -> forall xs ys fuel p q,
  dlseg h (Z.to_nat k) p xs None -> dlseg h (Z.to_nat kt) q ys None ->
  cmp_is cmp xs ys same -> (length xs <= fuel)%nat ->
  match_loop fuel h k kt cmp (head xs) (head ys) = Ok (all_match same xs ys).
Proof.
  intros Hk Hkt. induction xs as [|x xs IH]; intros ys fuel p q Hx Hy Hc Hf.
  - destruct fuel, ys; done.
  - destruct ys as [|y ys]; [destruct fuel; done|].
    destruct fuel as [|fuel]; simpl in Hf; [lia|].
    cbn [match_loop head all_match].
    pose proof (Hc x y ltac:(set_solver) ltac:(set_solver)) as Hxy.
    assert (match cmp with None => Ok (bool_decide (x = y)) | Some cmp => cmp x y end
            = Ok (same x y)) as -> by (destruct cmp; [done|by rewrite Hxy]).
    cbn [ok_bind mbind result_bind]. destruct (same x y); [|done].
    rewrite (getNextPtr_seg h k p x xs None), (getNextPtr_seg h kt q y ys None) by done.
    simpl. rewrite !hd_or_head. destruct Hx as [_ Hx], Hy as [_ Hy].
    eapply IH; [done|done| |lia]. intros a b Ha Hb. apply Hc; set_solver.
Qed.

Lemma all_match_length same xs ys : all_match same xs ys = true -> length xs = length ys.
Proof.
  revert ys. induction xs as [|x xs IH]; intros [|y ys]; simpl; try done.
  intros [_ H]%andb_prop. by rewrite (IH ys).
Qed.
Lemma matchAgainst_refines h d t xs ys cmp same :
  is_dll h d xs -> is_dll h t ys -> cmp_is cmp xs ys same ->
  matchAgainst h d (Some t) cmp = Ok (all_match same xs ys).
Proof.
  intros Hd Ht Hc. unfold matchAgainst, getLen. rewrite (dll_size _ _ _ Hd), (dll_size _ _ _ Ht).
  destruct (Z.of_nat (length xs) =? Z.of_nat (length ys)) eqn:E; zb; simpl.
  - rewrite (dll_head _ _ _ Hd), (dll_head _ _ _ Ht).
    eapply match_loop_seg; try apply Hd; try apply Ht; [done|]. by eapply is_dll_fuel.
  - destruct (all_match same xs ys) eqn:Em; [|done]. apply all_match_length in Em. lia.
Qed.

(** ** Order kept by the policies *)
Section Sorted.
(** [le x y] means that [x] may stand before [y]. *)
Context (le : positive -> positive -> Prop) `{!Transitive le}.
Context (better : positive -> bool) (x : positive).

Lemma policy_insert_sorted xs :
  StronglySorted le xs ->
  (forall y, y ∈ xs -> if better y then le x y else le y x) ->
  StronglySorted le (policy_insert better x xs).
Proof.
  induction 1 as [|y ys Hs IH Hy]; intros Hb; simpl; [by repeat constructor|].
  pose proof (Hb y ltac:(set_solver)) as Hxy. destruct (better y).
  - constructor; [by constructor|]. constructor; [done|].
    eapply Forall_impl; [exact Hy|]. intros z Hz. by etrans.
  - constructor; [apply IH; intros; apply Hb; set_solver|].
    apply Forall_forall. intros z Hz.
    assert (z = x \/ z ∈ ys) as [->|Hin]; [|done|].
    + clear -Hz. induction ys as [|w ws IH]; simpl in Hz; [set_solver|].
      destruct (better w); set_solver.
    + by eapply Forall_forall in Hy.
Qed.
End Sorted.

Lemma policy_insert_Permutation better x xs : policy_insert better x xs ≡ₚ x :: xs.
Proof.
  induction xs as [|y ys IH]; simpl; [done|]. destruct (better y); [done|].
  rewrite IH. by constructor.
Qed.
Lemma policy_insert_ext b1 b2 x xs :
  (forall y, y ∈ xs -> b1 y = b2 y) -> policy_insert b1 x xs = policy_insert b2 x xs.
Proof.
  induction xs as [|y ys IH]; intros E; simpl; [done|].
  rewrite E by set_solver. rewrite IH by set_solver. done.
Qed.

(** ** Independence of lists that share nodes or live on other linkers *)
Lemma only_links_other h h' k touched e ys :
  only_links k touched h h' -> is_dll h e ys ->
  Z.to_nat (mLinkerInUse e) <> k \/ (forall y, y ∈ ys -> y ∉ touched) -> is_dll h' e ys.
Proof.
  intros (Ho & _) He Hor. eapply is_dll_frame; [|exact He]. intros y Hy. apply Ho.
  destruct Hor as [?|Hd]; [by left|right; by apply Hd].
Qed.

Lemma dl_refines_other r rc h d touched ys e zs :
  dl_refines r rc h d touched ys -> is_dll h e zs ->
  Z.to_nat (mLinkerInUse e) <> Z.to_nat (mLinkerInUse d) \/ (forall y, y ∈ zs -> y ∉ touched) ->
  exists h' d', r = Ok (rc, h', d') /\ is_dll h' d' ys /\ is_dll h' e zs.
Proof.
  intros (h' & d' & E & Hd & Ho & _) He Hor. exists h', d'. split_and!; [done|done|].
  by eapply only_links_other.
Qed.

(** ** Properties *)

(** A heap of [n] detached nodes with [k] linkers, for concrete runs. *)
Definition fresh_heap (n k : nat) : Heap :=
  list_to_map (map (fun i => (Pos.of_nat i, replicate k (mkLink None None))) (seq 1 n)).

(** On a well-formed list the three insertion operations of [DLManager] return
    success without faulting and implement append, prepend and insertion in front of
    the [n]-th element; they write no link of another linker or of a foreign node, and
    keep the linker, rank and policies.  A position outside [0 .. size + 1] is
    refused with [RC_BAD_ARG] and a null node with [RC_INVALID_VALUE], unchanged. *)
Theorem DLManager_insertions (h : Heap) (d : DLManager) (xs : list positive) (x : positive) :
  is_dll h d xs -> insertable h d xs x ->
  dl_refines (insert h d (Some x)) RC_SUCCESS h d (x :: xs) (xs ++ [x]) /\
  dl_refines (insert_opt h d (Some x) INSERT_START 0) RC_SUCCESS h d (x :: xs) (x :: xs) /\
  dl_refines (insert_opt h d (Some x) INSERT_END 0) RC_SUCCESS h d (x :: xs) (xs ++ [x]) /\
  (forall n, 0 <= n <= Z.of_nat (length xs) + 1 ->
     dl_refines (insert_opt h d (Some x) INSERT_N_NODE_START n) RC_SUCCESS h d
       (x :: xs) (insert_at (Z.to_nat (n - 1)) x xs)) /\
  (forall n, n < 0 \/ n > Z.of_nat (length xs) + 1 ->
     insert_opt h d (Some x) INSERT_N_NODE_START n = Ok (RC_BAD_ARG, h, d)) /\
  (forall o n, insert_opt h d None o n = Ok (RC_INVALID_VALUE, h, d)).
Proof.
  intros Hd Hx. split_and!; try done.
  - by apply insert_refines.
  - by apply insert_start_refines.
  - by apply insert_refines.
  - intros. by apply insert_opt_refines.
  - intros. by apply (insert_opt_bad_arg h d xs).
Qed.

Lemma DLManager_insertions_witness :
  dl_refines (insert (fresh_heap 3 2) (DLManager_init 1) (Some 2%positive)) RC_SUCCESS
    (fresh_heap 3 2) (DLManager_init 1) [2%positive] [2%positive].
Proof.
  destruct (DLManager_insertions (fresh_heap 3 2) (DLManager_init 1) [] 2) as [H _].
  - apply is_dll_init. lia.
  - split; [vm_compute; eauto|set_solver].
  - exact H.
Defined.

(** [insertWithPolicy] puts the new node in front of the first element the
    policy prefers it to, never faults, and terminates.  When the policy agrees with a
    transitive order and the list is sorted by it, the list stays sorted, and it
    holds exactly the old nodes and the new one. *)
Theorem DLManager_policy_insertion (le : positive -> positive -> Prop)
    (h : Heap) (d : DLManager) (xs : list positive) (x : positive) (cb : DLPolicy)
    (better : positive -> bool) :
  Transitive le -> is_dll h d xs -> insertable h d xs x -> policy_is cb x xs better ->
  StronglySorted le xs ->
  (forall y, y ∈ xs -> if better y then le x y else le y x) ->
  exists ys, dl_refines (insertWithPolicy h d (Some x) cb) RC_SUCCESS h d (x :: xs) ys /\
    ys = policy_insert better x xs /\ StronglySorted le ys /\ ys ≡ₚ x :: xs.
Proof.
  intros Ht Hd Hx Hcb Hs Hb. exists (policy_insert better x xs). split_and!.
  - by apply insertWithPolicy_refines.
  - done.
  - by apply (policy_insert_sorted le).
  - apply policy_insert_Permutation.
Qed.

Lemma DLManager_policy_insertion_witness :
  let cb : DLPolicy := fun a b => Ok (Pos.ltb a b) in
  exists ys, dl_refines (insertWithPolicy (fresh_heap 3 2) (DLManager_init 0) (Some 2%positive) cb)
    RC_SUCCESS (fresh_heap 3 2) (DLManager_init 0) [2%positive] ys /\ ys = [2%positive].
Proof.
  intros cb.
  destruct (DLManager_policy_insertion Pos.le (fresh_heap 3 2) (DLManager_init 0) [] 2 cb
              (Pos.ltb 2)) as (ys & H & E & _).
  - intros a b c. apply Pos.le_trans.
  - apply is_dll_init. lia.
  - split; [vm_compute; eauto|set_solver].
  - intros y Hy. by apply not_elem_of_nil in Hy.
  - constructor.
  - intros y Hy. by apply not_elem_of_nil in Hy.
  - eauto.
Defined.

(** [deleteNode] of an element removes it and nothing else, keeps every other
    list that lives on another linker or has no node in common, and faults never.
    Deleting a node whose two links are null, so one that is in no list or alone in
    another, empties the manager whatever it held and leaves its size one less. *)
Theorem DLManager_deleteNode (h : Heap) (d : DLManager) (xs : list positive) (x : positive) :
  is_dll h d xs ->
  (x ∈ xs ->
     dl_refines (deleteNode h d (Some x)) RC_SUCCESS h d xs (delete_elem x xs) /\
     forall e zs, is_dll h e zs ->
       Z.to_nat (mLinkerInUse e) <> Z.to_nat (mLinkerInUse d) \/ (forall y, y ∈ zs -> y ∉ xs) ->
       exists h' d', deleteNode h d (Some x) = Ok (RC_SUCCESS, h', d') /\
         is_dll h' d' (delete_elem x xs) /\ is_dll h' e zs) /\
  (link_at h (Z.to_nat (mLinkerInUse d)) x = Some (mkLink None None) ->
     deleteNode h d (Some x) =
       Ok (RC_SUCCESS, h, set_size (Z.of_nat (length xs) - 1) (set_head None (set_tail None d)))).
Proof.
  intros Hd. split.
  - intros Hx. pose proof (deleteNode_refines h d xs x Hd Hx) as Hr. split; [done|].
    intros e zs He Hor. by eapply dl_refines_other.
  - intros Hl. unfold deleteNode. pose proof (dll_linker _ _ _ Hd) as Hk.
    rewrite (getPrevPtr_ok h _ x _ Hk Hl), (getNextPtr_ok h _ x _ Hk Hl). simpl.
    rewrite (getPrevPtr_ok h _ x _ Hk Hl), (getNextPtr_ok h _ x _ Hk Hl). simpl. by rewrite <- (dll_size _ _ _ Hd).
Qed.

Lemma DLManager_deleteNode_witness :
  exists h d, is_dll h d [1%positive; 2%positive] /\
    deleteNode h d (Some 3%positive) =
      Ok (RC_SUCCESS, h, set_size (2 - 1) (set_head None (set_tail None d))).
Proof.
  destruct (insert_refines (fresh_heap 3 2) (DLManager_init 0) [] 1) as (h1 & d1 & E1 & H1 & _).
  { apply is_dll_init. lia. } { split; [vm_compute; eauto|set_solver]. }
  injection E1 as <- <-.
  destruct (insert_refines _ _ [1%positive] 2 H1) as (h2 & d2 & E2 & H2 & _).
  { split; [vm_compute; eauto|set_solver]. }
  vm_compute in E2. injection E2 as <- <-.
  eexists _, _. split; [exact H2|].
  destruct (DLManager_deleteNode _ _ _ 3 H2) as [_ Hdel].
  rewrite Hdel; [reflexivity|vm_compute; reflexivity].
Defined.

(** The observers terminate and agree with the sequence the list represents:
    [DL_ITERATE] visits exactly its elements in order, [getNth] and [isNodeNth]
    index it, [getLen] is its length, and [matchAgainst] compares two lists element
    by element, also across two linkers of the same nodes. *)
Theorem DLManager_observers (h : Heap) (d t : DLManager) (xs ys : list positive)
    (cmp : option DLPolicy) (same : positive -> positive -> bool) :
  is_dll h d xs -> is_dll h t ys -> cmp_is cmp xs ys same ->
  DL_ITERATE h d = Ok xs /\ getLen d = Z.of_nat (length xs) /\
  (forall n, 0 <= n -> getNth h d n = Ok (xs !! Z.to_nat n)) /\
  (forall n x, 0 <= n -> isNodeNth h d n (Some x) = Ok (bool_decide (xs !! Z.to_nat n = Some x))) /\
  matchAgainst h d (Some t) cmp = Ok (all_match same xs ys) /\
  is_dll h (destroy d) [].
Proof.
  intros Hd Ht Hc. split_and!.
  - by apply DL_ITERATE_refines.
  - apply Hd.
  - intros. by apply getNth_refines.
  - intros. by apply isNodeNth_refines.
  - by apply matchAgainst_refines.
  - destruct Hd. split; try done. constructor.
Qed.

Lemma DLManager_observers_witness :
  exists h d, DL_ITERATE h d = Ok [1%positive; 2%positive].
Proof.
  destruct (insert_refines (fresh_heap 3 2) (DLManager_init 0) [] 1) as (h1 & d1 & E1 & H1 & _).
  { apply is_dll_init. lia. } { split; [vm_compute; eauto|set_solver]. }
  injection E1 as <- <-.
  destruct (insert_refines _ _ [1%positive] 2 H1) as (h2 & d2 & E2 & H2 & _).
  { split; [vm_compute; eauto|set_solver]. }
  vm_compute in E2. injection E2 as <- <-.
  eexists _, _.
  destruct (DLManager_observers _ _ _ _ _ None (fun a b => bool_decide (a = b)) H2 H2) as [E _];
    [done|exact E].
Defined.
