(* ===== verification/StdString.v ===== *)
(** The parts of [std::string], [std::getline] and the number parsers of the C++
    standard library that the registries and the command line use.  Strings are
    [String.string]; exceptions are constructors of [stox_exn]. *)
From Stdlib Require Import Ascii.
From stdpp Require Import pretty.
From S2P Require Import Prelude.
Open Scope string_scope.
Open Scope Z_scope.

(** ** Numbers *)
Inductive stox_exn := invalid_argument | out_of_range.

Abbreviation stox := (Z + stox_exn)%type.

Definition ascii_code (c : ascii) : Z := Z.of_nat (nat_of_ascii c).

Definition isspace (c : ascii) : bool :=
  let n := ascii_code c in (n =? 32) || ((9 <=? n) && (n <=? 13)).

Definition digit_val (c : ascii) : option Z :=
  let n := ascii_code c in
  if (48 <=? n) && (n <=? 57) then Some (n - 48)
  else if (97 <=? n) && (n <=? 122) then Some (n - 87)
  else if (65 <=? n) && (n <=? 90) then Some (n - 55)
  else None.

Definition digit_in (base : Z) (c : ascii) : option Z :=
  d ← digit_val c; if d <? base then Some d else None.

Fixpoint skip_spaces (s : string) : string :=
  match s with
  | String c s' => if isspace c then skip_spaces s' else s
  | EmptyString => EmptyString
  end.

(** The longest prefix of digits, accumulated. *)
Fixpoint digits (base acc : Z) (s : string) : Z :=
  match s with
  | String c s' =>
    match digit_in base c with
    | Some d => digits base (acc * base + d) s'
    | None => acc
    end
  | EmptyString => acc
  end.

Definition starts_digit (base : Z) (s : string) : bool :=
  match s with
  | String c _ => bool_decide (is_Some (digit_in base c))
  | EmptyString => false
  end.

Definition is_char (n : Z) (c : ascii) : bool := ascii_code c =? n.

(** [strtol] on what follows the sign; base 0 detects the prefixes [0x] and [0]. *)
Definition parse_magnitude (base : Z) (s : string) : option Z :=
  let plain b := if starts_digit b s then Some (digits b 0 s) else None in
  if base =? 0 then
    match s with
    | String z (String x s') =>
      if is_char 48 z && (is_char 120 x || is_char 88 x) && starts_digit 16 s'
      then Some (digits 16 0 s')
      else if is_char 48 z then plain 8 else plain 10
    | String z EmptyString => if is_char 48 z then Some 0 else plain 10
    | EmptyString => None
    end
  else plain base.

Definition parse_int (base : Z) (str : string) : option Z :=
  match skip_spaces str with
  | String c s =>
    if is_char 45 c then Z.opp <$> parse_magnitude base s
    else if is_char 43 c then parse_magnitude base s
    else parse_magnitude base (String c s)
  | EmptyString => None
  end.

Definition in_range (lo hi : Z) (o : option Z) : stox :=
  match o with
  | None => inr invalid_argument
  | Some v => if (lo <=? v) && (v <=? hi) then inl v else inr out_of_range
  end.

(** [std::stoi(str, nullptr, base)] and [std::stol] (64-bit [long]). *)
Definition stoi (base : Z) (str : string) : stox :=
  in_range (min_s 32) (max_s 32) (parse_int base str).
Definition stol (base : Z) (str : string) : stox :=
  in_range (min_s 64) (max_s 64) (parse_int base str).

(** [std::stoul]: a value whose magnitude fits is negated modulo [2^64]. *)
Definition stoul (base : Z) (str : string) : stox :=
  match parse_int base str with
  | None => inr invalid_argument
  | Some v => if Z.abs v <? 2 ^ 64 then inl (wrap_u 64 v) else inr out_of_range
  end.

Lemma stoi_range base s v : stoi base s = inl v -> in_s 32 v.
Proof.
  unfold stoi, in_range. destruct (parse_int base s); [|done]. case_if; [|done].
  intros [= <-]. zb. unfold in_s, min_s, max_s in *. lia.
Qed.

(** ** [std::getline] with a delimiter *)

(** The tokens read by [while(std::getline(stream, token, delim))]: the pieces between
    delimiters, without an empty piece after a final delimiter. *)
Fixpoint getlines (delim : ascii) (cur : string) (s : string) : list string :=
  match s with
  | EmptyString => if String.eqb cur "" then [] else [cur]
  | String c s' =>
    if Ascii.eqb c delim then cur :: getlines delim "" s'
    else getlines delim (cur ++ String c EmptyString) s'
  end.
Definition split_on (delim : ascii) (s : string) : list string := getlines delim "" s.

Fixpoint ends_with_from (n : nat) (suffix s : string) : bool :=
  match n with
  | O => String.eqb s suffix
  | S n => match s with String _ s' => ends_with_from n suffix s' | EmptyString => false end
  end.
(** [s.compare(s.size() - suffix.size(), suffix.size(), suffix) == 0] under
    [suffix.size() <= s.size()]. *)
Definition ends_with (suffix s : string) : bool :=
  (String.length suffix <=? String.length s)%nat &&
  ends_with_from (String.length s - String.length suffix) suffix s.

(** [s.back() == c]; undefined on the empty string. *)
Fixpoint back_is (c : ascii) (s : string) : result bool :=
  match s with
  | EmptyString => Fault OutOfRange
  | String d EmptyString => Ok (Ascii.eqb d c)
  | String _ s' => back_is c s'
  end.

(** ** [snprintf] with one argument

    [%d], [%s] and [%%] are interpreted; any other directive, or one without its
    argument, is undefined.  The result is cut to fit the buffer. *)
Inductive fmt_arg := ArgInt (z : Z) | ArgStr (s : string).

Fixpoint format (fmt : string) (arg : option fmt_arg) : result string :=
  match fmt with
  | EmptyString => Ok ""
  | String p ((String c s) as rest) =>
    if is_char 37 p then
      if is_char 100 c then
        match arg with
        | Some (ArgInt z) => r ← format s None; Ok ((pretty z +:+ r)%string)
        | _ => Fault Indeterminate
        end
      else if is_char 115 c then
        match arg with
        | Some (ArgStr v) => r ← format s None; Ok ((v +:+ r)%string)
        | _ => Fault Indeterminate
        end
      else if is_char 37 c then r ← format s arg; Ok (String c r)
      else Fault Indeterminate
    else r ← format rest arg; Ok (String p r)
  | String p EmptyString => if is_char 37 p then Fault Indeterminate else Ok fmt
  end.

Fixpoint str_take (n : nat) (s : string) : string :=
  match n, s with
  | S n, String c s => String c (str_take n s)
  | _, _ => ""
  end.

Definition snprintf (size : nat) (fmt : string) (arg : fmt_arg) : result string :=
  s ← format fmt (Some arg); Ok (str_take (size - 1) s).

Example snprintf_ex : snprintf 128 "cpu%d/x" (ArgInt 12) = Ok "cpu12/x".
Proof. vm_compute. reflexivity. Qed.
Example stoi_ex1 : stoi 0 "0x1F" = inl 31. Proof. vm_compute. reflexivity. Qed.
Example stoi_ex2 : stoi 0 " -017z" = inl (-15). Proof. vm_compute. reflexivity. Qed.
Example stoi_ex3 : stoi 10 "2147483648" = inr out_of_range. Proof. vm_compute. reflexivity. Qed.
Example stoi_ex4 : stoi 0 "0x" = inl 0. Proof. vm_compute. reflexivity. Qed.
Example split_ex : split_on "*"%char "a*/b/*" = ["a"; "/b/"]. Proof. vm_compute. reflexivity. Qed.
