(* ===== verification/YamlEvents.v ===== *)
(** What the configuration parsers of [resource-tuner/init/RestuneParser.cpp] share: the
    events of a YAML document, the keys they know, the stack of keys, and the loop that
    asks for the next event.

    The library that produces the events is a parameter: [next i] is the outcome of the
    [i]-th call of [yaml_parser_parse], [None] when it fails.  An event carries what the
    parsers read of it. *)
From S2P Require Import Prelude UrmTypes StdString.
Open Scope string_scope.
Open Scope list_scope.
Open Scope Z_scope.

Inductive yaml_event :=
  | YAML_NO_EVENT
  | YAML_STREAM_START_EVENT
  | YAML_STREAM_END_EVENT
  | YAML_DOCUMENT_START_EVENT
  | YAML_DOCUMENT_END_EVENT
  | YAML_ALIAS_EVENT
  | YAML_SCALAR_EVENT (value : option string)   (* [data.scalar.value], which may be null *)
  | YAML_SEQUENCE_START_EVENT
  | YAML_SEQUENCE_END_EVENT
  | YAML_MAPPING_START_EVENT
  | YAML_MAPPING_END_EVENT.

(** ** Keys

    Their names, of [resource-tuner/init/Include/RestuneParser.h]. *)
Definition RESOURCE_CONFIGS_ROOT : string := "ResourceConfigs".
Definition RESOURCE_CONFIGS_ELEM_RESOURCE_TYPE : string := "ResType".
Definition RESOURCE_CONFIGS_ELEM_RESOURCE_ID : string := "ResID".
Definition RESOURCE_CONFIGS_ELEM_RESOURCENAME : string := "Name".
Definition RESOURCE_CONFIGS_ELEM_RESOURCEPATH : string := "Path".
Definition RESOURCE_CONFIGS_ELEM_SUPPORTED : string := "Supported".
Definition RESOURCE_CONFIGS_ELEM_HIGHTHRESHOLD : string := "HighThreshold".
Definition RESOURCE_CONFIGS_ELEM_LOWTHRESHOLD : string := "LowThreshold".
Definition RESOURCE_CONFIGS_ELEM_PERMISSIONS : string := "Permissions".
Definition RESOURCE_CONFIGS_ELEM_MODES : string := "Modes".
Definition RESOURCE_CONFIGS_ELEM_POLICY : string := "Policy".
Definition RESOURCE_CONFIGS_ELEM_T_UNIT : string := "Unit".
Definition RESOURCE_CONFIGS_ELEM_APPLY_TYPE : string := "ApplyType".
Definition RESOURCE_CONFIGS_ELEM_TARGETS_ENABLED : string := "TargetsEnabled".
Definition RESOURCE_CONFIGS_ELEM_TARGETS_DISABLED : string := "TargetsDisabled".
Definition TARGET_CONFIGS_ROOT : string := "TargetConfig".
Definition TARGET_NAME_LIST : string := "TargetName".
Definition TARGET_CLUSTER_INFO : string := "ClusterInfo".
Definition TARGET_CLUSTER_INFO_LOGICAL_ID : string := "LgcId".
Definition TARGET_CLUSTER_INFO_PHYSICAL_ID : string := "PhyId".
Definition TARGET_CLUSTER_SPREAD : string := "ClusterSpread".
Definition TARGET_PER_CLUSTER_CORE_COUNT : string := "NumCores".
Definition INIT_CONFIGS_ROOT : string := "InitConfigs".
Definition INIT_CONFIGS_ELEM_CGROUPS_LIST : string := "CgroupsInfo".
Definition INIT_CONFIGS_ELEM_CGROUP_NAME : string := "Name".
Definition INIT_CONFIGS_ELEM_CGROUP_IDENTIFIER : string := "ID".
Definition INIT_CONFIGS_ELEM_CGROUP_CREATION : string := "Create".
Definition INIT_CONFIGS_ELEM_CGROUP_THREADED : string := "IsThreaded".
Definition INIT_CONFIGS_ELEM_CLUSTER_MAP : string := "ClusterMap".
Definition INIT_CONFIGS_ELEM_CLUSTER_MAP_CLUSTER_ID : string := "Id".
Definition INIT_CONFIGS_ELEM_CLUSTER_MAP_CLUSTER_TYPE : string := "Type".
Definition INIT_CONFIGS_ELEM_MPAM_GROUPS_LIST : string := "MPAMgroupsInfo".
Definition INIT_CONFIGS_ELEM_MPAM_GROUP_NAME : string := "Name".
Definition INIT_CONFIGS_ELEM_MPAM_GROUP_ID : string := "ID".
Definition INIT_CONFIGS_ELEM_MPAM_GROUP_PRIORITY : string := "Priority".
Definition INIT_CONFIGS_ELEM_CACHE_INFO_LIST : string := "CacheInfo".
Definition INIT_CONFIGS_ELEM_CACHE_INFO_TYPE : string := "Type".
Definition INIT_CONFIGS_ELEM_CACHE_INFO_BLK_CNT : string := "NumCacheBlocks".
Definition INIT_CONFIGS_ELEM_CACHE_INFO_PRIO_AWARE : string := "PriorityAware".
Definition INIT_CONFIGS_IRQ_CONFIGS_LIST : string := "IRQConfigs".
Definition INIT_CONFIG_IRQ_AFFINE_ONE : string := "AffineIRQ".
Definition INIT_CONFIG_IRQ_AFFINE_TO_CLUSTER : string := "AffineIRQToCluster".
Definition INIT_CONFIG_LOGGING_CONF : string := "LogLevel".
Definition PROPERTY_CONFIGS_ROOT : string := "PropertyConfigs".
Definition PROPERTY_CONFIGS_ELEM_NAME : string := "Name".
Definition PROPERTY_CONFIGS_ELEM_VALUE : string := "Value".
Definition SIGNAL_CONFIGS_ROOT : string := "SignalConfigs".
Definition SIGNAL_CONFIGS_ELEM_SIGID : string := "SigId".
Definition SIGNAL_CONFIGS_ELEM_CATEGORY : string := "Category".
Definition SIGNAL_CONFIGS_ELEM_SIGTYPE : string := "SigType".
Definition SIGNAL_CONFIGS_ELEM_NAME : string := "Name".
Definition SIGNAL_CONFIGS_ELEM_TIMEOUT : string := "Timeout".
Definition SIGNAL_CONFIGS_ELEM_ENABLE : string := "Enable".
Definition SIGNAL_CONFIGS_ELEM_TARGETS_ENABLED : string := "TargetsEnabled".
Definition SIGNAL_CONFIGS_ELEM_TARGETS_DISABLED : string := "TargetsDisabled".
Definition SIGNAL_CONFIGS_ELEM_PERMISSIONS : string := "Permissions".
Definition SIGNAL_CONFIGS_ELEM_DERIVATIVES : string := "Derivatives".
Definition SIGNAL_CONFIGS_ELEM_RESOURCES : string := "Resources".
Definition SIGNAL_CONFIGS_ELEM_RESOURCE_CODE : string := "ResCode".
Definition SIGNAL_CONFIGS_ELEM_RESOURCE_RESINFO : string := "ResInfo".
Definition SIGNAL_CONFIGS_ELEM_RESOURCE_VALUES : string := "Values".
Definition SIGNAL_CONFIGS_ELEM_EXTRA_ATTRS : string := "ExtraAttrs".
Definition SIGNAL_CONFIGS_ELEM_FPS : string := "Fps".
Definition SIGNAL_CONFIGS_ELEM_HEIGHT : string := "Height".
Definition SIGNAL_CONFIGS_ELEM_WIDTH : string := "Width".
Definition SIGNAL_CONFIGS_ELEM_SRC_TYPE : string := "MmSrc".
Definition EXT_FEATURE_CONFIGS_ROOT : string := "FeatureConfigs".
Definition EXT_FEATURE_CONFIGS_ELEM_ID : string := "FeatId".
Definition EXT_FEATURE_CONFIGS_ELEM_LIB : string := "LibPath".
Definition EXT_FEATURE_CONFIGS_ELEM_NAME : string := "Name".
Definition EXT_FEATURE_CONFIGS_ELEM_DESCRIPTION : string := "Description".
Definition EXT_FEATURE_CONFIGS_ELEM_SUBSCRIBER_LIST : string := "Signals".
Definition APP_CONFIGS_ROOT : string := "PerAppConfigs".
Definition APP_CONFIGS_APP_NAME : string := "App".
Definition APP_CONFIGS_THREAD_LIST : string := "Threads".
Definition APP_CONFIGS_CONFIGURATION_LIST : string := "Configurations".

Definition keys : list string :=
  [TARGET_CONFIGS_ROOT; TARGET_NAME_LIST; TARGET_CLUSTER_INFO; TARGET_CLUSTER_INFO_LOGICAL_ID;
   TARGET_CLUSTER_INFO_PHYSICAL_ID; TARGET_CLUSTER_SPREAD; TARGET_PER_CLUSTER_CORE_COUNT;
   RESOURCE_CONFIGS_ROOT; RESOURCE_CONFIGS_ELEM_RESOURCE_TYPE; RESOURCE_CONFIGS_ELEM_RESOURCE_ID;
   RESOURCE_CONFIGS_ELEM_RESOURCENAME; RESOURCE_CONFIGS_ELEM_RESOURCEPATH; RESOURCE_CONFIGS_ELEM_SUPPORTED;
   RESOURCE_CONFIGS_ELEM_HIGHTHRESHOLD; RESOURCE_CONFIGS_ELEM_LOWTHRESHOLD; RESOURCE_CONFIGS_ELEM_PERMISSIONS;
   RESOURCE_CONFIGS_ELEM_MODES; RESOURCE_CONFIGS_ELEM_POLICY; RESOURCE_CONFIGS_ELEM_T_UNIT;
   RESOURCE_CONFIGS_ELEM_APPLY_TYPE; RESOURCE_CONFIGS_ELEM_TARGETS_ENABLED;
   RESOURCE_CONFIGS_ELEM_TARGETS_DISABLED; INIT_CONFIGS_ROOT; INIT_CONFIGS_ELEM_CGROUPS_LIST;
   INIT_CONFIGS_ELEM_CGROUP_NAME; INIT_CONFIGS_ELEM_CGROUP_IDENTIFIER; INIT_CONFIGS_ELEM_CGROUP_CREATION;
   INIT_CONFIGS_ELEM_CGROUP_THREADED; INIT_CONFIGS_ELEM_CLUSTER_MAP; INIT_CONFIGS_ELEM_CLUSTER_MAP_CLUSTER_ID;
   INIT_CONFIGS_ELEM_CLUSTER_MAP_CLUSTER_TYPE; INIT_CONFIGS_ELEM_MPAM_GROUPS_LIST;
   INIT_CONFIGS_ELEM_MPAM_GROUP_NAME; INIT_CONFIGS_ELEM_MPAM_GROUP_ID; INIT_CONFIGS_ELEM_MPAM_GROUP_PRIORITY;
   INIT_CONFIGS_ELEM_CACHE_INFO_LIST; INIT_CONFIGS_ELEM_CACHE_INFO_TYPE; INIT_CONFIGS_ELEM_CACHE_INFO_BLK_CNT;
   INIT_CONFIGS_ELEM_CACHE_INFO_PRIO_AWARE; INIT_CONFIGS_IRQ_CONFIGS_LIST; INIT_CONFIG_IRQ_AFFINE_TO_CLUSTER;
   INIT_CONFIG_IRQ_AFFINE_ONE; INIT_CONFIG_LOGGING_CONF; SIGNAL_CONFIGS_ROOT; SIGNAL_CONFIGS_ELEM_SIGID;
   SIGNAL_CONFIGS_ELEM_CATEGORY; SIGNAL_CONFIGS_ELEM_SIGTYPE; SIGNAL_CONFIGS_ELEM_NAME;
   SIGNAL_CONFIGS_ELEM_ENABLE; SIGNAL_CONFIGS_ELEM_TIMEOUT; SIGNAL_CONFIGS_ELEM_TARGETS_ENABLED;
   SIGNAL_CONFIGS_ELEM_PERMISSIONS; SIGNAL_CONFIGS_ELEM_TARGETS_DISABLED; SIGNAL_CONFIGS_ELEM_RESOURCES;
   SIGNAL_CONFIGS_ELEM_DERIVATIVES; SIGNAL_CONFIGS_ELEM_EXTRA_ATTRS; SIGNAL_CONFIGS_ELEM_RESOURCE_CODE;
   SIGNAL_CONFIGS_ELEM_RESOURCE_RESINFO; SIGNAL_CONFIGS_ELEM_RESOURCE_VALUES; SIGNAL_CONFIGS_ELEM_FPS;
   SIGNAL_CONFIGS_ELEM_HEIGHT; SIGNAL_CONFIGS_ELEM_WIDTH; SIGNAL_CONFIGS_ELEM_SRC_TYPE;
   EXT_FEATURE_CONFIGS_ROOT; EXT_FEATURE_CONFIGS_ELEM_ID; EXT_FEATURE_CONFIGS_ELEM_LIB;
   EXT_FEATURE_CONFIGS_ELEM_NAME; EXT_FEATURE_CONFIGS_ELEM_DESCRIPTION;
   EXT_FEATURE_CONFIGS_ELEM_SUBSCRIBER_LIST; APP_CONFIGS_ROOT; APP_CONFIGS_APP_NAME; APP_CONFIGS_THREAD_LIST;
   APP_CONFIGS_CONFIGURATION_LIST].

Definition isKey (keyName : string) : bool := existsb (fun key => String.eqb key keyName) keys.

Definition list_keys : list string :=
  [TARGET_NAME_LIST; TARGET_CLUSTER_INFO; TARGET_CLUSTER_SPREAD; INIT_CONFIGS_ELEM_CLUSTER_MAP;
   INIT_CONFIGS_ELEM_CGROUPS_LIST; INIT_CONFIGS_ELEM_MPAM_GROUPS_LIST; INIT_CONFIGS_ELEM_CACHE_INFO_LIST;
   INIT_CONFIGS_IRQ_CONFIGS_LIST; INIT_CONFIG_IRQ_AFFINE_TO_CLUSTER; INIT_CONFIG_IRQ_AFFINE_ONE;
   INIT_CONFIG_LOGGING_CONF; RESOURCE_CONFIGS_ELEM_MODES; RESOURCE_CONFIGS_ELEM_TARGETS_ENABLED;
   RESOURCE_CONFIGS_ELEM_TARGETS_DISABLED; SIGNAL_CONFIGS_ELEM_TARGETS_ENABLED;
   SIGNAL_CONFIGS_ELEM_TARGETS_DISABLED; SIGNAL_CONFIGS_ELEM_PERMISSIONS; SIGNAL_CONFIGS_ELEM_DERIVATIVES;
   SIGNAL_CONFIGS_ELEM_RESOURCES; SIGNAL_CONFIGS_ELEM_EXTRA_ATTRS; SIGNAL_CONFIGS_ELEM_RESOURCE_VALUES;
   EXT_FEATURE_CONFIGS_ELEM_SUBSCRIBER_LIST].

Definition isKeyTypeList (keyName : string) : bool :=
  existsb (fun key => String.eqb keyName key) list_keys.

(** ** Scalars *)

(** The three outcomes of the common prefix of the [YAML_SCALAR_EVENT] cases: a key is
    pushed; a value without a key is a syntax error; a value belongs to the key on top,
    which is popped unless it is the key of a list. *)
Inductive scalar :=
  | KeyPushed
  | NoKey
  | ValueOf (topKey : string).

(** [value] keeps the last scalar when the event has none. *)
Definition read_value (v : option string) (value : string) : string := default value v.

Definition read_scalar (value : string) (keyTracker : list string) : scalar * list string :=
  if isKey value then (KeyPushed, value :: keyTracker) else
  match keyTracker with
  | [] => (NoKey, [])
  | topKey :: rest => (ValueOf topKey, if isKeyTypeList topKey then keyTracker else rest)
  end.

(** ** The loop *)

(** What a case of the [switch] does to the loop. *)
Inductive flow :=
  | Next
  | Done                         (* parsingDone = true *)
  | Return (rc : ErrCode)
  | Throw.                       (* an exception that the parser does not catch *)

(** How a parser ends. *)
Inductive parse_end :=
  | Finished
  | Returned (rc : ErrCode)
  | Thrown.

(** A parser stops at the end of the stream. *)
Class Stops {S : Type} (step : nat -> yaml_event -> S -> result (S * flow)) : Prop :=
  stops : forall i s, step i YAML_STREAM_END_EVENT s = Ok (s, Done).

Section Loop.
Context {S : Type} (step : nat -> yaml_event -> S -> result (S * flow)).
Context (next : nat -> option yaml_event).

(** [while(!parsingDone)]: [i] numbers the calls.  [None] when the fuel does not suffice. *)
Fixpoint parse_loop (fuel i : nat) (s : S) : option (result (S * parse_end)) :=
  match fuel with
  | O => None
  | Datatypes.S fuel =>
    match next i with
    | None => Some (Ok (s, Returned RC_YAML_PARSING_ERROR))
    | Some event =>
      match step i event s with
      | Fault f => Some (Fault f)
      | Ok (s, Done) => Some (Ok (s, Finished))
      | Ok (s, Next) => parse_loop fuel (Datatypes.S i) s
      | Ok (s, Return rc) => Some (Ok (s, Returned rc))
      | Ok (s, Throw) => Some (Ok (s, Thrown))
      end
    end
  end.

(** A stream that ends, or fails, at call [n]. *)
Definition ends_at (n : nat) : Prop := next n = None \/ next n = Some YAML_STREAM_END_EVENT.

(** The result is there after the call number [n], and neither more fuel nor what the library would
    answer later changes it, when the parser stops at the end of the stream. *)
Lemma parse_loop_terminates `{!Stops step} n : ends_at n -> forall fuel i s,
  (i <= n)%nat -> (n - i < fuel)%nat -> is_Some (parse_loop fuel i s).
Proof.
  intros He. induction fuel as [|fuel IH]; intros i s Hi Hf; [lia|]. cbn [parse_loop].
  destruct (decide (i = n)) as [->|Hne].
  { destruct He as [-> | ->]; [eauto|]. rewrite stops. eauto. }
  destruct (next i) as [e|]; [|eauto].
  assert (forall s', is_Some (parse_loop fuel (Datatypes.S i) s')) as IH' by (intros; apply IH; lia).
  destruct (step i e s) as [[s' []]|]; eauto.
Qed.

(** What holds of the state before the loop and is kept by each case holds after it. *)
Lemma parse_loop_invariant (P : S -> Prop) :
  (forall i e s s' f, P s -> step i e s = Ok (s', f) -> P s') ->
  forall fuel i s s' o, P s -> parse_loop fuel i s = Some (Ok (s', o)) -> P s'.
Proof.
  intros Hstep. induction fuel as [|fuel IH]; intros i s s' o Hs; [done|]. cbn [parse_loop].
  destruct (next i) as [e|]; [|by intros [= <- <-]].
  destruct (step i e s) as [[s1 []]|] eqn:E; [| | | |done]; intros Hl;
    first [eapply IH; [|exact Hl]; by eapply Hstep | injection Hl as <- <-; by eapply Hstep].
Qed.

(** When no case faults on a state that satisfies the invariant, nor does the loop. *)
Lemma parse_loop_safe (P : S -> Prop) :
  (forall i e s, P s -> exists s' f, step i e s = Ok (s', f) /\ P s') ->
  forall fuel i s f, P s -> parse_loop fuel i s <> Some (Fault f).
Proof.
  intros Hstep. induction fuel as [|fuel IH]; intros i s f Hs; [done|]. cbn [parse_loop].
  destruct (next i) as [e|]; [|done].
  destruct (Hstep i e s Hs) as (s1 & o & -> & Hs1). destruct o; try done. by apply IH.
Qed.

(** ** The events of a list, in order *)
Fixpoint run (i : nat) (events : list yaml_event) (s : S) : result (S * flow) :=
  match events with
  | [] => Ok (s, Next)
  | e :: events =>
    '(s, f) ← step i e s;
    match f with
    | Next => run (Datatypes.S i) events s
    | _ => Ok (s, f)
    end
  end.

Lemma run_app i es es' s :
  run i (es ++ es') s =
  ('(s, f) ← run i es s;
   match f with Next => run (i + length es) es' s | _ => Ok (s, f) end).
Proof.
  revert i s. induction es as [|e es IH]; intros i s; cbn [app run mbind result_bind length].
  - by rewrite Nat.add_0_r.
  - destruct (step i e s) as [[s' []]|]; cbn [mbind result_bind]; try done.
    rewrite IH. by rewrite Nat.add_succ_r.
Qed.

Lemma parse_loop_run es : forall i fuel s,
  (forall k, (k < length es)%nat -> next (i + k) = es !! k) ->
  parse_loop (length es + fuel) i s =
  match run i es s with
  | Fault f => Some (Fault f)
  | Ok (s, Next) => parse_loop fuel (i + length es) s
  | Ok (s, Done) => Some (Ok (s, Finished))
  | Ok (s, Return rc) => Some (Ok (s, Returned rc))
  | Ok (s, Throw) => Some (Ok (s, Thrown))
  end.
Proof.
  induction es as [|e es IH]; intros i fuel s Hn; cbn [length run].
  - by rewrite Nat.add_0_r.
  - cbn [Nat.add parse_loop].
    pose proof (Hn 0%nat ltac:(simpl; lia)) as H0. rewrite Nat.add_0_r in H0. rewrite H0.
    cbn [lookup list_lookup].
    assert (forall s', parse_loop (length es + fuel) (Datatypes.S i) s' =
      match run (Datatypes.S i) es s' with
      | Fault f => Some (Fault f)
      | Ok (s, Next) => parse_loop fuel (Datatypes.S i + length es) s
      | Ok (s, Done) => Some (Ok (s, Finished))
      | Ok (s, Return rc) => Some (Ok (s, Returned rc))
      | Ok (s, Throw) => Some (Ok (s, Thrown))
      end) as IH'.
    { intros s'. apply IH. intros k Hk. rewrite Nat.add_succ_comm.
      rewrite Hn by (simpl; lia). done. }
    rewrite Nat.add_succ_r.
    destruct (step i e s) as [[s' []]|]; cbn [mbind result_bind]; done.
Qed.
End Loop.
Arguments parse_loop {S}.
Arguments run {S}.

(** Two streams that agree up to the call [n], at which the first ends, give the same result, whatever
    the fuel, provided that it is more than [n]. *)
Lemma parse_loop_within {S : Type} (step : nat -> yaml_event -> S -> result (S * flow)) `{!Stops step} next next' n :
  ends_at next n -> (forall k, (k <= n)%nat -> next' k = next k) -> forall fuel fuel' i s,
  (i <= n)%nat -> (n - i < fuel)%nat -> (n - i < fuel')%nat ->
  parse_loop step next' fuel' i s = parse_loop step next fuel i s.
Proof.
  intros He Hag. induction fuel as [|fuel IH]; intros fuel' i s Hi Hf Hf'; [lia|].
  destruct fuel' as [|fuel']; [lia|]. cbn [parse_loop]. rewrite Hag by done.
  destruct (decide (i = n)) as [->|Hne].
  { destruct He as [-> | ->]; [done|]. by rewrite stops. }
  destruct (next i) as [e|]; [|done]. destruct (step i e s) as [[s' []]|]; try done. apply IH; lia.
Qed.

(** ** Keys and values *)

(** A value for a key: not a key itself, which would be pushed instead. *)
Definition plain (v : string) : Prop := isKey v = false.

Lemma read_scalar_key k ks : isKey k = true -> read_scalar k ks = (KeyPushed, k :: ks).
Proof. unfold read_scalar. by intros ->. Qed.

Lemma read_scalar_value v k ks : plain v ->
  read_scalar v (k :: ks) = (ValueOf k, if isKeyTypeList k then k :: ks else ks).
Proof. unfold read_scalar, plain. by intros ->. Qed.
