(* ===== verification/UrmPlatformAL.v ===== *)
(** [modula/Common/Include/UrmPlatformAL.h]: the names of the upstream resource codes and
    the packed codes of resources and signals. *)
From S2P Require Import Prelude.
Open Scope string_scope.
Open Scope list_scope.
Open Scope Z_scope.

(** ** Packed codes *)

(** [CONSTRUCT_RES_CODE], [CONSTRUCT_SIG_CODE]: the arguments are converted to
    [uint32_t] and packed as 16-bit fields of a [uint32_t]. *)
Definition pack_code (hi lo : Z) : Z :=
  wrap_u 32 (Z.lor (wrap_u 32 lo) (Z.shiftl (wrap_u 32 hi) 16)).
Definition CONSTRUCT_RES_CODE (resType resCode : Z) : Z := pack_code resType resCode.
Definition CONSTRUCT_SIG_CODE (sigCat sigID : Z) : Z := pack_code sigCat sigID.

(** The two halves of a 64-bit signal code. *)
Definition GET_SIGNAL_ID (sigCode : Z) : Z := wrap_u 32 (Z.shiftr sigCode 32).
Definition GET_SIGNAL_TYPE (sigCode : Z) : Z := wrap_u 32 (Z.land sigCode 4294967295).

(** ** The names that the configuration files may use *)
Definition resCodeMapping : list (string * Z) :=
  [("RES_SCALE_MIN_FREQ", 262144);
   ("RES_SCALE_MAX_FREQ", 262145);
   ("RES_RATE_LIMIT_US", 262146);
   ("RES_CPU_ONLINE_PER_CORE", 262147);
   ("RES_CPU_IDLE_DISABLE_ST0", 65538);
   ("RES_CPU_IDLE_DISABLE_ST1", 65539);
   ("RES_CPU_IDLE_DISABLE_ST2", 65540);
   ("RES_SCHED_UTIL_CLAMP_MIN", 196608);
   ("RES_SCHED_UTIL_CLAMP_MAX", 196609);
   ("RES_SCHED_ENERGY_AWARE", 196610);
   ("RES_SCHED_RT_RUNTIME", 196611);
   ("RES_CPU_DMA_LATENCY", 65536);
   ("RES_PM_QOS_LATENCY", 65537);
   ("RES_DEVFREQ_GPU_MAX", 327680);
   ("RES_DEVFREQ_GPU_MIN", 327681);
   ("RES_DEVFREQ_GPU_POLL_INTV", 327682);
   ("RES_DEVFREQ_UFS_MAX", 655360);
   ("RES_DEVFREQ_UFS_MIN", 655361);
   ("RES_DEVFREQ_UFS_POLL_INTV", 655362);
   ("RES_IRQ_AFFINE", 720896);
   ("RES_DEF_IRQ_AFFINE", 720897);
   ("RES_CGRP_MOVE_PID", 589824);
   ("RES_CGRP_MOVE_TID", 589825);
   ("RES_CGRP_RUN_CORES", 589826);
   ("RES_CGRP_RUN_CORES_EXCL", 589827);
   ("RES_CGRP_FREEZE", 589828);
   ("RES_CGRP_LIMIT_CPU_TIME", 589829);
   ("RES_CGRP_RUN_WHEN_CPU_IDLE", 589830);
   ("RES_CGRP_UCLAMP_MIN", 589831);
   ("RES_CGRP_UCLAMP_MAX", 589832);
   ("RES_CGRP_REL_CPU_WEIGHT", 589833);
   ("RES_CGRP_HIGH_MEM", 589834);
   ("RES_CGRP_MAX_MEM", 589835);
   ("RES_CGRP_LOW_MEM", 589836);
   ("RES_CGRP_MIN_MEM", 589837);
   ("RES_CGRP_SWAP_MAX_MEMORY", 589838);
   ("RES_CGRP_IO_WEIGHT", 589839);
   ("RES_CGRP_CPU_LATENCY", 589841);
   ("FOCUSED_CGROUP_IDENTIFIER", 4);
   ("GLYMUR_APP_CGRP_IDENTIFIER", 5);
   ("CLUSTER_LITTLE_ALL_CORES", 0);
   ("CLUSTER_LITTLE_CORE_0", 1);
   ("CLUSTER_LITTLE_CORE_1", 2);
   ("CLUSTER_LITTLE_CORE_2", 3);
   ("CLUSTER_LITTLE_CORE_3", 4);
   ("CLUSTER_BIG_ALL_CORES", 256);
   ("CLUSTER_BIG_CORE_0", 257);
   ("CLUSTER_BIG_CORE_1", 258);
   ("CLUSTER_BIG_CORE_2", 259);
   ("CLUSTER_BIG_CORE_3", 260);
   ("CLUSTER_PLUS_ALL_CORES", 512);
   ("CLUSTER_PLUS_CORE_0", 513);
   ("CLUSTER_PLUS_CORE_1", 514);
   ("CLUSTER_PLUS_CORE_2", 515);
   ("CLUSTER_PLUS_CORE_3", 516);
   ("DEFAULT_SIGNAL_TYPE", 0)].

(** The loop: the first entry of that name; the second component is [*found]. *)
Fixpoint find_code (table : list (string * Z)) (strCode : string) : Z * bool :=
  match table with
  | [] => (0, false)
  | (name, code) :: table =>
    if String.eqb name strCode then (code, true) else find_code table strCode
  end.
Definition getResCodeFromString (strCode : string) : Z * bool := find_code resCodeMapping strCode.

Lemma find_code_spec table s :
  NoDup table.*1 ->
  match find_code table s with
  | (c, true) => (s, c) ∈ table
  | (c, false) => c = 0 /\ s ∉ table.*1
  end.
Proof.
  induction table as [|[n c] t IH]; cbn; intros Hn.
  - split; [done|apply not_elem_of_nil].
  - apply NoDup_cons in Hn as [Hx Hn]. destruct (String.eqb_spec n s) as [->|Hne].
    + apply elem_of_cons; by left.
    + specialize (IH Hn). destruct (find_code t s) as [d []].
      * apply elem_of_cons; by right.
      * destruct IH as [-> IH]. split; [done|]. apply not_elem_of_cons. by split.
Qed.

Lemma NoDup_fst_unique {A B} (l : list (A * B)) (k : A) (x y : B) :
  NoDup l.*1 -> (k, x) ∈ l -> (k, y) ∈ l -> x = y.
Proof.
  intros Hn [i Hi]%list_elem_of_lookup [j Hj]%list_elem_of_lookup.
  assert (i = j) as <-; [|congruence].
  eapply (NoDup_lookup l.*1); [done|rewrite list_lookup_fmap, Hi|rewrite list_lookup_fmap, Hj]; done.
Qed.

Lemma resCodeMapping_names : NoDup resCodeMapping.*1.
Proof. apply (bool_decide_unpack _). vm_compute. exact I. Qed.

(** Every name of the table is found, with its code, and no other string. *)
Lemma getResCodeFromString_spec s c :
  getResCodeFromString s = (c, true) <-> (s, c) ∈ resCodeMapping.
Proof.
  unfold getResCodeFromString. pose proof (find_code_spec resCodeMapping s resCodeMapping_names) as H.
  split.
  - intros E. by rewrite E in H.
  - intros Hin. destruct (find_code resCodeMapping s) as [d []].
    + f_equal. exact (NoDup_fst_unique _ _ _ _ resCodeMapping_names H Hin).
    + destruct H as [_ H]. destruct H. apply list_elem_of_fmap. by exists (s, c).
Qed.

(** ** The fields of a packed code *)
Lemma pack_code_lt hi lo :
  in_u 16 hi -> in_u 16 lo -> pack_code hi lo = Z.lor lo (Z.shiftl hi 16).
Proof.
  intros Hh Hl. unfold pack_code. rewrite (wrap_u_id 32 lo), (wrap_u_id 32 hi) by (unfold in_u in *; lia).
  apply wrap_u_id. apply testbit_in_u; [lia|]. intros i Hi. zbits_core.
Qed.
