(* ===== verification/AuxRoutines.v ===== *)
(** [modula/CoreModules/AuxRoutines.cpp] and [AuxRoutines.h]: file access helpers,
    the generator of request handles, small string helpers and the bounded recency
    cache.

    Files are a [FileSystem]: the contents of the readable ones and which paths can
    be opened for writing.  Logging is not modelled. *)
From Stdlib Require Import Ascii.
From stdpp Require Import pretty.
From S2P Require Import Prelude UrmTypes SafeOps StdString.
Open Scope string_scope.
Open Scope list_scope.
Open Scope Z_scope.

(** ** Files *)
(** What [mkdir] does with a path. *)
Inductive mkdir_outcome := MkdirOk | MkdirExists | MkdirError.

Record FileSystem := mkFS {
  fs_files : gmap string string;
  fs_dirs : string -> option (list (string * bool)); (** entries: name, is a directory *)
  fs_openable_w : string -> bool;
  fs_access_w : string -> bool;
  fs_mkdir : string -> mkdir_outcome
}.

Definition set_files (g : gmap string string -> gmap string string) (fs : FileSystem)
  : FileSystem :=
  mkFS (g (fs_files fs)) (fs_dirs fs) (fs_openable_w fs) (fs_access_w fs) (fs_mkdir fs).

Definition newline : ascii := "010"%char.

(** The first line of a file, empty when it cannot be opened or has none. *)
Definition first_line (content : string) : string :=
  match split_on newline content with l :: _ => l | [] => "" end.

Definition readFromFile (fs : FileSystem) (fileName : string) : string :=
  if (String.length fileName =? 0)%nat then "" else
  match fs_files fs !! fileName with
  | None => ""
  | Some content => first_line content
  end.

Definition writeToFile (fs : FileSystem) (fileName value : string) : FileSystem :=
  if (String.length fileName =? 0)%nat then fs else
  if negb (fs_openable_w fs fileName) then fs else
  set_files <[fileName := value]> fs.

Definition deleteFile (fs : FileSystem) (fileName : string) : FileSystem :=
  set_files (delete fileName) fs.

(** [access(filePath, F_OK)]: a file or a directory. *)
Definition fileExists (fs : FileSystem) (filePath : string) : bool :=
  bool_decide (is_Some (fs_files fs !! filePath)) || bool_decide (is_Some (fs_dirs fs filePath)).
Definition fileWritable (fs : FileSystem) (filePath : string) : bool :=
  fs_access_w fs filePath.

(** [std::to_string]. *)
Definition to_string (z : Z) : string := pretty z.

(** The inner loop of [writeSysFsDefaults]: the path and value of one line. *)
Fixpoint default_tokens (index : Z) (path : string) (value : Z) (tokens : list string)
  : string * Z :=
  match tokens with
  | [] => (path, value)
  | token :: tokens =>
    let index' := wrap_s 8 (index + 1) in
    if index =? 0 then default_tokens index' token value tokens
    else if index =? 1 then
      default_tokens index' path
        (match stoi 10 token with inl v => v | inr _ => value end) tokens
    else default_tokens index' path value tokens
  end.

Definition write_default_line (fs : FileSystem) (line : string) : FileSystem :=
  let '(path, value) := default_tokens 0 "" (-1) (split_on ","%char line) in
  if (0 <? String.length path)%nat && negb (value =? -1)
  then writeToFile fs path (to_string value) else fs.

Definition writeSysFsDefaults (fs : FileSystem) (persistenceFile : string) : FileSystem :=
  match fs_files fs !! persistenceFile with
  | None => fs
  | Some content => foldl write_default_line fs (split_on newline content)
  end.

(** ** Strings *)
Fixpoint all_of (p : ascii -> bool) (s : string) : bool :=
  match s with EmptyString => true | String c s => p c && all_of p s end.
Definition isdigit (c : ascii) : bool := let n := ascii_code c in (48 <=? n) && (n <=? 57).
Definition isupper (c : ascii) : bool := let n := ascii_code c in (65 <=? n) && (n <=? 90).
Definition islower (c : ascii) : bool := let n := ascii_code c in (97 <=? n) && (n <=? 122).
Definition isalnum (c : ascii) : bool := isdigit c || isupper c || islower c.

Definition isNumericString (str : string) : bool := all_of isdigit str.

Definition tolower (c : ascii) : ascii :=
  if isupper c then ascii_of_nat (Z.to_nat (ascii_code c + 32)) else c.
Fixpoint toLowerCase (str : string) : string :=
  match str with EmptyString => EmptyString | String c s => String (tolower c) (toLowerCase s) end.

Definition hex_digit (n : Z) : ascii :=
  ascii_of_nat (Z.to_nat (if n <? 10 then 48 + n else 87 + n)).
Fixpoint hex_digits (fuel : nat) (n : Z) (acc : string) : string :=
  match fuel with
  | O => acc
  | S fuel =>
    let acc := String (hex_digit (n mod 16)) acc in
    if n / 16 =? 0 then acc else hex_digits fuel (n / 16) acc
  end.
(** [snprintf(buf, sizeof(buf), percent llx, mask)]: at most 16 digits, which fit. *)
Definition cpuMaskToHex (mask : Z) : string := hex_digits 16 mask "".

(** ** The machine and its processes *)
Definition mDeviceNamePath : string := "/sys/devices/soc0/machine".
Definition devTreeCompatible : string := "/proc/device-tree/compatible".

(** [s.substr(pos)]. *)
Definition substr_from (pos : nat) (s : string) : string :=
  String.substring pos (String.length s - pos) s.

(** The loop over the names of the device tree, which end in a null character each; a last
    one without it is read past the end of the buffer.  [cur] is the token so far. *)
Fixpoint machine_tokens (fs : FileSystem) (targetDir cur s : string) : result string :=
  match s with
  | EmptyString => if String.eqb cur "" then Ok "" else Fault OutOfRange
  | String c s =>
    if Ascii.eqb c zero then
      match String.index 0 "," cur with
      | Some sep =>
        let name := substr_from (sep + 1) cur in
        if fileExists fs (targetDir +:+ name) then Ok name else machine_tokens fs targetDir "" s
      | None => machine_tokens fs targetDir "" s
      end
    else machine_tokens fs targetDir (cur +:+ String c "") s
  end.

Definition getMachineName (targetDir : string) (fs : FileSystem) : result string :=
  let name := readFromFile fs mDeviceNamePath in
  if all_of isalnum name && negb (String.eqb name "") then Ok name else
  match fs_files fs !! devTreeCompatible with
  | None => Ok ""
  | Some tokens => machine_tokens fs targetDir "" tokens
  end.

(** The first process whose name contains [process_name]; [stoi] may throw on its number. *)
Fixpoint find_pid (fs : FileSystem) (process_name : string) (entries : list (string * bool))
  : Z + stox_exn :=
  match entries with
  | [] => inl (-1)
  | (d_name, is_dir) :: es =>
    if is_dir && isNumericString d_name then
      match fs_files fs !! ("/proc/" +:+ d_name +:+ "/comm") with
      | Some content =>
        if bool_decide (is_Some (String.index 0 process_name (first_line content)))
        then stoi 10 d_name else find_pid fs process_name es
      | None => find_pid fs process_name es
      end
    else find_pid fs process_name es
  end.
Definition fetchPid (fs : FileSystem) (process_name : string) : Z + stox_exn :=
  match fs_dirs fs "/proc" with
  | None => inl (-1)
  | Some entries => find_pid fs process_name entries
  end.

Definition is_white (c : ascii) : bool :=
  let n := ascii_code c in (n =? 32) || (n =? 9) || (n =? 10) || (n =? 13).
Fixpoint trim_left (s : string) : string :=
  match s with String c s' => if is_white c then trim_left s' else s | EmptyString => "" end.
Fixpoint trim_right (s : string) : string :=
  match s with
  | EmptyString => ""
  | String c s' =>
    match trim_right s' with
    | EmptyString => if is_white c then "" else String c ""
    | t => String c t
    end
  end.

(** The code returned and [comm]; a line of blanks only is left as it is. *)
Definition fetchComm (fs : FileSystem) (pid : Z) (comm : string) : Z * string :=
  if negb (fileExists fs ("/proc/" +:+ to_string pid)) then (-1, comm) else
  match fs_files fs !! ("/proc/" +:+ to_string pid +:+ "/comm") with
  | None => (0, comm)
  | Some content =>
    let line := first_line content in
    (0, match trim_left line with EmptyString => line | t => trim_right t end)
  end.

Example trim_ex : trim_right (trim_left " a b  ") = "a b". Proof. reflexivity. Qed.

(** ** Request handles *)
Section Handle.
(** [handleGenerator], a function-local static [int64_t]. *)
Definition generateUniqueHandle (handleGenerator : Z) : result (Z * Z) :=
  '(nextHandle, opStatus) ← Add 64 handleGenerator 1;
  if decide (opStatus = SUCCESS) then Ok (nextHandle, nextHandle)
  else Ok (-1, handleGenerator).

(** [n] consecutive calls: the handles in order and the final generator. *)
Fixpoint generate_handles (n : nat) (handleGenerator : Z) : result (list Z * Z) :=
  match n with
  | O => Ok ([], handleGenerator)
  | S n =>
    '(h, g) ← generateUniqueHandle handleGenerator;
    '(hs, g) ← generate_handles n g;
    Ok (h :: hs, g)
  end.
End Handle.

(** ** MinLRUCache *)
Record MinLRUCache := mkLRU {
  mMaxSize : Z;
  mDataSet : gset Z;
  mRecencyQueue : list Z
}.

(** The parameter is an [int32_t], the member a [size_t]. *)
Definition MinLRUCache_init (maxSize : Z) : MinLRUCache := mkLRU (wrap_u 64 maxSize) ∅ [].

Definition MinLRUCache_insert (data : Z) (c : MinLRUCache) : result MinLRUCache :=
  c ← (if Z.of_nat (size (mDataSet c)) >=? mMaxSize c then
         match mRecencyQueue c with
         | [] => Fault OutOfRange
         | oldestElement :: q =>
           Ok (mkLRU (mMaxSize c) (mDataSet c ∖ {[oldestElement]}) q)
         end
       else Ok c);
  Ok (mkLRU (mMaxSize c) (mDataSet c ∪ {[data]}) (mRecencyQueue c ++ [data])).

Definition MinLRUCache_isPresent (data : Z) (c : MinLRUCache) : bool :=
  bool_decide (data ∈ mDataSet c).

Fixpoint insert_all (xs : list Z) (c : MinLRUCache) : result MinLRUCache :=
  match xs with
  | [] => Ok c
  | x :: xs => c ← MinLRUCache_insert x c; insert_all xs c
  end.

(** ** Facts *)
Lemma generateUniqueHandle_spec g :
  in_s 64 g ->
  generateUniqueHandle g = if g <? max_s 64 then Ok (g + 1, g + 1) else Ok (-1, g).
Proof.
  intros Hg. unfold generateUniqueHandle.
  rewrite Add_saturates by (try lia; try done; unfold in_s; simpl; lia).
  simpl. destruct (Z.ltb_spec g (max_s 64)) as [Hlt|Hge].
  - rewrite saturate_fits by (unfold in_s, max_s in *; lia). by rewrite decide_True.
  - rewrite saturate_above by lia. by rewrite decide_False.
Qed.

(** Consecutive integers. *)
Definition zseq (from : Z) (n : nat) : list Z := map (fun i => from + Z.of_nat i) (seq 0 n).

Lemma zseq_S from n : zseq from (S n) = from :: zseq (from + 1) n.
Proof.
  unfold zseq. simpl. f_equal; [lia|]. rewrite <- seq_shift, map_map.
  apply map_ext. intros. lia.
Qed.
Lemma zseq_NoDup from n : NoDup (zseq from n).
Proof.
  unfold zseq. apply (NoDup_fmap_2_strong (fun i => from + Z.of_nat i)); [intros; lia|].
  apply NoDup_seq.
Qed.

Lemma generate_handles_below : forall n g,
  in_s 64 g -> g + Z.of_nat n <= max_s 64 ->
  generate_handles n g = Ok (zseq (g + 1) n, g + Z.of_nat n).
Proof.
  induction n as [|n IH]; intros g Hg Hn.
  - simpl. by rewrite Z.add_0_r.
  - cbn [generate_handles]. rewrite generateUniqueHandle_spec by done.
    replace (g <? max_s 64) with true by lia. simpl.
    rewrite IH by (unfold in_s, max_s in *; lia). simpl. rewrite zseq_S. do 2 f_equal. lia.
Qed.

(** The cache seen as the sequence of its keys, oldest first. *)
Definition lru_rep (c : MinLRUCache) (q : list Z) : Prop :=
  mRecencyQueue c = q /\ mDataSet c = list_to_set q /\ NoDup q.

Lemma lru_insert_rep c q x :
  lru_rep c q -> x ∉ q -> 0 < mMaxSize c -> Z.of_nat (length q) <= mMaxSize c ->
  exists c', MinLRUCache_insert x c = Ok c' /\ mMaxSize c' = mMaxSize c /\
    lru_rep c' ((if Z.of_nat (length q) =? mMaxSize c then tail q else q) ++ [x]).
Proof.
  intros (Hq & Hs & Hnd) Hx Hm Hlen. unfold MinLRUCache_insert. rewrite Hs, Hq.
  rewrite size_list_to_set by done.
  destruct (Z.of_nat (length q) =? mMaxSize c) eqn:E; zb.
  - replace (Z.of_nat (length q) >=? mMaxSize c) with true by lia.
    destruct q as [|o q]; simpl in *; [lia|]. apply NoDup_cons in Hnd as [Ho Hnd].
    eexists. split; [done|]. split; [done|]. split_and!; [done| |].
    + simpl. set_solver.
    + apply NoDup_app. split_and!; [done|set_solver|apply NoDup_singleton].
  - replace (Z.of_nat (length q) >=? mMaxSize c) with false by lia. simpl.
    eexists. split; [done|]. split; [done|]. split_and!; simpl.
    + by rewrite Hq.
    + rewrite Hs. set_solver.
    + apply NoDup_app. split_and!; [done|set_solver|apply NoDup_singleton].
Qed.

(** The last [n] elements. *)
Definition last_n {A} (n : nat) (xs : list A) : list A := drop (length xs - n) xs.

Lemma drop_S_tl {A} k (xs : list A) : drop (S k) xs = tail (drop k xs).
Proof. revert k. induction xs as [|y xs IH]; by intros [|k]; simpl. Qed.

Lemma last_n_snoc {A} (n : nat) (xs : list A) x :
  (0 < n)%nat ->
  last_n n (xs ++ [x]) =
  (if (length (last_n n xs) =? n)%nat then tail (last_n n xs) else last_n n xs) ++ [x].
Proof.
  intros Hn. unfold last_n. rewrite length_app, length_drop. simpl.
  destruct (Nat.eqb_spec (length xs - (length xs - n)) n) as [E|E].
  - rewrite drop_app_le by lia.
    replace (length xs + 1 - n)%nat with (S (length xs - n)) by lia. by rewrite drop_S_tl.
  - replace (length xs + 1 - n)%nat with O by lia. replace (length xs - n)%nat with O by lia. done.
Qed.

Lemma insert_all_rep c ys : forall xs,
  lru_rep c (last_n (Z.to_nat (mMaxSize c)) ys) -> 0 < mMaxSize c -> NoDup (ys ++ xs) ->
  exists c', insert_all xs c = Ok c' /\ mMaxSize c' = mMaxSize c /\
    lru_rep c' (last_n (Z.to_nat (mMaxSize c)) (ys ++ xs)).
Proof.
  intros xs. revert c ys. induction xs as [|x xs IH]; intros c ys Hc Hm Hnd; simpl.
  - rewrite app_nil_r. eauto.
  - assert (x ∉ last_n (Z.to_nat (mMaxSize c)) ys) as Hx.
    { intros Hin. apply NoDup_app in Hnd as (_ & Hd & _). apply (Hd x); [|set_solver].
      unfold last_n in Hin. rewrite <- (take_drop (length ys - Z.to_nat (mMaxSize c)) ys).
      set_solver. }
    destruct (lru_insert_rep c _ x Hc Hx Hm) as (c1 & E1 & Hm1 & Hc1).
    { unfold last_n. rewrite length_drop. lia. }
    rewrite E1. simpl.
    assert (lru_rep c1 (last_n (Z.to_nat (mMaxSize c1)) (ys ++ [x]))) as Hc1'.
    { rewrite Hm1, last_n_snoc by lia.
      destruct (Z.eqb_spec (Z.of_nat (length (last_n (Z.to_nat (mMaxSize c)) ys))) (mMaxSize c)).
      - by replace (_ =? _)%nat with true by (symmetry; apply Nat.eqb_eq; lia).
      - by replace (_ =? _)%nat with false by (symmetry; apply Nat.eqb_neq; lia). }
    destruct (IH c1 (ys ++ [x])) as (c2 & E2 & Hm2 & Hc2).
    { done. } { by rewrite Hm1. } { by rewrite <- app_assoc. }
    exists c2. rewrite E2, Hm2, Hm1. split_and!; [done|done|].
    rewrite <- app_assoc in Hc2. by rewrite Hm1 in Hc2.
Qed.

(** ** Properties *)

(** Request handles are unique.  From any generator value, consecutive calls that
    stay below [INT64_MAX] return consecutive, pairwise different, increasing handles
    without a fault; at [INT64_MAX] every call returns [-1] and leaves the generator. *)
Theorem AuxRoutines_handles_unique (g : Z) (n : nat) :
  in_s 64 g -> g + Z.of_nat n <= max_s 64 ->
  (exists hs, generate_handles n g = Ok (hs, g + Z.of_nat n) /\ length hs = n /\ NoDup hs /\
     forall i, (i < n)%nat -> hs !! i = Some (g + 1 + Z.of_nat i)) /\
  generateUniqueHandle (max_s 64) = Ok (-1, max_s 64).
Proof.
  intros Hg Hn. split.
  - exists (zseq (g + 1) n). rewrite generate_handles_below by done. split_and!; [done| | |].
    + unfold zseq. by rewrite length_map, length_seq.
    + apply zseq_NoDup.
    + intros i Hi. unfold zseq. rewrite list_lookup_fmap, lookup_seq_lt by done. done.
  - rewrite generateUniqueHandle_spec; [done|]. unfold in_s, max_s. lia.
Qed.

Lemma AuxRoutines_handles_unique_witness :
  exists hs, generate_handles 3 0 = Ok (hs, 3) /\ NoDup hs.
Proof.
  destruct (AuxRoutines_handles_unique 0 3) as [(hs & E & _ & H & _) _].
  - unfold in_s. lia.
  - unfold max_s. lia.
  - exists hs. split; [exact E|exact H].
Defined.

(** The recency cache of capacity [m] remembers exactly the last [m] keys: after
    inserting pairwise different keys into an empty cache, none of the insertions
    faults, a key is present exactly when it is one of the last [m], and the cache
    never holds more than [m] keys. *)
Theorem MinLRUCache_keeps_last (m : Z) (xs : list Z) :
  0 < m < 2 ^ 31 -> NoDup xs ->
  exists c, insert_all xs (MinLRUCache_init m) = Ok c /\
    (forall x, MinLRUCache_isPresent x c = bool_decide (x ∈ last_n (Z.to_nat m) xs)) /\
    Z.of_nat (size (mDataSet c)) <= m.
Proof.
  intros Hm Hnd.
  assert (mMaxSize (MinLRUCache_init m) = m) as E.
  { unfold MinLRUCache_init; simpl. apply wrap_u_id. unfold in_u. lia. }
  destruct (insert_all_rep (MinLRUCache_init m) [] xs) as (c & Hc & Hmc & Hr & Hs & Hn).
  - split_and!; [done|done|constructor].
  - lia.
  - done.
  - rewrite E in *. exists c. split_and!; [done| |].
    + intros x. unfold MinLRUCache_isPresent. rewrite Hs. apply bool_decide_ext. set_solver.
    + rewrite Hs, size_list_to_set by done. unfold last_n. rewrite length_drop. lia.
Qed.

Lemma MinLRUCache_keeps_last_witness :
  exists c, insert_all [4; 5; 6] (MinLRUCache_init 2) = Ok c /\
    MinLRUCache_isPresent 4 c = false.
Proof.
  destruct (MinLRUCache_keeps_last 2 [4; 5; 6]) as (c & E & H & _).
  - lia.
  - apply (bool_decide_unpack _). vm_compute. exact I.
  - exists c. split; [exact E|]. rewrite H. vm_compute. reflexivity.
Defined.
