(* ===== verification/StringFacts.v ===== *)
(** Facts on the strings of the standard library that the files of the device are made
    of: decimal numbers, lines, and comma-separated lists. *)
From Stdlib Require Import Ascii.
From stdpp Require Import pretty.
From S2P Require Import Prelude StdString AuxRoutines.
Open Scope string_scope.
Open Scope list_scope.
Open Scope Z_scope.

(** [d] does not occur in [s]. *)
Definition lacks (d : ascii) (s : string) : bool := all_of (fun c => negb (Ascii.eqb c d)) s.

Lemma app_cons c (s t : string) : String c s +:+ t = String c (s +:+ t).
Proof. reflexivity. Qed.
Lemma app_nil (t : string) : "" +:+ t = t.
Proof. reflexivity. Qed.
Lemma app_empty_r (s : string) : s +:+ "" = s.
Proof. induction s as [|c s IH]; [done|]. by rewrite app_cons, IH. Qed.
Lemma app_cons_r (s : string) c t : (s +:+ String c "") +:+ t = s +:+ String c t.
Proof. induction s as [|c' s IH]; [done|]. by rewrite !app_cons, IH. Qed.
Lemma app_assoc_str (s t u : string) : (s +:+ t) +:+ u = s +:+ (t +:+ u).
Proof. induction s as [|c s IH]; [done|]. by rewrite !app_cons, IH. Qed.
Lemma app_is_empty (s t : string) : String.eqb (s +:+ t) "" = String.eqb s "" && String.eqb t "".
Proof. by destruct s. Qed.
Lemma length_str_app (s t : string) :
  String.length (s +:+ t) = (String.length s + String.length t)%nat.
Proof. induction s as [|c s IH]; [done|]. rewrite app_cons. simpl. by rewrite IH. Qed.

Lemma all_of_app p (s t : string) : all_of p (s +:+ t) = all_of p s && all_of p t.
Proof. induction s as [|c s IH]; [done|]. rewrite app_cons. simpl. by rewrite IH, andb_assoc. Qed.
Lemma all_of_impl (p q : ascii -> bool) s :
  (forall c, p c = true -> q c = true) -> all_of p s = true -> all_of q s = true.
Proof.
  intros Hpq. induction s as [|c s IH]; [done|]. simpl. rewrite !andb_true_iff.
  intros [Hc Hs]. split; [by apply Hpq|by apply IH].
Qed.

(** ** Lines and lists *)
Lemma getlines_delim d s : forall cur rest, lacks d s = true ->
  getlines d cur (s +:+ String d rest) = (cur +:+ s) :: getlines d "" rest.
Proof.
  induction s as [|c s IH]; intros cur rest H; rewrite ?app_cons, ?app_nil; simpl in *.
  - by rewrite Ascii.eqb_refl, app_empty_r.
  - apply andb_true_iff in H as [Hc Hs]. apply negb_true_iff in Hc. rewrite Hc.
    rewrite IH by done. by rewrite app_cons_r.
Qed.
Lemma getlines_last d s : forall cur, lacks d s = true ->
  getlines d cur s = if String.eqb (cur +:+ s) "" then [] else [cur +:+ s].
Proof.
  induction s as [|c s IH]; intros cur H; simpl in *.
  - by rewrite app_empty_r.
  - apply andb_true_iff in H as [Hc Hs]. apply negb_true_iff in Hc. rewrite Hc.
    rewrite IH by done. by rewrite app_cons_r.
Qed.

Lemma split_on_delim d s rest : lacks d s = true ->
  split_on d (s +:+ String d rest) = s :: split_on d rest.
Proof. intros H. unfold split_on. by rewrite getlines_delim. Qed.
Lemma split_on_last d s : lacks d s = true -> s <> "" -> split_on d s = [s].
Proof.
  intros H Hs. unfold split_on. rewrite getlines_last by done. rewrite app_nil.
  by destruct (String.eqb_spec s "").
Qed.

(** Every token lacks the delimiter. *)
Lemma getlines_lacks d s : forall cur t, lacks d cur = true -> t ∈ getlines d cur s ->
  lacks d t = true.
Proof.
  induction s as [|c s IH]; intros cur t Hc Ht; simpl in Ht.
  - destruct (String.eqb cur ""); [by apply not_elem_of_nil in Ht|].
    apply list_elem_of_singleton in Ht. by subst.
  - destruct (Ascii.eqb c d) eqn:E.
    + apply elem_of_cons in Ht as [->|Ht]; [done|]. by refine (IH "" t _ Ht).
    + refine (IH _ t _ Ht). unfold lacks in *. rewrite all_of_app, Hc. simpl. by rewrite E.
Qed.

Lemma first_line_lacks s : lacks newline (first_line s) = true.
Proof.
  unfold first_line. destruct (split_on newline s) as [|l ls] eqn:E; [done|].
  eapply (getlines_lacks _ s ""); [done|]. unfold split_on in E. rewrite E. by left.
Qed.
Lemma readFromFile_lacks fs p : lacks newline (readFromFile fs p) = true.
Proof.
  unfold readFromFile. case_if; [done|]. destruct (fs_files fs !! p); [|done].
  apply first_line_lacks.
Qed.

Lemma first_line_line s : lacks newline s = true -> first_line (s +:+ String newline "") = s.
Proof. intros H. unfold first_line. by rewrite split_on_delim. Qed.
Lemma first_line_text s : lacks newline s = true -> first_line s = s.
Proof.
  intros H. unfold first_line. destruct (String.eqb_spec s "") as [->|Hs]; [done|].
  by rewrite split_on_last.
Qed.

(** ** Decimal numbers *)
Definition number_char (c : ascii) : bool := isdigit c || Ascii.eqb c "-"%char.

Lemma pretty_N_char_digit n : isdigit (pretty_N_char n) = true.
Proof. destruct n as [|p]; [done|]. do 4 (destruct p as [p|p|]; try reflexivity). Qed.
Lemma pretty_N_go_digits n : forall s, all_of isdigit s = true ->
  all_of isdigit (pretty_N_go n s) = true.
Proof.
  induction (N.lt_wf_0 n) as [n _ IH]. intros s Hs. destruct (decide (n = 0)%N) as [->|Hn].
  - by rewrite pretty_N_go_0.
  - rewrite pretty_N_go_step by lia. apply IH; [apply N.div_lt; lia|]. cbn [all_of].
    by rewrite pretty_N_char_digit.
Qed.
Lemma pretty_N_digits (n : N) : all_of isdigit (pretty n) = true.
Proof.
  unfold pretty, pretty_N. case_decide; [done|]. by apply pretty_N_go_digits.
Qed.
Lemma to_string_chars z : all_of number_char (to_string z) = true.
Proof.
  assert (forall n : N, all_of number_char (pretty n) = true) as H.
  { intros n. eapply all_of_impl; [|apply pretty_N_digits]. intros c Hc. unfold number_char.
    by rewrite Hc. }
  unfold to_string, pretty, pretty_Z. destruct z; simpl; [done|apply H|].
  exact (H (Npos _)).
Qed.
Lemma to_string_lacks d z : number_char d = false -> lacks d (to_string z) = true.
Proof.
  intros Hd. eapply all_of_impl; [|apply to_string_chars]. intros c Hc. apply negb_true_iff.
  destruct (Ascii.eqb_spec c d) as [->|]; [congruence|done].
Qed.

Lemma to_string_nonempty z : to_string z <> "".
Proof.
  assert (forall n s, s <> "" -> pretty_N_go n s <> "") as Hgo.
  { intros n. induction (N.lt_wf_0 n) as [n _ IH]. intros s Hs. destruct (decide (n = 0)%N) as [->|].
    - by rewrite pretty_N_go_0.
    - rewrite pretty_N_go_step by lia. apply IH; [apply N.div_lt; lia|done]. }
  assert (forall n : N, (pretty n : string) <> "") as H.
  { intros n. unfold pretty, pretty_N. case_decide; [done|]. rewrite pretty_N_go_step by lia.
    by apply Hgo. }
  unfold to_string, pretty, pretty_Z. destruct z; simpl; [done|apply H|done].
Qed.

#[export] Instance to_string_inj : Inj (=) (=) to_string.
Proof. intros x y. unfold to_string. apply (inj pretty). Qed.

(** ** Reading back a printed number *)
Lemma isdigit_value c : isdigit c = true -> exists v, digit_in 10 c = Some v /\ 0 <= v < 10.
Proof.
  unfold isdigit, digit_in, digit_val. intros H. rewrite H. cbn [mbind option_bind].
  exists (ascii_code c - 48). replace (_ <? 10) with true by lia. split; [done|lia].
Qed.

Lemma pretty_N_char_value n : (n < 10)%N -> digit_in 10 (pretty_N_char n) = Some (Z.of_N n) /\ (n <> 0%N -> is_char 48 (pretty_N_char n) = false).
Proof. destruct n as [|p]; [by split|]. intros H. do 4 (destruct p as [p|p|]; try (lia || by split)). Qed.

Lemma digits_pretty n : forall s, digits 10 0 (pretty_N_go n s) = digits 10 (Z.of_N n) s.
Proof.
  induction (N.lt_wf_0 n) as [n _ IH]. intros s. destruct (decide (n = 0)%N) as [->|Hn].
  - by rewrite pretty_N_go_0.
  - rewrite pretty_N_go_step by lia. rewrite IH by (apply N.div_lt; lia). cbn [digits].
    pose proof (N.mod_lt n 10 ltac:(lia)) as Hm. destruct (pretty_N_char_value (n `mod` 10) Hm) as [-> _].
    f_equal. rewrite (N.div_mod n 10) at 3 by lia. lia.
Qed.

(** The first digit of a positive number is not a zero. *)
Lemma pretty_head n : n <> 0%N -> forall s, exists c t, pretty_N_go n s = String c t /\ isdigit c = true /\ is_char 48 c = false.
Proof.
  induction (N.lt_wf_0 n) as [n _ IH]. intros Hn s. rewrite pretty_N_go_step by lia.
  destruct (decide (n `div` 10 = 0)%N) as [E0|Hd].
  - rewrite E0, pretty_N_go_0. eexists _, _. split; [done|]. split; [apply pretty_N_char_digit|].
    apply pretty_N_char_value; [apply N.mod_lt; lia|]. intros Hm. pose proof (N.div_mod n 10 ltac:(lia)) as E. lia.
  - apply IH; [apply N.div_lt; lia|done].
Qed.

Lemma parse_magnitude_pretty b p : b = 0 \/ b = 10 ->
  parse_magnitude b (pretty (Npos p)) = Some (Zpos p) /\
  exists c t, pretty (Npos p) = String c t /\ isdigit c = true.
Proof.
  intros Hb. unfold pretty, pretty_N. rewrite decide_False by done.
  destruct (pretty_head (Npos p) ltac:(done) "") as (c & t & E & Hc & Hz). split; [|by eauto].
  assert ((if starts_digit 10 (pretty_N_go (Npos p) "") then Some (digits 10 0 (pretty_N_go (Npos p) "")) else None) = Some (Zpos p)) as H.
  { rewrite digits_pretty. rewrite E. cbn [starts_digit]. destruct (isdigit_value c Hc) as (v & Ev & _). rewrite Ev.
    by rewrite bool_decide_true by (by eexists). }
  unfold parse_magnitude. destruct Hb as [-> | ->]; [|exact H]. rewrite E in *. cbn [Z.eqb].
  destruct t; rewrite Hz; exact H.
Qed.

(** The parsers of the standard library read a printed number back, in base 10 and in base 0. *)
Lemma parse_int_to_string b z : b = 0 \/ b = 10 -> parse_int b (to_string z) = Some z.
Proof.
  intros Hb. destruct z as [|p|p].
  - by destruct Hb as [-> | ->].
  - change (to_string (Zpos p)) with (pretty (Npos p)).
    destruct (parse_magnitude_pretty b p Hb) as (H & c & t & E & Hc). unfold parse_int. rewrite E in *.
    assert (isspace c = false /\ is_char 45 c = false /\ is_char 43 c = false) as (H1 & H2 & H3).
    { unfold isspace, is_char, isdigit in *. lia. }
    cbn [skip_spaces]. by rewrite H1, H2, H3.
  - change (to_string (Zneg p)) with (String "-"%char (pretty (Npos p))).
    destruct (parse_magnitude_pretty b p Hb) as (H & _). unfold parse_int. cbn [skip_spaces].
    change (isspace "-"%char) with false. cbn iota. change (is_char 45 "-"%char) with true. cbn iota. by rewrite H.
Qed.
Lemma stoi_to_string b z : b = 0 \/ b = 10 -> in_s 32 z -> stoi b (to_string z) = inl z.
Proof.
  intros Hb Hz. unfold stoi. rewrite parse_int_to_string by done. unfold in_range, in_s, min_s, max_s in *.
  by replace (_ && _) with true by lia.
Qed.
Lemma stol_to_string b z : b = 0 \/ b = 10 -> in_s 64 z -> stol b (to_string z) = inl z.
Proof.
  intros Hb Hz. unfold stol. rewrite parse_int_to_string by done. unfold in_range, in_s, min_s, max_s in *.
  by replace (_ && _) with true by lia.
Qed.
