(* ===== verification/Strtod.v ===== *)
(** [std::stod]: the floating-point parser of the C++ standard library, in the C locale.

    A string gives an exact number, a ratio of integers, which is rounded to the nearest
    double by the Standard Library's [SpecFloat]. *)
From Stdlib Require Import SpecFloat Ascii.
From S2P Require Import Prelude Double StdString AuxRoutines.
Open Scope string_scope.
Open Scope Z_scope.

(** ** The digits of a number *)

(** Digits and at most one point: the digits as a number, how many of them are after the point, whether
    there was one at all, and the rest of the string. *)
Fixpoint mantissa (base : Z) (point seen : bool) (m frac : Z) (s : string)
  : Z * Z * bool * string :=
  match s with
  | String c s' =>
    match digit_in base c with
    | Some d => mantissa base point true (m * base + d) (if point then frac + 1 else frac) s'
    | None =>
      if is_char 46 c && negb point then mantissa base true seen m frac s'
      else (m, frac, seen, s)
    end
  | EmptyString => (m, frac, seen, s)
  end.

(** An exponent after the letter [e]: [0] when what follows is not one. *)
Definition exponent (e : Z) (s : string) : Z :=
  match s with
  | String c s' =>
    if is_char e (tolower c) then
      match s' with
      | String sg s'' =>
        if is_char 45 sg then (if starts_digit 10 s'' then - digits 10 0 s'' else 0)
        else if is_char 43 sg then (if starts_digit 10 s'' then digits 10 0 s'' else 0)
        else if starts_digit 10 s' then digits 10 0 s' else 0
      | EmptyString => 0
      end
    else 0
  | EmptyString => 0
  end.

(** What was read: [num / den], or a value that is not a number of digits. *)
Inductive Literal :=
  | Ratio (num den : Z)
  | Infinity
  | NotANumber.

(** [m * radix ^ e]. *)
Definition scaled (m radix e : Z) : Literal :=
  if 0 <=? e then Ratio (m * radix ^ e) 1 else Ratio m (radix ^ (- e)).

Definition starts_with (prefix s : string) : bool := String.prefix prefix (toLowerCase s).

(** What follows the sign. *)
Definition read_literal (s : string) : option Literal :=
  if starts_with "inf" s then Some Infinity else
  if starts_with "nan" s then Some NotANumber else
  let hex :=
    if starts_with "0x" s then
      match s with
      | String _ (String _ s') =>
        let '(m, frac, seen, rest) := mantissa 16 false false 0 0 s' in
        if seen : bool then Some (scaled m 2 (exponent 112 rest - 4 * frac)) else None
      | _ => None
      end
    else None in
  match hex with
  | Some l => Some l
  | None =>
    let '(m, frac, seen, rest) := mantissa 10 false false 0 0 s in
    if seen : bool then Some (scaled m 10 (exponent 101 rest - frac)) else None
  end.

(** ** Rounding *)

(** The double nearest to [num / den], ties to even. *)
Definition d_ratio (sign : bool) (num den : Z) : double :=
  match num, den with
  | Z.pos n, Z.pos d =>
    let '(m, e, l) := SFdiv_core_binary d_prec d_emax (Z.pos n) 0 (Z.pos d) 0 in
    binary_round_aux d_prec d_emax sign m e l
  | _, _ => S754_zero sign
  end.

(** [x] is exactly [num / den]. *)
Definition exactly (x : double) (num den : Z) : bool :=
  match x with
  | S754_zero _ => num =? 0
  | S754_finite _ m e =>
    if 0 <=? e then Z.pos m * 2 ^ e * den =? num else Z.pos m * den =? num * 2 ^ (- e)
  | _ => false
  end.

(** [errno] is [ERANGE] when the number overflows, or when it underflows: a result below the
    normal range that is not exact. *)
Definition erange (x : double) (num den : Z) : bool :=
  match x with
  | S754_infinity _ => true
  | S754_zero _ => negb (num =? 0)
  | S754_finite _ m e => (Z.pos m <? 2 ^ 52) && negb (exactly x num den)
  | S754_nan => false
  end.

Definition stod (str : string) : double + stox_exn :=
  let '(sign, s) :=
    match skip_spaces str with
    | String c s' => if is_char 45 c then (true, s') else if is_char 43 c then (false, s')
                     else (false, String c s')
    | EmptyString => (false, EmptyString)
    end in
  match read_literal s with
  | None => inr invalid_argument
  | Some Infinity => inl (S754_infinity sign)
  | Some NotANumber => inl S754_nan
  | Some (Ratio num den) =>
    let x := d_ratio sign num den in
    if erange x num den then inr out_of_range else inl x
  end.

Example stod_ex1 : stod "2.0" = inl (d_of_Z 2). Proof. vm_compute. reflexivity. Qed.
Example stod_ex2 : stod " -0.4e+1x" = inl (d_of_Z (-4)). Proof. vm_compute. reflexivity. Qed.
Example stod_ex3 : stod "0x1.8p3" = inl (d_of_Z 12). Proof. vm_compute. reflexivity. Qed.
Example stod_ex4 : stod "1e400" = inr out_of_range. Proof. vm_compute. reflexivity. Qed.
Example stod_ex5 : stod "." = inr invalid_argument. Proof. vm_compute. reflexivity. Qed.
Example stod_ex6 : stod "0.4" = inl (S754_finite false 7205759403792794 (-54)).
Proof. vm_compute. reflexivity. Qed.
Example stod_ex7 : stod "1e-400" = inr out_of_range. Proof. vm_compute. reflexivity. Qed.
Example stod_ex8 : stod "5e-324" = inr out_of_range. Proof. vm_compute. reflexivity. Qed.
