(* ===== verification/JournalConf.v ===== *)
(** [TargetRegistry::addLogLimit] and the constructor of [TargetRegistry]
    ([resource-tuner/core/TargetRegistry.cpp]): the configuration of the system journal is
    saved, reduced to the limits of the daemon, and restored when the daemon starts again.

    The run-state directory is a constant of the build, a parameter here.  The restart of
    the journal service over D-Bus is not modelled. *)
From Stdlib Require Import Ascii.
From S2P Require Import Prelude UrmTypes StdString AuxRoutines.
Open Scope string_scope.
Open Scope list_scope.
Open Scope Z_scope.

Definition JOURNALD_CONF : string := "/etc/systemd/journald.conf".
Definition JOURNALD_URM_CONF (run_dir : string) : string := run_dir +:+ "journald_modified_conf".
Definition printkPath : string := "/proc/sys/kernel/printk".

(** [dst << src.rdbuf()] between two files: an unreadable source leaves an empty copy. *)
Definition copy_file (src dst : string) (fs : FileSystem) : FileSystem :=
  writeToFile fs dst (default "" (fs_files fs !! src)).

(** The constructor. *)
Definition TargetRegistry_restore (run_dir : string) (fs : FileSystem) : FileSystem :=
  if fileExists fs (JOURNALD_URM_CONF run_dir) then
    deleteFile (copy_file (JOURNALD_URM_CONF run_dir) JOURNALD_CONF fs) (JOURNALD_URM_CONF run_dir)
  else fs.

(** ** trimStr *)
Definition is_blank (c : ascii) : bool := is_char 32 c || is_char 9 c.
Fixpoint skip_blanks (s : string) : string :=
  match s with
  | String c s' => if is_blank c then skip_blanks s' else s
  | EmptyString => EmptyString
  end.
(** The string up to its last character other than a space, a tab or a carriage return. *)
Fixpoint cut_blanks (s : string) : string :=
  match s with
  | EmptyString => EmptyString
  | String c s' =>
    match cut_blanks s' with
    | EmptyString => if is_blank c || is_char 13 c then EmptyString else String c EmptyString
    | r => String c r
    end
  end.
(** When nothing but carriage returns follows blanks, [end] is [npos] and the length wraps:
    it is 0 only from position 0. *)
Definition trimStr (s : string) : string :=
  let t := skip_blanks s in
  match cut_blanks t with
  | EmptyString => if String.eqb t s then EmptyString else t
  | r => r
  end.

(** ** addLogLimit *)
Section LogLimit.
Context `{HashOrder} (run_dir : string).

Definition configOptions : gmap string string := list_to_map
  [("RuntimeMaxUse", "20M"); ("RuntimeMaxFileSize", "128K"); ("MaxLevelStore", "notice");
   ("MaxLevelSyslog", "notice"); ("MaxLevelKMsg", "notice"); ("MaxLevelConsole", "notice");
   ("ForwardToSyslog", "no")].

Definition eol : string := String newline "".
Definition option_line (entry : string * string) : string := entry.1 +:+ "=" +:+ entry.2 +:+ eol.

(** The first option, in the order of the map, that the line sets or comments out. *)
Fixpoint line_option (trimmedLine : string) (options : list (string * string))
  : option (string * string) :=
  match options with
  | [] => None
  | entry :: options =>
    if String.prefix (entry.1 +:+ "=") trimmedLine || String.prefix ("#" +:+ entry.1 +:+ "=") trimmedLine
    then Some entry else line_option trimmedLine options
  end.

(** The loop over the lines: the new content, the keys updated and whether the section of
    the journal was found. *)
Fixpoint rewrite_lines (lines : list string) : string * list string * bool :=
  match lines with
  | [] => ("", [], false)
  | line :: lines =>
    let trimmedLine := trimStr line in
    let '(rest, keyUpdated, journalSectionFound) := rewrite_lines lines in
    let found := String.eqb trimmedLine "[Journal]" || journalSectionFound in
    match line_option trimmedLine (hash_order configOptions) with
    | Some entry => (option_line entry +:+ rest, entry.1 :: keyUpdated, found)
    | None => (line +:+ eol +:+ rest, keyUpdated, found)
    end
  end.

Definition missing_options (keyUpdated : list string) (options : list (string * string)) : string :=
  foldr (fun entry s => if bool_decide (entry.1 ∈ keyUpdated) then s else option_line entry +:+ s) ""
    options.

Definition newConf (content : string) : string :=
  let '(new, keyUpdated, found) := rewrite_lines (split_on newline content) in
  new +:+ (if (found : bool) then "" else eol +:+ "[Journal]" +:+ eol)
      +:+ missing_options keyUpdated (hash_order configOptions).

Definition addLogLimit (values : list string) (fs : FileSystem) : ErrCode * FileSystem :=
  match values with
  | [] => (RC_INVALID_VALUE, fs)
  | logLevel :: _ =>
    if negb (String.eqb logLevel "minimal") then (RC_SUCCESS, fs) else
    let fs := copy_file JOURNALD_CONF (JOURNALD_URM_CONF run_dir) fs in
    match fs_files fs !! JOURNALD_CONF with
    | None => (RC_SUCCESS, fs)
    | Some content =>
      let fs := writeToFile fs JOURNALD_CONF (newConf content) in
      (RC_SUCCESS, writeToFile fs printkPath "3 4 1 3")
    end
  end.

(** ** Facts *)
Definition saved_ok (fs : FileSystem) : Prop :=
  fs_openable_w fs JOURNALD_CONF = true /\ fs_openable_w fs (JOURNALD_URM_CONF run_dir) = true /\
  JOURNALD_URM_CONF run_dir <> JOURNALD_CONF /\ JOURNALD_URM_CONF run_dir <> printkPath.

Lemma URM_CONF_nonempty : String.length (JOURNALD_URM_CONF run_dir) <> 0%nat.
Proof. unfold JOURNALD_URM_CONF. destruct run_dir; done. Qed.

Lemma writeToFile_lookup fs f v g : String.length f <> 0%nat ->
  fs_files (writeToFile fs f v) !! g =
  (if decide (f = g /\ fs_openable_w fs f = true) then Some v else fs_files fs !! g) /\
  fs_openable_w (writeToFile fs f v) = fs_openable_w fs.
Proof.
  intros Hf. unfold writeToFile. apply Nat.eqb_neq in Hf. rewrite Hf.
  destruct (fs_openable_w fs f); simpl.
  - split; [|done]. destruct (decide (f = g /\ true = true)) as [[-> _]|Hne].
    + by rewrite lookup_insert_eq.
    + rewrite lookup_insert_ne; [done|]. intros ->. by apply Hne.
  - split; [|done]. rewrite decide_False; [done|]. by intros [_ ?].
Qed.

(** What one run with the level [minimal] leaves in the two files. *)
Lemma addLogLimit_files content values fs : saved_ok fs -> fs_files fs !! JOURNALD_CONF = Some content ->
  exists fs', addLogLimit ("minimal" :: values) fs = (RC_SUCCESS, fs') /\ saved_ok fs' /\
    fs_files fs' !! JOURNALD_CONF = Some (newConf content) /\
    fs_files fs' !! JOURNALD_URM_CONF run_dir = Some content.
Proof.
  intros (O1 & O2 & N1 & N2) Hc. unfold addLogLimit.
  change (String.eqb "minimal" "minimal") with true. cbn [negb]. cbv zeta.
  pose proof URM_CONF_nonempty as Hne.
  unfold copy_file. rewrite Hc. cbn [from_option id].
  set (fs1 := writeToFile fs (JOURNALD_URM_CONF run_dir) content).
  destruct (writeToFile_lookup fs (JOURNALD_URM_CONF run_dir) content JOURNALD_CONF Hne) as [E1 P1].
  destruct (writeToFile_lookup fs (JOURNALD_URM_CONF run_dir) content (JOURNALD_URM_CONF run_dir) Hne) as [E2 _].
  fold fs1 in E1, E2, P1. rewrite decide_False in E1 by tauto. rewrite decide_True in E2 by done.
  rewrite E1, Hc. set (fs2 := writeToFile fs1 JOURNALD_CONF (newConf content)).
  destruct (writeToFile_lookup fs1 JOURNALD_CONF (newConf content) JOURNALD_CONF ltac:(done)) as [E3 P2].
  destruct (writeToFile_lookup fs1 JOURNALD_CONF (newConf content) (JOURNALD_URM_CONF run_dir) ltac:(done)) as [E4 _].
  fold fs2 in E3, E4, P2. rewrite decide_True in E3 by (rewrite P1; done).
  rewrite decide_False in E4 by (intros [? _]; congruence).
  destruct (writeToFile_lookup fs2 printkPath "3 4 1 3" JOURNALD_CONF ltac:(done)) as [E5 P3].
  destruct (writeToFile_lookup fs2 printkPath "3 4 1 3" (JOURNALD_URM_CONF run_dir) ltac:(done)) as [E6 _].
  rewrite decide_False in E5 by (intros [? _]; done).
  rewrite decide_False in E6 by (intros [? _]; congruence).
  eexists. split; [done|]. split_and!; [|congruence|congruence].
  unfold saved_ok. by rewrite P3, P2, P1.
Qed.

Lemma restore_files content fs : saved_ok fs -> fs_files fs !! JOURNALD_URM_CONF run_dir = Some content ->
  fs_files (TargetRegistry_restore run_dir fs) !! JOURNALD_CONF = Some content /\
  fs_files (TargetRegistry_restore run_dir fs) !! JOURNALD_URM_CONF run_dir = None.
Proof.
  intros (O1 & O2 & N1 & N2) Hc. unfold TargetRegistry_restore, fileExists.
  rewrite bool_decide_true by by eexists. cbn [orb]. unfold copy_file. rewrite Hc. cbn [from_option id].
  destruct (writeToFile_lookup fs JOURNALD_CONF content JOURNALD_CONF ltac:(done)) as [E _].
  rewrite decide_True in E by done. unfold deleteFile, set_files. cbn [fs_files].
  split; [by rewrite lookup_delete_ne|by rewrite lookup_delete_eq].
Qed.
End LogLimit.

(** ** Properties *)

(** The journal configuration survives the daemon.  After the limits have been applied
    once, the start of the next daemon puts the original configuration back, byte for
    byte, and removes the saved copy.  Applying the limits a second time before that,
    which a second configuration file with a log level does, saves the configuration the
    daemon itself wrote: the next start restores that one, and the original is lost. *)
Theorem journal_conf_restored `{HashOrder} (run_dir : string) (values values' : list string)
    (fs : FileSystem) (content : string) :
  saved_ok run_dir fs -> fs_files fs !! JOURNALD_CONF = Some content ->
  let once := addLogLimit run_dir ("minimal" :: values) fs in
  let twice := addLogLimit run_dir ("minimal" :: values') once.2 in
  once.1 = RC_SUCCESS /\ twice.1 = RC_SUCCESS /\
  fs_files once.2 !! JOURNALD_CONF = Some (newConf content) /\
  fs_files (TargetRegistry_restore run_dir once.2) !! JOURNALD_CONF = Some content /\
  fs_files (TargetRegistry_restore run_dir once.2) !! JOURNALD_URM_CONF run_dir = None /\
  fs_files (TargetRegistry_restore run_dir twice.2) !! JOURNALD_CONF = Some (newConf content).
Proof.
  intros Hok Hc. cbn zeta.
  destruct (addLogLimit_files run_dir content values fs Hok Hc) as (fs1 & -> & Hok1 & Hc1 & Hs1).
  cbn [fst snd].
  destruct (addLogLimit_files run_dir _ values' fs1 Hok1 Hc1) as (fs2 & -> & Hok2 & _ & Hs2).
  cbn [fst snd]. destruct (restore_files run_dir _ _ Hok1 Hs1), (restore_files run_dir _ _ Hok2 Hs2).
  by split_and!.
Qed.

Lemma journal_conf_restored_witness :
  let fs := mkFS {[JOURNALD_CONF := "[Journal]"]} (fun _ => None) (fun _ => true) (fun _ => true)
              (fun _ => MkdirOk) in
  fs_files (TargetRegistry_restore "/run/urm/" (@addLogLimit sorted_hash_order "/run/urm/" ["minimal"] fs).2)
    !! JOURNALD_CONF = Some "[Journal]".
Proof.
  intros fs.
  destruct (@journal_conf_restored sorted_hash_order "/run/urm/" [] [] fs "[Journal]")
    as (_ & _ & _ & E & _).
  - split_and!; vm_compute; congruence.
  - reflexivity.
  - exact E.
Defined.
