(* ===== verification/SignalRegistry.v ===== *)
(** [resource-tuner/signals/SignalRegistry.cpp] and [SignalRegistry.h]: the configurations
    of the signals, keyed by category, identifier and type, with variants selected by
    extra attributes (frame rate, height, width, source); and the builders the YAML
    parser fills.

    The list of the variants of a signal, linked through [next], is a list here: a
    configuration is in at most one list, and nothing but the registry changes [next]. *)
From S2P Require Import Prelude UrmTypes StdString AuxRoutines Resource UrmPlatformAL.
Open Scope string_scope.
Open Scope list_scope.
Open Scope Z_scope.

Definition SIGNAL_EXTRA_ATTRS_COUNT : Z := 4.
Definition SIGNAL_EXTRA_ATTR_FPS : nat := 0.
Definition SIGNAL_EXTRA_ATTR_HEIGHT : nat := 1.
Definition SIGNAL_EXTRA_ATTR_WIDTH : nat := 2.
Definition SIGNAL_EXTRA_ATTR_SRC_ELEMENT : nat := 3.

(** [std::numeric_limits<int>::min()] *)
Definition NSIG_PLACEHOLDER : Z := min_s 32.

Record SignalInfo := mkSignalInfo {
  mSignalCategory : Z;                          (* uint8_t *)
  mSignalID : Z;                                (* uint16_t *)
  mSigType : Z;                                 (* uint32_t *)
  mSignalName : string;
  mTimeout : Z;                                 (* int32_t *)
  mPermissions : option (list Z);
  mDerivatives : option (list string);
  mExtraAttrs : list Z;                         (* uint32_t[4] *)
  mHasExtraAttrs : bool;
  mSignalResources : option (list (option Resource))
}.

Record SignalConf := mkSignalConf {
  mSignalInfo : option SignalInfo;
  mFeatureSignals : list SignalInfo
}.

Definition SignalConf_init : SignalConf := mkSignalConf None [].

Record SignalRegistry := mkSR {
  mTotalSignals : Z;                            (* int32_t *)
  mSignalsConfigs : gmap Z SignalConf
}.

Definition SignalRegistry_init : SignalRegistry := mkSR 0 ∅.

(** ** Registration *)
Definition isSignalConfigMalformed (sConf : option SignalInfo) : bool :=
  match sConf with
  | None => true
  | Some s => mSignalCategory s =? 0
  end.

(** The number of attributes among the first [n] that [hit] accepts; both arrays are
    read at each of these indices. *)
Fixpoint score (hit : Z -> Z -> bool) (n : nat) (candidate extraAttrs : list Z) : result Z :=
  match n, candidate, extraAttrs with
  | O, _, _ => Ok 0
  | S n, c :: cs, e :: es =>
    s ← score hit n cs es; Ok (if hit c e then s + 1 else s)
  | S _, _, _ => Fault OutOfRange
  end.

Definition isDuplicateConfig (src dest : SignalInfo) : result bool :=
  matchCount ← score Z.eqb (Z.to_nat SIGNAL_EXTRA_ATTRS_COUNT) (mExtraAttrs src) (mExtraAttrs dest);
  Ok (matchCount =? SIGNAL_EXTRA_ATTRS_COUNT).

(** The duplicate is replaced where it stands; the boolean is [isOverriden]. *)
Fixpoint replace_duplicate (signalInfo : SignalInfo) (l : list SignalInfo)
  : result (list SignalInfo * bool) :=
  match l with
  | [] => Ok ([], false)
  | curInfo :: l =>
    dup ← isDuplicateConfig curInfo signalInfo;
    if (dup : bool) then Ok (signalInfo :: l, true) else
    '(l, isOverriden) ← replace_duplicate signalInfo l; Ok (curInfo :: l, isOverriden)
  end.

Definition addToFeaturedSigList (featureHead : list SignalInfo) (signalInfo : SignalInfo)
  : result (list SignalInfo * bool) :=
  '(l, isOverriden) ← replace_duplicate signalInfo featureHead;
  Ok (if (isOverriden : bool) then (l, true) else (signalInfo :: featureHead, false)).

(** The 64-bit key of a configuration. *)
Definition signalBitmap (s : SignalInfo) : Z :=
  let bitmap := Z.lor (Z.lor 0 (mSignalID s)) (wrap_u 32 (Z.shiftl (mSignalCategory s) 16)) in
  Z.lor (wrap_u 64 (Z.shiftl bitmap 32)) (mSigType s).

Definition registerSignal (p : option SignalInfo) (r : SignalRegistry) : result SignalRegistry :=
  if isSignalConfigMalformed p then Ok r else
  signalInfo ← deref p;
  let '(conf, configs) := map_index SignalConf_init (signalBitmap signalInfo) (mSignalsConfigs r) in
  '(conf, isOveridden) ←
    (if mHasExtraAttrs signalInfo then
       match mFeatureSignals conf with
       | [] => Ok (mkSignalConf (mSignalInfo conf) [signalInfo], false)
       | l =>
         '(l, isOveridden) ← addToFeaturedSigList l signalInfo;
         Ok (mkSignalConf (mSignalInfo conf) l, isOveridden)
       end
     else Ok (mkSignalConf (Some signalInfo) (mFeatureSignals conf),
              bool_decide (is_Some (mSignalInfo conf))));
  total ← (if (isOveridden : bool) then Ok (mTotalSignals r) else chk_s 32 (mTotalSignals r + 1));
  Ok (mkSR total (<[signalBitmap signalInfo := conf]> configs)).

(** ** Lookup *)

(** One pass over the candidates: a strictly better score replaces the best one. *)
Fixpoint best_pass (hit : Z -> Z -> bool) (n : nat) (extraAttrs : list Z)
    (candidates : list SignalInfo) (bestScore : Z) (bestMatch : option SignalInfo)
  : result (Z * option SignalInfo) :=
  match candidates with
  | [] => Ok (bestScore, bestMatch)
  | c :: candidates =>
    s ← score hit n (mExtraAttrs c) extraAttrs;
    if s >? bestScore then best_pass hit n extraAttrs candidates s (Some c)
    else best_pass hit n extraAttrs candidates bestScore bestMatch
  end.

(** Within 20 per cent, computed on 64 bits. *)
Definition near (candidate attr : Z) : bool :=
  let lowerBound := wrap_u 64 (attr * 80) in
  let upperBound := wrap_u 64 (attr * 120) in
  let candidateValue := wrap_u 64 (candidate * 100) in
  (candidateValue >=? lowerBound) && (candidateValue <=? upperBound).

(** The second component says whether [extraAttrs] has been freed. *)
Definition findBestExtraAttrsMatch (featureSignalHead : list SignalInfo) (numArgs : Z)
    (extraAttrs : option (list Z)) : result (option SignalInfo * bool) :=
  match extraAttrs with
  | None => Ok (None, false)
  | Some attrs =>
    let limit := Z.min numArgs SIGNAL_EXTRA_ATTRS_COUNT in
    '(bestScore, bestMatch) ←
      best_pass Z.eqb (Z.to_nat limit) attrs featureSignalHead (-1) None;
    if bestScore =? limit then Ok (bestMatch, false) else
    '(_, bestMatch) ←
      best_pass near (Z.to_nat limit) attrs featureSignalHead bestScore bestMatch;
    Ok (match bestMatch with Some s => Some s | None => head featureSignalHead end, true)
  end.

Definition getSignalConfigById (sigCode numArgs : Z) (extraAttrs : option (list Z))
    (r : SignalRegistry) : result (option SignalInfo * bool) :=
  match mSignalsConfigs r !! sigCode with
  | None => Ok (None, false)
  | Some conf =>
    match extraAttrs with
    | None =>
      Ok (match mSignalInfo conf with
          | Some s => Some s
          | None => head (mFeatureSignals conf)
          end, false)
    | Some _ =>
      match mFeatureSignals conf with
      | [] => Ok (mSignalInfo conf, false)
      | l => findBestExtraAttrsMatch l numArgs extraAttrs
      end
    end
  end.

Definition getSignalConfigByIdAndType (sigId sigType numArgs : Z) (extraAttrs : option (list Z))
    (r : SignalRegistry) : result (option SignalInfo * bool) :=
  getSignalConfigById (Z.lor (wrap_u 64 (Z.shiftl sigId 32)) sigType) numArgs extraAttrs r.

Definition getSignalsConfigCount (r : SignalRegistry) : Z := mTotalSignals r.

(** ** SignalInfoBuilder *)
Record SignalInfoBuilder := mkSB {
  mTargetRefCount : Z;
  mInfo : option SignalInfo   (* mSignalInfo *)
}.

Definition unsupportedResoure : Z := -2.

Definition SignalInfoBuilder_init (alloc : bool) : SignalInfoBuilder :=
  mkSB 0 (if alloc
          then Some (mkSignalInfo 0 0 0 "" 1 None None [0; 0; 0; 0] false None)
          else None).

Definition info_category v s := mkSignalInfo v (mSignalID s) (mSigType s) (mSignalName s)
  (mTimeout s) (mPermissions s) (mDerivatives s) (mExtraAttrs s) (mHasExtraAttrs s)
  (mSignalResources s).
Definition info_id v s := mkSignalInfo (mSignalCategory s) v (mSigType s) (mSignalName s)
  (mTimeout s) (mPermissions s) (mDerivatives s) (mExtraAttrs s) (mHasExtraAttrs s)
  (mSignalResources s).
Definition info_type v s := mkSignalInfo (mSignalCategory s) (mSignalID s) v (mSignalName s)
  (mTimeout s) (mPermissions s) (mDerivatives s) (mExtraAttrs s) (mHasExtraAttrs s)
  (mSignalResources s).
Definition info_name v s := mkSignalInfo (mSignalCategory s) (mSignalID s) (mSigType s) v
  (mTimeout s) (mPermissions s) (mDerivatives s) (mExtraAttrs s) (mHasExtraAttrs s)
  (mSignalResources s).
Definition info_timeout v s := mkSignalInfo (mSignalCategory s) (mSignalID s) (mSigType s)
  (mSignalName s) v (mPermissions s) (mDerivatives s) (mExtraAttrs s) (mHasExtraAttrs s)
  (mSignalResources s).
Definition info_permissions v s := mkSignalInfo (mSignalCategory s) (mSignalID s) (mSigType s)
  (mSignalName s) (mTimeout s) v (mDerivatives s) (mExtraAttrs s) (mHasExtraAttrs s)
  (mSignalResources s).
Definition info_derivatives v s := mkSignalInfo (mSignalCategory s) (mSignalID s) (mSigType s)
  (mSignalName s) (mTimeout s) (mPermissions s) v (mExtraAttrs s) (mHasExtraAttrs s)
  (mSignalResources s).
Definition info_attr (i : nat) v s := mkSignalInfo (mSignalCategory s) (mSignalID s) (mSigType s)
  (mSignalName s) (mTimeout s) (mPermissions s) (mDerivatives s) (<[i := v]> (mExtraAttrs s))
  (mHasExtraAttrs s) (mSignalResources s).
Definition info_hasAttrs v s := mkSignalInfo (mSignalCategory s) (mSignalID s) (mSigType s)
  (mSignalName s) (mTimeout s) (mPermissions s) (mDerivatives s) (mExtraAttrs s) v
  (mSignalResources s).
Definition info_resources v s := mkSignalInfo (mSignalCategory s) (mSignalID s) (mSigType s)
  (mSignalName s) (mTimeout s) (mPermissions s) (mDerivatives s) (mExtraAttrs s)
  (mHasExtraAttrs s) v.

(** A setter of the builder: nothing happens without a configuration. *)
Definition on_info (b : SignalInfoBuilder) (f : SignalInfo -> ErrCode * SignalInfo)
  : ErrCode * SignalInfoBuilder :=
  match mInfo b with
  | None => (RC_MEMORY_ALLOCATION_FAILURE, b)
  | Some s => let '(rc, s) := f s in (rc, mkSB (mTargetRefCount b) (Some s))
  end.

(** A number cut to the width of its member, which is first reset. *)
Definition set_number (parse : string -> stox) (cut : Z -> Z)
    (upd : Z -> SignalInfo -> SignalInfo) (str : string) (b : SignalInfoBuilder) :=
  on_info b (fun s =>
    match parse str with
    | inl v => (RC_SUCCESS, upd (cut v) s)
    | inr _ => (RC_INVALID_VALUE, upd 0 s)
    end).
Definition setSignalID := set_number (stoi 0) (wrap_u 16) info_id.
Definition setSignalCategory := set_number (stoi 0) (wrap_u 8) info_category.
Definition setSignalType := set_number (stol 0) (wrap_u 32) info_type.

Definition setName (signalName : string) (b : SignalInfoBuilder) :=
  on_info b (fun s => (RC_SUCCESS, info_name signalName s)).

Definition setTimeout (timeoutString : string) (b : SignalInfoBuilder) :=
  on_info b (fun s =>
    match stoi 10 timeoutString with
    | inl v => (RC_SUCCESS, info_timeout v s)
    | inr _ => (RC_INVALID_VALUE, s)
    end).

Definition setIsEnabled (isEnabledString : string) (b : SignalInfoBuilder) :=
  match mInfo b with
  | None => (RC_MEMORY_ALLOCATION_FAILURE, b)
  | Some _ =>
    (RC_SUCCESS,
     if String.eqb isEnabledString "true" then b else mkSB unsupportedResoure (mInfo b))
  end.

(** [v->push_back(x)] on a vector that is allocated first if it is null: [alloc] is the
    outcome of that allocation, [grow] that of the element's. *)
Definition push_new {A} (alloc grow : bool) (x : A) (v : option (list A))
  : option (list A) * bool :=
  match v, alloc with
  | None, false => (None, false)
  | _, _ => let l := default [] v in (Some (if grow then l ++ [x] else l), grow)
  end.

Definition addPermission (alloc grow : bool) (permissionString : string)
    (b : SignalInfoBuilder) :=
  on_info b (fun s =>
    let perms := match mPermissions s with
                 | Some l => Some l
                 | None => if alloc then Some [] else None
                 end in
    let permission :=
      if String.eqb permissionString "system" then Some PERMISSION_SYSTEM
      else if String.eqb permissionString "third_party" then Some PERMISSION_THIRD_PARTY
      else if (String.length permissionString =? 0)%nat then Some PERMISSION_THIRD_PARTY
      else None in
    match permission with
    | None => (RC_INVALID_VALUE, info_permissions perms s)
    | Some p =>
      let '(perms, ok) := push_new alloc grow p perms in
      (if ok : bool then RC_SUCCESS else RC_INVALID_VALUE, info_permissions perms s)
    end).

(** The reference count of the targets: [-1] not for this target, [1] for it. *)
Definition add_target (first hit : Z) (cfg : TargetConfigs) (target : string)
    (b : SignalInfoBuilder) : ErrCode * SignalInfoBuilder :=
  match mInfo b with
  | None => (RC_MEMORY_ALLOCATION_FAILURE, b)
  | Some _ =>
    if mTargetRefCount b =? unsupportedResoure then (RC_RESOURCE_NOT_SUPPORTED, b) else
    let n := if mTargetRefCount b =? 0 then first else mTargetRefCount b in
    let n := if String.eqb target (targetName cfg) then hit else n in
    (RC_SUCCESS, mkSB n (mInfo b))
  end.
Definition addTargetEnabled := add_target (-1) 1.
Definition addTargetDisabled := add_target 1 (-1).

Definition addDerivative (alloc grow : bool) (derivative : string) (b : SignalInfoBuilder) :=
  on_info b (fun s =>
    let '(l, ok) := push_new alloc grow derivative (mDerivatives s) in
    (if ok : bool then RC_SUCCESS else RC_INVALID_VALUE, info_derivatives l s)).

Definition addResource (alloc grow : bool) (resource : option Resource) (b : SignalInfoBuilder) :=
  match resource with
  | None => (RC_MEMORY_ALLOCATION_FAILURE, b)
  | Some _ =>
    on_info b (fun s =>
      let '(l, ok) := push_new alloc grow resource (mSignalResources s) in
      (match l with
       | None => RC_MEMORY_ALLOCATION_FAILURE
       | Some _ => if ok : bool then RC_SUCCESS else RC_INVALID_VALUE
       end, info_resources l s))
  end.

Definition markExtraAttrsPresent (b : SignalInfoBuilder) : SignalInfoBuilder :=
  match mInfo b with
  | None => b
  | Some s => mkSB (mTargetRefCount b) (Some (info_hasAttrs true s))
  end.

Definition set_attr (i : nat) (str : string) (b : SignalInfoBuilder) :=
  on_info b (fun s =>
    match stoul 0 str with
    | inl v => (RC_SUCCESS, info_attr i (wrap_u 32 v) s)
    | inr _ => (RC_INVALID_VALUE, s)
    end).
Definition setFps := set_attr SIGNAL_EXTRA_ATTR_FPS.
Definition setHeight := set_attr SIGNAL_EXTRA_ATTR_HEIGHT.
Definition setWidth := set_attr SIGNAL_EXTRA_ATTR_WIDTH.

Definition setMmSrc (srcString : string) (b : SignalInfoBuilder) :=
  on_info b (fun s =>
    let lowSrcString := toLowerCase srcString in
    let v := if String.eqb lowSrcString "qtiqmmfsrc" then 1
             else if String.eqb lowSrcString "libcamerasrc" then 2 else 0 in
    (RC_SUCCESS, info_attr SIGNAL_EXTRA_ATTR_SRC_ELEMENT v s)).

Definition build (b : SignalInfoBuilder) : option SignalInfo := mInfo b.

(** ** ResourceBuilder *)
Record ResourceBuilder := mkResB { mResource : option Resource }.

Definition ResourceBuilder_init (alloc : bool) : ResourceBuilder :=
  mkResB (if alloc then Some Resource_init else None).

(** A code given as a number or, failing that, by its name. *)
Definition parse_code (parse : string -> stox) (str : string) : option Z :=
  match parse str with
  | inl v => Some v
  | inr _ => let '(code, found) := getResCodeFromString str in
             if found : bool then Some code else None
  end.

Definition on_resource (b : ResourceBuilder) (f : Resource -> ErrCode * Resource)
  : ErrCode * ResourceBuilder :=
  match mResource b with
  | None => (RC_MEMORY_ALLOCATION_FAILURE, b)
  | Some r => let '(rc, r) := f r in (rc, mkResB (Some r))
  end.

Definition setResCode (resCodeString : string) (b : ResourceBuilder) :=
  on_resource b (fun r =>
    match parse_code (stol 0) resCodeString with
    | Some resCode => (RC_SUCCESS, Resource.setResCode (wrap_u 32 resCode) r)
    | None => (RC_INVALID_VALUE, r)
    end).

Definition setResInfo (resInfoString : string) (b : ResourceBuilder) :=
  on_resource b (fun r =>
    match parse_code (stoi 0) resInfoString with
    | Some resInfo => (RC_SUCCESS, Resource.setResInfo (wrap_s 32 resInfo) r)
    | None => (RC_INVALID_VALUE, r)
    end).

Definition setNumValues (alloc : bool) (valuesCount : Z) (b : ResourceBuilder) :=
  on_resource b (fun r => (RC_SUCCESS, Resource.setNumValues alloc valuesCount r)).

Definition addValue (index : Z) (valueString : string) (b : ResourceBuilder)
  : result (ErrCode * ResourceBuilder) :=
  match mResource b with
  | None => Ok (RC_MEMORY_ALLOCATION_FAILURE, b)
  | Some r =>
    match (if String.eqb valueString "%d" then inl NSIG_PLACEHOLDER else stoi 10 valueString) with
    | inr _ => Ok (RC_INVALID_VALUE, b)
    | inl value =>
      '(_, r) ← Resource.setValueAt index value r;
      Ok (RC_SUCCESS, mkResB (Some r))
    end
  end.

Definition buildResource (b : ResourceBuilder) : option Resource := mResource b.

(** ** Well-formed configurations and the scores *)
Record info_ok (s : SignalInfo) : Prop := {
  io_category : in_u 8 (mSignalCategory s);
  io_id : in_u 16 (mSignalID s);
  io_type : in_u 32 (mSigType s);
  io_attrs : length (mExtraAttrs s) = 4%nat /\ Forall (in_u 32) (mExtraAttrs s)
}.

Lemma score_total hit : forall n c e, (n <= length c)%nat -> (n <= length e)%nat ->
  exists v, score hit n c e = Ok v /\ 0 <= v <= Z.of_nat n /\
    (v = Z.of_nat n <-> Forall2 (fun x y => hit x y = true) (take n c) (take n e)).
Proof.
  induction n as [|n IH]; intros c e Hc He.
  - exists 0. split_and!; [done|lia|lia|]. split; [constructor|done].
  - destruct c as [|x c], e as [|y e]; cbn in Hc, He; try lia.
    destruct (IH c e) as (v & E & Hv & Hall); [lia|lia|]. cbn [score take]. rewrite E.
    cbn [mbind result_bind]. destruct (hit x y) eqn:Eh; eexists; (split; [reflexivity|]);
      (split; [lia|]); rewrite Forall2_cons, Eh; split.
    + intros ?. split; [done|]. apply Hall. lia.
    + intros [_ H%Hall]. lia.
    + intros ?. lia.
    + by intros [? _].
Qed.

Lemma score_mono (hit hit' : Z -> Z -> bool) : forall n c e v v',
  Forall2 (fun x y => hit x y = true -> hit' x y = true) (take n c) (take n e) ->
  score hit n c e = Ok v -> score hit' n c e = Ok v' -> v <= v'.
Proof.
  induction n as [|n IH]; intros c e v v' Hh E E'; cbn [score] in E, E'.
  - injection E as <-. injection E' as <-. lia.
  - destruct c as [|x c], e as [|y e]; try done. cbn [take] in Hh. apply Forall2_cons in Hh as [H1 Hh].
    apply bind_ok in E as (w & E & Hv). apply bind_ok in E' as (w' & E' & Hv').
    pose proof (IH _ _ _ _ Hh E E'). injection Hv as <-. injection Hv' as <-.
    destruct (hit x y); [rewrite H1 by done|destruct (hit' x y)]; lia.
Qed.

Lemma Forall2_eqb (l k : list Z) : Forall2 (fun x y => (x =? y) = true) l k <-> l = k.
Proof.
  split.
  - induction 1 as [|x y l k H _ ->]; [done|]. zb. by subst.
  - intros <-. induction l; constructor; [apply Z.eqb_refl|done].
Qed.

Lemma isDuplicateConfig_spec s t :
  info_ok s -> info_ok t ->
  isDuplicateConfig s t = Ok (bool_decide (mExtraAttrs s = mExtraAttrs t)).
Proof.
  intros Hs Ht. destruct (io_attrs _ Hs) as [Ls _], (io_attrs _ Ht) as [Lt _].
  unfold isDuplicateConfig. change (Z.to_nat SIGNAL_EXTRA_ATTRS_COUNT) with 4%nat.
  destruct (score_total Z.eqb 4 (mExtraAttrs s) (mExtraAttrs t)) as (v & -> & Hv & Hall); [lia|lia|].
  cbn [mbind result_bind]. f_equal.
  rewrite Forall2_eqb, !take_ge in Hall by lia. unfold SIGNAL_EXTRA_ATTRS_COUNT.
  apply eq_bool_prop_intro. rewrite bool_decide_spec, <- Hall. split.
  - intros H%Is_true_true. zb. lia.
  - intros ->. done.
Qed.

(** ** Replacement in the list of variants *)
Lemma replace_duplicate_spec s : info_ok s -> forall l, Forall info_ok l ->
  exists l' b, replace_duplicate s l = Ok (l', b) /\
    b = bool_decide (mExtraAttrs s ∈ map mExtraAttrs l) /\
    map mExtraAttrs l' = map mExtraAttrs l /\
    (NoDup (map mExtraAttrs l) -> forall x, x ∈ l' <->
       (b = true /\ x = s) \/ (x ∈ l /\ mExtraAttrs x <> mExtraAttrs s)).
Proof.
  intros Hs. induction l as [|y l IH]; intros Hl.
  - exists [], false. split_and!; try done. intros _ x. rewrite elem_of_nil. naive_solver.
  - apply Forall_cons in Hl as [Hy Hl]. cbn [replace_duplicate map].
    rewrite isDuplicateConfig_spec by done. cbn [mbind result_bind].
    destruct (decide (mExtraAttrs y = mExtraAttrs s)) as [Ed|Ed]; [rewrite bool_decide_true by done|rewrite bool_decide_false by done].
    + exists (s :: l), true. split_and!; [reflexivity| |cbn; by rewrite Ed|].
      * symmetry. apply bool_decide_eq_true. rewrite Ed. apply elem_of_cons. by left.
      * intros [Hn _]%NoDup_cons x. rewrite !elem_of_cons. split.
        -- intros [->|Hx]; [by left|right]. split; [by right|]. intros E. apply Hn.
           rewrite Ed, <- E. by apply list_elem_of_fmap_2.
        -- intros [[_ ->]|[[->|Hx] Hne]]; [by left|done|by right].
    + destruct (IH Hl) as (l' & b & -> & Eb & Em & Hin). cbn [mbind result_bind].
      exists (y :: l'), b. split_and!; [done| |cbn; congruence|].
      * rewrite Eb. apply bool_decide_ext. rewrite elem_of_cons. naive_solver.
      * intros [_ Hn]%NoDup_cons x. rewrite !elem_of_cons, (Hin Hn). naive_solver.
Qed.

(** ** The registry as a map

    The abstract registry maps the key of a signal and its variant, the extra attributes
    if it has any, to the last configuration registered for it. *)
Abbreviation SignalMap := (gmap (Z * option (list Z)) SignalInfo).

Definition variant (s : SignalInfo) : Z * option (list Z) :=
  (signalBitmap s, if mHasExtraAttrs s then Some (mExtraAttrs s) else None).

Definition spec_register (m : SignalMap) (p : option SignalInfo) : SignalMap :=
  match p with
  | None => m
  | Some s => if mSignalCategory s =? 0 then m else <[variant s := s]> m
  end.

Definition conf_at (k : Z) (r : SignalRegistry) : SignalConf :=
  default SignalConf_init (mSignalsConfigs r !! k).

Record conf_rel (k : Z) (c : SignalConf) (m : SignalMap) : Prop := {
  cr_default : m !! (k, None) = mSignalInfo c;
  cr_variants : forall a s, m !! (k, Some a) = Some s <-> s ∈ mFeatureSignals c /\ mExtraAttrs s = a;
  cr_nodup : NoDup (map mExtraAttrs (mFeatureSignals c));
  cr_ok : Forall info_ok (mFeatureSignals c)
}.

Record reg_rel (r : SignalRegistry) (m : SignalMap) : Prop := {
  rr_conf : forall k, conf_rel k (conf_at k r) m;
  rr_total : mTotalSignals r = Z.of_nat (size m)
}.

Lemma reg_rel_init : reg_rel SignalRegistry_init ∅.
Proof.
  split; [|done]. intros k.
  assert (conf_at k SignalRegistry_init = SignalConf_init) as -> by done. split.
  - apply lookup_empty.
  - intros a s. rewrite lookup_empty, elem_of_nil. naive_solver.
  - constructor.
  - constructor.
Qed.

Lemma size_insert_Z (m : SignalMap) k s :
  Z.of_nat (size (<[k := s]> m)) =
  Z.of_nat (size m) + (if bool_decide (is_Some (m !! k)) then 0 else 1).
Proof.
  case_bool_decide as E.
  - destruct E as [x E]. rewrite (map_size_insert_Some k s) by eauto. lia.
  - rewrite map_size_insert_None by by apply eq_None_not_Some. lia.
Qed.

Lemma conf_rel_other k s c m :
  k <> signalBitmap s -> conf_rel k c m -> conf_rel k c (<[variant s := s]> m).
Proof.
  intros Hk [H1 H2 H3 H4]. assert (forall v, variant s <> (k, v)) as Hv by (unfold variant; congruence).
  split; try done.
  - by rewrite lookup_insert_ne.
  - intros a t. by rewrite lookup_insert_ne.
Qed.

(** The two cases of a registration, on the entry of the key. *)
Lemma conf_rel_default s c m :
  mHasExtraAttrs s = false -> conf_rel (signalBitmap s) c m ->
  conf_rel (signalBitmap s) (mkSignalConf (Some s) (mFeatureSignals c)) (<[variant s := s]> m).
Proof.
  intros Hx [H1 H2 H3 H4]. unfold variant. rewrite Hx. split; cbn; try done.
  - by rewrite lookup_insert_eq.
  - intros a t. by rewrite lookup_insert_ne.
Qed.

Lemma variants_elem (k : Z) c m a :
  conf_rel k c m -> is_Some (m !! (k, Some a)) <-> a ∈ map mExtraAttrs (mFeatureSignals c).
Proof.
  intros [_ H2 _ _]. rewrite list_elem_of_fmap. split.
  - intros [s [Hs Ha]%H2]. by exists s.
  - intros (s & -> & Hs). exists s. by apply H2.
Qed.

Lemma conf_rel_variant s c m :
  info_ok s -> mHasExtraAttrs s = true -> conf_rel (signalBitmap s) c m ->
  exists l', addToFeaturedSigList (mFeatureSignals c) s =
      Ok (l', bool_decide (is_Some (m !! variant s))) /\
    conf_rel (signalBitmap s) (mkSignalConf (mSignalInfo c) l') (<[variant s := s]> m).
Proof.
  intros Hs Hx Hc. pose proof (variants_elem _ _ _ (mExtraAttrs s) Hc) as Hel.
  destruct Hc as [H1 H2 H3 H4]. unfold addToFeaturedSigList, variant. rewrite Hx.
  destruct (replace_duplicate_spec s Hs _ H4) as (l' & b & E & Eb & Em & Hin). rewrite E.
  cbn [mbind result_bind]. assert (b = bool_decide (is_Some (m !! (signalBitmap s, Some (mExtraAttrs s))))) as Hb
    by (rewrite Eb; by apply bool_decide_ext).
  exists (if b then l' else s :: mFeatureSignals c).
  rewrite <- Hb. split; [by destruct b|]. subst b.
  assert (forall a t, (<[(signalBitmap s, Some (mExtraAttrs s)) := s]> m) !! (signalBitmap s, Some a) = Some t <->
    (a = mExtraAttrs s /\ t = s) \/ (a <> mExtraAttrs s /\ t ∈ mFeatureSignals c /\ mExtraAttrs t = a)) as Hlook.
  { intros a t. destruct (decide (a = mExtraAttrs s)) as [->|Hne].
    - rewrite lookup_insert_eq. naive_solver.
    - rewrite lookup_insert_ne by congruence. rewrite H2. naive_solver. }
  split; cbn; [by rewrite lookup_insert_ne| | |].
  - intros a t. rewrite Hlook. case_bool_decide as Hd.
    + rewrite (Hin H3). naive_solver.
    + rewrite elem_of_cons. assert (forall t, t ∈ mFeatureSignals c -> mExtraAttrs t <> mExtraAttrs s).
      { intros t' Ht Ee. apply Hd. rewrite <- Ee. by apply list_elem_of_fmap_2. }
      naive_solver.
  - case_bool_decide as Hd; [by rewrite Em|]. cbn. by constructor.
  - case_bool_decide as Hd; [|by constructor]. apply Forall_forall. intros t Ht. apply (Hin H3) in Ht.
    rewrite Forall_forall in H4. naive_solver.
Qed.

Lemma conf_at_insert k k' c t (g : gmap Z SignalConf) :
  conf_at k (mkSR t (<[k' := c]> g)) = if decide (k = k') then c else conf_at k (mkSR t g).
Proof.
  unfold conf_at. cbn [mSignalsConfigs]. case_decide as E; [subst; by rewrite lookup_insert_eq|].
  by rewrite lookup_insert_ne by congruence.
Qed.

Lemma conf_at_index k k' t (r : SignalRegistry) :
  conf_at k (mkSR t (map_index SignalConf_init k' (mSignalsConfigs r)).2) = conf_at k r.
Proof.
  unfold conf_at. cbn [mSignalsConfigs]. rewrite map_index_lookup. case_decide; [|done]. by subst.
Qed.

Lemma registerSignal_rel s r m :
  info_ok s -> mSignalCategory s <> 0 -> reg_rel r m -> Z.of_nat (size m) < max_s 32 ->
  exists r', registerSignal (Some s) r = Ok r' /\ reg_rel r' (<[variant s := s]> m).
Proof.
  intros Hs Hcat [Hc Ht] Hlt. unfold registerSignal, isSignalConfigMalformed.
  replace (mSignalCategory s =? 0) with false by lia. cbn [deref mbind result_bind].
  pose proof (Hc (signalBitmap s)) as Hk. pose proof (map_index_value SignalConf_init (signalBitmap s)
    (mSignalsConfigs r)) as Ev. fold (conf_at (signalBitmap s) r) in Ev.
  pose proof (fun k t => conf_at_index k (signalBitmap s) t r) as Hidx.
  destruct (map_index _ _ _) as [c g]. cbn [fst snd] in *. subst c.
  set (c := conf_at (signalBitmap s) r) in *.
  assert (exists c', (if mHasExtraAttrs s then
       match mFeatureSignals c with
       | [] => Ok (mkSignalConf (mSignalInfo c) [s], false)
       | l => '(l, isOveridden) ← addToFeaturedSigList l s; Ok (mkSignalConf (mSignalInfo c) l, isOveridden)
       end
     else Ok (mkSignalConf (Some s) (mFeatureSignals c), bool_decide (is_Some (mSignalInfo c)))) =
     Ok (c', bool_decide (is_Some (m !! variant s))) /\ conf_rel (signalBitmap s) c' (<[variant s := s]> m))
    as (c' & -> & Hc').
  { destruct (mHasExtraAttrs s) eqn:Ex.
    - destruct (conf_rel_variant s c m Hs Ex Hk) as (l' & E & Hl').
      exists (mkSignalConf (mSignalInfo c) l'). split; [|done].
      destruct (mFeatureSignals c) eqn:El; [|by rewrite E].
      unfold addToFeaturedSigList in E. cbn in E. injection E as <- Eb. by rewrite Eb.
    - eexists. split; [|by apply conf_rel_default]. unfold variant. rewrite Ex.
      by rewrite (cr_default _ _ _ Hk). }
  cbn [mbind result_bind]. pose proof (size_insert_Z m (variant s) s) as Hsz.
  assert ((if bool_decide (is_Some (m !! variant s)) then Ok (mTotalSignals r)
           else chk_s 32 (mTotalSignals r + 1)) = Ok (Z.of_nat (size (<[variant s := s]> m)))) as ->.
  { rewrite Hsz, Ht. case_bool_decide; [f_equal; lia|]. apply chk_s_ok. unfold in_s, max_s in *. lia. }
  cbn [mbind result_bind]. eexists. split; [done|]. split; [|done]. intros k.
  rewrite conf_at_insert. case_decide as Ek; [by subst|]. rewrite Hidx. by apply conf_rel_other.
Qed.

Definition register_all (l : list (option SignalInfo)) (r : SignalRegistry) : result SignalRegistry :=
  foldl (fun r p => r ← r; registerSignal p r) (Ok r) l.

Lemma spec_register_size m p :
  Z.of_nat (size m) <= Z.of_nat (size (spec_register m p)) <= Z.of_nat (size m) + 1.
Proof.
  destruct p as [s|]; cbn; [|lia]. case_if; [lia|]. rewrite size_insert_Z. case_bool_decide; lia.
Qed.

Lemma register_all_rel : forall l r m,
  Forall (fun p => forall s, p = Some s -> info_ok s) l -> reg_rel r m ->
  Z.of_nat (size m) + Z.of_nat (length l) <= max_s 32 ->
  exists r', register_all l r = Ok r' /\ reg_rel r' (foldl spec_register m l).
Proof.
  induction l as [|p l IH]; intros r m Hl Hr Hlt; [by exists r|].
  apply Forall_cons in Hl as [Hp Hl]. unfold register_all. cbn [foldl mbind result_bind length] in *.
  assert (exists r', registerSignal p r = Ok r' /\ reg_rel r' (spec_register m p)) as (r' & -> & Hr').
  { destruct p as [s|]; [|by exists r]. cbn. destruct (mSignalCategory s =? 0) eqn:Ec.
    - exists r. split; [|done]. unfold registerSignal, isSignalConfigMalformed. by rewrite Ec.
    - zb. apply registerSignal_rel; [by apply Hp|done|done|lia]. }
  pose proof (spec_register_size m p). apply IH; [done|done|lia].
Qed.

(** The key of a configuration is the one its signal code and type give. *)
Lemma signalBitmap_code s :
  info_ok s ->
  signalBitmap s =
  Z.lor (wrap_u 64 (Z.shiftl (CONSTRUCT_SIG_CODE (mSignalCategory s) (mSignalID s)) 32)) (mSigType s).
Proof.
  intros [Hc Hi _ _]. unfold signalBitmap, CONSTRUCT_SIG_CODE.
  rewrite pack_code_lt; [|unfold in_u in *; lia|done]. rewrite Z.lor_0_l.
  rewrite (wrap_u_id 32 (Z.shiftl (mSignalCategory s) 16)); [done|].
  apply testbit_in_u; [lia|]. intros i Hi'. zbits_core.
Qed.

(** ** The best variant *)
Lemma best_pass_spec hit n attrs : (n <= length attrs)%nat -> forall l b0 m0,
  Forall (fun s => (n <= length (mExtraAttrs s))%nat) l -> -1 <= b0 ->
  exists b m, best_pass hit n attrs l b0 m0 = Ok (b, m) /\ b0 <= b /\
    Forall (fun s => exists v, score hit n (mExtraAttrs s) attrs = Ok v /\ v <= b) l /\
    ((b = b0 /\ m = m0) \/
     (b0 < b /\ exists s, m = Some s /\ s ∈ l /\ score hit n (mExtraAttrs s) attrs = Ok b)).
Proof.
  intros Hn. induction l as [|c l IH]; intros b0 m0 Hl Hb; cbn [best_pass].
  - exists b0, m0. split_and!; [done|lia|constructor|by left].
  - apply Forall_cons in Hl as [Hc Hl].
    destruct (score_total hit n (mExtraAttrs c) attrs Hc Hn) as (v & Ev & Hv & _). rewrite Ev.
    cbn [mbind result_bind]. rewrite Z.gtb_ltb. destruct (Z.ltb_spec b0 v).
    + destruct (IH v (Some c) Hl) as (b & m & E & Hle & Hall & Hcase); [lia|]. exists b, m.
      split_and!; [done|lia|constructor; [exists v; split; [done|lia]|done]|]. right. split; [lia|].
      destruct Hcase as [[-> ->]|(_ & s & -> & Hs & Es)].
      * exists c. split_and!; [done|apply elem_of_cons; by left|done].
      * exists s. split_and!; [done|apply elem_of_cons; by right|done].
    + destruct (IH b0 m0 Hl Hb) as (b & m & E & Hle & Hall & Hcase). exists b, m.
      split_and!; [done|lia|constructor; [exists v; split; [done|lia]|done]|].
      destruct Hcase as [?|(? & s & -> & Hs & Es)]; [by left|right].
      split; [done|]. exists s. split_and!; [done|apply elem_of_cons; by right|done].
Qed.

Lemma near_refl c e : in_u 32 c -> (c =? e) = true -> near c e = true.
Proof.
  intros Hc E. zb. subst e. unfold near. unfold in_u in Hc.
  rewrite !wrap_u_id by (unfold in_u; lia). rewrite Z.geb_leb. apply andb_true_intro. lia.
Qed.

Lemma near_weaker n s attrs v v' :
  info_ok s -> (n <= 4)%nat -> (n <= length attrs)%nat ->
  score Z.eqb n (mExtraAttrs s) attrs = Ok v -> score near n (mExtraAttrs s) attrs = Ok v' -> v <= v'.
Proof.
  intros [_ _ _ [Hl Hu]] Hn Ha. apply score_mono.
  apply (Forall_take _ n) in Hu. remember (take n (mExtraAttrs s)) as cs eqn:Ec.
  assert (length cs = length (take n attrs)) as Hlen by (subst; rewrite !length_take; lia).
  clear Ec. revert Hlen. generalize (take n attrs) as es. induction cs as [|c cs IH]; intros [|e es] Hlen; try done.
  apply Forall_cons in Hu as [Hc Hu]. constructor; [by apply near_refl|]. apply IH; [done|]. cbn in Hlen. lia.
Qed.

(** The number of attributes compared. *)
Definition compared (numArgs : Z) : nat := Z.to_nat (Z.min numArgs SIGNAL_EXTRA_ATTRS_COUNT).

Definition exact (n : nat) (attrs : list Z) (s : SignalInfo) : Prop :=
  take n (mExtraAttrs s) = take n attrs.

Lemma exact_score n attrs s v :
  (n <= length (mExtraAttrs s))%nat -> (n <= length attrs)%nat ->
  score Z.eqb n (mExtraAttrs s) attrs = Ok v -> exact n attrs s <-> v = Z.of_nat n.
Proof.
  intros Hs Ha E. destruct (score_total Z.eqb n _ _ Hs Ha) as (v' & E' & _ & Hall).
  assert (v' = v) as -> by congruence. by rewrite Hall, Forall2_eqb.
Qed.

(** What the search returns on a list of variants. *)
Lemma findBest_spec l attrs numArgs :
  l <> [] -> Forall info_ok l -> 0 <= numArgs -> (compared numArgs <= length attrs)%nat ->
  exists best freed b, findBestExtraAttrsMatch l numArgs (Some attrs) = Ok (Some best, freed) /\
    best ∈ l /\ score near (compared numArgs) (mExtraAttrs best) attrs = Ok b /\
    Forall (fun s => exists v, score near (compared numArgs) (mExtraAttrs s) attrs = Ok v /\ v <= b) l /\
    (freed = false -> exact (compared numArgs) attrs best) /\
    (freed = true -> Forall (fun s => ~ exact (compared numArgs) attrs s) l).
Proof.
  intros Hne Hok Hna Hlen. unfold findBestExtraAttrsMatch. fold (compared numArgs).
  set (n := compared numArgs) in *.
  assert (Z.min numArgs SIGNAL_EXTRA_ATTRS_COUNT = Z.of_nat n) as ->
    by (unfold n, compared, SIGNAL_EXTRA_ATTRS_COUNT; lia).
  assert (n <= 4)%nat as Hn4 by (unfold n, compared, SIGNAL_EXTRA_ATTRS_COUNT; lia).
  assert (Forall (fun s => (n <= length (mExtraAttrs s))%nat) l) as Hls.
  { eapply Forall_impl; [exact Hok|]. intros s Hs. destruct (io_attrs _ Hs). lia. }
  destruct (best_pass_spec Z.eqb n attrs Hlen l (-1) None Hls) as (b1 & m1 & E1 & Hb1 & Hall1 & Hc1); [lia|].
  rewrite E1. cbn [mbind result_bind].
  assert (exists s, m1 = Some s /\ s ∈ l /\ score Z.eqb n (mExtraAttrs s) attrs = Ok b1) as (s & -> & Hs & Es).
  { destruct Hc1 as [[-> ->]|(_ & H)]; [|done]. destruct l as [|s l]; [done|].
    apply Forall_cons in Hall1 as [(v & Ev & Hv) _]. apply Forall_cons in Hls as [Hs _].
    destruct (score_total Z.eqb n _ _ Hs Hlen) as (v' & Ev' & ? & _). assert (v' = v) by congruence. lia. }
  assert (forall t, t ∈ l -> info_ok t /\ (n <= length (mExtraAttrs t))%nat) as Hin.
  { intros t Ht. split; [by eapply Forall_forall in Hok|by eapply Forall_forall in Hls]. }
  destruct (Hin s Hs) as [Hsok Hsl].
  destruct (score_total near n _ _ Hsl Hlen) as (w & Ew & Hw & _).
  pose proof (near_weaker n s attrs b1 w Hsok Hn4 Hlen Es Ew) as Hmono.
  destruct (Z.eqb_spec b1 (Z.of_nat n)) as [->|Hb].
  - exists s, false, w. split_and!; try done; [|intros _; by apply (exact_score n attrs s (Z.of_nat n))].
    apply Forall_forall. intros t Ht. destruct (Hin t Ht) as [_ Htl].
    destruct (score_total near n _ _ Htl Hlen) as (v & Ev & Hv & _). exists v. split; [done|lia].
  - assert (-1 <= b1) as Hge by lia.
    destruct (best_pass_spec near n attrs Hlen l b1 (Some s) Hls Hge) as (b2 & m2 & E2 & Hb2 & Hall2 & Hc2).
    rewrite E2. cbn [mbind result_bind].
    assert (exists t, m2 = Some t /\ t ∈ l /\ score near n (mExtraAttrs t) attrs = Ok b2) as (t & -> & Ht & Et).
    { destruct Hc2 as [[-> ->]|(_ & H)]; [|done]. exists s. split_and!; [done|done|].
      eapply Forall_forall in Hall2 as (v & Ev & Hv); [|exact Hs]. rewrite Ew in Ev.
      injection Ev as <-. rewrite Ew. f_equal. lia. }
    exists t, true, b2. split_and!; try done. intros _. apply Forall_forall. intros u Hu.
    destruct (Hin u Hu) as [_ Hul]. eapply Forall_forall in Hall1 as (v & Ev & Hv); [|exact Hu].
    rewrite (exact_score n attrs u v Hul Hlen Ev). lia.
Qed.

(** ** Keys determine category, identifier and type *)
Definition sig_key (cat id ty : Z) : Z :=
  Z.lor (wrap_u 64 (Z.shiftl (CONSTRUCT_SIG_CODE cat id) 32)) ty.

Lemma sig_key_fields cat id ty :
  in_u 8 cat -> in_u 16 id -> in_u 32 ty ->
  Z.land (sig_key cat id ty) (Z.ones 32) = ty /\
  Z.land (Z.shiftr (sig_key cat id ty) 32) (Z.ones 16) = id /\
  Z.land (Z.shiftr (sig_key cat id ty) 48) (Z.ones 8) = cat.
Proof.
  intros Hc Hi Ht. unfold sig_key, CONSTRUCT_SIG_CODE.
  rewrite pack_code_lt by (done || (unfold in_u in *; lia)). unfold wrap_u. split_and!; zbits.
Qed.

Lemma sig_key_inj cat id ty cat' id' ty' :
  in_u 8 cat -> in_u 16 id -> in_u 32 ty -> in_u 8 cat' -> in_u 16 id' -> in_u 32 ty' ->
  sig_key cat id ty = sig_key cat' id' ty' -> cat = cat' /\ id = id' /\ ty = ty'.
Proof.
  intros H1 H2 H3 H4 H5 H6 E.
  destruct (sig_key_fields cat id ty) as (E1 & E2 & E3); [done..|].
  destruct (sig_key_fields cat' id' ty') as (F1 & F2 & F3); [done..|]. rewrite E in *. split_and!; congruence.
Qed.

Lemma spec_register_keys l :
  Forall (fun p => forall s, p = Some s -> info_ok s) l ->
  forall k s, foldl spec_register ∅ l !! k = Some s -> variant s = k /\ info_ok s.
Proof.
  intros Hl. revert Hl. cut (forall m : SignalMap, (forall k s, m !! k = Some s -> variant s = k /\ info_ok s) ->
    Forall (fun p => forall s, p = Some s -> info_ok s) l ->
    forall k s, foldl spec_register m l !! k = Some s -> variant s = k /\ info_ok s).
  { intros H Hl. apply H; [|done]. intros k s. by rewrite lookup_empty. }
  induction l as [|p l IH]; intros m Hm Hl; [done|]. apply Forall_cons in Hl as [Hp Hl].
  cbn [foldl]. apply IH; [|done]. intros k s. destruct p as [t|]; cbn; [|apply Hm].
  case_if; [apply Hm|]. destruct (decide (k = variant t)) as [->|Hne].
  - rewrite lookup_insert_eq. intros [= ->]. by split; [|apply Hp].
  - rewrite lookup_insert_ne by congruence. apply Hm.
Qed.

(** Looking up a configuration, in terms of the entry of the key. *)
Lemma lookup_conf sigId ty n attrs r :
  getSignalConfigByIdAndType sigId ty n attrs r =
  let c := conf_at (Z.lor (wrap_u 64 (Z.shiftl sigId 32)) ty) r in
  match attrs with
  | None => Ok (match mSignalInfo c with Some s => Some s | None => head (mFeatureSignals c) end, false)
  | Some _ => match mFeatureSignals c with
              | [] => Ok (mSignalInfo c, false)
              | l => findBestExtraAttrsMatch l n attrs
              end
  end.
Proof.
  unfold getSignalConfigByIdAndType, getSignalConfigById, conf_at.
  destruct (mSignalsConfigs r !! _) as [c|]; cbn; by destruct attrs.
Qed.

(** ** Properties *)

(** C22: the registry of signals is a map.  After any sequence of registrations, malformed ones
    included, the count is the number of distinct signals and variants registered; and
    a lookup by code and type returns the last configuration registered without extra
    attributes under that category, identifier and type, or else one of its variants, or
    nothing when there is none.  A configuration is never found under another category,
    identifier or type. *)
Theorem SignalRegistry_refines_map (l : list (option SignalInfo)) (cat id ty : Z) :
  Forall (fun p => forall s, p = Some s -> info_ok s) l -> Z.of_nat (length l) <= max_s 32 ->
  in_u 8 cat -> in_u 16 id -> in_u 32 ty ->
  let m := foldl spec_register ∅ l in
  exists r x, register_all l SignalRegistry_init = Ok r /\
    getSignalsConfigCount r = Z.of_nat (size m) /\
    getSignalConfigByIdAndType (CONSTRUCT_SIG_CODE cat id) ty 0 None r = Ok (x, false) /\
    match m !! (sig_key cat id ty, None), x with
    | Some s, _ => x = Some s
    | None, Some s => m !! (sig_key cat id ty, Some (mExtraAttrs s)) = Some s
    | None, None => forall a, m !! (sig_key cat id ty, Some a) = None
    end /\
    (forall s, x = Some s -> mSignalCategory s = cat /\ mSignalID s = id /\ mSigType s = ty).
Proof.
  intros Hl Hlen Hc Hi Ht m.
  destruct (register_all_rel l SignalRegistry_init ∅ Hl reg_rel_init) as (r & E & [Hr Hn]); [done|].
  destruct (Hr (sig_key cat id ty)) as [H1 H2 _ _]. exists r. eexists.
  split; [done|]. split; [done|]. split; [by rewrite lookup_conf|].
  fold (sig_key cat id ty). fold m in H1, H2.
  assert (match m !! (sig_key cat id ty, None),
     (match mSignalInfo (conf_at (sig_key cat id ty) r) with Some s => Some s
      | None => head (mFeatureSignals (conf_at (sig_key cat id ty) r)) end) with
    | Some s, x => x = Some s
    | None, Some s => m !! (sig_key cat id ty, Some (mExtraAttrs s)) = Some s
    | None, None => forall a, m !! (sig_key cat id ty, Some a) = None
    end) as Hx.
  { rewrite H1. destruct (mSignalInfo _) as [s|]; [done|]. destruct (mFeatureSignals _) as [|s ss] eqn:Ef; cbn.
    - intros a. apply eq_None_not_Some. intros [s Hs]. apply H2 in Hs as [Hs _]. by apply elem_of_nil in Hs.
    - apply H2. split; [apply elem_of_cons; by left|done]. }
  split; [exact Hx|]. intros s Es. rewrite Es in Hx.
  assert (exists v, m !! (sig_key cat id ty, v) = Some s) as [v Hv].
  { destruct (m !! (sig_key cat id ty, None)) eqn:Em; [|by eexists]. exists None. by rewrite Em, Hx. }
  apply (spec_register_keys l Hl) in Hv as [Hv Hs]. pose proof Hs as [? ? ? _].
  unfold variant in Hv. injection Hv as Hk _. rewrite (signalBitmap_code s Hs) in Hk.
  fold (sig_key (mSignalCategory s) (mSignalID s) (mSigType s)) in Hk. by apply sig_key_inj in Hk.
Qed.

Definition sample_info (ty : Z) (attrs : option (list Z)) : SignalInfo :=
  mkSignalInfo 13 16 ty "TEST" 6000 (Some [PERMISSION_SYSTEM]) None (default [0; 0; 0; 0] attrs)
    (bool_decide (is_Some attrs)) None.

Lemma sample_info_ok ty attrs :
  in_u 32 ty -> length (default [0; 0; 0; 0] attrs) = 4%nat ->
  Forall (in_u 32) (default [0; 0; 0; 0] attrs) -> info_ok (sample_info ty attrs).
Proof. intros. split; cbn; try done; unfold in_u; lia. Qed.

Ltac u32s := repeat (apply Forall_cons_2; [unfold in_u; lia|]); apply Forall_nil_2.

Lemma SignalRegistry_refines_map_witness :
  exists r, register_all [Some (sample_info 0 None); None; Some (sample_info 0 (Some [30; 2160; 3840; 0]));
                          Some (sample_info 1 None); Some (sample_info 0 (Some [30; 2160; 3840; 0]))]
              SignalRegistry_init = Ok r /\ getSignalsConfigCount r = 3.
Proof.
  destruct (SignalRegistry_refines_map [Some (sample_info 0 None); None;
    Some (sample_info 0 (Some [30; 2160; 3840; 0]));
    Some (sample_info 1 None); Some (sample_info 0 (Some [30; 2160; 3840; 0]))] 13 16 0)
    as (r & x & E & En & _).
  - repeat (apply Forall_cons_2;
      [intros s Hs; first [discriminate Hs | injection Hs as <-; apply sample_info_ok;
         [unfold in_u; lia|reflexivity|cbn; u32s]]|]).
    apply Forall_nil_2.
  - vm_compute. discriminate.
  - unfold in_u. lia.
  - unfold in_u. lia.
  - unfold in_u. lia.
  - exists r. split; [exact E|]. rewrite En. vm_compute. reflexivity.
Defined.

(** Choosing a variant.  When a caller passes extra attributes for a signal that has
    variants, the result is one of the variants, no variant has more of the compared
    attributes within 20 per cent, and it agrees on all of them whenever some variant
    does.  The caller's array is freed exactly when no variant agrees on all of them, so
    that the caller can neither free it nor read it without knowing the outcome. *)
Theorem SignalRegistry_best_match (r : SignalRegistry) (m : SignalMap) (cat id ty numArgs : Z)
    (attrs : list Z) :
  reg_rel r m -> (exists a, is_Some (m !! (sig_key cat id ty, Some a))) ->
  0 <= numArgs -> (compared numArgs <= length attrs)%nat ->
  let candidate s := m !! (sig_key cat id ty, Some (mExtraAttrs s)) = Some s in
  exists best freed b,
    getSignalConfigByIdAndType (CONSTRUCT_SIG_CODE cat id) ty numArgs (Some attrs) r
      = Ok (Some best, freed) /\
    candidate best /\ score near (compared numArgs) (mExtraAttrs best) attrs = Ok b /\
    (forall s, candidate s ->
       exists v, score near (compared numArgs) (mExtraAttrs s) attrs = Ok v /\ v <= b) /\
    ((exists s, candidate s /\ exact (compared numArgs) attrs s) ->
       exact (compared numArgs) attrs best) /\
    (freed = true <-> forall s, candidate s -> ~ exact (compared numArgs) attrs s).
Proof.
  intros [Hr _] [a [s0 Ha]] Hn Hlen candidate. destruct (Hr (sig_key cat id ty)) as [_ H2 _ Hok].
  rewrite lookup_conf. fold (sig_key cat id ty). set (c := conf_at (sig_key cat id ty) r) in *. cbn zeta.
  apply H2 in Ha as [Ha _].
  assert (mFeatureSignals c <> []) as Hne by (intros E; rewrite E in Ha; by apply elem_of_nil in Ha).
  assert (forall s, candidate s <-> s ∈ mFeatureSignals c) as Hcand.
  { intros s. unfold candidate. rewrite H2. naive_solver. }
  destruct (findBest_spec _ attrs numArgs Hne Hok Hn Hlen) as (best & freed & b & E & Hb & Eb & Hall & Hx & Hf).
  rewrite Forall_forall in Hall. exists best, freed, b.
  split; [destruct (mFeatureSignals c); [done|exact E]|]. split; [by apply Hcand|]. split; [done|].
  split; [intros s Hs; by apply Hall, Hcand|]. split.
  - intros (s & Hs & Es). destruct freed; [|by apply Hx]. specialize (Hf eq_refl).
    rewrite Forall_forall in Hf. by destruct (Hf s (proj1 (Hcand s) Hs)).
  - split.
    + intros E' s Hs. specialize (Hf E'). rewrite Forall_forall in Hf. by apply Hf, Hcand.
    + intros H. destruct freed; [done|]. destruct (H best); [by apply Hcand|by apply Hx].
Qed.

Lemma SignalRegistry_best_match_witness :
  exists r best, register_all [Some (sample_info 0 (Some [30; 2160; 3840; 0]));
                               Some (sample_info 0 (Some [60; 1080; 1920; 0]))] SignalRegistry_init = Ok r /\
    getSignalConfigByIdAndType (CONSTRUCT_SIG_CODE 13 16) 0 3 (Some [33; 2000; 3840]) r = Ok (Some best, true) /\
    mExtraAttrs best = [30; 2160; 3840; 0].
Proof.
  set (l := [Some (sample_info 0 (Some [30; 2160; 3840; 0]));
             Some (sample_info 0 (Some [60; 1080; 1920; 0]))]).
  destruct (register_all_rel l SignalRegistry_init ∅) as (r & E & Hr).
  - repeat (apply Forall_cons_2;
      [intros s Hs; injection Hs as <-; apply sample_info_ok; [unfold in_u; lia|reflexivity|cbn; u32s]|]).
    apply Forall_nil_2.
  - exact reg_rel_init.
  - vm_compute. discriminate.
  - destruct (SignalRegistry_best_match r _ 13 16 0 3 [33; 2000; 3840] Hr) as (best & freed & b & E2 & _).
    + exists [30; 2160; 3840; 0]. vm_compute. eexists. reflexivity.
    + lia.
    + vm_compute. lia.
    + exists r, best. split; [exact E|]. vm_compute in E. injection E as <-.
      vm_compute in E2. injection E2 as <- <-. split; reflexivity.
Defined.
