(* ===== verification/AppConfigs.v ===== *)
(** [resource-tuner/signals/AppConfigs.cpp]: the configurations of applications, which
    threads of an application go to which cgroup and which signals it is tuned with.

    The arrays of a configuration are built once by its builder and only read afterwards, so
    the copies that [build] makes, which share them, hold them by value. *)
From S2P Require Import Prelude UrmTypes StdString UrmPlatformAL SignalRegistry.
Open Scope string_scope.
Open Scope list_scope.
Open Scope Z_scope.

Record AppConfig := mkAppConfig {
  mAppName : string;
  mNumThreads : Z;
  mThreadNameList : option (list string);
  mCGroupIds : option (list (option Z));     (* a cell is [None] until it is written *)
  mNumSignals : Z;
  mSignalCodes : option (list (option Z))
}.

(** ** The registry: a map to pointers *)
Abbreviation AppConfigMap := (gmap string (option AppConfig)).

Definition registerAppConfig (appConfig : option AppConfig) (m : AppConfigMap) : AppConfigMap :=
  match appConfig with
  | None => m
  | Some c => <[mAppName c := Some c]> m
  end.

(** The lookup is [operator[]], which inserts a null pointer for an unknown name. *)
Definition getAppConfig (name : string) (m : AppConfigMap) : option AppConfig * AppConfigMap :=
  map_index None name m.

(** ** AppConfigBuilder *)
Record AppConfigBuilder := mkAB { mAppConfig : option AppConfig }.

Definition AppConfigBuilder_init (alloc : bool) : AppConfigBuilder :=
  mkAB (if alloc then Some (mkAppConfig "" 0 None None 0 None) else None).

Definition app_threads n names ids c :=
  mkAppConfig (mAppName c) n names ids (mNumSignals c) (mSignalCodes c).
Definition app_signals n codes c :=
  mkAppConfig (mAppName c) (mNumThreads c) (mThreadNameList c) (mCGroupIds c) n codes.

Definition setAppName (name : string) (b : AppConfigBuilder) : ErrCode * AppConfigBuilder :=
  match mAppConfig b with
  | None => (RC_MEMORY_ALLOCATION_FAILURE, b)
  | Some c => (RC_SUCCESS, mkAB (Some (mkAppConfig name (mNumThreads c) (mThreadNameList c)
                (mCGroupIds c) (mNumSignals c) (mSignalCodes c))))
  end.

(** [new T[n]] throws on a negative count; [alloc1] and [alloc2] say whether there is memory. *)
Definition setNumThreads (alloc1 alloc2 : bool) (threadCnt : Z) (b : AppConfigBuilder)
  : ErrCode * AppConfigBuilder :=
  match mAppConfig b with
  | None => (RC_MEMORY_ALLOCATION_FAILURE, b)
  | Some c =>
    if (threadCnt <? 0) || negb alloc1
    then (RC_INVALID_VALUE, mkAB (Some (app_threads threadCnt (mThreadNameList c) (mCGroupIds c) c))) else
    let names := Some (replicate (Z.to_nat threadCnt) "") in
    if negb alloc2 then (RC_INVALID_VALUE, mkAB (Some (app_threads threadCnt names (mCGroupIds c) c))) else
    (RC_SUCCESS, mkAB (Some (app_threads threadCnt names (Some (replicate (Z.to_nat threadCnt) None)) c)))
  end.

(** [array[i] = v]. *)
Definition write_at {A} (i : Z) (v : A) (l : list A) : result (list A) :=
  if (0 <=? i) && (i <? Z.of_nat (length l)) then Ok (<[Z.to_nat i := v]> l) else Fault OutOfRange.

Definition addThreadMapping (index : Z) (threadName cGroup : string) (b : AppConfigBuilder)
  : result (ErrCode * AppConfigBuilder) :=
  match mAppConfig b with
  | None => Ok (RC_MEMORY_ALLOCATION_FAILURE, b)
  | Some c =>
    match mThreadNameList c with
    | None => Ok (RC_MEMORY_ALLOCATION_FAILURE, b)
    | Some names =>
      let cGroupID := wrap_s 32 (default (-1) (parse_code (stoi 10) cGroup)) in
      if cGroupID =? -1 then Ok (RC_INVALID_VALUE, b) else
      names ← write_at index threadName names;
      ids ← deref (mCGroupIds c);
      ids ← write_at index (Some cGroupID) ids;
      Ok (RC_SUCCESS, mkAB (Some (app_threads (mNumThreads c) (Some names) (Some ids) c)))
    end
  end.

Definition setNumSigCodes (alloc : bool) (count : Z) (b : AppConfigBuilder)
  : ErrCode * AppConfigBuilder :=
  match mAppConfig b with
  | None => (RC_MEMORY_ALLOCATION_FAILURE, b)
  | Some c =>
    if (count <? 0) || negb alloc
    then (RC_INVALID_VALUE, mkAB (Some (app_signals count (mSignalCodes c) c)))
    else (RC_SUCCESS, mkAB (Some (app_signals count (Some (replicate (Z.to_nat count) None)) c)))
  end.

Definition addSigCode (index : Z) (sigCodeStr : string) (b : AppConfigBuilder)
  : result (ErrCode * AppConfigBuilder) :=
  match mAppConfig b with
  | None => Ok (RC_MEMORY_ALLOCATION_FAILURE, b)
  | Some c =>
    match mSignalCodes c with
    | None => Ok (RC_MEMORY_ALLOCATION_FAILURE, b)
    | Some codes =>
      match stol 0 sigCodeStr with
      | inr _ => Ok (RC_INVALID_VALUE, b)
      | inl v =>
        codes ← write_at index (Some (wrap_u 32 v)) codes;
        Ok (RC_SUCCESS, mkAB (Some (app_signals (mNumSignals c) (Some codes) c)))
      end
    end
  end.

(** [build()] and [build(appName)]; [alloc] is the outcome of the allocation of the copy. *)
Definition build (b : AppConfigBuilder) : option AppConfig := mAppConfig b.
Definition build_named (alloc : bool) (appName : string) (b : AppConfigBuilder) : option AppConfig :=
  if alloc then
    match mAppConfig b with
    | None => None
    | Some c => Some (mkAppConfig appName (mNumThreads c) (mThreadNameList c) (mCGroupIds c)
                        (mNumSignals c) (mSignalCodes c))
    end
  else None.
