(* ===== verification/TargetRegistry.v ===== *)
(** [resource-tuner/core/TargetRegistry.cpp] and [TargetRegistry.h]: what the target
    looks like, i.e. its clusters, cores, cgroups, MPAM groups and cache types, and
    the queries clients send ([GET_TARGET_INFO]).

    The hash maps are [gmap]s whose iteration order is [HashOrder].  [operator[]] on a
    map of pointers inserts a null for a missing key, so the maps hold [option]s and
    the getters that use it return a new registry.  Pointers are stored under one key
    each, so a map holds the pointed-to value.  A member the code leaves
    uninitialised is [None]. *)
From Stdlib Require Import Ascii.
From stdpp Require Import pretty sorting.
From S2P Require Import Prelude UrmTypes StdString AuxRoutines.
Open Scope string_scope.
Open Scope list_scope.
Open Scope Z_scope.

(** ** Data *)
Record CGroupConfigInfo := mkCGroup {
  mCgroupName : string;
  mCgroupID : Z;
  mCreationNeeded : bool;
  mIsThreaded : bool
}.

Record ClusterInfo := mkCluster {
  mPhysicalID : Z;
  mCapacity : option Z;
  mStartCpu : option Z;
  mNumCpus : Z
}.

Record MpamGroupConfigInfo := mkMpam {
  mMpamGroupInfoID : Z;
  mMpamGroupName : string;
  mMpamPriority : Z
}.

Record CacheInfo := mkCache {
  mCacheType : string;
  mNumCacheBlocks : Z;
  mPriorityAware : bool
}.

Record TargetRegistry := mkTR {
  mLogicalToPhysicalClusterMapping : gmap Z Z;
  mPhysicalClusters : gmap Z (option ClusterInfo);
  mCGroupMapping : gmap Z (option CGroupConfigInfo);
  mMpamGroupMapping : gmap Z (option MpamGroupConfigInfo);
  mCacheInfoMapping : gmap string CacheInfo
}.

Definition TargetRegistry_init : TargetRegistry := mkTR ∅ ∅ ∅ ∅ ∅.

Definition set_lgc (m : gmap Z Z) (t : TargetRegistry) : TargetRegistry :=
  mkTR m (mPhysicalClusters t) (mCGroupMapping t) (mMpamGroupMapping t) (mCacheInfoMapping t).
Definition set_clusters (m : gmap Z (option ClusterInfo)) (t : TargetRegistry) : TargetRegistry :=
  mkTR (mLogicalToPhysicalClusterMapping t) m (mCGroupMapping t) (mMpamGroupMapping t)
       (mCacheInfoMapping t).
Definition set_cgroups (m : gmap Z (option CGroupConfigInfo)) (t : TargetRegistry)
  : TargetRegistry :=
  mkTR (mLogicalToPhysicalClusterMapping t) (mPhysicalClusters t) m (mMpamGroupMapping t)
       (mCacheInfoMapping t).
Definition set_mpams (m : gmap Z (option MpamGroupConfigInfo)) (t : TargetRegistry)
  : TargetRegistry :=
  mkTR (mLogicalToPhysicalClusterMapping t) (mPhysicalClusters t) (mCGroupMapping t) m
       (mCacheInfoMapping t).
Definition set_caches (m : gmap string CacheInfo) (t : TargetRegistry) : TargetRegistry :=
  mkTR (mLogicalToPhysicalClusterMapping t) (mPhysicalClusters t) (mCGroupMapping t)
       (mMpamGroupMapping t) m.

(** ** Reading the target *)
Definition POLICY_DIR_PATH : string := "/sys/devices/system/cpu/cpufreq/".
Definition ONLINE_CPU_FILE_PATH : string := "/sys/devices/system/cpu/online".
Definition CPU_DIR_PATH : string := "/sys/devices/system/cpu".

(** The tokens up to the first one [stoi] rejects; the flag tells whether there
    was one. *)
Fixpoint stoi_tokens (tokens : list string) : list Z * bool :=
  match tokens with
  | [] => ([], true)
  | t :: ts =>
    match stoi 10 t with
    | inl v => let '(vs, ok) := stoi_tokens ts in (v :: vs, ok)
    | inr _ => ([], false)
    end
  end.

Definition getOnlineCpuCount (fs : FileSystem) : Z :=
  match fs_files fs !! ONLINE_CPU_FILE_PATH with
  | None => 0
  | Some content =>
    let '(vs, ok) := stoi_tokens (split_on "-"%char (first_line content)) in
    if ok then wrap_s 32 (foldl Z.max 0 vs + 1) else 0
  end.

Definition is_nonempty (s : string) : bool := negb (String.eqb s "").

Definition readRelatedCpus (fs : FileSystem) (policyPath : string) : ErrCode * list Z :=
  match fs_files fs !! (policyPath +:+ "/related_cpus") with
  | None => (RC_FILE_NOT_FOUND, [])
  | Some content =>
    (RC_SUCCESS,
     map (wrap_s 8)
         (stoi_tokens (List.filter is_nonempty (split_on " "%char (first_line content)))).1)
  end.

Definition readCpuCapacity (fs : FileSystem) (cpuID : Z) : Z :=
  match stoi 10 (readFromFile fs
    ("/sys/devices/system/cpu/cpu" +:+ to_string cpuID +:+ "/cpu_capacity")) with
  | inl v => v
  | inr _ => 0
  end.

Definition min_list (d : Z) (l : list Z) : Z := foldl Z.min d l.

(** One policy directory: the cluster with its capacity, if its cpus could be read. *)
Definition policy_cluster (fs : FileSystem) (physicalClusterId : Z) (dirName : string)
  : option (Z * ClusterInfo * Z) :=
  let '(rc, cpuList) := readRelatedCpus fs (POLICY_DIR_PATH +:+ dirName) in
  if RC_IS_OK rc then
    let n := Z.of_nat (length cpuList) in
    match cpuList with
    | [] => Some (0, mkCluster physicalClusterId (Some 0) None n, physicalClusterId)
    | cpuID :: _ =>
      let capacity := readCpuCapacity fs cpuID in
      Some (capacity,
            mkCluster physicalClusterId (Some capacity) (Some (min_list cpuID cpuList)) n,
            wrap_s 8 (physicalClusterId + n))
    end
  else None.

(** The loop over the sorted policy directories. *)
Fixpoint policy_loop (fs : FileSystem) (physicalClusterId : Z) (dirs : list string)
  : list (Z * ClusterInfo) :=
  match dirs with
  | [] => []
  | d :: dirs =>
    match policy_cluster fs physicalClusterId d with
    | Some (capacity, info, next) => (capacity, info) :: policy_loop fs next dirs
    | None => policy_loop fs physicalClusterId dirs
    end
  end.

(** [std::sort] on strings (bytewise) and on pairs (capacity, id). *)
Fixpoint string_leb (a b : string) : bool :=
  match a, b with
  | EmptyString, _ => true
  | String _ _, EmptyString => false
  | String c a, String d b =>
    (ascii_code c <? ascii_code d) || ((ascii_code c =? ascii_code d) && string_leb a b)
  end.
Definition pair_leb (a b : Z * Z) : bool :=
  (a.1 <? b.1) || ((a.1 =? b.1) && (a.2 <=? b.2)).

(** [mLogicalToPhysicalClusterMapping[i] = ids[i]]. *)
Fixpoint logical_mapping (i : Z) (ids : list Z) (m : gmap Z Z) : gmap Z Z :=
  match ids with
  | [] => m
  | id :: ids => logical_mapping (i + 1) ids (<[i := id]> m)
  end.

Definition generatePolicyBasedMapping (fs : FileSystem) (policyDirs : list string)
    (t : TargetRegistry) (cfg : TargetConfigs) : TargetRegistry * TargetConfigs :=
  let policyDirs := merge_sort (fun a b => string_leb a b) policyDirs in
  let cfg := set_cluster_count (Z.of_nat (length policyDirs)) cfg in
  let clusters := policy_loop fs 0 policyDirs in
  let t := set_clusters
    (foldl (fun m c => <[mPhysicalID c.2 := Some c.2]> m) (mPhysicalClusters t) clusters) t in
  let clusterConfigs :=
    merge_sort (fun a b => pair_leb a b) (map (fun c => (c.1, mPhysicalID c.2)) clusters) in
  (set_lgc (logical_mapping 0 (map snd clusterConfigs) (mLogicalToPhysicalClusterMapping t)) t,
   cfg).

(** The name [cpu<digits>] of a cpu directory; [Some None] when the number does not fit. *)
Definition cpu_dir_number (name : string) : option (option Z) :=
  match name with
  | String c (String p (String u s)) =>
    if String.eqb (String c (String p (String u ""))) "cpu"
       && is_nonempty s && isNumericString s
    then Some match stoi 10 s with inl v => Some v | inr _ => None end
    else None
  | _ => None
  end.

(** The [readdir] loop: clusters with their cpus, in the order the cpus are met. *)
Fixpoint cluster_scan (fs : FileSystem) (entries : list (string * bool)) (m : gmap Z (list Z))
  : gmap Z (list Z) :=
  match entries with
  | [] => m
  | (name, isDir) :: entries =>
    match (if (isDir : bool) then cpu_dir_number name else None) with
    | None => cluster_scan fs entries m
    | Some None => m
    | Some (Some cpuNum) =>
      match fs_files fs !! (CPU_DIR_PATH +:+ "/" +:+ name +:+ "/topology/cluster_id") with
      | None => cluster_scan fs entries m
      | Some content =>
        match stoi 10 content with
        | inr _ => cluster_scan fs entries m
        | inl clusterID =>
          cluster_scan fs entries (<[clusterID := default [] (m !! clusterID) ++ [cpuNum]]> m)
        end
      end
    end
  end.

Section Order.
Context `{HashOrder}.

(** [std::sort] on (capacity, pointer): clusters of equal capacity are ordered by
    the address of their record, a parameter. *)
Definition getClusterIdBasedMapping (addr : Z -> Z) (fs : FileSystem) (t : TargetRegistry)
    (cfg : TargetConfigs) : result (TargetRegistry * TargetConfigs) :=
  match fs_dirs fs CPU_DIR_PATH with
  | None => Ok (t, cfg)
  | Some entries =>
    let clusterToCoreMap := cluster_scan fs entries ∅ in
    let cfg := set_cluster_count (Z.of_nat (size clusterToCoreMap)) cfg in
    let clusters := foldl (fun m e =>
      let '(clusterID, cpus) := (e : Z * list Z) in
      <[clusterID := Some (mkCluster clusterID None
          (match cpus with [] => None | c :: _ => Some (min_list c cpus) end)
          (Z.of_nat (length cpus)))]> m)
      (mPhysicalClusters t) (hash_order clusterToCoreMap) in
    configs ← mapM (fun e =>
      match snd (e : Z * option ClusterInfo) with
      | None => Ok (0, None)
      | Some info =>
        cpu ← of_option Indeterminate (mStartCpu info);
        Ok (readCpuCapacity fs cpu, Some (mPhysicalID info))
      end) (hash_order clusters);
    let sorted := merge_sort
      (fun a b : Z * option Z => pair_leb (a.1, default 0 (addr <$> a.2))
                                         (b.1, default 0 (addr <$> b.2))) configs in
    ids ← mapM (fun c : Z * option Z => deref c.2) sorted;
    Ok (set_lgc (logical_mapping 0 ids (mLogicalToPhysicalClusterMapping t))
                (set_clusters clusters t), cfg)
  end.

Fixpoint policy_names (entries : list (string * bool)) : list string :=
  match entries with
  | [] => []
  | (name, _) :: es =>
    if String.prefix "policy" name then name :: policy_names es else policy_names es
  end.

Definition readTargetInfo (addr : Z -> Z) (fs : FileSystem) (t : TargetRegistry)
    (cfg : TargetConfigs) : result (TargetRegistry * TargetConfigs) :=
  let cfg := set_core_count (getOnlineCpuCount fs) cfg in
  match fs_dirs fs POLICY_DIR_PATH with
  | None => Ok (t, cfg)
  | Some entries =>
    match policy_names entries with
    | [] => getClusterIdBasedMapping addr fs t cfg
    | policyDirs => Ok (generatePolicyBasedMapping fs policyDirs t cfg)
    end
  end.

(** ** Getters over the maps *)
Definition getClusterIDs (t : TargetRegistry) : list Z :=
  map snd (hash_order (mLogicalToPhysicalClusterMapping t)).

Definition getCGroupNames (t : TargetRegistry) : result (list string) :=
  mapM (fun e : Z * option CGroupConfigInfo => mCgroupName <$> deref e.2)
       (hash_order (mCGroupMapping t)).

Definition getCGroupConfigs (t : TargetRegistry) : list (option CGroupConfigInfo) :=
  map snd (hash_order (mCGroupMapping t)).

Definition getMpamGroupNames (t : TargetRegistry) : result (list string) :=
  mapM (fun e : Z * option MpamGroupConfigInfo => mMpamGroupName <$> deref e.2)
       (hash_order (mMpamGroupMapping t)).
End Order.

Definition getPhysicalClusterId (logicalClusterId : Z) (t : TargetRegistry) : Z :=
  match mLogicalToPhysicalClusterMapping t !! logicalClusterId with
  | None => -1
  | Some p => p
  end.

(** [mPhysicalClusters[id]]. *)
Definition getClusterInfo (physicalClusterID : Z) (t : TargetRegistry)
  : option ClusterInfo * TargetRegistry :=
  let '(c, m) := map_index None physicalClusterID (mPhysicalClusters t) in
  (c, set_clusters m t).

Definition getPhysicalCoreId (logicalClusterId logicalCoreCount : Z) (t : TargetRegistry)
  : result (Z * TargetRegistry) :=
  if (size (mPhysicalClusters t) =? 0)%nat then Ok (logicalCoreCount, t) else
  match mLogicalToPhysicalClusterMapping t !! logicalClusterId with
  | None => Ok (-1, t)
  | Some physicalClusterId =>
    let '(clusterInfo, t) := getClusterInfo physicalClusterId t in
    match clusterInfo with
    | None => Ok (-1, t)
    | Some c =>
      if (logicalCoreCount <=? 0) || (logicalCoreCount >? mNumCpus c) then Ok (-1, t) else
      start ← of_option Indeterminate (mStartCpu c);
      s ← chk_s 32 (start + logicalCoreCount);
      r ← chk_s 32 (s - 1);
      Ok (r, t)
    end
  end.

Definition getCGroupConfig (cGroupID : Z) (t : TargetRegistry)
  : option CGroupConfigInfo * TargetRegistry :=
  let '(c, m) := map_index None cGroupID (mCGroupMapping t) in (c, set_cgroups m t).
Definition getCreatedCGroupsCount (t : TargetRegistry) : Z := Z.of_nat (size (mCGroupMapping t)).

Definition getMpamGroupConfig (mpamGroupID : Z) (t : TargetRegistry)
  : option MpamGroupConfigInfo * TargetRegistry :=
  let '(c, m) := map_index None mpamGroupID (mMpamGroupMapping t) in (c, set_mpams m t).
Definition getCreatedMpamGroupsCount (t : TargetRegistry) : Z :=
  Z.of_nat (size (mMpamGroupMapping t)).

(** ** Configuration from the YAML files *)

(** The mapping of a logical cluster; a malformed number leaves the registry. *)
Definition addClusterMapping (logicalIDString physicalIDString : string) (t : TargetRegistry)
    (cfg : TargetConfigs) : TargetRegistry * TargetConfigs :=
  match stoi 10 logicalIDString, stoi 10 physicalIDString with
  | inl logicalID, inl physicalID =>
    let t := match mPhysicalClusters t !! physicalID with
             | Some _ => t
             | None =>
               set_clusters (<[physicalID :=
                 Some (mkCluster physicalID (Some 0) (Some physicalID) 0)]> (mPhysicalClusters t)) t
             end in
    let t := set_lgc (<[logicalID := physicalID]> (mLogicalToPhysicalClusterMapping t)) t in
    (t, set_cluster_count (Z.of_nat (size (mPhysicalClusters t))) cfg)
  | _, _ => (t, cfg)
  end.

Definition addClusterSpreadInfo (physicalIDString numCoresString : string) (t : TargetRegistry)
  : result TargetRegistry :=
  match stoi 10 physicalIDString, stoi 10 numCoresString with
  | inl physicalID, inl numCores =>
    match mPhysicalClusters t !! physicalID with
    | None => Ok t
    | Some p =>
      c ← deref p;
      Ok (set_clusters (<[physicalID :=
        Some (mkCluster (mPhysicalID c) (mCapacity c) (mStartCpu c) numCores)]>
        (mPhysicalClusters t)) t)
    end
  | _, _ => Ok t
  end.

Definition createCGroup (basePath : string) (fs : FileSystem)
    (cGroupConfig : option CGroupConfigInfo) : ErrCode * FileSystem :=
  match cGroupConfig with
  | None => (RC_BAD_ARG, fs)
  | Some c =>
    if negb (mCreationNeeded c) then (RC_SUCCESS, fs) else
    let cGroupPath := (basePath +:+ mCgroupName c) in
    match fs_mkdir fs cGroupPath with
    | MkdirOk =>
      (RC_SUCCESS, if mIsThreaded c
                   then writeToFile fs (cGroupPath +:+ "/cgroup.type") "threaded" else fs)
    | MkdirExists => (RC_SUCCESS, fs)
    | MkdirError => (RC_CGROUP_CREATION_FAILURE, fs)
    end
  end.

Definition createMpamGroup (mpamGroupConfig : option MpamGroupConfigInfo) : ErrCode :=
  match mpamGroupConfig with None => RC_BAD_ARG | Some _ => RC_SUCCESS end.

Definition addCGroupMapping (basePath : string) (fs : FileSystem) (p : option CGroupConfigInfo)
    (t : TargetRegistry) : TargetRegistry * FileSystem :=
  match p with
  | None => (t, fs)
  | Some c =>
    if (mCgroupID c =? -1) || (String.length (mCgroupName c) =? 0)%nat then (t, fs) else
    let '(rc, fs) := createCGroup basePath fs p in
    if RC_IS_OK rc then (set_cgroups (<[mCgroupID c := p]> (mCGroupMapping t)) t, fs)
    else (t, fs)
  end.

Definition addMpamGroupMapping (p : option MpamGroupConfigInfo) (t : TargetRegistry)
  : TargetRegistry :=
  match p with
  | None => t
  | Some c =>
    if (mMpamGroupInfoID c =? -1) || (String.length (mMpamGroupName c) =? 0)%nat then t else
    if RC_IS_OK (createMpamGroup p)
    then set_mpams (<[mMpamGroupInfoID c := p]> (mMpamGroupMapping t)) t else t
  end.

Definition addCacheInfoMapping (p : option CacheInfo) (t : TargetRegistry) : TargetRegistry :=
  match p with
  | None => t
  | Some c =>
    if (String.length (mCacheType c) =? 0)%nat || (mNumCacheBlocks c =? -1) then t else
    set_caches (<[mCacheType c := c]> (mCacheInfoMapping t)) t
  end.

(** ** addIrqAffine *)

(** The cpus [start .. start + num - 1] of a cluster. *)
Fixpoint cpu_range (n : nat) (start : Z) : list Z :=
  match n with O => [] | S n => start :: cpu_range n (start + 1) end.

(** The cores of the named clusters; [getClusterInfo] inserts null entries. *)
Fixpoint cluster_cores (ids : list Z) (t : TargetRegistry) : result (list Z * TargetRegistry) :=
  match ids with
  | [] => Ok ([], t)
  | id :: ids =>
    let '(cInfo, t) := getClusterInfo id t in
    match cInfo with
    | None => cluster_cores ids t
    | Some c =>
      start ← of_option Indeterminate (mStartCpu c);
      _ ← chk_s 32 (start + mNumCpus c);
      '(rest, t) ← cluster_cores ids t;
      Ok (cpu_range (Z.to_nat (mNumCpus c)) start ++ rest, t)
    end
  end.

(** [(uint64_t)1 << id]: undefined outside [0 .. 63]. *)
Fixpoint irq_mask (ids : list Z) (mask : Z) : result Z :=
  match ids with
  | [] => Ok mask
  | id :: ids =>
    if (id <? 0) || (id >=? 64) then Fault Indeterminate
    else irq_mask ids (Z.lor mask (Z.shiftl 1 id))
  end.

Definition IRQ_PATH : string := "/proc/irq/".

Definition write_irq (mask : string) (fs : FileSystem) (dirName : string) : FileSystem :=
  let filePath := IRQ_PATH +:+ dirName +:+ "/" +:+ "smp_affinity" in
  if fileExists fs filePath then writeToFile fs filePath mask else fs.

(** The outer option is the exception of a malformed number, which is not caught. *)
Definition addIrqAffine (values : list string) (areClusterValues : bool) (fs : FileSystem)
    (t : TargetRegistry) : result (option (ErrCode * FileSystem * TargetRegistry)) :=
  match values with
  | [] => Ok (Some (RC_INVALID_VALUE, fs, t))
  | _ :: _ =>
    match stoi_tokens values with
    | (irqLine :: ids, true) =>
      '(ids, t) ← (if areClusterValues
                   then cluster_cores (map (fun id => getPhysicalClusterId id t) ids) t
                   else Ok (ids, t));
      mask ← irq_mask ids 0;
      if irqLine =? -1 then
        match fs_dirs fs IRQ_PATH with
        | None => Ok (Some (RC_SUCCESS, fs, t))
        | Some entries =>
          Ok (Some (RC_SUCCESS, foldl (write_irq (cpuMaskToHex mask)) fs (map fst entries), t))
        end
      else Ok (Some (RC_SUCCESS, write_irq (to_string mask) fs (to_string irqLine), t))
    | _ => Ok None
    end
  end.

(** ** Builders; [None] is a failed allocation. *)
Definition CGroupConfigInfoBuilder_init (alloc : bool) : option CGroupConfigInfo :=
  if alloc then Some (mkCGroup "" (-1) false false) else None.

Definition build_step {A} (b : option A) (f : A -> ErrCode * A) : ErrCode * option A :=
  match b with
  | None => (RC_MEMORY_ALLOCATION_FAILURE, None)
  | Some c => let '(rc, c) := f c in (rc, Some c)
  end.

Definition setCGroupName (name : string) (b : option CGroupConfigInfo) :=
  build_step b (fun c =>
    (RC_SUCCESS, mkCGroup name (mCgroupID c) (mCreationNeeded c) (mIsThreaded c))).
Definition setCGroupID (cGroupIDString : string) (b : option CGroupConfigInfo) :=
  build_step b (fun c =>
    match stoi 10 cGroupIDString with
    | inl v => (RC_SUCCESS, mkCGroup (mCgroupName c) v (mCreationNeeded c) (mIsThreaded c))
    | inr _ =>
      (RC_INVALID_VALUE, mkCGroup (mCgroupName c) (-1) (mCreationNeeded c) (mIsThreaded c))
    end).
Definition setCreationNeeded (s : string) (b : option CGroupConfigInfo) :=
  build_step b (fun c =>
    (RC_SUCCESS, mkCGroup (mCgroupName c) (mCgroupID c) (String.eqb s "true") (mIsThreaded c))).
Definition setThreaded (s : string) (b : option CGroupConfigInfo) :=
  build_step b (fun c =>
    (RC_SUCCESS, mkCGroup (mCgroupName c) (mCgroupID c) (mCreationNeeded c) (String.eqb s "true"))).

Definition MpamGroupConfigInfoBuilder_init (alloc : bool) : option MpamGroupConfigInfo :=
  if alloc then Some (mkMpam (-1) "" 0) else None.
Definition setName (name : string) (b : option MpamGroupConfigInfo) :=
  build_step b (fun c => (RC_SUCCESS, mkMpam (mMpamGroupInfoID c) name (mMpamPriority c))).
Definition setLgcID (logicalIDString : string) (b : option MpamGroupConfigInfo) :=
  build_step b (fun c =>
    match stoi 10 logicalIDString with
    | inl v => (RC_SUCCESS, mkMpam v (mMpamGroupName c) (mMpamPriority c))
    | inr _ => (RC_INVALID_VALUE, c)
    end).
Definition setMpamPriority (priorityString : string) (b : option MpamGroupConfigInfo) :=
  build_step b (fun c =>
    match stoi 10 priorityString with
    | inl v => (RC_SUCCESS, mkMpam (mMpamGroupInfoID c) (mMpamGroupName c) v)
    | inr _ => (RC_INVALID_VALUE, c)
    end).

Definition CacheInfoBuilder_init (alloc : bool) : option CacheInfo :=
  if alloc then Some (mkCache "" (-1) false) else None.
Definition setType (type : string) (b : option CacheInfo) :=
  build_step b (fun c => (RC_SUCCESS, mkCache type (mNumCacheBlocks c) (mPriorityAware c))).
Definition setNumBlocks (numBlocksString : string) (b : option CacheInfo) :=
  build_step b (fun c =>
    match stoi 10 numBlocksString with
    | inl v => (RC_SUCCESS, mkCache (mCacheType c) v (mPriorityAware c))
    | inr _ => (RC_INVALID_VALUE, c)
    end).
Definition setPriorityAware (s : string) (b : option CacheInfo) :=
  build_step b (fun c =>
    (RC_SUCCESS, mkCache (mCacheType c) (mNumCacheBlocks c) (String.eqb s "true"))).

(** ** GET_TARGET_INFO *)
Definition GET_MASK : Z := 801.
Definition GET_CLUSTER_COUNT : Z := 802.
Definition GET_CORE_COUNT : Z := 803.
Definition GET_PHYSICAL_CLUSTER_ID : Z := 804.
Definition GET_PHYSICAL_CORE_ID : Z := 805.
Definition GET_MAX_CLUSTER : Z := 806.

(** The loop [while(coreCount--)], up or down from [curCpu]. *)
Fixpoint mask_loop (n : nat) (dir curCpu mask : Z) : result Z :=
  match n with
  | O => Ok mask
  | S n =>
    let mask := if (curCpu >=? 0) && (curCpu <? 64)
                then Z.lor mask (Z.shiftl 1 curCpu) else mask in
    cpu ← chk_s 32 (curCpu + dir);
    mask_loop n dir cpu mask
  end.

Definition cluster_mask (c : ClusterInfo) (coreCount : Z) : result Z :=
  if mNumCpus c <=? 0 then Ok 0 else
  if coreCount =? 0 then
    start ← of_option Indeterminate (mStartCpu c);
    mask_loop (Z.to_nat (mNumCpus c)) 1 start 0
  else if coreCount <? 0 then
    if coreCount =? min_s 32 then Ok 0 else
    coreCount ← chk_s 32 (coreCount * -1);
    start ← of_option Indeterminate (mStartCpu c);
    e ← chk_s 32 (start + mNumCpus c);
    last ← chk_s 32 (e - 1);
    mask_loop (Z.to_nat (Z.min coreCount (mNumCpus c))) (-1) last 0
  else
    start ← of_option Indeterminate (mStartCpu c);
    mask_loop (Z.to_nat (Z.min coreCount (mNumCpus c))) 1 start 0.

Definition arg (args : list Z) (i : nat) : result Z := of_option OutOfRange (args !! i).

Definition GET_TARGET_INFO (option numArgs : Z) (args : list Z) (cfg : TargetConfigs)
    (t : TargetRegistry) : result (Z * TargetRegistry) :=
  if option =? GET_MASK then
    if numArgs <? 2 then Ok (0, t) else
    cluster ← arg args 0;
    coreCount ← arg args 1;
    cluster ← (if cluster =? GET_MAX_CLUSTER
               then chk_s 32 (mTotalClusterCount cfg - 1) else Ok cluster);
    let '(clusInfo, t) := getClusterInfo (getPhysicalClusterId cluster t) t in
    match clusInfo with
    | None => Ok (0, t)
    | Some c => mask ← cluster_mask c coreCount; Ok (mask, t)
    end
  else if option =? GET_CLUSTER_COUNT then Ok (wrap_u 64 (mTotalClusterCount cfg), t)
  else if option =? GET_CORE_COUNT then Ok (wrap_u 64 (mTotalCoreCount cfg), t)
  else if option =? GET_PHYSICAL_CLUSTER_ID then
    if numArgs <? 1 then Ok (0, t) else
    a ← arg args 0; Ok (wrap_u 64 (getPhysicalClusterId a t), t)
  else if option =? GET_PHYSICAL_CORE_ID then
    if numArgs <? 2 then Ok (0, t) else
    a ← arg args 0;
    b ← arg args 1;
    '(r, t) ← getPhysicalCoreId a b t; Ok (wrap_u 64 r, t)
  else Ok (0, t).

(** ** Facts *)
Lemma testbit_pow1 k i : 0 <= k -> 0 <= i -> Z.testbit (Z.shiftl 1 k) i = (i =? k).
Proof.
  intros. rewrite Z.shiftl_1_l, Z.pow2_bits_eqb by done. rewrite Z.eqb_sym. done.
Qed.

(** The cpus a loop of [n] steps from [cur] visits. *)
Definition visits (n : nat) (dir cur i : Z) : bool :=
  if dir =? 1 then (cur <=? i) && (i <? cur + Z.of_nat n)
  else (cur - Z.of_nat n <? i) && (i <=? cur).

Lemma mask_loop_spec dir : dir = 1 \/ dir = -1 -> forall n cur mask,
  in_s 32 cur -> in_s 32 (cur + dir * Z.of_nat n) ->
  exists m, mask_loop n dir cur mask = Ok m /\
    forall i, 0 <= i ->
      Z.testbit m i = Z.testbit mask i || ((i <? 64) && visits n dir cur i).
Proof.
  intros Hdir. induction n as [|n IH]; intros cur mask Hc He; cbn [mask_loop].
  - exists mask. split; [done|]. intros i Hi. unfold visits.
    destruct Hdir as [-> | ->]; simpl; destruct (Z.testbit mask i); zcase.
  - rewrite chk_s_ok by (unfold in_s in *; destruct Hdir as [-> | ->]; lia). simpl.
    match goal with |- context [mask_loop n dir (cur + dir) ?mk] =>
      destruct (IH (cur + dir) mk) as (m & E & Hm) end.
    { unfold in_s in *; destruct Hdir as [-> | ->]; lia. }
    { replace (cur + dir + dir * Z.of_nat n) with (cur + dir * Z.of_nat (S n)) by lia. done. }
    exists m. split; [done|]. intros i Hi. rewrite Hm by done.
    destruct ((cur >=? 0) && (cur <? 64)) eqn:E64; zb.
    + rewrite Z.lor_spec, testbit_pow1 by lia. unfold visits.
      destruct Hdir as [-> | ->]; simpl; destruct (Z.testbit mask i); zcase.
    + unfold visits.
      destruct Hdir as [-> | ->]; simpl; destruct (Z.testbit mask i); zcase.
Qed.

(** A cluster whose cpu numbers all fit. *)
Record cluster_ok (c : ClusterInfo) (start : Z) : Prop := {
  cl_start : mStartCpu c = Some start;
  cl_start_range : 0 <= start;
  cl_num : 0 <= mNumCpus c;
  cl_end : start + mNumCpus c <= max_s 32
}.

(** How many cores, and the first of them, a [GET_MASK] query selects. *)
Definition mask_count (c : ClusterInfo) (coreCount : Z) : Z :=
  if coreCount =? 0 then mNumCpus c else Z.min (Z.abs coreCount) (mNumCpus c).
Definition mask_first (c : ClusterInfo) (start coreCount : Z) : Z :=
  if coreCount <? 0 then start + mNumCpus c - mask_count c coreCount else start.

Lemma cluster_mask_spec c start n :
  cluster_ok c start -> in_s 32 n -> n <> min_s 32 ->
  exists m, cluster_mask c n = Ok m /\
    forall i, 0 <= i -> Z.testbit m i =
      (i <? 64) && (mask_first c start n <=? i) && (i <? mask_first c start n + mask_count c n).
Proof.
  intros [Hs H0 Hn He] Hin Hmin. unfold cluster_mask, mask_first, mask_count.
  unfold in_s, min_s, max_s in *. rewrite Hs.
  destruct (mNumCpus c <=? 0) eqn:E0; zb.
  { exists 0. split; [done|]. intros i Hi. rewrite Z.testbit_0_l. destruct (n =? 0), (n <? 0); lia. }
  destruct (n =? 0) eqn:En; zb; [|destruct (n <? 0) eqn:Eneg; zb].
  - simpl. destruct (mask_loop_spec 1 ltac:(auto) (Z.to_nat (mNumCpus c)) start 0)
      as (m & -> & Hm); [unfold in_s; lia..|].
    exists m. split; [done|]. intros i Hi. rewrite Hm, Z.testbit_0_l by done.
    replace (n <? 0) with false by lia. unfold visits. simpl. zcase.
  - replace (n =? _) with false by lia. rewrite chk_s_ok by (unfold in_s; lia). simpl.
    do 2 (rewrite chk_s_ok by (unfold in_s; lia); simpl).
    destruct (mask_loop_spec (-1) ltac:(auto) (Z.to_nat (Z.min (n * -1) (mNumCpus c)))
      (start + mNumCpus c - 1) 0) as (m & -> & Hm); [unfold in_s; lia..|].
    exists m. split; [done|]. intros i Hi. rewrite Hm, Z.testbit_0_l by done.
    unfold visits. simpl. zcase.
  - simpl. destruct (mask_loop_spec 1 ltac:(auto) (Z.to_nat (Z.min n (mNumCpus c))) start 0)
      as (m & -> & Hm); [unfold in_s; lia..|].
    exists m. split; [done|]. intros i Hi. rewrite Hm, Z.testbit_0_l by done.
    unfold visits. simpl. zcase.
Qed.

Lemma getClusterInfo_hit t k c :
  mPhysicalClusters t !! k = Some (Some c) -> getClusterInfo k t = (Some c, t).
Proof. intros E. unfold getClusterInfo, map_index. rewrite E. by destruct t. Qed.

Lemma logical_mapping_lookup ids : forall i m k,
  logical_mapping i ids m !! k =
  if (i <=? k) && (k <? i + Z.of_nat (length ids)) then ids !! Z.to_nat (k - i) else m !! k.
Proof.
  induction ids as [|id ids IH]; intros i m k; simpl.
  - destruct (_ && _) eqn:E; [|done]. zb. lia.
  - rewrite IH. clear IH.
    destruct (Z.leb_spec (i + 1) k), (Z.leb_spec i k), (Z.ltb_spec k (i + 1 + Z.of_nat (length ids))),
      (Z.ltb_spec k (i + Z.of_nat (S (length ids)))); simpl; try lia;
      try (rewrite lookup_insert_ne by lia; done).
    + replace (Z.to_nat (k - i)) with (S (Z.to_nat (k - (i + 1)))) by lia. done.
    + assert (k = i) as -> by lia. rewrite Z.sub_diag. by rewrite lookup_insert_eq.
Qed.

(** Inserting clusters one by one: every entry comes from the list or from before. *)
Lemma fold_insert_lookup (clusters : list (Z * ClusterInfo)) :
  forall (m : gmap Z (option ClusterInfo)) id c,
  (forall id c, m !! id = Some c ->
     exists capacity info, c = Some info /\ (capacity, info) ∈ clusters /\ mPhysicalID info = id) ->
  foldl (fun m c => <[mPhysicalID c.2 := Some c.2]> m) m clusters !! id = Some c ->
  exists capacity info, c = Some info /\ (capacity, info) ∈ clusters /\ mPhysicalID info = id.
Proof.
  assert (forall cs (m : gmap Z (option ClusterInfo)) id c, (forall x, x ∈ cs -> x ∈ clusters) ->
    (forall id c, m !! id = Some c ->
     exists capacity info, c = Some info /\ (capacity, info) ∈ clusters /\ mPhysicalID info = id) ->
    foldl (fun m c => <[mPhysicalID c.2 := Some c.2]> m) m cs !! id = Some c ->
    exists capacity info, c = Some info /\ (capacity, info) ∈ clusters /\ mPhysicalID info = id)
    as Hgen; [|intros m id c; by apply Hgen].
  induction cs as [|[cap info] cs IH]; intros m id c Hin Hm; simpl; [apply Hm|].
  apply IH; [set_solver|]. intros id' c' E. destruct (decide (id' = mPhysicalID info)) as [->|].
  - rewrite lookup_insert_eq in E. injection E as <-. exists cap, info.
    split_and!; [done|apply Hin; set_solver|done].
  - rewrite lookup_insert_ne in E by done. by apply Hm.
Qed.

Lemma StronglySorted_lookup_lt {A} (R : A -> A -> Prop) (l : list A) : forall i j a b,
  StronglySorted R l -> (i < j)%nat -> l !! i = Some a -> l !! j = Some b -> R a b.
Proof.
  induction l as [|x l IH]; intros i j a b Hs Hij Ha Hb; [done|].
  apply StronglySorted_inv in Hs as [Hs Hx]. destruct j as [|j]; [lia|]. destruct i as [|i].
  - simpl in *. injection Ha as <-. rewrite Forall_forall in Hx. apply Hx.
    by eapply list_elem_of_lookup_2.
  - simpl in *. apply (IH i j); [done|lia|done|done].
Qed.

Lemma pair_leb_spec a b : pair_leb a b <-> a.1 < b.1 \/ (a.1 = b.1 /\ a.2 <= b.2).
Proof.
  unfold pair_leb. rewrite Is_true_true, orb_true_iff, andb_true_iff.
  by rewrite Z.ltb_lt, Z.eqb_eq, Z.leb_le.
Qed.
#[export] Instance pair_leb_total : Total (fun a b => pair_leb a b).
Proof. intros a b. rewrite !pair_leb_spec. lia. Qed.
#[export] Instance pair_leb_trans : Transitive (fun a b => pair_leb a b).
Proof. intros a b c. rewrite !pair_leb_spec. lia. Qed.

(** ** Properties *)

(** A [GET_MASK] query on a known cluster returns the 64-bit mask whose set
    bits are exactly the selected cpus below 64: all of the cluster's cpus for count
    0, the first [min(count, size)] for a positive count, the last
    [min(-count, size)] for a negative one.  No arithmetic step overflows and the
    registry is unchanged. *)
Theorem GET_MASK_selects_cpus (cfg : TargetConfigs) (t : TargetRegistry) (cluster n p : Z)
    (c : ClusterInfo) (start : Z) :
  cluster <> GET_MAX_CLUSTER ->
  mLogicalToPhysicalClusterMapping t !! cluster = Some p ->
  mPhysicalClusters t !! p = Some (Some c) -> cluster_ok c start ->
  in_s 32 n -> n <> min_s 32 ->
  exists m, GET_TARGET_INFO GET_MASK 2 [cluster; n] cfg t = Ok (m, t) /\ in_u 64 m /\
    forall i, 0 <= i -> Z.testbit m i =
      (i <? 64) && (mask_first c start n <=? i) && (i <? mask_first c start n + mask_count c n).
Proof.
  intros Hmax Hl Hc Hok Hn Hmin.
  destruct (cluster_mask_spec c start n Hok Hn Hmin) as (m & E & Hm).
  exists m. split_and!; [| |done].
  - unfold GET_TARGET_INFO. simpl. replace (cluster =? GET_MAX_CLUSTER) with false by lia. simpl.
    unfold getPhysicalClusterId. rewrite Hl, (getClusterInfo_hit t p c Hc), E. done.
  - apply testbit_in_u; [lia|]. intros i Hi. rewrite Hm by lia. zcase.
Qed.

Lemma GET_MASK_selects_cpus_witness :
  let t := set_lgc {[1 := 4]}
             (set_clusters {[4 := Some (mkCluster 4 (Some 900) (Some 4) 4)]} TargetRegistry_init) in
  exists m, GET_TARGET_INFO GET_MASK 2 [1; -2] (mkTargetConfigs "" 8 2 1) t = Ok (m, t) /\
    Z.testbit m 7 = true /\ Z.testbit m 5 = false.
Proof.
  intros t.
  destruct (GET_MASK_selects_cpus (mkTargetConfigs "" 8 2 1) t 1 (-2) 4
              (mkCluster 4 (Some 900) (Some 4) 4) 4) as (m & E & _ & H).
  - unfold GET_MAX_CLUSTER. lia.
  - reflexivity.
  - reflexivity.
  - split; unfold max_s; simpl; (reflexivity || lia).
  - unfold in_s. lia.
  - unfold min_s. lia.
  - exists m. split; [exact E|]. rewrite !H by lia. split; reflexivity.
Defined.

(** Logical core numbers.  On a target with clusters, core [k] of a known
    cluster is the [k]-th cpu of that cluster, always inside it, and any other
    [k] or an unknown cluster gives [-1].  On a target without clusters the number
    itself is the answer, but only until the first [GET_MASK] query: that query
    inserts an entry for the unknown cluster, and from then on every answer is
    [-1]. *)
Theorem getPhysicalCoreId_behaviour (cfg : TargetConfigs) (t : TargetRegistry)
    (cluster k p : Z) (c : ClusterInfo) (start : Z) :
  mLogicalToPhysicalClusterMapping t !! cluster = Some p ->
  mPhysicalClusters t !! p = Some (Some c) -> cluster_ok c start ->
  getPhysicalCoreId cluster k t =
    Ok (if (1 <=? k) && (k <=? mNumCpus c) then start + k - 1 else -1, t) /\
  (forall l, mLogicalToPhysicalClusterMapping t !! l = None -> getPhysicalCoreId l k t = Ok (-1, t)) /\
  getPhysicalCoreId cluster k TargetRegistry_init = Ok (k, TargetRegistry_init) /\
  exists t', GET_TARGET_INFO GET_MASK 2 [0; 0] cfg TargetRegistry_init = Ok (0, t') /\
    getPhysicalCoreId cluster k t' = Ok (-1, t').
Proof.
  intros Hl Hc [Hs H0 Hn He].
  assert ((size (mPhysicalClusters t) =? 0)%nat = false) as Hsz.
  { apply Nat.eqb_neq. intros E. apply map_size_empty_inv in E. by rewrite E in Hc. }
  split_and!.
  - unfold getPhysicalCoreId. rewrite Hsz, Hl, (getClusterInfo_hit t p c Hc).
    destruct ((k <=? 0) || (k >? mNumCpus c)) eqn:Ek; zb.
    + replace ((1 <=? k) && _) with false by zcase. done.
    + replace ((1 <=? k) && _) with true by zcase. rewrite Hs. simpl. unfold max_s in He.
      do 2 (rewrite chk_s_ok by (unfold in_s; lia); simpl). done.
  - intros l Hll. unfold getPhysicalCoreId. by rewrite Hsz, Hll.
  - done.
  - eexists. split; [reflexivity|]. done.
Qed.

Lemma getPhysicalCoreId_behaviour_witness :
  let t := set_lgc {[1 := 4]}
             (set_clusters {[4 := Some (mkCluster 4 (Some 900) (Some 4) 4)]} TargetRegistry_init) in
  getPhysicalCoreId 1 3 t = Ok (6, t).
Proof.
  intros t.
  destruct (getPhysicalCoreId_behaviour (mkTargetConfigs "" 8 2 1) t 1 3 4
              (mkCluster 4 (Some 900) (Some 4) 4) 4) as (E & _).
  - reflexivity.
  - reflexivity.
  - split; unfold max_s; simpl; (reflexivity || lia).
  - exact E.
Defined.

(** The mapping generated from the cpufreq policy directories.  Logical cluster
    ids are [0 .. n - 1], one for each readable policy directory, in increasing order
    of capacity; the physical ids they map to are those of the clusters found, each
    recorded with its cluster; the cluster count is the number of directories. *)
Theorem generatePolicyBasedMapping_sorted (fs : FileSystem) (dirs : list string)
    (cfg : TargetConfigs) :
  let clusters := policy_loop fs 0 (merge_sort (fun a b => string_leb a b) dirs) in
  let '(t, cfg') := generatePolicyBasedMapping fs dirs TargetRegistry_init cfg in
  mTotalClusterCount cfg' = Z.of_nat (length dirs) /\
  exists configs,
    configs ≡ₚ map (fun c => (c.1, mPhysicalID c.2)) clusters /\
    (forall i j a b, (i < j)%nat -> configs !! i = Some a -> configs !! j = Some b -> a.1 <= b.1) /\
    (forall k, mLogicalToPhysicalClusterMapping t !! k =
       if 0 <=? k then snd <$> configs !! Z.to_nat k else None) /\
    (forall id c, mPhysicalClusters t !! id = Some c ->
       exists capacity info, c = Some info /\ (capacity, info) ∈ clusters /\ mPhysicalID info = id).
Proof.
  simpl. split.
  { rewrite (Permutation_length (merge_sort_Permutation _ dirs)). done. }
  set (clusters := policy_loop fs 0 _).
  exists (merge_sort (fun a b => pair_leb a b) (map (fun c => (c.1, mPhysicalID c.2)) clusters)).
  set (configs := merge_sort _ _). split_and!.
  - apply merge_sort_Permutation.
  - assert (StronglySorted (fun a b => pair_leb a b) configs) as Hs.
    { apply (StronglySorted_merge_sort (fun a b => pair_leb a b)). }
    intros i j a b Hij Ha Hb.
    assert (pair_leb a b) as Hab.
    { exact (StronglySorted_lookup_lt _ configs i j a b Hs Hij Ha Hb). }
    apply pair_leb_spec in Hab. lia.
  - intros k. rewrite logical_mapping_lookup, list_lookup_fmap, length_map.
    destruct (Z.leb_spec 0 k) as [Hk|Hk]; simpl; [|by rewrite lookup_empty]. rewrite Z.sub_0_r.
    case_if; zb; [done|]. rewrite lookup_empty, (lookup_ge_None_2 configs) by lia. done.
  - intros id c. apply (fold_insert_lookup clusters). intros id' c' E.
    simpl in E. by rewrite lookup_empty in E.
Qed.
