(* ===== verification/ResourceRegistry.v ===== *)
(** [resource-tuner/core/ResourceRegistry.cpp] and [ResourceRegistry.h]: the table of
    tunable resources, keyed by resource code, with their configuration, default
    values and lifecycle callbacks, and the builder the YAML parser fills.

    [ResourceConfigs] is the interface the rest of the program sees. *)
From Stdlib Require Import Ascii.
From S2P Require Import Prelude UrmTypes StdString AuxRoutines TargetRegistry.
Open Scope string_scope.
Open Scope list_scope.
Open Scope Z_scope.

Inductive ResourceApplyType := APPLY_CORE | APPLY_CLUSTER | APPLY_GLOBAL | APPLY_CGROUP.

#[export] Instance ResourceApplyType_eq_dec : EqDecision ResourceApplyType.
Proof. solve_decision. Defined.

(** A lifecycle callback: one of the defaults of [ResourceHooks.cpp] or a custom
    one registered by an extension. *)
Inductive ResourceLifecycleCallback :=
  | defaultClusterLevelApplierCb
  | defaultClusterLevelTearCb
  | defaultCoreLevelApplierCb
  | defaultCoreLevelTearCb
  | defaultCGroupLevelApplierCb
  | defaultCGroupLevelTearCb
  | defaultGlobalLevelApplierCb
  | defaultGlobalLevelTearCb
  | customCb (id : positive).

#[export] Instance ResourceLifecycleCallback_eq_dec : EqDecision ResourceLifecycleCallback.
Proof. solve_decision. Defined.

Record ResConfInfo := mkConf {
  mResourceName : string;
  mResourcePath : string;
  mResourceResType : Z;
  mResourceResID : Z;
  mHighThreshold : Z;
  mLowThreshold : Z;
  mPermissions : Z;
  mModes : Z;
  mApplyType : ResourceApplyType;
  mPolicy : Policy;
  mResourceApplierCallback : option ResourceLifecycleCallback;
  mUnit : TranslationUnit;
  mResourceTearCallback : option ResourceLifecycleCallback
}.

Definition set_callbacks (a t : option ResourceLifecycleCallback) (c : ResConfInfo) : ResConfInfo :=
  mkConf (mResourceName c) (mResourcePath c) (mResourceResType c) (mResourceResID c)
    (mHighThreshold c) (mLowThreshold c) (mPermissions c) (mModes c) (mApplyType c) (mPolicy c)
    a (mUnit c) t.

(** ** The interface *)
Class ResourceConfigs (R : Type) := {
  getResConf : R -> Z -> option ResConfInfo;
  getResourceTableIndex : R -> Z -> Z;
  getTotalResourcesCount : R -> Z;
  getRegisteredResources : R -> list ResConfInfo
}.

(** What a well-formed registry promises its clients. *)
Class ResourceConfigsLaws (R : Type) `{!ResourceConfigs R} (wf : R -> Prop) := {
  law_total : forall r, wf r -> getTotalResourcesCount r = Z.of_nat (length (getRegisteredResources r));
  law_index : forall r code conf, wf r -> getResConf r code = Some conf ->
    0 <= getResourceTableIndex r code /\
    getRegisteredResources r !! Z.to_nat (getResourceTableIndex r code) = Some conf;
  law_inj : forall r code code' conf conf', wf r -> getResConf r code = Some conf ->
    getResConf r code' = Some conf' ->
    getResourceTableIndex r code = getResourceTableIndex r code' -> code = code';
  law_missing : forall r code, wf r -> getResConf r code = None -> getResourceTableIndex r code = -1
}.

(** ** The registry *)
Record ResourceRegistry := mkRR {
  mTotalResources : Z;
  mResourceConfigs : list ResConfInfo;
  mSILMap : gmap Z Z;
  mDefaultValueStore : gmap string string
}.

Definition ResourceRegistry_init : ResourceRegistry := mkRR 0 [] ∅ ∅.

Definition set_store (m : gmap string string) (r : ResourceRegistry) : ResourceRegistry :=
  mkRR (mTotalResources r) (mResourceConfigs r) (mSILMap r) m.
Definition set_configs (l : list ResConfInfo) (r : ResourceRegistry) : ResourceRegistry :=
  mkRR (mTotalResources r) l (mSILMap r) (mDefaultValueStore r).

Definition isResourceConfigMalformed (rConf : option ResConfInfo) : bool :=
  match rConf with
  | None => true
  | Some c => mResourceResType c =? 0
  end.

Definition setLifeCycleCallbacks (c : ResConfInfo) : ResConfInfo :=
  match mApplyType c with
  | APPLY_CLUSTER =>
    set_callbacks (Some defaultClusterLevelApplierCb) (Some defaultClusterLevelTearCb) c
  | APPLY_CORE => set_callbacks (Some defaultCoreLevelApplierCb) (Some defaultCoreLevelTearCb) c
  | APPLY_CGROUP =>
    set_callbacks (Some defaultCGroupLevelApplierCb) (Some defaultCGroupLevelTearCb) c
  | APPLY_GLOBAL =>
    set_callbacks (Some defaultGlobalLevelApplierCb) (Some defaultGlobalLevelTearCb) c
  end.

Definition addDefaultValue (filePath value : string) (r : ResourceRegistry) : ResourceRegistry :=
  set_store (<[filePath := value]> (mDefaultValueStore r)) r.

(** The default of each file [snprintf(path, arg)] names, for each argument. *)
Fixpoint store_formatted (fs : FileSystem) (path : string) (args : list fmt_arg)
    (r : ResourceRegistry) : result ResourceRegistry :=
  match args with
  | [] => Ok r
  | a :: args =>
    filePath ← snprintf 128 path a;
    store_formatted fs path args (addDefaultValue filePath (readFromFile fs filePath) r)
  end.

Section Order.
Context `{HashOrder}.

Definition fetchAndStoreDefaults (fs : FileSystem) (t : TargetRegistry) (cfg : TargetConfigs)
    (c : ResConfInfo) (r : ResourceRegistry) : result ResourceRegistry :=
  match mApplyType c with
  | APPLY_CLUSTER => store_formatted fs (mResourcePath c) (map ArgInt (getClusterIDs t)) r
  | APPLY_CGROUP =>
    names ← getCGroupNames t;
    store_formatted fs (mResourcePath c) (map ArgStr names) r
  | APPLY_CORE =>
    store_formatted fs (mResourcePath c)
      (map (fun i => ArgInt (Z.of_nat i)) (seq 0 (Z.to_nat (mTotalCoreCount cfg)))) r
  | APPLY_GLOBAL =>
    Ok (addDefaultValue (mResourcePath c) (readFromFile fs (mResourcePath c)) r)
  end.

(** [mResourceResID] (16 bits) and [mResourceResType] (8 bits) packed in 32 bits. *)
Definition resourceBitmap (c : ResConfInfo) : Z :=
  Z.lor (Z.lor 0 (mResourceResID c)) (wrap_u 32 (Z.shiftl (mResourceResType c) 16)).

(** The table part of [registerResource]: overwrite a known key, append a new one;
    then the callbacks are set through the same pointer. *)
Definition table_insert (c : ResConfInfo) (r : ResourceRegistry) : result ResourceRegistry :=
  let key := resourceBitmap c in
  match mSILMap r !! key with
  | Some resourceTableIndex =>
    if (resourceTableIndex <? 0) || (resourceTableIndex >=? Z.of_nat (length (mResourceConfigs r)))
    then Fault OutOfRange else
    Ok (mkRR (mTotalResources r)
          (alter setLifeCycleCallbacks (Z.to_nat resourceTableIndex)
            (<[Z.to_nat resourceTableIndex := c]> (mResourceConfigs r)))
          (<[key := resourceTableIndex]> (delete key (mSILMap r))) (mDefaultValueStore r))
  | None =>
    Ok (mkRR (mTotalResources r + 1) (mResourceConfigs r ++ [setLifeCycleCallbacks c])
          (<[key := mTotalResources r]> (mSILMap r)) (mDefaultValueStore r))
  end.

Definition registerResource (fs : FileSystem) (t : TargetRegistry) (cfg : TargetConfigs)
    (p : option ResConfInfo) (r : ResourceRegistry) : result ResourceRegistry :=
  if isResourceConfigMalformed p then Ok r else
  c ← deref p;
  r ← table_insert c r;
  fetchAndStoreDefaults fs t cfg (setLifeCycleCallbacks c) r.

(** [restoreResourcesToDefaultValues]: every stored default is written back. *)
Definition restoreResourcesToDefaultValues (r : ResourceRegistry) (fs : FileSystem) : FileSystem :=
  foldl (fun fs e => writeToFile fs e.1 e.2) fs (hash_order (mDefaultValueStore r)).
End Order.

(** An index in [mSILMap] is always inside the vector ([reg_wf] below); the lookup
    outside it, undefined in C++, is [None] here. *)
Definition registry_getResConf (r : ResourceRegistry) (resourceId : Z) : option ResConfInfo :=
  match mSILMap r !! resourceId with
  | None => None
  | Some i => if i =? -1 then None else mResourceConfigs r !! Z.to_nat i
  end.

Definition registry_getResourceTableIndex (r : ResourceRegistry) (resourceId : Z) : Z :=
  match mSILMap r !! resourceId with None => -1 | Some i => i end.

#[export] Instance registry_configs : ResourceConfigs ResourceRegistry := {
  getResConf := registry_getResConf;
  getResourceTableIndex := registry_getResourceTableIndex;
  getTotalResourcesCount := mTotalResources;
  getRegisteredResources := mResourceConfigs
}.

(** [mDefaultValueStore[filePath]]: a missing path is inserted with an empty value. *)
Definition getDefaultValue (filePath : string) (r : ResourceRegistry) : string * ResourceRegistry :=
  let '(v, m) := map_index "" filePath (mDefaultValueStore r) in (v, set_store m r).

Definition deleteDefaultValue (filePath : string) (r : ResourceRegistry) : ResourceRegistry :=
  set_store (delete filePath (mDefaultValueStore r)) r.

(** The two loops of [pluginModifications]. *)
Definition plugin_appliers (cbs : list (Z * ResourceLifecycleCallback)) (r : ResourceRegistry)
  : ResourceRegistry :=
  foldl (fun r cb =>
    let i := registry_getResourceTableIndex r cb.1 in
    if i =? -1 then r else
    set_configs (alter (fun c => set_callbacks (Some cb.2) (mResourceTearCallback c) c)
                       (Z.to_nat i) (mResourceConfigs r)) r) r cbs.
Definition plugin_tears (cbs : list (Z * ResourceLifecycleCallback)) (r : ResourceRegistry)
  : ResourceRegistry :=
  foldl (fun r cb =>
    let i := registry_getResourceTableIndex r cb.1 in
    if i =? -1 then r else
    set_configs (alter (fun c => set_callbacks (mResourceApplierCallback c) (Some cb.2) c)
                       (Z.to_nat i) (mResourceConfigs r)) r) r cbs.
Definition pluginModifications (applierCallbacks tearCallbacks : list (Z * ResourceLifecycleCallback))
    (r : ResourceRegistry) : ResourceRegistry :=
  plugin_tears tearCallbacks (plugin_appliers applierCallbacks r).

(** ** ResourceConfigInfoBuilder *)
Record ResourceConfigInfoBuilder := mkRB {
  mTargetRefCount : Z;
  mResourceConfigInfo : option ResConfInfo
}.

Definition unsupportedResoure : Z := -2.

Definition ResourceConfigInfoBuilder_init (alloc : bool) : ResourceConfigInfoBuilder :=
  mkRB 0 (if alloc then
    Some (mkConf "" "" 0 0 (-1) (-1) PERMISSION_THIRD_PARTY 0 APPLY_GLOBAL LAZY_APPLY None U_NA None)
    else None).

(** A setter of the builder: nothing happens without a config object. *)
Definition on_conf (b : ResourceConfigInfoBuilder) (f : ResConfInfo -> ErrCode * ResConfInfo)
  : ErrCode * ResourceConfigInfoBuilder :=
  match mResourceConfigInfo b with
  | None => (RC_INVALID_VALUE, b)
  | Some c => let '(rc, c) := f c in (rc, mkRB (mTargetRefCount b) (Some c))
  end.

Definition conf_name v c := mkConf v (mResourcePath c) (mResourceResType c) (mResourceResID c)
  (mHighThreshold c) (mLowThreshold c) (mPermissions c) (mModes c) (mApplyType c) (mPolicy c)
  (mResourceApplierCallback c) (mUnit c) (mResourceTearCallback c).
Definition conf_path v c := mkConf (mResourceName c) v (mResourceResType c) (mResourceResID c)
  (mHighThreshold c) (mLowThreshold c) (mPermissions c) (mModes c) (mApplyType c) (mPolicy c)
  (mResourceApplierCallback c) (mUnit c) (mResourceTearCallback c).
Definition conf_type v c := mkConf (mResourceName c) (mResourcePath c) v (mResourceResID c)
  (mHighThreshold c) (mLowThreshold c) (mPermissions c) (mModes c) (mApplyType c) (mPolicy c)
  (mResourceApplierCallback c) (mUnit c) (mResourceTearCallback c).
Definition conf_id v c := mkConf (mResourceName c) (mResourcePath c) (mResourceResType c) v
  (mHighThreshold c) (mLowThreshold c) (mPermissions c) (mModes c) (mApplyType c) (mPolicy c)
  (mResourceApplierCallback c) (mUnit c) (mResourceTearCallback c).
Definition conf_high v c := mkConf (mResourceName c) (mResourcePath c) (mResourceResType c)
  (mResourceResID c) v (mLowThreshold c) (mPermissions c) (mModes c) (mApplyType c) (mPolicy c)
  (mResourceApplierCallback c) (mUnit c) (mResourceTearCallback c).
Definition conf_low v c := mkConf (mResourceName c) (mResourcePath c) (mResourceResType c)
  (mResourceResID c) (mHighThreshold c) v (mPermissions c) (mModes c) (mApplyType c) (mPolicy c)
  (mResourceApplierCallback c) (mUnit c) (mResourceTearCallback c).
Definition conf_permissions v c := mkConf (mResourceName c) (mResourcePath c) (mResourceResType c)
  (mResourceResID c) (mHighThreshold c) (mLowThreshold c) v (mModes c) (mApplyType c) (mPolicy c)
  (mResourceApplierCallback c) (mUnit c) (mResourceTearCallback c).
Definition conf_modes v c := mkConf (mResourceName c) (mResourcePath c) (mResourceResType c)
  (mResourceResID c) (mHighThreshold c) (mLowThreshold c) (mPermissions c) v (mApplyType c)
  (mPolicy c) (mResourceApplierCallback c) (mUnit c) (mResourceTearCallback c).
Definition conf_apply v c := mkConf (mResourceName c) (mResourcePath c) (mResourceResType c)
  (mResourceResID c) (mHighThreshold c) (mLowThreshold c) (mPermissions c) (mModes c) v
  (mPolicy c) (mResourceApplierCallback c) (mUnit c) (mResourceTearCallback c).
Definition conf_policy v c := mkConf (mResourceName c) (mResourcePath c) (mResourceResType c)
  (mResourceResID c) (mHighThreshold c) (mLowThreshold c) (mPermissions c) (mModes c)
  (mApplyType c) v (mResourceApplierCallback c) (mUnit c) (mResourceTearCallback c).
Definition conf_unit v c := mkConf (mResourceName c) (mResourcePath c) (mResourceResType c)
  (mResourceResID c) (mHighThreshold c) (mLowThreshold c) (mPermissions c) (mModes c)
  (mApplyType c) (mPolicy c) (mResourceApplierCallback c) v (mResourceTearCallback c).

Definition setName (name : string) (b : ResourceConfigInfoBuilder) :=
  on_conf b (fun c => (RC_SUCCESS, conf_name name c)).

(** The loop over [tokens[1]]: the directory suffix, the path after it, and whether a
    [%] occurs before or after. *)
Fixpoint split_key (s : string) (foundSplit : bool) : string * string * bool :=
  match s with
  | EmptyString => ("", "", false)
  | String ch s =>
    if is_char 47 ch then
      let '(key, rem, clus) := split_key s true in
      (key, if foundSplit then String ch rem else rem, clus)
    else
      let '(key, rem, clus) := split_key s foundSplit in
      let clus := clus || is_char 37 ch in
      if foundSplit then (key, String ch rem, clus) else (String ch key, rem, clus)
  end.

(** The [readdir] loop: the first directory that fits names the resolved path. *)
Fixpoint match_dir (fs : FileSystem) (base keyMatch rem : string) (isCoreClusRes : bool)
    (entries : list (string * bool)) : result (option string) :=
  match entries with
  | [] => Ok None
  | (dirName, isDir) :: entries =>
    if String.eqb dirName "." || String.eqb dirName ".." || negb isDir
       || negb (ends_with keyMatch dirName)
    then match_dir fs base keyMatch rem isCoreClusRes entries
    else
      slash ← back_is "/"%char base;
      let filePath := ((if (slash : bool) then base else base +:+ "/") +:+ dirName +:+ "/" +:+ rem)%string in
      if isCoreClusRes || fileExists fs filePath then Ok (Some filePath)
      else match_dir fs base keyMatch rem isCoreClusRes entries
  end.

Definition setPath (fs : FileSystem) (path : string) (b : ResourceConfigInfoBuilder)
  : result (ErrCode * ResourceConfigInfoBuilder) :=
  match mResourceConfigInfo b with
  | None => Ok (RC_INVALID_VALUE, b)
  | Some c =>
    let c := conf_path path c in
    let done c := Ok (RC_SUCCESS, mkRB (mTargetRefCount b) (Some c)) in
    match split_on "*"%char path with
    | base :: tok1 :: _ =>
      let '(keyMatch, rem, isCoreClusRes) := split_key tok1 false in
      match fs_dirs fs base with
      | None => done c
      | Some entries =>
        r ← match_dir fs base keyMatch rem isCoreClusRes entries;
        done match r with Some p => conf_path p c | None => c end
      end
    | _ => done c
    end
  end.

(** A numeric setter: the member is first reset, then set to the parsed number cut to
    its width. *)
Definition set_number (cut : Z -> Z) (reset : Z) (upd : Z -> ResConfInfo -> ResConfInfo)
    (s : string) (b : ResourceConfigInfoBuilder) :=
  on_conf b (fun c =>
    match stoi 0 s with
    | inl v => (RC_SUCCESS, upd (cut v) c)
    | inr _ => (RC_INVALID_VALUE, upd reset c)
    end).

Definition setResType := set_number (wrap_u 8) (wrap_u 8 (-1)) conf_type.
Definition setResID := set_number (wrap_u 16) 0 conf_id.
Definition setHighThreshold := set_number (fun v => v) 0 conf_high.
Definition setLowThreshold := set_number (fun v => v) 0 conf_low.

(** A setter from a keyword: unknown non-empty words are refused, an empty one
    selects the default. *)
Definition set_keyword {A} (table : list (string * A)) (dflt : A)
    (upd : A -> ResConfInfo -> ResConfInfo) (s : string) (b : ResourceConfigInfoBuilder) :=
  on_conf b (fun c =>
    match list_find (fun e => e.1 = s) table with
    | Some (_, e) => (RC_SUCCESS, upd e.2 c)
    | None =>
      if (String.length s =? 0)%nat then (RC_SUCCESS, upd dflt c) else (RC_INVALID_VALUE, c)
    end).

Definition setPermissions :=
  set_keyword [("system", PERMISSION_SYSTEM); ("third_party", PERMISSION_THIRD_PARTY)]
    PERMISSION_THIRD_PARTY conf_permissions.

(** Modes accumulate. *)
Definition setModes :=
  set_keyword [("display_on", MODE_RESUME); ("display_off", MODE_SUSPEND); ("doze", MODE_DOZE)]
    0 (fun m c => conf_modes (Z.lor (mModes c) m) c).

Definition setSupported (s : string) (b : ResourceConfigInfoBuilder) :=
  match mResourceConfigInfo b with
  | None => (RC_INVALID_VALUE, b)
  | Some _ =>
    (RC_SUCCESS,
     if String.eqb s "true" then b else mkRB unsupportedResoure (mResourceConfigInfo b))
  end.

Definition setPolicy :=
  set_keyword [("higher_is_better", HIGHER_BETTER); ("lower_is_better", LOWER_BETTER);
               ("lazy_apply", LAZY_APPLY); ("instant_apply", INSTANT_APPLY);
               ("pass_through", PASS_THROUGH); ("pass_through_append", PASS_THROUGH_APPEND)]
    LAZY_APPLY conf_policy.

Definition setTranslationUnit :=
  set_keyword [("KB", U_KB); ("kb", U_KB); ("MB", U_MB); ("mb", U_MB); ("GB", U_GB); ("gb", U_GB);
               ("KHz", U_KHz); ("khz", U_KHz); ("MHz", U_MHz); ("mhz", U_MHz);
               ("GHz", U_GHz); ("ghz", U_GHz); ("Hz", U_Hz); ("hz", U_Hz);
               ("byte", U_BYTE); ("NA", U_NA); ("na", U_NA)]
    U_NA conf_unit.

Definition setApplyType :=
  set_keyword [("global", APPLY_GLOBAL); ("core", APPLY_CORE); ("cluster", APPLY_CLUSTER);
               ("cgroup", APPLY_CGROUP)]
    APPLY_GLOBAL conf_apply.

(** The reference count of the targets: [-1] not for this target, [1] for it. *)
Definition add_target (first hit : Z) (cfg : TargetConfigs) (target : string)
    (b : ResourceConfigInfoBuilder) : ErrCode * ResourceConfigInfoBuilder :=
  match mResourceConfigInfo b with
  | None => (RC_MEMORY_ALLOCATION_FAILURE, b)
  | Some _ =>
    if mTargetRefCount b =? unsupportedResoure then (RC_RESOURCE_NOT_SUPPORTED, b) else
    let n := if mTargetRefCount b =? 0 then first else mTargetRefCount b in
    let n := if String.eqb target (targetName cfg) then hit else n in
    (RC_SUCCESS, mkRB n (mResourceConfigInfo b))
  end.
Definition addTargetEnabled := add_target (-1) 1.
Definition addTargetDisabled := add_target 1 (-1).

Definition build (b : ResourceConfigInfoBuilder) : option ResConfInfo := mResourceConfigInfo b.

(** ** The registry as a map from resource codes *)

(** Every key indexes a configuration with that code, every configuration has its key. *)
Record reg_wf (r : ResourceRegistry) : Prop := {
  wf_total : mTotalResources r = Z.of_nat (length (mResourceConfigs r));
  wf_index : forall key i, mSILMap r !! key = Some i ->
    exists c, 0 <= i /\ mResourceConfigs r !! Z.to_nat i = Some c /\ resourceBitmap c = key;
  wf_key : forall (i : nat) c, mResourceConfigs r !! i = Some c ->
    mSILMap r !! resourceBitmap c = Some (Z.of_nat i)
}.

Lemma reg_wf_init : reg_wf ResourceRegistry_init.
Proof. by split; [|intros ? ?; simpl; rewrite lookup_empty|]. Qed.

Lemma setLifeCycleCallbacks_bitmap c :
  resourceBitmap (setLifeCycleCallbacks c) = resourceBitmap c.
Proof. unfold setLifeCycleCallbacks. by destruct (mApplyType c). Qed.

Lemma wf_getResConf r code conf :
  reg_wf r -> getResConf r code = Some conf <->
  exists i, mSILMap r !! code = Some i /\ 0 <= i /\ mResourceConfigs r !! Z.to_nat i = Some conf /\
            resourceBitmap conf = code.
Proof.
  intros Hr. simpl. unfold registry_getResConf. split.
  - destruct (mSILMap r !! code) as [i|] eqn:E; [|done].
    destruct (wf_index r Hr code i E) as (c & Hi & Hc & Hk). replace (i =? -1) with false by lia.
    rewrite Hc. intros [= ->]. eauto.
  - intros (i & E & Hi & Hc & Hk). rewrite E. by replace (i =? -1) with false by lia.
Qed.

#[export] Instance registry_laws : ResourceConfigsLaws ResourceRegistry reg_wf.
Proof.
  split.
  - intros r Hr. apply Hr.
  - intros r code conf Hr Hc. apply wf_getResConf in Hc as (i & E & Hi & Hc & _); [|done].
    simpl. unfold registry_getResourceTableIndex. by rewrite E.
  - intros r code code' conf conf' Hr Hc Hc' Ei.
    apply wf_getResConf in Hc as (i & E & Hi & Hl & <-); [|done].
    apply wf_getResConf in Hc' as (i' & E' & Hi' & Hl' & <-); [|done].
    simpl in Ei. unfold registry_getResourceTableIndex in Ei. rewrite E, E' in Ei. subst. congruence.
  - intros r code Hr Hc. simpl in *. unfold registry_getResConf, registry_getResourceTableIndex in *.
    destruct (mSILMap r !! code) as [i|] eqn:E; [|done].
    destruct (wf_index r Hr code i E) as (c & Hi & Hl & _). replace (i =? -1) with false in Hc by lia.
    by rewrite Hl in Hc.
Qed.

(** What one insertion does to the table, seen as a map. *)
Definition registered (c : ResConfInfo) (r r' : ResourceRegistry) : Prop :=
  reg_wf r' /\ mDefaultValueStore r' = mDefaultValueStore r /\
  forall code, getResConf r' code =
    if decide (code = resourceBitmap c) then Some (setLifeCycleCallbacks c) else getResConf r code.

Lemma overwrite_registered c r i :
  reg_wf r -> mSILMap r !! resourceBitmap c = Some i ->
  registered c r
    (mkRR (mTotalResources r)
       (alter setLifeCycleCallbacks (Z.to_nat i) (<[Z.to_nat i := c]> (mResourceConfigs r)))
       (mSILMap r) (mDefaultValueStore r)).
Proof.
  intros Hr E. destruct (wf_index r Hr _ i E) as (c0 & Hi & Hc0 & Hk0).
  pose proof (lookup_lt_Some _ _ _ Hc0) as Hlt. set (confs := alter _ _ _).
  assert (forall j, confs !! j =
    if decide (j = Z.to_nat i) then Some (setLifeCycleCallbacks c) else mResourceConfigs r !! j)
    as Hconfs.
  { intros j. unfold confs. destruct (decide (j = Z.to_nat i)) as [->|].
    - rewrite list_lookup_alter_eq, list_lookup_insert_eq by done. done.
    - by rewrite list_lookup_alter_ne, list_lookup_insert_ne. }
  split_and!; [split; simpl|done|].
  - unfold confs. rewrite length_alter, length_insert. apply Hr.
  - intros k j Hk. destruct (wf_index r Hr k j Hk) as (cj & Hj & Hcj & Hkj).
    rewrite Hconfs. case_decide as Hd; [|eauto].
    exists (setLifeCycleCallbacks c). split_and!; [done|done|].
    rewrite setLifeCycleCallbacks_bitmap. assert (j = i) as -> by lia. congruence.
  - intros j cj Hj. rewrite Hconfs in Hj. case_decide as Hd; [|by apply Hr].
    injection Hj as <-. rewrite setLifeCycleCallbacks_bitmap. subst j. by rewrite Z2Nat.id.
  - intros code. simpl. unfold registry_getResConf. simpl. case_decide as Hd.
    + subst code. rewrite E. replace (i =? -1) with false by lia. rewrite Hconfs.
      by rewrite decide_True.
    + destruct (mSILMap r !! code) as [j|] eqn:Ej; [|done]. case_if; [done|]. rewrite Hconfs.
      rewrite decide_False; [done|]. intros Hji.
      destruct (wf_index r Hr code j Ej) as (cj & Hj & Hcj & Hkj). rewrite Hji in Hcj. congruence.
Qed.

Lemma append_registered c r :
  reg_wf r -> mSILMap r !! resourceBitmap c = None ->
  registered c r
    (mkRR (mTotalResources r + 1) (mResourceConfigs r ++ [setLifeCycleCallbacks c])
       (<[resourceBitmap c := mTotalResources r]> (mSILMap r)) (mDefaultValueStore r)).
Proof.
  intros Hr E. pose proof (wf_total r Hr) as Ht. split_and!; [split; simpl|done|].
  - rewrite length_app. simpl. lia.
  - intros k j. destruct (decide (k = resourceBitmap c)) as [->|].
    + rewrite lookup_insert_eq. intros [= <-]. exists (setLifeCycleCallbacks c).
      split_and!; [lia| |by apply setLifeCycleCallbacks_bitmap].
      rewrite Ht, Nat2Z.id. by apply list_lookup_middle.
    + rewrite lookup_insert_ne by done. intros Hk.
      destruct (wf_index r Hr k j Hk) as (cj & Hj & Hcj & Hkj). exists cj.
      split_and!; [done| |done]. by apply lookup_app_l_Some.
  - intros j cj [Hj|[Hj Hc]]%lookup_app_Some.
    + rewrite lookup_insert_ne; [by apply Hr|]. intros Hk.
      pose proof (wf_key r Hr j cj Hj) as Hkj. congruence.
    + destruct (j - length (mResourceConfigs r))%nat as [|n] eqn:En; [|done].
      simpl in Hc. injection Hc as <-. rewrite setLifeCycleCallbacks_bitmap.
      rewrite lookup_insert_eq. f_equal. lia.
  - intros code. simpl. unfold registry_getResConf. simpl. case_decide as Hd.
    + subst code. rewrite lookup_insert_eq. replace (mTotalResources r =? -1) with false by lia.
      rewrite Ht, Nat2Z.id. by apply list_lookup_middle.
    + rewrite lookup_insert_ne by done. destruct (mSILMap r !! code) as [j|] eqn:Ej; [|done].
      destruct (wf_index r Hr code j Ej) as (cj & Hj & Hcj & Hkj).
      replace (j =? -1) with false by lia. rewrite Hcj. by apply lookup_app_l_Some.
Qed.

Lemma table_insert_spec c r :
  reg_wf r -> exists r', table_insert c r = Ok r' /\ registered c r r'.
Proof.
  intros Hr. unfold table_insert. destruct (mSILMap r !! resourceBitmap c) as [i|] eqn:E.
  - destruct (wf_index r Hr _ i E) as (c0 & Hi & Hc0 & _).
    pose proof (lookup_lt_Some _ _ _ Hc0) as Hlt.
    destruct (_ || _) eqn:Eb; [zb; destruct Eb; zb; lia|]. eexists. split; [done|].
    rewrite insert_delete_eq, insert_id by done. by apply overwrite_registered.
  - eexists. split; [done|]. by apply append_registered.
Qed.

(** The default values only grow by the files of the new resource; the table does not
    change. *)
Lemma store_formatted_table fs path args : forall r r',
  store_formatted fs path args r = Ok r' ->
  mTotalResources r' = mTotalResources r /\ mResourceConfigs r' = mResourceConfigs r /\
  mSILMap r' = mSILMap r.
Proof.
  induction args as [|a args IH]; intros r r' H; simpl in H; inv_ok H.
  - by subst.
  - by apply IH in H.
Qed.

Lemma fetchAndStoreDefaults_table `{HashOrder} fs t cfg c r r' :
  fetchAndStoreDefaults fs t cfg c r = Ok r' ->
  mTotalResources r' = mTotalResources r /\ mResourceConfigs r' = mResourceConfigs r /\
  mSILMap r' = mSILMap r.
Proof.
  unfold fetchAndStoreDefaults. destruct (mApplyType c); intros E; inv_ok E; subst;
    try (by eapply store_formatted_table); done.
Qed.

Lemma reg_wf_ext r r' :
  mTotalResources r' = mTotalResources r -> mResourceConfigs r' = mResourceConfigs r ->
  mSILMap r' = mSILMap r -> reg_wf r -> reg_wf r'.
Proof. intros E1 E2 E3 []. split; rewrite ?E1, ?E2, ?E3; done. Qed.

(** The packing of the code separates type and id. *)
Lemma resourceBitmap_inj c1 c2 :
  in_u 16 (mResourceResID c1) -> in_u 16 (mResourceResID c2) ->
  in_u 8 (mResourceResType c1) -> in_u 8 (mResourceResType c2) ->
  resourceBitmap c1 = resourceBitmap c2 ->
  mResourceResID c1 = mResourceResID c2 /\ mResourceResType c1 = mResourceResType c2.
Proof.
  assert (forall c, in_u 16 (mResourceResID c) -> in_u 8 (mResourceResType c) ->
    resourceBitmap c = mResourceResID c + 65536 * mResourceResType c) as Hpack.
  { intros c Hi Ht. unfold resourceBitmap. rewrite Z.lor_0_l, wrap_u_id.
    - rewrite <- Z.lxor_lor, <- Z.add_nocarry_lxor.
      + rewrite Z.shiftl_mul_pow2 by lia. lia.
      + zbits.
      + zbits.
    - unfold in_u in *. rewrite Z.shiftl_mul_pow2 by lia. lia. }
  intros H1 H2 H3 H4 E. rewrite !Hpack in E by done. unfold in_u in *. lia.
Qed.

Lemma set_keyword_bad {A} (table : list (string * A)) dflt upd s n c :
  s ∉ map fst table -> s <> "" ->
  set_keyword table dflt upd s (mkRB n (Some c)) = (RC_INVALID_VALUE, mkRB n (Some c)).
Proof.
  intros Hs Hne. unfold set_keyword, on_conf. simpl.
  assert (list_find (fun e => e.1 = s) table = None) as ->.
  { apply list_find_None, Forall_forall. intros e He Es. apply Hs. subst.
    by apply list_elem_of_fmap_2. }
  by destruct s.
Qed.

(** ** Properties *)

(** Registering a resource.  On a well-formed registry a malformed or null
    configuration changes nothing; any other one, when its default values can be
    read, is from then on the answer of [getResConf] for its code, with the default
    callbacks of its apply type, replacing an earlier one with the same code; every
    other code keeps its answer; and the registry stays well formed. *)
Theorem registerResource_refines_map `{HashOrder} (fs : FileSystem) (t : TargetRegistry)
    (cfg : TargetConfigs) (p : option ResConfInfo) (r r' : ResourceRegistry) :
  reg_wf r -> registerResource fs t cfg p r = Ok r' ->
  reg_wf r' /\
  match p with
  | None => r' = r
  | Some c =>
    if mResourceResType c =? 0 then r' = r else
    forall code, getResConf r' code =
      if decide (code = resourceBitmap c) then Some (setLifeCycleCallbacks c) else getResConf r code
  end.
Proof.
  intros Hr. unfold registerResource, isResourceConfigMalformed.
  destruct p as [c|]; [|intros [= ->]; done].
  destruct (mResourceResType c =? 0); [intros [= ->]; done|]. simpl.
  destruct (table_insert_spec c r Hr) as (r1 & -> & Hw & _ & Hget). simpl. intros E.
  destruct (fetchAndStoreDefaults_table fs t cfg _ _ _ E) as (E1 & E2 & E3). split.
  - by eapply reg_wf_ext.
  - intros code. rewrite <- Hget. simpl. unfold registry_getResConf. by rewrite E2, E3.
Qed.

Definition sample_conf (ty id : Z) (p : Policy) (a : ResourceApplyType) : ResConfInfo :=
  mkConf "r" "/sys/r" ty id 100 0 PERMISSION_THIRD_PARTY 1 a p None U_NA None.
Definition empty_fs : FileSystem :=
  mkFS ∅ (fun _ => None) (fun _ => true) (fun _ => true) (fun _ => MkdirError).

Lemma registerResource_refines_map_witness :
  exists r', registerResource (H := sorted_hash_order) empty_fs TargetRegistry_init
      (mkTargetConfigs "" 8 2 1) (Some (sample_conf 3 7 LAZY_APPLY APPLY_GLOBAL))
      ResourceRegistry_init = Ok r' /\
    mPolicy <$> getResConf r' 196615 = Some LAZY_APPLY.
Proof.
  eexists. split; [vm_compute; reflexivity|].
  destruct (registerResource_refines_map (H := sorted_hash_order) empty_fs TargetRegistry_init
      (mkTargetConfigs "" 8 2 1) (Some (sample_conf 3 7 LAZY_APPLY APPLY_GLOBAL))
      ResourceRegistry_init _ reg_wf_init ltac:(vm_compute; reflexivity)) as [_ E].
  rewrite (E 196615). vm_compute. reflexivity.
Defined.

(** Resource codes are not confused.  Two configurations whose type and id fit
    their 8- and 16-bit fields have the same code only if both agree; so a well-formed
    registry built by registrations returns, for a code, a configuration with that
    type and id, at an index inside the table that [getResourceTableIndex] reports,
    and [-1] for a code it does not know. *)
Theorem ResourceRegistry_codes (r : ResourceRegistry) (code : Z) (c : ResConfInfo) :
  reg_wf r ->
  (forall c1 c2, in_u 16 (mResourceResID c1) -> in_u 16 (mResourceResID c2) ->
     in_u 8 (mResourceResType c1) -> in_u 8 (mResourceResType c2) ->
     resourceBitmap c1 = resourceBitmap c2 ->
     mResourceResID c1 = mResourceResID c2 /\ mResourceResType c1 = mResourceResType c2) /\
  (getResConf r code = Some c ->
     resourceBitmap c = code /\ 0 <= getResourceTableIndex r code < getTotalResourcesCount r /\
     getRegisteredResources r !! Z.to_nat (getResourceTableIndex r code) = Some c) /\
  (getResConf r code = None -> getResourceTableIndex r code = -1).
Proof.
  intros Hr. split_and!.
  - apply resourceBitmap_inj.
  - intros Hc. pose proof (law_index r code c Hr Hc) as [Hi Hl].
    apply wf_getResConf in Hc as (_ & _ & _ & _ & Hk); [|done]. split_and!; try done.
    rewrite (law_total r Hr). apply lookup_lt_Some in Hl. lia.
  - by apply law_missing.
Qed.

Lemma ResourceRegistry_codes_witness :
  let r := mkRR 1 [sample_conf 3 7 LAZY_APPLY APPLY_GLOBAL] {[196615 := 0]} ∅ in
  getResourceTableIndex r 196614 = -1.
Proof.
  intros r. destruct (ResourceRegistry_codes r 196614 (sample_conf 3 7 LAZY_APPLY APPLY_GLOBAL))
    as (_ & _ & H).
  - split; [reflexivity| |].
    + intros key i Hk. cbn [r mSILMap] in Hk. apply lookup_singleton_Some in Hk as [<- <-].
      exists (sample_conf 3 7 LAZY_APPLY APPLY_GLOBAL). split_and!; [lia|reflexivity|reflexivity].
    + intros [|[|i]] c Hc; [injection Hc as <-; reflexivity|discriminate|discriminate].
  - apply H. reflexivity.
Defined.

(** The builder of resource configurations refuses what it cannot represent.
    Keywords outside its tables give [RC_INVALID_VALUE] and leave the configuration;
    a number that does not parse gives [RC_INVALID_VALUE] too, but resets the field,
    for the resource type to 255, which the registry does not treat as malformed; a
    resource marked unsupported stays so whatever targets are added later. *)
Theorem ResourceConfigInfoBuilder_errors (s : string) (n : Z) (c : ResConfInfo) (cfg : TargetConfigs) :
  let b := mkRB n (Some c) in
  (forall x, stoi 0 s = inr x ->
     setResType s b = (RC_INVALID_VALUE, mkRB n (Some (conf_type 255 c))) /\
     isResourceConfigMalformed (Some (conf_type 255 c)) = false) /\
  (s ∉ ["higher_is_better"; "lower_is_better"; "lazy_apply"; "instant_apply"; "pass_through";
        "pass_through_append"; ""] -> setPolicy s b = (RC_INVALID_VALUE, b)) /\
  (s ∉ ["global"; "core"; "cluster"; "cgroup"; ""] -> setApplyType s b = (RC_INVALID_VALUE, b)) /\
  (s <> "true" ->
     forall target, let b' := (setSupported s b).2 in
     addTargetEnabled cfg target b' = (RC_RESOURCE_NOT_SUPPORTED, b') /\
     addTargetDisabled cfg target b' = (RC_RESOURCE_NOT_SUPPORTED, b')).
Proof.
  simpl. split_and!.
  - intros x E. unfold setResType, set_number, on_conf. simpl. by rewrite E.
  - intros Hs. apply set_keyword_bad; [|set_solver].
    intros Hin. apply Hs. simpl in Hin. set_solver.
  - intros Hs. apply set_keyword_bad; [|set_solver].
    intros Hin. apply Hs. simpl in Hin. set_solver.
  - intros Hs target. unfold setSupported. simpl.
    destruct (String.eqb_spec s "true"); [done|]. done.
Qed.

Lemma ResourceConfigInfoBuilder_errors_witness :
  setPolicy "best" (mkRB 0 (Some (sample_conf 3 7 LAZY_APPLY APPLY_GLOBAL))) =
    (RC_INVALID_VALUE, mkRB 0 (Some (sample_conf 3 7 LAZY_APPLY APPLY_GLOBAL))).
Proof.
  destruct (ResourceConfigInfoBuilder_errors "best" 0 (sample_conf 3 7 LAZY_APPLY APPLY_GLOBAL)
    (mkTargetConfigs "" 8 2 1)) as (_ & H & _).
  apply H. apply (bool_decide_unpack _). vm_compute. exact I.
Defined.
