(* ===== verification/Extensions.v ===== *)
(** [extensions/Extensions.cpp] and [Include/Extensions.h]: the callbacks and the
    configuration files that plugins (and [ResourceHooks.cpp]) register through static
    objects, before [main] and at [dlopen].  The registration macros
    [URM_REGISTER_RES_APPLIER_CB], [URM_REGISTER_RES_TEAR_CB] and [URM_REGISTER_CONFIG]
    each construct one [Extensions] object; the constructor is the operation.

    A post-processing callback is known by a number. *)
From S2P Require Import Prelude ResourceRegistry.
Open Scope string_scope.
Open Scope list_scope.
Open Scope Z_scope.

Inductive ConfigType :=
  | RESOURCE_CONFIG
  | PROPERTIES_CONFIG
  | SIGNALS_CONFIG
  | EXT_FEATURES_CONFIG
  | TARGET_CONFIG
  | INIT_CONFIG
  | APP_CONFIG
  | TOTAL_CONFIGS_COUNT.     (* and any other value *)

Definition ConfigType_val (c : ConfigType) : Z :=
  match c with
  | RESOURCE_CONFIG => 0
  | PROPERTIES_CONFIG => 1
  | SIGNALS_CONFIG => 2
  | EXT_FEATURES_CONFIG => 3
  | TARGET_CONFIG => 4
  | INIT_CONFIG => 5
  | APP_CONFIG => 6
  | TOTAL_CONFIGS_COUNT => 7
  end.

Record Extensions := mkExtensions {
  mModifiedConfigFiles : list string;
  mResourceApplierCallbacks : gmap Z ResourceLifecycleCallback;
  mResourceTearCallbacks : gmap Z ResourceLifecycleCallback;
  mPostProcessCallbacks : gmap string (option positive)
}.

Definition Extensions_init : Extensions :=
  mkExtensions (replicate (Z.to_nat (ConfigType_val TOTAL_CONFIGS_COUNT)) "") ∅ ∅ ∅.

#[export] Instance ConfigType_eq_dec : EqDecision ConfigType.
Proof. solve_decision. Defined.

(** The constructor for a resource callback. *)
Definition Extensions_callback (resCode callbackType : Z) (callback : ResourceLifecycleCallback)
    (e : Extensions) : Extensions :=
  if callbackType =? 0 then
    mkExtensions (mModifiedConfigFiles e) (<[resCode := callback]> (mResourceApplierCallbacks e))
      (mResourceTearCallbacks e) (mPostProcessCallbacks e)
  else if callbackType =? 1 then
    mkExtensions (mModifiedConfigFiles e) (mResourceApplierCallbacks e)
      (<[resCode := callback]> (mResourceTearCallbacks e)) (mPostProcessCallbacks e)
  else e.

(** The constructor for a configuration file. *)
Definition Extensions_config (configType : ConfigType) (yamlFile : string) (e : Extensions) : Extensions :=
  let i := ConfigType_val configType in
  if (i <? 0) || (i >=? Z.of_nat (length (mModifiedConfigFiles e))) then e else
  mkExtensions (<[Z.to_nat i := yamlFile]> (mModifiedConfigFiles e))
    (mResourceApplierCallbacks e) (mResourceTearCallbacks e) (mPostProcessCallbacks e).

(** The constructor for a post-processing callback. *)
Definition Extensions_postprocess (identifier : string) (callback : positive) (e : Extensions)
  : Extensions :=
  mkExtensions (mModifiedConfigFiles e) (mResourceApplierCallbacks e) (mResourceTearCallbacks e)
    (<[identifier := Some callback]> (mPostProcessCallbacks e)).

Section Order.
Context `{HashOrder}.
Definition getResourceApplierCallbacks (e : Extensions) : list (Z * ResourceLifecycleCallback) :=
  hash_order (mResourceApplierCallbacks e).
Definition getResourceTearCallbacks (e : Extensions) : list (Z * ResourceLifecycleCallback) :=
  hash_order (mResourceTearCallbacks e).
End Order.

(** [mModifiedConfigFiles[...]]. *)
Definition config_file (c : ConfigType) (e : Extensions) : result string :=
  of_option OutOfRange (mModifiedConfigFiles e !! Z.to_nat (ConfigType_val c)).
Definition getResourceConfigFilePath := config_file RESOURCE_CONFIG.
Definition getPropertiesConfigFilePath := config_file PROPERTIES_CONFIG.
Definition getSignalsConfigFilePath := config_file SIGNALS_CONFIG.
Definition getExtFeaturesConfigFilePath := config_file EXT_FEATURES_CONFIG.
Definition getTargetConfigFilePath := config_file TARGET_CONFIG.
Definition getInitConfigFilePath := config_file INIT_CONFIG.
Definition getAppConfigFilePath := config_file APP_CONFIG.

(** [mPostProcessCallbacks[identifier]]: a null entry is inserted for an unknown name. *)
Definition getPostProcessingCallback (identifier : string) (e : Extensions)
  : option positive * Extensions :=
  let '(cb, m) := map_index None identifier (mPostProcessCallbacks e) in
  (cb, mkExtensions (mModifiedConfigFiles e) (mResourceApplierCallbacks e)
         (mResourceTearCallbacks e) m).

(** ** Facts *)
Lemma config_file_set c f e :
  length (mModifiedConfigFiles e) = 7%nat -> c <> TOTAL_CONFIGS_COUNT ->
  length (mModifiedConfigFiles (Extensions_config c f e)) = 7%nat /\
  forall c', config_file c' (Extensions_config c f e) =
    if decide (c' = c) then Ok f else config_file c' e.
Proof.
  intros Hl Hc. unfold Extensions_config. rewrite Hl.
  replace (_ || _) with false by (by destruct c). simpl. split; [by rewrite length_insert|].
  intros c'. unfold config_file. simpl. case_decide as Hd.
  - subst. rewrite list_lookup_insert_eq; [done|]. rewrite Hl. destruct c; simpl; lia || done.
  - rewrite list_lookup_insert_ne; [done|]. by destruct c, c'.
Qed.
