(* ===== verification/Request.v ===== *)
(** [modula/Common/Request.cpp], [modula/Common/Include/Request.h] and the state of
    [modula/Components/Timer.cpp]: a resource request, its timer, and the list of
    resource nodes it owns (linker [REQUEST_DL_NR] of each node).

    Nodes and their resources live in a [Store].  [FreeBlock] gives a block back to
    the memory pool, which keeps the memory mapped: the store marks the node freed
    and keeps its links readable, so that reads after a free are visible. *)
From S2P Require Import Prelude UrmTypes Message Resource DLManager.

Definition REQUEST_DL_NR : Z := 0.
Definition COCO_TABLE_DL_NR : Z := 1.

(** ** Nodes: [ResIterable] is [ExtIterable1<Resource*>] *)
Record Store := mkStore {
  st_links : Heap;                      (* two linkers per node *)
  st_data : gmap positive Resource;     (* [mData], absent when null *)
  st_freed : gset positive              (* nodes given back to the pool *)
}.

Definition with_links (h : Heap) (s : Store) : Store := mkStore h (st_data s) (st_freed s).

Definition set_data (x : positive) (r : Resource) (s : Store) : Store :=
  mkStore (st_links s) (<[x := r]> (st_data s)) (st_freed s).

(** [Resource* resource = node->mData], dereferenced. *)
Definition node_resource (s : Store) (x : positive) : result Resource := deref (st_data s !! x).

(** ** Timer *)
Record Timer := mkTimer {
  tm_duration : option Z;  (* uninitialised until started *)
  tm_stop : bool;          (* [mTimerStop] *)
  tm_armed : bool          (* a pool task waits for it *)
}.

Definition Timer_init : Timer := mkTimer None false false.

(** [pool] is [mTimerThreadPool]: null, or the answer of its [enqueueTask]. *)
Definition startTimer (pool : option bool) (duration : Z) (t : Timer) : bool * Timer :=
  if duration =? -1 then (true, t) else
  if (duration =? 0) || (duration <? -1) then (false, t) else
  let t := mkTimer (Some duration) (tm_stop t) (tm_armed t) in
  match pool with
  | None => (false, t)
  | Some false => (false, t)
  | Some true => (true, mkTimer (tm_duration t) (tm_stop t) true)
  end.

Definition killTimer (t : Timer) : Timer := mkTimer (tm_duration t) true (tm_armed t).

(** The pool task of a timer that is not recurring calls back once, unless stopped. *)
Definition timer_fires (t : Timer) : bool := tm_armed t && negb (tm_stop t).

(** ** Request *)
Record Request := mkRequest {
  req_msg : Message;
  mTimer : option Timer;
  mResourceList : option DLManager;
  mSource : Z
}.

Definition Request_init (junk : Message) : Request := mkRequest (Message_init junk) None None 0.

Definition with_msg (m : Message) (r : Request) : Request :=
  mkRequest m (mTimer r) (mResourceList r) (mSource r).
Definition with_list (l : option DLManager) (r : Request) : Request :=
  mkRequest (req_msg r) (mTimer r) l (mSource r).

Definition getTimer (r : Request) : option Timer := mTimer r.
Definition getResDlMgr (r : Request) : option DLManager := mResourceList r.
Definition getSource (r : Request) : Z := mSource r.
Definition setTimer (t : option Timer) (r : Request) : Request :=
  mkRequest (req_msg r) t (mResourceList r) (mSource r).
Definition unsetTimer (r : Request) : Request := setTimer None r.
Definition setSource (source : Z) (r : Request) : Request :=
  mkRequest (req_msg r) (mTimer r) (mResourceList r) source.

Definition getResourcesCount (r : Request) : Z :=
  match mResourceList r with None => 0 | Some l => getLen l end.

(** [alloc] is the outcome of the allocation of the list manager: when it throws, the
    resource is silently not added. *)
Definition addResource (alloc : bool) (resIterable : ptr) (s : Store) (r : Request)
  : result (Store * Request) :=
  let l := match mResourceList r with
           | Some l => Some l
           | None => if alloc then Some (DLManager_init REQUEST_DL_NR) else None
           end in
  match l with
  | None => Ok (s, r)
  | Some l =>
    '(_, h, l) ← insert (st_links s) l resIterable;
    Ok (with_links h s, with_list (Some l) r)
  end.

Definition free_node (x : positive) (s : Store) : Store :=
  mkStore (st_links s) (delete x (st_data s)) ({[x]} ∪ st_freed s).

(** The loop of [clearResources]: each node is freed before its next pointer is read.
    The last component lists the nodes read after they were freed. *)
Fixpoint clear_loop (fuel : nat) (s : Store) (k : Z) (iter : ptr)
  : result (Store * list positive) :=
  match iter with
  | None => Ok (s, [])
  | Some x =>
    match fuel with
    | O => Fault OutOfFuel
    | S fuel =>
      let s := free_node x s in
      nx ← getNextPtr (st_links s) k iter;
      '(s, uaf) ← clear_loop fuel s k nx;
      Ok (s, if decide (x ∈ st_freed s) then x :: uaf else uaf)
    end
  end.

Definition clearResources (s : Store) (r : Request) : result (Store * Request * list positive) :=
  match mResourceList r with
  | None => Ok (s, r, [])
  | Some l =>
    '(s, uaf) ← clear_loop (size (st_links s)) s (mLinkerInUse l) (mHead l);
    Ok (s, with_list (Some (destroy l)) r, uaf)
  end.

Definition populateUntuneRequest (this untuneRequest : Request) : Request :=
  let m := req_msg this in
  let u := req_msg untuneRequest in
  mkRequest (mkMessage (Message.getHandle m) (mDuration u) (getProperties m) (getClientPID m)
               (getClientTID m) (RequestType_val REQ_RESOURCE_UNTUNING))
            None None (mSource untuneRequest).

Definition populateRetuneRequest (this retuneRequest : Request) (newDuration : Z) : Request :=
  let m := req_msg this in
  mkRequest (mkMessage (Message.getHandle m) newDuration (getProperties m) (getClientPID m)
               (getClientTID m) (RequestType_val REQ_RESOURCE_RETUNING))
            (mTimer retuneRequest) None (mSource retuneRequest).

(** [cleanUpRequest]: the resources and the timer are freed, then the request. *)
Definition cleanUpRequest (s : Store) (r : option Request) : result (Store * list positive) :=
  match r with
  | None => Ok (s, [])
  | Some r => '(s, _, uaf) ← clearResources s r; Ok (s, uaf)
  end.

(** ** Facts *)

Lemma setTimer_list t r : mResourceList (setTimer t r) = mResourceList r.
Proof. done. Qed.
Lemma setTimer_msg t r : req_msg (setTimer t r) = req_msg r.
Proof. done. Qed.

(** The nodes carry the given resources, all of them well formed. *)
Definition node_data (s : Store) (xs : list positive) (rs : list Resource) : Prop :=
  Forall2 (fun x r => st_data s !! x = Some r) xs rs /\ Forall res_ok rs.

(** The request's list represents [xs]. *)
Definition req_list (s : Store) (r : Request) (xs : list positive) : Prop :=
  match mResourceList r with
  | None => xs = []
  | Some l => mLinkerInUse l = REQUEST_DL_NR /\ is_dll (st_links s) l xs
  end.

Lemma addResource_refines alloc s r xs x :
  req_list s r xs -> is_Some (link_at (st_links s) 0 x) -> x ∉ xs ->
  (mResourceList r <> None \/ alloc = true) ->
  exists s' r', addResource alloc (Some x) s r = Ok (s', r') /\ req_list s' r' (xs ++ [x]) /\
    st_data s' = st_data s /\ only_links 0 (x :: xs) (st_links s) (st_links s').
Proof.
  intros Hl Hx Hnin Hor. unfold addResource, req_list in *.
  assert (exists l, (match mResourceList r with
    | Some l => Some l
    | None => if alloc then Some (DLManager_init REQUEST_DL_NR) else None end) = Some l /\
    mLinkerInUse l = REQUEST_DL_NR /\ is_dll (st_links s) l xs) as (l & -> & Hk & Hd).
  { destruct (mResourceList r) as [l|].
    - exists l. tauto.
    - destruct Hor as [? | ->]; [done|]. eexists. split; [done|]. split; [done|].
      subst xs. by apply is_dll_init. }
  destruct (insert_refines (st_links s) l xs x Hd) as (h' & l' & E & Hd' & Ho & Hm & _).
  { split; [|done]. by rewrite Hk. }
  rewrite E. simpl. rewrite Hk in Ho. eexists _, _. split; [done|].
  split_and!; simpl; [by rewrite Hm|done|exact Ho].
Qed.

Lemma clear_loop_spec k : 0 <= k -> forall xs fuel s p,
  dlseg (st_links s) (Z.to_nat k) p xs None -> (length xs <= fuel)%nat ->
  exists s', clear_loop fuel s k (head xs) = Ok (s', xs) /\ st_links s' = st_links s /\
    st_freed s' = list_to_set xs ∪ st_freed s /\
    (forall x, st_data s' !! x = if decide (x ∈ xs) then None else st_data s !! x).
Proof.
  intros Hk. induction xs as [|x xs IH]; intros fuel s p Hs Hf.
  - exists s. destruct fuel; simpl; (split_and!; [done|done|set_solver|done]).
  - destruct fuel as [|fuel]; simpl in Hf; [lia|]. cbn [clear_loop head].
    assert (getNextPtr (st_links (free_node x s)) k (Some x) = Ok (hd_or None xs)) as ->.
    { by apply (getNextPtr_seg _ k p). }
    simpl. rewrite hd_or_head. destruct Hs as [_ Hs].
    destruct (IH fuel (free_node x s) (Some x)) as (s' & -> & E1 & E2 & E3); [done|lia|].
    simpl. exists s'. rewrite E2, decide_True by set_solver. split_and!; [done|done|set_solver|].
    intros y. rewrite E3. simpl. destruct (decide (y = x)) as [->|].
    + rewrite lookup_delete_eq, (decide_True (P := x ∈ x :: xs)) by set_solver. by case_decide.
    + rewrite lookup_delete_ne by done. repeat case_decide; set_solver.
Qed.

Lemma clearResources_spec s r xs :
  req_list s r xs ->
  exists s' r', clearResources s r = Ok (s', r', xs) /\ req_list s' r' [] /\
    st_links s' = st_links s /\ st_freed s' = list_to_set xs ∪ st_freed s /\
    (forall x, st_data s' !! x = if decide (x ∈ xs) then None else st_data s !! x).
Proof.
  unfold req_list, clearResources. destruct (mResourceList r) as [l|] eqn:El.
  - intros [Hk Hd]. rewrite (dll_head _ _ _ Hd).
    destruct (clear_loop_spec (mLinkerInUse l) (dll_linker _ _ _ Hd) xs (size (st_links s)) s None)
      as (s' & -> & E1 & E2 & E3); [apply Hd|by eapply is_dll_fuel|].
    simpl. eexists _, _. split; [done|]. split_and!; try done.
    simpl. split; [done|]. destruct Hd. split; try done. constructor.
  - intros ->. exists s, r. rewrite El. split_and!; [done|done|done|set_solver|done].
Qed.

(** ** Properties *)

(** A request owns its resource nodes in order of addition.  [addResource]
    appends a node, and links nothing but the request's linker of its own nodes;
    [clearResources] frees exactly the nodes of the list and empties it, but reads
    the next pointer of every one of them after freeing it. *)
Theorem Request_resources (alloc : bool) (s : Store) (r : Request) (xs : list positive)
    (x : positive) :
  req_list s r xs -> is_Some (link_at (st_links s) 0 x) -> x ∉ xs ->
  (mResourceList r <> None \/ alloc = true) ->
  exists s' r', addResource alloc (Some x) s r = Ok (s', r') /\ req_list s' r' (xs ++ [x]) /\
    getResourcesCount r' = Z.of_nat (length xs) + 1 /\
    only_links 0 (x :: xs) (st_links s) (st_links s') /\
    exists s'' r'', clearResources s' r' = Ok (s'', r'', xs ++ [x]) /\ req_list s'' r'' [] /\
      st_freed s'' = list_to_set (xs ++ [x]) ∪ st_freed s' /\
      forall y, st_data s'' !! y = if decide (y ∈ xs ++ [x]) then None else st_data s' !! y.
Proof.
  intros Hl Hx Hnin Hor.
  destruct (addResource_refines alloc s r xs x Hl Hx Hnin Hor) as (s' & r' & E & Hr & _ & Ho).
  exists s', r'. split_and!; [done|done| |done|].
  - unfold getResourcesCount. unfold req_list in Hr. destruct (mResourceList r') as [l|].
    + destruct Hr as [_ Hd]. unfold getLen. rewrite (dll_size _ _ _ Hd), length_app. simpl. lia.
    + by destruct xs.
  - destruct (clearResources_spec s' r' _ Hr) as (s2 & r2 & E2 & Hr2 & _ & Hf & Hd).
    exists s2, r2. split_and!; done.
Qed.

Definition junk_msg : Message := mkMessage 0 0 0 0 0 0.

Lemma Request_resources_witness :
  let s := mkStore (fresh_heap 3 2) ∅ ∅ in
  exists s' r', addResource true (Some 2%positive) s (Request_init junk_msg) = Ok (s', r') /\
    getResourcesCount r' = 1.
Proof.
  intros s.
  destruct (Request_resources true s (Request_init junk_msg) [] 2) as (s' & r' & E & _ & H & _).
  - reflexivity.
  - vm_compute. eauto.
  - set_solver.
  - by right.
  - exists s', r'. split; [exact E|exact H].
Defined.
