(* ===== verification/CocoTable.v ===== *)
(** [resource-tuner/core/CocoTable.cpp], [CocoTable.h]: the concurrency coordinator.
    For each resource it keeps one list of pending nodes per priority (and per core,
    cluster or cgroup when the resource is applied there), decides which node takes
    effect, and calls the resource's applier and tear callbacks.

    The lists are the [DLManager]s of linker [COCO_TABLE_DL_NR]; the calls of the
    callbacks are recorded as a trace of events, newest last.  The table is built by
    [new], which throws instead of returning null, so no slot is null. *)
From S2P Require Import Prelude UrmTypes Message Resource DLManager Request ResourceRegistry.
Open Scope list_scope.
Open Scope Z_scope.

(** A callback invoked with the resource of a node. *)
Inductive Event :=
  | EvApply (cb : ResourceLifecycleCallback) (x : positive)
  | EvTear (cb : ResourceLifecycleCallback) (x : positive).

Record CocoTable := mkCoco {
  mFlatClusterMap : gmap Z Z;
  mFlatCGroupMap : gmap Z Z;
  mCocoTable : list (list DLManager);
  mCurrentlyAppliedPriority : list Z
}.

(** The state an operation runs on: the nodes, the table, the events so far. *)
Record World := mkWorld { store : Store; coco : CocoTable; events : list Event }.

Definition set_links_w (h : Heap) (w : World) : World :=
  mkWorld (with_links h (store w)) (coco w) (events w).
Definition set_flat (clusters cgroups : gmap Z Z) (w : World) : World :=
  let c := coco w in
  mkWorld (store w) (mkCoco clusters cgroups (mCocoTable c) (mCurrentlyAppliedPriority c)) (events w).
Definition set_table (t : list (list DLManager)) (w : World) : World :=
  let c := coco w in
  mkWorld (store w)
    (mkCoco (mFlatClusterMap c) (mFlatCGroupMap c) t (mCurrentlyAppliedPriority c)) (events w).
Definition set_applied (l : list Z) (w : World) : World :=
  let c := coco w in
  mkWorld (store w) (mkCoco (mFlatClusterMap c) (mFlatCGroupMap c) (mCocoTable c) l) (events w).
Definition emit (e : Event) (w : World) : World :=
  mkWorld (store w) (coco w) (events w ++ [e]).

(** Writing a slot back after an operation on its list. *)
Definition set_slot (i j : nat) (d : DLManager) (w : World) : World :=
  set_table (alter (fun row => <[j := d]> row) i (mCocoTable (coco w))) w.

(** ** Policies *)

(** The value a resource is ranked by. *)
Definition rank_value (r : Resource) : result Z :=
  if getValuesCount r =? 1 then getValueAt r 0 else getValueAt r 1.

Definition comparHBetter (s : Store) : DLPolicy := fun newNode targetNode =>
  first ← node_resource s newNode;
  second ← node_resource s targetNode;
  newValue ← rank_value first;
  targetValue ← rank_value second;
  Ok (newValue >? targetValue).

Definition comparLBetter (s : Store) : DLPolicy := fun newNode targetNode =>
  first ← node_resource s newNode;
  second ← node_resource s targetNode;
  newValue ← rank_value first;
  targetValue ← rank_value second;
  Ok (newValue <? targetValue).

Section CocoTable.
(** The resource configurations and the device mode ([targetConfigs.currMode]). *)
Context {R : Type} `{!ResourceConfigs R} (reg : R) (mode : Z).

(** ** Construction *)

(** Each id gets the number of entries so far; a repeated id is renumbered. *)
Definition flat_map (ids : list Z) : gmap Z Z :=
  foldl (fun m id => <[id := Z.of_nat (size m)]> m) ∅ ids.

Definition vectorSize (coreCount clusterCount cgroupCount : Z) (c : ResConfInfo) : nat :=
  Z.to_nat match mApplyType c with
           | APPLY_CORE => TOTAL_PRIORITIES * coreCount
           | APPLY_CLUSTER => TOTAL_PRIORITIES * clusterCount
           | APPLY_CGROUP => TOTAL_PRIORITIES * cgroupCount
           | APPLY_GLOBAL => TOTAL_PRIORITIES
           end.

Definition CocoTable_init (clusterIDs cGroupIDs : list Z)
    (coreCount clusterCount cgroupCount : Z) : CocoTable :=
  mkCoco (flat_map clusterIDs) (flat_map cGroupIDs)
    (map (fun c => replicate (vectorSize coreCount clusterCount cgroupCount c)
                             (DLManager_init COCO_TABLE_DL_NR)) (getRegisteredResources reg))
    (replicate (Z.to_nat (getTotalResourcesCount reg)) (-1)).

Definition conf_of (resource : Resource) : result ResConfInfo :=
  deref (getResConf reg (getResCode resource)).

Definition needsAllocation (res : Resource) : result bool :=
  rConf ← conf_of res;
  Ok (negb (bool_decide (mPolicy rConf = PASS_THROUGH)) &&
      negb (bool_decide (mPolicy rConf = PASS_THROUGH_APPEND))).

(** ** Applying and resetting *)
Definition mode_allows (rConf : ResConfInfo) : bool := negb (Z.land (mModes rConf) mode =? 0).

Definition call_applier (rConf : ResConfInfo) (x : positive) (w : World) : World :=
  match mResourceApplierCallback rConf with
  | Some cb => emit (EvApply cb x) w
  | None => w
  end.

Definition applyAction (currNode : ptr) (index priority : Z) (w : World) : result World :=
  match currNode with
  | None => Ok w
  | Some x =>
    match st_data (store w) !! x with
    | None => Ok w
    | Some resource =>
      applied ← of_option OutOfRange (mCurrentlyAppliedPriority (coco w) !! Z.to_nat index);
      if (applied >=? priority) || (applied =? -1) then
        resourceConfig ← conf_of resource;
        if mode_allows resourceConfig then
          let w := call_applier resourceConfig x w in
          Ok (set_applied (<[Z.to_nat index := priority]> (mCurrentlyAppliedPriority (coco w))) w)
        else Ok w
      else Ok w
    end
  end.

Definition fastPathApply (x : positive) (resource : Resource) (w : World) : result World :=
  rConf ← conf_of resource;
  Ok (if mode_allows rConf then call_applier rConf x w else w).

Definition removeAction (index : Z) (x : positive) (resource : Resource) (w : World)
  : result World :=
  match getResConf reg (getResCode resource) with
  | None => Ok w
  | Some conf =>
    let w := match mResourceTearCallback conf with
             | Some cb => emit (EvTear cb x) w
             | None => w
             end in
    _ ← of_option OutOfRange (mCurrentlyAppliedPriority (coco w) !! Z.to_nat index);
    Ok (set_applied (<[Z.to_nat index := -1]> (mCurrentlyAppliedPriority (coco w))) w)
  end.

(** The applier is tested, the tear callback is called. *)
Definition fastPathReset (x : positive) (resource : Resource) (w : World) : result World :=
  rConf ← conf_of resource;
  match mResourceApplierCallback rConf with
  | None => Ok w
  | Some _ => cb ← deref (mResourceTearCallback rConf); Ok (emit (EvTear cb x) w)
  end.

(** ** Indices *)
Definition getCocoTablePrimaryIndex (opId : Z) : Z :=
  match getResConf reg opId with
  | None => -1
  | Some _ => getResourceTableIndex reg opId
  end.

(** The flat maps are read with [operator[]], which inserts index 0 for a new id. *)
Definition getCocoTableSecondaryIndex (resource : Resource) (priority : Z) (w : World)
  : result (Z * World) :=
  match getResConf reg (getResCode resource) with
  | None => Ok (-1, w)
  | Some conf =>
    let clusters := mFlatClusterMap (coco w) in
    let cgroups := mFlatCGroupMap (coco w) in
    match mApplyType conf with
    | APPLY_CORE => Ok (getCoreValue resource * TOTAL_PRIORITIES + priority, w)
    | APPLY_CLUSTER =>
      let physicalCluster := getClusterValue resource in
      if physicalCluster =? -1 then Ok (-1, w) else
      let '(index, clusters) := map_index 0 physicalCluster clusters in
      Ok (index * TOTAL_PRIORITIES + priority, set_flat clusters cgroups w)
    | APPLY_CGROUP =>
      cGroupIdentifier ← getValueAt resource 0;
      if cGroupIdentifier =? -1 then Ok (-1, w) else
      let '(index, cgroups) := map_index 0 cGroupIdentifier cgroups in
      Ok (index * TOTAL_PRIORITIES + priority, set_flat clusters cgroups w)
    | APPLY_GLOBAL => Ok (priority, w)
    end
  end.

(** The bounds test of both callers; the slot when it passes. *)
Definition find_slot (primaryIndex secondaryIndex : Z) (w : World) : option DLManager :=
  if (primaryIndex <? 0) || (secondaryIndex <? 0) then None else
  row ← mCocoTable (coco w) !! Z.to_nat primaryIndex;
  row !! Z.to_nat secondaryIndex.

(** ** Insertion *)

(** The insertion each policy uses. *)
Definition policy_insertion (policy : Policy) (newNode : positive) (w : World) (dlm : DLManager)
  : option dl_result :=
  let h := st_links (store w) in
  match policy with
  | INSTANT_APPLY => Some (insert_opt h dlm (Some newNode) INSERT_START 0)
  | HIGHER_BETTER => Some (insertWithPolicy h dlm (Some newNode) (comparHBetter (store w)))
  | LOWER_BETTER => Some (insertWithPolicy h dlm (Some newNode) (comparLBetter (store w)))
  | LAZY_APPLY => Some (insert h dlm (Some newNode))
  | PASS_THROUGH | PASS_THROUGH_APPEND => None
  end.

Definition insertInCocoTable (newNode : ptr) (priority : Z) (w : World) : result (bool * World) :=
  match newNode with
  | None => Ok (false, w)
  | Some x =>
    resource ← node_resource (store w) x;
    if getResAction resource =? RES_SKIP then Ok (false, w) else
    let primaryIndex := getCocoTablePrimaryIndex (getResCode resource) in
    '(secondaryIndex, w) ← getCocoTableSecondaryIndex resource priority w;
    match find_slot primaryIndex secondaryIndex w with
    | None => Ok (false, w)
    | Some dlm =>
      let i := Z.to_nat primaryIndex in
      let j := Z.to_nat secondaryIndex in
      rConf ← conf_of resource;
      needs ← needsAllocation resource;
      if negb needs then
        let w := if decide (mPolicy rConf = PASS_THROUGH)
                 then set_slot i j (set_rank (mRank dlm + 1) dlm) w else w in
        w ← fastPathApply x resource w;
        Ok (true, w)
      else
        match policy_insertion (mPolicy rConf) x w dlm with
        | None => Ok (false, w)
        | Some r =>
          '(rc, h, dlm) ← r;
          let w := set_slot i j dlm (set_links_w h w) in
          if RC_IS_OK rc then
            nth ← isNodeNth h dlm 0 newNode;
            w ← (if (nth : bool) then applyAction newNode primaryIndex priority w else Ok w);
            Ok (true, w)
          else Ok (true, w)
        end
    end
  end.

(** The [DL_ITERATE] loop of [insertRequest]: the count is an [int32_t] sum. *)
Fixpoint insert_loop (fuel : nat) (k : Z) (iter : ptr) (priority appliedCount : Z) (w : World)
  : result (Z * World) :=
  match iter with
  | None => Ok (appliedCount, w)
  | Some _ =>
    match fuel with
    | O => Fault OutOfFuel
    | S fuel =>
      '(b, w) ← insertInCocoTable iter priority w;
      nx ← getNextPtr (st_links (store w)) k iter;
      insert_loop fuel k nx priority (appliedCount + i8_of_bool b) w
    end
  end.

(** [alloc]: the timer block is available; [pool]: the timer thread pool. *)
Definition insertRequest (alloc : bool) (pool : option bool) (req : option Request) (w : World)
  : result (bool * option Request * World) :=
  match req with
  | None => Ok (false, None, w)
  | Some req =>
    let req := setTimer None req in
    let dur := getDuration (req_msg req) in
    if negb (dur =? -1) && negb alloc then Ok (false, Some req, w) else
    let requestTimer := if dur =? -1 then None else Some Timer_init in
    let req := if dur =? -1 then req else setTimer requestTimer req in
    match getResDlMgr req with
    | None => Ok (false, Some req, w)
    | Some l =>
      '(appliedCount, w) ←
        insert_loop (size (st_links (store w))) (mLinkerInUse l) (mHead l)
          (getPriority (req_msg req)) 0 w;
      if appliedCount =? 0 then
        Ok (false, Some (match requestTimer with Some _ => unsetTimer req | None => req end), w)
      else
        match requestTimer with
        | Some t =>
          let '(ok, t) := startTimer pool dur t in Ok (ok, Some (setTimer (Some t) req), w)
        | None => Ok (dur =? -1, Some req, w)
        end
    end
  end.

(** [updateRequest]: the old timer is killed and freed, a new one is started. *)
Definition updateRequest (alloc : bool) (pool : option bool) (req : option Request)
    (duration : Z) : result (bool * option Request) :=
  match req with
  | None => Ok (false, None)
  | Some req =>
    if (duration <? -1) || ((duration >? 0) && (duration <? getDuration (req_msg req)))
    then Ok (false, Some req) else
    _ ← deref (getTimer req);
    let req := with_msg (setDuration duration (req_msg req)) (unsetTimer req) in
    if negb alloc then Ok (false, Some req) else
    let '(ok, t) := startTimer pool (getDuration (req_msg req)) Timer_init in
    Ok (ok, Some (setTimer (Some t) req))
  end.

(** ** Removal *)

(** The loop over the priority levels: the first level with a pending node is
    made current; [false] when all lists are empty. *)
Fixpoint reapply_loop (n : nat) (prioLevel primaryIndex reIndexIncrement : Z) (w : World)
  : result (bool * World) :=
  match n with
  | O => Ok (false, w)
  | S n =>
    row ← of_option OutOfRange (mCocoTable (coco w) !! Z.to_nat primaryIndex);
    d ← (if prioLevel + reIndexIncrement <? 0 then Fault OutOfRange
         else of_option OutOfRange (row !! Z.to_nat (prioLevel + reIndexIncrement)));
    match mHead d with
    | Some _ =>
      _ ← of_option OutOfRange (mCurrentlyAppliedPriority (coco w) !! Z.to_nat primaryIndex);
      let w := set_applied
        (<[Z.to_nat primaryIndex := prioLevel]> (mCurrentlyAppliedPriority (coco w))) w in
      w ← applyAction (mHead d) primaryIndex prioLevel w;
      Ok (true, w)
    | None => reapply_loop n (prioLevel + 1) primaryIndex reIndexIncrement w
    end
  end.

(** What happens once a node is out of its list [dlm]. *)
Definition after_removal (rConf : ResConfInfo) (x : positive) (resource : Resource)
    (nodeIsHead : bool) (primaryIndex priority : Z) (dlm : DLManager) (w : World)
  : result World :=
  match mHead dlm with
  | None =>
    '(reIndexIncrement, w) ←
      (if decide (mApplyType rConf = APPLY_GLOBAL) then Ok (0, w)
       else getCocoTableSecondaryIndex resource SYSTEM_HIGH w);
    if (reIndexIncrement =? -1) && negb (bool_decide (mApplyType rConf = APPLY_GLOBAL))
    then Ok w else
    '(found, w) ← reapply_loop (Z.to_nat TOTAL_PRIORITIES) 0 primaryIndex reIndexIncrement w;
    if (found : bool) then Ok w else removeAction primaryIndex x resource w
  | Some _ =>
    if nodeIsHead then applyAction (mHead dlm) primaryIndex priority w else Ok w
  end.

(** The body of the loop for one node. *)
Definition remove_node (x : positive) (priority : Z) (w : World) : result World :=
  match st_data (store w) !! x with
  | None => Ok w
  | Some resource =>
    if getResAction resource =? RES_SKIP then Ok w else
    let primaryIndex := getCocoTablePrimaryIndex (getResCode resource) in
    '(secondaryIndex, w) ← getCocoTableSecondaryIndex resource priority w;
    match find_slot primaryIndex secondaryIndex w with
    | None => Ok w
    | Some dlm =>
      let i := Z.to_nat primaryIndex in
      let j := Z.to_nat secondaryIndex in
      rConf ← conf_of resource;
      needs ← needsAllocation resource;
      if negb needs then
        if decide (mPolicy rConf = PASS_THROUGH) then
          let w := set_slot i j (set_rank (mRank dlm - 1) dlm) w in
          if mRank dlm - 1 =? 0 then fastPathReset x resource w else Ok w
        else fastPathReset x resource w
      else
        nodeIsHead ← isNodeNth (st_links (store w)) dlm 0 (Some x);
        '(_, h, dlm) ← deleteNode (st_links (store w)) dlm (Some x);
        let w := set_slot i j dlm (set_links_w h w) in
        after_removal rConf x resource nodeIsHead primaryIndex priority dlm w
    end
  end.

Fixpoint remove_loop (fuel : nat) (k : Z) (iter : ptr) (priority : Z) (w : World)
  : result World :=
  match iter with
  | None => Ok w
  | Some x =>
    match fuel with
    | O => Fault OutOfFuel
    | S fuel =>
      w ← remove_node x priority w;
      nx ← getNextPtr (st_links (store w)) k iter;
      remove_loop fuel k nx priority w
    end
  end.

(** The handle is logged before the null test, and the result is always 0. *)
Definition removeRequest (request : option Request) (w : World) : result (Z * World) :=
  request ← deref request;
  match getResDlMgr request with
  | None => Ok (0, w)
  | Some l =>
    w ← remove_loop (size (st_links (store w))) (mLinkerInUse l) (mHead l)
          (getPriority (req_msg request)) w;
    Ok (0, w)
  end.

(** [timerExpired]: the untune request added to the queue, if it can be allocated. *)
Definition timerExpired (alloc : bool) (junk : Message) (request : Request) : option Request :=
  if alloc then Some (populateUntuneRequest request (Request_init junk)) else None.
End CocoTable.

(** ** Well-formed tables *)

Definition slot (w : World) (i j : nat) : option DLManager :=
  row ← mCocoTable (coco w) !! i; row !! j.

(** The pending nodes of each slot. *)
Abbreviation Pending := (nat -> nat -> list positive).
Definition upd (pend : Pending) (i j : nat) (xs : list positive) : Pending :=
  fun i' j' => if decide (i' = i /\ j' = j) then xs else pend i' j'.

(** [pend] is what the slots hold: every list is well formed on linker
    [COCO_TABLE_DL_NR], no node is in two lists, every pending node has a readable
    resource. *)
Record coco_wf (w : World) (pend : Pending) : Prop := {
  wf_slot : forall i j d, slot w i j = Some d ->
    mLinkerInUse d = COCO_TABLE_DL_NR /\ is_dll (st_links (store w)) d (pend i j);
  wf_empty : forall i j, slot w i j = None -> pend i j = [];
  wf_disjoint : forall i j i' j' x, x ∈ pend i j -> x ∈ pend i' j' -> i = i' /\ j = j';
  wf_data : forall i j x, x ∈ pend i j -> exists r, st_data (store w) !! x = Some r /\ res_ok r;
  wf_applied : length (mCurrentlyAppliedPriority (coco w)) = length (mCocoTable (coco w))
}.

(** A node that may be queued: allocated, with a resource, pending nowhere. *)
Record queueable (w : World) (pend : Pending) (x : positive) (r : Resource) : Prop := {
  q_data : st_data (store w) !! x = Some r;
  q_res : res_ok r;
  q_link : is_Some (link_at (st_links (store w)) 1 x);
  q_fresh : forall i j, x ∉ pend i j
}.

Lemma slot_set_slot i j d w i' j' :
  is_Some (slot w i j) ->
  slot (set_slot i j d w) i' j' = if decide (i' = i /\ j' = j) then Some d else slot w i' j'.
Proof.
  unfold slot, set_slot. simpl. intros [d0 H].
  destruct (mCocoTable (coco w) !! i) as [row|] eqn:E; [|done]. simpl in H.
  destruct (decide (i' = i)) as [->|Hi].
  - rewrite list_lookup_alter_eq, E. simpl. destruct (decide (j' = j)) as [->|Hj].
    + rewrite decide_True by done. rewrite list_lookup_insert_eq; [done|].
      by eapply lookup_lt_Some.
    + rewrite decide_False by naive_solver. by rewrite list_lookup_insert_ne.
  - rewrite list_lookup_alter_ne by done. by rewrite decide_False by naive_solver.
Qed.

Lemma upd_eq pend i j xs : upd pend i j xs i j = xs.
Proof. unfold upd. by rewrite decide_True. Qed.
Lemma upd_ne pend i j xs i' j' : ~ (i' = i /\ j' = j) -> upd pend i j xs i' j' = pend i' j'.
Proof. intros. unfold upd. by rewrite decide_False. Qed.

(** The invariant only looks at the store, the table and the length of the applied
    priorities. *)
Lemma coco_wf_ext w w' pend :
  store w' = store w -> mCocoTable (coco w') = mCocoTable (coco w) ->
  length (mCurrentlyAppliedPriority (coco w')) = length (mCurrentlyAppliedPriority (coco w)) ->
  coco_wf w pend -> coco_wf w' pend.
Proof.
  intros Es Et Ea [H1 H2 H3 H4 H5].
  assert (forall i j, slot w' i j = slot w i j) as Esl by (intros; unfold slot; by rewrite Et).
  split.
  - intros i j d. rewrite Esl, Es. apply H1.
  - intros i j. rewrite Esl. apply H2.
  - done.
  - intros i j x. rewrite Es. apply H4.
  - by rewrite Ea, Et.
Qed.

(** Replacing the list of one slot by the outcome of a list operation on it. *)
Lemma coco_wf_slot w pend i j d h' d' ys touched :
  coco_wf w pend -> slot w i j = Some d -> mLinkerInUse d' = COCO_TABLE_DL_NR ->
  is_dll h' d' ys -> only_links 1 touched (st_links (store w)) h' ->
  (forall y, y ∈ ys -> y ∈ touched) ->
  (forall i' j' y, ~ (i' = i /\ j' = j) -> y ∈ pend i' j' -> y ∉ touched) ->
  (forall y, y ∈ ys -> exists r, st_data (store w) !! y = Some r /\ res_ok r) ->
  coco_wf (set_slot i j d' (set_links_w h' w)) (upd pend i j ys).
Proof.
  intros [H1 H2 H3 H4 H5] Hs Hk Hd Ho Hys Hdis Hdata.
  assert (is_Some (slot (set_links_w h' w) i j)) as Hsl by (unfold slot in *; simpl; eauto).
  split.
  - intros i' j' e. rewrite slot_set_slot by done. case_decide as Hij.
    + intros [= <-]. destruct Hij as [-> ->]. by rewrite upd_eq.
    + intros He. rewrite upd_ne by done. destruct (H1 i' j' e He) as [Hke Hde].
      split; [done|]. simpl. eapply only_links_other; [exact Ho|done|]. right. eauto.
  - intros i' j'. rewrite slot_set_slot by done. case_decide as Hij; [done|].
    intros He. rewrite upd_ne by done. by apply H2.
  - intros i1 j1 i2 j2 y. unfold upd. repeat case_decide; intros Hy1 Hy2.
    + destruct H, H0. by subst.
    + exfalso. eapply (Hdis i2 j2); eauto.
    + exfalso. eapply (Hdis i1 j1); eauto.
    + by eapply H3.
  - intros i' j' y. simpl. unfold upd. case_decide; [apply Hdata|apply H4].
  - simpl. by rewrite length_alter.
Qed.

(** The rank of a pending node, as a pure function. *)
Definition rank_of (s : Store) (x : positive) : Z :=
  match st_data s !! x with
  | Some r => if getValuesCount r =? 1 then value_at r 0 else value_at r 1
  | None => 0
  end.

Lemma rank_value_ok s x r :
  st_data s !! x = Some r -> res_ok r -> rank_value r = Ok (rank_of s x).
Proof.
  intros Hx Hr. unfold rank_value, rank_of. rewrite Hx.
  destruct (getValuesCount r =? 1); by rewrite getValueAt_ok.
Qed.

Lemma compar_policies s x xs :
  (forall y, y ∈ x :: xs -> exists r, st_data s !! y = Some r /\ res_ok r) ->
  policy_is (comparHBetter s) x xs (fun y => rank_of s x >? rank_of s y) /\
  policy_is (comparLBetter s) x xs (fun y => rank_of s x <? rank_of s y).
Proof.
  intros Hd. destruct (Hd x ltac:(set_solver)) as (r & Hx & Hr).
  split; intros y Hy; destruct (Hd y ltac:(set_solver)) as (r' & Hy' & Hr').
  - unfold comparHBetter, node_resource. rewrite Hx, Hy'. simpl.
    by rewrite (rank_value_ok s x r), (rank_value_ok s y r') by done.
  - unfold comparLBetter, node_resource. rewrite Hx, Hy'. simpl.
    by rewrite (rank_value_ok s x r), (rank_value_ok s y r') by done.
Qed.

(** The list operation of each queueing policy. *)
Definition policy_list (p : Policy) (s : Store) (x : positive) (xs : list positive)
  : list positive :=
  match p with
  | INSTANT_APPLY => x :: xs
  | HIGHER_BETTER => policy_insert (fun y => rank_of s x >? rank_of s y) x xs
  | LOWER_BETTER => policy_insert (fun y => rank_of s x <? rank_of s y) x xs
  | _ => xs ++ [x]
  end.

Definition queueing (p : Policy) : Prop := p <> PASS_THROUGH /\ p <> PASS_THROUGH_APPEND.

Lemma policy_list_Permutation p s x xs : policy_list p s x xs ≡ₚ x :: xs.
Proof.
  destruct p; simpl; try done; try apply policy_insert_Permutation;
    (symmetry; apply Permutation_cons_append).
Qed.

Lemma policy_insertion_refines p x w d xs :
  queueing p -> mLinkerInUse d = COCO_TABLE_DL_NR -> is_dll (st_links (store w)) d xs ->
  insertable (st_links (store w)) d xs x ->
  (forall y, y ∈ x :: xs -> exists r, st_data (store w) !! y = Some r /\ res_ok r) ->
  exists r, policy_insertion p x w d = Some r /\
    dl_refines r RC_SUCCESS (st_links (store w)) d (x :: xs) (policy_list p (store w) x xs).
Proof.
  intros [Hp1 Hp2] Hk Hd Hx Hdata. destruct (compar_policies _ _ _ Hdata) as [Hh Hl].
  destruct p; try done; eexists; (split; [reflexivity|]); simpl.
  - by apply insert_start_refines.
  - by apply insertWithPolicy_refines.
  - by apply insertWithPolicy_refines.
  - by apply insert_refines.
Qed.

(** ** Steps on one slot *)

(** The same nodes: data, allocated links, and the links of the request lists. *)
Record same_nodes (w w' : World) : Prop := {
  sn_data : st_data (store w') = st_data (store w);
  sn_freed : st_freed (store w') = st_freed (store w);
  sn_alloc : forall k y, is_Some (link_at (st_links (store w')) k y) <->
                         is_Some (link_at (st_links (store w)) k y);
  sn_size : size (st_links (store w')) = size (st_links (store w));
  sn_request : forall y, link_at (st_links (store w')) 0 y = link_at (st_links (store w)) 0 y;
  sn_slots : forall i j, is_Some (slot w' i j) <-> is_Some (slot w i j)
}.

#[export] Instance same_nodes_preorder : PreOrder same_nodes.
Proof.
  split.
  - by split.
  - intros w1 w2 w3 [A1 B1 C1 D1 E1 F1] [A2 B2 C2 D2 E2 F2].
    split; intros; rewrite ?A2, ?B2, ?C2, ?D2, ?E2, ?F2; auto.
Qed.

(** [w'] has moreover the same priorities and events as [w]. *)
Record quiet (w w' : World) : Prop := {
  quiet_nodes : same_nodes w w';
  quiet_applied : mCurrentlyAppliedPriority (coco w') = mCurrentlyAppliedPriority (coco w);
  quiet_events : events w' = events w
}.

Lemma quiet_set_slot w w1 i j d h touched :
  store w1 = store w -> mCocoTable (coco w1) = mCocoTable (coco w) ->
  mCurrentlyAppliedPriority (coco w1) = mCurrentlyAppliedPriority (coco w) ->
  events w1 = events w -> is_Some (slot w i j) ->
  only_links 1 touched (st_links (store w)) h ->
  quiet w (set_slot i j d (set_links_w h w1)).
Proof.
  intros Es Et Ea Ee Hs Ho.
  assert (forall i j, slot (set_links_w h w1) i j = slot w i j) as Esl.
  { intros. unfold slot. simpl. by rewrite Et. }
  split; [|done..]. split; simpl; rewrite ?Es; try done.
  - apply Ho.
  - by eapply only_links_size.
  - intros y. apply Ho. by left.
  - intros i' j'. rewrite slot_set_slot by by rewrite Esl. rewrite Esl.
    case_decide as Hij; [|done]. destruct Hij as [-> ->]. by split.
Qed.

Section Steps.
Context {R : Type} `{!ResourceConfigs R} (reg : R) (mode : Z).

Lemma secondary_frame r prio w z w' :
  getCocoTableSecondaryIndex reg r prio w = Ok (z, w') ->
  store w' = store w /\ mCocoTable (coco w') = mCocoTable (coco w) /\
  mCurrentlyAppliedPriority (coco w') = mCurrentlyAppliedPriority (coco w) /\
  events w' = events w.
Proof.
  unfold getCocoTableSecondaryIndex. destruct (getResConf reg _) as [conf|]; [|by intros [= _ <-]].
  destruct (mApplyType conf).
  - by intros [= _ <-].
  - case_if; [by intros [= _ <-]|]. unfold map_index.
    destruct (_ !! _); by intros [= _ <-].
  - by intros [= _ <-].
  - intros H. inv_ok H. destruct (a =? -1); [by injection H as _ <-|]. unfold map_index in H.
    destruct (_ !! _); by injection H as _ <-.
Qed.

(** The index computation finds slot [(i, j)] for resource [r] at priority [prio]. *)
Record targets (w : World) (r : Resource) (prio : Z) (conf : ResConfInfo) (i j : nat) (d : DLManager)
    (w1 : World) : Prop := {
  tg_conf : getResConf reg (getResCode r) = Some conf;
  tg_primary : getResourceTableIndex reg (getResCode r) = Z.of_nat i;
  tg_secondary : getCocoTableSecondaryIndex reg r prio w = Ok (Z.of_nat j, w1);
  tg_slot : slot w i j = Some d
}.

Lemma targets_find w r prio conf i j d w1 :
  targets w r prio conf i j d w1 ->
  getCocoTablePrimaryIndex reg (getResCode r) = Z.of_nat i /\
  find_slot (Z.of_nat i) (Z.of_nat j) w1 = Some d /\ slot w1 i j = Some d.
Proof.
  intros [Hc Hp Hs Hd]. destruct (secondary_frame _ _ _ _ _ Hs) as (_ & Et & _).
  split_and!.
  - unfold getCocoTablePrimaryIndex. by rewrite Hc.
  - unfold find_slot, slot in *. replace ((Z.of_nat i <? 0) || (Z.of_nat j <? 0)) with false by zcase.
    rewrite !Nat2Z.id, Et. done.
  - unfold slot in *. by rewrite Et.
Qed.

Lemma needs_queueing r conf :
  getResConf reg (getResCode r) = Some conf -> queueing (mPolicy conf) ->
  needsAllocation reg r = Ok true.
Proof.
  intros Hc [H1 H2]. unfold needsAllocation, conf_of. rewrite Hc. simpl.
  by rewrite !bool_decide_false.
Qed.

Lemma insert_queued w w1 pend x r prio conf i j d :
  coco_wf w pend -> queueable w pend x r -> getResAction r <> RES_SKIP ->
  targets w r prio conf i j d w1 -> queueing (mPolicy conf) ->
  exists w2,
    let ys := policy_list (mPolicy conf) (store w) x (pend i j) in
    insertInCocoTable reg mode (Some x) prio w =
      (w3 ← (if bool_decide (head ys = Some x)
             then applyAction reg mode (Some x) (Z.of_nat i) prio w2 else Ok w2);
       Ok (true, w3)) /\
    coco_wf w2 (upd pend i j ys) /\ quiet w w2.
Proof.
  intros Hw [Hqd Hqr Hql Hqf] Hact Ht Hq.
  destruct (targets_find _ _ _ _ _ _ _ _ Ht) as (Hp & Hf & Hs1). destruct Ht as [Hc _ Hs Hsl].
  destruct (secondary_frame _ _ _ _ _ Hs) as (Es & Et & Ea & Ee).
  destruct (wf_slot _ _ Hw i j d Hsl) as [Hk Hd].
  assert (forall y, y ∈ x :: pend i j ->
    exists r, st_data (store w1) !! y = Some r /\ res_ok r) as Hdata.
  { rewrite Es. intros y [->|Hy]%elem_of_cons; [eauto|by eapply wf_data]. }
  destruct (policy_insertion_refines (mPolicy conf) x w1 d (pend i j) Hq Hk)
    as (dr & Edr & h' & d' & E & Hd' & Ho & Hm & _); [by rewrite Es| |done|].
  { rewrite Es. split; [by rewrite Hk|done]. }
  rewrite Es in *. rewrite Hk in Ho.
  exists (set_slot i j d' (set_links_w h' w1)). split_and!.
  - unfold insertInCocoTable, node_resource. rewrite Hqd. cbn [deref ok_bind mbind result_bind].
    replace (getResAction r =? RES_SKIP) with false by lia.
    rewrite Hp, Hs. cbn [mbind result_bind]. rewrite Hf.
    unfold conf_of. rewrite Hc. cbn [deref mbind result_bind].
    rewrite (needs_queueing r conf Hc Hq). cbn [mbind result_bind negb].
    rewrite Edr, E. cbn [mbind result_bind]. rewrite !Nat2Z.id.
    rewrite (isNodeNth_refines h' d' _ 0 x Hd') by done. cbn [mbind result_bind Z.to_nat].
    change (RC_IS_OK RC_SUCCESS) with true. cbn match.
    rewrite <- head_lookup. done.
  - eapply coco_wf_slot; [|exact Hs1|congruence|exact Hd'|by rewrite Es| | |].
    + eapply coco_wf_ext; [..|exact Hw]; by rewrite ?Es, ?Et, ?Ea.
    + intros y Hy. by rewrite policy_list_Permutation in Hy.
    + intros i' j' y Hne Hy [->|Hin]%elem_of_cons; [by eapply Hqf|].
      apply Hne. by eapply (wf_disjoint _ _ Hw).
    + intros y Hy. rewrite policy_list_Permutation in Hy. rewrite Es. by apply Hdata.
  - by eapply (quiet_set_slot w w1).
Qed.

Lemma remove_queued w w1 pend x r prio conf i j d :
  coco_wf w pend -> x ∈ pend i j -> st_data (store w) !! x = Some r ->
  getResAction r <> RES_SKIP -> targets w r prio conf i j d w1 -> queueing (mPolicy conf) ->
  exists w2 d',
    let ys := delete_elem x (pend i j) in
    remove_node reg mode x prio w =
      after_removal reg mode conf x r (bool_decide (head (pend i j) = Some x)) (Z.of_nat i) prio
        d' w2 /\
    mHead d' = head ys /\ coco_wf w2 (upd pend i j ys) /\ quiet w w2 /\
    mCocoTable (coco w2) = mCocoTable (coco (set_slot i j d' w)).
Proof.
  intros Hw Hx Hqd Hact Ht Hq.
  destruct (targets_find _ _ _ _ _ _ _ _ Ht) as (Hp & Hf & Hs1). destruct Ht as [Hc _ Hs Hsl].
  destruct (secondary_frame _ _ _ _ _ Hs) as (Es & Et & Ea & Ee).
  destruct (wf_slot _ _ Hw i j d Hsl) as [Hk Hd].
  destruct (deleteNode_refines (st_links (store w1)) d (pend i j) x)
    as (h' & d' & E & Hd' & Ho & Hm & _); [by rewrite Es|done|].
  rewrite Hk in Ho.
  exists (set_slot i j d' (set_links_w h' w1)), d'. split_and!.
  - unfold remove_node. rewrite Hqd. replace (getResAction r =? RES_SKIP) with false by lia.
    rewrite Hp, Hs. cbn [mbind result_bind]. rewrite Hf.
    unfold conf_of. rewrite Hc. cbn [deref mbind result_bind].
    rewrite (needs_queueing r conf Hc Hq). cbn [mbind result_bind negb].
    rewrite Es. rewrite (isNodeNth_refines (st_links (store w)) d _ 0 x Hd) by done.
    cbn [mbind result_bind Z.to_nat]. rewrite <- head_lookup. rewrite Es in E. rewrite E.
    cbn [mbind result_bind]. by rewrite !Nat2Z.id.
  - apply (dll_head _ _ _ Hd').
  - assert (forall y, y ∈ delete_elem x (pend i j) -> y ∈ pend i j) as Hsub.
    { intros y Hy. unfold delete_elem in Hy. apply list_elem_of_filter in Hy. tauto. }
    eapply (coco_wf_slot w1 pend i j d h' d' _ (pend i j));
      [|exact Hs1|congruence|exact Hd'|done|done| |].
    + eapply coco_wf_ext; [..|exact Hw]; by rewrite ?Es, ?Et, ?Ea.
    + intros i' j' y Hne Hy Hin. apply Hne. by eapply (wf_disjoint _ _ Hw).
    + intros y Hy. rewrite Es. eapply (wf_data _ _ Hw). by apply Hsub.
  - eapply (quiet_set_slot w w1); try done. by rewrite <- Es.
  - simpl. by rewrite Et.
Qed.

Lemma applyAction_ok w x r conf cb i a prio :
  st_data (store w) !! x = Some r -> getResConf reg (getResCode r) = Some conf ->
  mResourceApplierCallback conf = Some cb -> mode_allows mode conf = true ->
  mCurrentlyAppliedPriority (coco w) !! i = Some a ->
  applyAction reg mode (Some x) (Z.of_nat i) prio w =
    Ok (if (a >=? prio) || (a =? -1)
        then set_applied (<[i := prio]> (mCurrentlyAppliedPriority (coco w))) (emit (EvApply cb x) w)
        else w).
Proof.
  intros Hx Hc Hcb Hm Ha. unfold applyAction. rewrite Hx, Nat2Z.id, Ha. simpl.
  destruct (_ || _); [|done]. unfold conf_of. rewrite Hc. simpl. rewrite Hm.
  unfold call_applier. by rewrite Hcb.
Qed.
End Steps.

(** ** Priority levels of a globally applied resource *)

(** The first priority level with a pending node. *)
Definition first_level (pend : Pending) (i : nat) : option nat :=
  snd <$> list_find (fun j => pend i j <> []) (seq 0 (Z.to_nat TOTAL_PRIORITIES)).

Definition levels_empty (pend : Pending) (i n : nat) : Prop :=
  forall j, (j < n)%nat -> pend i j = [].

Lemma list_nil_dec_stable (xs : list positive) : ~ (xs <> []) -> xs = [].
Proof. by destruct xs; [|intros []]. Qed.

Lemma first_level_Some pend i q :
  first_level pend i = Some q <-> (q < 4)%nat /\ pend i q <> [] /\ levels_empty pend i q.
Proof.
  unfold first_level. rewrite fmap_Some. split.
  - intros ([k q'] & (Hl & Hp & Hn)%list_find_Some & ->).
    apply lookup_seq in Hl as [-> Hk]. cbn [snd Nat.add] in *.
    change (Z.to_nat TOTAL_PRIORITIES) with 4%nat in *. split_and!; [done|done|].
    intros j Hj. apply list_nil_dec_stable. apply (Hn j); [|lia].
    apply lookup_seq. split; [done|lia].
  - intros (Hq & Hne & Hemp). exists (q, q). split; [|done]. apply list_find_Some.
    split_and!; [by apply lookup_seq|done|].
    intros j y [-> Hj]%lookup_seq Hlt Hy. apply Hy. by apply Hemp.
Qed.

Lemma first_level_None pend i : first_level pend i = None <-> levels_empty pend i 4.
Proof.
  unfold first_level. rewrite fmap_None, list_find_None, Forall_forall.
  change (Z.to_nat TOTAL_PRIORITIES) with 4%nat. split.
  - intros H j Hj. apply list_nil_dec_stable, H. apply elem_of_seq. lia.
  - intros H j Hj%elem_of_seq. intros Hne. apply Hne, H. lia.
Qed.
Lemma first_level_le pend i p :
  (p < 4)%nat -> pend i p <> [] -> exists q, first_level pend i = Some q /\ (q <= p)%nat.
Proof.
  intros Hp Hne. destruct (first_level pend i) as [q|] eqn:Eq.
  - exists q. split; [done|]. apply first_level_Some in Eq as (_ & _ & Hemp).
    destruct (decide (q <= p)%nat); [done|]. destruct Hne. apply Hemp. lia.
  - apply first_level_None in Eq. destruct Hne. by apply Eq.
Qed.

(** The node whose value is in effect for a resource code: the last one applied since
    the last tear-down. *)
Definition concerns (s : Store) (code : Z) (x : positive) : bool :=
  match st_data s !! x with Some r => getResCode r =? code | None => false end.
Definition effect_step (s : Store) (code : Z) (e : option positive) (ev : Event)
  : option positive :=
  match ev with
  | EvApply _ x => if concerns s code x then Some x else e
  | EvTear _ x => if concerns s code x then None else e
  end.
Definition in_effect (s : Store) (code : Z) (evs : list Event) : option positive :=
  foldl (effect_step s code) None evs.

Lemma in_effect_snoc s code evs ev :
  in_effect s code (evs ++ [ev]) = effect_step s code (in_effect s code evs) ev.
Proof. unfold in_effect. by rewrite foldl_app. Qed.

Lemma in_effect_data s s' code evs :
  st_data s' = st_data s -> in_effect s' code evs = in_effect s code evs.
Proof.
  intros E. unfold in_effect. generalize (@None positive) as e.
  induction evs as [|ev evs IH]; intros e; [done|]. simpl. rewrite IH. f_equal.
  unfold effect_step, concerns. by rewrite E.
Qed.

Lemma concerns_nodes w w' code x :
  same_nodes w w' -> concerns (store w') code x = concerns (store w) code x.
Proof. intros Hn. unfold concerns. by rewrite (sn_data _ _ Hn). Qed.

(** Row [i] belongs to the globally applied resource [code]; the applied priority is the
    first non-empty level, and the node in effect is the head of that level's list. *)
Record global_row (w : World) (pend : Pending) (i : nat) (code : Z) : Prop := {
  gr_slots : forall j, (j < 4)%nat -> is_Some (slot w i j);
  gr_code : forall j x, x ∈ pend i j -> concerns (store w) code x = true;
  gr_applied : mCurrentlyAppliedPriority (coco w) !! i =
    Some (match first_level pend i with Some q => Z.of_nat q | None => -1 end);
  gr_effect : in_effect (store w) code (events w) =
    match first_level pend i with Some q => head (pend i q) | None => None end
}.

Lemma policy_list_head p s x xs :
  head (policy_list p s x xs) = Some x \/
  (xs <> [] /\ head (policy_list p s x xs) = head xs).
Proof.
  assert (forall better, head (policy_insert better x xs) = Some x \/
    (xs <> [] /\ head (policy_insert better x xs) = head xs)) as Hins.
  { intros better. destruct xs as [|y ys]; simpl; [by left|]. destruct (better y); simpl; auto. }
  destruct p; simpl; auto; destruct xs as [|y ys]; simpl; auto.
Qed.

Lemma policy_list_nonempty p s x xs : policy_list p s x xs <> [].
Proof.
  intros E. pose proof (policy_list_Permutation p s x xs) as Hp. rewrite E in Hp.
  by apply Permutation_nil_cons in Hp.
Qed.

(** Levels after one slot of the row changed. *)
Lemma first_level_upd_nonempty pend i p ys :
  (p < 4)%nat -> ys <> [] ->
  first_level (upd pend i p ys) i =
  Some (match first_level pend i with Some q => Nat.min q p | None => p end).
Proof.
  intros Hp Hys. apply first_level_Some.
  assert (forall q, (forall j, (j < q)%nat -> pend i j = []) -> (q <= p)%nat ->
    levels_empty (upd pend i p ys) i q) as Hlow.
  { intros q Hq Hqp j Hj. rewrite upd_ne by lia. by apply Hq. }
  destruct (first_level pend i) as [q|] eqn:E.
  - apply first_level_Some in E as (Hq & Hne & Hemp).
    destruct (Nat.min_spec q p) as [[Hlt ->]|[Hle ->]].
    + split_and!; [done| |by apply Hlow; [|lia]]. by rewrite upd_ne by lia.
    + split_and!; [done|by rewrite upd_eq|]. apply Hlow; [|lia]. intros j Hj. apply Hemp. lia.
  - apply first_level_None in E. split_and!; [done|by rewrite upd_eq|].
    apply Hlow; [|lia]. intros j Hj. apply E. lia.
Qed.

Lemma upd_other_row pend i p ys i' : i' <> i -> forall j, upd pend i p ys i' j = pend i' j.
Proof. intros Hne j. apply upd_ne. naive_solver. Qed.

Section Global.
Context {R : Type} `{!ResourceConfigs R} (reg : R) (mode : Z).
Context (i : nat) (code : Z) (conf : ResConfInfo) (cb tb : ResourceLifecycleCallback).
Hypothesis Hconf : getResConf reg code = Some conf.
Hypothesis Hindex : getResourceTableIndex reg code = Z.of_nat i.
Hypothesis Hglobal : mApplyType conf = APPLY_GLOBAL.
Hypothesis Hmode : mode_allows mode conf = true.
Hypothesis Hcb : mResourceApplierCallback conf = Some cb.
Hypothesis Htb : mResourceTearCallback conf = Some tb.
Hypothesis Hqueue : queueing (mPolicy conf).

Lemma global_targets w r p :
  getResCode r = code -> is_Some (slot w i p) ->
  exists d, targets reg w r (Z.of_nat p) conf i p d w.
Proof.
  intros Hr [d Hd]. exists d. split; rewrite ?Hr; try done.
  unfold getCocoTableSecondaryIndex. by rewrite Hr, Hconf, Hglobal.
Qed.

(** A step that rewrites slot [(i, p)] and nothing observable keeps the codes and
    the slots of the row. *)
Lemma global_row_frame w w' pend p ys :
  quiet w w' -> global_row w pend i code ->
  (forall y, y ∈ ys -> concerns (store w) code y = true) ->
  (forall j, (j < 4)%nat -> is_Some (slot w' i j)) /\
  (forall j y, y ∈ upd pend i p ys i j -> concerns (store w') code y = true).
Proof.
  intros Hq [Hs Hc _ _] Hys. split.
  - intros j Hj. apply (sn_slots _ _ (quiet_nodes _ _ Hq)). by apply Hs.
  - intros j y Hy. unfold concerns. rewrite (sn_data _ _ (quiet_nodes _ _ Hq)). unfold upd in Hy.
    case_decide; [by apply Hys|by eapply Hc].
Qed.

(** Every other row sees nothing of a step on this one. *)
Definition others (w w' : World) : Prop :=
  (forall i', i' <> i ->
     mCurrentlyAppliedPriority (coco w') !! i' = mCurrentlyAppliedPriority (coco w) !! i') /\
  (forall code', code' <> code ->
     in_effect (store w') code' (events w') = in_effect (store w) code' (events w)).

Lemma others_quiet w w' : quiet w w' -> others w w'.
Proof.
  intros Hq. split; intros.
  - by rewrite (quiet_applied _ _ Hq).
  - rewrite (quiet_events _ _ Hq). apply in_effect_data, (quiet_nodes _ _ Hq).
Qed.
Lemma others_trans w1 w2 w3 : others w1 w2 -> others w2 w3 -> others w1 w3.
Proof. intros [A1 B1] [A2 B2]. split; intros; [by rewrite A2, A1|by rewrite B2, B1]. Qed.

Lemma others_applied w a : others w (set_applied (<[i := a]> (mCurrentlyAppliedPriority (coco w))) w).
Proof. split; intros; simpl; [by rewrite list_lookup_insert_ne|done]. Qed.

Lemma others_emit w ev y :
  concerns (store w) code y = true -> ev = EvApply cb y \/ ev = EvTear tb y -> others w (emit ev w).
Proof.
  intros Hy Hev. split; intros; simpl; [done|]. rewrite in_effect_snoc.
  assert (concerns (store w) code' y = false) as Hn.
  { unfold concerns in *. destruct (st_data (store w) !! y); [|done]. zb. lia. }
  destruct Hev as [-> | ->]; simpl; by rewrite Hn.
Qed.

Lemma global_row_other w w' pend p ys i' code' :
  i' <> i -> code' <> code -> same_nodes w w' -> others w w' ->
  global_row w pend i' code' -> global_row w' (upd pend i p ys) i' code'.
Proof.
  intros Hi Hcode Hn [Ha He] [Hs Hc Hap Heff].
  assert (first_level (upd pend i p ys) i' = first_level pend i') as Hf.
  { unfold first_level. f_equal. apply list_find_ext. intros j. by rewrite upd_other_row. }
  split.
  - intros j Hj. apply (sn_slots _ _ Hn). by apply Hs.
  - intros j x. rewrite upd_other_row by done. unfold concerns. rewrite (sn_data _ _ Hn). apply Hc.
  - rewrite Ha by done. by rewrite Hf.
  - rewrite He by done. rewrite Heff, Hf. destruct (first_level pend i'); [|done].
    by rewrite upd_other_row.
Qed.

(** Applying node [y] of level [p]. *)
Definition applied_world (w : World) (p : nat) (y : positive) : World :=
  set_applied (<[i := Z.of_nat p]> (mCurrentlyAppliedPriority (coco w))) (emit (EvApply cb y) w).

Lemma applied_world_wf w pend p y : coco_wf w pend -> coco_wf (applied_world w p y) pend.
Proof. apply coco_wf_ext; [done|done|]. simpl. by rewrite length_insert. Qed.

Lemma applied_world_others w p y :
  concerns (store w) code y = true -> others w (applied_world w p y).
Proof.
  intros Hy. eapply others_trans; [by apply (others_emit w (EvApply cb y) y); auto|].
  apply (others_applied (emit (EvApply cb y) w)).
Qed.
Lemma applied_world_nodes w p y : same_nodes w (applied_world w p y).
Proof. by split. Qed.

(** What a step on level [p] of this row guarantees. *)
Record outcome_ok (w w' : World) (pend' : Pending) : Prop := {
  out_wf : coco_wf w' pend';
  out_row : global_row w' pend' i code;
  out_nodes : same_nodes w w';
  out_others : others w w'
}.

(** The row after [y], the head of the first level [p], was applied. *)
Lemma global_row_applied w pend p y :
  (i < length (mCurrentlyAppliedPriority (coco w)))%nat ->
  (forall j, (j < 4)%nat -> is_Some (slot w i j)) ->
  (forall j z, z ∈ pend i j -> concerns (store w) code z = true) ->
  first_level pend i = Some p -> head (pend i p) = Some y ->
  global_row (applied_world w p y) pend i code.
Proof.
  intros Hi Hs Hc Hf Hy. split; simpl; [done|done| |].
  - rewrite Hf. by rewrite list_lookup_insert_eq.
  - rewrite Hf, Hy, in_effect_snoc. simpl. rewrite (Hc p); [done|].
    destruct (pend i p); [done|]. injection Hy as ->. set_solver.
Qed.

(** Outcomes of quiet steps, followed or not by an application. *)
Lemma outcome_quiet w w2 pend' :
  coco_wf w2 pend' -> quiet w w2 -> global_row w2 pend' i code -> outcome_ok w w2 pend'.
Proof. intros Hw Hq Hr. split; [done|done|apply Hq|by apply others_quiet]. Qed.
Lemma outcome_applied w w2 pend' p y :
  coco_wf w2 pend' -> quiet w w2 -> (concerns (store w2) code y = true) ->
  global_row (applied_world w2 p y) pend' i code -> outcome_ok w (applied_world w2 p y) pend'.
Proof.
  intros Hw Hq Hy Hr. split; [by apply applied_world_wf|done| |].
  - etrans; [apply Hq|apply applied_world_nodes].
  - eapply others_trans; [by apply others_quiet|by apply applied_world_others].
Qed.

Lemma global_insert w pend x r p :
  coco_wf w pend -> global_row w pend i code -> queueable w pend x r ->
  getResCode r = code -> getResAction r <> RES_SKIP -> (p < 4)%nat ->
  let ys := policy_list (mPolicy conf) (store w) x (pend i p) in
  exists w', insertInCocoTable reg mode (Some x) (Z.of_nat p) w = Ok (true, w') /\
    outcome_ok w w' (upd pend i p ys).
Proof.
  intros Hw Hrow Hqx Hr Hact Hp ys.
  destruct (global_targets w r p Hr (gr_slots _ _ _ _ Hrow p Hp)) as [d Ht].
  destruct (insert_queued reg mode w w pend x r _ conf i p d Hw Hqx Hact Ht Hqueue)
    as (w2 & E & Hw2 & Hq).
  assert (concerns (store w) code x = true) as Hcx.
  { unfold concerns. rewrite (q_data _ _ _ _ Hqx), Hr. lia. }
  destruct (global_row_frame w w2 pend p ys Hq Hrow) as [Hs2 Hc2].
  { intros y Hy. unfold ys in Hy. rewrite policy_list_Permutation in Hy.
    apply elem_of_cons in Hy as [->|Hy]; [done|]. by eapply gr_code. }
  destruct Hrow as [_ _ Happ Heff].
  pose proof (first_level_upd_nonempty pend i p ys Hp (policy_list_nonempty _ _ _ _)) as Hf.
  rewrite E. fold ys. rewrite <- (quiet_applied _ _ Hq) in Happ.
  pose proof (lookup_lt_Some _ _ _ Happ) as Hi.
  assert (in_effect (store w2) code (events w2) = in_effect (store w) code (events w)) as Heff2.
  { rewrite (quiet_events _ _ Hq). apply in_effect_data, (sn_data _ _ (quiet_nodes _ _ Hq)). }
  destruct (bool_decide (head ys = Some x)) eqn:Hhead;
    [apply bool_decide_eq_true in Hhead|apply bool_decide_eq_false in Hhead].
  - rewrite (applyAction_ok reg mode w2 x r conf cb i _ _) by
      (rewrite ?(sn_data _ _ (quiet_nodes _ _ Hq)), ?(q_data _ _ _ _ Hqx), ?Hr; done).
    destruct (_ || _) eqn:Eb; simpl.
    + eexists. split; [done|]. apply outcome_applied; [done|done|by rewrite (concerns_nodes w w2) by apply Hq|].
      apply global_row_applied; [done|done|done| |by rewrite upd_eq].
      rewrite Hf. destruct (first_level pend i) as [q|]; [|done]. f_equal.
      zb. destruct Eb; zb; lia.
    + eexists. split; [done|]. apply outcome_quiet; [done|done|].
      destruct (first_level pend i) as [q|] eqn:Eq; zb; [|lia].
      rewrite Nat.min_l in Hf by lia. split; [done|done| |].
      * by rewrite Hf.
      * rewrite Hf, Heff2, Heff. by rewrite upd_ne by lia.
  - simpl. eexists. split; [done|]. apply outcome_quiet; [done|done|].
    destruct (policy_list_head (mPolicy conf) (store w) x (pend i p)) as [?|[Hne Hh]]; [done|].
    destruct (first_level_le pend i p Hp Hne) as (q & Eq & Hqp).
    rewrite Eq in *. rewrite Nat.min_l in Hf by done. split; [done|done| |].
    + by rewrite Hf.
    + rewrite Hf, Heff2, Heff. destruct (decide (q = p)) as [->|].
      * by rewrite upd_eq.
      * by rewrite upd_ne by lia.
Qed.

(** Making level [q] current before applying its head. *)
Definition set_level (w : World) (q : nat) : World :=
  set_applied (<[i := Z.of_nat q]> (mCurrentlyAppliedPriority (coco w))) w.

Lemma set_level_wf w pend q : coco_wf w pend -> coco_wf (set_level w q) pend.
Proof. apply coco_wf_ext; [done|done|]. simpl. by rewrite length_insert. Qed.

(** Any node of the row can be applied by [applyAction]. *)
Lemma apply_row_node w pend j y a prio :
  coco_wf w pend -> (forall j z, z ∈ pend i j -> concerns (store w) code z = true) ->
  y ∈ pend i j -> mCurrentlyAppliedPriority (coco w) !! i = Some a ->
  applyAction reg mode (Some y) (Z.of_nat i) (Z.of_nat prio) w =
    Ok (if (a >=? Z.of_nat prio) || (a =? -1) then applied_world w prio y else w).
Proof.
  intros Hw Hc Hy Ha. destruct (wf_data _ _ Hw i j y Hy) as (r & Er & _).
  pose proof (Hc j y Hy) as Hcy. unfold concerns in Hcy. rewrite Er in Hcy. zb.
  by rewrite (applyAction_ok reg mode w y r conf cb i a) by (rewrite ?Hcy; done).
Qed.

Lemma slot_lookup w k j d :
  slot w k j = Some d -> exists row, mCocoTable (coco w) !! k = Some row /\ row !! j = Some d.
Proof. unfold slot. destruct (mCocoTable (coco w) !! k) as [row|]; [|done]. eauto. Qed.

Lemma reapply_loop_spec w pend :
  coco_wf w pend -> (forall j, (j < 4)%nat -> is_Some (slot w i j)) ->
  (forall j z, z ∈ pend i j -> concerns (store w) code z = true) ->
  (i < length (mCurrentlyAppliedPriority (coco w)))%nat ->
  forall n k, (k + n = 4)%nat -> levels_empty pend i k ->
  reapply_loop reg mode n (Z.of_nat k) (Z.of_nat i) 0 w =
    match first_level pend i with
    | Some q => match head (pend i q) with
                | Some y => Ok (true, applied_world (set_level w q) q y)
                | None => Ok (false, w)
                end
    | None => Ok (false, w)
    end.
Proof.
  intros Hw Hs Hc Hi. induction n as [|n IH]; intros k Hk Hemp.
  - assert (k = 4%nat) as -> by lia. by apply first_level_None in Hemp as ->.
  - cbn [reapply_loop]. destruct (Hs k ltac:(lia)) as [d Hd].
    destruct (wf_slot _ _ Hw i k d Hd) as [_ Hdll].
    destruct (slot_lookup _ _ _ _ Hd) as (row & Hrow & Hd').
    rewrite !Nat2Z.id, Hrow. cbn [of_option mbind result_bind].
    replace (Z.of_nat k + 0 <? 0) with false by lia. rewrite Z.add_0_r, Nat2Z.id, Hd'.
    cbn [of_option mbind result_bind]. rewrite (dll_head _ _ _ Hdll).
    destruct (pend i k) as [|y ys] eqn:Ek; cbn [head].
    + replace (Z.of_nat k + 1) with (Z.of_nat (S k)) by lia. apply IH; [lia|].
      intros j Hj. destruct (decide (j = k)) as [->|]; [done|]. apply Hemp. lia.
    + assert (first_level pend i = Some k) as ->.
      { apply first_level_Some. split_and!; [lia|by rewrite Ek|done]. }
      destruct (lookup_lt_is_Some_2 _ _ Hi) as [a Ha]. rewrite Ha. cbn [of_option mbind result_bind].
      fold (set_level w k). rewrite Ek.
      rewrite (apply_row_node (set_level w k) pend k y (Z.of_nat k) k) by
        (simpl; rewrite ?list_lookup_insert_eq by done; (by apply set_level_wf) || done ||
           (rewrite Ek; set_solver)).
      replace (Z.of_nat k >=? Z.of_nat k) with true by lia. done.
Qed.

Lemma delete_elem_head x xs :
  NoDup xs -> x ∈ xs ->
  (head xs = Some x -> delete_elem x xs = tail xs) /\
  (head xs <> Some x -> head (delete_elem x xs) = head xs).
Proof.
  intros Hnd Hx. destruct xs as [|y ys]; [set_solver|]. split; simpl.
  - intros [= ->]. by apply (delete_elem_mid [] x ys).
  - intros Hne. unfold delete_elem. rewrite filter_cons, decide_True by congruence. done.
Qed.

(** The levels after the last node of level [p] left, and after another one did. *)
Lemma first_level_upd_nil pend p q :
  first_level (upd pend i p []) i = Some q -> pend i q <> [] /\ q <> p.
Proof.
  intros (Hq & Hne & _)%first_level_Some. destruct (decide (q = p)) as [->|].
  - by rewrite upd_eq in Hne.
  - by rewrite upd_ne in Hne by lia.
Qed.
Lemma first_level_upd_same pend p ys :
  pend i p <> [] -> ys <> [] -> first_level (upd pend i p ys) i = first_level pend i.
Proof.
  intros Hp Hys.
  assert (forall q, levels_empty (upd pend i p ys) i q <-> levels_empty pend i q) as Hl.
  { intros q. split; intros H j Hj; specialize (H j Hj);
      destruct (decide (j = p)) as [->|]; rewrite ?upd_eq, ?upd_ne in * by lia; done. }
  destruct (first_level pend i) as [q|] eqn:E.
  - apply first_level_Some in E as (Hq & Hne & Hemp). apply first_level_Some.
    split_and!; [done| |by apply Hl].
    destruct (decide (q = p)) as [->|]; [by rewrite upd_eq|by rewrite upd_ne by lia].
  - apply first_level_None in E. apply first_level_None. by apply Hl.
Qed.

(** The world once a node left its list, before anything is applied or reset. *)
Record removed_world (w w2 : World) (pend : Pending) (p : nat) (ys : list positive) : Prop := {
  rw_wf : coco_wf w2 (upd pend i p ys);
  rw_quiet : quiet w w2;
  rw_slots : forall j, (j < 4)%nat -> is_Some (slot w2 i j);
  rw_codes : forall j y, y ∈ upd pend i p ys i j -> concerns (store w2) code y = true
}.

(** The list became empty: the best pending node is applied, or the resource reset. *)
Lemma after_removal_empty w w2 pend p x r d h :
  removed_world w w2 pend p [] -> getResCode r = code -> concerns (store w) code x = true ->
  mCurrentlyAppliedPriority (coco w) !! i <> None -> mHead d = None ->
  exists w', after_removal reg mode conf x r h (Z.of_nat i) (Z.of_nat p) d w2 = Ok w' /\
    outcome_ok w w' (upd pend i p []).
Proof.
  intros [Hw2 Hq Hs Hc] Hr Hx Ha Hd. unfold after_removal. rewrite Hd.
  rewrite decide_True by done. cbn [mbind result_bind].
  rewrite (bool_decide_true (mApplyType conf = APPLY_GLOBAL)) by done.
  rewrite andb_false_r. rewrite <- (quiet_applied _ _ Hq) in Ha.
  destruct (mCurrentlyAppliedPriority (coco w2) !! i) as [a|] eqn:Ea; [|done].
  pose proof (lookup_lt_Some _ _ _ Ea) as Hi.
  change (Z.to_nat TOTAL_PRIORITIES) with 4%nat.
  pose proof (reapply_loop_spec w2 _ Hw2 Hs Hc Hi 4 0 eq_refl) as Hloop.
  change (Z.of_nat 0) with 0 in Hloop. rewrite Hloop by (intros j Hj; lia). clear Hloop.
  destruct (first_level (upd pend i p []) i) as [q|] eqn:Ef.
  - destruct (first_level_upd_nil _ _ _ Ef) as [Hne Hqp]. rewrite upd_ne by lia.
    destruct (pend i q) as [|y ys] eqn:Eq; [done|]. cbn [head mbind result_bind].
    eexists. split; [done|]. split.
    + apply applied_world_wf. by apply set_level_wf.
    + apply global_row_applied; [simpl; by rewrite length_insert|done|done|done|].
      rewrite upd_ne by lia. by rewrite Eq.
    + etrans; [apply Hq|by split].
    + eapply others_trans; [by apply others_quiet|].
      eapply others_trans; [apply others_applied|]. apply (applied_world_others (set_level w2 q)).
      apply (Hc q). rewrite upd_ne by lia. rewrite Eq. set_solver.
  - cbn [mbind result_bind]. unfold removeAction. rewrite Hr, Hconf, Htb, Nat2Z.id. simpl.
    rewrite Ea. simpl. eexists. split; [done|]. split.
    + eapply coco_wf_ext; [..|exact Hw2]; [done|done|]. simpl. by rewrite length_insert.
    + split; simpl; [done|done| |].
      * rewrite Ef. by rewrite list_lookup_insert_eq.
      * rewrite Ef, in_effect_snoc. simpl. rewrite (concerns_nodes w w2) by apply Hq.
        by rewrite Hx.
    + etrans; [apply Hq|by split].
    + eapply others_trans; [by apply others_quiet|].
      eapply others_trans; [|apply (others_applied (emit (EvTear tb x) w2))].
      apply (others_emit w2 _ x); [|auto]. by rewrite (concerns_nodes w w2) by apply Hq.
Qed.

(** The list still has nodes. *)
Lemma after_removal_more w w2 pend p x r d y ys :
  removed_world w w2 pend p (y :: ys) -> global_row w pend i code -> (p < 4)%nat ->
  pend i p <> [] -> mHead d = Some y ->
  (head (pend i p) = Some x \/ head (pend i p) = Some y) ->
  exists w', after_removal reg mode conf x r (bool_decide (head (pend i p) = Some x)) (Z.of_nat i)
      (Z.of_nat p) d w2 = Ok w' /\ outcome_ok w w' (upd pend i p (y :: ys)).
Proof.
  intros [Hw2 Hq Hs Hc] [_ _ Ha Heff] Hp Hne Hd Hhead. unfold after_removal. rewrite Hd.
  pose proof (first_level_upd_same pend p (y :: ys) Hne ltac:(done)) as Ef.
  assert (exists q, first_level pend i = Some q /\ (q <= p)%nat) as (q & Eq & Hqp).
  { destruct (first_level pend i) as [q|] eqn:Eq.
    - exists q. split; [done|]. apply first_level_Some in Eq as (_ & _ & Hemp).
      destruct (decide (q <= p)%nat); [done|]. destruct Hne. apply Hemp. lia.
    - apply first_level_None in Eq. destruct Hne. by apply Eq. }
  rewrite Eq in *. rewrite <- (quiet_applied _ _ Hq) in Ha.
  pose proof (lookup_lt_Some _ _ _ Ha) as Hi.
  assert (in_effect (store w2) code (events w2) = head (pend i q)) as Heff2.
  { rewrite (quiet_events _ _ Hq), <- Heff. apply in_effect_data, (sn_data _ _ (quiet_nodes _ _ Hq)). }
  destruct (bool_decide (head (pend i p) = Some x)) eqn:Eb.
  - rewrite (apply_row_node w2 _ p y _ p Hw2 Hc) by (rewrite ?upd_eq; set_solver || done).
    eexists. split; [done|]. destruct (decide (q = p)) as [->|Hne2].
    + replace (Z.of_nat p >=? Z.of_nat p) with true by lia. simpl.
      apply outcome_applied; [done|done|apply (Hc p); rewrite upd_eq; set_solver|].
      apply global_row_applied; [done|done|done|done|]. by rewrite upd_eq.
    + replace (Z.of_nat q >=? Z.of_nat p) with false by lia.
      replace (Z.of_nat q =? -1) with false by lia. simpl. apply outcome_quiet; [done|done|].
      split; [done|done|by rewrite Ef|]. by rewrite Ef, upd_ne by lia.
  - eexists. split; [done|]. apply outcome_quiet; [done|done|].
    split; [done|done|by rewrite Ef|]. rewrite Ef, Heff2. destruct (decide (q = p)) as [->|].
    + rewrite upd_eq. apply bool_decide_eq_false in Eb. destruct Hhead; [done|]. done.
    + by rewrite upd_ne by lia.
Qed.

Lemma global_remove w pend x r p :
  coco_wf w pend -> global_row w pend i code -> st_data (store w) !! x = Some r ->
  getResCode r = code -> getResAction r <> RES_SKIP -> (p < 4)%nat -> x ∈ pend i p ->
  exists w', remove_node reg mode x (Z.of_nat p) w = Ok w' /\
    outcome_ok w w' (upd pend i p (delete_elem x (pend i p))).
Proof.
  intros Hw Hrow Hqd Hr Hact Hp Hx.
  destruct (global_targets w r p Hr (gr_slots _ _ _ _ Hrow p Hp)) as [d Ht].
  destruct (remove_queued reg mode w w pend x r _ conf i p d Hw Hx Hqd Hact Ht Hqueue)
    as (w2 & d' & E & Hd' & Hw2 & Hq & _). rewrite E.
  assert (concerns (store w) code x = true) as Hcx by (by eapply gr_code).
  set (ys := delete_elem x (pend i p)) in *.
  assert (forall y, y ∈ ys -> concerns (store w) code y = true) as Hys.
  { intros y Hy. apply list_elem_of_filter in Hy as [_ Hy]. by eapply gr_code. }
  destruct (global_row_frame w w2 pend p ys Hq Hrow Hys) as [Hs2 Hc2].
  destruct (wf_slot _ _ Hw i p d (tg_slot _ _ _ _ _ _ _ _ _ Ht)) as [_ Hdll].
  destruct (delete_elem_head x (pend i p) (dll_nodup _ _ _ Hdll) Hx) as [_ Hhd]. fold ys in Hhd.
  destruct ys as [|y ys'] eqn:Eys.
  - eapply (after_removal_empty w w2 pend p x r); try done.
    rewrite (gr_applied _ _ _ _ Hrow). done.
  - eapply (after_removal_more w w2 pend p x r); try done.
    + by destruct (pend i p); [apply not_elem_of_nil in Hx|].
    + destruct (decide (head (pend i p) = Some x)) as [?|Hn]; [by left|right].
      by rewrite <- (Hhd Hn).
Qed.
End Global.

(** ** Skipped nodes *)

(** A node that [VerifyIncomingRequest] marked: the table passes over it. *)
Definition skipped (s : Store) (x : positive) : bool :=
  match st_data s !! x with Some r => getResAction r =? RES_SKIP | None => false end.

(** The nodes of a request that the table handles. *)
Definition live (s : Store) (xs : list positive) : list positive := filter (fun x => skipped s x = false) xs.

Lemma live_elem s xs x : x ∈ live s xs <-> skipped s x = false /\ x ∈ xs.
Proof. unfold live. by rewrite list_elem_of_filter. Qed.
Lemma live_subseteq s xs x : x ∈ live s xs -> x ∈ xs.
Proof. by intros [_ ?]%live_elem. Qed.
Lemma live_NoDup s xs : NoDup xs -> NoDup (live s xs).
Proof. apply NoDup_filter. Qed.
Lemma skipped_data s s' x : st_data s' !! x = st_data s !! x -> skipped s' x = skipped s x.
Proof. unfold skipped. by intros ->. Qed.
Lemma live_data s s' xs : (forall x, x ∈ xs -> st_data s' !! x = st_data s !! x) -> live s' xs = live s xs.
Proof.
  intros H. unfold live. induction xs as [|x xs IH]; [done|]. rewrite !filter_cons.
  rewrite (skipped_data s s' x) by (apply H; by left). rewrite IH by (intros y Hy; apply H; by right). done.
Qed.
Lemma live_all s xs : (forall x, x ∈ xs -> skipped s x = false) -> live s xs = xs.
Proof.
  intros H. induction xs as [|x xs IH]; [done|]. unfold live in *. rewrite filter_cons_True by (apply H; by left).
  f_equal. apply IH. intros y Hy. apply H. by right.
Qed.

(** ** The whole table *)

Inductive Op := OpInsert (x : positive) (p : nat) | OpRemove (x : positive) (p : nat).

Section Table.
Context {R : Type} `{!ResourceConfigs R} (wf : R -> Prop) `{!ResourceConfigsLaws R wf}.
Context (reg : R) (mode : Z) (Hwf : wf reg).

(** [code] is a resource applied globally, queued by its policy, with its callbacks
    set and tunable in the current device mode; its row is [i]. *)
Record is_global (code : Z) (i : nat) (conf : ResConfInfo)
    (cb tb : ResourceLifecycleCallback) : Prop := {
  ig_conf : getResConf reg code = Some conf;
  ig_index : getResourceTableIndex reg code = Z.of_nat i;
  ig_type : mApplyType conf = APPLY_GLOBAL;
  ig_mode : mode_allows mode conf = true;
  ig_cb : mResourceApplierCallback conf = Some cb;
  ig_tb : mResourceTearCallback conf = Some tb;
  ig_policy : queueing (mPolicy conf)
}.

Record table_inv (w : World) (pend : Pending) : Prop := {
  ti_wf : coco_wf w pend;
  ti_rows : forall code i conf cb tb, is_global code i conf cb tb -> global_row w pend i code
}.

(** The abstract machine: what an operation makes of the pending lists. *)
Inductive op_step (w : World) (pend : Pending) : Op -> Pending -> Prop :=
  | step_insert x p r i conf cb tb :
      queueable w pend x r -> getResAction r <> RES_SKIP ->
      is_global (getResCode r) i conf cb tb -> (p < 4)%nat ->
      op_step w pend (OpInsert x p)
        (upd pend i p (policy_list (mPolicy conf) (store w) x (pend i p)))
  | step_remove x p r i conf cb tb :
      st_data (store w) !! x = Some r -> getResAction r <> RES_SKIP ->
      is_global (getResCode r) i conf cb tb -> (p < 4)%nat -> x ∈ pend i p ->
      op_step w pend (OpRemove x p) (upd pend i p (delete_elem x (pend i p))).

Inductive op_steps (w : World) : Pending -> list Op -> Pending -> Prop :=
  | steps_nil pend : op_steps w pend [] pend
  | steps_cons pend op pend1 ops pend2 :
      op_step w pend op pend1 -> op_steps w pend1 ops pend2 ->
      op_steps w pend (op :: ops) pend2.

(** The code's operations; the flag of an insertion is kept. *)
Definition run_op (op : Op) (w : World) : result (bool * World) :=
  match op with
  | OpInsert x p => insertInCocoTable reg mode (Some x) (Z.of_nat p) w
  | OpRemove x p => w ← remove_node reg mode x (Z.of_nat p) w; Ok (true, w)
  end.
Fixpoint run_ops (ops : list Op) (w : World) : result World :=
  match ops with
  | [] => Ok w
  | op :: ops => '(_, w) ← run_op op w; run_ops ops w
  end.

Lemma op_step_nodes w w' pend op pend' :
  same_nodes w w' -> op_step w pend op pend' -> op_step w' pend op pend'.
Proof.
  intros Hn Hs. inversion Hs as [x p r i conf cb tb [H1 H2 H3 H4]|]; subst.
  - assert (policy_list (mPolicy conf) (store w) x (pend i p) =
            policy_list (mPolicy conf) (store w') x (pend i p)) as ->.
    { unfold policy_list, rank_of. by rewrite (sn_data _ _ Hn). }
    eapply step_insert; try done. split; [by rewrite (sn_data _ _ Hn)|done| |done].
    by apply (sn_alloc _ _ Hn).
  - eapply step_remove; try done. by rewrite (sn_data _ _ Hn).
Qed.

Lemma op_steps_nodes w w' pend ops pend' :
  same_nodes w w' -> op_steps w pend ops pend' -> op_steps w' pend ops pend'.
Proof.
  intros Hn. induction 1; [constructor|]. econstructor; [by eapply op_step_nodes|done].
Qed.

(** The other global rows after a step on row [i]. *)
Lemma rows_after w w' pend i code conf cb tb p ys :
  is_global code i conf cb tb -> table_inv w pend ->
  outcome_ok i code w w' (upd pend i p ys) -> table_inv w' (upd pend i p ys).
Proof.
  intros Hg [Hw Hrows] [Hw' Hrow Hn Ho]. split; [done|].
  intros code' i' conf' cb' tb' Hg'. destruct (decide (code' = code)) as [->|Hne].
  - assert (i' = i) as -> by (apply ig_index in Hg, Hg'; lia). done.
  - assert (i' <> i).
    { intros ->. apply Hne. eapply (law_inj reg); [done|apply Hg'|apply Hg|].
      by rewrite (ig_index _ _ _ _ _ Hg), (ig_index _ _ _ _ _ Hg'). }
    eapply global_row_other; try done. by eapply Hrows.
Qed.

Lemma op_step_run w pend op pend' :
  table_inv w pend -> op_step w pend op pend' ->
  exists w', run_op op w = Ok (true, w') /\ table_inv w' pend' /\ same_nodes w w'.
Proof.
  intros Hi Hs. inversion Hs as [x p r i conf cb tb Hq Ha Hg Hp|x p r i conf cb tb Hd Ha Hg Hp Hx];
    subst; destruct (Hg) as [H1 H2 H3 H4 H5 H6 H7]; pose proof (ti_rows _ _ Hi _ _ _ _ _ Hg) as Hrow.
  - destruct (global_insert reg mode i _ conf cb tb H1 H2 H3 H4 H5 H6 H7 w pend x r p)
      as (w' & E & Hout); try done; [apply Hi|].
    exists w'. split_and!; [done| |apply Hout]. by eapply rows_after.
  - destruct (global_remove reg mode i _ conf cb tb H1 H2 H3 H4 H5 H6 H7 w pend x r p)
      as (w' & E & Hout); try done; [apply Hi|].
    exists w'. simpl. rewrite E. split_and!; [done| |apply Hout]. by eapply rows_after.
Qed.

Lemma op_steps_run ops : forall w pend pend',
  table_inv w pend -> op_steps w pend ops pend' ->
  exists w', run_ops ops w = Ok w' /\ table_inv w' pend' /\ same_nodes w w'.
Proof.
  induction ops as [|op ops IH]; intros w pend pend' Hi Hs;
    inversion Hs as [|? ? pend1 ? ? Hs1 Hs2]; subst.
  - exists w. by split_and!.
  - destruct (op_step_run w pend op pend1 Hi Hs1) as (w1 & E1 & Hi1 & Hn1).
    destruct (IH w1 pend1 pend' Hi1) as (w2 & E2 & Hi2 & Hn2).
    { by eapply op_steps_nodes. }
    exists w2. simpl. rewrite E1. simpl. split_and!; [done|done|by etrans].
Qed.

(** The table as constructed: all lists empty, nothing applied. *)
Lemma table_inv_init s clusters cgroups nCores nClusters nCGroups :
  table_inv (mkWorld s (CocoTable_init reg clusters cgroups nCores nClusters nCGroups) [])
            (fun _ _ => []).
Proof.
  assert (forall i j d, slot (mkWorld s (CocoTable_init reg clusters cgroups nCores nClusters
    nCGroups) []) i j = Some d -> d = DLManager_init COCO_TABLE_DL_NR) as Hd.
  { intros i j d (row & Hr & Hd)%slot_lookup. simpl in Hr.
    rewrite list_lookup_fmap in Hr. destruct (getRegisteredResources reg !! i) as [c|]; [|done].
    simpl in Hr. injection Hr as <-. by apply lookup_replicate in Hd as [-> _]. }
  split; [split|].
  - intros i j d ->%Hd. split; [done|]. by apply is_dll_init.
  - done.
  - intros i j i' j' x Hx. by apply not_elem_of_nil in Hx.
  - intros i j x Hx. by apply not_elem_of_nil in Hx.
  - simpl. rewrite length_replicate, length_map, (law_total reg Hwf). lia.
  - intros code i conf cb tb [H1 H2 H3 _ _ _ _].
    destruct (law_index reg code conf Hwf H1) as [Hi Hl]. rewrite H2, Nat2Z.id in Hl.
    assert (first_level (fun _ _ => []) i = None) as Hf by (by apply first_level_None).
    split.
    + intros j Hj. unfold slot. simpl. rewrite list_lookup_fmap, Hl. simpl.
      unfold vectorSize. rewrite H3. rewrite lookup_replicate_2; [eauto|].
      change (Z.to_nat TOTAL_PRIORITIES) with 4%nat. lia.
    + intros j x Hx. by apply not_elem_of_nil in Hx.
    + rewrite Hf. simpl. rewrite (law_total reg Hwf), Nat2Z.id. apply lookup_replicate_2.
      by eapply lookup_lt_Some.
    + by rewrite Hf.
Qed.

(** *** Requests *)

(** The nodes of a request are walked on the request's linker, which the table
    operations never write. *)
Lemma request_seg_nodes w w' p xs :
  same_nodes w w' -> dlseg (st_links (store w)) 0 p xs None ->
  dlseg (st_links (store w')) 0 p xs None.
Proof. intros Hn. apply dlseg_frame. intros x _. apply (sn_request _ _ Hn). Qed.

Lemma live_nodes w w' xs : same_nodes w w' -> live (store w') xs = live (store w) xs.
Proof. intros Hn. apply live_data. intros x _. by rewrite (sn_data _ _ Hn). Qed.

(** Skipped nodes leave the table alone. *)
Lemma insert_skipped x prio w : skipped (store w) x = true -> insertInCocoTable reg mode (Some x) prio w = Ok (false, w).
Proof.
  unfold skipped, insertInCocoTable, node_resource. destruct (st_data (store w) !! x) as [r|]; [|done].
  intros E. cbn [deref of_option mbind result_bind]. by rewrite E.
Qed.
Lemma remove_skipped x prio w : skipped (store w) x = true -> remove_node reg mode x prio w = Ok w.
Proof. unfold skipped, remove_node. destruct (st_data (store w) !! x) as [r|]; [|done]. by intros ->. Qed.

Lemma insert_loop_run prio xs : forall w pend pend' fuel p acc,
  table_inv w pend -> op_steps w pend (map (fun x => OpInsert x prio) (live (store w) xs)) pend' ->
  dlseg (st_links (store w)) 0 p xs None -> (length xs <= fuel)%nat ->
  exists w', insert_loop reg mode fuel REQUEST_DL_NR (head xs) (Z.of_nat prio) acc w =
      Ok (acc + Z.of_nat (length (live (store w) xs)), w') /\ table_inv w' pend' /\ same_nodes w w'.
Proof.
  induction xs as [|x xs IH]; intros w pend pend' fuel p acc Hi Hs Hseg Hf.
  - inversion Hs; subst. exists w. destruct fuel; simpl; rewrite Z.add_0_r; by split_and!.
  - destruct fuel as [|fuel]; simpl in Hf; [lia|]. cbn [insert_loop head]. unfold live in Hs |- *.
    destruct (skipped (store w) x) eqn:Ex.
    + rewrite filter_cons_False in Hs |- * by congruence. rewrite (insert_skipped x _ w Ex). cbn [mbind result_bind].
      rewrite (getNextPtr_seg _ REQUEST_DL_NR p x xs None) by done. cbn [mbind result_bind].
      rewrite hd_or_head. simpl i8_of_bool. rewrite Z.add_0_r.
      destruct Hseg as [_ Hseg]. by apply (IH w pend pend' fuel (Some x)); [..|lia].
    + rewrite filter_cons_True in Hs |- * by done. cbn [map] in Hs. inversion Hs as [|? ? pend1 ? ? Hs1 Hs2]; subst.
      destruct (op_step_run w pend _ pend1 Hi Hs1) as (w1 & E1 & Hi1 & Hn1).
      pose proof (request_seg_nodes _ _ _ _ Hn1 Hseg) as Hseg1.
      pose proof (live_nodes w w1 xs Hn1) as Hlv.
      destruct (IH w1 pend1 pend' fuel (Some x) (acc + 1)) as (w2 & E2 & Hi2 & Hn2);
        [done|rewrite Hlv; by eapply op_steps_nodes|apply Hseg1|lia|].
      exists w2. unfold run_op in E1. rewrite E1. cbn [mbind result_bind].
      rewrite (getNextPtr_seg _ REQUEST_DL_NR p x xs None) by done. cbn [mbind result_bind].
      rewrite hd_or_head. simpl i8_of_bool. rewrite E2, Hlv. unfold live.
      split_and!; [do 2 f_equal; cbn [length]; lia|done|by etrans].
Qed.

Lemma remove_loop_run prio xs : forall w pend pend' fuel p,
  table_inv w pend -> op_steps w pend (map (fun x => OpRemove x prio) (live (store w) xs)) pend' ->
  dlseg (st_links (store w)) 0 p xs None -> (length xs <= fuel)%nat ->
  exists w', remove_loop reg mode fuel REQUEST_DL_NR (head xs) (Z.of_nat prio) w = Ok w' /\
    table_inv w' pend' /\ same_nodes w w'.
Proof.
  induction xs as [|x xs IH]; intros w pend pend' fuel p Hi Hs Hseg Hf.
  - inversion Hs; subst. exists w. destruct fuel; by split_and!.
  - destruct fuel as [|fuel]; simpl in Hf; [lia|]. cbn [remove_loop head]. unfold live in Hs.
    destruct (skipped (store w) x) eqn:Ex.
    + rewrite filter_cons_False in Hs by congruence. rewrite (remove_skipped x _ w Ex). cbn [mbind result_bind].
      rewrite (getNextPtr_seg _ REQUEST_DL_NR p x xs None) by done. cbn [mbind result_bind].
      rewrite hd_or_head. destruct Hseg as [_ Hseg]. by apply (IH w pend pend' fuel (Some x)); [..|lia].
    + rewrite filter_cons_True in Hs by done. cbn [map] in Hs. inversion Hs as [|? ? pend1 ? ? Hs1 Hs2]; subst.
      destruct (op_step_run w pend _ pend1 Hi Hs1) as (w1 & E1 & Hi1 & Hn1).
      pose proof (request_seg_nodes _ _ _ _ Hn1 Hseg) as Hseg1.
      destruct (IH w1 pend1 pend' fuel (Some x)) as (w2 & E2 & Hi2 & Hn2);
        [done|rewrite (live_nodes w w1 xs Hn1); by eapply op_steps_nodes|apply Hseg1|lia|].
      exists w2. unfold run_op in E1. apply bind_ok in E1 as (w' & E & [= ->]).
      rewrite E. cbn [mbind result_bind].
      rewrite (getNextPtr_seg _ REQUEST_DL_NR p x xs None) by done. cbn [mbind result_bind].
      rewrite hd_or_head, E2. split_and!; [done|done|by etrans].
Qed.

(** A whole request: every node that is not skipped is queued, and the request has the timer that its duration asks for. *)
Definition request_timer (pool : option bool) (dur : Z) : option Timer :=
  if dur =? -1 then None else Some (startTimer pool dur Timer_init).2.

Lemma insertRequest_run w pend pend' req l xs prio alloc pool :
  table_inv w pend -> mResourceList req = Some l ->
  mLinkerInUse l = REQUEST_DL_NR -> is_dll (st_links (store w)) l xs -> live (store w) xs <> [] ->
  getPriority (req_msg req) = Z.of_nat prio ->
  op_steps w pend (map (fun x => OpInsert x prio) (live (store w) xs)) pend' ->
  mDuration (req_msg req) = -1 \/ alloc = true ->
  exists w', insertRequest reg mode alloc pool (Some req) w =
      Ok ((mDuration (req_msg req) =? -1) ||
          ((mDuration (req_msg req) >? 0) && bool_decide (pool = Some true)),
          Some (setTimer (request_timer pool (mDuration (req_msg req))) req), w') /\
    table_inv w' pend' /\ same_nodes w w'.
Proof.
  intros Hi Hl Hk Hd Hne Hprio Hs Hdur.
  pose proof (dll_links _ _ _ Hd) as Hseg. rewrite Hk in Hseg.
  pose proof (is_dll_fuel _ _ _ Hd) as Hfuel.
  destruct (insert_loop_run prio xs w pend pend' _ None 0 Hi Hs Hseg Hfuel) as (w' & E & Hi' & Hn).
  assert ((0 + Z.of_nat (length (live (store w) xs)) =? 0) = false) as Hz by (destruct (live (store w) xs); [done|simpl; lia]).
  exists w'. split; [|done]. unfold insertRequest, getDuration, getResDlMgr, request_timer.
  destruct (mDuration (req_msg (setTimer None req)) =? -1) eqn:Ed;
    rewrite ?setTimer_msg, ?setTimer_list in *; rewrite Ed; cbn [negb andb].
  - rewrite Hl, Hk, (dll_head _ _ _ Hd), Hprio, E. cbn [mbind result_bind]. by rewrite Hz.
  - destruct Hdur as [?| ->]; [zb; lia|]. cbn [negb andb].
    rewrite Hl, Hk, (dll_head _ _ _ Hd), Hprio, E. cbn [mbind result_bind]. rewrite Hz.
    unfold startTimer. rewrite Ed. zb. destruct (_ || _) eqn:E2; cbn [orb].
    + replace (mDuration (req_msg req) >? 0) with false; [done|]. zb. destruct E2; zb; lia.
    + zb. replace (mDuration (req_msg req) >? 0) with true by lia. by destruct pool as [[]|].
Qed.

Lemma removeRequest_run w pend pend' req l xs prio :
  table_inv w pend -> mResourceList req = Some l ->
  mLinkerInUse l = REQUEST_DL_NR -> is_dll (st_links (store w)) l xs ->
  getPriority (req_msg req) = Z.of_nat prio ->
  op_steps w pend (map (fun x => OpRemove x prio) (live (store w) xs)) pend' ->
  exists w', removeRequest reg mode (Some req) w = Ok (0, w') /\ table_inv w' pend' /\ same_nodes w w'.
Proof.
  intros Hi Hl Hk Hd Hprio Hs. pose proof (dll_links _ _ _ Hd) as Hseg. rewrite Hk in Hseg.
  destruct (remove_loop_run prio xs w pend pend' _ None Hi Hs Hseg (is_dll_fuel _ _ _ Hd))
    as (w' & E & Hi' & Hn).
  unfold removeRequest, getResDlMgr. cbn [deref mbind result_bind].
  rewrite Hl, Hk, (dll_head _ _ _ Hd), Hprio, E. by exists w'.
Qed.
End Table.

(** ** Sorted queues *)

(** The order each policy keeps: better values first. *)
Definition policy_le (p : Policy) (s : Store) (x y : positive) : Prop :=
  match p with
  | HIGHER_BETTER => rank_of s x >= rank_of s y
  | LOWER_BETTER => rank_of s x <= rank_of s y
  | _ => True
  end.

#[export] Instance policy_le_trans p s : Transitive (policy_le p s).
Proof. intros a b c. destruct p; simpl; lia || done. Qed.

Lemma policy_list_sorted p s x xs :
  StronglySorted (policy_le p s) xs -> StronglySorted (policy_le p s) (policy_list p s x xs).
Proof.
  assert (forall ys, StronglySorted (fun _ _ : positive => True) ys) as Hall.
  { induction ys; constructor; [done|]. by apply Forall_true. }
  intros Hs. destruct p; simpl; try apply Hall.
  - apply (policy_insert_sorted (policy_le HIGHER_BETTER s)); [done|].
    intros y _. simpl. destruct (rank_of s x >? rank_of s y) eqn:E; zb; lia.
  - apply (policy_insert_sorted (policy_le LOWER_BETTER s)); [done|].
    intros y _. simpl. destruct (rank_of s x <? rank_of s y) eqn:E; zb; lia.
Qed.

Lemma delete_elem_sorted {le : positive -> positive -> Prop} x xs :
  StronglySorted le xs -> StronglySorted le (delete_elem x xs).
Proof.
  unfold delete_elem. induction 1 as [|y ys Hs IH Hy]; [constructor|]. rewrite filter_cons.
  case_decide; [|done]. constructor; [done|]. apply Forall_forall. intros z Hz.
  apply list_elem_of_filter in Hz as [_ Hz]. rewrite Forall_forall in Hy. by apply Hy.
Qed.

(** [applyAction] on the row of a node of that row never faults and only appends the
    applier call. *)
Lemma applyAction_total {R} `{!ResourceConfigs R} (reg : R) mode w pend x r conf i prio :
  coco_wf w pend -> st_data (store w) !! x = Some r -> getResConf reg (getResCode r) = Some conf ->
  is_Some (mCurrentlyAppliedPriority (coco w) !! i) ->
  exists w', applyAction reg mode (Some x) (Z.of_nat i) prio w = Ok w' /\
    coco_wf w' pend /\ same_nodes w w' /\
    (events w' = events w \/ exists cb, events w' = events w ++ [EvApply cb x]).
Proof.
  intros Hw Hx Hc [a Ha]. unfold applyAction. rewrite Hx, Nat2Z.id, Ha. simpl.
  destruct (_ || _); [|eexists; by split_and!; [..|left]].
  unfold conf_of. rewrite Hc. simpl.
  destruct (mode_allows mode conf); [|eexists; by split_and!; [..|left]].
  eexists. split; [done|]. unfold call_applier.
  destruct (mResourceApplierCallback conf) as [cb|]; (split_and!; [|by split|simpl; eauto]);
    (eapply coco_wf_ext; [..|exact Hw]; [done|done|simpl; by rewrite length_insert]).
Qed.

(** ** Properties *)

(** C3: arbitration.  Start from the constructed table and run any sequence of
    insertions and removals of nodes of globally applied resources whose appliers are
    set and which the device mode allows.  No step faults, and at the end, for each
    such resource, the node whose value is in effect, that is the last one applied
    since the last reset, is the head of the first non-empty priority list, and none is
    in effect when all lists are empty; the recorded priority is that level. *)
Theorem CocoTable_arbitration {R : Type} `{!ResourceConfigs R} (wf : R -> Prop)
    `{!ResourceConfigsLaws R wf} (reg : R) (mode : Z) (s : Store) (clusters cgroups : list Z)
    (nCores nClusters nCGroups : Z) (ops : list Op) (pend : Pending) :
  wf reg ->
  let w0 := mkWorld s (CocoTable_init reg clusters cgroups nCores nClusters nCGroups) [] in
  op_steps reg mode w0 (fun _ _ => []) ops pend ->
  exists w, run_ops reg mode ops w0 = Ok w /\
    forall code i conf cb tb, is_global reg mode code i conf cb tb ->
      in_effect (store w) code (events w) =
        match first_level pend i with Some q => head (pend i q) | None => None end /\
      mCurrentlyAppliedPriority (coco w) !! i =
        Some (match first_level pend i with Some q => Z.of_nat q | None => -1 end) /\
      forall q, q < 4 -> exists d, slot w i (Z.to_nat q) = Some d /\
        is_dll (st_links (store w)) d (pend i (Z.to_nat q)).
Proof.
  intros Hwf w0 Hops.
  destruct (op_steps_run wf reg mode Hwf ops w0 _ pend
    (table_inv_init wf reg mode Hwf s clusters cgroups nCores nClusters nCGroups) Hops)
    as (w & E & Hi & _).
  exists w. split; [done|]. intros code i conf cb tb Hg.
  pose proof (ti_rows _ _ _ _ Hi _ _ _ _ _ Hg) as [H1 H2 H3 H4]. split_and!; [done|done|].
  intros q Hq. destruct (H1 (Z.to_nat q) ltac:(lia)) as [d Hd]. exists d. split; [done|].
  apply (wf_slot _ _ (ti_wf _ _ _ _ Hi) _ _ _ Hd).
Qed.

(** A registry with one resource, and three nodes holding values of it. *)
Definition one_resource (p : Policy) (a : ResourceApplyType) : ResourceRegistry :=
  mkRR 1 [setLifeCycleCallbacks (sample_conf 3 7 p a)] {[196615 := 0]} ∅.
Lemma one_resource_wf p a : reg_wf (one_resource p a).
Proof.
  split; [done| |].
  - intros key i Hk. cbn [one_resource mSILMap] in Hk. apply lookup_singleton_Some in Hk as [<- <-].
    exists (setLifeCycleCallbacks (sample_conf 3 7 p a)).
    split_and!; [lia|done|by destruct a].
  - intros [|[|i]] c Hc; [injection Hc as <-; by destruct a|done|done].
Qed.
Definition sample_res (info v : Z) : Resource := mkResource 196615 info 0 1 (Inline v 0) RES_FORWARD.
Definition three_nodes (i1 i2 i3 : Z) : Store :=
  mkStore (fresh_heap 3 2)
    (list_to_map [(1%positive, sample_res i1 10); (2%positive, sample_res i2 20);
                  (3%positive, sample_res i3 30)]) ∅.

Lemma sample_res_ok info v : in_u 32 info -> res_ok (sample_res info v).
Proof. intros. split; simpl; [unfold in_u; lia|done|lia|lia]. Qed.

Definition sample_reg : ResourceRegistry := one_resource HIGHER_BETTER APPLY_GLOBAL.
Definition sample_w0 : World := mkWorld (three_nodes 0 0 0) (CocoTable_init sample_reg [] [] 8 2 0) [].

Lemma sample_global : is_global sample_reg 1 196615 0
  (setLifeCycleCallbacks (sample_conf 3 7 HIGHER_BETTER APPLY_GLOBAL))
  defaultGlobalLevelApplierCb defaultGlobalLevelTearCb.
Proof. split; (reflexivity || by split). Qed.

(** Two insertions, after which node 2 leads. *)
Lemma sample_history : exists pend,
  op_steps sample_reg 1 sample_w0 (fun _ _ => []) [OpInsert 1 2; OpInsert 2 2] pend /\
  first_level pend 0 = Some 2%nat /\ head (pend 0%nat 2%nat) = Some 2%positive.
Proof.
  eexists. split; [eapply steps_cons|].
  { eapply (step_insert sample_reg 1 sample_w0 _ 1 2 (sample_res 0 10)); [|done|exact sample_global|lia].
    split; [reflexivity|apply sample_res_ok; unfold in_u; lia|vm_compute; eauto|].
    intros i j Hx. by apply not_elem_of_nil in Hx. }
  { eapply steps_cons; [|apply steps_nil].
    eapply (step_insert sample_reg 1 sample_w0 _ 2 2 (sample_res 0 20)); [|done|exact sample_global|lia].
    split; [reflexivity|apply sample_res_ok; unfold in_u; lia|vm_compute; eauto|].
    intros i j Hx. unfold upd in Hx. case_decide; simpl in Hx; set_solver. }
  split; vm_compute; reflexivity.
Qed.

Lemma CocoTable_arbitration_witness :
  exists w, run_ops sample_reg 1 [OpInsert 1 2; OpInsert 2 2] sample_w0 = Ok w /\
    in_effect (store w) 196615 (events w) = Some 2%positive.
Proof.
  destruct sample_history as (pend & Hops & Hf & Hh).
  destruct (CocoTable_arbitration reg_wf sample_reg 1 (three_nodes 0 0 0) [] [] 8 2 0
              [OpInsert 1 2; OpInsert 2 2] pend) as (w & E & H).
  - apply one_resource_wf.
  - exact Hops.
  - exists w. split; [exact E|]. destruct (H _ _ _ _ _ sample_global) as [Heff _]. by rewrite Heff, Hf.
Defined.

(** The insertion of a node in a well-formed table never faults; it is applied at most
    once, itself, and only when it is first in its list. *)
Lemma insert_queued_total {R} `{!ResourceConfigs R} (reg : R) mode w w1 pend x r prio conf i j d :
  coco_wf w pend -> queueable w pend x r -> getResAction r <> RES_SKIP ->
  targets reg w r prio conf i j d w1 -> queueing (mPolicy conf) ->
  let ys := policy_list (mPolicy conf) (store w) x (pend i j) in
  exists w', insertInCocoTable reg mode (Some x) prio w = Ok (true, w') /\
    coco_wf w' (upd pend i j ys) /\ same_nodes w w' /\
    (events w' = events w \/
     exists cb, head ys = Some x /\ events w' = events w ++ [EvApply cb x]).
Proof.
  intros Hw Hq Ha Ht Hp ys.
  destruct (insert_queued reg mode w w1 pend x r prio conf i j d Hw Hq Ha Ht Hp)
    as (w2 & E & Hw2 & Hqt).
  rewrite E. fold ys. destruct (bool_decide (head ys = Some x)) eqn:Eb.
  - apply bool_decide_eq_true in Eb.
    destruct (applyAction_total reg mode w2 _ x r conf i prio Hw2) as (w3 & E3 & Hw3 & Hn & Hev).
    + rewrite (sn_data _ _ (quiet_nodes _ _ Hqt)). apply Hq.
    + apply Ht.
    + apply lookup_lt_is_Some_2. rewrite (quiet_applied _ _ Hqt), (wf_applied _ _ Hw).
      destruct (slot_lookup _ _ _ _ (tg_slot _ _ _ _ _ _ _ _ _ Ht)) as (row & Hrow & _).
      by eapply lookup_lt_Some.
    + rewrite E3. simpl. eexists. split; [done|]. split_and!; [done|etrans; [apply Hqt|done]|].
      rewrite <- (quiet_events _ _ Hqt). destruct Hev as [?|[cb ?]]; eauto.
  - simpl. eexists. split; [done|]. split_and!; [done|apply Hqt|left; apply Hqt].
Qed.

(** C8: queueing.  For every apply type, when the index computation reaches a slot,
    a node whose resource has a queueing policy is inserted without a fault at the
    place its policy says, the table stays well formed, and only the node itself may
    be applied, when it is first.  In a sorted list of a higher-is-better
    (lower-is-better) resource the values stay sorted; removing any node keeps that too. *)
Theorem CocoTable_queues {R : Type} `{!ResourceConfigs R} (reg : R) (mode : Z) (w w1 : World)
    (pend : nat -> nat -> list positive) (x : positive) (r : Resource) (prio : Z)
    (conf : ResConfInfo) (i j : nat) (d : DLManager) :
  coco_wf w pend -> queueable w pend x r -> getResAction r <> RES_SKIP ->
  targets reg w r prio conf i j d w1 -> queueing (mPolicy conf) ->
  StronglySorted (policy_le (mPolicy conf) (store w)) (pend i j) ->
  let ys := policy_list (mPolicy conf) (store w) x (pend i j) in
  ys ≡ₚ x :: pend i j /\
  StronglySorted (policy_le (mPolicy conf) (store w)) ys /\
  (forall z, StronglySorted (policy_le (mPolicy conf) (store w)) (delete_elem z ys)) /\
  exists w', insertInCocoTable reg mode (Some x) prio w = Ok (true, w') /\
    coco_wf w' (upd pend i j ys) /\
    (events w' = events w \/
     exists cb, head ys = Some x /\ events w' = events w ++ [EvApply cb x]).
Proof.
  intros Hw Hq Ha Ht Hp Hs ys. split_and!.
  - apply policy_list_Permutation.
  - by apply policy_list_sorted.
  - intros z. by apply delete_elem_sorted, policy_list_sorted.
  - destruct (insert_queued_total reg mode w w1 pend x r prio conf i j d Hw Hq Ha Ht Hp)
      as (w' & E & Hw' & _ & Hev). eauto.
Qed.

Definition sample_world (p : Policy) (a : ResourceApplyType) (i1 i2 i3 : Z) (clusters : list Z) : World :=
  mkWorld (three_nodes i1 i2 i3) (CocoTable_init (one_resource p a) clusters [] 8 2 0) [].

Lemma sample_queueable p a i1 i2 i3 clusters :
  in_u 32 i1 ->
  queueable (sample_world p a i1 i2 i3 clusters) (fun _ _ => []) 1 (sample_res i1 10).
Proof.
  intros. split; [reflexivity|by apply sample_res_ok|vm_compute; eauto|].
  intros i j Hx. by apply not_elem_of_nil in Hx.
Qed.

Lemma CocoTable_queues_witness :
  let reg := one_resource LOWER_BETTER APPLY_CORE in
  exists w', insertInCocoTable reg 1 (Some 1%positive) 1 (sample_world LOWER_BETTER APPLY_CORE 3 0 0 [])
    = Ok (true, w').
Proof.
  intros reg. set (w := sample_world LOWER_BETTER APPLY_CORE 3 0 0 []).
  destruct (CocoTable_queues reg 1 w w (fun _ _ => []) 1 (sample_res 3 10) 1
    (setLifeCycleCallbacks (sample_conf 3 7 LOWER_BETTER APPLY_CORE)) 0 13
    (DLManager_init COCO_TABLE_DL_NR)) as (_ & _ & _ & w' & E & _).
  - apply (ti_wf reg 1). apply (table_inv_init reg_wf reg 1 (one_resource_wf _ _)).
  - apply sample_queueable. unfold in_u. lia.
  - done.
  - split; reflexivity.
  - by split.
  - constructor.
  - exists w'. exact E.
Defined.

(** Requests.  A request whose nodes name globally applied resources, some of them perhaps
    skipped, is inserted node by node, in the order it lists them: [insertRequest] does not fault
    and queues every node that is not skipped, of which there is one; it reports success exactly when no timer is needed or the
    timer could be started, and it leaves the nodes queued in either case.
    [removeRequest] of such a request takes those nodes out again and returns 0. *)
Theorem CocoTable_requests {R : Type} `{!ResourceConfigs R} (wf : R -> Prop)
    `{!ResourceConfigsLaws R wf} (reg : R) (mode : Z) (w : World)
    (pend pend' : nat -> nat -> list positive) (req : Request) (l : DLManager) (xs : list positive)
    (prio : nat) (alloc : bool) (pool : option bool) :
  wf reg -> table_inv reg mode w pend -> mResourceList req = Some l ->
  mLinkerInUse l = REQUEST_DL_NR -> is_dll (st_links (store w)) l xs -> live (store w) xs <> [] ->
  getPriority (req_msg req) = Z.of_nat prio ->
  (op_steps reg mode w pend (map (fun x => OpInsert x prio) (live (store w) xs)) pend' ->
   (mDuration (req_msg req) = -1 \/ alloc = true) ->
   exists req' w', insertRequest reg mode alloc pool (Some req) w =
       Ok ((mDuration (req_msg req) =? -1) ||
           ((mDuration (req_msg req) >? 0) && bool_decide (pool = Some true)), Some req', w') /\
     table_inv reg mode w' pend' /\ same_nodes w w') /\
  (op_steps reg mode w pend (map (fun x => OpRemove x prio) (live (store w) xs)) pend' ->
   exists w', removeRequest reg mode (Some req) w = Ok (0, w') /\
     table_inv reg mode w' pend' /\ same_nodes w w').
Proof.
  intros Hwf Hi Hl Hk Hd Hne Hprio. split.
  - intros Hs Hdur. destruct (insertRequest_run wf reg mode Hwf w pend pend' req l xs prio alloc pool)
      as (w' & E & Hi' & Hn); try done. by eexists _, w'.
  - intros Hs. by apply (removeRequest_run wf reg mode Hwf w pend pend' req l xs prio).
Qed.

Lemma CocoTable_requests_witness :
  let reg := one_resource HIGHER_BETTER APPLY_GLOBAL in
  let req l := mkRequest (mkMessage 1 (-1) 2 0 0 0) None (Some l) 0 in
  exists w l req' w', insertRequest reg 1 true None (Some (req l)) w = Ok (true, Some req', w').
Proof.
  intros reg req.
  destruct (insert_refines (fresh_heap 3 2) (DLManager_init 0) [] 1) as (h & l & El & Hl & _).
  { apply is_dll_init. lia. } { split; [vm_compute; eauto|set_solver]. }
  vm_compute in El. injection El as <- <-.
  match type of Hl with is_dll ?h ?l _ =>
    set (w := mkWorld (mkStore h (st_data (three_nodes 0 0 0)) ∅) (CocoTable_init reg [] [] 8 2 0) []);
    exists w, l;
    destruct (CocoTable_requests reg_wf reg 1 w (fun _ _ => [])
      (upd (fun _ _ => []) 0 2 (policy_list HIGHER_BETTER (store w) 1 [])) (req l) l [1%positive] 2
      true None) as [H _]
  end.
  - apply one_resource_wf.
  - apply (table_inv_init reg_wf reg 1 (one_resource_wf _ _)).
  - reflexivity.
  - reflexivity.
  - exact Hl.
  - done.
  - reflexivity.
  - destruct H as (req' & w' & E & _); [|by left|by exists req', w'].
    eapply steps_cons; [|apply steps_nil].
    eapply (step_insert reg 1 w (fun _ _ => []) 1 2 (sample_res 0 10) 0
      (setLifeCycleCallbacks (sample_conf 3 7 HIGHER_BETTER APPLY_GLOBAL))
      defaultGlobalLevelApplierCb defaultGlobalLevelTearCb); [|done| |lia].
    + split; [reflexivity|apply sample_res_ok; unfold in_u; lia|vm_compute; eauto|].
      intros i j Hx. by apply not_elem_of_nil in Hx.
    + split; (reflexivity || by split).
Defined.

(** Retuning.  [updateRequest] refuses a duration below [-1] and a positive one
    shorter than the current one; otherwise the old timer is replaced by a new one,
    armed exactly when the duration is positive and the pool takes it; the duration is
    recorded even when the timer does not start.  A request without a timer, as
    every request of infinite duration is, makes it dereference a null pointer. *)
Theorem CocoTable_updateRequest (alloc : bool) (pool : option bool) (req : Request) (dur : Z) :
  (dur < -1 \/ (0 < dur /\ dur < mDuration (req_msg req)) ->
     updateRequest alloc pool (Some req) dur = Ok (false, Some req)) /\
  (-1 <= dur -> (0 < dur -> mDuration (req_msg req) <= dur) ->
     match mTimer req with
     | None => updateRequest alloc pool (Some req) dur = Fault NullDeref
     | Some _ => alloc = true -> exists req' t,
         updateRequest alloc pool (Some req) dur =
           Ok ((dur =? -1) || ((dur >? 0) && bool_decide (pool = Some true)), Some req') /\
         mDuration (req_msg req') = dur /\ mTimer req' = Some t /\
         timer_fires t = (dur >? 0) && bool_decide (pool = Some true) /\
         mResourceList req' = mResourceList req
     end).
Proof.
  unfold updateRequest, getDuration, getTimer. split.
  - intros H. replace ((dur <? -1) || _) with true; [done|]. symmetry.
    destruct H; [|]; rewrite orb_true_iff; [left; lia|right; rewrite andb_true_iff; lia].
  - intros H1 H2. replace ((dur <? -1) || _) with false.
    2: { symmetry. rewrite orb_false_iff. split; [lia|].
         destruct (dur >? 0) eqn:E; [|done]. zb. simpl. specialize (H2 ltac:(lia)). lia. }
    destruct (mTimer req) as [t|]; [|done]. intros ->. simpl. unfold startTimer.
    destruct (dur =? -1) eqn:Ed; zb.
    { subst. simpl. eexists _, _. by split_and!. }
    destruct (_ || _) eqn:E2.
    + eexists _, _. cbn [orb]. replace (dur >? 0) with false; [by split_and!|].
      zb. destruct E2; zb; lia.
    + zb. replace (dur >? 0) with true by lia. destruct pool as [[]|]; eexists _, _; by split_and!.
Qed.

(** The applied priority is recorded per resource, not per slot.  For a resource
    applied per cluster, a request on one cluster at priority 0 keeps a request at
    priority 2 on another cluster from being applied, although nothing else is pending
    there; when the first one is removed, the resource is reset and the second one,
    still queued, is never applied. *)
Theorem CocoTable_cross_cluster_starvation :
  let reg := one_resource INSTANT_APPLY APPLY_CLUSTER in
  let w0 := sample_world INSTANT_APPLY APPLY_CLUSTER 0 1024 0 [0; 4] in
  let first := EvApply defaultClusterLevelApplierCb 1 in
  exists w1 w2,
    run_ops reg 1 [OpInsert 1 0; OpInsert 2 2] w0 = Ok w1 /\ events w1 = [first] /\
    run_op reg 1 (OpRemove 1 0) w1 = Ok (true, w2) /\
    events w2 = [first; EvTear defaultClusterLevelTearCb 1] /\
    (exists d, slot w2 0 6 = Some d /\ mHead d = Some 2%positive) /\
    mCurrentlyAppliedPriority (coco w2) = [-1].
Proof.
  eexists _, _. split; [vm_compute; reflexivity|]. split; [vm_compute; reflexivity|].
  split; [vm_compute; reflexivity|]. split; [vm_compute; reflexivity|].
  split; [|vm_compute; reflexivity]. eexists. split; vm_compute; reflexivity.
Qed.
