(* ===== verification/Events.v ===== *)
(** The callbacks the CocoTable calls, operation by operation: each is the applier or the tear
    callback that the configuration of the resource of a node names. *)
From S2P Require Import Prelude UrmTypes Message Resource DLManager ResourceRegistry Request CocoTable.
Open Scope list_scope.
Open Scope Z_scope.

(** ** The callbacks the table calls are those of the configuration *)
Section Events.
Context {R : Type} `{!ResourceConfigs R} (reg : R) (mode : Z).

Definition good_event (s : Store) (ev : Event) : Prop :=
  match ev with
  | EvApply cb x => exists r conf, st_data s !! x = Some r /\
      getResConf reg (getResCode r) = Some conf /\ mResourceApplierCallback conf = Some cb
  | EvTear cb x => exists r conf, st_data s !! x = Some r /\
      getResConf reg (getResCode r) = Some conf /\ mResourceTearCallback conf = Some cb
  end.

(** [w'] has the resources of [w] and good events if [w] had. *)
Definition events_kept (w w' : World) : Prop :=
  st_data (store w') = st_data (store w) /\
  (Forall (good_event (store w)) (events w) -> Forall (good_event (store w)) (events w')).

Lemma kept_refl w : events_kept w w.
Proof. by split. Qed.
Lemma good_event_data s s' ev : st_data s' = st_data s -> good_event s ev -> good_event s' ev.
Proof. intros E. destruct ev; simpl; by rewrite E. Qed.
Lemma kept_trans w1 w2 w3 : events_kept w1 w2 -> events_kept w2 w3 -> events_kept w1 w3.
Proof.
  intros [D1 E1] [D2 E2]. split; [congruence|]. intros H. apply E1 in H.
  assert (Forall (good_event (store w2)) (events w2)) as H2.
  { eapply Forall_impl; [exact H|]. intros ev. by apply good_event_data. }
  eapply Forall_impl; [exact (E2 H2)|]. intros ev. by apply good_event_data.
Qed.
Lemma kept_same w w' : st_data (store w') = st_data (store w) -> events w' = events w -> events_kept w w'.
Proof. intros D E. split; [done|]. by rewrite E. Qed.

Lemma call_applier_kept conf x r w :
  st_data (store w) !! x = Some r -> getResConf reg (getResCode r) = Some conf ->
  events_kept w (call_applier conf x w).
Proof.
  intros Hx Hc. unfold call_applier. destruct (mResourceApplierCallback conf) as [cb|] eqn:E; [|apply kept_refl].
  split; [done|]. intros H. simpl. apply Forall_app. split; [done|]. constructor; [|done]. simpl. eauto.
Qed.

Lemma conf_of_ok r conf : conf_of reg r = Ok conf -> getResConf reg (getResCode r) = Some conf.
Proof. unfold conf_of. by destruct (getResConf reg (getResCode r)); intros [= ->]. Qed.

Lemma applyAction_kept y i p w w' : applyAction reg mode y i p w = Ok w' -> events_kept w w'.
Proof.
  unfold applyAction. destruct y as [x|]; [|intros [= ->]; apply kept_refl].
  destruct (st_data (store w) !! x) as [r|] eqn:Hx; [|intros [= ->]; apply kept_refl].
  intros H. inv_ok H. destruct (_ || _); [|injection H as ->; apply kept_refl].
  inv_ok H. apply conf_of_ok in E0. destruct (mode_allows mode a0); [|injection H as ->; apply kept_refl].
  injection H as <-. eapply kept_trans; [by eapply call_applier_kept|]. by apply kept_same.
Qed.
Lemma fastPathApply_kept x r w w' :
  st_data (store w) !! x = Some r -> fastPathApply reg mode x r w = Ok w' -> events_kept w w'.
Proof.
  unfold fastPathApply. intros Hx H. inv_ok H. subst. apply conf_of_ok in E.
  case_if; [by eapply call_applier_kept|apply kept_refl].
Qed.
Lemma emit_tear_kept x r conf cb w :
  st_data (store w) !! x = Some r -> getResConf reg (getResCode r) = Some conf ->
  mResourceTearCallback conf = Some cb -> events_kept w (emit (EvTear cb x) w).
Proof.
  intros Hx Hc Hcb. split; [done|]. intros H. simpl. apply Forall_app. split; [done|].
  constructor; [|done]. simpl. eauto.
Qed.
Lemma removeAction_kept i x r w w' :
  st_data (store w) !! x = Some r -> removeAction reg i x r w = Ok w' -> events_kept w w'.
Proof.
  unfold removeAction. intros Hx. destruct (getResConf reg (getResCode r)) as [conf|] eqn:Hc;
    [|intros [= ->]; apply kept_refl].
  intros H. inv_ok H. subst. destruct (mResourceTearCallback conf) as [cb|] eqn:Hcb.
  - eapply kept_trans; [by eapply emit_tear_kept|]. by apply kept_same.
  - by apply kept_same.
Qed.
Lemma fastPathReset_kept x r w w' :
  st_data (store w) !! x = Some r -> fastPathReset reg x r w = Ok w' -> events_kept w w'.
Proof.
  unfold fastPathReset. intros Hx H. inv_ok H. apply conf_of_ok in E.
  destruct (mResourceApplierCallback a); [|injection H as ->; apply kept_refl]. inv_ok H.
  destruct (mResourceTearCallback a) as [cb|] eqn:Hcb; [|done]. injection E0 as <-. subst w'.
  by eapply emit_tear_kept.
Qed.

Lemma secondary_kept r p w j w' :
  getCocoTableSecondaryIndex reg r p w = Ok (j, w') -> events_kept w w'.
Proof.
  unfold getCocoTableSecondaryIndex. destruct (getResConf reg (getResCode r)) as [conf|];
    [|intros [= _ ->]; apply kept_refl].
  destruct (mApplyType conf); try (intros [= _ ->]; apply kept_refl).
  - case_if; [intros [= _ ->]; apply kept_refl|].
    destruct (map_index _ _ _). intros [= _ <-]. by apply kept_same.
  - intros H. apply bind_ok in H as (g & _ & H). destruct (g =? -1); [injection H as _ ->; apply kept_refl|].
    destruct (map_index _ _ _). injection H as _ <-. by apply kept_same.
Qed.

Lemma reapply_kept n i inc : forall p w b w',
  reapply_loop reg mode n p i inc w = Ok (b, w') -> events_kept w w'.
Proof.
  induction n as [|n IH]; intros p w b w' H; simpl in H.
  - injection H as _ ->. apply kept_refl.
  - apply bind_ok in H as (row & _ & H). apply bind_ok in H as (d & _ & H).
    destruct (mHead d); [|by eapply IH]. apply bind_ok in H as (a & _ & H).
    apply bind_ok in H as (w1 & E & H). injection H as _ <-. eapply kept_trans; [|by eapply applyAction_kept]. by apply kept_same.
Qed.

Lemma after_removal_kept conf x r b i p d w w' :
  st_data (store w) !! x = Some r -> after_removal reg mode conf x r b i p d w = Ok w' ->
  events_kept w w'.
Proof.
  unfold after_removal. intros Hx H. destruct (mHead d).
  { destruct b; [by eapply applyAction_kept|]. injection H as ->. apply kept_refl. }
  apply bind_ok in H as ([inc w1] & E1 & H).
  assert (events_kept w w1) as K1.
  { case_decide; [injection E1 as _ ->; apply kept_refl|by eapply secondary_kept]. }
  destruct (_ && _); [by injection H as ->|].
  apply bind_ok in H as ([found w2] & E2 & H). apply reapply_kept in E2.
  assert (events_kept w w2) as K2 by by eapply kept_trans.
  destruct found; [by injection H as ->|]. eapply kept_trans; [exact K2|].
  eapply removeAction_kept; [|exact H]. by rewrite (proj1 K2).
Qed.

Lemma node_resource_ok s x r : node_resource s x = Ok r -> st_data s !! x = Some r.
Proof. unfold node_resource. by destruct (st_data s !! x); intros [= ->]. Qed.

Lemma insertInCocoTable_kept x p w b w' :
  insertInCocoTable reg mode (Some x) p w = Ok (b, w') -> events_kept w w'.
Proof.
  unfold insertInCocoTable. intros H. apply bind_ok in H as (r & Hx & H). apply node_resource_ok in Hx.
  destruct (getResAction r =? RES_SKIP); [injection H as _ ->; apply kept_refl|].
  apply bind_ok in H as ([j w1] & E1 & H). apply secondary_kept in E1.
  eapply kept_trans; [exact E1|]. rewrite <- (proj1 E1) in Hx. clear E1.
  destruct (find_slot _ _ _) as [d|]; [|injection H as _ ->; apply kept_refl].
  apply bind_ok in H as (conf & _ & H). apply bind_ok in H as (needs & _ & H).
  destruct needs; cbn [negb] in H.
  - destruct (policy_insertion _ _ _ _) as [res|]; [|injection H as _ ->; apply kept_refl].
    apply bind_ok in H as ([[rc h] d'] & _ & H). destruct (RC_IS_OK rc); [|injection H as _ <-; by apply kept_same].
    apply bind_ok in H as (nth & _ & H). apply bind_ok in H as (w2 & E & H). injection H as _ <-.
    destruct nth; [|injection E as <-; by apply kept_same].
    eapply kept_trans; [|eapply applyAction_kept; exact E]. by apply kept_same.
  - apply bind_ok in H as (w2 & E & H). injection H as _ <-.
    destruct (decide (mPolicy conf = PASS_THROUGH)).
    + eapply kept_trans; [|eapply fastPathApply_kept; [|exact E]]; [by apply kept_same|done].
    + by eapply fastPathApply_kept.
Qed.

Lemma remove_node_kept x p w w' : remove_node reg mode x p w = Ok w' -> events_kept w w'.
Proof.
  unfold remove_node. destruct (st_data (store w) !! x) as [r|] eqn:Hx; [|intros [= ->]; apply kept_refl].
  intros H. destruct (getResAction r =? RES_SKIP); [injection H as ->; apply kept_refl|].
  apply bind_ok in H as ([j w1] & E1 & H). apply secondary_kept in E1.
  eapply kept_trans; [exact E1|]. rewrite <- (proj1 E1) in Hx. clear E1.
  destruct (find_slot _ _ _) as [d|]; [|injection H as ->; apply kept_refl].
  apply bind_ok in H as (conf & _ & H). apply bind_ok in H as (needs & _ & H).
  destruct needs; cbn [negb] in H.
  - apply bind_ok in H as (b & _ & H). apply bind_ok in H as ([[rc h] d'] & _ & H).
    eapply kept_trans; [|eapply after_removal_kept; [|exact H]]; [by apply kept_same|done].
  - case_decide.
    + destruct (_ =? 0); [|injection H as <-; by apply kept_same].
      eapply kept_trans; [|eapply fastPathReset_kept; [|exact H]]; [by apply kept_same|done].
    + by eapply fastPathReset_kept.
Qed.

Lemma run_ops_kept ops : forall w w', run_ops reg mode ops w = Ok w' -> events_kept w w'.
Proof.
  induction ops as [|op ops IH]; intros w w' H; simpl in H.
  - injection H as ->. apply kept_refl.
  - apply bind_ok in H as ([b w1] & E & H). eapply kept_trans; [|by eapply IH]. destruct op as [x p|x p].
    + by eapply insertInCocoTable_kept.
    + apply bind_ok in E as (w2 & E & [= _ <-]). by eapply remove_node_kept.
Qed.

Lemma insert_loop_kept k p : forall fuel y acc w n w',
  insert_loop reg mode fuel k y p acc w = Ok (n, w') -> events_kept w w'.
Proof.
  induction fuel as [|fuel IH]; intros [x|] acc w n w' H; try done; cbn in H;
    try (injection H as _ ->; apply kept_refl).
  apply bind_ok in H as ([b w1] & E & H). apply bind_ok in H as (nx & _ & H).
  eapply kept_trans; [by eapply insertInCocoTable_kept|by eapply IH].
Qed.

Lemma remove_loop_kept k p : forall fuel y w w', remove_loop reg mode fuel k y p w = Ok w' -> events_kept w w'.
Proof.
  induction fuel as [|fuel IH]; intros [x|] w w' H; try done; cbn in H; try (injection H as ->; apply kept_refl).
  apply bind_ok in H as (w1 & E & H). apply bind_ok in H as (nx & _ & H).
  eapply kept_trans; [by eapply remove_node_kept|by eapply IH].
Qed.

Lemma insertRequest_kept alloc pool req w res w' :
  insertRequest reg mode alloc pool req w = Ok (res, w') -> events_kept w w'.
Proof.
  unfold insertRequest. destruct req as [r|]; [|intros [= _ ->]; apply kept_refl].
  destruct (_ && _); [intros [= _ ->]; apply kept_refl|].
  destruct (getResDlMgr _) as [l|]; [|intros [= _ ->]; apply kept_refl].
  intros H. apply bind_ok in H as ([n w1] & E & H). apply insert_loop_kept in E.
  destruct (n =? 0); [by injection H as _ <-|]. destruct (_ =? -1); [by injection H as _ <-|].
  destruct (startTimer _ _ _). by injection H as _ <-.
Qed.

Lemma removeRequest_kept req w n w' : removeRequest reg mode req w = Ok (n, w') -> events_kept w w'.
Proof.
  unfold removeRequest. intros H. apply bind_ok in H as (r & _ & H).
  destruct (getResDlMgr r) as [l|]; [|injection H as _ ->; apply kept_refl].
  apply bind_ok in H as (w1 & E & H). injection H as _ <-. by eapply remove_loop_kept.
Qed.
End Events.
