(* ===== verification/ClientDataManager.v ===== *)
(** [resource-tuner/core/ClientDataManager.cpp] and [ClientDataManager.h]: the clients
    known to the server, by process and by thread, with the handles of their active
    requests, their health and the time of their last request.

    A [ClientInfo] or [ClientTidData] block is referenced by one entry of its map
    only, so it is held there by value; a null pointer, which [operator\[\]] leaves
    behind for an unknown thread, is [None].  The outcomes of the allocations are an
    argument. *)
From Stdlib Require Import Ascii.
From S2P Require Import Prelude UrmTypes StdString AuxRoutines Double.
Open Scope string_scope.
Open Scope list_scope.
Open Scope Z_scope.

Definition PER_CLIENT_TID_CAP : Z := 32.

Record ClientInfo := mkClientInfo {
  mClientType : Z;                 (* uint8_t *)
  mCurClientThreads : Z;
  mClientTIDs : list (option Z)    (* a cell is [None] until it is written *)
}.

Definition ClientInfo_init (junk : Z) : ClientInfo :=
  mkClientInfo junk 0 (replicate (Z.to_nat PER_CLIENT_TID_CAP) None).

Record ClientTidData := mkTidData {
  mClientHandles : gset Z;
  mLastRequestTimestamp : Z;
  mHealth : double
}.

Record ClientDataManager := mkCDM {
  mClientRepo : gmap Z ClientInfo;
  mClientTidRepo : gmap Z (option ClientTidData)
}.

Definition ClientDataManager_init : ClientDataManager := mkCDM ∅ ∅.

Definition set_repo (m : gmap Z ClientInfo) (c : ClientDataManager) : ClientDataManager :=
  mkCDM m (mClientTidRepo c).
Definition set_tids (m : gmap Z (option ClientTidData)) (c : ClientDataManager)
  : ClientDataManager := mkCDM (mClientRepo c) m.

(** ** The permission level of a process *)

(** Extraction of an [int32_t] from an [istringstream]: [None] is a stream that is not
    good; the value is [None] when the variable is left as it was. *)
Fixpoint span_digits (acc : Z) (s : string) : Z * string :=
  match s with
  | String c s' =>
    match digit_in 10 c with
    | Some d => span_digits (acc * 10 + d) s'
    | None => (acc, s)
    end
  | EmptyString => (acc, EmptyString)
  end.

Definition good_unless_eof (s : string) : option string :=
  match s with EmptyString => None | _ => Some s end.

Definition clamp_s32 (v : Z) : Z * bool :=
  if v <? min_s 32 then (min_s 32, false) else if v >? max_s 32 then (max_s 32, false) else (v, true).

Definition extract_int (st : option string) : option Z * option string :=
  match st with
  | None => (None, None)
  | Some s =>
    match skip_spaces s with
    | EmptyString => (None, None)
    | String c s' =>
      let neg := is_char 45 c in
      let body := if neg || is_char 43 c then s' else String c s' in
      if negb (starts_digit 10 body) then (Some 0, None) else
      let '(v, rest) := span_digits 0 body in
      let '(v, ok) := clamp_s32 (if neg then - v else v) in
      (Some v, if ok then good_unless_eof rest else None)
    end
  end.

Fixpoint skip_word (s : string) : string :=
  match s with
  | String c s' => if isspace c then s else skip_word s'
  | EmptyString => EmptyString
  end.

(** [iss >> label >> real >> effective]: the effective uid, if it is written. *)
Definition effective_uid (line : string) : option Z :=
  let st := good_unless_eof (skip_word (skip_spaces line)) in
  let '(_, st) := extract_int st in
  fst (extract_int st).

Fixpoint scan_status (lines : list string) : result Z :=
  match lines with
  | [] => Ok PERMISSION_THIRD_PARTY
  | line :: lines =>
    if String.prefix "Uid:" line then
      effective ← of_option Indeterminate (effective_uid line);
      Ok (if effective =? 0 then PERMISSION_SYSTEM else PERMISSION_THIRD_PARTY)
    else scan_status lines
  end.

Definition isRootProcess (fs : FileSystem) (pid : Z) : result Z :=
  match fs_files fs !! ("/proc/" +:+ to_string pid +:+ "/status") with
  | None => Ok (-1)
  | Some content => scan_status (split_on newline content)
  end.

(** ** Clients *)
Definition clientExists (clientPID clientTID : Z) (c : ClientDataManager) : bool :=
  bool_decide (is_Some (mClientRepo c !! clientPID)) &&
  bool_decide (is_Some (mClientTidRepo c !! clientTID)).

(** Which of the three blocks of [createNewClient] the memory pool provides. *)
Record ClientAllocs := mkAllocs { al_tid : bool; al_handles : bool; al_info : bool }.

(** [mClientTIDs\[cur\] = tid; mCurClientThreads = cur + 1]. *)
Definition add_thread (clientTID : Z) (i : ClientInfo) : result ClientInfo :=
  let cur := mCurClientThreads i in
  if (cur <? 0) || (cur >=? PER_CLIENT_TID_CAP) then Fault OutOfRange else
  Ok (mkClientInfo (mClientType i) (cur + 1) (<[Z.to_nat cur := Some clientTID]> (mClientTIDs i))).

Definition createNewClient (fs : FileSystem) (al : ClientAllocs) (junk : Z)
    (clientPID clientTID : Z) (c : ClientDataManager) : result (bool * ClientDataManager) :=
  if clientExists clientPID clientTID c then Ok (true, c) else
  if negb (al_tid al && al_handles al) then Ok (false, c) else
  let clientData := mkTidData ∅ 0 (d_of_Z 100) in
  let c := set_tids (<[clientTID := Some clientData]> (mClientTidRepo c)) c in
  match mClientRepo c !! clientPID with
  | Some info =>
    if mCurClientThreads info <? PER_CLIENT_TID_CAP then
      info ← add_thread clientTID info;
      Ok (true, set_repo (<[clientPID := info]> (mClientRepo c)) c)
    else Ok (false, c)
  | None =>
    if negb (al_info al) then Ok (false, c) else
    info ← add_thread clientTID (ClientInfo_init junk);
    root ← isRootProcess fs clientPID;
    let info := mkClientInfo (wrap_u 8 root) (mCurClientThreads info) (mClientTIDs info) in
    Ok (true, set_repo (<[clientPID := info]> (mClientRepo c)) c)
  end.

(** The [operator\[\]] of the null test inserts a null entry for an unknown thread. *)
Definition getRequestsByClientID (clientTID : Z) (c : ClientDataManager)
  : option (gset Z) * ClientDataManager :=
  let '(d, m) := map_index None clientTID (mClientTidRepo c) in
  (mClientHandles <$> d, set_tids m c).

Definition insertRequestByClientId (clientTID requestHandle : Z) (c : ClientDataManager)
  : ClientDataManager :=
  let '(d, m) := map_index None clientTID (mClientTidRepo c) in
  match d with
  | None => set_tids m c
  | Some d =>
    set_tids (<[clientTID := Some (mkTidData ({[requestHandle]} ∪ mClientHandles d)
                                     (mLastRequestTimestamp d) (mHealth d))]> m) c
  end.

(** [find], then a dereference of the entry. *)
Definition tid_data (clientTID : Z) (c : ClientDataManager) : result (option ClientTidData) :=
  match mClientTidRepo c !! clientTID with
  | None => Ok None
  | Some p => d ← deref p; Ok (Some d)
  end.

Definition update_tid (clientTID : Z) (f : ClientTidData -> ClientTidData) (c : ClientDataManager)
  : result ClientDataManager :=
  d ← tid_data clientTID c;
  Ok match d with
     | None => c
     | Some d => set_tids (<[clientTID := Some (f d)]> (mClientTidRepo c)) c
     end.

Definition deleteRequestByClientId (clientTID requestHandle : Z) (c : ClientDataManager)
  : result ClientDataManager :=
  update_tid clientTID (fun d => mkTidData (mClientHandles d ∖ {[requestHandle]})
                                   (mLastRequestTimestamp d) (mHealth d)) c.

(** The [uint8_t] level converted to [int8_t]. *)
Definition getClientLevelByID (clientPID : Z) (c : ClientDataManager) : Z :=
  match mClientRepo c !! clientPID with
  | None => -1
  | Some i => wrap_s 8 (mClientType i)
  end.

Fixpoint read_threads (n : nat) (cells : list (option Z)) : result (list Z) :=
  match n, cells with
  | O, _ => Ok []
  | S n, cell :: cells =>
    t ← of_option Indeterminate cell;
    ts ← read_threads n cells;
    Ok (t :: ts)
  | S _, [] => Fault OutOfRange
  end.

(** The threads appended to the in-out vector. *)
Definition getThreadsByClientId (clientPID : Z) (threadIDs : list Z) (c : ClientDataManager)
  : result (list Z) :=
  match mClientRepo c !! clientPID with
  | None => Ok threadIDs
  | Some i =>
    ts ← read_threads (Z.to_nat (mCurClientThreads i)) (mClientTIDs i);
    Ok (threadIDs ++ ts)
  end.

Definition getHealthByClientID (clientTID : Z) (c : ClientDataManager) : result double :=
  d ← tid_data clientTID c; Ok (from_option mHealth (d_of_Z (-1)) d).

Definition getLastRequestTimestampByClientID (clientTID : Z) (c : ClientDataManager) : result Z :=
  d ← tid_data clientTID c; Ok (from_option mLastRequestTimestamp 0 d).

Definition updateHealthByClientID (clientTID : Z) (health : double) (c : ClientDataManager)
  : result ClientDataManager :=
  update_tid clientTID (fun d => mkTidData (mClientHandles d) (mLastRequestTimestamp d) health) c.

Definition updateLastRequestTimestampByClientID (clientTID currentMillis : Z)
    (c : ClientDataManager) : result ClientDataManager :=
  update_tid clientTID (fun d => mkTidData (mClientHandles d) currentMillis (mHealth d)) c.

Definition getActiveClientList `{HashOrder} (clientList : list Z) (c : ClientDataManager)
  : list Z := clientList ++ map fst (hash_order (mClientRepo c)).

Definition deleteClientPID (clientPID : Z) (c : ClientDataManager) : ClientDataManager :=
  set_repo (delete clientPID (mClientRepo c)) c.

Definition deleteClientTID (clientTID : Z) (c : ClientDataManager) : result ClientDataManager :=
  match mClientTidRepo c !! clientTID with
  | None => Ok c
  | Some p => _ ← deref p; Ok (set_tids (delete clientTID (mClientTidRepo c)) c)
  end.

(** ** Well-formed tables *)

(** A process entry lists the threads [ts], in order, in the first cells. *)
Record info_ok (i : ClientInfo) (ts : list Z) : Prop := {
  info_count : mCurClientThreads i = Z.of_nat (length ts);
  info_cells : mClientTIDs i = map Some ts ++ replicate (32 - length ts) None;
  info_cap : (length ts <= 32)%nat
}.

Definition cdm_wf (c : ClientDataManager) : Prop :=
  forall pid i, mClientRepo c !! pid = Some i -> exists ts, info_ok i ts.

Definition no_entry (tid : Z) (c : ClientDataManager) : Prop := mClientTidRepo c !! tid = None.

Lemma read_threads_map ts rest : read_threads (length ts) (map Some ts ++ rest) = Ok ts.
Proof. induction ts as [|t ts IH]; simpl; [done|]. by rewrite IH. Qed.

Lemma info_ok_threads i ts pid acc c :
  mClientRepo c !! pid = Some i -> info_ok i ts -> getThreadsByClientId pid acc c = Ok (acc ++ ts).
Proof.
  intros E [Hn Hc _]. unfold getThreadsByClientId. rewrite E, Hn, Hc, Nat2Z.id.
  by rewrite read_threads_map.
Qed.

Lemma info_ok_threads_nil i ts pid c :
  mClientRepo c !! pid = Some i -> info_ok i ts -> getThreadsByClientId pid [] c = Ok ts.
Proof. apply info_ok_threads. Qed.

Lemma add_thread_ok tid i ts :
  info_ok i ts -> (length ts < 32)%nat ->
  exists i', add_thread tid i = Ok i' /\ info_ok i' (ts ++ [tid]) /\ mClientType i' = mClientType i.
Proof.
  intros [Hn Hc Hcap] Hlt. unfold add_thread, PER_CLIENT_TID_CAP. rewrite Hn, Hc.
  replace (_ || _) with false by (symmetry; zcase; lia). eexists. split; [done|]. split; [|done].
  split; simpl; rewrite length_app; simpl; [lia| |lia].
  rewrite Nat2Z.id, insert_app_r_alt by (rewrite length_map; lia).
  rewrite length_map, Nat.sub_diag, map_app, <- app_assoc.
  replace (32 - length ts)%nat with (S (32 - (length ts + 1))) by lia. done.
Qed.

Lemma info_ok_init junk : info_ok (ClientInfo_init junk) [].
Proof. split; simpl; (done || lia). Qed.

Lemma info_ok_type i ts ty :
  info_ok i ts -> info_ok (mkClientInfo ty (mCurClientThreads i) (mClientTIDs i)) ts.
Proof. intros [? ? ?]. by split. Qed.

Lemma cdm_wf_insert pid i ts c c' :
  cdm_wf c -> info_ok i ts -> mClientRepo c' = <[pid := i]> (mClientRepo c) -> cdm_wf c'.
Proof.
  intros Hc Hi E q j. rewrite E, lookup_insert_Some.
  intros [[<- <-]|[_ E']]; [eauto|by eapply Hc].
Qed.

Lemma tid_data_live tid d c :
  mClientTidRepo c !! tid = Some (Some d) -> tid_data tid c = Ok (Some d).
Proof. intros E. unfold tid_data. by rewrite E. Qed.

(** A table operation that leaves every other process and thread as it was. *)
Definition cdm_frame (pid tid : Z) (c c' : ClientDataManager) : Prop :=
  (forall p, p <> pid -> mClientRepo c' !! p = mClientRepo c !! p) /\
  (forall t, t <> tid -> mClientTidRepo c' !! t = mClientTidRepo c !! t).

Definition all_blocks : ClientAllocs := mkAllocs true true true.

(** The threads the table lists for a process. *)
Definition known_threads (pid : Z) (c : ClientDataManager) : list Z :=
  match getThreadsByClientId pid [] c with Ok ts => ts | Fault _ => [] end.

Lemma known_threads_ok pid c : cdm_wf c ->
  match mClientRepo c !! pid with
  | Some i => info_ok i (known_threads pid c)
  | None => known_threads pid c = []
  end.
Proof.
  intros Hc. unfold known_threads. destruct (mClientRepo c !! pid) as [i|] eqn:E.
  - destruct (Hc _ _ E) as [ts Hi]. by rewrite (info_ok_threads _ _ _ [] _ E Hi).
  - unfold getThreadsByClientId. by rewrite E.
Qed.

Lemma frame_tid pid tid d c : cdm_frame pid tid c (set_tids (<[tid := d]> (mClientTidRepo c)) c).
Proof. split; intros; simpl; [done|by rewrite lookup_insert_ne]. Qed.
Lemma frame_both pid tid d i c :
  cdm_frame pid tid c (set_repo (<[pid := i]> (mClientRepo c)) (set_tids (<[tid := d]> (mClientTidRepo c)) c)).
Proof. split; intros; simpl; by rewrite lookup_insert_ne. Qed.

(** The data of a thread that has just been registered. *)
Definition fresh_tid : ClientTidData := mkTidData ∅ 0 (d_of_Z 100).

Lemma fresh_tid_reads tid c :
  mClientTidRepo c !! tid = Some (Some fresh_tid) ->
  getRequestsByClientID tid c = (Some ∅, c) /\ getHealthByClientID tid c = Ok (d_of_Z 100) /\
  getLastRequestTimestampByClientID tid c = Ok 0.
Proof.
  intros E.
  unfold getRequestsByClientID, getHealthByClientID, getLastRequestTimestampByClientID, map_index.
  rewrite (tid_data_live _ _ _ E), E. split_and!; try done. simpl. f_equal. by destruct c.
Qed.

Lemma clientExists_both pid tid c :
  is_Some (mClientRepo c !! pid) -> is_Some (mClientTidRepo c !! tid) ->
  clientExists pid tid c = true.
Proof. intros. unfold clientExists. by rewrite !bool_decide_eq_true_2. Qed.

(** The level stored as [uint8_t] reads back as the [int8_t] it was. *)
Lemma level_roundtrip level : in_s 8 level -> wrap_s 8 (wrap_u 8 level) = level.
Proof.
  intros. rewrite <- (wrap_s_id 8 level) at 2 by (lia || done).
  apply wrap_s_mod; [lia|]. unfold wrap_u. by rewrite Z.mod_mod by lia.
Qed.

Lemma getClientLevel_info pid i c :
  mClientRepo c !! pid = Some i -> getClientLevelByID pid c = wrap_s 8 (mClientType i).
Proof. intros E. unfold getClientLevelByID. by rewrite E. Qed.

(** The three outcomes of [createNewClient] on an unknown client. *)
Lemma createNewClient_cases fs junk pid tid level c :
  cdm_wf c -> clientExists pid tid c = false -> isRootProcess fs pid = Ok level ->
  let c1 := set_tids (<[tid := Some fresh_tid]> (mClientTidRepo c)) c in
  match mClientRepo c !! pid with
  | Some i =>
    if (length (known_threads pid c) <? 32)%nat then
      exists i', info_ok i' (known_threads pid c ++ [tid]) /\ mClientType i' = mClientType i /\
        createNewClient fs all_blocks junk pid tid c =
          Ok (true, set_repo (<[pid := i']> (mClientRepo c)) c1)
    else createNewClient fs all_blocks junk pid tid c = Ok (false, c1)
  | None =>
    exists i', info_ok i' [tid] /\ mClientType i' = wrap_u 8 level /\
      createNewClient fs all_blocks junk pid tid c =
        Ok (true, set_repo (<[pid := i']> (mClientRepo c)) c1)
  end.
Proof.
  intros Hc Hex Hroot. unfold createNewClient. rewrite Hex.
  cbn [negb al_tid al_handles al_info andb all_blocks].
  cbv zeta. cbn [mClientRepo set_tids]. pose proof (known_threads_ok pid c Hc) as Hk.
  destruct (mClientRepo c !! pid) as [i|] eqn:Ep.
  - unfold PER_CLIENT_TID_CAP. rewrite (info_count _ _ Hk).
    destruct (Nat.ltb_spec (length (known_threads pid c)) 32) as [Hlt|Hge].
    + replace (_ <? 32) with true by lia.
      destruct (add_thread_ok tid i _ Hk Hlt) as (i' & -> & Hi' & Ht). eauto.
    + by replace (_ <? 32) with false by lia.
  - destruct (add_thread_ok tid (ClientInfo_init junk) []) as (i' & E & Hi' & Ht);
      [apply info_ok_init|simpl; lia|].
    rewrite E, Hroot. eexists. split; [|split; [|done]]; [by apply info_ok_type|done].
Qed.

(** Handles of a live thread. *)
Definition live_tid (tid : Z) (d : ClientTidData) (c : ClientDataManager) : Prop :=
  mClientTidRepo c !! tid = Some (Some d).
Definition with_handles (hs : gset Z) (d : ClientTidData) : ClientTidData :=
  mkTidData hs (mLastRequestTimestamp d) (mHealth d).
Definition put_tid (tid : Z) (d : ClientTidData) (c : ClientDataManager) : ClientDataManager :=
  set_tids (<[tid := Some d]> (mClientTidRepo c)) c.

Lemma live_put tid d c : live_tid tid d (put_tid tid d c).
Proof. apply lookup_insert_eq. Qed.
Lemma put_put tid d d' c : put_tid tid d (put_tid tid d' c) = put_tid tid d c.
Proof. unfold put_tid, set_tids. simpl. by rewrite insert_insert_eq. Qed.

Lemma getRequests_live tid d c :
  live_tid tid d c -> getRequestsByClientID tid c = (Some (mClientHandles d), c).
Proof.
  intros E. unfold getRequestsByClientID, map_index. rewrite E. simpl. f_equal. by destruct c.
Qed.
Lemma insertRequest_live tid d h c :
  live_tid tid d c ->
  insertRequestByClientId tid h c = put_tid tid (with_handles ({[h]} ∪ mClientHandles d) d) c.
Proof. intros E. unfold insertRequestByClientId, map_index. by rewrite E. Qed.
Lemma deleteRequest_live tid d h c :
  live_tid tid d c ->
  deleteRequestByClientId tid h c = Ok (put_tid tid (with_handles (mClientHandles d ∖ {[h]}) d) c).
Proof.
  intros E. unfold deleteRequestByClientId, update_tid. by rewrite (tid_data_live _ _ _ E).
Qed.

(** ** Properties *)

(** Registering a client.  With memory available, [createNewClient] of a client
    that is not yet known leaves it known ([clientExists]), with no active request,
    full health and no last request, and touches no other process or thread.  The
    thread is appended to the threads of its process while there are fewer than 32;
    the thirty-third is refused and not listed, but its thread entry stays, so that
    [clientExists] accepts it from then on.  The level of a new process is what
    [isRootProcess] read.  The cells written are always inside the array. *)
Theorem ClientDataManager_registration (fs : FileSystem) (junk pid tid level : Z)
    (c : ClientDataManager) :
  cdm_wf c -> clientExists pid tid c = false -> isRootProcess fs pid = Ok level ->
  in_s 8 level ->
  exists ok c', createNewClient fs all_blocks junk pid tid c = Ok (ok, c') /\
    cdm_wf c' /\ clientExists pid tid c' = true /\ cdm_frame pid tid c c' /\
    ok = (length (known_threads pid c) <? 32)%nat /\
    getThreadsByClientId pid [] c' = Ok (known_threads pid c ++ (if ok then [tid] else [])) /\
    getRequestsByClientID tid c' = (Some ∅, c') /\
    getHealthByClientID tid c' = Ok (d_of_Z 100) /\
    getLastRequestTimestampByClientID tid c' = Ok 0 /\
    getClientLevelByID pid c' =
      (if decide (mClientRepo c !! pid = None) then level else getClientLevelByID pid c).
Proof.
  intros Hc Hex Hroot Hlevel. pose proof (known_threads_ok pid c Hc) as Hk.
  pose proof (createNewClient_cases fs junk pid tid level c Hc Hex Hroot) as Hcase. simpl in Hcase.
  set (c1 := set_tids _ c) in Hcase.
  assert (forall c', mClientTidRepo c' = mClientTidRepo c1 ->
    mClientTidRepo c' !! tid = Some (Some fresh_tid)) as Htid.
  { intros c' ->. apply lookup_insert_eq. }
  destruct (mClientRepo c !! pid) as [i|] eqn:Ep; [destruct (_ <? 32)%nat eqn:El|].
  - destruct Hcase as (i' & Hi & Ht & ->). eexists true, _. split; [done|].
    split; [by eapply (cdm_wf_insert pid i' _ c)|]. split; [|split; [apply frame_both|split; [done|]]].
    { apply clientExists_both; simpl; rewrite lookup_insert_eq; eauto. }
    split; [eapply info_ok_threads_nil; [apply lookup_insert_eq|done]|].
    split; [|split; [|split]]; try (apply fresh_tid_reads; by apply Htid).
    simpl. by erewrite !getClientLevel_info, Ht by (apply lookup_insert_eq || exact Ep).
  - rewrite Hcase. eexists false, _. split; [done|]. split; [done|].
    split; [|split; [apply frame_tid|split; [done|]]].
    { apply clientExists_both; simpl; [by rewrite Ep|rewrite lookup_insert_eq; eauto]. }
    split; [rewrite app_nil_r; by eapply info_ok_threads_nil|].
    by split; [|split; [|split]]; try (apply fresh_tid_reads; by apply Htid).
  - destruct Hcase as (i' & Hi & Ht & ->). rewrite Hk. eexists true, _. split; [done|].
    split; [by eapply (cdm_wf_insert pid i' _ c)|]. split; [|split; [apply frame_both|split; [done|]]].
    { apply clientExists_both; simpl; rewrite lookup_insert_eq; eauto. }
    split; [eapply info_ok_threads_nil; [apply lookup_insert_eq|done]|].
    split; [|split; [|split]]; try (apply fresh_tid_reads; by apply Htid).
    erewrite getClientLevel_info by apply lookup_insert_eq. rewrite Ht. by apply level_roundtrip.
Qed.

Definition fs_with (files : gmap string string) : FileSystem :=
  mkFS files (fun _ => None) (fun _ => true) (fun _ => true) (fun _ => MkdirOk).

Lemma ClientDataManager_registration_witness :
  let fs := fs_with {["/proc/7/status" := "Name: x"]} in
  exists ok c', createNewClient fs all_blocks 0 7 8 ClientDataManager_init = Ok (ok, c') /\
    getThreadsByClientId 7 [] c' = Ok [8].
Proof.
  intros fs.
  destruct (ClientDataManager_registration fs 0 7 8 1 ClientDataManager_init)
    as (ok & c' & E & _ & _ & _ & Hok & H & _).
  - intros pid i. simpl. by rewrite lookup_empty.
  - vm_compute. reflexivity.
  - vm_compute. reflexivity.
  - unfold in_s. lia.
  - exists ok, c'. split; [exact E|]. rewrite H, Hok. vm_compute. reflexivity.
Defined.

(** The handles of a client.  For a known thread, adding a handle and removing it
    behave as on a set and leave every other entry, health and time as they were.  For an unknown
    thread nothing is stored, but every lookup leaves a null entry: the thread then
    counts as known, and removing a handle, or reading or updating its health,
    dereferences null. *)
Theorem ClientDataManager_handles (tid h : Z) (c : ClientDataManager) :
  match mClientTidRepo c !! tid with
  | Some (Some d) =>
    let c1 := insertRequestByClientId tid h c in
    getRequestsByClientID tid c1 = (Some ({[h]} ∪ mClientHandles d), c1) /\
    getHealthByClientID tid c1 = Ok (mHealth d) /\
    exists c2, deleteRequestByClientId tid h c1 = Ok c2 /\
      getRequestsByClientID tid c2 = (Some (mClientHandles d ∖ {[h]}), c2) /\
      mClientRepo c2 = mClientRepo c /\
      forall t, t <> tid -> mClientTidRepo c2 !! t = mClientTidRepo c !! t
  | Some None | None =>
    let c1 := insertRequestByClientId tid h c in
    getRequestsByClientID tid c = (None, c1) /\ mClientTidRepo c1 !! tid = Some None /\
    deleteRequestByClientId tid h c1 = Fault NullDeref /\
    getHealthByClientID tid c1 = Fault NullDeref /\
    deleteClientTID tid c1 = Fault NullDeref
  end.
Proof.
  unfold getHealthByClientID. destruct (mClientTidRepo c !! tid) as [[d|]|] eqn:E.
  - cbv zeta. rewrite (insertRequest_live _ _ _ _ E).
    pose proof (live_put tid (with_handles ({[h]} ∪ mClientHandles d) d) c) as El.
    rewrite (getRequests_live _ _ _ El), (tid_data_live _ _ _ El), (deleteRequest_live _ _ _ _ El).
    split_and!; [done|done|]. eexists. split; [done|]. rewrite put_put.
    rewrite (getRequests_live _ _ _ (live_put _ _ _)). split_and!; [|done|].
    + do 2 f_equal. simpl. set_solver.
    + intros t Ht. simpl. by rewrite lookup_insert_ne.
  - unfold insertRequestByClientId, getRequestsByClientID, deleteRequestByClientId, update_tid,
      deleteClientTID, tid_data, map_index. rewrite E. simpl. by rewrite E.
  - unfold insertRequestByClientId, getRequestsByClientID, deleteRequestByClientId, update_tid,
      deleteClientTID, tid_data, map_index. rewrite E. simpl. by rewrite lookup_insert_eq.
Qed.
