(* ===== verification/OrderedQueue.v ===== *)
(** [modula/Components/OrderedQueue.cpp] and [OrderedQueue.h]: the producer/consumer
    queue ordered by message priority.

    The underlying [std::priority_queue] promises its user that [top] is an element no
    other one precedes, and nothing about equal elements: it is the class
    [PriorityQueue], with a selection of a minimal element as an instance (one
    that does not keep the order of arrival of equal elements, which is allowed).  The priority of a message is read when it is pushed; the program does
    not change it while the message is queued. *)
From S2P Require Import Prelude UrmTypes Message.
Open Scope list_scope.
Open Scope Z_scope.

(** The element [top] shows and the rest, for the ordering
    [a->getPriority() > b->getPriority()]: a smaller value comes first. *)
Class PriorityQueue := {
  pq_pop : forall {A : Type}, list (Z * A) -> option (Z * A * list (Z * A));
  pq_pop_empty : forall {A : Type} (q : list (Z * A)), pq_pop q = None <-> q = [];
  pq_pop_top : forall {A : Type} (q q' : list (Z * A)) x,
    pq_pop q = Some (x, q') -> q ≡ₚ x :: q' /\ Forall (fun y => x.1 <= y.1) q'
}.

(** Selection of a minimal element. *)
Fixpoint select_min {A} (x : Z * A) (q : list (Z * A)) : Z * A * list (Z * A) :=
  match q with
  | [] => (x, [])
  | y :: q =>
    if y.1 <? x.1 then let '(m, r) := select_min y q in (m, x :: r)
    else let '(m, r) := select_min x q in (m, y :: r)
  end.

Lemma select_min_spec {A} (q : list (Z * A)) : forall x,
  x :: q ≡ₚ (select_min x q).1 :: (select_min x q).2 /\ (select_min x q).1.1 <= x.1 /\
  Forall (fun y => (select_min x q).1.1 <= y.1) (select_min x q).2.
Proof.
  induction q as [|y q IH]; intros x; simpl; [split; [done|split; [lia|constructor]]|].
  destruct (Z.ltb_spec y.1 x.1).
  - destruct (IH y) as (Hp & Hle & Hf). destruct (select_min y q) as [m r]. simpl in *.
    split; [rewrite Hp; by rewrite Permutation_swap|]. split; [lia|].
    constructor; [lia|done].
  - destruct (IH x) as (Hp & Hle & Hf). destruct (select_min x q) as [m r]. simpl in *.
    split; [rewrite (Permutation_swap y x q), Hp; apply Permutation_swap|]. split; [lia|].
    constructor; [lia|done].
Qed.

Definition selection_queue : PriorityQueue.
Proof.
  refine {| pq_pop := fun A q => match q with [] => None | x :: q => Some (select_min x q) end |}.
  - intros A [|x q]; by split.
  - intros A [|x q] q' y [= E]. destruct (select_min_spec q x) as (Hp & _ & Hf).
    by rewrite E in Hp, Hf.
Defined.

Record OrderedQueue (A : Type) := mkQueue { mElementCount : Z; mOrderedQueue : list (Z * A) }.
Arguments mkQueue {A} _ _.
Arguments mElementCount {A} _.
Arguments mOrderedQueue {A} _.

Definition OrderedQueue_init {A} : OrderedQueue A := mkQueue 0 [].

Section Queue.
Context `{PriorityQueue} {A : Type}.

(** [priority] is [queueItem->getPriority()]. *)
Definition addAndWakeup (queueItem : option A) (priority : Z) (q : OrderedQueue A)
  : result (bool * OrderedQueue A) :=
  match queueItem with
  | None => Ok (false, q)
  | Some x =>
    if priority <? SERVER_CLEANUP_TRIGGER_PRIORITY then Ok (false, q) else
    n ← chk_s 32 (mElementCount q + 1);
    Ok (true, mkQueue n (mOrderedQueue q ++ [(priority, x)]))
  end.

Definition hasPendingTasks (q : OrderedQueue A) : bool := mElementCount q >? 0.

Definition pop (q : OrderedQueue A) : result (option A * OrderedQueue A) :=
  if mElementCount q =? 0 then Ok (None, q) else
  match pq_pop (mOrderedQueue q) with
  | None => Fault OutOfRange
  | Some (x, rest) =>
    n ← chk_s 32 (mElementCount q - 1);
    Ok (Some x.2, mkQueue n rest)
  end.

(** [message] is the block for the wake-up message, when there is one. *)
Definition forcefulAwake (message : option A) (q : OrderedQueue A) : result (OrderedQueue A) :=
  match message with
  | None => Ok q
  | Some m => '(_, q) ← addAndWakeup (Some m) SERVER_CLEANUP_TRIGGER_PRIORITY q; Ok q
  end.

(** What a consumer that takes everything sees. *)
Fixpoint drain (fuel : nat) (q : OrderedQueue A) : result (list A) :=
  if hasPendingTasks q then
    match fuel with
    | O => Fault OutOfFuel
    | S fuel =>
      '(m, q) ← pop q;
      ms ← drain fuel q;
      Ok match m with Some m => m :: ms | None => ms end
    end
  else Ok [].

(** ** Facts *)
Definition queue_wf (q : OrderedQueue A) : Prop :=
  mElementCount q = Z.of_nat (length (mOrderedQueue q)) /\ mElementCount q <= max_s 32.

Lemma queue_wf_init : queue_wf OrderedQueue_init.
Proof. by split. Qed.

Lemma addAndWakeup_ok x p q :
  queue_wf q -> SERVER_CLEANUP_TRIGGER_PRIORITY <= p -> mElementCount q < max_s 32 ->
  exists q', addAndWakeup (Some x) p q = Ok (true, q') /\ queue_wf q' /\
    mOrderedQueue q' = mOrderedQueue q ++ [(p, x)].
Proof.
  intros [Hn Hm] Hp Hlt. unfold addAndWakeup. replace (p <? _) with false by (unfold SERVER_CLEANUP_TRIGGER_PRIORITY in *; lia).
  rewrite chk_s_ok by (unfold in_s, max_s in *; lia). simpl. eexists. split; [done|].
  split; [|done]. split; simpl; [rewrite length_app; simpl; lia|lia].
Qed.

Lemma pop_ok q :
  queue_wf q -> mOrderedQueue q <> [] ->
  exists x rest, pop q = Ok (Some x.2, mkQueue (mElementCount q - 1) rest) /\
    mOrderedQueue q ≡ₚ x :: rest /\ Forall (fun y => x.1 <= y.1) rest /\
    queue_wf (mkQueue (mElementCount q - 1) rest).
Proof.
  intros [Hn Hm] Hne. unfold pop.
  destruct (Z.eqb_spec (mElementCount q) 0); [destruct (mOrderedQueue q); [done|simpl in *; lia]|].
  destruct (pq_pop (mOrderedQueue q)) as [[x rest]|] eqn:E; [|by apply pq_pop_empty in E].
  apply pq_pop_top in E as [Hp Hf]. rewrite chk_s_ok by (unfold in_s, max_s in *; lia). simpl.
  exists x, rest. split_and!; [done|done|done|]. split; simpl; [|lia].
  rewrite Hn, Hp. simpl. lia.
Qed.

Lemma drain_sorted : forall n q,
  queue_wf q -> length (mOrderedQueue q) = n ->
  exists xs, drain n q = Ok (map snd xs) /\ mOrderedQueue q ≡ₚ xs /\
    Sorted (fun x y => x.1 <= y.1) xs.
Proof.
  induction n as [|n IH]; intros q Hq Hlen.
  - exists []. destruct Hq as [Hn _]. rewrite Hlen in Hn. simpl. unfold hasPendingTasks. rewrite Hn.
    apply nil_length_inv in Hlen. rewrite Hlen. by split_and!.
  - destruct (pop_ok q Hq) as (x & rest & E & Hp & Hf & Hq'); [intros E; by rewrite E in Hlen|].
    assert (length rest = n) as Hr.
    { apply Permutation_length in Hp. simpl in Hp. lia. }
    destruct (IH _ Hq' Hr) as (xs & Ed & Hpx & Hs). simpl in Hpx.
    assert (hasPendingTasks q = true) as Hpend by (unfold hasPendingTasks; destruct Hq; lia).
    exists (x :: xs). cbn [drain]. rewrite Hpend, E. cbn [mbind result_bind]. rewrite Ed. simpl.
    split_and!; [done|by rewrite Hp, Hpx|]. constructor; [done|].
    destruct xs as [|y xs]; constructor. rewrite Forall_forall in Hf.
    apply Hf. rewrite Hpx. by left.
Qed.
End Queue.

(** The messages pushed one after the other. *)
Fixpoint push_all {A} (ms : list (Z * A)) (q : OrderedQueue A) : result (OrderedQueue A) :=
  match ms with
  | [] => Ok q
  | (p, m) :: ms => '(_, q) ← addAndWakeup (Some m) p q; push_all ms q
  end.

Lemma push_all_ok {A} (ms : list (Z * A)) : forall q : OrderedQueue A,
  queue_wf q -> mElementCount q + Z.of_nat (length ms) <= max_s 32 ->
  exists q', push_all ms q = Ok q' /\ queue_wf q' /\
    mOrderedQueue q' = mOrderedQueue q ++ filter (fun m => SERVER_CLEANUP_TRIGGER_PRIORITY <= m.1) ms.
Proof.
  induction ms as [|[p m] ms IH]; intros q Hq Hn; cbn [length push_all] in *.
  - exists q. by rewrite app_nil_r.
  - destruct (decide (SERVER_CLEANUP_TRIGGER_PRIORITY <= p)) as [Hp|Hp].
    + destruct (addAndWakeup_ok m p q Hq Hp) as (q' & -> & Hq' & E); [lia|].
      cbn [mbind result_bind].
      assert (mElementCount q' = mElementCount q + 1) as Hc.
      { destruct Hq as [-> _], Hq' as [-> _]. rewrite E, length_app. simpl. lia. }
      destruct (IH q' Hq') as (q2 & -> & Hq2 & E2); [lia|].
      exists q2. rewrite E2, E, filter_cons_True by done. by rewrite <- app_assoc.
    + unfold addAndWakeup. replace (p <? _) with true by lia.
      cbn [mbind result_bind]. destruct (IH q Hq) as (q2 & -> & Hq2 & E2); [lia|].
      exists q2. by rewrite E2, filter_cons_False by done.
Qed.

(** ** Properties *)

(** Priority order.  Whatever the priority queue does with equal elements (it
    need not keep their order of arrival), the
    messages a consumer takes from the queue are exactly the accepted ones (those
    with a priority of at least [-2]), in order of priority, smaller values first; no
    operation faults below the 32-bit element count, and the queue is left empty. *)
Theorem OrderedQueue_priority_order `{PriorityQueue} {A} (ms : list (Z * A)) :
  Z.of_nat (length ms) <= max_s 32 ->
  exists q xs, push_all ms OrderedQueue_init = Ok q /\
    drain (length (mOrderedQueue q)) q = Ok (map snd xs) /\
    xs ≡ₚ filter (fun m => SERVER_CLEANUP_TRIGGER_PRIORITY <= m.1) ms /\
    Sorted (fun x y => x.1 <= y.1) xs /\
    mElementCount q = Z.of_nat (length xs).
Proof.
  intros Hlen. destruct (push_all_ok ms OrderedQueue_init) as (q & E & Hq & Eq).
  { apply queue_wf_init. } { simpl. lia. }
  destruct (drain_sorted _ q Hq eq_refl) as (xs & Ed & Hp & Hs). simpl in Eq.
  exists q, xs. split_and!; try done.
  - rewrite <- Hp. by rewrite Eq.
  - destruct Hq as [-> _]. by rewrite Hp.
Qed.

Lemma OrderedQueue_priority_order_witness :
  let pq := selection_queue in
  exists q, push_all [(3, "c"); (0, "a"); (-3, "x"); (0, "b"); (-2, "stop")]%string
              OrderedQueue_init = Ok q /\
    drain 4 q = Ok ["stop"; "b"; "a"; "c"]%string /\
    exists xs, drain (length (mOrderedQueue q)) q = Ok (map snd xs) /\
      Sorted (fun x y => x.1 <= y.1) xs.
Proof.
  intros pq.
  destruct (OrderedQueue_priority_order [(3, "c"); (0, "a"); (-3, "x"); (0, "b"); (-2, "stop")]%string)
    as (q & xs & E & Ed & _ & Hs & _).
  - vm_compute. discriminate.
  - exists q. split; [exact E|]. split.
    + vm_compute in E. injection E as <-. vm_compute. reflexivity.
    + exists xs. split; [exact Ed|exact Hs].
Defined.
