(* ===== verification/RequestManager.v ===== *)
(** [resource-tuner/core/RequestManager.cpp] and [RequestManager.h]: the active
    requests by handle, the duplicate check and the record of handles untuned before
    their request arrived.

    Requests are objects in a heap [Requests], by address; a request given back to
    the memory pool leaves the heap, so that following a stale pointer is a fault.
    The queue holds addresses too. *)
From S2P Require Import Prelude UrmTypes Message Resource DLManager Request AuxRoutines.
From S2P Require Import Double ClientDataManager OrderedQueue.
Open Scope list_scope.
Open Scope Z_scope.

(** ** Request objects *)
Abbreviation Requests := (gmap positive Request).

(** A queued message: a request, or the plain message that wakes the server up. *)
Inductive QueueItem := QRequest (p : positive) | QMessage.

Definition request_at (rq : Requests) (p : ptr) : result Request :=
  x ← deref p; of_option WildPtr (rq !! x).

(** ** Data *)
Definition REQ_UNCHANGED : Z := 1.
Definition REQ_CANCELLED : Z := 2.
Definition REQ_COMPLETED : Z := 4.
Definition REQ_NOT_FOUND : Z := 8.

Definition has_flag (status flag : Z) : bool := negb (Z.land status flag =? 0).

Definition RequestInfo : Type := ptr * Z.

Record RequestManager := mkRM {
  mTotalRequestServed : Z;
  mActiveList : gset positive;    (* mRequestsList[ACTIVE_TUNE] *)
  mPendingList : gset positive;   (* mRequestsList[PENDING_TUNE] *)
  mActiveRequests : gmap Z RequestInfo;
  mUntuneCache : MinLRUCache
}.

Definition RequestManager_init : RequestManager := mkRM 0 ∅ ∅ ∅ (MinLRUCache_init 30).

Definition set_active (m : gmap Z RequestInfo) (rm : RequestManager) : RequestManager :=
  mkRM (mTotalRequestServed rm) (mActiveList rm) (mPendingList rm) m (mUntuneCache rm).
Definition set_pending (l : gset positive) (rm : RequestManager) : RequestManager :=
  mkRM (mTotalRequestServed rm) (mActiveList rm) l (mActiveRequests rm) (mUntuneCache rm).
Definition set_cache (c : MinLRUCache) (rm : RequestManager) : RequestManager :=
  mkRM (mTotalRequestServed rm) (mActiveList rm) (mPendingList rm) (mActiveRequests rm) c.

(** ** Comparing requests *)

(** The loop over the values: [n] are left, from index [i]. *)
Fixpoint values_equal (n : nat) (i : Z) (res1 res2 : Resource) : result bool :=
  match n with
  | O => Ok true
  | S n =>
    v1 ← getValueAt res1 i;
    v2 ← getValueAt res2 i;
    if negb (v1 =? v2) then Ok false else values_equal n (i + 1) res1 res2
  end.

(** A single value is compared by itself, which is the loop for one value. *)
Definition resourceCmpPolicy (s : Store) : DLPolicy := fun src target =>
  res1 ← node_resource s src;
  res2 ← node_resource s target;
  if negb (getResCode res1 =? getResCode res2) then Ok false else
  if negb (getResInfo res1 =? getResInfo res2) then Ok false else
  if negb (getOptionalInfo res1 =? getOptionalInfo res2) then Ok false else
  if negb (getValuesCount res1 =? getValuesCount res2) then Ok false else
  if getValuesCount res1 =? 1 then
    v1 ← getValueAt res1 0;
    v2 ← getValueAt res2 0;
    Ok (negb (negb (v1 =? v2)))
  else values_equal (Z.to_nat (getValuesCount res1)) 0 res1 res2.

(** The nodes of the list are there and none has a null resource. *)
Definition isSane (s : Store) (request : option Request) : result bool :=
  match request with
  | None => Ok false
  | Some r =>
    let m := req_msg r in
    let ty := getRequestType m in
    if negb (ty =? RequestType_val REQ_RESOURCE_TUNING) &&
       negb (ty =? RequestType_val REQ_RESOURCE_RETUNING) &&
       negb (ty =? RequestType_val REQ_RESOURCE_UNTUNING) then Ok false else
    if (getHandle m <=? 0) || (getResourcesCount r <? 0) || (getPriority m <? 0) ||
       (getClientPID m <? 0) || (getClientTID m <? 0) then Ok false else
    match getResDlMgr r with
    | None => Ok false
    | Some l =>
      nodes ← DL_ITERATE (st_links s) l;
      Ok (forallb (fun x => bool_decide (is_Some (st_data s !! x))) nodes)
    end
  end.

(** ** Operations *)
Definition getRequestProcessingStatus (handle : Z) (rm : RequestManager) : Z :=
  match mActiveRequests rm !! handle with Some i => i.2 | None => REQ_NOT_FOUND end.

(** One iteration of the loop of [requestMatch]. *)
Definition handle_matches (s : Store) (rq : Requests) (cdm : ClientDataManager)
    (rm : RequestManager) (request : Request) (handle : Z) : result bool :=
  let status := getRequestProcessingStatus handle rm in
  if status =? REQ_NOT_FOUND then Ok false else
  let clientPermission := getClientLevelByID (getClientPID (req_msg request)) cdm in
  if (clientPermission =? PERMISSION_SYSTEM) &&
     (has_flag status REQ_CANCELLED || has_flag status REQ_COMPLETED) then Ok false else
  match mActiveRequests rm !! handle with
  | None => Ok false
  | Some (None, _) => Ok false
  | Some (target, _) =>
    targetRequest ← request_at rq target;
    if negb (getSource request =? getSource targetRequest) then Ok false else
    if negb (getResourcesCount request =? getResourcesCount targetRequest) then Ok false else
    l ← deref (getResDlMgr request);
    matchAgainst (st_links s) l (getResDlMgr targetRequest) (Some (resourceCmpPolicy s))
  end.

Fixpoint any_match (check : Z -> result bool) (handles : list Z) : result bool :=
  match handles with
  | [] => Ok false
  | h :: handles => b ← check h; if (b : bool) then Ok true else any_match check handles
  end.

Section Order.
Context `{HashOrder}.

Definition set_order {A} `{Countable A} (s : gset A) : list A :=
  map fst (hash_order (gset_to_gmap tt s)).

Definition requestMatch (s : Store) (rq : Requests) (request : Request) (rm : RequestManager)
    (cdm : ClientDataManager) : result (bool * ClientDataManager) :=
  let '(clientHandles, cdm) := getRequestsByClientID (getClientTID (req_msg request)) cdm in
  match clientHandles with
  | None => Ok (false, cdm)
  | Some handles =>
    if (size handles =? 0)%nat then Ok (false, cdm) else
    b ← any_match (handle_matches s rq cdm rm request) (set_order handles);
    Ok (b, cdm)
  end.

Definition verifyHandle (handle : Z) (rm : RequestManager) : bool :=
  bool_decide (is_Some (mActiveRequests rm !! handle)).

Definition getRequestFromMap (handle : Z) (rm : RequestManager) : RequestInfo :=
  match mActiveRequests rm !! handle with
  | None => (None, REQ_CANCELLED)
  | Some i => i
  end.

(** [maxReq] is [metaConfigs.mMaxConcurrentRequests]. *)
Definition at_capacity (maxReq : Z) (rm : RequestManager) : bool :=
  Z.of_nat (size (mActiveRequests rm)) >=? maxReq.

Definition shouldRequestBeAdded (maxReq : Z) (s : Store) (rq : Requests) (request : option Request)
    (rm : RequestManager) (cdm : ClientDataManager) : result (bool * ClientDataManager) :=
  sane ← isSane s request;
  if negb sane then Ok (false, cdm) else
  request ← deref request;
  if at_capacity maxReq rm then Ok (false, cdm) else
  '(duplicateFound, cdm) ← requestMatch s rq request rm cdm;
  Ok (negb duplicateFound, cdm).

(** A handle that is already active loses its entry. *)
Definition addRequest (maxReq : Z) (rq : Requests) (p : ptr) (rm : RequestManager)
    (cdm : ClientDataManager) : result (bool * RequestManager * ClientDataManager) :=
  match p with
  | None => Ok (false, rm, cdm)
  | Some _ =>
    if at_capacity maxReq rm then Ok (false, rm, cdm) else
    request ← request_at rq p;
    let handle := getHandle (req_msg request) in
    match mActiveRequests rm !! handle with
    | Some _ => Ok (false, set_active (delete handle (mActiveRequests rm)) rm, cdm)
    | None =>
      if MinLRUCache_isPresent handle (mUntuneCache rm) then Ok (false, rm, cdm) else
      total ← chk_s 64 (mTotalRequestServed rm + 1);
      Ok (true,
          mkRM total (mActiveList rm) (mPendingList rm)
               (<[handle := (p, REQ_UNCHANGED)]> (mActiveRequests rm)) (mUntuneCache rm),
          insertRequestByClientId (getClientTID (req_msg request)) handle cdm)
    end
  end.

Definition removeRequest (request : option Request) (rm : RequestManager)
    (cdm : ClientDataManager) : result (RequestManager * ClientDataManager) :=
  match request with
  | None => Ok (rm, cdm)
  | Some r =>
    let handle := getHandle (req_msg r) in
    cdm ← deleteRequestByClientId (getClientTID (req_msg r)) handle cdm;
    Ok (set_active (delete handle (mActiveRequests rm)) rm, cdm)
  end.

Definition getPendingList (rm : RequestManager) : list positive := set_order (mPendingList rm).

(** [second |= flag] on an [int8_t]. *)
Definition or_status (flag : Z) (i : RequestInfo) : RequestInfo :=
  (i.1, wrap_s 8 (Z.lor i.2 flag)).

Definition disableRequestProcessing (handle : Z) (rm : RequestManager)
  : result (bool * RequestManager) :=
  match mActiveRequests rm !! handle with
  | None => c ← MinLRUCache_insert handle (mUntuneCache rm); Ok (false, set_cache c rm)
  | Some i =>
    Ok (true, set_active (<[handle := or_status REQ_CANCELLED i]> (mActiveRequests rm)) rm)
  end.

(** The size is converted to [int32_t] on the way. *)
Definition getActiveReqeustsCount (rm : RequestManager) : Z :=
  wrap_s 32 (Z.of_nat (size (mActiveRequests rm))).

Definition markRequestAsComplete (handle : Z) (rm : RequestManager) : RequestManager :=
  match mActiveRequests rm !! handle with
  | None => rm
  | Some i => set_active (<[handle := or_status REQ_COMPLETED i]> (mActiveRequests rm)) rm
  end.

(** One request of the active list: an untune request, at the address [untune] if its
    block is available, is queued ahead of everything else. *)
Definition suspend_request (untune : ptr) (junk : Message) (p : positive)
    (st : Requests * RequestManager * OrderedQueue QueueItem)
  : result (Requests * RequestManager * OrderedQueue QueueItem) :=
  let '(rq, rm, q) := st in
  request ← request_at rq (Some p);
  if negb (Z.land (getProcessingModes (req_msg request)) MODE_SUSPEND =? 0) then Ok (rq, rm, q) else
  '(rq, q) ←
    match untune with
    | None => Ok (rq, q)
    | Some u =>
      let u_req := populateUntuneRequest request (Request_init junk) in
      let u_req := with_msg (setPriority HIGH_TRANSFER_PRIORITY (req_msg u_req)) u_req in
      '(_, q) ← addAndWakeup (Some (QRequest u)) (getPriority (req_msg u_req)) q;
      Ok (<[u := u_req]> rq, q)
    end;
  Ok (rq, set_pending ({[p]} ∪ mPendingList rm) rm, q).

Fixpoint suspend_all (untune : positive -> ptr) (junk : Message) (ps : list positive)
    (st : Requests * RequestManager * OrderedQueue QueueItem)
  : result (Requests * RequestManager * OrderedQueue QueueItem) :=
  match ps with
  | [] => Ok st
  | p :: ps => st ← suspend_request (untune p) junk p st; suspend_all untune junk ps st
  end.

Definition moveToPendingList (untune : positive -> ptr) (junk : Message)
    (st : Requests * RequestManager * OrderedQueue QueueItem)
  : result (Requests * RequestManager * OrderedQueue QueueItem) :=
  let '(rq, rm, q) := st in
  suspend_all untune junk (set_order (mActiveList rm)) (rq, rm, q).

Definition clearPending (rm : RequestManager) : RequestManager := set_pending ∅ rm.
End Order.

(** ** The operations on one handle *)

Lemma addRequest_new maxReq rq x r rm cdm d :
  rq !! x = Some r -> live_tid (getClientTID (req_msg r)) d cdm ->
  0 <= mTotalRequestServed rm < max_s 64 ->
  at_capacity maxReq rm = false -> MinLRUCache_isPresent (getHandle (req_msg r)) (mUntuneCache rm) = false ->
  mActiveRequests rm !! getHandle (req_msg r) = None ->
  addRequest maxReq rq (Some x) rm cdm =
    Ok (true,
        mkRM (mTotalRequestServed rm + 1) (mActiveList rm) (mPendingList rm)
          (<[getHandle (req_msg r) := (Some x, REQ_UNCHANGED)]> (mActiveRequests rm)) (mUntuneCache rm),
        put_tid (getClientTID (req_msg r))
          (with_handles ({[getHandle (req_msg r)]} ∪ mClientHandles d) d) cdm).
Proof.
  intros Hx Hd Ht Hc Hu Ha. unfold addRequest, request_at. rewrite Hc. cbn [deref mbind result_bind].
  rewrite Hx. cbn [of_option mbind result_bind]. rewrite Ha, Hu, (insertRequest_live _ _ _ _ Hd).
  by rewrite chk_s_ok by (unfold in_s, max_s in *; lia).
Qed.

Lemma disable_active h i rm :
  mActiveRequests rm !! h = Some i ->
  disableRequestProcessing h rm =
    Ok (true, set_active (<[h := or_status REQ_CANCELLED i]> (mActiveRequests rm)) rm).
Proof. intros E. unfold disableRequestProcessing. by rewrite E. Qed.

Lemma markComplete_active h i rm :
  mActiveRequests rm !! h = Some i ->
  markRequestAsComplete h rm =
    set_active (<[h := or_status REQ_COMPLETED i]> (mActiveRequests rm)) rm.
Proof. intros E. unfold markRequestAsComplete. by rewrite E. Qed.

Lemma status_active h i rm :
  mActiveRequests rm !! h = Some i -> getRequestProcessingStatus h rm = i.2.
Proof. intros E. unfold getRequestProcessingStatus. by rewrite E. Qed.

Lemma getRequest_active h i rm : mActiveRequests rm !! h = Some i -> getRequestFromMap h rm = i.
Proof. intros E. unfold getRequestFromMap. by rewrite E. Qed.

(** An insertion into the recency cache always remembers its key. *)
Lemma lru_insert_present c q x :
  lru_rep c q -> 0 < mMaxSize c ->
  exists c', MinLRUCache_insert x c = Ok c' /\ MinLRUCache_isPresent x c' = true.
Proof.
  intros (Hq & Hs & Hn) Hm. unfold MinLRUCache_insert.
  assert (exists c1, (if Z.of_nat (size (mDataSet c)) >=? mMaxSize c then
         match mRecencyQueue c with
         | [] => Fault OutOfRange
         | oldestElement :: q =>
           Ok (mkLRU (mMaxSize c) (mDataSet c ∖ {[oldestElement]}) q)
         end
       else Ok c) = Ok c1) as (c1 & ->).
  { destruct (_ >=? _) eqn:E; [|eauto]. rewrite Hq. destruct q; [|eauto].
    rewrite Hs in E. change (size (list_to_set [] : gset Z)) with 0%nat in E. zb. lia. }
  eexists. split; [done|]. unfold MinLRUCache_isPresent. simpl. apply bool_decide_eq_true_2. set_solver.
Qed.

Lemma addRequest_untuned maxReq rq x r rm cdm :
  rq !! x = Some r -> at_capacity maxReq rm = false ->
  mActiveRequests rm !! getHandle (req_msg r) = None ->
  MinLRUCache_isPresent (getHandle (req_msg r)) (mUntuneCache rm) = true ->
  addRequest maxReq rq (Some x) rm cdm = Ok (false, rm, cdm).
Proof.
  intros Hx Hc Ha Hu. unfold addRequest, request_at. rewrite Hc. cbn [deref mbind result_bind].
  rewrite Hx. cbn [of_option mbind result_bind]. by rewrite Ha, Hu.
Qed.

(** ** What the duplicate check compares *)

(** Everything two resources are compared by. *)
Definition res_key (r : Resource) : Z * Z * Z * Z * list Z :=
  (getResCode r, getResInfo r, getOptionalInfo r, getValuesCount r,
   map (value_at r) (zseq 0 (Z.to_nat (getValuesCount r)))).

(** The contents of a request: its resources, in order. *)
Definition request_keys (s : Store) (r : Request) : list (option (Z * Z * Z * Z * list Z)) :=
  match getResDlMgr r with
  | None => []
  | Some l =>
    match DL_ITERATE (st_links s) l with
    | Ok xs => map (fun x => res_key <$> st_data s !! x) xs
    | Fault _ => []
    end
  end.

(** A request with a list of well-formed resources. *)
Definition request_ok (s : Store) (r : Request) : Prop :=
  exists l xs, mResourceList r = Some l /\ is_dll (st_links s) l xs /\
    forall x, x ∈ xs -> exists res, st_data s !! x = Some res /\ res_ok res.

(** Every active entry points to a live request. *)
Definition active_ok (s : Store) (rq : Requests) (rm : RequestManager) : Prop :=
  forall h p st, mActiveRequests rm !! h = Some (p, st) ->
    st <> REQ_NOT_FOUND /\ exists x r, p = Some x /\ rq !! x = Some r /\ request_ok s r.

(** The active request [handle] counts as a duplicate of [request]. *)
Definition is_duplicate (s : Store) (rq : Requests) (rm : RequestManager)
    (cdm : ClientDataManager) (request : Request) (handle : Z) : bool :=
  match mActiveRequests rm !! handle with
  | Some (Some t, status) =>
    match rq !! t with
    | Some target =>
      negb ((getClientLevelByID (getClientPID (req_msg request)) cdm =? PERMISSION_SYSTEM) &&
            (has_flag status REQ_CANCELLED || has_flag status REQ_COMPLETED)) &&
      (mSource request =? mSource target) &&
      bool_decide (request_keys s request = request_keys s target)
    | None => false
    end
  | _ => false
  end.

Lemma values_equal_ok r1 r2 : res_ok r1 -> res_ok r2 -> forall n i,
  values_equal n i r1 r2 =
  Ok (bool_decide (map (value_at r1) (zseq i n) = map (value_at r2) (zseq i n))).
Proof.
  intros H1 H2. induction n as [|n IH]; intros i; [done|].
  cbn [values_equal]. rewrite !getValueAt_ok by done. cbn [mbind result_bind].
  rewrite zseq_S. cbn [map]. destruct (Z.eqb_spec (value_at r1 i) (value_at r2 i)) as [E|E]; simpl.
  - rewrite IH, E. f_equal. apply bool_decide_ext. split; [by intros ->|by intros [= ->]].
  - rewrite bool_decide_eq_false_2; [done|]. by intros [= ? _].
Qed.

Lemma resourceCmpPolicy_ok s x y r1 r2 :
  st_data s !! x = Some r1 -> st_data s !! y = Some r2 -> res_ok r1 -> res_ok r2 ->
  resourceCmpPolicy s x y = Ok (bool_decide (res_key r1 = res_key r2)).
Proof.
  intros E1 E2 H1 H2. unfold resourceCmpPolicy, node_resource. rewrite E1, E2.
  cbn [deref mbind result_bind]. unfold res_key.
  destruct (Z.eqb_spec (getResCode r1) (getResCode r2)) as [->|]; simpl;
    [|rewrite bool_decide_eq_false_2; [done|congruence]].
  destruct (Z.eqb_spec (getResInfo r1) (getResInfo r2)) as [->|]; simpl;
    [|rewrite bool_decide_eq_false_2; [done|congruence]].
  destruct (Z.eqb_spec (getOptionalInfo r1) (getOptionalInfo r2)) as [->|]; simpl;
    [|rewrite bool_decide_eq_false_2; [done|congruence]].
  destruct (Z.eqb_spec (getValuesCount r1) (getValuesCount r2)) as [->|]; simpl;
    [|rewrite bool_decide_eq_false_2; [done|congruence]].
  assert (forall l1 l2 : list Z,
    bool_decide (l1 = l2) = bool_decide ((getResCode r2, getResInfo r2, getOptionalInfo r2,
      getValuesCount r2, l1) = (getResCode r2, getResInfo r2, getOptionalInfo r2,
      getValuesCount r2, l2))) as Hk.
  { intros. apply bool_decide_ext. split; [by intros ->|by intros [=]]. }
  rewrite <- Hk, <- values_equal_ok by done.
  destruct (Z.eqb_spec (getValuesCount r2) 1) as [->|]; [|done].
  change (Z.to_nat 1) with 1%nat. cbn [values_equal]. rewrite !getValueAt_ok by done. simpl.
  by destruct (_ =? _).
Qed.

Lemma request_keys_ok s r l xs :
  mResourceList r = Some l -> is_dll (st_links s) l xs ->
  request_keys s r = map (fun x => res_key <$> st_data s !! x) xs.
Proof.
  intros E Hd. unfold request_keys, getResDlMgr. by rewrite E, (DL_ITERATE_refines _ _ _ Hd).
Qed.

Lemma all_match_map {K} `{EqDecision K} (f : positive -> K) xs ys :
  all_match (fun x y => bool_decide (f x = f y)) xs ys = bool_decide (map f xs = map f ys).
Proof.
  revert ys. induction xs as [|x xs IH]; intros [|y ys]; simpl; try done.
  rewrite IH. destruct (decide (f x = f y)) as [->|Hne].
  - rewrite (bool_decide_eq_true_2 (f y = f y)) by done. simpl.
    apply bool_decide_ext. split; [by intros ->|by intros [=]].
  - rewrite (bool_decide_eq_false_2 (f x = f y)) by done. symmetry.
    apply bool_decide_eq_false_2. congruence.
Qed.

Lemma requests_compare s r r' :
  request_ok s r -> request_ok s r' -> exists l, getResDlMgr r = Some l /\
    (if negb (getResourcesCount r =? getResourcesCount r') then Ok false
     else matchAgainst (st_links s) l (getResDlMgr r') (Some (resourceCmpPolicy s))) =
    Ok (bool_decide (request_keys s r = request_keys s r')).
Proof.
  intros (l & xs & E & Hd & Hx) (l' & ys & E' & Hd' & Hy). exists l. split; [done|].
  rewrite (request_keys_ok _ _ _ _ E Hd), (request_keys_ok _ _ _ _ E' Hd').
  unfold getResourcesCount, getResDlMgr. rewrite E, E'. unfold getLen.
  rewrite (dll_size _ _ _ Hd), (dll_size _ _ _ Hd').
  destruct (Z.eqb_spec (Z.of_nat (length xs)) (Z.of_nat (length ys))) as [Hl|Hl]; cbn [negb].
  - rewrite (matchAgainst_refines _ _ _ xs ys _
      (fun x y => bool_decide (res_key <$> st_data s !! x = res_key <$> st_data s !! y))); try done.
    + by rewrite all_match_map.
    + intros x y Hxin Hyin.
      destruct (Hx x Hxin) as (rx & Ex & Hrx), (Hy y Hyin) as (ry & Ey & Hry).
      rewrite (resourceCmpPolicy_ok _ _ _ rx ry), Ex, Ey by done. f_equal.
      apply bool_decide_ext. change (res_key rx = res_key ry <-> Some (res_key rx) = Some (res_key ry)).
      split; [by intros ->|apply (inj Some)].
  - rewrite bool_decide_eq_false_2; [done|]. intros Em. apply (f_equal length) in Em.
    rewrite !length_map in Em. lia.
Qed.

Lemma handle_matches_ok s rq cdm rm r h :
  request_ok s r -> active_ok s rq rm ->
  handle_matches s rq cdm rm r h = Ok (is_duplicate s rq rm cdm r h).
Proof.
  intros Hr Ha. unfold handle_matches, is_duplicate, getRequestProcessingStatus.
  destruct (mActiveRequests rm !! h) as [[p st]|] eqn:E; [|done].
  destruct (Ha _ _ _ E) as (Hst & x & r' & -> & Ex & Hr'). cbn [fst snd].
  rewrite Ex. replace (st =? REQ_NOT_FOUND) with false by lia.
  destruct (_ && (_ || _)); [done|]. unfold request_at. cbn [deref mbind result_bind]. rewrite Ex.
  cbn [of_option mbind result_bind]. unfold getSource.
  destruct (mSource r =? mSource r'); [|done]. cbn [negb andb].
  destruct (requests_compare s r r' Hr Hr') as (l & -> & E2). cbn [deref mbind result_bind].
  exact E2.
Qed.

Lemma any_match_ok (check : Z -> result bool) (b : Z -> bool) hs :
  (forall h, check h = Ok (b h)) -> any_match check hs = Ok (existsb b hs).
Proof.
  intros Hc. induction hs as [|h hs IH]; [done|]. simpl. rewrite Hc. simpl. by destruct (b h).
Qed.

Lemma set_order_perm `{HashOrder} {A} `{Countable A} (s : gset A) :
  forall x, x ∈ set_order s <-> x ∈ s.
Proof.
  intros x. unfold set_order. rewrite list_elem_of_fmap. split.
  - intros ([y []] & -> & Hy). by apply elem_of_hash_order, lookup_gset_to_gmap_Some in Hy as [? _].
  - intros Hx. exists (x, tt). split; [done|]. by apply elem_of_hash_order, lookup_gset_to_gmap_Some.
Qed.

Lemma requestMatch_spec `{HashOrder} (s : Store) (rq : Requests) (r : Request)
    (rm : RequestManager) (cdm : ClientDataManager) :
  request_ok s r -> active_ok s rq rm ->
  exists b cdm', requestMatch s rq r rm cdm = Ok (b, cdm') /\
    cdm' = (getRequestsByClientID (getClientTID (req_msg r)) cdm).2 /\
    (b = true <-> exists d h,
       mClientTidRepo cdm !! getClientTID (req_msg r) = Some (Some d) /\
       h ∈ mClientHandles d /\ is_duplicate s rq rm cdm' r h = true).
Proof.
  intros Hr Ha. unfold requestMatch, getRequestsByClientID, map_index.
  destruct (mClientTidRepo cdm !! getClientTID (req_msg r)) as [[d|]|] eqn:E; cbn [fmap option_fmap option_map].
  - destruct (Nat.eqb_spec (size (mClientHandles d)) 0) as [Hz|Hz].
    + eexists _, _. split; [done|]. split; [done|]. split; [done|].
      intros (d' & h & [= ->] & Hh & _). apply size_empty_inv in Hz. set_solver.
    + rewrite (any_match_ok _ (is_duplicate s rq rm _ r)) by (intros; by apply handle_matches_ok).
      eexists _, _. split; [done|]. split; [done|]. rewrite existsb_exists. split.
      * intros (h & Hh & Hd). exists d, h. split_and!; [done| |exact Hd].
        apply (set_order_perm (mClientHandles d)). by apply list_elem_of_In.
      * intros (d' & h & [= ->] & Hh & Hd). exists h. split; [|exact Hd].
        by apply list_elem_of_In, set_order_perm.
  - eexists _, _. split; [done|]. split; [done|]. split; [done|]. by intros (d' & h & ? & _).
  - eexists _, _. split; [done|]. split; [done|]. split; [done|]. by intros (d' & h & ? & _).
Qed.

(** ** Properties *)

(** C32: the duplicate check.  Whatever the order in which the handles of the client
    are visited, and provided the active requests are live and well formed,
    [requestMatch] answers, without a fault, whether one of the handles recorded for
    the client's thread is an active request with the same source and the same
    resources in the same order (code, info, optional information and every value);
    for a system client, requests that are cancelled or completed do not count. *)
Theorem RequestManager_duplicates `{HashOrder} (s : Store) (rq : Requests) (r : Request)
    (rm : RequestManager) (cdm : ClientDataManager) :
  request_ok s r -> active_ok s rq rm ->
  exists b cdm', requestMatch s rq r rm cdm = Ok (b, cdm') /\
    cdm' = (getRequestsByClientID (getClientTID (req_msg r)) cdm).2 /\
    (b = true <-> exists d h,
       mClientTidRepo cdm !! getClientTID (req_msg r) = Some (Some d) /\
       h ∈ mClientHandles d /\ is_duplicate s rq rm cdm' r h = true).
Proof. apply requestMatch_spec. Qed.

(** Two requests with one resource each, of equal values or not: the second one is active. *)
Lemma RequestManager_duplicates_witness :
  let hl1 := match insert (fresh_heap 2 2) (DLManager_init 0) (Some 1%positive) with
             | Ok (_, h, l) => (h, l) | Fault _ => (fresh_heap 2 2, DLManager_init 0) end in
  let hl2 := match insert hl1.1 (DLManager_init 0) (Some 2%positive) with
             | Ok (_, h, l) => (h, l) | Fault _ => hl1 end in
  let res v := mkResource 196615 0 0 1 (Inline v 0) RES_FORWARD in
  let s v := mkStore hl2.1 {[1%positive := res 10; 2%positive := res v]} ∅ in
  let r := mkRequest (mkMessage 6 (-1) 2 7 8 0) None (Some hl1.2) 0 in
  let r' := mkRequest (mkMessage 5 (-1) 2 7 8 0) None (Some hl2.2) 0 in
  let rm := set_active {[5 := (Some 1%positive, REQ_UNCHANGED)]} RequestManager_init in
  let cdm := mkCDM ∅ {[8 := Some (mkTidData {[5]} 0 (d_of_Z 100))]} in
  let order := sorted_hash_order in
  (exists cdm', requestMatch (s 10) {[1%positive := r']} r rm cdm = Ok (true, cdm')) /\
  (exists cdm', requestMatch (s 20) {[1%positive := r']} r rm cdm = Ok (false, cdm')).
Proof.
  intros hl1 hl2 res s r r' rm cdm order.
  assert (is_dll hl2.1 hl1.2 [1%positive] /\ is_dll hl2.1 hl2.2 [2%positive]) as [H1 H2].
  { destruct (insert_refines (fresh_heap 2 2) (DLManager_init 0) [] 1) as (h1 & l1 & E1 & D1 & _).
    { by apply is_dll_init. } { split; [vm_compute; eauto|set_solver]. }
    unfold hl2, hl1. rewrite E1. cbn [fst snd].
    destruct (insert_refines h1 (DLManager_init 0) [] 2) as (h2 & l2 & E2 & D2 & F2).
    { by apply is_dll_init. } { vm_compute in E1. injection E1 as <- <-. split; [vm_compute; eauto|set_solver]. }
    rewrite E2. cbn [fst snd]. split; [|done]. vm_compute in E1. injection E1 as <- <-. vm_compute in E2. injection E2 as <- <-.
    eapply is_dll_frame; [|exact D1]. intros y ->%list_elem_of_singleton. vm_compute. reflexivity. }
  assert (forall v x l, is_dll hl2.1 l [x] -> (x = 1%positive \/ x = 2%positive) ->
    forall m, request_ok (s v) (mkRequest m None (Some l) 0)) as Hok.
  { intros v x l Hl Hx m. exists l, [x]. split; [done|]. split; [exact Hl|]. intros y ->%list_elem_of_singleton.
    assert (exists w, st_data (s v) !! x = Some (res w)) as [w ->].
    { destruct Hx as [-> | ->]; cbn; [eexists; by rewrite lookup_insert_eq|]. rewrite lookup_insert_ne by done. eexists. by rewrite lookup_singleton_eq. }
    eexists. split; [done|]. split; simpl; [unfold in_u; lia|done|lia|lia]. }
  assert (forall v, request_ok (s v) r /\ active_ok (s v) {[1%positive := r']} rm) as Hs.
  { intros v. split; [eapply Hok; [exact H1|by left]|]. intros h p st Hh. simpl in Hh.
    apply lookup_singleton_Some in Hh as [<- [= <- <-]]. split; [done|]. exists 1%positive, r'. split; [done|].
    split; [by rewrite lookup_singleton_eq|]. eapply Hok; [exact H2|by right]. }
  split.
  - destruct (RequestManager_duplicates (s 10) {[1%positive := r']} r rm cdm) as (b & cdm' & E & -> & Hb); [apply Hs..|].
    eexists. rewrite E. do 2 f_equal. apply Hb. exists (mkTidData {[5]} 0 (d_of_Z 100)), 5.
    split; [vm_compute; reflexivity|]. split; [apply (bool_decide_unpack _); vm_compute; exact I|].
    vm_compute. reflexivity.
  - destruct (RequestManager_duplicates (s 20) {[1%positive := r']} r rm cdm) as (b & cdm' & E & -> & Hb); [apply Hs..|].
    eexists. rewrite E. do 2 f_equal. apply not_true_iff_false. intros Ht. apply Hb in Ht as (d & h & Hd & Hh & Hdup).
    change (Some (Some (mkTidData {[5]} 0 (d_of_Z 100))) = Some (Some d)) in Hd. injection Hd as <-.
    cbn [mClientHandles] in Hh. apply elem_of_singleton in Hh as ->. vm_compute in Hdup. done.
Defined.

(** The life of a handle.  While the table is not full, a new handle that was not
    untuned early is recorded with its request, and in the set of its client's
    thread; marking it complete and cancelling it accumulate in its status, in any
    order; removing the request restores the table and drops the handle from the set.
    No other handle is affected.  An untune that arrives before its tune request is
    remembered: the tune request is then refused.  Adding a handle that is already
    active is refused, but the entry of the active request is lost. *)
Theorem RequestManager_lifecycle (maxReq : Z) (rq : Requests) (x : positive) (r : Request)
    (rm : RequestManager) (cdm : ClientDataManager) (d : ClientTidData) :
  let h := getHandle (req_msg r) in
  let tid := getClientTID (req_msg r) in
  rq !! x = Some r -> live_tid tid d cdm -> 0 <= mTotalRequestServed rm < max_s 64 ->
  at_capacity maxReq rm = false -> MinLRUCache_isPresent h (mUntuneCache rm) = false ->
  match mActiveRequests rm !! h with
  | None =>
    (exists rm' cdm', addRequest maxReq rq (Some x) rm cdm = Ok (true, rm', cdm') /\
       getRequestFromMap h rm' = (Some x, REQ_UNCHANGED) /\
       getRequestsByClientID tid cdm' = (Some ({[h]} ∪ mClientHandles d), cdm') /\
       (forall h', h' <> h -> getRequestFromMap h' rm' = getRequestFromMap h' rm) /\
       getRequestProcessingStatus h (markRequestAsComplete h rm') = Z.lor REQ_UNCHANGED REQ_COMPLETED /\
       (exists rm1, disableRequestProcessing h (markRequestAsComplete h rm') = Ok (true, rm1) /\
          getRequestProcessingStatus h rm1 =
            Z.lor (Z.lor REQ_UNCHANGED REQ_COMPLETED) REQ_CANCELLED) /\
       exists rm2 cdm2, removeRequest (Some r) rm' cdm' = Ok (rm2, cdm2) /\
         mActiveRequests rm2 = mActiveRequests rm /\
         getRequestsByClientID tid cdm2 = (Some (mClientHandles d ∖ {[h]}), cdm2)) /\
    (forall q, lru_rep (mUntuneCache rm) q -> 0 < mMaxSize (mUntuneCache rm) ->
     exists rm', disableRequestProcessing h rm = Ok (false, rm') /\
       addRequest maxReq rq (Some x) rm' cdm = Ok (false, rm', cdm))
  | Some _ =>
    exists rm', addRequest maxReq rq (Some x) rm cdm = Ok (false, rm', cdm) /\
      verifyHandle h rm' = false
  end.
Proof.
  intros h tid Hx Hd Ht Hc Hu. destruct (mActiveRequests rm !! h) as [i|] eqn:Ea.
  - unfold addRequest, request_at. rewrite Hc. cbn [deref mbind result_bind]. rewrite Hx.
    cbn [of_option mbind result_bind]. fold h. rewrite Ea. eexists. split; [done|].
    unfold verifyHandle. simpl. by rewrite lookup_delete_eq.
  - split.
    + rewrite (addRequest_new _ _ _ _ _ _ _ Hx Hd Ht Hc Hu Ea). eexists _, _. split; [done|].
      fold h tid. set (rm' := mkRM _ _ _ _ _).
      assert (mActiveRequests rm' !! h = Some (Some x, REQ_UNCHANGED)) as E' by apply lookup_insert_eq.
      rewrite (markComplete_active _ _ _ E').
      split; [by apply getRequest_active|].
      split; [exact (getRequests_live _ _ _ (live_put _ _ _))|]. split.
      { intros h' Hne. unfold getRequestFromMap. simpl. by rewrite lookup_insert_ne. }
      split; [erewrite status_active by apply lookup_insert_eq; vm_compute; reflexivity|]. split.
      { eexists. split; [apply disable_active, lookup_insert_eq|].
        erewrite status_active by apply lookup_insert_eq. vm_compute. reflexivity. }
      unfold removeRequest. fold h tid. rewrite (deleteRequest_live _ _ _ _ (live_put _ _ _)).
      eexists _, _. split; [done|]. split; [simpl; by rewrite delete_insert_id|].
      rewrite (getRequests_live _ _ _ (live_put _ _ _)). do 2 f_equal. simpl. set_solver.
    + intros q Hq Hm. destruct (lru_insert_present _ _ h Hq Hm) as (c & Ec & Hp).
      unfold disableRequestProcessing. rewrite Ea, Ec. eexists. split; [done|].
      by apply addRequest_untuned with r.
Qed.

Lemma RequestManager_lifecycle_witness :
  let r := mkRequest (mkMessage 6 (-1) 2 7 8 0) None None 0 in
  let cdm := mkCDM ∅ {[8 := Some (mkTidData {[5]} 0 (d_of_Z 100))]} in
  exists rm' cdm', addRequest 60 {[1%positive := r]} (Some 1%positive) RequestManager_init cdm =
    Ok (true, rm', cdm').
Proof.
  intros r cdm.
  destruct (RequestManager_lifecycle 60 {[1%positive := r]} 1 r RequestManager_init cdm
    (mkTidData {[5]} 0 (d_of_Z 100))) as [(rm' & cdm' & E & _) _].
  - vm_compute. reflexivity.
  - vm_compute. reflexivity.
  - simpl. unfold max_s. lia.
  - vm_compute. reflexivity.
  - vm_compute. reflexivity.
  - exists rm', cdm'. exact E.
Defined.
