(* ===== verification/RateLimiter.v ===== *)
(** [resource-tuner/core/RateLimiter.cpp] and [RateLimiter.h]: the health of client
    threads, lowered by requests that follow each other too closely and raised by
    others, and the cap on active requests.  The clock is an argument of each call. *)
From S2P Require Import Prelude UrmTypes AuxRoutines Double ClientDataManager RequestManager.
Open Scope list_scope.
Open Scope Z_scope.

Record RateLimiter := mkLimiter {
  mDelta : Z;               (* uint32_t, milliseconds *)
  mPenaltyFactor : double;
  mRewardFactor : double
}.

Definition shouldBeProcessed (l : RateLimiter) (currentMillis clientTID : Z) (c : ClientDataManager)
  : result (bool * ClientDataManager) :=
  health ← getHealthByClientID clientTID c;
  if d_le health (d_of_Z 0) then Ok (false, c) else
  last ← getLastRequestTimestampByClientID clientTID c;
  health ← (if negb (last =? 0) then
              requestDelta ← chk_s 64 (currentMillis - last);
              Ok (if requestDelta <? mDelta l then d_sub health (mPenaltyFactor l)
                  else d_min (d_of_Z 100) (d_add health (mRewardFactor l)))
            else Ok health);
  c ← updateHealthByClientID clientTID health c;
  if d_le health (d_of_Z 0) then Ok (false, c) else
  c ← updateLastRequestTimestampByClientID clientTID currentMillis c;
  Ok (true, c).

Definition isRateLimitHonored (l : RateLimiter) (currentMillis clientTID : Z)
    (c : ClientDataManager) : result (bool * ClientDataManager) :=
  shouldBeProcessed l currentMillis clientTID c.

Definition isGlobalRateLimitHonored (maxReq : Z) (rm : RequestManager) : bool :=
  negb (getActiveReqeustsCount rm >=? maxReq).

(** The requests of one thread at the given times: what is accepted. *)
Fixpoint submissions (l : RateLimiter) (tid : Z) (times : list Z) (c : ClientDataManager)
  : result (list bool * ClientDataManager) :=
  match times with
  | [] => Ok ([], c)
  | t :: times =>
    '(b, c) ← isRateLimitHonored l t tid c;
    '(bs, c) ← submissions l tid times c;
    Ok (b :: bs, c)
  end.

(** ** One request *)

(** The health after a request at [now] of a thread that is not blocked. *)
Definition next_health (l : RateLimiter) (now : Z) (d : ClientTidData) : double :=
  if mLastRequestTimestamp d =? 0 then mHealth d
  else if now - mLastRequestTimestamp d <? mDelta l then d_sub (mHealth d) (mPenaltyFactor l)
  else d_min (d_of_Z 100) (d_add (mHealth d) (mRewardFactor l)).

(** What one request does to the data of its thread. *)
Definition limit_step (l : RateLimiter) (now : Z) (d : ClientTidData) : bool * ClientTidData :=
  if d_le (mHealth d) (d_of_Z 0) then (false, d) else
  let h := next_health l now d in
  if d_le h (d_of_Z 0)
  then (false, mkTidData (mClientHandles d) (mLastRequestTimestamp d) h)
  else (true, mkTidData (mClientHandles d) now h).

Lemma put_same tid d c : live_tid tid d c -> put_tid tid d c = c.
Proof.
  intros E. unfold put_tid, set_tids. rewrite insert_id by exact E. by destruct c.
Qed.
Lemma updateHealth_live tid d x c :
  live_tid tid d c ->
  updateHealthByClientID tid x c =
    Ok (put_tid tid (mkTidData (mClientHandles d) (mLastRequestTimestamp d) x) c).
Proof. intros E. unfold updateHealthByClientID, update_tid. by rewrite (tid_data_live _ _ _ E). Qed.
Lemma updateTimestamp_live tid d x c :
  live_tid tid d c ->
  updateLastRequestTimestampByClientID tid x c =
    Ok (put_tid tid (mkTidData (mClientHandles d) x (mHealth d)) c).
Proof.
  intros E. unfold updateLastRequestTimestampByClientID, update_tid. by rewrite (tid_data_live _ _ _ E).
Qed.

Lemma isRateLimitHonored_live l now tid d c :
  live_tid tid d c -> in_s 64 (now - mLastRequestTimestamp d) ->
  isRateLimitHonored l now tid c =
    Ok ((limit_step l now d).1, put_tid tid (limit_step l now d).2 c).
Proof.
  intros E Hin. unfold isRateLimitHonored, shouldBeProcessed, limit_step, getHealthByClientID,
    getLastRequestTimestampByClientID.
  rewrite (tid_data_live _ _ _ E). cbn [mbind result_bind from_option].
  destruct (d_le (mHealth d) (d_of_Z 0)); [by rewrite put_same|].
  assert ((if negb (mLastRequestTimestamp d =? 0) then
       requestDelta ← chk_s 64 (now - mLastRequestTimestamp d);
       Ok (if requestDelta <? mDelta l then d_sub (mHealth d) (mPenaltyFactor l)
           else d_min (d_of_Z 100) (d_add (mHealth d) (mRewardFactor l)))
     else Ok (mHealth d)) = Ok (next_health l now d)) as ->.
  { unfold next_health. destruct (_ =? 0); [done|]. simpl. by rewrite chk_s_ok. }
  cbn [mbind result_bind]. rewrite (updateHealth_live _ _ _ _ E). cbn [mbind result_bind].
  destruct (d_le (next_health l now d) (d_of_Z 0)); [done|].
  rewrite (updateTimestamp_live _ _ _ _ (live_put _ _ _)). cbn [mbind result_bind].
  by rewrite put_put.
Qed.

(** The submissions of one thread, on its data alone. *)
Fixpoint limit_run (l : RateLimiter) (times : list Z) (d : ClientTidData) : list bool * ClientTidData :=
  match times with
  | [] => ([], d)
  | t :: times =>
    let '(b, d) := limit_step l t d in
    let '(bs, d) := limit_run l times d in (b :: bs, d)
  end.

(** The times are those of a clock that neither stops at nor jumps beyond 64 bits. *)
Definition clock (t : Z) : Prop := 0 < t < 2 ^ 62.

Lemma limit_step_last l t d :
  mLastRequestTimestamp (limit_step l t d).2 = mLastRequestTimestamp d \/
  mLastRequestTimestamp (limit_step l t d).2 = t.
Proof. unfold limit_step. repeat case_if; auto. Qed.

Lemma submissions_run l tid : forall times d c,
  live_tid tid d c -> 0 <= mLastRequestTimestamp d < 2 ^ 62 -> Forall clock times ->
  submissions l tid times c = Ok ((limit_run l times d).1, put_tid tid (limit_run l times d).2 c).
Proof.
  induction times as [|t times IH]; intros d c E Hd Ht; cbn [submissions limit_run].
  - by rewrite put_same.
  - apply Forall_cons in Ht as [Hc Ht]. unfold clock in Hc.
    rewrite (isRateLimitHonored_live l t tid d c E) by (unfold in_s; lia).
    cbn [mbind result_bind]. pose proof (limit_step_last l t d) as Hlast.
    destruct (limit_step l t d) as [b d']. cbn [fst snd] in *.
    rewrite (IH d' _ (live_put _ _ _)) by (done || lia). cbn [mbind result_bind].
    destruct (limit_run l times d') as [bs d2]. by rewrite put_put.
Qed.

(** A blocked thread stays blocked. *)
Lemma limit_run_blocked l d times :
  d_le (mHealth d) (d_of_Z 0) = true -> limit_run l times d = (replicate (length times) false, d).
Proof.
  intros Hb. induction times as [|t times IH]; [done|]. cbn [limit_run].
  unfold limit_step at 1. rewrite Hb, IH. done.
Qed.

(** ** Bursts *)

(** Health after [n] penalties. *)
Fixpoint penalised (n : nat) (p h : double) : double :=
  match n with O => h | S n => penalised n p (d_sub h p) end.

(** The first [n] penalties leave the health positive and the next does not. *)
Fixpoint lasts (n : nat) (p h : double) : bool :=
  match n with
  | O => d_le (d_sub h p) (d_of_Z 0)
  | S n => negb (d_le (d_sub h p) (d_of_Z 0)) && lasts n p (d_sub h p)
  end.

(** Each request comes less than [delta] after the one before. *)
Fixpoint burst (delta last : Z) (times : list Z) : Prop :=
  match times with
  | [] => True
  | t :: times => clock t /\ t - last < delta /\ burst delta t times
  end.

Lemma limit_run_burst l : forall n times d,
  burst (mDelta l) (mLastRequestTimestamp d) times -> 0 < mLastRequestTimestamp d ->
  d_le (mHealth d) (d_of_Z 0) = false -> lasts n (mPenaltyFactor l) (mHealth d) = true ->
  (n < length times)%nat ->
  (limit_run l times d).1 = replicate n true ++ replicate (length times - n) false.
Proof.
  induction n as [|n IH]; intros [|t times] d Hb Hl Hh Hn Hlen; cbn [length] in Hlen; try lia;
    destruct Hb as (Hc & Hd & Hb); cbn [limit_run lasts] in *;
    assert (next_health l t d = d_sub (mHealth d) (mPenaltyFactor l)) as Hnext
      by (unfold next_health; replace (_ =? 0) with false by lia;
          by replace (_ <? mDelta l) with true by lia).
  - unfold limit_step. rewrite Hh, Hnext, Hn. rewrite limit_run_blocked by done.
    cbn [fst snd length]. by rewrite Nat.sub_0_r.
  - apply andb_prop in Hn as [Hp Hn]. unfold limit_step. rewrite Hh, Hnext.
    apply negb_true_iff in Hp. rewrite Hp.
    set (d' := mkTidData _ t _).
    pose proof (IH times d' Hb) as Hr. destruct (limit_run l times d') as [bs d2].
    cbn [fst snd length replicate app] in *. rewrite Nat.sub_succ. f_equal.
    unfold clock in Hc. apply Hr; simpl; (done || lia).
Qed.

(** The limits the server starts with when no property overrides them:
    [RATE_LIMITER_DELTA] 5, penalty 2.0, reward 0.4. *)
Definition default_limiter : RateLimiter :=
  mkLimiter 5 (d_of_Z 2) (d_lit 3602879701896397 (-53)).

(** ** Properties *)

(** C39: rate limiting.  A request of a known thread is decided by its health and the
    time since its last accepted request, as [limit_step] states: no fault occurs and
    no other thread changes.  A thread without a previous request keeps its health; a
    reward never takes the health above 100; a thread whose health is not positive is
    refused every request from then on, with its data unchanged. *)
Theorem RateLimiter_health (l : RateLimiter) (tid now : Z) (times : list Z) (d : ClientTidData)
    (c : ClientDataManager) :
  live_tid tid d c -> 0 <= mLastRequestTimestamp d < 2 ^ 62 -> clock now -> Forall clock times ->
  isRateLimitHonored l now tid c = Ok ((limit_step l now d).1, put_tid tid (limit_step l now d).2 c) /\
  (mLastRequestTimestamp d = 0 -> mHealth (limit_step l now d).2 = mHealth d) /\
  (0 < mLastRequestTimestamp d -> mDelta l <= now - mLastRequestTimestamp d ->
     d_le (mHealth d) (d_of_Z 0) = false ->
     d_le (mHealth (limit_step l now d).2) (d_of_Z 100) = true) /\
  ((limit_step l now d).1 = true -> mLastRequestTimestamp (limit_step l now d).2 = now) /\
  ((limit_step l now d).1 = false -> d_le (mHealth (limit_step l now d).2) (d_of_Z 0) = true) /\
  (d_le (mHealth d) (d_of_Z 0) = true ->
     submissions l tid times c = Ok (replicate (length times) false, c)).
Proof.
  intros E Hd Hc Ht. split_and!.
  - apply isRateLimitHonored_live; [done|]. unfold clock in Hc. unfold in_s. lia.
  - intros Hz. unfold limit_step, next_health. rewrite Hz. simpl. by repeat case_if.
  - intros Hp Hge Hh. unfold limit_step, next_health. rewrite Hh.
    replace (_ =? 0) with false by lia. replace (_ <? mDelta l) with false by lia.
    case_if; apply d_min_le; vm_compute; reflexivity.
  - unfold limit_step. by repeat case_if.
  - unfold limit_step. by repeat case_if.
  - intros Hb. rewrite (submissions_run l tid times d c E Hd Ht), (limit_run_blocked _ _ _ Hb).
    by rewrite put_same.
Qed.

Lemma RateLimiter_health_witness :
  let d := mkTidData ∅ 1000 (d_of_Z 2) in
  let c := put_tid 8 d ClientDataManager_init in
  isRateLimitHonored default_limiter 1002 8 c =
    Ok (false, put_tid 8 (mkTidData ∅ 1000 (d_of_Z 0)) c).
Proof.
  intros d c.
  destruct (RateLimiter_health default_limiter 8 1002 [] d c) as (E & _).
  - apply live_put.
  - simpl. lia.
  - unfold clock. lia.
  - constructor.
  - etransitivity; [exact E|]. vm_compute. reflexivity.
Defined.

(** Bursts.  With the default limits (5 ms, penalty 2.0), a new thread that sends
    more than fifty requests, each less than 5 ms after the one before, has exactly
    the first fifty accepted and every later one of the burst refused. *)
Theorem RateLimiter_burst (tid t0 : Z) (times : list Z) (c : ClientDataManager) :
  live_tid tid fresh_tid c -> clock t0 -> burst 5 t0 times -> (49 < length times)%nat ->
  exists c', submissions default_limiter tid (t0 :: times) c =
    Ok (replicate 50 true ++ replicate (length times - 49) false, c').
Proof.
  intros E Hc Hb Hlen.
  assert (forall last ts, burst 5 last ts -> Forall clock ts) as Hall.
  { intros last ts. revert last. induction ts as [|t ts IH]; intros last; [constructor|].
    intros (? & ? & ?). constructor; [done|by eapply IH]. }
  rewrite (submissions_run _ tid _ fresh_tid c E); [|simpl; lia|by constructor; [|by eapply Hall]].
  eexists. do 2 f_equal. cbn [limit_run].
  replace (limit_step default_limiter t0 fresh_tid) with (true, mkTidData ∅ t0 (d_of_Z 100))
    by (vm_compute; reflexivity).
  pose proof (limit_run_burst default_limiter 49 times (mkTidData ∅ t0 (d_of_Z 100))) as H.
  destruct (limit_run _ _ _) as [bs d2]. cbn [fst] in *. rewrite H; try done.
  unfold clock in Hc. simpl. lia.
Qed.

Lemma RateLimiter_burst_witness :
  exists c', submissions default_limiter 8 (1 :: replicate 60 1)
    (put_tid 8 fresh_tid ClientDataManager_init) =
    Ok (replicate 50 true ++ replicate 11 false, c').
Proof.
  apply (RateLimiter_burst 8 1 (replicate 60 1)).
  - apply live_put.
  - unfold clock. lia.
  - vm_compute. repeat split; discriminate || reflexivity.
  - vm_compute. lia.
Defined.
