(* ===== verification/RequestHandler.v ===== *)
(** [resource-tuner/core/RequestHandler.cpp], the verification of an incoming tune
    request: its duration, the device mode, the permission and priority of its
    client, and each of its resources, whose logical core and cluster are replaced by
    the physical ones. *)
From S2P Require Import Prelude UrmTypes Message Resource DLManager AuxRoutines TargetRegistry.
From S2P Require Import ResourceRegistry Request ClientDataManager.
Open Scope list_scope.
Open Scope Z_scope.

Definition getRequestPriority (clientPermissions reqSpecifiedPriority : Z) : Z :=
  if clientPermissions =? PERMISSION_SYSTEM then
    if reqSpecifiedPriority =? REQ_PRIORITY_HIGH then SYSTEM_HIGH
    else if reqSpecifiedPriority =? REQ_PRIORITY_LOW then SYSTEM_LOW
    else -1
  else if clientPermissions =? PERMISSION_THIRD_PARTY then
    if reqSpecifiedPriority =? REQ_PRIORITY_HIGH then THIRD_PARTY_HIGH
    else if reqSpecifiedPriority =? REQ_PRIORITY_LOW then THIRD_PARTY_LOW
    else if (reqSpecifiedPriority =? THIRD_PARTY_HIGH) || (reqSpecifiedPriority =? THIRD_PARTY_LOW)
    then reqSpecifiedPriority
    else -1
  else -1.

(** The physical core and cluster, or [None] when there is no mapping. *)
Definition performPhysicalMapping (coreValue clusterValue : Z) (t : TargetRegistry)
  : result (option (Z * Z) * TargetRegistry) :=
  let physicalClusterValue := getPhysicalClusterId clusterValue t in
  '(physicalCoreValue, t) ←
    (if negb (coreValue =? 0) then getPhysicalCoreId clusterValue coreValue t else Ok (0, t));
  if negb (physicalCoreValue =? -1) && negb (physicalClusterValue =? -1)
  then Ok (Some (physicalCoreValue, physicalClusterValue), t) else Ok (None, t).

Definition is_pass_through (rConf : ResConfInfo) : bool :=
  bool_decide (mPolicy rConf = PASS_THROUGH).

Definition translateToPhysicalIDs (rConf : ResConfInfo) (resource : Resource) (t : TargetRegistry)
  : result (ErrCode * Resource * TargetRegistry) :=
  match mApplyType rConf with
  | APPLY_CORE =>
    let coreValue := getCoreValue resource in
    let clusterValue := getClusterValue resource in
    if coreValue <? 0 then Ok (RC_INVALID_VALUE, resource, t) else
    if clusterValue <? 0 then Ok (RC_INVALID_VALUE, resource, t) else
    '(m, t) ← performPhysicalMapping coreValue clusterValue t;
    match m with
    | None =>
      if negb (is_pass_through rConf) then Ok (RC_INVALID_VALUE, resource, t)
      else Ok (RC_SUCCESS, setClusterValue clusterValue (setCoreValue coreValue resource), t)
    | Some (core, cluster) =>
      Ok (RC_SUCCESS, setClusterValue cluster (setCoreValue core resource), t)
    end
  | APPLY_CLUSTER =>
    let clusterValue := getClusterValue resource in
    if clusterValue <? 0 then Ok (RC_INVALID_VALUE, resource, t) else
    let physicalClusterID := getPhysicalClusterId clusterValue t in
    if (physicalClusterID =? -1) && negb (is_pass_through rConf)
    then Ok (RC_INVALID_VALUE, resource, t)
    else Ok (RC_SUCCESS, setClusterValue physicalClusterID resource, t)
  | _ => Ok (RC_SUCCESS, resource, t)
  end.

Section RequestHandler.
(** The resource configurations and the device mode ([targetConfigs.currMode]). *)
Context {R : Type} `{!ResourceConfigs R} (reg : R) (mode : Z).

(** The body of the loop of [VerifyIncomingRequest] for one resource: the resource
    and whether it counts as forwarded. *)
Definition verify_resource (clientPermissions : Z) (resource : Resource) (t : TargetRegistry)
  : result (bool * Resource * TargetRegistry) :=
  let skip t := Ok (false, setResAction RES_SKIP resource, t) in
  match getResConf reg (getResCode resource) with
  | None => skip t
  | Some rConf =>
    out ← (if getValuesCount resource =? 1 then
             configValue ← getValueAt resource 0;
             let low := mLowThreshold rConf in
             let high := mHighThreshold rConf in
             Ok ((negb (low =? -1) && negb (high =? -1)) &&
                 ((configValue <? low) || (configValue >? high)))
           else Ok false);
    if (out : bool) then skip t else
    if (mPermissions rConf =? PERMISSION_SYSTEM) && (clientPermissions =? PERMISSION_THIRD_PARTY)
    then skip t else
    '(rc, resource', t) ← translateToPhysicalIDs rConf resource t;
    if RC_IS_NOTOK rc then skip t else Ok (true, resource', t)
  end.

(** The loop: [None] when a node carries no resource, which rejects the request. *)
Fixpoint verify_loop (nodes : list positive) (clientPermissions forwardCount : Z) (s : Store)
    (t : TargetRegistry) : result (option Z * Store * TargetRegistry) :=
  match nodes with
  | [] => Ok (Some forwardCount, s, t)
  | x :: nodes =>
    match st_data s !! x with
    | None => Ok (None, s, t)
    | Some resource =>
      '(fwd, resource, t) ← verify_resource clientPermissions resource t;
      verify_loop nodes clientPermissions (forwardCount + i8_of_bool fwd) (set_data x resource s) t
    end
  end.

(** [VerifyIncomingRequest]: the verdict and the request with its new properties. *)
Definition VerifyIncomingRequest (req : Request) (c : ClientDataManager) (s : Store)
    (t : TargetRegistry) : result (bool * Request * Store * TargetRegistry) :=
  let dur := getDuration (req_msg req) in
  if (dur <? -1) || (dur =? 0) then Ok (false, req, s, t) else
  let req := with_msg (addProcessingMode MODE_RESUME (req_msg req)) req in
  if negb (mode =? MODE_RESUME) then Ok (false, req, s, t) else
  let clientPermissions := getClientLevelByID (getClientPID (req_msg req)) c in
  if clientPermissions =? -1 then Ok (false, req, s, t) else
  let reqSpecifiedPriority := getPriority (req_msg req) in
  if (reqSpecifiedPriority >? THIRD_PARTY_LOW) || (reqSpecifiedPriority <? SYSTEM_HIGH)
  then Ok (false, req, s, t) else
  let allowedPriority := getRequestPriority clientPermissions reqSpecifiedPriority in
  if allowedPriority =? -1 then Ok (false, req, s, t) else
  let req := with_msg (setPriority allowedPriority (req_msg req)) req in
  match getResDlMgr req with
  | None => Ok (false, req, s, t)
  | Some l =>
    nodes ← DL_ITERATE (st_links s) l;
    '(forwardCount, s, t) ← verify_loop nodes clientPermissions 0 s t;
    Ok (match forwardCount with Some n => negb (n =? 0) | None => false end, req, s, t)
  end.

End RequestHandler.

(** ** Targets whose mappings are complete *)

(** Every logical cluster maps to a known physical one, and cluster and cpu numbers
    fit the bytes of the info word. *)
Definition target_ok (t : TargetRegistry) : Prop :=
  forall l p, mLogicalToPhysicalClusterMapping t !! l = Some p ->
    0 <= p < 256 /\
    exists c start, mPhysicalClusters t !! p = Some (Some c) /\ cluster_ok c start /\
      start + mNumCpus c <= 256.

(** The physical core and cluster a logical pair stands for; core 0 is all cores. *)
Definition physical_of (t : TargetRegistry) (core cluster : Z) (core' cluster' : Z) : Prop :=
  mLogicalToPhysicalClusterMapping t !! cluster = Some cluster' /\
  exists c start, mPhysicalClusters t !! cluster' = Some (Some c) /\ mStartCpu c = Some start /\
    if core =? 0 then core' = 0 else 1 <= core <= mNumCpus c /\ core' = start + core - 1.

Lemma getPhysicalClusterId_ok t l :
  target_ok t ->
  (exists p, mLogicalToPhysicalClusterMapping t !! l = Some p /\ getPhysicalClusterId l t = p /\
     0 <= p < 256) \/
  (mLogicalToPhysicalClusterMapping t !! l = None /\ getPhysicalClusterId l t = -1).
Proof.
  intros Ht. unfold getPhysicalClusterId.
  destruct (mLogicalToPhysicalClusterMapping t !! l) as [p|] eqn:E; [left|by right].
  exists p. destruct (Ht _ _ E) as [? _]. by split_and!; try lia.
Qed.

Lemma getPhysicalCoreId_mapped t l k p c start :
  mLogicalToPhysicalClusterMapping t !! l = Some p -> mPhysicalClusters t !! p = Some (Some c) ->
  cluster_ok c start ->
  getPhysicalCoreId l k t =
    Ok (if (1 <=? k) && (k <=? mNumCpus c) then start + k - 1 else -1, t).
Proof.
  intros Hl Hc [Hs H0 Hn He].
  assert ((size (mPhysicalClusters t) =? 0)%nat = false) as Hsz.
  { apply Nat.eqb_neq. intros E. apply map_size_empty_inv in E. by rewrite E in Hc. }
  unfold getPhysicalCoreId. rewrite Hsz, Hl, (getClusterInfo_hit t p c Hc).
  destruct ((k <=? 0) || (k >? mNumCpus c)) eqn:Ek; zb.
  - by replace ((1 <=? k) && _) with false by zcase.
  - replace ((1 <=? k) && _) with true by zcase. rewrite Hs. simpl. unfold max_s in He.
    by do 2 (rewrite chk_s_ok by (unfold in_s; lia); simpl).
Qed.

Lemma performPhysicalMapping_ok t core cluster :
  target_ok t -> in_u 8 core ->
  (exists core' cluster', performPhysicalMapping core cluster t = Ok (Some (core', cluster'), t) /\
     physical_of t core cluster core' cluster' /\ in_u 8 core' /\ in_u 8 cluster') \/
  (performPhysicalMapping core cluster t = Ok (None, t) /\
     forall core' cluster', ~ physical_of t core cluster core' cluster').
Proof.
  intros Ht Hcore. unfold performPhysicalMapping, physical_of.
  destruct (getPhysicalClusterId_ok t cluster Ht) as [(p & E & -> & Hp)|[E ->]].
  - destruct (Ht _ _ E) as (_ & c & start & Ec & Hok & Hend). pose proof Hok as [Hs H0 Hn _].
    destruct (Z.eqb_spec core 0) as [->|Hne]; cbn [negb].
    + left. exists 0, p. cbn [mbind result_bind]. replace (p =? -1) with false by lia.
      split_and!; try done. by exists c, start.
    + rewrite (getPhysicalCoreId_mapped t cluster core p c start E Ec Hok). cbn [mbind result_bind].
      destruct ((1 <=? core) && (core <=? mNumCpus c)) eqn:Ek; zb.
      * left. exists (start + core - 1), p. replace (_ =? -1) with false by lia.
        replace (p =? -1) with false by lia. split_and!; try done; try (unfold in_u; lia).
        exists c, start. split_and!; try done; lia.
      * right. split; [done|]. intros core' cluster' (E' & c' & s' & Ec' & _ & H & _).
        rewrite E in E'. injection E' as <-. rewrite Ec in Ec'. injection Ec' as <-.
        unfold in_u in Hcore. destruct Ek; zb; lia.
  - right. split.
    + destruct (negb (core =? 0)).
      * unfold getPhysicalCoreId. rewrite E.
        destruct (_ =? 0)%nat; cbn [mbind result_bind]; by rewrite andb_false_r.
      * cbn [mbind result_bind]. by rewrite andb_false_r.
    + intros ? ? [? _]. congruence.
Qed.

(** ** What a forwarded resource satisfies *)

Definition in_bounds (conf : ResConfInfo) (res : Resource) : Prop :=
  getValuesCount res = 1 -> mLowThreshold conf <> -1 -> mHighThreshold conf <> -1 ->
  mLowThreshold conf <= value_at res 0 <= mHighThreshold conf.

Definition may_tune (perm : Z) (conf : ResConfInfo) : Prop :=
  ~ (mPermissions conf = PERMISSION_SYSTEM /\ perm = PERMISSION_THIRD_PARTY).

(** Only the core and cluster of the resource have changed. *)
Definition same_but_info (res res' : Resource) : Prop :=
  res' = set_resinfo (mResInfo res') res /\ in_u 32 (mResInfo res').

Definition translated (t : TargetRegistry) (conf : ResConfInfo) (res res' : Resource) : Prop :=
  match mApplyType conf with
  | APPLY_CORE =>
    physical_of t (getCoreValue res) (getClusterValue res) (getCoreValue res') (getClusterValue res') \/
    (mPolicy conf = PASS_THROUGH /\
     (forall c k, ~ physical_of t (getCoreValue res) (getClusterValue res) c k) /\
     getCoreValue res' = getCoreValue res /\ getClusterValue res' = getClusterValue res)
  | APPLY_CLUSTER =>
    (mLogicalToPhysicalClusterMapping t !! getClusterValue res = Some (getClusterValue res') /\
     getCoreValue res' = getCoreValue res) \/
    (mPolicy conf = PASS_THROUGH /\
     mLogicalToPhysicalClusterMapping t !! getClusterValue res = None /\ getClusterValue res' = 255)
  | _ => res' = res
  end.

Definition forwardable (t : TargetRegistry) (perm : Z) (conf : ResConfInfo) (res res' : Resource)
  : Prop :=
  in_bounds conf res /\ may_tune perm conf /\ translated t conf res res' /\ same_but_info res res'.

Lemma same_but_info_refl r : res_ok r -> same_but_info r r.
Proof. intros [_ Hi _ _]. split; [by destruct r|done]. Qed.
Lemma same_but_info_core c r : same_but_info r (setCoreValue c r).
Proof. split; [done|apply wrap_u_range; lia]. Qed.
Lemma same_but_info_cluster c r : same_but_info r (setClusterValue c r).
Proof. split; [done|apply wrap_u_range; lia]. Qed.
Lemma same_but_info_trans r r' r'' : same_but_info r r' -> same_but_info r' r'' -> same_but_info r r''.
Proof. intros [-> H1] [-> H2]. by split. Qed.
Lemma same_but_info_ok r r' : same_but_info r r' -> res_ok r -> res_ok r'.
Proof. intros [-> Hi] [Hc _ Hn Hv]. by split. Qed.

Lemma is_pass_through_true conf : is_pass_through conf = true <-> mPolicy conf = PASS_THROUGH.
Proof. apply bool_decide_eq_true. Qed.

Lemma translateToPhysicalIDs_ok t conf res :
  res_ok res -> target_ok t ->
  (exists res', translateToPhysicalIDs conf res t = Ok (RC_SUCCESS, res', t) /\
     translated t conf res res' /\ same_but_info res res') \/
  (translateToPhysicalIDs conf res t = Ok (RC_INVALID_VALUE, res, t) /\
     forall res', ~ translated t conf res res').
Proof.
  intros Hr Ht. pose proof (ok_info _ Hr) as Hi.
  pose proof (core_range res) as Hcore. pose proof (cluster_range res) as Hcl.
  unfold translateToPhysicalIDs, translated. unfold in_u in *.
  destruct (mApplyType conf) eqn:Ea; try (left; exists res; by split_and!; try apply same_but_info_refl).
  - replace (getCoreValue res <? 0) with false by lia.
    replace (getClusterValue res <? 0) with false by lia.
    destruct (performPhysicalMapping_ok t (getCoreValue res) (getClusterValue res) Ht)
      as [(c' & k' & -> & Hp & Hc' & Hk')|[-> Hno]]; [done| |]; cbn [mbind result_bind].
    + left. eexists. split; [done|].
      assert (same_but_info res (setClusterValue k' (setCoreValue c' res))) as Hs
        by (eapply same_but_info_trans; [apply same_but_info_core|apply same_but_info_cluster]).
      split; [left|done].
      rewrite setClusterValue_cluster, setClusterValue_core, setCoreValue_core
        by (done || apply wrap_u_range; lia). done.
    + destruct (is_pass_through conf) eqn:Epass; cbn [negb].
      * left. apply is_pass_through_true in Epass. eexists. split; [done|].
        split; [|eapply same_but_info_trans; [apply same_but_info_core|apply same_but_info_cluster]].
        right. rewrite setClusterValue_cluster, setClusterValue_core, setCoreValue_core
          by (done || apply wrap_u_range; lia). done.
      * right. split; [done|]. intros res' [Hp|[Hp _]]; [by apply Hno in Hp|].
        apply is_pass_through_true in Hp. congruence.
  - replace (getClusterValue res <? 0) with false by lia.
    destruct (getPhysicalClusterId_ok t (getClusterValue res) Ht) as [(p & E & -> & Hp)|[E ->]].
    + left. replace (p =? -1) with false by lia. cbn [andb]. eexists. split; [done|].
      split; [left|apply same_but_info_cluster].
      by rewrite setClusterValue_cluster, setClusterValue_core by (done || unfold in_u; lia).
    + destruct (is_pass_through conf) eqn:Epass; cbn [negb andb Z.eqb Pos.eqb].
      * left. apply is_pass_through_true in Epass. eexists. split; [done|].
        split; [right|apply same_but_info_cluster]. split_and!; [done|done|].
        by apply setClusterValue_minus_one.
      * right. split; [done|]. intros res' [[Hp _]|[Hp _]]; [congruence|].
        apply is_pass_through_true in Hp. congruence.
Qed.

Lemma Forall2_impl_in {A B} (P Q : A -> B -> Prop) xs ys :
  (forall x y, x ∈ xs -> P x y -> Q x y) -> Forall2 P xs ys -> Forall2 Q xs ys.
Proof. intros HQ. induction 1; constructor; [|apply IHForall2]; set_solver. Qed.

Section Facts.
Context {R : Type} `{!ResourceConfigs R} (reg : R) (mode : Z).
Context (t : TargetRegistry) (Ht : target_ok t).

Definition forwarded (perm : Z) (res res' : Resource) : Prop :=
  exists conf, getResConf reg (getResCode res) = Some conf /\ forwardable t perm conf res res'.

(** The fate of one resource. *)
Definition verdict (perm : Z) (fwd : bool) (res res' : Resource) : Prop :=
  if fwd then forwarded perm res res'
  else res' = setResAction RES_SKIP res /\ forall res'', ~ forwarded perm res res''.

Lemma not_forwarded perm res conf :
  getResConf reg (getResCode res) = Some conf ->
  (forall res', ~ forwardable t perm conf res res') -> forall res', ~ forwarded perm res res'.
Proof. intros E Hno res' (conf' & E' & Hf). rewrite E in E'. injection E' as <-. by eapply Hno. Qed.

(** The range check of a single-valued resource. *)
Lemma out_of_bounds_ok conf res :
  res_ok res ->
  exists b, (if getValuesCount res =? 1 then
      configValue ← getValueAt res 0;
      Ok ((negb (mLowThreshold conf =? -1) && negb (mHighThreshold conf =? -1)) &&
          ((configValue <? mLowThreshold conf) || (configValue >? mHighThreshold conf)))
    else Ok false : result bool) = Ok b /\ (b = false <-> in_bounds conf res).
Proof.
  intros Hr. unfold in_bounds.
  destruct (Z.eqb_spec (getValuesCount res) 1) as [E|E]; [|exists false; split; [done|tauto]].
  rewrite getValueAt_ok by done. cbn [mbind result_bind]. eexists. split; [done|].
  destruct (Z.eqb_spec (mLowThreshold conf) (-1)), (Z.eqb_spec (mHighThreshold conf) (-1)),
    (Z.ltb_spec (value_at res 0) (mLowThreshold conf)),
    (Z.gtb_spec (value_at res 0) (mHighThreshold conf)); cbn [negb andb orb];
    (split; [intros; lia || done|intros Hb; try done; specialize (Hb E); lia]).
Qed.

Lemma verify_resource_ok perm res :
  res_ok res ->
  exists fwd res', verify_resource reg perm res t = Ok (fwd, res', t) /\
    verdict perm fwd res res' /\ res_ok res'.
Proof.
  intros Hr. assert (res_ok (setResAction RES_SKIP res)) as Hskip by (destruct Hr; by split).
  unfold verify_resource. destruct (getResConf reg (getResCode res)) as [conf|] eqn:Ec.
  - destruct (out_of_bounds_ok conf res Hr) as (b & -> & Hb). cbn [mbind result_bind].
    assert (forall P, (forall res', ~ forwardable t perm conf res res') -> P = (false, setResAction RES_SKIP res, t) ->
      exists fwd res', Ok P = Ok (fwd, res', t) /\ verdict perm fwd res res' /\ res_ok res') as Hno.
    { intros P Hn ->. exists false, (setResAction RES_SKIP res). split; [done|]. split; [|done].
      split; [done|]. by eapply not_forwarded. }
    destruct b; [apply Hno; [|done]; intros ? (H & _); by apply Hb in H|].
    destruct ((mPermissions conf =? PERMISSION_SYSTEM) && (perm =? PERMISSION_THIRD_PARTY)) eqn:Ep.
    { apply Hno; [|done]. intros ? (_ & H & _). zb. by apply H. }
    destruct (translateToPhysicalIDs_ok t conf res Hr Ht) as [(res' & -> & Htr & Hs)|[-> Htr]];
      cbn [mbind result_bind].
    + exists true, res'. split; [done|]. split; [|by eapply same_but_info_ok].
      exists conf. split; [done|]. split; [by apply Hb|]. split; [|done].
      intros [E1 E2]. by rewrite E1, E2 in Ep.
    + apply Hno; [|done]. intros res' (_ & _ & H & _). by apply Htr in H.
  - exists false, (setResAction RES_SKIP res). split; [done|]. split; [|done]. split; [done|].
    intros ? (conf & E & _). congruence.
Qed.

(** How many of the verdicts forward their resource. *)
Definition forward_count (fwds : list bool) : Z := Z.of_nat (length (filter (fun b => b = true) fwds)).

Lemma verify_loop_ok perm : forall xs rs s n,
  NoDup xs -> node_data s xs rs ->
  exists fwds rs' s', verify_loop reg xs perm n s t = Ok (Some (n + forward_count fwds), s', t) /\
    Forall3 (verdict perm) fwds rs rs' /\ node_data s' xs rs' /\
    st_links s' = st_links s /\ st_freed s' = st_freed s /\
    forall y, y ∉ xs -> st_data s' !! y = st_data s !! y.
Proof.
  induction xs as [|x xs IH]; intros rs s n Hnd [H2 Hok]; cbn [verify_loop].
  - inversion H2; subst. exists [], [], s. unfold forward_count. simpl. rewrite Z.add_0_r.
    split_and!; try done; constructor.
  - apply Forall2_cons_inv_l in H2 as (r & rs0 & Hx & H2 & ->).
    apply Forall_cons in Hok as [Hr Hok]. apply NoDup_cons in Hnd as [Hnin Hnd]. rewrite Hx.
    destruct (verify_resource_ok perm r Hr) as (fwd & r' & -> & Hv & Hr'). cbn [mbind result_bind].
    assert (node_data (set_data x r' s) xs rs0) as Hd.
    { split; [|done]. eapply Forall2_impl_in; [|exact H2]. intros y ry Hy Ey. simpl.
      rewrite lookup_insert_ne; [done|]. by intros ->. }
    destruct (IH rs0 _ (n + i8_of_bool fwd) Hnd Hd)
      as (fwds & rs' & s' & -> & Hf & [Hd2 Hdok] & Hl & Hfr & Ho).
    exists (fwd :: fwds), (r' :: rs'), s'. split; [|split_and!].
    + do 3 f_equal. f_equal. unfold forward_count. rewrite filter_cons. destruct fwd; simpl; lia.
    + by constructor.
    + split; constructor; try done. rewrite Ho by done. simpl. by rewrite lookup_insert_eq.
    + by rewrite Hl.
    + by rewrite Hfr.
    + intros y Hy. apply not_elem_of_cons in Hy as [Hne Hy]. rewrite Ho by done. simpl.
      by rewrite lookup_insert_ne.
Qed.
End Facts.

(** ** The request level checks *)

(** Duration, device mode, client level and priority. *)
Definition request_guards (mode : Z) (c : ClientDataManager) (req : Request) : Prop :=
  let m := req_msg req in
  let perm := getClientLevelByID (getClientPID m) c in
  (mDuration m = -1 \/ 0 < mDuration m) /\ mode = MODE_RESUME /\ perm <> -1 /\
  SYSTEM_HIGH <= getPriority m <= THIRD_PARTY_LOW /\ getRequestPriority perm (getPriority m) <> -1.

(** The granted priority keeps the bits of the requested one, so OR-ing it in stores it. *)
Lemma getRequestPriority_or perm prio :
  getRequestPriority perm prio <> -1 ->
  Z.lor prio (getRequestPriority perm prio) = getRequestPriority perm prio /\
  SYSTEM_HIGH <= getRequestPriority perm prio <= THIRD_PARTY_LOW /\
  in_s 8 (getRequestPriority perm prio).
Proof.
  unfold getRequestPriority, REQ_PRIORITY_HIGH, REQ_PRIORITY_LOW, THIRD_PARTY_HIGH, THIRD_PARTY_LOW,
    SYSTEM_HIGH, SYSTEM_LOW, in_s.
  destruct (perm =? _); [|destruct (perm =? _); [|done]];
    (destruct (Z.eqb_spec prio 0) as [->|]; [intros _; cbn [Z.eqb Pos.eqb orb]; split_and!; reflexivity || lia|]);
    (destruct (Z.eqb_spec prio 1) as [->|]; [intros _; cbn [Z.eqb Pos.eqb orb]; split_and!; reflexivity || lia|]); [done|].
  destruct (Z.eqb_spec prio 2) as [->|]; [intros _; cbn [Z.eqb Pos.eqb orb]; split_and!; reflexivity || lia|].
  destruct (Z.eqb_spec prio 3) as [->|]; [intros _; cbn [Z.eqb Pos.eqb orb]; split_and!; reflexivity || lia|done].
Qed.

Lemma request_guards_dec mode c req : request_guards mode c req \/ ~ request_guards mode c req.
Proof.
  unfold request_guards. destruct (decide (mode = MODE_RESUME)); [|right; tauto].
  cbv zeta. set (p := getRequestPriority _ _). set (q := getPriority _). set (v := getClientLevelByID _ _).
  destruct (Z.lt_ge_cases 0 (mDuration (req_msg req))), (decide (mDuration (req_msg req) = -1)),
    (decide (v = -1)), (decide (p = -1)), (Z.le_gt_cases SYSTEM_HIGH q), (Z.le_gt_cases q THIRD_PARTY_LOW);
    ((left; split_and!; auto; fail) || (right; intros (?&?&?&?&?); lia)).
Qed.

(** The request with its mode and granted priority. *)
Definition granted (c : ClientDataManager) (req : Request) : Request :=
  let m := addProcessingMode MODE_RESUME (req_msg req) in
  let perm := getClientLevelByID (getClientPID (req_msg req)) c in
  with_msg (setPriority (getRequestPriority perm (getPriority m)) m) req.

Lemma granted_priority mode c req :
  request_guards mode c req ->
  getPriority (req_msg (granted c req)) =
    getRequestPriority (getClientLevelByID (getClientPID (req_msg req)) c) (getPriority (req_msg req)).
Proof.
  intros (_ & _ & _ & _ & Hp). unfold granted. cbn [req_msg with_msg].
  rewrite addProcessingMode_priority. destruct (getRequestPriority_or _ _ Hp) as (Hor & _ & Hs).
  by rewrite setPriority_or, addProcessingMode_priority by done.
Qed.

(** Verification keeps the handle, the client and the type of a request. *)
Definition same_client (req req' : Request) : Prop :=
  getHandle (req_msg req') = getHandle (req_msg req) /\
  getClientPID (req_msg req') = getClientPID (req_msg req) /\
  getClientTID (req_msg req') = getClientTID (req_msg req) /\
  getRequestType (req_msg req') = getRequestType (req_msg req).

(** A request that fails a check is refused before any resource is looked at. *)
Lemma VerifyIncomingRequest_guarded {R} `{!ResourceConfigs R} (reg : R) mode req c s t :
  ~ request_guards mode c req ->
  exists req', VerifyIncomingRequest reg mode req c s t = Ok (false, req', s, t) /\
    mResourceList req' = mResourceList req /\ same_client req req'.
Proof.
  intros Hg. unfold VerifyIncomingRequest, getDuration. cbv zeta.
  destruct ((mDuration (req_msg req) <? -1) || (mDuration (req_msg req) =? 0)) eqn:Ed; [by eexists|].
  destruct (negb (mode =? MODE_RESUME)) eqn:Em; [by eexists|].
  change (getClientPID (req_msg (with_msg (addProcessingMode MODE_RESUME (req_msg req)) req)))
    with (getClientPID (req_msg req)).
  destruct (_ =? -1) eqn:Ec in |- *; [by eexists|].
  cbn [req_msg with_msg]. rewrite addProcessingMode_priority.
  destruct (_ || _) eqn:Er in |- *; [by eexists|].
  destruct (_ =? -1) eqn:Ep in |- *; [by eexists|].
  exfalso. apply Hg. zb. split_and!; lia.
Qed.

(** Past the guards, the resources decide. *)
Lemma VerifyIncomingRequest_pass {R} `{!ResourceConfigs R} (reg : R) mode req c s t :
  request_guards mode c req ->
  VerifyIncomingRequest reg mode req c s t =
  match mResourceList req with
  | None => Ok (false, granted c req, s, t)
  | Some l =>
    nodes ← DL_ITERATE (st_links s) l;
    '(forwardCount, s, t) ←
      verify_loop reg nodes (getClientLevelByID (getClientPID (req_msg req)) c) 0 s t;
    Ok (match forwardCount with Some n => negb (n =? 0) | None => false end, granted c req, s, t)
  end.
Proof.
  intros (Hdur & Hmode & Hperm & Hprio & Hgrant).
  unfold VerifyIncomingRequest, getDuration. cbv zeta.
  replace (_ || _) with false by (symmetry; zcase; lia).
  replace (negb (mode =? MODE_RESUME)) with false by (subst mode; reflexivity).
  cbn [req_msg with_msg].
  change (getClientPID (addProcessingMode MODE_RESUME (req_msg req))) with (getClientPID (req_msg req)).
  replace (_ =? -1) with false by lia. rewrite addProcessingMode_priority.
  replace (_ || _) with false by (symmetry; zcase; lia).
  replace (_ =? -1) with false by lia.
  unfold getResDlMgr, granted. rewrite addProcessingMode_priority. reflexivity.
Qed.

Lemma VerifyIncomingRequest_checked {R} `{!ResourceConfigs R} (reg : R) mode req c s t l xs rs :
  request_guards mode c req -> mResourceList req = Some l -> is_dll (st_links s) l xs ->
  node_data s xs rs -> target_ok t ->
  exists fwds rs' s',
    VerifyIncomingRequest reg mode req c s t =
      Ok (negb (forward_count fwds =? 0), granted c req, s', t) /\
    Forall3 (verdict reg t (getClientLevelByID (getClientPID (req_msg req)) c)) fwds rs rs' /\
    node_data s' xs rs' /\ st_links s' = st_links s /\ st_freed s' = st_freed s /\
    forall y, y ∉ xs -> st_data s' !! y = st_data s !! y.
Proof.
  intros Hg Hl Hd Hn Ht. rewrite (VerifyIncomingRequest_pass _ _ _ _ _ _ Hg), Hl.
  rewrite (DL_ITERATE_refines _ _ _ Hd). cbn [mbind result_bind].
  destruct (verify_loop_ok reg t Ht (getClientLevelByID (getClientPID (req_msg req)) c) xs rs s 0
    (dll_nodup _ _ _ Hd) Hn) as (fwds & rs' & s' & -> & Hf & Hd' & Hrest).
  exists fwds, rs', s'. cbn [mbind result_bind]. by rewrite Z.add_0_l.
Qed.

(** Verification never faults and leaves a well-formed request. *)
Lemma VerifyIncomingRequest_total {R} `{!ResourceConfigs R} (reg : R) mode req c s t xs rs :
  req_list s req xs -> node_data s xs rs -> target_ok t ->
  exists ok req' s' rs', VerifyIncomingRequest reg mode req c s t = Ok (ok, req', s', t) /\
    mResourceList req' = mResourceList req /\ same_client req req' /\
    node_data s' xs rs' /\ st_links s' = st_links s /\ st_freed s' = st_freed s /\
    (forall y, y ∉ xs -> st_data s' !! y = st_data s !! y) /\
    (ok = true -> SYSTEM_HIGH <= getPriority (req_msg req') <= THIRD_PARTY_LOW).
Proof.
  intros Hl Hn Ht. destruct (request_guards_dec mode c req) as [Hg|Hg].
  - unfold req_list in Hl. destruct (mResourceList req) as [l|] eqn:El.
    + destruct (VerifyIncomingRequest_checked reg mode req c s t l xs rs Hg El (proj2 Hl) Hn Ht)
        as (fwds & rs' & s' & E & _ & Hd & Hk & Hf & Ho).
      eexists _, _, s', rs'. split; [exact E|]. split; [exact El|]. split_and!; try done.
      all: intros _; rewrite (granted_priority _ _ _ Hg); apply getRequestPriority_or, Hg.
    + pose proof (VerifyIncomingRequest_pass reg mode req c s t Hg) as E. rewrite El in E.
      eexists _, _, s, rs. split; [exact E|]. split; [exact El|]. by split_and!.
  - destruct (VerifyIncomingRequest_guarded reg mode req c s t Hg) as (req' & E & Hl' & Hc).
    eexists _, _, s, rs. split; [exact E|]. by split_and!.
Qed.

(** ** Properties *)

(** C12: verification of a tune request.  On a target whose mappings are complete, it never
    faults.  A request that fails a check of its duration, the device mode, its client or
    its priority is refused with nothing changed but its own properties.  Otherwise
    every resource gets a verdict: it is forwarded exactly when its code is configured,
    its single value is within the thresholds, its client may tune it and its core and
    cluster have a physical counterpart (or the resource is pass-through), and then
    carries the physical ids with everything else unchanged; any other one is only
    marked as skipped.  The request is accepted exactly when some resource is
    forwarded, with the priority granted to its client. *)
Theorem VerifyIncomingRequest_verdict {R : Type} `{!ResourceConfigs R} (reg : R) (mode : Z)
    (req : Request) (c : ClientDataManager) (s : Store) (t : TargetRegistry) (l : DLManager)
    (xs : list positive) (rs : list Resource) :
  mResourceList req = Some l -> is_dll (st_links s) l xs -> node_data s xs rs -> target_ok t ->
  let perm := getClientLevelByID (getClientPID (req_msg req)) c in
  exists ok req' s', VerifyIncomingRequest reg mode req c s t = Ok (ok, req', s', t) /\
    mResourceList req' = mResourceList req /\
    (~ request_guards mode c req -> ok = false /\ s' = s) /\
    (request_guards mode c req ->
       getPriority (req_msg req') = getRequestPriority perm (getPriority (req_msg req)) /\
       SYSTEM_HIGH <= getPriority (req_msg req') <= THIRD_PARTY_LOW /\
       st_links s' = st_links s /\
       exists fwds rs', Forall3 (verdict reg t perm) fwds rs rs' /\ node_data s' xs rs' /\
         (ok = true <-> true ∈ fwds)).
Proof.
  intros Hl Hd Hn Ht perm.
  destruct (request_guards_dec mode c req) as [Hg|Hg].
  - destruct (VerifyIncomingRequest_checked reg mode req c s t l xs rs Hg Hl Hd Hn Ht)
      as (fwds & rs' & s' & E & Hf & Hd' & Hlinks & _).
    eexists _, _, s'. split; [exact E|]. split; [done|]. split; [tauto|]. intros _.
    pose proof (granted_priority _ _ _ Hg) as Hp. split; [done|]. split.
    { rewrite Hp. by apply getRequestPriority_or, Hg. }
    split; [done|]. exists fwds, rs'. split; [done|]. split; [done|].
    unfold forward_count. split.
    + intros Hne. apply negb_true_iff, Z.eqb_neq in Hne.
      destruct (filter (fun b => b = true) fwds) as [|b bs] eqn:Efl; [done|].
      assert (b ∈ filter (fun b => b = true) fwds) as Hb by (rewrite Efl; left).
      apply list_elem_of_filter in Hb as [-> ?]. done.
    + intros Hin. assert (true ∈ filter (fun b => b = true) fwds) as Hb by by apply list_elem_of_filter.
      destruct (filter (fun b => b = true) fwds); [by apply not_elem_of_nil in Hb|done].
  - destruct (VerifyIncomingRequest_guarded reg mode req c s t Hg) as (req' & E & Hl' & _).
    exists false, req', s. by split_and!.
Qed.

(** A request with one resource, value 10, for a system-wide tunable bounded by 0 and
    [sample_conf]'s high threshold. *)
Lemma VerifyIncomingRequest_verdict_witness :
  let conf := setLifeCycleCallbacks (sample_conf 3 7 HIGHER_BETTER APPLY_GLOBAL) in
  let reg := mkRR 1 [conf] {[resourceBitmap conf := 0]} ∅ in
  let res := mkResource 196615 0 0 1 (Inline 10 0) RES_FORWARD in
  let c := set_repo {[7 := mkClientInfo 1 1 [Some 8]]} ClientDataManager_init in
  exists l h req' s',
    let req := mkRequest (mkMessage 6 (-1) 1 7 8 0) None (Some l) 0 in
    VerifyIncomingRequest reg MODE_RESUME req c (mkStore h {[1%positive := res]} ∅) TargetRegistry_init =
      Ok (true, req', s', TargetRegistry_init) /\ getPriority (req_msg req') = THIRD_PARTY_LOW.
Proof.
  intros conf reg res c.
  destruct (insert_refines (fresh_heap 1 2) (DLManager_init 0) [] 1) as (h & l & El & Hl & _).
  { by apply is_dll_init. } { split; [vm_compute; eauto|set_solver]. }
  vm_compute in El. injection El as <- <-.
  match type of Hl with is_dll ?h ?l _ => exists l, h end.
  match goal with |- context [mkStore ?h ?d ?f] => set (s := mkStore h d f) end.
  match goal with |- context [mkRequest ?m ?t ?l ?z] => set (req := mkRequest m t l z) end.
  destruct (VerifyIncomingRequest_verdict reg MODE_RESUME req c s TargetRegistry_init
    _ [1%positive] [res] eq_refl Hl) as (ok & req' & s' & E & _ & _ & H).
  - split; repeat constructor; simpl; lia || (unfold in_u; lia) || done.
  - intros l p. simpl. by rewrite lookup_empty.
  - destruct H as (Hp & _ & _ & fwds & rs' & Hf & _ & Hok).
    + unfold request_guards. vm_compute. split_and!; try (by left); try discriminate; done.
    + exists req', s'. cbv zeta. assert (ok = true) as ->; [|split; [exact E|rewrite Hp; vm_compute; reflexivity]].
      vm_compute in E. by injection E as <-.
Defined.
