(* ===== verification/ResourceHooks.v ===== *)
(** [resource-tuner/core/ResourceHooks.cpp]: the callbacks that make a resource take
    effect on the device, and those that reset it: the defaults for each apply type
    and the special ones for cgroup membership, cpu sets and task affinity.

    A hook runs on a [Device]: the files, the registry (for the configurations and the
    stored defaults), the target and the kernel's cpu affinities.  An output stream that
    opens is taken to store what is written; a failed write is only logged.  [Scheduler]
    stands for the two system calls on affinities. *)
From Stdlib Require Import Ascii.
From stdpp Require Import pretty.
From S2P Require Import Prelude UrmTypes SafeOps Resource StdString AuxRoutines TargetRegistry ResourceRegistry Extensions.
Open Scope string_scope.
Open Scope list_scope.
Open Scope Z_scope.

Definition mBaseCGroupPath : string := "/sys/fs/cgroup/".

(** ** cpu_set_t

    A set of cpus as a number; ids outside the set are ignored by [CPU_SET]. *)
Definition CPU_SETSIZE : Z := 1024.
Definition CPU_SET (cpu mask : Z) : Z :=
  if (0 <=? cpu) && (cpu <? CPU_SETSIZE) then Z.setbit mask cpu else mask.
Definition CPU_ISSET (cpu mask : Z) : bool :=
  (0 <=? cpu) && (cpu <? CPU_SETSIZE) && Z.testbit mask cpu.

(** [sched_getaffinity] and [sched_setaffinity]; [None] is the result -1. *)
Class Scheduler (K : Type) := {
  sched_getaffinity : K -> Z -> option Z;
  sched_setaffinity : K -> Z -> Z -> option K
}.

(** What their manual page says: the cpus of a task are a non-empty set of those it may
    run on; a mask is cut to those, and refused when nothing is left. *)
Class SchedulerLaws (K : Type) `{!Scheduler K} (permitted : Z -> Z) := {
  law_get : forall k pid m, sched_getaffinity k pid = Some m ->
    m <> 0 /\ in_u CPU_SETSIZE m /\ Z.land m (permitted pid) = m;
  law_set : forall k pid m mask, sched_getaffinity k pid = Some m ->
    Z.land mask (permitted pid) <> 0 ->
    exists k', sched_setaffinity k pid mask = Some k' /\
      forall pid', sched_getaffinity k' pid' =
        if decide (pid' = pid) then Some (Z.land mask (permitted pid))
        else sched_getaffinity k pid';
  law_refused : forall k pid mask,
    Z.land mask (permitted pid) = 0 -> sched_setaffinity k pid mask = None
}.

(** ** The device *)
Record Device (K : Type) := mkDevice {
  dev_fs : FileSystem;
  dev_reg : ResourceRegistry;
  dev_target : TargetRegistry;
  dev_sched : K
}.
Arguments mkDevice {K}.
Arguments dev_fs {K}.
Arguments dev_reg {K}.
Arguments dev_target {K}.
Arguments dev_sched {K}.

Section Hooks.
Context {K : Type} `{!Scheduler K}.
Abbreviation Hook := (option Resource -> Device K -> result (Device K)).

Definition on_fs (g : FileSystem -> FileSystem) (d : Device K) : Device K :=
  mkDevice (g (dev_fs d)) (dev_reg d) (dev_target d) (dev_sched d).
Definition with_reg (r : ResourceRegistry) (d : Device K) : Device K :=
  mkDevice (dev_fs d) r (dev_target d) (dev_sched d).
Definition with_target (t : TargetRegistry) (d : Device K) : Device K :=
  mkDevice (dev_fs d) (dev_reg d) t (dev_sched d).
Definition with_sched (k : K) (d : Device K) : Device K :=
  mkDevice (dev_fs d) (dev_reg d) (dev_target d) k.

Definition conf_at (resource : Resource) (d : Device K) : option ResConfInfo :=
  registry_getResConf (dev_reg d) (getResCode resource).
Definition default_at (path : string) (d : Device K) : string * Device K :=
  let '(v, r) := getDefaultValue path (dev_reg d) in (v, with_reg r d).
Definition cgroup_at (id : Z) (d : Device K) : option CGroupConfigInfo * Device K :=
  let '(c, t) := getCGroupConfig id (dev_target d) in (c, with_target t d).

(** A line through an [std::ofstream]: [None] when the file does not open. *)
Definition stream_line (fs : FileSystem) (path value : string) : option FileSystem :=
  if fs_openable_w fs path
  then Some (set_files <[path := value +:+ String newline ""]> fs) else None.
(** The same opened with [std::ios::app]. *)
Definition append_line (fs : FileSystem) (path value : string) : option FileSystem :=
  if fs_openable_w fs path
  then Some (set_files
    <[path := default "" (fs_files fs !! path) +:+ (value +:+ String newline "")]> fs)
  else None.

(** Writing a line and returning, whether the file opened or not. *)
Definition write_line (path value : string) (d : Device K) : Device K :=
  on_fs (fun fs => default fs (stream_line fs path value)) d.

Definition getFullResourceNodePath (rConf : option ResConfInfo) (id : Z) : result string :=
  match rConf with
  | None => Ok ""
  | Some c => snprintf 128 (mResourcePath c) (ArgInt id)
  end.

Definition getCGroupTypeResourceNodePath (resource : Resource) (cGroupName : string)
    (d : Device K) : result string :=
  match conf_at resource d with
  | None => Ok ""
  | Some rConf => snprintf 128 (mResourcePath rConf) (ArgStr cGroupName)
  end.

(** The value in the unit of the node, or the largest [int64_t]. *)
Definition translate (valueToBeWritten : Z) (rConf : ResConfInfo) : result Z :=
  '(translatedValue, status) ←
    Multiply 64 valueToBeWritten (TranslationUnit_val (mUnit rConf));
  Ok (if decide (status = SUCCESS) then translatedValue else max_s 64).

(** ** Cluster *)
Definition defaultClusterLevelApplierCb : Hook := fun context d =>
  match context with
  | None => Ok d
  | Some resource =>
    match conf_at resource d with
    | None => Ok d
    | Some rConf =>
      let clusterID := getClusterValue resource in
      resourceNodePath ← getFullResourceNodePath (Some rConf) clusterID;
      valueToBeWritten ← getValueAt resource 0;
      translatedValue ← translate valueToBeWritten rConf;
      Ok (write_line resourceNodePath (to_string translatedValue) d)
    end
  end.

Definition defaultClusterLevelTearCb : Hook := fun context d =>
  match context with
  | None => Ok d
  | Some resource =>
    match conf_at resource d with
    | None => Ok d
    | Some rConf =>
      let clusterID := getClusterValue resource in
      resourceNodePath ← getFullResourceNodePath (Some rConf) clusterID;
      let '(defVal, d) := default_at resourceNodePath d in
      Ok (write_line resourceNodePath defVal d)
    end
  end.

(** ** Core *)
Definition defaultCoreLevelApplierHelper (resource : option Resource) (coreID : Z)
    (d : Device K) : result (Device K) :=
  match resource with
  | None => Ok d
  | Some resource =>
    match conf_at resource d with
    | None => Ok d
    | Some rConf =>
      resourceNodePath ← getFullResourceNodePath (Some rConf) coreID;
      valueToBeWritten ← getValueAt resource 0;
      translatedValue ← translate valueToBeWritten rConf;
      Ok (write_line resourceNodePath (to_string translatedValue) d)
    end
  end.

Definition defaultCoreLevelTearHelper (resource : Resource) (coreID : Z) (d : Device K)
  : result (Device K) :=
  match conf_at resource d with
  | None => Ok d
  | Some rConf =>
    resourceNodePath ← getFullResourceNodePath (Some rConf) coreID;
    let '(defVal, d) := default_at resourceNodePath d in
    Ok (write_line resourceNodePath defVal d)
  end.

(** A loop whose body always continues. *)
Fixpoint for_each (body : Z -> Device K -> result (Device K)) (ids : list Z) (d : Device K)
  : result (Device K) :=
  match ids with
  | [] => Ok d
  | i :: ids => d ← body i d; for_each body ids d
  end.

(** The cores of the loop [for(i = mStartCpu; i < mStartCpu + mNumCpus; i++)]. *)
Definition cluster_cores (cinfo : ClusterInfo) : result (list Z) :=
  start ← of_option Indeterminate (mStartCpu cinfo);
  _ ← chk_s 32 (start + mNumCpus cinfo);
  Ok (zseq start (Z.to_nat (mNumCpus cinfo))).

Definition on_cores (resource : Resource) (body : Z -> Device K -> result (Device K))
    (d : Device K) : result (Device K) :=
  let coreID := getCoreValue resource in
  if coreID =? 0 then
    let clusterID := getClusterValue resource in
    let '(cinfo, t) := getClusterInfo clusterID (dev_target d) in
    let d := with_target t d in
    match cinfo with
    | None => Ok d
    | Some cinfo => cores ← cluster_cores cinfo; for_each body cores d
    end
  else body coreID d.

Definition defaultCoreLevelApplierCb : Hook := fun context d =>
  match context with
  | None => Ok d
  | Some resource =>
    match conf_at resource d with
    | None => Ok d
    | Some _ => on_cores resource (defaultCoreLevelApplierHelper (Some resource)) d
    end
  end.

Definition defaultCoreLevelTearCb : Hook := fun context d =>
  match context with
  | None => Ok d
  | Some resource => on_cores resource (defaultCoreLevelTearHelper resource) d
  end.

(** ** Cgroup *)
Definition defaultCGroupLevelApplierCb : Hook := fun context d =>
  match context with
  | None => Ok d
  | Some resource =>
    if negb (getValuesCount resource =? 2) then Ok d else
    let rConf := conf_at resource d in
    cGroupIdentifier ← getValueAt resource 0;
    valueToBeWritten ← getValueAt resource 1;
    rConf ← deref rConf;
    translatedValue ← translate valueToBeWritten rConf;
    let '(cGroupConfig, d) := cgroup_at cGroupIdentifier d in
    match cGroupConfig with
    | None => Ok d
    | Some cGroupConfig =>
      let cGroupName := mCgroupName cGroupConfig in
      if is_nonempty cGroupName then
        controllerFilePath ← getCGroupTypeResourceNodePath resource cGroupName d;
        Ok (write_line controllerFilePath (to_string translatedValue) d)
      else Ok d
    end
  end.

Definition defaultCGroupLevelTearCb : Hook := fun context d =>
  match context with
  | None => Ok d
  | Some resource =>
    match conf_at resource d with
    | None => Ok d
    | Some _ =>
      cGroupIdentifier ← getValueAt resource 0;
      let '(cGroupConfig, d) := cgroup_at cGroupIdentifier d in
      match cGroupConfig with
      | None => Ok d
      | Some cGroupConfig =>
        let cGroupName := mCgroupName cGroupConfig in
        if is_nonempty cGroupName then
          controllerFilePath ← getCGroupTypeResourceNodePath resource cGroupName d;
          let '(defVal, d) := default_at controllerFilePath d in
          Ok (write_line controllerFilePath defVal d)
        else Ok d
      end
    end
  end.

(** ** Global *)
Definition defaultGlobalLevelApplierCb : Hook := fun context d =>
  match context with
  | None => Ok d
  | Some resource =>
    match conf_at resource d with
    | None => Ok d
    | Some rConf =>
      valueToWrite ← getValueAt resource 0;
      '(resourceNodePath, valueToWrite) ←
        (if getValuesCount resource =? 2 then
           id ← getValueAt resource 0;
           valueToWrite ← getValueAt resource 1;
           resourceNodePath ← getFullResourceNodePath (Some rConf) id;
           Ok (resourceNodePath, valueToWrite)
         else Ok (mResourcePath rConf, valueToWrite));
      Ok (on_fs (fun fs => writeToFile fs resourceNodePath (to_string valueToWrite)) d)
    end
  end.

Definition defaultGlobalLevelTearCb : Hook := fun context d =>
  match context with
  | None => Ok d
  | Some resource =>
    match conf_at resource d with
    | None => Ok d
    | Some rConf =>
      resourceNodePath ←
        (if getValuesCount resource =? 2 then
           id ← getValueAt resource 0; getFullResourceNodePath (Some rConf) id
         else Ok (mResourcePath rConf));
      let '(defVal, d) := default_at resourceNodePath d in
      Ok (on_fs (fun fs => writeToFile fs resourceNodePath defVal) d)
    end
  end.

(** ** Moving processes and threads *)

(** [std::string::substr(n)]. *)
Definition substr (n : nat) (s : string) : string := String.substring n (String.length s - n) s.

Definition proc_cgroup (pid : Z) : string := "/proc/" +:+ to_string pid +:+ "/cgroup".

(** The values from index [i] on: what the loops over pids, tids and cpus visit. *)
Definition indices_from (i : Z) (resource : Resource) : list Z :=
  zseq i (Z.to_nat (getValuesCount resource - i)).

(** The loop of [moveProcessToCGroup]: it ends when the file does not open. *)
Fixpoint move_loop (resource : Resource) (pathBuffer : string) (ids : list Z) (d : Device K)
  : result (Device K) :=
  match ids with
  | [] => Ok d
  | i :: ids =>
    pid ← getValueAt resource i;
    let currentCGroupFilePath := proc_cgroup pid in
    let currentCGroup := readFromFile (dev_fs d) currentCGroupFilePath in
    let d := if (4 <? String.length currentCGroup)%nat
             then with_reg (addDefaultValue currentCGroupFilePath (substr 4 currentCGroup)
                              (dev_reg d)) d
             else d in
    match stream_line (dev_fs d) pathBuffer (to_string pid) with
    | None => Ok d
    | Some fs => move_loop resource pathBuffer ids (on_fs (fun _ => fs) d)
    end
  end.

Definition moveProcessToCGroup : Hook := fun context d =>
  match context with
  | None => Ok d
  | Some resource =>
    if getValuesCount resource <? 2 then Ok d else
    cGroupIdentifier ← getValueAt resource 0;
    let '(cGroupConfig, d) := cgroup_at cGroupIdentifier d in
    let rConf := conf_at resource d in
    match cGroupConfig with
    | None => Ok d
    | Some cGroupConfig =>
      let cGroupName := mCgroupName cGroupConfig in
      if negb (is_nonempty cGroupName) then Ok d else
      rConf ← deref rConf;
      pathBuffer ← snprintf 128 (mResourcePath rConf) (ArgStr cGroupName);
      move_loop resource pathBuffer (indices_from 1 resource) d
    end
  end.

Fixpoint move_thread_loop (resource : Resource) (controllerFilePath : string) (ids : list Z)
    (d : Device K) : result (Device K) :=
  match ids with
  | [] => Ok d
  | i :: ids =>
    tid ← getValueAt resource i;
    match stream_line (dev_fs d) controllerFilePath (to_string tid) with
    | None => Ok d
    | Some fs => move_thread_loop resource controllerFilePath ids (on_fs (fun _ => fs) d)
    end
  end.

Definition moveThreadToCGroup : Hook := fun context d =>
  match context with
  | None => Ok d
  | Some resource =>
    if getValuesCount resource <? 2 then Ok d else
    cGroupIdentifier ← getValueAt resource 0;
    let '(cGroupConfig, d) := cgroup_at cGroupIdentifier d in
    match cGroupConfig with
    | None => Ok d
    | Some cGroupConfig =>
      let cGroupName := mCgroupName cGroupConfig in
      if negb (is_nonempty cGroupName) then Ok d else
      controllerFilePath ← getCGroupTypeResourceNodePath resource cGroupName d;
      move_thread_loop resource controllerFilePath (indices_from 1 resource) d
    end
  end.

Fixpoint remove_loop (resource : Resource) (ids : list Z) (d : Device K) : result (Device K) :=
  match ids with
  | [] => Ok d
  | i :: ids =>
    pid ← getValueAt resource i;
    let originalCGroupKey := proc_cgroup pid in
    let '(cGroupPath, d) := default_at originalCGroupKey d in
    let cGroupPath := if (String.length cGroupPath =? 0)%nat
                      then mBaseCGroupPath +:+ "cgroup.procs"
                      else mBaseCGroupPath +:+ cGroupPath +:+ "/cgroup.procs" in
    let d := with_reg (deleteDefaultValue originalCGroupKey (dev_reg d)) d in
    match append_line (dev_fs d) cGroupPath (to_string pid) with
    | None => Ok d
    | Some fs => remove_loop resource ids (on_fs (fun _ => fs) d)
    end
  end.

Definition removeProcessFromCGroup : Hook := fun context d =>
  match context with
  | None => Ok d
  | Some resource =>
    if getValuesCount resource <? 2 then Ok d else remove_loop resource (indices_from 1 resource) d
  end.

(** The path string is built from itself before it is initialised. *)
Fixpoint remove_thread_loop (resource : Resource) (ids : list Z) (d : Device K)
  : result (Device K) :=
  match ids with
  | [] => Ok d
  | i :: ids =>
    tid ← getValueAt resource i;
    uninitialised ← Fault Indeterminate;
    let cGroupPath := mBaseCGroupPath +:+ uninitialised +:+ "/cgroup.threads" in
    match append_line (dev_fs d) cGroupPath (to_string tid) with
    | None => Ok d
    | Some fs => remove_thread_loop resource ids (on_fs (fun _ => fs) d)
    end
  end.

Definition removeThreadFromCGroup : Hook := fun context d =>
  match context with
  | None => Ok d
  | Some resource =>
    if getValuesCount resource <? 2 then Ok d
    else remove_thread_loop resource (indices_from 1 resource) d
  end.

(** ** Cpu sets of a cgroup *)

(** The values from index 1 on, separated by commas. *)
Fixpoint cpus_loop (resource : Resource) (ids : list Z) (cpusString : string) : result string :=
  match ids with
  | [] => Ok cpusString
  | i :: ids =>
    curVal ← getValueAt resource i;
    let cpusString := cpusString +:+ to_string curVal in
    cpus_loop resource ids
      (if (getValuesCount resource >? 2) && (i <? getValuesCount resource - 1)
       then cpusString +:+ "," else cpusString)
  end.
Definition cpus_string (resource : Resource) : result string :=
  cpus_loop resource (indices_from 1 resource) "".

Definition setRunOnCores : Hook := fun context d =>
  match context with
  | None => Ok d
  | Some resource =>
    if getValuesCount resource <? 2 then Ok d else
    cGroupIdentifier ← getValueAt resource 0;
    let '(cGroupConfig, d) := cgroup_at cGroupIdentifier d in
    match cGroupConfig with
    | None => Ok d
    | Some cGroupConfig =>
      let cGroupName := mCgroupName cGroupConfig in
      if is_nonempty cGroupName then
        cpusString ← cpus_string resource;
        controllerFilePath ← getCGroupTypeResourceNodePath resource cGroupName d;
        Ok (write_line controllerFilePath cpusString d)
      else Ok d
    end
  end.

Definition cpuset_path (cGroupName : string) : string :=
  mBaseCGroupPath +:+ cGroupName +:+ "/cpuset.cpus".
Definition partition_path (cGroupName : string) : string :=
  mBaseCGroupPath +:+ cGroupName +:+ "/cpuset.cpus.partition".

Definition setRunOnCoresExclusively : Hook := fun context d =>
  match context with
  | None => Ok d
  | Some resource =>
    if getValuesCount resource <? 2 then Ok d else
    cGroupIdentifier ← getValueAt resource 0;
    let '(cGroupConfig, d) := cgroup_at cGroupIdentifier d in
    match cGroupConfig with
    | None => Ok d
    | Some cGroupConfig =>
      let cGroupName := mCgroupName cGroupConfig in
      if is_nonempty cGroupName then
        cpusString ← cpus_string resource;
        match stream_line (dev_fs d) (cpuset_path cGroupName) cpusString with
        | None => Ok d
        | Some fs => Ok (write_line (partition_path cGroupName) "isolated" (on_fs (fun _ => fs) d))
        end
      else Ok d
    end
  end.

Definition resetRunOnCoresExclusively : Hook := fun context d =>
  match context with
  | None => Ok d
  | Some resource =>
    if getValuesCount resource <? 2 then Ok d else
    cGroupIdentifier ← getValueAt resource 0;
    let '(cGroupConfig, d) := cgroup_at cGroupIdentifier d in
    match cGroupConfig with
    | None => Ok d
    | Some cGroupConfig =>
      let cGroupName := mCgroupName cGroupConfig in
      if is_nonempty cGroupName then
        let '(defVal, d) := default_at (cpuset_path cGroupName) d in
        match stream_line (dev_fs d) (cpuset_path cGroupName) defVal with
        | None => Ok d
        | Some fs =>
          let d := on_fs (fun _ => fs) d in
          if negb (fs_openable_w (dev_fs d) (partition_path cGroupName)) then Ok d else
          let '(defVal, d) := default_at (partition_path cGroupName) d in
          Ok (write_line (partition_path cGroupName) defVal d)
        end
      else Ok d
    end
  end.

Definition limitCpuTime : Hook := fun context d =>
  match context with
  | None => Ok d
  | Some resource =>
    if negb (getValuesCount resource =? 3) then Ok d else
    cGroupIdentifier ← getValueAt resource 0;
    maxUsageMicroseconds ← getValueAt resource 1;
    periodMicroseconds ← getValueAt resource 2;
    let '(cGroupConfig, d) := cgroup_at cGroupIdentifier d in
    match cGroupConfig with
    | None => Ok d
    | Some cGroupConfig =>
      let cGroupName := mCgroupName cGroupConfig in
      if is_nonempty cGroupName then
        controllerFilePath ← getCGroupTypeResourceNodePath resource cGroupName d;
        Ok (write_line controllerFilePath
              (to_string maxUsageMicroseconds +:+ " " +:+ to_string periodMicroseconds) d)
      else Ok d
    end
  end.

(** ** Task affinity *)
Definition maxPidCount : Z := 6.
Definition task_affinity_key (pid : Z) : string := "task_affinity_" +:+ to_string pid.

(** The cpus of a mask in increasing order, separated by commas. *)
Fixpoint mask_loop (mask : Z) (ids : list Z) (maskStr : string) : string :=
  match ids with
  | [] => maskStr
  | i :: ids =>
    mask_loop mask ids
      (if CPU_ISSET i mask then
         (if (0 <? String.length maskStr)%nat then maskStr +:+ "," else maskStr) +:+ to_string i
       else maskStr)
  end.
Definition mask_string (mask : Z) : string := mask_loop mask (zseq 0 1024) "".

(** The current masks are stored as defaults. *)
Fixpoint save_affinities (resource : Resource) (ids : list Z) (d : Device K)
  : result (Device K) :=
  match ids with
  | [] => Ok d
  | i :: ids =>
    pid ← getValueAt resource i;
    if pid <=? 0 then save_affinities resource ids d else
    save_affinities resource ids
      match sched_getaffinity (dev_sched d) pid with
      | None => d
      | Some mask =>
        with_reg (addDefaultValue (task_affinity_key pid) (mask_string mask) (dev_reg d)) d
      end
  end.

Fixpoint build_mask (resource : Resource) (ids : list Z) (mask : Z) : result Z :=
  match ids with
  | [] => Ok mask
  | i :: ids => cpuId ← getValueAt resource i; build_mask resource ids (CPU_SET cpuId mask)
  end.

Definition set_affinity (pid mask : Z) (d : Device K) : Device K :=
  with_sched (default (dev_sched d) (sched_setaffinity (dev_sched d) pid mask)) d.

Fixpoint set_affinities (resource : Resource) (mask : Z) (ids : list Z) (d : Device K)
  : result (Device K) :=
  match ids with
  | [] => Ok d
  | i :: ids =>
    pid ← getValueAt resource i;
    set_affinities resource mask ids (if pid >? 0 then set_affinity pid mask d else d)
  end.

Definition setTaskAffinity : Hook := fun context d =>
  match context with
  | None => Ok d
  | Some resource =>
    if getValuesCount resource <? maxPidCount + 1 then Ok d else
    d ← save_affinities resource (zseq 0 6) d;
    mask ← build_mask resource (indices_from maxPidCount resource) 0;
    set_affinities resource mask (zseq 0 6) d
  end.

(** The first task without a stored mask, and the first cpu that is not a number, end
    the whole function. *)
Fixpoint reset_affinities (resource : Resource) (ids : list Z) (d : Device K)
  : result (Device K) :=
  match ids with
  | [] => Ok d
  | i :: ids =>
    pid ← getValueAt resource i;
    if pid <=? 0 then reset_affinities resource ids d else
    let '(defVal, d) := default_at (task_affinity_key pid) d in
    if (String.length defVal =? 0)%nat then Ok d else
    let '(cpuIds, ok) := stoi_tokens (split_on ","%char defVal) in
    if (ok : bool) then
      reset_affinities resource ids
        (set_affinity pid (foldl (fun originalMask cpuId => CPU_SET cpuId originalMask) 0 cpuIds) d)
    else Ok d
  end.

Definition resetTaskAffinity : Hook := fun context d =>
  match context with
  | None => Ok d
  | Some resource =>
    if getValuesCount resource <? maxPidCount + 1 then Ok d
    else reset_affinities resource (zseq 0 6) d
  end.

(** ** Calling a lifecycle callback

    The special callbacks of this file are the custom callbacks 1 to 10; those of the
    plugins are not part of it. *)
Definition special_hook (id : positive) : option Hook :=
  match id with
  | 1%positive => Some moveProcessToCGroup
  | 2%positive => Some moveThreadToCGroup
  | 3%positive => Some setRunOnCores
  | 4%positive => Some setRunOnCoresExclusively
  | 5%positive => Some limitCpuTime
  | 6%positive => Some setTaskAffinity
  | 7%positive => Some removeProcessFromCGroup
  | 8%positive => Some removeThreadFromCGroup
  | 9%positive => Some resetRunOnCoresExclusively
  | 10%positive => Some resetTaskAffinity
  | _ => None
  end.

Definition run_callback (cb : ResourceLifecycleCallback) : option Hook :=
  match cb with
  | ResourceRegistry.defaultClusterLevelApplierCb => Some defaultClusterLevelApplierCb
  | ResourceRegistry.defaultClusterLevelTearCb => Some defaultClusterLevelTearCb
  | ResourceRegistry.defaultCoreLevelApplierCb => Some defaultCoreLevelApplierCb
  | ResourceRegistry.defaultCoreLevelTearCb => Some defaultCoreLevelTearCb
  | ResourceRegistry.defaultCGroupLevelApplierCb => Some defaultCGroupLevelApplierCb
  | ResourceRegistry.defaultCGroupLevelTearCb => Some defaultCGroupLevelTearCb
  | ResourceRegistry.defaultGlobalLevelApplierCb => Some defaultGlobalLevelApplierCb
  | ResourceRegistry.defaultGlobalLevelTearCb => Some defaultGlobalLevelTearCb
  | customCb id => special_hook id
  end.

(** A call through the pointer of a configuration. *)
Definition call_callback (cb : option ResourceLifecycleCallback) (resource : Resource)
    (d : Device K) : result (Device K) :=
  cb ← deref cb;
  hook ← of_option WildPtr (run_callback cb);
  hook (Some resource) d.
End Hooks.

(** The registrations at the end of the file, in order. *)
Definition register_hooks (e : Extensions) : Extensions :=
  foldl (fun e r => Extensions_callback r.1.1 r.1.2 (customCb r.2) e) e
    [ (0x00090000, 0, 1%positive);
      (0x00090001, 0, 2%positive);
      (0x00090002, 0, 3%positive);
      (0x00090003, 0, 4%positive);
      (0x00090005, 0, 5%positive);
      (0x00030004, 0, 6%positive);
      (0x00090000, 1, 7%positive);
      (0x00090001, 1, 8%positive);
      (0x00090003, 1, 9%positive);
      (0x00030004, 1, 10%positive) ].
