(* ===== verification/HookFacts.v ===== *)
(** The default and special callbacks of [ResourceHooks.v] at work: what an applier
    writes, that the tear callback takes it back, task affinities, and the registered
    callbacks. *)
From Stdlib Require Import Ascii.
From S2P Require Import Prelude UrmTypes SafeOps Resource StdString AuxRoutines StringFacts TargetRegistry ResourceRegistry.
From S2P Require Import RequestHandler Extensions ResourceHooks.
Open Scope string_scope.
Open Scope list_scope.
Open Scope Z_scope.

(** ** Writing files *)
Section Files.
Context {K : Type} `{!Scheduler K}.
Implicit Types d : Device K.

Definition file (d : Device K) (p : string) : option string := fs_files (dev_fs d) !! p.
Definition openable (d : Device K) (p : string) : Prop := fs_openable_w (dev_fs d) p = true.

(** [d'] is [d] after the files [ps] were given their [content]. *)
Record written (content : string -> string) (ps : list string) (d d' : Device K) : Prop := {
  wr_file : forall q, file d' q = if decide (q ∈ ps) then Some (content q) else file d q;
  wr_open : forall q, fs_openable_w (dev_fs d') q = fs_openable_w (dev_fs d) q;
  wr_reg : dev_reg d' = dev_reg d;
  wr_target : dev_target d' = dev_target d;
  wr_sched : dev_sched d' = dev_sched d
}.

Lemma written_nil content d : written content [] d d.
Proof. by split. Qed.
Lemma written_app content ps qs d d1 d2 :
  written content ps d d1 -> written content qs d1 d2 -> written content (ps ++ qs) d d2.
Proof.
  intros [F1 O1 R1 T1 S1] [F2 O2 R2 T2 S2]. split; intros; try congruence.
  rewrite F2, F1. repeat case_decide; set_solver.
Qed.
Lemma written_openable content ps d d' q : written content ps d d' -> openable d q -> openable d' q.
Proof. intros Hw. unfold openable. by rewrite (wr_open _ _ _ _ Hw). Qed.

Lemma write_line_written p v d :
  openable d p -> written (fun _ => v +:+ String newline "") [p] d (write_line p v d).
Proof.
  intros Ho. unfold write_line, stream_line. split; try done; intros q; unfold file; simpl;
    rewrite Ho; [|done]. simpl. destruct (decide (q = p)) as [->|].
  - by rewrite lookup_insert_eq, decide_True by set_solver.
  - by rewrite lookup_insert_ne, decide_False by set_solver.
Qed.
Lemma writeToFile_written p v d :
  openable d p -> p <> "" ->
  written (fun _ => v) [p] d (on_fs (fun fs => writeToFile fs p v) d).
Proof.
  intros Ho Hp. assert (writeToFile (dev_fs d) p v = set_files <[p := v]> (dev_fs d)) as E.
  { unfold writeToFile. rewrite Ho. by destruct p. }
  split; try done; intros q; unfold file; simpl; rewrite E; [|done]. simpl.
  destruct (decide (q = p)) as [->|].
  - by rewrite lookup_insert_eq, decide_True by set_solver.
  - by rewrite lookup_insert_ne, decide_False by set_solver.
Qed.

Lemma written_ext content content' ps d d' :
  (forall q, q ∈ ps -> content q = content' q) ->
  written content ps d d' -> written content' ps d d'.
Proof.
  intros Hc [F ? ? ? ?]. split; try done. intros q. rewrite F. case_decide; [|done]. by rewrite Hc.
Qed.

(** A loop that writes one line per id. *)
Lemma for_each_written (body : Z -> Device K -> result (Device K)) content reg ids ps :
  Forall2 (fun i p => forall d, dev_reg d = reg -> openable d p ->
    exists d', body i d = Ok d' /\ written content [p] d d') ids ps ->
  forall d, dev_reg d = reg -> Forall (openable d) ps ->
  exists d', for_each body ids d = Ok d' /\ written content ps d d'.
Proof.
  induction 1 as [|i p ids ps Hi _ IH]; intros d Hr Ho.
  - exists d. split; [done|apply written_nil].
  - apply Forall_cons in Ho as [Hp Ho]. destruct (Hi d Hr Hp) as (d1 & E1 & W1).
    destruct (IH d1) as (d2 & E2 & W2).
    { by rewrite (wr_reg _ _ _ _ W1). }
    { eapply Forall_impl; [exact Ho|]. intros q. by apply written_openable with (1 := W1). }
    exists d2. simpl. rewrite E1. split; [done|]. by apply (written_app _ [p] ps d d1).
Qed.
End Files.

(** The units never overflow 64 bits on a 32-bit value. *)
Lemma translate_exact v c :
  in_s 32 v -> v <> -1 -> translate v c = Ok (v * TranslationUnit_val (mUnit c)).
Proof.
  intros Hv Hm. unfold translate.
  assert (1 <= TranslationUnit_val (mUnit c) <= 1073741824) as Hu by (by destruct (mUnit c)).
  unfold in_s in Hv. simpl in Hv.
  rewrite Multiply_saturates by (unfold in_s; simpl; lia).
  rewrite saturate_fits by (unfold in_s; simpl; nia). done.
Qed.
Lemma translate_minus_one c : translate (-1) c = Fault SignedOverflow.
Proof.
  unfold translate. rewrite Multiply_minus_one_faults; [done|lia| |].
  all: by destruct (mUnit c).
Qed.

(** ** Nodes of a resource *)

(** The files a resource with configuration [c] stands for, with the target [t], all of
    them among those whose defaults are stored at registration. *)
Inductive nodes `{HashOrder} (c : ResConfInfo) (t : TargetRegistry) (cfg : TargetConfigs)
    (res : Resource) : list string -> Prop :=
  | nodes_cluster p :
      mApplyType c = APPLY_CLUSTER -> getClusterValue res ∈ getClusterIDs t ->
      snprintf 128 (mResourcePath c) (ArgInt (getClusterValue res)) = Ok p ->
      nodes c t cfg res [p]
  | nodes_core p :
      mApplyType c = APPLY_CORE -> getCoreValue res <> 0 -> getCoreValue res < mTotalCoreCount cfg ->
      snprintf 128 (mResourcePath c) (ArgInt (getCoreValue res)) = Ok p ->
      nodes c t cfg res [p]
  | nodes_cluster_cores info s ps :
      mApplyType c = APPLY_CORE -> getCoreValue res = 0 ->
      mPhysicalClusters t !! getClusterValue res = Some (Some info) ->
      mStartCpu info = Some s -> 0 <= s -> in_s 32 (s + mNumCpus info) ->
      s + mNumCpus info <= mTotalCoreCount cfg ->
      Forall2 (fun i p => snprintf 128 (mResourcePath c) (ArgInt i) = Ok p)
        (zseq s (Z.to_nat (mNumCpus info))) ps ->
      nodes c t cfg res ps
  | nodes_cgroup g p :
      mApplyType c = APPLY_CGROUP -> mNumValues res = 2 ->
      mCGroupMapping t !! value_at res 0 = Some (Some g) -> mCgroupName g <> "" ->
      snprintf 128 (mResourcePath c) (ArgStr (mCgroupName g)) = Ok p ->
      nodes c t cfg res [p]
  | nodes_global :
      mApplyType c = APPLY_GLOBAL -> mNumValues res <> 2 -> mResourcePath c <> "" ->
      nodes c t cfg res [mResourcePath c].

(** The number requested, and the text that ends up in each node. *)
Definition requested (c : ResConfInfo) (res : Resource) : Z :=
  value_at res (if decide (mApplyType c = APPLY_CGROUP) then 1 else 0).
Definition node_text (c : ResConfInfo) (res : Resource) : string :=
  if decide (mApplyType c = APPLY_GLOBAL) then to_string (requested c res)
  else to_string (requested c res * TranslationUnit_val (mUnit c)) +:+ String newline "".
Definition line_of (c : ResConfInfo) (v : string) : string :=
  if decide (mApplyType c = APPLY_GLOBAL) then v else v +:+ String newline "".

(** Every default of [ps] is the one read from [fs]. *)
Definition defaults_stored (fs : FileSystem) (r : ResourceRegistry) (ps : list string) : Prop :=
  forall p, p ∈ ps -> mDefaultValueStore r !! p = Some (readFromFile fs p).

Lemma store_formatted_keeps fs path args : forall r r' p,
  store_formatted fs path args r = Ok r' ->
  mDefaultValueStore r !! p = Some (readFromFile fs p) ->
  mDefaultValueStore r' !! p = Some (readFromFile fs p).
Proof.
  induction args as [|a args IH]; intros r r' p H Hp; simpl in H; inv_ok H; [by subst|].
  eapply IH; [done|]. simpl. destruct (decide (p = a0)) as [->|].
  - by rewrite lookup_insert_eq.
  - by rewrite lookup_insert_ne.
Qed.
Lemma store_formatted_stores fs path args : forall r r' a p,
  store_formatted fs path args r = Ok r' -> a ∈ args -> snprintf 128 path a = Ok p ->
  mDefaultValueStore r' !! p = Some (readFromFile fs p).
Proof.
  induction args as [|b args IH]; intros r r' a p H Ha Hp; [by apply not_elem_of_nil in Ha|].
  simpl in H. inv_ok H. apply elem_of_cons in Ha as [->|Ha]; [|by eapply IH].
  eapply store_formatted_keeps; [done|]. simpl. rewrite Hp in E. injection E as <-.
  apply lookup_insert_eq.
Qed.

Lemma zseq_elem s n i : i ∈ zseq s n <-> s <= i < s + Z.of_nat n.
Proof.
  unfold zseq. rewrite list_elem_of_In, in_map_iff. split.
  - intros (k & <- & Hk%in_seq). lia.
  - intros H. exists (Z.to_nat (i - s)). rewrite in_seq. lia.
Qed.

Lemma core_count_arg (cfg : TargetConfigs) i : 0 <= i < mTotalCoreCount cfg ->
  ArgInt i ∈ map (fun i => ArgInt (Z.of_nat i)) (seq 0 (Z.to_nat (mTotalCoreCount cfg))).
Proof.
  intros Hi. rewrite list_elem_of_In, in_map_iff. exists (Z.to_nat i).
  rewrite in_seq. rewrite Z2Nat.id by lia. split; [done|lia].
Qed.

Lemma cgroup_names_elem l id g : forall names,
  mapM (fun e : Z * option CGroupConfigInfo => mCgroupName <$> deref e.2) l = Ok names ->
  (id, Some g) ∈ l -> mCgroupName g ∈ names.
Proof.
  induction l as [|e l IH]; intros names Hn Hg; [by apply not_elem_of_nil in Hg|].
  cbn [mapM] in Hn. apply bind_ok in Hn as (n & En & Hn). apply bind_ok in Hn as (ns & Ens & Hn).
  injection Hn as <-. apply elem_of_cons in Hg as [<-|Hg].
  - simpl in En. injection En as <-. by left.
  - right. by apply IH.
Qed.

(** Registration stores the default of every node. *)
Lemma nodes_defaults `{HashOrder} fs t cfg c rr r res ps :
  fetchAndStoreDefaults fs t cfg c rr = Ok r ->
  nodes c t cfg res ps -> defaults_stored fs r ps.
Proof.
  unfold fetchAndStoreDefaults. intros E Hn q Hq. pose proof (core_range res) as Hcr.
  inversion Hn as [p Ht Hc Hp|p Ht H0 Hc Hp|info s qs Ht H0 Hi Hs H1 H2 H3 Hps|g p Ht Hv Hg Hg0 Hp|Ht Hv Hp];
    subst ps; rewrite Ht in E; try (apply list_elem_of_singleton in Hq; subst q).
  - eapply store_formatted_stores; [exact E| |exact Hp]. by apply list_elem_of_fmap_2.
  - eapply store_formatted_stores; [exact E| |exact Hp]. apply core_count_arg. unfold in_u in Hcr. lia.
  - apply list_elem_of_lookup in Hq as [k Hk].
    destruct (Forall2_lookup_r _ _ _ _ _ Hps Hk) as (i & Hik & Hp).
    apply list_elem_of_lookup_2, zseq_elem in Hik.
    eapply store_formatted_stores; [exact E| |exact Hp]. apply core_count_arg. lia.
  - apply bind_ok in E as (names & Hnames & E).
    eapply store_formatted_stores; [exact E| |exact Hp]. apply list_elem_of_fmap_2.
    apply (elem_of_hash_order (mCGroupMapping t)) in Hg. by eapply cgroup_names_elem.
  - injection E as <-. apply lookup_insert_eq.
Qed.

(** ** The default callbacks *)
Section Defaults.
Context {K : Type} `{!Scheduler K} `{HashOrder}.
Context (c : ResConfInfo) (t : TargetRegistry) (cfg : TargetConfigs) (res : Resource).
Implicit Types d : Device K.
Hypothesis Hres : res_ok res.

(** The device a callback of [res] runs on. *)
Record ready (ps : list string) (d : Device K) : Prop := {
  rd_conf : exists a b, conf_at res d = Some (set_callbacks a b c);
  rd_target : dev_target d = t;
  rd_open : Forall (openable d) ps
}.

Lemma written_ready content ps d d' : written content ps d d' -> ready ps d -> ready ps d'.
Proof.
  intros Hw [Hc Ht Ho]. split.
  - unfold conf_at. by rewrite (wr_reg _ _ _ _ Hw).
  - by rewrite (wr_target _ _ _ _ Hw).
  - eapply Forall_impl; [exact Ho|]. intros q. by apply written_openable with (1 := Hw).
Qed.

Definition default_applier : option Resource -> Device K -> result (Device K) :=
  match mApplyType c with
  | APPLY_CLUSTER => defaultClusterLevelApplierCb
  | APPLY_CORE => defaultCoreLevelApplierCb
  | APPLY_CGROUP => defaultCGroupLevelApplierCb
  | APPLY_GLOBAL => defaultGlobalLevelApplierCb
  end.
Definition default_tear : option Resource -> Device K -> result (Device K) :=
  match mApplyType c with
  | APPLY_CLUSTER => defaultClusterLevelTearCb
  | APPLY_CORE => defaultCoreLevelTearCb
  | APPLY_CGROUP => defaultCGroupLevelTearCb
  | APPLY_GLOBAL => defaultGlobalLevelTearCb
  end.

(** Reading a stored default leaves the device as it is. *)
Lemma default_at_stored p v d :
  mDefaultValueStore (dev_reg d) !! p = Some v -> default_at p d = (v, d).
Proof. intros E. unfold default_at, getDefaultValue, map_index. rewrite E. by destruct d as [? [] ? ?]. Qed.
Lemma cgroup_at_known id g d :
  mCGroupMapping (dev_target d) !! id = Some g -> cgroup_at id d = (g, d).
Proof. intros E. unfold cgroup_at, getCGroupConfig, map_index. rewrite E. by destruct d as [? ? [] ?]. Qed.
Lemma getClusterInfo_known id g (d : Device K) :
  mPhysicalClusters (dev_target d) !! id = Some g ->
  getClusterInfo id (dev_target d) = (g, dev_target d).
Proof. intros E. unfold getClusterInfo, map_index. rewrite E. by destruct (dev_target d). Qed.
Lemma with_target_id d : with_target (dev_target d) d = d.
Proof. by destruct d. Qed.

(** What the callbacks do with each node when the arguments of the loop are resolved:
    the two loops share this. *)
Lemma on_cores_written body content ps d :
  nodes c t cfg res ps -> mApplyType c = APPLY_CORE -> ready ps d ->
  (forall i p d', snprintf 128 (mResourcePath c) (ArgInt i) = Ok p -> p ∈ ps ->
     dev_reg d' = dev_reg d -> openable d' p ->
     exists d'', body i d' = Ok d'' /\ written content [p] d' d'') ->
  exists d', on_cores res body d = Ok d' /\ written content ps d d'.
Proof.
  intros Hn Ht [Hc Htr Ho] Hbody. unfold on_cores.
  inversion Hn as [?|p _ H0 _ Hp|info s qs _ H0 Hi Hs H1 H2 _ Hps|?|?]; subst; try congruence.
  - replace (getCoreValue res =? 0) with false by lia.
    apply (Hbody (getCoreValue res)); [done|by left|done|by apply Forall_cons in Ho as [? _]].
  - rewrite H0. simpl. rewrite (getClusterInfo_known _ (Some info)) by done.
    unfold cluster_cores. rewrite Hs. simpl. rewrite chk_s_ok by done. simpl.
    rewrite with_target_id. apply (for_each_written _ _ (dev_reg d)); [|done|done].
    apply Forall2_same_length_lookup. split; [by eapply Forall2_length|]. intros k i p Hk Hq d' Hr Ho'.
    apply Hbody; [|by eapply list_elem_of_lookup_2|done|done].
    by eapply (Forall2_lookup_lr _ _ _ _ _ _ Hps).
Qed.

(** The applier writes the requested value, in the unit of the node, to every node. *)
Lemma default_applier_written ps d :
  nodes c t cfg res ps -> ready ps d -> in_s 32 (requested c res) ->
  (mApplyType c = APPLY_GLOBAL \/ requested c res <> -1) ->
  exists d', default_applier (Some res) d = Ok d' /\ written (fun _ => node_text c res) ps d d'.
Proof.
  intros Hn Hrd Hv Hm. destruct Hrd as [(a & b & Hc) Ht Ho]. unfold default_applier, node_text, requested in *.
  destruct (mApplyType c) eqn:Et.
  - rewrite decide_False in Hv, Hm by done. destruct Hm as [?|Hm]; [done|].
    rewrite !decide_False by done. unfold defaultCoreLevelApplierCb. rewrite Hc.
    apply on_cores_written; [done|done|by split; eauto|]. intros i p d' Hp _ Hr Ho'.
    unfold defaultCoreLevelApplierHelper, conf_at in *. rewrite Hr, Hc.
    cbn [getFullResourceNodePath mResourcePath set_callbacks]. rewrite Hp. cbn [mbind result_bind].
    rewrite getValueAt_ok by done. cbn [mbind result_bind]. rewrite translate_exact by done.
    eexists. split; [done|]. by apply write_line_written.
  - rewrite decide_False in Hv, Hm by done. destruct Hm as [?|Hm]; [done|].
    inversion Hn as [p _ _ Hp|p|info s qs|?|?]; subst; try congruence. apply Forall_cons in Ho as [Ho _].
    unfold defaultClusterLevelApplierCb. rewrite Hc.
    cbn [getFullResourceNodePath mResourcePath set_callbacks]. rewrite Hp. cbn [mbind result_bind].
    rewrite getValueAt_ok by done. cbn [mbind result_bind]. rewrite translate_exact by done.
    eexists. split; [done|]. rewrite !decide_False by done. by apply write_line_written.
  - inversion Hn as [?|?|?|?|_ H2 Hp]; subst; try congruence. apply Forall_cons in Ho as [Ho _].
    unfold defaultGlobalLevelApplierCb. rewrite Hc, !getValueAt_ok by done. cbn [mbind result_bind].
    unfold getValuesCount. replace (mNumValues res =? 2) with false by lia. cbn [mbind result_bind].
    eexists. split; [done|]. rewrite decide_True, decide_False by done. by apply writeToFile_written.
  - rewrite decide_True in Hv, Hm by done. destruct Hm as [?|Hm]; [done|].
    inversion Hn as [?|?|?|g p _ H2 Hg Hg0 Hp|?]; subst; try congruence. apply Forall_cons in Ho as [Ho _].
    unfold defaultCGroupLevelApplierCb, getValuesCount. rewrite H2. cbn [negb Z.eqb Pos.eqb].
    rewrite !getValueAt_ok by done. rewrite Hc. cbn [mbind result_bind deref].
    rewrite translate_exact by done. cbn [mbind result_bind].
    rewrite (cgroup_at_known _ (Some g)) by done.
    replace (is_nonempty (mCgroupName g)) with true by (by destruct (mCgroupName g)).
    unfold getCGroupTypeResourceNodePath. rewrite Hc. cbn [mResourcePath set_callbacks]. rewrite Hp.
    eexists. split; [done|]. rewrite decide_False, decide_True by done. by apply write_line_written.
Qed.

(** The tear callback writes the stored default of every node. *)
Lemma default_tear_written fs ps d :
  nodes c t cfg res ps -> ready ps d -> defaults_stored fs (dev_reg d) ps ->
  exists d', default_tear (Some res) d = Ok d' /\
    written (fun p => line_of c (readFromFile fs p)) ps d d'.
Proof.
  intros Hn Hrd Hdef. destruct Hrd as [(a & b & Hc) Ht Ho]. unfold default_tear, line_of.
  destruct (mApplyType c) eqn:Et.
  - apply on_cores_written; [done|done|by split; eauto|]. intros i p d' Hp Hps Hr Ho'.
    unfold defaultCoreLevelTearHelper, conf_at in *. rewrite Hr, Hc.
    cbn [getFullResourceNodePath mResourcePath set_callbacks]. rewrite Hp. cbn [mbind result_bind].
    rewrite (default_at_stored p (readFromFile fs p)) by (rewrite Hr; by apply Hdef).
    eexists. split; [done|]. eapply written_ext; [|by apply write_line_written].
    by intros q ->%list_elem_of_singleton.
  - inversion Hn as [p _ _ Hp|p|info s qs|?|?]; subst; try congruence. apply Forall_cons in Ho as [Ho _].
    unfold defaultClusterLevelTearCb. rewrite Hc.
    cbn [getFullResourceNodePath mResourcePath set_callbacks]. rewrite Hp. cbn [mbind result_bind].
    rewrite (default_at_stored p (readFromFile fs p)) by (apply Hdef; by left).
    eexists. split; [done|]. eapply written_ext; [|by apply write_line_written].
    by intros q ->%list_elem_of_singleton.
  - inversion Hn as [?|?|?|?|_ H2 Hp]; subst; try congruence. apply Forall_cons in Ho as [Ho _].
    unfold defaultGlobalLevelTearCb, getValuesCount. rewrite Hc.
    replace (mNumValues res =? 2) with false by lia. cbn [mbind result_bind mResourcePath set_callbacks].
    rewrite (default_at_stored _ (readFromFile fs (mResourcePath c))) by (apply Hdef; by left).
    eexists. split; [done|]. eapply written_ext; [|by apply writeToFile_written].
    by intros q ->%list_elem_of_singleton.
  - inversion Hn as [?|?|?|g p _ H2 Hg Hg0 Hp|?]; subst; try congruence. apply Forall_cons in Ho as [Ho _].
    unfold defaultCGroupLevelTearCb. rewrite Hc, getValueAt_ok by done. cbn [mbind result_bind].
    rewrite (cgroup_at_known _ (Some g)) by done.
    replace (is_nonempty (mCgroupName g)) with true by (by destruct (mCgroupName g)).
    unfold getCGroupTypeResourceNodePath. rewrite Hc. cbn [mResourcePath set_callbacks]. rewrite Hp.
    cbn [mbind result_bind]. rewrite (default_at_stored p (readFromFile fs p)) by (apply Hdef; by left).
    eexists. split; [done|]. eapply written_ext; [|by apply write_line_written].
    by intros q ->%list_elem_of_singleton.
Qed.

(** The callbacks registration gives the configuration are these two. *)
Lemma call_default_callbacks d :
  call_callback (mResourceApplierCallback (setLifeCycleCallbacks c)) res d =
    default_applier (Some res) d /\
  call_callback (mResourceTearCallback (setLifeCycleCallbacks c)) res d =
    default_tear (Some res) d.
Proof. unfold setLifeCycleCallbacks, default_applier, default_tear. by destruct (mApplyType c). Qed.
End Defaults.

(** A node that holds a stored default reads as it did when the default was taken. *)
Lemma read_line_of c fs (d' : FileSystem) p :
  fs_files d' !! p = Some (line_of c (readFromFile fs p)) ->
  readFromFile d' p = readFromFile fs p.
Proof.
  intros E. pose proof (readFromFile_lacks fs p) as Hl. unfold readFromFile at 1. rewrite E.
  destruct (String.length p =? 0)%nat eqn:Ep.
  - unfold readFromFile. by rewrite Ep.
  - unfold line_of. case_decide; [by apply first_line_text|by apply first_line_line].
Qed.

(** ** Registration as the callbacks see it *)
Lemma setLifeCycleCallbacks_set c : exists a b, setLifeCycleCallbacks c = set_callbacks a b c.
Proof. unfold setLifeCycleCallbacks. destruct (mApplyType c); eauto. Qed.

Lemma register_conf `{HashOrder} fs t cfg c rr r :
  reg_wf rr -> mResourceResType c <> 0 -> registerResource fs t cfg (Some c) rr = Ok r ->
  registry_getResConf r (resourceBitmap c) = Some (setLifeCycleCallbacks c) /\
  exists r1, mDefaultValueStore r1 = mDefaultValueStore rr /\
    fetchAndStoreDefaults fs t cfg (setLifeCycleCallbacks c) r1 = Ok r.
Proof.
  intros Hwf Hty Hreg. unfold registerResource, isResourceConfigMalformed in Hreg.
  replace (mResourceResType c =? 0) with false in Hreg by lia. cbn [mbind result_bind deref] in Hreg.
  destruct (table_insert_spec c rr Hwf) as (r1 & E1 & _ & Hst & Hget). rewrite E1 in Hreg.
  cbn [mbind result_bind] in Hreg.
  destruct (fetchAndStoreDefaults_table fs t cfg _ _ _ Hreg) as (T1 & T2 & T3). split; [|eauto].
  specialize (Hget (resourceBitmap c)). rewrite decide_True in Hget by done.
  rewrite <- Hget. simpl. unfold registry_getResConf. by rewrite T2, T3.
Qed.

(** ** Task affinities *)

(** The cpus of a mask, in increasing order. *)
Definition cpus_of (mask : Z) : list Z := List.filter (Z.testbit mask) (zseq 0 1024).

(** The tail of a comma-separated list of numbers. *)
Fixpoint commas (xs : list Z) : string :=
  match xs with [] => "" | x :: xs => String ","%char (to_string x +:+ commas xs) end.

Lemma CPU_ISSET_testbit i mask : i ∈ zseq 0 1024 -> CPU_ISSET i mask = Z.testbit mask i.
Proof.
  intros Hi%zseq_elem. unfold CPU_ISSET, CPU_SETSIZE.
  replace (0 <=? i) with true by lia. by replace (i <? 1024) with true by lia.
Qed.

Lemma mask_loop_commas mask ids : forall acc, Forall (fun i => i ∈ zseq 0 1024) ids ->
  acc <> "" -> mask_loop mask ids acc = acc +:+ commas (List.filter (Z.testbit mask) ids).
Proof.
  induction ids as [|i ids IH]; intros acc Hids Hacc.
  - simpl. by rewrite app_empty_r.
  - apply Forall_cons in Hids as [Hi Hids]. cbn [mask_loop List.filter].
    rewrite CPU_ISSET_testbit by done. destruct (Z.testbit mask i); [|by apply IH].
    replace (0 <? String.length acc)%nat with true by (by destruct acc).
    rewrite IH; [|done|by destruct acc]. cbn [commas]. by rewrite !app_assoc_str.
Qed.

Lemma mask_string_list mask :
  mask_string mask =
  match cpus_of mask with [] => "" | x :: xs => to_string x +:+ commas xs end.
Proof.
  unfold mask_string, cpus_of.
  assert (Forall (fun i => i ∈ zseq 0 1024) (zseq 0 1024)) as H by (apply Forall_forall; auto).
  revert H. generalize (zseq 0 1024) at 2 3 4 as ids. intros ids H.
  induction H as [|i ids Hi Hids IH]; [done|]. cbn [mask_loop List.filter].
  rewrite CPU_ISSET_testbit by done. destruct (Z.testbit mask i); [|done].
  rewrite mask_loop_commas; [done|done|]. apply to_string_nonempty.
Qed.

Lemma split_commas xs : forall s, lacks ","%char s = true -> s <> "" ->
  split_on ","%char (s +:+ commas xs) = s :: map to_string xs.
Proof.
  induction xs as [|x xs IH]; intros s Hs Hne; cbn [commas map].
  - rewrite app_empty_r. by apply split_on_last.
  - rewrite split_on_delim by done. f_equal. apply IH; [by apply to_string_lacks|].
    apply to_string_nonempty.
Qed.

Lemma stoi_cpu i : i ∈ zseq 0 1024 -> stoi 10 (to_string i) = inl i.
Proof.
  assert (forallb (fun i => match stoi 10 (to_string i) with inl v => v =? i | inr _ => false end)
    (zseq 0 1024) = true) as H by (vm_compute; reflexivity).
  rewrite forallb_forall in H. intros Hi%list_elem_of_In. specialize (H i Hi).
  destruct (stoi 10 (to_string i)); [|done]. zb. by subst.
Qed.
Lemma stoi_tokens_cpus xs : Forall (fun i => i ∈ zseq 0 1024) xs ->
  stoi_tokens (map to_string xs) = (xs, true).
Proof.
  induction 1 as [|x xs Hx _ IH]; [done|]. cbn [map stoi_tokens]. rewrite stoi_cpu by done.
  by rewrite IH.
Qed.

Lemma cpus_of_elem mask i : i ∈ cpus_of mask <-> i ∈ zseq 0 1024 /\ Z.testbit mask i = true.
Proof. unfold cpus_of. by rewrite !list_elem_of_In, filter_In. Qed.

Lemma foldl_CPU_SET xs : forall acc i, Forall (fun j => j ∈ zseq 0 1024) xs -> 0 <= i ->
  Z.testbit (foldl (fun m c => CPU_SET c m) acc xs) i = Z.testbit acc i || bool_decide (i ∈ xs).
Proof.
  induction xs as [|x xs IH]; intros acc i Hxs Hi; cbn [foldl].
  - rewrite bool_decide_false by set_solver. by rewrite orb_false_r.
  - apply Forall_cons in Hxs as [Hx Hxs]. rewrite IH by done. apply zseq_elem in Hx.
    unfold CPU_SET, CPU_SETSIZE. replace ((0 <=? x) && (x <? 1024)) with true by lia.
    rewrite Z.setbit_eqb by lia. rewrite orb_comm with (b1 := x =? i), <- orb_assoc. f_equal.
    destruct (Z.eqb_spec x i) as [->|Hne]; simpl.
    + symmetry. apply bool_decide_true. by left.
    + apply bool_decide_ext. set_solver.
Qed.

(** Storing a mask as text and reading it back. *)
Lemma mask_roundtrip mask : in_u 1024 mask -> mask <> 0 ->
  mask_string mask <> "" /\
  exists cpuIds, stoi_tokens (split_on ","%char (mask_string mask)) = (cpuIds, true) /\
    foldl (fun originalMask cpuId => CPU_SET cpuId originalMask) 0 cpuIds = mask.
Proof.
  intros Hm H0.
  assert (Forall (fun j => j ∈ zseq 0 1024) (cpus_of mask)) as Hc.
  { apply Forall_forall. intros j Hj. apply cpus_of_elem in Hj. apply Hj. }
  assert (foldl (fun m c => CPU_SET c m) 0 (cpus_of mask) = mask) as Hf.
  { apply Z.bits_inj'. intros i Hi. rewrite foldl_CPU_SET; [|done|done].
    rewrite Z.testbit_0_l. simpl. destruct (Z.ltb_spec i 1024).
    - apply eq_true_iff_eq. rewrite bool_decide_eq_true, cpus_of_elem, zseq_elem. intuition lia.
    - rewrite (testbit_high 1024 mask i) by (done || lia). apply bool_decide_false.
      rewrite cpus_of_elem, zseq_elem. lia. }
  rewrite mask_string_list. destruct (cpus_of mask) as [|x xs] eqn:E.
  { simpl in Hf. congruence. }
  assert (to_string x <> "") as Hx by apply to_string_nonempty.
  split; [by destruct (to_string x)|]. exists (x :: xs). split; [|done].
  rewrite split_commas; [|by apply to_string_lacks|done]. by apply (stoi_tokens_cpus (x :: xs)).
Qed.

(** The task slots of an affinity resource, and the tasks they name. *)
Definition task_slots (res : Resource) : list Z := map (value_at res) (zseq 0 6).
Definition tasks (res : Resource) : list Z := List.filter (fun pid => 0 <? pid) (task_slots res).
Definition new_mask (res : Resource) : Z :=
  foldl (fun mask cpuId => CPU_SET cpuId mask) 0
    (map (value_at res) (indices_from maxPidCount res)).

Lemma tasks_elem xs p : p ∈ List.filter (fun pid => 0 <? pid) xs <-> p ∈ xs /\ 0 < p.
Proof. rewrite !list_elem_of_In, filter_In. by rewrite Z.ltb_lt. Qed.

Lemma task_key_inj p q : task_affinity_key p = task_affinity_key q -> p = q.
Proof. unfold task_affinity_key. intros E%(inj _). by apply (inj to_string). Qed.

Section Affinity.
Context {K : Type} `{!Scheduler K} (permitted : Z -> Z) `{!SchedulerLaws K permitted}.
Implicit Types d : Device K.

Definition affinity (d : Device K) (pid : Z) : option Z := sched_getaffinity (dev_sched d) pid.
Definition exist_all (d : Device K) (pids : list Z) : Prop :=
  Forall (fun p => is_Some (affinity d p)) pids.

(** Setting the mask of one task: what the kernel makes of it. *)
Definition cut (mask : Z) (old : option Z) (pid : Z) : option Z :=
  if Z.land mask (permitted pid) =? 0 then old else Some (Z.land mask (permitted pid)).

Lemma set_affinity_get pid mask d q :
  is_Some (affinity d pid) ->
  affinity (set_affinity pid mask d) q =
    if decide (q = pid) then cut mask (affinity d pid) pid else affinity d q.
Proof.
  intros [m Hm]. unfold affinity, set_affinity, cut in *. cbn [dev_sched with_sched].
  destruct (Z.eqb_spec (Z.land mask (permitted pid)) 0) as [E|E].
  - rewrite (law_refused _ pid mask E). simpl. case_decide; by subst.
  - destruct (law_set _ pid m mask Hm E) as (k' & -> & Hk). simpl. apply Hk.
Qed.

Lemma set_affinities_get res (Hres : res_ok res) mask ids : forall d,
  exist_all d (List.filter (fun pid => 0 <? pid) (map (value_at res) ids)) ->
  exists d', set_affinities res mask ids d = Ok d' /\ dev_reg d' = dev_reg d /\
    forall q, affinity d' q =
      if decide (q ∈ List.filter (fun pid => 0 <? pid) (map (value_at res) ids))
      then cut mask (affinity d q) q else affinity d q.
Proof.
  induction ids as [|i ids IH]; intros d He.
  - exists d. split_and!; [done|done|]. intros q. rewrite decide_False; [done|]. apply not_elem_of_nil.
  - cbn [map List.filter] in *. cbn [set_affinities]. rewrite getValueAt_ok by done.
    cbn [mbind result_bind]. set (p := value_at res i) in *. rewrite Z.gtb_ltb.
    destruct (0 <? p) eqn:Ep; [|by apply IH].
    apply Forall_cons in He as [Hp He]. destruct (IH (set_affinity p mask d)) as (d' & E & Hr & Hq).
    { eapply Forall_impl; [exact He|]. intros q Hq. cbn beta. rewrite set_affinity_get by done.
      case_decide; [|done]. unfold cut. case_if; eauto. }
    exists d'. split_and!; [done|done|]. intros q. rewrite Hq, !set_affinity_get by done.
    destruct (decide (q = p)) as [->|Hne].
    + rewrite (decide_True (P := p ∈ p :: _)) by (by left). case_decide; [|done].
      unfold cut. case_if; done.
    + repeat case_decide; set_solver.
Qed.

Lemma save_affinities_store res (Hres : res_ok res) ids : forall d,
  exist_all d (List.filter (fun pid => 0 <? pid) (map (value_at res) ids)) ->
  exists d', save_affinities res ids d = Ok d' /\ dev_sched d' = dev_sched d /\
    forall q m, q ∈ List.filter (fun pid => 0 <? pid) (map (value_at res) ids) \/
        mDefaultValueStore (dev_reg d) !! task_affinity_key q = Some (mask_string m) ->
      affinity d q = Some m ->
      mDefaultValueStore (dev_reg d') !! task_affinity_key q = Some (mask_string m).
Proof.
  induction ids as [|i ids IH]; intros d He.
  - exists d. split_and!; [done|done|]. intros q m [[]%not_elem_of_nil|Hq] _. done.
  - cbn [map List.filter] in *. cbn [save_affinities]. rewrite getValueAt_ok by done.
    cbn [mbind result_bind]. set (p := value_at res i) in *.
    destruct (0 <? p) eqn:Ep.
    + replace (p <=? 0) with false by lia. apply Forall_cons in He as [[mp Hp] He].
      unfold affinity in Hp. rewrite Hp.
      destruct (IH (with_reg (addDefaultValue (task_affinity_key p) (mask_string mp) (dev_reg d)) d))
        as (d' & E & Hs & Hq); [done|].
      exists d'. split_and!; [done|done|]. intros q m Hor Hm. apply Hq; [|done].
      destruct (decide (q = p)) as [->|Hne].
      * right. simpl. rewrite lookup_insert_eq. unfold affinity in Hm. congruence.
      * destruct Hor as [Hor|Hor]; [left; set_solver|right]. simpl.
        rewrite lookup_insert_ne; [done|]. intros Hk. by apply task_key_inj in Hk.
    + replace (p <=? 0) with true by lia. by apply IH.
Qed.

Lemma build_mask_ok res (Hres : res_ok res) ids : forall mask,
  build_mask res ids mask =
    Ok (foldl (fun mask cpuId => CPU_SET cpuId mask) mask (map (value_at res) ids)).
Proof.
  induction ids as [|i ids IH]; intros mask; [done|]. cbn [build_mask map foldl].
  rewrite getValueAt_ok by done. apply IH.
Qed.

(** One call of the applier. *)
Lemma setTaskAffinity_spec res d :
  res_ok res -> 7 <= mNumValues res -> exist_all d (tasks res) ->
  exists d', setTaskAffinity (Some res) d = Ok d' /\
    (forall q, affinity d' q =
       if decide (q ∈ tasks res) then cut (new_mask res) (affinity d q) q else affinity d q) /\
    (forall q m, q ∈ tasks res -> affinity d q = Some m ->
       mDefaultValueStore (dev_reg d') !! task_affinity_key q = Some (mask_string m)).
Proof.
  intros Hres Hn He. unfold setTaskAffinity, getValuesCount.
  replace (mNumValues res <? maxPidCount + 1) with false by (unfold maxPidCount; lia).
  destruct (save_affinities_store res Hres (zseq 0 6) d He) as (d1 & E1 & Hs1 & Hst).
  rewrite E1. cbn [mbind result_bind]. rewrite build_mask_ok by done. cbn [mbind result_bind].
  destruct (set_affinities_get res Hres (new_mask res) (zseq 0 6) d1) as (d2 & E2 & Hr2 & Hq).
  { unfold exist_all, affinity. rewrite Hs1. exact He. }
  exists d2. split; [done|]. split.
  - intros q. rewrite Hq. unfold affinity. by rewrite Hs1.
  - intros q m Hin Hm. rewrite Hr2. by apply Hst; [left|].
Qed.

(** The reset gives every task the stored mask. *)
Lemma reset_affinities_get res (Hres : res_ok res) (saved : Z -> Z) ids : forall d,
  (forall q, q ∈ List.filter (fun pid => 0 <? pid) (map (value_at res) ids) ->
     is_Some (affinity d q) /\ in_u 1024 (saved q) /\ saved q <> 0 /\
     Z.land (saved q) (permitted q) = saved q /\
     mDefaultValueStore (dev_reg d) !! task_affinity_key q = Some (mask_string (saved q))) ->
  exists d', reset_affinities res ids d = Ok d' /\
    forall q, affinity d' q =
      if decide (q ∈ List.filter (fun pid => 0 <? pid) (map (value_at res) ids))
      then Some (saved q) else affinity d q.
Proof.
  induction ids as [|i ids IH]; intros d Hd.
  - exists d. split; [done|]. intros q. rewrite decide_False; [done|]. apply not_elem_of_nil.
  - cbn [map List.filter] in *. cbn [reset_affinities]. rewrite getValueAt_ok by done.
    cbn [mbind result_bind]. set (p := value_at res i) in *. destruct (0 <? p) eqn:Ep.
    2: { replace (p <=? 0) with true by lia. by apply IH. }
    replace (p <=? 0) with false by lia.
    destruct (Hd p) as (Hp & Hu & H0 & Hl & Hst); [by left|].
    rewrite (default_at_stored _ (mask_string (saved p))) by done.
    destruct (mask_roundtrip (saved p) Hu H0) as (Hne & cpuIds & Etok & Ef).
    replace (String.length (mask_string (saved p)) =? 0)%nat with false
      by (by destruct (mask_string (saved p))).
    rewrite Etok, Ef.
    assert (forall q, affinity (set_affinity p (saved p) d) q =
      if decide (q = p) then Some (saved p) else affinity d q) as Hset.
    { intros q. rewrite set_affinity_get by done. case_decide; [|done]. unfold cut. rewrite Hl.
      rewrite (proj2 (Z.eqb_neq _ _) H0). reflexivity. }
    destruct (IH (set_affinity p (saved p) d)) as (d' & E & Hq).
    { intros q Hin. destruct (Hd q) as (? & ? & ? & ? & ?); [by right|]. split_and!; [|done..].
      rewrite Hset. case_decide; eauto. }
    exists d'. split; [exact E|]. intros q. rewrite Hq, Hset. clear - Ep.
    destruct (decide (q = p)) as [->|Hne].
    + rewrite (decide_True (P := p ∈ p :: _)) by (by left). by case_decide.
    + repeat case_decide; set_solver.
Qed.

(** Applying to a state and then resetting gives the affinities of that state. *)
Lemma affinity_set_reset res d :
  res_ok res -> 7 <= mNumValues res -> exist_all d (tasks res) ->
  exists d1 d2, setTaskAffinity (Some res) d = Ok d1 /\
    (forall q, affinity d1 q =
       if decide (q ∈ tasks res) then cut (new_mask res) (affinity d q) q else affinity d q) /\
    resetTaskAffinity (Some res) d1 = Ok d2 /\ (forall q, affinity d2 q = affinity d q).
Proof.
  intros Hres Hn He. destruct (setTaskAffinity_spec res d Hres Hn He) as (d1 & E1 & Hg & Hst).
  destruct (reset_affinities_get res Hres (fun q => default 0 (affinity d q)) (zseq 0 6) d1)
    as (d2 & E2 & Hq).
  { intros q Hin. change (q ∈ tasks res) in Hin. unfold exist_all in He. rewrite Forall_forall in He.
    destruct (He q Hin) as [m Hm]. destruct (law_get _ _ _ Hm) as (H0 & Hu & Hl).
    rewrite Hm. cbn [default from_option id]. split_and!; [|done..|by apply Hst].
    rewrite Hg, decide_True by done. unfold cut. case_if; [|by eauto]. by rewrite Hm. }
  exists d1, d2. split_and!; [done|done| |].
  - unfold resetTaskAffinity, getValuesCount.
    by replace (mNumValues res <? maxPidCount + 1) with false by (unfold maxPidCount; lia).
  - intros q. rewrite Hq, Hg. case_decide as Hin; [|by rewrite decide_False].
    unfold exist_all in He. rewrite Forall_forall in He. by destruct (He q Hin) as [m ->].
Qed.
End Affinity.

(** ** The callbacks of plugins *)

Definition override (f : ResConfInfo -> ResConfInfo) (code : Z) (r : ResourceRegistry) : ResourceRegistry :=
  let i := registry_getResourceTableIndex r code in
  if i =? -1 then r else set_configs (alter f (Z.to_nat i) (mResourceConfigs r)) r.

Lemma override_spec f code r :
  (forall c, resourceBitmap (f c) = resourceBitmap c) -> reg_wf r ->
  reg_wf (override f code r) /\
  forall code', registry_getResConf (override f code r) code' =
    (if decide (code' = code) then f else id) <$> registry_getResConf r code'.
Proof.
  intros Hf Hr. unfold override, registry_getResourceTableIndex.
  assert (forall o : option ResConfInfo, id <$> o = o) as Hid by (by intros []).
  destruct (mSILMap r !! code) as [i|] eqn:E.
  - destruct (wf_index r Hr code i E) as (c & Hi & Hc & Hk). replace (i =? -1) with false by lia.
    split.
    + split; simpl.
      * rewrite length_alter. apply Hr.
      * intros k j Hj. destruct (wf_index r Hr k j Hj) as (cj & Hj0 & Hcj & Hkj).
        destruct (decide (Z.to_nat j = Z.to_nat i)) as [Eij|Hne].
        -- rewrite Eij, list_lookup_alter_eq. rewrite Eij in Hcj. rewrite Hcj. simpl.
           eexists. split_and!; [done|done|]. by rewrite Hf.
        -- rewrite list_lookup_alter_ne by done. eauto.
      * intros j cj Hj. destruct (decide (j = Z.to_nat i)) as [->|Hne].
        -- rewrite list_lookup_alter_eq, Hc in Hj. injection Hj as <-. rewrite Hf. by apply Hr.
        -- rewrite list_lookup_alter_ne in Hj by done. by apply Hr.
    + intros code'. unfold registry_getResConf. simpl.
      destruct (mSILMap r !! code') as [j|] eqn:Ej; [|by case_decide].
      destruct (wf_index r Hr code' j Ej) as (cj & Hj0 & Hcj & Hkj).
      replace (j =? -1) with false by lia. case_decide as Hd.
      * subst. assert (j = i) as -> by congruence. by rewrite list_lookup_alter_eq.
      * rewrite list_lookup_alter_ne, Hid; [done|]. intros Eji. rewrite Eji in Hc. congruence.
  - simpl. split; [done|]. intros code'. case_decide as Hd; [|by rewrite Hid]. subst.
    unfold registry_getResConf. by rewrite E.
Qed.

(** A loop of overrides, one per code, in any order. *)
Lemma overrides_spec {A} (f : A -> ResConfInfo -> ResConfInfo) (cbs : list (Z * A)) :
  (forall a c, resourceBitmap (f a c) = resourceBitmap c) -> NoDup cbs.*1 -> forall r,
  reg_wf r -> reg_wf (foldl (fun r cb => override (f cb.2) cb.1 r) r cbs) /\
  forall code, registry_getResConf (foldl (fun r cb => override (f cb.2) cb.1 r) r cbs) code =
    (match (list_to_map cbs : gmap Z A) !! code with Some a => f a | None => id end)
      <$> registry_getResConf r code.
Proof.
  intros Hf. induction cbs as [|[k a] cbs IH]; intros Hnd r Hr.
  - split; [done|]. intros code. simpl. by destruct (registry_getResConf r code).
  - cbn [fmap list_fmap fst] in Hnd. apply NoDup_cons in Hnd as [Hk Hnd].
    cbn [foldl fst snd]. destruct (override_spec (f a) k r (Hf a) Hr) as [Hr1 Hg1].
    destruct (IH Hnd _ Hr1) as [Hr2 Hg2]. split; [done|]. intros code. rewrite Hg2, Hg1.
    cbn [list_to_map foldr]. destruct (decide (code = k)) as [->|Hne].
    + rewrite (not_elem_of_list_to_map_1 cbs k) by done. rewrite lookup_insert_eq.
      by destruct (registry_getResConf r k).
    + rewrite lookup_insert_ne by done. by destruct (registry_getResConf r code).
Qed.

Lemma pluginModifications_spec (appliers tears : list (Z * ResourceLifecycleCallback)) r :
  NoDup appliers.*1 -> NoDup tears.*1 -> reg_wf r ->
  reg_wf (pluginModifications appliers tears r) /\
  forall code, registry_getResConf (pluginModifications appliers tears r) code =
    (fun c => set_callbacks
       (match (list_to_map appliers : gmap Z _) !! code with Some a => Some a | None => mResourceApplierCallback c end)
       (match (list_to_map tears : gmap Z _) !! code with Some a => Some a | None => mResourceTearCallback c end) c)
    <$> registry_getResConf r code.
Proof.
  intros Ha Ht Hr. set (fa := fun a c => set_callbacks (Some a) (mResourceTearCallback c) c).
  set (ft := fun a c => set_callbacks (mResourceApplierCallback c) (Some a) c).
  destruct (overrides_spec fa appliers (fun _ _ => eq_refl) Ha r Hr) as [Hr1 Hg1].
  destruct (overrides_spec ft tears (fun _ _ => eq_refl) Ht _ Hr1) as [Hr2 Hg2].
  split; [exact Hr2|]. intros code. etrans; [apply Hg2|]. rewrite Hg1.
  destruct (registry_getResConf r code) as [c|]; [|done]. simpl. f_equal.
  destruct (list_to_map appliers !! code), (list_to_map tears !! code); by destruct c.
Qed.

Lemma hash_order_keys `{HashOrder} {A} (m : gmap Z A) :
  NoDup (hash_order m).*1 /\ (list_to_map (hash_order m) : gmap Z A) = m.
Proof.
  assert (NoDup (hash_order m).*1) as Hnd.
  { rewrite hash_order_perm. apply NoDup_fst_map_to_list. }
  split; [done|]. rewrite <- (list_to_map_to_list m) at 2.
  apply list_to_map_proper; [done|apply hash_order_perm].
Qed.

(** ** Properties *)

(** C11: apply and reset.  Register a resource on a target, with one of the four apply
    types and the default callbacks of that type.  For every request of that resource
    whose nodes exist on the target (a cluster, a core, all cores of a cluster, a cgroup
    or the one global node) and can be opened, the applier never faults and writes the
    requested value, multiplied by the unit except for a global resource, to exactly
    those files; the tear callback, run at any later state in which the registry and the
    target are those of the registration, makes every one of them read again what
    it read when the resource was registered, and touches no other file.  (The value -1
    is excluded except for global resources: the applier faults on it.) *)
Theorem default_hooks_restore {K : Type} `{!Scheduler K} `{HashOrder} (fs : FileSystem)
    (t : TargetRegistry) (cfg : TargetConfigs) (c : ResConfInfo) (rr r : ResourceRegistry)
    (res : Resource) (ps : list string) (d e : Device K) :
  reg_wf rr -> mResourceResType c <> 0 -> registerResource fs t cfg (Some c) rr = Ok r ->
  getResCode res = resourceBitmap c -> res_ok res -> nodes c t cfg res ps ->
  in_s 32 (requested c res) -> (mApplyType c = APPLY_GLOBAL \/ requested c res <> -1) ->
  dev_reg d = r -> dev_target d = t -> Forall (openable d) ps ->
  dev_reg e = r -> dev_target e = t -> Forall (openable e) ps ->
  exists conf d' e',
    getResConf r (getResCode res) = Some conf /\
    call_callback (mResourceApplierCallback conf) res d = Ok d' /\
    written (fun _ => node_text c res) ps d d' /\
    call_callback (mResourceTearCallback conf) res e = Ok e' /\
    (forall p, p ∈ ps -> readFromFile (dev_fs e') p = readFromFile fs p) /\
    (forall p, p ∉ ps -> file e' p = file e p).
Proof.
  intros Hwf Hty Hreg Hcode Hres Hn Hv Hm Hdr Hdt Hdo Her Het Heo.
  destruct (register_conf fs t cfg c rr r Hwf Hty Hreg) as (Hconf & r1 & _ & Hfetch).
  rewrite <- Hcode in Hconf. destruct (setLifeCycleCallbacks_set c) as (a & b & Hab).
  assert (defaults_stored fs r ps) as Hdef.
  { eapply nodes_defaults; [|exact Hn]. rewrite Hab in Hfetch. exact Hfetch. }
  assert (forall x : Device K, dev_reg x = r -> dev_target x = t -> Forall (openable x) ps ->
    ready c t res ps x) as Hready.
  { intros x Hx1 Hx2 Hx3. split; [|done|done]. exists a, b. unfold conf_at. by rewrite Hx1, Hconf, Hab. }
  destruct (default_applier_written c t cfg res Hres ps d) as (d' & Ed & Wd); [by auto..|].
  destruct (default_tear_written c t cfg res Hres fs ps e) as (e' & Ee & We);
    [by auto|by auto|by rewrite Her|].
  exists (setLifeCycleCallbacks c), d', e'. split_and!; [done| |done| | |].
  - by rewrite (proj1 (call_default_callbacks c res d)).
  - by rewrite (proj2 (call_default_callbacks c res e)).
  - intros p Hp. apply (read_line_of c). pose proof (wr_file _ _ _ _ We p) as Hf.
    by rewrite decide_True in Hf.
  - intros p Hp. rewrite (wr_file _ _ _ _ We p). by rewrite decide_False.
Qed.

(** A kernel with four cpus, for the examples. *)
Definition Kernel : Type := gmap Z Z.
#[export] Instance kernel_scheduler : Scheduler Kernel := {
  sched_getaffinity k pid :=
    match (k : gmap Z Z) !! pid with
    | Some m => if negb (m =? 0) && (Z.land m 15 =? m) then Some m else None
    | None => None
    end;
  sched_setaffinity k pid mask :=
    if Z.land mask 15 =? 0 then None else
    match (k : gmap Z Z) !! pid with
    | Some m => Some (<[pid := Z.land mask 15]> (k : gmap Z Z))
    | None => None
    end
}.
#[export] Instance kernel_laws : SchedulerLaws Kernel (fun _ => 15).
Proof.
  assert (forall m, Z.land (Z.land m 15) 15 = Z.land m 15) as Hidem.
  { intros m. by rewrite <- Z.land_assoc. }
  assert (forall m, in_u CPU_SETSIZE (Z.land m 15)) as Hu.
  { intros m. change 15 with (Z.ones 4). rewrite Z.land_ones by lia. unfold in_u, CPU_SETSIZE.
    pose proof (Z.mod_pos_bound m (2 ^ 4) ltac:(lia)).
    pose proof (Z.pow_lt_mono_r 2 4 1024 ltac:(lia) ltac:(lia) ltac:(lia)). lia. }
  split; simpl.
  - intros k pid m. destruct ((k : gmap Z Z) !! pid) as [m'|]; [|done].
    destruct (Z.eqb_spec m' 0) as [|H0]; [done|]. destruct (Z.eqb_spec (Z.land m' 15) m') as [Hl|]; [|done].
    intros [= <-]. split_and!; [done|rewrite <- Hl; apply Hu|done].
  - intros k pid m mask. destruct ((k : gmap Z Z) !! pid) as [m'|] eqn:Ek; [|done].
    intros _ Hn. rewrite (proj2 (Z.eqb_neq _ _) Hn). eexists. split; [done|]. intros pid'.
    destruct (decide (pid' = pid)) as [->|Hne].
    + rewrite lookup_insert_eq, Hidem, Z.eqb_refl. by rewrite (proj2 (Z.eqb_neq _ _) Hn).
    + by rewrite lookup_insert_ne.
  - intros k pid mask ->. done.
Qed.

(** Two clusters of four cores behind a registry and writable files. *)
Definition sample_target : TargetRegistry :=
  mkTR {[0 := 0; 1 := 4]}
    {[0 := Some (mkCluster 0 (Some 100) (Some 0) 4); 4 := Some (mkCluster 4 (Some 200) (Some 4) 4)]}
    {[1 := Some (mkCGroup "camera" 1 true false)]} ∅ ∅.
Definition sample_fs : FileSystem :=
  set_files <["/sys/cpu/cpu5/online" := "7" +:+ String newline ""]> empty_fs.
Definition core_conf : ResConfInfo :=
  mkConf "r" "/sys/cpu/cpu%d/online" 3 7 100 0 PERMISSION_THIRD_PARTY 1 APPLY_CORE LAZY_APPLY
    None U_KB None.

Definition core_reg : ResourceRegistry :=
  match registerResource (H := sorted_hash_order) sample_fs sample_target
      (mkTargetConfigs "" 8 2 1) (Some core_conf) ResourceRegistry_init with
  | Ok r => r
  | Fault _ => ResourceRegistry_init
  end.
Definition sample_device : Device Kernel :=
  mkDevice sample_fs core_reg sample_target {[41 := 15; 42 := 6]}.
Definition core5_res (v : Z) : Resource := mkResource 196615 (4 * 256 + 5) 0 1 (Inline v 0) RES_FORWARD.

Lemma default_hooks_restore_witness :
  exists d', call_callback (Some ResourceRegistry.defaultCoreLevelApplierCb) (core5_res 2)
      sample_device = Ok d' /\
    readFromFile (dev_fs d') "/sys/cpu/cpu5/online" = "2048".
Proof.
  destruct (default_hooks_restore (H := sorted_hash_order) sample_fs sample_target
      (mkTargetConfigs "" 8 2 1) core_conf ResourceRegistry_init core_reg
      (core5_res 2) ["/sys/cpu/cpu5/online"] sample_device sample_device)
    as (conf & d' & e' & Hc & Ed & Wd & _);
    [apply reg_wf_init|done|vm_compute; reflexivity|reflexivity| | | |by right|reflexivity|reflexivity
    |by repeat constructor|reflexivity|reflexivity|by repeat constructor|].
  - split; simpl; [unfold in_u; lia|done|lia|lia].
  - apply nodes_core; [done|vm_compute; lia|vm_compute; done|reflexivity].
  - change (requested core_conf (core5_res 2)) with 2. unfold in_s. simpl. lia.
  - exists d'. split.
    + vm_compute in Hc. injection Hc as <-. exact Ed.
    + unfold readFromFile. pose proof (wr_file _ _ _ _ Wd "/sys/cpu/cpu5/online") as Hf.
      rewrite decide_True in Hf by (by left). unfold file in Hf. rewrite Hf. vm_compute. reflexivity.
Defined.

(** C23: task affinity.  When every task a request names exists, setting the affinity gives
    each of them the requested cpus it may run on (or leaves it alone when there are
    none) and no other task; resetting afterwards gives every task exactly the affinity it had,
    whatever that was.  But the saved mask is replaced by each call: when a second
    request for a task is applied before the first is reset, as the pass-through policy
    of this resource allows, the reset puts back the mask of the first request. *)
Theorem task_affinity_restored {K : Type} `{!Scheduler K} (permitted : Z -> Z)
    `{!SchedulerLaws K permitted} (d : Device K) (first second : Resource) :
  res_ok first -> 7 <= mNumValues first -> res_ok second -> 7 <= mNumValues second ->
  exist_all d (tasks first) -> exist_all d (tasks second) ->
  exists d1 d2 d3 d4,
    setTaskAffinity (Some first) d = Ok d1 /\
    (forall q, affinity d1 q =
       if decide (q ∈ tasks first) then cut permitted (new_mask first) (affinity d q) q
       else affinity d q) /\
    resetTaskAffinity (Some first) d1 = Ok d2 /\ (forall q, affinity d2 q = affinity d q) /\
    setTaskAffinity (Some second) d1 = Ok d3 /\
    resetTaskAffinity (Some second) d3 = Ok d4 /\
    (forall q, affinity d4 q = affinity d1 q).
Proof.
  intros H1 N1 H2 N2 E1 E2.
  destruct (affinity_set_reset permitted first d H1 N1 E1) as (d1 & d2 & S1 & G1 & R1 & A1).
  assert (exist_all d1 (tasks second)) as E2'.
  { eapply Forall_impl; [exact E2|]. intros q Hq. cbn beta. rewrite G1. case_decide; [|done].
    unfold cut. case_if; eauto. }
  destruct (affinity_set_reset permitted second d1 H2 N2 E2') as (d3 & d4 & S2 & _ & R2 & A2).
  exists d1, d2, d3, d4. by split_and!.
Qed.

Definition affinity_res (cpu : Z) : Resource :=
  mkResource 0x00030004 0 0 7
    (HeapArr (Some (map Some [42; 0; 0; 0; 0; 0; cpu]))) RES_FORWARD.

Lemma task_affinity_restored_witness :
  exists d1 d3 d4, setTaskAffinity (Some (affinity_res 3)) sample_device = Ok d1 /\
    setTaskAffinity (Some (affinity_res 0)) d1 = Ok d3 /\
    resetTaskAffinity (Some (affinity_res 0)) d3 = Ok d4 /\
    affinity sample_device 42 = Some 6 /\ affinity d4 42 = Some 8.
Proof.
  assert (forall cpu, res_ok (affinity_res cpu)) as Hr.
  { intros cpu. split; simpl; [unfold in_u; lia|unfold in_u; lia|lia|]. split_and!; [lia|done|]. repeat constructor; eauto. }
  assert (exist_all sample_device (tasks (affinity_res 3))) as He.
  { repeat constructor. vm_compute. eauto. }
  destruct (task_affinity_restored (fun _ => 15) sample_device (affinity_res 3) (affinity_res 0))
    as (d1 & d2 & d3 & d4 & S1 & G1 & _ & _ & S2 & R2 & A2);
    [apply Hr|done|apply Hr|done|exact He|exact He|].
  exists d1, d3, d4. split_and!; [done|done|done|vm_compute; reflexivity|].
  rewrite A2, G1. vm_compute. reflexivity.
Defined.

(** Registered callbacks.  Whatever callbacks the hooks and the plugins registered, and in
    whatever order the hash maps are traversed, the registry they are installed in
    stays well formed, every resource that has one gets it as its applier or tear
    callback, and nothing else of any configuration changes. *)
Theorem plugin_callbacks_installed `{HashOrder} (e : Extensions) (r : ResourceRegistry) :
  reg_wf r ->
  let r' := pluginModifications (getResourceApplierCallbacks e) (getResourceTearCallbacks e) r in
  reg_wf r' /\
  forall code, getResConf r' code =
    (fun c => set_callbacks
       (match mResourceApplierCallbacks e !! code with
        | Some cb => Some cb | None => mResourceApplierCallback c end)
       (match mResourceTearCallbacks e !! code with
        | Some cb => Some cb | None => mResourceTearCallback c end) c)
    <$> getResConf r code.
Proof.
  intros Hr r'.
  destruct (hash_order_keys (mResourceApplierCallbacks e)) as [N1 L1].
  destruct (hash_order_keys (mResourceTearCallbacks e)) as [N2 L2].
  destruct (pluginModifications_spec _ _ r N1 N2 Hr) as [Hw Hg]. split; [exact Hw|].
  intros code. pose proof (Hg code) as Hc. rewrite L1, L2 in Hc. exact Hc.
Qed.

Definition mask_conf : ResConfInfo := sample_conf 3 4 PASS_THROUGH APPLY_GLOBAL.
Definition mask_reg : ResourceRegistry :=
  mkRR 1 [setLifeCycleCallbacks mask_conf] {[0x00030004 := 0]} ∅.

Lemma plugin_callbacks_installed_witness :
  let e := register_hooks Extensions_init in
  let r' := pluginModifications (getResourceApplierCallbacks (H := sorted_hash_order) e)
              (getResourceTearCallbacks (H := sorted_hash_order) e) mask_reg in
  exists c, getResConf r' 0x00030004 = Some c /\
    call_callback (mResourceApplierCallback c) (affinity_res 3) sample_device =
      setTaskAffinity (Some (affinity_res 3)) sample_device /\
    call_callback (mResourceTearCallback c) (affinity_res 3) sample_device =
      resetTaskAffinity (Some (affinity_res 3)) sample_device.
Proof.
  intros e r'.
  assert (reg_wf mask_reg) as Hr.
  { split; [done| |].
    - intros k i Hk. unfold mask_reg in Hk. cbn [mSILMap] in Hk.
      apply lookup_singleton_Some in Hk as [<- <-]. eexists. split_and!; [lia|reflexivity|reflexivity].
    - intros [|[|i]] c Hc; [injection Hc as <-; reflexivity|done|done]. }
  destruct (plugin_callbacks_installed (H := sorted_hash_order) e mask_reg Hr) as [_ Hg].
  eexists. split; [rewrite Hg; reflexivity|]. split; reflexivity.
Defined.

(** The first cpu of a cluster.  A request for the first logical core of a cluster
    whose first cpu is cpu 0 is translated to the physical core 0, which the applier of
    core resources reads as "every core of the cluster": the requested value is written to
    the node of each of them, not to that of the one core the client named. *)
Theorem first_core_widened {K : Type} `{!Scheduler K} `{HashOrder} (t : TargetRegistry)
    (cfg : TargetConfigs) (c : ResConfInfo) (res : Resource) (physical : Z) (info : ClusterInfo)
    (ps : list string) (d : Device K) :
  mApplyType c = APPLY_CORE -> res_ok res -> getCoreValue res = 1 ->
  mLogicalToPhysicalClusterMapping t !! getClusterValue res = Some physical -> in_u 8 physical ->
  mPhysicalClusters t !! physical = Some (Some info) -> mStartCpu info = Some 0 ->
  0 < mNumCpus info <= mTotalCoreCount cfg -> in_s 32 (mNumCpus info) ->
  Forall2 (fun i p => snprintf 128 (mResourcePath c) (ArgInt i) = Ok p)
    (zseq 0 (Z.to_nat (mNumCpus info))) ps ->
  conf_at res d = Some (setLifeCycleCallbacks c) -> dev_target d = t -> Forall (openable d) ps ->
  in_s 32 (value_at res 0) -> value_at res 0 <> -1 ->
  exists res' d',
    translateToPhysicalIDs c res t = Ok (RC_SUCCESS, res', t) /\
    getClusterValue res' = physical /\ getCoreValue res' = 0 /\
    call_callback (mResourceApplierCallback (setLifeCycleCallbacks c)) res' d = Ok d' /\
    written (fun _ => to_string (value_at res 0 * TranslationUnit_val (mUnit c)) +:+ String newline "")
      ps d d'.
Proof.
  intros Ht Hres Hcore Hmap Hph Hinfo Hstart Hn Hn32 Hps Hconf Hdt Ho Hv Hm.
  set (res' := setClusterValue physical (setCoreValue 0 res)).
  assert (translateToPhysicalIDs c res t = Ok (RC_SUCCESS, res', t)) as Etr.
  { unfold translateToPhysicalIDs, performPhysicalMapping, getPhysicalCoreId, getPhysicalClusterId.
    pose proof (cluster_range res) as Hcl. rewrite Ht, Hcore, Hmap.
    replace (getClusterValue res <? 0) with false by (unfold in_u in Hcl; lia). cbn [Z.ltb Z.eqb negb Z.compare].
    assert (size (mPhysicalClusters t) <> 0%nat) as Hsz.
    { intros Hz%map_size_empty_iff. by rewrite Hz, lookup_empty in Hinfo. }
    rewrite (proj2 (Nat.eqb_neq _ _) Hsz).
    unfold getClusterInfo, map_index. rewrite Hinfo, Hstart.
    replace ((1 <=? 0) || (1 >? mNumCpus info)) with false by lia.
    cbn [mbind result_bind of_option]. replace (physical =? -1) with false by (unfold in_u in Hph; lia).
    unfold res'. by destruct t. }
  assert (in_u 32 (mResInfo res)) as Hinfo32 by apply Hres.
  assert (getClusterValue res' = physical) as Hcl'.
  { unfold res'. rewrite setClusterValue_cluster; [done|apply set_word_range|done]. }
  assert (getCoreValue res' = 0) as Hco'.
  { unfold res'. rewrite setClusterValue_core; [|apply set_word_range|done].
    rewrite setCoreValue_core; [done|done|unfold in_u; lia]. }
  assert (res_ok res') as Hres'.
  { destruct Hres. unfold res'. split; try done. apply set_word_range. }
  assert (conf_at res' d = Some (setLifeCycleCallbacks c)) as Hconf' by exact Hconf.
  destruct (setLifeCycleCallbacks_set c) as (a & b & Hab).
  assert (requested c res' = value_at res 0) as Hrq.
  { unfold requested. by rewrite Ht. }
  assert (nodes c t cfg res' ps) as Hnodes.
  { eapply nodes_cluster_cores; [done|done|by rewrite Hcl'|done|lia|done|lia|exact Hps]. }
  destruct (default_applier_written c t cfg res' Hres' ps d Hnodes) as (d' & Ed & Wd).
  { split; [|done|done]. rewrite Hconf', Hab. eauto. }
  { by rewrite Hrq. }
  { right. by rewrite Hrq. }
  exists res', d'. split_and!; [done|done|done| |].
  - by rewrite (proj1 (call_default_callbacks c res' d)).
  - unfold node_text in Wd. rewrite Ht, Hrq in Wd. exact Wd.
Qed.

Definition core1_res : Resource := mkResource 196615 1 0 1 (Inline 2 0) RES_FORWARD.
Definition cpu_paths : list string :=
  ["/sys/cpu/cpu0/online"; "/sys/cpu/cpu1/online"; "/sys/cpu/cpu2/online"; "/sys/cpu/cpu3/online"].

Lemma cpu_paths_ok :
  Forall2 (fun i p => snprintf 128 (mResourcePath core_conf) (ArgInt i) = Ok p) (zseq 0 4) cpu_paths.
Proof. repeat (apply Forall2_cons; split; [reflexivity|]). by apply Forall2_nil. Qed.

Lemma first_core_widened_witness :
  exists res' d', translateToPhysicalIDs core_conf core1_res sample_target =
      Ok (RC_SUCCESS, res', sample_target) /\
    defaultCoreLevelApplierCb (Some res') sample_device = Ok d' /\
    Forall (fun p => file d' p = Some ("2048" +:+ String newline "")) cpu_paths.
Proof.
  destruct (first_core_widened (H := sorted_hash_order) sample_target (mkTargetConfigs "" 8 2 1) core_conf core1_res 0
      (mkCluster 0 (Some 100) (Some 0) 4) cpu_paths sample_device)
    as (res' & d' & Et & _ & _ & Ed & Wd);
    [reflexivity|split; simpl; [unfold in_u; lia|unfold in_u; lia|lia|lia]|reflexivity|reflexivity
    |unfold in_u; lia|reflexivity|reflexivity|simpl; lia|unfold in_s; simpl; lia|by apply cpu_paths_ok
    |vm_compute; reflexivity|reflexivity|by apply Forall_forall
    |change (value_at core1_res 0) with 2; unfold in_s; simpl; lia|done|].
  exists res', d'. split_and!; [exact Et|exact Ed|].
  apply Forall_forall. intros p Hp. rewrite (wr_file _ _ _ _ Wd p), decide_True by done.
  vm_compute. reflexivity.
Defined.

(** What the callbacks do not handle.  On a cluster resource the value -1 makes the
    applier divide the lowest 64-bit number by -1, a signed overflow.  A global resource
    requested with an identifier and a value has the value written to the node of that
    identifier, but registration stores the default of the path as it stands in the
    configuration, so that the tear callback writes the empty string to the node.
    Removing threads from a cgroup always reads an uninitialised string. *)
Theorem hooks_unchecked {K : Type} `{!Scheduler K} `{HashOrder} (fs : FileSystem)
    (t : TargetRegistry) (cfg : TargetConfigs) (c : ResConfInfo) (rr r : ResourceRegistry)
    (res : Resource) (p : string) (d : Device K) :
  reg_wf rr -> mResourceResType c <> 0 -> registerResource fs t cfg (Some c) rr = Ok r ->
  getResCode res = resourceBitmap c -> res_ok res -> dev_reg d = r -> openable d p ->
  (mApplyType c = APPLY_CLUSTER -> value_at res 0 = -1 ->
     snprintf 128 (mResourcePath c) (ArgInt (getClusterValue res)) = Ok p ->
     defaultClusterLevelApplierCb (Some res) d = Fault SignedOverflow) /\
  (mApplyType c = APPLY_GLOBAL -> mNumValues res = 2 ->
     snprintf 128 (mResourcePath c) (ArgInt (value_at res 0)) = Ok p ->
     p <> mResourcePath c -> p <> "" -> mDefaultValueStore rr !! p = None ->
     exists d' e', defaultGlobalLevelApplierCb (Some res) d = Ok d' /\
       written (fun _ => to_string (value_at res 1)) [p] d d' /\
       defaultGlobalLevelTearCb (Some res) d' = Ok e' /\ file e' p = Some "") /\
  (2 <= mNumValues res -> removeThreadFromCGroup (Some res) d = Fault Indeterminate).
Proof.
  intros Hwf Hty Hreg Hcode Hres Hdr Ho.
  destruct (register_conf fs t cfg c rr r Hwf Hty Hreg) as (Hget & r1 & Hst1 & Hfetch).
  destruct (setLifeCycleCallbacks_set c) as (a & b & Hab).
  assert (conf_at res d = Some (set_callbacks a b c)) as Hconf.
  { unfold conf_at. by rewrite Hdr, Hcode, Hget, Hab. }
  split_and!.
  - intros Ht Hv Hp. unfold defaultClusterLevelApplierCb. rewrite Hconf.
    cbn [getFullResourceNodePath mResourcePath set_callbacks]. rewrite Hp. cbn [mbind result_bind].
    rewrite getValueAt_ok, Hv by done. cbn [mbind result_bind]. by rewrite translate_minus_one.
  - intros Ht H2 Hp Hne Hp0 Hnone.
    destruct (writeToFile_written p (to_string (value_at res 1)) d Ho Hp0) as [F1 O1 R1 T1' S1].
    set (d' := on_fs _ d) in *.
    assert (mDefaultValueStore (dev_reg d') !! p = None) as Hdef.
    { rewrite R1, Hdr. unfold fetchAndStoreDefaults in Hfetch. rewrite Hab in Hfetch.
      cbn [mApplyType set_callbacks] in Hfetch. rewrite Ht in Hfetch. injection Hfetch as <-.
      simpl. by rewrite lookup_insert_ne, Hst1. }
    set (reg' := set_store (<[p := ""]> (mDefaultValueStore (dev_reg d'))) (dev_reg d')).
    destruct (writeToFile_written p "" (with_reg reg' d')) as [F2 _ _ _ _]; [|done|].
    { unfold openable. rewrite <- Ho. apply (O1 p). }
    exists d', (on_fs (fun fs => writeToFile fs p "") (with_reg reg' d')). split_and!.
    + unfold defaultGlobalLevelApplierCb. rewrite Hconf. rewrite !getValueAt_ok by done.
      unfold getValuesCount. rewrite H2. cbn [mbind result_bind Z.eqb Pos.eqb getFullResourceNodePath].
      cbn [mResourcePath set_callbacks]. by rewrite Hp.
    + by split.
    + unfold defaultGlobalLevelTearCb. replace (conf_at res d') with (conf_at res d) by done.
      rewrite Hconf, getValueAt_ok by done. unfold getValuesCount. rewrite H2.
      cbn [mbind result_bind Z.eqb Pos.eqb getFullResourceNodePath].
      cbn [mResourcePath set_callbacks]. rewrite Hp. cbn [mbind result_bind].
      unfold default_at, getDefaultValue, map_index. by rewrite Hdef.
    + rewrite F2. by rewrite decide_True by set_solver.
  - intros Hn. unfold removeThreadFromCGroup, getValuesCount.
    replace (mNumValues res <? 2) with false by lia. unfold indices_from, getValuesCount.
    destruct (Z.to_nat (mNumValues res - 1)) as [|n] eqn:En; [lia|]. rewrite zseq_S.
    cbn [remove_thread_loop]. by rewrite getValueAt_ok.
Qed.

Definition irq_conf : ResConfInfo :=
  mkConf "irq" "/proc/irq/%d/smp_affinity" 6 1 100 0 PERMISSION_THIRD_PARTY 1 APPLY_GLOBAL
    PASS_THROUGH None U_NA None.
Definition irq_res : Resource := mkResource 0x60001 0 0 2 (Inline 9 3) RES_FORWARD.
Definition irq_reg : ResourceRegistry :=
  match registerResource (H := sorted_hash_order) sample_fs sample_target
      (mkTargetConfigs "" 8 2 1) (Some irq_conf) ResourceRegistry_init with
  | Ok r => r
  | Fault _ => ResourceRegistry_init
  end.

Lemma hooks_unchecked_witness :
  let d := mkDevice sample_fs irq_reg sample_target (∅ : Kernel) in
  exists d' e', defaultGlobalLevelApplierCb (Some irq_res) d = Ok d' /\
    defaultGlobalLevelTearCb (Some irq_res) d' = Ok e' /\
    file d' "/proc/irq/9/smp_affinity" = Some "3" /\
    file e' "/proc/irq/9/smp_affinity" = Some "" /\
    removeThreadFromCGroup (Some irq_res) d = Fault Indeterminate.
Proof.
  intros d.
  destruct (hooks_unchecked (H := sorted_hash_order) sample_fs sample_target (mkTargetConfigs "" 8 2 1)
    irq_conf ResourceRegistry_init irq_reg irq_res "/proc/irq/9/smp_affinity" d) as (_ & Hg & Hth);
    [apply reg_wf_init|done|vm_compute; reflexivity|reflexivity
    |split; simpl; [unfold in_u; lia|unfold in_u; lia|lia|lia]|reflexivity|reflexivity|].
  destruct Hg as (d' & e' & E1 & W1 & E2 & F2); [done|done|reflexivity|done|done|done|].
  exists d', e'. split_and!; [done|done| |done|by apply Hth].
  rewrite (wr_file _ _ _ _ W1), decide_True by (by left). vm_compute. reflexivity.
Defined.
