(* ===== verification/Effects.v ===== *)
(** The CocoTable and the callbacks together: replaying the callbacks that a history of
    insertions and removals calls ([CocoTable.v]) on the files of the device
    ([ResourceHooks.v]).  The value in effect, which the arbitration theorem of the CocoTable is
    about, is shown to be what the node of the resource reads. *)
From Stdlib Require Import Ascii.
From S2P Require Import Prelude UrmTypes Resource DLManager AuxRoutines StringFacts TargetRegistry ResourceRegistry Request CocoTable.
From S2P Require Import Events ResourceHooks HookFacts.
Open Scope string_scope.
Open Scope list_scope.
Open Scope Z_scope.

(** ** Replaying callbacks *)
Section Replay.
Context {K : Type} `{!Scheduler K}.

(** [mResourceApplierCallback(static_cast<void*>(resource))] and its tear counterpart,
    with the resource of the node. *)
Definition run_event (s : Store) (ev : Event) (d : Device K) : result (Device K) :=
  match ev with
  | EvApply cb x | EvTear cb x =>
    resource ← of_option WildPtr (st_data s !! x);
    call_callback (Some cb) resource d
  end.

Fixpoint replay (s : Store) (evs : list Event) (d : Device K) : result (Device K) :=
  match evs with
  | [] => Ok d
  | ev :: evs => d ← run_event s ev d; replay s evs d
  end.

Lemma replay_app s evs evs' d : replay s (evs ++ evs') d = (d ← replay s evs d; replay s evs' d).
Proof.
  revert d. induction evs as [|ev evs IH]; intros d; [done|]. simpl.
  destruct (run_event s ev d); [apply IH|done].
Qed.
End Replay.

(** ** Files under arbitration *)

Definition node_value (s : Store) (x : positive) : Z :=
  match st_data s !! x with Some r => value_at r 0 | None => -1 end.

(** A globally applied resource with the default callbacks and a node that opens. *)
Record plain_global {K} (d : Device K) (conf : ResConfInfo) : Prop := {
  pg_type : mApplyType conf = APPLY_GLOBAL;
  pg_apply : mResourceApplierCallback conf = Some ResourceRegistry.defaultGlobalLevelApplierCb;
  pg_tear : mResourceTearCallback conf = Some ResourceRegistry.defaultGlobalLevelTearCb;
  pg_path : mResourcePath conf <> "";
  pg_open : openable d (mResourcePath conf)
}.

Section Replaying.
Context {K : Type} `{!Scheduler K} (reg : ResourceRegistry) (s : Store) (d0 : Device K).
(** Every node of a known resource holds one value of a plain global one. *)
Hypothesis Hnodes : forall x r conf, st_data s !! x = Some r -> getResConf reg (getResCode r) = Some conf ->
  res_ok r /\ mNumValues r <> 2 /\ plain_global d0 conf.
(** Two resources have two nodes. *)
Hypothesis Hpaths : forall c1 c2 conf1 conf2,
  getResConf reg c1 = Some conf1 -> getResConf reg c2 = Some conf2 ->
  mApplyType conf1 = APPLY_GLOBAL -> mApplyType conf2 = APPLY_GLOBAL ->
  mResourcePath conf1 = mResourcePath conf2 -> c1 = c2.
(** The device has the registry, with a default for each node. *)
Hypothesis Hreg : forall code, registry_getResConf (dev_reg d0) code = getResConf reg code.
Context (dflt : string -> string).
Hypothesis Hdefaults : forall code conf, getResConf reg code = Some conf ->
  mApplyType conf = APPLY_GLOBAL ->
  mDefaultValueStore (dev_reg d0) !! mResourcePath conf = Some (dflt (mResourcePath conf)) /\
  lacks newline (dflt (mResourcePath conf)) = true.
(** The resources the replay is judged by, and the node whose value each has at the start. *)
Context (tracked : Z -> Prop) (v0 : Z -> option positive).

Definition after (code : Z) (evs : list Event) : option positive := foldl (effect_step s code) (v0 code) evs.
Definition expected (code : Z) (conf : ResConfInfo) (evs : list Event) : string :=
  match after code evs with
  | Some x => to_string (node_value s x)
  | None => dflt (mResourcePath conf)
  end.
Lemma after_snoc code evs ev : after code (evs ++ [ev]) = effect_step s code (after code evs) ev.
Proof. unfold after. by rewrite foldl_app. Qed.

Hypothesis Hstart : forall code conf, tracked code -> getResConf reg code = Some conf ->
  mApplyType conf = APPLY_GLOBAL -> readFromFile (dev_fs d0) (mResourcePath conf) = expected code conf [].

(** The device after a replay: only files changed, and the nodes read as expected. *)
Record replayed (evs : list Event) (d : Device K) : Prop := {
  rp_reg : dev_reg d = dev_reg d0;
  rp_open : forall q, fs_openable_w (dev_fs d) q = fs_openable_w (dev_fs d0) q;
  rp_read : forall code conf, tracked code -> getResConf reg code = Some conf -> mApplyType conf = APPLY_GLOBAL ->
    readFromFile (dev_fs d) (mResourcePath conf) = expected code conf evs
}.

Lemma read_written v p (d d' : Device K) q : lacks newline v = true ->
  written (fun _ => v) [p] d d' ->
  readFromFile (dev_fs d') q = if decide (q = p) then
      (if (String.length q =? 0)%nat then "" else v) else readFromFile (dev_fs d) q.
Proof.
  intros Hv Hw. pose proof (wr_file _ _ _ _ Hw q) as Hf. unfold file in Hf. unfold readFromFile.
  destruct (decide (q = p)) as [->|Hq].
  - rewrite decide_True in Hf by (by left). rewrite Hf. by rewrite first_line_text.
  - rewrite decide_False in Hf by set_solver. by rewrite Hf.
Qed.

(** One callback that writes [v] to the node of [r]. *)
Lemma replayed_step evs ev (d d' : Device K) r conf v :
  replayed evs d -> getResConf reg (getResCode r) = Some conf -> mApplyType conf = APPLY_GLOBAL ->
  mResourcePath conf <> "" -> lacks newline v = true -> written (fun _ => v) [mResourcePath conf] d d' ->
  expected (getResCode r) conf (evs ++ [ev]) = v ->
  (forall code, code <> getResCode r -> effect_step s code (after code evs) ev = after code evs) ->
  replayed (evs ++ [ev]) d'.
Proof.
  intros [R1 O1 F1] Hc Hg Hp Hv Hw Hexp Hother. split.
  - by rewrite (wr_reg _ _ _ _ Hw).
  - intros q. by rewrite (wr_open _ _ _ _ Hw).
  - intros code conf' Ht Hc' Hg'. rewrite (read_written v (mResourcePath conf) d d') by done.
    destruct (decide (code = getResCode r)) as [->|Hne].
    + assert (conf' = conf) as -> by congruence. rewrite decide_True by done.
      by destruct (mResourcePath conf).
    + rewrite decide_False by (intros E; apply Hne; by eapply Hpaths).
      rewrite (F1 code) by done. unfold expected. rewrite after_snoc. by rewrite Hother.
Qed.

Lemma concerns_code x r code : st_data s !! x = Some r -> concerns s code x = (getResCode r =? code).
Proof. intros Hx. unfold concerns. by rewrite Hx. Qed.

Lemma run_event_replayed evs d ev :
  replayed evs d -> good_event reg s ev ->
  exists d', run_event s ev d = Ok d' /\ replayed (evs ++ [ev]) d'.
Proof.
  intros Hrp Hgood.
  assert (forall conf, plain_global d0 conf -> openable d (mResourcePath conf)) as Hopen.
  { intros conf Hp. unfold openable. rewrite (rp_open _ _ Hrp). apply Hp. }
  destruct ev as [cb x|cb x]; destruct Hgood as (r & conf & Hx & Hc & Hcb);
    destruct (Hnodes x r conf Hx Hc) as (Hok & H2 & Hp); simpl run_event; rewrite Hx; cbn [mbind result_bind of_option];
    (assert (conf_at r d = Some conf) as Hat by (unfold conf_at; by rewrite (rp_reg _ _ Hrp), Hreg)).
  - rewrite (pg_apply _ _ Hp) in Hcb. injection Hcb as <-.
    exists (on_fs (fun fs => writeToFile fs (mResourcePath conf) (to_string (value_at r 0))) d). split.
    + cbn [call_callback run_callback mbind result_bind deref of_option].
      unfold defaultGlobalLevelApplierCb, getValuesCount. rewrite Hat, !getValueAt_ok by done.
      by replace (mNumValues r =? 2) with false by lia.
    + eapply (replayed_step _ _ _ _ r conf (to_string (value_at r 0)));
        [done|done|apply Hp|apply Hp|by apply to_string_lacks|apply writeToFile_written; [by apply Hopen|apply Hp]| |].
      * unfold expected. rewrite after_snoc. simpl. rewrite (concerns_code _ r), Z.eqb_refl by done.
        unfold node_value. by rewrite Hx.
      * intros code Hne. simpl. rewrite (concerns_code _ r) by done. by destruct (Z.eqb_spec (getResCode r) code).
  - rewrite (pg_tear _ _ Hp) in Hcb. injection Hcb as <-.
    destruct (Hdefaults (getResCode r) conf Hc (pg_type _ _ Hp)) as [Hdef Hlacks].
    set (v := dflt (mResourcePath conf)) in *.
    exists (on_fs (fun fs => writeToFile fs (mResourcePath conf) v) d). split.
    + cbn [call_callback run_callback mbind result_bind deref of_option].
      unfold defaultGlobalLevelTearCb, getValuesCount. rewrite Hat.
      replace (mNumValues r =? 2) with false by lia. cbn [mbind result_bind].
      rewrite (default_at_stored _ v); [done|]. by rewrite (rp_reg _ _ Hrp).
    + eapply (replayed_step _ _ _ _ r conf v);
        [done|done|apply Hp|apply Hp|exact Hlacks
        |apply writeToFile_written; [by apply Hopen|apply Hp]| |].
      * unfold expected. rewrite after_snoc. simpl. by rewrite (concerns_code _ r), Z.eqb_refl.
      * intros code Hne. simpl. rewrite (concerns_code _ r) by done. by destruct (Z.eqb_spec (getResCode r) code).
Qed.

Lemma replay_replayed evs : Forall (good_event reg s) evs ->
  exists d, replay s evs d0 = Ok d /\ replayed evs d.
Proof.
  induction evs as [|ev evs IH] using rev_ind; intros H.
  - exists d0. split; [done|]. split; [done..|]. exact Hstart.
  - apply Forall_app in H as [H1 H2]. apply Forall_cons in H2 as [H2 _].
    destruct (IH H1) as (d & E & Hd). destruct (run_event_replayed evs d ev Hd H2) as (d' & E' & Hd').
    exists d'. split; [|done]. rewrite replay_app, E. cbn [mbind result_bind replay]. by rewrite E'.
Qed.
End Replaying.

(** ** Properties *)

(** Arbitration on the files.  Let every node of a known resource hold one value of a globally
    applied resource with the default callbacks, whose nodes are distinct files that can be
    opened, and let the stored defaults be what the files read.  Run any history of insertions
    and removals on the constructed CocoTable, and carry out every callback it calls
    on the files, in order: nothing faults, and at the end the node of each such
    resource reads the value of the head of its first non-empty priority list, and
    what it read at the start when nothing is pending. *)
Theorem arbitration_on_files {K : Type} `{!Scheduler K} (reg : ResourceRegistry) (mode : Z)
    (s : Store) (clusters cgroups : list Z) (nCores nClusters nCGroups : Z) (ops : list Op)
    (pend : Pending) (d : Device K) :
  reg_wf reg ->
  let w0 := mkWorld s (CocoTable_init reg clusters cgroups nCores nClusters nCGroups) [] in
  op_steps reg mode w0 (fun _ _ => []) ops pend ->
  (forall x r conf, st_data s !! x = Some r -> getResConf reg (getResCode r) = Some conf ->
     res_ok r /\ mNumValues r <> 2 /\ plain_global d conf) ->
  (forall c1 c2 conf1 conf2, getResConf reg c1 = Some conf1 -> getResConf reg c2 = Some conf2 ->
     mApplyType conf1 = APPLY_GLOBAL -> mApplyType conf2 = APPLY_GLOBAL ->
     mResourcePath conf1 = mResourcePath conf2 -> c1 = c2) ->
  (forall code, registry_getResConf (dev_reg d) code = getResConf reg code) ->
  (forall code conf, getResConf reg code = Some conf -> mApplyType conf = APPLY_GLOBAL ->
     mDefaultValueStore (dev_reg d) !! mResourcePath conf =
       Some (readFromFile (dev_fs d) (mResourcePath conf))) ->
  exists w d', run_ops reg mode ops w0 = Ok w /\ replay s (events w) d = Ok d' /\
    forall code i conf cb tb, is_global reg mode code i conf cb tb ->
      readFromFile (dev_fs d') (mResourcePath conf) =
        match (match first_level pend i with Some q => head (pend i q) | None => None end) with
        | Some x => to_string (node_value s x)
        | None => readFromFile (dev_fs d) (mResourcePath conf)
        end.
Proof.
  intros Hwf w0 Hops Hnodes Hpaths Hreg Hdef.
  destruct (op_steps_run reg_wf reg mode Hwf ops w0 _ pend
    (table_inv_init reg_wf reg mode Hwf s clusters cgroups nCores nClusters nCGroups) Hops)
    as (w & E & Hi & Hn).
  destruct (run_ops_kept reg mode ops w0 w E) as [Hdata Hev].
  destruct (replay_replayed reg s d Hnodes Hpaths Hreg (readFromFile (dev_fs d))) with
    (tracked := fun _ : Z => True) (v0 := fun _ : Z => @None positive) (evs := events w) as (d' & E' & Hd').
  { intros code conf Hc Hg. split; [by eapply Hdef|apply readFromFile_lacks]. }
  { done. }
  { by apply Hev. }
  exists w, d'. split_and!; [done|done|]. intros code i conf cb tb Hg.
  rewrite (rp_read _ _ _ _ _ _ _ _ Hd' code conf I) by apply Hg.
  pose proof (gr_effect _ _ _ _ (ti_rows _ _ _ _ Hi _ _ _ _ _ Hg)) as Heff.
  rewrite (in_effect_data s) in Heff by done. unfold expected, after. unfold in_effect in Heff. by rewrite Heff.
Qed.

Definition file_fs : FileSystem := set_files <["/sys/r" := "5" +:+ String newline ""]> empty_fs.
Definition file_device : Device Kernel :=
  mkDevice file_fs (addDefaultValue "/sys/r" "5" CocoTable.sample_reg) TargetRegistry_init ∅.

(** What the theorems ask of the registry, the nodes and the device. *)
Lemma sample_only code conf : getResConf CocoTable.sample_reg code = Some conf ->
  code = 196615 /\ conf = setLifeCycleCallbacks (sample_conf 3 7 HIGHER_BETTER APPLY_GLOBAL).
Proof.
  intros Hc. apply wf_getResConf in Hc as (i & Hi & H0 & Hl & _); [|apply one_resource_wf].
  unfold CocoTable.sample_reg, one_resource in Hi, Hl. cbn [mSILMap mResourceConfigs] in Hi, Hl.
  apply lookup_singleton_Some in Hi as [<- <-]. simpl in Hl. by injection Hl as <-.
Qed.
Lemma sample_nodes x r conf : st_data (three_nodes 0 0 0) !! x = Some r ->
  getResConf CocoTable.sample_reg (getResCode r) = Some conf ->
  res_ok r /\ mNumValues r <> 2 /\ plain_global file_device conf.
Proof.
  intros Hx Hc. assert (exists v, r = sample_res 0 v) as [v ->].
  { simpl in Hx. rewrite !lookup_insert_Some in Hx.
    destruct Hx as [[_ <-]|[_ [[_ <-]|[_ [[_ <-]|[_ Hx]]]]]]; eauto. by rewrite lookup_empty in Hx. }
  split; [apply sample_res_ok; unfold in_u; lia|]. split; [done|].
  apply sample_only in Hc as [_ ->]. split; reflexivity || done.
Qed.
Lemma sample_paths c1 c2 conf1 conf2 : getResConf CocoTable.sample_reg c1 = Some conf1 ->
  getResConf CocoTable.sample_reg c2 = Some conf2 -> c1 = c2.
Proof. intros H1 H2. apply sample_only in H1 as [-> _], H2 as [-> _]. done. Qed.
Lemma sample_defaults code conf : getResConf CocoTable.sample_reg code = Some conf ->
  mDefaultValueStore (dev_reg file_device) !! mResourcePath conf =
    Some (readFromFile (dev_fs file_device) (mResourcePath conf)).
Proof. intros Hc. apply sample_only in Hc as [_ ->]. vm_compute. reflexivity. Qed.

Lemma arbitration_on_files_witness :
  exists w d', run_ops CocoTable.sample_reg 1 [OpInsert 1 2; OpInsert 2 2] sample_w0 = Ok w /\
    replay (three_nodes 0 0 0) (events w) file_device = Ok d' /\
    readFromFile (dev_fs d') "/sys/r" = "20".
Proof.
  destruct sample_history as (pend & Hops & Hf & Hh).
  destruct (arbitration_on_files CocoTable.sample_reg 1 (three_nodes 0 0 0) [] [] 8 2 0
              [OpInsert 1 2; OpInsert 2 2] pend file_device) as (w & d' & E & Er & H).
  - apply one_resource_wf.
  - exact Hops.
  - exact sample_nodes.
  - intros c1 c2 conf1 conf2 H1 H2 _ _ _. by eapply sample_paths.
  - intros code. reflexivity.
  - intros code conf Hc _. by apply (sample_defaults code).
  - exists w, d'. split_and!; [exact E|exact Er|].
    pose proof (H _ _ _ _ _ sample_global) as Hr. rewrite Hf, Hh in Hr. exact Hr.
Defined.
