(* ===== verification/Server.v ===== *)
(** The request pipeline of the server: [resource-tuner/core/RequestHandler.cpp]
    (admission of incoming requests) and
    [resource-tuner/core/RequestQueue.cpp] (the consumer that applies them), on the
    state of all the components they call.

    Every entry of the pipeline is one step on a [Server].  The consumer holds the
    queue's lock while it runs and producers hold it while they push, so steps of the
    queue do not overlap.  Outcomes of allocations, the clock and the timer pool are
    arguments. *)
From S2P Require Import Prelude UrmTypes Message Resource DLManager AuxRoutines TargetRegistry.
From S2P Require Import ResourceRegistry Request RequestHandler Double CocoTable ClientDataManager OrderedQueue RequestManager RateLimiter.
Open Scope list_scope.
Open Scope Z_scope.

Record Server := mkServer {
  sv_world : World;            (* nodes, CocoTable, callbacks called *)
  sv_requests : Requests;      (* live request objects *)
  sv_clients : ClientDataManager;
  sv_manager : RequestManager;
  sv_queue : OrderedQueue QueueItem;
  sv_target : TargetRegistry
}.

Definition sv_set_world (w : World) (sv : Server) : Server :=
  mkServer w (sv_requests sv) (sv_clients sv) (sv_manager sv) (sv_queue sv) (sv_target sv).
Definition sv_set_requests (rq : Requests) (sv : Server) : Server :=
  mkServer (sv_world sv) rq (sv_clients sv) (sv_manager sv) (sv_queue sv) (sv_target sv).
Definition sv_set_clients (c : ClientDataManager) (sv : Server) : Server :=
  mkServer (sv_world sv) (sv_requests sv) c (sv_manager sv) (sv_queue sv) (sv_target sv).
Definition sv_set_manager (rm : RequestManager) (sv : Server) : Server :=
  mkServer (sv_world sv) (sv_requests sv) (sv_clients sv) rm (sv_queue sv) (sv_target sv).
Definition sv_set_queue (q : OrderedQueue QueueItem) (sv : Server) : Server :=
  mkServer (sv_world sv) (sv_requests sv) (sv_clients sv) (sv_manager sv) q (sv_target sv).
Definition sv_set_target (t : TargetRegistry) (sv : Server) : Server :=
  mkServer (sv_world sv) (sv_requests sv) (sv_clients sv) (sv_manager sv) (sv_queue sv) t.

Definition sv_store (sv : Server) : Store := store (sv_world sv).
Definition set_store (s : Store) (w : World) : World := mkWorld s (coco w) (events w).

(** [Request::cleanUpRequest]: the resources are freed, then the request. *)
Definition cleanUp (p : positive) (sv : Server) : result Server :=
  r ← request_at (sv_requests sv) (Some p);
  '(s, _) ← cleanUpRequest (sv_store sv) (Some r);
  Ok (sv_set_requests (delete p (sv_requests sv)) (sv_set_world (set_store s (sv_world sv)) sv)).

(** [requestQueue->addAndWakeup(request)]. *)
Definition enqueue (p : positive) (sv : Server) : result Server :=
  r ← request_at (sv_requests sv) (Some p);
  '(_, q) ← addAndWakeup (Some (QRequest p)) (getPriority (req_msg r)) (sv_queue sv);
  Ok (sv_set_queue q sv).

Section Server.
Context {R : Type} `{!ResourceConfigs R} (reg : R) `{HashOrder} `{PriorityQueue}.
(** [targetConfigs.currMode], [mMaxConcurrentRequests] and the limiter. *)
Context (mode maxReq : Z) (lim : RateLimiter).
(** [/proc], the memory for client entries, and what an uninitialised byte holds. *)
Context (fs : FileSystem) (al : ClientAllocs) (junk : Z).
(** The timer blocks and the timer pool. *)
Context (timer_block : bool) (timer_pool : option bool).

(** ** RequestHandler.cpp: admission *)
Definition addToRequestManager (p : positive) (sv : Server) : result (bool * Server) :=
  r ← request_at (sv_requests sv) (Some p);
  '(ok, c) ← shouldRequestBeAdded maxReq (sv_store sv) (sv_requests sv) (Some r)
               (sv_manager sv) (sv_clients sv);
  let sv := sv_set_clients c sv in
  if (ok : bool) then
    '(added, rm, c) ← addRequest maxReq (sv_requests sv) (Some p) (sv_manager sv) (sv_clients sv);
    Ok (added, sv_set_manager rm (sv_set_clients c sv))
  else Ok (false, sv).

Definition is_type (r : Request) (ty : RequestType) : bool :=
  getRequestType (req_msg r) =? RequestType_val ty.

(** The admission of a tune request that passed its checks. *)
Definition admit_tune (p : positive) (sv : Server) : result Server :=
  '(added, sv) ← addToRequestManager p sv;
  if (added : bool) then enqueue p sv else cleanUp p sv.

(** The client checks of a tune request: [None] when the request has been dropped. *)
Definition tune_checks (p : positive) (r : Request) (sv : Server) : result (Server * bool) :=
  let pid := getClientPID (req_msg r) in
  let tid := getClientTID (req_msg r) in
  if negb (isGlobalRateLimitHonored maxReq (sv_manager sv))
  then sv ← cleanUp p sv; Ok (sv, false) else
  if clientExists pid tid (sv_clients sv) then Ok (sv, true) else
  '(ok, c) ← createNewClient fs al junk pid tid (sv_clients sv);
  let sv := sv_set_clients c sv in
  if (ok : bool) then Ok (sv, true) else sv ← cleanUp p sv; Ok (sv, false).

(** The client checks of a retune or untune request. *)
Definition other_checks (p : positive) (r : Request) (isValidated : bool) (sv : Server)
  : result (Server * bool) :=
  let pid := getClientPID (req_msg r) in
  let tid := getClientTID (req_msg r) in
  if negb isValidated && negb (clientExists pid tid (sv_clients sv))
  then sv ← cleanUp p sv; Ok (sv, false) else
  if is_type r REQ_RESOURCE_UNTUNING then
    '(ok, rm) ← disableRequestProcessing (getHandle (req_msg r)) (sv_manager sv);
    let sv := sv_set_manager rm sv in
    if (ok : bool) then Ok (sv, true) else sv ← cleanUp p sv; Ok (sv, false)
  else Ok (sv, true).

Definition rate_check (p : positive) (r : Request) (isValidated : bool) (now : Z) (sv : Server)
  : result (Server * bool) :=
  if isValidated then Ok (sv, true) else
  '(ok, c) ← isRateLimitHonored lim now (getClientTID (req_msg r)) (sv_clients sv);
  let sv := sv_set_clients c sv in
  if (ok : bool) then Ok (sv, true) else sv ← cleanUp p sv; Ok (sv, false).

(** The last stage for a tune request: verification, unless validated, then admission. *)
Definition verify_and_admit (p : positive) (r : Request) (isValidated : bool) (sv : Server)
  : result Server :=
  if isValidated then admit_tune p sv else
  '(ok, r, s, t) ← VerifyIncomingRequest reg mode r (sv_clients sv) (sv_store sv) (sv_target sv);
  let sv := sv_set_target t (sv_set_world (set_store s (sv_world sv))
              (sv_set_requests (<[p := r]> (sv_requests sv)) sv)) in
  if (ok : bool) then admit_tune p sv else cleanUp p sv.

Definition processIncomingRequest (p : positive) (isValidated : bool) (now : Z) (sv : Server)
  : result Server :=
  r ← request_at (sv_requests sv) (Some p);
  let other := is_type r REQ_RESOURCE_UNTUNING || is_type r REQ_RESOURCE_RETUNING in
  '(sv, go) ← (if is_type r REQ_RESOURCE_TUNING then tune_checks p r sv else Ok (sv, true));
  if negb go then Ok sv else
  '(sv, go) ← (if other then other_checks p r isValidated sv else Ok (sv, true));
  if negb go then Ok sv else
  '(sv, go) ← rate_check p r isValidated now sv;
  if negb go then Ok sv else
  if other then
    if verifyHandle (getHandle (req_msg r)) (sv_manager sv) then enqueue p sv else cleanUp p sv
  else verify_and_admit p r isValidated sv.

Definition submitResProvisionRequest (p : positive) (isValidated : bool) (now : Z) (sv : Server)
  : result Server := processIncomingRequest p isValidated now sv.

(** ** RequestQueue.cpp *)

(** [req] in [RequestManager::removeRequest(req)] followed by [cleanUpRequest(req)]. *)
Definition forget (p : positive) (sv : Server) : result Server :=
  r ← request_at (sv_requests sv) (Some p);
  '(rm, c) ← RequestManager.removeRequest (Some r) (sv_manager sv) (sv_clients sv);
  cleanUp p (sv_set_clients c (sv_set_manager rm sv)).

Definition consume_tune (p : positive) (r : Request) (sv : Server) : result Server :=
  let handle := getHandle (req_msg r) in
  let status := getRequestProcessingStatus handle (sv_manager sv) in
  if has_flag status REQ_CANCELLED || has_flag status REQ_COMPLETED then forget p sv else
  let sv := sv_set_manager (markRequestAsComplete handle (sv_manager sv)) sv in
  '(ok, r', w) ← CocoTable.insertRequest reg mode timer_block timer_pool (Some r) (sv_world sv);
  r' ← deref r';
  let sv := sv_set_requests (<[p := r']> (sv_requests sv)) (sv_set_world w sv) in
  if (ok : bool) then Ok sv else forget p sv.

Definition consume_untune (p t : positive) (status : Z) (sv : Server) : result Server :=
  if negb (has_flag status REQ_COMPLETED) then cleanUp p sv else
  tune ← request_at (sv_requests sv) (Some t);
  '(_, w) ← CocoTable.removeRequest reg mode (Some tune) (sv_world sv);
  let sv := sv_set_world w sv in
  '(rm, c) ← RequestManager.removeRequest (Some tune) (sv_manager sv) (sv_clients sv);
  sv ← cleanUp p (sv_set_clients c (sv_set_manager rm sv));
  cleanUp t sv.

Definition consume_retune (p t : positive) (r : Request) (status : Z) (sv : Server)
  : result Server :=
  let newDuration := getDuration (req_msg r) in
  tune ← request_at (sv_requests sv) (Some t);
  sv ← (if negb (has_flag status REQ_COMPLETED) then
          Ok (sv_set_requests
                (<[t := with_msg (setDuration newDuration (req_msg tune)) tune]> (sv_requests sv)) sv)
        else
          '(_, tune') ← updateRequest timer_block timer_pool (Some tune) newDuration;
          tune' ← deref tune';
          Ok (sv_set_requests (<[t := tune']> (sv_requests sv)) sv));
  cleanUp p sv.

(** One iteration of [orderedQueueConsumerHook] for a request taken from the queue. *)
Definition consume_request (p : positive) (sv : Server) : result Server :=
  req ← request_at (sv_requests sv) (Some p);
  if is_type req REQ_RESOURCE_TUNING then consume_tune p req sv else
  let '(target, status) := getRequestFromMap (getHandle (req_msg req)) (sv_manager sv) in
  match target with
  | None => cleanUp p sv
  | Some t =>
    if has_flag status REQ_NOT_FOUND then cleanUp p sv else
    if is_type req REQ_RESOURCE_UNTUNING then consume_untune p t status sv
    else if is_type req REQ_RESOURCE_RETUNING then consume_retune p t req status sv
    else Ok sv
  end.

(** The priority of a popped message; the wake-up message has the lowest. *)
Definition item_priority (sv : Server) (i : QueueItem) : result Z :=
  match i with
  | QMessage => Ok SERVER_CLEANUP_TRIGGER_PRIORITY
  | QRequest p => r ← request_at (sv_requests sv) (Some p); Ok (getPriority (req_msg r))
  end.

Fixpoint orderedQueueConsumerHook (fuel : nat) (sv : Server) : result Server :=
  if negb (hasPendingTasks (sv_queue sv)) then Ok sv else
  match fuel with
  | O => Fault OutOfFuel
  | S fuel =>
    '(message, q) ← pop (sv_queue sv);
    let sv := sv_set_queue q sv in
    match message with
    | None => orderedQueueConsumerHook fuel sv
    | Some item =>
      prio ← item_priority sv item;
      if prio =? SERVER_CLEANUP_TRIGGER_PRIORITY then Ok sv else
      match item with
      | QMessage => orderedQueueConsumerHook fuel sv
      | QRequest p => sv ← consume_request p sv; orderedQueueConsumerHook fuel sv
      end
    end
  end.

(** The timer of request [p] expires: [timerExpired] queues an untune request at the
    address [u], if its block is available. *)
Definition expire (p : positive) (u : option positive) (junkMsg : Message) (sv : Server)
  : result Server :=
  r ← request_at (sv_requests sv) (Some p);
  match u with
  | None => Ok sv
  | Some u =>
    match timerExpired true junkMsg r with
    | None => Ok sv
    | Some untune => enqueue u (sv_set_requests (<[u := untune]> (sv_requests sv)) sv)
    end
  end.
End Server.

(** ** Single steps *)

Definition st_same_table (sv sv' : Server) : Prop :=
  coco (sv_world sv') = coco (sv_world sv) /\ events (sv_world sv') = events (sv_world sv) /\
  st_links (sv_store sv') = st_links (sv_store sv).

Lemma cleanUp_ok p r xs sv :
  sv_requests sv !! p = Some r -> req_list (sv_store sv) r xs ->
  exists s', cleanUp p sv =
      Ok (sv_set_requests (delete p (sv_requests sv)) (sv_set_world (set_store s' (sv_world sv)) sv)) /\
    cleanUpRequest (sv_store sv) (Some r) = Ok (s', xs) /\
    st_links s' = st_links (sv_store sv) /\
    st_freed s' = list_to_set xs ∪ st_freed (sv_store sv).
Proof.
  intros E Hl. unfold cleanUp, request_at. cbn [deref mbind result_bind]. rewrite E.
  cbn [of_option mbind result_bind]. unfold cleanUpRequest.
  destruct (clearResources_spec _ _ _ Hl) as (s' & r' & -> & _ & Hk & Hf & _).
  cbn [mbind result_bind]. by exists s'.
Qed.

Lemma enqueue_ok p r sv :
  sv_requests sv !! p = Some r -> queue_wf (sv_queue sv) -> mElementCount (sv_queue sv) < max_s 32 ->
  SERVER_CLEANUP_TRIGGER_PRIORITY <= getPriority (req_msg r) ->
  exists q, enqueue p sv = Ok (sv_set_queue q sv) /\ queue_wf q /\
    mOrderedQueue q = mOrderedQueue (sv_queue sv) ++ [(getPriority (req_msg r), QRequest p)].
Proof.
  intros E Hq Hlt Hp. unfold enqueue, request_at. cbn [deref mbind result_bind]. rewrite E.
  cbn [of_option mbind result_bind].
  destruct (addAndWakeup_ok (QRequest p) _ _ Hq Hp Hlt) as (q & -> & Hq' & Eq).
  cbn [mbind result_bind]. by exists q.
Qed.

(** ** A request on its way through the pipeline *)

(** No active entry refers to the request at [p]. *)
Definition no_ref (p : positive) (rm : RequestManager) : Prop :=
  forall h st, mActiveRequests rm !! h <> Some (Some p, st).

(** An entry of the thread table that the rate limiter can use. *)
Definition tid_ok (tid : Z) (c : ClientDataManager) : Prop :=
  forall o, mClientTidRepo c !! tid = Some o ->
    exists d, o = Some d /\ 0 <= mLastRequestTimestamp d < 2 ^ 62.

Record ready (p : positive) (r : Request) (xs : list positive) (rs : list Resource) (sv : Server)
  : Prop := {
  rd_req : sv_requests sv !! p = Some r;
  rd_list : req_list (sv_store sv) r xs;
  rd_data : node_data (sv_store sv) xs rs;
  rd_active : active_ok (sv_store sv) (sv_requests sv) (sv_manager sv);
  rd_noref : no_ref p (sv_manager sv);
  rd_queue : queue_wf (sv_queue sv) /\ mElementCount (sv_queue sv) < max_s 32;
  rd_total : 0 <= mTotalRequestServed (sv_manager sv) < max_s 64;
  rd_cache : exists q, lru_rep (mUntuneCache (sv_manager sv)) q /\
    0 < mMaxSize (mUntuneCache (sv_manager sv));
  rd_cdm : cdm_wf (sv_clients sv);
  rd_tid : tid_ok (getClientTID (req_msg r)) (sv_clients sv);
  rd_target : target_ok (sv_target sv)
}.

(** How a request leaves the pipeline: queued once, or freed with its nodes. *)
Definition queued (p : positive) (sv sv' : Server) : Prop :=
  exists r', sv_requests sv' = <[p := r']> (sv_requests sv) /\
    mOrderedQueue (sv_queue sv') = mOrderedQueue (sv_queue sv) ++ [(getPriority (req_msg r'), QRequest p)] /\
    st_freed (sv_store sv') = st_freed (sv_store sv).

Definition freed (p : positive) (xs : list positive) (sv sv' : Server) : Prop :=
  sv_requests sv' = delete p (sv_requests sv) /\
  mOrderedQueue (sv_queue sv') = mOrderedQueue (sv_queue sv) /\
  st_freed (sv_store sv') = list_to_set xs ∪ st_freed (sv_store sv) /\
  no_ref p (sv_manager sv').

(** A step that only touches the clients and the status of active entries. *)
Definition passes (sv sv' : Server) : Prop :=
  sv_world sv' = sv_world sv /\ sv_requests sv' = sv_requests sv /\ sv_queue sv' = sv_queue sv /\
  sv_target sv' = sv_target sv.

Lemma passes_refl sv : passes sv sv.
Proof. by split_and!. Qed.
Lemma passes_trans sv1 sv2 sv3 : passes sv1 sv2 -> passes sv2 sv3 -> passes sv1 sv3.
Proof. intros (?&?&?&?) (?&?&?&?). split_and!; congruence. Qed.

Lemma freed_passes p xs sv sv1 sv' : passes sv sv1 -> freed p xs sv1 sv' -> freed p xs sv sv'.
Proof.
  intros (Ew & Er & Eq & Et) (H1 & H2 & H3 & H4). unfold freed, sv_store in *. by rewrite <- Er, <- Eq, <- Ew.
Qed.
Lemma queued_passes p sv sv1 sv' : passes sv sv1 -> queued p sv1 sv' -> queued p sv sv'.
Proof.
  intros (Ew & Er & Eq & Et) (r' & H1 & H2 & H3). exists r'. unfold sv_store in *.
  by rewrite <- Er, <- Eq, <- Ew.
Qed.
Lemma same_table_passes sv sv1 sv' : passes sv sv1 -> st_same_table sv1 sv' -> st_same_table sv sv'.
Proof. intros (Ew & _). unfold st_same_table, sv_store. by rewrite Ew. Qed.

Lemma cleanUp_frees p r xs rs sv sv1 :
  ready p r xs rs sv -> passes sv sv1 -> no_ref p (sv_manager sv1) ->
  exists sv', cleanUp p sv1 = Ok sv' /\ freed p xs sv sv' /\ st_same_table sv sv' /\
    sv_manager sv' = sv_manager sv1.
Proof.
  intros Hr Hp Hn. pose proof Hp as (Ew & Er & Eq & Et).
  destruct (cleanUp_ok p r xs sv1) as (s' & -> & _ & Hk & Hf).
  - rewrite Er. apply Hr.
  - unfold sv_store. rewrite Ew. apply Hr.
  - eexists. split; [done|]. split; [|split; [|done]].
    + eapply freed_passes; [exact Hp|]. unfold freed. by split_and!.
    + eapply same_table_passes; [exact Hp|]. by split_and!.
Qed.

Lemma enqueue_queues p r xs rs sv sv1 :
  ready p r xs rs sv -> passes sv sv1 -> SERVER_CLEANUP_TRIGGER_PRIORITY <= getPriority (req_msg r) ->
  exists sv', enqueue p sv1 = Ok sv' /\ queued p sv sv' /\ st_same_table sv sv' /\
    sv_manager sv' = sv_manager sv1.
Proof.
  intros Hr Hps Hp. pose proof Hps as (Ew & Er & Eq & Et).
  destruct (enqueue_ok p r sv1) as (q & -> & _ & Eq'); try (rewrite ?Er, ?Eq; apply Hr); [done|].
  eexists. split; [done|]. split; [|split; [|done]].
  - eapply queued_passes; [exact Hps|]. exists r. split_and!; try done.
    simpl. rewrite insert_id; [done|]. rewrite Er. apply Hr.
  - eapply same_table_passes; [exact Hps|]. by split_and!.
Qed.

(** A request that the queue refuses, because its priority is below that of the message that wakes
    the consumer up: it stays allocated and is in no queue. *)
Definition dropped (p : positive) (r : Request) (sv sv' : Server) : Prop :=
  getPriority (req_msg r) < SERVER_CLEANUP_TRIGGER_PRIORITY /\
  sv_requests sv' = sv_requests sv /\ sv_queue sv' = sv_queue sv /\
  st_freed (sv_store sv') = st_freed (sv_store sv).

Lemma enqueue_drops p r xs rs sv sv1 :
  ready p r xs rs sv -> passes sv sv1 -> getPriority (req_msg r) < SERVER_CLEANUP_TRIGGER_PRIORITY ->
  enqueue p sv1 = Ok sv1 /\ dropped p r sv sv1.
Proof.
  intros Hr (Ew & Er & Eq & Et) Hp. split.
  - unfold enqueue, request_at. cbn [deref mbind result_bind]. rewrite Er, (rd_req _ _ _ _ _ Hr).
    cbn [of_option mbind result_bind]. unfold addAndWakeup. replace (_ <? _) with true by lia. by destruct sv1.
  - unfold dropped, sv_store. by rewrite Ew.
Qed.

(** ** Admission *)

Lemma node_data_in s xs rs x :
  node_data s xs rs -> x ∈ xs -> exists res, st_data s !! x = Some res /\ res_ok res.
Proof.
  intros [H2 Hok] Hx. apply list_elem_of_lookup_1 in Hx as [i Hi].
  destruct (Forall2_lookup_l _ _ _ _ _ H2 Hi) as (res & Hr & E).
  exists res. split; [done|]. by eapply Forall_lookup_1.
Qed.

Lemma node_data_request_ok s r xs rs :
  req_list s r xs -> node_data s xs rs -> is_Some (mResourceList r) -> request_ok s r.
Proof.
  intros Hl Hd [l El]. unfold req_list in Hl. rewrite El in Hl. destruct Hl as [_ Hl].
  exists l, xs. split_and!; try done. intros x Hx. by eapply node_data_in.
Qed.

Lemma isSane_ok s r xs :
  req_list s r xs -> exists b, isSane s (Some r) = Ok b /\ (b = true -> is_Some (mResourceList r)).
Proof.
  intros Hl. unfold isSane, req_list, getResDlMgr in *. repeat case_if; try by eexists.
  destruct (mResourceList r) as [l|]; [|by eexists]. destruct Hl as [_ Hd].
  rewrite (DL_ITERATE_refines _ _ _ Hd). by eexists.
Qed.

Section Steps.
Context {R : Type} `{!ResourceConfigs R} (reg : R) `{HashOrder} `{PriorityQueue}.
Context (mode maxReq : Z) (lim : RateLimiter) (fs : FileSystem) (al : ClientAllocs) (junk : Z).

Lemma shouldRequestBeAdded_ok p r xs rs sv d :
  ready p r xs rs sv -> live_tid (getClientTID (req_msg r)) d (sv_clients sv) ->
  exists b, shouldRequestBeAdded maxReq (sv_store sv) (sv_requests sv) (Some r) (sv_manager sv)
      (sv_clients sv) = Ok (b, sv_clients sv) /\
    (b = true -> at_capacity maxReq (sv_manager sv) = false).
Proof.
  intros Hr Hd. unfold shouldRequestBeAdded.
  destruct (isSane_ok _ _ _ (rd_list _ _ _ _ _ Hr)) as (b & -> & Hb). cbn [mbind result_bind].
  destruct b; cbn [negb]; [|by eexists]. cbn [deref mbind result_bind].
  destruct (at_capacity maxReq (sv_manager sv)) eqn:Ec; [by eexists|].
  destruct (requestMatch_spec (sv_store sv) (sv_requests sv) r (sv_manager sv) (sv_clients sv))
    as (dup & c' & -> & -> & _).
  - eapply node_data_request_ok; [apply Hr|apply Hr|by apply Hb].
  - apply Hr.
  - rewrite (getRequests_live _ _ _ Hd). cbn [mbind result_bind snd]. by eexists.
Qed.

(** The outcomes of [addRequest]. *)
Lemma addRequest_ok p r xs rs sv d :
  ready p r xs rs sv -> live_tid (getClientTID (req_msg r)) d (sv_clients sv) ->
  exists ok rm c, addRequest maxReq (sv_requests sv) (Some p) (sv_manager sv) (sv_clients sv) =
      Ok (ok, rm, c) /\
    (if ok : bool then mActiveRequests rm !! getHandle (req_msg r) = Some (Some p, REQ_UNCHANGED)
     else no_ref p rm).
Proof.
  intros Hr Hd. pose proof (rd_noref _ _ _ _ _ Hr) as Hn.
  destruct (at_capacity maxReq (sv_manager sv)) eqn:Ec.
  { unfold addRequest. rewrite Ec. by eexists _, _, _. }
  destruct (mActiveRequests (sv_manager sv) !! getHandle (req_msg r)) as [i|] eqn:Ea.
  - unfold addRequest, request_at. rewrite Ec. cbn [deref mbind result_bind].
    rewrite (rd_req _ _ _ _ _ Hr). cbn [of_option mbind result_bind]. rewrite Ea.
    eexists _, _, _. split; [done|]. intros h st. simpl. rewrite lookup_delete_Some.
    intros [_ E]. by eapply Hn.
  - destruct (MinLRUCache_isPresent (getHandle (req_msg r)) (mUntuneCache (sv_manager sv))) eqn:Eu.
    + rewrite (addRequest_untuned maxReq _ _ _ _ _ (rd_req _ _ _ _ _ Hr) Ec Ea Eu). by eexists _, _, _.
    + rewrite (addRequest_new maxReq _ _ _ _ _ _ (rd_req _ _ _ _ _ Hr) Hd (rd_total _ _ _ _ _ Hr) Ec Eu Ea).
      eexists _, _, _. split; [done|]. simpl. by rewrite lookup_insert_eq.
Qed.

Lemma addToRequestManager_ok p r xs rs sv d :
  ready p r xs rs sv -> live_tid (getClientTID (req_msg r)) d (sv_clients sv) ->
  exists ok sv', addToRequestManager maxReq p sv = Ok (ok, sv') /\ passes sv sv' /\
    (if ok : bool
     then mActiveRequests (sv_manager sv') !! getHandle (req_msg r) = Some (Some p, REQ_UNCHANGED)
     else no_ref p (sv_manager sv')).
Proof.
  intros Hr Hd. unfold addToRequestManager, request_at. cbn [deref mbind result_bind].
  rewrite (rd_req _ _ _ _ _ Hr). cbn [of_option mbind result_bind].
  destruct (shouldRequestBeAdded_ok p r xs rs sv d Hr Hd) as (b & -> & _). cbn [mbind result_bind].
  destruct b.
  - cbn [sv_set_clients sv_requests sv_manager sv_clients].
    destruct (addRequest_ok p r xs rs sv d Hr Hd) as (ok & rm & c & -> & Hok).
    cbn [mbind result_bind]. eexists _, _. split; [done|]. by split; [split_and!|].
  - eexists _, _. split; [done|]. split; [by split_and!|]. apply Hr.
Qed.

(** What becomes of a tune request that is validated: queued and active, or freed. *)
Definition tune_outcome (p : positive) (h : Z) (xs : list positive) (sv sv' : Server) : Prop :=
  st_same_table sv sv' /\
  ((queued p sv sv' /\ mActiveRequests (sv_manager sv') !! h = Some (Some p, REQ_UNCHANGED)) \/
   freed p xs sv sv').

Lemma admit_tune_ok p r xs rs sv d :
  ready p r xs rs sv -> live_tid (getClientTID (req_msg r)) d (sv_clients sv) ->
  SERVER_CLEANUP_TRIGGER_PRIORITY <= getPriority (req_msg r) ->
  exists sv', admit_tune maxReq p sv = Ok sv' /\ tune_outcome p (getHandle (req_msg r)) xs sv sv'.
Proof.
  intros Hr Hd Hp. unfold admit_tune.
  destruct (addToRequestManager_ok p r xs rs sv d Hr Hd) as (ok & sv1 & -> & Hps & Hok).
  cbn [mbind result_bind]. destruct ok.
  - destruct (enqueue_queues p r xs rs sv sv1 Hr Hps Hp) as (sv' & -> & Hq & Ht & Em).
    exists sv'. split; [done|]. split; [done|]. left. split; [done|]. by rewrite Em.
  - destruct (cleanUp_frees p r xs rs sv sv1 Hr Hps Hok) as (sv' & -> & Hf & Ht & _).
    exists sv'. split; [done|]. split; [done|]. by right.
Qed.

Lemma admit_tune_drops p r xs rs sv d :
  ready p r xs rs sv -> live_tid (getClientTID (req_msg r)) d (sv_clients sv) ->
  getPriority (req_msg r) < SERVER_CLEANUP_TRIGGER_PRIORITY ->
  exists sv', admit_tune maxReq p sv = Ok sv' /\ st_same_table sv sv' /\
    ((dropped p r sv sv' /\ mActiveRequests (sv_manager sv') !! getHandle (req_msg r) = Some (Some p, REQ_UNCHANGED)) \/
     freed p xs sv sv').
Proof.
  intros Hr Hd Hp. unfold admit_tune.
  destruct (addToRequestManager_ok p r xs rs sv d Hr Hd) as (ok & sv1 & -> & Hps & Hok).
  cbn [mbind result_bind]. destruct ok.
  - destruct (enqueue_drops p r xs rs sv sv1 Hr Hps Hp) as [-> Hq]. exists sv1. split; [done|].
    split; [by eapply same_table_passes|by left].
  - destruct (cleanUp_frees p r xs rs sv sv1 Hr Hps Hok) as (sv' & -> & Hf & Ht & _). eauto.
Qed.
End Steps.

(** ** The client checks *)

Lemma ready_clients p r xs rs sv c :
  ready p r xs rs sv -> cdm_wf c -> tid_ok (getClientTID (req_msg r)) c ->
  ready p r xs rs (sv_set_clients c sv).
Proof. intros [] ? ?. by split. Qed.

Lemma passes_clients sv c : passes sv (sv_set_clients c sv).
Proof. by split_and!. Qed.
Lemma passes_manager sv rm : passes sv (sv_set_manager rm sv).
Proof. by split_and!. Qed.

Lemma tid_ok_live tid c : tid_ok tid c -> is_Some (mClientTidRepo c !! tid) ->
  exists d, live_tid tid d c /\ 0 <= mLastRequestTimestamp d < 2 ^ 62.
Proof.
  intros Hok [o E]. destruct (Hok o E) as (d & -> & Hd). by exists d.
Qed.

Lemma tid_ok_put tid d c : 0 <= mLastRequestTimestamp d < 2 ^ 62 -> tid_ok tid (put_tid tid d c).
Proof. intros Hd o E. simpl in E. rewrite lookup_insert_eq in E. injection E as <-. by exists d. Qed.

Lemma createNewClient_total fs al junk pid tid level c :
  cdm_wf c -> tid_ok tid c -> clientExists pid tid c = false -> isRootProcess fs pid = Ok level ->
  exists ok c', createNewClient fs al junk pid tid c = Ok (ok, c') /\ cdm_wf c' /\ tid_ok tid c' /\
    (ok = true -> exists d, live_tid tid d c').
Proof.
  intros Hc Ht Hex Hroot. unfold createNewClient. rewrite Hex.
  destruct (negb (al_tid al && al_handles al)); [by eexists _, _|]. cbv zeta. cbn [mClientRepo set_tids].
  assert (tid_ok tid (put_tid tid fresh_tid c)) as Htid by (apply tid_ok_put; simpl; lia).
  destruct (mClientRepo c !! pid) as [i|] eqn:Ep.
  - destruct (Hc _ _ Ep) as [ts Hi]. pose proof Hi as [Hn _ Hcap].
    destruct (mCurClientThreads i <? PER_CLIENT_TID_CAP) eqn:El.
    + unfold PER_CLIENT_TID_CAP in El.
      destruct (add_thread_ok tid i ts Hi) as (i' & -> & Hi' & _); [lia|]. cbn [mbind result_bind].
      eexists _, _. split; [done|]. split; [by eapply (cdm_wf_insert pid i' _ c)|]. split; [exact Htid|].
      intros _. exists fresh_tid. apply lookup_insert_eq.
    + eexists _, _. split; [done|]. split; [exact Hc|]. by split; [exact Htid|].
  - destruct (negb (al_info al)).
    { eexists _, _. split; [done|]. split; [exact Hc|]. by split; [exact Htid|]. }
    destruct (add_thread_ok tid (ClientInfo_init junk) []) as (i' & -> & Hi' & _);
      [apply info_ok_init|simpl; lia|]. rewrite Hroot. cbn [mbind result_bind].
    eexists _, _. split; [done|].
    split; [eapply (cdm_wf_insert pid _ _ c); [done|by apply info_ok_type|done]|]. split; [exact Htid|].
    intros _. exists fresh_tid. apply lookup_insert_eq.
Qed.

(** Entries of the active table whose status is changed stay well formed. *)
Lemma or_cancelled_found i : (or_status REQ_CANCELLED i).2 <> REQ_NOT_FOUND.
Proof.
  unfold or_status. cbn [snd]. intros E. apply (f_equal (fun z => Z.testbit z 1)) in E.
  rewrite wrap_s_testbit, Z.lor_spec in E by lia. simpl in E. by rewrite orb_true_r in E.
Qed.

Lemma or_cancelled_flag i : has_flag (or_status REQ_CANCELLED i).2 REQ_CANCELLED = true.
Proof.
  unfold has_flag, or_status. cbn [snd]. apply negb_true_iff, Z.eqb_neq. intros E.
  apply (f_equal (fun z => Z.testbit z 1)) in E.
  rewrite Z.land_spec, wrap_s_testbit, Z.lor_spec in E by lia. simpl in E.
  by rewrite orb_true_r in E.
Qed.

Lemma ready_cancel p r xs rs sv h i :
  ready p r xs rs sv -> mActiveRequests (sv_manager sv) !! h = Some i ->
  ready p r xs rs (sv_set_manager (set_active (<[h := or_status REQ_CANCELLED i]>
    (mActiveRequests (sv_manager sv))) (sv_manager sv)) sv).
Proof.
  intros Hr E. destruct Hr as [? ? ? Ha Hn ? ? ? ? ? ?]. split; try done.
  - intros h' p' st. simpl. rewrite lookup_insert_Some. intros [[<- E']|[_ E']]; [|by apply (Ha _ _ _ E')].
    destruct i as [pi si]. unfold or_status in E'. cbn [fst snd] in E'. injection E' as <- <-.
    split; [apply (or_cancelled_found (pi, si))|by apply (Ha _ _ _ E)].
  - intros h' st. simpl. rewrite lookup_insert_Some. intros [[<- E']|[_ E']]; [|by eapply Hn].
    destruct i as [pi si]. unfold or_status in E'. cbn [fst snd] in E'. injection E' as -> _. by eapply Hn.
Qed.

Section Checks.
Context (maxReq : Z) (lim : RateLimiter) (fs : FileSystem) (al : ClientAllocs) (junk : Z).

(** A check either lets a request through, still ready, or frees it. *)
Definition checked (p : positive) (r : Request) (xs : list positive) (rs : list Resource)
    (sv sv' : Server) (go live : bool) : Prop :=
  if go then passes sv sv' /\ ready p r xs rs sv' /\
    (live = true -> exists d, live_tid (getClientTID (req_msg r)) d (sv_clients sv'))
  else freed p xs sv sv' /\ st_same_table sv sv'.

Lemma checked_freed p r xs rs sv sv1 live :
  ready p r xs rs sv -> passes sv sv1 -> no_ref p (sv_manager sv1) ->
  exists sv', (sv' ← cleanUp p sv1; Ok (sv', false)) = Ok (sv', false) /\
    checked p r xs rs sv sv' false live.
Proof.
  intros Hr Hps Hn. destruct (cleanUp_frees p r xs rs sv sv1 Hr Hps Hn) as (sv' & -> & Hf & Ht & _).
  by exists sv'.
Qed.

Lemma tune_checks_ok p r xs rs sv level :
  ready p r xs rs sv -> isRootProcess fs (getClientPID (req_msg r)) = Ok level ->
  exists sv' go, tune_checks maxReq fs al junk p r sv = Ok (sv', go) /\
    checked p r xs rs sv sv' go true.
Proof.
  intros Hr Hroot. unfold tune_checks. destruct (negb _).
  { destruct (checked_freed p r xs rs sv sv true Hr (passes_refl _) (rd_noref _ _ _ _ _ Hr))
      as (sv' & -> & Hc). by exists sv', false. }
  destruct (clientExists _ _ _) eqn:Ex.
  - exists sv, true. split; [done|]. split; [apply passes_refl|]. split; [done|]. intros _.
    unfold clientExists in Ex. apply andb_prop in Ex as [_ Ex]. apply bool_decide_eq_true in Ex.
    destruct (tid_ok_live _ _ (rd_tid _ _ _ _ _ Hr) Ex) as (d & ? & _). by exists d.
  - destruct (createNewClient_total fs al junk _ _ level _ (rd_cdm _ _ _ _ _ Hr)
      (rd_tid _ _ _ _ _ Hr) Ex Hroot) as (ok & c & -> & Hwf & Htid & Hlive).
    cbn [mbind result_bind]. destruct ok.
    + exists (sv_set_clients c sv), true. split; [done|]. split; [apply passes_clients|].
      split; [by apply ready_clients|]. intros _. by apply Hlive.
    + destruct (checked_freed p r xs rs sv (sv_set_clients c sv) true Hr (passes_clients _ _)
        (rd_noref _ _ _ _ _ Hr)) as (sv' & -> & Hc). by exists sv', false.
Qed.

Lemma other_checks_ok p r xs rs sv isValidated :
  ready p r xs rs sv ->
  exists sv' go, other_checks p r isValidated sv = Ok (sv', go) /\
    checked p r xs rs sv sv' go (negb isValidated) /\
    (go = true -> is_type r REQ_RESOURCE_UNTUNING = true ->
       has_flag (getRequestProcessingStatus (getHandle (req_msg r)) (sv_manager sv')) REQ_CANCELLED = true).
Proof.
  intros Hr. unfold other_checks.
  destruct (negb isValidated && _) eqn:Ev.
  { destruct (checked_freed p r xs rs sv sv (negb isValidated) Hr (passes_refl _)
      (rd_noref _ _ _ _ _ Hr)) as (sv' & -> & Hc). by exists sv', false. }
  assert (negb isValidated = true -> exists d,
    live_tid (getClientTID (req_msg r)) d (sv_clients sv)) as Hlive.
  { intros Hv. rewrite Hv in Ev. cbn [andb] in Ev. apply negb_false_iff in Ev.
    unfold clientExists in Ev. apply andb_prop in Ev as [_ Ev]. apply bool_decide_eq_true in Ev.
    destruct (tid_ok_live _ _ (rd_tid _ _ _ _ _ Hr) Ev) as (d & ? & _). by exists d. }
  destruct (is_type r REQ_RESOURCE_UNTUNING).
  - destruct (mActiveRequests (sv_manager sv) !! getHandle (req_msg r)) as [i|] eqn:Ea.
    + rewrite (disable_active _ _ _ Ea). cbn [mbind result_bind]. eexists _, true. split; [done|].
      split; [split; [apply passes_manager|]; split; [by apply ready_cancel|done]|].
      intros _ _. erewrite status_active by apply lookup_insert_eq. apply or_cancelled_flag.
    + unfold disableRequestProcessing. rewrite Ea.
      destruct (rd_cache _ _ _ _ _ Hr) as (q & Hq & Hm).
      destruct (lru_insert_present _ _ (getHandle (req_msg r)) Hq Hm) as (c & -> & _).
      cbn [mbind result_bind].
      destruct (checked_freed p r xs rs sv (sv_set_manager (set_cache c (sv_manager sv)) sv)
        (negb isValidated) Hr (passes_manager _ _)) as (sv' & -> & Hc); [apply Hr|].
      by exists sv', false.
  - exists sv, true. split; [done|]. split; [split; [apply passes_refl|]; by split|done].
Qed.

Lemma rate_check_ok p r xs rs sv isValidated now live :
  ready p r xs rs sv -> clock now -> (isValidated = false -> live = true) ->
  (live = true -> exists d, live_tid (getClientTID (req_msg r)) d (sv_clients sv)) ->
  exists sv' go, rate_check lim p r isValidated now sv = Ok (sv', go) /\
    (go = true -> sv_manager sv' = sv_manager sv) /\ checked p r xs rs sv sv' go live.
Proof.
  intros Hr Hnow Hv Hlive. unfold rate_check. destruct isValidated.
  { exists sv, true. split; [done|]. split; [done|]. split; [apply passes_refl|]. by split. }
  destruct (Hlive (Hv eq_refl)) as (d & Hd).
  destruct (rd_tid _ _ _ _ _ Hr _ Hd) as (d' & Ed & Hlast). injection Ed as <-. unfold clock in Hnow.
  rewrite (isRateLimitHonored_live lim now _ d _ Hd) by (unfold in_s; lia). cbn [mbind result_bind].
  set (c := put_tid _ _ (sv_clients sv)).
  destruct (limit_step lim now d).1.
  - exists (sv_set_clients c sv), true. split; [done|]. split; [done|]. split; [apply passes_clients|].
    split; [|intros _; eexists; apply lookup_insert_eq].
    apply ready_clients; [done|exact (rd_cdm _ _ _ _ _ Hr)|].
    apply tid_ok_put. destruct (limit_step_last lim now d) as [-> | ->]; lia.
  - destruct (checked_freed p r xs rs sv (sv_set_clients c sv) live Hr (passes_clients _ _)
      (rd_noref _ _ _ _ _ Hr)) as (sv' & -> & Hc). by exists sv', false.
Qed.
End Checks.

(** ** The whole of [processIncomingRequest] *)

(** The state once verification has rewritten the request and its resources. *)
Definition verified_state (p : positive) (r' : Request) (s' : Store) (sv : Server) : Server :=
  sv_set_target (sv_target sv) (sv_set_world (set_store s' (sv_world sv))
    (sv_set_requests (<[p := r']> (sv_requests sv)) sv)).

Lemma ready_verified p r r' xs rs rs' s' sv :
  ready p r xs rs sv -> mResourceList r' = mResourceList r -> same_client r r' ->
  node_data s' xs rs' -> st_links s' = st_links (sv_store sv) ->
  (forall y, y ∉ xs -> st_data s' !! y = st_data (sv_store sv) !! y) ->
  ready p r' xs rs' (verified_state p r' s' sv).
Proof.
  intros [? Hl ? Ha Hn ? ? ? ? Htid ?] El (_ & _ & Et & _) Hd Hk Ho.
  split; try done; simpl.
  - apply lookup_insert_eq.
  - unfold req_list in *. change (sv_store (verified_state p r' s' sv)) with s'. by rewrite El, Hk.
  - intros h q st E. destruct (Ha h q st E) as (Hst & x & rx & -> & Ex & Hok). split; [done|].
    exists x, rx. split; [done|]. rewrite lookup_insert_ne by (intros ->; by eapply Hn).
    split; [done|]. destruct Hok as (l & ys & E1 & E2 & Hy). exists l, ys.
    change (sv_store (verified_state p r' s' sv)) with s'. rewrite Hk.
    split; [done|]. split; [done|]. intros y Hyin. destruct (decide (y ∈ xs)) as [Hin|Hnin].
    + by eapply node_data_in.
    + rewrite Ho by done. by apply Hy.
  - by rewrite Et.
Qed.

Lemma tune_outcome_verified p r' s' xs h sv sv' :
  st_links s' = st_links (sv_store sv) -> st_freed s' = st_freed (sv_store sv) ->
  tune_outcome p h xs (verified_state p r' s' sv) sv' -> tune_outcome p h xs sv sv'.
Proof.
  intros Hk Hf [(H1 & H2 & H3) Ho]. split.
  { split; [exact H1|]. split; [exact H2|]. rewrite <- Hk. exact H3. }
  destruct Ho as [[(r2 & E1 & E2 & E3) Ha]|(E1 & E2 & E3 & E4)]; [left|right].
  - split; [|done]. exists r2. simpl in *. rewrite insert_insert_eq in E1. rewrite <- Hf. by split_and!.
  - unfold freed. simpl in *. rewrite delete_insert_eq in E1. rewrite <- Hf. by split_and!.
Qed.

Lemma tune_outcome_passes p h xs sv sv1 sv' :
  passes sv sv1 -> tune_outcome p h xs sv1 sv' -> tune_outcome p h xs sv sv'.
Proof.
  intros Hps [Ht Ho]. split; [by eapply same_table_passes|].
  destruct Ho as [[Hq Ha]|Hf]; [left|right].
  - split; [by eapply queued_passes|done].
  - by eapply freed_passes.
Qed.

Lemma tune_stage_ok {R} `{!ResourceConfigs R} (reg : R) `{HashOrder} mode maxReq p r xs rs sv
    isValidated :
  ready p r xs rs sv -> (exists d, live_tid (getClientTID (req_msg r)) d (sv_clients sv)) ->
  (isValidated = true -> SERVER_CLEANUP_TRIGGER_PRIORITY <= getPriority (req_msg r)) ->
  exists sv', verify_and_admit reg mode maxReq p r isValidated sv = Ok sv' /\
    tune_outcome p (getHandle (req_msg r)) xs sv sv'.
Proof.
  intros Hr [d Hd] Hp. unfold verify_and_admit. destruct isValidated; [by eapply admit_tune_ok; [done..|apply Hp]|].
  destruct (VerifyIncomingRequest_total reg mode r (sv_clients sv) (sv_store sv) (sv_target sv) xs rs)
    as (ok & r' & s' & rs' & -> & El & Hc & Hd' & Hk & Hf & Ho & Hprio); try apply Hr.
  cbn [mbind result_bind]. fold (verified_state p r' s' sv).
  pose proof (ready_verified p r r' xs rs rs' s' sv Hr El Hc Hd' Hk Ho) as Hr'.
  destruct Hc as (Eh & _ & Et & _). destruct ok.
  - destruct (admit_tune_ok maxReq p r' xs rs' _ d Hr') as (sv' & -> & Hout).
    + by rewrite Et.
    + specialize (Hprio eq_refl). unfold SYSTEM_HIGH, SERVER_CLEANUP_TRIGGER_PRIORITY in *. lia.
    + exists sv'. split; [done|]. rewrite Eh in Hout. by eapply tune_outcome_verified.
  - destruct (cleanUp_frees p r' xs rs' _ _ Hr' (passes_refl _) (rd_noref _ _ _ _ _ Hr'))
      as (sv' & -> & Hfr & Ht & _).
    exists sv'. split; [done|]. eapply tune_outcome_verified; [done|done|]. split; [done|]. by right.
Qed.

Lemma is_type_eq r ty : is_type r ty = true <-> getRequestType (req_msg r) = RequestType_val ty.
Proof. unfold is_type. lia. Qed.

Definition is_other (r : Request) : bool :=
  is_type r REQ_RESOURCE_UNTUNING || is_type r REQ_RESOURCE_RETUNING.

Lemma is_type_tune r : is_type r REQ_RESOURCE_TUNING = true -> is_other r = false.
Proof. intros E. apply is_type_eq in E. unfold is_other, is_type. by rewrite E. Qed.
Lemma is_type_other r : is_other r = true -> is_type r REQ_RESOURCE_TUNING = false.
Proof.
  unfold is_other. intros E. apply orb_true_iff in E. rewrite !is_type_eq in E.
  unfold is_type. by destruct E as [-> | ->].
Qed.

(** How any request leaves the pipeline. *)
Definition intake_outcome (p : positive) (r : Request) (xs : list positive) (sv sv' : Server) : Prop :=
  st_same_table sv sv' /\
  ((queued p sv sv' /\
    (if is_type r REQ_RESOURCE_TUNING
     then mActiveRequests (sv_manager sv') !! getHandle (req_msg r) = Some (Some p, REQ_UNCHANGED)
     else verifyHandle (getHandle (req_msg r)) (sv_manager sv') = true) /\
    (is_type r REQ_RESOURCE_UNTUNING = true ->
       has_flag (getRequestProcessingStatus (getHandle (req_msg r)) (sv_manager sv')) REQ_CANCELLED = true)) \/
   freed p xs sv sv').

(** A request lost by its priority: active, or cancelled, like a queued one. *)
Definition lost (p : positive) (r : Request) (sv sv' : Server) : Prop :=
  st_same_table sv sv' /\ dropped p r sv sv' /\
  (if is_type r REQ_RESOURCE_TUNING
   then mActiveRequests (sv_manager sv') !! getHandle (req_msg r) = Some (Some p, REQ_UNCHANGED)
   else verifyHandle (getHandle (req_msg r)) (sv_manager sv') = true).

Lemma dropped_passes p r sv sv1 sv' : passes sv sv1 -> dropped p r sv1 sv' -> dropped p r sv sv'.
Proof. intros (Ew & Er & Eq & Et) (H1 & H2 & H3 & H4). unfold dropped, sv_store in *. by rewrite <- Er, <- Eq, <- Ew. Qed.

Section Intake.
Context {R : Type} `{!ResourceConfigs R} (reg : R) `{HashOrder}.
Context (mode maxReq : Z) (lim : RateLimiter) (fs : FileSystem) (al : ClientAllocs) (junk : Z).

Lemma intake_tune_any p r xs rs sv isValidated now level :
  ready p r xs rs sv -> clock now -> isRootProcess fs (getClientPID (req_msg r)) = Ok level ->
  is_type r REQ_RESOURCE_TUNING = true ->
  exists sv', processIncomingRequest reg mode maxReq lim fs al junk p isValidated now sv = Ok sv' /\
    (intake_outcome p r xs sv sv' \/ isValidated = true /\ lost p r sv sv').
Proof.
  intros Hr Hnow Hroot Hty. pose proof (is_type_tune r Hty) as Ho.
  unfold processIncomingRequest, request_at. cbn [deref mbind result_bind].
  rewrite (rd_req _ _ _ _ _ Hr). cbn [of_option mbind result_bind]. fold (is_other r). rewrite Hty, Ho.
  assert (forall sv', freed p xs sv sv' /\ st_same_table sv sv' -> intake_outcome p r xs sv sv') as Hfreed.
  { intros sv' [Hf Ht]. split; [done|by right]. }
  destruct (tune_checks_ok maxReq fs al junk p r xs rs sv level Hr Hroot) as (sv1 & go & -> & Hc).
  cbn [mbind result_bind]. destruct go; cbn [negb]; [|by exists sv1; eauto].
  destruct Hc as (Hps1 & Hr1 & Hl1). cbn [mbind result_bind negb].
  destruct (rate_check_ok lim p r xs rs sv1 isValidated now true Hr1 Hnow (fun _ => eq_refl) Hl1)
    as (sv2 & go & -> & _ & Hc).
  cbn [mbind result_bind]. destruct go; cbn [negb].
  - destruct Hc as (Hps2 & Hr2 & Hl2). pose proof (passes_trans _ _ _ Hps1 Hps2) as Hps.
    destruct (decide (isValidated = true /\ getPriority (req_msg r) < SERVER_CLEANUP_TRIGGER_PRIORITY)) as [[-> Hlow]|Hp].
    { destruct (Hl2 eq_refl) as [d Hd].
      destruct (admit_tune_drops maxReq p r xs rs sv2 d Hr2 Hd Hlow) as (sv' & E & Ht & Hout).
      exists sv'. split; [exact E|]. pose proof (same_table_passes _ _ _ Hps Ht) as Ht'.
      destruct Hout as [[Hq Ha]|Hf]; [right|left; apply Hfreed; split; [by eapply freed_passes|done]].
      split; [done|]. split; [done|]. rewrite Hty. split; [by eapply dropped_passes|done]. }
    destruct (tune_stage_ok reg mode maxReq p r xs rs sv2 isValidated Hr2 (Hl2 eq_refl)) as (sv' & -> & Hout).
    { intros ->. apply Z.nlt_ge. intros Hlow. by apply Hp. }
    exists sv'. split; [done|]. left.
    destruct (tune_outcome_passes _ _ _ _ _ _ Hps Hout) as [Ht [[Hq Ha]|Hf]]; [|by apply Hfreed].
    split; [done|]. left. split; [done|]. rewrite Hty. split; [done|].
    intros Hu. apply is_type_eq in Hu, Hty. rewrite Hu in Hty. done.
  - exists sv2. split; [done|]. left. apply Hfreed. destruct Hc as [Hf Ht].
    split; [by eapply freed_passes|by eapply same_table_passes].
Qed.

Lemma intake_other_any p r xs rs sv isValidated now :
  ready p r xs rs sv -> clock now -> is_other r = true ->
  exists sv', processIncomingRequest reg mode maxReq lim fs al junk p isValidated now sv = Ok sv' /\
    (intake_outcome p r xs sv sv' \/ lost p r sv sv').
Proof.
  intros Hr Hnow Ho. pose proof (is_type_other r Ho) as Hty.
  unfold processIncomingRequest, request_at. cbn [deref mbind result_bind].
  rewrite (rd_req _ _ _ _ _ Hr). cbn [of_option mbind result_bind]. fold (is_other r). rewrite Hty, Ho.
  cbn [mbind result_bind negb].
  assert (forall sv', freed p xs sv sv' /\ st_same_table sv sv' -> intake_outcome p r xs sv sv') as Hfreed.
  { intros sv' [Hf Ht]. split; [done|by right]. }
  destruct (other_checks_ok p r xs rs sv isValidated Hr) as (sv1 & go & -> & Hc & Hflag).
  cbn [mbind result_bind]. destruct go; cbn [negb]; [|by exists sv1; eauto].
  destruct Hc as (Hps1 & Hr1 & Hl1).
  destruct (rate_check_ok lim p r xs rs sv1 isValidated now (negb isValidated) Hr1 Hnow)
    as (sv2 & go & -> & Em & Hc); [by intros ->|done|].
  cbn [mbind result_bind]. destruct go; cbn [negb].
  - destruct Hc as (Hps2 & Hr2 & _). pose proof (passes_trans _ _ _ Hps1 Hps2) as Hps.
    destruct (verifyHandle (getHandle (req_msg r)) (sv_manager sv2)) eqn:Ev.
    + destruct (Z.lt_ge_cases (getPriority (req_msg r)) SERVER_CLEANUP_TRIGGER_PRIORITY) as [Hlow|Hp].
      { destruct (enqueue_drops p r xs rs sv sv2 Hr Hps Hlow) as [-> Hq]. exists sv2. split; [done|]. right.
        split; [by eapply same_table_passes|]. split; [done|]. by rewrite Hty. }
      destruct (enqueue_queues p r xs rs sv sv2 Hr Hps Hp) as (sv' & -> & Hq & Ht & Em').
      exists sv'. split; [done|]. left. split; [done|]. left. split; [done|]. rewrite Hty, Em'.
      split; [done|]. rewrite (Em eq_refl). by apply Hflag.
    + destruct (cleanUp_frees p r xs rs sv sv2 Hr Hps (rd_noref _ _ _ _ _ Hr2))
        as (sv' & -> & Hf & Ht & _). exists sv'. split; [done|]. left. by apply Hfreed.
  - exists sv2. split; [done|]. left. apply Hfreed. destruct Hc as [Hf Ht].
    split; [by eapply freed_passes|by eapply same_table_passes].
Qed.

(** With an admissible priority no request is lost. *)
Lemma intake_tune p r xs rs sv isValidated now level :
  ready p r xs rs sv -> clock now -> isRootProcess fs (getClientPID (req_msg r)) = Ok level ->
  is_type r REQ_RESOURCE_TUNING = true ->
  (isValidated = true -> SERVER_CLEANUP_TRIGGER_PRIORITY <= getPriority (req_msg r)) ->
  exists sv', processIncomingRequest reg mode maxReq lim fs al junk p isValidated now sv = Ok sv' /\
    intake_outcome p r xs sv sv'.
Proof.
  intros Hr Hnow Hroot Hty Hp.
  destruct (intake_tune_any p r xs rs sv isValidated now level) as (sv' & E & [H0|[Hv (_ & (Hl & _) & _)]]); eauto.
  specialize (Hp Hv). lia.
Qed.

Lemma intake_other p r xs rs sv isValidated now :
  ready p r xs rs sv -> clock now -> is_other r = true ->
  SERVER_CLEANUP_TRIGGER_PRIORITY <= getPriority (req_msg r) ->
  exists sv', processIncomingRequest reg mode maxReq lim fs al junk p isValidated now sv = Ok sv' /\
    intake_outcome p r xs sv sv'.
Proof.
  intros Hr Hnow Ho Hp.
  destruct (intake_other_any p r xs rs sv isValidated now) as (sv' & E & [H0|(_ & (Hl & _) & _)]); eauto. lia.
Qed.
End Intake.

(** ** Properties *)

(** C6: every request is accounted for.  In a [ready] state (lists, queue, manager, client tables
    and target mappings well formed, the queue and the request counter below their maximum),
    for a process whose status file can be read or is absent, and with a clock,
    [processIncomingRequest] of a tune, retune or untune request of any priority does not fault, applies
    no resource, changes no table list, and leaves the request in exactly one of three ways.  It is
    queued, once, under its priority: a tune request is then active under its handle, a
    retune or untune request names an active handle, and an untune request has cancelled it.
    Or its block and all its nodes are given back, and neither the queue nor the active
    table refers to it.  Or it is lost: its priority is below -2, so the queue refuses
    it; it stays allocated, outside the queue, its handle active.  This third way is
    open only to retunes, untunes and tune requests submitted as validated. *)
Theorem processIncomingRequest_ownership {R : Type} `{!ResourceConfigs R} (reg : R) `{HashOrder}
    (mode maxReq : Z) (lim : RateLimiter) (fs : FileSystem) (al : ClientAllocs) (junk : Z)
    (p : positive) (r : Request) (xs : list positive) (rs : list Resource) (sv : Server)
    (isValidated : bool) (now level : Z) :
  ready p r xs rs sv -> clock now -> isRootProcess fs (getClientPID (req_msg r)) = Ok level ->
  is_type r REQ_RESOURCE_TUNING || is_other r = true ->
  exists sv', processIncomingRequest reg mode maxReq lim fs al junk p isValidated now sv = Ok sv' /\
    (intake_outcome p r xs sv sv' \/
     (is_type r REQ_RESOURCE_TUNING = true -> isValidated = true) /\ lost p r sv sv').
Proof.
  intros Hr Hnow Hroot Hty. apply orb_true_iff in Hty as [Hty|Hty].
  - destruct (intake_tune_any reg mode maxReq lim fs al junk p r xs rs sv isValidated now level)
      as (sv' & E & [H0|[Hv Hl]]); eauto.
  - destruct (intake_other_any reg mode maxReq lim fs al junk p r xs rs sv isValidated now)
      as (sv' & E & [H0|Hl]); eauto.
    exists sv'. split; [done|]. right. split; [|done]. by rewrite (is_type_other r Hty).
Qed.

(** A tune request of a root process, with one resource. *)
Lemma processIncomingRequest_ownership_witness :
  let conf := setLifeCycleCallbacks (sample_conf 3 7 HIGHER_BETTER APPLY_GLOBAL) in
  let reg := one_resource HIGHER_BETTER APPLY_GLOBAL in
  let order := sorted_hash_order in
  let fs := fs_with {["/proc/7/status"%string := "Name: x"%string]} in
  exists sv sv', processIncomingRequest reg MODE_RESUME 60 default_limiter fs all_blocks 0 1 false 1000 sv
      = Ok sv' /\
    mActiveRequests (sv_manager sv) = ∅ /\
    map snd (mOrderedQueue (sv_queue sv')) = [QRequest 1].
Proof.
  intros conf reg order fs.
  destruct (insert_refines (fresh_heap 1 2) (DLManager_init 0) [] 1) as (h & l & El & Hl & _).
  { by apply is_dll_init. } { split; [vm_compute; eauto|set_solver]. }
  vm_compute in El. injection El as <- <-.
  match type of Hl with is_dll ?h ?l _ =>
    set (r := mkRequest (mkMessage 6 (-1) 1 7 8 0) None (Some l) 0);
    set (sv := mkServer (mkWorld (mkStore h {[1%positive := sample_res 0 10]} ∅)
      (CocoTable_init reg [] [] 8 2 0) []) {[1%positive := r]} ClientDataManager_init
      RequestManager_init OrderedQueue_init TargetRegistry_init)
  end.
  destruct (processIncomingRequest_ownership reg MODE_RESUME 60 default_limiter fs all_blocks 0 1 r
    [1%positive] [sample_res 0 10] sv false 1000 1) as (sv' & E & _).
  - split; try done.
    + split; [by repeat constructor|]. repeat constructor; simpl; lia || (unfold in_u; lia).
    + exists []. split; [split_and!; [done|done|constructor]|reflexivity].
  - unfold clock. lia.
  - vm_compute. reflexivity.
  - reflexivity.
  - exists sv, sv'. split; [exact E|]. split; [done|].
    vm_compute in E. by injection E as <-.
Defined.

(** ** A tune request and its untune request in the queue together *)

Lemma consume_cancelled {R} `{!ResourceConfigs R} (reg : R) mode tb tp p r xs sv d st :
  sv_requests sv !! p = Some r -> is_type r REQ_RESOURCE_TUNING = true ->
  req_list (sv_store sv) r xs -> live_tid (getClientTID (req_msg r)) d (sv_clients sv) ->
  mActiveRequests (sv_manager sv) !! getHandle (req_msg r) = Some (Some p, st) ->
  has_flag st REQ_CANCELLED = true ->
  exists s', cleanUpRequest (sv_store sv) (Some r) = Ok (s', xs) /\
    st_links s' = st_links (sv_store sv) /\
    st_freed s' = list_to_set xs ∪ st_freed (sv_store sv) /\
    consume_request reg mode tb tp p sv =
      Ok (mkServer (set_store s' (sv_world sv)) (delete p (sv_requests sv))
            (put_tid (getClientTID (req_msg r))
               (with_handles (mClientHandles d ∖ {[getHandle (req_msg r)]}) d) (sv_clients sv))
            (set_active (delete (getHandle (req_msg r)) (mActiveRequests (sv_manager sv))) (sv_manager sv))
            (sv_queue sv) (sv_target sv)).
Proof.
  intros Hp Hty Hl Hd Ha Hc. unfold consume_request, request_at. cbn [deref mbind result_bind].
  rewrite Hp. cbn [of_option mbind result_bind]. rewrite Hty. unfold consume_tune.
  rewrite (status_active _ _ _ Ha). cbn [snd]. rewrite Hc. cbn [orb]. unfold forget, request_at.
  cbn [deref mbind result_bind]. rewrite Hp. cbn [of_option mbind result_bind].
  unfold RequestManager.removeRequest. rewrite (deleteRequest_live _ _ _ _ Hd). cbn [mbind result_bind].
  match goal with |- context [cleanUp p ?sv1] =>
    destruct (cleanUp_ok p r xs sv1 Hp Hl) as (s' & -> & Hs & Hk & Hf) end.
  by exists s'.
Qed.

(** A queued untune or retune request without resources is dropped by freeing it. *)
Lemma cleanUp_plain u ru sv :
  sv_requests sv !! u = Some ru -> mResourceList ru = None ->
  cleanUp u sv = Ok (sv_set_requests (delete u (sv_requests sv)) sv).
Proof.
  intros Hu Hl. unfold cleanUp, request_at, cleanUpRequest, clearResources. cbn [deref mbind result_bind].
  rewrite Hu. cbn [of_option mbind result_bind]. rewrite Hl. cbn [mbind result_bind].
  by destruct sv as [[] ? ? ? ? ?].
Qed.

Lemma consume_untune_early {R} `{!ResourceConfigs R} (reg : R) mode tb tp u ru sv :
  sv_requests sv !! u = Some ru -> is_type ru REQ_RESOURCE_UNTUNING = true -> mResourceList ru = None ->
  match mActiveRequests (sv_manager sv) !! getHandle (req_msg ru) with
  | None => True
  | Some (_, st) => has_flag st REQ_COMPLETED = false
  end ->
  consume_request reg mode tb tp u sv = Ok (sv_set_requests (delete u (sv_requests sv)) sv).
Proof.
  intros Hu Hty Hl Ha. unfold consume_request, request_at. cbn [deref mbind result_bind].
  rewrite Hu. cbn [of_option mbind result_bind].
  assert (is_type ru REQ_RESOURCE_TUNING = false) as ->.
  { apply is_type_other. unfold is_other. by rewrite Hty. }
  rewrite Hty. unfold getRequestFromMap, consume_untune.
  destruct (mActiveRequests (sv_manager sv) !! getHandle (req_msg ru)) as [[[t|] st]|]; cbn iota beta;
    rewrite ?(cleanUp_plain u ru sv Hu Hl); try done.
  rewrite Ha. cbn [negb]. by destruct (has_flag st REQ_NOT_FOUND).
Qed.

(** C20: an untune request that overtakes its tune request.  When both are queued and
    the tune request has not been applied yet (it is cancelled but not completed), the
    consumer reaches the same state whichever of them it takes first: the handle is no
    longer active nor recorded for its client, both requests and the resource nodes are freed, and
    the table of applied resources is not touched at all. *)
Theorem RequestQueue_untune_race {R : Type} `{!ResourceConfigs R} (reg : R) (mode : Z)
    (tb : bool) (tp : option bool) (p u : positive) (r ru : Request) (xs : list positive)
    (sv : Server) (d : ClientTidData) (st : Z) :
  let h := getHandle (req_msg r) in
  p <> u -> sv_requests sv !! p = Some r -> sv_requests sv !! u = Some ru ->
  is_type r REQ_RESOURCE_TUNING = true -> is_type ru REQ_RESOURCE_UNTUNING = true ->
  getHandle (req_msg ru) = h -> mResourceList ru = None -> req_list (sv_store sv) r xs ->
  live_tid (getClientTID (req_msg r)) d (sv_clients sv) ->
  mActiveRequests (sv_manager sv) !! h = Some (Some p, st) ->
  has_flag st REQ_CANCELLED = true -> has_flag st REQ_COMPLETED = false ->
  exists sv', (sv ← consume_request reg mode tb tp p sv; consume_request reg mode tb tp u sv) = Ok sv' /\
    (sv ← consume_request reg mode tb tp u sv; consume_request reg mode tb tp p sv) = Ok sv' /\
    sv_requests sv' = delete p (delete u (sv_requests sv)) /\
    verifyHandle h (sv_manager sv') = false /\
    getRequestsByClientID (getClientTID (req_msg r)) (sv_clients sv') =
      (Some (mClientHandles d ∖ {[h]}), sv_clients sv') /\
    st_freed (sv_store sv') = list_to_set xs ∪ st_freed (sv_store sv) /\ st_same_table sv sv'.
Proof.
  intros h Hne Hp Hu Htp Htu Hh Hlu Hl Hd Ha Hc Hn.
  destruct (consume_cancelled reg mode tb tp p r xs sv d st Hp Htp Hl Hd Ha Hc)
    as (s1 & Hs1 & Hk1 & Hf1 & E1).
  set (sv1 := sv_set_requests (delete u (sv_requests sv)) sv).
  assert (consume_request reg mode tb tp u sv = Ok sv1) as E2.
  { apply (consume_untune_early reg mode tb tp u ru sv Hu Htu Hlu). rewrite Hh. by rewrite Ha. }
  rewrite E1, E2. cbn [mbind result_bind].
  rewrite (consume_untune_early reg mode tb tp u ru) by
    (done || (simpl; by rewrite lookup_delete_ne) || (simpl; rewrite Hh; by rewrite lookup_delete_eq)).
  eexists. split; [done|]. split; [|split_and!].
  - destruct (consume_cancelled reg mode tb tp p r xs sv1 d st) as (s2 & Hs2 & _ & _ & E3);
      try done; [by simpl; rewrite lookup_delete_ne|].
    change (sv_store sv1) with (sv_store sv) in Hs2. rewrite Hs1 in Hs2. injection Hs2 as <-.
    rewrite E3. unfold sv1, sv_set_requests. simpl. by rewrite delete_delete.
  - simpl. apply delete_delete.
  - unfold verifyHandle. simpl. by rewrite lookup_delete_eq.
  - exact (getRequests_live _ _ _ (live_put _ _ _)).
  - exact Hf1.
  - by split_and!.
Qed.

Lemma RequestQueue_untune_race_witness :
  let reg := one_resource HIGHER_BETTER APPLY_GLOBAL in
  let hl := match insert (fresh_heap 1 2) (DLManager_init 0) (Some 1%positive) with
            | Ok (_, h, l) => (h, l) | Fault _ => (fresh_heap 1 2, DLManager_init 0) end in
  let r := mkRequest (mkMessage 6 (-1) 2 7 8 0) None (Some hl.2) 0 in
  let ru := mkRequest (mkMessage 6 (-1) 0 7 8 2) None None 0 in
  let st := Z.lor REQ_UNCHANGED REQ_CANCELLED in
  let sv := mkServer (mkWorld (mkStore hl.1 {[1%positive := sample_res 0 10]} ∅) (CocoTable_init reg [] [] 8 2 0) [])
    {[1%positive := r; 2%positive := ru]} (put_tid 8 (mkTidData {[6]} 5 (d_of_Z 100)) ClientDataManager_init)
    (set_active {[6 := (Some 1%positive, st)]} RequestManager_init) OrderedQueue_init TargetRegistry_init in
  exists sv',
    (sv ← consume_request reg 1 true None 1 sv; consume_request reg 1 true None 2 sv) = Ok sv' /\
    (sv ← consume_request reg 1 true None 2 sv; consume_request reg 1 true None 1 sv) = Ok sv' /\
    sv_requests sv' = ∅ /\ (1%positive ∈ st_freed (sv_store sv')).
Proof.
  intros reg hl r ru st sv.
  assert (is_dll hl.1 hl.2 [1%positive]) as Hl.
  { destruct (insert_refines (fresh_heap 1 2) (DLManager_init 0) [] 1) as (h & l & El & Hl & _).
    { by apply is_dll_init. } { split; [vm_compute; eauto|set_solver]. }
    unfold hl. by rewrite El. }
  destruct (RequestQueue_untune_race reg 1 true None 1 2 r ru [1%positive] sv (mkTidData {[6]} 5 (d_of_Z 100)) st)
    as (sv' & E1 & E2 & Er & _ & _ & Hf & _).
  - discriminate.
  - vm_compute. reflexivity.
  - vm_compute. reflexivity.
  - reflexivity.
  - reflexivity.
  - reflexivity.
  - reflexivity.
  - split; [by vm_compute|exact Hl].
  - apply live_put.
  - vm_compute. reflexivity.
  - vm_compute. reflexivity.
  - vm_compute. reflexivity.
  - exists sv'. split; [exact E1|]. split; [exact E2|]. split; [rewrite Er; vm_compute; reflexivity|].
    rewrite Hf. set_solver.
Defined.
