(* ===== verification/ClientCleanup.v ===== *)
(** Background upkeep of the server: [resource-tuner/core/PulseMonitor.cpp] (dead
    clients), [resource-tuner/core/ClientGarbageCollector.cpp] (the untune requests
    issued for them) and the suspend and resume handler of
    [resource-tuner/dbus-modules/StateDetector.cpp].

    The addresses of the untune requests a cleanup allocates are an argument; [None]
    is a failed allocation. *)
From S2P Require Import Prelude UrmTypes Message Resource DLManager AuxRoutines TargetRegistry.
From S2P Require Import ResourceRegistry Request Double CocoTable ClientDataManager OrderedQueue RequestManager RateLimiter.
From S2P Require Import RequestHandler Server.
Open Scope list_scope.
Open Scope Z_scope.

(** ** ClientGarbageCollector.cpp *)
Definition GcQueue : Type := list Z.   (* mGcQueue *)

Definition submitClientForCleanup (clientPid : Z) (c : ClientDataManager) (gc : GcQueue)
  : result GcQueue :=
  threadIDs ← getThreadsByClientId clientPid [] c;
  Ok (gc ++ threadIDs).

Section Upkeep.
Context `{HashOrder}.

(** The untune request for one handle of a dead client. *)
Definition untune_handle (untune : ptr) (junk : Message) (handle : Z) (sv : Server) : result Server :=
  match (getRequestFromMap handle (sv_manager sv)).1 with
  | None => Ok sv
  | Some p =>
    request ← request_at (sv_requests sv) (Some p);
    match untune with
    | None => Ok sv
    | Some u =>
      let u_req := populateUntuneRequest request (Request_init junk) in
      let u_req := with_msg (setPriority REQ_PRIORITY_HIGH (req_msg u_req)) u_req in
      enqueue u (sv_set_requests (<[u := u_req]> (sv_requests sv)) sv)
    end
  end.

Fixpoint untune_handles (untune : Z -> ptr) (junk : Message) (handles : list Z) (sv : Server)
  : result Server :=
  match handles with
  | [] => Ok sv
  | h :: handles => sv ← untune_handle (untune h) junk h sv; untune_handles untune junk handles sv
  end.

(** One thread taken from the cleanup queue. *)
Definition cleanup_thread (untune : Z -> ptr) (junk : Message) (clientTID : Z) (sv : Server)
  : result Server :=
  let '(clientHandles, c) := getRequestsByClientID clientTID (sv_clients sv) in
  match clientHandles with
  | None => Ok (sv_set_clients c sv)
  | Some hs =>
    c ← deleteClientTID clientTID c;
    untune_handles untune junk (set_order hs) (sv_set_clients c sv)
  end.

(** [performCleanup]: the bound of the loop is recomputed from the shrinking queue. *)
Fixpoint cleanup_loop (fuel : nat) (batchSize count : Z) (untune : Z -> ptr) (junk : Message)
    (gc : GcQueue) (sv : Server) : result (GcQueue * Server) :=
  if count <? Z.min (wrap_u 32 (Z.of_nat (length gc))) batchSize then
    match fuel, gc with
    | O, _ => Fault OutOfFuel
    | _, [] => Fault OutOfRange
    | S fuel, clientTID :: gc =>
      sv ← cleanup_thread untune junk clientTID sv;
      cleanup_loop fuel batchSize (count + 1) untune junk gc sv
    end
  else Ok (gc, sv).

Definition performCleanup (batchSize : Z) (untune : Z -> ptr) (junk : Message) (gc : GcQueue)
    (sv : Server) : result (GcQueue * Server) :=
  cleanup_loop (length gc) batchSize 0 untune junk gc sv.

(** ** PulseMonitor.cpp *)
Definition comm_path (pid : Z) : string := "/proc/" +:+ to_string pid +:+ "/comm".

Fixpoint check_clients (fs : FileSystem) (pids : list Z) (gc : GcQueue) (c : ClientDataManager)
  : result (GcQueue * ClientDataManager) :=
  match pids with
  | [] => Ok (gc, c)
  | pid :: pids =>
    if negb (fileExists fs (comm_path pid)) then
      gc ← submitClientForCleanup pid c gc;
      check_clients fs pids gc (deleteClientPID pid c)
    else check_clients fs pids gc c
  end.

Definition checkForDeadClients (fs : FileSystem) (gc : GcQueue) (c : ClientDataManager)
  : result (GcQueue * ClientDataManager) :=
  check_clients fs (getActiveClientList [] c) gc c.

(** ** StateDetector.cpp *)

(** The pending requests, submitted again one by one. *)
Fixpoint resubmit {R} `{!ResourceConfigs R} (reg : R) (mode maxReq : Z) (lim : RateLimiter)
    (fs : FileSystem) (al : ClientAllocs) (junk now : Z) (ps : list positive) (sv : Server)
  : result Server :=
  match ps with
  | [] => Ok sv
  | p :: ps =>
    sv ← submitResProvisionRequest reg mode maxReq lim fs al junk p false now sv;
    resubmit reg mode maxReq lim fs al junk now ps sv
  end.

(** [onSdBusMessageReceived]: the new device mode and state. *)
Definition onSdBusMessageReceived {R} `{!ResourceConfigs R} (reg : R) (maxReq : Z) (lim : RateLimiter)
    (fs : FileSystem) (al : ClientAllocs) (junk now : Z) (untune : positive -> ptr)
    (junkMsg : Message) (sleepStatus : bool) (currMode : Z) (sv : Server) : result (Z * Server) :=
  if sleepStatus then
    if negb (Z.land currMode MODE_RESUME =? 0) then
      let currMode := wrap_s 8 (Z.lor (Z.land currMode (Z.lnot MODE_RESUME)) MODE_SUSPEND) in
      '(rq, rm, q) ← moveToPendingList untune junkMsg (sv_requests sv, sv_manager sv, sv_queue sv);
      Ok (currMode, sv_set_queue q (sv_set_manager rm (sv_set_requests rq sv)))
    else Ok (currMode, sv)
  else
    if negb (Z.land currMode MODE_SUSPEND =? 0) then
      let currMode := wrap_s 8 (Z.lor (Z.land currMode (Z.lnot MODE_SUSPEND)) MODE_RESUME) in
      sv ← resubmit reg currMode maxReq lim fs al junk now (getPendingList (sv_manager sv)) sv;
      Ok (currMode, sv_set_manager (clearPending (sv_manager sv)) sv)
    else Ok (currMode, sv).
End Upkeep.

(** ** Facts *)

Definition active_live (sv : Server) : Prop :=
  forall h p st, mActiveRequests (sv_manager sv) !! h = Some (Some p, st) ->
    is_Some (sv_requests sv !! p).

(** No thread holds more than [k] handles. *)
Definition handles_bounded (k : Z) (c : ClientDataManager) : Prop :=
  forall tid d, mClientTidRepo c !! tid = Some (Some d) -> Z.of_nat (size (mClientHandles d)) <= k.

(** The thread has no data left. *)
Definition forgotten (tid : Z) (c : ClientDataManager) : Prop :=
  forall d, mClientTidRepo c !! tid <> Some (Some d).

(** What a cleanup leaves alone. *)
Definition upkeep_frame (sv sv' : Server) : Prop :=
  sv_world sv' = sv_world sv /\ sv_manager sv' = sv_manager sv /\
  mClientRepo (sv_clients sv') = mClientRepo (sv_clients sv).

Lemma upkeep_frame_trans sv1 sv2 sv3 :
  upkeep_frame sv1 sv2 -> upkeep_frame sv2 sv3 -> upkeep_frame sv1 sv3.
Proof. intros (?&?&?) (?&?&?). split_and!; congruence. Qed.

(** Room for [n] more messages. *)
Definition has_room (n : Z) (sv : Server) : Prop :=
  queue_wf (sv_queue sv) /\ mElementCount (sv_queue sv) + n <= max_s 32.

Section UpkeepFacts.
Context `{HashOrder} (untune : Z -> ptr) (junk : Message).

Lemma untune_handle_ok h n sv :
  active_live sv -> 0 <= n -> has_room (n + 1) sv ->
  exists sv', untune_handle (untune h) junk h sv = Ok sv' /\ upkeep_frame sv sv' /\
    sv_clients sv' = sv_clients sv /\ active_live sv' /\ has_room n sv'.
Proof.
  intros Ha Hn [Hq Hr]. unfold untune_handle, getRequestFromMap.
  destruct (mActiveRequests (sv_manager sv) !! h) as [[[p|] st]|] eqn:E; cbn [fst];
    try (exists sv; split; [done|]; split; [by split_and!|]; split; [done|]; split; [done|]; split; [done|lia]).
  destruct (Ha _ _ _ E) as [r Hp]. unfold request_at at 1. cbn [deref mbind result_bind]. rewrite Hp.
  cbn [of_option mbind result_bind]. destruct (untune h) as [u|].
  2: { exists sv. split; [done|]. split; [by split_and!|]. split; [done|]. split; [done|]. split; [done|lia]. }
  set (u_req := with_msg _ _). unfold enqueue, request_at. cbn [deref mbind result_bind sv_requests sv_set_requests].
  rewrite lookup_insert_eq. cbn [of_option mbind result_bind].
  assert (forall q, active_live (sv_set_queue q (sv_set_requests (<[u := u_req]> (sv_requests sv)) sv))) as Hal.
  { intros q h' p' st' E'. simpl in *. destruct (decide (p' = u)) as [->|].
    - rewrite lookup_insert_eq. eauto.
    - rewrite lookup_insert_ne by done. by eapply Ha. }
  cbn [sv_queue sv_set_requests]. destruct (Z.le_gt_cases SERVER_CLEANUP_TRIGGER_PRIORITY (getPriority (req_msg u_req))).
  - destruct (addAndWakeup_ok (QRequest u) _ _ Hq H0) as (q & -> & Hq' & Eq); [lia|].
    cbn [mbind result_bind]. eexists. split; [done|]. split; [by split_and!|]. split; [done|].
    split; [apply Hal|]. split; [done|]. destruct Hq' as [Hc _]. simpl. rewrite Hc, Eq, length_app. simpl.
    destruct Hq as [Hc' _]. lia.
  - unfold addAndWakeup. replace (_ <? _) with true by lia. cbn [mbind result_bind].
    eexists. split; [done|]. split; [by split_and!|]. split; [done|]. split; [apply Hal|].
    split; [done|]. simpl. lia.
Qed.

Lemma untune_handles_ok : forall hs n sv,
  active_live sv -> 0 <= n -> has_room (n + Z.of_nat (length hs)) sv ->
  exists sv', untune_handles untune junk hs sv = Ok sv' /\ upkeep_frame sv sv' /\
    sv_clients sv' = sv_clients sv /\ active_live sv' /\ has_room n sv'.
Proof.
  induction hs as [|h hs IH]; intros n sv Ha Hn Hr; cbn [untune_handles length] in *.
  - exists sv. split; [done|]. split; [by split_and!|]. split; [done|]. split; [done|].
    by rewrite Z.add_0_r in Hr.
  - destruct (untune_handle_ok h (n + Z.of_nat (length hs)) sv Ha) as (sv1 & -> & Hf & Hc & Ha1 & Hr1);
      [lia|by replace (_ + 1) with (n + Z.of_nat (S (length hs))) by lia|].
    cbn [mbind result_bind]. destruct (IH n sv1 Ha1 Hn Hr1) as (sv2 & -> & Hf2 & Hc2 & Ha2 & Hr2).
    exists sv2. split; [done|]. split; [by eapply upkeep_frame_trans|]. by rewrite Hc2, Hc.
Qed.

Lemma length_set_order (s : gset Z) : length (set_order s) = size s.
Proof.
  unfold set_order. rewrite length_map, length_hash_order.
  rewrite <- size_dom, dom_gset_to_gmap. done.
Qed.

Lemma cleanup_thread_ok tid k n sv :
  active_live sv -> handles_bounded k (sv_clients sv) -> 0 <= n -> has_room (n + k) sv -> 0 <= k ->
  exists sv', cleanup_thread untune junk tid sv = Ok sv' /\ upkeep_frame sv sv' /\
    active_live sv' /\ handles_bounded k (sv_clients sv') /\ has_room n sv' /\
    forgotten tid (sv_clients sv') /\
    forall t, t <> tid -> mClientTidRepo (sv_clients sv') !! t = mClientTidRepo (sv_clients sv) !! t.
Proof.
  intros Ha Hb Hn Hr Hk. unfold cleanup_thread.
  destruct (mClientTidRepo (sv_clients sv) !! tid) as [[d|]|] eqn:E.
  - rewrite (getRequests_live _ _ _ E). unfold deleteClientTID. rewrite E. cbn [deref mbind result_bind].
    set (sv1 := sv_set_clients _ sv). specialize (Hb _ _ E) as Hd.
    destruct (untune_handles_ok (set_order (mClientHandles d)) n sv1) as (sv' & -> & Hf & Hc & Ha' & Hr');
      [done|done|destruct Hr; split; [done|rewrite length_set_order; simpl; lia]|].
    exists sv'. rewrite Hc. split; [done|]. split; [exact Hf|]. split; [done|]. split; [|split; [done|split]].
    + intros t d' Et. simpl in Et. apply lookup_delete_Some in Et as [_ Et]. by eapply Hb.
    + intros d' Et. simpl in Et. by rewrite lookup_delete_eq in Et.
    + intros t Ht. simpl. by rewrite lookup_delete_ne.
  - unfold getRequestsByClientID, map_index. rewrite E. cbn [fmap option_fmap option_map].
    eexists. split; [done|]. split; [by split_and!|]. split; [done|]. split; [done|].
    split; [destruct Hr; split; [done|simpl; lia]|]. split; [|done].
    intros d' Et. simpl in Et. by rewrite E in Et.
  - unfold getRequestsByClientID, map_index. rewrite E. cbn [fmap option_fmap option_map].
    eexists. split; [done|]. split; [by split_and!|]. split; [done|]. split; [|split; [|split]].
    + intros t d' Et. simpl in Et. apply lookup_insert_Some in Et as [[_ ?]|[_ Et]]; [done|by eapply Hb].
    + destruct Hr; split; [done|simpl; lia].
    + intros d' Et. simpl in Et. by rewrite lookup_insert_eq in Et.
    + intros t Ht. simpl. by rewrite lookup_insert_ne.
Qed.

(** How many threads a cleanup of [n] more threads processes, [count] being done. *)
Definition batch_of (n batchSize count : Z) : Z := Z.min (batchSize - count) ((n - count + 1) / 2).

Lemma cleanup_loop_ok batch k : 0 <= k -> forall gc count fuel sv,
  active_live sv -> handles_bounded k (sv_clients sv) ->
  has_room (Z.of_nat (length gc) * k) sv -> (length gc <= fuel)%nat ->
  Z.of_nat (length gc) < 2 ^ 32 -> 0 <= count -> count <= batch -> count <= Z.of_nat (length gc) + 1 ->
  exists sv' m, cleanup_loop fuel batch count untune junk gc sv = Ok (drop m gc, sv') /\
    Z.of_nat m = batch_of (Z.of_nat (length gc)) batch count /\ upkeep_frame sv sv' /\
    (forall t, t ∈ take m gc -> forgotten t (sv_clients sv')) /\
    (forall t, t ∉ take m gc -> mClientTidRepo (sv_clients sv') !! t = mClientTidRepo (sv_clients sv) !! t).
Proof.
  intros Hk. induction gc as [|tid gc IH]; intros count fuel sv Ha Hb Hr Hf Hlen Hc Hcb Hcn.
  - assert (count = 0 \/ count = 1) as Hc01 by (simpl in Hcn; lia).
    exists sv, 0%nat. split; [|split; [|split; [by split_and!|split; [set_solver|done]]]].
    + destruct fuel; cbn [cleanup_loop]; (replace (count <? _) with false; [done|]);
        symmetry; apply Z.ltb_ge; change (wrap_u 32 _) with 0; lia.
    + unfold batch_of. replace ((_ - count + 1) / 2) with 0; [lia|].
      by destruct Hc01 as [-> | ->].
  - cbn [length] in *. destruct fuel as [|fuel]; [lia|]. cbn [cleanup_loop].
    rewrite wrap_u_id by (unfold in_u; cbn [length]; lia). cbn [length].
    destruct (Z.ltb_spec count (Z.min (Z.of_nat (S (length gc))) batch)) as [Hlt|Hge].
    + destruct (cleanup_thread_ok tid k (Z.of_nat (length gc) * k) sv Ha Hb) as
        (sv1 & -> & Hf1 & Ha1 & Hb1 & Hr1 & Hg1 & Ho1); [lia| |done|].
      { replace (_ + k) with (Z.of_nat (S (length gc)) * k) by lia. done. }
      cbn [mbind result_bind].
      destruct (IH (count + 1) fuel sv1 Ha1 Hb1 Hr1) as (sv' & m & -> & Hm & Hf2 & Hg2 & Ho2); try lia.
      exists sv', (S m). split; [done|]. split; [|split; [by eapply upkeep_frame_trans|split]].
      * rewrite Nat2Z.inj_succ, Hm. unfold batch_of.
        replace (Z.of_nat (S (length gc)) - count + 1) with (Z.of_nat (length gc) - (count + 1) + 1 + 1 * 2) by lia.
        rewrite Z.div_add by lia. lia.
      * intros t. cbn [take]. rewrite elem_of_cons. intros [->|Hin]; [|by apply Hg2].
        destruct (decide (tid ∈ take m gc)) as [Hin|Hnin]; [by apply Hg2|].
        intros d. rewrite Ho2 by done. apply Hg1.
      * intros t. cbn [take]. rewrite not_elem_of_cons. intros [Hne Hnin]. by rewrite Ho2, Ho1.
    + exists sv, 0%nat. split; [done|]. split; [|split; [by split_and!|split; [set_solver|done]]].
      unfold batch_of. assert ((Z.of_nat (S (length gc)) - count + 1) / 2 >= 0) by (apply Z.le_ge, Z.div_pos; lia).
      destruct (Z.le_gt_cases batch count); [lia|].
      assert (Z.of_nat (S (length gc)) - count + 1 < 2) by lia.
      rewrite (Z.div_small (Z.of_nat (S (length gc)) - count + 1)) by lia. lia.
Qed.
End UpkeepFacts.

(** The state detector's active list is never filled. *)
Definition same_active_list (rm rm' : RequestManager) : Prop := mActiveList rm' = mActiveList rm.

Lemma addRequest_active_list maxReq rq p rm c ok rm' c' :
  addRequest maxReq rq p rm c = Ok (ok, rm', c') -> same_active_list rm rm'.
Proof.
  unfold addRequest, same_active_list. destruct p; [|by intros [= _ <- _]].
  case_if; [by intros [= _ <- _]|]. intros E. inv_ok E.
  destruct (mActiveRequests rm !! _); [by injection E as _ <- _|].
  destruct (MinLRUCache_isPresent _ _); [by injection E as _ <- _|].
  inv_ok E. by simplify_eq.
Qed.

Lemma removeRequest_active_list r rm c rm' c' :
  RequestManager.removeRequest r rm c = Ok (rm', c') -> same_active_list rm rm'.
Proof.
  unfold RequestManager.removeRequest, same_active_list. destruct r; [|by intros [= <- _]].
  intros E. inv_ok E. by simplify_eq.
Qed.

(** ** Properties *)

(** Cleaning up after dead clients.  When the active requests are live and the
    queue has room, [performCleanup] never faults; from [n] queued threads it
    processes [min(batchSize, ceil(n / 2))] of them, oldest first: the loop compares its
    counter with the shrinking length of the queue, so a batch size of [n] or more
    still leaves half of them for later.  The data of the processed threads is gone, that of
    the others is untouched, and the active table and all resources stay as they
    were until the untune requests are consumed. *)
Theorem performCleanup_batch `{HashOrder} (untune : Z -> ptr) (junk : Message) (gc : GcQueue)
    (sv : Server) (batch k : Z) :
  active_live sv -> handles_bounded k (sv_clients sv) -> 0 <= k ->
  has_room (Z.of_nat (length gc) * k) sv -> Z.of_nat (length gc) < 2 ^ 32 -> 0 <= batch ->
  exists sv' m, performCleanup batch untune junk gc sv = Ok (drop m gc, sv') /\
    Z.of_nat m = Z.min batch ((Z.of_nat (length gc) + 1) / 2) /\ upkeep_frame sv sv' /\
    (forall t, t ∈ take m gc -> forgotten t (sv_clients sv')) /\
    (forall t, t ∉ take m gc -> mClientTidRepo (sv_clients sv') !! t = mClientTidRepo (sv_clients sv) !! t).
Proof.
  intros Ha Hb Hk Hr Hlen Hbatch.
  destruct (cleanup_loop_ok untune junk batch k Hk gc 0 (length gc) sv Ha Hb Hr) as (sv' & m & E & Hm & Hrest);
    try lia.
  exists sv', m. split; [exact E|]. split; [|exact Hrest].
  rewrite Hm. unfold batch_of. do 2 f_equal; [lia|f_equal; lia].
Qed.

Lemma performCleanup_batch_witness :
  let order := sorted_hash_order in
  let reg := one_resource HIGHER_BETTER APPLY_GLOBAL in
  let sv := mkServer (mkWorld (mkStore ∅ ∅ ∅) (CocoTable_init reg [] [] 8 2 0) []) ∅
    (put_tid 8 (mkTidData {[6]} 5 (d_of_Z 100)) ClientDataManager_init)
    RequestManager_init OrderedQueue_init TargetRegistry_init in
  exists sv', performCleanup 10 (fun _ => Some 9%positive) junk_msg [8; 9; 10] sv = Ok ([10], sv').
Proof.
  intros order reg sv.
  destruct (performCleanup_batch (fun _ => Some 9%positive) junk_msg [8; 9; 10] sv 10 1)
    as (sv' & m & E & Hm & _).
  - intros h p st. simpl. by rewrite lookup_empty.
  - intros tid d. simpl. rewrite lookup_insert_Some. intros [[_ [= <-]]|[_ E]].
    + vm_compute. discriminate.
    + by rewrite lookup_empty in E.
  - lia.
  - split; [by split|]. vm_compute. discriminate.
  - simpl. lia.
  - lia.
  - exists sv'. rewrite E. assert (m = 2%nat) as -> by (apply Nat2Z.inj; exact Hm). done.
Defined.

(** Suspending the device does not drain anything.  The list [moveToPendingList]
    walks is empty initially and no operation of the request manager adds to it, so the suspend
    handler only toggles the device mode: no untune request is queued, no request
    becomes pending, and resuming has nothing to submit again. *)
Theorem suspend_drains_nothing {R : Type} `{!ResourceConfigs R} (reg : R) `{HashOrder} (maxReq : Z)
    (lim : RateLimiter) (fs : FileSystem) (al : ClientAllocs) (junk now : Z)
    (untune : positive -> ptr) (junkMsg : Message) (sv : Server) :
  mActiveList RequestManager_init = ∅ /\
  (forall rq p rm c ok rm' c', addRequest maxReq rq p rm c = Ok (ok, rm', c') -> same_active_list rm rm') /\
  (forall r rm c rm' c', RequestManager.removeRequest r rm c = Ok (rm', c') -> same_active_list rm rm') /\
  (forall h rm, same_active_list rm (markRequestAsComplete h rm)) /\
  (forall h rm ok rm', disableRequestProcessing h rm = Ok (ok, rm') -> same_active_list rm rm') /\
  (mActiveList (sv_manager sv) = ∅ -> mPendingList (sv_manager sv) = ∅ ->
     onSdBusMessageReceived reg maxReq lim fs al junk now untune junkMsg true MODE_RESUME sv
       = Ok (MODE_SUSPEND, sv) /\
     onSdBusMessageReceived reg maxReq lim fs al junk now untune junkMsg false MODE_SUSPEND sv
       = Ok (MODE_RESUME, sv)).
Proof.
  split_and!.
  - done.
  - intros. by eapply addRequest_active_list.
  - intros. by eapply removeRequest_active_list.
  - intros h rm. unfold markRequestAsComplete, same_active_list. by destruct (mActiveRequests rm !! h).
  - intros h rm ok rm' E. unfold disableRequestProcessing, same_active_list in *.
    destruct (mActiveRequests rm !! h); [by injection E as _ <-|]. inv_ok E. by simplify_eq.
  - assert (forall s : gset positive, s = ∅ -> set_order s = []) as Hno.
    { intros s ->. apply nil_length_inv. unfold set_order. by rewrite length_map, length_hash_order. }
    intros Ha Hp. unfold onSdBusMessageReceived. cbn [negb Z.eqb Z.land Pos.land MODE_RESUME MODE_SUSPEND].
    split.
    + unfold moveToPendingList. rewrite (Hno _ Ha). cbn [suspend_all mbind result_bind].
      by destruct sv.
    + unfold getPendingList. rewrite (Hno _ Hp). cbn [resubmit mbind result_bind].
      unfold clearPending, set_pending. rewrite <- Hp. by destruct sv as [? ? ? [] ? ?].
Qed.

Lemma suspend_drains_nothing_witness :
  let order := sorted_hash_order in
  let reg := one_resource HIGHER_BETTER APPLY_GLOBAL in
  let sv := mkServer (mkWorld (mkStore ∅ ∅ ∅) (CocoTable_init reg [] [] 8 2 0) []) ∅
    ClientDataManager_init RequestManager_init OrderedQueue_init TargetRegistry_init in
  onSdBusMessageReceived reg 60 default_limiter empty_fs all_blocks 0 1000 (fun _ => None) junk_msg
    true MODE_RESUME sv = Ok (MODE_SUSPEND, sv).
Proof.
  intros order reg sv.
  destruct (suspend_drains_nothing reg 60 default_limiter empty_fs all_blocks 0 1000 (fun _ => None)
    junk_msg sv) as (_ & _ & _ & _ & _ & H).
  apply H; reflexivity.
Defined.
