(* ===== verification/MemoryPool.v ===== *)
(** [modula/Components/MemoryPool.cpp] and [MemoryPool.h]: pools of preallocated
    blocks of one size, and the table of pools by type.

    The free list is the sequence of its blocks, oldest first; a node of the allocated
    list has no block, so that list is the number of its nodes.  [std::bad_alloc]
    leaving [getBlock] is [None].  The result of each [new] is an argument. *)
From S2P Require Import Prelude.
Open Scope list_scope.
Open Scope Z_scope.

Abbreviation block := positive.

Record MemoryPool := mkPool {
  mFreeList : list block;
  mAllocatedNodes : nat;
  mfreeBlocks : Z;
  mBlockSize : Z
}.

Definition MemoryPool_init (blockSize : Z) : MemoryPool := mkPool [] 0 0 blockSize.

(** [news]: what [new] returns for the node and block of each iteration, [None] when
    either fails; an iteration beyond the list fails. *)
Fixpoint addNodesToFreeList (n : nat) (news : list (option block)) (allocatedCount : Z)
    (p : MemoryPool) : Z * MemoryPool :=
  match n, news with
  | S n, Some b :: news =>
    addNodesToFreeList n news (allocatedCount + 1)
      (mkPool (mFreeList p ++ [b]) (mAllocatedNodes p) (mfreeBlocks p) (mBlockSize p))
  | _, _ => (allocatedCount, p)
  end.

(** The count asked for is added, however many blocks were obtained. *)
Definition makeAllocation (blockCount : Z) (news : list (option block)) (p : MemoryPool)
  : result (Z * MemoryPool) :=
  let '(blocksAllocated, p) := addNodesToFreeList (Z.to_nat blockCount) news 0 p in
  free ← chk_s 32 (mfreeBlocks p + blockCount);
  Ok (blocksAllocated, mkPool (mFreeList p) (mAllocatedNodes p) free (mBlockSize p)).

Definition getBlock (p : MemoryPool) : result (option block * MemoryPool) :=
  if mfreeBlocks p =? 0 then Ok (None, p) else
  match mFreeList p with
  | [] => Fault NullDeref
  | b :: rest =>
    free ← chk_s 32 (mfreeBlocks p - 1);
    Ok (Some b, mkPool rest (S (mAllocatedNodes p)) free (mBlockSize p))
  end.

(** Nothing checks that [block] came from this pool, nor that it is not free already. *)
Definition freeBlock (b : option block) (p : MemoryPool) : result MemoryPool :=
  match b with
  | None => Ok p
  | Some b =>
    match mAllocatedNodes p with
    | O => Ok p
    | S n =>
      free ← chk_s 32 (mfreeBlocks p + 1);
      Ok (mkPool (mFreeList p ++ [b]) n free (mBlockSize p))
    end
  end.

(** ** PoolWrapper: pools by type, named by the type's name *)
Definition PoolWrapper : Type := gmap string MemoryPool.

Definition getMemoryPool (typeIndex : string) (w : PoolWrapper) : option MemoryPool := w !! typeIndex.

Definition wrapper_makeAllocation (blockCount blockSize : Z) (typeIndex : string)
    (news : list (option block)) (w : PoolWrapper) : result (Z * PoolWrapper) :=
  if blockCount <=? 0 then Ok (0, w) else
  let p := default (MemoryPool_init blockSize) (getMemoryPool typeIndex w) in
  '(n, p) ← makeAllocation blockCount news p;
  Ok (n, <[typeIndex := p]> w).

Definition wrapper_getBlock (typeIndex : string) (w : PoolWrapper)
  : result (option block * PoolWrapper) :=
  match getMemoryPool typeIndex w with
  | None => Ok (None, w)
  | Some p => '(b, p) ← getBlock p; Ok (b, <[typeIndex := p]> w)
  end.

Definition wrapper_freeBlock (typeIndex : string) (b : option block) (w : PoolWrapper)
  : result PoolWrapper :=
  match b with
  | None => Ok w
  | Some _ =>
    match getMemoryPool typeIndex w with
    | None => Ok w
    | Some p => p ← freeBlock b p; Ok (<[typeIndex := p]> w)
    end
  end.

(** ** Clients of one pool *)
Inductive PoolOp := OpGet | OpFree (b : block).

(** The blocks clients hold, in the order they were handed out. *)
Definition pool_step (op : PoolOp) (st : MemoryPool * list block)
  : result (option block * (MemoryPool * list block)) :=
  let '(p, held) := st in
  match op with
  | OpGet => '(b, p) ← getBlock p; Ok (b, (p, held ++ from_option (fun b => [b]) [] b))
  | OpFree b => p ← freeBlock (Some b) p; Ok (None, (p, filter (fun c => c <> b) held))
  end.

Fixpoint pool_run (ops : list PoolOp) (st : MemoryPool * list block)
  : result (list (option block) * (MemoryPool * list block)) :=
  match ops with
  | [] => Ok ([], st)
  | op :: ops =>
    '(o, st) ← pool_step op st;
    '(os, st) ← pool_run ops st;
    Ok (o :: os, st)
  end.

(** Clients free only blocks they hold. *)
Fixpoint disciplined (ops : list PoolOp) (free held : list block) : Prop :=
  match ops with
  | [] => True
  | OpGet :: ops =>
    match free with
    | [] => disciplined ops [] held
    | b :: free => disciplined ops free (held ++ [b])
    end
  | OpFree b :: ops => b ∈ held /\ disciplined ops (free ++ [b]) (filter (fun c => c <> b) held)
  end.

(** The specification: a queue of free blocks. *)
Fixpoint queue_run (ops : list PoolOp) (free : list block) : list (option block) :=
  match ops with
  | [] => []
  | OpGet :: ops =>
    match free with
    | [] => None :: queue_run ops []
    | b :: free => Some b :: queue_run ops free
    end
  | OpFree b :: ops => None :: queue_run ops (free ++ [b])
  end.

(** ** Facts *)
Record pool_ok (p : MemoryPool) (held : list block) : Prop := {
  pk_free : mfreeBlocks p = Z.of_nat (length (mFreeList p));
  pk_alloc : mAllocatedNodes p = length held;
  pk_nodup : NoDup (mFreeList p ++ held);
  pk_size : Z.of_nat (length (mFreeList p ++ held)) <= max_s 32
}.

Lemma length_filter_ne (b : block) held :
  NoDup held -> b ∈ held -> S (length (filter (fun c => c <> b) held)) = length held.
Proof.
  induction held as [|c held IH]; [set_solver|]. intros Hnd Hin.
  apply NoDup_cons in Hnd as [Hnin Hnd]. rewrite filter_cons. case_decide as Hc.
  - simpl. f_equal. apply IH; [done|]. apply elem_of_cons in Hin as [->|]; [done|done].
  - assert (c = b) as -> by (by destruct (decide (c = b))). simpl. f_equal.
    assert (filter (fun c => c <> b) held = held) as ->; [|done].
    clear -Hnin. induction held as [|c held IH]; [done|]. rewrite filter_cons_True by set_solver.
    f_equal. apply IH. set_solver.
Qed.

Lemma filter_ne_perm (b : block) held :
  NoDup held -> b ∈ held -> held ≡ₚ b :: filter (fun c => c <> b) held.
Proof.
  intros Hnd Hin. apply NoDup_Permutation; [done| |].
  - apply NoDup_cons. split; [by rewrite list_elem_of_filter; intros [? _]|by apply NoDup_filter].
  - intros x. rewrite elem_of_cons, list_elem_of_filter. destruct (decide (x = b)) as [->|]; naive_solver.
Qed.

Lemma pool_step_ok op p held :
  pool_ok p held -> (match op with OpGet => True | OpFree b => b ∈ held end) ->
  exists o p' held', pool_step op (p, held) = Ok (o, (p', held')) /\ pool_ok p' held' /\
    match op with
    | OpGet => o = head (mFreeList p) /\ mFreeList p' = tail (mFreeList p) /\
               held' = held ++ from_option (fun b => [b]) [] (head (mFreeList p))
    | OpFree b => o = None /\ mFreeList p' = mFreeList p ++ [b] /\ held' = filter (fun c => c <> b) held
    end.
Proof.
  intros Hok Hop. pose proof Hok as [Hf Ha Hn Hs]. unfold max_s in *. destruct op as [|b]; cbn [pool_step].
  - unfold getBlock. destruct (mFreeList p) as [|b free] eqn:El.
    + rewrite Hf. cbn [length Z.of_nat Z.eqb mbind result_bind from_option head tail].
      exists None, p, held. rewrite app_nil_r.
      split; [simpl; by rewrite app_nil_r|]. split; [done|]. by split_and!.
    + rewrite Hf. replace (Z.of_nat (length (b :: free)) =? 0) with false by (symmetry; apply Z.eqb_neq; cbn [length]; lia).
      rewrite length_app in Hs. cbn [length] in *.
      rewrite chk_s_ok by (unfold in_s; lia). cbn [mbind result_bind].
      eexists _, _, _. split; [done|]. split; [|done]. split; simpl; [lia|rewrite length_app; simpl; lia| |].
      * rewrite app_assoc, (Permutation_app_comm (free ++ held) [b]). done.
      * rewrite !length_app. unfold max_s. simpl. lia.
  - unfold freeBlock. apply NoDup_app in Hn as (Hnf & Hdis & Hnh).
    pose proof (length_filter_ne b held Hnh Hop) as Hlen. rewrite Ha, <- Hlen.
    rewrite length_app in Hs. rewrite chk_s_ok by (unfold in_s; lia). cbn [mbind result_bind].
    eexists _, _, _. split; [done|]. split; [|done]. split; simpl.
    + rewrite length_app. simpl. lia.
    + done.
    + rewrite <- app_assoc. simpl. rewrite <- filter_ne_perm by done. apply NoDup_app. by split_and!.
    + rewrite !length_app. unfold max_s. simpl. lia.
Qed.

Lemma pool_run_ok : forall ops p held,
  pool_ok p held -> disciplined ops (mFreeList p) held ->
  exists p' held', pool_run ops (p, held) = Ok (queue_run ops (mFreeList p), (p', held')) /\
    pool_ok p' held'.
Proof.
  induction ops as [|op ops IH]; intros p held Hok Hd; cbn [pool_run].
  - by exists p, held.
  - destruct (pool_step_ok op p held Hok) as (o & p' & held' & -> & Hok' & Hop).
    { destruct op; [done|apply Hd]. }
    cbn [mbind result_bind].
    assert (disciplined ops (mFreeList p') held' /\
      queue_run (op :: ops) (mFreeList p) = o :: queue_run ops (mFreeList p')) as [Hd' Eq].
    { destruct op as [|b]; cbn [disciplined queue_run] in *.
      - destruct Hop as (-> & -> & ->). destruct (mFreeList p); simpl in *; [by rewrite app_nil_r|done].
      - destruct Hop as (-> & -> & ->). by destruct Hd. }
    destruct (IH p' held' Hok' Hd') as (p2 & held2 & -> & Hok2). cbn [mbind result_bind].
    exists p2, held2. by rewrite Eq.
Qed.

Lemma addNodes_all : forall bs n c p, n = length bs ->
  addNodesToFreeList n (map Some bs) c p =
    (c + Z.of_nat n, mkPool (mFreeList p ++ bs) (mAllocatedNodes p) (mfreeBlocks p) (mBlockSize p)).
Proof.
  induction bs as [|b bs IH]; intros n c p ->; simpl.
  - rewrite app_nil_r, Z.add_0_r. by destruct p.
  - rewrite IH by done. cbn [mFreeList mAllocatedNodes mfreeBlocks mBlockSize]. rewrite <- app_assoc.
    f_equal. lia.
Qed.

(** ** Properties *)

(** C40: blocks have one owner.  A pool filled with [n] different blocks behaves as a
    first-in first-out queue of them, as long as clients free only blocks they hold:
    no operation faults, [getBlock] throws exactly when no block is free, the blocks
    held and free are pairwise different at all times, and the counter is exact. *)
Theorem MemoryPool_ownership (bs : list block) (size : Z) (ops : list PoolOp) :
  NoDup bs -> Z.of_nat (length bs) <= max_s 32 -> disciplined ops bs [] ->
  exists p p' held, makeAllocation (Z.of_nat (length bs)) (map Some bs) (MemoryPool_init size)
      = Ok (Z.of_nat (length bs), p) /\
    pool_run ops (p, []) = Ok (queue_run ops bs, (p', held)) /\
    NoDup (mFreeList p' ++ held) /\ mfreeBlocks p' = Z.of_nat (length (mFreeList p')).
Proof.
  intros Hnd Hlen Hd. unfold makeAllocation. rewrite Nat2Z.id, (addNodes_all bs _ 0 _ eq_refl).
  cbn [MemoryPool_init mFreeList mfreeBlocks mAllocatedNodes mBlockSize app].
  rewrite chk_s_ok by (unfold in_s, max_s in *; lia). cbn [mbind result_bind].
  set (p := mkPool bs 0 _ _).
  assert (pool_ok p []) as Hok.
  { split; simpl; rewrite ?app_nil_r; done || lia. }
  destruct (pool_run_ok ops p [] Hok Hd) as (p' & held & E & Hok').
  exists p, p', held. split; [done|]. split; [exact E|]. split; apply Hok'.
Qed.

Lemma MemoryPool_ownership_witness :
  exists p p' held, makeAllocation 2 [Some 1%positive; Some 2%positive] (MemoryPool_init 64) = Ok (2, p) /\
    pool_run [OpGet; OpGet; OpGet; OpFree 1; OpGet] (p, []) =
      Ok ([Some 1%positive; Some 2%positive; None; None; Some 1%positive], (p', held)).
Proof.
  destruct (MemoryPool_ownership [1%positive; 2%positive] 64 [OpGet; OpGet; OpGet; OpFree 1; OpGet])
    as (p & p' & held & E1 & E2 & _).
  - apply (bool_decide_unpack _). vm_compute. exact I.
  - vm_compute. discriminate.
  - simpl. set_solver.
  - exists p, p', held. split; [exact E1|exact E2].
Defined.

Lemma pool_run_gets : forall bs p held,
  mFreeList p = bs -> Z.of_nat (length bs) <= mfreeBlocks p <= max_s 32 ->
  exists p' held', pool_run (replicate (length bs) OpGet) (p, held) = Ok (map Some bs, (p', held')) /\
    mFreeList p' = [] /\ mfreeBlocks p' = mfreeBlocks p - Z.of_nat (length bs).
Proof.
  induction bs as [|b bs IH]; intros p held E Hn; cbn [length replicate pool_run map] in *.
  - exists p, held. split_and!; try done. lia.
  - cbn [pool_step]. unfold getBlock. rewrite E. replace (_ =? 0) with false by lia.
    rewrite chk_s_ok by (unfold in_s, max_s in *; lia). cbn [mbind result_bind].
    set (p1 := mkPool bs _ _ _).
    destruct (IH p1 (held ++ from_option (fun b => [b]) [] (Some b)) eq_refl) as (p' & h' & -> & Ef & En);
      [simpl; lia|].
    cbn [mbind result_bind]. exists p', h'. split_and!; try done. rewrite En. simpl. lia.
Qed.

Lemma addNodes_short : forall bs n c p, (length bs < n)%nat ->
  addNodesToFreeList n (map Some bs ++ [None]) c p =
    (c + Z.of_nat (length bs),
     mkPool (mFreeList p ++ bs) (mAllocatedNodes p) (mfreeBlocks p) (mBlockSize p)).
Proof.
  induction bs as [|b bs IH]; intros [|n] c p Hn; simpl in *; try lia.
  - rewrite app_nil_r, Z.add_0_r. by destruct p.
  - rewrite IH by lia. cbn [mFreeList mAllocatedNodes mfreeBlocks mBlockSize]. rewrite <- app_assoc.
    f_equal. lia.
Qed.

(** What the pool does not check.  When memory runs out after [k] of the [n]
    blocks asked for, the counter still says [n]: once the [k] blocks are handed out,
    the next request dereferences a null pointer instead of throwing.  And a block
    that is freed twice is later handed out to two clients. *)
Theorem MemoryPool_unchecked (bs : list block) (n size : Z) (b1 b2 : block) :
  Z.of_nat (length bs) < n -> n <= max_s 32 ->
  (exists p p' held, makeAllocation n (map Some bs ++ [None]) (MemoryPool_init size) =
       Ok (Z.of_nat (length bs), p) /\
     pool_run (replicate (length bs) OpGet) (p, []) = Ok (map Some bs, (p', held)) /\
     getBlock p' = Fault NullDeref) /\
  (exists p outs p' held, makeAllocation 2 [Some b1; Some b2] (MemoryPool_init size) = Ok (2, p) /\
     pool_run [OpGet; OpGet; OpFree b1; OpFree b1; OpGet; OpGet] (p, []) = Ok (outs, (p', held)) /\
     outs = [Some b1; Some b2; None; None; Some b1; Some b1]).
Proof.
  intros Hlen Hn. split.
  - unfold makeAllocation. rewrite addNodes_short by lia.
    cbn [MemoryPool_init mFreeList mfreeBlocks mAllocatedNodes mBlockSize app].
    rewrite chk_s_ok by (unfold in_s, max_s in *; lia). cbn [mbind result_bind].
    set (p := mkPool bs 0 _ _).
    destruct (pool_run_gets bs p [] eq_refl) as (p' & held & E & Ef & En); [simpl; lia|].
    exists p, p', held. split; [done|]. split; [exact E|]. unfold getBlock. rewrite Ef, En.
    simpl. by replace (_ =? 0) with false by lia.
  - eexists _, _, _, _. split; [reflexivity|]. split; reflexivity.
Qed.

Lemma MemoryPool_unchecked_witness :
  exists p p' held, makeAllocation 3 [Some 5%positive; None] (MemoryPool_init 64) = Ok (1, p) /\
    pool_run [OpGet] (p, []) = Ok ([Some 5%positive], (p', held)) /\ getBlock p' = Fault NullDeref.
Proof.
  destruct (MemoryPool_unchecked [5%positive] 3 64 1 2) as [(p & p' & held & E1 & E2 & E3) _].
  - simpl. lia.
  - vm_compute. discriminate.
  - exists p, p', held. split; [exact E1|]. split; [exact E2|exact E3].
Defined.
