(* ===== verification/ThreadPool.v ===== *)
(** [modula/Components/ThreadPool.cpp] and [ThreadPool.h]: the pool of worker threads that runs
    the handling of requests and the timers.

    The operations under the mutex of the pool are functions; the threads are a list of
    workers, and a step of the system is one of these critical sections, a wake-up, a
    time-out, or the end of a task.  A worker that waits on the condition variable runs
    again only once it was notified (or timed out), so that a lost wake-up would show. *)
From S2P Require Import Prelude UrmTypes.
Open Scope list_scope.
Open Scope Z_scope.

(** ** TaskQueue *)

(** A callback ([std::function], null when empty) and its argument. *)
Record TaskNode := mkTaskNode {
  taskCallback : option positive;
  args : Z;
  next : option positive
}.
Abbreviation Nodes := (gmap positive TaskNode).

Definition set_next (p : option positive) (n : TaskNode) : TaskNode :=
  mkTaskNode (taskCallback n) (args n) p.

Record TaskQueue := mkTaskQueue {
  tq_size : Z;
  tq_head : option positive;
  tq_tail : option positive
}.
Definition TaskQueue_init : TaskQueue := mkTaskQueue 0 None None.

Definition TaskQueue_add (taskNode : option positive) (h : Nodes) (q : TaskQueue)
  : result (Nodes * TaskQueue) :=
  match taskNode with
  | None => Ok (h, q)
  | Some p =>
    '(h, head, tail) ←
      match tq_head q with
      | None => Ok (h, Some p, Some p)
      | Some hd =>
        t ← deref (tq_tail q);
        n ← of_option WildPtr (h !! t);
        Ok (<[t := set_next (Some p) n]> h, Some hd, Some p)
      end;
    size ← chk_s 32 (tq_size q + 1);
    Ok (h, mkTaskQueue size head tail)
  end.

Definition TaskQueue_poll (h : Nodes) (q : TaskQueue) : result (option positive * TaskQueue) :=
  if tq_size q >? 0 then
    match tq_head q with
    | None => Ok (None, q)
    | Some p =>
      n ← of_option WildPtr (h !! p);
      let head := next n in
      Ok (Some p, mkTaskQueue (tq_size q - 1) head
                    (match head with None => None | Some _ => tq_tail q end))
    end
  else Ok (None, q).

Definition TaskQueue_isEmpty (q : TaskQueue) : bool := tq_size q =? 0.
Definition TaskQueue_getSize (q : TaskQueue) : Z := tq_size q.

(** ** ThreadPool *)
Definition maxLoadPerThread : Z := 3.

Record ThreadPool := mkPool {
  mDesiredPoolCapacity : Z;
  mMaxPoolCapacity : Z;
  mCurrentThreadsCount : Z;
  mTerminatePool : bool;
  mCurrentTasks : TaskQueue;
  nodes : Nodes
}.

Definition with_tasks (h : Nodes) (q : TaskQueue) (p : ThreadPool) : ThreadPool :=
  mkPool (mDesiredPoolCapacity p) (mMaxPoolCapacity p) (mCurrentThreadsCount p)
    (mTerminatePool p) q h.
Definition with_count (n : Z) (p : ThreadPool) : ThreadPool :=
  mkPool (mDesiredPoolCapacity p) (mMaxPoolCapacity p) n (mTerminatePool p) (mCurrentTasks p)
    (nodes p).

(** The constructor: [created] tells, thread by thread, whether it could be created. *)
Definition ThreadPool_init (desiredCapacity maxCapacity : Z) (created : nat -> bool) : ThreadPool :=
  let maxCapacity := if maxCapacity <? desiredCapacity then desiredCapacity else maxCapacity in
  let count := Z.of_nat (length (List.filter created (seq 0 (Z.to_nat desiredCapacity)))) in
  mkPool count maxCapacity count false TaskQueue_init ∅.

(** [alloc]: the address of the new node, when both blocks could be had. *)
Definition createTaskNode (alloc : option positive) (callback args : _) (h : Nodes)
  : option (positive * Nodes) :=
  match alloc with
  | None => None
  | Some a => Some (a, <[a := mkTaskNode (Some callback) args None]> h)
  end.

(** The outcome: accepted, and whether a new thread was started. *)
Definition enqueueTask (alloc : option positive) (newThread : bool) (callback : option positive)
    (args : Z) (p : ThreadPool) : result (bool * bool * ThreadPool) :=
  match callback with
  | None => Ok (false, false, p)
  | Some cb =>
    load ← chk_s 32 (maxLoadPerThread * mCurrentThreadsCount p);
    if TaskQueue_getSize (mCurrentTasks p) <=? load then
      match createTaskNode alloc cb args (nodes p) with
      | None => Ok (false, false, p)
      | Some (a, h) =>
        '(h, q) ← TaskQueue_add (Some a) h (mCurrentTasks p);
        Ok (true, false, with_tasks h q p)
      end
    else if mCurrentThreadsCount p <? mMaxPoolCapacity p then
      match createTaskNode alloc cb args (nodes p) with
      | None => Ok (false, false, p)
      | Some (a, h) =>
        let p := if newThread then with_count (mCurrentThreadsCount p + 1) p else p in
        '(h, q) ← TaskQueue_add (Some a) h (mCurrentTasks p);
        Ok (true, newThread, with_tasks h q p)
      end
    else Ok (false, false, p)
  end.

(** What a thread does next, once it holds the mutex. *)
Inductive Verdict :=
  | Wait                                    (* no task: block on the condition *)
  | Stop                                    (* the pool is terminated *)
  | Run (node callback : positive) (args : Z)
  | Again.                                  (* nothing to run: back to the loop *)

(** [threadRoutineHelper] from the check after the wait to the unlocking. *)
Definition after_wait (p : ThreadPool) : result (Verdict * ThreadPool) :=
  if mTerminatePool p then Ok (Stop, p) else
  '(taskNode, q) ←
    (if TaskQueue_getSize (mCurrentTasks p) >? 0 then TaskQueue_poll (nodes p) (mCurrentTasks p)
     else Ok (None, mCurrentTasks p));
  let p := with_tasks (nodes p) q p in
  match taskNode with
  | None => Ok (Again, p)
  | Some a =>
    n ← of_option WildPtr (nodes p !! a);
    Ok (match taskCallback n with Some cb => Run a cb (args n) | None => Again end, p)
  end.

(** Its beginning: the first check for pending tasks. *)
Definition enter (p : ThreadPool) : result (Verdict * ThreadPool) :=
  if negb (mTerminatePool p) && (TaskQueue_getSize (mCurrentTasks p) =? 0)
  then Ok (Wait, p) else after_wait p.

(** The predicate of both waits. *)
Definition can_continue (p : ThreadPool) : bool :=
  (TaskQueue_getSize (mCurrentTasks p) >? 0) || mTerminatePool p.

(** An expandable thread whose wait timed out with the predicate false leaves the pool. *)
Definition timed_out (p : ThreadPool) : ThreadPool := with_count (mCurrentThreadsCount p - 1) p.

Definition free_task (a : positive) (p : ThreadPool) : ThreadPool :=
  with_tasks (delete a (nodes p)) (mCurrentTasks p) p.

Definition terminate (p : ThreadPool) : ThreadPool :=
  mkPool (mDesiredPoolCapacity p) (mMaxPoolCapacity p) (mCurrentThreadsCount p) true
    (mCurrentTasks p) (nodes p).

(** ** Threads *)
Inductive Status :=
  | Ready                   (* about to take the mutex *)
  | Waiting                 (* blocked on the condition variable *)
  | Notified                (* woken, about to test the predicate *)
  | Running (node callback : positive) (args : Z)
  | Exited.

Record Worker := mkWorker { isCoreThread : bool; status : Status }.

Record System := mkSystem {
  pool : ThreadPool;
  workers : list Worker;
  accepted : list (positive * Z);     (* tasks accepted, in order *)
  started : list (positive * Z)       (* tasks begun, in order *)
}.

Definition set_status (i : nat) (s : Status) (ws : list Worker) : list Worker :=
  alter (fun w => mkWorker (isCoreThread w) s) i ws.

(** Carrying out a verdict for worker [i]. *)
Definition apply_verdict (i : nat) (v : Verdict) (p : ThreadPool) (y : System) : System :=
  match v with
  | Wait => mkSystem p (set_status i Waiting (workers y)) (accepted y) (started y)
  | Stop => mkSystem p (set_status i Exited (workers y)) (accepted y) (started y)
  | Again => mkSystem p (set_status i Ready (workers y)) (accepted y) (started y)
  | Run a cb x =>
    mkSystem p (set_status i (Running a cb x) (workers y)) (accepted y) (started y ++ [(cb, x)])
  end.

(** [notify_one] wakes a waiting worker, if there is one. *)
Inductive notify_one (ws : list Worker) : list Worker -> Prop :=
  | notify_some i c : ws !! i = Some (mkWorker c Waiting) ->
      notify_one ws (set_status i Notified ws)
  | notify_none : Forall (fun w => status w <> Waiting) ws -> notify_one ws ws.

Definition notify_all (ws : list Worker) : list Worker :=
  map (fun w => match status w with
                | Waiting => mkWorker (isCoreThread w) Notified
                | _ => w end) ws.

Inductive step (y : System) : System -> Prop :=
  | step_enqueue alloc newThread cb x grown p ws :
      (forall a, alloc = Some a -> nodes (pool y) !! a = None) ->
      enqueueTask alloc newThread (Some cb) x (pool y) = Ok (true, grown, p) ->
      notify_one (if grown : bool then workers y ++ [mkWorker false Ready] else workers y) ws ->
      step y (mkSystem p ws (accepted y ++ [(cb, x)]) (started y))
  | step_enter i c v p :
      workers y !! i = Some (mkWorker c Ready) -> enter (pool y) = Ok (v, p) ->
      step y (apply_verdict i v p y)
  | step_wake i c v p :
      workers y !! i = Some (mkWorker c Notified) ->
      (if can_continue (pool y) then after_wait (pool y) else Ok (Wait, pool y)) = Ok (v, p) ->
      step y (apply_verdict i v p y)
  | step_timeout i v p :
      workers y !! i = Some (mkWorker false Waiting) ->
      (if can_continue (pool y) then after_wait (pool y) else Ok (Stop, timed_out (pool y))) = Ok (v, p) ->
      step y (apply_verdict i v p y)
  | step_finish i c a cb x :
      workers y !! i = Some (mkWorker c (Running a cb x)) ->
      step y (mkSystem (free_task a (pool y)) (set_status i Ready (workers y))
                (accepted y) (started y))
  | step_throw i c a cb x :
      workers y !! i = Some (mkWorker c (Running a cb x)) ->
      step y (mkSystem (pool y) (set_status i Exited (workers y)) (accepted y) (started y))
  | step_spurious i c :
      workers y !! i = Some (mkWorker c Waiting) ->
      step y (mkSystem (pool y) (set_status i Notified (workers y)) (accepted y) (started y))
  | step_terminate :
      step y (mkSystem (terminate (pool y)) (notify_all (workers y)) (accepted y) (started y)).

(** The steps a thread makes by itself: it takes the mutex, it goes on after having been notified, it ends
    its task.  No time-out, no spurious wake-up, no failing task, nothing from outside. *)
Inductive thread_step (y : System) : System -> Prop :=
  | thread_enter i c v p :
      workers y !! i = Some (mkWorker c Ready) -> enter (pool y) = Ok (v, p) ->
      thread_step y (apply_verdict i v p y)
  | thread_wake i c v p :
      workers y !! i = Some (mkWorker c Notified) ->
      (if can_continue (pool y) then after_wait (pool y) else Ok (Wait, pool y)) = Ok (v, p) ->
      thread_step y (apply_verdict i v p y)
  | thread_finish i c a cb x :
      workers y !! i = Some (mkWorker c (Running a cb x)) ->
      thread_step y (mkSystem (free_task a (pool y)) (set_status i Ready (workers y))
                      (accepted y) (started y)).

Lemma thread_step_step y y' : thread_step y y' -> step y y'.
Proof.
  destruct 1; [by eapply step_enter|by eapply step_wake|by eapply step_finish].
Qed.

(** A new pool: one core thread for each that could be created. *)
Definition System_init (desiredCapacity maxCapacity : Z) (created : nat -> bool) : System :=
  let p := ThreadPool_init desiredCapacity maxCapacity created in
  mkSystem p (replicate (Z.to_nat (mCurrentThreadsCount p)) (mkWorker true Ready)) [] [].

Definition reachable (desired max : Z) (created : nat -> bool) (y : System) : Prop :=
  rtc step (System_init desired max created) y.

(** ** The queue as a sequence of nodes *)
Fixpoint chain (h : Nodes) (qs : list positive) : Prop :=
  match qs with
  | [] => True
  | a :: qs => (exists n, h !! a = Some n /\ next n = head qs) /\ chain h qs
  end.

Record tq_rep (h : Nodes) (q : TaskQueue) (qs : list positive) : Prop := {
  tr_size : tq_size q = Z.of_nat (length qs);
  tr_head : tq_head q = head qs;
  tr_tail : tq_tail q = last qs;
  tr_chain : chain h qs;
  tr_nodup : NoDup qs
}.

(** What a node is to run. *)
Definition task_of (h : Nodes) (a : positive) : option (positive * Z) :=
  n ← h !! a; cb ← taskCallback n; Some (cb, args n).

Lemma chain_frame h h' qs : (forall a, a ∈ qs -> h' !! a = h !! a) -> chain h qs -> chain h' qs.
Proof.
  induction qs as [|a qs IH]; [done|]. intros Hf [(n & Hn & Hnx) Hc]. split.
  - exists n. rewrite Hf by (by left). done.
  - apply IH; [|done]. intros b Hb. apply Hf. by right.
Qed.

Lemma chain_snoc h a n : forall qs t m, NoDup (qs ++ [t]) -> a ∉ qs ++ [t] ->
  chain h (qs ++ [t]) -> h !! t = Some m -> h !! a = Some n -> next n = None ->
  chain (<[t := set_next (Some a) m]> h) (qs ++ [t; a]).
Proof.
  induction qs as [|b qs IH]; intros t m Hnd Ha Hc Ht Hn Hnx; simpl in *.
  - split; [eexists; by rewrite lookup_insert_eq|]. split; [|done]. exists n.
    rewrite lookup_insert_ne by set_solver. done.
  - apply NoDup_cons in Hnd as [Hb Hnd]. destruct Hc as [(nb & Hnb & Hnxb) Hc]. split.
    + exists nb. rewrite lookup_insert_ne by set_solver. split; [done|]. rewrite Hnxb.
      by destruct qs.
    + apply IH; try done. set_solver.
Qed.

Lemma TaskQueue_add_spec h q qs a n :
  tq_rep h q qs -> h !! a = Some n -> next n = None -> a ∉ qs -> Z.of_nat (length qs) < max_s 32 ->
  exists h' q', TaskQueue_add (Some a) h q = Ok (h', q') /\ tq_rep h' q' (qs ++ [a]) /\
    (forall b, task_of h' b = task_of h b) /\ (forall b, is_Some (h' !! b) <-> is_Some (h !! b)).
Proof.
  intros [Hs Hh Ht Hc Hnd] Ha Hn Hnin Hlen. unfold TaskQueue_add. rewrite Hh, Ht, Hs.
  assert (chk_s 32 (Z.of_nat (length qs) + 1) = Ok (Z.of_nat (length (qs ++ [a])))) as Echk.
  { rewrite chk_s_ok; [|unfold in_s, max_s in *; simpl in *; lia]. rewrite length_app. simpl. f_equal. lia. }
  assert (NoDup (qs ++ [a])) as Hnd'.
  { apply NoDup_app. split_and!; [done|set_solver|apply NoDup_singleton]. }
  rewrite Echk. destruct qs as [|b qs0] using rev_ind.
  - exists h, (mkTaskQueue 1 (Some a) (Some a)).
    split_and!; [done| |done|done]. split; try done. simpl. eauto.
  - clear IHqs0. rewrite last_snoc. assert (exists hd, head (qs0 ++ [b]) = Some hd) as [hd Hhd].
    { destruct qs0; simpl; eauto. }
    rewrite Hhd. cbn [mbind result_bind deref of_option].
    assert (exists m, h !! b = Some m) as [m Hm].
    { clear - Hc. induction qs0 as [|x qs0 IH]; simpl in Hc; [naive_solver|]. apply IH, Hc. }
    rewrite Hm. cbn [mbind result_bind of_option].
    eexists _, _. split_and!; [done| | |].
    + split; simpl; [done|by destruct qs0|by rewrite last_snoc| |done].
      rewrite <- app_assoc. eapply chain_snoc; done.
    + intros x. unfold task_of. destruct (decide (x = b)) as [->|Hne].
      * by rewrite lookup_insert_eq, Hm.
      * by rewrite lookup_insert_ne.
    + intros x. destruct (decide (x = b)) as [->|Hne].
      * rewrite lookup_insert_eq, Hm. split; eauto.
      * by rewrite lookup_insert_ne.
Qed.

Lemma TaskQueue_poll_spec h q a qs :
  tq_rep h q (a :: qs) ->
  exists q', TaskQueue_poll h q = Ok (Some a, q') /\ tq_rep h q' qs.
Proof.
  intros [Hs Hh Ht [(n & Hn & Hnx) Hc] Hnd]. unfold TaskQueue_poll. rewrite Hs, Hh.
  rewrite Z.gtb_ltb. replace (0 <? Z.of_nat (length (a :: qs))) with true by (symmetry; apply Z.ltb_lt; rewrite length_cons; lia). simpl.
  rewrite Hn. simpl. eexists. split; [done|]. apply NoDup_cons in Hnd as [_ Hnd].
  split; simpl; [simpl; lia|done| |done|done]. rewrite Hnx, Ht. by destruct qs.
Qed.

(** ** Workers *)
Definition running_node (w : Worker) : option positive :=
  match status w with Running a _ _ => Some a | _ => None end.
Definition running_nodes (ws : list Worker) : list positive := omap running_node ws.

Definition is_waiting (w : Worker) : bool := match status w with Waiting => true | _ => false end.
Definition is_awake (w : Worker) : bool :=
  match status w with Ready | Notified => true | _ => false end.
Definition is_alive (w : Worker) : bool := match status w with Exited => false | _ => true end.
Definition count (f : Worker -> bool) (ws : list Worker) : Z := Z.of_nat (length (List.filter f ws)).

Lemma set_status_split ws i w s :
  ws !! i = Some w ->
  exists l r, ws = l ++ w :: r /\ set_status i s ws = l ++ mkWorker (isCoreThread w) s :: r.
Proof.
  intros Hi. exists (take i ws), (drop (S i) ws). split; [by rewrite take_drop_middle|].
  unfold set_status. rewrite <- (take_drop_middle ws i w Hi) at 1.
  pose proof (lookup_lt_Some _ _ _ Hi). rewrite alter_app_r_alt by (rewrite length_take; lia).
  rewrite length_take. by replace (i - i `min` length ws)%nat with O by lia.
Qed.

Lemma count_app f l r : count f (l ++ r) = count f l + count f r.
Proof. unfold count. rewrite List.filter_app, length_app. lia. Qed.
Lemma count_cons f w ws : count f (w :: ws) = (if f w then 1 else 0) + count f ws.
Proof. unfold count. simpl. destruct (f w); simpl; lia. Qed.
Lemma count_nil f : count f [] = 0.
Proof. done. Qed.
Lemma count_nonneg f ws : 0 <= count f ws.
Proof. unfold count. lia. Qed.
Lemma count_zero f ws : count f ws = 0 <-> Forall (fun w => f w = false) ws.
Proof.
  induction ws as [|w ws IH]; [done|]. rewrite count_cons, Forall_cons, <- IH.
  pose proof (count_nonneg f ws). destruct (f w); split; [lia|by intros []|intros; split; [done|lia]|].
  intros [_ ->]. lia.
Qed.

(** A worker changes status. *)
Lemma count_set f ws i w s : ws !! i = Some w ->
  count f (set_status i s ws) =
  count f ws - (if f w then 1 else 0) + (if f (mkWorker (isCoreThread w) s) then 1 else 0).
Proof.
  intros Hi. destruct (set_status_split ws i w s Hi) as (l & r & -> & ->).
  rewrite !count_app, !count_cons. lia.
Qed.
Lemma running_set ws i w s : ws !! i = Some w ->
  option_list (running_node w) ++ running_nodes (set_status i s ws) ≡ₚ
  option_list (running_node (mkWorker (isCoreThread w) s)) ++ running_nodes ws.
Proof.
  intros Hi. destruct (set_status_split ws i w s Hi) as (l & r & -> & ->).
  unfold running_nodes. rewrite !omap_app. cbn [omap list_omap].
  destruct (running_node w), (running_node _); simpl; solve_Permutation.
Qed.

(** ** The invariant *)

(** The queue holds the accepted tasks that were not started, in order; queued and running
    nodes are distinct and allocated. *)
Record queue_ok (y : System) (qs : list positive) (ts : list (positive * Z)) : Prop := {
  qo_rep : tq_rep (nodes (pool y)) (mCurrentTasks (pool y)) qs;
  qo_nodup : NoDup (qs ++ running_nodes (workers y));
  qo_alloc : forall a, a ∈ qs ++ running_nodes (workers y) -> is_Some (nodes (pool y) !! a);
  qo_tasks : Forall2 (fun a t => task_of (nodes (pool y)) a = Some t) qs ts;
  qo_order : accepted y = started y ++ ts
}.

Record inv (y : System) : Prop := {
  inv_queue : exists qs ts, queue_ok y qs ts;
  inv_waiting : 0 < count is_waiting (workers y) ->
    tq_size (mCurrentTasks (pool y)) <= count is_awake (workers y);
  inv_terminated : mTerminatePool (pool y) = true -> count is_waiting (workers y) = 0;
  inv_count : count is_alive (workers y) <= mCurrentThreadsCount (pool y) <= mMaxPoolCapacity (pool y)
}.

Lemma after_wait_spec y qs ts :
  queue_ok y qs ts ->
  if mTerminatePool (pool y) then after_wait (pool y) = Ok (Stop, pool y) else
  match qs, ts with
  | a :: qs', t :: ts' => exists q',
      after_wait (pool y) = Ok (Run a t.1 t.2, with_tasks (nodes (pool y)) q' (pool y)) /\
      tq_rep (nodes (pool y)) q' qs'
  | _, _ => after_wait (pool y) = Ok (Again, pool y)
  end.
Proof.
  intros [Hrep _ _ Ht _]. unfold after_wait, TaskQueue_getSize. destruct (mTerminatePool (pool y)); [done|].
  rewrite (tr_size _ _ _ Hrep). destruct Ht as [|a t qs' ts' Ha Ht].
  - simpl. by destruct (pool y).
  - rewrite Z.gtb_ltb.
    replace (0 <? Z.of_nat (length (a :: qs'))) with true by (symmetry; apply Z.ltb_lt; rewrite length_cons; lia).
    destruct (TaskQueue_poll_spec _ _ _ _ Hrep) as (q' & E & Hq'). rewrite E.
    cbn [mbind result_bind]. unfold task_of in Ha. cbn [nodes with_tasks].
    destruct (nodes (pool y) !! a) as [n|]; [|done]. cbn [mbind result_bind of_option option_bind] in *.
    destruct (taskCallback n) as [cb|]; [|done]. simpl in Ha. injection Ha as <-. eauto.
Qed.

(** The parts of the invariant about a worker that takes a task, or none. *)
Lemma queue_ok_run y i w a cb x qs' ts' q' :
  queue_ok y (a :: qs') ((cb, x) :: ts') ->
  workers y !! i = Some w -> running_node w = None ->
  tq_rep (nodes (pool y)) q' qs' ->
  queue_ok (mkSystem (with_tasks (nodes (pool y)) q' (pool y))
    (set_status i (Running a cb x) (workers y)) (accepted y) (started y ++ [(cb, x)])) qs' ts'.
Proof.
  intros [Hrep Hnd Hal Ht Ho] Hi Hw Hq'.
  pose proof (running_set (workers y) i w (Running a cb x) Hi) as Hp. rewrite Hw in Hp. simpl in Hp.
  assert (qs' ++ running_nodes (set_status i (Running a cb x) (workers y)) ≡ₚ
    (a :: qs') ++ running_nodes (workers y)) as Hp'.
  { rewrite Hp. simpl. by rewrite Permutation_middle. }
  split; simpl; [done|by rewrite Hp'| |by inversion Ht|by rewrite <- app_assoc].
  intros b Hb. apply Hal. by rewrite <- Hp'.
Qed.

(** A worker changes status without a task. *)
Lemma queue_ok_status y qs ts i w s p :
  queue_ok y qs ts -> workers y !! i = Some w -> running_node w = None ->
  running_node (mkWorker (isCoreThread w) s) = None ->
  nodes p = nodes (pool y) -> mCurrentTasks p = mCurrentTasks (pool y) ->
  queue_ok (mkSystem p (set_status i s (workers y)) (accepted y) (started y)) qs ts.
Proof.
  intros [Hrep Hnd Hal Ht Ho] Hi Hw Hs Hn Hq.
  pose proof (running_set (workers y) i w s Hi) as Hp. rewrite Hw, Hs in Hp. simpl in Hp.
  split; simpl; rewrite ?Hn, ?Hq; [done|by rewrite Hp| |done|done].
  intros b Hb. apply Hal. by rewrite <- Hp.
Qed.

(** The verdicts of a worker that is not running a task. *)
Definition idle (w : Worker) : bool :=
  match status w with Ready | Waiting | Notified => true | _ => false end.

Ltac counts Hi :=
  rewrite ?(count_set is_waiting _ _ _ _ Hi), ?(count_set is_awake _ _ _ _ Hi),
    ?(count_set is_alive _ _ _ _ Hi).

Lemma size_nonneg y : inv y -> 0 <= tq_size (mCurrentTasks (pool y)).
Proof. intros [(qs & ts & [Hr _ _ _ _]) _ _ _]. rewrite (tr_size _ _ _ Hr). lia. Qed.

(** A worker that holds the mutex with a task pending, or with the pool terminated. *)
Lemma inv_after_wait y i w v p :
  inv y -> workers y !! i = Some w -> idle w = true -> can_continue (pool y) = true ->
  after_wait (pool y) = Ok (v, p) -> inv (apply_verdict i v p y).
Proof.
  intros [(qs & ts & Hq) Hw Ht Hc] Hi Hidle Hcan E.
  pose proof (after_wait_spec y qs ts Hq) as Hspec. unfold can_continue, TaskQueue_getSize in Hcan.
  assert (running_node w = None) as Hrun by (destruct w as [? []]; done).
  destruct (mTerminatePool (pool y)) eqn:Eterm.
  - rewrite Hspec in E. injection E as <- <-. specialize (Ht eq_refl).
    split; cbn [pool workers apply_verdict]; counts Hi.
    + exists qs, ts. by eapply queue_ok_status.
    + rewrite Ht. intros H. destruct w as [c []]; simpl in *; try done; lia.
    + intros _. rewrite Ht. destruct w as [c []]; simpl in *; try done.
      exfalso. apply count_zero in Ht. rewrite Forall_lookup in Ht. by specialize (Ht _ _ Hi).
    + destruct w as [c []]; simpl in *; try done; lia.
  - destruct qs as [|a qs], ts as [|[cb x] ts]; try (destruct (qo_tasks _ _ _ Hq); fail);
      try by pose proof (Forall2_length _ _ _ (qo_tasks _ _ _ Hq)).
    + pose proof (tr_size _ _ _ (qo_rep _ _ _ Hq)) as Hs. simpl in Hs. rewrite Hs in Hcan. done.
    + destruct Hspec as (q' & E' & Hq'). rewrite E' in E. injection E as <- <-.
      pose proof (tr_size _ _ _ (qo_rep _ _ _ Hq)) as Hs. pose proof (tr_size _ _ _ Hq') as Hs'.
      rewrite length_cons in Hs. split; cbn [pool workers apply_verdict]; counts Hi.
      * exists qs, ts. by eapply queue_ok_run.
      * cbn [mCurrentTasks with_tasks]. intros H. rewrite Hs'.
        destruct w as [c []]; simpl in *; try done; specialize (Hw ltac:(lia)); lia.
      * simpl. congruence.
      * destruct w as [c []]; simpl in *; try done; lia.
Qed.

(** A worker that finds nothing to do waits. *)
Lemma inv_wait y i w :
  inv y -> workers y !! i = Some w -> idle w = true -> can_continue (pool y) = false ->
  inv (apply_verdict i Wait (pool y) y).
Proof.
  intros Hinv Hi Hidle Hcan. pose proof (size_nonneg y Hinv) as Hn.
  destruct Hinv as [(qs & ts & Hq) Hw Ht Hc]. unfold can_continue, TaskQueue_getSize in Hcan.
  apply orb_false_iff in Hcan as [Hs Hterm]. rewrite Z.gtb_ltb in Hs. zb.
  pose proof (count_nonneg is_awake (workers y)).
  split; cbn [pool workers apply_verdict]; counts Hi.
  - exists qs, ts. eapply queue_ok_status; try done. by destruct w as [? []].
  - intros _. destruct w as [c []]; simpl in *; try done; try lia.
    all: assert (0 < count is_awake (workers y)); [|lia].
    all: destruct (decide (count is_awake (workers y) = 0)) as [E|]; [|lia].
    all: apply count_zero in E; rewrite Forall_lookup in E; by specialize (E _ _ Hi).
  - congruence.
  - destruct w as [c []]; simpl in *; try done; lia.
Qed.

Lemma inv_timeout y i :
  inv y -> workers y !! i = Some (mkWorker false Waiting) -> can_continue (pool y) = false ->
  inv (apply_verdict i Stop (timed_out (pool y)) y).
Proof.
  intros Hinv Hi Hcan. pose proof (size_nonneg y Hinv) as Hn.
  destruct Hinv as [(qs & ts & Hq) Hw Ht Hc]. unfold can_continue, TaskQueue_getSize in Hcan.
  apply orb_false_iff in Hcan as [Hs Hterm]. rewrite Z.gtb_ltb in Hs. zb.
  pose proof (count_nonneg is_awake (workers y)).
  split; cbn [pool workers apply_verdict]; counts Hi; simpl.
  - exists qs, ts. by eapply queue_ok_status.
  - lia.
  - congruence.
  - lia.
Qed.

(** Waking a worker changes no task. *)
Lemma notify_one_spec ws ws' :
  notify_one ws ws' ->
  running_nodes ws' ≡ₚ running_nodes ws /\ count is_alive ws' = count is_alive ws /\
  ((count is_waiting ws' = count is_waiting ws - 1 /\ count is_awake ws' = count is_awake ws + 1) \/
   (count is_waiting ws = 0 /\ ws' = ws)).
Proof.
  intros [i c Hi|Hn].
  - split_and!; [apply (running_set ws i _ Notified Hi)|counts Hi; simpl; lia|].
    left. counts Hi. simpl. lia.
  - split_and!; [done|done|]. right. split; [|done]. apply count_zero.
    eapply Forall_impl; [exact Hn|]. intros [? []] Hw; done.
Qed.

Lemma notify_all_spec ws :
  running_nodes (notify_all ws) = running_nodes ws /\
  count is_alive (notify_all ws) = count is_alive ws /\ count is_waiting (notify_all ws) = 0.
Proof.
  induction ws as [|[c s] ws (IH1 & IH2 & IH3)]; [done|].
  unfold running_nodes in *. cbn [notify_all map omap list_omap].
  rewrite !count_cons. fold (notify_all ws). rewrite IH2, IH3.
  split_and!; destruct s; simpl; rewrite ?IH1; done || lia.
Qed.

(** The node of an accepted task. *)
Lemma queue_ok_add h q qs ts rn a cb x h' q' :
  tq_rep h q qs -> NoDup (qs ++ rn) -> (forall b, b ∈ qs ++ rn -> is_Some (h !! b)) ->
  Forall2 (fun b t => task_of h b = Some t) qs ts -> h !! a = None ->
  TaskQueue_add (Some a) (<[a := mkTaskNode (Some cb) x None]> h) q = Ok (h', q') ->
  tq_rep h' q' (qs ++ [a]) /\ NoDup ((qs ++ [a]) ++ rn) /\
  (forall b, b ∈ (qs ++ [a]) ++ rn -> is_Some (h' !! b)) /\
  Forall2 (fun b t => task_of h' b = Some t) (qs ++ [a]) (ts ++ [(cb, x)]) /\
  tq_size q' = tq_size q + 1.
Proof.
  intros Hrep Hnd Hal Ht Ha E. set (h1 := <[a := _]> h) in *.
  assert (a ∉ qs ++ rn) as Hnin.
  { intros Hin. apply Hal in Hin. rewrite Ha in Hin. by destruct Hin. }
  assert (tq_rep h1 q qs) as Hrep1.
  { destruct Hrep as [? ? ? Hch ?]. split; try done. eapply chain_frame; [|exact Hch].
    intros b Hb. unfold h1. rewrite lookup_insert_ne; [done|]. set_solver. }
  assert (Z.of_nat (length qs) < max_s 32) as Hlen.
  { destruct (decide (Z.of_nat (length qs) < max_s 32)) as [|Hbig]; [done|]. exfalso.
    unfold TaskQueue_add in E. apply bind_ok in E as ([[h2 hd] tl] & _ & E).
    apply bind_ok in E as (sz & Esz & _). rewrite (tr_size _ _ _ Hrep), chk_s_fault in Esz; [done|].
    unfold in_s, max_s in *. simpl in *. lia. }
  destruct (TaskQueue_add_spec h1 q qs a _ Hrep1 (lookup_insert_eq _ _ _) eq_refl) as
    (h2 & q2 & E2 & Hr2 & Htask & Hdom); [set_solver|done|].
  rewrite E2 in E. injection E as <- <-. split_and!; [done| | | |].
  - rewrite <- app_assoc. simpl. rewrite <- Permutation_middle. by apply NoDup_cons.
  - intros b Hb. apply Hdom. unfold h1. destruct (decide (b = a)) as [->|Hne].
    + rewrite lookup_insert_eq. eauto.
    + rewrite lookup_insert_ne by done. apply Hal. set_solver.
  - apply Forall2_app; [|constructor; [|done]].
    + eapply Forall2_impl; [|intros b t Hb; exact Hb].
      apply Forall2_same_length_lookup. split; [by eapply Forall2_length|]. intros k b t Hb Hk.
      rewrite Htask. assert (b <> a) by (intros ->; apply Hnin, elem_of_app; left; by eapply list_elem_of_lookup_2).
      unfold task_of, h1. rewrite lookup_insert_ne by done. by eapply (Forall2_lookup_lr _ _ _ _ _ _ Ht).
    + rewrite Htask. unfold task_of, h1. by rewrite lookup_insert_eq.
  - rewrite (tr_size _ _ _ Hr2), (tr_size _ _ _ Hrep), length_app. simpl. lia.
Qed.

(** What an accepted task does to the pool. *)
Lemma enqueueTask_accepted alloc newThread cb x p grown p' :
  enqueueTask alloc newThread (Some cb) x p = Ok (true, grown, p') ->
  exists a q', alloc = Some a /\
    TaskQueue_add (Some a) (<[a := mkTaskNode (Some cb) x None]> (nodes p)) (mCurrentTasks p) =
      Ok (nodes p', q') /\ mCurrentTasks p' = q' /\
    mTerminatePool p' = mTerminatePool p /\ mMaxPoolCapacity p' = mMaxPoolCapacity p /\
    mCurrentThreadsCount p' = mCurrentThreadsCount p + (if grown then 1 else 0) /\
    (grown = true -> mCurrentThreadsCount p < mMaxPoolCapacity p).
Proof.
  intros E. unfold enqueueTask in E. apply bind_ok in E as (load & _ & E).
  destruct (_ <=? load).
  - destruct alloc as [a|]; [|done]. simpl in E. apply bind_ok in E as ([h q] & E1 & E).
    injection E as <- <-. exists a, q. split_and!; try done. simpl. lia.
  - destruct (mCurrentThreadsCount p <? mMaxPoolCapacity p) eqn:El; [|done].
    destruct alloc as [a|]; [|done]. cbn [createTaskNode] in E.
    apply bind_ok in E as ([h q] & E1 & E). injection E as <- <-. exists a, q.
    zb. destruct newThread; split_and!; try done; simpl; lia.
Qed.

Lemma inv_enqueue y alloc newThread cb x grown p ws :
  inv y -> (forall a, alloc = Some a -> nodes (pool y) !! a = None) ->
  enqueueTask alloc newThread (Some cb) x (pool y) = Ok (true, grown, p) ->
  notify_one (if grown : bool then workers y ++ [mkWorker false Ready] else workers y) ws ->
  inv (mkSystem p ws (accepted y ++ [(cb, x)]) (started y)).
Proof.
  intros [(qs & ts & [Hrep Hnd Hal Hts Ho]) Hw Ht Hc] Hfresh E Hnot.
  destruct (enqueueTask_accepted _ _ _ _ _ _ _ E) as (a & q' & -> & Eadd & Eq & Et & Em & Ecnt & Hlt).
  destruct (queue_ok_add _ _ _ _ _ _ _ _ _ _ Hrep Hnd Hal Hts (Hfresh a eq_refl) Eadd)
    as (Hrep' & Hnd' & Hal' & Hts' & Hsz).
  set (base := if grown then _ else _) in Hnot.
  assert (running_nodes base = running_nodes (workers y) /\ count is_waiting base = count is_waiting (workers y) /\
    count is_awake base = count is_awake (workers y) + (if grown then 1 else 0) /\
    count is_alive base = count is_alive (workers y) + (if grown then 1 else 0)) as (B1 & B2 & B3 & B4).
  { unfold base. destruct grown; [|split_and!; done || lia]. unfold running_nodes.
    rewrite !count_app, !count_cons, omap_app. cbn [omap list_omap running_node status].
    rewrite app_nil_r, !count_nil. cbn [is_waiting is_awake is_alive status].
    split_and!; done || lia. }
  destruct (notify_one_spec _ _ Hnot) as (Hrun & Halive & Hcase). rewrite B1 in Hrun.
  split; cbn [pool workers].
  - exists (qs ++ [a]), (ts ++ [(cb, x)]). split; cbn [pool workers accepted started].
    + by rewrite Eq.
    + by rewrite Hrun.
    + intros b Hb. apply Hal'. by rewrite <- Hrun.
    + done.
    + by rewrite Ho, app_assoc.
  - rewrite Eq, Hsz. intros Hwait. destruct Hcase as [[H1 H2]|[H1 H2]].
    + specialize (Hw ltac:(lia)). destruct grown; lia.
    + rewrite H2 in Hwait. lia.
  - rewrite Et. intros Hterm. specialize (Ht Hterm). destruct Hcase as [[H1 H2]|[H1 ->]]; [|lia].
    pose proof (count_nonneg is_waiting ws). lia.
  - rewrite Em, Ecnt, Halive, B4. destruct grown; [|lia]. specialize (Hlt eq_refl). lia.
Qed.

Lemma inv_finish y i c a cb x :
  inv y -> workers y !! i = Some (mkWorker c (Running a cb x)) ->
  inv (mkSystem (free_task a (pool y)) (set_status i Ready (workers y)) (accepted y) (started y)).
Proof.
  intros [(qs & ts & [Hrep Hnd Hal Hts Ho]) Hw Ht Hc] Hi.
  pose proof (running_set (workers y) i _ Ready Hi) as Hp. simpl in Hp.
  assert (qs ++ running_nodes (workers y) ≡ₚ a :: (qs ++ running_nodes (set_status i Ready (workers y)))) as Hp'.
  { by rewrite <- Hp, Permutation_middle. }
  rewrite Hp' in Hnd. apply NoDup_cons in Hnd as [Hnin Hnd].
  split; cbn [pool workers]; counts Hi; simpl.
  - exists qs, ts. split; cbn [pool workers accepted started free_task with_tasks nodes mCurrentTasks]; [|done| | |done].
    + destruct Hrep as [? ? ? Hch ?]. split; try done. eapply chain_frame; [|exact Hch].
      intros b Hb. rewrite lookup_delete_ne; [done|]. set_solver.
    + intros b Hb. rewrite lookup_delete_ne by set_solver. apply Hal. rewrite Hp'. by right.
    + apply Forall2_same_length_lookup. split; [by eapply Forall2_length|]. intros k b t Hb Hk.
      unfold task_of. rewrite lookup_delete_ne.
      * by eapply (Forall2_lookup_lr _ _ _ _ _ _ Hts).
      * intros ->. apply Hnin, elem_of_app. left. by eapply list_elem_of_lookup_2.
  - intros H. specialize (Hw ltac:(lia)). lia.
  - intros H. specialize (Ht H). lia.
  - lia.
Qed.

Lemma inv_throw y i c a cb x :
  inv y -> workers y !! i = Some (mkWorker c (Running a cb x)) ->
  inv (mkSystem (pool y) (set_status i Exited (workers y)) (accepted y) (started y)).
Proof.
  intros [(qs & ts & [Hrep Hnd Hal Hts Ho]) Hw Ht Hc] Hi.
  pose proof (running_set (workers y) i _ Exited Hi) as Hp. simpl in Hp.
  assert (qs ++ running_nodes (workers y) ≡ₚ a :: (qs ++ running_nodes (set_status i Exited (workers y)))) as Hp'.
  { by rewrite <- Hp, Permutation_middle. }
  rewrite Hp' in Hnd. apply NoDup_cons in Hnd as [_ Hnd].
  split; cbn [pool workers]; counts Hi; simpl.
  - exists qs, ts. split; try done. intros b Hb. apply Hal. rewrite Hp'. by right.
  - intros H. specialize (Hw ltac:(lia)). lia.
  - intros H. specialize (Ht H). lia.
  - lia.
Qed.

Lemma inv_spurious y i c :
  inv y -> workers y !! i = Some (mkWorker c Waiting) ->
  inv (mkSystem (pool y) (set_status i Notified (workers y)) (accepted y) (started y)).
Proof.
  intros [(qs & ts & Hq) Hw Ht Hc] Hi. split; cbn [pool workers]; counts Hi; simpl.
  - exists qs, ts. by eapply queue_ok_status.
  - intros H. specialize (Hw ltac:(lia)). lia.
  - intros H. specialize (Ht H). pose proof (proj1 (count_zero _ _) Ht) as Hz.
    rewrite Forall_lookup in Hz. by specialize (Hz _ _ Hi).
  - lia.
Qed.

Lemma inv_terminate y :
  inv y -> inv (mkSystem (terminate (pool y)) (notify_all (workers y)) (accepted y) (started y)).
Proof.
  intros [(qs & ts & [Hrep Hnd Hal Hts Ho]) Hw Ht Hc].
  destruct (notify_all_spec (workers y)) as (N1 & N2 & N3).
  split; cbn [pool workers]; rewrite ?N2, ?N3.
  - exists qs, ts. split; cbn [pool workers accepted started]; by rewrite ?N1.
  - lia.
  - done.
  - done.
Qed.

Lemma enter_cases p :
  enter p = if can_continue p || negb (TaskQueue_getSize (mCurrentTasks p) =? 0)
            then after_wait p else Ok (Wait, p).
Proof.
  unfold enter, can_continue. rewrite Z.gtb_ltb.
  destruct (mTerminatePool p), (Z.eqb_spec (TaskQueue_getSize (mCurrentTasks p)) 0) as [->|];
    rewrite ?orb_true_r; done.
Qed.

Lemma inv_step y y' : inv y -> step y y' -> inv y'.
Proof.
  intros Hinv Hs. pose proof (size_nonneg y Hinv) as Hn.
  destruct Hs as [alloc nt cb x grown p ws Hf E Hnot|i c v p Hi E|i c v p Hi E|i v p Hi E|i c a cb x Hi
                 |i c a cb x Hi|i c Hi|].
  - by eapply inv_enqueue.
  - rewrite enter_cases in E. destruct (can_continue (pool y)) eqn:Ec.
    + by eapply inv_after_wait.
    + unfold can_continue, TaskQueue_getSize in Ec. rewrite Z.gtb_ltb in Ec.
      apply orb_false_iff in Ec as [Es Et]. zb.
      assert (tq_size (mCurrentTasks (pool y)) = 0) as E0 by lia.
      unfold TaskQueue_getSize in E. rewrite E0 in E. injection E as <- <-.
      eapply inv_wait; try done. unfold can_continue, TaskQueue_getSize. by rewrite E0, Et.
  - destruct (can_continue (pool y)) eqn:Ec; [by eapply inv_after_wait|]. injection E as <- <-.
    by eapply inv_wait.
  - destruct (can_continue (pool y)) eqn:Ec; [by eapply inv_after_wait|]. injection E as <- <-.
    by apply inv_timeout.
  - by eapply inv_finish.
  - by eapply inv_throw.
  - by eapply inv_spurious.
  - by apply inv_terminate.
Qed.

Lemma count_replicate f w n : count f (replicate n w) = if f w then Z.of_nat n else 0.
Proof.
  induction n as [|n IH]; [by destruct (f w)|]. simpl replicate. rewrite count_cons, IH.
  destruct (f w); lia.
Qed.

Lemma inv_init desired max created : 0 <= max -> inv (System_init desired max created).
Proof.
  intros Hmax. unfold System_init, ThreadPool_init. cbn [mCurrentThreadsCount].
  set (n := Z.of_nat (length (List.filter created _))).
  assert (0 <= n <= Z.max 0 desired) as Hn.
  { unfold n. pose proof (filter_length_le created (seq 0 (Z.to_nat desired))) as Hl.
    rewrite length_seq in Hl. lia. }
  assert (forall k, running_nodes (replicate k (mkWorker true Ready)) = []) as Hr.
  { intros k. induction k as [|k IH]; [done|exact IH]. }
  split; cbn [pool workers mTerminatePool mCurrentThreadsCount mMaxPoolCapacity]; rewrite ?count_replicate.
  - exists [], []. split; cbn [pool workers accepted started]; rewrite ?Hr; try done.
    + split; try done. apply NoDup_nil_2.
    + apply NoDup_nil_2.
    + intros a []%not_elem_of_nil.
  - simpl. lia.
  - done.
  - cbn [is_alive status]. destruct (max <? desired) eqn:E; zb; lia.
Qed.

Lemma reachable_inv desired max created y :
  0 <= max -> reachable desired max created y -> inv y.
Proof.
  intros Hmax. unfold reachable. generalize (inv_init desired max created Hmax).
  induction 2 as [|y1 y2 y3 Hs _ IH]; [done|]. apply IH. by eapply inv_step.
Qed.

(** A worker that can take the first pending task does. *)
Lemma step_takes y qs ts i c a cb x s :
  queue_ok y (a :: qs) ((cb, x) :: ts) -> mTerminatePool (pool y) = false ->
  workers y !! i = Some (mkWorker c s) -> s = Ready \/ s = Notified ->
  exists y', thread_step y y' /\ started y' = started y ++ [(cb, x)] /\ accepted y' = accepted y.
Proof.
  intros Hq Ht Hi Hs. pose proof (after_wait_spec y _ _ Hq) as Hspec. rewrite Ht in Hspec.
  destruct Hspec as (q' & E & _). pose proof (tr_size _ _ _ (qo_rep _ _ _ Hq)) as Hsz.
  assert (can_continue (pool y) = true) as Hc.
  { unfold can_continue, TaskQueue_getSize. rewrite Z.gtb_ltb, Hsz. apply orb_true_iff. left.
    apply Z.ltb_lt. rewrite length_cons. lia. }
  destruct Hs as [->| ->]; eexists.
  - split; [eapply thread_enter; [exact Hi|]; by rewrite enter_cases, Hc|]. done.
  - split; [eapply thread_wake; [exact Hi|]; by rewrite Hc|]. done.
Qed.

Lemma inv_pending y pending : inv y -> accepted y = started y ++ pending ->
  exists qs, queue_ok y qs pending.
Proof.
  intros [(qs & ts & Hq) _ _ _] Ha. exists qs. rewrite (qo_order _ _ _ Hq) in Ha.
  apply app_inv_head in Ha. by subst.
Qed.

Lemma count_pos f ws : 0 < count f ws -> exists i w, ws !! i = Some w /\ f w = true.
Proof.
  induction ws as [|w ws IH]; [by rewrite count_nil|]. rewrite count_cons. destruct (f w) eqn:E.
  - intros _. by exists O, w.
  - intros H. destruct IH as (i & w' & Hi & Hw); [lia|]. by exists (Datatypes.S i), w'.
Qed.

(** With a task pending some live worker is not blocked. *)
Lemma awake_or_running y : inv y -> 0 < tq_size (mCurrentTasks (pool y)) ->
  0 < count is_alive (workers y) ->
  exists i w, workers y !! i = Some w /\
    match status w with Ready | Notified | Running _ _ _ => True | _ => False end.
Proof.
  intros [_ Hw _ _] Hs Ha. pose proof (count_nonneg is_waiting (workers y)).
  destruct (decide (0 < count is_awake (workers y))) as [Hp|Hp].
  - apply count_pos in Hp as (i & [c []] & Hi & Hf); try done; by exists i; eexists.
  - destruct (decide (0 < count is_waiting (workers y))) as [Hq|Hq]; [specialize (Hw Hq); lia|].
    assert (count is_waiting (workers y) = 0) as H0%count_zero by lia.
    rewrite Forall_lookup in H0. apply count_pos in Ha as (i & [c []] & Hi & Hf); try done;
      try (by exists i; eexists). by specialize (H0 _ _ Hi).
Qed.

(** ** Properties *)

(** C15: tasks.  In every reachable state of a pool, whatever the interleaving of enqueuing,
    waiting, wake-ups, time-outs, running and failing tasks and termination: the tasks that
    were started are a prefix of those that were accepted, in order, so that none is
    lost, duplicated or overtaken; the rest is the queue; a thread that takes the mutex never
    faults, starts the oldest pending task if there is one, and waits only when
    there is none; and the threads that are alive are at most the count the pool
    keeps, which never exceeds its capacity. *)
Theorem ThreadPool_tasks (desired max : Z) (created : nat -> bool) (y : System) :
  0 <= max -> reachable desired max created y ->
  exists pending,
    accepted y = started y ++ pending /\
    TaskQueue_getSize (mCurrentTasks (pool y)) = Z.of_nat (length pending) /\
    (if mTerminatePool (pool y) then enter (pool y) = Ok (Stop, pool y) else
     match pending with
     | [] => enter (pool y) = Ok (Wait, pool y)
     | t :: _ => exists a p, enter (pool y) = Ok (Run a t.1 t.2, p)
     end) /\
    count is_alive (workers y) <= mCurrentThreadsCount (pool y) <= mMaxPoolCapacity (pool y).
Proof.
  intros Hmax Hr. pose proof (reachable_inv _ _ _ _ Hmax Hr) as [(qs & ts & Hq) _ _ Hc].
  exists ts. pose proof (tr_size _ _ _ (qo_rep _ _ _ Hq)) as Hs.
  pose proof (Forall2_length _ _ _ (qo_tasks _ _ _ Hq)) as Hlen.
  split; [apply Hq|]. split; [unfold TaskQueue_getSize; by rewrite Hs, Hlen|]. split; [|done].
  pose proof (after_wait_spec y qs ts Hq) as Hspec. unfold enter, TaskQueue_getSize.
  destruct (mTerminatePool (pool y)); [exact Hspec|].
  destruct qs as [|a qs], ts as [|t ts]; try done.
  - by rewrite Hs.
  - destruct Hspec as (q' & E & _). rewrite Hs, length_cons.
    replace (Z.of_nat (Datatypes.S (length qs)) =? 0) with false by (symmetry; apply Z.eqb_neq; lia).
    cbn [negb andb]. eauto.
Qed.

(** A pool of one thread to which a task was given. *)
Definition one_task : System :=
  let y := System_init 1 1 (fun _ => true) in
  match enqueueTask (Some 1%positive) true (Some 7%positive) 42 (pool y) with
  | Ok (_, _, p) => mkSystem p (workers y) [(7%positive, 42)] []
  | Fault _ => y
  end.

Lemma one_task_reachable : reachable 1 1 (fun _ => true) one_task.
Proof.
  apply rtc_once.
  apply (step_enqueue (System_init 1 1 (fun _ => true)) (Some 1%positive) true 7 42 false
           (pool one_task) (workers one_task)).
  - done.
  - vm_compute. reflexivity.
  - apply notify_none. by repeat constructor.
Qed.

(** The pool of one thread takes the one task it was given. *)
Lemma ThreadPool_tasks_witness :
  reachable 1 1 (fun _ => true) one_task /\
  exists a p, enter (pool one_task) = Ok (Run a 7 42, p) /\ count is_alive (workers one_task) <= 1.
Proof.
  split; [exact one_task_reachable|].
  destruct (ThreadPool_tasks 1 1 (fun _ => true) one_task ltac:(lia) one_task_reachable) as (pending & E & _ & He & Hc).
  change (accepted one_task) with [(7%positive, 42)] in E. change (started one_task) with (@nil (positive * Z)) in E.
  destruct pending as [|t pending]; [done|]. injection E as <- _. change (mTerminatePool (pool one_task)) with false in He.
  destruct He as (a & p & He). exists a, p. split; [exact He|]. destruct Hc as [Hc Hm].
  change (mMaxPoolCapacity (pool one_task)) with 1 in Hm. lia.
Defined.

(** C16: progress.  No wake-up is lost: in every reachable state of a pool that is not
    terminated, with a pending task and a thread that is still alive, some thread is not blocked on the
    condition variable, and at most two steps of [thread_step], which has no further task, no time-out, no
    spurious wake-up, no failing task and no termination, lead to a state in which exactly one
    more task, the oldest pending one, was started. *)
Theorem ThreadPool_progress (desired max : Z) (created : nat -> bool) (y : System)
    (t : positive * Z) (pending : list (positive * Z)) :
  0 <= max -> reachable desired max created y -> mTerminatePool (pool y) = false ->
  accepted y = started y ++ t :: pending -> 0 < count is_alive (workers y) ->
  (exists i w, workers y !! i = Some w /\ is_alive w = true /\ is_waiting w = false) /\
  exists n y', (n <= 2)%nat /\ nsteps thread_step n y y' /\ started y' = started y ++ [t] /\ accepted y' = accepted y.
Proof.
  intros Hmax Hr Ht Hacc Halive. pose proof (reachable_inv _ _ _ _ Hmax Hr) as Hinv.
  destruct (inv_pending y (t :: pending) Hinv Hacc) as (qs & Hq).
  pose proof (Forall2_length _ _ _ (qo_tasks _ _ _ Hq)) as Hl.
  destruct qs as [|a qs]; [done|]. destruct t as [cb x].
  destruct (awake_or_running y Hinv) as (i & [c s] & Hi & Hs); [|done|].
  { rewrite (tr_size _ _ _ (qo_rep _ _ _ Hq)), length_cons. lia. }
  split; [exists i, (mkWorker c s); by destruct s|]. destruct s as [| | |a' cb' x'|]; try done.
  1, 2: destruct (step_takes y _ _ i c a cb x _ Hq Ht Hi) as (y' & Hst & Es & Ea); [by auto|];
    exists 1%nat, y'; split; [lia|]; split; [by apply nsteps_once|done].
  pose proof (inv_finish y i c a' cb' x' Hinv Hi) as Hinv1. set (y1 := mkSystem _ _ _ _) in Hinv1.
  destruct (inv_pending y1 ((cb, x) :: pending) Hinv1 Hacc) as (qs1 & Hq1).
  pose proof (Forall2_length _ _ _ (qo_tasks _ _ _ Hq1)) as Hl1. destruct qs1 as [|a1 qs1]; [done|].
  assert (workers y1 !! i = Some (mkWorker c Ready)) as Hi1.
  { unfold y1, set_status. cbn [workers]. by rewrite list_lookup_alter_eq, Hi. }
  destruct (step_takes y1 _ _ i c a1 cb x Ready Hq1 Ht Hi1 (or_introl eq_refl)) as (y' & Hst & Es & Ea).
  exists 2%nat, y'. split; [lia|]. split; [|done]. eapply nsteps_l; [by eapply thread_finish|]. by apply nsteps_once.
Qed.

Lemma ThreadPool_progress_witness :
  accepted one_task = started one_task ++ [(7%positive, 42)] /\
  exists n y', nsteps thread_step n one_task y' /\ started y' = [(7%positive, 42)].
Proof.
  split; [vm_compute; reflexivity|].
  destruct (ThreadPool_progress 1 1 (fun _ => true) one_task (7%positive, 42) [])
    as (_ & n & y' & _ & Hs & E & _);
    [lia|apply one_task_reachable|vm_compute; reflexivity|vm_compute; reflexivity
    |vm_compute; reflexivity|].
  exists n, y'. split; [exact Hs|]. rewrite E. vm_compute. reflexivity.
Defined.

(** Dead threads.  A thread whose task throws leaves its loop without being counted out, so
    that the pool does not know it is gone.  When all threads of a full pool are gone this way, the
    pool still accepts tasks until its queue holds three for each thread it believes to have, and
    no task is ever started again, whatever happens next. *)
Theorem ThreadPool_dead (desired max : Z) (created : nat -> bool) (y : System) :
  0 <= max -> reachable desired max created y ->
  count is_alive (workers y) = 0 -> mCurrentThreadsCount (pool y) = mMaxPoolCapacity (pool y) ->
  (forall y', rtc step y y' -> started y' = started y) /\
  (forall a cb x, TaskQueue_getSize (mCurrentTasks (pool y)) <= 3 * mCurrentThreadsCount (pool y) ->
     nodes (pool y) !! a = None -> in_s 32 (3 * mCurrentThreadsCount (pool y) + 1) ->
     exists p, enqueueTask (Some a) false (Some cb) x (pool y) = Ok (true, false, p)).
Proof.
  intros Hmax Hr Hdead Hfull. pose proof (reachable_inv _ _ _ _ Hmax Hr) as Hinv. split.
  - clear Hr Hinv. intros y' Hs. revert Hdead Hfull. induction Hs as [|y1 y2 y3 Hst _ IH]; [done|].
    intros Hd Hf.
    assert (started y2 = started y1 /\ count is_alive (workers y2) = 0 /\
      mCurrentThreadsCount (pool y2) = mMaxPoolCapacity (pool y2)) as (E & Hd2 & Hf2).
    2: { by rewrite <- E, IH. }
    pose proof (proj1 (count_zero _ _) Hd) as H0. rewrite Forall_lookup in H0.
    destruct Hst as [alloc nt cb x grown p ws Hfr E Hnot|i c v p Hi E|i c v p Hi E|i v p Hi E
                    |i c a cb x Hi|i c a cb x Hi|i c Hi|];
      try (by specialize (H0 _ _ Hi)); cbn [pool workers started].
    + destruct (enqueueTask_accepted _ _ _ _ _ _ _ E) as (a & q' & _ & _ & _ & _ & Em & Ec & Hl).
      destruct grown; [specialize (Hl eq_refl); lia|].
      destruct (notify_one_spec _ _ Hnot) as (_ & Ha & _). rewrite Ha, Em, Ec. split_and!; [done|done|lia].
    + destruct (notify_all_spec (workers y1)) as (_ & Ha & _). by rewrite Ha.
  - intros a cb x Hs Ha Hin. destruct Hinv as [(qs & ts & Hq) _ _ [Hc0 Hc]].
    destruct Hq as [Hrep Hnd Hal Hts _]. pose proof (tr_size _ _ _ Hrep) as Hsz.
    pose proof (count_nonneg is_alive (workers y)).
    unfold enqueueTask, TaskQueue_getSize, maxLoadPerThread in *.
    rewrite chk_s_ok by (unfold in_s in *; simpl in *; lia). cbn [mbind result_bind createTaskNode].
    rewrite (proj2 (Z.leb_le _ _) Hs).
    set (h1 := <[a := _]> (nodes (pool y))).
    assert (a ∉ qs) as Hnin.
    { intros Hin'. assert (is_Some (nodes (pool y) !! a)) as [n Hn] by (apply Hal; set_solver). congruence. }
    destruct (TaskQueue_add_spec h1 (mCurrentTasks (pool y)) qs a (mkTaskNode (Some cb) x None))
      as (h' & q' & E & _); [|apply lookup_insert_eq|done|done| |].
    + destruct Hrep as [? ? ? Hch ?]. split; try done. eapply chain_frame; [|exact Hch].
      intros b Hb. unfold h1. rewrite lookup_insert_ne; [done|]. by intros ->.
    + unfold in_s, max_s in *. simpl in *. lia.
    + rewrite E. eexists. reflexivity.
Qed.

Definition running_pool : System :=
  match enter (pool one_task) with
  | Ok (v, p) => apply_verdict 0 v p one_task
  | Fault _ => one_task
  end.
Definition dead_pool : System :=
  mkSystem (pool running_pool) (set_status 0 Exited (workers running_pool))
    (accepted running_pool) (started running_pool).

Lemma dead_pool_reachable : reachable 1 1 (fun _ => true) dead_pool.
Proof.
  unfold reachable. etrans; [exact one_task_reachable|]. apply (rtc_l _ _ running_pool).
  - apply (step_enter one_task 0 true (Run 1 7 42) (pool running_pool)); vm_compute; reflexivity.
  - apply rtc_once, (step_throw running_pool 0 true 1 7 42). vm_compute. reflexivity.
Qed.

Lemma ThreadPool_dead_witness :
  exists p, enqueueTask (Some 2%positive) false (Some 8%positive) 0 (pool dead_pool) = Ok (true, false, p) /\
    forall y', rtc step dead_pool y' -> started y' = [(7%positive, 42)].
Proof.
  destruct (ThreadPool_dead 1 1 (fun _ => true) dead_pool) as [Hs He];
    [lia|apply dead_pool_reachable|vm_compute; reflexivity|vm_compute; reflexivity|].
  destruct (He 2%positive 8%positive 0) as [p E];
    [vm_compute; discriminate|vm_compute; reflexivity|unfold in_s; vm_compute; split; [discriminate|reflexivity]|].
  exists p. split; [exact E|exact Hs].
Defined.
