(* ===== verification/TimerThread.v ===== *)
(** [modula/Components/Timer.cpp]: the thread of a timer.

    [startTimer] (Request.v) hands [implementTimer] to the pool of timer threads
    (ThreadPool.v).  Here is what that task does, one access to the shared fields at a time,
    against [killTimer] and the destructor, which run in other threads and do not
    take the mutex of the timer. *)
From S2P Require Import Prelude.
Open Scope Z_scope.

(** Where the thread is in [implementTimer]. *)
Inductive Phase :=
  | Queued      (* in the queue of the pool *)
  | Testing     (* holds the mutex, about to evaluate the predicate of the wait *)
  | Entering    (* the predicate was false: about to block *)
  | Blocked     (* waiting, the mutex released *)
  | Unlocked    (* after the wait, about to read [mTimerStop] *)
  | Calling     (* about to call back *)
  | Looping     (* about to test the condition of the loop *)
  | Done
  | Crashed.    (* touched the timer after it was freed *)

(** Where the killing of the timer is. *)
Inductive Killer := Idle | Stored | NotifiedAll | Freed.

#[export] Instance Phase_eq_dec : EqDecision Phase.
Proof. solve_decision. Defined.
#[export] Instance Killer_eq_dec : EqDecision Killer.
Proof. solve_decision. Defined.

Record TimerState := mkTimerState {
  mIsRecurring : bool;
  mTimerStop : bool;
  phase : Phase;
  killer : Killer;
  fires : Z           (* calls of the callback so far *)
}.

(** The constructor, then [startTimer]. *)
Definition TimerState_init (isRecurring : bool) : TimerState :=
  mkTimerState isRecurring false Queued Idle 0.

Definition at_phase (p : Phase) (t : TimerState) : TimerState :=
  mkTimerState (mIsRecurring t) (mTimerStop t) p (killer t) (fires t).

(** The body of [implementTimer]: what the thread does next, left to itself; [None]
    while it is blocked and when it is done. *)
Definition implementTimer (t : TimerState) : option TimerState :=
  match phase t with
  | Queued => Some (at_phase Testing t)
  | Testing => Some (at_phase (if mTimerStop t then Unlocked else Entering) t)
  | Entering => Some (at_phase Blocked t)
  | Unlocked => Some (at_phase (if negb (mTimerStop t) then Calling else Looping) t)
  | Calling =>
    Some (mkTimerState (mIsRecurring t) (mTimerStop t) Looping (killer t) (fires t + 1))
  | Looping => Some (at_phase (if mIsRecurring t && negb (mTimerStop t) then Testing else Done) t)
  | Blocked | Done | Crashed => None
  end.

(** [mTimerStop.store(true)]. *)
Definition kill_store (t : TimerState) : TimerState :=
  mkTimerState (mIsRecurring t) true (phase t) Stored (fires t).

(** [mTimerCond.notify_all()]: only a thread that is waiting already hears it. *)
Definition kill_notify (t : TimerState) : TimerState :=
  mkTimerState (mIsRecurring t) (mTimerStop t)
    (match phase t with Blocked => Testing | p => p end) NotifiedAll (fires t).

(** The destructor has killed the timer and its memory is released. *)
Definition destroy (t : TimerState) : TimerState :=
  mkTimerState (mIsRecurring t) (mTimerStop t) (phase t) Freed (fires t).

Inductive timer_step (t : TimerState) : TimerState -> Prop :=
  | ts_thread t' : killer t <> Freed -> implementTimer t = Some t' -> timer_step t t'
  | ts_freed t' : killer t = Freed -> implementTimer t = Some t' ->
      timer_step t (at_phase Crashed t)
  | ts_expired : phase t = Blocked -> killer t <> Freed -> timer_step t (at_phase Unlocked t)
  | ts_spurious : phase t = Blocked -> killer t <> Freed -> timer_step t (at_phase Testing t)
  | ts_wake_freed : phase t = Blocked -> killer t = Freed -> timer_step t (at_phase Crashed t)
  | ts_store : killer t = Idle -> timer_step t (kill_store t)
  | ts_notify : killer t = Stored -> timer_step t (kill_notify t)
  | ts_destroy : killer t = NotifiedAll -> timer_step t (destroy t).

Definition timer_reachable (isRecurring : bool) (t : TimerState) : Prop :=
  rtc timer_step (TimerState_init isRecurring) t.

(** A state in which a killed timer stays silent: the check before the callback is still to come. *)
Definition silenced (t : TimerState) : bool :=
  mTimerStop t && negb (bool_decide (phase t = Calling)).

(** The invariant: the flag is that of the killer, and a timer that does not
    recur is past its callback once it has made it. *)
Record timer_inv (isRecurring : bool) (t : TimerState) : Prop := {
  ti_recurring : mIsRecurring t = isRecurring;
  ti_stop : mTimerStop t = negb (bool_decide (killer t = Idle));
  ti_once : isRecurring = false ->
    fires t = 0 \/ fires t = 1 /\ (phase t = Looping \/ phase t = Done \/ phase t = Crashed);
  ti_crash : phase t = Crashed -> killer t = Freed
}.

Lemma timer_inv_step r t t' : timer_inv r t -> timer_step t t' -> timer_inv r t'.
Proof.
  intros [Hr Hs Ho Hc] Hst.
  destruct Hst as [t' Hk Hi|t' Hk Hi|Hp Hk|Hp Hk|Hp Hk|Hk|Hk|Hk];
    destruct t as [rec stop ph k n]; try unfold implementTimer in Hi; simpl in *; subst rec;
    try destruct ph; simplify_eq/=; split; simpl; try done;
    try (intros ->; specialize (Ho eq_refl)); try (by destruct stop; simplify_eq/=);
    try (naive_solver lia); by case_match.
Qed.

Lemma timer_reachable_inv r t : timer_reachable r t -> timer_inv r t.
Proof.
  intros H. unfold timer_reachable in H. remember (TimerState_init r) as t0 eqn:E.
  assert (timer_inv r t0) as Hi by (subst; split; simpl; try done; by left). clear E.
  induction H as [|? ? ? Hs _ IH]; [done|]. apply IH. by eapply timer_inv_step.
Qed.

Lemma silenced_step t t' : silenced t = true -> timer_step t t' ->
  silenced t' = true /\ fires t' = fires t.
Proof.
  unfold silenced. intros [Hs Hp%negb_true_iff%bool_decide_eq_false]%andb_true_iff Hst.
  destruct Hst as [t' Hk Hi|t' Hk Hi|Ep Hk|Ep Hk|Ep Hk|Hk|Hk|Hk];
    destruct t as [rec stop ph k n]; try unfold implementTimer in Hi; simpl in *; subst stop;
    try destruct ph; simplify_eq/=; try done. by destruct rec.
Qed.

Lemma silenced_steps t t' : silenced t = true -> rtc timer_step t t' -> fires t' = fires t.
Proof.
  intros H Hs. induction Hs as [|? ? ? Hst _ IH]; [done|].
  destruct (silenced_step _ _ H Hst) as [H' E]. by rewrite (IH H'), E.
Qed.

(** ** Properties *)

(** A timer left alone: its thread waits for the time it was given and calls back once. *)
Lemma timer_run r : exists t, rtc timer_step (TimerState_init r) t /\ fires t = 1 /\
  phase t = Looping /\ killer t = Idle.
Proof.
  exists (mkTimerState r false Looping Idle 1). split; [|done].
  eapply rtc_l; [by eapply ts_thread|]. eapply rtc_l; [by eapply ts_thread|].
  eapply rtc_l; [by eapply ts_thread|]. eapply rtc_l; [by eapply ts_expired|].
  eapply rtc_l; [by eapply ts_thread|]. apply rtc_once. by eapply ts_thread.
Qed.

(** Timers.  A timer started by [startTimer] can call back; one that does not recur calls back
    at most once, whatever the interleaving with its killing; and once [killTimer] has stored the
    stop flag, a timer whose thread is not already past the check before the
    callback never calls back again. *)
Theorem Timer_callback (isRecurring : bool) :
  (exists t, timer_reachable isRecurring t /\ fires t = 1) /\
  (forall t, timer_reachable isRecurring t -> isRecurring = false -> 0 <= fires t <= 1) /\
  (forall t t', timer_reachable isRecurring t -> killer t <> Idle -> phase t <> Calling ->
     rtc timer_step t t' -> fires t' = fires t).
Proof.
  split_and!.
  - destruct (timer_run isRecurring) as (t & ? & ? & _). by exists t.
  - intros t Hr E. apply timer_reachable_inv in Hr as [_ _ Ho _]. destruct (Ho E); lia.
  - intros t t' Hr Hk Hp Hs. apply timer_reachable_inv in Hr as [_ Hst _ _].
    apply (silenced_steps _ _); [|done]. unfold silenced. rewrite Hst.
    by rewrite !bool_decide_eq_false_2.
Qed.

(** Killing a timer.  [killTimer] neither takes the mutex nor waits for the thread: the
    notification is lost on a thread that has evaluated the predicate and is about to block, which
    then sleeps for the whole duration; and the destructor lets the memory go while the thread is
    still blocked on it, so that every timer destroyed before it is due, as an
    untuned request does with its own, is touched after it was freed. *)
Theorem Timer_killed_in_use (isRecurring : bool) :
  (exists t, timer_reachable isRecurring t /\ killer t = NotifiedAll /\ phase t = Blocked /\
     forall t', timer_step t t' -> t' <> destroy t -> t' = at_phase Unlocked t \/ t' = at_phase Testing t) /\
  (forall t, timer_reachable isRecurring t -> killer t = Freed ->
     phase t <> Done -> phase t <> Crashed -> timer_step t (at_phase Crashed t)) /\
  (exists t, timer_reachable isRecurring t /\ killer t = Freed /\ phase t = Blocked).
Proof.
  assert (exists t, timer_reachable isRecurring t /\ killer t = NotifiedAll /\ phase t = Blocked) as (t & Hr & Hk & Hp).
  { exists (mkTimerState isRecurring true Blocked NotifiedAll 0). split; [|done].
    eapply rtc_l; [by eapply ts_thread|]. eapply rtc_l; [by eapply ts_thread|].
    eapply rtc_l; [by eapply ts_store|]. eapply rtc_l; [by eapply ts_notify|].
    apply rtc_once. by eapply ts_thread. }
  split_and!.
  - exists t. split_and!; try done. intros t' Hs Hne. unfold implementTimer in Hs.
    destruct Hs as [t' ? Hi|t' ? Hi| | | | | |]; try congruence; try (by auto);
      unfold implementTimer in Hi; rewrite Hp in Hi; done.
  - intros u _ Hf Hd Hc. destruct (implementTimer u) as [t'|] eqn:E.
    + by eapply ts_freed.
    + apply ts_wake_freed; [|done]. unfold implementTimer in E. by destruct (phase u).
  - exists (destroy t). split_and!; [|done|done]. eapply rtc_r; [exact Hr|]. by apply ts_destroy.
Qed.
