(* ===== verification/Wire.v ===== *)
(** The wire format between a client and the server: the client library
    [client/APIs/UrmAPIs.cpp] with the [FlatBuffEncoder] of
    [modula/CoreModules/AuxRoutines.cpp], and [Request::deserialize] of
    [modula/Common/Request.cpp].

    A message is a buffer of [REQ_BUFFER_SIZE] bytes, each a [Z] in [0, 256), in the
    little-endian order of the supported targets.  The encoder writes at a cursor; the
    decoder is given the bytes from its cursor to the end of the buffer, so that a read
    past the end is a fault.  The unaligned accesses of both sides are taken to do what
    the targets do.  A call of the client library yields here the message it
    hands to [sendMsg]; the sockets are in Sockets.v. *)
From S2P Require Import Prelude UrmTypes Message Resource DLManager Request.
Open Scope list_scope.
Open Scope Z_scope.

(** ** Bytes *)
Fixpoint le_bytes (n : nat) (z : Z) : list Z :=
  match n with O => [] | S n => z mod 256 :: le_bytes n (z / 256) end.
Fixpoint le_val (bs : list Z) : Z :=
  match bs with [] => 0 | b :: bs => b + 256 * le_val bs end.

(** ** FlatBuffEncoder *)
Record FlatBuffEncoder := mkEnc {
  mBuffer : option (list Z);  (* the caller's buffer *)
  mCurPtr : Z;                (* offset of the cursor in it *)
  mRunningIndex : Z
}.

Definition FlatBuffEncoder_init : FlatBuffEncoder := mkEnc None 0 0.

Definition setBuf (buffer : list Z) (e : FlatBuffEncoder) : FlatBuffEncoder :=
  mkEnc (Some buffer) 0 0.

(** [*ptr = val; ptr++] at the cursor. *)
Definition assign_and_incr (bs : list Z) (buf : list Z) (cur : Z) : result (list Z * Z) :=
  let n := Z.to_nat cur in
  if (length buf <? n + length bs)%nat then Fault OutOfRange else
  Ok (take n buf ++ bs ++ drop (n + length bs) buf, cur + Z.of_nat (length bs)).

(** [append<T>(val)] for a type [T] of [n] bytes. *)
Definition append (n : nat) (val : Z) (e : FlatBuffEncoder) : result FlatBuffEncoder :=
  if mRunningIndex e =? -1 then Ok e else
  match mBuffer e with
  | None => Ok e
  | Some buf =>
    if wrap_u 64 (mRunningIndex e + Z.of_nat n) <? REQ_BUFFER_SIZE then
      '(buf, cur) ← assign_and_incr (le_bytes n val) buf (mCurPtr e);
      Ok (mkEnc (Some buf) cur (mRunningIndex e + Z.of_nat n))
    else Ok (mkEnc (Some buf) (mCurPtr e) REQ_BUFFER_SIZE)
  end.

(** The loop of [appendString] over the characters of the string. *)
Fixpoint append_chars (cs : list Z) (buf : list Z) (e : FlatBuffEncoder)
  : result FlatBuffEncoder :=
  match cs with
  | [] => Ok (mkEnc (Some buf) (mCurPtr e) (mRunningIndex e))
  | c :: cs =>
    if negb (mRunningIndex e =? -1) && (mRunningIndex e + 1 <? REQ_BUFFER_SIZE) then
      '(buf, cur) ← assign_and_incr [c mod 256] buf (mCurPtr e);
      append_chars cs buf (mkEnc (Some buf) cur (mRunningIndex e + 1))
    else Ok (mkEnc (Some buf) (mCurPtr e) REQ_BUFFER_SIZE)
  end.

Definition appendString (valStr : list Z) (e : FlatBuffEncoder) : result FlatBuffEncoder :=
  if mRunningIndex e =? -1 then Ok e else
  match mBuffer e with
  | None => Ok e
  | Some buf =>
    e ← append_chars valStr buf e;
    if (mRunningIndex e >=? 0) && (mRunningIndex e <? REQ_BUFFER_SIZE) then append 1 0 e else Ok e
  end.

Definition isBufSane (e : FlatBuffEncoder) : bool :=
  negb ((mRunningIndex e >=? REQ_BUFFER_SIZE) || bool_decide (mBuffer e = None)).

(** ** UrmAPIs.cpp *)

(** The union of a [SysResource]: a value, or a pointer to an array. *)
Inductive SysValue : Type :=
  | Value (value : Z)
  | Values (values : option (list Z)).

Record SysResource := mkSys {
  sr_mResCode : Z;
  sr_mResInfo : Z;
  sr_mOptionalInfo : Z;
  sr_mNumValues : Z;
  sr_mResValue : SysValue
}.

(** The calling process, seen by the library. *)
Record ClientMgr := mkClientMgr {
  isUrmCli : bool;
  cl_pid : Z;   (* getpid() *)
  cl_tid : Z;   (* gettid() *)
  cl_ppid : Z   (* getppid() *)
}.
Definition getClientPid (c : ClientMgr) : Z := if isUrmCli c then cl_ppid c else cl_pid c.
Definition getClientTid (c : ClientMgr) : Z := if isUrmCli c then cl_ppid c else cl_tid c.

Definition maxResPerReq : Z := 20.

Definition VALIDATE_GT (val base : Z) : option Z := if val >? base then Some val else None.
Definition VALIDATE_GE (val base : Z) : option Z := if val >=? base then Some val else None.

(** The common prefix of the messages on resources. *)
Definition append_header (c : ClientMgr) (ty : RequestType) (handle duration num properties : Z)
    (e : FlatBuffEncoder) : result FlatBuffEncoder :=
  e ← append 1 MOD_RESTUNE e;
  e ← append 1 (RequestType_val ty) e;
  e ← append 8 handle e;
  e ← append 8 duration e;
  e ← append 4 num e;
  e ← append 4 properties e;
  e ← append 4 (getClientPid c) e;
  append 4 (getClientTid c) e.

Definition sys_value (r : SysResource) : result Z :=
  match sr_mResValue r with Value v => Ok v | Values _ => Fault Indeterminate end.

Definition sys_values (r : SysResource) (j : nat) : result Z :=
  match sr_mResValue r with
  | Value _ => Fault WildPtr
  | Values p => l ← deref p; of_option OutOfRange (l !! j)
  end.

Fixpoint append_values (n j : nat) (r : SysResource) (e : FlatBuffEncoder)
  : result FlatBuffEncoder :=
  match n with
  | O => Ok e
  | S n => v ← sys_values r j; e ← append 4 v e; append_values n (S j) r e
  end.

(** One resource: [None] when a [VALIDATE] throws. *)
Definition append_resource (r : SysResource) (e : FlatBuffEncoder)
  : result (option FlatBuffEncoder) :=
  match VALIDATE_GT (sr_mResCode r) 0, VALIDATE_GE (sr_mResInfo r) 0,
        VALIDATE_GE (sr_mOptionalInfo r) 0, VALIDATE_GT (sr_mNumValues r) 0 with
  | Some code, Some info, Some opt, Some num =>
    e ← append 4 code e;
    e ← append 4 info e;
    e ← append 4 opt e;
    e ← append 4 num e;
    e ← (if sr_mNumValues r =? 1 then v ← sys_value r; append 4 v e
         else append_values (Z.to_nat (sr_mNumValues r)) 0 r e);
    Ok (Some e)
  | _, _, _, _ => Ok None
  end.

Fixpoint append_resources (n i : nat) (resourceList : list SysResource) (e : FlatBuffEncoder)
  : result (option FlatBuffEncoder) :=
  match n with
  | O => Ok (Some e)
  | S n =>
    r ← of_option OutOfRange (resourceList !! i);
    oe ← append_resource r e;
    match oe with None => Ok None | Some e => append_resources n (S i) resourceList e end
  end.

(** The buffer handed to [sendMsgHelper], if the encoding is sane. *)
Definition finish (e : FlatBuffEncoder) : option (list Z) :=
  if isBufSane e then mBuffer e else None.

Definition zero_buf : list Z := replicate (Z.to_nat REQ_BUFFER_SIZE) 0.

(** The API calls: the message sent, [None] when the call returns -1 without sending. *)
Definition tuneResources (c : ClientMgr) (duration properties numRes : Z)
    (resourceList : option (list SysResource)) (batch : FlatBuffEncoder)
  : result (option (list Z)) :=
  match resourceList with
  | None => Ok None
  | Some l =>
    if (numRes <=? 0) || (duration =? 0) || (duration <? -1) then Ok None else
    if numRes >? maxResPerReq then Ok None else
    match VALIDATE_GT numRes 0, VALIDATE_GE properties 0 with
    | Some num, Some props =>
      e ← append_header c REQ_RESOURCE_TUNING 0 duration num props (setBuf zero_buf batch);
      oe ← append_resources (Z.to_nat numRes) 0 l e;
      Ok (oe ≫= finish)
    | _, _ => Ok None
    end
  end.

Definition retuneResources (c : ClientMgr) (handle duration : Z) (batch : FlatBuffEncoder)
  : result (option (list Z)) :=
  if (handle <=? 0) || (duration =? 0) || (duration <? -1) then Ok None else
  e ← append_header c REQ_RESOURCE_RETUNING handle duration 0 0 (setBuf zero_buf batch);
  Ok (finish e).

Definition untuneResources (c : ClientMgr) (handle : Z) (batch : FlatBuffEncoder)
  : result (option (list Z)) :=
  if handle <=? 0 then Ok None else
  e ← append_header c REQ_RESOURCE_UNTUNING handle (-1) 0 0 (setBuf zero_buf batch);
  Ok (finish e).

(** ** Request::deserialize *)

(** [DEREF_AND_INCR] of a signed type of [n] bytes. *)
Definition deref_and_incr (n : nat) (p : list Z) : result (Z * list Z) :=
  if (length p <? n)%nat then Fault OutOfRange else
  Ok (wrap_s (8 * Z.of_nat n) (le_val (take n p)), drop n p).

(** The blocks the memory pool and the allocator have for one resource. *)
Record Blocks := mkBlocks {
  bk_node : option positive;  (* [ResIterable] *)
  bk_resource : bool;         (* [Resource] *)
  bk_values : bool;           (* the array of values *)
  bk_list : bool              (* the request's [DLManager], for the first resource *)
}.

(** A node as its constructor leaves it. *)
Definition new_node (x : positive) (s : Store) : Store :=
  mkStore (<[x := replicate 2 (mkLink None None)]> (st_links s)) (delete x (st_data s))
          (st_freed s ∖ {[x]}).

(** The values of a resource: whether every [setValueAt] succeeded. *)
Fixpoint read_values (fuel : nat) (j : Z) (resource : Resource) (p : list Z)
  : result (bool * Resource * list Z) :=
  if j <? getValuesCount resource then
    match fuel with
    | O => Fault OutOfFuel
    | S fuel =>
      '(v, p) ← deref_and_incr 4 p;
      '(rc, resource) ← setValueAt j v resource;
      if RC_IS_NOTOK rc then Ok (false, resource, p) else read_values fuel (j + 1) resource p
    end
  else Ok (true, resource, p).

Definition read_resource (values : bool) (p : list Z) : result (bool * Resource * list Z) :=
  '(code, p) ← deref_and_incr 4 p;
  '(info, p) ← deref_and_incr 4 p;
  '(opt, p) ← deref_and_incr 4 p;
  '(num, p) ← deref_and_incr 4 p;
  let resource := setNumValues values num
                    (setOptionalInfo opt (setResInfo info (setResCode code Resource_init))) in
  read_values (S (length p)) 0 resource p.

Fixpoint read_resources (fuel : nat) (blocks : Z -> Blocks) (i numResources : Z) (p : list Z)
    (s : Store) (r : Request) : result (ErrCode * Store * Request) :=
  if i <? numResources then
    match fuel with
    | O => Fault OutOfFuel
    | S fuel =>
      match bk_node (blocks i) with
      | None => Ok (RC_MEMORY_POOL_BLOCK_RETRIEVAL_FAILURE, s, r)
      | Some x =>
        let s := new_node x s in
        if negb (bk_resource (blocks i)) then Ok (RC_MEMORY_POOL_BLOCK_RETRIEVAL_FAILURE, s, r) else
        '(ok, resource, p) ← read_resource (bk_values (blocks i)) p;
        if negb ok then Ok (RC_REQUEST_DESERIALIZATION_FAILURE, s, r) else
        '(s, r) ← addResource (bk_list (blocks i)) (Some x) (set_data x resource s) r;
        read_resources fuel blocks (i + 1) numResources p s r
      end
    end
  else Ok (RC_SUCCESS, s, r).

Definition deserialize (blocks : Z -> Blocks) (buf : list Z) (s : Store) (r : Request)
  : result (ErrCode * Store * Request) :=
  '(_, p) ← deref_and_incr 1 buf;
  '(ty, p) ← deref_and_incr 1 p;
  '(handle, p) ← deref_and_incr 8 p;
  '(duration, p) ← deref_and_incr 8 p;
  '(numResources, p) ← deref_and_incr 4 p;
  '(properties, p) ← deref_and_incr 4 p;
  '(pid, p) ← deref_and_incr 4 p;
  '(tid, p) ← deref_and_incr 4 p;
  let r := with_msg (mkMessage handle duration properties pid tid ty) r in
  if ty =? RequestType_val REQ_RESOURCE_TUNING
  then read_resources (S (length p)) blocks 0 numResources p s r
  else Ok (RC_SUCCESS, s, r).

(** ** Encoding *)
Lemma length_le_bytes n : forall z, length (le_bytes n z) = n.
Proof. induction n; intros; simpl; [done|by rewrite IHn]. Qed.

Lemma le_val_bytes n : forall z, le_val (le_bytes n z) = z mod 2 ^ (8 * Z.of_nat n).
Proof.
  induction n as [|n IH]; intros z; [by rewrite Z.mod_1_r|].
  cbn [le_bytes le_val]. rewrite IH.
  replace (8 * Z.of_nat (S n)) with (8 + 8 * Z.of_nat n) by lia.
  rewrite Z.pow_add_r by lia. change (2 ^ 8) with 256.
  rewrite Z.rem_mul_r by lia. done.
Qed.

Definition buf_size : nat := Z.to_nat REQ_BUFFER_SIZE.

(** After appending the bytes [bs], as far as they fit. *)
Definition wrote (bs : list Z) (e : FlatBuffEncoder) : Prop :=
  exists buf, mBuffer e = Some buf /\ length buf = buf_size /\
    if decide (length bs < buf_size)%nat
    then buf = bs ++ replicate (buf_size - length bs) 0 /\
         mCurPtr e = Z.of_nat (length bs) /\ mRunningIndex e = Z.of_nat (length bs)
    else mRunningIndex e = REQ_BUFFER_SIZE.

Lemma wrote_start e : wrote [] (setBuf zero_buf e).
Proof. by exists zero_buf. Qed.

Lemma append_wrote n v bs e : (0 < n <= 8)%nat -> wrote bs e ->
  exists e', append n v e = Ok e' /\ wrote (bs ++ le_bytes n v) e'.
Proof.
  intros Hn (buf & Hb & Hlen & Hw). unfold append. rewrite Hb.
  assert (buf_size = 580%nat) as Hsz by done.
  assert (length (bs ++ le_bytes n v) = length bs + n)%nat as Hl
    by by rewrite length_app, length_le_bytes.
  assert (0 <= mRunningIndex e <= 580) as Hr.
  { case_decide; [lia|]. rewrite Hw. done. }
  replace (mRunningIndex e =? -1) with false by lia.
  rewrite wrap_u_id by (unfold in_u; lia). change REQ_BUFFER_SIZE with 580 in *.
  destruct (Z.ltb_spec (mRunningIndex e + Z.of_nat n) 580) as [Hlt|Hge].
  - rewrite decide_True in Hw by (case_decide; lia). destruct Hw as (Hbuf & Hc & Hi).
    unfold assign_and_incr. rewrite Hc, Nat2Z.id, length_le_bytes.
    replace (length buf <? length bs + n)%nat with false by (symmetry; apply Nat.ltb_ge; lia).
    cbn [mbind result_bind]. eexists. split; [done|]. eexists. split; [done|].
    rewrite Hbuf, take_app_length, drop_app_ge, drop_replicate by lia.
    rewrite decide_True by lia. rewrite Hl.
    split_and!; [|rewrite <- app_assoc; do 3 f_equal; lia|cbn; lia|cbn; lia].
    rewrite !length_app, length_le_bytes, length_replicate. lia.
  - eexists. split; [done|]. exists buf. rewrite decide_False by (case_decide; lia). done.
Qed.

(** Runs the next [append] of the goal. *)
Ltac step_append :=
  match goal with
  | W : wrote ?bs ?e |- context [append ?n ?v ?e] =>
    let e' := fresh "e" in let E := fresh "E" in let W' := fresh "W" in
    destruct (append_wrote n v bs e ltac:(lia) W) as (e' & E & W'); rewrite E; clear E W;
    cbn [mbind result_bind]
  end.

Definition header_bytes (c : ClientMgr) (ty : RequestType) (handle duration num properties : Z)
  : list Z :=
  le_bytes 1 MOD_RESTUNE ++ le_bytes 1 (RequestType_val ty) ++ le_bytes 8 handle ++
  le_bytes 8 duration ++ le_bytes 4 num ++ le_bytes 4 properties ++
  le_bytes 4 (getClientPid c) ++ le_bytes 4 (getClientTid c).

Definition words (vs : list Z) : list Z := concat (map (le_bytes 4) vs).

(** The fields and the values of one resource, as sent. *)
Definition resource_bytes (rv : SysResource * list Z) : list Z :=
  words [sr_mResCode rv.1; sr_mResInfo rv.1; sr_mOptionalInfo rv.1; sr_mNumValues rv.1] ++
  words rv.2.

Lemma words_cons v vs : words (v :: vs) = le_bytes 4 v ++ words vs.
Proof. done. Qed.
Lemma length_words vs : length (words vs) = (4 * length vs)%nat.
Proof. induction vs as [|v vs IH]; [done|]. rewrite words_cons, length_app, IH. simpl. lia. Qed.

Lemma append_header_wrote c ty h d n p bs e : wrote bs e ->
  exists e', append_header c ty h d n p e = Ok e' /\ wrote (bs ++ header_bytes c ty h d n p) e'.
Proof.
  intros W. unfold append_header. do 8 step_append. eexists. split; [done|].
  unfold header_bytes. by rewrite !app_assoc in *.
Qed.

(** The resource holds the values [vs]. *)
Definition holds (r : SysResource) (vs : list Z) : Prop :=
  sr_mNumValues r = Z.of_nat (length vs) /\
  if decide (length vs = 1%nat) then exists v, sr_mResValue r = Value v /\ vs = [v]
  else exists l, sr_mResValue r = Values (Some l) /\ vs = take (length vs) l.

Lemma append_values_wrote r l : sr_mResValue r = Values (Some l) -> forall vs n j bs e,
  n = length vs -> (forall i, (i < length vs)%nat -> l !! (j + i)%nat = vs !! i) -> wrote bs e ->
  exists e', append_values n j r e = Ok e' /\ wrote (bs ++ words vs) e'.
Proof.
  intros Hr. induction vs as [|v vs IH]; intros n j bs e -> Hl W.
  - exists e. by rewrite app_nil_r.
  - cbn [length append_values]. unfold sys_values. rewrite Hr. cbn [deref mbind result_bind].
    pose proof (Hl 0%nat ltac:(simpl; lia)) as H0. rewrite Nat.add_0_r in H0. rewrite H0.
    cbn [of_option lookup list_lookup mbind result_bind]. step_append.
    destruct (fun H => IH (length vs) (S j) _ _ eq_refl H W0) as (e' & -> & W').
    { intros i Hi. rewrite Nat.add_succ_comm. apply (Hl (S i)). simpl. lia. }
    exists e'. split; [done|]. by rewrite words_cons, app_assoc.
Qed.

Definition sys_valid (r : SysResource) : Prop :=
  0 < sr_mResCode r /\ 0 <= sr_mResInfo r /\ 0 <= sr_mOptionalInfo r /\ 0 < sr_mNumValues r.
#[export] Instance sys_valid_dec r : Decision (sys_valid r).
Proof. unfold sys_valid. apply _. Defined.

Lemma append_resource_wrote r vs bs e : holds r vs -> wrote bs e ->
  if decide (sys_valid r)
  then exists e', append_resource r e = Ok (Some e') /\ wrote (bs ++ resource_bytes (r, vs)) e'
  else append_resource r e = Ok None.
Proof.
  intros [Hn Hv] W. unfold append_resource, VALIDATE_GT, VALIDATE_GE.
  destruct (decide (sys_valid r)) as [(H1 & H2 & H3 & H4)|Hno].
  - replace (sr_mResCode r >? 0) with true by lia. replace (sr_mResInfo r >=? 0) with true by lia.
    replace (sr_mOptionalInfo r >=? 0) with true by lia.
    replace (sr_mNumValues r >? 0) with true by lia. do 4 step_append.
    assert (forall e' ws, wrote ((((bs ++ le_bytes 4 (sr_mResCode r)) ++ le_bytes 4 (sr_mResInfo r)) ++
        le_bytes 4 (sr_mOptionalInfo r)) ++ le_bytes 4 (sr_mNumValues r) ++ ws) e' ->
        wrote (bs ++ words [sr_mResCode r; sr_mResInfo r; sr_mOptionalInfo r; sr_mNumValues r] ++ ws) e')
      as Hw by (intros e' ws Hw; unfold words; cbn [map concat];
        rewrite app_nil_r, <- !app_assoc; by rewrite <- !app_assoc in Hw).
    case_decide as Hone.
    + replace (sr_mNumValues r =? 1) with true by lia. destruct Hv as (v & E & ->).
      unfold sys_value. rewrite E. cbn [mbind result_bind]. step_append.
      eexists. split; [done|]. apply (Hw _ (words [v])).
      rewrite words_cons, app_nil_r, app_assoc. assumption.
    + replace (sr_mNumValues r =? 1) with false by lia. destruct Hv as (l & E & Hvs).
      destruct (fun H => append_values_wrote r l E vs (Z.to_nat (sr_mNumValues r)) 0 _ _ ltac:(lia) H ltac:(eassumption))
        as (e' & -> & W').
      { intros i Hi. rewrite Hvs. by rewrite lookup_take_lt by done. }
      cbn [mbind result_bind]. eexists. split; [done|]. apply (Hw _ (words vs)). by rewrite app_assoc.
  - destruct (sr_mResCode r >? 0) eqn:?, (sr_mResInfo r >=? 0) eqn:?, (sr_mOptionalInfo r >=? 0) eqn:?,
      (sr_mNumValues r >? 0) eqn:?; try done. exfalso. apply Hno. unfold sys_valid. lia.
Qed.

Definition payload (rvs : list (SysResource * list Z)) : list Z := concat (map resource_bytes rvs).

Lemma append_resources_wrote l : forall rvs n i bs e,
  n = length rvs -> (forall k, (k < length rvs)%nat -> l !! (i + k)%nat = rvs.*1 !! k) ->
  Forall (fun rv => holds rv.1 rv.2) rvs -> wrote bs e ->
  if decide (Forall sys_valid rvs.*1)
  then exists e', append_resources n i l e = Ok (Some e') /\ wrote (bs ++ payload rvs) e'
  else append_resources n i l e = Ok None.
Proof.
  induction rvs as [|[r vs] rvs IH]; intros n i bs e -> Hl Hh W.
  - rewrite decide_True by constructor. exists e. by rewrite app_nil_r.
  - apply Forall_cons in Hh as [Hr Hh]. cbn [length append_resources].
    pose proof (Hl 0%nat ltac:(simpl; lia)) as H0. rewrite Nat.add_0_r in H0. rewrite H0.
    cbn [fmap list_fmap lookup list_lookup of_option mbind result_bind fst].
    pose proof (append_resource_wrote r vs bs e Hr W) as Ha.
    destruct (decide (sys_valid r)) as [Hv|Hv]; [destruct Ha as (e' & -> & W')|rewrite Ha];
      cbn [mbind result_bind]; [|by rewrite decide_False by (rewrite Forall_cons; tauto)].
    specialize (IH (length rvs) (S i) _ e' eq_refl ltac:(intros; rewrite Nat.add_succ_comm;
      apply (Hl (S k)); simpl; lia) Hh W').
    destruct (decide (Forall sys_valid rvs.*1)) as [Hf|Hf].
    + rewrite decide_True by by constructor. destruct IH as (e2 & -> & W2).
      exists e2. split; [done|]. unfold payload in *. cbn [map concat]. by rewrite app_assoc.
    + rewrite decide_False by (rewrite Forall_cons; tauto). done.
Qed.

Lemma finish_wrote bs e : wrote bs e ->
  finish e = if decide (length bs < buf_size)%nat
             then Some (bs ++ replicate (buf_size - length bs) 0) else None.
Proof.
  intros (buf & Hb & _ & Hw). unfold finish, isBufSane. rewrite Hb.
  rewrite bool_decide_eq_false_2 by done. rewrite orb_false_r. change REQ_BUFFER_SIZE with 580 in *.
  assert (buf_size = 580%nat) as Hsz by done. case_decide as Hd.
  - destruct Hw as (-> & _ & ->). by replace (Z.of_nat (length bs) >=? 580) with false by lia.
  - by rewrite Hw.
Qed.

(** ** Decoding *)
Lemma deref_le n v p : (0 < n)%nat ->
  deref_and_incr n (le_bytes n v ++ p) = Ok (wrap_s (8 * Z.of_nat n) v, p).
Proof.
  intros Hn. unfold deref_and_incr. pose proof (length_le_bytes n v) as Hl.
  replace (length (le_bytes n v ++ p) <? n)%nat with false
    by (symmetry; apply Nat.ltb_ge; rewrite length_app; lia).
  rewrite take_app_length', drop_app_length', le_val_bytes by done. do 2 f_equal.
  apply wrap_s_mod; [lia|]. by rewrite Z.mod_mod by lia.
Qed.

Lemma deref_le_id n v p : (0 < n)%nat -> in_s (8 * Z.of_nat n) v ->
  deref_and_incr n (le_bytes n v ++ p) = Ok (v, p).
Proof. intros. rewrite deref_le, wrap_s_id by (done || lia). done. Qed.

(** A read either stays in the buffer or is a fault. *)
Lemma deref_total n p :
  (length p < n)%nat /\ deref_and_incr n p = Fault OutOfRange \/
  exists v p', deref_and_incr n p = Ok (v, p') /\ (length p = n + length p')%nat.
Proof.
  unfold deref_and_incr. destruct (Nat.ltb_spec (length p) n); [by left|right].
  eexists _, _. split; [done|]. rewrite length_drop. lia.
Qed.

(** Reading the values of a resource never faults otherwise, and fills them all. *)
Lemma read_values_total fuel : forall j res p,
  res_alloc res -> 0 <= j -> (length p < fuel)%nat ->
  read_values fuel j res p = Fault OutOfRange /\ Z.of_nat (length p) < 4 * (mNumValues res - j) \/
  exists res' p', read_values fuel j res p = Ok (true, res', p') /\ res_alloc res' /\
    res' = set_value (mResValue res') res /\
    Z.of_nat (length p) = Z.of_nat (length p') + 4 * Z.max 0 (mNumValues res - j).
Proof.
  induction fuel as [|fuel IH]; intros j res p Ha Hj Hf; [lia|]. cbn [read_values].
  unfold getValuesCount. destruct (Z.ltb_spec j (mNumValues res)) as [Hlt|Hge].
  - destruct (deref_total 4 p) as [[Hs ->]|(v & p' & -> & Hlen)]; cbn [mbind result_bind].
    { left. split; [done|]. lia. }
    destruct (setValueAt_spec res j v Ha ltac:(lia)) as (res1 & -> & Ha1 & E1 & _).
    cbn [mbind result_bind RC_IS_NOTOK RC_IS_OK negb].
    assert (mNumValues res1 = mNumValues res) as En by by rewrite E1.
    destruct (IH (j + 1) res1 p' Ha1 ltac:(lia) ltac:(lia)) as [[-> Hl]|(res' & p2 & -> & Ha' & E & Hl)].
    + left. split; [done|]. lia.
    + right. exists res', p2. split_and!; [done|done| |lia]. rewrite E, E1. done.
  - right. exists res, p. split_and!; [done|done|by destruct res|lia].
Qed.

Lemma read_values_le vs : forall fuel j res p,
  res_alloc res -> 0 <= j -> mNumValues res = j + Z.of_nat (length vs) ->
  (length vs < fuel)%nat -> Forall (in_s 32) vs ->
  exists res', read_values fuel j res (words vs ++ p) = Ok (true, res', p) /\ res_alloc res' /\
    res' = set_value (mResValue res') res /\
    (forall i v, vs !! i = Some v -> getValueAt res' (j + Z.of_nat i) = Ok v) /\
    (forall i, 0 <= i < j -> getValueAt res' i = getValueAt res i).
Proof.
  induction vs as [|v vs IH]; intros fuel j res p Ha Hj Hn Hf Hv;
    (destruct fuel as [|fuel]; [simpl in Hf; lia|]); cbn [read_values]; unfold getValuesCount.
  - replace (j <? mNumValues res) with false by (simpl in *; lia).
    exists res. split_and!; [done|done|by destruct res|done|done].
  - apply Forall_cons in Hv as [Hv Hvs]. cbn [length] in *.
    replace (j <? mNumValues res) with true by lia.
    rewrite words_cons, <- app_assoc, (deref_le_id 4) by (done || lia). cbn [mbind result_bind].
    destruct (setValueAt_spec res j v Ha ltac:(lia)) as (res1 & -> & Ha1 & E1 & Hg1).
    cbn [mbind result_bind RC_IS_NOTOK RC_IS_OK negb].
    assert (mNumValues res1 = mNumValues res) as En by by rewrite E1.
    destruct (IH fuel (j + 1) res1 p Ha1 ltac:(lia) ltac:(lia) ltac:(lia) Hvs)
      as (res' & -> & Ha' & E & Hnew & Hold).
    exists res'. split_and!; [done|done|rewrite E, E1; done| |].
    + intros [|i] w Hi; simpl in Hi.
      * injection Hi as <-. rewrite Z.add_0_r, Hold, Hg1, decide_True by (done || lia). done.
      * rewrite <- (Hnew i w Hi). f_equal. lia.
    + intros i Hi. rewrite Hold, Hg1, decide_False by lia. done.
Qed.

(** The resource that was sent, as the server holds it. *)
Definition delivered (rv : SysResource * list Z) (res : Resource) : Prop :=
  res_ok res /\ mResCode res = sr_mResCode rv.1 /\ mResInfo res = sr_mResInfo rv.1 /\
  mOptionalInfo res = sr_mOptionalInfo rv.1 /\ mNumValues res = Z.of_nat (length rv.2) /\
  mResAction res = RES_FORWARD /\
  forall i v, rv.2 !! i = Some v -> getValueAt res (Z.of_nat i) = Ok v.

(** The members have their C types. *)
Definition sys_typed (rv : SysResource * list Z) : Prop :=
  in_u 32 (sr_mResCode rv.1) /\ in_s 32 (sr_mResInfo rv.1) /\ in_s 32 (sr_mOptionalInfo rv.1) /\
  in_s 32 (sr_mNumValues rv.1) /\ Forall (in_s 32) rv.2 /\ holds rv.1 rv.2.

Lemma setNumValues_alloc n r :
  mResValue r = HeapArr None -> res_alloc (setNumValues true n r).
Proof.
  intros E. unfold res_alloc, setNumValues. simpl. destruct (Z.gtb_spec n 2).
  - rewrite length_replicate. lia.
  - rewrite E. done.
Qed.

Lemma read_resource_total p :
  read_resource true p = Fault OutOfRange \/
  exists res p', read_resource true p = Ok (true, res, p') /\ res_alloc res /\
    (16 + length p' <= length p)%nat.
Proof.
  unfold read_resource.
  repeat match goal with
    | |- context [deref_and_incr 4 ?q] =>
      let E := fresh "E" in let Hl := fresh "Hl" in
      destruct (deref_total 4 q) as [[_ E]|(? & ? & E & Hl)]; rewrite E; clear E;
      cbn [mbind result_bind]; [by left|]
    end.
  match goal with
  | |- context [read_values _ _ ?r ?q] =>
    destruct (read_values_total (S (length q)) 0 r q) as [[-> _]|(res & p' & -> & Ha & _ & Hlen)];
      [by apply setNumValues_alloc|lia|lia|by left|]
  end.
  right. exists res, p'. split_and!; [done|done|lia].
Qed.

Lemma read_resource_le rv p : sys_typed rv -> sys_valid rv.1 ->
  exists res, read_resource true (resource_bytes rv ++ p) = Ok (true, res, p) /\ delivered rv res.
Proof.
  destruct rv as [r vs]. intros (Hc & Hi & Ho & Hn & Hv & Hh) (V1 & V2 & V3 & V4). cbn [fst snd] in *.
  unfold read_resource, resource_bytes. cbn [fst snd]. rewrite !words_cons, <- !app_assoc.
  rewrite (deref_le 4) by lia. cbn [mbind result_bind].
  do 3 (rewrite (deref_le_id 4) by (done || lia); cbn [mbind result_bind]).
  change (words [] ++ ?x) with x. destruct Hh as [Hnum Hh].
  match goal with
  | |- context [read_values _ _ ?r0 _] =>
    destruct (read_values_le vs (S (length (words vs ++ p))) 0 r0 p)
      as (res & -> & Ha & E & Hg & _);
      [by apply setNumValues_alloc|done|done|rewrite length_app, length_words; lia|done|]
  end.
  assert (wrap_u 32 (wrap_s (8 * Z.of_nat 4) (sr_mResCode r)) = sr_mResCode r) as Ec.
  { unfold wrap_u. rewrite (wrap_s_mod_eq 32) by lia. by apply wrap_u_id. }
  assert (mResInfo res = sr_mResInfo r) as Ei.
  { rewrite E. cbn. apply wrap_u_id. unfold in_u, in_s in *. lia. }
  assert (mNumValues res = Z.of_nat (length vs)) as En by by rewrite E.
  exists res. split; [done|]. unfold delivered. cbn [fst snd].
  split_and!; [|by rewrite E; cbn|done|by rewrite E|done|by rewrite E|done].
  apply res_ok_intro; [by rewrite E; cbn; rewrite Ec|rewrite Ei; unfold in_u, in_s in *; lia|lia|done|].
  intros j Hj. destruct (lookup_lt_is_Some_2 vs (Z.to_nat j) ltac:(lia)) as [v Hl].
  apply Hg in Hl. rewrite Z.add_0_l, Z2Nat.id in Hl by lia. by rewrite Hl.
Qed.

(** ** The list of resources *)
Lemma link_at_new_ne x s k y : y <> x -> link_at (st_links (new_node x s)) k y = link_at (st_links s) k y.
Proof. intros Hne. unfold link_at. simpl. by rewrite lookup_insert_ne. Qed.

Lemma new_node_list x s r ys : req_list s r ys -> x ∉ ys -> req_list (new_node x s) r ys.
Proof.
  unfold req_list. destruct (mResourceList r) as [l|]; [|done]. intros [Hk Hd] Hx. split; [done|].
  eapply is_dll_frame; [|exact Hd]. intros y Hy. apply link_at_new_ne. set_solver.
Qed.

(** Nodes outside [ys] are untouched. *)
Definition frame (ys : list positive) (s s' : Store) : Prop :=
  forall y, y ∉ ys -> st_data s' !! y = st_data s !! y /\
    forall k, link_at (st_links s') k y = link_at (st_links s) k y.

Lemma frame_refl ys s : frame ys s s.
Proof. done. Qed.
Lemma frame_trans ys s1 s2 s3 : frame ys s1 s2 -> frame ys s2 s3 -> frame ys s1 s3.
Proof.
  intros A B y Hy. destruct (A y Hy) as [A1 A2], (B y Hy) as [B1 B2].
  split; [congruence|]. intros k. by rewrite B2, A2.
Qed.
Lemma frame_weaken ys zs s s' : ys ⊆ zs -> frame ys s s' -> frame zs s s'.
Proof. intros Hs A y Hy. apply A. set_solver. Qed.

(** A new node carrying [res] is added at the end of the request. *)
Lemma add_new x res s r ys rs : req_list s r ys -> x ∉ ys ->
  Forall2 (fun y r => st_data s !! y = Some r) ys rs ->
  exists s' r', addResource true (Some x) (set_data x res (new_node x s)) r = Ok (s', r') /\
    req_list s' r' (ys ++ [x]) /\ req_msg r' = req_msg r /\
    Forall2 (fun y r => st_data s' !! y = Some r) (ys ++ [x]) (rs ++ [res]) /\
    frame (ys ++ [x]) s s'.
Proof.
  intros Hl Hx Hd.
  destruct (addResource_refines true (set_data x res (new_node x s)) r ys x) as (s' & r' & E & Hl' & Ed & Ho & _);
    [by apply new_node_list|unfold link_at; simpl; rewrite lookup_insert_eq; simpl; eauto|done|by right|].
  exists s', r'. split; [done|]. split; [done|]. split_and!.
  - unfold addResource in E. destruct (mResourceList r); cbn in E; inv_ok E;
      destruct a as [[??]?]; by injection E as <- <-.
  - rewrite Ed. cbn. apply Forall2_app; [|constructor; [by rewrite lookup_insert_eq|constructor]].
    eapply Forall2_impl; [|intros y r0 Hy; exact Hy].
    apply Forall2_same_length_lookup_2; [by eapply Forall2_length|].
    intros i y r0 Hy Hr0. assert (y ∈ ys) by by eapply list_elem_of_lookup_2.
    rewrite lookup_insert_ne, lookup_delete_ne by set_solver.
    by eapply (Forall2_lookup_lr _ ys rs) in Hd.
  - intros y Hy. rewrite Ed. cbn. rewrite lookup_insert_ne, lookup_delete_ne by set_solver.
    split; [done|]. intros k. rewrite Ho by (right; set_solver). cbn. apply link_at_new_ne. set_solver.
Qed.

(** Memory is available: the [i]-th resource is given the node [node i]. *)
Definition ample (node : Z -> positive) (i : Z) : Blocks := mkBlocks (Some (node i)) true true true.
Definition distinct (node : Z -> positive) : Prop :=
  forall i j, 0 <= i -> 0 <= j -> node i = node j -> i = j.
Definition nodes_of (node : Z -> positive) (n : Z) : list positive := map node (seqZ 0 n).

Lemma nodes_of_S node i : 0 <= i -> nodes_of node (i + 1) = nodes_of node i ++ [node i].
Proof. intros. unfold nodes_of. rewrite seqZ_app, map_app by lia. done. Qed.
Lemma nodes_of_mono node i j : i <= j -> nodes_of node i ⊆ nodes_of node j.
Proof.
  intros Hij x (k & -> & Hk)%list_elem_of_fmap. apply list_elem_of_fmap.
  exists k. split; [done|]. rewrite elem_of_seqZ in *. lia.
Qed.
Lemma nodes_of_fresh node i : distinct node -> 0 <= i -> node i ∉ nodes_of node i.
Proof.
  intros Hd Hi (j & E & Hj)%list_elem_of_fmap. apply elem_of_seqZ in Hj.
  apply Hd in E; lia.
Qed.

Lemma read_resources_total node : distinct node -> forall fuel i n p s r,
  0 <= i -> (length p < fuel)%nat -> req_list s r (nodes_of node i) ->
  (exists rs, Forall2 (fun y r => st_data s !! y = Some r) (nodes_of node i) rs) ->
  read_resources fuel (ample node) i n p s r = Fault OutOfRange \/
  exists s' r', read_resources fuel (ample node) i n p s r = Ok (RC_SUCCESS, s', r') /\
    req_list s' r' (nodes_of node (Z.max i n)) /\ req_msg r' = req_msg r /\
    16 * (n - i) <= Z.of_nat (length p).
Proof.
  intros Hd. induction fuel as [|fuel IH]; intros i n p s r Hi Hf Hl [rs Hrs]; [lia|].
  cbn [read_resources]. destruct (Z.ltb_spec i n) as [Hlt|Hge].
  - cbn [ample bk_node bk_resource bk_values bk_list negb].
    destruct (read_resource_total p) as [->|(res & p' & -> & _ & Hlen)]; [by left|].
    cbn [mbind result_bind negb].
    destruct (add_new (node i) res s r _ rs Hl (nodes_of_fresh node i Hd Hi) Hrs)
      as (s1 & r1 & -> & Hl1 & Em & Hd1 & _). cbn [mbind result_bind].
    rewrite <- nodes_of_S in Hl1, Hd1 by done.
    destruct (IH (i + 1) n p' s1 r1 ltac:(lia) ltac:(lia) Hl1 ltac:(by eexists))
      as [->|(s' & r' & -> & Hl' & Em' & Hle)]; [by left|right].
    exists s', r'. split; [done|]. replace (Z.max i n) with (Z.max (i + 1) n) by lia.
    split; [done|]. split; [congruence|lia].
  - right. exists s, r. rewrite Z.max_l by done. split_and!; [done|done|done|lia].
Qed.

Lemma read_resources_le node : distinct node -> forall rvs rvs0 fuel i n p s r rs,
  i = Z.of_nat (length rvs0) -> n = i + Z.of_nat (length rvs) -> (length rvs < fuel)%nat ->
  Forall sys_typed rvs -> Forall sys_valid rvs.*1 ->
  req_list s r (nodes_of node i) ->
  Forall2 (fun y r => st_data s !! y = Some r) (nodes_of node i) rs -> Forall2 delivered rvs0 rs ->
  exists s' r' rs', read_resources fuel (ample node) i n (payload rvs ++ p) s r = Ok (RC_SUCCESS, s', r') /\
    req_list s' r' (nodes_of node n) /\ req_msg r' = req_msg r /\
    Forall2 (fun y r => st_data s' !! y = Some r) (nodes_of node n) rs' /\
    Forall2 delivered (rvs0 ++ rvs) rs' /\ frame (nodes_of node n) s s'.
Proof.
  intros Hd. induction rvs as [|rv rvs IH]; intros rvs0 fuel i n p s r rs Ei En Hf Ht Hv Hl Hrs Hdel;
    (destruct fuel as [|fuel]; [simpl in Hf; lia|]); cbn [read_resources length] in *.
  - replace n with i by lia. rewrite Z.ltb_irrefl. exists s, r, rs. rewrite app_nil_r.
    by split_and!.
  - apply Forall_cons in Ht as [Ht1 Ht]. apply Forall_cons in Hv as [Hv1 Hv].
    replace (i <? n) with true by lia. cbn [ample bk_node bk_resource bk_values bk_list negb].
    change (payload (rv :: rvs)) with (resource_bytes rv ++ payload rvs). rewrite <- app_assoc.
    destruct (read_resource_le rv (payload rvs ++ p) Ht1 Hv1) as (res & -> & Hres).
    cbn [mbind result_bind negb].
    destruct (add_new (node i) res s r _ rs Hl (nodes_of_fresh node i Hd ltac:(lia)) Hrs)
      as (s1 & r1 & -> & Hl1 & Em & Hd1 & Hfr1). cbn [mbind result_bind].
    rewrite <- nodes_of_S in Hl1, Hd1, Hfr1 by lia.
    destruct (IH (rvs0 ++ [rv]) fuel (i + 1) n p s1 r1 (rs ++ [res]))
      as (s' & r' & rs' & -> & Hl' & Em' & Hd' & Hdel' & Hfr);
      [rewrite length_app; simpl; lia|lia|lia|done|done|done|done|by apply Forall2_app; [|constructor]|].
    exists s', r', rs'. rewrite <- app_assoc in Hdel'. split_and!; [done|done|congruence|done|done|].
    eapply frame_trans; [|done]. eapply frame_weaken; [|done]. apply nodes_of_mono. lia.
Qed.

(** ** Properties *)
Lemma payload_length rvs :
  length (payload rvs) = sum_list_with (fun rv => 16 + 4 * length rv.2)%nat rvs.
Proof.
  induction rvs as [|[r vs] rvs IH]; [done|].
  change (payload ((r, vs) :: rvs)) with (resource_bytes (r, vs) ++ payload rvs).
  rewrite length_app, IH. unfold resource_bytes. rewrite length_app, !length_words. simpl. lia.
Qed.

(** The process ids the client sends. *)
Definition client_typed (c : ClientMgr) : Prop := in_s 32 (getClientPid c) /\ in_s 32 (getClientTid c).

Lemma type_byte ty : in_s 8 (RequestType_val ty).
Proof. unfold in_s. destruct ty; simpl; lia. Qed.

Lemma deserialize_header blocks c ty h d n p rest s r :
  client_typed c -> in_s 64 h -> in_s 64 d -> in_s 32 n -> in_s 32 p ->
  deserialize blocks (header_bytes c ty h d n p ++ rest) s r =
  let r' := with_msg (mkMessage h d p (getClientPid c) (getClientTid c) (RequestType_val ty)) r in
  if RequestType_val ty =? RequestType_val REQ_RESOURCE_TUNING
  then read_resources (S (length rest)) blocks 0 n rest s r' else Ok (RC_SUCCESS, s, r').
Proof.
  intros [Hp Ht] Hh Hd Hn Hpr. unfold deserialize, header_bytes. rewrite <- !app_assoc.
  rewrite (deref_le 1) by lia. cbn [mbind result_bind].
  rewrite (deref_le_id 1) by (lia || apply type_byte). cbn [mbind result_bind].
  do 2 (rewrite (deref_le_id 8) by (done || lia); cbn [mbind result_bind]).
  do 4 (rewrite (deref_le_id 4) by (done || lia); cbn [mbind result_bind]). done.
Qed.

Lemma header_length c ty h d n p : length (header_bytes c ty h d n p) = 34%nat.
Proof. unfold header_bytes. by rewrite !length_app, !length_le_bytes. Qed.

(** What [tuneResources] sends. *)
Definition tune_accepted (duration properties : Z) (rvs : list (SysResource * list Z)) : Prop :=
  (0 < length rvs <= 20)%nat /\ (duration = -1 \/ 0 < duration) /\ 0 <= properties /\
  Forall sys_valid rvs.*1 /\
  (34 + sum_list_with (fun rv => 16 + 4 * length rv.2)%nat rvs < buf_size)%nat.
#[export] Instance tune_accepted_dec d p rvs : Decision (tune_accepted d p rvs).
Proof. unfold tune_accepted. apply _. Defined.

Definition tune_message (c : ClientMgr) (duration properties : Z) (rvs : list (SysResource * list Z))
  : list Z :=
  let bs := header_bytes c REQ_RESOURCE_TUNING 0 duration (Z.of_nat (length rvs)) properties ++
            payload rvs in
  bs ++ replicate (buf_size - length bs) 0.

Lemma tuneResources_message c duration properties rvs batch :
  Forall (fun rv => holds rv.1 rv.2) rvs ->
  tuneResources c duration properties (Z.of_nat (length rvs)) (Some rvs.*1) batch =
  Ok (if decide (tune_accepted duration properties rvs)
      then Some (tune_message c duration properties rvs) else None).
Proof.
  intros Hh. unfold tuneResources, VALIDATE_GT, VALIDATE_GE, maxResPerReq.
  destruct (((Z.of_nat (length rvs) <=? 0) || (duration =? 0) || (duration <? -1))) eqn:E1.
  { rewrite decide_False; [done|]. intros (Hn & Hd & _). repeat (zb; destruct E1 as [E1|E1]); zb; lia. }
  destruct (Z.of_nat (length rvs) >? 20) eqn:E2.
  { rewrite decide_False; [done|]. intros (Hn & _). zb. lia. }
  replace (Z.of_nat (length rvs) >? 0) with true by (zb; lia).
  destruct (properties >=? 0) eqn:E3.
  2:{ rewrite decide_False; [done|]. intros (_ & _ & Hp & _). zb. lia. }
  destruct (append_header_wrote c REQ_RESOURCE_TUNING 0 duration (Z.of_nat (length rvs)) properties
              [] (setBuf zero_buf batch) (wrote_start batch)) as (e & -> & W).
  cbn [mbind result_bind app] in *. rewrite Nat2Z.id.
  pose proof (append_resources_wrote rvs.*1 rvs _ 0 _ e eq_refl ltac:(done) Hh W) as Hr.
  destruct (decide (Forall sys_valid rvs.*1)) as [Hv|Hv].
  - destruct Hr as (e' & -> & W'). cbn [mbind result_bind option_bind].
    rewrite (finish_wrote _ _ W'). f_equal.
    rewrite length_app, header_length, payload_length.
    assert (tune_accepted duration properties rvs <->
            34 + sum_list_with (fun rv => 16 + 4 * length rv.2)%nat rvs < buf_size)%nat as Hiff.
    { unfold tune_accepted. split; [tauto|]. intros ?. zb. split_and!; [lia|lia|lia|lia|done|done]. }
    unfold tune_message. rewrite length_app, header_length, payload_length.
    by repeat case_decide; try tauto.
  - rewrite Hr. cbn. rewrite decide_False; [done|]. by intros (_ & _ & _ & ? & _).
Qed.

(** Decoding the message of an accepted request. *)
Lemma decode_tune c duration properties rvs node s junk :
  client_typed c -> in_s 64 duration -> in_s 32 properties -> Forall sys_typed rvs -> distinct node ->
  tune_accepted duration properties rvs ->
  let xs := nodes_of node (Z.of_nat (length rvs)) in
  exists s' r' rs, deserialize (ample node) (tune_message c duration properties rvs) s (Request_init junk) =
      Ok (RC_SUCCESS, s', r') /\
    req_msg r' = mkMessage 0 duration properties (getClientPid c) (getClientTid c)
                   (RequestType_val REQ_RESOURCE_TUNING) /\
    req_list s' r' xs /\ node_data s' xs rs /\ Forall2 delivered rvs rs /\ frame xs s s'.
Proof.
  intros Hc Hd Hp Ht Hdis (Hn & _ & _ & Hv & Hsz) xs. unfold tune_message.
  rewrite <- app_assoc, deserialize_header by (done || unfold in_s; lia). cbn zeta.
  rewrite Z.eqb_refl.
  match goal with |- context [payload rvs ++ ?z] => set (rest := z) end.
  destruct (read_resources_le node Hdis rvs [] (S (length (payload rvs ++ rest))) 0
              (Z.of_nat (length rvs)) rest s
              (with_msg (mkMessage 0 duration properties (getClientPid c) (getClientTid c)
                (RequestType_val REQ_RESOURCE_TUNING)) (Request_init junk)) [])
    as (s' & r' & rs & E & Hl & Em & Hdat & Hdel & Hfr); try done; try by constructor.
  { rewrite length_app, payload_length.
    assert (length rvs <= sum_list_with (fun rv => 16 + 4 * length rv.2)%nat rvs)%nat; [|lia].
    clear. induction rvs as [|rv rvs IH]; [done|]. cbn [length sum_list_with]. lia. }
  exists s', r', rs. split_and!; [done|done|done| |done|done]. split; [done|].
  clear -Hdel. induction Hdel as [|? ? ? ? [? _]]; constructor; done.
Qed.

Lemma tune_message_length c duration properties rvs :
  tune_accepted duration properties rvs ->
  length (tune_message c duration properties rvs) = Z.to_nat REQ_BUFFER_SIZE.
Proof.
  intros (_ & _ & _ & _ & Hsz). unfold tune_message.
  rewrite !length_app, length_replicate, header_length, payload_length.
  change (Z.to_nat _) with buf_size. lia.
Qed.

(** C21: a tune request survives the wire.  [tuneResources] hands a message to the socket
    exactly when the request is well formed ([tune_accepted]: 1 to 20 resources, a
    duration, non-negative fields) and its encoding takes less than [REQ_BUFFER_SIZE]
    bytes; the message is one full buffer, and [Request::deserialize] rebuilds from it,
    in order, every resource with its code, info, values, and the duration, properties
    and ids of the caller. *)
Theorem tuneResources_roundtrip (c : ClientMgr) (duration properties : Z)
    (rvs : list (SysResource * list Z)) (batch : FlatBuffEncoder) (node : Z -> positive)
    (s : Store) (junk : Message) :
  client_typed c -> in_s 64 duration -> in_s 32 properties -> Forall sys_typed rvs -> distinct node ->
  let sent := tuneResources c duration properties (Z.of_nat (length rvs)) (Some rvs.*1) batch in
  let xs := nodes_of node (Z.of_nat (length rvs)) in
  (~ tune_accepted duration properties rvs -> sent = Ok None) /\
  (tune_accepted duration properties rvs ->
   exists buf, sent = Ok (Some buf) /\ length buf = Z.to_nat REQ_BUFFER_SIZE /\
     exists s' r' rs, deserialize (ample node) buf s (Request_init junk) = Ok (RC_SUCCESS, s', r') /\
       req_msg r' = mkMessage 0 duration properties (getClientPid c) (getClientTid c)
                      (RequestType_val REQ_RESOURCE_TUNING) /\
       req_list s' r' xs /\ node_data s' xs rs /\ Forall2 delivered rvs rs).
Proof.
  intros Hc Hd Hp Ht Hdis sent xs.
  assert (Forall (fun rv => holds rv.1 rv.2) rvs) as Hh.
  { eapply Forall_impl; [exact Ht|]. by intros ? (_ & _ & _ & _ & _ & ?). }
  unfold sent. rewrite tuneResources_message by done.
  split; intros Hacc; [by rewrite decide_False|rewrite decide_True by done].
  exists (tune_message c duration properties rvs). split; [done|].
  split; [by apply tune_message_length|].
  destruct (decode_tune c duration properties rvs node s junk Hc Hd Hp Ht Hdis Hacc)
    as (s' & r' & rs & E & Em & Hl & Hdat & Hdel & _).
  exists s', r', rs. by split_and!.
Qed.

(** The messages of [retuneResources] and [untuneResources] are sent for a positive
    handle (and a duration, for a retune), and are read back as requests of their type
    on that handle, with no resources. *)
Theorem handle_requests_roundtrip (c : ClientMgr) (handle duration : Z) (batch : FlatBuffEncoder)
    (blocks : Z -> Blocks) (s : Store) (junk : Message) :
  client_typed c -> in_s 64 handle -> in_s 64 duration ->
  let back ty duration sent := exists buf, sent = Ok (Some buf) /\
    deserialize blocks buf s (Request_init junk) =
    Ok (RC_SUCCESS, s, mkRequest (mkMessage handle duration 0 (getClientPid c) (getClientTid c)
                                   (RequestType_val ty)) None None 0) in
  (0 < handle -> duration = -1 \/ 0 < duration ->
   back REQ_RESOURCE_RETUNING duration (retuneResources c handle duration batch)) /\
  (0 < handle -> back REQ_RESOURCE_UNTUNING (-1) (untuneResources c handle batch)) /\
  (handle <= 0 -> retuneResources c handle duration batch = Ok None /\
                  untuneResources c handle batch = Ok None) /\
  (duration = 0 \/ duration < -1 -> retuneResources c handle duration batch = Ok None).
Proof.
  intros Hc Hh Hd back.
  assert (forall ty d, in_s 64 d -> RequestType_val ty <> RequestType_val REQ_RESOURCE_TUNING ->
    back ty d (e ← append_header c ty handle d 0 0 (setBuf zero_buf batch); Ok (finish e))) as Hback.
  { intros ty d Hd' Hty.
    destruct (append_header_wrote c ty handle d 0 0 [] _ (wrote_start batch)) as (e & -> & W).
    cbn [mbind result_bind]. unfold back. rewrite (finish_wrote _ _ W).
    rewrite decide_True by (rewrite length_app, header_length; vm_compute; lia).
    eexists. split; [done|]. cbn [app].
    rewrite deserialize_header by (done || unfold in_s; lia). cbn zeta.
    by replace (RequestType_val ty =? _) with false by lia. }
  unfold retuneResources, untuneResources. split_and!.
  - intros Hpos Hdur. replace (_ || _ || _) with false by lia. by apply Hback.
  - intros Hpos. replace (handle <=? 0) with false by lia. by apply Hback.
  - intros Hneg. replace (handle <=? 0) with true by lia. done.
  - intros Hdur. by replace (_ || _ || _) with true by lia.
Qed.

(** The resource count a buffer announces, and its type. *)
Definition announced (buf : list Z) : Z := wrap_s 32 (le_val (take 4 (drop 18 buf))).
Definition type_of (buf : list Z) : Z := wrap_s 8 (le_val (take 1 (drop 1 buf))).

Lemma deref_at n buf k : (k + n <= length buf)%nat ->
  deref_and_incr n (drop k buf) =
  Ok (wrap_s (8 * Z.of_nat n) (le_val (take n (drop k buf))), drop (k + n) buf).
Proof.
  intros Hk. unfold deref_and_incr. rewrite length_drop.
  replace (length buf - k <? n)%nat with false by (symmetry; apply Nat.ltb_ge; lia).
  by rewrite drop_drop.
Qed.

Lemma deserialize_fields blocks buf s r : (34 <= length buf)%nat ->
  exists m, getRequestType m = type_of buf /\
    deserialize blocks buf s r =
    if type_of buf =? RequestType_val REQ_RESOURCE_TUNING
    then read_resources (S (length (drop 34 buf))) blocks 0 (announced buf) (drop 34 buf) s (with_msg m r)
    else Ok (RC_SUCCESS, s, with_msg m r).
Proof.
  intros Hl. unfold deserialize. change (deref_and_incr 1 buf) with (deref_and_incr 1 (drop 0 buf)).
  do 8 (rewrite deref_at by lia; cbn [mbind result_bind Nat.add]).
  eexists. split; [|reflexivity]. done.
Qed.

(** The count of values that the first resource of a buffer announces. *)
Definition first_count (buf : list Z) : Z := wrap_s 32 (le_val (take 4 (drop 46 buf))).

(** A first resource with more values than the message has room for. *)
Lemma first_resource_overruns node fuel n buf s r : length buf = 580%nat -> 0 < n -> 132 < first_count buf ->
  read_resources (S fuel) (ample node) 0 n (drop 34 buf) s r = Fault OutOfRange.
Proof.
  intros Hl Hn Hc. cbn [read_resources ample bk_node bk_resource bk_values].
  replace (0 <? n) with true by lia. cbn [negb]. unfold read_resource.
  do 4 (rewrite deref_at by lia; cbn [mbind result_bind Nat.add]). change (8 * Z.of_nat 4) with 32.
  fold (first_count buf).
  match goal with |- context [read_values _ _ ?r ?q] =>
    destruct (read_values_total (S (length q)) 0 r q) as [[-> _]|(res & p' & _ & _ & _ & Hlen)];
      [by apply setNumValues_alloc|lia|lia|done|] end.
  rewrite length_drop, Hl in Hlen. cbn in Hlen. lia.
Qed.

(** C36: given memory, [Request::deserialize] of any buffer of the message size either reads past
    the end of the buffer, since the counts are not checked against the message, or
    succeeds: with no node, whatever the counts, for a type other than a tune request, and for a
    tune request with a list of as many nodes as the buffer announces, none for a
    negative count.  A tune request that announces more than 34 resources is always read out of
    bounds, and so is one with a resource at least whose first resource announces more than 132
    values. *)
Theorem deserialize_bounds (node : Z -> positive) (s : Store) (junk : Message) (buf : list Z) :
  distinct node -> length buf = Z.to_nat REQ_BUFFER_SIZE ->
  let read := deserialize (ample node) buf s (Request_init junk) in
  let tune := type_of buf = RequestType_val REQ_RESOURCE_TUNING in
  (read = Fault OutOfRange \/
   exists s' r', read = Ok (RC_SUCCESS, s', r') /\ getRequestType (req_msg r') = type_of buf /\
     (tune -> req_list s' r' (nodes_of node (Z.max 0 (announced buf)))) /\
     (~ tune -> s' = s /\ mResourceList r' = None)) /\
  (tune -> 34 < announced buf -> read = Fault OutOfRange) /\
  (tune -> 0 < announced buf -> 132 < first_count buf -> read = Fault OutOfRange).
Proof.
  intros Hdis Hlen read tune. change (Z.to_nat REQ_BUFFER_SIZE) with 580%nat in Hlen.
  destruct (deserialize_fields (ample node) buf s (Request_init junk)) as (m & Em & E); [lia|].
  unfold read. rewrite E. clear E. unfold tune. destruct (Z.eqb_spec (type_of buf) (RequestType_val REQ_RESOURCE_TUNING)).
  - assert (0 < announced buf -> 132 < first_count buf ->
      read_resources (S (length (drop 34 buf))) (ample node) 0 (announced buf) (drop 34 buf) s
        (with_msg m (Request_init junk)) = Fault OutOfRange) as Hfirst by (intros; by apply first_resource_overruns).
    destruct (read_resources_total node Hdis (S (length (drop 34 buf))) 0 (announced buf)
                (drop 34 buf) s (with_msg m (Request_init junk)))
      as [->|(s' & r' & E & Hl & Em' & Hle)]; [done|lia|done|by exists []|tauto|].
    rewrite length_drop in Hle. split; [right|split; [intros; lia|tauto]].
    exists s', r'. by rewrite Em'.
  - split; [right|done]. eexists _, _. by split_and!.
Qed.

(** ** Concrete runs *)
Definition sample_client : ClientMgr := mkClientMgr false 100 101 1.
Definition sample_node (i : Z) : positive := Z.to_pos (i + 1).
Definition sample_resources : list (SysResource * list Z) :=
  [(mkSys 65536 0 0 1 (Value 7), [7]); (mkSys 4294901761 258 0 3 (Values (Some [1; -2; 3])), [1; -2; 3])].
Definition zero_msg : Message := mkMessage 0 0 0 0 0 0.

Lemma sample_client_typed : client_typed sample_client.
Proof. split; unfold in_s; cbn; lia. Qed.
Lemma sample_node_distinct : distinct sample_node.
Proof. intros i j Hi Hj E. unfold sample_node in E. lia. Qed.

Lemma tuneResources_roundtrip_witness :
  exists buf s' r', tuneResources sample_client 500 0 2 (Some sample_resources.*1) FlatBuffEncoder_init
      = Ok (Some buf) /\
    deserialize (ample sample_node) buf (mkStore ∅ ∅ ∅) (Request_init zero_msg) = Ok (RC_SUCCESS, s', r') /\
    getResourcesCount r' = 2.
Proof.
  destruct (tuneResources_roundtrip sample_client 500 0 sample_resources FlatBuffEncoder_init
              sample_node (mkStore ∅ ∅ ∅) zero_msg) as [_ H].
  - exact sample_client_typed.
  - unfold in_s. lia.
  - unfold in_s. lia.
  - repeat constructor; cbn; try (unfold in_u, in_s; lia); eexists; split; reflexivity.
  - exact sample_node_distinct.
  - destruct H as (buf & E & _ & s' & r' & rs & E' & _ & Hl & _).
    + unfold tune_accepted. split_and!; try (cbn; lia).
      * repeat constructor; unfold sys_valid; cbn; lia.
      * vm_compute. lia.
    + exists buf, s', r'. split_and!; [exact E|exact E'|]. unfold getResourcesCount.
      unfold req_list in Hl. destruct (mResourceList r') as [l|]; [|done].
      destruct Hl as [_ Hd]. exact (dll_size _ _ _ Hd).
Defined.

Lemma handle_requests_roundtrip_witness :
  exists buf, untuneResources sample_client 42 FlatBuffEncoder_init = Ok (Some buf) /\
    deserialize (ample sample_node) buf (mkStore ∅ ∅ ∅) (Request_init zero_msg) =
    Ok (RC_SUCCESS, mkStore ∅ ∅ ∅, mkRequest (mkMessage 42 (-1) 0 100 101 2) None None 0).
Proof.
  destruct (handle_requests_roundtrip sample_client 42 100 FlatBuffEncoder_init (ample sample_node)
              (mkStore ∅ ∅ ∅) zero_msg) as (_ & H & _).
  - exact sample_client_typed.
  - unfold in_s. lia.
  - unfold in_s. lia.
  - apply H. lia.
Defined.

Lemma deserialize_bounds_witness :
  let buf := header_bytes sample_client REQ_RESOURCE_TUNING 0 1 1 0 ++ words [1; 0; 0; 200] ++ replicate 530 0 in
  deserialize (ample sample_node) buf (mkStore ∅ ∅ ∅) (Request_init zero_msg) = Fault OutOfRange.
Proof.
  intros buf.
  destruct (deserialize_bounds sample_node (mkStore ∅ ∅ ∅) zero_msg buf sample_node_distinct) as (_ & _ & H).
  - vm_compute. reflexivity.
  - apply H; vm_compute; reflexivity.
Defined.
