(* ===== verification/Signal.v ===== *)
(** [modula/Common/Signal.cpp], [Signal.h] and the calls of [client/APIs/UrmAPIs.cpp] on
    signals: the signal message, its encoding by the client library and its decoding by
    the server.  The buffers and the cursor are those of Wire.v; strings are lists of
    bytes.  The members that [Signal()] does not initialise are [None] until they are
    written; a read of such a member is a fault. *)
From S2P Require Import Prelude UrmTypes Message Wire.
Open Scope list_scope.
Open Scope Z_scope.

Record Signal := mkSignal {
  sg_msg : Message;
  mSignalCode : Z;                            (* uint32_t *)
  mSignalType : Z;                            (* uint32_t *)
  mAppName : list Z;
  mScenario : list Z;
  mNumArgs : Z;                               (* int32_t *)
  mListArgs : option (option (list Z))        (* [Some None] is the null pointer *)
}.

(** [junk] is what the block held before. *)
Definition Signal_init (junk : Message) : Signal := mkSignal (Message_init junk) 0 0 [] [] 0 None.

Definition with_sg_msg (m : Message) (s : Signal) : Signal :=
  mkSignal m (mSignalCode s) (mSignalType s) (mAppName s) (mScenario s) (mNumArgs s) (mListArgs s).
Definition setList (l : option (list Z)) (s : Signal) : Signal :=
  mkSignal (sg_msg s) (mSignalCode s) (mSignalType s) (mAppName s) (mScenario s) (mNumArgs s) (Some l).

Definition getSignalCode (s : Signal) : Z := mSignalCode s.
Definition getSignalType (s : Signal) : Z := mSignalType s.
Definition getNumArgs (s : Signal) : Z := mNumArgs s.
Definition getListArgs (s : Signal) : result (option (list Z)) :=
  of_option Indeterminate (mListArgs s).
Definition getListArgAt (index : Z) (s : Signal) : result Z :=
  p ← getListArgs s;
  l ← deref p;
  if index <? 0 then Fault OutOfRange else of_option OutOfRange (l !! Z.to_nat index).

(** ** The client *)

(** The loop over the characters, then the terminator. *)
Fixpoint append_chars (cs : list Z) (e : FlatBuffEncoder) : result FlatBuffEncoder :=
  match cs with
  | [] => append 1 0 e
  | c :: cs => e ← append 1 c e; append_chars cs e
  end.

Fixpoint append_args (n i : nat) (l : option (list Z)) (e : FlatBuffEncoder)
  : result FlatBuffEncoder :=
  match n with
  | O => Ok e
  | S n =>
    l' ← deref l;
    v ← of_option OutOfRange (l' !! i);
    e ← append 4 v e;
    append_args n (S i) l e
  end.

Definition append_signal_header (ty : RequestType) (sigId sigType handle duration : Z)
    (e : FlatBuffEncoder) : result FlatBuffEncoder :=
  e ← append 1 MOD_RESTUNE e;
  e ← append 1 (RequestType_val ty) e;
  e ← append 4 sigId e;
  e ← append 4 sigType e;
  e ← append 8 handle e;
  append 8 duration e.

Definition append_signal_ids (c : ClientMgr) (numArgs properties : Z) (e : FlatBuffEncoder)
  : result FlatBuffEncoder :=
  e ← append 4 numArgs e;
  e ← append 4 properties e;
  e ← append 4 (getClientPid c) e;
  append 4 (getClientTid c) e.

(** The common body of [tuneSignal] and [relaySignal]: the message sent, if any. *)
Definition send_signal (ty : RequestType) (c : ClientMgr) (sigId sigType duration properties : Z)
    (appName scenario : option (list Z)) (numArgs : Z) (args : option (list Z))
    (batch : FlatBuffEncoder) : result (option (list Z)) :=
  if (duration <? -1) || (numArgs <? 0) || (bool_decide (is_Some args) && (numArgs =? 0))
  then Ok None else
  e ← append_signal_header ty sigId sigType 0 duration (setBuf zero_buf batch);
  app ← deref appName;
  e ← append_chars app e;
  scen ← deref scenario;
  e ← append_chars scen e;
  match VALIDATE_GE numArgs 0, VALIDATE_GE properties 0 with
  | Some num, Some props =>
    e ← append_signal_ids c num props e;
    e ← append_args (Z.to_nat numArgs) 0 args e;
    Ok (finish e)
  | _, _ => Ok None
  end.
Definition tuneSignal := send_signal REQ_SIGNAL_TUNING.
Definition relaySignal := send_signal REQ_SIGNAL_RELAY.

Definition untuneSignal (c : ClientMgr) (handle : Z) (batch : FlatBuffEncoder)
  : result (option (list Z)) :=
  if handle <=? 0 then Ok None else
  e ← append_signal_header REQ_SIGNAL_UNTUNING 0 0 handle (-1) (setBuf zero_buf batch);
  e ← append 1 0 e;
  e ← append 1 0 e;
  e ← append_signal_ids c 0 0 e;
  Ok (finish e).

(** ** The server *)

(** A string up to its terminator. *)
Fixpoint read_cstr (p : list Z) : result (list Z * list Z) :=
  match p with
  | [] => Fault OutOfRange
  | c :: p => if c =? 0 then Ok ([], p) else '(s, p) ← read_cstr p; Ok (c :: s, p)
  end.

Fixpoint read_args (n : nat) (p : list Z) : result (list Z) :=
  match n with
  | O => Ok []
  | S n =>
    '(v, p) ← deref_and_incr 4 p;
    vs ← read_args n p;
    Ok (wrap_u 32 v :: vs)
  end.

(** [vec]: a block for the vector; [heap]: memory for its elements.  A negative count is
    converted to [size_t] and exceeds [max_size()]: [resize] throws [length_error]. *)
Definition deserialize (vec heap : bool) (buf : list Z) (s : Signal) : result (ErrCode * Signal) :=
  '(_, p) ← deref_and_incr 1 buf;
  '(ty, p) ← deref_and_incr 1 p;
  '(code, p) ← deref_and_incr 4 p;
  '(sty, p) ← deref_and_incr 4 p;
  '(handle, p) ← deref_and_incr 8 p;
  '(duration, p) ← deref_and_incr 8 p;
  '(app, p) ← read_cstr p;
  '(scen, p) ← read_cstr p;
  '(num, p) ← deref_and_incr 4 p;
  '(properties, p) ← deref_and_incr 4 p;
  '(pid, p) ← deref_and_incr 4 p;
  '(tid, p) ← deref_and_incr 4 p;
  let s := mkSignal (mkMessage handle duration properties pid tid ty)
             (wrap_u 32 code) (wrap_u 32 sty) app scen num (mListArgs s) in
  if negb vec then Ok (RC_MEMORY_POOL_BLOCK_RETRIEVAL_FAILURE, s) else
  if num <? 0 then Ok (RC_REQUEST_DESERIALIZATION_FAILURE, setList (Some []) s) else
  if negb heap && (0 <? num)
  then Ok (RC_MEMORY_POOL_BLOCK_RETRIEVAL_FAILURE, setList (Some []) s) else
  args ← read_args (Z.to_nat num) p;
  Ok (RC_SUCCESS, setList (Some args) s).

(** [cleanUpSignal] reads [mListArgs]; the result says whether it freed a vector. *)
Definition cleanUpSignal (s : Signal) : result bool :=
  p ← getListArgs s; Ok (bool_decide (is_Some p)).

(** ** Encoding *)
Definition cstr_bytes (cs : list Z) : list Z := concat (map (le_bytes 1) cs) ++ le_bytes 1 0.

Lemma append_chars_wrote cs : forall bs e, wrote bs e ->
  exists e', append_chars cs e = Ok e' /\ wrote (bs ++ cstr_bytes cs) e'.
Proof.
  induction cs as [|c cs IH]; intros bs e W; cbn [append_chars].
  - step_append. by eexists.
  - step_append. destruct (IH _ _ W0) as (e' & -> & W'). exists e'. split; [done|].
    unfold cstr_bytes in *. cbn [map concat]. by rewrite <- !app_assoc in *.
Qed.

Lemma append_args_wrote l : forall vs n i bs e,
  n = length vs -> (forall k, (k < length vs)%nat -> l !! (i + k)%nat = vs !! k) -> wrote bs e ->
  exists e', append_args n i (Some l) e = Ok e' /\ wrote (bs ++ words vs) e'.
Proof.
  induction vs as [|v vs IH]; intros n i bs e -> Hl W; cbn [length append_args].
  - exists e. by rewrite app_nil_r.
  - pose proof (Hl 0%nat ltac:(simpl; lia)) as H0. rewrite Nat.add_0_r in H0.
    cbn [deref mbind result_bind]. rewrite H0.
    cbn [of_option lookup list_lookup mbind result_bind]. step_append.
    destruct (fun H => IH (length vs) (S i) _ _ eq_refl H W0) as (e' & -> & W').
    { intros k Hk. rewrite Nat.add_succ_comm. apply (Hl (S k)). simpl. lia. }
    exists e'. split; [done|]. by rewrite words_cons, app_assoc.
Qed.

Definition signal_header (ty : RequestType) (sigId sigType handle duration : Z) : list Z :=
  le_bytes 1 MOD_RESTUNE ++ le_bytes 1 (RequestType_val ty) ++ le_bytes 4 sigId ++
  le_bytes 4 sigType ++ le_bytes 8 handle ++ le_bytes 8 duration.
Definition signal_ids (c : ClientMgr) (num properties : Z) : list Z :=
  words [num; properties; getClientPid c; getClientTid c].

Lemma append_signal_header_wrote ty i t h d bs e : wrote bs e ->
  exists e', append_signal_header ty i t h d e = Ok e' /\ wrote (bs ++ signal_header ty i t h d) e'.
Proof.
  intros W. unfold append_signal_header. do 6 step_append. eexists. split; [done|].
  unfold signal_header. by rewrite !app_assoc in *.
Qed.

Lemma append_signal_ids_wrote c n p bs e : wrote bs e ->
  exists e', append_signal_ids c n p e = Ok e' /\ wrote (bs ++ signal_ids c n p) e'.
Proof.
  intros W. unfold append_signal_ids. do 4 step_append. eexists. split; [done|].
  unfold signal_ids, words. cbn [map concat]. rewrite app_nil_r, !app_assoc. assumption.
Qed.

(** ** Decoding *)
Definition char (c : Z) : Prop := 0 < c < 256.

Lemma length_cstr cs : length (cstr_bytes cs) = (length cs + 1)%nat.
Proof.
  unfold cstr_bytes. rewrite length_app. f_equal.
  induction cs as [|c cs IH]; [done|]. cbn [map concat]. rewrite length_app, IH. done.
Qed.

Lemma read_cstr_bytes cs p : Forall char cs -> read_cstr (cstr_bytes cs ++ p) = Ok (cs, p).
Proof.
  unfold cstr_bytes. induction cs as [|c cs IH]; intros Hc; [done|].
  apply Forall_cons in Hc as [Hc Hcs]. unfold char in Hc. cbn [map concat].
  cbn [le_bytes app read_cstr] in *.
  rewrite Z.mod_small by lia. replace (c =? 0) with false by lia. by rewrite IH.
Qed.

Lemma read_args_words vs p : Forall (in_u 32) vs -> read_args (length vs) (words vs ++ p) = Ok vs.
Proof.
  induction vs as [|v vs IH]; intros Hv; [done|]. apply Forall_cons in Hv as [Hv Hvs].
  cbn [length read_args]. rewrite words_cons, <- app_assoc, (deref_le 4) by lia.
  cbn [mbind result_bind]. rewrite IH by done. cbn [mbind result_bind]. do 2 f_equal.
  unfold wrap_u. rewrite (wrap_s_mod_eq 32) by lia. by apply wrap_u_id.
Qed.

(** The message of a signal. *)
Definition signal_bytes (ty : RequestType) (c : ClientMgr) (sigId sigType handle duration properties : Z)
    (app scen args : list Z) : list Z :=
  signal_header ty sigId sigType handle duration ++ cstr_bytes app ++ cstr_bytes scen ++
  signal_ids c (Z.of_nat (length args)) properties ++ words args.

Lemma signal_bytes_length ty c i t h d p app scen args :
  length (signal_bytes ty c i t h d p app scen args) =
  (44 + length app + length scen + 4 * length args)%nat.
Proof.
  unfold signal_bytes, signal_header, signal_ids.
  rewrite !length_app, !length_le_bytes, !length_cstr, !length_words. simpl. lia.
Qed.

Lemma decode_signal ty c i t h d p app scen args rest junk :
  client_typed c -> in_u 32 i -> in_u 32 t -> in_s 64 h -> in_s 64 d -> in_s 32 p ->
  in_s 32 (Z.of_nat (length args)) -> Forall char app -> Forall char scen -> Forall (in_u 32) args ->
  deserialize true true (signal_bytes ty c i t h d p app scen args ++ rest) (Signal_init junk) =
  Ok (RC_SUCCESS,
      mkSignal (mkMessage h d p (getClientPid c) (getClientTid c) (RequestType_val ty)) i t app scen
               (Z.of_nat (length args)) (Some (Some args))).
Proof.
  intros [Hpid Htid] Hi Ht Hh Hd Hp Hn Ha Hs Hargs.
  unfold deserialize, signal_bytes, signal_header, signal_ids. rewrite !words_cons, <- !app_assoc.
  rewrite (deref_le 1) by lia. cbn [mbind result_bind].
  rewrite (deref_le_id 1) by (lia || apply type_byte). cbn [mbind result_bind].
  do 2 (rewrite (deref_le 4) by lia; cbn [mbind result_bind]).
  do 2 (rewrite (deref_le_id 8) by (done || lia); cbn [mbind result_bind]).
  do 2 (rewrite read_cstr_bytes by done; cbn [mbind result_bind]).
  do 4 (rewrite (deref_le_id 4) by (done || lia); cbn [mbind result_bind]).
  change (words [] ++ ?x) with x. cbn [negb andb]. destruct (Z.ltb_spec (Z.of_nat (length args)) 0); [lia|].
  rewrite Nat2Z.id, read_args_words by done. cbn [mbind result_bind]. unfold setList. cbn.
  do 3 f_equal; unfold wrap_u; rewrite (wrap_s_mod_eq 32) by lia; by apply wrap_u_id.
Qed.

(** What the library accepts. *)
Definition signal_accepted (duration properties : Z) (app scen args : list Z) : Prop :=
  -1 <= duration /\ 0 <= properties /\
  (44 + length app + length scen + 4 * length args < buf_size)%nat.
#[export] Instance signal_accepted_dec d p app scen args : Decision (signal_accepted d p app scen args).
Proof. unfold signal_accepted. apply _. Defined.

(** The list of arguments as the caller passes it. *)
Definition arg_list (args : list Z) : option (list Z) :=
  match args with [] => None | _ => Some args end.

Lemma send_signal_message ty c i t d p app scen args batch :
  send_signal ty c i t d p (Some app) (Some scen) (Z.of_nat (length args)) (arg_list args) batch =
  Ok (if decide (signal_accepted d p app scen args)
      then let bs := signal_bytes ty c i t 0 d p app scen args in
           Some (bs ++ replicate (buf_size - length bs) 0)
      else None).
Proof.
  unfold send_signal, VALIDATE_GE, signal_accepted.
  destruct (Z.ltb_spec d (-1)) as [Hd|Hd]; cbn [orb]; [by rewrite decide_False by (intros (? & _); lia)|].
  replace ((Z.of_nat (length args) <? 0) || (bool_decide (is_Some (arg_list args)) &&
    (Z.of_nat (length args) =? 0))) with false.
  2:{ symmetry. apply orb_false_intro; [apply Z.ltb_ge; lia|]. by destruct args. }
  destruct (append_signal_header_wrote ty i t 0 d [] _ (wrote_start batch)) as (e1 & -> & W1).
  cbn [mbind result_bind deref].
  destruct (append_chars_wrote app _ _ W1) as (e2 & -> & W2). cbn [mbind result_bind].
  destruct (append_chars_wrote scen _ _ W2) as (e3 & -> & W3). cbn [mbind result_bind].
  rewrite (proj2 (Z.geb_le (Z.of_nat (length args)) 0)) by lia.
  destruct (p >=? 0) eqn:Ep; [|by rewrite decide_False by (intros (_ & ? & _); zb; lia)].
  destruct (append_signal_ids_wrote c (Z.of_nat (length args)) p _ _ W3) as (e4 & -> & W4).
  cbn [mbind result_bind]. rewrite Nat2Z.id.
  assert (exists e5, append_args (length args) 0 (arg_list args) e4 = Ok e5 /\
    wrote (signal_bytes ty c i t 0 d p app scen args) e5) as (e5 & -> & W5).
  { unfold signal_bytes. rewrite app_nil_l in W4. destruct args as [|v args].
    - exists e4. split; [done|]. rewrite !app_assoc, app_nil_r. exact W4.
    - destruct (append_args_wrote (v :: args) (v :: args) _ 0 _ e4 eq_refl ltac:(done) W4) as (e5 & E & W5).
      exists e5. split; [exact E|]. by rewrite !app_assoc. }
  cbn [mbind result_bind]. rewrite (finish_wrote _ _ W5), signal_bytes_length. cbn zeta. zb.
  destruct (decide (44 + _ + _ + _ < buf_size)%nat); [rewrite decide_True by done|rewrite decide_False by (intros (_ & _ & ?); done)]; done.
Qed.


Lemma untuneSignal_message c h batch :
  untuneSignal c h batch =
  Ok (if h <=? 0 then None else
      let bs := signal_bytes REQ_SIGNAL_UNTUNING c 0 0 h (-1) 0 [] [] [] in
      Some (bs ++ replicate (buf_size - length bs) 0)).
Proof.
  unfold untuneSignal. destruct (h <=? 0); [done|].
  destruct (append_signal_header_wrote REQ_SIGNAL_UNTUNING 0 0 h (-1) [] _ (wrote_start batch)) as (e1 & -> & W1).
  cbn [mbind result_bind]. do 2 step_append.
  destruct (append_signal_ids_wrote c 0 0 _ _ W0) as (e2 & -> & W2). cbn [mbind result_bind].
  rewrite (finish_wrote _ _ W2). rewrite app_nil_l, <- !app_assoc in *.
  change (signal_header REQ_SIGNAL_UNTUNING 0 0 h (-1) ++ le_bytes 1 0 ++ le_bytes 1 0 ++ signal_ids c 0 0)
    with (signal_header REQ_SIGNAL_UNTUNING 0 0 h (-1) ++ cstr_bytes [] ++ cstr_bytes [] ++ signal_ids c 0 0).
  unfold signal_bytes. change (words []) with (@nil Z). rewrite app_nil_r.
  rewrite decide_True; [done|]. unfold signal_header, signal_ids.
  rewrite !length_app, !length_le_bytes, !length_cstr, length_words. vm_compute. lia.
Qed.

(** ** Properties *)

(** C33: signals survive the wire.  [tuneSignal] and [relaySignal] send a message exactly
    when the duration is at least -1, the properties are not negative and the encoding
    takes less than [REQ_BUFFER_SIZE] bytes, and [untuneSignal] exactly when the handle is
    positive; the server rebuilds the code, type, duration, properties, ids, both names
    and the list of arguments, in order. *)
Theorem signals_roundtrip (ty : RequestType) (c : ClientMgr) (sigId sigType h d p : Z)
    (app scen args : list Z) (batch : FlatBuffEncoder) (junk : Message) :
  ty = REQ_SIGNAL_TUNING \/ ty = REQ_SIGNAL_RELAY ->
  client_typed c -> in_u 32 sigId -> in_u 32 sigType -> in_s 64 h -> in_s 64 d -> in_s 32 p ->
  in_s 32 (Z.of_nat (length args)) ->
  Forall char app -> Forall char scen -> Forall (in_u 32) args ->
  let sent := (if decide (ty = REQ_SIGNAL_TUNING) then tuneSignal else relaySignal)
    c sigId sigType d p (Some app) (Some scen) (Z.of_nat (length args)) (arg_list args) batch in
  let back ty code sty h d p app scen args buf := length buf = Z.to_nat REQ_BUFFER_SIZE /\
    deserialize true true buf (Signal_init junk) =
    Ok (RC_SUCCESS,
        mkSignal (mkMessage h d p (getClientPid c) (getClientTid c) (RequestType_val ty)) code sty
                 app scen (Z.of_nat (length args)) (Some (Some args))) in
  (~ signal_accepted d p app scen args -> sent = Ok None) /\
  (signal_accepted d p app scen args ->
     exists buf, sent = Ok (Some buf) /\ back ty sigId sigType 0 d p app scen args buf) /\
  (h <= 0 -> untuneSignal c h batch = Ok None) /\
  (0 < h -> exists buf, untuneSignal c h batch = Ok (Some buf) /\
     back REQ_SIGNAL_UNTUNING 0 0 h (-1) 0 [] [] [] buf).
Proof.
  intros Hty Hc Hi Ht Hh Hd Hp Hn Ha Hs Hargs sent back.
  assert (sent = send_signal ty c sigId sigType d p (Some app) (Some scen) (Z.of_nat (length args))
            (arg_list args) batch) as -> by (unfold sent; destruct Hty as [-> | ->]; done).
  rewrite send_signal_message, untuneSignal_message.
  assert (forall ty i t h d p ap sc ar, in_u 32 i -> in_u 32 t -> in_s 64 h -> in_s 64 d -> in_s 32 p ->
    in_s 32 (Z.of_nat (length ar)) -> Forall char ap -> Forall char sc -> Forall (in_u 32) ar ->
    (44 + length ap + length sc + 4 * length ar < buf_size)%nat ->
    let bs := signal_bytes ty c i t h d p ap sc ar in
    back ty i t h d p ap sc ar (bs ++ replicate (buf_size - length bs) 0)) as Hback.
  { intros. split; [|by apply decode_signal]. unfold bs.
    rewrite length_app, length_replicate, signal_bytes_length. change (Z.to_nat _) with buf_size. lia. }
  split_and!.
  - intros Hno. by rewrite decide_False.
  - intros Hacc. rewrite decide_True by done. eexists. split; [done|].
    destruct Hacc as (_ & _ & Hsz). apply Hback; try done.
  - intros Hle. by replace (h <=? 0) with true by lia.
  - intros Hpos. replace (h <=? 0) with false by lia. eexists. split; [done|].
    apply Hback; try done; try (unfold in_u, in_s; cbn; lia); try apply Forall_nil_2. vm_compute. lia.
Qed.

Lemma signals_roundtrip_witness :
  exists buf, tuneSignal sample_client 196609 2 0 1 (Some [103; 97]) (Some []) 2 (Some [7; 9])
                FlatBuffEncoder_init = Ok (Some buf) /\
    deserialize true true buf (Signal_init zero_msg) =
    Ok (RC_SUCCESS, mkSignal (mkMessage 0 0 1 100 101 (RequestType_val REQ_SIGNAL_TUNING)) 196609 2
                      [103; 97] [] 2 (Some (Some [7; 9]))).
Proof.
  destruct (signals_roundtrip REQ_SIGNAL_TUNING sample_client 196609 2 5 0 1 [103; 97] [] [7; 9]
    FlatBuffEncoder_init zero_msg) as (_ & H & _).
  - by left.
  - exact sample_client_typed.
  - unfold in_u. lia.
  - unfold in_u. lia.
  - unfold in_s. lia.
  - unfold in_s. lia.
  - unfold in_s. lia.
  - unfold in_s. cbn. lia.
  - repeat (apply Forall_cons_2; [unfold char; lia|]). apply Forall_nil_2.
  - apply Forall_nil_2.
  - repeat (apply Forall_cons_2; [unfold in_u; lia|]). apply Forall_nil_2.
  - destruct H as (buf & E & _ & D).
    + unfold signal_accepted. cbn [length]. split_and!; [lia|lia|vm_compute; lia].
    + exists buf. split; [exact E|exact D].
Defined.
