(* ===== verification/ExtFeatures.v ===== *)
(** [resource-tuner/signals/ExtFeatureMapper.cpp] and
    [resource-tuner/signals/ExtFeaturesRegistry.cpp]: the features implemented by shared
    libraries, the signals they subscribe to, and the relay of a signal to them.

    What [dlopen] and [dlsym] find is a parameter; a call into a library is recorded in a
    trace, and the library is taken not to touch the server. *)
From S2P Require Import Prelude UrmTypes StdString UrmPlatformAL Message SignalRegistry Signal.
Open Scope string_scope.
Open Scope list_scope.
Open Scope Z_scope.

(** ** SignalExtFeatureMapper *)
Record SignalExtFeatureMapper := mkMapper {
  mSignalTofeaturesMap : gmap Z (list Z)     (* keys and elements are uint32_t *)
}.

Definition SignalExtFeatureMapper_init : SignalExtFeatureMapper := mkMapper ∅.

(** The key [signalCode] is a [uint64_t], cut to the key type of the map. *)
Definition addFeature (reg : SignalRegistry) (signalCode feature : Z) (mp : SignalExtFeatureMapper)
  : result (bool * SignalExtFeatureMapper) :=
  '(info, _) ← getSignalConfigById signalCode 0 None reg;
  match info with
  | None => Ok (false, mp)
  | Some _ =>
    let '(features, m) := map_index [] (wrap_u 32 signalCode) (mSignalTofeaturesMap mp) in
    Ok (true, mkMapper (<[wrap_u 32 signalCode := features ++ [wrap_u 32 feature]]> m))
  end.

Definition getFeatures (signalCode : Z) (mp : SignalExtFeatureMapper) : option (list Z) :=
  mSignalTofeaturesMap mp !! wrap_u 32 signalCode.

(** ** ExtFeaturesRegistry *)
Record ExtFeatureInfo := mkFeature {
  mFeatureId : Z;                           (* uint32_t *)
  mFeatureLib : string;
  mFeatureName : string;
  mSignalsSubscribedTo : option (list Z)    (* uint32_t *)
}.

Record ExtFeaturesRegistry := mkEFR {
  mTotalExtFeatures : Z;
  mExtFeaturesConfigs : list ExtFeatureInfo;
  mSILMap : gmap Z Z
}.

Definition ExtFeaturesRegistry_init : ExtFeaturesRegistry := mkEFR 0 [] ∅.

Fixpoint subscribe (reg : SignalRegistry) (feature : Z) (signals : list Z)
    (mp : SignalExtFeatureMapper) : result SignalExtFeatureMapper :=
  match signals with
  | [] => Ok mp
  | signalCode :: signals =>
    '(_, mp) ← addFeature reg signalCode feature mp; subscribe reg feature signals mp
  end.

Definition registerExtFeature (reg : SignalRegistry) (featureInfo : option ExtFeatureInfo)
    (r : ExtFeaturesRegistry) (mp : SignalExtFeatureMapper)
  : result (ExtFeaturesRegistry * SignalExtFeatureMapper) :=
  match featureInfo with
  | None => Ok (r, mp)
  | Some f =>
    if (String.length (mFeatureLib f) =? 0)%nat then Ok (r, mp) else
    total ← chk_s 32 (mTotalExtFeatures r + 1);
    let r := mkEFR total (mExtFeaturesConfigs r ++ [f])
               (<[mFeatureId f := mTotalExtFeatures r]> (mSILMap r)) in
    signals ← deref (mSignalsSubscribedTo f);
    mp ← subscribe reg (wrap_s 32 (mFeatureId f)) signals mp;
    Ok (r, mp)
  end.

Definition getExtFeatureConfigById (featureId : Z) (r : ExtFeaturesRegistry)
  : result (option ExtFeatureInfo) :=
  match mSILMap r !! featureId with
  | None => Ok None
  | Some i =>
    if i <? 0 then Fault OutOfRange else
    f ← of_option OutOfRange (mExtFeaturesConfigs r !! Z.to_nat i); Ok (Some f)
  end.

Definition getExtFeaturesConfigCount (r : ExtFeaturesRegistry) : Z :=
  Z.of_nat (length (mExtFeaturesConfigs r)).

(** A call into a library. *)
Inductive LibCall :=
  | InitFeature (lib : string)
  | TearFeature (lib : string)
  | RelayFeature (lib : string) (code : Z) (appName scenario : list Z) (numArgs : Z)
      (args : option (list Z)).

Section Libraries.
(** [dlsym lib routine]: [None] when the library does not open, else whether it defines
    the routine. *)
Context (dlsym : string -> string -> option bool).

Definition has_routine (lib routine : string) : bool :=
  match dlsym lib routine with Some true => true | _ => false end.

Definition initializeFeatures (r : ExtFeaturesRegistry) : list LibCall :=
  map (fun f => InitFeature (mFeatureLib f))
    (filter (fun f => has_routine (mFeatureLib f) "initFeature" = true) (mExtFeaturesConfigs r)).
Definition teardownFeatures (r : ExtFeaturesRegistry) : list LibCall :=
  map (fun f => TearFeature (mFeatureLib f))
    (filter (fun f => has_routine (mFeatureLib f) "tearFeature" = true) (mExtFeaturesConfigs r)).

Definition relayToFeature (featureId : Z) (s : Signal) (r : ExtFeaturesRegistry)
  : result (ErrCode * list LibCall) :=
  info ← getExtFeatureConfigById featureId r;
  match info with
  | None => Ok (RC_INVALID_VALUE, [])
  | Some f =>
    match dlsym (mFeatureLib f) "relayFeature" with
    | None => Ok (RC_INVALID_VALUE, [])
    | Some false => Ok (RC_SUCCESS, [])
    | Some true =>
      args ← getListArgs s;
      Ok (RC_SUCCESS, [RelayFeature (mFeatureLib f) (getSignalCode s) (mAppName s) (mScenario s)
                         (getNumArgs s) args])
    end
  end.

Fixpoint relay_all (features : list Z) (s : Signal) (r : ExtFeaturesRegistry)
  : result (list LibCall) :=
  match features with
  | [] => Ok []
  | featureId :: features =>
    '(_, calls) ← relayToFeature featureId s r;
    calls' ← relay_all features s r;
    Ok (calls ++ calls')
  end.

(** The relay of a signal to the features subscribed to it. *)
Definition relay (s : Signal) (r : ExtFeaturesRegistry) (mp : SignalExtFeatureMapper)
  : result (list LibCall) :=
  match getFeatures (getSignalCode s) mp with
  | None => Ok []
  | Some features => relay_all features s r
  end.
End Libraries.

(** ** ExtFeatureInfoBuilder *)
Record ExtFeatureInfoBuilder := mkFB { mFeatureInfo : option ExtFeatureInfo }.

Definition ExtFeatureInfoBuilder_init (alloc : bool) : ExtFeatureInfoBuilder :=
  mkFB (if alloc then Some (mkFeature 0 "" "" None) else None).

Definition on_feature (b : ExtFeatureInfoBuilder) (f : ExtFeatureInfo -> ErrCode * ExtFeatureInfo)
  : ErrCode * ExtFeatureInfoBuilder :=
  match mFeatureInfo b with
  | None => (RC_INVALID_VALUE, b)
  | Some i => let '(rc, i) := f i in (rc, mkFB (Some i))
  end.

Definition setId (str : string) (b : ExtFeatureInfoBuilder) :=
  on_feature b (fun i =>
    match stol 0 str with
    | inl v => (RC_SUCCESS, mkFeature (wrap_u 32 v) (mFeatureLib i) (mFeatureName i) (mSignalsSubscribedTo i))
    | inr _ => (RC_INVALID_VALUE, mkFeature 0 (mFeatureLib i) (mFeatureName i) (mSignalsSubscribedTo i))
    end).
Definition setName (featureName : string) (b : ExtFeatureInfoBuilder) :=
  on_feature b (fun i =>
    (RC_SUCCESS, mkFeature (mFeatureId i) (mFeatureLib i) featureName (mSignalsSubscribedTo i))).
Definition setLib (featureLib : string) (b : ExtFeatureInfoBuilder) :=
  on_feature b (fun i =>
    (RC_SUCCESS, mkFeature (mFeatureId i) featureLib (mFeatureName i) (mSignalsSubscribedTo i))).

Definition addSignalSubscribedTo (alloc grow : bool) (sigCodeString : string)
    (b : ExtFeatureInfoBuilder) :=
  if (String.length sigCodeString =? 0)%nat then (RC_INVALID_VALUE, b) else
  on_feature b (fun i =>
    match stol 0 sigCodeString with
    | inr _ => (RC_INVALID_VALUE, i)
    | inl v =>
      let '(l, ok) := push_new alloc grow (wrap_u 32 v) (mSignalsSubscribedTo i) in
      (if ok : bool then RC_SUCCESS else RC_INVALID_VALUE,
       mkFeature (mFeatureId i) (mFeatureLib i) (mFeatureName i) l)
    end).

Definition build (b : ExtFeatureInfoBuilder) : option ExtFeatureInfo := mFeatureInfo b.

(** ** The registry of features as a map *)

(** Each identifier points at the last feature registered with it. *)
Record features_wf (r : ExtFeaturesRegistry) : Prop := {
  fw_total : mTotalExtFeatures r = Z.of_nat (length (mExtFeaturesConfigs r));
  fw_index : forall id i, mSILMap r !! id = Some i ->
    0 <= i /\ exists f, mExtFeaturesConfigs r !! Z.to_nat i = Some f /\ mFeatureId f = id
}.

Lemma features_wf_init : features_wf ExtFeaturesRegistry_init.
Proof. split; [done|]. intros id i. cbn [ExtFeaturesRegistry_init mSILMap]. by rewrite lookup_empty. Qed.

(** No registered signal has a key below [2^32]: its category is not zero. *)
Lemma no_small_key l r k :
  Forall (fun p => forall s, p = Some s -> info_ok s) l -> Z.of_nat (length l) <= max_s 32 ->
  register_all l SignalRegistry_init = Ok r -> in_u 32 k ->
  getSignalConfigById k 0 None r = Ok (None, false).
Proof.
  intros Hl Hlen E Hk.
  destruct (register_all_rel l SignalRegistry_init ∅ Hl reg_rel_init) as (r' & E' & [Hr _]); [done|].
  assert (r' = r) as -> by congruence. destruct (Hr k) as [H1 H2 _ _].
  assert (forall v s, foldl spec_register ∅ l !! (k, v) = Some s -> False) as Hno.
  { intros v s Hs. pose proof (spec_register_keys l Hl _ _ Hs) as [Hv Hok].
    assert (mSignalCategory s <> 0) as Hcat.
    { clear -Hs. revert Hs. cut (forall m : SignalMap, (forall x t, m !! x = Some t -> mSignalCategory t <> 0) ->
        foldl spec_register m l !! (k, v) = Some s -> mSignalCategory s <> 0).
      { intros H. apply H. intros x t. by rewrite lookup_empty. }
      induction l as [|p l IH]; intros m Hm; [apply Hm|]. cbn [foldl]. apply IH. intros x t.
      destruct p as [u|]; cbn; [|apply Hm]. case_if; [apply Hm|]. zb.
      destruct (decide (x = variant u)) as [->|Hne].
      - rewrite lookup_insert_eq. by intros [= ->].
      - rewrite lookup_insert_ne by congruence. apply Hm. }
    unfold variant in Hv. injection Hv as Hv _. destruct Hok as [Hc Hi Ht Ha].
    assert (info_ok s) as Hok by by split. rewrite (signalBitmap_code s Hok) in Hv.
    destruct (sig_key_fields (mSignalCategory s) (mSignalID s) (mSigType s) Hc Hi Ht) as (_ & _ & Ef).
    unfold sig_key in Ef. rewrite Hv in Ef. rewrite Z.shiftr_div_pow2, Z.div_small in Ef.
    - by rewrite Z.land_0_l in Ef.
    - unfold in_u in Hk. lia.
    - lia. }
  unfold getSignalConfigById. unfold conf_at in H1, H2.
  destruct (mSignalsConfigs r !! k) as [c|] eqn:Ec; [|done]. cbn in H1, H2.
  destruct (mSignalInfo c) as [s|] eqn:Es; [by destruct (Hno _ _ H1)|].
  destruct (mFeatureSignals c) as [|s ss] eqn:Ef; [done|]. exfalso.
  apply (Hno (Some (mExtraAttrs s)) s). apply H2. split; [apply elem_of_cons; by left|done].
Qed.

Fixpoint register_features (reg : SignalRegistry) (l : list (option ExtFeatureInfo))
    (r : ExtFeaturesRegistry) (mp : SignalExtFeatureMapper)
  : result (ExtFeaturesRegistry * SignalExtFeatureMapper) :=
  match l with
  | [] => Ok (r, mp)
  | f :: l => '(r, mp) ← registerExtFeature reg f r mp; register_features reg l r mp
  end.

Definition spec_feature (m : gmap Z ExtFeatureInfo) (p : option ExtFeatureInfo) : gmap Z ExtFeatureInfo :=
  match p with
  | None => m
  | Some f => if (String.length (mFeatureLib f) =? 0)%nat then m else <[mFeatureId f := f]> m
  end.

(** The identifiers and the map agree. *)
Definition features_rel (r : ExtFeaturesRegistry) (m : gmap Z ExtFeatureInfo) : Prop :=
  features_wf r /\ forall id, getExtFeatureConfigById id r = Ok (m !! id).

Definition feature_ok (p : option ExtFeatureInfo) : Prop :=
  forall f, p = Some f -> exists l, mSignalsSubscribedTo f = Some l /\ Forall (in_u 32) l.

Section Unsubscribed.
(** A registry of signals in which no key is below [2^32]. *)
Context (reg : SignalRegistry)
  (Hreg : forall k, in_u 32 k -> getSignalConfigById k 0 None reg = Ok (None, false)).

Lemma subscribe_none feature l mp :
  Forall (in_u 32) l -> subscribe reg feature l mp = Ok mp.
Proof.
  induction l as [|k l IH]; intros Hl; [done|]. apply Forall_cons in Hl as [Hk Hl].
  cbn [subscribe]. unfold addFeature. rewrite Hreg by done. cbn [mbind result_bind]. by apply IH.
Qed.

Lemma registerExtFeature_rel p r m mp :
  feature_ok p -> features_rel r m -> mTotalExtFeatures r < max_s 32 ->
  exists r', registerExtFeature reg p r mp = Ok (r', mp) /\ features_rel r' (spec_feature m p) /\
    mTotalExtFeatures r' <= mTotalExtFeatures r + 1.
Proof.
  intros Hp [[Ht Hi] Hm] Hlt. destruct p as [f|]; cbn [registerExtFeature spec_feature].
  2:{ exists r. split_and!; [done|by split|lia]. }
  destruct (String.length (mFeatureLib f) =? 0)%nat; [exists r; split_and!; [done|by split|lia]|].
  rewrite chk_s_ok by (unfold in_s, max_s in *; lia). cbn [mbind result_bind].
  destruct (Hp f eq_refl) as (l & -> & Hl). cbn [deref mbind result_bind].
  rewrite subscribe_none by done. cbn [mbind result_bind]. eexists. split; [done|]. split; [|cbn; lia].
  split; [split|]; cbn.
  - rewrite length_app. cbn. lia.
  - intros id i. destruct (decide (id = mFeatureId f)) as [->|Hne].
    + rewrite lookup_insert_eq. intros [= <-]. split; [lia|]. exists f. split; [|done].
      rewrite Ht, Nat2Z.id. by rewrite list_lookup_middle.
    + rewrite lookup_insert_ne by congruence. intros E. destruct (Hi id i E) as (? & g & Hg & ?).
      split; [done|]. exists g. split; [|done]. by apply lookup_app_l_Some.
  - intros id. unfold getExtFeatureConfigById. cbn. destruct (decide (id = mFeatureId f)) as [->|Hne].
    + rewrite !lookup_insert_eq. replace (mTotalExtFeatures r <? 0) with false by lia.
      rewrite Ht, Nat2Z.id. by rewrite list_lookup_middle.
    + rewrite !lookup_insert_ne by congruence. rewrite <- (Hm id). unfold getExtFeatureConfigById.
      destruct (mSILMap r !! id) as [i|] eqn:E; [|done]. destruct (Hi id i E) as (Hpos & g & Hg & _).
      replace (i <? 0) with false by lia. by rewrite Hg, (lookup_app_l_Some _ _ _ _ Hg).
Qed.

Lemma register_features_rel : forall l r m mp,
  Forall feature_ok l -> features_rel r m ->
  mTotalExtFeatures r + Z.of_nat (length l) <= max_s 32 ->
  exists r', register_features reg l r mp = Ok (r', mp) /\ features_rel r' (foldl spec_feature m l).
Proof.
  induction l as [|p l IH]; intros r m mp Hl Hr Hlt; [by exists r|].
  apply Forall_cons in Hl as [Hp Hl]. cbn [register_features foldl length] in *.
  destruct (registerExtFeature_rel p r m mp Hp Hr) as (r' & -> & Hr' & Hle); [lia|].
  cbn [mbind result_bind]. apply IH; [done|done|lia].
Qed.
End Unsubscribed.

(** ** Properties *)

(** Features are registered but never subscribed.  Whatever signals and features the
    configuration registers, the identifier of a feature leads to the last feature
    registered with it; but the codes a feature subscribes to are 32 bits wide, while
    the key of every registered signal carries a non-zero category above bit 48, so that
    [addFeature] finds no signal: the map of subscriptions stays empty and the relay of a
    signal calls no library. *)
Theorem ExtFeatures_never_relayed (sigs : list (option SignalInfo)) (feats : list (option ExtFeatureInfo))
    (reg : SignalRegistry) (dlsym : string -> string -> option bool) :
  Forall (fun p => forall s, p = Some s -> info_ok s) sigs -> Z.of_nat (length sigs) <= max_s 32 ->
  register_all sigs SignalRegistry_init = Ok reg ->
  Forall feature_ok feats -> Z.of_nat (length feats) <= max_s 32 ->
  exists r mp, register_features reg feats ExtFeaturesRegistry_init SignalExtFeatureMapper_init = Ok (r, mp) /\
    (forall id, getExtFeatureConfigById id r = Ok (foldl spec_feature ∅ feats !! id)) /\
    (forall s, relay dlsym s r mp = Ok []).
Proof.
  intros Hs Hns E Hf Hnf.
  destruct (register_features_rel reg (fun k => no_small_key sigs reg k Hs Hns E) feats
              ExtFeaturesRegistry_init ∅ SignalExtFeatureMapper_init Hf) as (r & Er & _ & Hid).
  - split; [exact features_wf_init|]. intros id. unfold getExtFeatureConfigById.
    cbn [ExtFeaturesRegistry_init mSILMap]. by rewrite !lookup_empty.
  - cbn. lia.
  - exists r, SignalExtFeatureMapper_init. split_and!; [done|done|]. intros s. unfold relay, getFeatures.
    cbn [SignalExtFeatureMapper_init mSignalTofeaturesMap]. by rewrite lookup_empty.
Qed.

Lemma ExtFeatures_never_relayed_witness :
  let feature := mkFeature 1 "/usr/lib/libx.so" "X" (Some [851984]) in
  exists reg r mp,
    register_all [Some (sample_info 0 None)] SignalRegistry_init = Ok reg /\
    mSignalsConfigs reg !! sig_key 13 16 0 <> None /\ CONSTRUCT_SIG_CODE 13 16 = 851984 /\
    register_features reg [Some feature] ExtFeaturesRegistry_init SignalExtFeatureMapper_init = Ok (r, mp) /\
    getExtFeatureConfigById 1 r = Ok (Some feature) /\
    relay (fun _ _ => Some true)
      (mkSignal (mkMessage 0 0 0 1 1 (RequestType_val REQ_SIGNAL_RELAY)) 851984 0 [] [] 0 (Some (Some []))) r mp
      = Ok [].
Proof.
  intros feature.
  set (reg := match register_all [Some (sample_info 0 None)] SignalRegistry_init with
              | Ok r => r | Fault _ => SignalRegistry_init end).
  destruct (ExtFeatures_never_relayed [Some (sample_info 0 None)] [Some feature] reg
    (fun _ _ => Some true)) as (r & mp & E & Hid & Hr).
  - apply Forall_cons_2; [|apply Forall_nil_2]. intros s Hs. injection Hs as <-.
    apply sample_info_ok; [unfold in_u; lia|reflexivity|cbn; u32s].
  - vm_compute. discriminate.
  - reflexivity.
  - apply Forall_cons_2; [|apply Forall_nil_2].
    intros f Hf. injection Hf as <-. eexists. split; [reflexivity|u32s].
  - vm_compute. discriminate.
  - exists reg, r, mp. split; [reflexivity|]. split; [vm_compute; discriminate|]. split; [reflexivity|].
    split; [exact E|]. split; [rewrite Hid; reflexivity|apply Hr].
Defined.
