(* ===== verification/PropertiesRegistry.v ===== *)
(** [resource-tuner/core/PropertiesRegistry.cpp], the two [submitPropGetRequest] of
    [resource-tuner/core/RequestHandler.cpp], and [getProp] of [client/APIs/UrmAPIs.cpp]:
    the properties of the server, and how a client reads one over the wire.

    Every operation of the registry holds its lock for its whole access to the map; a
    call that queries and then writes takes it twice. *)
From Stdlib Require Import Ascii.
From S2P Require Import Prelude UrmTypes StdString Wire Signal.
Open Scope string_scope.
Open Scope list_scope.
Open Scope Z_scope.

Abbreviation PropertiesRegistry := (gmap string string).  (* mProperties *)

Definition createProperty (propertyName propertyValue : string) (r : PropertiesRegistry)
  : bool * PropertiesRegistry :=
  if (String.length propertyName =? 0)%nat || (String.length propertyValue =? 0)%nat
  then (false, r) else (true, <[propertyName := propertyValue]> r).

(** The value written to [result], if any; the number returned is its length. *)
Definition queryProperty (propertyName : string) (r : PropertiesRegistry) : nat * option string :=
  if (String.length propertyName =? 0)%nat then (0%nat, None) else
  match r !! propertyName with
  | None => (0%nat, None)
  | Some v => (String.length v, Some v)
  end.

Definition modifyProperty (propertyName propertyValue : string) (r : PropertiesRegistry)
  : bool * PropertiesRegistry :=
  if (String.length propertyName =? 0)%nat || (String.length propertyValue =? 0)%nat
  then (false, r) else
  let '(n, _) := queryProperty propertyName r in
  if (n =? 0)%nat then (false, r) else (true, <[propertyName := propertyValue]> r).

Definition deleteProperty (propertyName : string) (r : PropertiesRegistry)
  : bool * PropertiesRegistry :=
  if (String.length propertyName =? 0)%nat then (false, r) else
  let '(n, _) := queryProperty propertyName r in
  if (n =? 0)%nat then (false, r) else (true, delete propertyName r).

Definition getPropertiesCount (r : PropertiesRegistry) : Z := wrap_s 32 (Z.of_nat (size r)).

(** ** RequestHandler.cpp *)
Definition ascii_of_byte (b : Z) : ascii := ascii_of_nat (Z.to_nat b).
Definition string_of_bytes (bs : list Z) : string :=
  foldr (fun b s => String (ascii_of_byte b) s) "" bs.
Fixpoint bytes_of_string (s : string) : list Z :=
  match s with EmptyString => [] | String c s => ascii_code c :: bytes_of_string s end.

(** The query of a message: the name follows the module, the type and a size. *)
Definition submitPropGetRequest (buf : list Z) (r : PropertiesRegistry)
  : result (nat * option string) :=
  '(_, p) ← deref_and_incr 1 buf;
  '(_, p) ← deref_and_incr 1 p;
  '(_, p) ← deref_and_incr 8 p;
  '(propName, _) ← read_cstr p;
  let '(writtenBytes, buffer) := queryProperty (string_of_bytes propName) r in
  Ok (writtenBytes, if (0 <? writtenBytes)%nat then buffer else None).

(** The overload used inside the server. *)
Definition submitPropGetRequest_default (propName defVal : string) (r : PropertiesRegistry)
  : nat * string :=
  let '(writtenBytes, buffer) := queryProperty propName r in
  (writtenBytes, if (0 <? writtenBytes)%nat then default "" buffer else defVal).

(** The answer written to the socket ([RequestReceiver::forwardMessage]). *)
Definition prop_reply (buf : list Z) (r : PropertiesRegistry) : result (list Z) :=
  '(writeLen, v) ← submitPropGetRequest buf r;
  Ok (if (writeLen =? 0)%nat then bytes_of_string "na"
      else take writeLen (bytes_of_string (default "" v))).

(** ** UrmAPIs.cpp *)

(** The message of [getProp], if it is sent. *)
Definition prop_message (prop : list Z) (bufferSize : Z) (batch : FlatBuffEncoder)
  : result (option (list Z)) :=
  e ← append 1 MOD_RESTUNE (setBuf zero_buf batch);
  e ← append 1 (RequestType_val REQ_PROP_GET) e;
  e ← append 8 bufferSize e;
  e ← append_chars prop e;
  Ok (finish e).

(** [strncpy(dst, src, n)]: the characters before the terminator, then zeros, [n] bytes
    in all; the rest of [dst] is kept. *)
Fixpoint before_nul (l : list Z) : list Z :=
  match l with [] => [] | c :: l => if c =? 0 then [] else c :: before_nul l end.
Definition strncpy (dst src : list Z) (n : nat) : result (list Z) :=
  let cs := take n (before_nul src) in
  if (length dst <? n)%nat then Fault OutOfRange else
  Ok (cs ++ replicate (n - length cs) 0 ++ drop n dst).

(** [strncmp(l, na, 2) == 0] *)
Definition starts_na (l : list Z) : result bool :=
  match l with
  | [] => Fault OutOfRange
  | a :: l =>
    if negb (a =? 110) then Ok false else
    match l with [] => Fault OutOfRange | b :: _ => Ok (b =? 97) end
  end.

(** [getProp]: [exchange] sends a message and yields the bytes read back, if the
    connection works; a read returns at most [bufferSize] bytes of them. *)
Definition getProp (exchange : list Z -> result (option (list Z))) (prop : option (list Z))
    (buffer : option (list Z)) (bufferSize : nat) (defValue : option (list Z))
    (batch : FlatBuffEncoder) : result (Z * option (list Z)) :=
  match prop, buffer with
  | Some prop, Some buf =>
    m ← prop_message prop (Z.of_nat bufferSize) batch;
    match m with
    | None => Ok (-1, buffer)
    | Some m =>
      resp ← exchange m;
      match resp with
      | None => Ok (-1, buffer)
      | Some bytes =>
        if (bufferSize =? 0)%nat then Ok (-1, buffer) else
        let resultBuf := take bufferSize bytes ++
                         replicate (bufferSize - length (take bufferSize bytes)) 0 in
        na ← starts_na resultBuf;
        src ← (if na : bool then deref defValue else Ok resultBuf);
        buf ← strncpy buf src (bufferSize - 1);
        Ok (0, Some buf)
      end
    end
  | _, _ => Ok (-1, buffer)
  end.

(** ** Strings and bytes *)
Lemma ascii_code_range c : 0 <= ascii_code c < 256.
Proof. unfold ascii_code. pose proof (nat_ascii_bounded c). lia. Qed.

Lemma string_bytes_string s : string_of_bytes (bytes_of_string s) = s.
Proof.
  induction s as [|c s IH]; [done|]. cbn [bytes_of_string string_of_bytes foldr].
  fold (string_of_bytes (bytes_of_string s)). rewrite IH. f_equal.
  unfold ascii_of_byte, ascii_code. by rewrite Nat2Z.id, ascii_nat_embedding.
Qed.

Lemma length_bytes s : length (bytes_of_string s) = String.length s.
Proof. induction s; cbn; congruence. Qed.

Lemma before_nul_id l : Forall char l -> forall k, before_nul (l ++ replicate k 0) = l.
Proof.
  induction 1 as [|c l Hc _ IH]; intros k; [by destruct k|]. cbn [app before_nul].
  unfold char in Hc. replace (c =? 0) with false by lia. by rewrite IH.
Qed.

(** The values of the registry: not empty, and C strings. *)
Definition props_ok (r : PropertiesRegistry) : Prop :=
  forall k v, r !! k = Some v -> v <> "" /\ Forall char (bytes_of_string v).

Lemma createProperty_ok k v r :
  props_ok r -> Forall char (bytes_of_string v) -> props_ok (createProperty k v r).2.
Proof.
  intros Hr Hv. unfold createProperty. destruct (_ || _) eqn:E; [done|]. zb. cbn.
  intros k' v'. destruct (decide (k' = k)) as [->|Hne].
  - rewrite lookup_insert_eq. intros [= <-]. split; [|done]. intros ->. done.
  - rewrite lookup_insert_ne by congruence. apply Hr.
Qed.

Lemma queryProperty_spec k r : props_ok r -> k <> "" ->
  queryProperty k r = (match r !! k with Some v => String.length v | None => 0%nat end, r !! k) /\
  ((queryProperty k r).1 = 0%nat <-> r !! k = None).
Proof.
  intros Hr Hk. unfold queryProperty. destruct k as [|c k]; [done|]. cbn [String.length Nat.eqb].
  destruct (r !! String c k) as [v|] eqn:E; [|done]. split; [done|]. cbn.
  destruct (Hr _ _ E) as [Hv _]. by destruct v.
Qed.

(** The other two writers, in terms of the map. *)
Lemma modifyProperty_spec k v r : props_ok r -> k <> "" -> v <> "" ->
  modifyProperty k v r = if bool_decide (is_Some (r !! k)) then (true, <[k := v]> r) else (false, r).
Proof.
  intros Hr Hk Hv. unfold modifyProperty. destruct (queryProperty_spec k r Hr Hk) as [E H].
  destruct k as [|c k], v as [|d v]; try done. cbn [String.length Nat.eqb orb].
  rewrite E in *. cbn [fst] in H. destruct (r !! String c k) as [w|]; [|done].
  case_bool_decide; [|naive_solver]. destruct (String.length w) eqn:Ew; [naive_solver|done].
Qed.

Lemma deleteProperty_spec k r : props_ok r -> k <> "" ->
  deleteProperty k r = (bool_decide (is_Some (r !! k)), delete k r).
Proof.
  intros Hr Hk. unfold deleteProperty. destruct (queryProperty_spec k r Hr Hk) as [E H].
  destruct k as [|c k]; try done. cbn [String.length Nat.eqb].
  rewrite E in *. cbn [fst] in H. destruct (r !! String c k) as [w|] eqn:El.
  - destruct (String.length w) eqn:Ew; [naive_solver|done].
  - by rewrite delete_id.
Qed.

(** ** Reading a property over the wire *)
Definition prop_bytes (prop : list Z) (bufferSize : Z) : list Z :=
  le_bytes 1 MOD_RESTUNE ++ le_bytes 1 (RequestType_val REQ_PROP_GET) ++ le_bytes 8 bufferSize ++
  cstr_bytes prop.

Lemma prop_message_spec prop n batch :
  prop_message prop n batch =
  Ok (if decide (11 + length prop < buf_size)%nat
      then Some (prop_bytes prop n ++ replicate (buf_size - length (prop_bytes prop n)) 0) else None).
Proof.
  unfold prop_message. pose proof (wrote_start batch) as W0. do 3 step_append.
  match goal with W : wrote _ _ |- _ =>
    destruct (append_chars_wrote prop _ _ W) as (e9 & -> & W') end. cbn [mbind result_bind].
  rewrite app_nil_l, <- !app_assoc in W'. fold (prop_bytes prop n) in W'.
  rewrite (finish_wrote _ _ W').
  assert (length (prop_bytes prop n) = 11 + length prop)%nat as ->.
  { unfold prop_bytes. rewrite !length_app, !length_le_bytes, length_cstr. lia. }
  by case_decide.
Qed.

Lemma prop_reply_spec prop n rest r :
  Forall char prop -> prop <> [] -> props_ok r ->
  prop_reply (prop_bytes prop n ++ rest) r =
  Ok (match r !! string_of_bytes prop with Some v => bytes_of_string v | None => [110; 97] end).
Proof.
  intros Hc Hne Hr. unfold prop_reply, submitPropGetRequest, prop_bytes. rewrite <- !app_assoc.
  do 2 (rewrite (deref_le 1) by lia; cbn [mbind result_bind]).
  rewrite (deref_le 8) by lia. cbn [mbind result_bind].
  rewrite read_cstr_bytes by done. cbn [mbind result_bind].
  assert (string_of_bytes prop <> "") as Hs by by destruct prop.
  destruct (queryProperty_spec _ r Hr Hs) as [-> _]. cbn [mbind result_bind].
  destruct (r !! string_of_bytes prop) as [v|] eqn:E; [|done]. destruct (Hr _ _ E) as [Hv _].
  destruct v as [|c v]; [done|]. cbn [String.length Nat.ltb Nat.leb Nat.eqb default].
  f_equal. apply take_ge. by rewrite length_bytes.
Qed.

Definition prefix_na (l : list Z) : bool :=
  match l with a :: b :: _ => (a =? 110) && (b =? 97) | _ => false end.

Lemma starts_na_spec l n :
  (2 <= n)%nat -> Forall char l ->
  starts_na (take n l ++ replicate (n - length (take n l)) 0) = Ok (prefix_na l).
Proof.
  intros Hn Hl. destruct n as [|[|n]]; try lia. destruct l as [|a [|b l]].
  - done.
  - cbn. by destruct (a =? 110).
  - cbn. by destruct (a =? 110).
Qed.

Lemma strncpy_spec dst src n :
  (n <= length dst)%nat ->
  strncpy dst src n =
  Ok (take n (before_nul src) ++ replicate (n - length (take n (before_nul src))) 0 ++ drop n dst).
Proof. intros Hn. unfold strncpy. by rewrite (proj2 (Nat.ltb_ge _ _) Hn). Qed.

(** ** Properties *)

(** The bytes of the caller's buffer once [src] has been copied. *)
Definition copied (src buf : list Z) (bufferSize : nat) : list Z :=
  let cs := take (bufferSize - 1) src in
  cs ++ replicate (bufferSize - 1 - length cs) 0 ++ drop (bufferSize - 1) buf.

(** Reading a property over the wire.  When the name fits a message, [getProp] fills
    the caller's buffer with the value the server holds, cut to the size of the buffer
    less one and padded with zeros, and with the default when the server has no such
    property.  The answer for a missing property is the string na, and the client
    compares the first two bytes only: a property whose value merely begins with na is
    also answered by the default. *)
Theorem getProp_end_to_end (reg : PropertiesRegistry) (prop buf def : list Z) (n : nat)
    (batch : FlatBuffEncoder) :
  props_ok reg -> Forall char prop -> prop <> [] -> (11 + length prop < buf_size)%nat ->
  (2 <= n)%nat -> length buf = n -> Forall char def ->
  let exchange m := r ← prop_reply m reg; Ok (Some r) in
  getProp exchange (Some prop) (Some buf) n (Some def) batch =
  Ok (0, Some (copied (match reg !! string_of_bytes prop with
                       | None => def
                       | Some v => if prefix_na (bytes_of_string v) then def else bytes_of_string v
                       end) buf n)).
Proof.
  intros Hr Hp Hne Hsz Hn Hb Hd exchange. unfold getProp. rewrite prop_message_spec, decide_True by done.
  cbn [mbind result_bind]. unfold exchange. rewrite prop_reply_spec by done. cbn [mbind result_bind].
  replace (n =? 0)%nat with false by (symmetry; apply Nat.eqb_neq; lia).
  set (ans := match reg !! string_of_bytes prop with Some v => bytes_of_string v | None => [110; 97] end).
  assert (Forall char ans) as Ha.
  { unfold ans. destruct (reg !! _) as [v|] eqn:E; [by apply (Hr _ _ E)|].
    repeat (apply Forall_cons_2; [unfold char; lia|]). apply Forall_nil_2. }
  rewrite starts_na_spec by done. cbn [mbind result_bind].
  assert (forall src, Forall char src -> take (n - 1) (before_nul src) = take (n - 1) src) as Hsrc.
  { intros src Hs. pose proof (before_nul_id src Hs 0) as E. cbn in E. rewrite app_nil_r in E. by rewrite E. }
  assert ((if prefix_na ans then Ok def else
           Ok (take n ans ++ replicate (n - length (take n ans)) 0)) ≫=
          (fun src => buf0 ← strncpy buf src (n - 1); Ok (0, Some buf0)) =
          Ok (0, Some (copied (if prefix_na ans then def else ans) buf n))) as Hcopy.
  { destruct (prefix_na ans); cbn [mbind result_bind]; rewrite strncpy_spec by lia; cbn [mbind result_bind];
      unfold copied; do 2 f_equal; [by rewrite Hsrc|].
    rewrite before_nul_id by by apply Forall_take. rewrite take_take. by replace ((n - 1) `min` n)%nat with (n - 1)%nat by lia. }
  cbn [deref]. rewrite Hcopy. do 3 f_equal. unfold ans. by destruct (reg !! _).
Qed.

(** The property is set to native; the client reads its default. *)
Lemma getProp_end_to_end_witness :
  let reg := <["urm.mode" := "native"]> (<["urm.level" := "7"]> ∅) in
  let exchange m := r ← prop_reply m reg; Ok (Some r) in
  getProp exchange (Some (bytes_of_string "urm.level")) (Some [9; 9; 9; 9]) 4 (Some [48]) FlatBuffEncoder_init
    = Ok (0, Some [55; 0; 0; 9]) /\
  getProp exchange (Some (bytes_of_string "urm.mode")) (Some [9; 9; 9; 9]) 4 (Some [48]) FlatBuffEncoder_init
    = Ok (0, Some [48; 0; 0; 9]).
Proof.
  intros reg exchange.
  assert (props_ok reg) as Hr.
  { apply (createProperty_ok "urm.mode" "native" _); [apply (createProperty_ok "urm.level" "7" _)|].
    - intros k v. by rewrite lookup_empty.
    - repeat (apply Forall_cons_2; [unfold char; vm_compute; split; reflexivity|]). apply Forall_nil_2.
    - repeat (apply Forall_cons_2; [unfold char; vm_compute; split; reflexivity|]). apply Forall_nil_2. }
  split; (etransitivity; [apply (getProp_end_to_end reg); [exact Hr| |discriminate|vm_compute; lia|lia|reflexivity|]|vm_compute; reflexivity]);
    repeat (apply Forall_cons_2; [unfold char; vm_compute; split; reflexivity|]); apply Forall_nil_2.
Defined.
