(* ===== verification/RestuneParser.v ===== *)
(** [resource-tuner/init/RestuneParser.cpp]: the parsers of the configuration files, which
    fill the registries from the events of a YAML document.

    Each parser is a [step] function on its local variables and on the registry it fills,
    one match branch per case of its [switch]; [parse_loop] of YamlEvents.v runs it.  The
    allocations made while the [i]-th event is handled succeed or fail as [mem i] says.
    [topKey] is assigned before each of its uses and is not part of the state. *)
From S2P Require Import Extensions Prelude UrmTypes StdString UrmPlatformAL AuxRoutines Resource TargetRegistry.
From S2P Require Import ResourceRegistry SignalRegistry Signal ExtFeatures PropertiesRegistry AppConfigs JournalConf YamlEvents.
Open Scope string_scope.
Open Scope list_scope.
Open Scope Z_scope.

Record Mem := mkMem {
  m_builder : bool;     (* a builder *)
  m_inner : bool;       (* the object it builds *)
  m_vec : bool;         (* a vector, or an array *)
  m_grow : bool         (* room for one more element *)
}.

(** [ADD_TO_..._BUILDER(KEY, METHOD)] for all the keys of a builder: nothing when there is
    no builder or the key is not one of its keys, and no call once [rc] is an error. *)
Definition add_to_builder {B} (setter : string -> B -> option (result (ErrCode * B)))
    (topKey : string) (rc : ErrCode) (b : option B) : result (ErrCode * option B) :=
  match b with
  | None => Ok (rc, None)
  | Some b =>
    match setter topKey b with
    | None => Ok (rc, Some b)
    | Some r => if RC_IS_OK rc then '(rc, b) ← r; Ok (rc, Some b) else Ok (rc, Some b)
    end
  end.

(** The local variables of the parsers with one builder. *)
Record Locals (B : Type) := mkLocals {
  lc_rc : ErrCode;
  lc_doc : bool;               (* docMarker *)
  lc_item : bool;              (* parsingResource, parsingFeature *)
  lc_value : string;
  lc_keys : list string;       (* keyTracker, its top first *)
  lc_builder : option B
}.
Arguments mkLocals {B}.
Arguments lc_rc {B}.
Arguments lc_doc {B}.
Arguments lc_item {B}.
Arguments lc_value {B}.
Arguments lc_keys {B}.
Arguments lc_builder {B}.
Definition Locals_init {B} : Locals B := mkLocals RC_SUCCESS false false "" [] None.

Definition set_keys {B} (v : string) (ks : list string) (l : Locals B) : Locals B :=
  mkLocals (lc_rc l) (lc_doc l) (lc_item l) v ks (lc_builder l).
Definition set_doc {B} (l : Locals B) : Locals B :=
  mkLocals (lc_rc l) true (lc_item l) (lc_value l) (lc_keys l) (lc_builder l).
Definition start_item {B} (b : option B) (l : Locals B) : Locals B :=
  mkLocals (lc_rc l) (lc_doc l) true (lc_value l) (lc_keys l) b.
Definition end_item {B} (l : Locals B) : Locals B :=
  mkLocals (lc_rc l) (lc_doc l) false (lc_value l) (lc_keys l) None.
Definition set_builder {B} (rc : ErrCode) (b : option B) (l : Locals B) : Locals B :=
  mkLocals rc (lc_doc l) (lc_item l) (lc_value l) (lc_keys l) b.

(** The scalar case of the parsers with one builder. *)
Definition scalar_case {B} (setter : string -> string -> B -> option (result (ErrCode * B)))
    (v : option string) (l : Locals B) : result (Locals B * flow) :=
  let value := read_value v (lc_value l) in
  let '(s, ks) := read_scalar value (lc_keys l) in
  let l := set_keys value ks l in
  match s with
  | KeyPushed => Ok (l, Next)
  | NoKey => Ok (l, Return RC_YAML_INVALID_SYNTAX)
  | ValueOf topKey =>
    '(rc, b) ← add_to_builder (fun k => setter k value) topKey (lc_rc l) (lc_builder l);
    Ok (set_builder rc b l, Next)
  end.

(** [keyTracker.pop()] at the end of a sequence. *)
Definition sequence_end {B} (l : Locals B) : Locals B * flow :=
  match lc_keys l with
  | [] => (l, Return RC_YAML_INVALID_SYNTAX)
  | _ :: ks => (set_keys (lc_value l) ks l, Next)
  end.

(** ** Resources *)
Section Resources.
Context `{HashOrder} (fs : FileSystem) (t : TargetRegistry) (cfg : TargetConfigs) (mem : nat -> Mem).

Definition resource_setter (key value : string) (b : ResourceConfigInfoBuilder)
  : option (result (ErrCode * ResourceConfigInfoBuilder)) :=
  if String.eqb key RESOURCE_CONFIGS_ELEM_RESOURCE_TYPE then Some (Ok (setResType value b)) else
  if String.eqb key RESOURCE_CONFIGS_ELEM_RESOURCE_ID then Some (Ok (setResID value b)) else
  if String.eqb key RESOURCE_CONFIGS_ELEM_RESOURCENAME then Some (Ok (ResourceRegistry.setName value b)) else
  if String.eqb key RESOURCE_CONFIGS_ELEM_RESOURCEPATH then Some (setPath fs value b) else
  if String.eqb key RESOURCE_CONFIGS_ELEM_SUPPORTED then Some (Ok (setSupported value b)) else
  if String.eqb key RESOURCE_CONFIGS_ELEM_HIGHTHRESHOLD then Some (Ok (setHighThreshold value b)) else
  if String.eqb key RESOURCE_CONFIGS_ELEM_LOWTHRESHOLD then Some (Ok (setLowThreshold value b)) else
  if String.eqb key RESOURCE_CONFIGS_ELEM_PERMISSIONS then Some (Ok (setPermissions value b)) else
  if String.eqb key RESOURCE_CONFIGS_ELEM_POLICY then Some (Ok (setPolicy value b)) else
  if String.eqb key RESOURCE_CONFIGS_ELEM_T_UNIT then Some (Ok (setTranslationUnit value b)) else
  if String.eqb key RESOURCE_CONFIGS_ELEM_APPLY_TYPE then Some (Ok (setApplyType value b)) else
  if String.eqb key RESOURCE_CONFIGS_ELEM_MODES then Some (Ok (setModes value b)) else
  if String.eqb key RESOURCE_CONFIGS_ELEM_TARGETS_ENABLED then Some (Ok (ResourceRegistry.addTargetEnabled cfg value b)) else
  if String.eqb key RESOURCE_CONFIGS_ELEM_TARGETS_DISABLED then Some (Ok (ResourceRegistry.addTargetDisabled cfg value b)) else
  None.

Abbreviation ResLocals := (Locals ResourceConfigInfoBuilder).

(** The end of a resource: an invalid one is given the type that the registry refuses. *)
Definition end_resource (l : ResLocals) (r : ResourceRegistry) : result (ResLocals * ResourceRegistry) :=
  b ← deref (lc_builder l);
  let b := if RC_IS_NOTOK (lc_rc l) || (ResourceRegistry.mTargetRefCount b <? 0)
           then (setResType "0" b).2 else b in
  r ← registerResource fs t cfg (ResourceRegistry.build b) r;
  Ok (end_item l, r).

Definition resource_step (i : nat) (event : yaml_event) (st : ResLocals * ResourceRegistry)
  : result ((ResLocals * ResourceRegistry) * flow) :=
  let '(l, r) := st in
  match event with
  | YAML_STREAM_END_EVENT => Ok (st, Done)
  | YAML_MAPPING_START_EVENT =>
    if negb (lc_doc l) then Ok ((set_doc l, r), Next) else
    if m_builder (mem i)
    then Ok ((start_item (Some (ResourceConfigInfoBuilder_init (m_inner (mem i)))) l, r), Next)
    else Ok ((mkLocals (lc_rc l) (lc_doc l) (lc_item l) (lc_value l) (lc_keys l) None, r),
             Return RC_YAML_PARSING_ERROR)
  | YAML_MAPPING_END_EVENT =>
    if lc_item l then st ← end_resource l r; Ok (st, Next) else Ok (st, Next)
  | YAML_SEQUENCE_END_EVENT => let '(l, f) := sequence_end l in Ok ((l, r), f)
  | YAML_SCALAR_EVENT v => '(l, f) ← scalar_case resource_setter v l; Ok ((l, r), f)
  | _ => Ok (st, Next)
  end.
End Resources.

(** ** Properties *)
Record PropLocals := mkProp {
  pl_isPropName : bool;
  pl_currentKey : string;
  pl_currentValue : string;
  pl_value : string
}.
Definition PropLocals_init : PropLocals := mkProp false "" "" "".

Definition property_step (i : nat) (event : yaml_event) (st : PropLocals * PropertiesRegistry)
  : result ((PropLocals * PropertiesRegistry) * flow) :=
  let '(l, r) := st in
  match event with
  | YAML_STREAM_END_EVENT => Ok (st, Done)
  | YAML_MAPPING_END_EVENT =>
    let r := if (0 <? String.length (pl_currentKey l))%nat && (0 <? String.length (pl_currentValue l))%nat
             then (createProperty (pl_currentKey l) (pl_currentValue l) r).2 else r in
    Ok ((mkProp (pl_isPropName l) "" "" (pl_value l), r), Next)
  | YAML_SCALAR_EVENT v =>
    let value := read_value v (pl_value l) in
    let l :=
      if String.eqb value PROPERTY_CONFIGS_ROOT
      then mkProp (pl_isPropName l) (pl_currentKey l) (pl_currentValue l) value
      else if String.eqb value PROPERTY_CONFIGS_ELEM_NAME then mkProp true (pl_currentKey l) (pl_currentValue l) value
      else if String.eqb value PROPERTY_CONFIGS_ELEM_VALUE then mkProp false (pl_currentKey l) (pl_currentValue l) value
      else if pl_isPropName l then mkProp true value (pl_currentValue l) value
      else mkProp false (pl_currentKey l) value value in
    Ok ((l, r), Next)
  | _ => Ok (st, Next)
  end.

(** ** Target *)
Record TargetLocals := mkTarget {
  tl_doc : bool;
  tl_item : bool;
  tl_current : bool;        (* isConfigForCurrentTarget *)
  tl_done : bool;           (* deviceParsingDone *)
  tl_value : string;
  tl_keys : list string;
  tl_lgc : string;
  tl_phy : string;
  tl_cores : string
}.
Definition TargetLocals_init : TargetLocals := mkTarget false false false false "" [] "" "" "".

Definition target_keys (v : string) (ks : list string) (l : TargetLocals) : TargetLocals :=
  mkTarget (tl_doc l) (tl_item l) (tl_current l) (tl_done l) v ks (tl_lgc l) (tl_phy l) (tl_cores l).

(** A value under the key [topKey]. *)
Definition target_value (cfg : TargetConfigs) (topKey : string) (l : TargetLocals) : TargetLocals :=
  let value := tl_value l in
  if String.eqb topKey TARGET_NAME_LIST then
    if (String.eqb value "*" || String.eqb value (targetName cfg)) && negb (tl_done l)
    then mkTarget (tl_doc l) (tl_item l) true true value (tl_keys l) (tl_lgc l) (tl_phy l) (tl_cores l)
    else l
  else if String.eqb topKey TARGET_CLUSTER_INFO_LOGICAL_ID then
    mkTarget (tl_doc l) (tl_item l) (tl_current l) (tl_done l) value (tl_keys l) value (tl_phy l) (tl_cores l)
  else if String.eqb topKey TARGET_CLUSTER_INFO_PHYSICAL_ID then
    mkTarget (tl_doc l) (tl_item l) (tl_current l) (tl_done l) value (tl_keys l) (tl_lgc l) value (tl_cores l)
  else if String.eqb topKey TARGET_PER_CLUSTER_CORE_COUNT then
    mkTarget (tl_doc l) (tl_item l) (tl_current l) (tl_done l) value (tl_keys l) (tl_lgc l) (tl_phy l) value
  else l.

Definition target_step (i : nat) (event : yaml_event) (st : TargetLocals * (TargetRegistry * TargetConfigs))
  : result ((TargetLocals * (TargetRegistry * TargetConfigs)) * flow) :=
  let '(l, (t, cfg)) := st in
  match event with
  | YAML_STREAM_END_EVENT => Ok (st, Done)
  | YAML_SEQUENCE_END_EVENT =>
    match tl_keys l with
    | [] => Ok (st, Return RC_YAML_INVALID_SYNTAX)
    | _ :: ks => Ok ((target_keys (tl_value l) ks l, (t, cfg)), Next)
    end
  | YAML_MAPPING_START_EVENT =>
    Ok ((mkTarget true (if tl_doc l then true else tl_item l) (tl_current l) (tl_done l) (tl_value l)
           (tl_keys l) (tl_lgc l) (tl_phy l) (tl_cores l), (t, cfg)), Next)
  | YAML_MAPPING_END_EVENT =>
    match tl_keys l with
    | topKey :: _ =>
      if negb (tl_item l) then Ok (st, Next) else
      let l := mkTarget (tl_doc l) false (tl_current l) (tl_done l) (tl_value l) (tl_keys l)
                 (tl_lgc l) (tl_phy l) (tl_cores l) in
      if negb (tl_current l) then Ok ((l, (t, cfg)), Next) else
      if String.eqb topKey TARGET_CLUSTER_INFO then
        Ok ((mkTarget (tl_doc l) false (tl_current l) (tl_done l) (tl_value l) (tl_keys l) "" ""
               (tl_cores l), addClusterMapping (tl_lgc l) (tl_phy l) t cfg), Next)
      else
        t ← addClusterSpreadInfo (tl_phy l) (tl_cores l) t;
        Ok ((mkTarget (tl_doc l) false (tl_current l) (tl_done l) (tl_value l) (tl_keys l) (tl_lgc l)
               "" "", (t, cfg)), Next)
    | [] => Ok (st, Next)
    end
  | YAML_SCALAR_EVENT v =>
    let value := read_value v (tl_value l) in
    let '(s, ks) := read_scalar value (tl_keys l) in
    let l := target_keys value ks l in
    match s with
    | KeyPushed =>
      Ok ((mkTarget (tl_doc l) (tl_item l) (if String.eqb value TARGET_NAME_LIST then false else tl_current l)
             (tl_done l) value ks (tl_lgc l) (tl_phy l) (tl_cores l), (t, cfg)), Next)
    | NoKey => Ok ((l, (t, cfg)), Return RC_YAML_INVALID_SYNTAX)
    | ValueOf topKey => Ok ((target_value cfg topKey l, (t, cfg)), Next)
    end
  | _ => Ok (st, Next)
  end.

(** ** Init: cgroups, MPAM groups, caches, interrupts, the journal *)
Section Init.
Context `{HashOrder} (run_dir basePath : string) (mem : nat -> Mem).

Record InitLocals := mkInit {
  il_rc : ErrCode;
  il_doc : bool;
  il_inAffineClusterList : bool;
  il_inAffineOneList : bool;
  il_inLoggingConfList : bool;
  il_value : string;
  il_keys : list string;
  il_items : list string;                          (* itemArray *)
  il_cgroup : option (option CGroupConfigInfo);    (* a builder, and what it builds *)
  il_mpam : option (option MpamGroupConfigInfo);
  il_cache : option (option CacheInfo)
}.
Definition InitLocals_init : InitLocals :=
  mkInit RC_SUCCESS false false false false "" [] [] None None None.

Definition init_keys (v : string) (ks : list string) (l : InitLocals) : InitLocals :=
  mkInit (il_rc l) (il_doc l) (il_inAffineClusterList l) (il_inAffineOneList l)
    (il_inLoggingConfList l) v ks (il_items l) (il_cgroup l) (il_mpam l) (il_cache l).
Definition init_lists (a o g : bool) (items : list string) (rc : ErrCode) (ks : list string)
    (l : InitLocals) : InitLocals :=
  mkInit rc (il_doc l) a o g (il_value l) ks items (il_cgroup l) (il_mpam l) (il_cache l).
Definition init_builders (rc : ErrCode) c m k (l : InitLocals) : InitLocals :=
  mkInit rc (il_doc l) (il_inAffineClusterList l) (il_inAffineOneList l) (il_inLoggingConfList l)
    (il_value l) (il_keys l) (il_items l) c m k.

Abbreviation InitState := (InitLocals * (TargetRegistry * FileSystem))%type.

(** The end of a list of interrupts: a refusal ends the parsing, a malformed number
    raises an exception that is not caught. *)
Definition affine_end (areClusterValues : bool) (ks : list string) (l : InitLocals)
    (t : TargetRegistry) (fs : FileSystem) : result (InitState * flow) :=
  let done rc t fs :=
    Ok ((if areClusterValues
         then init_lists false (il_inAffineOneList l) (il_inLoggingConfList l) [] rc ks l
         else init_lists (il_inAffineClusterList l) false (il_inLoggingConfList l) [] rc ks l,
         (t, fs)), Next) in
  if RC_IS_OK (il_rc l) then
    o ← addIrqAffine (il_items l) areClusterValues fs t;
    match o with
    | None => Ok ((l, (t, fs)), Throw)
    | Some (rc, fs, t) =>
      if RC_IS_NOTOK rc then Ok ((l, (t, fs)), Return RC_YAML_INVALID_SYNTAX) else done rc t fs
    end
  else done (il_rc l) t fs.

(** The end of the list of the log level, whose elements stay in [itemArray]. *)
Definition logging_end (ks : list string) (l : InitLocals) (t : TargetRegistry) (fs : FileSystem)
  : InitState * flow :=
  let '(rc, fs) := if RC_IS_OK (il_rc l) then addLogLimit run_dir (il_items l) fs else (il_rc l, fs) in
  if RC_IS_OK (il_rc l) && RC_IS_NOTOK rc then ((l, (t, fs)), Return RC_YAML_INVALID_SYNTAX) else
  ((init_lists (il_inAffineClusterList l) (il_inAffineOneList l) false (il_items l) rc ks l, (t, fs)), Next).

(** The start of a mapping under the key [topKey]. *)
Definition init_mapping_start (m : Mem) (topKey : string) (l : InitLocals) : InitLocals * flow :=
  if String.eqb topKey INIT_CONFIGS_ELEM_CGROUPS_LIST then
    if m_builder m
    then (init_builders (il_rc l) (Some (CGroupConfigInfoBuilder_init (m_inner m))) (il_mpam l) (il_cache l) l, Next)
    else (init_builders (il_rc l) None (il_mpam l) (il_cache l) l, Return RC_MEMORY_ALLOCATION_FAILURE)
  else if String.eqb topKey INIT_CONFIGS_ELEM_MPAM_GROUPS_LIST then
    if m_builder m
    then (init_builders (il_rc l) (il_cgroup l) (Some (MpamGroupConfigInfoBuilder_init (m_inner m))) (il_cache l) l, Next)
    else (init_builders (il_rc l) (il_cgroup l) None (il_cache l) l, Return RC_MEMORY_ALLOCATION_FAILURE)
  else if String.eqb topKey INIT_CONFIGS_ELEM_CACHE_INFO_LIST then
    if m_builder m
    then (init_builders (il_rc l) (il_cgroup l) (il_mpam l) (Some (CacheInfoBuilder_init (m_inner m))) l, Next)
    else (init_builders (il_rc l) (il_cgroup l) (il_mpam l) None l, Return RC_MEMORY_ALLOCATION_FAILURE)
  else (l, Next).

(** The end of a mapping: the builder of the list on top is used, without a check that
    there is one. *)
Definition init_mapping_end (topKey : string) (l : InitLocals) (t : TargetRegistry) (fs : FileSystem)
  : result InitState :=
  if String.eqb topKey INIT_CONFIGS_ELEM_CGROUPS_LIST then
    b ← deref (il_cgroup l);
    let b := if RC_IS_NOTOK (il_rc l) then (setCGroupID "-1" b).2 else b in
    Ok (init_builders (il_rc l) None (il_mpam l) (il_cache l) l, addCGroupMapping basePath fs b t)
  else if String.eqb topKey INIT_CONFIGS_ELEM_MPAM_GROUPS_LIST then
    b ← deref (il_mpam l);
    let b := if RC_IS_NOTOK (il_rc l) then (setLgcID "-1" b).2 else b in
    Ok (init_builders (il_rc l) (il_cgroup l) None (il_cache l) l, (addMpamGroupMapping b t, fs))
  else if String.eqb topKey INIT_CONFIGS_ELEM_CACHE_INFO_LIST then
    b ← deref (il_cache l);
    let b := if RC_IS_NOTOK (il_rc l) then (setNumBlocks "-1" (setType "" b).2).2 else b in
    Ok (init_builders (il_rc l) (il_cgroup l) (il_mpam l) None l, (addCacheInfoMapping b t, fs))
  else Ok (l, (t, fs)).

Definition cgroup_setter (value key : string) (b : option CGroupConfigInfo)
  : option (ErrCode * option CGroupConfigInfo) :=
  if String.eqb key INIT_CONFIGS_ELEM_CGROUP_NAME then Some (setCGroupName value b) else
  if String.eqb key INIT_CONFIGS_ELEM_CGROUP_IDENTIFIER then Some (setCGroupID value b) else
  if String.eqb key INIT_CONFIGS_ELEM_CGROUP_CREATION then Some (setCreationNeeded value b) else
  if String.eqb key INIT_CONFIGS_ELEM_CGROUP_THREADED then Some (setThreaded value b) else None.
Definition mpam_setter (value key : string) (b : option MpamGroupConfigInfo)
  : option (ErrCode * option MpamGroupConfigInfo) :=
  if String.eqb key INIT_CONFIGS_ELEM_MPAM_GROUP_NAME then Some (TargetRegistry.setName value b) else
  if String.eqb key INIT_CONFIGS_ELEM_MPAM_GROUP_ID then Some (setLgcID value b) else
  if String.eqb key INIT_CONFIGS_ELEM_MPAM_GROUP_PRIORITY then Some (setMpamPriority value b) else None.
Definition cache_setter (value key : string) (b : option CacheInfo)
  : option (ErrCode * option CacheInfo) :=
  if String.eqb key INIT_CONFIGS_ELEM_CACHE_INFO_TYPE then Some (setType value b) else
  if String.eqb key INIT_CONFIGS_ELEM_CACHE_INFO_BLK_CNT then Some (setNumBlocks value b) else
  if String.eqb key INIT_CONFIGS_ELEM_CACHE_INFO_PRIO_AWARE then Some (setPriorityAware value b) else None.

(** One of the three macros: [None] when the key is not taken. *)
Definition take_key {B} (setter : string -> B -> option (ErrCode * B)) (topKey : string) (rc : ErrCode)
    (b : option B) : option (ErrCode * option B) :=
  match b with
  | None => None
  | Some b =>
    match setter topKey b with
    | None => None
    | Some (rc', b') => Some (if RC_IS_OK rc then (rc', Some b') else (rc, Some b))
    end
  end.

(** A value under the key [topKey]. *)
Definition init_value (topKey : string) (l : InitLocals) : InitLocals :=
  let value := il_value l in
  match take_key (cgroup_setter value) topKey (il_rc l) (il_cgroup l) with
  | Some (rc, b) => init_builders rc b (il_mpam l) (il_cache l) l
  | None =>
    match take_key (mpam_setter value) topKey (il_rc l) (il_mpam l) with
    | Some (rc, b) => init_builders rc (il_cgroup l) b (il_cache l) l
    | None =>
      match take_key (cache_setter value) topKey (il_rc l) (il_cache l) with
      | Some (rc, b) => init_builders rc (il_cgroup l) (il_mpam l) b l
      | None =>
        if String.eqb topKey INIT_CONFIG_IRQ_AFFINE_TO_CLUSTER || String.eqb topKey INIT_CONFIG_IRQ_AFFINE_ONE
           || String.eqb topKey INIT_CONFIG_LOGGING_CONF
        then init_lists (il_inAffineClusterList l) (il_inAffineOneList l) (il_inLoggingConfList l)
               (il_items l ++ [value]) (il_rc l) (il_keys l) l
        else l
      end
    end
  end.

Definition init_step (i : nat) (event : yaml_event) (st : InitState) : result (InitState * flow) :=
  let '(l, (t, fs)) := st in
  match event with
  | YAML_STREAM_END_EVENT => Ok (st, Done)
  | YAML_SEQUENCE_START_EVENT =>
    match il_keys l with
    | [] => Ok (st, Return RC_YAML_INVALID_SYNTAX)
    | topKey :: _ =>
      let l :=
        if String.eqb topKey INIT_CONFIG_IRQ_AFFINE_TO_CLUSTER
        then init_lists true (il_inAffineOneList l) (il_inLoggingConfList l) (il_items l) (il_rc l) (il_keys l) l
        else if String.eqb topKey INIT_CONFIG_IRQ_AFFINE_ONE
        then init_lists (il_inAffineClusterList l) true (il_inLoggingConfList l) (il_items l) (il_rc l) (il_keys l) l
        else if String.eqb topKey INIT_CONFIG_LOGGING_CONF
        then init_lists (il_inAffineClusterList l) (il_inAffineOneList l) true (il_items l) (il_rc l) (il_keys l) l
        else l in
      Ok ((l, (t, fs)), Next)
    end
  | YAML_SEQUENCE_END_EVENT =>
    match il_keys l with
    | [] => Ok (st, Return RC_YAML_INVALID_SYNTAX)
    | _ :: ks =>
      if il_inAffineClusterList l then affine_end true ks l t fs
      else if il_inAffineOneList l then affine_end false ks l t fs
      else if il_inLoggingConfList l then Ok (logging_end ks l t fs)
      else Ok ((init_keys (il_value l) ks l, (t, fs)), Next)
    end
  | YAML_MAPPING_START_EVENT =>
    if negb (il_doc l) then
      Ok ((mkInit (il_rc l) true (il_inAffineClusterList l) (il_inAffineOneList l) (il_inLoggingConfList l)
             (il_value l) (il_keys l) (il_items l) (il_cgroup l) (il_mpam l) (il_cache l), (t, fs)), Next)
    else
      match il_keys l with
      | [] => Ok (st, Return RC_YAML_INVALID_SYNTAX)
      | topKey :: _ => let '(l, f) := init_mapping_start (mem i) topKey l in Ok ((l, (t, fs)), f)
      end
  | YAML_MAPPING_END_EVENT =>
    match il_keys l with
    | [] => Ok (st, Next)
    | topKey :: _ => st ← init_mapping_end topKey l t fs; Ok (st, Next)
    end
  | YAML_SCALAR_EVENT v =>
    let value := read_value v (il_value l) in
    let '(s, ks) := read_scalar value (il_keys l) in
    let l := init_keys value ks l in
    match s with
    | KeyPushed => Ok ((l, (t, fs)), Next)
    | NoKey => Ok ((l, (t, fs)), Return RC_YAML_INVALID_SYNTAX)
    | ValueOf topKey => Ok ((init_value topKey l, (t, fs)), Next)
    end
  | _ => Ok (st, Next)
  end.
End Init.

(** ** Signals *)
Section Signals.
Context (cfg : TargetConfigs) (mem : nat -> Mem).

Record SigLocals := mkSig {
  sl_rc : ErrCode;
  sl_doc : bool;
  sl_signal : bool;            (* parsingSignal *)
  sl_res : bool;               (* inResourcesMap *)
  sl_extra : bool;             (* parsingExtraAttr *)
  sl_value : string;
  sl_keys : list string;
  sl_resValues : list string;
  sl_builder : option SignalInfoBuilder;
  sl_rbuilder : option ResourceBuilder
}.
Definition SigLocals_init : SigLocals := mkSig RC_SUCCESS false false false false "" [] [] None None.

Definition sig_keys (v : string) (ks : list string) (l : SigLocals) : SigLocals :=
  mkSig (sl_rc l) (sl_doc l) (sl_signal l) (sl_res l) (sl_extra l) v ks (sl_resValues l)
    (sl_builder l) (sl_rbuilder l).
Definition sig_flags (s r e : bool) (l : SigLocals) : SigLocals :=
  mkSig (sl_rc l) (sl_doc l) s r e (sl_value l) (sl_keys l) (sl_resValues l) (sl_builder l) (sl_rbuilder l).
Definition sig_builders (rc : ErrCode) b rb (l : SigLocals) : SigLocals :=
  mkSig rc (sl_doc l) (sl_signal l) (sl_res l) (sl_extra l) (sl_value l) (sl_keys l) (sl_resValues l) b rb.
Definition sig_values (vs : list string) (l : SigLocals) : SigLocals :=
  mkSig (sl_rc l) (sl_doc l) (sl_signal l) (sl_res l) (sl_extra l) (sl_value l) (sl_keys l) vs
    (sl_builder l) (sl_rbuilder l).

Definition signal_setter (m : Mem) (value key : string) (b : SignalInfoBuilder)
  : option (result (ErrCode * SignalInfoBuilder)) :=
  if String.eqb key SIGNAL_CONFIGS_ELEM_TARGETS_ENABLED then Some (Ok (SignalRegistry.addTargetEnabled cfg value b)) else
  if String.eqb key SIGNAL_CONFIGS_ELEM_TARGETS_DISABLED then Some (Ok (SignalRegistry.addTargetDisabled cfg value b)) else
  if String.eqb key SIGNAL_CONFIGS_ELEM_PERMISSIONS then Some (Ok (addPermission (m_vec m) (m_grow m) value b)) else
  if String.eqb key SIGNAL_CONFIGS_ELEM_DERIVATIVES then Some (Ok (addDerivative (m_vec m) (m_grow m) value b)) else
  if String.eqb key SIGNAL_CONFIGS_ELEM_SIGID then Some (Ok (setSignalID value b)) else
  if String.eqb key SIGNAL_CONFIGS_ELEM_CATEGORY then Some (Ok (setSignalCategory value b)) else
  if String.eqb key SIGNAL_CONFIGS_ELEM_SIGTYPE then Some (Ok (setSignalType value b)) else
  if String.eqb key SIGNAL_CONFIGS_ELEM_NAME then Some (Ok (SignalRegistry.setName value b)) else
  if String.eqb key SIGNAL_CONFIGS_ELEM_TIMEOUT then Some (Ok (setTimeout value b)) else
  if String.eqb key SIGNAL_CONFIGS_ELEM_ENABLE then Some (Ok (setIsEnabled value b)) else
  if String.eqb key SIGNAL_CONFIGS_ELEM_FPS then Some (Ok (setFps value b)) else
  if String.eqb key SIGNAL_CONFIGS_ELEM_HEIGHT then Some (Ok (setHeight value b)) else
  if String.eqb key SIGNAL_CONFIGS_ELEM_WIDTH then Some (Ok (setWidth value b)) else
  if String.eqb key SIGNAL_CONFIGS_ELEM_SRC_TYPE then Some (Ok (setMmSrc value b)) else None.

Definition signal_resource_setter (value key : string) (b : ResourceBuilder)
  : option (result (ErrCode * ResourceBuilder)) :=
  if String.eqb key SIGNAL_CONFIGS_ELEM_RESOURCE_CODE then Some (Ok (SignalRegistry.setResCode value b)) else
  if String.eqb key SIGNAL_CONFIGS_ELEM_RESOURCE_RESINFO then Some (Ok (SignalRegistry.setResInfo value b)) else None.

(** The loop that adds the values of a resource, from index [idx] on. *)
Fixpoint add_values (idx : Z) (vs : list string) (rc : ErrCode) (b : option ResourceBuilder)
  : result (ErrCode * option ResourceBuilder) :=
  match vs with
  | [] => Ok (rc, b)
  | v :: vs =>
    '(rc, b) ← (if RC_IS_OK rc then
                  b ← deref b; '(rc, b) ← addValue idx v b; Ok (rc, Some b)
                else Ok (rc, b));
    add_values (idx + 1) vs rc b
  end.

(** The end of the list of values. *)
Definition values_end (m : Mem) (l : SigLocals) : result SigLocals :=
  '(rc, b) ← (if RC_IS_OK (sl_rc l) then
                b ← deref (sl_rbuilder l);
                let '(rc, b) := SignalRegistry.setNumValues (m_vec m)
                                  (wrap_s 32 (Z.of_nat (length (sl_resValues l)))) b in
                Ok (rc, Some b)
              else Ok (sl_rc l, sl_rbuilder l));
  '(rc, b) ← add_values 0 (sl_resValues l) rc b;
  Ok (sig_values [] (sig_builders rc (sl_builder l) b l)).

(** The end of a resource of a signal: it is added while there is no error. *)
Definition resource_end (m : Mem) (l : SigLocals) : result SigLocals :=
  let l := sig_flags (sl_signal l) false (sl_extra l) l in
  if RC_IS_OK (sl_rc l) then
    b ← deref (sl_builder l);
    rb ← deref (sl_rbuilder l);
    let '(rc, b) := SignalRegistry.addResource (m_vec m) (m_grow m) (buildResource rb) b in
    Ok (sig_builders rc (Some b) None l)
  else Ok l.

(** The end of a signal: after an error its category becomes the one the registry refuses,
    and the result of that call replaces the error. *)
Definition signal_end (l : SigLocals) (r : SignalRegistry) : result (SigLocals * SignalRegistry) :=
  let l := sig_flags false (sl_res l) (sl_extra l) l in
  b ← deref (sl_builder l);
  let '(rc, b) := if RC_IS_NOTOK (sl_rc l) then setSignalCategory "0" b else (sl_rc l, b) in
  r ← registerSignal (SignalRegistry.build b) r;
  Ok (sig_builders rc None (sl_rbuilder l) l, r).

Definition signal_step (i : nat) (event : yaml_event) (st : SigLocals * SignalRegistry)
  : result ((SigLocals * SignalRegistry) * flow) :=
  let '(l, r) := st in
  let m := mem i in
  match event with
  | YAML_STREAM_END_EVENT => Ok (st, Done)
  | YAML_MAPPING_START_EVENT =>
    if negb (sl_doc l) then
      Ok ((mkSig (sl_rc l) true (sl_signal l) (sl_res l) (sl_extra l) (sl_value l) (sl_keys l)
             (sl_resValues l) (sl_builder l) (sl_rbuilder l), r), Next)
    else
      match sl_keys l with
      | [] => Ok (st, Return RC_YAML_INVALID_SYNTAX)
      | topKey :: _ =>
        if String.eqb topKey SIGNAL_CONFIGS_ELEM_RESOURCES then
          let l := sig_flags (sl_signal l) true (sl_extra l) l in
          if m_builder m
          then Ok ((sig_builders (sl_rc l) (sl_builder l) (Some (ResourceBuilder_init (m_inner m))) l, r), Next)
          else Ok ((sig_builders (sl_rc l) None None l, r), Return RC_YAML_PARSING_ERROR)
        else if String.eqb topKey SIGNAL_CONFIGS_ELEM_EXTRA_ATTRS then
          let l := sig_flags (sl_signal l) (sl_res l) true l in
          Ok ((sig_builders (sl_rc l) (markExtraAttrsPresent <$> sl_builder l) (sl_rbuilder l) l, r), Next)
        else if String.eqb topKey SIGNAL_CONFIGS_ROOT then
          let l := sig_flags true (sl_res l) (sl_extra l) l in
          if m_builder m
          then Ok ((sig_builders (sl_rc l) (Some (SignalInfoBuilder_init (m_inner m))) (sl_rbuilder l) l, r), Next)
          else Ok ((sig_builders (sl_rc l) None (sl_rbuilder l) l, r), Return RC_YAML_PARSING_ERROR)
        else Ok (st, Next)
      end
  | YAML_MAPPING_END_EVENT =>
    if sl_res l then l ← resource_end m l; Ok ((l, r), Next)
    else if sl_extra l then Ok ((sig_flags (sl_signal l) (sl_res l) false l, r), Next)
    else if sl_signal l then st ← signal_end l r; Ok (st, Next)
    else Ok (st, Next)
  | YAML_SEQUENCE_END_EVENT =>
    match sl_keys l with
    | [] => Ok (st, Return RC_YAML_INVALID_SYNTAX)
    | topKey :: ks =>
      let l := sig_keys (sl_value l) ks l in
      if String.eqb topKey SIGNAL_CONFIGS_ELEM_RESOURCE_VALUES then l ← values_end m l; Ok ((l, r), Next)
      else Ok ((l, r), Next)
    end
  | YAML_SCALAR_EVENT v =>
    let value := read_value v (sl_value l) in
    let '(s, ks) := read_scalar value (sl_keys l) in
    let l := sig_keys value ks l in
    match s with
    | KeyPushed => Ok ((l, r), Next)
    | NoKey => Ok ((sig_builders (sl_rc l) None None l, r), Return RC_YAML_INVALID_SYNTAX)
    | ValueOf topKey =>
      '(rc, b) ← add_to_builder (signal_setter m value) topKey (sl_rc l) (sl_builder l);
      '(rc, rb) ← add_to_builder (signal_resource_setter value) topKey rc (sl_rbuilder l);
      let l := sig_builders rc b rb l in
      Ok ((if String.eqb topKey SIGNAL_CONFIGS_ELEM_RESOURCE_VALUES then sig_values (sl_resValues l ++ [value]) l else l, r), Next)
    end
  | _ => Ok (st, Next)
  end.
End Signals.

(** ** Features *)
Section Features.
Context (reg : SignalRegistry) (mem : nat -> Mem).

Definition feature_setter (m : Mem) (key value : string) (b : ExtFeatureInfoBuilder)
  : option (result (ErrCode * ExtFeatureInfoBuilder)) :=
  if String.eqb key EXT_FEATURE_CONFIGS_ELEM_ID then Some (Ok (setId value b)) else
  if String.eqb key EXT_FEATURE_CONFIGS_ELEM_LIB then Some (Ok (setLib value b)) else
  if String.eqb key EXT_FEATURE_CONFIGS_ELEM_NAME then Some (Ok (ExtFeatures.setName value b)) else
  if String.eqb key EXT_FEATURE_CONFIGS_ELEM_SUBSCRIBER_LIST then Some (Ok (addSignalSubscribedTo (m_vec m) (m_grow m) value b)) else
  None.

Abbreviation FeatState := (Locals ExtFeatureInfoBuilder * (ExtFeaturesRegistry * SignalExtFeatureMapper))%type.

Definition end_feature (st : FeatState) : result FeatState :=
  let '(l, (r, mp)) := st in
  b ← deref (lc_builder l);
  let b := if RC_IS_NOTOK (lc_rc l) then (setLib "" b).2 else b in
  rm ← registerExtFeature reg (ExtFeatures.build b) r mp;
  Ok (end_item l, rm).

Definition feature_step (i : nat) (event : yaml_event) (st : FeatState) : result (FeatState * flow) :=
  let '(l, rm) := st in
  match event with
  | YAML_STREAM_END_EVENT => Ok (st, Done)
  | YAML_MAPPING_START_EVENT =>
    if negb (lc_doc l) then Ok ((set_doc l, rm), Next) else
    if m_builder (mem i)
    then Ok ((start_item (Some (ExtFeatureInfoBuilder_init (m_inner (mem i)))) l, rm), Next)
    else Ok ((mkLocals (lc_rc l) (lc_doc l) (lc_item l) (lc_value l) (lc_keys l) None, rm),
             Return RC_YAML_PARSING_ERROR)
  | YAML_MAPPING_END_EVENT =>
    if lc_item l then st ← end_feature st; Ok (st, Next) else Ok (st, Next)
  | YAML_SEQUENCE_END_EVENT => let '(l, f) := sequence_end l in Ok ((l, rm), f)
  | YAML_SCALAR_EVENT v => '(l, f) ← scalar_case (feature_setter (mem i)) v l; Ok ((l, rm), f)
  | _ => Ok (st, Next)
  end.
End Features.

(** ** Applications *)
Section Apps.
(** [copies i k]: memory for the [k]-th copy of a configuration made during event [i]. *)
Context (mem : nat -> Mem) (copies : nat -> nat -> bool).

(** The error code of this parser stays [RC_SUCCESS]: it returns at the first error. *)
Record AppLocals := mkApp {
  al_doc : bool;
  al_inThreadList : bool;
  al_inConfigList : bool;
  al_inAppList : bool;
  al_value : string;
  al_items : list string;      (* itemArray *)
  al_names : list string;      (* appNameArray *)
  al_keys : list string;
  al_builder : option AppConfigBuilder
}.
Definition AppLocals_init : AppLocals := mkApp false false false false "" [] [] [] None.

Definition app_keys (v : string) (ks : list string) (l : AppLocals) : AppLocals :=
  mkApp (al_doc l) (al_inThreadList l) (al_inConfigList l) (al_inAppList l) v (al_items l) (al_names l)
    ks (al_builder l).
Definition app_lists (t c a : bool) (items names : list string) (b : option AppConfigBuilder)
    (l : AppLocals) : AppLocals :=
  mkApp (al_doc l) t c a (al_value l) items names (al_keys l) b.

(** The names and cgroups of the threads, two by two, until one is refused.  An odd
    number of elements is read past the end. *)
Fixpoint add_threads (listIndex : Z) (items : list string) (b : AppConfigBuilder)
  : result (ErrCode * AppConfigBuilder) :=
  match items with
  | [] => Ok (RC_SUCCESS, b)
  | [_] => Fault OutOfRange
  | threadName :: cGroup :: items =>
    '(rc, b) ← addThreadMapping listIndex threadName cGroup b;
    if RC_IS_NOTOK rc then Ok (rc, b) else add_threads (listIndex + 1) items b
  end.

Fixpoint add_sigcodes (i : Z) (items : list string) (b : AppConfigBuilder)
  : result (ErrCode * AppConfigBuilder) :=
  match items with
  | [] => Ok (RC_SUCCESS, b)
  | code :: items =>
    '(rc, b) ← addSigCode i code b;
    if RC_IS_NOTOK rc then Ok (rc, b) else add_sigcodes (i + 1) items b
  end.

(** One configuration per name of the application. *)
Fixpoint register_apps (i k : nat) (names : list string) (b : option AppConfigBuilder) (m : AppConfigMap)
  : result AppConfigMap :=
  match names with
  | [] => Ok m
  | name :: names =>
    b' ← deref b;
    register_apps i (S k) names b (registerAppConfig (build_named (copies i k) name b') m)
  end.

(** The end of a list: the threads, the signals, or the names. *)
Definition app_sequence_end (mm : Mem) (l : AppLocals) : result (AppLocals * flow) :=
  let count := Z.of_nat (length (al_items l)) in
  if al_inThreadList l then
    b ← deref (al_builder l);
    let '(rc, b) := setNumThreads (m_vec mm) (m_grow mm) (wrap_s 32 (count / 2)) b in
    if RC_IS_NOTOK rc then Ok (l, Return RC_YAML_INVALID_SYNTAX) else
    '(rc, b) ← add_threads 0 (al_items l) b;
    if RC_IS_NOTOK rc then Ok (l, Return RC_YAML_INVALID_SYNTAX) else
    Ok (app_lists false (al_inConfigList l) (al_inAppList l) [] (al_names l) (Some b) l, Next)
  else if al_inConfigList l then
    b ← deref (al_builder l);
    let '(rc, b) := setNumSigCodes (m_vec mm) (wrap_s 32 count) b in
    if RC_IS_NOTOK rc then Ok (l, Return RC_YAML_INVALID_SYNTAX) else
    '(rc, b) ← add_sigcodes 0 (al_items l) b;
    if RC_IS_NOTOK rc then Ok (l, Return RC_YAML_INVALID_SYNTAX) else
    Ok (app_lists (al_inThreadList l) false (al_inAppList l) [] (al_names l) (Some b) l, Next)
  else if al_inAppList l then
    Ok (app_lists (al_inThreadList l) (al_inConfigList l) false (al_items l) (al_names l) (al_builder l) l, Next)
  else Ok (l, Next).

Definition app_step (i : nat) (event : yaml_event) (st : AppLocals * AppConfigMap)
  : result ((AppLocals * AppConfigMap) * flow) :=
  let '(l, m) := st in
  match event with
  | YAML_STREAM_END_EVENT => Ok (st, Done)
  | YAML_MAPPING_START_EVENT =>
    if negb (al_doc l) then
      Ok ((mkApp true (al_inThreadList l) (al_inConfigList l) (al_inAppList l) (al_value l) (al_items l)
             (al_names l) (al_keys l) (al_builder l), m), Next)
    else
      topKey ← of_option OutOfRange (head (al_keys l));
      match al_builder l with
      | None =>
        if String.eqb topKey APP_CONFIGS_ROOT then
          if m_builder (mem i)
          then Ok ((app_lists (al_inThreadList l) (al_inConfigList l) (al_inAppList l) (al_items l) (al_names l)
                      (Some (AppConfigBuilder_init (m_inner (mem i)))) l, m), Next)
          else Ok (st, Throw)
        else Ok (st, Next)
      | Some _ => Ok (st, Next)
      end
  | YAML_MAPPING_END_EVENT =>
    match al_keys l with
    | topKey :: _ =>
      if String.eqb topKey APP_CONFIGS_ROOT then
        m ← register_apps i 0 (al_names l) (al_builder l) m;
        Ok ((app_lists (al_inThreadList l) (al_inConfigList l) (al_inAppList l) (al_items l) [] None l, m), Next)
      else Ok (st, Next)
    | [] => Ok (st, Next)
    end
  | YAML_SEQUENCE_START_EVENT =>
    match al_keys l with
    | [] => Ok (st, Return RC_YAML_INVALID_SYNTAX)
    | topKey :: _ =>
      let l :=
        if String.eqb topKey APP_CONFIGS_THREAD_LIST
        then app_lists true (al_inConfigList l) (al_inAppList l) (al_items l) (al_names l) (al_builder l) l
        else if String.eqb topKey APP_CONFIGS_CONFIGURATION_LIST
        then app_lists (al_inThreadList l) true (al_inAppList l) (al_items l) (al_names l) (al_builder l) l
        else if String.eqb topKey APP_CONFIGS_APP_NAME
        then app_lists (al_inThreadList l) (al_inConfigList l) true (al_items l) (al_names l) (al_builder l) l
        else l in
      Ok ((l, m), Next)
    end
  | YAML_SEQUENCE_END_EVENT =>
    match al_keys l with
    | [] => Ok (st, Return RC_YAML_INVALID_SYNTAX)
    | _ :: ks =>
      '(l, f) ← app_sequence_end (mem i) l;
      Ok ((match f with Next => app_keys (al_value l) ks l | _ => l end, m), f)
    end
  | YAML_SCALAR_EVENT v =>
    let value := read_value v (al_value l) in
    if isKey value then Ok ((app_keys value (value :: al_keys l) l, m), Next) else
    match al_keys l with
    | [] => Ok ((app_keys value [] l, m), Return RC_YAML_INVALID_SYNTAX)
    | topKey :: ks =>
      let inList := al_inConfigList l || al_inThreadList l || al_inAppList l in
      let l := app_keys value (if inList then al_keys l else ks) l in
      Ok ((if String.eqb topKey APP_CONFIGS_APP_NAME
           then app_lists (al_inThreadList l) (al_inConfigList l) (al_inAppList l) (al_items l)
                  (al_names l ++ [value]) (al_builder l) l
           else if String.eqb topKey APP_CONFIGS_THREAD_LIST || String.eqb topKey APP_CONFIGS_CONFIGURATION_LIST
           then app_lists (al_inThreadList l) (al_inConfigList l) (al_inAppList l)
                  (al_items l ++ [value]) (al_names l) (al_builder l) l
           else l, m), Next)
    end
  | _ => Ok (st, Next)
  end.
End Apps.

(** ** The parsers on a file *)
Record YamlFile := mkFile {
  yf_opened : bool;                       (* fopen *)
  yf_initialized : bool;                  (* yaml_parser_initialize *)
  yf_next : nat -> option yaml_event      (* yaml_parser_parse *)
}.

(** The code returned, [None] when an exception leaves the parser; [final] is what a
    parser returns after the last event. *)
Definition parse_file {S} (step : nat -> yaml_event -> S -> result (S * flow)) (final : S -> ErrCode)
    (file : YamlFile) (fuel : nat) (s : S) : option (result (S * option ErrCode)) :=
  if negb (yf_opened file) then Some (Ok (s, Some RC_FILE_NOT_FOUND)) else
  if negb (yf_initialized file) then Some (Ok (s, Some RC_YAML_PARSING_ERROR)) else
  match parse_loop step (yf_next file) fuel 0 s with
  | None => None
  | Some (Fault f) => Some (Fault f)
  | Some (Ok (s, Finished)) => Some (Ok (s, Some (final s)))
  | Some (Ok (s, Returned rc)) => Some (Ok (s, Some rc))
  | Some (Ok (s, Thrown)) => Some (Ok (s, None))
  end.

(** The registries of the server. *)
Record Configs := mkConfigs {
  cf_resources : ResourceRegistry;
  cf_properties : PropertiesRegistry;
  cf_target : TargetRegistry;
  cf_settings : TargetConfigs;
  cf_signals : SignalRegistry;
  cf_features : ExtFeaturesRegistry;
  cf_mapper : SignalExtFeatureMapper;
  cf_apps : AppConfigMap;
  cf_fs : FileSystem
}.

Section Parse.
Context `{HashOrder} (run_dir basePath : string) (mem : nat -> Mem) (copies : nat -> nat -> bool).

(** The local variables are discarded; [upd] stores what the parser changed. *)
Definition keep {L A} (upd : A -> Configs) (o : option (result ((L * A) * option ErrCode)))
  : option (result (Configs * option ErrCode)) :=
  match o with
  | None => None
  | Some (Fault f) => Some (Fault f)
  | Some (Ok ((_, a), rc)) => Some (Ok (upd a, rc))
  end.

Definition parse (configType : ConfigType) (file : YamlFile) (fuel : nat) (c : Configs)
  : option (result (Configs * option ErrCode)) :=
  match configType with
  | RESOURCE_CONFIG =>
    keep (fun r => mkConfigs r (cf_properties c) (cf_target c) (cf_settings c) (cf_signals c)
                     (cf_features c) (cf_mapper c) (cf_apps c) (cf_fs c))
      (parse_file (resource_step (cf_fs c) (cf_target c) (cf_settings c) mem) (fun s => lc_rc s.1)
         file fuel (Locals_init, cf_resources c))
  | PROPERTIES_CONFIG =>
    keep (fun r => mkConfigs (cf_resources c) r (cf_target c) (cf_settings c) (cf_signals c)
                     (cf_features c) (cf_mapper c) (cf_apps c) (cf_fs c))
      (parse_file property_step (fun _ => RC_SUCCESS) file fuel (PropLocals_init, cf_properties c))
  | TARGET_CONFIG =>
    keep (fun r => mkConfigs (cf_resources c) (cf_properties c) r.1 r.2 (cf_signals c)
                     (cf_features c) (cf_mapper c) (cf_apps c) (cf_fs c))
      (parse_file target_step (fun _ => RC_SUCCESS) file fuel
         (TargetLocals_init, (cf_target c, cf_settings c)))
  | INIT_CONFIG =>
    keep (fun r => mkConfigs (cf_resources c) (cf_properties c) r.1 (cf_settings c) (cf_signals c)
                     (cf_features c) (cf_mapper c) (cf_apps c) r.2)
      (parse_file (init_step run_dir basePath mem) (fun s => il_rc s.1) file fuel
         (InitLocals_init, (cf_target c, cf_fs c)))
  | SIGNALS_CONFIG =>
    keep (fun r => mkConfigs (cf_resources c) (cf_properties c) (cf_target c) (cf_settings c) r
                     (cf_features c) (cf_mapper c) (cf_apps c) (cf_fs c))
      (parse_file (signal_step (cf_settings c) mem) (fun s => sl_rc s.1) file fuel
         (SigLocals_init, cf_signals c))
  | EXT_FEATURES_CONFIG =>
    keep (fun r => mkConfigs (cf_resources c) (cf_properties c) (cf_target c) (cf_settings c)
                     (cf_signals c) r.1 r.2 (cf_apps c) (cf_fs c))
      (parse_file (feature_step (cf_signals c) mem) (fun s => lc_rc s.1) file fuel
         (Locals_init, (cf_features c, cf_mapper c)))
  | APP_CONFIG =>
    keep (fun m => mkConfigs (cf_resources c) (cf_properties c) (cf_target c) (cf_settings c)
                     (cf_signals c) (cf_features c) (cf_mapper c) m (cf_fs c))
      (parse_file (app_step mem copies) (fun _ => RC_SUCCESS) file fuel (AppLocals_init, cf_apps c))
  | TOTAL_CONFIGS_COUNT => Some (Ok (c, Some RC_BAD_ARG))
  end.
End Parse.
