(* ===== verification/RestuneInit.v ===== *)
(** [resource-tuner/init/RestuneInit.cpp], with [modula/CoreModules/ComponentRegistry.cpp] and
    [urm.cpp]: how the daemon reads its configuration, builds its parts and takes them
    down again.

    A function that may return early gives the error code it returned, or [None] when an
    exception leaves it.  The files that YAML is parsed from are a parameter ([yaml]), one
    document per path; the shared objects of the extensions are reached through
    [dlopen]; whether a thread, a block or a pool could be had is an argument. *)
From S2P Require Import Prelude Double UrmTypes StdString Strtod AuxRoutines TargetRegistry ResourceRegistry Extensions.
From S2P Require Import Request ResourceHooks MemoryPool ThreadPool SignalRegistry ExtFeatures PropertiesRegistry JournalConf RestuneParser.
Open Scope string_scope.
Open Scope list_scope.
Open Scope Z_scope.

(** Going on after a call that succeeded. *)
Definition and_then {A} (x : result (A * option ErrCode)) (k : A -> result (A * option ErrCode))
  : result (A * option ErrCode) :=
  '(a, rc) ← x;
  match rc with
  | None => Ok (a, None)
  | Some rc => if RC_IS_NOTOK rc then Ok (a, Some rc) else k a
  end.

(** [if(RC_IS_NOTOK(x)) return RC_MODULE_INIT_FAILURE;]. *)
Definition or_fail {A} (x : result (A * option ErrCode)) : result (A * option ErrCode) :=
  '(a, rc) ← x;
  Ok (a, match rc with
         | Some rc => Some (if RC_IS_NOTOK rc then RC_MODULE_INIT_FAILURE else rc)
         | None => None
         end).

(** ** Settings read from the properties *)
Definition MetaConfigs_init : MetaConfigs := mkMeta 0 0 0 0 0 0 0 0 0 (d_of_Z 0) (d_of_Z 0) 0 0.

Definition set_concurrent (n : Z) (m : MetaConfigs) : MetaConfigs :=
  mkMeta n (mMaxResourcesPerRequest m) (mDesiredThreadCount m) (mMaxScalingCapacity m)
    (mListeningPort m) (mPulseDuration m) (mClientGarbageCollectorDuration m) (mDelta m)
    (mCleanupBatchSize m) (mPenaltyFactor m) (mRewardFactor m) (mPluginCount m) (mAcceptMode m).
Definition set_per_request (n : Z) (m : MetaConfigs) : MetaConfigs :=
  mkMeta (mMaxConcurrentRequests m) n (mDesiredThreadCount m) (mMaxScalingCapacity m)
    (mListeningPort m) (mPulseDuration m) (mClientGarbageCollectorDuration m) (mDelta m)
    (mCleanupBatchSize m) (mPenaltyFactor m) (mRewardFactor m) (mPluginCount m) (mAcceptMode m).
Definition set_threads (n : Z) (m : MetaConfigs) : MetaConfigs :=
  mkMeta (mMaxConcurrentRequests m) (mMaxResourcesPerRequest m) n (mMaxScalingCapacity m)
    (mListeningPort m) (mPulseDuration m) (mClientGarbageCollectorDuration m) (mDelta m)
    (mCleanupBatchSize m) (mPenaltyFactor m) (mRewardFactor m) (mPluginCount m) (mAcceptMode m).
Definition set_scaling (n : Z) (m : MetaConfigs) : MetaConfigs :=
  mkMeta (mMaxConcurrentRequests m) (mMaxResourcesPerRequest m) (mDesiredThreadCount m) n
    (mListeningPort m) (mPulseDuration m) (mClientGarbageCollectorDuration m) (mDelta m)
    (mCleanupBatchSize m) (mPenaltyFactor m) (mRewardFactor m) (mPluginCount m) (mAcceptMode m).
Definition set_pulse (n : Z) (m : MetaConfigs) : MetaConfigs :=
  mkMeta (mMaxConcurrentRequests m) (mMaxResourcesPerRequest m) (mDesiredThreadCount m)
    (mMaxScalingCapacity m) (mListeningPort m) n (mClientGarbageCollectorDuration m) (mDelta m)
    (mCleanupBatchSize m) (mPenaltyFactor m) (mRewardFactor m) (mPluginCount m) (mAcceptMode m).
Definition set_collector (n : Z) (m : MetaConfigs) : MetaConfigs :=
  mkMeta (mMaxConcurrentRequests m) (mMaxResourcesPerRequest m) (mDesiredThreadCount m)
    (mMaxScalingCapacity m) (mListeningPort m) (mPulseDuration m) n (mDelta m)
    (mCleanupBatchSize m) (mPenaltyFactor m) (mRewardFactor m) (mPluginCount m) (mAcceptMode m).
Definition set_batch (n : Z) (m : MetaConfigs) : MetaConfigs :=
  mkMeta (mMaxConcurrentRequests m) (mMaxResourcesPerRequest m) (mDesiredThreadCount m)
    (mMaxScalingCapacity m) (mListeningPort m) (mPulseDuration m) (mClientGarbageCollectorDuration m)
    (mDelta m) n (mPenaltyFactor m) (mRewardFactor m) (mPluginCount m) (mAcceptMode m).
Definition set_delta (n : Z) (m : MetaConfigs) : MetaConfigs :=
  mkMeta (mMaxConcurrentRequests m) (mMaxResourcesPerRequest m) (mDesiredThreadCount m)
    (mMaxScalingCapacity m) (mListeningPort m) (mPulseDuration m) (mClientGarbageCollectorDuration m)
    n (mCleanupBatchSize m) (mPenaltyFactor m) (mRewardFactor m) (mPluginCount m) (mAcceptMode m).
Definition set_penalty (d : double) (m : MetaConfigs) : MetaConfigs :=
  mkMeta (mMaxConcurrentRequests m) (mMaxResourcesPerRequest m) (mDesiredThreadCount m)
    (mMaxScalingCapacity m) (mListeningPort m) (mPulseDuration m) (mClientGarbageCollectorDuration m)
    (mDelta m) (mCleanupBatchSize m) d (mRewardFactor m) (mPluginCount m) (mAcceptMode m).
Definition set_reward (d : double) (m : MetaConfigs) : MetaConfigs :=
  mkMeta (mMaxConcurrentRequests m) (mMaxResourcesPerRequest m) (mDesiredThreadCount m)
    (mMaxScalingCapacity m) (mListeningPort m) (mPulseDuration m) (mClientGarbageCollectorDuration m)
    (mDelta m) (mCleanupBatchSize m) (mPenaltyFactor m) d (mPluginCount m) (mAcceptMode m).
Definition set_plugins (n : Z) (m : MetaConfigs) : MetaConfigs :=
  mkMeta (mMaxConcurrentRequests m) (mMaxResourcesPerRequest m) (mDesiredThreadCount m)
    (mMaxScalingCapacity m) (mListeningPort m) (mPulseDuration m) (mClientGarbageCollectorDuration m)
    (mDelta m) (mCleanupBatchSize m) (mPenaltyFactor m) (mRewardFactor m) n (mAcceptMode m).
Definition set_mode (n : Z) (m : MetaConfigs) : MetaConfigs :=
  mkMeta (mMaxConcurrentRequests m) (mMaxResourcesPerRequest m) (mDesiredThreadCount m)
    (mMaxScalingCapacity m) (mListeningPort m) (mPulseDuration m) (mClientGarbageCollectorDuration m)
    (mDelta m) (mCleanupBatchSize m) (mPenaltyFactor m) (mRewardFactor m) (mPluginCount m) n.

Definition URM_MAX_PLUGIN_COUNT : string := "urm.extensions_lib.count".
Definition ACCEPT_AND_PERSIST : Z := 1.
Definition ACCEPT_AND_REPLACE : Z := 2.

(** A setting: what its text is turned into. *)
Inductive Setter :=
  | Number (set : Z -> MetaConfigs -> MetaConfigs)        (* [(uint32_t)std::stol] *)
  | Factor (set : double -> MetaConfigs -> MetaConfigs).  (* [std::stod] *)

(** The settings in the order they are fetched: property, default, member. *)
Definition settings : list (string * string * Setter) :=
  [("resource_tuner.maximum.concurrent.requests", "50", Number set_concurrent);
   ("resource_tuner.maximum.resources.per.request", "5", Number set_per_request);
   ("resource_tuner.thread_pool.desired_capacity", "5", Number set_threads);
   ("resource_tuner.thread_pool.max_scaling_capacity", "10", Number set_scaling);
   ("resource_tuner.pulse.duration", "60000", Number set_pulse);
   ("resource_tuner.garbage_collection.duration", "83000", Number set_collector);
   ("resource_tuner.garbage_collection.batch_size", "20", Number set_batch);
   ("resource_tuner.rate_limiter.delta", "5", Number set_delta);
   ("resource_tuner.penalty.factor", "2.0", Factor set_penalty);
   ("resource_tuner.reward.factor", "0.4", Factor set_reward);
   (URM_MAX_PLUGIN_COUNT, "3", Number set_plugins)].

Definition fetched (prop def : string) (r : PropertiesRegistry) : string :=
  (submitPropGetRequest_default prop def r).2.

Definition apply_setter (s : Setter) (value : string) (m : MetaConfigs) : MetaConfigs + stox_exn :=
  match s with
  | Number set => match stol 10 value with inl v => inl (set (wrap_u 32 v) m) | inr e => inr e end
  | Factor set => match stod value with inl d => inl (set d m) | inr e => inr e end
  end.

(** The settings up to the first that throws; both exceptions end in the same code. *)
Fixpoint fetch_settings (l : list (string * string * Setter)) (r : PropertiesRegistry)
    (m : MetaConfigs) : MetaConfigs * option ErrCode :=
  match l with
  | [] => (m, Some RC_SUCCESS)
  | (prop, def, s) :: l =>
    match apply_setter s (fetched prop def r) m with
    | inl m => fetch_settings l r m
    | inr _ => (m, Some RC_PROP_PARSING_ERROR)
    end
  end.

(** What follows the settings: the mode of the classifier and the two bounds. *)
Definition finish_settings (r : PropertiesRegistry) (m : MetaConfigs) : MetaConfigs :=
  let mode := fetched "urm.classifier.apply_mode" "ACCEPT_AND_PERSIST" r in
  let m := set_mode (if String.eqb mode "ACCEPT_AND_REPLACE" then ACCEPT_AND_REPLACE
                     else ACCEPT_AND_PERSIST) m in
  let m := if mDesiredThreadCount m <? 1 then set_threads 5 m else m in
  if mMaxScalingCapacity m >? 100 then set_scaling 100 m else m.

Definition meta_from (r : PropertiesRegistry) (m : MetaConfigs) : MetaConfigs * option ErrCode :=
  match fetch_settings settings r m with
  | (m, Some RC_SUCCESS) => (finish_settings r m, Some RC_SUCCESS)
  | r => r
  end.

(** ** Logger::configure *)
Inductive RedirectOptions := LOG_TOSYSLOG | LOG_TOFILE | LOG_TOFTRACE | LOG_TOLOGCAT.
Record LoggerConfig := mkLogger {
  mLowestLogLevel : Z;
  mLevelSpecificLogging : bool;
  mRedirectOutputTo : RedirectOptions
}.
(** The levels of [syslog.h]. *)
Definition LOG_ERR : Z := 3.
Definition LOG_WARNING : Z := 4.
Definition LOG_INFO : Z := 6.
Definition LOG_DEBUG : Z := 7.

Definition initLogger (r : PropertiesRegistry) : LoggerConfig :=
  let level := fetched "urm.logging.level" "DEBUG" r in
  let levelType := fetched "urm.logging.level.exact" "false" r in
  let target := fetched "urm.logging.redirect_to" "SYSLOG" r in
  mkLogger
    (if String.eqb level "WARN" then LOG_WARNING
     else if String.eqb level "ERROR" then LOG_ERR
     else if String.eqb level "INFO" then LOG_INFO else LOG_DEBUG)
    (String.eqb levelType "true")
    (if String.eqb target "LOGCAT" then LOG_TOLOGCAT
     else if String.eqb target "FTRACE" then LOG_TOFTRACE
     else if String.eqb target "FILE" then LOG_TOFILE else LOG_TOSYSLOG).

(** ** Reading the configuration files *)
Section Init.
Context `{HashOrder}.
(** The directories of the build ([Config.h.in]), each with its final slash. *)
Context (commonDir customDir targetDir runDir libDir : string).
(** The documents, the fuel of a parser, and the allocations made while a path is parsed. *)
Context (yaml : string -> YamlFile) (fuel : nat) (mem : string -> nat -> Mem)
        (copies : string -> nat -> nat -> bool).

Definition mPersistenceFile : string := runDir +:+ "urm_saved_values.txt".

Definition parseUtil (filePath : string) (configType : ConfigType) (c : Configs)
  : result (Configs * option ErrCode) :=
  if (String.length filePath =? 0)%nat then Ok (c, Some RC_FILE_NOT_FOUND) else
  match parse runDir mBaseCGroupPath (mem filePath) (copies filePath) configType (yaml filePath) fuel c with
  | None => Fault OutOfFuel
  | Some r => r
  end.

Definition getFullTargetBasedConfPath (configFileName : string) (c : Configs) : string :=
  let name := targetName (cf_settings c) in
  if (String.length name =? 0)%nat then "" else
  targetDir +:+ name +:+ "/" +:+ configFileName.

(** The loop over the four places a configuration can be overridden in. *)
Fixpoint fetch_layers (configType : ConfigType) (paths : list string) (opStatus : ErrCode)
    (c : Configs) : result (Configs * option ErrCode) :=
  match paths with
  | [] => Ok (c, Some opStatus)
  | filePath :: paths =>
    if (0 <? String.length filePath)%nat && fileExists (cf_fs c) filePath then
      '(c, rc) ← parseUtil filePath configType c;
      match rc with
      | None => Ok (c, None)
      | Some rc => if RC_IS_NOTOK rc then Ok (c, Some rc) else fetch_layers configType paths rc c
      end
    else fetch_layers configType paths opStatus c
  end.

(** [customConfPaths]. *)
Definition custom_paths (fileName : string) (extension : result string) (c : Configs)
  : result (list string) :=
  e ← extension;
  Ok [targetDir +:+ fileName; getFullTargetBasedConfPath fileName c; customDir +:+ fileName; e].

Definition fetch_custom (configType : ConfigType) (fileName : string) (extension : result string)
    (c : Configs) : result (Configs * option ErrCode) :=
  paths ← custom_paths fileName extension c;
  fetch_layers configType paths RC_SUCCESS c.

Definition fetchCommonProperties (c : Configs) : result (Configs * option ErrCode) :=
  parseUtil (commonDir +:+ "PropertiesConfig.yaml") PROPERTIES_CONFIG c.

Definition fetchCustomProperties (ext : Extensions) (c : Configs) : result (Configs * option ErrCode) :=
  fetch_custom PROPERTIES_CONFIG "PropertiesConfig.yaml" (getPropertiesConfigFilePath ext) c.

Definition fetchResources (ext : Extensions) (c : Configs) : result (Configs * option ErrCode) :=
  and_then (parseUtil (commonDir +:+ "ResourcesConfig.yaml") RESOURCE_CONFIG c)
    (fetch_custom RESOURCE_CONFIG "ResourcesConfig.yaml" (getResourceConfigFilePath ext)).

(** [addr] orders the clusters that [readTargetInfo] allocates; the registry is
    constructed here, which restores the journal configuration first. *)
Definition fetchTargetInfo (addr : Z -> Z) (ext : Extensions) (c : Configs)
  : result (Configs * option ErrCode) :=
  let fs := TargetRegistry_restore runDir (cf_fs c) in
  '(t, cfg) ← readTargetInfo addr fs (cf_target c) (cf_settings c);
  fetch_custom TARGET_CONFIG "TargetConfig.yaml" (getTargetConfigFilePath ext)
    (mkConfigs (cf_resources c) (cf_properties c) t cfg (cf_signals c) (cf_features c)
       (cf_mapper c) (cf_apps c) fs).

Definition fetchInitInfo (ext : Extensions) (c : Configs) : result (Configs * option ErrCode) :=
  and_then (parseUtil (commonDir +:+ "InitConfig.yaml") INIT_CONFIG c)
    (fetch_custom INIT_CONFIG "InitConfig.yaml" (getInitConfigFilePath ext)).

Definition fetchSignals (ext : Extensions) (c : Configs) : result (Configs * option ErrCode) :=
  and_then (parseUtil (commonDir +:+ "SignalsConfig.yaml") SIGNALS_CONFIG c)
    (fetch_custom SIGNALS_CONFIG "SignalsConfig.yaml" (getSignalsConfigFilePath ext)).

Definition fetchExtFeatureConfigs (ext : Extensions) (c : Configs) : result (Configs * option ErrCode) :=
  fetch_custom EXT_FEATURES_CONFIG "ExtFeaturesConfig.yaml" (getExtFeaturesConfigFilePath ext) c.

Definition fetchPerAppConfigs (ext : Extensions) (c : Configs) : result (Configs * option ErrCode) :=
  fetch_custom APP_CONFIG "PerApp.yaml" (getAppConfigFilePath ext) c.

(** ** The daemon *)
Record Daemon := mkDaemon {
  d_configs : Configs;
  d_meta : MetaConfigs;
  d_ext : Extensions;
  d_handles : option (list (option positive));   (* extensionLibHandles *)
  d_memory : PoolWrapper;
  d_logger : LoggerConfig;
  d_requests : option ThreadPool;                (* RequestReceiver::mRequestsThreadPool *)
  d_timers : option ThreadPool;                  (* Timer::mTimerThreadPool *)
  d_handler : bool;                              (* restuneHandlerThread joinable *)
  d_pulse : option Timer;                        (* of the PulseMonitor *)
  d_collector : option Timer;                    (* of the ClientGarbageCollector *)
  d_listener : bool;                             (* resourceTunerListener joinable *)
  d_calls : list LibCall                         (* calls into the feature libraries *)
}.

Definition with_configs (c : Configs) (d : Daemon) : Daemon :=
  mkDaemon c (d_meta d) (d_ext d) (d_handles d) (d_memory d) (d_logger d) (d_requests d) (d_timers d)
    (d_handler d) (d_pulse d) (d_collector d) (d_listener d) (d_calls d).
Definition with_meta (m : MetaConfigs) (d : Daemon) : Daemon :=
  mkDaemon (d_configs d) m (d_ext d) (d_handles d) (d_memory d) (d_logger d) (d_requests d) (d_timers d)
    (d_handler d) (d_pulse d) (d_collector d) (d_listener d) (d_calls d).
Definition with_handles (h : option (list (option positive))) (e : Extensions) (d : Daemon) : Daemon :=
  mkDaemon (d_configs d) (d_meta d) e h (d_memory d) (d_logger d) (d_requests d) (d_timers d)
    (d_handler d) (d_pulse d) (d_collector d) (d_listener d) (d_calls d).
Definition with_memory (w : PoolWrapper) (l : LoggerConfig) (d : Daemon) : Daemon :=
  mkDaemon (d_configs d) (d_meta d) (d_ext d) (d_handles d) w l (d_requests d) (d_timers d)
    (d_handler d) (d_pulse d) (d_collector d) (d_listener d) (d_calls d).
Definition with_pools (p q : option ThreadPool) (d : Daemon) : Daemon :=
  mkDaemon (d_configs d) (d_meta d) (d_ext d) (d_handles d) (d_memory d) (d_logger d) p q
    (d_handler d) (d_pulse d) (d_collector d) (d_listener d) (d_calls d).
Definition with_calls (l : list LibCall) (d : Daemon) : Daemon :=
  mkDaemon (d_configs d) (d_meta d) (d_ext d) (d_handles d) (d_memory d) (d_logger d) (d_requests d)
    (d_timers d) (d_handler d) (d_pulse d) (d_collector d) (d_listener d) (d_calls d ++ l).
Definition with_threads (handler : bool) (pulse collector : option Timer) (listener : bool) (d : Daemon)
  : Daemon :=
  mkDaemon (d_configs d) (d_meta d) (d_ext d) (d_handles d) (d_memory d) (d_logger d) (d_requests d)
    (d_timers d) handler pulse collector listener (d_calls d).

Definition set_fs (fs : FileSystem) (c : Configs) : Configs :=
  mkConfigs (cf_resources c) (cf_properties c) (cf_target c) (cf_settings c) (cf_signals c)
    (cf_features c) (cf_mapper c) (cf_apps c) fs.
Definition set_settings (t : TargetConfigs) (c : Configs) : Configs :=
  mkConfigs (cf_resources c) (cf_properties c) (cf_target c) t (cf_signals c)
    (cf_features c) (cf_mapper c) (cf_apps c) (cf_fs c).
Definition set_resources (r : ResourceRegistry) (c : Configs) : Configs :=
  mkConfigs r (cf_properties c) (cf_target c) (cf_settings c) (cf_signals c)
    (cf_features c) (cf_mapper c) (cf_apps c) (cf_fs c).

(** A step that only works on the registries. *)
Definition on_configs (f : Configs -> result (Configs * option ErrCode)) (d : Daemon)
  : result (Daemon * option ErrCode) :=
  '(c, rc) ← f (d_configs d); Ok (with_configs c d, rc).

Definition restoreToSafeState (fs : FileSystem) : FileSystem :=
  if fileExists fs mPersistenceFile
  then deleteFile (writeSysFsDefaults fs mPersistenceFile) mPersistenceFile else fs.

Definition fetchMetaConfigs (d : Daemon) : result (Daemon * option ErrCode) :=
  let c := d_configs d in
  name ← getMachineName targetDir (cf_fs c);
  let cfg := cf_settings c in
  let cfg := mkTargetConfigs (toLowerCase name) (mTotalCoreCount cfg) (mTotalClusterCount cfg) (currMode cfg) in
  let '(m, rc) := meta_from (cf_properties c) (d_meta d) in
  Ok (with_meta m (with_configs (set_settings cfg c) d), rc).

(** The machine: what each call of the platform answers. *)
Record Machine := mkMachine {
  calloc_ok : bool;
  dlopen : string -> Extensions -> option positive * Extensions;
  clusters_at : Z -> Z;
  block_size : string -> Z;
  blocks : string -> list (option block);
  pool_ok : bool -> bool;                (* [new ThreadPool]: of requests (true), of timers *)
  thread_ok : bool -> nat -> bool;       (* the threads of each pool *)
  handler_ok : bool;
  timer_block : bool -> bool;            (* for the pulse monitor (true), the collector *)
  timer_task : bool -> bool;             (* their task is accepted by the pool of timers *)
  listener_ok : bool;
  dlsym : string -> string -> option bool
}.
Context (mc : Machine).

(** [extensionLibHandles = calloc(pluginCount, ...)], after its exceptions. *)
Definition allocate_handles (d : Daemon) : result (Daemon * option ErrCode) :=
  match stol 10 (fetched URM_MAX_PLUGIN_COUNT "6" (cf_properties (d_configs d))) with
  | inr _ => Ok (d, None)
  | inl v =>
    let n := wrap_u 32 v in
    let d := with_meta (set_plugins n (d_meta d)) d in
    if calloc_ok mc then Ok (with_handles (Some (replicate (Z.to_nat n) None)) (d_ext d) d, Some RC_SUCCESS)
    else Ok (d, Some RC_MODULE_INIT_FAILURE)
  end.

(** The loop of [loadExtensionsLib]. *)
Fixpoint load_loop (libDirPath : string) (entries : list (string * bool)) (extLibHandleIndex : Z)
    (pluginCount : Z) (handles : list (option positive)) (e : Extensions)
  : result (list (option positive) * Extensions) :=
  match entries with
  | [] => Ok (handles, e)
  | (fileName, _) :: es =>
    if extLibHandleIndex <? pluginCount then
      if String.eqb fileName "." || String.eqb fileName ".."
      then load_loop libDirPath es extLibHandleIndex pluginCount handles e
      else
        let '(h, e) := dlopen mc (libDirPath +:+ "/" +:+ fileName) e in
        if (Z.to_nat extLibHandleIndex <? length handles)%nat then
          load_loop libDirPath es (wrap_u 32 (extLibHandleIndex + 1)) pluginCount
            (<[Z.to_nat extLibHandleIndex := h]> handles) e
        else Fault OutOfRange
    else Ok (handles, e)
  end.

Definition loadExtensionsLib (d : Daemon) : result (Daemon * option ErrCode) :=
  match d_handles d with
  | None => Ok (d, Some RC_SUCCESS)
  | Some handles =>
    let libDirPath := libDir +:+ "/urm/" in
    match fs_dirs (cf_fs (d_configs d)) libDirPath with
    | None => Ok (d, Some RC_SUCCESS)
    | Some entries =>
      '(handles, e) ← load_loop libDirPath entries 0 (mPluginCount (d_meta d)) handles (d_ext d);
      Ok (with_handles (Some handles) e d, Some RC_SUCCESS)
    end
  end.

(** The types whose blocks are reserved, with how many. *)
Definition reservations (m : MetaConfigs) : list (string * Z) :=
  let concurrentRequestsUB := mMaxConcurrentRequests m in
  let maxBlockCount := wrap_u 32 (concurrentRequestsUB * mMaxResourcesPerRequest m) in
  [("Message", concurrentRequestsUB); ("Request", concurrentRequestsUB);
   ("DLManager", concurrentRequestsUB); ("Timer", concurrentRequestsUB);
   ("Resource", maxBlockCount); ("ClientInfo", maxBlockCount); ("ClientTidData", maxBlockCount);
   ("std::unordered_set<int64_t>", maxBlockCount); ("MsgForwardInfo", maxBlockCount);
   ("ResIterable", maxBlockCount); ("char[REQ_BUFFER_SIZE]", maxBlockCount);
   ("Signal", concurrentRequestsUB); ("std::vector<Resource*>", maxBlockCount);
   ("std::vector<uint32_t>", maxBlockCount)].

Fixpoint reserve (l : list (string * Z)) (w : PoolWrapper) : result PoolWrapper :=
  match l with
  | [] => Ok w
  | (type, count) :: l =>
    '(_, w) ← wrapper_makeAllocation (wrap_s 32 count) (block_size mc type) type (blocks mc type) w;
    reserve l w
  end.

Definition preAllocateMemory (d : Daemon) : result Daemon :=
  w ← reserve (reservations (d_meta d)) (d_memory d); Ok (with_memory w (d_logger d) d).

(** The two pools; two more threads for the pulse monitor and the garbage collector. *)
Definition preAllocateWorkers (d : Daemon) : Daemon * option ErrCode :=
  let desired := mDesiredThreadCount (d_meta d) in
  let max := wrap_s 32 (mMaxScalingCapacity (d_meta d)) in
  if negb (pool_ok mc true) then (d, Some RC_MODULE_INIT_FAILURE) else
  let requests := ThreadPool_init (wrap_s 32 desired) max (thread_ok mc true) in
  if negb (pool_ok mc false)
  then (with_pools (Some requests) (d_timers d) d, Some RC_MODULE_INIT_FAILURE) else
  let timers := ThreadPool_init (wrap_s 32 (wrap_u 32 (desired + 2))) max (thread_ok mc false) in
  (with_pools (Some requests) (Some timers) d, Some RC_SUCCESS).

Definition setCgroupParam (slice name value : string) (fs : FileSystem) : ErrCode * FileSystem :=
  let cGroupPath := mBaseCGroupPath +:+ slice +:+ "/" +:+ name in
  if negb (fileExists fs cGroupPath) then (RC_SOCKET_FD_READ_FAILURE, fs)
  else (RC_SUCCESS, writeToFile fs cGroupPath value).

Definition focusedCgroup : string := "urm.slice/focused.apps".

Definition configureFocusedSlice (fs : FileSystem) : FileSystem :=
  foldl (fun fs p => (setCgroupParam focusedCgroup p.1 p.2 fs).2) fs
    [("cgroup.max.depth", "3"); ("cgroup.max.descendants", "10")].

(** [startPulseMonitorDaemon] ([which]) and [startClientGarbageCollectorDaemon]: a
    recurring timer of the given duration. *)
Definition start_daemon (which : bool) (duration : Z) (d : Daemon) : option Timer * ErrCode :=
  if negb (timer_block mc which) then (None, RC_MEMORY_ALLOCATION_FAILURE) else
  let '(started, t) :=
    startTimer (option_map (fun _ => timer_task mc which) (d_timers d)) duration Timer_init in
  (Some t, if started : bool then RC_SUCCESS else RC_WORKER_THREAD_ASSIGNMENT_FAILURE).

(** ** init *)
Definition init_configuration (d : Daemon) : result (Daemon * option ErrCode) :=
  let d := with_configs (set_fs (restoreToSafeState (cf_fs (d_configs d))) (d_configs d)) d in
  and_then (or_fail (on_configs fetchCommonProperties d)) (fun d =>
  and_then (allocate_handles d) (fun d =>
  and_then (or_fail (fetchMetaConfigs d)) (fun d =>
  and_then (or_fail (loadExtensionsLib d)) (fun d =>
  and_then (or_fail (on_configs (fetchCustomProperties (d_ext d)) d)) (fun d =>
  or_fail (fetchMetaConfigs d)))))).

Definition init_parts (d : Daemon) : result (Daemon * option ErrCode) :=
  d ← preAllocateMemory d;
  let d := with_memory (d_memory d) (initLogger (cf_properties (d_configs d))) d in
  and_then (or_fail (Ok (preAllocateWorkers d))) (fun d =>
  and_then (or_fail (on_configs (fetchTargetInfo (clusters_at mc) (d_ext d)) d)) (fun d =>
  and_then (or_fail (on_configs (fetchInitInfo (d_ext d)) d)) (fun d =>
  and_then (or_fail (on_configs (fetchResources (d_ext d)) d)) (fun d =>
  and_then (or_fail (on_configs (fetchSignals (d_ext d)) d)) (fun d =>
  and_then (or_fail (on_configs (fetchPerAppConfigs (d_ext d)) d)) (fun d =>
  or_fail (on_configs (fetchExtFeatureConfigs (d_ext d)) d))))))).

(** From the plugins to the threads; the handler thread waits on the queue of requests, and
    constructs the CocoTable. *)
Definition init_threads (d : Daemon) : Daemon * option ErrCode :=
  let c := d_configs d in
  let c := set_resources (pluginModifications (getResourceApplierCallbacks (d_ext d))
                            (getResourceTearCallbacks (d_ext d)) (cf_resources c)) c in
  let d := with_calls (initializeFeatures (dlsym mc) (cf_features c)) (with_configs c d) in
  let d := with_configs (set_fs (configureFocusedSlice (cf_fs c)) c) d in
  if negb (handler_ok mc) then (d, Some RC_MODULE_INIT_FAILURE) else
  let '(pulse, rc) := start_daemon true (mPulseDuration (d_meta d)) d in
  let d := with_threads true pulse (d_collector d) (d_listener d) d in
  if RC_IS_NOTOK rc then (d, Some RC_MODULE_INIT_FAILURE) else
  let '(collector, rc) := start_daemon false (mClientGarbageCollectorDuration (d_meta d)) d in
  let d := with_threads true pulse collector (d_listener d) d in
  if RC_IS_NOTOK rc then (d, Some RC_MODULE_INIT_FAILURE) else
  if negb (listener_ok mc) then (d, Some RC_MODULE_INIT_FAILURE) else
  (with_threads true pulse collector true d, Some RC_SUCCESS).

Definition init (d : Daemon) : result (Daemon * option ErrCode) :=
  and_then (init_configuration d) (fun d => and_then (init_parts d) (fun d => Ok (init_threads d))).

(** ** tear *)

(** The loop that closes the plugins, bounded by the count of the moment. *)
Fixpoint close_handles (n : nat) (i : nat) (handles : list (option positive))
  : result (list (option positive)) :=
  match n with
  | O => Ok handles
  | S n =>
    match handles !! i with
    | None => Fault OutOfRange
    | Some _ => close_handles n (S i) (<[i := None]> handles)
    end
  end.

(** The threads are joined first, which changes nothing here. *)
Definition tear (d : Daemon) : result (Daemon * ErrCode) :=
  let d := with_threads false (d_pulse d) (d_collector d) false d in
  let c := d_configs d in
  let fs := restoreResourcesToDefaultValues (cf_resources c) (cf_fs c) in
  let d := with_threads false (option_map killTimer (d_pulse d)) (option_map killTimer (d_collector d)) false d in
  let d := with_pools (option_map terminate (d_requests d)) (option_map terminate (d_timers d)) d in
  let d := with_configs (set_fs (deleteFile fs mPersistenceFile) c) d in
  match d_handles d with
  | None => Ok (d, RC_SUCCESS)
  | Some handles =>
    _ ← close_handles (Z.to_nat (mPluginCount (d_meta d))) 0 handles;
    Ok (with_handles None (d_ext d) d, RC_SUCCESS)
  end.
End Init.

(** ** ComponentRegistry.cpp and urm.cpp *)
Section Modules.
Context {St : Type}.

(** A callback of a module on the state of the process. *)
Definition EventCallback : Type := St -> result (St * option ErrCode).
Record ModuleInfo := mkModule { mInit : option EventCallback; mTear : option EventCallback }.
Local Abbreviation Modules := (gmap Z ModuleInfo).

Definition ComponentRegistry_register (moduleId : Z) (init tear : option EventCallback) (r : Modules)
  : Modules := <[moduleId := mkModule init tear]> r.
Definition isModuleEnabled (moduleId : Z) (r : Modules) : bool := bool_decide (is_Some (r !! moduleId)).
Definition getModuleInfo (moduleId : Z) (r : Modules) : ModuleInfo := default (mkModule None None) (r !! moduleId).

Definition call (cb : option EventCallback) (s : St) : result (St * option ErrCode) :=
  match cb with None => Ok (s, Some RC_SUCCESS) | Some f => f s end.
Definition initModuleIfPresent (moduleId : Z) (r : Modules) := call (mInit (getModuleInfo moduleId r)).
Definition cleanupModule (moduleId : Z) (r : Modules) := call (mTear (getModuleInfo moduleId r)).

(** [set_online] and [set_resumed] write the settings.  A failed start goes straight to the
    cleanup; the wait for a signal changes nothing.  The exit code is [None] when an exception
    leaves [main]. *)
Definition main (set_online : bool -> St -> St) (set_resumed : St -> St) (r : Modules) (s : St)
  : result (St * option Z) :=
  let s := set_resumed (set_online true s) in
  '(s, rc) ← and_then (initModuleIfPresent MOD_RESTUNE r s) (initModuleIfPresent MOD_CLASSIFIER r);
  match rc with
  | None => Ok (s, None)
  | Some _ =>
    let s := set_online false s in
    '(s, rc) ← cleanupModule MOD_RESTUNE r s;
    match rc with
    | None => Ok (s, None)
    | Some _ =>
      '(s, rc) ← cleanupModule MOD_CLASSIFIER r s;
      Ok (s, match rc with None => None | Some _ => Some 0 end)
    end
  end.
End Modules.
