(* ===== verification/ParserFacts.v ===== *)
(** The parsers of RestuneParser.v on documents: the abstract content of a configuration
    file, the events it gives rise to, and what a parser does with them.

    A document of the resource or of the feature parser is a list of items, an item a list
    of attributes.  [events_of] writes it as libyaml reports it; [spec_items] is what it
    means: every attribute is set in order, until one is refused, and each item is then
    handed to its registry. *)
From S2P Require Import Extensions Prelude UrmTypes StdString UrmPlatformAL AuxRoutines Resource TargetRegistry.
From S2P Require Import ResourceRegistry SignalRegistry Signal ExtFeatures PropertiesRegistry AppConfigs JournalConf YamlEvents RestuneParser.
Open Scope string_scope.
Open Scope list_scope.
Open Scope Z_scope.

(** ** Documents *)
Inductive attr :=
  | Attr (key value : string)
  | AttrList (key : string) (values : list string).

Definition attr_pairs (a : attr) : list (string * string) :=
  match a with
  | Attr k v => [(k, v)]
  | AttrList k vs => map (pair k) vs
  end.

Definition text (s : string) : yaml_event := YAML_SCALAR_EVENT (Some s).

Definition attr_events (a : attr) : list yaml_event :=
  match a with
  | Attr k v => [text k; text v]
  | AttrList k vs => text k :: YAML_SEQUENCE_START_EVENT :: map text vs ++ [YAML_SEQUENCE_END_EVENT]
  end.

(** The key is known, that of a list when it has a list of values, and no value reads as a key. *)
Definition attr_ok (a : attr) : Prop :=
  match a with
  | Attr k v => isKey k = true /\ plain v
  | AttrList k vs => isKey k = true /\ isKeyTypeList k = true /\ Forall plain vs
  end.

Definition item_events (item : list attr) : list yaml_event :=
  YAML_MAPPING_START_EVENT :: concat (map attr_events item) ++ [YAML_MAPPING_END_EVENT].

Definition events_of (root : string) (items : list (list attr)) : list yaml_event :=
  [YAML_STREAM_START_EVENT; YAML_DOCUMENT_START_EVENT; YAML_MAPPING_START_EVENT; text root;
   YAML_SEQUENCE_START_EVENT] ++ concat (map item_events items) ++
  [YAML_SEQUENCE_END_EVENT; YAML_MAPPING_END_EVENT; YAML_DOCUMENT_END_EVENT].

(** The file can be read and contains the events, then the end of the stream. *)
Definition contains (file : YamlFile) (es : list yaml_event) : Prop :=
  yf_opened file = true /\ yf_initialized file = true /\
  (forall k, (k < length es)%nat -> yf_next file k = es !! k) /\
  yf_next file (length es) = Some YAML_STREAM_END_EVENT.

(** Each of the seven parsers stops at the end of the stream. *)
#[export] Instance resource_stops `{HashOrder} fs t cfg mem : Stops (resource_step fs t cfg mem).
Proof. by intros i []. Qed.
#[export] Instance property_stops : Stops property_step.
Proof. by intros i []. Qed.
#[export] Instance target_stops : Stops target_step.
Proof. by intros i [? []]. Qed.
#[export] Instance init_stops `{HashOrder} run_dir basePath mem : Stops (init_step run_dir basePath mem).
Proof. by intros i [? []]. Qed.
#[export] Instance signal_stops cfg mem : Stops (signal_step cfg mem).
Proof. by intros i []. Qed.
#[export] Instance feature_stops reg mem : Stops (feature_step reg mem).
Proof. by intros i []. Qed.
#[export] Instance app_stops mem copies : Stops (app_step mem copies).
Proof. by intros i []. Qed.

Lemma parse_file_contains {S} (step : nat -> yaml_event -> S -> result (S * flow)) `{!Stops step} final file es fuel s :
  contains file es -> (length es < fuel)%nat ->
  parse_file step final file fuel s =
  Some ('(s, f) ← run step 0 es s;
        Ok (s, match f with Next | Done => Some (final s) | Return rc => Some rc | Throw => None end)).
Proof.
  intros (Ho & Hi & Hn & He) Hf. unfold parse_file. rewrite Ho, Hi. cbn [negb].
  assert (exists k, fuel = (length es + Datatypes.S k)%nat) as [k ->] by (exists (fuel - length es - 1)%nat; lia).
  rewrite (parse_loop_run step (yf_next file) es 0 (Datatypes.S k) s) by (done || (intros; by apply Hn)).
  destruct (run step 0 es s) as [[s' []]|]; cbn [mbind result_bind]; try done.
  cbn [parse_loop Nat.add]. by rewrite He, stops.
Qed.

(** ** The parsers with one builder *)
Section Items.
Context {B R : Type} (setter : string -> string -> B -> option (result (ErrCode * B))) (fresh : B)
        (finish : ErrCode -> B -> R -> result R)
        (step : nat -> yaml_event -> Locals B * R -> result ((Locals B * R) * flow)).

(** All the values, until one is refused. *)
Fixpoint set_all (kvs : list (string * string)) (rc : ErrCode) (b : B) : result (ErrCode * B) :=
  match kvs with
  | [] => Ok (rc, b)
  | (k, v) :: kvs =>
    if RC_IS_NOTOK rc then Ok (rc, b) else
    match setter k v b with
    | None => set_all kvs rc b
    | Some r => '(rc, b) ← r; set_all kvs rc b
    end
  end.

Fixpoint spec_items (items : list (list attr)) (rc : ErrCode) (r : R) : result (ErrCode * R) :=
  match items with
  | [] => Ok (rc, r)
  | item :: items =>
    '(rc, b) ← set_all (concat (map attr_pairs item)) rc fresh;
    r ← finish rc b r;
    spec_items items rc r
  end.

(** What the [step] of a parser has to do with each event. *)
Hypothesis step_scalar : forall i v l r,
  step i (YAML_SCALAR_EVENT v) (l, r) = ('(l, f) ← scalar_case setter v l; Ok ((l, r), f)).
Hypothesis step_seq_end : forall i l r,
  step i YAML_SEQUENCE_END_EVENT (l, r) = (let '(l, f) := sequence_end l in Ok ((l, r), f)).
Hypothesis step_map_start : forall i l r, step i YAML_MAPPING_START_EVENT (l, r) =
  if negb (lc_doc l) then Ok ((set_doc l, r), Next) else Ok ((start_item (Some fresh) l, r), Next).
Hypothesis step_map_end : forall i l r b, lc_builder l = Some b -> lc_item l = true ->
  step i YAML_MAPPING_END_EVENT (l, r) = (r ← finish (lc_rc l) b r; Ok ((end_item l, r), Next)).
Hypothesis step_map_end_out : forall i l r, lc_item l = false ->
  step i YAML_MAPPING_END_EVENT (l, r) = Ok ((l, r), Next).
Hypothesis step_other : forall i l r e,
  e ∈ [YAML_STREAM_START_EVENT; YAML_DOCUMENT_START_EVENT; YAML_DOCUMENT_END_EVENT; YAML_SEQUENCE_START_EVENT] ->
  step i e (l, r) = Ok ((l, r), Next).

(** The state after some attributes: only the values and the stack have moved. *)
Definition after (l l' : Locals B) (rc : ErrCode) (b : B) : Prop :=
  lc_rc l' = rc /\ lc_builder l' = Some b /\ lc_doc l' = lc_doc l /\ lc_item l' = lc_item l /\
  exists ks, lc_keys l' = ks ++ lc_keys l.

Lemma after_trans l l1 l2 rc1 b1 rc2 b2 : after l l1 rc1 b1 -> after l1 l2 rc2 b2 -> after l l2 rc2 b2.
Proof.
  unfold after. intros (_ & _ & D1 & I1 & ks1 & K1) (R2 & B2 & D2 & I2 & ks2 & K2). split_and!; try congruence.
  exists (ks2 ++ ks1). by rewrite K2, K1, app_assoc.
Qed.

(** One run of events, related to the values it sets. *)
Definition runs (es : list yaml_event) (l : Locals B) (b : B) (kvs : list (string * string))
    (good : Locals B -> ErrCode -> B -> Prop) : Prop :=
  forall i r, match set_all kvs (lc_rc l) b with
  | Fault f => run step i es (l, r) = Fault f
  | Ok (rc, b') => exists l', run step i es (l, r) = Ok ((l', r), Next) /\ good l' rc b'
  end.

Lemma set_all_app kvs kvs' rc b :
  set_all (kvs ++ kvs') rc b = ('(rc, b) ← set_all kvs rc b; set_all kvs' rc b).
Proof.
  revert rc b. induction kvs as [|[k v] kvs IH]; intros rc b; cbn [app set_all mbind result_bind]; [done|].
  destruct (RC_IS_NOTOK rc) eqn:E; cbn [mbind result_bind].
  { destruct kvs' as [|[k' v'] kvs']; cbn [set_all]; [done|by rewrite E]. }
  destruct (setter k v b) as [[[rc' b']|]|]; cbn [mbind result_bind]; [apply IH|done|apply IH].
Qed.

Lemma step_key i k l r : isKey k = true ->
  step i (text k) (l, r) = Ok ((set_keys k (k :: lc_keys l) l, r), Next).
Proof.
  intros Hk. unfold text. rewrite step_scalar. unfold scalar_case, read_value. cbn [from_option id].
  by rewrite read_scalar_key.
Qed.

Lemma step_value i v k ks l r b : plain v -> lc_keys l = k :: ks -> lc_builder l = Some b ->
  let l' rc b := set_builder rc (Some b) (set_keys v (if isKeyTypeList k then k :: ks else ks) l) in
  step i (text v) (l, r) =
  match set_all [(k, v)] (lc_rc l) b with
  | Fault f => Fault f
  | Ok (rc, b) => Ok ((l' rc b, r), Next)
  end.
Proof.
  intros Hv Hk Hb. unfold text. rewrite step_scalar. unfold scalar_case, read_value. cbn [from_option id].
  rewrite Hk, read_scalar_value by done. cbn [lc_rc lc_builder set_keys]. rewrite Hb.
  unfold add_to_builder. cbn [set_all]. unfold RC_IS_NOTOK.
  destruct (setter k v b) as [[[rc' b']|]|]; destruct (RC_IS_OK (lc_rc l));
    cbn [negb mbind result_bind set_all]; done.
Qed.

Lemma run_values k ks : isKeyTypeList k = true -> forall vs l b, Forall plain vs ->
  lc_keys l = k :: ks -> lc_builder l = Some b ->
  runs (map text vs) l b (map (pair k) vs) (fun l' rc b' => after l l' rc b' /\ lc_keys l' = k :: ks).
Proof.
  intros Hl. induction vs as [|v vs IH]; intros l b Hv Hk Hb i r.
  - cbn [map set_all run]. exists l. unfold after. split_and!; try done. by exists [].
  - apply Forall_cons in Hv as [Hv Hvs]. cbn [map run].
    change ((k, v) :: map (pair k) vs) with ([(k, v)] ++ map (pair k) vs).
    rewrite set_all_app, (step_value i v k ks l r b) by done. rewrite Hl.
    destruct (set_all [(k, v)] (lc_rc l) b) as [[rc1 b1]|]; cbn [mbind result_bind]; [|done].
    set (l1 := set_builder rc1 (Some b1) (set_keys v (k :: ks) l)).
    assert (after l l1 rc1 b1) as Ha by (unfold after; split_and!; try done; by exists []).
    specialize (IH l1 b1 Hvs eq_refl eq_refl (S i) r). cbn [lc_rc l1 set_builder] in IH.
    destruct (set_all (map (pair k) vs) rc1 b1) as [[rc' b']|]; [|done].
    destruct IH as (l' & E & Ha' & Hk'). exists l'. split_and!; [done| |done].
    by eapply after_trans.
Qed.

Lemma run_attr a l b : attr_ok a -> lc_builder l = Some b ->
  runs (attr_events a) l b (attr_pairs a) (after l).
Proof.
  intros Hok Hb i r. destruct a as [k v|k vs]; cbn [attr_events attr_pairs].
  - destruct Hok as [Hk Hv]. cbn [run]. rewrite step_key by done. cbn [mbind result_bind].
    rewrite (step_value _ v k (lc_keys l) _ r b) by done. cbn [lc_rc set_keys].
    destruct (set_all [(k, v)] (lc_rc l) b) as [[rc' b']|]; cbn [mbind result_bind]; [|done].
    eexists. split; [done|]. unfold after. split_and!; try done. cbn [lc_keys set_builder set_keys].
    destruct (isKeyTypeList k); [by exists [k]|by exists []].
  - destruct Hok as (Hk & Hl & Hv). cbn [run]. rewrite step_key by done. cbn [mbind result_bind].
    rewrite step_other by set_solver. cbn [mbind result_bind]. rewrite run_app.
    pose proof (run_values k (lc_keys l) Hl vs (set_keys k (k :: lc_keys l) l) b Hv eq_refl Hb (S (S i)) r) as H.
    cbn [lc_rc set_keys] in H.
    destruct (set_all (map (pair k) vs) (lc_rc l) b) as [[rc' b']|]; [|by rewrite H].
    destruct H as (l' & -> & Ha & Hk'). cbn [mbind result_bind run]. rewrite step_seq_end.
    unfold sequence_end. rewrite Hk'. cbn [mbind result_bind]. eexists. split; [done|].
    destruct Ha as (? & ? & ? & ? & _). unfold after. split_and!; try done. by exists [].
Qed.

Lemma run_attrs item : forall l b, Forall attr_ok item -> lc_builder l = Some b ->
  runs (concat (map attr_events item)) l b (concat (map attr_pairs item)) (after l).
Proof.
  induction item as [|a item IH]; intros l b Hok Hb i r; cbn [map concat].
  - cbn [set_all run]. exists l. unfold after. split_and!; try done. by exists [].
  - apply Forall_cons in Hok as [Ha Hok]. rewrite run_app, set_all_app.
    pose proof (run_attr a l b Ha Hb i r) as H1.
    destruct (set_all (attr_pairs a) (lc_rc l) b) as [[rc1 b1]|]; [|by rewrite H1].
    destruct H1 as (l1 & -> & Ha1). cbn [mbind result_bind].
    destruct (Ha1) as (R1 & B1 & _). pose proof (IH l1 b1 Hok B1 (i + length (attr_events a))%nat r) as H2.
    rewrite R1 in H2. destruct (set_all (concat (map attr_pairs item)) rc1 b1) as [[rc' b']|]; [|done].
    destruct H2 as (l' & -> & Ha2). exists l'. split; [done|]. by eapply after_trans.
Qed.

(** Between two items. *)
Definition between (l : Locals B) : Prop := lc_doc l = true /\ lc_item l = false /\ lc_keys l <> [].

Lemma run_items items : forall l i r, Forall (Forall attr_ok) items -> between l ->
  match spec_items items (lc_rc l) r with
  | Fault f => run step i (concat (map item_events items)) (l, r) = Fault f
  | Ok (rc, r') => exists l', run step i (concat (map item_events items)) (l, r) = Ok ((l', r'), Next) /\
      between l' /\ lc_rc l' = rc
  end.
Proof.
  induction items as [|item items IH]; intros l i r Hok Hb; cbn [spec_items map concat].
  - cbn [run]. exists l. by split_and!.
  - apply Forall_cons in Hok as [Hi Hok]. destruct Hb as (Hd & Hit & Hk).
    replace (item_events item ++ concat (map item_events items)) with
      (YAML_MAPPING_START_EVENT :: concat (map attr_events item) ++
       YAML_MAPPING_END_EVENT :: concat (map item_events items))
      by (unfold item_events; cbn [app]; by rewrite <- app_assoc).
    cbn [run]. rewrite step_map_start, Hd. cbn [negb mbind result_bind]. rewrite run_app.
    set (l0 := start_item (Some fresh) l).
    pose proof (run_attrs item l0 fresh Hi eq_refl (S i) r) as H1. change (lc_rc l0) with (lc_rc l) in H1.
    destruct (set_all (concat (map attr_pairs item)) (lc_rc l) fresh) as [[rc1 b1]|]; [|by rewrite H1].
    destruct H1 as (l1 & -> & R1 & B1 & D1 & I1 & ks & K1). cbn [mbind result_bind app run].
    rewrite (step_map_end _ l1 r b1) by (done || by rewrite I1). rewrite R1.
    destruct (finish rc1 b1 r) as [r1|]; cbn [mbind result_bind]; [|done].
    specialize (IH (end_item l1)). cbn [lc_rc end_item] in IH. rewrite R1 in IH.
    apply IH; [done|]. split_and!; [cbn; by rewrite D1|done|]. cbn. rewrite K1. cbn.
    destruct ks; [done|by intros [=]].
Qed.

Lemma run_document root items r : isKey root = true -> Forall (Forall attr_ok) items ->
  match spec_items items RC_SUCCESS r with
  | Fault f => run step 0 (events_of root items) (Locals_init, r) = Fault f
  | Ok (rc, r') => exists l', run step 0 (events_of root items) (Locals_init, r) = Ok ((l', r'), Next) /\
      lc_rc l' = rc
  end.
Proof.
  intros Hroot Hok. unfold events_of. cbn [app run].
  do 2 (rewrite step_other by set_solver; cbn [mbind result_bind]).
  rewrite step_map_start. cbn [lc_doc Locals_init negb mbind result_bind].
  rewrite step_key by done. cbn [mbind result_bind]. rewrite step_other by set_solver.
  cbn [mbind result_bind]. rewrite run_app.
  match goal with |- context [run step ?i (concat _) (?l, r)] =>
    pose proof (run_items items l i r Hok ltac:(split_and!; done)) as H end.
  cbn [lc_rc set_keys set_doc Locals_init] in H.
  destruct (spec_items items RC_SUCCESS r) as [[rc r']|]; [|by rewrite H].
  destruct H as (l' & -> & (Hd & Hi & Hk) & Hrc). cbn [mbind result_bind run].
  rewrite step_seq_end. unfold sequence_end. destruct (lc_keys l') as [|k ks]; [done|].
  cbn [mbind result_bind]. rewrite step_map_end_out by done. cbn [mbind result_bind].
  rewrite step_other by set_solver. cbn [mbind result_bind]. eexists. split; [done|done].
Qed.
End Items.

(** ** Resources *)
Definition plenty (i : nat) : Mem := mkMem true true true true.

Definition resource_finish `{HashOrder} (fs : FileSystem) (t : TargetRegistry) (cfg : TargetConfigs)
    (rc : ErrCode) (b : ResourceConfigInfoBuilder) (r : ResourceRegistry) : result ResourceRegistry :=
  registerResource fs t cfg
    (ResourceRegistry.build (if RC_IS_NOTOK rc || (ResourceRegistry.mTargetRefCount b <? 0)
                             then (setResType "0" b).2 else b)) r.

(** What a resource file means. *)
Definition spec_resources `{HashOrder} (c : Configs) (items : list (list attr)) (rc : ErrCode)
    (r : ResourceRegistry) : result (ErrCode * ResourceRegistry) :=
  spec_items (resource_setter (cf_fs c) (cf_settings c)) (ResourceConfigInfoBuilder_init true)
    (resource_finish (cf_fs c) (cf_target c) (cf_settings c)) items rc r.

Definition with_resources (r : ResourceRegistry) (c : Configs) : Configs :=
  mkConfigs r (cf_properties c) (cf_target c) (cf_settings c) (cf_signals c) (cf_features c)
    (cf_mapper c) (cf_apps c) (cf_fs c).

Lemma parse_resources `{HashOrder} run_dir basePath copies file fuel c items :
  contains file (events_of RESOURCE_CONFIGS_ROOT items) -> Forall (Forall attr_ok) items ->
  (length (events_of RESOURCE_CONFIGS_ROOT items) < fuel)%nat ->
  parse run_dir basePath plenty copies RESOURCE_CONFIG file fuel c =
  Some ('(rc, r) ← spec_resources c items RC_SUCCESS (cf_resources c); Ok (with_resources r c, Some rc)).
Proof.
  intros Hf Hok Hfuel. unfold parse.
  rewrite (parse_file_contains _ _ _ _ _ _ Hf Hfuel).
  match goal with |- context [run ?st _ _ _] =>
    pose proof (run_document (resource_setter (cf_fs c) (cf_settings c)) (ResourceConfigInfoBuilder_init true)
      (resource_finish (cf_fs c) (cf_target c) (cf_settings c)) st) as Hd end.
  unfold spec_resources.
  specialize (fun H1 H2 H3 H4 H5 H6 => Hd H1 H2 H3 H4 H5 H6 RESOURCE_CONFIGS_ROOT items (cf_resources c) eq_refl Hok).
  match type of Hd with ?P1 -> ?P2 -> ?P3 -> ?P4 -> ?P5 -> ?P6 -> _ =>
    assert P1 as H1 by reflexivity; assert P2 as H2; [|assert P3 as H3; [|assert P4 as H4;
      [|assert P5 as H5; [|assert P6 as H6; [|specialize (Hd H1 H2 H3 H4 H5 H6)]]]]] end.
  - intros. cbn [resource_step]. by destruct (sequence_end l).
  - reflexivity.
  - intros i l r b Hb Hi. cbn [resource_step]. rewrite Hi. unfold end_resource, resource_finish.
    rewrite Hb. cbn [deref mbind result_bind]. by destruct (registerResource _ _ _ _ _).
  - intros i l r Hi. cbn [resource_step]. by rewrite Hi.
  - intros i l r e He. repeat (apply elem_of_cons in He as [->|He]; [done|]). by apply elem_of_nil in He.
  - destruct (spec_items _ _ _ items RC_SUCCESS (cf_resources c)) as [[rc r]|].
    + destruct Hd as (l' & -> & <-). done.
    + by rewrite Hd.
Qed.

(** Once the code is an error, nothing is registered any more. *)
Lemma set_all_notok {B} (setter : string -> string -> B -> option (result (ErrCode * B))) kvs rc b :
  RC_IS_NOTOK rc = true -> set_all setter kvs rc b = Ok (rc, b).
Proof. intros Hrc. destruct kvs as [|[k v] kvs]; cbn [set_all]; [done|by rewrite Hrc]. Qed.

Lemma resource_finish_notok `{HashOrder} fs t cfg rc b r :
  RC_IS_NOTOK rc = true -> resource_finish fs t cfg rc b r = Ok r.
Proof.
  intros Hrc. unfold resource_finish. rewrite Hrc. cbn [orb].
  unfold setResType, ResourceRegistry.set_number, on_conf, ResourceRegistry.build, registerResource.
  destruct b as [n [conf|]]; [|done]. cbn. done.
Qed.

Lemma spec_resources_notok `{HashOrder} c items : forall rc r,
  RC_IS_NOTOK rc = true -> spec_resources c items rc r = Ok (rc, r).
Proof.
  unfold spec_resources. induction items as [|item items IH]; intros rc r Hrc; cbn [spec_items]; [done|].
  rewrite set_all_notok by done. cbn [mbind result_bind]. rewrite resource_finish_notok by done.
  cbn [mbind result_bind]. by apply IH.
Qed.

Lemma spec_items_app {B R} (setter : string -> string -> B -> option (result (ErrCode * B))) fresh
    (finish : ErrCode -> B -> R -> result R) items items' : forall rc r,
  spec_items setter fresh finish (items ++ items') rc r =
  ('(rc, r) ← spec_items setter fresh finish items rc r; spec_items setter fresh finish items' rc r).
Proof.
  induction items as [|item items IH]; intros rc r; cbn [app spec_items mbind result_bind]; [done|].
  destruct (set_all setter _ rc fresh) as [[rc1 b1]|]; cbn [mbind result_bind]; [|done].
  destruct (finish rc1 b1 r) as [r1|]; cbn [mbind result_bind]; [apply IH|done].
Qed.

(** ** Features *)
Definition feature_finish (reg : SignalRegistry) (rc : ErrCode) (b : ExtFeatureInfoBuilder)
    (rm : ExtFeaturesRegistry * SignalExtFeatureMapper) : result (ExtFeaturesRegistry * SignalExtFeatureMapper) :=
  registerExtFeature reg (ExtFeatures.build (if RC_IS_NOTOK rc then (setLib "" b).2 else b)) rm.1 rm.2.

(** What a feature file means. *)
Definition spec_features (c : Configs) (items : list (list attr)) (rc : ErrCode)
    (rm : ExtFeaturesRegistry * SignalExtFeatureMapper)
  : result (ErrCode * (ExtFeaturesRegistry * SignalExtFeatureMapper)) :=
  spec_items (feature_setter (plenty 0)) (ExtFeatureInfoBuilder_init true)
    (feature_finish (cf_signals c)) items rc rm.

Definition with_features (rm : ExtFeaturesRegistry * SignalExtFeatureMapper) (c : Configs) : Configs :=
  mkConfigs (cf_resources c) (cf_properties c) (cf_target c) (cf_settings c) (cf_signals c) rm.1 rm.2
    (cf_apps c) (cf_fs c).

Lemma parse_features `{HashOrder} run_dir basePath copies file fuel c items :
  contains file (events_of EXT_FEATURE_CONFIGS_ROOT items) -> Forall (Forall attr_ok) items ->
  (length (events_of EXT_FEATURE_CONFIGS_ROOT items) < fuel)%nat ->
  parse run_dir basePath plenty copies EXT_FEATURES_CONFIG file fuel c =
  Some ('(rc, rm) ← spec_features c items RC_SUCCESS (cf_features c, cf_mapper c);
        Ok (with_features rm c, Some rc)).
Proof.
  intros Hf Hok Hfuel. unfold parse.
  rewrite (parse_file_contains _ _ _ _ _ _ Hf Hfuel).
  match goal with |- context [run ?st _ _ _] =>
    pose proof (run_document (feature_setter (plenty 0)) (ExtFeatureInfoBuilder_init true)
      (feature_finish (cf_signals c)) st) as Hd end.
  unfold spec_features.
  specialize (fun H1 H2 H3 H4 H5 H6 => Hd H1 H2 H3 H4 H5 H6 EXT_FEATURE_CONFIGS_ROOT items
    (cf_features c, cf_mapper c) eq_refl Hok).
  match type of Hd with ?P1 -> ?P2 -> ?P3 -> ?P4 -> ?P5 -> ?P6 -> _ =>
    assert P1 as H1 by reflexivity; assert P2 as H2; [|assert P3 as H3; [|assert P4 as H4;
      [|assert P5 as H5; [|assert P6 as H6; [|specialize (Hd H1 H2 H3 H4 H5 H6)]]]]] end.
  - intros. cbn [feature_step]. by destruct (sequence_end l).
  - reflexivity.
  - intros i l [r mp] b Hb Hi. cbn [feature_step]. rewrite Hi. unfold end_feature, feature_finish.
    rewrite Hb. cbn [deref mbind result_bind fst snd]. by destruct (registerExtFeature _ _ _ _).
  - intros i l r Hi. cbn [feature_step]. by rewrite Hi.
  - intros i l r e He. repeat (apply elem_of_cons in He as [->|He]; [done|]). by apply elem_of_nil in He.
  - destruct (spec_items _ _ _ items RC_SUCCESS (cf_features c, cf_mapper c)) as [[rc r]|].
    + destruct Hd as (l' & -> & <-). done.
    + by rewrite Hd.
Qed.

(** ** Properties *)

(** A property with its name and its value, none of which is a word of the format. *)
Definition prop_word (s : string) : Prop :=
  s <> "PropertyConfigs" /\ s <> "Name" /\ s <> "Value".
Definition prop_ok (p : string * string) : Prop :=
  prop_word p.1 /\ prop_word p.2 /\ p.1 <> "" /\ p.2 <> "".
Definition prop_events (p : string * string) : list yaml_event :=
  [YAML_MAPPING_START_EVENT; text "Name"; text p.1; text "Value"; text p.2; YAML_MAPPING_END_EVENT].
Definition prop_document (ps : list (string * string)) : list yaml_event :=
  [YAML_STREAM_START_EVENT; YAML_DOCUMENT_START_EVENT; YAML_MAPPING_START_EVENT; text "PropertyConfigs";
   YAML_SEQUENCE_START_EVENT] ++ concat (map prop_events ps) ++
  [YAML_SEQUENCE_END_EVENT; YAML_MAPPING_END_EVENT; YAML_DOCUMENT_END_EVENT].

Lemma step_word s i l r : prop_word s ->
  property_step i (text s) (l, r) =
  Ok ((if pl_isPropName l then mkProp true s (pl_currentValue l) s
       else mkProp false (pl_currentKey l) s s, r), Next).
Proof.
  intros (H1 & H2 & H3). unfold property_step, text, read_value. cbn [from_option id].
  unfold PROPERTY_CONFIGS_ROOT, PROPERTY_CONFIGS_ELEM_NAME, PROPERTY_CONFIGS_ELEM_VALUE.
  apply String.eqb_neq in H1, H2, H3. by rewrite H1, H2, H3.
Qed.

Lemma run_prop p i l r : prop_ok p ->
  exists v, run property_step i (prop_events p) (l, r) =
            Ok ((mkProp false "" "" v, <[p.1 := p.2]> r), Next).
Proof.
  intros (H1 & H2 & N1 & N2). unfold prop_events. cbn [run].
  change (property_step i YAML_MAPPING_START_EVENT (l, r)) with (Ok ((l, r), Next)).
  cbn [mbind result_bind].
  change (property_step (S i) (text "Name") (l, r)) with
    (Ok ((mkProp true (pl_currentKey l) (pl_currentValue l) "Name", r), Next)).
  cbn [mbind result_bind]. rewrite step_word by done. cbn [pl_isPropName mbind result_bind].
  match goal with |- context [property_step ?j (text "Value") (?l, r)] =>
    change (property_step j (text "Value") (l, r)) with
      (Ok ((mkProp false (pl_currentKey l) (pl_currentValue l) "Value", r), Next)) end.
  cbn [mbind result_bind]. rewrite step_word by done.
  cbn [pl_isPropName pl_currentKey pl_currentValue mbind result_bind property_step pl_value].
  assert (forall s, s <> "" -> (0 <? String.length s)%nat = true) as Hl by (intros [|]; done).
  rewrite !Hl by done. cbn [andb]. unfold createProperty.
  destruct p as [[|? ?] [|? ?]]; cbn [fst snd] in *; try done. eexists. done.
Qed.

Definition nothing_read (l : PropLocals) : Prop := pl_currentKey l = "" /\ pl_currentValue l = "".

Lemma run_props ps : forall i l r, Forall prop_ok ps -> nothing_read l ->
  exists l', run property_step i (concat (map prop_events ps)) (l, r) =
             Ok ((l', foldl (fun r p => <[p.1 := p.2]> r) r ps), Next) /\ nothing_read l'.
Proof.
  induction ps as [|p ps IH]; intros i l r Hok Hl; cbn [map concat foldl].
  - by exists l.
  - apply Forall_cons in Hok as [Hp Hok]. rewrite run_app.
    destruct (run_prop p i l r Hp) as (v & ->). cbn [mbind result_bind]. by apply IH.
Qed.

(** The value of a name after the insertions: that of its last pair. *)
Lemma foldl_insert_lookup ps : forall (r : PropertiesRegistry) name,
  foldl (fun r p => <[p.1 := p.2]> r) r ps !! name =
  match last (filter (fun p => p.1 = name) ps) with Some p => Some p.2 | None => r !! name end.
Proof.
  induction ps as [|p ps IH]; intros r name; [done|]. cbn [foldl]. rewrite IH, filter_cons.
  destruct (decide (p.1 = name)) as [<-|Hne].
  - rewrite last_cons. destruct (last _); [done|]. by rewrite lookup_insert_eq.
  - destruct (last _); [done|]. by rewrite lookup_insert_ne.
Qed.

Definition with_properties (r : PropertiesRegistry) (c : Configs) : Configs :=
  mkConfigs (cf_resources c) r (cf_target c) (cf_settings c) (cf_signals c) (cf_features c)
    (cf_mapper c) (cf_apps c) (cf_fs c).

(** ** Signals: what the parser registers is typed *)

(** Every configuration stands under the key of its own code and type, its members have
    the widths of their C types, and its category is not the invalid one. *)
Definition signals_ok (r : SignalRegistry) : Prop :=
  forall k conf, mSignalsConfigs r !! k = Some conf ->
    forall s, mSignalInfo conf = Some s \/ s ∈ mFeatureSignals conf ->
      info_ok s /\ mSignalCategory s <> 0 /\ k = signalBitmap s.

Definition builder_ok (b : SignalInfoBuilder) : Prop := forall s, mInfo b = Some s -> info_ok s.

Lemma replace_duplicate_elem s : forall l l' o x,
  replace_duplicate s l = Ok (l', o) -> x ∈ l' -> x = s \/ x ∈ l.
Proof.
  induction l as [|c l IH]; intros l' o x; cbn [replace_duplicate].
  - intros [= <- <-] H%elem_of_nil. done.
  - destruct (isDuplicateConfig c s) as [[]|]; cbn [mbind result_bind]; try done.
    + intros [= <- <-]. rewrite !elem_of_cons. tauto.
    + destruct (replace_duplicate s l) as [[l1 o1]|]; cbn [mbind result_bind]; [|done].
      intros [= <- <-]. rewrite !elem_of_cons. intros [->|Hx]; [tauto|].
      destruct (IH _ _ _ eq_refl Hx); tauto.
Qed.

Lemma registerSignal_ok p r r' :
  (forall s, p = Some s -> info_ok s) -> signals_ok r -> registerSignal p r = Ok r' -> signals_ok r'.
Proof.
  intros Hp Hr. unfold registerSignal. destruct (isSignalConfigMalformed p) eqn:Em; [by intros [= <-]|].
  destruct p as [s|]; [|done]. cbn [deref mbind result_bind].
  assert (mSignalCategory s <> 0) as Hc by (cbn in Em; by apply Z.eqb_neq).
  specialize (Hp s eq_refl). set (k := signalBitmap s).
  destruct (map_index SignalConf_init k (mSignalsConfigs r)) as [conf configs] eqn:Ei.
  assert (forall x, mSignalInfo conf = Some x \/ x ∈ mFeatureSignals conf ->
    info_ok x /\ mSignalCategory x <> 0 /\ k = signalBitmap x) as Hconf.
  { intros x Hx. unfold map_index in Ei. destruct (mSignalsConfigs r !! k) as [c|] eqn:El.
    - injection Ei as <- <-. by eapply Hr.
    - injection Ei as <- <-. cbn in Hx. destruct Hx as [|Hx]; [done|]. by apply elem_of_nil in Hx. }
  assert (forall j c, configs !! j = Some c -> j <> k -> mSignalsConfigs r !! j = Some c) as Hother.
  { intros j c Hj Hne. unfold map_index in Ei. destruct (mSignalsConfigs r !! k); injection Ei as <- <-; [done|].
    by rewrite lookup_insert_ne in Hj. }
  set (m := if mHasExtraAttrs s then _ else _).
  assert (forall conf' o, m = Ok (conf', o) -> forall x, mSignalInfo conf' = Some x \/ x ∈ mFeatureSignals conf' ->
    info_ok x /\ mSignalCategory x <> 0 /\ k = signalBitmap x) as Hm.
  { intros conf' o. unfold m. destruct (mHasExtraAttrs s).
    - destruct (mFeatureSignals conf) as [|a l] eqn:Ef.
      + intros [= <- <-] x [Hx|Hx]; cbn in Hx; [by apply Hconf; left|].
        apply list_elem_of_singleton in Hx as ->. by split_and!.
      + unfold addToFeaturedSigList. destruct (replace_duplicate s (a :: l)) as [[l1 o1]|] eqn:Er;
          cbn [mbind result_bind]; [|done].
        intros E x Hx. assert (x = s \/ mSignalInfo conf = Some x \/ x ∈ a :: l) as [->|Hx'].
        { destruct o1; cbn [mbind result_bind] in E; injection E as <- <-; cbn in Hx.
          - destruct Hx as [|Hx]; [tauto|]. destruct (replace_duplicate_elem _ _ _ _ _ Er Hx); tauto.
          - rewrite !elem_of_cons in Hx. rewrite elem_of_cons. tauto. }
        * by split_and!.
        * apply Hconf. destruct Hx' as [|]; [by left|by right].
    - intros [= <- <-] x [Hx|Hx]; cbn in Hx; [|by apply Hconf; right]. injection Hx as <-. by split_and!. }
  clearbody m. destruct m as [[conf' o]|]; cbn [mbind result_bind]; [|done]. specialize (Hm conf' o eq_refl).
  destruct (if o : bool then _ else _) as [total|]; cbn [mbind result_bind]; [|done].
  intros [= <-] j c Hj x Hx. cbn in Hj. destruct (decide (j = k)) as [->|Hne].
  - rewrite lookup_insert_eq in Hj. injection Hj as <-. by apply Hm.
  - rewrite lookup_insert_ne in Hj by done. eapply Hr; [by apply Hother|done].
Qed.

Lemma on_info_ok b (f : SignalInfo -> ErrCode * SignalInfo) :
  (forall s, info_ok s -> info_ok (f s).2) -> builder_ok b -> builder_ok (on_info b f).2.
Proof.
  intros Hf Hb. unfold on_info. destruct (mInfo b) as [s|] eqn:E; [|done].
  pose proof (Hf s (Hb s E)) as Hs. destruct (f s) as [rc s']. intros x [= <-]. done.
Qed.

Lemma set_number_ok parse cut upd v b : (forall x, info_ok x -> forall y, info_ok (upd (cut y) x)) ->
  (forall x, info_ok x -> info_ok (upd 0 x)) -> builder_ok b ->
  builder_ok (SignalRegistry.set_number parse cut upd v b).2.
Proof. intros H1 H2. apply on_info_ok. intros s Hs. destruct (parse v); cbn [snd]; auto. Qed.

Lemma info_attr_ok i v s : in_u 32 v -> info_ok s -> info_ok (info_attr i v s).
Proof.
  intros Hv [? ? ? [Hl Hf]]. split; try done. cbn. split; [by rewrite length_insert|].
  by apply Forall_insert.
Qed.

Lemma set_attr_ok i v b : builder_ok b -> builder_ok (set_attr i v b).2.
Proof.
  apply on_info_ok. intros s Hs. destruct (stoul 0 v); [|done]. apply info_attr_ok; [|done].
  apply wrap_u_range. lia.
Qed.

#[local] Ltac info_simpl := intros [? ? ? ?]; split; try done; cbn; try (apply wrap_u_range; lia);
  try (unfold in_u; lia).

Lemma signal_setter_ok cfg m value key b rc b' : builder_ok b ->
  signal_setter cfg m value key b = Some (Ok (rc, b')) -> builder_ok b'.
Proof.
  intros Hb. unfold signal_setter.
  assert (forall (x : ErrCode * SignalInfoBuilder), builder_ok x.2 -> Some (Ok x) = Some (Ok (rc, b')) -> builder_ok b')
    as Hx by (intros x Hx [= ->]; exact Hx).
  assert (forall t, builder_ok (SignalRegistry.add_target t.1 t.2 cfg value b).2) as Ht.
  { intros t. unfold SignalRegistry.add_target. destruct (mInfo b) as [s|] eqn:E; [|done].
    destruct (_ =? unsupportedResoure); [done|]. intros x [= <-]. by apply Hb. }
  repeat (match goal with |- (if ?c then _ else _) = _ -> _ => destruct c end; [apply Hx|]); try done.
  - apply (Ht (-1, 1)).
  - apply (Ht (1, -1)).
  - apply on_info_ok; [|done]. intros s Hs. cbn zeta. repeat case_match; by destruct Hs.
  - apply on_info_ok; [|done]. intros s Hs. repeat case_match; by destruct Hs.
  - apply set_number_ok; [intros s Hs y; revert Hs; info_simpl|intros s; info_simpl|done].
  - apply set_number_ok; [intros s Hs y; revert Hs; info_simpl|intros s; info_simpl|done].
  - apply set_number_ok; [intros s Hs y; revert Hs; info_simpl|intros s; info_simpl|done].
  - apply on_info_ok; [|done]. intros s. info_simpl.
  - apply on_info_ok; [|done]. intros s Hs. case_match; by destruct Hs.
  - unfold setIsEnabled. destruct (mInfo b) eqn:E; [|done]. cbn [snd].
    case_match; [done|]. intros x [= <-]. by apply Hb.
  - by apply set_attr_ok.
  - by apply set_attr_ok.
  - by apply set_attr_ok.
  - apply on_info_ok; [|done]. intros s Hs. apply info_attr_ok; [|done]. unfold in_u.
    repeat case_match; lia.
Qed.

Definition parsing_ok (st : SigLocals * SignalRegistry) : Prop :=
  (forall b, sl_builder st.1 = Some b -> builder_ok b) /\ signals_ok st.2.

Lemma init_ok alloc : builder_ok (SignalInfoBuilder_init alloc).
Proof.
  intros s. destruct alloc; [|done]. intros [= <-]. split; cbn; try (unfold in_u; lia).
  split; [done|]. u32s.
Qed.

Lemma mark_ok b : builder_ok b -> builder_ok (markExtraAttrsPresent b).
Proof.
  intros Hb. unfold markExtraAttrsPresent. destruct (mInfo b) as [s|] eqn:E; [|done].
  intros x [= <-]. destruct (Hb s E). by split.
Qed.

Lemma addResource_ok alloc grow r b : builder_ok b -> builder_ok (SignalRegistry.addResource alloc grow r b).2.
Proof.
  intros Hb. unfold SignalRegistry.addResource. destruct r; [|done]. apply on_info_ok; [|done].
  intros s Hs. destruct (push_new _ _ _ _) as [v o]. by destruct Hs.
Qed.

Lemma resource_end_builder m l l' : (forall b, sl_builder l = Some b -> builder_ok b) ->
  resource_end m l = Ok l' -> forall b, sl_builder l' = Some b -> builder_ok b.
Proof.
  intros Hl. unfold resource_end. cbn [sl_rc sl_builder sl_rbuilder sig_flags].
  destruct (RC_IS_OK (sl_rc l)); [|by intros [= <-]].
  destruct (sl_builder l) as [b|]; [|done]. destruct (sl_rbuilder l) as [rb|]; [|done].
  cbn [deref mbind result_bind].
  pose proof (addResource_ok (m_vec m) (m_grow m) (buildResource rb) b (Hl b eq_refl)) as H.
  destruct (SignalRegistry.addResource _ _ _ _) as [rc b']. intros [= <-] x [= <-]. exact H.
Qed.

Lemma values_end_builder m l l' : values_end m l = Ok l' -> sl_builder l' = sl_builder l.
Proof.
  unfold values_end. destruct (if RC_IS_OK (sl_rc l) then _ else _) as [[rc b]|]; cbn [mbind result_bind]; [|done].
  destruct (add_values 0 (sl_resValues l) rc b) as [[rc' b']|]; cbn [mbind result_bind]; [|done].
  by intros [= <-].
Qed.

Lemma signal_end_ok l r l' r' : parsing_ok (l, r) -> signal_end l r = Ok (l', r') -> parsing_ok (l', r').
Proof.
  intros [Hl Hr]. cbn [fst snd] in *. unfold signal_end. cbn [sl_rc sl_builder sl_rbuilder sig_flags].
  destruct (sl_builder l) as [b|] eqn:Eb; [|done]. cbn [deref mbind result_bind].
  specialize (Hl b eq_refl).
  assert (builder_ok (if RC_IS_NOTOK (sl_rc l) then setSignalCategory "0" b else (sl_rc l, b)).2) as Hb'.
  { destruct (RC_IS_NOTOK (sl_rc l)); [|done].
    apply set_number_ok; [intros s Hs y; revert Hs; info_simpl|intros s; info_simpl|done]. }
  destruct (if RC_IS_NOTOK (sl_rc l) then _ else _) as [rc b']. cbn [snd] in Hb'.
  destruct (registerSignal (SignalRegistry.build b') r) as [r1|] eqn:E; cbn [mbind result_bind]; [|done].
  intros [= <- <-]. split; [done|]. by eapply registerSignal_ok.
Qed.

Lemma signal_step_ok cfg mem i e st st' f :
  parsing_ok st -> signal_step cfg mem i e st = Ok (st', f) -> parsing_ok st'.
Proof.
  destruct st as [l r], st' as [l' r']. intros Hok.
  assert (forall l2, (forall b, sl_builder l2 = Some b -> builder_ok b) -> parsing_ok (l2, r)) as Hkeep
    by (intros l2 H2; split; [exact H2|apply Hok]).
  pose proof (proj1 Hok) as Hl. cbn [fst] in Hl.
  destruct e; cbn [signal_step]; try (by intros [= <- <- <-]).
  - set (v := read_value value (sl_value l)). destruct (read_scalar v (sl_keys l)) as [[] ks].
    + intros [= <- <- <-]. by apply Hkeep.
    + intros [= <- <- <-]. by apply Hkeep.
    + cbn [sl_rc sl_builder sl_rbuilder sig_keys sig_builders].
      destruct (add_to_builder (signal_setter cfg (mem i) v) topKey (sl_rc l) (sl_builder l))
        as [[rc b']|] eqn:Ea; cbn [mbind result_bind]; [|done].
      destruct (add_to_builder (signal_resource_setter v) topKey rc (sl_rbuilder l)) as [[rc' rb']|];
        cbn [mbind result_bind]; [|done].
      intros [= <- <- <-]. apply Hkeep. intros b.
      destruct (String.eqb topKey SIGNAL_CONFIGS_ELEM_RESOURCE_VALUES); cbn; intros ->.
      all: unfold add_to_builder in Ea; destruct (sl_builder l) as [b0|] eqn:Eb; [|congruence].
      all: destruct (signal_setter cfg (mem i) v topKey b0) as [[[rc1 b1]|]|] eqn:Es;
        destruct (RC_IS_OK (sl_rc l)); cbn [mbind result_bind] in Ea; try done;
        injection Ea as <- <-; try (by apply Hl); by (eapply signal_setter_ok; [by apply Hl|]).
  - destruct (sl_keys l) as [|k ks]; [by intros [= <- <- <-]|].
    destruct (String.eqb k SIGNAL_CONFIGS_ELEM_RESOURCE_VALUES); [|intros [= <- <- <-]; by apply Hkeep].
    destruct (values_end (mem i) _) as [l1|] eqn:E; cbn [mbind result_bind]; [|done].
    intros [= <- <- <-]. apply Hkeep. apply values_end_builder in E. rewrite E. exact Hl.
  - destruct (sl_doc l); cbn [negb]; [|intros [= <- <- <-]; by apply Hkeep].
    destruct (sl_keys l) as [|k ks]; [by intros [= <- <- <-]|].
    repeat case_match; intros [= <- <- <-]; apply Hkeep; intros b Hb;
      cbn [sl_builder sig_builders sig_flags] in Hb; try done; try (by apply Hl).
    + apply fmap_Some_1 in Hb as (b0 & Hb0 & ->). by apply mark_ok, Hl.
    + injection Hb as <-. apply init_ok.
  - destruct (sl_res l).
    + destruct (resource_end (mem i) l) as [l1|] eqn:E; cbn [mbind result_bind]; [|done].
      intros [= <- <- <-]. apply Hkeep. by eapply resource_end_builder.
    + destruct (sl_extra l); [intros [= <- <- <-]; by apply Hkeep|].
      destruct (sl_signal l); [|by intros [= <- <- <-]].
      destruct (signal_end l r) as [[l1 r1]|] eqn:E; cbn [mbind result_bind]; [|done].
      intros [= <- <- <-]. by eapply signal_end_ok.
Qed.

(** ** Concrete files *)
Definition file_of (es : list yaml_event) : YamlFile :=
  mkFile true true (fun i => Some (default YAML_STREAM_END_EVENT (es !! i))).

Lemma contains_file_of es : contains (file_of es) es.
Proof.
  split_and!; [done|done| |].
  - intros k Hk. cbn. destruct (lookup_lt_is_Some_2 es k Hk) as [e ->]. done.
  - cbn. by rewrite lookup_ge_None_2.
Qed.

Definition Configs_init : Configs :=
  mkConfigs ResourceRegistry_init ∅ TargetRegistry_init (mkTargetConfigs "" 0 0 MODE_RESUME) SignalRegistry_init
    ExtFeaturesRegistry_init SignalExtFeatureMapper_init ∅ empty_fs.

(** ** Properties *)

(** *** Termination *)
Lemma parse_file_terminates {S} (step : nat -> yaml_event -> S -> result (S * flow)) `{!Stops step} final file n s :
  ends_at (yf_next file) n -> is_Some (parse_file step final
    (mkFile (yf_opened file) (yf_initialized file) (yf_next file)) (Datatypes.S n) s).
Proof.
  intros He. unfold parse_file. cbn [yf_opened yf_initialized yf_next].
  destruct (yf_opened file); cbn [negb]; [|eauto]. destruct (yf_initialized file); cbn [negb]; [|eauto].
  destruct (parse_loop_terminates step (yf_next file) n He (Datatypes.S n) 0 s) as [r ->]; [lia|lia|].
  destruct r as [[? []]|]; eauto.
Qed.

Lemma parse_file_within {S} (step : nat -> yaml_event -> S -> result (S * flow)) `{!Stops step} final file next' n fuel s :
  ends_at (yf_next file) n -> (n < fuel)%nat -> (forall k, (k <= n)%nat -> next' k = yf_next file k) ->
  parse_file step final (mkFile (yf_opened file) (yf_initialized file) next') fuel s =
  parse_file step final (mkFile (yf_opened file) (yf_initialized file) (yf_next file)) (Datatypes.S n) s.
Proof.
  intros He Hf Hn. unfold parse_file. cbn [yf_opened yf_initialized yf_next].
  by rewrite (parse_loop_within step (yf_next file) next' n He Hn (Datatypes.S n) fuel 0 s) by lia.
Qed.

(** No event makes the properties parser fault, throw or give up. *)
Lemma property_step_total i e s : exists s' f, property_step i e s = Ok (s', f) /\ (f = Next \/ f = Done).
Proof. destruct s as [l r], e; cbn; eauto. Qed.

Lemma property_loop next : forall fuel i s, is_Some (parse_loop property_step next fuel i s) ->
  exists s' o, parse_loop property_step next fuel i s = Some (Ok (s', o)) /\ o <> Thrown.
Proof.
  induction fuel as [|fuel IH]; intros i s; cbn [parse_loop]; [by intros []|].
  destruct (next i) as [e|]; [|by eauto].
  destruct (property_step_total i e s) as (s' & f & -> & [-> | ->]); [apply IH|by eauto].
Qed.

Lemma parse_properties_total file n c : ends_at (yf_next file) n ->
  exists r, keep (fun r => with_properties r c)
    match parse_loop property_step (yf_next file) (S n) 0 (PropLocals_init, cf_properties c) with
    | None => None
    | Some (Fault f) => Some (Fault f)
    | Some (Ok (s, Finished)) => Some (Ok (s, Some RC_SUCCESS))
    | Some (Ok (s, Returned rc)) => Some (Ok (s, Some rc))
    | Some (Ok (s, Thrown)) => Some (Ok (s, None))
    end = Some r /\ (PROPERTIES_CONFIG = PROPERTIES_CONFIG -> exists ps rc, r = Ok (with_properties ps c, Some rc)).
Proof.
  intros He. destruct (property_loop (yf_next file) (S n) 0 (PropLocals_init, cf_properties c)) as ([? ?] & o & -> & Ho).
  { apply (parse_loop_terminates property_step _ n He); lia. }
  destruct o; [| |done]; eexists; (split; [done|by eauto]).
Qed.

(** C35: termination.  When the events of a file end, or the YAML library fails, at its
    [n]-th call, each of the seven parsers is over within [n + 1] calls, whatever the events
    before are, whichever allocations fail and whatever the library would answer later: its
    own case for the end of the stream stops its loop.  The run [r] is then a code, an
    exception of the parser, or a fault, of which [parsers_unchecked] has examples; the
    properties parser never faults nor throws, and changes only its registry. *)
Theorem parsers_terminate `{HashOrder} (run_dir basePath : string) (mem : nat -> Mem)
    (copies : nat -> nat -> bool) (configType : ConfigType) (file : YamlFile) (n : nat) (c : Configs) :
  ends_at (yf_next file) n ->
  exists r,
    (forall fuel next', (n < fuel)%nat -> (forall k, (k <= n)%nat -> next' k = yf_next file k) ->
      parse run_dir basePath mem copies configType
        (mkFile (yf_opened file) (yf_initialized file) next') fuel c = Some r) /\
    (configType = PROPERTIES_CONFIG -> exists ps rc, r = Ok (with_properties ps c, Some rc)).
Proof.
  intros He. set (p fuel next' := parse run_dir basePath mem copies configType
    (mkFile (yf_opened file) (yf_initialized file) next') fuel c).
  assert (exists r, p (S n) (yf_next file) = Some r /\ (configType = PROPERTIES_CONFIG ->
    exists ps rc, r = Ok (with_properties ps c, Some rc))) as (r & Hr & Hp).
  { unfold p. destruct configType; cbn [parse].
    2: { unfold parse_file. cbn [yf_opened yf_initialized yf_next].
      destruct (yf_opened file), (yf_initialized file); cbn [negb keep]; try (eexists; split; [done|by eauto]).
      by apply parse_properties_total. }
    7: eexists; split; [done|discriminate].
    all: match goal with |- exists r, keep ?upd (parse_file ?st ?fin _ _ ?s) = _ /\ _ =>
      destruct (parse_file_terminates st fin file n s He) as [[[[? ?] ?]|] ->]; by eexists end. }
  exists r. split; [|done]. intros fuel next' Hf Hn. rewrite <- Hr. unfold p.
  destruct configType; cbn [parse]; try done; apply (f_equal (keep _)); apply parse_file_within; first [done | apply _].
Qed.

Lemma parsers_terminate_witness :
  exists r, @parse sorted_hash_order "" "" plenty (fun _ _ => true) SIGNALS_CONFIG
    (mkFile true true (fun k => if (k <? 2)%nat then Some (nth k
      [YAML_STREAM_START_EVENT; YAML_STREAM_END_EVENT] YAML_NO_EVENT) else None)) 3 Configs_init = Some r.
Proof.
  destruct (@parsers_terminate sorted_hash_order "" "" plenty (fun _ _ => true) SIGNALS_CONFIG
    (file_of [YAML_STREAM_START_EVENT]) 1 Configs_init) as (r & Hr & _).
  - right. reflexivity.
  - exists r. apply (Hr 3%nat); [lia|]. intros [|[|k]] Hk; [reflexivity|reflexivity|lia].
Defined.

(** C13: a resource file means its items in order, given memory.  Each item sets the attributes of a
    fresh configuration, one by one, until one is refused; the configuration is then
    registered, with an invalid type if the code is an error or the target is excluded.
    The code is shared by all the items and is what the parser returns.  Keys may stand
    alone or carry a list, and a permission, which the parser treats as a list, may be
    given without one. *)
Theorem resource_file_meaning `{HashOrder} (run_dir basePath : string) (copies : nat -> nat -> bool)
    (file : YamlFile) (fuel : nat) (c : Configs) (items : list (list attr)) :
  contains file (events_of RESOURCE_CONFIGS_ROOT items) -> Forall (Forall attr_ok) items ->
  (length (events_of RESOURCE_CONFIGS_ROOT items) < fuel)%nat ->
  parse run_dir basePath plenty copies RESOURCE_CONFIG file fuel c =
  Some ('(rc, r) ← spec_resources c items RC_SUCCESS (cf_resources c); Ok (with_resources r c, Some rc)).
Proof. intros. by apply parse_resources. Qed.

(** A resource, one that is switched off and still names its targets, and a third one. *)
Definition three_resources : list (list attr) :=
  [[Attr "ResType" "0x03"; Attr "ResID" "0x0000"; Attr "Name" "SCHED_UTIL_CLAMP_MIN";
    Attr "Permissions" "third_party"; AttrList "Modes" ["display_on"; "doze"]; Attr "Policy" "lower_is_better"];
   [Attr "ResType" "0x03"; Attr "ResID" "0x0001"; Attr "Supported" "false"; AttrList "TargetsEnabled" ["qcs"]];
   [Attr "ResType" "0x04"; Attr "ResID" "0x0002"; Attr "Name" "SCALE_MIN_FREQ"]].

Lemma three_resources_ok : Forall (Forall attr_ok) three_resources.
Proof.
  repeat (apply Forall_cons_2; [repeat (apply Forall_cons_2; [cbn; split_and?; first [reflexivity |
    repeat (apply Forall_cons_2; [reflexivity|]); apply Forall_nil_2]|]); apply Forall_nil_2|]).
  apply Forall_nil_2.
Qed.

Lemma resource_file_meaning_witness :
  exists c, @parse sorted_hash_order "" "" plenty (fun _ _ => true) RESOURCE_CONFIG
    (file_of (events_of RESOURCE_CONFIGS_ROOT (take 1 three_resources))) 100 Configs_init
    = Some (Ok (c, Some RC_SUCCESS)) /\ mTotalResources (cf_resources c) = 1.
Proof.
  eexists. split.
  - rewrite (@resource_file_meaning sorted_hash_order "" "" (fun _ _ => true) _ 100 Configs_init
      (take 1 three_resources)).
    + vm_compute. reflexivity.
    + apply contains_file_of.
    + apply Forall_take, three_resources_ok.
    + vm_compute. lia.
  - vm_compute. reflexivity.
Defined.

(** The first error of a resource file hides the rest of it.  When an attribute of an
    item is refused, neither that item nor any item after it is registered, however
    correct they are, and the parser returns the code of the first error.  Saying that a
    resource is not supported and naming its targets is such an error. *)
Theorem resource_file_first_error `{HashOrder} (run_dir basePath : string) (copies : nat -> nat -> bool)
    (file : YamlFile) (fuel : nat) (c : Configs) (good rest : list (list attr)) (bad : list attr)
    (r : ResourceRegistry) (rc : ErrCode) (b : ResourceConfigInfoBuilder) :
  contains file (events_of RESOURCE_CONFIGS_ROOT (good ++ bad :: rest)) ->
  Forall (Forall attr_ok) (good ++ bad :: rest) ->
  (length (events_of RESOURCE_CONFIGS_ROOT (good ++ bad :: rest)) < fuel)%nat ->
  spec_resources c good RC_SUCCESS (cf_resources c) = Ok (RC_SUCCESS, r) ->
  set_all (resource_setter (cf_fs c) (cf_settings c)) (concat (map attr_pairs bad)) RC_SUCCESS
    (ResourceConfigInfoBuilder_init true) = Ok (rc, b) ->
  RC_IS_NOTOK rc = true ->
  parse run_dir basePath plenty copies RESOURCE_CONFIG file fuel c
    = Some (Ok (with_resources r c, Some rc)).
Proof.
  intros Hf Hok Hfuel Hgood Hbad Hrc. rewrite (parse_resources _ _ _ _ _ _ _ Hf Hok Hfuel).
  unfold spec_resources in *. rewrite spec_items_app, Hgood. cbn [mbind result_bind spec_items].
  rewrite Hbad. cbn [mbind result_bind]. rewrite resource_finish_notok by done. cbn [mbind result_bind].
  pose proof (spec_resources_notok c rest rc r Hrc) as Hn. unfold spec_resources in Hn. by rewrite Hn.
Qed.

Lemma resource_file_first_error_witness :
  exists r, @parse sorted_hash_order "" "" plenty (fun _ _ => true) RESOURCE_CONFIG
    (file_of (events_of RESOURCE_CONFIGS_ROOT three_resources)) 100 Configs_init
    = Some (Ok (with_resources r Configs_init, Some RC_RESOURCE_NOT_SUPPORTED)) /\ mTotalResources r = 1.
Proof.
  eexists. split.
  - eapply (@resource_file_first_error sorted_hash_order "" "" (fun _ _ => true) _ 100 Configs_init
      [[Attr "ResType" "0x03"; Attr "ResID" "0x0000"; Attr "Name" "SCHED_UTIL_CLAMP_MIN";
        Attr "Permissions" "third_party"; AttrList "Modes" ["display_on"; "doze"];
        Attr "Policy" "lower_is_better"]]
      [[Attr "ResType" "0x04"; Attr "ResID" "0x0002"; Attr "Name" "SCALE_MIN_FREQ"]]
      [Attr "ResType" "0x03"; Attr "ResID" "0x0001"; Attr "Supported" "false";
       AttrList "TargetsEnabled" ["qcs"]]).
    + apply contains_file_of.
    + apply three_resources_ok.
    + vm_compute. lia.
    + vm_compute. reflexivity.
    + vm_compute. reflexivity.
    + reflexivity.
  - vm_compute. reflexivity.
Defined.

(** C34: the registered signals are typed.  Whatever the events of a signal file are,
    malformed documents included, and whichever allocations fail, a run of the parser that
    does not fault leaves a registry in which every configuration stands under the key of
    its own category, code and type, its members fit their C types, its four attributes
    are present and its category is not the invalid one. *)
Theorem signal_file_typed `{HashOrder} (run_dir basePath : string) (mem : nat -> Mem)
    (copies : nat -> nat -> bool) (file : YamlFile) (fuel : nat) (c c' : Configs) (rc : option ErrCode) :
  signals_ok (cf_signals c) ->
  parse run_dir basePath mem copies SIGNALS_CONFIG file fuel c = Some (Ok (c', rc)) ->
  signals_ok (cf_signals c').
Proof.
  intros Hc. unfold parse, parse_file.
  destruct (yf_opened file); cbn [negb keep]; [|intros [= <- <-]; exact Hc].
  destruct (yf_initialized file); cbn [negb keep]; [|intros [= <- <-]; exact Hc].
  destruct (parse_loop _ _ _ _ _) as [[[[l r] o]|]|] eqn:E; cbn [keep]; try done.
  assert (signals_ok r) as Hr.
  { refine (proj2 (parse_loop_invariant _ _ parsing_ok _ _ _ _ (l, r) o _ E)).
    - intros i e s s' f Hs Hstep. by eapply signal_step_ok.
    - split; [done|exact Hc]. }
  destruct o; cbn [keep]; intros [= <- <-]; exact Hr.
Qed.

Definition signal_document : list yaml_event :=
  [YAML_STREAM_START_EVENT; YAML_MAPPING_START_EVENT; text "SignalConfigs"; YAML_SEQUENCE_START_EVENT;
   YAML_MAPPING_START_EVENT; text "SigId"; text "0x0008"; text "Category"; text "0x01"; text "Enable";
   text "false"; YAML_MAPPING_END_EVENT; YAML_SEQUENCE_END_EVENT; YAML_MAPPING_END_EVENT].

Lemma signal_file_typed_witness :
  exists c, @parse sorted_hash_order "" "" plenty (fun _ _ => true) SIGNALS_CONFIG
    (file_of signal_document) 20 Configs_init = Some (Ok (c, Some RC_SUCCESS)) /\
    getSignalsConfigCount (cf_signals c) = 1 /\ signals_ok (cf_signals c).
Proof.
  eexists. split_and!; cycle 2.
  - eapply (@signal_file_typed sorted_hash_order "" "" plenty (fun _ _ => true)
      (file_of signal_document) 20 Configs_init).
    + intros k conf Hk. cbn in Hk. by rewrite lookup_empty in Hk.
    + vm_compute. reflexivity.
  - vm_compute. reflexivity.
  - vm_compute. reflexivity.
Defined.

(** What a properties file means. *)
Lemma parse_properties `{HashOrder} run_dir basePath mem copies file fuel c ps :
  contains file (prop_document ps) -> Forall prop_ok ps -> (length (prop_document ps) < fuel)%nat ->
  parse run_dir basePath mem copies PROPERTIES_CONFIG file fuel c =
  Some (Ok (with_properties (foldl (fun r p => <[p.1 := p.2]> r) (cf_properties c) ps) c, Some RC_SUCCESS)).
Proof.
  intros Hf Hok Hfuel. unfold parse.
  rewrite (parse_file_contains _ _ _ _ _ _ Hf Hfuel).
  unfold prop_document. rewrite run_app.
  change (run property_step 0 [YAML_STREAM_START_EVENT; YAML_DOCUMENT_START_EVENT; YAML_MAPPING_START_EVENT;
    text "PropertyConfigs"; YAML_SEQUENCE_START_EVENT] (PropLocals_init, cf_properties c)) with
    (Ok ((mkProp false "" "" "PropertyConfigs", cf_properties c), Next)).
  cbn [mbind result_bind]. rewrite run_app.
  match goal with |- context [run property_step ?i (concat _) (?l, ?r)] =>
    destruct (run_props ps i l r Hok ltac:(done)) as (l' & -> & Hk & Hv) end.
  cbn [mbind result_bind run property_step]. rewrite Hk. reflexivity.
Qed.

(** Properties, from the file to the client.  A properties file registers exactly the
    properties written in it, a later one with the same name replacing an earlier one, and
    keeps those there were: a query then finds the value of the last entry with that name. *)
Theorem property_file_roundtrip `{HashOrder} (run_dir basePath : string) (mem : nat -> Mem)
    (copies : nat -> nat -> bool) (file : YamlFile) (fuel : nat) (c : Configs) (ps : list (string * string)) :
  contains file (prop_document ps) -> Forall prop_ok ps -> (length (prop_document ps) < fuel)%nat ->
  exists c', parse run_dir basePath mem copies PROPERTIES_CONFIG file fuel c = Some (Ok (c', Some RC_SUCCESS)) /\
    forall name, name <> "" ->
      (queryProperty name (cf_properties c')).2 =
      match last (filter (fun p => p.1 = name) ps) with
      | Some p => Some p.2
      | None => (queryProperty name (cf_properties c)).2
      end.
Proof.
  intros Hf Hok Hfuel. eexists. split; [by apply parse_properties|]. intros name Hname.
  unfold queryProperty. assert ((String.length name =? 0)%nat = false) as -> by by destruct name.
  cbn [cf_properties with_properties]. rewrite foldl_insert_lookup.
  destruct (last _) as [p|]; [done|]. by destruct (cf_properties c !! name).
Qed.

Lemma property_file_roundtrip_witness :
  exists c, @parse sorted_hash_order "" "" plenty (fun _ _ => true) PROPERTIES_CONFIG
    (file_of (prop_document [("urm.delta", "5"); ("urm.pulse", "60000"); ("urm.delta", "7")])) 40 Configs_init
    = Some (Ok (c, Some RC_SUCCESS)) /\
    (queryProperty "urm.delta" (cf_properties c)).2 = Some "7".
Proof.
  destruct (@property_file_roundtrip sorted_hash_order "" "" plenty (fun _ _ => true)
    (file_of (prop_document [("urm.delta", "5"); ("urm.pulse", "60000"); ("urm.delta", "7")])) 40 Configs_init
    [("urm.delta", "5"); ("urm.pulse", "60000"); ("urm.delta", "7")]) as (c & E & Hq).
  - apply contains_file_of.
  - repeat (apply Forall_cons_2; [unfold prop_ok, prop_word; split_and!; discriminate|]).
    apply Forall_nil_2.
  - vm_compute. lia.
  - exists c. split; [exact E|]. rewrite Hq by discriminate. vm_compute. reflexivity.
Defined.

(** [InitConfigs: CgroupsInfo], a list of values outside a resource, an odd list of threads,
    and a mapping used as a key. *)
Definition bad_init : list yaml_event :=
  [YAML_STREAM_START_EVENT; YAML_DOCUMENT_START_EVENT; YAML_MAPPING_START_EVENT; text "InitConfigs";
   text "CgroupsInfo"; YAML_MAPPING_END_EVENT; YAML_DOCUMENT_END_EVENT].
Definition bad_signals : list yaml_event :=
  [YAML_STREAM_START_EVENT; YAML_DOCUMENT_START_EVENT; YAML_MAPPING_START_EVENT; text "SignalConfigs";
   YAML_SEQUENCE_START_EVENT; YAML_MAPPING_START_EVENT; text "Values"; YAML_SEQUENCE_START_EVENT; text "1";
   YAML_SEQUENCE_END_EVENT; YAML_MAPPING_END_EVENT; YAML_SEQUENCE_END_EVENT; YAML_MAPPING_END_EVENT;
   YAML_DOCUMENT_END_EVENT].
Definition bad_threads : list yaml_event :=
  [YAML_STREAM_START_EVENT; YAML_DOCUMENT_START_EVENT; YAML_MAPPING_START_EVENT; text "PerAppConfigs";
   YAML_SEQUENCE_START_EVENT; YAML_MAPPING_START_EVENT; text "Threads"; YAML_SEQUENCE_START_EVENT;
   text "renderer"; YAML_SEQUENCE_END_EVENT; YAML_MAPPING_END_EVENT; YAML_SEQUENCE_END_EVENT;
   YAML_MAPPING_END_EVENT; YAML_DOCUMENT_END_EVENT].
Definition bad_app : list yaml_event :=
  [YAML_STREAM_START_EVENT; YAML_DOCUMENT_START_EVENT; YAML_MAPPING_START_EVENT; YAML_MAPPING_START_EVENT;
   YAML_MAPPING_END_EVENT; text "x"; YAML_MAPPING_END_EVENT; YAML_DOCUMENT_END_EVENT].

(** Misplaced nodes are not checked for.  Four well-formed YAML documents of a few words
    make a parser use a null pointer or read past a container, whatever the registries
    hold: a list name given as a value in the init file; a list of values outside a
    resource in the signal file; an odd number of entries under the threads of an
    application; a mapping in place of the first key of the application file. *)
Theorem parsers_unchecked `{HashOrder} (run_dir basePath : string) (copies : nat -> nat -> bool)
    (fuel : nat) (c : Configs) :
  let parse t es := parse run_dir basePath plenty copies t (file_of es) fuel c in
  (15 < fuel)%nat ->
  parse INIT_CONFIG bad_init = Some (Fault NullDeref) /\
  parse SIGNALS_CONFIG bad_signals = Some (Fault NullDeref) /\
  parse APP_CONFIG bad_threads = Some (Fault OutOfRange) /\
  parse APP_CONFIG bad_app = Some (Fault OutOfRange).
Proof.
  cbn zeta. intros Hf. unfold parse.
  assert (forall es, (length es <= 14)%nat -> forall S
    (step : nat -> yaml_event -> S -> result (S * flow)) (Hstop : Stops step) final s f,
    run step 0 es s = Fault f -> parse_file step final (file_of es) fuel s = Some (Fault f)) as Hp.
  { intros es Hl S step Hstop final s f Hrun.
    rewrite (parse_file_contains step final _ es fuel s (contains_file_of es)) by lia. by rewrite Hrun. }
  split_and!.
  - rewrite (Hp bad_init) with (f := NullDeref); [done|simpl; lia|apply _|reflexivity].
  - rewrite (Hp bad_signals) with (f := NullDeref); [done|simpl; lia|apply _|reflexivity].
  - rewrite (Hp bad_threads) with (f := OutOfRange); [done|simpl; lia|apply _|reflexivity].
  - rewrite (Hp bad_app) with (f := OutOfRange); [done|simpl; lia|apply _|reflexivity].
Qed.

Lemma parsers_unchecked_witness :
  @parse sorted_hash_order "" "" plenty (fun _ _ => true) INIT_CONFIG (file_of bad_init) 16 Configs_init
    = Some (Fault NullDeref).
Proof.
  apply (@parsers_unchecked sorted_hash_order "" "" (fun _ _ => true) 16 Configs_init). lia.
Defined.
