(* ===== verification/InitFacts.v ===== *)
(** What holds of the start-up and the shutdown of the daemon (RestuneInit.v): the order in
    which configuration files override one another, the settings a set of properties
    gives, the verdict of [init], and the handles of the plugins. *)
From S2P Require Import Prelude RateLimiter Double UrmTypes StdString Strtod StringFacts AuxRoutines TargetRegistry ResourceRegistry Extensions.
From S2P Require Import Request ThreadPool ExtFeatures PropertiesRegistry YamlEvents RestuneParser RestuneInit ParserFacts.
Open Scope string_scope.
Open Scope list_scope.
Open Scope Z_scope.

(** ** Results with early returns *)
Lemma and_then_ok {A} (x : result (A * option ErrCode)) k a rc :
  and_then x k = Ok (a, rc) ->
  exists b rc', x = Ok (b, rc') /\
    (if decide (rc' = Some RC_SUCCESS) then k b = Ok (a, rc) else b = a /\ rc' = rc /\ rc <> Some RC_SUCCESS).
Proof.
  unfold and_then. destruct x as [[b [rc'|]]|f]; cbn [mbind result_bind]; [| |done].
  - intros E. exists b, (Some rc'). split; [done|]. case_decide as Hd.
    + injection Hd as ->. exact E.
    + destruct rc'; try done; cbn in E; injection E as <- <-; done.
  - intros [= <- <-]. by exists b, None.
Qed.

Lemma or_fail_ok {A} (x : result (A * option ErrCode)) a rc :
  or_fail x = Ok (a, rc) ->
  exists rc', x = Ok (a, rc') /\
    rc = match rc' with Some RC_SUCCESS => Some RC_SUCCESS | Some _ => Some RC_MODULE_INIT_FAILURE | None => None end.
Proof.
  unfold or_fail. destruct x as [[b rc']|f]; cbn [mbind result_bind]; [|done].
  intros [= <- <-]. exists rc'. split; [done|]. by destruct rc' as [[]|].
Qed.

Lemma on_configs_ok f d d' rc :
  on_configs f d = Ok (d', rc) -> exists c, f (d_configs d) = Ok (c, rc) /\ d' = with_configs c d.
Proof.
  unfold on_configs. destruct (f (d_configs d)) as [[c rc']|]; cbn [mbind result_bind]; [|done].
  intros [= <- <-]. by exists c.
Qed.

(** A value of the code in [init]: success, failure of the module, or an exception. *)
Definition init_code (rc : option ErrCode) : Prop :=
  rc = Some RC_SUCCESS \/ rc = Some RC_MODULE_INIT_FAILURE \/ rc = None.

Lemma or_fail_code {A} (x : result (A * option ErrCode)) a rc : or_fail x = Ok (a, rc) -> init_code rc.
Proof.
  intros (rc' & _ & ->)%or_fail_ok. unfold init_code.
  destruct rc' as [[]|]; auto.
Qed.

Lemma and_then_success {A} (x : result (A * option ErrCode)) k a :
  and_then x k = Ok (a, Some RC_SUCCESS) ->
  exists b, x = Ok (b, Some RC_SUCCESS) /\ k b = Ok (a, Some RC_SUCCESS).
Proof.
  intros (b & rc' & -> & E)%and_then_ok. case_decide as Hd; [subst; by exists b|]. by destruct E as (_ & _ & ?).
Qed.

Lemma or_fail_success {A} (x : result (A * option ErrCode)) a :
  or_fail x = Ok (a, Some RC_SUCCESS) -> x = Ok (a, Some RC_SUCCESS).
Proof. intros (rc' & -> & E)%or_fail_ok. by destruct rc' as [[]|]. Qed.

(** A property of the code and the state that every call in a chain keeps. *)
Lemma and_then_keeps {A} (P : A -> Prop) (x : result (A * option ErrCode)) k a rc :
  and_then x k = Ok (a, rc) ->
  (forall b rc', x = Ok (b, rc') -> P b /\ init_code rc') ->
  (forall b, P b -> k b = Ok (a, rc) -> P a /\ init_code rc) -> P a /\ init_code rc.
Proof.
  intros (b & rc' & E & H)%and_then_ok Hx Hk. destruct (Hx _ _ E) as [HP Hc].
  case_decide; [by apply (Hk b)|]. destruct H as (-> & -> & _). done.
Qed.

(** ** Layers of properties *)
Section Layers.
Context `{HashOrder} (commonDir customDir targetDir runDir : string).
Context (yaml : string -> YamlFile) (fuel : nat) (mem : string -> nat -> Mem)
        (copies : string -> nat -> nat -> bool).

(** The file at [path] is a document of the properties [ps]. *)
Definition prop_file (path : string) (ps : list (string * string)) : Prop :=
  contains (yaml path) (prop_document ps) /\ Forall prop_ok ps /\ (length (prop_document ps) < fuel)%nat.

Definition add_all (ps : list (string * string)) (c : Configs) : Configs :=
  with_properties (foldl (fun r p => <[p.1 := p.2]> r) (cf_properties c) ps) c.

Lemma add_all_app ps qs c : add_all qs (add_all ps c) = add_all (ps ++ qs) c.
Proof. unfold add_all, with_properties. cbn. by rewrite foldl_app. Qed.

Lemma parseUtil_properties path ps c : path <> "" -> prop_file path ps ->
  parseUtil runDir yaml fuel mem copies path PROPERTIES_CONFIG c = Ok (add_all ps c, Some RC_SUCCESS).
Proof.
  intros Hne (Hc & Hok & Hf). unfold parseUtil.
  replace (String.length path =? 0)%nat with false by by destruct path.
  by rewrite (parse_properties runDir _ _ _ _ _ _ _ Hc Hok Hf).
Qed.

(** The files of a list of places that are there. *)
Definition existing (paths : list string) (fs : FileSystem) : list string :=
  List.filter (fun p => (0 <? String.length p)%nat && fileExists fs p) paths.

Lemma fetch_layers_properties (doc : string -> list (string * string)) : forall paths c,
  (forall p, p ∈ existing paths (cf_fs c) -> prop_file p (doc p)) ->
  fetch_layers runDir yaml fuel mem copies PROPERTIES_CONFIG paths RC_SUCCESS c =
  Ok (add_all (concat (map doc (existing paths (cf_fs c)))) c, Some RC_SUCCESS).
Proof.
  induction paths as [|p paths IH]; intros c Hdoc; cbn [fetch_layers existing List.filter].
  - by destruct c.
  - cbn [existing List.filter] in Hdoc.
    destruct ((0 <? String.length p)%nat && fileExists (cf_fs c) p) eqn:E; [|by apply IH].
    apply andb_true_iff in E as [Hp _]. rewrite (parseUtil_properties p (doc p)).
    + cbn [mbind result_bind]. change (RC_IS_NOTOK RC_SUCCESS) with false. cbn iota.
      rewrite IH.
      * cbn [map concat]. rewrite add_all_app. done.
      * intros q Hq. apply Hdoc. by right.
    + by destruct p.
    + apply Hdoc. by left.
Qed.
End Layers.

(** ** Settings *)
Definition readable (s : Setter) (value : string) : Prop :=
  match s with
  | Number _ => exists n, stol 10 value = inl n
  | Factor _ => exists d, stod value = inl d
  end.

(** A number or a factor as the settings take it from the properties. *)
Definition number (r : PropertiesRegistry) (prop def : string) : Z :=
  match stol 10 (fetched prop def r) with inl v => wrap_u 32 v | inr _ => 0 end.
Definition factor (r : PropertiesRegistry) (prop def : string) : double :=
  match stod (fetched prop def r) with inl d => d | inr _ => d_of_Z 0 end.

(** What the settings are meant to be. *)
Definition settings_of (r : PropertiesRegistry) (port : Z) : MetaConfigs :=
  let threads := number r "resource_tuner.thread_pool.desired_capacity" "5" in
  mkMeta (number r "resource_tuner.maximum.concurrent.requests" "50")
    (number r "resource_tuner.maximum.resources.per.request" "5")
    (if threads =? 0 then 5 else threads)
    (Z.min 100 (number r "resource_tuner.thread_pool.max_scaling_capacity" "10"))
    port
    (number r "resource_tuner.pulse.duration" "60000")
    (number r "resource_tuner.garbage_collection.duration" "83000")
    (number r "resource_tuner.rate_limiter.delta" "5")
    (number r "resource_tuner.garbage_collection.batch_size" "20")
    (factor r "resource_tuner.penalty.factor" "2.0")
    (factor r "resource_tuner.reward.factor" "0.4")
    (number r URM_MAX_PLUGIN_COUNT "3")
    (if String.eqb (fetched "urm.classifier.apply_mode" "ACCEPT_AND_PERSIST" r) "ACCEPT_AND_REPLACE"
     then ACCEPT_AND_REPLACE else ACCEPT_AND_PERSIST).

Lemma number_range r prop def : 0 <= number r prop def < 2 ^ 32.
Proof.
  unfold number. destruct (stol _ _); [|lia]. unfold wrap_u. apply Z.mod_pos_bound. lia.
Qed.

Lemma fetch_settings_fails r : forall l m,
  ~ Forall (fun e => readable e.2 (fetched e.1.1 e.1.2 r)) l ->
  (fetch_settings l r m).2 = Some RC_PROP_PARSING_ERROR.
Proof.
  induction l as [|[[prop def] s] l IH]; intros m Hn; [by destruct Hn|].
  cbn [fetch_settings]. destruct (apply_setter s (fetched prop def r) m) as [m'|e] eqn:E; [|done].
  apply IH. intros Hl. apply Hn. constructor; [|done]. cbn [fst snd].
  destruct s; cbn [apply_setter readable] in *; [destruct (stol _ _)|destruct (stod _)]; try done; eauto.
Qed.

Lemma fetch_settings_number set prop def l r m n : stol 10 (fetched prop def r) = inl n ->
  fetch_settings ((prop, def, Number set) :: l) r m = fetch_settings l r (set (number r prop def) m).
Proof. intros E. cbn [fetch_settings apply_setter]. unfold number. by rewrite E. Qed.
Lemma fetch_settings_factor set prop def l r m d : stod (fetched prop def r) = inl d ->
  fetch_settings ((prop, def, Factor set) :: l) r m = fetch_settings l r (set (factor r prop def) m).
Proof. intros E. cbn [fetch_settings apply_setter]. unfold factor. by rewrite E. Qed.

Lemma meta_from_ok r m :
  Forall (fun e => readable e.2 (fetched e.1.1 e.1.2 r)) settings ->
  meta_from r m = (settings_of r (mListeningPort m), Some RC_SUCCESS).
Proof.
  intros Hr. unfold meta_from, settings in *.
  repeat match type of Hr with
  | Forall _ (_ :: _) =>
    let Hx := fresh in let x := fresh in apply Forall_cons in Hr as [Hx Hr]; cbn [fst snd readable] in Hx;
    destruct Hx as [x Hx];
    first [rewrite (fetch_settings_number _ _ _ _ _ _ _ Hx)|rewrite (fetch_settings_factor _ _ _ _ _ _ _ Hx)]
  end.
  cbn [fetch_settings]. unfold finish_settings, settings_of.
  pose proof (number_range r "resource_tuner.thread_pool.desired_capacity" "5") as [Ha _].
  pose proof (number_range r "resource_tuner.thread_pool.max_scaling_capacity" "10") as [Hb _].
  set (a := number r "resource_tuner.thread_pool.desired_capacity" "5") in *.
  set (b := number r "resource_tuner.thread_pool.max_scaling_capacity" "10") in *.
  match goal with |- context [set_mode ?v ?m0] => set (m1 := set_mode v m0) end.
  change (mDesiredThreadCount m1) with a. cbv zeta.
  replace (a <? 1) with (a =? 0) by (destruct (Z.eqb_spec a 0), (Z.ltb_spec a 1); lia).
  assert (mMaxScalingCapacity (if a =? 0 then set_threads 5 m1 else m1) = b) as -> by by destruct (a =? 0).
  rewrite Z.gtb_ltb. destruct (a =? 0), (Z.ltb_spec 100 b); rewrite ?Z.min_l, ?Z.min_r by lia; reflexivity.
Qed.

Lemma fetch_settings_codes r : forall l m,
  (fetch_settings l r m).2 = Some RC_SUCCESS /\ Forall (fun e => readable e.2 (fetched e.1.1 e.1.2 r)) l \/
  (fetch_settings l r m).2 = Some RC_PROP_PARSING_ERROR.
Proof.
  induction l as [|[[prop def] s] l IH]; intros m; cbn [fetch_settings]; [by left|].
  destruct (apply_setter s (fetched prop def r) m) as [m'|e] eqn:E; [|by right].
  destruct (IH m') as [[-> Hl]| ->]; [left|by right]. split; [done|]. constructor; [|done].
  destruct s; cbn [apply_setter readable fst snd] in *; [destruct (stol _ _)|destruct (stod _)]; try done; eauto.
Qed.

Lemma meta_from_success r m m' :
  meta_from r m = (m', Some RC_SUCCESS) -> m' = settings_of r (mListeningPort m).
Proof.
  intros E. destruct (fetch_settings_codes r settings m) as [[_ Hr]|Hf].
  - rewrite (meta_from_ok r m Hr) in E. by injection E.
  - unfold meta_from in E. destruct (fetch_settings settings r m) as [m1 rc]. cbn in Hf. by subst rc.
Qed.

Lemma meta_from_code r m : (meta_from r m).2 = Some RC_SUCCESS \/ (meta_from r m).2 = Some RC_PROP_PARSING_ERROR.
Proof.
  unfold meta_from. destruct (fetch_settings_codes r settings m) as [[E _]|E];
    destruct (fetch_settings settings r m) as [m1 rc]; cbn in E; subst rc; auto.
Qed.

(** The pool of requests that the settings give. *)
Lemma requests_pool mc d p : d_requests (preAllocateWorkers mc d).1 = Some p -> pool_ok mc true = true ->
  mMaxPoolCapacity p = Z.max (wrap_s 32 (mMaxScalingCapacity (d_meta d))) (wrap_s 32 (mDesiredThreadCount (d_meta d))).
Proof.
  intros E Hp. unfold preAllocateWorkers in E. rewrite Hp in E. cbn [negb] in E.
  assert (Some (ThreadPool_init (wrap_s 32 (mDesiredThreadCount (d_meta d)))
    (wrap_s 32 (mMaxScalingCapacity (d_meta d))) (thread_ok mc true)) = Some p) as [= <-].
  { by destruct (negb (pool_ok mc false)). }
  cbn [ThreadPool_init mMaxPoolCapacity].
  destruct (Z.ltb_spec (wrap_s 32 (mMaxScalingCapacity (d_meta d))) (wrap_s 32 (mDesiredThreadCount (d_meta d)))); lia.
Qed.

(** ** Handles of the plugins *)
Lemma close_handles_spec : forall n i hs,
  (i <= length hs)%nat ->
  if (i + n <=? length hs)%nat then is_Some (match close_handles n i hs with Ok hs => Some hs | _ => None end)
  else close_handles n i hs = Fault OutOfRange.
Proof.
  induction n as [|n IH]; intros i hs Hi; cbn [close_handles].
  - replace (i + 0 <=? length hs)%nat with true by (symmetry; apply Nat.leb_le; lia). by eexists.
  - destruct (hs !! i) as [h|] eqn:E.
    + apply lookup_lt_Some in E. specialize (IH (S i) (<[i := None]> hs)).
      rewrite length_insert in IH. replace (S i + n)%nat with (i + S n)%nat in IH by lia. apply IH. lia.
    + apply lookup_ge_None in E. by replace (i + S n <=? length hs)%nat with false by (symmetry; apply Nat.leb_gt; lia).
Qed.

Lemma fetched_cases prop r :
  (exists v, forall def, fetched prop def r = v) \/ (forall def, fetched prop def r = def).
Proof.
  unfold fetched, submitPropGetRequest_default. destruct (queryProperty prop r) as [n v].
  destruct (0 <? n)%nat; [left; by eexists|by right].
Qed.

Lemma plugin_counts r : number r URM_MAX_PLUGIN_COUNT "3" <= number r URM_MAX_PLUGIN_COUNT "6".
Proof.
  unfold number. destruct (fetched_cases URM_MAX_PLUGIN_COUNT r) as [[v E]|E]; rewrite !E; [lia|].
  vm_compute. discriminate.
Qed.

Lemma load_loop_spec libDirPath mc count : forall entries i hs e,
  0 <= i -> count <= Z.of_nat (length hs) -> count < 2 ^ 32 ->
  exists hs' e', load_loop mc libDirPath entries i count hs e = Ok (hs', e') /\ length hs' = length hs.
Proof.
  induction entries as [|[f dir] entries IH]; intros i hs e Hi Hc Hu; cbn [load_loop]; [by eauto|].
  destruct (Z.ltb_spec i count); [|by eauto].
  destruct (String.eqb f "." || String.eqb f ".."); [by apply IH|].
  destruct (dlopen mc (libDirPath +:+ "/" +:+ f) e) as [h e1].
  replace (Z.to_nat i <? length hs)%nat with true by (symmetry; apply Nat.ltb_lt; lia).
  destruct (IH (wrap_u 32 (i + 1)) (<[Z.to_nat i := h]> hs) e1) as (hs' & e' & -> & El).
  - unfold wrap_u. apply Z.mod_pos_bound. lia.
  - by rewrite length_insert.
  - done.
  - exists hs', e'. split; [done|]. by rewrite El, length_insert.
Qed.

(** ** The stages of the start *)
Section Stages.
Context `{HashOrder} (commonDir customDir targetDir runDir libDir : string).
Context (yaml : string -> YamlFile) (fuel : nat) (mem : string -> nat -> Mem)
        (copies : string -> nat -> nat -> bool) (mc : Machine).

Local Abbreviation init_configuration :=
  (init_configuration commonDir customDir targetDir runDir libDir yaml fuel mem copies mc).
Local Abbreviation init_parts := (init_parts commonDir customDir targetDir runDir yaml fuel mem copies mc).
Local Abbreviation init := (init commonDir customDir targetDir runDir libDir yaml fuel mem copies mc).
Local Abbreviation fetchCommonProperties := (fetchCommonProperties commonDir runDir yaml fuel mem copies).

Lemma allocate_handles_ok d d' : allocate_handles mc d = Ok (d', Some RC_SUCCESS) ->
  let n := number (cf_properties (d_configs d)) URM_MAX_PLUGIN_COUNT "6" in
  d' = with_handles (Some (replicate (Z.to_nat n) None)) (d_ext d) (with_meta (set_plugins n (d_meta d)) d).
Proof.
  unfold allocate_handles, number. destruct (stol 10 _) as [v|]; [|done].
  destruct (calloc_ok mc); [|done]. by intros [= <-].
Qed.

Lemma fetchMetaConfigs_ok d d' rc : fetchMetaConfigs targetDir d = Ok (d', rc) ->
  exists cfg, d' = with_meta (meta_from (cf_properties (d_configs d)) (d_meta d)).1
                     (with_configs (set_settings cfg (d_configs d)) d) /\
    rc = (meta_from (cf_properties (d_configs d)) (d_meta d)).2.
Proof.
  unfold fetchMetaConfigs. destruct (getMachineName _ _) as [name|]; cbn [mbind result_bind]; [|done].
  destruct (meta_from _ _) as [m rc']. intros [= <- <-]. by eexists.
Qed.

Lemma loadExtensionsLib_ok d d' rc : loadExtensionsLib libDir mc d = Ok (d', rc) ->
  exists hs e, d' = with_handles hs e d /\ rc = Some RC_SUCCESS.
Proof.
  unfold loadExtensionsLib. destruct (d_handles d) as [hs|] eqn:Eh.
  - destruct (fs_dirs _ _) as [entries|].
    + destruct (load_loop _ _ _ _ _ _ _) as [[hs' e]|]; cbn [mbind result_bind]; [|done].
      intros [= <- <-]. by eexists _, _.
    + intros [= <- <-]. exists (d_handles d), (d_ext d). by destruct d.
  - intros [= <- <-]. exists (d_handles d), (d_ext d). by destruct d.
Qed.

(** The threads and timers of the daemon. *)
Definition threads_of (d : Daemon) := (d_handler d, d_pulse d, d_collector d, d_listener d).
Definition pools_of (d : Daemon) := (d_requests d, d_timers d).

(** A stage keeps what [P] says, and its code is one of [init]. *)
Lemma or_fail_keeps {A} (P : A -> Prop) (x : result (A * option ErrCode)) :
  (forall b rc, x = Ok (b, rc) -> P b) -> forall b rc, or_fail x = Ok (b, rc) -> P b /\ init_code rc.
Proof.
  intros Hx b rc E. split; [|by eapply or_fail_code].
  apply or_fail_ok in E as (rc' & E & _). by eapply Hx.
Qed.

Lemma configs_keep {T} (g : Daemon -> T) f d : (forall c, g (with_configs c d) = g d) ->
  forall b rc, or_fail (on_configs f d) = Ok (b, rc) -> g b = g d /\ init_code rc.
Proof.
  intros Hg. apply or_fail_keeps. intros b rc (c & _ & ->)%on_configs_ok. apply Hg.
Qed.

(** One call of a chain that keeps [g], then the rest. *)
Ltac stage g d E b Hb :=
  refine (and_then_keeps (fun b => g b = g d) _ _ _ _ E _ _); clear E;
  [intros b ? E|intros b Hb E].

Lemma fetchMeta_keeps {T} (g : Daemon -> T) b :
  (forall m c, g (with_meta m (with_configs c b)) = g b) ->
  forall b' rc, or_fail (fetchMetaConfigs targetDir b) = Ok (b', rc) -> g b' = g b /\ init_code rc.
Proof. intros Hg. apply or_fail_keeps. intros b' rc (cfg & -> & _)%fetchMetaConfigs_ok. apply Hg. Qed.

Lemma load_keeps {T} (g : Daemon -> T) b : (forall hs e, g (with_handles hs e b) = g b) ->
  forall b' rc, or_fail (loadExtensionsLib libDir mc b) = Ok (b', rc) -> g b' = g b /\ init_code rc.
Proof. intros Hg. apply or_fail_keeps. intros b' rc (hs & e & -> & _)%loadExtensionsLib_ok. apply Hg. Qed.

Lemma allocate_keeps {T} (g : Daemon -> T) b :
  (forall m hs, g (with_handles hs (d_ext b) (with_meta m b)) = g b) -> (forall m, g (with_meta m b) = g b) ->
  forall b' rc, allocate_handles mc b = Ok (b', rc) -> g b' = g b /\ init_code rc.
Proof.
  intros Hg Hm b' rc E. unfold allocate_handles in E.
  destruct (stol 10 _); [|injection E as <- <-; split; [done|by right; right]].
  destruct (calloc_ok mc); injection E as <- <-.
  - split; [apply Hg|by left].
  - split; [apply Hm|by right; left].
Qed.

Definition parts_of (d : Daemon) := (threads_of d, pools_of d).

Lemma init_configuration_keeps d d' rc : init_configuration d = Ok (d', rc) ->
  parts_of d' = parts_of d /\ init_code rc.
Proof.
  unfold RestuneInit.init_configuration. set (d0 := with_configs _ d). intros E.
  change (parts_of d) with (parts_of d0).
  stage parts_of d0 E b Hb; [by eapply (configs_keep parts_of)|].
  stage parts_of d0 E b1 Hb1; [rewrite <- Hb; by eapply (allocate_keeps parts_of)|].
  stage parts_of d0 E b2 Hb2; [rewrite <- Hb1; by eapply (fetchMeta_keeps parts_of)|].
  stage parts_of d0 E b3 Hb3; [rewrite <- Hb2; by eapply (load_keeps parts_of)|].
  stage parts_of d0 E b4 Hb4; [rewrite <- Hb3; by eapply (configs_keep parts_of)|].
  rewrite <- Hb4. by eapply (fetchMeta_keeps parts_of).
Qed.

(** The pools are there once the workers are. *)
Lemma workers_ok d d' rc : or_fail (Ok (preAllocateWorkers mc d)) = Ok (d', rc) ->
  threads_of d' = threads_of d /\ init_code rc /\
  (rc = Some RC_SUCCESS -> is_Some (d_requests d') /\ is_Some (d_timers d')).
Proof.
  intros E. assert (init_code rc) as Hc by by eapply or_fail_code.
  apply or_fail_ok in E as (rc' & [= E] & ->). unfold preAllocateWorkers in E.
  destruct (pool_ok mc true), (pool_ok mc false); cbn [negb] in E; injection E as <- <-;
    (split; [done|split; [done|]]); try done; intros _; split; by eexists.
Qed.

Lemma init_parts_keeps d d' rc : init_parts d = Ok (d', rc) ->
  threads_of d' = threads_of d /\ init_code rc /\
  (rc = Some RC_SUCCESS -> is_Some (d_requests d') /\ is_Some (d_timers d')).
Proof.
  unfold RestuneInit.init_parts, preAllocateMemory. intros E.
  destruct (reserve _ _ _) as [w|]; cbn [mbind result_bind] in E; [|done].
  apply and_then_ok in E as (b & rc' & Ew & E). apply workers_ok in Ew as (Ht & Hc & Hp).
  case_decide as Hd; [|destruct E as (-> & -> & Hn); split; [exact Ht|split; [exact Hc|done]]].
  specialize (Hp Hd). clear Hd Hc.
  assert (parts_of d' = parts_of b /\ init_code rc) as [Hparts Hc].
  { stage parts_of b E b1 Hb1; [by eapply (configs_keep parts_of)|].
    stage parts_of b E b2 Hb2; [rewrite <- Hb1; by eapply (configs_keep parts_of)|].
    stage parts_of b E b3 Hb3; [rewrite <- Hb2; by eapply (configs_keep parts_of)|].
    stage parts_of b E b4 Hb4; [rewrite <- Hb3; by eapply (configs_keep parts_of)|].
    stage parts_of b E b5 Hb5; [rewrite <- Hb4; by eapply (configs_keep parts_of)|].
    rewrite <- Hb5. by eapply (configs_keep parts_of). }
  pose proof (f_equal fst Hparts) as H1. pose proof (f_equal snd Hparts) as [= H2 H3]. cbn in H1.
  split; [by rewrite H1|]. split; [done|]. by rewrite H2, H3.
Qed.

(** The threads are started in order; the listener is the last. *)
Lemma start_daemon_spec which duration d t rc : start_daemon mc which duration d = (t, rc) ->
  (rc = RC_SUCCESS -> is_Some t) /\
  (rc = RC_SUCCESS -> duration <> -1 -> exists t', t = Some t' /\ tm_armed t' = true /\ tm_duration t' = Some duration).
Proof.
  unfold start_daemon. destruct (timer_block mc which); cbn [negb]; [|by intros [= <- <-]].
  unfold startTimer. destruct (Z.eqb_spec duration (-1)) as [->|Hne].
  { intros [= <- <-]. split; [by eexists|done]. }
  destruct ((duration =? 0) || (duration <? -1)); [by intros [= <- <-]|].
  destruct (d_timers d); cbn [option_map]; [|by intros [= <- <-]].
  destruct (timer_task mc which); intros [= <- <-]; (split; [by eexists|]); [|done]. intros _ _. by eexists.
Qed.

Definition restored (d : Daemon) : Configs :=
  set_fs (restoreToSafeState runDir (cf_fs (d_configs d))) (d_configs d).

Lemma init_configuration_success d d' : init_configuration d = Ok (d', Some RC_SUCCESS) ->
  exists c1 hs, fetchCommonProperties (restored d) = Ok (c1, Some RC_SUCCESS) /\
    d_handles d' = Some hs /\ length hs = Z.to_nat (number (cf_properties c1) URM_MAX_PLUGIN_COUNT "6") /\
    d_meta d' = settings_of (cf_properties (d_configs d')) (mListeningPort (d_meta d)).
Proof.
  unfold RestuneInit.init_configuration. intros E. cbv zeta in E. fold (restored d) in E.
  apply and_then_success in E as (b & E1%or_fail_success & E).
  apply on_configs_ok in E1 as (c1 & E1 & ->). cbn [d_configs with_configs] in E1.
  apply and_then_success in E as (b & E2%allocate_handles_ok & E). subst b.
  apply and_then_success in E as (b & E3%or_fail_success & E).
  apply fetchMetaConfigs_ok in E3 as (cfg & -> & E3). symmetry in E3.
  match type of E3 with context [meta_from ?r ?m] =>
    destruct (meta_from r m) as [m1 rc1] eqn:Em; cbn [snd] in E3; subst rc1; apply meta_from_success in Em end.
  cbn [mListeningPort set_plugins d_meta with_handles with_meta with_configs] in Em.
  apply and_then_success in E as (b & E4%or_fail_success & E).
  assert (exists hs, d_handles b = Some hs /\ length hs = Z.to_nat (number (cf_properties c1) URM_MAX_PLUGIN_COUNT "6") /\
    d_meta b = m1) as (hs & Hh & Hl & Hm).
  { clear E. unfold loadExtensionsLib in E4. cbn [d_handles with_meta with_configs with_handles] in E4.
    destruct (fs_dirs _ _) as [entries|].
    - match type of E4 with context [load_loop ?mc ?p ?en ?i ?c ?hs ?e] =>
        destruct (load_loop_spec p mc c en i hs e) as (hs' & e' & El & Hl) end; [done| | |].
      + cbn [d_meta with_meta fst]. subst m1. cbn [mPluginCount settings_of]. rewrite length_replicate.
        pose proof (plugin_counts (cf_properties c1)). pose proof (number_range (cf_properties c1) URM_MAX_PLUGIN_COUNT "3").
        cbn [d_configs with_configs with_handles with_meta cf_properties]. lia.
      + cbn [d_meta with_meta fst]. subst m1. cbn [mPluginCount settings_of]. apply number_range.
      + rewrite El in E4. cbn [mbind result_bind] in E4. injection E4 as <-.
        exists hs'. rewrite Hl, length_replicate. done.
    - injection E4 as <-. eexists. split; [reflexivity|]. by rewrite length_replicate. }
  apply and_then_success in E as (b1 & E5%or_fail_success & E).
  apply on_configs_ok in E5 as (c2 & _ & ->).
  apply or_fail_success in E. apply fetchMetaConfigs_ok in E as (cfg2 & -> & E). symmetry in E.
  match type of E with context [meta_from ?r ?m] =>
    destruct (meta_from r m) as [m2 rc2] eqn:Em2; cbn [snd] in E; subst rc2; apply meta_from_success in Em2 end.
  exists c1, hs. split_and!; [exact E1|exact Hh|exact Hl|].
  cbn [d_meta with_meta fst d_configs with_configs set_settings cf_properties] in *. rewrite Em2. f_equal.
  rewrite Hm, Em. done.
Qed.

Lemma init_configuration_common d d' rc c1 rc1 : init_configuration d = Ok (d', rc) ->
  fetchCommonProperties (restored d) = Ok (c1, Some rc1) -> rc1 <> RC_SUCCESS ->
  rc = Some RC_MODULE_INIT_FAILURE.
Proof.
  unfold RestuneInit.init_configuration. intros E Hf Hn. cbv zeta in E. fold (restored d) in E.
  apply and_then_ok in E as (b & rc' & E1 & E). apply or_fail_ok in E1 as (rc2 & E1 & ->).
  unfold on_configs in E1. cbn [d_configs with_configs] in E1. rewrite Hf in E1. cbn [mbind result_bind] in E1.
  injection E1 as <- <-.
  assert (rc = Some RC_MODULE_INIT_FAILURE) as ->; [|done].
  destruct rc1; try done; case_decide as D; try discriminate D; by destruct E as (_ & <- & _).
Qed.

Definition settings_and_handles (d : Daemon) := (d_meta d, d_handles d).

Lemma workers_settings d d' rc : or_fail (Ok (preAllocateWorkers mc d)) = Ok (d', rc) ->
  settings_and_handles d' = settings_and_handles d.
Proof.
  intros (rc' & [= E] & ->)%or_fail_ok. unfold preAllocateWorkers in E.
  by destruct (pool_ok mc true), (pool_ok mc false); injection E as <- <-.
Qed.

Lemma init_parts_settings d d' rc : init_parts d = Ok (d', rc) ->
  settings_and_handles d' = settings_and_handles d.
Proof.
  unfold RestuneInit.init_parts, preAllocateMemory. intros E.
  destruct (reserve _ _ _) as [w|]; cbn [mbind result_bind] in E; [|done].
  assert (settings_and_handles d' = settings_and_handles d /\ init_code rc) as [? _]; [|done].
  stage settings_and_handles d E b Hb.
  { split; [exact (workers_settings _ _ _ E)|by eapply or_fail_code]. }
  stage settings_and_handles d E b1 Hb1; [rewrite <- Hb; by eapply (configs_keep settings_and_handles)|].
  stage settings_and_handles d E b2 Hb2; [rewrite <- Hb1; by eapply (configs_keep settings_and_handles)|].
  stage settings_and_handles d E b3 Hb3; [rewrite <- Hb2; by eapply (configs_keep settings_and_handles)|].
  stage settings_and_handles d E b4 Hb4; [rewrite <- Hb3; by eapply (configs_keep settings_and_handles)|].
  stage settings_and_handles d E b5 Hb5; [rewrite <- Hb4; by eapply (configs_keep settings_and_handles)|].
  rewrite <- Hb5. by eapply (configs_keep settings_and_handles).
Qed.

(** What [init_threads] leaves behind. *)
Lemma init_threads_spec d d' rc : init_threads mc d = (d', rc) -> threads_of d = (false, None, None, false) ->
  settings_and_handles d' = settings_and_handles d /\ pools_of d' = pools_of d /\
  (rc = Some RC_SUCCESS /\ d_handler d' = true /\ d_listener d' = true /\
     (exists pulse collector, d_pulse d' = Some pulse /\ d_collector d' = Some collector /\
        (mPulseDuration (d_meta d) <> -1 -> tm_armed pulse = true) /\
        (mClientGarbageCollectorDuration (d_meta d) <> -1 -> tm_armed collector = true)) \/
   rc = Some RC_MODULE_INIT_FAILURE /\ d_listener d' = false).
Proof.
  unfold init_threads. intros E [= H1 H2 H3 H4]. cbv zeta in E.
  destruct (handler_ok mc); cbn [negb] in E.
  2: { injection E as <- <-. split; [done|]. split; [done|]. by right. }
  destruct (start_daemon mc true _ _) as [pulse rc1] eqn:E1.
  destruct (start_daemon_spec true _ _ _ _ E1) as [P1 P2]. clear E1.
  destruct (decide (rc1 = RC_SUCCESS)) as [->|N1].
  2: { replace (RC_IS_NOTOK rc1) with true in E by by destruct rc1. injection E as <- <-.
       split; [done|]. split; [done|]. by right. }
  change (RC_IS_NOTOK RC_SUCCESS) with false in E. cbn iota in E.
  destruct (start_daemon mc false _ _) as [collector rc2] eqn:E2.
  destruct (start_daemon_spec false _ _ _ _ E2) as [Q1 Q2]. clear E2.
  destruct (decide (rc2 = RC_SUCCESS)) as [->|N2].
  2: { replace (RC_IS_NOTOK rc2) with true in E by by destruct rc2. injection E as <- <-.
       split; [done|]. split; [done|]. by right. }
  change (RC_IS_NOTOK RC_SUCCESS) with false in E. cbn iota in E.
  destruct (listener_ok mc); cbn [negb] in E; injection E as <- <-; (split; [done|]); (split; [done|]); [left|by right].
  split_and!; try done.
  destruct (P1 eq_refl) as [p ->], (Q1 eq_refl) as [c ->]. exists p, c. split_and!; try done.
  - intros N. by destruct (P2 eq_refl N) as (t & [= <-] & ? & _).
  - intros N. by destruct (Q2 eq_refl N) as (t & [= <-] & ? & _).
Qed.

(** A start up to the threads. *)
Lemma init_stages d d' rc : init d = Ok (d', rc) ->
  (rc <> Some RC_SUCCESS /\ init_configuration d = Ok (d', rc)) \/
  exists d1, init_configuration d = Ok (d1, Some RC_SUCCESS) /\
    ((rc <> Some RC_SUCCESS /\ init_parts d1 = Ok (d', rc)) \/
     exists d2, init_parts d1 = Ok (d2, Some RC_SUCCESS) /\ init_threads mc d2 = (d', rc)).
Proof.
  intros (d1 & rc1 & E1 & E)%and_then_ok. case_decide as Hd; [|destruct E as (-> & -> & ?); by left].
  right. subst rc1. exists d1. split; [done|].
  apply and_then_ok in E as (d2 & rc2 & E2 & E). case_decide as Hd; [|destruct E as (-> & -> & ?); by left].
  subst rc2. right. exists d2. split; [done|]. by injection E.
Qed.

Lemma tear_spec d hs : d_handles d = Some hs ->
  if (Z.to_nat (mPluginCount (d_meta d)) <=? length hs)%nat
  then exists d', tear runDir d = Ok (d', RC_SUCCESS) else tear runDir d = Fault OutOfRange.
Proof.
  intros Hh. unfold tear. cbn [d_handles with_configs with_pools with_threads d_meta]. rewrite Hh.
  pose proof (close_handles_spec (Z.to_nat (mPluginCount (d_meta d))) 0 hs ltac:(lia)) as Hs.
  cbn [plus] in Hs. destruct (_ <=? _)%nat.
  - destruct (close_handles _ _ _); [|by destruct Hs]. cbn [mbind result_bind]. by eexists.
  - by rewrite Hs.
Qed.
End Stages.

(** ** Properties *)

(** The settings of [r] can all be read. *)
Definition all_readable (r : PropertiesRegistry) : Prop :=
  Forall (fun e => readable e.2 (fetched e.1.1 e.1.2 r)) settings.

(** The daemon between the two readings of the settings, before the plugins: [c1] are its registries. *)
Definition before_plugins (c1 : Configs) (d : Daemon) : Daemon :=
  with_meta (settings_of (cf_properties c1) (mListeningPort (d_meta d)))
    (with_configs c1 (with_handles
      (Some (replicate (Z.to_nat (number (cf_properties c1) URM_MAX_PLUGIN_COUNT "6")) None)) (d_ext d) d)).

Lemma meta_from_verdict r m : let '(m', rc) := meta_from r m in
  all_readable r /\ rc = Some RC_SUCCESS /\ m' = settings_of r (mListeningPort m) \/
  ~ all_readable r /\ rc = Some RC_PROP_PARSING_ERROR.
Proof.
  destruct (fetch_settings_codes r settings m) as [[_ Hr]|Hf].
  - rewrite (meta_from_ok r m Hr). by left.
  - pose proof (meta_from_ok r m) as Hok. unfold meta_from in *.
    destruct (fetch_settings settings r m) as [m1 rc]. cbn in Hf. subst rc. right. split; [|done].
    intros Hr. by specialize (Hok Hr).
Qed.

(** Allocating the handles succeeds when the settings can be read. *)
Lemma allocate_handles_readable mc d : calloc_ok mc = true -> all_readable (cf_properties (d_configs d)) ->
  let n := number (cf_properties (d_configs d)) URM_MAX_PLUGIN_COUNT "6" in
  allocate_handles mc d =
  Ok (with_handles (Some (replicate (Z.to_nat n) None)) (d_ext d) (with_meta (set_plugins n (d_meta d)) d), Some RC_SUCCESS).
Proof.
  intros Hm Hr. assert (exists v, stol 10 (fetched URM_MAX_PLUGIN_COUNT "6" (cf_properties (d_configs d))) = inl v) as [v Hv].
  { unfold all_readable in Hr. rewrite Forall_forall in Hr.
    destruct (Hr (URM_MAX_PLUGIN_COUNT, "3", Number set_plugins)) as [v Hv].
    { unfold settings. rewrite !elem_of_cons. tauto. }
    cbn [fst snd] in Hv. destruct (fetched_cases URM_MAX_PLUGIN_COUNT (cf_properties (d_configs d))) as [[w E]|E].
    - rewrite E in Hv |- *. eauto.
    - rewrite E. vm_compute. eauto. }
  unfold allocate_handles, number. by rewrite Hv, Hm.
Qed.

(** The custom properties, on top of the registries [c1]. *)
Lemma custom_properties `{HashOrder} (customDir targetDir runDir : string) yaml fuel mem copies ext c extension doc :
  getPropertiesConfigFilePath ext = Ok extension ->
  let files := existing [targetDir +:+ "PropertiesConfig.yaml";
                         getFullTargetBasedConfPath targetDir "PropertiesConfig.yaml" c;
                         customDir +:+ "PropertiesConfig.yaml"; extension] (cf_fs c) in
  (forall p, p ∈ files -> prop_file yaml fuel p (doc p)) ->
  fetchCustomProperties customDir targetDir runDir yaml fuel mem copies ext c =
  Ok (add_all (concat (map doc files)) c, Some RC_SUCCESS).
Proof.
  intros Hext files Hdoc. unfold fetchCustomProperties, fetch_custom, custom_paths. rewrite Hext. cbn [mbind result_bind].
  by rewrite (fetch_layers_properties _ _ _ _ _ doc).
Qed.

(** C38: layers of configuration, in the first part of the start, [init_configuration]: properties
    from the common file, the array of handles, the settings, the plugins, properties from
    the override files, the settings again.  Suppose that the machine name [name] can be read,
    [calloc] succeeds, the common file is a document of properties from which all settings can be
    read, the plugins are loaded, and those of the four override files that exist (all targets,
    this target, custom, extension) are documents of properties.  Then no step faults; the
    value of a property is that of its last entry in the last file that mentions it; besides the
    properties only the target name has changed in the registries; and this part succeeds,
    with the settings that the final properties give, exactly when all of them can be read from the
    final properties, and is otherwise a failure of the module. *)
Theorem property_layers `{HashOrder} (commonDir customDir targetDir runDir libDir : string)
    (yaml : string -> YamlFile) (fuel : nat) (mem : string -> nat -> Mem) (copies : string -> nat -> nat -> bool)
    (mc : Machine) (d d2 : Daemon) (name extension : string) (doc : string -> list (string * string)) :
  let c0 := restored runDir d in
  let common := commonDir +:+ "PropertiesConfig.yaml" in
  let cfg := mkTargetConfigs (toLowerCase name) (mTotalCoreCount (cf_settings c0))
               (mTotalClusterCount (cf_settings c0)) (currMode (cf_settings c0)) in
  let c1 := set_settings cfg (add_all (doc common) c0) in
  let files := common :: existing [targetDir +:+ "PropertiesConfig.yaml";
                                   getFullTargetBasedConfPath targetDir "PropertiesConfig.yaml" c1;
                                   customDir +:+ "PropertiesConfig.yaml"; extension] (cf_fs c0) in
  getMachineName targetDir (cf_fs c0) = Ok name -> calloc_ok mc = true ->
  (forall p, p ∈ files -> prop_file yaml fuel p (doc p)) -> all_readable (cf_properties c1) ->
  loadExtensionsLib libDir mc (before_plugins c1 d) = Ok (d2, Some RC_SUCCESS) ->
  getPropertiesConfigFilePath (d_ext d2) = Ok extension ->
  exists d' rc, init_configuration commonDir customDir targetDir runDir libDir yaml fuel mem copies mc d = Ok (d', rc) /\
    d_configs d' = with_properties (cf_properties (d_configs d')) c1 /\
    (forall prop, cf_properties (d_configs d') !! prop =
      match last (filter (fun p => p.1 = prop) (concat (map doc files))) with
      | Some p => Some p.2
      | None => cf_properties (d_configs d) !! prop
      end) /\
    (all_readable (cf_properties (d_configs d')) /\ rc = Some RC_SUCCESS /\
       d_meta d' = settings_of (cf_properties (d_configs d')) (mListeningPort (d_meta d)) \/
     ~ all_readable (cf_properties (d_configs d')) /\ rc = Some RC_MODULE_INIT_FAILURE).
Proof.
  intros c0 common cfg c1 files Hname Hcal Hdoc Hgood Hload Hext.
  set (c2 := add_all (concat (map doc (tail files))) c1).
  destruct (loadExtensionsLib_ok _ _ _ _ _ Hload) as (hs & e & Ed2 & _).
  assert (d_configs d2 = c1 /\ d_meta d2 = settings_of (cf_properties c1) (mListeningPort (d_meta d))) as [Hc2 Hm2]
    by by rewrite Ed2.
  destruct (meta_from (cf_properties c2) (d_meta d2)) as [m rc] eqn:Em.
  pose proof (meta_from_verdict (cf_properties c2) (d_meta d2)) as Hv. rewrite Em in Hv.
  exists (with_meta m (with_configs c2 d2)), (if decide (rc = Some RC_SUCCESS) then Some RC_SUCCESS else Some RC_MODULE_INIT_FAILURE).
  split; [|split; [done|split]].
  - unfold init_configuration. cbv zeta. fold (restored runDir d). fold c0. unfold on_configs at 1.
    cbn [d_configs with_configs]. unfold fetchCommonProperties.
    rewrite (parseUtil_properties _ _ _ _ _ _ (doc common));
      [|unfold common; destruct commonDir; discriminate|apply Hdoc; by left].
    cbn [or_fail and_then mbind result_bind]. change (RC_IS_NOTOK RC_SUCCESS) with false. cbn iota.
    rewrite allocate_handles_readable by done. cbn [and_then mbind result_bind]. cbn iota.
    change (RC_IS_NOTOK RC_SUCCESS) with false. cbn iota. unfold fetchMetaConfigs at 1.
    cbn [d_configs with_configs with_handles with_meta add_all with_properties cf_fs cf_settings cf_properties d_meta].
    rewrite Hname. cbn [mbind result_bind].
    rewrite (meta_from_ok (cf_properties c1)) by exact Hgood. cbn [or_fail and_then mbind result_bind].
    change (RC_IS_NOTOK RC_SUCCESS) with false. cbn iota.
    match goal with |- context [loadExtensionsLib libDir mc ?b] => change b with (before_plugins c1 d) end.
    rewrite Hload. cbn [or_fail and_then mbind result_bind]. change (RC_IS_NOTOK RC_SUCCESS) with false. cbn iota.
    unfold on_configs. rewrite Hc2, (custom_properties _ _ _ _ _ _ _ _ c1 extension doc Hext)
      by (intros p Hp; apply Hdoc; by right).
    cbn [or_fail and_then mbind result_bind]. change (RC_IS_NOTOK RC_SUCCESS) with false. cbn iota.
    change (add_all _ c1) with c2. unfold fetchMetaConfigs. cbn [d_configs with_configs d_meta].
    change (cf_fs c2) with (cf_fs c0). rewrite Hname. cbn [mbind result_bind]. rewrite Em. cbn [mbind result_bind or_fail].
    destruct Hv as [(_ & -> & _)|(_ & ->)]; done.
  - intros prop. cbn [d_configs with_meta with_configs]. unfold c2, add_all. cbn [with_properties cf_properties].
    rewrite foldl_insert_lookup. cbn [c1 set_settings add_all with_properties cf_properties].
    rewrite foldl_insert_lookup. cbn [files map concat tail]. rewrite filter_app, last_app.
    by destruct (last (filter _ (concat _))).
  - cbn [d_configs with_meta with_configs d_meta]. destruct Hv as [(Hr & -> & ->)|(Hr & ->)].
    + left. split; [done|]. split; [done|]. by rewrite Hm2.
    + by right.
Qed.

Definition no_alloc : string -> nat -> nat -> bool := fun _ _ _ => true.
Definition two_files : FileSystem :=
  mkFS {["/c/PropertiesConfig.yaml" := ""; "/t/PropertiesConfig.yaml" := ""]} (fun _ => None)
    (fun _ => true) (fun _ => true) (fun _ => MkdirOk).
Definition layers_doc (p : string) : list (string * string) :=
  if String.eqb p "/c/PropertiesConfig.yaml" then [("urm.delta", "9")]
  else [("urm.delta", "5"); ("urm.pulse", "7")].
(** A machine that grants everything. *)
Definition willing : Machine :=
  mkMachine true (fun _ e => (None, e)) (fun z => z) (fun _ => 64) (fun _ => [None]) (fun _ => true)
    (fun _ _ => true) true (fun _ => true) (fun _ => true) true (fun _ _ => None).
Definition fresh : Daemon :=
  mkDaemon (set_fs two_files Configs_init) MetaConfigs_init Extensions_init None ∅
    (mkLogger LOG_DEBUG false LOG_TOSYSLOG) None None false None None false [].

Lemma property_layers_witness :
  exists d', @init_configuration sorted_hash_order "/t/" "/c/" "/t/" "/run/" "/lib"
      (fun p => file_of (prop_document (layers_doc p))) 40 (fun _ => plenty) no_alloc willing fresh
      = Ok (d', Some RC_SUCCESS) /\
    cf_properties (d_configs d') !! "urm.delta" = Some "9" /\ cf_properties (d_configs d') !! "urm.pulse" = Some "7".
Proof.
  set (order := sorted_hash_order).
  destruct (property_layers "/t/" "/c/" "/t/" "/run/" "/lib" (fun p => file_of (prop_document (layers_doc p))) 40
    (fun _ => plenty) no_alloc willing fresh
    (before_plugins (set_settings (mkTargetConfigs "" 0 0 MODE_RESUME)
      (add_all (layers_doc "/t/PropertiesConfig.yaml") (restored "/run/" fresh))) fresh) "" "" layers_doc)
    as (d' & rc & E & _ & Hp & Hrc).
  - vm_compute. reflexivity.
  - reflexivity.
  - intros p _. unfold prop_file, layers_doc. split; [apply contains_file_of|].
    destruct (String.eqb p _); (split; [repeat (apply Forall_cons_2; [unfold prop_ok, prop_word; split_and!; discriminate|]);
      apply Forall_nil_2|vm_compute; lia]).
  - unfold all_readable, settings. repeat (apply Forall_cons_2; [cbn [fst snd readable]; eexists; vm_compute; reflexivity|]).
    apply Forall_nil_2.
  - reflexivity.
  - vm_compute. reflexivity.
  - assert (rc = Some RC_SUCCESS) as ->.
    { destruct Hrc as [(_ & ? & _)|[Hn _]]; [done|]. destruct Hn. unfold all_readable, settings.
      repeat (apply Forall_cons_2; [cbn [fst snd readable]; unfold fetched, submitPropGetRequest_default, queryProperty;
        rewrite Hp; eexists; vm_compute; reflexivity|]).
      apply Forall_nil_2. }
    exists d'. split; [exact E|]. rewrite !Hp. split; vm_compute; reflexivity.
Defined.

(** Settings.  When every property that a setting is read from parses, or is absent, the settings are
    those properties, with the thread count reset to 5 when it is 0 and the scaling capacity
    capped at 100; one that does not parse makes the start fail.  Without
    any property the settings are the documented defaults.  The cap does not bind the pool of
    requests, whose capacity is raised to the desired count: any count above 100 is granted. *)
Theorem settings_verdict (r : PropertiesRegistry) (m : MetaConfigs) :
  let good := Forall (fun e => readable e.2 (fetched e.1.1 e.1.2 r)) settings in
  let threads := number r "resource_tuner.thread_pool.desired_capacity" "5" in
  (good -> meta_from r m = (settings_of r (mListeningPort m), Some RC_SUCCESS) /\
     forall mc d p, d_meta d = settings_of r (mListeningPort m) -> pool_ok mc true = true ->
       d_requests (preAllocateWorkers mc d).1 = Some p ->
       mMaxScalingCapacity (d_meta d) <= 100 /\
       (100 <= threads < 2 ^ 31 -> mMaxPoolCapacity p = threads)) /\
  (~ good -> (meta_from r m).2 = Some RC_PROP_PARSING_ERROR) /\
  settings_of ∅ 0 = mkMeta 50 5 5 10 0 60000 83000 5 20 (RateLimiter.mPenaltyFactor default_limiter)
                      (RateLimiter.mRewardFactor default_limiter) 3 ACCEPT_AND_PERSIST.
Proof.
  cbv zeta. split_and!.
  - intros Hg. split; [by apply meta_from_ok|]. intros mc d p Hm Hok Hp.
    pose proof (requests_pool mc d p Hp Hok) as Hc. rewrite Hm in Hc |- *.
    cbn [mMaxScalingCapacity mDesiredThreadCount settings_of] in Hc |- *. split; [lia|]. intros Ht.
    pose proof (number_range r "resource_tuner.thread_pool.max_scaling_capacity" "10").
    destruct (Z.eqb_spec (number r "resource_tuner.thread_pool.desired_capacity" "5") 0); [lia|].
    rewrite !wrap_s_id in Hc by (unfold in_s, min_s, max_s; simpl; lia). lia.
  - intros Hn. destruct (meta_from_code r m) as [E|E]; [|exact E]. destruct Hn.
    destruct (fetch_settings_codes r settings m) as [[_ Hr]|Hf]; [exact Hr|].
    unfold meta_from in E. destruct (fetch_settings settings r m) as [m1 rc]. cbn in Hf. by subst rc.
  - vm_compute. reflexivity.
Qed.

(** The plugin count is raised by the custom properties. *)
Definition raised_yaml (p : string) : YamlFile :=
  file_of (if String.eqb p "/c/PropertiesConfig.yaml" then prop_document [(URM_MAX_PLUGIN_COUNT, "9")] else []).
Definition raised_init : result (Daemon * option ErrCode) :=
  @init sorted_hash_order "/d/" "/c/" "/t/" "/run/" "/lib" raised_yaml 40 (fun _ => plenty) no_alloc willing fresh.

(** C37: verdict of the start.  [init] ends with success, with the failure of the module, or with
    an exception.  On success both pools are there, the handler and the listener run, and the
    timers of the pulse monitor and of the garbage collector are armed; otherwise the listener is
    not started, so that no request reaches a daemon that is partly built.  In particular a
    common properties file that cannot be read fails the start before the handler, the listener and
    the two timers are started. *)
Theorem init_verdict `{HashOrder} (commonDir customDir targetDir runDir libDir : string)
    (yaml : string -> YamlFile) (fuel : nat) (mem : string -> nat -> Mem) (copies : string -> nat -> nat -> bool)
    (mc : Machine) (d d' : Daemon) (rc : option ErrCode) :
  init commonDir customDir targetDir runDir libDir yaml fuel mem copies mc d = Ok (d', rc) ->
  threads_of d = (false, None, None, false) ->
  (rc = Some RC_SUCCESS /\ d_handler d' = true /\ d_listener d' = true /\
     is_Some (d_requests d') /\ is_Some (d_timers d') /\
     exists pulse collector, d_pulse d' = Some pulse /\ tm_armed pulse = true /\
       d_collector d' = Some collector /\ tm_armed collector = true) \/
  ((rc = Some RC_MODULE_INIT_FAILURE \/ rc = None) /\ d_listener d' = false /\
     forall c1 rc1, fetchCommonProperties commonDir runDir yaml fuel mem copies (restored runDir d) = Ok (c1, Some rc1) ->
       rc1 <> RC_SUCCESS -> rc = Some RC_MODULE_INIT_FAILURE /\ threads_of d' = threads_of d).
Proof.
  intros E Hd. apply init_stages in E as [[Hn E1]|(d1 & E1 & E)].
  { destruct (init_configuration_keeps _ _ _ _ _ _ _ _ _ _ _ _ _ E1) as [Hp Hc].
    pose proof (f_equal fst Hp) as Ht. cbn in Ht. pose proof Ht as Ht'. rewrite Hd in Ht'. injection Ht' as _ _ _ Hl.
    right. split; [destruct Hc as [?|[?|?]]; auto; done|]. split; [done|]. intros c1 rc1 Hf Hrc.
    split; [|done]. by eapply init_configuration_common. }
  destruct (init_configuration_keeps _ _ _ _ _ _ _ _ _ _ _ _ _ E1) as [Hp _].
  pose proof (f_equal fst Hp) as Ht. cbn in Ht. rewrite Hd in Ht.
  destruct (init_configuration_success _ _ _ _ _ _ _ _ _ _ _ _ E1) as (c1 & hs & Hc1 & _ & _ & Hm).
  assert (forall c rc1, fetchCommonProperties commonDir runDir yaml fuel mem copies (restored runDir d) = Ok (c, Some rc1) ->
    rc1 = RC_SUCCESS) as Hcommon by (intros c rc1 Hf; rewrite Hc1 in Hf; by injection Hf).
  destruct E as [[Hn E2]|(d2 & E2 & E3)].
  { destruct (init_parts_keeps _ _ _ _ _ _ _ _ _ _ _ _ E2) as (Ht2 & Hc & _).
    rewrite Ht in Ht2. injection Ht2 as _ _ _ Hl. right.
    split; [destruct Hc as [?|[?|?]]; auto; done|]. split; [done|]. intros c rc1 Hf Hrc. by destruct Hrc; eapply Hcommon. }
  destruct (init_parts_keeps _ _ _ _ _ _ _ _ _ _ _ _ E2) as (Ht2 & _ & Hpools). rewrite Ht in Ht2.
  pose proof (init_parts_settings _ _ _ _ _ _ _ _ _ _ _ _ E2) as Hs2.
  destruct (init_threads_spec _ _ _ _ E3 Ht2) as (_ & Hp3 & [(-> & Hh & Hl & pulse & coll & P1 & P2 & P3 & P4)|[-> Hl]]);
    [left|right; split; [by left|split; [done|intros c rc1 Hf Hrc; by destruct Hrc; eapply Hcommon]]].
  destruct (Hpools eq_refl) as [Hr Htm]. pose proof (f_equal fst Hp3) as R1. pose proof (f_equal snd Hp3) as R2.
  pose proof (f_equal fst Hs2) as Hm2. cbn in R1, R2, Hm2. rewrite Hm2, Hm in P3, P4.
  cbn [mPulseDuration mClientGarbageCollectorDuration settings_of] in P3, P4.
  split_and!; [done|done|done|by rewrite R1|by rewrite R2|]. exists pulse, coll.
  pose proof (number_range (cf_properties (d_configs d1)) "resource_tuner.pulse.duration" "60000").
  pose proof (number_range (cf_properties (d_configs d1)) "resource_tuner.garbage_collection.duration" "83000").
  split_and!; [done|apply P3; lia|done|apply P4; lia].
Qed.

Lemma init_verdict_witness :
  exists d', raised_init = Ok (d', Some RC_SUCCESS) /\ d_listener d' = true /\ is_Some (d_requests d').
Proof.
  destruct raised_init as [[d' rc]|] eqn:E; [|vm_compute in E; discriminate E].
  assert (rc = Some RC_SUCCESS) as Hrc.
  { assert (match raised_init with Ok (_, rc) => rc | _ => None end = Some RC_SUCCESS) as Hr by (vm_compute; reflexivity).
    rewrite E in Hr. exact Hr. }
  destruct (init_verdict _ _ _ _ _ _ _ _ _ _ _ _ _ E eq_refl) as [(_ & _ & Hl & Hr & _)|([Hf|Hf] & _)].
  - exists d'. rewrite Hrc. split; [reflexivity|split; [exact Hl|exact Hr]].
  - rewrite Hf in Hrc. discriminate Hrc.
  - rewrite Hf in Hrc. discriminate Hrc.
Defined.

(** Handles of the plugins.  The array of handles is sized by the plugin count of the common
    properties, 6 when it is not set; the plugins are loaded up to the same count, 3
    when it is not set, which is always inside the array; but the count is read once more
    after the custom properties, and [tear] closes as many handles as that: when a custom
    properties file raised the count, the shutdown after a successful start reads past the end
    of the array, and otherwise it succeeds. *)
Theorem plugin_handles `{HashOrder} (commonDir customDir targetDir runDir libDir : string)
    (yaml : string -> YamlFile) (fuel : nat) (mem : string -> nat -> Mem) (copies : string -> nat -> nat -> bool)
    (mc : Machine) (d d' : Daemon) :
  init commonDir customDir targetDir runDir libDir yaml fuel mem copies mc d = Ok (d', Some RC_SUCCESS) ->
  threads_of d = (false, None, None, false) ->
  exists c1 d1,
    fetchCommonProperties commonDir runDir yaml fuel mem copies (restored runDir d) = Ok (c1, Some RC_SUCCESS) /\
    init_configuration commonDir customDir targetDir runDir libDir yaml fuel mem copies mc d = Ok (d1, Some RC_SUCCESS) /\
    let allocated := number (cf_properties c1) URM_MAX_PLUGIN_COUNT "6" in
    let closed := number (cf_properties (d_configs d1)) URM_MAX_PLUGIN_COUNT "3" in
    length <$> d_handles d' = Some (Z.to_nat allocated) /\
    (closed <= allocated -> exists d2, tear runDir d' = Ok (d2, RC_SUCCESS)) /\
    (allocated < closed -> tear runDir d' = Fault OutOfRange).
Proof.
  intros E Hd. apply init_stages in E as [[Hn _]|(d1 & E1 & [[Hn _]|(d2 & E2 & E3)])]; [done|done|].
  destruct (init_configuration_success _ _ _ _ _ _ _ _ _ _ _ _ E1) as (c1 & hs & Hc1 & Hh & Hl & Hm).
  destruct (init_configuration_keeps _ _ _ _ _ _ _ _ _ _ _ _ _ E1) as [Hp _].
  destruct (init_parts_keeps _ _ _ _ _ _ _ _ _ _ _ _ E2) as (Ht2 & _ & _).
  pose proof (init_parts_settings _ _ _ _ _ _ _ _ _ _ _ _ E2) as Hs2.
  pose proof (f_equal fst Hp) as Ht. cbn in Ht. rewrite Ht, Hd in Ht2.
  destruct (init_threads_spec _ _ _ _ E3 Ht2) as (Hs3 & _). rewrite Hs2 in Hs3.
  pose proof (f_equal fst Hs3) as Hm3. pose proof (f_equal snd Hs3) as Hh3. cbn in Hm3, Hh3.
  exists c1, d1. split; [done|]. split; [done|]. cbv zeta.
  rewrite Hh3, Hh. split; [cbn; by rewrite Hl|].
  pose proof (tear_spec runDir d' hs ltac:(by rewrite Hh3)) as Ht3. rewrite Hm3, Hm, Hl in Ht3.
  cbn [mPluginCount settings_of] in Ht3.
  pose proof (number_range (cf_properties c1) URM_MAX_PLUGIN_COUNT "6").
  pose proof (number_range (cf_properties (d_configs d1)) URM_MAX_PLUGIN_COUNT "3").
  split; intros Hlt.
  - rewrite (proj2 (Nat.leb_le _ _)) in Ht3 by lia. exact Ht3.
  - rewrite (proj2 (Nat.leb_gt _ _)) in Ht3 by lia. exact Ht3.
Qed.

Lemma plugin_handles_witness :
  exists d', raised_init = Ok (d', Some RC_SUCCESS) /\ @tear sorted_hash_order "/run/" d' = Fault OutOfRange.
Proof.
  assert (match raised_init with Ok (d', rc) => rc = Some RC_SUCCESS | _ => False end) as Hr by (vm_compute; reflexivity).
  destruct raised_init as [[d' rc]|] eqn:E; [|destruct Hr]. subst rc. exists d'. split; [reflexivity|].
  destruct (plugin_handles _ _ _ _ _ _ _ _ _ _ _ _ E eq_refl) as (c1 & d1 & Hc1 & Hd1 & _ & _ & Ht).
  apply Ht.
  assert (match @fetchCommonProperties sorted_hash_order "/d/" "/run/" raised_yaml 40 (fun _ => plenty) no_alloc
    (restored "/run/" fresh) with Ok (c1, _) => number (cf_properties c1) URM_MAX_PLUGIN_COUNT "6" = 6 | _ => False end) as N1
    by (vm_compute; reflexivity).
  rewrite Hc1 in N1.
  assert (match @init_configuration sorted_hash_order "/d/" "/c/" "/t/" "/run/" "/lib" raised_yaml 40 (fun _ => plenty) no_alloc willing fresh
    with Ok (d1, _) => number (cf_properties (d_configs d1)) URM_MAX_PLUGIN_COUNT "3" = 9 | _ => False end) as N2
    by (vm_compute; reflexivity).
  rewrite Hd1 in N2. rewrite N1, N2. reflexivity.
Defined.
