(* ===== verification/Pipeline.v ===== *)
(** The way of a message through the server, from the socket to the queue:
    [RequestReceiver::forwardMessage] ([resource-tuner/core/Server/RequestReceiver.cpp])
    and [submitResProvisionReqMsg] ([resource-tuner/core/RequestHandler.cpp]), which the
    thread pool runs; and the composition with the client library of Wire.v.

    The blocks of the message and of its [MsgForwardInfo] belong to the memory pool and are
    not part of the state here; the answer to a property query is given elsewhere. *)
From S2P Require Import Prelude UrmTypes Message Resource DLManager AuxRoutines TargetRegistry.
From S2P Require Import ResourceRegistry Request RequestHandler Double CocoTable ClientDataManager OrderedQueue RequestManager RateLimiter.
From S2P Require Import Server Wire.
Open Scope list_scope.
Open Scope Z_scope.

Record MsgForwardInfo := mkInfo {
  mModuleID : Z;
  mRequestType : Z;
  mInfoHandle : Z;       (* mHandle *)
  mInfoBuffer : list Z   (* mBuffer *)
}.

(** ** RequestReceiver.cpp *)
Inductive Task := ResProvisionTask (info : MsgForwardInfo) | SignalTask (info : MsgForwardInfo).

(** What is written back on the client's socket. *)
Inductive Reply := NoReply | HandleReply (handle : Z) | PropReply.

Definition type_in (ty : Z) (tys : list RequestType) : bool :=
  existsb (fun t => ty =? RequestType_val t) tys.

(** [pool] is the thread pool: null, or the answer of its [enqueueTask]. *)
Definition forwardMessage (pool : option bool) (buf : list Z) (handleGenerator : Z)
  : result (option Task * Reply * Z) :=
  '(moduleID, rest) ← deref_and_incr 1 buf;
  '(requestType, _) ← deref_and_incr 1 rest;
  if requestType =? RequestType_val REQ_PROP_GET then Ok (None, PropReply, handleGenerator) else
  '(handle, handleGenerator) ← generateUniqueHandle handleGenerator;
  if handle <? 0 then Ok (None, NoReply, handleGenerator) else
  match pool with
  | None => Ok (None, NoReply, handleGenerator)
  | Some accepted =>
    let info := mkInfo moduleID requestType handle buf in
    let task :=
      if type_in requestType [REQ_RESOURCE_TUNING; REQ_RESOURCE_RETUNING; REQ_RESOURCE_UNTUNING]
      then Some (ResProvisionTask info)
      else if type_in requestType [REQ_SIGNAL_TUNING; REQ_SIGNAL_UNTUNING; REQ_SIGNAL_RELAY]
      then Some (SignalTask info) else None in
    Ok (if (accepted : bool) then task else None,
        if type_in requestType [REQ_RESOURCE_TUNING; REQ_SIGNAL_TUNING]
        then HandleReply handle else NoReply, handleGenerator)
  end.

(** ** RequestHandler.cpp *)
Section Submit.
Context {R : Type} `{!ResourceConfigs R} (reg : R) `{HashOrder}.
Context (mode maxReq : Z) (lim : RateLimiter) (fs : FileSystem) (al : ClientAllocs) (junk : Z).

(** [p] is the block for the request, if the pool has one, [junkMsg] what it held, and
    [blocks] the blocks for its resources. *)
Definition submitResProvisionReqMsg (msg : option MsgForwardInfo) (p : option positive)
    (junkMsg : Message) (blocks : Z -> Blocks) (now : Z) (sv : Server) : result Server :=
  match msg, p with
  | None, _ => Ok sv
  | Some _, None => Ok sv
  | Some info, Some p =>
    '(rc, s, r) ← deserialize blocks (mInfoBuffer info) (sv_store sv) (Request_init junkMsg);
    let sv := sv_set_world (set_store s (sv_world sv)) sv in
    let put r := sv_set_requests (<[p := r]> (sv_requests sv)) sv in
    if RC_IS_NOTOK rc then cleanUp p (put r) else
    let r := if is_type r REQ_RESOURCE_TUNING
             then with_msg (setHandle (mInfoHandle info) (req_msg r)) r else r in
    processIncomingRequest reg mode maxReq lim fs al junk p false now (put r)
  end.
End Submit.

(** ** A server that can take requests *)

(** The invariant of the server between two messages; [tid] is the sending thread. *)
Record serving (tid : Z) (sv : Server) : Prop := {
  sg_active : active_ok (sv_store sv) (sv_requests sv) (sv_manager sv);
  sg_queue : queue_wf (sv_queue sv) /\ mElementCount (sv_queue sv) < max_s 32;
  sg_total : 0 <= mTotalRequestServed (sv_manager sv) < max_s 64;
  sg_cache : exists q, lru_rep (mUntuneCache (sv_manager sv)) q /\
    0 < mMaxSize (mUntuneCache (sv_manager sv));
  sg_cdm : cdm_wf (sv_clients sv);
  sg_tid : tid_ok tid (sv_clients sv);
  sg_target : target_ok (sv_target sv)
}.

(** The nodes [xs] are not in use by an active request. *)
Definition unused (xs : list positive) (sv : Server) : Prop :=
  forall h q st r l ys, mActiveRequests (sv_manager sv) !! h = Some (Some q, st) ->
    sv_requests sv !! q = Some r -> mResourceList r = Some l -> is_dll (st_links (sv_store sv)) l ys ->
    forall y, y ∈ ys -> y ∉ xs.

(** The state once the request [r] has been rebuilt at the new block [p]. *)
Definition arrived (p : positive) (r : Request) (s : Store) (sv : Server) : Server :=
  sv_set_requests (<[p := r]> (sv_requests sv)) (sv_set_world (set_store s (sv_world sv)) sv).

Lemma active_ok_frame xs p r s sv :
  active_ok (sv_store sv) (sv_requests sv) (sv_manager sv) -> unused xs sv ->
  sv_requests sv !! p = None -> frame xs (sv_store sv) s ->
  active_ok s (<[p := r]> (sv_requests sv)) (sv_manager sv).
Proof.
  intros Ha Hu Hp Hf h q st E. destruct (Ha h q st E) as (Hst & x & r0 & -> & Hx & l & ys & El & Hd & Hys).
  split; [done|]. exists x, r0. split; [done|].
  split; [rewrite lookup_insert_ne; [done|intros ->; congruence]|].
  exists l, ys. pose proof (Hu h x st r0 l ys E Hx El Hd) as Hout. split; [done|]. split.
  - eapply is_dll_frame; [|exact Hd]. intros y Hy. by apply Hf, Hout.
  - intros y Hy. destruct (Hf y (Hout y Hy)) as [-> _]. by apply Hys.
Qed.

Lemma arrived_ready p r s sv xs rs :
  serving (getClientTID (req_msg r)) sv -> unused xs sv -> sv_requests sv !! p = None ->
  frame xs (sv_store sv) s -> req_list s r xs -> node_data s xs rs ->
  ready p r xs rs (arrived p r s sv).
Proof.
  intros Hs Hu Hp Hf Hl Hd. destruct Hs as [Ha ? ? ? ? ? ?]. split; try done.
  - by apply lookup_insert_eq.
  - exact (active_ok_frame xs p r s sv Ha Hu Hp Hf).
  - intros h st E. destruct (Ha h _ st E) as (_ & x & r0 & [= ->] & Hx & _). cbn in *. congruence.
Qed.

Lemma forwardMessage_tune buf g :
  in_s 64 g -> 0 <= g < max_s 64 -> (2 <= length buf)%nat ->
  take 2 buf = le_bytes 1 MOD_RESTUNE ++ le_bytes 1 (RequestType_val REQ_RESOURCE_TUNING) ->
  forwardMessage (Some true) buf g =
  Ok (Some (ResProvisionTask (mkInfo MOD_RESTUNE (RequestType_val REQ_RESOURCE_TUNING) (g + 1) buf)),
      HandleReply (g + 1), g + 1).
Proof.
  intros Hg Hr Hlen Ht. unfold forwardMessage.
  assert (exists rest, buf = le_bytes 1 MOD_RESTUNE ++ le_bytes 1 (RequestType_val REQ_RESOURCE_TUNING) ++ rest)
    as [rest ->].
  { exists (drop 2 buf). rewrite app_assoc, <- Ht. by rewrite take_drop. }
  rewrite (deref_le 1) by lia. cbn [mbind result_bind].
  rewrite (deref_le_id 1) by (lia || apply type_byte). cbn [mbind result_bind].
  cbn [RequestType_val Z.eqb]. rewrite generateUniqueHandle_spec by done.
  replace (g <? max_s 64) with true by lia. cbn [mbind result_bind].
  by replace (g + 1 <? 0) with false by lia.
Qed.

(** ** Properties *)

(** C5: end to end.  A tune request that the library accepts travels as one message; the
    server answers with the next handle and hands the message to the thread pool; and
    the pool's task rebuilds the request exactly as it was sent, under that handle, and
    without a fault either queues it and records it as active, or frees it with all its
    nodes.  This holds in any serving state, when the blocks handed out are new; the
    resources in effect do not change before the consumer runs. *)
Theorem client_request_accounted {R : Type} `{!ResourceConfigs R} (reg : R) `{HashOrder}
    (mode maxReq : Z) (lim : RateLimiter) (fs : FileSystem) (al : ClientAllocs) (junk : Z)
    (c : ClientMgr) (duration properties : Z) (rvs : list (SysResource * list Z))
    (batch : FlatBuffEncoder) (node : Z -> positive) (p : positive) (junkMsg : Message)
    (g now level : Z) (sv : Server) :
  let xs := nodes_of node (Z.of_nat (length rvs)) in
  client_typed c -> in_s 64 duration -> in_s 32 properties -> Forall sys_typed rvs ->
  tune_accepted duration properties rvs -> distinct node ->
  serving (getClientTid c) sv -> unused xs sv -> sv_requests sv !! p = None ->
  0 <= g < max_s 64 -> clock now -> isRootProcess fs (getClientPid c) = Ok level ->
  exists buf info, tuneResources c duration properties (Z.of_nat (length rvs)) (Some rvs.*1) batch
      = Ok (Some buf) /\
    forwardMessage (Some true) buf g = Ok (Some (ResProvisionTask info), HandleReply (g + 1), g + 1) /\
    exists s r rs sv', submitResProvisionReqMsg reg mode maxReq lim fs al junk (Some info) (Some p)
        junkMsg (ample node) now sv = Ok sv' /\
      req_msg r = mkMessage (g + 1) duration properties (getClientPid c) (getClientTid c)
                    (RequestType_val REQ_RESOURCE_TUNING) /\
      req_list s r xs /\ node_data s xs rs /\ Forall2 delivered rvs rs /\
      frame xs (sv_store sv) s /\ intake_outcome p r xs (arrived p r s sv) sv'.
Proof.
  intros xs Hc Hd Hp Ht Hacc Hdis Hs Hu Hfresh Hg Hnow Hroot.
  assert (Forall (fun rv => holds rv.1 rv.2) rvs) as Hh.
  { eapply Forall_impl; [exact Ht|]. by intros ? (_ & _ & _ & _ & _ & ?). }
  exists (tune_message c duration properties rvs). eexists.
  split; [by rewrite tuneResources_message, decide_True|].
  split; [apply forwardMessage_tune; [unfold in_s, max_s in *; lia|done| |done]|].
  { rewrite tune_message_length by done. change (Z.to_nat REQ_BUFFER_SIZE) with 580%nat. lia. }
  destruct (decode_tune c duration properties rvs node (sv_store sv) junkMsg Hc Hd Hp Ht Hdis Hacc)
    as (s & r0 & rs & E & Em & Hl & Hdat & Hdel & Hf).
  set (r := with_msg (setHandle (g + 1) (req_msg r0)) r0).
  assert (req_msg r = mkMessage (g + 1) duration properties (getClientPid c) (getClientTid c)
            (RequestType_val REQ_RESOURCE_TUNING)) as Emr by (unfold r; cbn; by rewrite Em).
  assert (is_type r0 REQ_RESOURCE_TUNING = true) as Hty by (unfold is_type; by rewrite Em).
  assert (ready p r xs rs (arrived p r s sv)) as Hr.
  { apply arrived_ready; try done. by rewrite Emr. }
  destruct (intake_tune reg mode maxReq lim fs al junk p r xs rs (arrived p r s sv) false now level)
    as (sv' & Esv & Hout); [done|done|by rewrite Emr|by unfold is_type; rewrite Emr|done|].
  exists s, r, rs, sv'. split_and!; try done.
  unfold submitResProvisionReqMsg. cbn [mInfoBuffer mInfoHandle]. rewrite E. cbn [mbind result_bind].
  cbn [RC_IS_NOTOK RC_IS_OK negb]. rewrite Hty. exact Esv.
Qed.

(** A request for one known resource: it is queued. *)
Lemma client_request_accounted_witness :
  let reg := one_resource HIGHER_BETTER APPLY_GLOBAL in
  let order := sorted_hash_order in
  let fs := fs_with {["/proc/100/status"%string := "Name: x"%string]} in
  let sv := mkServer (mkWorld (mkStore ∅ ∅ ∅) (CocoTable_init reg [] [] 8 2 0) []) ∅
              ClientDataManager_init RequestManager_init OrderedQueue_init TargetRegistry_init in
  exists buf info sv',
    tuneResources sample_client (-1) 1 1 (Some [mkSys 196615 0 0 1 (Value 10)]) FlatBuffEncoder_init
      = Ok (Some buf) /\
    forwardMessage (Some true) buf 5 = Ok (Some (ResProvisionTask info), HandleReply 6, 6) /\
    submitResProvisionReqMsg reg MODE_RESUME 60 default_limiter fs all_blocks 0 (Some info) (Some 9%positive)
      zero_msg (ample sample_node) 1000 sv = Ok sv' /\
    map snd (mOrderedQueue (sv_queue sv')) = [QRequest 9].
Proof.
  intros reg order fs sv.
  destruct (client_request_accounted reg MODE_RESUME 60 default_limiter fs all_blocks 0 sample_client
    (-1) 1 [(mkSys 196615 0 0 1 (Value 10), [10])] FlatBuffEncoder_init sample_node 9 zero_msg 5 1000 1 sv)
    as (buf & info & E1 & E2 & s & r & rs & sv' & E3 & _).
  - exact sample_client_typed.
  - unfold in_s. lia.
  - unfold in_s. lia.
  - repeat constructor; cbn; try (unfold in_u, in_s; lia). eexists; split; reflexivity.
  - unfold tune_accepted. split_and!; try (cbn; lia).
    + repeat constructor; unfold sys_valid; cbn; lia.
    + vm_compute. lia.
  - exact sample_node_distinct.
  - split; try done. exists []. split; [split_and!; [done|done|constructor]|reflexivity].
  - intros h q st r0 l ys H. done.
  - done.
  - unfold max_s. lia.
  - unfold clock. lia.
  - vm_compute. reflexivity.
  - exists buf, info, sv'. split_and!; [exact E1|exact E2|exact E3|].
    vm_compute in E1. injection E1 as <-. vm_compute in E2. injection E2 as <-.
    vm_compute in E3. by injection E3 as <-.
Defined.
