(* ===== verification/SignalHandler.v ===== *)
(** [resource-tuner/signals/SignalHandler.cpp]: the admission of signals, their expansion
    into requests, and the signals acquired inside the server.

    A request made from a signal is handed to the request handler of Server.v.  The
    blocks of signals and of their vectors of arguments belong to the memory pool; the
    state counts the vectors in use. *)
From S2P Require Import Prelude UrmTypes Message Resource DLManager AuxRoutines TargetRegistry.
From S2P Require Import ResourceRegistry Request RequestHandler Double CocoTable ClientDataManager OrderedQueue RequestManager RateLimiter.
From S2P Require Import Server Wire Pipeline UrmPlatformAL Signal SignalRegistry ExtFeatures.
Open Scope list_scope.
Open Scope Z_scope.

Record SigServer := mkSigServer {
  ss_server : Server;
  ss_vectors : Z      (* blocks of [std::vector<uint32_t>] in use *)
}.

Definition ss_set_server (sv : Server) (st : SigServer) : SigServer := mkSigServer sv (ss_vectors st).

(** ** Placeholders *)

(** The loop of [createResourceTuningRequest] over the values of a copied resource:
    [None] when it returns null, otherwise the resource and the next index in the
    arguments.  [n] counts the values left. *)
Fixpoint fill_placeholders (n : nat) (j : Z) (signal : Signal) (listIndex : Z) (resource : Resource)
  : result (option (Resource * Z)) :=
  match n with
  | O => Ok (Some (resource, listIndex))
  | S n =>
    v ← getValueAt resource j;
    if negb (v =? NSIG_PLACEHOLDER) then fill_placeholders n (j + 1) signal listIndex resource else
    args ← getListArgs signal;
    match args with
    | None => Ok None
    | Some _ =>
      if (listIndex >=? 0) && (listIndex <? getNumArgs signal) then
        a ← getListArgAt listIndex signal;
        '(_, resource) ← setValueAt j (wrap_s 32 a) resource;
        fill_placeholders n (j + 1) signal (listIndex + 1) resource
      else Ok None
    end
  end.

(** The same loop in [createTuneRequestFromSignal]: an argument that is missing leaves
    the placeholder. *)
Fixpoint fill_available (n : nat) (j : Z) (numArgs : Z) (args : option (list Z)) (listIndex : Z)
    (resource : Resource) : result (option Resource) :=
  match n with
  | O => Ok (Some resource)
  | S n =>
    v ← getValueAt resource j;
    if negb (v =? NSIG_PLACEHOLDER) then fill_available n (j + 1) numArgs args listIndex resource else
    match args with
    | None => Ok None
    | Some l =>
      if (listIndex >=? 0) && (listIndex <? numArgs) then
        a ← of_option OutOfRange (l !! Z.to_nat listIndex);
        '(_, resource) ← setValueAt j (wrap_s 32 a) resource;
        fill_available n (j + 1) numArgs args (listIndex + 1) resource
      else fill_available n (j + 1) numArgs args listIndex resource
    end
  end.

(** One resource of a request: a copy is filled by [fill] and added through a new node.
    [None] when the function returns null: a block is missing, or [fill] gives up. *)
Definition add_copy {A} (fill : Resource -> result (option (Resource * A))) (b : Blocks)
    (src : Resource) (s : Store) (r : Request) : result (option (Store * Request * A)) :=
  if negb (bk_resource b) then Ok None else
  resource ← Resource_copy (bk_values b) src;
  filled ← fill resource;
  match filled with
  | None => Ok None
  | Some (resource, a) =>
    match bk_node b with
    | None => Ok None
    | Some x =>
      '(s, r) ← Request.addResource (bk_list b) (Some x) (set_data x resource (new_node x s)) r;
      Ok (Some (s, r, a))
    end
  end.

Definition with_unit (x : result (option Resource)) : result (option (Resource * unit)) :=
  match x with
  | Ok (Some res) => Ok (Some (res, tt))
  | Ok None => Ok None
  | Fault f => Fault f
  end.

(** The loop over the resources of the signal; [i] numbers the blocks. *)
Fixpoint expand (blocks : Z -> Blocks) (i : Z) (locks : list (option Resource)) (signal : Signal)
    (listIndex : Z) (s : Store) (r : Request) : result (option (Store * Request)) :=
  match locks with
  | [] => Ok (Some (s, r))
  | None :: locks => expand blocks i locks signal listIndex s r
  | Some src :: locks =>
    o ← add_copy (fun res => fill_placeholders (Z.to_nat (getValuesCount res)) 0 signal listIndex res)
          (blocks i) src s r;
    match o with
    | None => Ok None
    | Some (s, r, listIndex) => expand blocks (i + 1) locks signal listIndex s r
    end
  end.

Fixpoint expand_available (blocks : Z -> Blocks) (i : Z) (locks : list (option Resource))
    (numArgs : Z) (args : option (list Z)) (s : Store) (r : Request)
  : result (option (Store * Request)) :=
  match locks with
  | [] => Ok (Some (s, r))
  | None :: locks => expand_available blocks i locks numArgs args s r
  | Some src :: locks =>
    o ← add_copy (fun res => with_unit (fill_available (Z.to_nat (getValuesCount res)) 0 numArgs args 0 res))
          (blocks i) src s r;
    match o with
    | None => Ok None
    | Some (s, r, _) => expand_available blocks (i + 1) locks numArgs args s r
    end
  end.

(** ** SignalHandler.cpp *)
Definition getRequestPriority (clientPermissions reqSpecifiedPriority : Z) : Z :=
  if clientPermissions =? PERMISSION_SYSTEM then
    if reqSpecifiedPriority =? REQ_PRIORITY_HIGH then SYSTEM_HIGH
    else if reqSpecifiedPriority =? REQ_PRIORITY_LOW then SYSTEM_LOW
    else -1
  else if clientPermissions =? PERMISSION_THIRD_PARTY then
    if reqSpecifiedPriority =? REQ_PRIORITY_HIGH then THIRD_PARTY_HIGH
    else if reqSpecifiedPriority =? REQ_PRIORITY_LOW then THIRD_PARTY_LOW
    else -1
  else -1.

Section SignalHandler.
(** The registered signals, and the features with what their libraries define. *)
Context (sigs : SignalRegistry) (features : ExtFeaturesRegistry) (mapper : SignalExtFeatureMapper)
        (dlsym : String.string -> String.string -> option bool).
(** The parameters of the request handler. *)
Context {R : Type} `{!ResourceConfigs R} (reg : R) `{HashOrder}.
Context (mode maxReq : Z) (lim : RateLimiter) (fs : FileSystem) (al : ClientAllocs) (junk : Z).

Definition VerifyIncomingRequest (signal : Signal) (c : ClientDataManager) : result (bool * Signal) :=
  '(info, _) ← getSignalConfigByIdAndType (getSignalCode signal) (getSignalType signal) 0 None sigs;
  match info with
  | None => Ok (false, signal)
  | Some info =>
    let clientPermissions := getClientLevelByID (getClientPID (sg_msg signal)) c in
    if clientPermissions =? -1 then Ok (false, signal) else
    let reqSpecifiedPriority := getPriority (sg_msg signal) in
    if (reqSpecifiedPriority >? REQ_PRIORITY_LOW) || (reqSpecifiedPriority <? REQ_PRIORITY_HIGH)
    then Ok (false, signal) else
    let allowedPriority := getRequestPriority clientPermissions reqSpecifiedPriority in
    if allowedPriority =? -1 then Ok (false, signal) else
    let signal := with_sg_msg (setPriority allowedPriority (sg_msg signal)) signal in
    permissions ← deref (SignalRegistry.mPermissions info);
    if negb (existsb (fun p => clientPermissions =? p) permissions) then Ok (false, signal) else
    Ok (true, if getDuration (sg_msg signal) =? 0
              then with_sg_msg (setDuration (mTimeout info) (sg_msg signal)) signal else signal)
  end.

(** [p] is the block of the request, if there is one, and [junkMsg] what it held. *)
Definition createResourceTuningRequest (signal : Signal) (p : option positive) (junkMsg : Message)
    (blocks : Z -> Blocks) (s : Store) : result (option (positive * Request * Store)) :=
  '(info, _) ← getSignalConfigByIdAndType (getSignalCode signal) (getSignalType signal) 0 None sigs;
  match info, p with
  | Some info, Some p =>
    let m := sg_msg signal in
    let request := setSource (CONSTRUCT_SIG_CODE (getSignalCode signal) (getSignalType signal))
      (with_msg (setClientTID (getClientTID m) (setClientPID (getClientPID m)
        (setProperties (getProperties m) (setDuration (getDuration m) (setHandle (getHandle m)
          (setRequestType (RequestType_val REQ_RESOURCE_TUNING) (Message_init junkMsg)))))))
        (Request_init junkMsg)) in
    signalLocks ← deref (mSignalResources info);
    o ← expand blocks 0 signalLocks signal 0 s request;
    Ok (match o with Some (s, request) => Some (p, request, s) | None => None end)
  | _, _ => Ok None
  end.

Definition createResourceUntuneRequest (signal : Signal) (p : option positive) (junkMsg : Message)
  : option (positive * Request) :=
  match p with
  | None => None
  | Some p =>
    let m := sg_msg signal in
    Some (p, with_msg (setClientTID (getClientTID m) (setClientPID (getClientPID m)
        (setProperties (getProperties m) (setDuration (-1) (setHandle (getHandle m)
          (setRequestType (RequestType_val REQ_RESOURCE_UNTUNING) (Message_init junkMsg)))))))
        (Request_init junkMsg))
  end.

(** The signal is freed, with its vector. *)
Definition drop_signal (signal : Signal) (st : SigServer) : result SigServer :=
  freed ← cleanUpSignal signal;
  Ok (mkSigServer (ss_server st) (ss_vectors st - i8_of_bool freed)).

(** A request built at the block [p] enters the request handler. *)
Definition submit (p : positive) (r : Request) (s : Store) (isValidated : bool) (now : Z) (st : SigServer)
  : result SigServer :=
  let sv := ss_server st in
  sv ← submitResProvisionRequest reg mode maxReq lim fs al junk p isValidated now
         (sv_set_requests (<[p := r]> (sv_requests sv)) (sv_set_world (set_store s (sv_world sv)) sv));
  Ok (ss_set_server sv st).

Definition is_sig_type (signal : Signal) (ty : RequestType) : bool :=
  getRequestType (sg_msg signal) =? RequestType_val ty.

(** The client checks: [None] in the second component when the signal is dropped. *)
Definition client_checks (signal : Signal) (now : Z) (st : SigServer) : result (SigServer * bool) :=
  let sv := ss_server st in
  let pid := getClientPID (sg_msg signal) in
  let tid := getClientTID (sg_msg signal) in
  if negb (isGlobalRateLimitHonored maxReq (sv_manager sv))
  then st ← drop_signal signal st; Ok (st, false) else
  '(ok, c) ←
    (if clientExists pid tid (sv_clients sv) then Ok (true, sv_clients sv) else
     if is_sig_type signal REQ_SIGNAL_RELAY || is_sig_type signal REQ_SIGNAL_TUNING
     then createNewClient fs al junk pid tid (sv_clients sv) else Ok (false, sv_clients sv));
  let st := ss_set_server (sv_set_clients c sv) st in
  if negb ok then st ← drop_signal signal st; Ok (st, false) else
  '(ok, c) ← isRateLimitHonored lim now tid c;
  let st := ss_set_server (sv_set_clients c sv) st in
  if negb ok then st ← drop_signal signal st; Ok (st, false) else Ok (st, true).

(** [now] is the time of the rate check here, [now'] of the one in the request handler.
    The calls made into libraries are returned. *)
Definition processIncomingRequest (signal : Signal) (p : option positive) (junkMsg : Message)
    (blocks : Z -> Blocks) (now now' : Z) (st : SigServer) : result (SigServer * list LibCall) :=
  '(st, go) ← client_checks signal now st;
  if negb go then Ok (st, []) else
  if is_sig_type signal REQ_SIGNAL_TUNING then
    '(ok, signal) ← VerifyIncomingRequest signal (sv_clients (ss_server st));
    if negb ok then st ← drop_signal signal st; Ok (st, []) else
    o ← createResourceTuningRequest signal p junkMsg blocks (sv_store (ss_server st));
    match o with
    | None => Ok (st, [])
    | Some (p, r, s) => st ← submit p r s false now' st; Ok (st, [])
    end
  else if is_sig_type signal REQ_SIGNAL_UNTUNING then
    match createResourceUntuneRequest signal p junkMsg with
    | None => Ok (st, [])
    | Some (p, r) => st ← submit p r (sv_store (ss_server st)) true now' st; Ok (st, [])
    end
  else if is_sig_type signal REQ_SIGNAL_RELAY then
    calls ← relay dlsym signal features mapper;
    st ← drop_signal signal st; Ok (st, calls)
  else Ok (st, []).

(** [blk]: a block for the signal; [vec], [heap]: memory for its arguments. *)
Definition submitSignalRequest (msg : option MsgForwardInfo) (blk vec heap : bool)
    (p : option positive) (junkMsg : Message) (blocks : Z -> Blocks) (now now' : Z) (st : SigServer)
  : result (ErrCode * SigServer * list LibCall) :=
  match msg with
  | None => Ok (RC_BAD_ARG, st, [])
  | Some info =>
    if negb blk then Ok (RC_SUCCESS, st, []) else
    '(rc, signal) ← Signal.deserialize vec heap (mInfoBuffer info) (Signal_init junkMsg);
    let st := mkSigServer (ss_server st)
                (ss_vectors st + i8_of_bool (bool_decide (is_Some (mListArgs signal)))) in
    if RC_IS_NOTOK rc then st ← drop_signal signal st; Ok (RC_SUCCESS, st, []) else
    let signal := if is_sig_type signal REQ_SIGNAL_TUNING
                  then with_sg_msg (setHandle (mInfoHandle info) (sg_msg signal)) signal else signal in
    '(st, calls) ← processIncomingRequest signal p junkMsg blocks now now' st;
    Ok (RC_SUCCESS, st, calls)
  end.

(** The request of a signal acquired inside the server.  [handleGenerator] is the counter of
    [generateUniqueHandle]; the boolean says whether the caller's [filterArgs] have been
    freed, and the last component is the counter. *)
Definition createTuneRequestFromSignal (sigId sigType incomingPID incomingTID numFilterArgs : Z)
    (filterArgs : option (list Z)) (numArgs : Z) (args : option (list Z)) (handleGenerator : Z)
    (p : option positive) (junkMsg : Message) (blocks : Z -> Blocks) (s : Store)
  : result (option (positive * Request * Store) * bool * Z) :=
  '(info, freed) ← getSignalConfigByIdAndType sigId sigType numFilterArgs filterArgs sigs;
  match info, p with
  | Some info, Some p =>
    '(handle, handleGenerator) ← generateUniqueHandle handleGenerator;
    let request := with_msg (setClientTID incomingTID (setClientPID incomingPID
        (setProperties SYSTEM_HIGH (setDuration (mTimeout info)
          (setRequestType (RequestType_val REQ_RESOURCE_TUNING) (setHandle handle (Message_init junkMsg)))))))
        (Request_init junkMsg) in
    signalLocks ← deref (mSignalResources info);
    o ← expand_available blocks 0 signalLocks numArgs args s request;
    Ok (match o with Some (s, request) => Some (p, request, s) | None => None end, freed, handleGenerator)
  | _, _ => Ok (None, freed, handleGenerator)
  end.

Definition acquireSignal (sigId sigType incomingPID incomingTID numFilterArgs : Z)
    (filterArgs : option (list Z)) (numArgs : Z) (args : option (list Z)) (handleGenerator : Z)
    (p : option positive) (junkMsg : Message) (blocks : Z -> Blocks) (now : Z) (st : SigServer)
  : result (Z * Z * SigServer) :=
  '(o, _, generator) ← createTuneRequestFromSignal sigId sigType incomingPID incomingTID numFilterArgs
      filterArgs numArgs args handleGenerator p junkMsg blocks (sv_store (ss_server st));
  match o with
  | None => Ok (-1, generator, st)
  | Some (p, r, s) =>
    if getResourcesCount r >? 0 then
      st ← submit p r s false now st; Ok (getHandle (req_msg r), generator, st)
    else
      let sv := ss_server st in
      sv ← cleanUp p (sv_set_requests (<[p := r]> (sv_requests sv))
                        (sv_set_world (set_store s (sv_world sv)) sv));
      Ok (-1, generator, ss_set_server sv st)
  end.
End SignalHandler.

(** ** Facts *)

(** The values of a resource. *)
Definition res_values (r : Resource) : list Z :=
  (fun i => value_at r (Z.of_nat i)) <$> seq 0 (Z.to_nat (mNumValues r)).

(** The specification of the expansion: each placeholder takes the next argument. *)
Fixpoint subst (vs args : list Z) : option (list Z * list Z) :=
  match vs with
  | [] => Some ([], args)
  | v :: vs =>
    if v =? NSIG_PLACEHOLDER then
      match args with
      | [] => None
      | a :: args => match subst vs args with Some (ws, rest) => Some (wrap_s 32 a :: ws, rest) | None => None end
      end
    else match subst vs args with Some (ws, rest) => Some (v :: ws, rest) | None => None end
  end.

Fixpoint subst_all (vss : list (list Z)) (args : list Z) : option (list (list Z)) :=
  match vss with
  | [] => Some []
  | vs :: vss =>
    match subst vs args with
    | None => None
    | Some (ws, rest) => (fun wss => ws :: wss) <$> subst_all vss rest
    end
  end.

Lemma res_values_length r : length (res_values r) = Z.to_nat (mNumValues r).
Proof. unfold res_values. by rewrite length_fmap, length_seq. Qed.

Lemma res_values_lookup r i : (i < Z.to_nat (mNumValues r))%nat ->
  res_values r !! i = Some (value_at r (Z.of_nat i)).
Proof. intros Hi. unfold res_values. rewrite list_lookup_fmap, lookup_seq_lt by done. done. Qed.

Lemma setValueAt_values r i v : res_ok r -> 0 <= i < mNumValues r ->
  exists r', setValueAt i v r = Ok (RC_SUCCESS, r') /\ res_ok r' /\ r' = set_value (mResValue r') r /\
    res_values r' = <[Z.to_nat i := v]> (res_values r).
Proof.
  intros Hok Hi. destruct (setValueAt_spec r i v (res_ok_alloc _ Hok) Hi) as (r' & E & Ha & Er & Hg).
  assert (mNumValues r' = mNumValues r) as En by by rewrite Er.
  assert (res_ok r') as Hok'.
  { apply res_ok_intro; rewrite ?En; [rewrite Er; apply Hok..|apply Hok|done|].
    intros j Hj. rewrite Hg by done. case_decide; [done|]. by rewrite getValueAt_ok. }
  exists r'. split_and!; [done|done|done|]. apply list_eq_same_length with (Z.to_nat (mNumValues r)).
  { by rewrite length_insert, res_values_length. } { by rewrite res_values_length, En. }
  intros k x y Hk Hx Hy. rewrite res_values_lookup in Hx by lia. injection Hx as <-.
  specialize (Hg (Z.of_nat k) ltac:(lia)). rewrite getValueAt_ok in Hg by done.
  destruct (decide (i = Z.of_nat k)) as [->|Hne].
  - rewrite Nat2Z.id, list_lookup_insert_eq in Hy by (rewrite res_values_length; lia). congruence.
  - rewrite list_lookup_insert_ne, res_values_lookup in Hy by lia.
    rewrite getValueAt_ok in Hg by done. congruence.
Qed.

(** The signal carries the arguments [args]. *)
Definition has_args (signal : Signal) (args : list Z) : Prop :=
  mListArgs signal = Some (Some args) /\ mNumArgs signal = Z.of_nat (length args).

Lemma fill_placeholders_spec signal args : has_args signal args -> forall n j idx res,
  res_ok res -> 0 <= j -> j + Z.of_nat n = mNumValues res -> 0 <= idx <= Z.of_nat (length args) ->
  match subst (drop (Z.to_nat j) (res_values res)) (drop (Z.to_nat idx) args) with
  | None => fill_placeholders n j signal idx res = Ok None
  | Some (ws, rest) =>
    exists res', fill_placeholders n j signal idx res
                 = Ok (Some (res', Z.of_nat (length args - length rest))) /\
      (length rest <= length args)%nat /\ rest = drop (length args - length rest) args /\
      res_ok res' /\ res' = set_value (mResValue res') res /\
      res_values res' = take (Z.to_nat j) (res_values res) ++ ws
  end.
Proof.
  intros [Ha Hn]. induction n as [|n IH]; intros j idx res Hok Hj Hjn Hi.
  - rewrite (drop_ge (res_values res)) by (rewrite res_values_length; lia). cbn [subst fill_placeholders].
    exists res. rewrite length_drop.
    replace (length args - (length args - Z.to_nat idx))%nat with (Z.to_nat idx) by lia.
    rewrite Z2Nat.id, take_ge, app_nil_r by (rewrite ?res_values_length; lia).
    split_and!; [done|lia|done|done|by destruct res|done].
  - assert (res_values res !! Z.to_nat j = Some (value_at res j)) as Hv
      by (rewrite res_values_lookup by lia; by rewrite Z2Nat.id by lia).
    rewrite (drop_S _ _ _ Hv). cbn [subst fill_placeholders].
    rewrite getValueAt_ok by done. cbn [mbind result_bind].
    assert (forall (l : list Z) w ws, (Z.to_nat j < length l)%nat ->
      take (S (Z.to_nat j)) (<[Z.to_nat j := w]> l) ++ ws = take (Z.to_nat j) l ++ w :: ws) as Htake.
    { intros l w ws Hl. rewrite (take_S_r _ _ w) by by apply list_lookup_insert_eq.
      rewrite take_insert_ge by lia. by rewrite <- app_assoc. }
    destruct (value_at res j =? NSIG_PLACEHOLDER) eqn:Ep; cbn [negb].
    + unfold getListArgs, getListArgAt, getNumArgs, getListArgs. rewrite Ha, Hn.
      cbn [of_option mbind result_bind].
      destruct (args !! Z.to_nat idx) as [a|] eqn:El.
      2:{ apply lookup_ge_None in El. rewrite drop_ge by lia.
          replace (idx <? Z.of_nat (length args)) with false by lia. by rewrite andb_false_r. }
      pose proof (lookup_lt_Some _ _ _ El). rewrite (drop_S _ _ _ El).
      replace ((idx >=? 0) && (idx <? Z.of_nat (length args))) with true by lia.
      cbn [deref mbind result_bind]. replace (idx <? 0) with false by lia.
      rewrite El. cbn [of_option mbind result_bind].
      destruct (setValueAt_values res j (wrap_s 32 a) Hok ltac:(lia)) as (res1 & -> & Hok1 & E1 & Hv1).
      cbn [mbind result_bind].
      specialize (IH (j + 1) (idx + 1) res1 Hok1 ltac:(lia) ltac:(rewrite E1; cbn; lia) ltac:(lia)).
      replace (Z.to_nat (idx + 1)) with (S (Z.to_nat idx)) in IH by lia.
      replace (Z.to_nat (j + 1)) with (S (Z.to_nat j)) in IH by lia.
      rewrite Hv1, drop_insert_lt in IH by lia.
      destruct (subst _ _) as [[ws rest]|]; [|done].
      destruct IH as (res' & -> & Hle & Hr & Hok' & E' & Hv'). exists res'. split_and!; try done.
      * rewrite E', E1. done.
      * rewrite Hv'. apply Htake. rewrite res_values_length. lia.
    + specialize (IH (j + 1) idx res Hok ltac:(lia) ltac:(lia) Hi).
      replace (Z.to_nat (j + 1)) with (S (Z.to_nat j)) in IH by lia.
      destruct (subst _ _) as [[ws rest]|]; [|done].
      destruct IH as (res' & -> & Hle & Hr & Hok' & E' & Hv'). exists res'. split_and!; try done.
      rewrite Hv', <- (Htake _ (value_at res j)) by (rewrite res_values_length; lia).
      by rewrite (list_insert_id _ _ _ Hv).
Qed.

(** A request's resource [res] is the signal's [src] with the values [ws]. *)
Definition expanded (src res : Resource) (ws : list Z) : Prop :=
  res_ok res /\ mResCode res = mResCode src /\ mResInfo res = mResInfo src /\
  mOptionalInfo res = mOptionalInfo src /\ mResAction res = mResAction src /\
  mNumValues res = mNumValues src /\ res_values res = ws.

Lemma Resource_copy_values src : res_ok src ->
  exists dst, Resource_copy true src = Ok dst /\ expanded src dst (res_values src).
Proof.
  intros Hok. destruct (Resource_copy_correct src Hok) as [(dst & E & Hd & H1 & H2 & H3 & H4 & H5 & Hv) _].
  exists dst. split; [done|]. split_and!; try done. unfold res_values. rewrite H4.
  apply list_fmap_ext. intros i k Hk%lookup_seq.
  specialize (Hv (Z.of_nat k) ltac:(lia)). rewrite !getValueAt_ok in Hv by done. congruence.
Qed.

Lemma expand_spec node signal args : distinct node -> has_args signal args ->
  forall locks i idx s r rs srcs wss,
  Forall (fun o => forall src, o = Some src -> res_ok src) locks ->
  0 <= i -> 0 <= idx <= Z.of_nat (length args) -> req_list s r (nodes_of node i) ->
  Forall2 (fun y res => st_data s !! y = Some res) (nodes_of node i) rs ->
  Forall3 expanded srcs rs wss ->
  match subst_all (res_values <$> omap id locks) (drop (Z.to_nat idx) args) with
  | None => expand (ample node) i locks signal idx s r = Ok None
  | Some wss' =>
    exists s' r' rs', expand (ample node) i locks signal idx s r = Ok (Some (s', r')) /\
      req_list s' r' (nodes_of node (i + Z.of_nat (length (omap id locks)))) /\ req_msg r' = req_msg r /\
      Forall2 (fun y res => st_data s' !! y = Some res)
        (nodes_of node (i + Z.of_nat (length (omap id locks)))) rs' /\
      Forall3 expanded (srcs ++ omap id locks) rs' (wss ++ wss') /\
      frame (nodes_of node (i + Z.of_nat (length (omap id locks)))) s s'
  end.
Proof.
  intros Hdist Hargs. induction locks as [|[src|] locks IH]; intros i idx s r rs srcs wss Hok Hi Hidx Hl Hd Hx;
    cbn [omap list_omap id fmap list_fmap subst_all expand length].
  - exists s, r, rs. rewrite Z.add_0_r, !app_nil_r. by split_and!.
  - apply Forall_cons in Hok as [Hsrc Hok]. specialize (Hsrc src eq_refl).
    unfold add_copy. cbn [ample bk_resource bk_values bk_node bk_list negb].
    destruct (Resource_copy_values src Hsrc) as (dst & -> & Hdst & X1 & X2 & X3 & X4 & X5 & Xv).
    cbn [mbind result_bind]. pose proof (ok_count _ Hdst).
    pose proof (fill_placeholders_spec signal args Hargs (Z.to_nat (getValuesCount dst)) 0 idx dst
      Hdst ltac:(lia) ltac:(unfold getValuesCount; lia) Hidx) as Hf.
    rewrite drop_0, take_0, Xv in Hf. destruct (subst (res_values src) _) as [[ws rest]|].
    2:{ by rewrite Hf. }
    destruct Hf as (res & -> & Hle & Hrest & Hres & Eres & Hvals). cbn [mbind result_bind].
    destruct (add_new (node i) res s r _ rs Hl (nodes_of_fresh node i Hdist Hi) Hd)
      as (s1 & r1 & -> & Hl1 & Em & Hd1 & Hfr1). cbn [mbind result_bind].
    rewrite <- nodes_of_S in Hl1, Hd1, Hfr1 by done.
    specialize (IH (i + 1) (Z.of_nat (length args - length rest)) s1 r1 (rs ++ [res]) (srcs ++ [src]) (wss ++ [ws])
      Hok ltac:(lia) ltac:(lia) Hl1 Hd1).
    rewrite Nat2Z.id, <- Hrest in IH.
    replace (i + 1 + Z.of_nat (length (omap id locks))) with (i + Z.of_nat (S (length (omap id locks)))) in IH by lia.
    assert (Forall3 expanded (srcs ++ [src]) (rs ++ [res]) (wss ++ [ws])) as Hx1.
    { apply Forall3_app; [done|]. constructor; [|constructor]. rewrite Eres in *.
      split_and!; try done. }
    specialize (IH Hx1). destruct (subst_all _ rest) as [wss'|]; cbn [fmap option_fmap option_map]; [|done].
    destruct IH as (s' & r' & rs' & -> & Hl' & Em' & Hd' & Hx' & Hfr'). exists s', r', rs'.
    rewrite <- !app_assoc in Hx'. split_and!; [done|done|congruence|done|done|].
    eapply frame_trans; [|done]. eapply frame_weaken; [|done]. apply nodes_of_mono. lia.
  - apply Forall_cons in Hok as [_ Hok]. by apply (IH i idx s r rs srcs wss).
Qed.

(** ** Properties *)

(** C14: the expansion of a signal.  When a signal is configured and memory is available,
    the request made from it has the resources of the signal in their order, each with its
    code, cluster and core, and its values, in which each placeholder has taken the next
    argument of the client, across all the resources; the request carries the handle, the
    duration, the properties and the client of the signal.  When
    the arguments do not suffice, no request is made; arguments in excess are ignored. *)
Theorem signal_expansion (sigs : SignalRegistry) (node : Z -> positive) (signal : Signal) (args : list Z)
    (info : SignalInfo) (locks : list (option Resource)) (freed : bool) (p : positive) (junk : Message)
    (s : Store) :
  getSignalConfigByIdAndType (getSignalCode signal) (getSignalType signal) 0 None sigs
    = Ok (Some info, freed) ->
  mSignalResources info = Some locks ->
  Forall (fun o => forall src, o = Some src -> res_ok src) locks ->
  has_args signal args -> distinct node ->
  let made := createResourceTuningRequest sigs signal (Some p) junk (ample node) s in
  match subst_all (res_values <$> omap id locks) args with
  | None => made = Ok None
  | Some wss =>
    exists r s' rs, made = Ok (Some (p, r, s')) /\
      req_list s' r (nodes_of node (Z.of_nat (length (omap id locks)))) /\
      Forall2 (fun y res => st_data s' !! y = Some res)
        (nodes_of node (Z.of_nat (length (omap id locks)))) rs /\
      Forall3 expanded (omap id locks) rs wss /\
      frame (nodes_of node (Z.of_nat (length (omap id locks)))) s s' /\
      getHandle (req_msg r) = getHandle (sg_msg signal) /\
      getDuration (req_msg r) = getDuration (sg_msg signal) /\
      getProperties (req_msg r) = getProperties (sg_msg signal) /\
      getClientPID (req_msg r) = getClientPID (sg_msg signal) /\
      getClientTID (req_msg r) = getClientTID (sg_msg signal) /\
      getRequestType (req_msg r) = RequestType_val REQ_RESOURCE_TUNING
  end.
Proof.
  intros Hinfo Hlocks Hok Hargs Hdist. unfold createResourceTuningRequest. cbn zeta.
  rewrite Hinfo. cbn [mbind result_bind]. rewrite Hlocks. cbn [deref mbind result_bind].
  match goal with |- context [expand _ _ _ _ _ _ ?r0] => set (request := r0) end.
  pose proof (expand_spec node signal args Hdist Hargs locks 0 0 s request [] [] []
    Hok ltac:(lia) ltac:(lia) ltac:(done) ltac:(constructor) ltac:(constructor)) as H.
  rewrite drop_0, Z.add_0_l in H. destruct (subst_all _ _) as [wss|].
  - destruct H as (s' & r' & rs & -> & Hl & Em & Hd & Hx & Hf). cbn [mbind result_bind].
    exists r', s', rs. rewrite Em. by split_and!.
  - by rewrite H.
Qed.

(** A signal with two resources and three placeholders. *)
Definition placeholder_info : SignalInfo :=
  mkSignalInfo 13 16 0 "TEST" 6000 (Some [PERMISSION_SYSTEM]) None [0; 0; 0; 0] false
    (Some [Some (mkResource 65537 0 0 2 (Inline NSIG_PLACEHOLDER NSIG_PLACEHOLDER) 0); None;
           Some (mkResource 65538 0 0 1 (Inline NSIG_PLACEHOLDER 0) 0)]).
Definition placeholder_signal : Signal :=
  mkSignal (mkMessage 7 0 0 100 101 0) (CONSTRUCT_SIG_CODE 13 16) 0 [] [] 3 (Some (Some [5; 6; 7])).

Lemma signal_expansion_witness :
  exists sigs r s', registerSignal (Some placeholder_info) SignalRegistry_init = Ok sigs /\
    createResourceTuningRequest sigs placeholder_signal (Some 9%positive) junk_msg
      (ample (fun i => Z.to_pos (i + 1))) (mkStore ∅ ∅ ∅) = Ok (Some (9%positive, r, s')) /\
    req_list s' r [1%positive; 2%positive] /\ getHandle (req_msg r) = 7.
Proof.
  eexists. 
  destruct (signal_expansion (mkSR 1 {[signalBitmap placeholder_info :=
    mkSignalConf (Some placeholder_info) []]})
    (fun i => Z.to_pos (i + 1)) placeholder_signal [5; 6; 7] placeholder_info
    [Some (mkResource 65537 0 0 2 (Inline NSIG_PLACEHOLDER NSIG_PLACEHOLDER) 0); None;
     Some (mkResource 65538 0 0 1 (Inline NSIG_PLACEHOLDER 0) 0)] false 9 junk_msg (mkStore ∅ ∅ ∅))
    as (r & s' & rs & E & Hl & _ & _ & _ & Hh & _).
  - vm_compute. reflexivity.
  - reflexivity.
  - repeat (apply Forall_cons_2; [intros src [= <-]; split; cbn; unfold in_u; lia || done|]).
    apply Forall_nil_2.
  - split; reflexivity.
  - intros i j Hi Hj E. lia.
  - exists r, s'. split_and!; [reflexivity|exact E|exact Hl|exact Hh].
Defined.

(** The priority a signal is granted: that of a request, for the two levels a client may ask. *)
Lemma granted_request_priority perm prio :
  getRequestPriority perm prio <> -1 ->
  RequestHandler.getRequestPriority perm prio = getRequestPriority perm prio /\
  RequestHandler.getRequestPriority perm (getRequestPriority perm prio) = getRequestPriority perm prio.
Proof.
  unfold getRequestPriority, RequestHandler.getRequestPriority, REQ_PRIORITY_HIGH, REQ_PRIORITY_LOW,
    THIRD_PARTY_HIGH, THIRD_PARTY_LOW, SYSTEM_HIGH, SYSTEM_LOW.
  destruct (perm =? _); [|destruct (perm =? _); [|done]];
    (destruct (Z.eqb_spec prio 0) as [->|]; [done|]);
    (destruct (Z.eqb_spec prio 1) as [->|]; [done|done]).
Qed.

(** The client is known at a level that the signal admits, and asks for one of the two
    priorities. *)
Definition admits (info_permissions : list Z) (c : ClientDataManager) (m : Message) : Prop :=
  let perm := getClientLevelByID (getClientPID m) c in
  (perm = PERMISSION_SYSTEM \/ perm = PERMISSION_THIRD_PARTY) /\
  REQ_PRIORITY_HIGH <= getPriority m <= REQ_PRIORITY_LOW /\ perm ∈ info_permissions.

(** The verdict on a signal.  A configured signal passes exactly when its client is
    registered at a level among the permissions of the signal and asks for the high or the
    low priority.  It then carries the priority granted to that level, which the second
    verification, that of the request made from it, grants again unchanged, and the default
    duration of the signal if it asked for none; its handle, client and type are kept. *)
Theorem signal_verdict (sigs : SignalRegistry) (signal : Signal) (c : ClientDataManager)
    (info : SignalInfo) (perms : list Z) (freed : bool) :
  getSignalConfigByIdAndType (getSignalCode signal) (getSignalType signal) 0 None sigs
    = Ok (Some info, freed) ->
  SignalRegistry.mPermissions info = Some perms ->
  exists b signal', VerifyIncomingRequest sigs signal c = Ok (b, signal') /\
    (b = true <-> admits perms c (sg_msg signal)) /\
    (b = true ->
     let m := sg_msg signal in let m' := sg_msg signal' in
     let perm := getClientLevelByID (getClientPID m) c in
     getPriority m' = RequestHandler.getRequestPriority perm (getPriority m) /\
     RequestHandler.getRequestPriority perm (getPriority m') = getPriority m' /\
     SYSTEM_HIGH <= getPriority m' <= THIRD_PARTY_LOW /\
     getDuration m' = (if getDuration m =? 0 then mTimeout info else getDuration m) /\
     getHandle m' = getHandle m /\ getClientPID m' = getClientPID m /\
     getClientTID m' = getClientTID m /\ getRequestType m' = getRequestType m /\
     getListArgs signal' = getListArgs signal).
Proof.
  intros Hinfo Hperms. unfold VerifyIncomingRequest, admits. rewrite Hinfo. cbn [mbind result_bind].
  set (perm := getClientLevelByID _ c). set (prio := getPriority (sg_msg signal)).
  destruct (Z.eqb_spec perm (-1)) as [E|Hperm].
  { eexists _, _. split; [done|]. split; [|done]. split; [done|].
    rewrite E. intros ([?|?] & _); discriminate. }
  destruct ((prio >? REQ_PRIORITY_LOW) || (prio <? REQ_PRIORITY_HIGH)) eqn:Ep.
  { eexists _, _. split; [done|]. split; [|done]. split; [done|]. intros (_ & ? & _).
    unfold REQ_PRIORITY_LOW, REQ_PRIORITY_HIGH in *. lia. }
  destruct (Z.eqb_spec (getRequestPriority perm prio) (-1)) as [Eg|Hg].
  { eexists _, _. split; [done|]. split; [|done]. split; [done|]. intros ([Hs|Hs] & Hr & _);
      unfold getRequestPriority in Eg; rewrite Hs in Eg; cbn in Eg;
      unfold REQ_PRIORITY_LOW, REQ_PRIORITY_HIGH in *;
      (destruct (Z.eqb_spec prio 0); [done|]; destruct (Z.eqb_spec prio 1); [done|lia]). }
  rewrite Hperms. cbn [deref mbind result_bind].
  assert (existsb (fun p => perm =? p) perms = true <-> perm ∈ perms) as Hin.
  { rewrite existsb_exists. setoid_rewrite Z.eqb_eq. setoid_rewrite <- list_elem_of_In. naive_solver. }
  assert (perm = PERMISSION_SYSTEM \/ perm = PERMISSION_THIRD_PARTY) as Hlev.
  { unfold getRequestPriority in Hg. destruct (Z.eqb_spec perm PERMISSION_SYSTEM); [by left|].
    destruct (Z.eqb_spec perm PERMISSION_THIRD_PARTY); [by right|done]. }
  destruct (existsb _ perms); cbn [negb].
  2:{ eexists _, _. split; [done|]. split; [|done]. split; [done|].
      intros (_ & _ & Hx%Hin). done. }
  destruct (granted_request_priority perm prio Hg) as [Hr Hk].
  destruct (getRequestPriority_or perm prio) as (Hor & Hb & Hs); [by rewrite Hr|].
  rewrite Hr in Hor, Hb, Hs.
  eexists _, _. split; [done|]. split.
  { split; [|done]. intros _. split_and!; [done| | |by apply Hin];
      unfold REQ_PRIORITY_LOW, REQ_PRIORITY_HIGH in *; lia. }
  intros _. cbn zeta. rewrite Hr.
  assert (getPriority (setPriority (getRequestPriority perm prio) (sg_msg signal)) = getRequestPriority perm prio)
    as Egp by by rewrite setPriority_or.
  change (getDuration (sg_msg (with_sg_msg ?m ?s))) with (getDuration m).
  change (getDuration (setPriority ?q ?m)) with (getDuration m).
  destruct (getDuration (sg_msg signal) =? 0); cbn [sg_msg with_sg_msg];
    [change (getPriority (setDuration ?d ?m)) with (getPriority m)|]; rewrite Egp; split_and!; try done; lia.
Qed.

Lemma signal_verdict_witness :
  let sigs := mkSR 1 {[signalBitmap placeholder_info := mkSignalConf (Some placeholder_info) []]} in
  exists signal', VerifyIncomingRequest sigs placeholder_signal
    (mkCDM {[100 := mkClientInfo PERMISSION_SYSTEM 1 []]} ∅) = Ok (true, signal') /\
    getDuration (sg_msg signal') = 6000.
Proof.
  intros sigs.
  destruct (signal_verdict sigs placeholder_signal
    (mkCDM {[100 := mkClientInfo PERMISSION_SYSTEM 1 []]} ∅) placeholder_info [PERMISSION_SYSTEM] false)
    as (b & signal' & E & [_ Hb] & Hd); [vm_compute; reflexivity|reflexivity|].
  assert (b = true) as ->.
  { apply Hb. unfold admits. split; [left; vm_compute; reflexivity|].
    split; [vm_compute; split; discriminate|]. apply list_elem_of_here. }
  exists signal'. split; [exact E|]. destruct (Hd eq_refl) as (_ & _ & _ & Hdur & _).
  rewrite Hdur. reflexivity.
Defined.
