(* ===== verification/Classifier.v ===== *)
(** [contextual-classifier/ContextualClassifier.cpp] and [NetLinkComm.cpp]: the classifier
    follows the processes that start and end, moves an application that starts to the
    focused cgroup, tunes it with the signals of its configuration and of its workload, and
    takes the tuning of the oldest application back when too many are active.

    The kernel's events, the model behind [Inference::Classify] and the post-processing
    callbacks of plugins are parameters; requests go to the server of SignalHandler.v. *)
From Stdlib Require Import Ascii.
From S2P Require Import Prelude UrmTypes StdString Message Resource DLManager AuxRoutines UrmPlatformAL Extensions AppConfigs.
From S2P Require Import ResourceRegistry Request Double ClientDataManager RateLimiter Server Wire ClientCleanup SignalRegistry SignalHandler.
Open Scope string_scope.
Open Scope list_scope.
Open Scope Z_scope.

(** ** ContextualClassifier.h *)
Definition CC_IGNORE : Z := 0.
Definition CC_APP_OPEN : Z := 1.
Definition CC_APP_CLOSE : Z := 2.

Definition CC_APP : Z := 1.
Definition CC_BROWSER : Z := 2.
Definition CC_GAME : Z := 3.
Definition CC_MULTIMEDIA : Z := 4.

Definition ACCEPT_AND_PERSIST : Z := 1.
Definition pendingQueueControlSize : Z := 30.
Definition RES_CGRP_MOVE_PID : Z := 589824.
Definition FOCUSED_CGROUP_IDENTIFIER : Z := 4.
Definition DEFAULT_SIGNAL_TYPE : Z := 0.
Definition URM_SIG_APP_OPEN : Z := 131073.
Definition URM_SIG_BROWSER_APP_OPEN : Z := 131074.
Definition URM_SIG_GAME_APP_OPEN : Z := 131075.
Definition URM_SIG_MULTIMEDIA_APP_OPEN : Z := 131076.

Record ProcEvent := mkEvent { ev_pid : Z; ev_tgid : Z; ev_type : Z }.

Record Classifier := mkClassifier {
  mNeedExit : bool;
  mIsPriorityClient : bool;
  mClientTracker : Z;
  mActiveClientCount : Z;
  mActiveAppThreshold : Z;
  mCurrRestuneHandles : list (Z * Z);     (* client and handle, oldest first *)
  mClassifierPidCache : MinLRUCache;
  mPendingEv : list ProcEvent;
  mIgnoredProcesses : gset string;
  mAllowedProcesses : gset string;
  mPriorityClients : gset string
}.

Definition Classifier_init (acceptMode : Z) : Classifier :=
  mkClassifier false false 0 0 (if Z.land acceptMode ACCEPT_AND_PERSIST =? 0 then 1 else 3) []
    (MinLRUCache_init 30) [] ∅ ∅ ∅.

Definition set_exit (q : list ProcEvent) (c : Classifier) : Classifier :=
  mkClassifier true (mIsPriorityClient c) (mClientTracker c) (mActiveClientCount c) (mActiveAppThreshold c)
    (mCurrRestuneHandles c) (mClassifierPidCache c) q (mIgnoredProcesses c) (mAllowedProcesses c)
    (mPriorityClients c).
Definition set_priority (b : bool) (c : Classifier) : Classifier :=
  mkClassifier (mNeedExit c) b (mClientTracker c) (mActiveClientCount c) (mActiveAppThreshold c)
    (mCurrRestuneHandles c) (mClassifierPidCache c) (mPendingEv c) (mIgnoredProcesses c) (mAllowedProcesses c)
    (mPriorityClients c).
Definition set_tracker (n : Z) (c : Classifier) : Classifier :=
  mkClassifier (mNeedExit c) (mIsPriorityClient c) n (mActiveClientCount c) (mActiveAppThreshold c)
    (mCurrRestuneHandles c) (mClassifierPidCache c) (mPendingEv c) (mIgnoredProcesses c) (mAllowedProcesses c)
    (mPriorityClients c).
Definition set_active (n : Z) (hs : list (Z * Z)) (c : Classifier) : Classifier :=
  mkClassifier (mNeedExit c) (mIsPriorityClient c) (mClientTracker c) n (mActiveAppThreshold c)
    hs (mClassifierPidCache c) (mPendingEv c) (mIgnoredProcesses c) (mAllowedProcesses c)
    (mPriorityClients c).
Definition set_pending (q : list ProcEvent) (cache : MinLRUCache) (c : Classifier) : Classifier :=
  mkClassifier (mNeedExit c) (mIsPriorityClient c) (mClientTracker c) (mActiveClientCount c)
    (mActiveAppThreshold c) (mCurrRestuneHandles c) cache q (mIgnoredProcesses c) (mAllowedProcesses c)
    (mPriorityClients c).
Definition set_lists (ignored allowed priority : gset string) (c : Classifier) : Classifier :=
  mkClassifier (mNeedExit c) (mIsPriorityClient c) (mClientTracker c) (mActiveClientCount c)
    (mActiveAppThreshold c) (mCurrRestuneHandles c) (mClassifierPidCache c) (mPendingEv c) ignored allowed
    priority.

(** ** Lists of process names *)

(** The trimmed, non-empty segments of a line. *)
Definition segments (line : string) : list string :=
  omap (fun segment => match trim_left segment with EmptyString => None | t => Some (trim_right t) end)
       (split_on ","%char line).

Definition loadProcessNames (fs : FileSystem) (filePath : string) (names : gset string) : gset string :=
  match fs_files fs !! filePath with
  | None => names
  | Some content => foldl (fun names line => names ∪ list_to_set (segments line)) names (split_on newline content)
  end.

Definition loadStaticProcData (configsDir : string) (fs : FileSystem) (c : Classifier) : Classifier :=
  let allow := configsDir +:+ "allow-list.txt" in
  let priority := loadProcessNames fs (configsDir +:+ "priority-clients.txt") (mPriorityClients c) in
  if fileExists fs allow
  then set_lists (mIgnoredProcesses c) (loadProcessNames fs allow (mAllowedProcesses c)) priority c
  else set_lists (loadProcessNames fs (configsDir +:+ "classifier-blocklist.txt") (mIgnoredProcesses c))
         (mAllowedProcesses c) priority c.

Definition contains (pat s : string) : bool := bool_decide (is_Some (String.index 0 pat s)).
Definition proc_file (pid : Z) (name : string) : string := "/proc/" +:+ to_string pid +:+ "/" +:+ name.

Definition isContainerProcess (fs : FileSystem) (pid : Z) : bool :=
  match fs_files fs !! proc_file pid "cgroup" with
  | None => false
  | Some content => existsb (fun line => contains "docker-" line && contains ".scope" line) (split_on newline content)
  end.

Definition shouldProcBeIgnored (fs : FileSystem) (evType pid : Z) (c : Classifier) : bool :=
  if evType =? CC_APP_CLOSE then false else
  if isContainerProcess fs pid then true else
  let '(rc, procName) := fetchComm fs pid "" in
  if negb (rc =? 0) then true else
  if (0 <? size (mAllowedProcesses c))%nat
  then bool_decide (procName ∉ mAllowedProcesses c)
  else bool_decide (procName ∈ mIgnoredProcesses c).

Definition checkClientPriority (procName : string) (c : Classifier) : bool :=
  bool_decide (procName ∈ mPriorityClients c).

(** ** NetLinkComm.cpp *)
Definition PROC_EVENT_EXEC : Z := 2.
Definition PROC_EVENT_EXIT : Z := 2147483648.

(** What follows the last closing bracket, and the number that is its fifth field: the
    terminal of the process, 0 when a field does not parse. *)
Fixpoint after_last_bracket (s : string) : option string :=
  match s with
  | EmptyString => None
  | String c s' =>
    match after_last_bracket s' with
    | Some t => Some t
    | None => if is_char 41 c then Some s' else None
    end
  end.
Fixpoint skip_blanks (s : string) : string :=
  match s with String c s' => if is_char 32 c then skip_blanks s' else s | EmptyString => "" end.

(** [stream >> n] for an [int64_t]: the number and the rest; a failure leaves 0 and fails the
    ones that follow, a number out of range leaves the nearest bound. *)
Fixpoint drop_digits (s : string) : string :=
  match s with
  | String c s' => if isdigit c then drop_digits s' else s
  | EmptyString => ""
  end.
Definition extract (s : option string) : Z * option string :=
  match s with
  | None => (0, None)
  | Some s =>
    let t := skip_spaces s in
    let u := match t with String c t' => if is_char 45 c || is_char 43 c then t' else t | EmptyString => t end in
    if negb (starts_digit 10 u) then (0, None) else
    match stol 10 t with
    | inl v => (v, Some (drop_digits u))
    | inr _ => (match t with String c _ => if is_char 45 c then min_s 64 else max_s 64 | EmptyString => 0 end, None)
    end
  end.

Definition procHasControlTerminal (fs : FileSystem) (pid : Z) : bool :=
  match after_last_bracket (readFromFile fs (proc_file pid "stat")) with
  | None => false
  | Some s =>
    match skip_spaces (skip_blanks s) with
    | EmptyString => false
    | String _ s =>                          (* the state *)
      let '(_, s) := extract (Some s) in     (* ppid *)
      let '(_, s) := extract s in            (* pgrp *)
      let '(_, s) := extract s in            (* session *)
      let '(ttyNr, _) := extract s in
      negb (ttyNr =? 0)
    end
  end.

Definition procEnvironChecks (fs : FileSystem) (pid : Z) : bool :=
  contains "DISPLAY" (readFromFile fs (proc_file pid "environ")).

Definition procPreliminaryChecks (fs : FileSystem) (pid : Z) : bool :=
  procHasControlTerminal fs pid || procEnvironChecks fs pid.

(** What [recv] gave: the number of bytes (0 at the end, -1 for an error), and the kernel's
    event: what, pid and group. *)
Definition recvEvent (fs : FileSystem) (rc what pid tgid : Z) (ev : ProcEvent) : Z * ProcEvent :=
  if (rc =? 0) || (rc =? -1) then (rc, ev) else
  if what =? PROC_EVENT_EXEC then
    if negb (fileExists fs (proc_file pid "comm")) || negb (procPreliminaryChecks fs pid)
    then (CC_IGNORE, mkEvent pid tgid CC_IGNORE) else (CC_APP_OPEN, mkEvent pid tgid CC_APP_OPEN)
  else if what =? PROC_EVENT_EXIT then (CC_APP_CLOSE, mkEvent pid tgid CC_APP_CLOSE)
  else (rc, mkEvent (-1) (-1) CC_IGNORE).

(** ** HandleProcEv: one event from the kernel *)
Definition push_event (ev : ProcEvent) (c : Classifier) : list ProcEvent :=
  let q := mPendingEv c ++ [ev] in
  if Z.of_nat (length q) >? pendingQueueControlSize then tail q else q.

Definition on_proc_event (fs : FileSystem) (rc : Z) (ev : ProcEvent) (c : Classifier) : result Classifier :=
  if (rc =? CC_IGNORE) || (rc =? -1) then Ok c else
  if negb (fileExists fs (proc_file (ev_pid ev) "comm")) then Ok c else
  if rc =? CC_APP_OPEN then
    if shouldProcBeIgnored fs (ev_type ev) (ev_pid ev) c then Ok c else
    if MinLRUCache_isPresent (ev_pid ev) (mClassifierPidCache c) then Ok c else
    cache ← MinLRUCache_insert (ev_pid ev) (mClassifierPidCache c);
    Ok (set_pending (push_event ev c) cache c)
  else if rc =? CC_APP_CLOSE then
    if shouldProcBeIgnored fs (ev_type ev) (ev_pid ev) c then Ok c else
    Ok (set_pending (push_event ev c) (mClassifierPidCache c) c)
  else Ok c.

(** ** The server the classifier runs in *)
Record Host := mkHost {
  h_server : SigServer;
  h_generator : Z;           (* of [generateUniqueHandle] *)
  h_apps : AppConfigMap;
  h_ext : Extensions;
  h_gc : GcQueue
}.
Definition h_set_server (st : SigServer) (h : Host) : Host :=
  mkHost st (h_generator h) (h_apps h) (h_ext h) (h_gc h).
Definition h_set_apps (m : AppConfigMap) (h : Host) : Host :=
  mkHost (h_server h) (h_generator h) m (h_ext h) (h_gc h).

(** The classifier with its server. *)
Definition Sys : Type := Classifier * Host.

(** The requests made while an event is handled. *)
Inductive Slot :=
  | MoveSlot
  | SignalSlot (i : Z)
  | WorkloadSlot
  | UntuneSlot (handle : Z).

(** What an event meets: the files, the blocks of the memory pool, the clock, the model. *)
Record Env := mkEnv {
  e_fs : FileSystem;
  e_request : Slot -> option positive;
  e_blocks : Slot -> Z -> Blocks;
  e_junk : Message;
  e_now : Z;
  e_classify : Z -> Z;                                        (* Inference::Classify *)
  e_post : positive -> Z -> Host -> result (Z * Host)         (* a callback: mHandleAcq *)
}.

Section Classifier.
Context (sigs : SignalRegistry) {R : Type} `{!ResourceConfigs R} (reg : R) `{HashOrder}.
Context (mode maxReq : Z) (lim : RateLimiter) (al : ClientAllocs) (junk : Z) (env : Env).

Local Abbreviation submit := (submit reg mode maxReq lim (e_fs env) al junk).

(** Exceptions on the way are caught: nothing is submitted. *)
Definition untuneRequestHelper (handle : Z) (h : Host) : result Host :=
  match e_request env (UntuneSlot handle) with
  | None => Ok h
  | Some p =>
    let m := setClientTID 0 (setClientPID 0 (setPriority SYSTEM_HIGH (setDuration (-1)
               (setHandle handle (setRequestType (RequestType_val REQ_RESOURCE_UNTUNING)
                 (Message_init (e_junk env))))))) in
    st ← submit p (with_msg m (Request_init (e_junk env))) (sv_store (ss_server (h_server h))) true
           (e_now env) (h_server h);
    Ok (h_set_server st h)
  end.

(** ** trackClient, reShuffle *)
Definition trackClient (handle : Z) (c : Classifier) : Classifier :=
  if mIsPriorityClient c then c else
  if handle =? -1 then c else
  set_active (mActiveClientCount c) (mCurrRestuneHandles c ++ [(mClientTracker c, handle)]) c.

(** The handles at the front of the queue that belong to client [minClientId]: each is
    untuned; the rest of the queue, and whether there was one. *)
Fixpoint evict_loop (minClientId : Z) (hs : list (Z * Z)) (evictedClient : bool) (h : Host)
  : result (list (Z * Z) * bool * Host) :=
  match hs with
  | [] => Ok ([], evictedClient, h)
  | (client, handle) :: hs' =>
    if minClientId =? client then
      h ← (if handle >? 0 then untuneRequestHelper handle h else Ok h);
      evict_loop minClientId hs' true h
    else Ok (hs, evictedClient, h)
  end.

Definition reShuffle (y : Sys) : result Sys :=
  let '(c, h) := y in
  match mCurrRestuneHandles c with
  | [] => Ok (set_active 0 [] c, h)
  | (minClientId, _) :: _ =>
    if mActiveClientCount c >=? mActiveAppThreshold c then
      '(hs, evicted, h) ← evict_loop minClientId (mCurrRestuneHandles c) false h;
      Ok (set_active (if (evicted : bool) && (0 <? mActiveClientCount c)
                      then mActiveClientCount c - 1 else mActiveClientCount c) hs c, h)
    else Ok (c, h)
  end.

(** ** MoveAppThreadsToCGroup *)

(** The pids of a thread name; a name that ends in a star is a prefix.  [None] when
    [stoi] throws on the single match. *)
Fixpoint prefix_pids (prefix : string) (entries : list (string * bool)) : list Z :=
  match entries with
  | [] => []
  | (pidStr, is_dir) :: es =>
    if is_dir && isNumericString pidStr then
      match fs_files (e_fs env) !! ("/proc/" +:+ pidStr +:+ "/comm") with
      | Some content =>
        if String.prefix prefix (first_line content)
        then match stoi 10 pidStr with inl v => v :: prefix_pids prefix es | inr _ => prefix_pids prefix es end
        else prefix_pids prefix es
      | None => prefix_pids prefix es
      end
    else prefix_pids prefix es
  end.

Definition fetchPidsForCommPrefix (pattern : string) : option (list Z) :=
  if String.eqb pattern "" || negb (ends_with "*" pattern) then
    match fetchPid (e_fs env) pattern with
    | inl pid => Some (if pid =? -1 then [] else [pid])
    | inr _ => None
    end
  else
    match fs_dirs (e_fs env) "/proc" with
    | None => Some []
    | Some entries => Some (prefix_pids (String.substring 0 (String.length pattern - 1) pattern) entries)
    end.

(** [request->addResource(createMovePidResource(cgroup, pid))]; [None]: a block is missing,
    an exception.  The state counts the resources made. *)
Definition add_move (cgroup pid : Z) (i : Z) (s : Store) (r : Request)
  : result (option (Z * Store * Request)) :=
  let b := e_blocks env MoveSlot i in
  match bk_node b with
  | None => Ok None
  | Some x =>
    if negb (bk_resource b) then Ok None else
    let resource := Resource.setNumValues (bk_values b) 2 (Resource.setResCode RES_CGRP_MOVE_PID Resource_init) in
    '(_, resource) ← Resource.setValueAt 0 cgroup resource;
    '(_, resource) ← Resource.setValueAt 1 pid resource;
    '(s, r) ← Request.addResource (bk_list b) (Some x) (set_data x resource (new_node x s)) r;
    Ok (Some (i + 1, s, r))
  end.

Fixpoint add_moves (cgroup incomingPID : Z) (pids : list Z) (i : Z) (s : Store) (r : Request)
  : result (option (Z * Store * Request)) :=
  match pids with
  | [] => Ok (Some (i, s, r))
  | targetPID :: pids =>
    if negb (targetPID =? -1) && negb (targetPID =? incomingPID) then
      o ← add_move cgroup targetPID i s r;
      match o with
      | None => Ok None
      | Some (i, s, r) => add_moves cgroup incomingPID pids i s r
      end
    else add_moves cgroup incomingPID pids i s r
  end.

(** The loop over the threads of a configuration; [n] threads are left, from [j]. *)
Fixpoint move_threads (n j : nat) (names : list string) (ids : option (list (option Z))) (incomingPID i : Z)
    (s : Store) (r : Request) : result (option (Z * Store * Request)) :=
  match n with
  | O => Ok (Some (i, s, r))
  | S n =>
    targetComm ← of_option OutOfRange (names !! j);
    ids' ← deref ids;
    cell ← of_option OutOfRange (ids' !! j);
    currCGroupID ← of_option Indeterminate cell;
    match fetchPidsForCommPrefix targetComm with
    | None => Ok None
    | Some targetPIDs =>
      o ← add_moves currCGroupID incomingPID targetPIDs i s r;
      match o with
      | None => Ok None
      | Some (i, s, r) => move_threads n (S j) names ids incomingPID i s r
      end
    end
  end.

(** The resources of the request: the application, then its threads.  An exception leaves the request
    unsubmitted; its handle has been used. *)
Definition build_move (cgroupIdentifier incomingPID : Z) (appConfig : option AppConfig) (s : Store)
    (r : Request) : result (option (Z * Store * Request)) :=
  o ← add_move cgroupIdentifier incomingPID 0 s r;
  match o with
  | None => Ok None
  | Some (i, s, r) =>
    match appConfig with
    | Some a =>
      match mThreadNameList a with
      | Some names => move_threads (Z.to_nat (mNumThreads a)) 0 names (mCGroupIds a) incomingPID i s r
      | None => Ok (Some (i, s, r))
      end
    | None => Ok (Some (i, s, r))
    end
  end.

Definition MoveAppThreadsToCGroup (incomingPID incomingTID : Z) (comm : string) (cgroupIdentifier : Z)
    (y : Sys) : result Sys :=
  let '(c, h) := y in
  match e_request env MoveSlot with
  | None => Ok (c, h)
  | Some p =>
    '(handle, gen) ← generateUniqueHandle (h_generator h);
    let m := setClientTID incomingTID (setClientPID incomingPID (setPriority SYSTEM_LOW (setDuration (-1)
               (setHandle handle (setRequestType (RequestType_val REQ_RESOURCE_TUNING)
                 (Message_init (e_junk env))))))) in
    let '(appConfig, apps) := getAppConfig comm (h_apps h) in
    let h := mkHost (h_server h) gen apps (h_ext h) (h_gc h) in
    o ← build_move cgroupIdentifier incomingPID appConfig (sv_store (ss_server (h_server h)))
          (with_msg m (Request_init (e_junk env)));
    match o with
    | None => Ok (c, h)
    | Some (_, s, r) =>
      if getResourcesCount r >? 0 then
        let c := trackClient (getHandle (req_msg r)) c in
        st ← submit p r s true (e_now env) (h_server h);
        Ok (c, h_set_server st h)
      else
        let sv := ss_server (h_server h) in
        sv ← cleanUp p (sv_set_requests (<[p := r]> (sv_requests sv)) (sv_set_world (set_store s (sv_world sv)) sv));
        Ok (c, h_set_server (ss_set_server sv (h_server h)) h)
    end
  end.

(** ** Signals of an application *)
Definition acquire (slot : Slot) (sigId sigType pid tid : Z) (h : Host) : result (Z * Host) :=
  '(handle, gen, st) ← acquireSignal sigs reg mode maxReq lim (e_fs env) al junk sigId sigType pid tid 0 None 0
      None (h_generator h) (e_request env slot) (e_junk env) (e_blocks env slot) (e_now env) (h_server h);
  Ok (handle, mkHost st gen (h_apps h) (h_ext h) (h_gc h)).

Fixpoint signals_loop (n i : nat) (codes : list (option Z)) (pid tid : Z) (y : Sys) : result Sys :=
  match n with
  | O => Ok y
  | S n =>
    let '(c, h) := y in
    cell ← of_option OutOfRange (codes !! i);
    sigId ← of_option Indeterminate cell;
    '(handle, h) ← acquire (SignalSlot (Z.of_nat i)) sigId 0 pid tid h;
    signals_loop n (S i) codes pid tid (if handle =? -1 then c else trackClient handle c, h)
  end.

Definition configureAppSignals (pid tid : Z) (comm : string) (y : Sys) : result Sys :=
  let '(c, h) := y in
  let '(appConfig, apps) := getAppConfig comm (h_apps h) in
  let h := h_set_apps apps h in
  match appConfig with
  | Some a =>
    match mSignalCodes a with
    | Some codes => signals_loop (Z.to_nat (mNumSignals a)) 0 codes pid tid (c, h)
    | None => Ok (c, h)
    end
  | None => Ok (c, h)
  end.

(** ** The worker *)
Definition ClassifyProcess (pid : Z) : Z :=
  if negb (fileExists (e_fs env) (proc_file pid "comm")) then CC_IGNORE else e_classify env pid.

Definition GetSignalIDForWorkload (contextType : Z) : Z :=
  if contextType =? CC_MULTIMEDIA then URM_SIG_MULTIMEDIA_APP_OPEN
  else if contextType =? CC_GAME then URM_SIG_GAME_APP_OPEN
  else if contextType =? CC_BROWSER then URM_SIG_BROWSER_APP_OPEN
  else URM_SIG_APP_OPEN.

(** Step 4: the post-processing callback, or the signal of the workload. *)
Definition post_or_classify (ev : ProcEvent) (comm : string) (y : Sys) : result Sys :=
  let '(c, h) := y in
  let '(postCb, ext) := getPostProcessingCallback comm (h_ext h) in
  let h := mkHost (h_server h) (h_generator h) (h_apps h) ext (h_gc h) in
  match postCb with
  | Some cb => '(handle, h) ← e_post env cb (ev_pid ev) h; Ok (trackClient handle c, h)
  | None =>
    let contextType := ClassifyProcess (ev_pid ev) in
    if contextType =? CC_IGNORE then Ok (c, h) else
    '(handle, h) ← acquire WorkloadSlot (GetSignalIDForWorkload contextType) DEFAULT_SIGNAL_TYPE
                     (ev_pid ev) (ev_tgid ev) h;
    Ok (trackClient handle c, h)
  end.

(** An application that opens: steps 1 to 4, and the count of active clients. *)
Definition on_app_open (ev : ProcEvent) (comm : string) (y : Sys) : result Sys :=
  let '(c, h) := y in
  let c := set_priority (checkClientPriority comm c) c in
  '(c, h) ← (if mIsPriorityClient c then Ok (c, h) else reShuffle (c, h));
  let handlesBeforeClient := length (mCurrRestuneHandles c) in
  y ← MoveAppThreadsToCGroup (ev_pid ev) (ev_tgid ev) comm FOCUSED_CGROUP_IDENTIFIER (c, h);
  y ← configureAppSignals (ev_pid ev) (ev_tgid ev) comm y;
  '(c, h) ← post_or_classify ev comm y;
  Ok (if (handlesBeforeClient <? length (mCurrRestuneHandles c))%nat
      then set_active (wrap_u 64 (mActiveClientCount c + 1)) (mCurrRestuneHandles c) c else c, h).

Definition on_app_close (ev : ProcEvent) (y : Sys) : result Sys :=
  let '(c, h) := y in
  let sv := ss_server (h_server h) in
  gc ← submitClientForCleanup (ev_pid ev) (sv_clients sv) (h_gc h);
  let sv := sv_set_clients (deleteClientPID (ev_pid ev) (sv_clients sv)) sv in
  Ok (c, mkHost (ss_set_server sv (h_server h)) (h_generator h) (h_apps h) (h_ext h) gc).

(** One round of [ClassifierMain], on the event at the head of the queue; the worker waits
    while there is none, and returns once it has to exit. *)
Definition ClassifierMain (y : Sys) : result Sys :=
  let '(c, h) := y in
  if mNeedExit c then Ok (c, h) else
  match mPendingEv c with
  | [] => Ok (c, h)
  | ev :: q =>
    let c := set_priority false (set_pending q (mClassifierPidCache c) c) in
    if ev_type ev =? CC_APP_OPEN then
      if ev_pid ev =? -1 then Ok (set_tracker (wrap_u 64 (mClientTracker c + 1)) c, h) else
      let '(rc, comm) := fetchComm (e_fs env) (ev_pid ev) "" in
      if negb (rc =? 0) then Ok (c, h) else
      '(c, h) ← on_app_open ev comm (c, h);
      Ok (set_tracker (wrap_u 64 (mClientTracker c + 1)) c, h)
    else if ev_type ev =? CC_APP_CLOSE then on_app_close ev (c, h)
    else Ok (c, h)
  end.

(** [Terminate]: the flag, and the queue emptied. *)
Definition Terminate (c : Classifier) : Classifier := set_exit [] c.
End Classifier.
