(* ===== verification/ClassifierFacts.v ===== *)
(** What holds of the classifier (Classifier.v): how many applications it keeps tuned, which
    ones it lets go, and which events it loses. *)
From S2P Require Import Prelude UrmTypes StdString AuxRoutines ResourceRegistry Double ClientDataManager RateLimiter.
From S2P Require TargetRegistry CocoTable OrderedQueue RequestManager.
From S2P Require Import AppConfigs Extensions Message Resource Request Server Wire SignalRegistry SignalHandler Classifier.
Open Scope string_scope.
Open Scope list_scope.
Open Scope Z_scope.

(** ** What handling an event does to the tracked handles *)

(** [c'] is [c] with new handles of the current client, none for a priority client. *)
Definition tracks (c c' : Classifier) : Prop :=
  exists new, (mIsPriorityClient c = true -> new = []) /\
    c' = set_active (mActiveClientCount c)
           (mCurrRestuneHandles c ++ map (pair (mClientTracker c)) new) c.

Lemma tracks_refl c : tracks c c.
Proof. exists []. split; [done|]. rewrite app_nil_r. by destruct c. Qed.

Lemma tracks_trans c1 c2 c3 : tracks c1 c2 -> tracks c2 c3 -> tracks c1 c3.
Proof.
  intros (n1 & P1 & ->) (n2 & P2 & ->). exists (n1 ++ n2). split.
  - intros Hp. by rewrite (P1 Hp), (P2 Hp).
  - cbn. by rewrite map_app, app_assoc.
Qed.

Lemma trackClient_tracks handle c : tracks c (trackClient handle c).
Proof.
  unfold trackClient. destruct (mIsPriorityClient c) eqn:Hp; [apply tracks_refl|].
  destruct (handle =? -1); [apply tracks_refl|]. exists [handle]. split; [congruence|done].
Qed.

Section Facts.
Context (sigs : SignalRegistry) {R : Type} `{!ResourceConfigs R} (reg : R) `{HashOrder}.
Context (mode maxReq : Z) (lim : RateLimiter) (al : ClientAllocs) (junk : Z) (env : Env).

Local Abbreviation MoveAppThreadsToCGroup := (MoveAppThreadsToCGroup reg mode maxReq lim al junk env).
Local Abbreviation configureAppSignals := (configureAppSignals sigs reg mode maxReq lim al junk env).
Local Abbreviation post_or_classify := (post_or_classify sigs reg mode maxReq lim al junk env).
Local Abbreviation reShuffle := (reShuffle reg mode maxReq lim al junk env).
Local Abbreviation on_app_open := (on_app_open sigs reg mode maxReq lim al junk env).
Local Abbreviation untuneRequestHelper := (untuneRequestHelper reg mode maxReq lim al junk env).

Lemma MoveApp_tracks pid tid comm cg c h c' h' :
  MoveAppThreadsToCGroup pid tid comm cg (c, h) = Ok (c', h') -> tracks c c'.
Proof.
  unfold Classifier.MoveAppThreadsToCGroup. destruct (e_request env MoveSlot) as [p|].
  2: { intros [= <- <-]. apply tracks_refl. }
  intros ([handle gen] & _ & E)%bind_ok. destruct (getAppConfig comm (h_apps h)) as [app apps].
  apply bind_ok in E as ([[[i s] r]|] & _ & E); [|injection E as <- <-; apply tracks_refl].
  destruct (_ >? 0).
  - apply bind_ok in E as (st & _ & E). injection E as <- <-. apply trackClient_tracks.
  - apply bind_ok in E as (sv & _ & E). injection E as <- <-. apply tracks_refl.
Qed.

Lemma signals_loop_tracks : forall n i codes pid tid c h c' h',
  signals_loop sigs reg mode maxReq lim al junk env n i codes pid tid (c, h) = Ok (c', h') -> tracks c c'.
Proof.
  induction n as [|n IH]; intros i codes pid tid c h c' h' E; cbn [signals_loop] in E.
  - injection E as <- <-. apply tracks_refl.
  - apply bind_ok in E as (cell & _ & E). apply bind_ok in E as (sigId & _ & E).
    apply bind_ok in E as ([handle h1] & _ & E). apply IH in E. eapply tracks_trans; [|exact E].
    case_match; [apply tracks_refl|apply trackClient_tracks].
Qed.

Lemma configure_tracks pid tid comm c h c' h' :
  configureAppSignals pid tid comm (c, h) = Ok (c', h') -> tracks c c'.
Proof.
  unfold Classifier.configureAppSignals. destruct (getAppConfig comm (h_apps h)) as [[a|] apps].
  - destruct (mSignalCodes a); [apply signals_loop_tracks|]. intros [= <- <-]. apply tracks_refl.
  - intros [= <- <-]. apply tracks_refl.
Qed.

Lemma post_tracks ev comm c h c' h' : post_or_classify ev comm (c, h) = Ok (c', h') -> tracks c c'.
Proof.
  unfold Classifier.post_or_classify. destruct (getPostProcessingCallback comm (h_ext h)) as [[cb|] ext].
  - intros ([handle h1] & _ & E)%bind_ok. injection E as <- <-. apply trackClient_tracks.
  - case_match; [intros [= <- <-]; apply tracks_refl|].
    intros ([handle h1] & _ & E)%bind_ok. injection E as <- <-. apply trackClient_tracks.
Qed.

(** ** Eviction *)

(** The handles at the front that belong to [id], and what follows them. *)
Fixpoint own_handles (id : Z) (hs : list (Z * Z)) : list Z :=
  match hs with
  | (i, handle) :: hs => if id =? i then handle :: own_handles id hs else []
  | [] => []
  end.
Definition others (id : Z) (hs : list (Z * Z)) : list (Z * Z) := drop (length (own_handles id hs)) hs.

(** The positive handles untuned one after the other. *)
Fixpoint untune_all (handles : list Z) (h : Host) : result Host :=
  match handles with
  | [] => Ok h
  | handle :: handles =>
    h ← (if handle >? 0 then untuneRequestHelper handle h else Ok h); untune_all handles h
  end.

Lemma evict_loop_spec id : forall hs b h,
  evict_loop reg mode maxReq lim al junk env id hs b h =
  (h ← untune_all (own_handles id hs) h;
   Ok (others id hs, b || negb (length (own_handles id hs) =? 0)%nat, h)).
Proof.
  induction hs as [|[i handle] hs IH]; intros b h; cbn [evict_loop own_handles].
  - cbn. by rewrite orb_false_r.
  - unfold others. cbn [own_handles]. destruct (id =? i).
    + cbn [length drop untune_all]. destruct (if handle >? 0 then _ else _) as [h1|]; [|done].
      cbn [mbind result_bind]. rewrite IH. destruct (untune_all _ _); [|done]. cbn [mbind result_bind].
      by rewrite orb_true_l, orb_true_r.
    + cbn. by rewrite orb_false_r.
Qed.

(** What [reShuffle] is meant to do: at capacity, the oldest client leaves with all its handles. *)
Lemma reShuffle_spec c h :
  reShuffle (c, h) =
  match mCurrRestuneHandles c with
  | [] => Ok (set_active 0 [] c, h)
  | (id, _) :: _ =>
    if mActiveClientCount c >=? mActiveAppThreshold c then
      h ← untune_all (own_handles id (mCurrRestuneHandles c)) h;
      Ok (set_active (if 0 <? mActiveClientCount c then mActiveClientCount c - 1 else mActiveClientCount c)
            (others id (mCurrRestuneHandles c)) c, h)
    else Ok (c, h)
  end.
Proof.
  unfold Classifier.reShuffle. destruct (mCurrRestuneHandles c) as [|[id handle] hs] eqn:E; [done|].
  destruct (_ >=? _); [|done]. rewrite evict_loop_spec.
  destruct (untune_all _ _) as [h1|]; [|done]. cbn [mbind result_bind own_handles].
  by rewrite Z.eqb_refl.
Qed.
End Facts.

(** ** The invariant *)
Definition clients (hs : list (Z * Z)) : gset Z := list_to_set (map fst hs).

(** The clients in the queue are in the order they came, below [bound], and counted. *)
Record core (bound : Z) (c : Classifier) : Prop := {
  co_sorted : StronglySorted Z.le (map fst (mCurrRestuneHandles c));
  co_ids : forall id, id ∈ clients (mCurrRestuneHandles c) -> 0 <= id < bound;
  co_count : mActiveClientCount c = Z.of_nat (size (clients (mCurrRestuneHandles c)));
  co_cap : mActiveClientCount c <= mActiveAppThreshold c;
  co_threshold : 1 <= mActiveAppThreshold c <= 3
}.

Record inv (limit : Z) (c : Classifier) : Prop := {
  iv_limit : mActiveAppThreshold c = limit;
  iv_core : core (mClientTracker c) c;
  iv_tracker : 0 <= mClientTracker c;
  iv_pending : Z.of_nat (length (mPendingEv c)) <= pendingQueueControlSize;
  iv_cache : exists q, lru_rep (mClassifierPidCache c) q /\ (length q <= 30)%nat;
  iv_cache_size : mMaxSize (mClassifierPidCache c) = 30
}.

Lemma others_clients id : forall hs : list (Z * Z), StronglySorted Z.le (map fst hs) -> (forall i, i ∈ map fst hs -> id <= i) ->
  StronglySorted Z.le (map fst (others id hs)) /\ clients (others id hs) = clients hs ∖ {[id]}.
Proof.
  unfold others, clients. induction hs as [|[i x] hs IH]; intros Hs Hle; cbn [own_handles map fst length drop].
  - split; [constructor|set_solver].
  - cbn [map fst] in Hs, Hle. apply StronglySorted_inv in Hs as [Hs Hf].
    destruct (Z.eqb_spec id i) as [<-|Hne]; cbn [length drop map fst].
    + destruct IH as [H1 H2]; [done|intros j Hj; apply Hle; by right|]. split; [done|].
      rewrite H2. cbn [list_to_set]. set_solver.
    + split; [by constructor|]. cbn [list_to_set].
      assert (id ∉ ({[i]} ∪ list_to_set (map fst hs) : gset Z)) as Hni; [|set_solver].
      rewrite elem_of_union, elem_of_singleton, elem_of_list_to_set. intros [?|Hin]; [done|].
      rewrite Forall_forall in Hf. specialize (Hf _ Hin).
      assert (id <= i) by (apply Hle; by left). lia.
Qed.

Lemma filter_none id (hs : list (Z * Z)) : Forall (fun p => p.1 <> id) hs ->
  filter (fun p => p.1 = id) hs = [] /\ filter (fun p => p.1 <> id) hs = hs.
Proof.
  induction 1 as [|p hs Hp _ [IH1 IH2]]; [done|]. by rewrite !filter_cons, decide_False, decide_True, IH1, IH2.
Qed.

(** In a queue in order, the block at the front is all there is of the oldest client. *)
Lemma own_handles_filter id : forall hs : list (Z * Z), StronglySorted Z.le (map fst hs) -> (forall i, i ∈ map fst hs -> id <= i) ->
  own_handles id hs = map snd (filter (fun p => p.1 = id) hs) /\ others id hs = filter (fun p => p.1 <> id) hs.
Proof.
  unfold others. induction hs as [|[i x] hs IH]; intros Hs Hle; [done|].
  cbn [own_handles map fst] in *. apply StronglySorted_inv in Hs as [Hs Hf]. rewrite !filter_cons. cbn [fst].
  destruct (Z.eqb_spec id i) as [<-|Hne].
  - destruct IH as [H1 H2]; [done|intros j Hj; apply Hle; by right|].
    rewrite decide_True, decide_False by (done || tauto). cbn [map snd length drop]. by rewrite H1 at 1.
  - assert (Forall (fun p : Z * Z => p.1 <> id) hs) as Hno.
    { apply Forall_forall. intros p Hp. rewrite Forall_forall in Hf. specialize (Hf p.1).
      assert (id <= i) by (apply Hle; by left). assert (i <= p.1); [|lia].
      apply Hf, list_elem_of_fmap. by exists p. }
    rewrite decide_False, decide_True by lia. cbn [length drop].
    destruct (filter_none id hs Hno) as [-> ->]. done.
Qed.

Lemma head_least id x (hs : list (Z * Z)) : StronglySorted Z.le (map fst ((id, x) :: hs)) ->
  forall i, i ∈ map fst ((id, x) :: hs) -> id <= i.
Proof.
  cbn [map fst]. intros [_ Hf]%StronglySorted_inv i [->|Hi]%elem_of_cons; [lia|].
  rewrite Forall_forall in Hf. by apply Hf.
Qed.

(** Eviction keeps the invariant, and makes room. *)
Lemma evicted_core bound id x hs c :
  core bound c -> mCurrRestuneHandles c = (id, x) :: hs ->
  let c' := set_active (mActiveClientCount c - 1) (others id (mCurrRestuneHandles c)) c in
  core bound c' /\ mActiveClientCount c' < mActiveAppThreshold c'.
Proof.
  intros [Hs Hi Hn Hc Ht] E c'. rewrite E in *.
  destruct (others_clients id _ Hs (head_least _ _ _ Hs)) as [Hs' He].
  assert (id ∈ clients ((id, x) :: hs)) as Hid by (unfold clients; cbn; set_solver).
  assert (size (clients (others id ((id, x) :: hs))) + 1 = size (clients ((id, x) :: hs)))%nat as Hsz.
  { rewrite He, size_difference, size_singleton by set_solver.
    assert (size (clients ((id, x) :: hs)) <> 0)%nat; [|lia]. intros E0%size_empty_inv. set_solver. }
  split; [split|]; cbn [c' set_active mCurrRestuneHandles mActiveClientCount mActiveAppThreshold]; rewrite ?E; try done; try lia.
  intros i Hin. apply Hi. set_solver.
Qed.

Lemma pairs_fst (t : Z) (l : list Z) : map fst (map (pair t) l) = replicate (length l) t.
Proof. induction l as [|x l IH]; [done|]. cbn in *. by rewrite IH. Qed.

Lemma sorted_replicate n (t : Z) : StronglySorted Z.le (replicate n t).
Proof.
  induction n as [|n IH]; cbn; [constructor|]. constructor; [done|].
  apply Forall_forall. intros x [-> _]%elem_of_replicate. lia.
Qed.

(** New handles of the client that is being handled. *)
Lemma tracks_core c c' :
  core (mClientTracker c) c -> 0 <= mClientTracker c ->
  mActiveClientCount c < mActiveAppThreshold c \/ mIsPriorityClient c = true -> tracks c c' ->
  core (mClientTracker c + 1)
    (if (length (mCurrRestuneHandles c) <? length (mCurrRestuneHandles c'))%nat
     then set_active (wrap_u 64 (mActiveClientCount c' + 1)) (mCurrRestuneHandles c') c' else c').
Proof.
  intros [Hs Hi Hn Hc Ht] Htr Hroom (new & Hp & ->).
  cbn [set_active mCurrRestuneHandles mActiveClientCount]. rewrite length_app, length_map.
  destruct new as [|x new].
  - cbn [length map]. rewrite app_nil_r. replace (_ <? _)%nat with false by (symmetry; apply Nat.ltb_ge; lia).
    split; cbn [set_active mCurrRestuneHandles mActiveClientCount mActiveAppThreshold]; try done.
    intros id Hid. specialize (Hi id Hid). lia.
  - destruct Hroom as [Hroom|Hprio]; [|by specialize (Hp Hprio)].
    replace (_ <? _)%nat with true by (symmetry; apply Nat.ltb_lt; cbn; lia).
    assert (clients (mCurrRestuneHandles c ++ map (pair (mClientTracker c)) (x :: new)) =
            {[mClientTracker c]} ∪ clients (mCurrRestuneHandles c)) as Hcl.
    { unfold clients. rewrite map_app, list_to_set_app_L, pairs_fst. apply set_eq. intros id.
      rewrite elem_of_union, !elem_of_list_to_set, elem_of_replicate, elem_of_union, elem_of_singleton,
        elem_of_list_to_set. cbn [length]. naive_solver lia. }
    assert (mClientTracker c ∉ clients (mCurrRestuneHandles c)) as Hni by (intros Hin; specialize (Hi _ Hin); lia).
    split; cbn [set_active mCurrRestuneHandles mActiveClientCount mActiveAppThreshold].
    + rewrite map_app, pairs_fst. apply StronglySorted_app. split_and!; [|done|apply sorted_replicate].
      intros a b Ha [-> _]%elem_of_replicate. specialize (Hi a). unfold clients in Hi.
      rewrite elem_of_list_to_set in Hi. specialize (Hi Ha). lia.
    + rewrite Hcl. intros id [->%elem_of_singleton|Hid]%elem_of_union; [lia|]. specialize (Hi _ Hid). lia.
    + rewrite Hcl, size_union, size_singleton by set_solver. rewrite Hn. unfold wrap_u. rewrite Z.mod_small; [lia|].
      rewrite Hn in Hc. change (2 ^ 64) with 18446744073709551616. lia.
    + unfold wrap_u. rewrite Z.mod_small; [lia|]. change (2 ^ 64) with 18446744073709551616. lia.
    + done.
Qed.

Lemma core_priority b bound c : core bound c -> core bound (set_priority b c).
Proof. intros []. by split. Qed.

Section Steps.
Context (sigs : SignalRegistry) {R : Type} `{!ResourceConfigs R} (reg : R) `{HashOrder}.
Context (mode maxReq : Z) (lim : RateLimiter) (al : ClientAllocs) (junk : Z).

(** An application that opens. *)
Lemma on_app_open_core env ev comm c h c' h' :
  core (mClientTracker c) c -> 0 <= mClientTracker c ->
  on_app_open sigs reg mode maxReq lim al junk env ev comm (c, h) = Ok (c', h') ->
  core (mClientTracker c + 1) c' /\ mClientTracker c' = mClientTracker c /\
  mPendingEv c' = mPendingEv c /\ mClassifierPidCache c' = mClassifierPidCache c /\
  mActiveAppThreshold c' = mActiveAppThreshold c.
Proof.
  intros Hc Ht. unfold on_app_open. cbv zeta.
  remember (set_priority (checkClientPriority comm c) c) as c0 eqn:Ec0. intros ([c1 h1] & E1 & E)%bind_ok.
  apply bind_ok in E as ([c2 h2] & E2 & E). apply bind_ok in E as ([c3 h3] & E3 & E).
  apply bind_ok in E as ([c4 h4] & E4 & E).
  assert (core (mClientTracker c) c1 /\ (exists n hs, c1 = set_active n hs c0) /\
    (mActiveClientCount c1 < mActiveAppThreshold c1 \/ mIsPriorityClient c1 = true)) as (Hc1 & (n1 & hs1 & Ec1) & Hr).
  { assert (core (mClientTracker c) c0) as Hc0 by (subst c0; by apply core_priority).
    destruct (mIsPriorityClient c0) eqn:Hp.
    - injection E1 as <- <-. split; [done|]. split; [|by right].
      exists (mActiveClientCount c0), (mCurrRestuneHandles c0). by destruct c0.
    - rewrite reShuffle_spec in E1. destruct (mCurrRestuneHandles c0) as [|[id x] hs] eqn:Eh.
      + injection E1 as <- <-. split.
        * destruct Hc0 as [_ _ _ _ Hth]. cbn in Hth. split; cbn; [constructor|by intros id Hid%elem_of_empty|done|lia|done].
        * split; [by eexists _, _|]. left. destruct Hc0. cbn in *. lia.
      + destruct (Z.geb_spec (mActiveClientCount c0) (mActiveAppThreshold c0)).
        * apply bind_ok in E1 as (h5 & _ & E1). injection E1 as <- <-.
          destruct (evicted_core _ _ _ _ _ Hc0 Eh) as [He Hl]. rewrite Eh in He, Hl.
          replace (0 <? mActiveClientCount c0) with true
            by (symmetry; apply Z.ltb_lt; destruct Hc0; lia).
          split; [exact He|]. split; [by eexists _, _|]. by left.
        * injection E1 as <- <-. split; [done|]. split; [|left; lia].
          exists (mActiveClientCount c0), (mCurrRestuneHandles c0). by destruct c0. }
  apply MoveApp_tracks in E2. apply configure_tracks in E3. apply post_tracks in E4.
  pose proof (tracks_trans _ _ _ (tracks_trans _ _ _ E2 E3) E4) as Htr.
  assert (mClientTracker c1 = mClientTracker c) as Et by by rewrite Ec1, Ec0.
  rewrite <- Et in Hc1, Ht |- *.
  pose proof (tracks_core c1 c4 Hc1 Ht Hr Htr) as Hfin. injection E as <- <-. split; [exact Hfin|].
  destruct Htr as (new & _ & ->). rewrite Ec1, Ec0.
  repeat split; by match goal with |- context [if ?b then _ else _] => destruct b end.
Qed.

Lemma ClassifierMain_inv limit env c h c' h' :
  inv limit c -> mClientTracker c + 1 < 2 ^ 64 ->
  ClassifierMain sigs reg mode maxReq lim al junk env (c, h) = Ok (c', h') ->
  inv limit c' /\ mClientTracker c' <= mClientTracker c + 1.
Proof.
  intros [Hth Hc Ht Hp Hq Hm] Hlt. unfold ClassifierMain. destruct (mNeedExit c).
  { intros [= <- <-]. split; [by split|lia]. }
  destruct (mPendingEv c) as [|ev q] eqn:Ep.
  { intros [= <- <-]. split; [split; try done; by rewrite Ep|lia]. }
  set (c0 := set_priority false _).
  assert (core (mClientTracker c) c0) as Hc0 by (destruct Hc; by split).
  assert (Z.of_nat (length q) <= pendingQueueControlSize) as Hq' by (cbn in Hp; lia).
  assert (forall c1, core (mClientTracker c1) c1 -> mClientTracker c1 = mClientTracker c \/ mClientTracker c1 = mClientTracker c + 1 ->
    mPendingEv c1 = q -> mClassifierPidCache c1 = mClassifierPidCache c ->
    mActiveAppThreshold c1 = mActiveAppThreshold c -> inv limit c1 /\ mClientTracker c1 <= mClientTracker c + 1) as Hfin.
  { intros c1 H1 H2 H3 H4 H5. split; [split; rewrite ?H3, ?H4, ?H5; try done|]; destruct H2 as [->| ->]; lia. }
  assert (forall b, wrap_u 64 (mClientTracker c + 1) = b -> b = mClientTracker c + 1) as Hw.
  { intros b <-. unfold wrap_u. apply Z.mod_small. lia. }
  destruct (ev_type ev =? CC_APP_OPEN).
  - destruct (ev_pid ev =? -1).
    { intros [= <- <-]. apply Hfin; try done; cbn; rewrite (Hw _ eq_refl); [|by right].
      destruct Hc0 as [? Hi ? ? ?]. split; try done. intros id Hid. specialize (Hi id Hid). lia. }
    destruct (fetchComm _ _ _) as [rc comm]. destruct (negb (rc =? 0)).
    { intros [= <- <-]. apply Hfin; try done. by left. }
    intros ([c1 h1] & E1 & E)%bind_ok. injection E as <- <-.
    destruct (on_app_open_core env ev comm c0 h c1 h1 Hc0 Ht E1) as (Hc1 & H1 & H2 & H3 & H4).
    apply Hfin; try done; cbn; rewrite H1; cbn; rewrite (Hw _ eq_refl); [|by right]. cbn in Hc1. destruct Hc1. by split.
  - destruct (ev_type ev =? CC_APP_CLOSE).
    + unfold on_app_close. intros (gc & _ & E)%bind_ok. injection E as <- <-. apply Hfin; try done. by left.
    + intros [= <- <-]. apply Hfin; try done. by left.
Qed.

(** Kernel events: none makes the listener fault, and the two queues stay bounded. *)
Lemma on_proc_event_inv limit fs rc ev c : inv limit c ->
  exists c', on_proc_event fs rc ev c = Ok c' /\ inv limit c' /\ mClientTracker c' = mClientTracker c.
Proof.
  intros Hi. pose proof Hi as [Hth Hc Ht Hp (q & Hq & Hl) Hm].
  assert (forall cache, (exists q, lru_rep cache q /\ (length q <= 30)%nat) -> mMaxSize cache = 30 ->
    inv limit (set_pending (push_event ev c) cache c)) as Hpush.
  { intros cache H1 H2. split; cbn; try done; [by destruct Hc|].
    unfold push_event. rewrite Z.gtb_ltb.
    destruct (Z.ltb_spec pendingQueueControlSize (Z.of_nat (length (mPendingEv c ++ [ev])))) as [Hgt|Hle]; [|lia].
    rewrite length_app in Hgt. cbn [length] in Hgt.
    destruct (mPendingEv c) as [|e es]; cbn in *; [unfold pendingQueueControlSize in *; lia|].
    rewrite length_app. cbn. lia. }
  unfold on_proc_event.
  destruct ((rc =? CC_IGNORE) || (rc =? -1)); [by exists c|].
  destruct (negb (fileExists fs _)); [by exists c|].
  destruct (rc =? CC_APP_OPEN).
  - destruct (shouldProcBeIgnored _ _ _ _); [by exists c|].
    unfold MinLRUCache_isPresent. case_bool_decide as Hin; [by exists c|].
    destruct Hq as (Hq1 & Hq2 & Hq3).
    destruct (lru_insert_rep (mClassifierPidCache c) q (ev_pid ev)) as (cache & E & Hm' & Hr); [done|..].
    { rewrite Hq2 in Hin. set_solver. }
    { lia. } { rewrite Hm. lia. }
    rewrite E. cbn [mbind result_bind]. eexists. split; [done|]. split; [|done]. apply Hpush; [|by rewrite Hm'].
    eexists. split; [exact Hr|]. rewrite Hm, length_app. cbn [length].
    destruct (Z.eqb_spec (Z.of_nat (length q)) 30); [destruct q; cbn in *; lia|]. lia.
  - destruct (rc =? CC_APP_CLOSE); [|by exists c].
    destruct (shouldProcBeIgnored _ _ _ _); [by exists c|].
    eexists. split; [done|]. split; [|done]. apply Hpush; [by eexists|done].
Qed.

Lemma inv_start acceptMode ignored allowed priority :
  inv (if Z.land acceptMode ACCEPT_AND_PERSIST =? 0 then 1 else 3)
    (set_lists ignored allowed priority (Classifier_init acceptMode)).
Proof.
  split; cbn; try done.
  - split; cbn; [constructor|by intros id Hid%elem_of_empty|done| |]; case_match; lia.
  - exists []. split; [|cbn; lia]. split; [done|]. split; [done|constructor].
Qed.

(** ** Runs

    An event of the kernel, a round of the worker, whatever the rest of the server does in
    between, and the order to stop. *)
Inductive cl_step : Sys -> Sys -> Prop :=
  | cl_event fs rc ev c c' h : on_proc_event fs rc ev c = Ok c' -> cl_step (c, h) (c', h)
  | cl_main env y y' : ClassifierMain sigs reg mode maxReq lim al junk env y = Ok y' -> cl_step y y'
  | cl_server c h h' : cl_step (c, h) (c, h')
  | cl_stop c h : cl_step (c, h) (Terminate c, h).

Lemma cl_step_inv limit c h c' h' : inv limit c -> mClientTracker c + 1 < 2 ^ 64 -> cl_step (c, h) (c', h') ->
  inv limit c' /\ mClientTracker c' <= mClientTracker c + 1.
Proof.
  intros Hi Hlt Hs. inversion Hs as [fs rc ev c1 c2 h1 E|env y y' E|c1 h1 h2|c1 h1]; subst.
  - destruct (on_proc_event_inv limit fs rc ev c Hi) as (c2 & E2 & Hi2 & Ht). rewrite E in E2. injection E2 as <-.
    split; [done|lia].
  - by eapply ClassifierMain_inv.
  - split; [done|lia].
  - split; [|cbn; lia]. destruct Hi as [Hth Hc Ht Hp Hq Hm]. split; try done. destruct Hc. by split.
Qed.

Lemma cl_steps_inv limit : forall n y y', nsteps cl_step n y y' -> inv limit y.1 -> mClientTracker y.1 + Z.of_nat n < 2 ^ 64 ->
  inv limit y'.1 /\ mClientTracker y'.1 <= mClientTracker y.1 + Z.of_nat n.
Proof.
  induction n as [|n IH]; intros y y' Hs Hi Hlt.
  - inversion Hs; subst. split; [done|lia].
  - inversion Hs as [|? ? y1 ? H1 H2]; subst. destruct y as [c h], y1 as [c1 h1].
    destruct (cl_step_inv limit c h c1 h1 Hi ltac:(cbn in Hlt; lia) H1) as [Hi1 Ht1].
    destruct (IH _ _ H2 Hi1) as [Hi2 Ht2]; [cbn in *; lia|]. split; [done|cbn in *; lia].
Qed.
End Steps.

(** ** Events that are lost *)
Fixpoint on_proc_events (fs : FileSystem) (evs : list ProcEvent) (c : Classifier) : result Classifier :=
  match evs with
  | [] => Ok c
  | ev :: evs => c ← on_proc_event fs (ev_type ev) ev c; on_proc_events fs evs c
  end.

(** A process that ends, and whose entry is still there. *)
Definition closing (fs : FileSystem) (ev : ProcEvent) : Prop :=
  ev_type ev = CC_APP_CLOSE /\ fileExists fs (proc_file (ev_pid ev) "comm") = true.

Lemma push_event_last ev c : (length (mPendingEv c) <= 30)%nat ->
  push_event ev c = last_n 30 (mPendingEv c ++ [ev]).
Proof.
  intros Hl. unfold push_event, last_n. rewrite Z.gtb_ltb, length_app. cbn [length].
  destruct (Z.ltb_spec pendingQueueControlSize (Z.of_nat (length (mPendingEv c) + 1))) as [Hgt|Hle];
    unfold pendingQueueControlSize in *.
  - replace (length (mPendingEv c) + 1 - 30)%nat with 1%nat by lia. by destruct (mPendingEv c).
  - by replace (length (mPendingEv c) + 1 - 30)%nat with 0%nat by lia.
Qed.

Lemma last_n_app_last {A} n (xs ys : list A) : last_n n (last_n n xs ++ ys) = last_n n (xs ++ ys).
Proof.
  unfold last_n. rewrite !length_app, length_drop. set (k := (length xs - n)%nat).
  assert (xs ++ ys = take k xs ++ drop k xs ++ ys) as E by by rewrite app_assoc, take_drop.
  rewrite E, (drop_app_ge (take k xs)) by (rewrite length_take; lia). rewrite length_take. f_equal. lia.
Qed.

Lemma closing_events fs : forall evs c, Forall (closing fs) evs -> (length (mPendingEv c) <= 30)%nat ->
  on_proc_events fs evs c = Ok (set_pending (last_n 30 (mPendingEv c ++ evs)) (mClassifierPidCache c) c).
Proof.
  induction evs as [|ev evs IH]; intros c Hf Hl; cbn [on_proc_events].
  - rewrite app_nil_r. unfold last_n. replace (length (mPendingEv c) - 30)%nat with 0%nat by lia. by destruct c.
  - apply Forall_cons in Hf as [[Ht He] Hf].
    assert (on_proc_event fs (ev_type ev) ev c = Ok (set_pending (push_event ev c) (mClassifierPidCache c) c)) as ->.
    { unfold on_proc_event, shouldProcBeIgnored. by rewrite He, Ht. }
    cbn [mbind result_bind]. rewrite push_event_last by done. rewrite IH; [|done|].
    + f_equal. cbn [set_pending mPendingEv mClassifierPidCache].
      rewrite last_n_app_last, <- app_assoc. done.
    + cbn [set_pending mPendingEv]. unfold last_n. rewrite length_drop. lia.
Qed.

(** The events the listener reads, each with the processes there are at that time. *)
Fixpoint listen (evs : list (FileSystem * ProcEvent)) (c : Classifier) : result Classifier :=
  match evs with
  | [] => Ok c
  | (fs, ev) :: evs => c ← on_proc_event fs (ev_type ev) ev c; listen evs c
  end.

Definition openings (evs : list (FileSystem * ProcEvent)) : nat :=
  length (filter (fun e => ev_type e.2 = CC_APP_OPEN) evs).

(** [pid] is in the cache of duplicates, with at most [n] younger ones. *)
Definition cached (pid : Z) (n : nat) (c : Classifier) : Prop :=
  mMaxSize (mClassifierPidCache c) = 30 /\
  exists q1 q2, lru_rep (mClassifierPidCache c) (q1 ++ pid :: q2) /\ (length q2 <= n)%nat /\
    (length (q1 ++ pid :: q2) <= 30)%nat.

Lemma cached_present pid n c : cached pid n c -> MinLRUCache_isPresent pid (mClassifierPidCache c) = true.
Proof.
  intros (_ & q1 & q2 & (_ & Hs & _) & _). unfold MinLRUCache_isPresent. rewrite Hs. apply bool_decide_eq_true. set_solver.
Qed.

Lemma lru_insert_cached c q pid : lru_rep (mClassifierPidCache c) q -> mMaxSize (mClassifierPidCache c) = 30 ->
  pid ∉ q -> (length q <= 30)%nat ->
  exists cache, MinLRUCache_insert pid (mClassifierPidCache c) = Ok cache /\
    forall l c', cached pid 0 (set_pending l cache c').
Proof.
  intros Hr Hm Hx Hl. destruct (lru_insert_rep _ q pid Hr Hx) as (cache & E & Hm' & Hq); [lia|lia|].
  exists cache. split; [done|]. intros l c'. split; [cbn; congruence|]. eexists _, []. split; [exact Hq|]. split; [done|].
  rewrite length_app. cbn [length]. destruct (Z.eqb_spec (Z.of_nat (length q)) (mMaxSize (mClassifierPidCache c))); [|lia].
  destruct q; cbn in *; lia.
Qed.

(** One more event ages the entry by one, if it is an opening. *)
Lemma on_proc_event_cached pid n fs ev c : cached pid n c -> (n < 29)%nat \/ ev_type ev <> CC_APP_OPEN ->
  exists c', on_proc_event fs (ev_type ev) ev c = Ok c' /\
    cached pid (if decide (ev_type ev = CC_APP_OPEN) then S n else n) c'.
Proof.
  intros Hc Hn. assert (cached pid (if decide (ev_type ev = CC_APP_OPEN) then S n else n) c) as Hup.
  { destruct Hc as (Hm & q1 & q2 & Hr & Hl & Hlen). split; [done|]. exists q1, q2. case_decide; split_and!; try done; lia. }
  unfold on_proc_event. destruct (_ || _); [by exists c|]. destruct (negb _); [by exists c|].
  destruct (Z.eqb_spec (ev_type ev) CC_APP_OPEN) as [Eo|No].
  2: { rewrite decide_False in Hup |- * by done. destruct (_ =? _); [|by exists c].
       destruct (shouldProcBeIgnored _ _ _ _); [by exists c|]. eexists. by split. }
  destruct (shouldProcBeIgnored _ _ _ _); [by exists c|]. unfold MinLRUCache_isPresent. case_bool_decide as Hin; [by exists c|].
  destruct Hn as [Hn|]; [|done]. rewrite decide_True by done. destruct Hc as (Hm & q1 & q2 & Hr & Hl & Hlen).
  destruct (lru_insert_rep _ _ (ev_pid ev) Hr) as (cache & E & Hm' & Hq); [|lia|lia|].
  { destruct Hr as (_ & Hs & _). rewrite Hs in Hin. set_solver. }
  rewrite E. cbn [mbind result_bind]. eexists. split; [done|]. split; [cbn; congruence|]. rewrite Hm in Hq.
  destruct (Z.eqb_spec (Z.of_nat (length (q1 ++ pid :: q2))) 30) as [E30|N30].
  - rewrite length_app in E30. destruct q1 as [|y q1]; cbn [app tail length] in *; [lia|].
    exists q1, (q2 ++ [ev_pid ev]). rewrite <- app_assoc in Hq. rewrite !length_app in *. cbn [length] in *.
    split_and!; [exact Hq|lia|rewrite length_app; cbn [length]; lia].
  - exists q1, (q2 ++ [ev_pid ev]). rewrite <- app_assoc in Hq. rewrite !length_app in *. cbn [length] in *.
    split_and!; [exact Hq|lia|rewrite length_app; cbn [length]; lia].
Qed.

Lemma listen_cached pid : forall evs n c, cached pid n c -> (n + openings evs < 30)%nat ->
  exists c', listen evs c = Ok c' /\ cached pid (n + openings evs) c'.
Proof.
  unfold openings. induction evs as [|[fs ev] evs IH]; intros n c Hc Hn; cbn [listen].
  - exists c. by rewrite Nat.add_0_r.
  - destruct (on_proc_event_cached pid n fs ev c Hc) as (c1 & -> & Hc1).
    { rewrite filter_cons in Hn. cbn [snd] in Hn. case_decide; cbn [length] in Hn; [left; lia|by right]. }
    cbn [mbind result_bind]. rewrite filter_cons in Hn |- *. cbn [snd] in *. case_decide; cbn [length] in *.
    + destruct (IH (S n) c1 Hc1) as (c' & -> & Hc'); [lia|]. exists c'. split; [done|]. by rewrite Nat.add_succ_r.
    + by apply IH.
Qed.

(** A duplicate is ignored, whatever the process is by now. *)
Lemma open_present fs ev c : MinLRUCache_isPresent (ev_pid ev) (mClassifierPidCache c) = true ->
  on_proc_event fs CC_APP_OPEN ev c = Ok c.
Proof. intros E. unfold on_proc_event. cbn. rewrite E. by repeat case_match. Qed.

(** ** Properties *)

(** C18: whatever events arrive and in whatever order, the number of active clients
    the classifier counts is the number of clients it keeps handles of, at most one (three
    in multi-app mode), the queue of events holds at most 30, no event makes the listener
    fault; and making room for a new application untunes every handle of the oldest
    client, those alone, and only at capacity. *)
Theorem Classifier_capacity (sigs : SignalRegistry) {R : Type} `{!ResourceConfigs R} (reg : R) `{HashOrder}
    (mode maxReq : Z) (lim : RateLimiter) (al : ClientAllocs) (junk : Z) (acceptMode : Z)
    (ignored allowed priority : gset string) (n : nat) (h0 : Host) (c : Classifier) (h : Host) :
  nsteps (cl_step sigs reg mode maxReq lim al junk) n
    (set_lists ignored allowed priority (Classifier_init acceptMode), h0) (c, h) -> Z.of_nat n < 2 ^ 64 ->
  mActiveClientCount c = Z.of_nat (size (clients (mCurrRestuneHandles c))) /\
  mActiveClientCount c <= (if Z.land acceptMode ACCEPT_AND_PERSIST =? 0 then 1 else 3) /\
  Z.of_nat (length (mPendingEv c)) <= pendingQueueControlSize /\
  (forall fs rc ev, exists c', on_proc_event fs rc ev c = Ok c') /\
  (forall env, reShuffle reg mode maxReq lim al junk env (c, h) =
    match mCurrRestuneHandles c with
    | [] => Ok (c, h)
    | (oldest, _) :: _ =>
      if mActiveClientCount c >=? mActiveAppThreshold c then
        h ← untune_all reg mode maxReq lim al junk env
              (map snd (filter (fun p => p.1 = oldest) (mCurrRestuneHandles c))) h;
        Ok (set_active (mActiveClientCount c - 1) (filter (fun p => p.1 <> oldest) (mCurrRestuneHandles c)) c, h)
      else Ok (c, h)
    end).
Proof.
  intros Hs Hn. eapply cl_steps_inv in Hs as [Hi _]; [|apply inv_start|exact Hn]. cbn [fst] in Hi. pose proof Hi as [Hth Hc Ht Hp Hq Hm]. pose proof Hc as [Hso Hid Hco Hca Htr].
  rewrite <- Hth. split_and!; try done.
  - intros fs rc ev. destruct (on_proc_event_inv _ fs rc ev c Hi) as (c' & E & _). by exists c'.
  - intros env. rewrite reShuffle_spec. destruct (mCurrRestuneHandles c) as [|[id x] hs] eqn:E.
    + do 2 f_equal. replace 0 with (mActiveClientCount c) by (by rewrite Hco). rewrite <- E. by destruct c.
    + destruct (own_handles_filter id _ Hso (head_least _ _ _ Hso)) as [-> ->].
      destruct (Z.geb_spec (mActiveClientCount c) (mActiveAppThreshold c)); [|done].
      by replace (0 <? mActiveClientCount c) with true by lia.
Qed.

(** C19: a burst of closing processes makes the classifier lose an application: the event of an
    application that opens is accepted, then dropped from the queue by thirty later ones,
    while its pid stays in the cache of duplicates, which holds thirty.  The application, or a later
    process that is given the same pid, is then ignored, whatever else happens, as long as
    fewer than thirty further events are openings; only after that can the pid have left
    the cache. *)
Theorem Classifier_lost_events (limit : Z) (fs : FileSystem) (ev : ProcEvent) (evs : list ProcEvent) (c : Classifier) :
  inv limit c -> ev_type ev = CC_APP_OPEN -> fileExists fs (proc_file (ev_pid ev) "comm") = true ->
  shouldProcBeIgnored fs CC_APP_OPEN (ev_pid ev) c = false ->
  MinLRUCache_isPresent (ev_pid ev) (mClassifierPidCache c) = false ->
  Forall (closing fs) evs -> (30 <= length evs)%nat ->
  exists c1 c2, on_proc_event fs CC_APP_OPEN ev c = Ok c1 /\ (ev ∈ mPendingEv c1) /\
    on_proc_events fs evs c1 = Ok c2 /\ mPendingEv c2 = last_n 30 evs /\ (ev ∉ mPendingEv c2) /\
    (forall later, (openings later < 30)%nat -> exists c3, listen later c2 = Ok c3 /\
       forall fs' ev', ev_pid ev' = ev_pid ev -> on_proc_event fs' CC_APP_OPEN ev' c3 = Ok c3).
Proof.
  intros Hi Hty Hf Hig Hpr Hcl Hlen. destruct Hi as [Hth Hc Ht Hp (q & Hq & Hl) Hm].
  unfold pendingQueueControlSize in Hp.
  destruct (lru_insert_cached c q (ev_pid ev) Hq Hm) as (cache & E & Hin); [|done|].
  { destruct Hq as (_ & Hq2 & _). unfold MinLRUCache_isPresent in Hpr. apply bool_decide_eq_false in Hpr. set_solver. }
  exists (set_pending (push_event ev c) cache c). eexists. split.
  { unfold on_proc_event. rewrite Hf, Hty, Hig, Hpr. cbn [negb orb Z.eqb CC_IGNORE CC_APP_OPEN Pos.eqb].
    by rewrite E. }
  assert (ev ∈ push_event ev c /\ (length (push_event ev c) <= 30)%nat) as [Hev Hle].
  { rewrite push_event_last by lia. unfold last_n. rewrite length_app. cbn [length]. rewrite drop_app_le by lia.
    split; [set_solver|]. rewrite length_app, length_drop. cbn. lia. }
  split; [done|]. split; [by apply closing_events|]. cbn [set_pending mPendingEv mClassifierPidCache].
  assert (last_n 30 (push_event ev c ++ evs) = last_n 30 evs) as El.
  { unfold last_n. rewrite length_app, drop_app_ge by lia. f_equal. lia. }
  split; [done|]. rewrite El. split.
  - intros Hin'. unfold last_n in Hin'. apply subseteq_drop in Hin'.
    rewrite Forall_forall in Hcl. destruct (Hcl _ Hin') as [Hcy _]. rewrite Hty in Hcy. done.
  - intros later Hk. match goal with |- context [listen later ?c2] =>
      destruct (listen_cached (ev_pid ev) later 0 c2) as (c3 & E3 & Hc3); [apply Hin|exact Hk|] end.
    exists c3. split; [exact E3|]. intros fs' ev' Epid. apply open_present. rewrite Epid. by eapply cached_present.
Qed.

(** ** A run: two applications open, in single-app mode *)
Definition sample_fs : FileSystem :=
  fs_with {["/proc/10"%string := ""%string; "/proc/10/comm"%string := "editor"%string;
            "/proc/11"%string := ""%string; "/proc/11/comm"%string := "player"%string]}.

(** Requests are allocated from [base] on; the model says an ordinary application, and no
    block is left for its signal. *)
Definition sample_env (base : positive) : Env :=
  mkEnv sample_fs
    (fun slot => match slot with MoveSlot => Some base | UntuneSlot _ => Some (base + 1)%positive | _ => None end)
    (fun _ => ample (fun i => (base + Z.to_pos (i + 2))%positive)) zero_msg 1000 (fun _ => CC_APP) (fun _ _ h => Ok (-1, h)).

Definition sample_host : Host :=
  mkHost (mkSigServer
    (mkServer (CocoTable.mkWorld (mkStore ∅ ∅ ∅) (CocoTable.CocoTable_init (CocoTable.one_resource HIGHER_BETTER APPLY_GLOBAL) [] [] 8 2 0) [])
       ∅ ClientDataManager_init RequestManager.RequestManager_init OrderedQueue.OrderedQueue_init TargetRegistry.TargetRegistry_init) 0)
    0 ∅ Extensions_init [].

Definition sample_round (base : positive) (pid : Z) (y : Sys) : result Sys :=
  let order := sorted_hash_order in
  c ← on_proc_event sample_fs CC_APP_OPEN (mkEvent pid pid CC_APP_OPEN) y.1;
  ClassifierMain SignalRegistry_init (CocoTable.one_resource HIGHER_BETTER APPLY_GLOBAL) MODE_RESUME 60 default_limiter
    all_blocks 0 (sample_env base) (c, y.2).
Definition sample_run : result Sys :=
  y ← sample_round 10 10 (set_lists ∅ ∅ ∅ (Classifier_init 0), sample_host); sample_round 20 11 y.

Definition sample_step : Sys -> Sys -> Prop :=
  let order := sorted_hash_order in
  cl_step SignalRegistry_init (CocoTable.one_resource HIGHER_BETTER APPLY_GLOBAL) MODE_RESUME 60 default_limiter all_blocks 0.

Lemma sample_round_steps base pid y y' : sample_round base pid y = Ok y' -> nsteps sample_step 2 y y'.
Proof.
  unfold sample_round. intros (c & E1 & E2)%bind_ok. destruct y as [c0 h0].
  eapply nsteps_l; [exact (cl_event _ _ _ _ _ _ _ _ _ _ _ _ _ E1)|].
  eapply nsteps_l; [exact (cl_main _ _ _ _ _ _ _ _ _ _ E2)|]. constructor.
Qed.

Lemma sample_run_steps c h : sample_run = Ok (c, h) ->
  nsteps sample_step 4 (set_lists ∅ ∅ ∅ (Classifier_init 0), sample_host) (c, h).
Proof.
  intros (y & E1%sample_round_steps & E2%sample_round_steps)%bind_ok.
  exact (nsteps_trans 2 2 _ _ _ E1 E2).
Qed.

(** The second application takes the place of the first, whose handle 1 is untuned. *)
Lemma Classifier_capacity_witness :
  exists c h, sample_run = Ok (c, h) /\ mCurrRestuneHandles c = [(1, 2)] /\
    mActiveClientCount c <= 1 /\
    map snd (OrderedQueue.mOrderedQueue (sv_queue (ss_server (h_server h)))) = map RequestManager.QRequest [10; 21; 20]%positive.
Proof.
  set (order := sorted_hash_order).
  assert (exists c h, sample_run = Ok (c, h)) as (c & h & E).
  { vm_compute. eexists _, _. reflexivity. }
  exists c, h. split; [exact E|].
  destruct (Classifier_capacity SignalRegistry_init (CocoTable.one_resource HIGHER_BETTER APPLY_GLOBAL) MODE_RESUME 60
    default_limiter all_blocks 0 0 ∅ ∅ ∅ 4 sample_host c h (sample_run_steps c h E)) as (_ & Hle & _); [reflexivity|].
  split; [|split; [exact Hle|]]; vm_compute in E; by injection E as <- <-.
Defined.

Lemma Classifier_lost_events_witness :
  let ev := mkEvent 10 10 CC_APP_OPEN in
  let evs := replicate 30 (mkEvent 11 11 CC_APP_CLOSE) in
  let later := replicate 29 (sample_fs, mkEvent 11 11 CC_APP_OPEN) in
  exists c1 c2 c3, on_proc_event sample_fs CC_APP_OPEN ev (Classifier_init 0) = Ok c1 /\
    on_proc_events sample_fs evs c1 = Ok c2 /\ mPendingEv c2 = evs /\ listen later c2 = Ok c3 /\
    on_proc_event sample_fs CC_APP_OPEN ev c3 = Ok c3.
Proof.
  intros ev evs later.
  destruct (Classifier_lost_events 1 sample_fs ev evs (Classifier_init 0)) as (c1 & c2 & E1 & _ & E2 & E3 & _ & E4);
    [exact (inv_start 0 ∅ ∅ ∅)|reflexivity..| |reflexivity|].
  - repeat constructor.
  - destruct (E4 later) as (c3 & E5 & E6); [vm_compute; lia|].
    exists c1, c2, c3. split_and!; [exact E1|exact E2|by rewrite E3|exact E5|by apply E6].
Defined.
