(* ===== verification/ClassifierThreads.v ===== *)
(** [contextual-classifier/ContextualClassifier.cpp]: the two threads of the classifier and the one
    that stops it, as a step relation with one step per critical section; and the module that
    loads the classifier ([ContextualClassifierInit.cpp]). *)
From S2P Require Import Prelude UrmTypes AuxRoutines ResourceRegistry Double ClientDataManager RateLimiter.
From S2P Require Import SignalRegistry Classifier ClassifierFacts.
Open Scope string_scope.
Open Scope list_scope.
Open Scope Z_scope.

(** ** The state *)

(** The worker: before [ClassifierMain] owns [mQueueMutex], in a turn of its loop or woken from
    its wait; owning it, when it tests the condition of the wait; blocked in the wait. *)
Inductive Worker := NoWorker | Locking | Holding | Waiting | Returned.
Inductive Listener := NoListener | Listening | Ended.

(** [Terminate]: before it is called, before it owns [mQueueMutex], in the [join] of the listener,
    in that of the worker, and once it has returned. *)
Inductive Stopper := Idle | Stopping | JoinListener | JoinWorker | Stopped.
Inductive Owner := ByWorker | ByStopper.

Record Threads := mkThreads {
  t_sys : Sys;
  t_mutex : option Owner;      (* [mQueueMutex] *)
  t_worker : Worker;
  t_listener : Listener;
  t_stopper : Stopper
}.

Definition worker_joinable (w : Worker) : bool := match w with NoWorker => false | _ => true end.
Definition listener_joinable (l : Listener) : bool := match l with NoListener => false | _ => true end.

(** ** Init, on the outcomes of the two calls on the socket

    [None]: a thread object that is joinable is assigned, which ends the process. *)
Definition Init (configsDir : string) (fs : FileSystem) (connected listening : bool) (t : Threads)
  : option (Threads * ErrCode) :=
  let y := (loadStaticProcData configsDir fs (t_sys t).1, (t_sys t).2) in
  if worker_joinable (t_worker t) then None else
  let t := mkThreads y (t_mutex t) Locking (t_listener t) (t_stopper t) in
  if negb connected then Some (t, RC_SOCKET_OP_FAILURE) else
  if negb listening then Some (t, RC_SOCKET_OP_FAILURE) else
  if listener_joinable (t_listener t) then None else
  Some (mkThreads y (t_mutex t) Locking Listening (t_stopper t), RC_SUCCESS).

(** ** ContextualClassifierInit.cpp

    [St] is the rest of the state; [ccInit] and [ccTerminate] are the two functions of the
    shared object. *)
Record CcModule := mkCc { g_cc_handle : option positive; g_cc_init : bool; g_cc_term : bool }.
Definition CcModule_init : CcModule := mkCc None false false.

Section Module.
Context {St : Type} (ccInit : St -> St * ErrCode) (ccTerminate : St -> St).

(** [init]: what [dlopen] returned, and whether the two symbols were found. *)
Definition init (dlopened : option positive) (has_init has_term : bool) (m : CcModule) (s : St) : CcModule * St * ErrCode :=
  match g_cc_handle m with
  | Some _ => if g_cc_init m then let '(s, rc) := ccInit s in (m, s, rc) else (m, s, RC_SUCCESS)
  | None =>
    match dlopened with
    | None => (m, s, RC_SUCCESS)
    | Some handle =>
      if negb has_init then (CcModule_init, s, RC_SUCCESS) else
      if negb has_term then (CcModule_init, s, RC_SUCCESS) else
      let '(s, rc) := ccInit s in (mkCc (Some handle) true true, s, rc)
    end
  end.

Definition terminate (m : CcModule) (s : St) : CcModule * St :=
  (CcModule_init, if g_cc_term m then ccTerminate s else s).
End Module.

(** ** Steps *)
Section Threads.
Context (sigs : SignalRegistry) {R : Type} `{!ResourceConfigs R} (reg : R) `{HashOrder}.
Context (mode maxReq : Z) (lim : RateLimiter) (al : ClientAllocs) (junk : Z).

Inductive th_step : Threads -> Threads -> Prop :=
  (* [lock(mQueueMutex)], or the end of a wait *)
  | worker_lock y l s : th_step (mkThreads y None Locking l s) (mkThreads y (Some ByWorker) Holding l s)
  (* nothing to do: [wait] gives the mutex back *)
  | worker_wait c h l s : mPendingEv c = [] -> mNeedExit c = false ->
      th_step (mkThreads (c, h) (Some ByWorker) Holding l s) (mkThreads (c, h) None Waiting l s)
  (* a notification, or a spurious wake-up *)
  | worker_wake y m l s : th_step (mkThreads y m Waiting l s) (mkThreads y m Locking l s)
  | worker_return c h l s : mNeedExit c = true ->
      th_step (mkThreads (c, h) (Some ByWorker) Holding l s) (mkThreads (c, h) None Returned l s)
  (* one event, the mutex held until it has been dealt with *)
  | worker_event env c h y l s : mPendingEv c <> [] -> mNeedExit c = false ->
      ClassifierMain sigs reg mode maxReq lim al junk env (c, h) = Ok y ->
      th_step (mkThreads (c, h) (Some ByWorker) Holding l s) (mkThreads y None Locking l s)
  (* [HandleProcEv] *)
  | listener_event fs rc ev c c' h w s : on_proc_event fs rc ev c = Ok c' ->
      th_step (mkThreads (c, h) None w Listening s) (mkThreads (c', h) None w Listening s)
  | listener_end y m w s : th_step (mkThreads y m w Listening s) (mkThreads y m w Ended s)
  (* the rest of the server *)
  | server_moves c h h' m w l s : th_step (mkThreads (c, h) m w l s) (mkThreads (c, h') m w l s)
  (* [Terminate] *)
  | stop_called y m w l : th_step (mkThreads y m w l Idle) (mkThreads y m w l Stopping)
  | stop_locks c h w l : th_step (mkThreads (c, h) None w l Stopping)
      (mkThreads (Terminate c, h) (Some ByStopper) w l JoinListener)
  | stop_joins_listener y w l : l <> Listening ->
      th_step (mkThreads y (Some ByStopper) w l JoinListener) (mkThreads y (Some ByStopper) w l JoinWorker)
  | stop_returns y w l : w = NoWorker \/ w = Returned ->
      th_step (mkThreads y (Some ByStopper) w l JoinWorker) (mkThreads y None w l Stopped).

(** ** Facts *)

(** A step of a thread is a step of the classifier as ClassifierFacts.v knows it, or none. *)
Lemma th_step_cl t t' : th_step t t' -> t_sys t' = t_sys t \/ cl_step sigs reg mode maxReq lim al junk (t_sys t) (t_sys t').
Proof.
  intros Hs. destruct Hs; cbn; try (by left); right; by econstructor.
Qed.

(** Either [Terminate] has not got the mutex yet, and nobody asked the worker to stop; or it
    has it, and the worker is somewhere it needs the mutex to leave. *)
Definition before_stop (t : Threads) : Prop :=
  mNeedExit (t_sys t).1 = false /\ (t_stopper t = Idle \/ t_stopper t = Stopping) /\ t_mutex t <> Some ByStopper /\
  (t_worker t = Holding <-> t_mutex t = Some ByWorker) /\ t_worker t <> Returned /\ t_worker t <> NoWorker.
Definition stuck (t : Threads) : Prop :=
  mNeedExit (t_sys t).1 = true /\ mPendingEv (t_sys t).1 = [] /\ (t_stopper t = JoinListener \/ t_stopper t = JoinWorker) /\
  t_mutex t = Some ByStopper /\ (t_worker t = Locking \/ t_worker t = Waiting).

Lemma on_proc_event_exit fs rc ev c c' : on_proc_event fs rc ev c = Ok c' -> mNeedExit c' = mNeedExit c.
Proof.
  unfold on_proc_event. intros E. repeat case_match; simplify_eq/=; try done.
  apply bind_ok in E as (cache & _ & E). by simplify_eq.
Qed.

Lemma tracks_exit c c' : tracks c c' -> mNeedExit c' = mNeedExit c.
Proof. by intros (new & _ & ->). Qed.

Lemma on_app_open_exit env ev comm c h c' h' :
  on_app_open sigs reg mode maxReq lim al junk env ev comm (c, h) = Ok (c', h') -> mNeedExit c' = mNeedExit c.
Proof.
  unfold on_app_open. cbv zeta. intros ([c1 h1] & E1 & E)%bind_ok. apply bind_ok in E as ([c2 h2] & E2 & E).
  apply bind_ok in E as ([c3 h3] & E3 & E). apply bind_ok in E as ([c4 h4] & E4 & E).
  apply MoveApp_tracks, tracks_exit in E2. apply configure_tracks, tracks_exit in E3. apply post_tracks, tracks_exit in E4.
  assert (mNeedExit c1 = mNeedExit c) as E1'.
  { destruct (mIsPriorityClient _); [by simplify_eq|]. rewrite reShuffle_spec in E1.
    repeat case_match; simplify_eq/=; try done; apply bind_ok in E1 as (h5 & _ & E1); by simplify_eq. }
  assert (mNeedExit c4 = mNeedExit c) as E5 by congruence. by case_match; simplify_eq/=.
Qed.

Lemma ClassifierMain_exit env c h c' h' :
  ClassifierMain sigs reg mode maxReq lim al junk env (c, h) = Ok (c', h') -> mNeedExit c' = mNeedExit c.
Proof.
  unfold ClassifierMain, on_app_close. destruct (mNeedExit c) eqn:En; [by intros [= <- <-]|].
  destruct (mPendingEv c); [by intros [= <- <-]|]. intros E. repeat case_match; simplify_eq/=; try done.
  - apply bind_ok in E as ([c1 h1] & E1%on_app_open_exit & E). simplify_eq/=. by rewrite E1.
  - apply bind_ok in E as (gc & _ & E). by simplify_eq.
Qed.

Lemma th_step_stop t t' : th_step t t' -> before_stop t \/ stuck t -> before_stop t' \/ stuck t'.
Proof.
  unfold before_stop, stuck. intros Hs.
  destruct Hs as [| | | |env c h [c' h'] l s Hp Hn E|fs rc ev c c' h w s E| | | |c h w l| |]; cbn;
    try (apply ClassifierMain_exit in E); try (apply on_proc_event_exit in E); try rewrite E;
    intros [(B1 & B2 & B3 & B4 & B5 & B6)|(B1 & B2 & B3 & B4 & B5)]; try congruence;
    try (left; split_and!; intuition congruence); try (right; split_and!; intuition congruence).
  - right. split_and!; try done; [by left|]. destruct w; naive_solver congruence.
Qed.

Lemma th_steps_stop t t' : rtc th_step t t' -> before_stop t \/ stuck t -> before_stop t' \/ stuck t'.
Proof. induction 1; eauto using th_step_stop. Qed.

(** A classifier that was never stopped, whose [Init] has just returned. *)
Lemma Init_before_stop dir fs connected listening c h t rc : mNeedExit c = false ->
  Init dir fs connected listening (mkThreads (c, h) None NoWorker NoListener Idle) = Some (t, rc) -> before_stop t.
Proof.
  intros Hn. unfold Init, loadStaticProcData. cbn. intros E.
  repeat case_match; simplify_eq/=; unfold before_stop; cbn; intuition congruence.
Qed.

(** C17: the classifier cannot be stopped.  [Terminate] joins the worker while it holds the
    mutex that the worker needs to leave its wait: whatever the threads do, however [Init]
    ended, [Terminate] never returns; once it holds the mutex, it keeps it, and no event is
    handled any more.  Until then each step of a thread is a step of the classifier. *)
Theorem Terminate_never_returns (configsDir : string) (fs : FileSystem) (connected listening : bool)
    (c : Classifier) (h : Host) (t : Threads) (rc : ErrCode) (ts : Threads) :
  mNeedExit c = false ->
  Init configsDir fs connected listening (mkThreads (c, h) None NoWorker NoListener Idle) = Some (t, rc) ->
  rtc th_step t ts ->
  t_stopper ts <> Stopped /\ t_worker ts <> Returned /\
  (t_mutex ts = Some ByStopper -> forall ts', rtc th_step ts ts' ->
     t_mutex ts' = Some ByStopper /\ mPendingEv (t_sys ts').1 = []) /\
  rtc (cl_step sigs reg mode maxReq lim al junk) (t_sys t) (t_sys ts).
Proof.
  intros Hn Ei Hr. pose proof (Init_before_stop _ _ _ _ _ _ _ _ Hn Ei) as Hb.
  pose proof (th_steps_stop _ _ Hr (or_introl Hb)) as Hi. split_and!.
  - destruct Hi as [(_ & B & _)|(_ & _ & B & _)]; intuition congruence.
  - destruct Hi as [(_ & _ & _ & _ & B & _)|(_ & _ & _ & _ & B)]; intuition congruence.
  - intros Hm ts' Hr'. destruct Hi as [(_ & _ & B & _)|Hst]; [done|].
    assert (stuck ts') as (_ & ? & _ & ? & _); [|done].
    clear -Hst Hr'. induction Hr' as [|t1 t2 t3 Hs _ IH]; [done|]. apply IH.
    destruct (th_step_stop _ _ Hs (or_intror Hst)) as [(_ & Bs & _)|?]; [|done].
    exfalso. destruct Hst as (_ & _ & Hp & Hm & _). destruct Hs; cbn in *; intuition congruence.
  - clear -Hr. induction Hr as [|t1 t2 t3 Hs _ IH]; [done|].
    destruct (th_step_cl _ _ Hs) as [E|E]; [by rewrite <- E|by eapply rtc_l].
Qed.
End Threads.

(** The connection to the kernel fails, the daemon gives up and stops the classifier. *)
Lemma Terminate_never_returns_witness :
  let y := (Classifier_init 0, sample_host) in
  let t := mkThreads y None Locking NoListener Idle in
  let ts := mkThreads (Terminate (Classifier_init 0), sample_host) (Some ByStopper) Locking NoListener JoinWorker in
  let order := sorted_hash_order in
  let step := th_step SignalRegistry_init (CocoTable.one_resource HIGHER_BETTER APPLY_GLOBAL) MODE_RESUME 60
                default_limiter all_blocks 0 in
  Init "/etc/" sample_fs false true (mkThreads y None NoWorker NoListener Idle) = Some (t, RC_SOCKET_OP_FAILURE) /\
  rtc step t ts /\ (forall ts', rtc step ts ts' -> t_stopper ts' <> Stopped).
Proof.
  intros y t ts order step.
  assert (Init "/etc/" sample_fs false true (mkThreads y None NoWorker NoListener Idle) = Some (t, RC_SOCKET_OP_FAILURE))
    as E by reflexivity.
  assert (rtc step t ts) as Hr.
  { eapply rtc_l; [apply stop_called|]. eapply rtc_l; [apply stop_locks|].
    apply rtc_once, stop_joins_listener. discriminate. }
  split; [exact E|]. split; [exact Hr|]. intros ts' Hr'.
  refine (proj1 (Terminate_never_returns SignalRegistry_init (CocoTable.one_resource HIGHER_BETTER APPLY_GLOBAL)
    MODE_RESUME 60 default_limiter all_blocks 0 "/etc/" sample_fs false true _ _ _ _ ts' _ E _)); [reflexivity|].
  etrans; [exact Hr|exact Hr'].
Defined.
