(* ===== verification/Plugins.v ===== *)
(** [plugins/Extensions]: the callbacks a target's plugins register.  PreemptRtExtn.cpp and
    PredefCallbacks.cpp write kernel settings and put them back, CamPostProcessing.cpp
    and GenieT2T.cpp look at an application that starts (Classifier.v calls them).

    The saved settings are static variables of the plugins.  Files are those of AuxRoutines.v;
    the memory the plugins allocate is taken to be there. *)
From Stdlib Require Import Ascii.
From S2P Require Import Prelude UrmTypes StdString Message Resource AuxRoutines TargetRegistry ResourceRegistry Extensions.
From S2P Require Import Double ClientDataManager RateLimiter Request Server Wire UrmPlatformAL SignalRegistry SignalHandler Classifier.
Open Scope string_scope.
Open Scope list_scope.
Open Scope Z_scope.

(** ** Helpers.cpp *)
Definition EINVAL : Z := 22.
Definition EIO : Z := 5.

Fixpoint trim_end (s : string) : string :=
  match s with
  | EmptyString => ""
  | String c s' =>
    match trim_end s' with
    | EmptyString => if isspace c then "" else String c ""
    | t => String c t
    end
  end.
Definition trim (s : string) : string := trim_end (skip_spaces s).

Definition isWritable (fs : FileSystem) (path : string) : bool :=
  negb (String.eqb path "") && fileWritable fs path.

Definition writeLineToFile (fs : FileSystem) (fileName value : string) : Z * FileSystem :=
  if String.eqb fileName "" then (EINVAL, fs) else
  if negb (fs_openable_w fs fileName) then (EIO, fs) else (0, set_files <[fileName := value]> fs).

(** [getline] fails on a file without a character. *)
Definition readLineFromFile (fs : FileSystem) (fileName : string) : option string :=
  if String.eqb fileName "" then None else
  match fs_files fs !! fileName with
  | None | Some EmptyString => None
  | Some content => Some (first_line content)
  end.

Definition fetchMachineName (fs : FileSystem) : string :=
  match readLineFromFile fs "/sys/devices/soc0/machine" with
  | None => ""
  | Some v => toLowerCase (trim v)
  end.

(** ** PreemptRtExtn.cpp *)

(** [strstr]: what is left from the first occurrence on. *)
Fixpoint strstr (s pat : string) : option string :=
  if String.prefix pat s then Some s else
  match s with String _ s' => strstr s' pat | EmptyString => None end.
Definition has (s pat : string) : bool := bool_decide (is_Some (strstr s pat)).

(** [1ULL << coreCount]: a shift by the width is undefined. *)
Definition getValidMask (cfg : TargetConfigs) (t : TargetRegistry) : result Z :=
  '(coreCount, _) ← GET_TARGET_INFO GET_CORE_COUNT 0 [] cfg t;
  let coreCount := if (coreCount =? 0) || (coreCount >? 64) then 64 else coreCount in
  if coreCount >=? 64 then Fault OutOfRange else Ok (Z.shiftl 1 coreCount - 1).

(** [version]: what [uname] says, when it succeeds. *)
Definition isPreemptRtActive (fs : FileSystem) (version : option string) : bool :=
  let by_uname :=
    match version with
    | None => false
    | Some v => let ver := toLowerCase v in has ver "preempt rt" || has ver "preempt_rt"
    end in
  match readLineFromFile fs "/sys/kernel/realtime" with
  | None => by_uname
  | Some rt =>
    let rt := trim rt in
    if String.eqb rt "1" then true else if String.eqb rt "0" then false else by_uname
  end.

(** The flag [g..Applied] and the vector [g..Backup] of one setting. *)
Record Saved := mkSaved { sv_applied : bool; sv_backup : list (string * string) }.
Definition Saved_init : Saved := mkSaved false [].

(** The loop over a directory, shared by three callbacks: the file of an entry ([None]: the
    entry is skipped) is saved, then written. *)
Fixpoint save_and_write (file_of : string -> option string) (value : string) (entries : list string)
    (backup : list (string * string)) (fs : FileSystem) : list (string * string) * FileSystem :=
  match entries with
  | [] => (backup, fs)
  | entry :: entries =>
    match file_of entry with
    | None => save_and_write file_of value entries backup fs
    | Some file =>
      if negb (isWritable fs file) then save_and_write file_of value entries backup fs else
      match readLineFromFile fs file with
      | None => save_and_write file_of value entries backup fs
      | Some oldVal =>
        save_and_write file_of value entries (backup ++ [(file, oldVal)]) (writeLineToFile fs file value).2
      end
    end
  end.

Definition apply_dir (dirPath : string) (file_of : string -> option string) (value : string) (s : Saved) (fs : FileSystem)
  : Saved * FileSystem :=
  match fs_dirs fs dirPath with
  | None => (mkSaved (sv_applied s) [], fs)
  | Some entries =>
    let '(backup, fs) := save_and_write file_of value (map fst entries) [] fs in
    (mkSaved (negb (bool_decide (backup = []))) backup, fs)
  end.

(** The loop over the saved values. *)
Definition restore (backup : list (string * string)) (fs : FileSystem) : FileSystem :=
  foldl (fun fs kv => writeToFile fs kv.1 kv.2) fs backup.
Definition tear_saved (s : Saved) (fs : FileSystem) : Saved * FileSystem :=
  if negb (sv_applied s) then (s, fs) else (Saved_init, restore (sv_backup s) fs).

Definition POLICY_DIR_PATH : string := "/sys/devices/system/cpu/cpufreq/".
Definition IRQ_DIR_PATH : string := "/proc/irq/".
Definition WQ_DIR_PATH : string := "/sys/devices/virtual/workqueue/".
Definition TRACING_ON_PATH : string := "/sys/kernel/tracing/tracing_on".

Definition gov_file (entry : string) : option string :=
  if String.prefix "policy" entry then Some (POLICY_DIR_PATH +:+ entry +:+ "/scaling_governor") else None.
Definition smp_file (entry : string) : option string :=
  if all_of isdigit entry then Some (IRQ_DIR_PATH +:+ entry +:+ "/smp_affinity") else None.
Definition cpumask_file (entry : string) : option string :=
  if String.prefix "." entry then None else Some (WQ_DIR_PATH +:+ entry +:+ "/cpumask").

Definition cpufreqGovApplierCallback (s : Saved) (fs : FileSystem) : Saved * FileSystem :=
  if sv_applied s then (s, fs) else apply_dir POLICY_DIR_PATH gov_file "performance" s fs.
Definition cpufreqGovTearCallback := tear_saved.

(** The cpus but the last one of the largest cluster, in hexadecimal. *)
Definition maskStr (cfg : TargetConfigs) (t : TargetRegistry) : result (string * TargetRegistry) :=
  '(hexMask, t) ← GET_TARGET_INFO GET_MASK 2 [GET_MAX_CLUSTER; -1] cfg t;
  validMask ← getValidMask cfg t;
  Ok (cpuMaskToHex (Z.land (wrap_u 64 (Z.lnot hexMask)) validMask), t).

Definition irqAffinityApplierCallback (cfg : TargetConfigs) (t : TargetRegistry) (s : Saved) (fs : FileSystem)
  : result (Saved * FileSystem * TargetRegistry) :=
  if sv_applied s then Ok (s, fs, t) else
  '(mask, t) ← maskStr cfg t;
  Ok (apply_dir IRQ_DIR_PATH smp_file mask s fs, t).
Definition irqAffinityTearCallback := tear_saved.

Definition workqueueApplierCallback (cfg : TargetConfigs) (t : TargetRegistry) (s : Saved) (fs : FileSystem)
  : result (Saved * FileSystem * TargetRegistry) :=
  if sv_applied s then Ok (s, fs, t) else
  '(mask, t) ← maskStr cfg t;
  Ok (apply_dir WQ_DIR_PATH cpumask_file mask s fs, t).
Definition workqueueTearCallback := tear_saved.

Record Tracing := mkTracing { gTracingApplied : bool; gTracingBackup : string }.
Definition Tracing_init : Tracing := mkTracing false "".

Definition tracingApplierCallback (s : Tracing) (fs : FileSystem) : Tracing * FileSystem :=
  if gTracingApplied s then (s, fs) else
  if negb (isWritable fs TRACING_ON_PATH) then (Tracing_init, fs) else
  match readLineFromFile fs TRACING_ON_PATH with
  | None => (Tracing_init, fs)
  | Some old =>
    let '(rc, fs) := writeLineToFile fs TRACING_ON_PATH "0" in
    if negb (rc =? 0) then (Tracing_init, fs) else (mkTracing true old, fs)
  end.
Definition tracingTearCallback (s : Tracing) (fs : FileSystem) : Tracing * FileSystem :=
  if negb (gTracingApplied s) then (s, fs)
  else (Tracing_init, (writeLineToFile fs TRACING_ON_PATH (gTracingBackup s)).2).

(** ** PredefCallbacks.cpp *)
Module Predef.
(** [mask |= 1 << value] for the values of the resource; [n] are left, from [i]. *)
Fixpoint values_mask (n : nat) (i : Z) (resource : Resource) (mask : Z) : result Z :=
  match n with
  | O => Ok mask
  | S n =>
    v ← getValueAt resource i;
    if (v <? 0) || (v >=? 64) then Fault OutOfRange else
    values_mask n (i + 1) resource (Z.lor mask (Z.shiftl 1 v))
  end.

Fixpoint affine_all (hexMask : string) (entries : list string) (gIrqAffBackup : list (string * string)) (fs : FileSystem)
  : list (string * string) * FileSystem :=
  match entries with
  | [] => (gIrqAffBackup, fs)
  | entry :: entries =>
    let filePath := "/proc/irq/" +:+ entry +:+ "/" +:+ "smp_affinity" in
    if fileExists fs filePath then
      affine_all hexMask entries (gIrqAffBackup ++ [(filePath, readFromFile fs filePath)])
        (writeToFile fs filePath hexMask)
    else affine_all hexMask entries gIrqAffBackup fs
  end.

Definition irqAffinityApplierCallback (context : option Resource) (gIrqAffBackup : list (string * string)) (fs : FileSystem)
  : result (list (string * string) * FileSystem) :=
  match context with
  | None => Ok (gIrqAffBackup, fs)
  | Some resource =>
    mask ← values_mask (Z.to_nat (getValuesCount resource)) 0 resource 0;
    match fs_dirs fs "/proc/irq/" with
    | None => Ok ([], fs)
    | Some entries => Ok (affine_all (cpuMaskToHex mask) (map fst entries) [] fs)
    end
  end.

Definition irqAffinityTearCallback (context : option Resource) (gIrqAffBackup : list (string * string)) (fs : FileSystem)
  : list (string * string) * FileSystem :=
  match context with
  | None => (gIrqAffBackup, fs)
  | Some _ => ([], restore gIrqAffBackup fs)
  end.
(** [setMsmPerfCpuFreq]: the token of a cluster is rewritten.  [None]: [stoi] throws, and nothing
    catches it. *)
Fixpoint stream_words (cur s : string) : list string :=
  match s with
  | EmptyString => if String.eqb cur "" then [] else [cur]
  | String c s' =>
    if isspace c then (if String.eqb cur "" then stream_words "" s' else cur :: stream_words "" s')
    else stream_words (cur +:+ String c "") s'
  end.

Fixpoint update_tokens (clusterID value : Z) (tokens : list string) (updatedContent : string) (clusterFound : bool)
  : option (string * bool) :=
  match tokens with
  | [] => Some (updatedContent, clusterFound)
  | token :: tokens =>
    let append token := (if String.eqb updatedContent "" then updatedContent else updatedContent +:+ " ") +:+ token in
    match String.index 0 ":" token with
    | Some colonPos =>
      match stoi 10 (String.substring 0 colonPos token) with
      | inr _ => None
      | inl tokenCluster =>
        if tokenCluster =? clusterID
        then update_tokens clusterID value tokens (append (to_string clusterID +:+ ":" +:+ to_string value)) true
        else update_tokens clusterID value tokens (append token) clusterFound
      end
    | None => update_tokens clusterID value tokens (append token) clusterFound
    end
  end.

Definition setMsmPerfCpuFreq (r : ResourceRegistry) (context : option Resource) (fs : FileSystem)
  : result (option FileSystem) :=
  match context with
  | None => Ok (Some fs)
  | Some resource =>
    match registry_getResConf r (getResCode resource) with
    | None => Ok (Some fs)
    | Some rConf =>
      let clusterID := getClusterValue resource in
      valueToBeWritten ← getValueAt resource 0;
      let currentContent := trim_right (readFromFile fs (mResourcePath rConf)) in
      Ok (match update_tokens clusterID valueToBeWritten (stream_words "" currentContent) "" false with
          | None => None
          | Some (updatedContent, clusterFound) =>
            Some (if negb clusterFound then fs else writeToFile fs (mResourcePath rConf) updatedContent)
          end)
    end
  end.
End Predef.

(** ** CamPostProcessing.cpp *)

(** The zero bytes between the arguments become blanks. *)
Fixpoint SanitizeNulls (s : string) : string :=
  match s with
  | EmptyString => ""
  | String c s => String (if Ascii.eqb c zero then " "%char else c) (SanitizeNulls s)
  end.

Definition ReadFirstLine (fs : FileSystem) (filePath : string) : string :=
  match readLineFromFile fs filePath with Some line => line | None => "" end.

Fixpoint str_drop (n : nat) (s : string) : string :=
  match n with
  | O => s
  | S n => match s with String _ s' => str_drop n s' | EmptyString => "" end
  end.

(** [while((ptr = strstr(ptr, pat)) != nullptr) ptr += strlen(pat)]: what follows each
    occurrence. *)
Fixpoint occurrences (fuel : nat) (s pat : string) : list string :=
  match fuel with
  | O => []
  | S fuel =>
    match strstr s pat with
    | None => []
    | Some t => let t := str_drop (String.length pat) t in t :: occurrences fuel t pat
    end
  end.
Definition all_occurrences (s pat : string) : list string := occurrences (S (String.length s)) s pat.

(** [strtol(s, &end, 10)]: the value and what follows the number; [None]: no digits. *)
Definition strtol (s : string) : option (Z * string) :=
  let t := skip_spaces s in
  let signed := match t with String c t' => is_char 45 c || is_char 43 c | EmptyString => false end in
  let negative := match t with String c _ => is_char 45 c | EmptyString => false end in
  let u := if signed then str_drop 1 t else t in
  if negb (starts_digit 10 u) then None else
  let v := digits 10 0 u in
  Some (Z.max (min_s 64) (Z.min (max_s 64) (if negative then - v else v)), drop_digits u).

Definition countEncoders (buffer encoderStr : string) : Z := Z.of_nat (length (all_occurrences buffer encoderStr)).

Definition name_end (c : ascii) : bool :=
  is_char 32 c || is_char 9 c || is_char 10 c || is_char 13 c || is_char 33 c.
Fixpoint take_name (s : string) : string :=
  match s with String c s' => if name_end c then "" else String c (take_name s') | EmptyString => "" end.
Definition extractSourceName (buffer namePrefix defaultName : string) : string :=
  match strstr buffer namePrefix with
  | None => defaultName
  | Some t => match take_name (str_drop (String.length namePrefix) t) with EmptyString => defaultName | name => name end
  end.

Definition max_step (maxVal : Z) (ptr : string) : Z :=
  match strtol ptr with
  | Some (value, _) => if (value >? 0) && (wrap_u 32 value >? maxVal) then wrap_u 32 value else maxVal
  | None => maxVal
  end.
Definition extractHeight (buffer : string) : Z := foldl max_step 0 (all_occurrences buffer "height=").
Definition extractWidth (buffer : string) : Z := foldl max_step 0 (all_occurrences buffer "width=").

Definition fps_step (maxVal : Z) (ptr : string) : Z :=
  match strtol ptr with
  | None => maxVal
  | Some (numerator, rest) =>
    if numerator <? 0 then maxVal else
    let denominator :=
      match rest with
      | String c rest =>
        if is_char 47 c then match strtol rest with Some (d, _) => if d >? 0 then d else 1 | None => 1 end else 1
      | EmptyString => 1
      end in
    let fps := wrap_u 32 (Z.quot numerator denominator) in
    if fps >? maxVal then fps else maxVal
  end.
Definition extractFrameRate (buffer frameRatePrefix : string) : Z := foldl fps_step 0 (all_occurrences buffer frameRatePrefix).

(** The entries of the task directory, the two that start with a dot included. *)
Fixpoint count_threads (fs : FileSystem) (threadsListPath commSubStr : string) (entries : list string) (count : Z)
  : result Z :=
  match entries with
  | [] => Ok count
  | entry :: entries =>
    match readLineFromFile fs (threadsListPath +:+ entry +:+ "/comm") with
    | None => Ok 0
    | Some value =>
      count ← (if has (toLowerCase value) (toLowerCase commSubStr) then chk_s 32 (count + 1) else Ok count);
      count_threads fs threadsListPath commSubStr entries count
    end
  end.
Definition countThreadsWithName (fs : FileSystem) (pid : Z) (commSub : string) : result Z :=
  let threadsListPath := "/proc/" +:+ to_string pid +:+ "/task/" in
  match fs_dirs fs threadsListPath with
  | None => Ok 0
  | Some entries => count_threads fs threadsListPath commSub (map fst entries) 0
  end.

Definition calculateEncoderSigType (count : Z) : Z := if count <=? 12 then 0 else 13.
Definition calculateDecoderSigType (threadCount : Z) : Z :=
  if threadCount <? 5 then 0 else if (threadCount >=? 5) && (threadCount <=? 20) then 5 else 21.

Definition URM_SIG_VIDEO_DECODE : Z := 196609.
Definition URM_SIG_CAMERA_PREVIEW : Z := 196610.
Definition URM_SIG_CAMERA_ENCODE : Z := 196611.
Definition URM_SIG_CAMERA_ENCODE_MULTI_STREAMS : Z := 196612.

Definition encoderList : list string := ["v4l2h264enc"; "v4l2h265enc"; "qtic2venc"].
Definition decoderList : list string := ["v4l2h264dec"; "v4l2h265dec"; "qtic2vdec"].
Definition mmSrcList : list string := ["qtiqmmfsrc"; "libcamerasrc"].

Fixpoint first_in (buf : string) (l : list string) : option string :=
  match l with [] => None | s :: l => if has buf s then Some s else first_in buf l end.
Fixpoint source_index (buf : string) (i : Z) (l : list string) : Z :=
  match l with [] => 0 | s :: l => if has buf s then i + 1 else source_index buf (i + 1) l end.

(** The code and the type of the signal and its attributes ([None]: no array). *)
Definition SigChoice : Type := Z * Z * option (list Z).

(** The result, -1 when there is no camera source, is the first component. *)
Definition fetchUsecaseDetails (fs : FileSystem) (pid : Z) (buf : string) (sigId sigType : Z) : result (Z * SigChoice) :=
  let srcElement := source_index buf 0 mmSrcList in
  if srcElement =? 0 then Ok (-1, (sigId, sigType, None)) else
  let extraArgs := Some [extractFrameRate buf "framerate="; extractHeight buf; extractWidth buf; srcElement] in
  match first_in buf encoderList with
  | Some matchedEncoder =>
    let encoderCount := countEncoders buf matchedEncoder in
    if encoderCount >? 1
    then Ok (0, (URM_SIG_CAMERA_ENCODE_MULTI_STREAMS, calculateEncoderSigType encoderCount, extraArgs))
    else Ok (0, (URM_SIG_CAMERA_ENCODE, sigType, extraArgs))
  | None =>
    match first_in buf decoderList with
    | Some matchedDecoder =>
      numSources ← countThreadsWithName fs pid matchedDecoder;
      Ok (0, (URM_SIG_VIDEO_DECODE, calculateDecoderSigType numSources, extraArgs))
    | None => Ok (0, (URM_SIG_CAMERA_PREVIEW, sigType, extraArgs))
    end
  end.

Definition PostProcess (fs : FileSystem) (pid sigId sigType : Z) : result SigChoice :=
  match ReadFirstLine fs (proc_file pid "cmdline") with
  | EmptyString => Ok (sigId, sigType, None)
  | cmdline => '(_, choice) ← fetchUsecaseDetails fs pid (SanitizeNulls cmdline) sigId sigType; Ok choice
  end.

(** [PostProcessCBData]: the pid, the code and the type, the handle acquired. *)
Record PostProcessCBData := mkPost { mPid : Z; mSigId : Z; mSigType : Z; mHandleAcq : Z }.

Section Callbacks.
Context (sigs : SignalRegistry) {R : Type} `{!ResourceConfigs R} (reg : R) `{HashOrder}.
Context (mode maxReq : Z) (lim : RateLimiter) (al : ClientAllocs) (junk : Z) (env : Env).

Definition WorkloadPostprocessCallback (cbData : PostProcessCBData) (h : Host) : result (PostProcessCBData * Host) :=
  '(sigId, sigType, extraArgs) ← PostProcess (e_fs env) (mPid cbData) (mSigId cbData) (mSigType cbData);
  '(handle, gen, st) ← acquireSignal sigs reg mode maxReq lim (e_fs env) al junk sigId sigType (mPid cbData) (mPid cbData)
      SIGNAL_EXTRA_ATTRS_COUNT extraArgs 0 None (h_generator h) (e_request env WorkloadSlot) (e_junk env)
      (e_blocks env WorkloadSlot) (e_now env) (h_server h);
  Ok (mkPost (mPid cbData) (mSigId cbData) (mSigType cbData) handle, mkHost st gen (h_apps h) (h_ext h) (h_gc h)).

(** ** GenieT2T.cpp *)
Definition genieCallback (cbData : PostProcessCBData) (h : Host) : result (PostProcessCBData * Host) :=
  Ok (mkPost (mPid cbData) (CONSTRUCT_SIG_CODE 241 291) DEFAULT_SIGNAL_TYPE (mHandleAcq cbData), h).

(** A callback as the worker of the classifier calls it: only the handle is read. *)
Definition as_post (cb : PostProcessCBData -> Host -> result (PostProcessCBData * Host)) (pid : Z) (h : Host)
  : result (Z * Host) :=
  '(cbData, h) ← cb (mkPost pid URM_SIG_APP_OPEN DEFAULT_SIGNAL_TYPE (-1)) h; Ok (mHandleAcq cbData, h).
End Callbacks.

(** ** Registration

    The identifiers 11 and up stand for the callbacks of the plugins, in the order of this
    file; 1 and 2 for the post-processing callbacks of the camera and of Genie. *)
Definition register_plugins (e : Extensions) : Extensions :=
  let e := foldl (fun e r => Extensions_callback r.1.1 r.1.2 (customCb r.2) e) e
    [ (0x00800001, 0, 11%positive); (0x00800001, 1, 12%positive);
      (0x00800002, 0, 13%positive); (0x00800002, 1, 14%positive);
      (0x00800003, 0, 15%positive); (0x00800003, 1, 16%positive);
      (0x00800004, 0, 17%positive); (0x00800004, 1, 18%positive);
      (0x00f00001, 0, 19%positive); (0x00f00001, 1, 20%positive);
      (0x008a000d, 0, 21%positive); (0x008a000e, 0, 21%positive) ] in
  foldl (fun e r => Extensions_postprocess r.1 r.2 e) e
    [ ("gst-launch-1.0", 1%positive); ("gst-camera-per-port-example", 1%positive); ("genie-t2t-run", 2%positive) ].
