(* ===== verification/PluginsFacts.v ===== *)
(** What holds of the plugins' callbacks (Plugins.v): which of them put the settings back, what
    they write, and which signals their post-processing leads to. *)
From Stdlib Require Import Ascii.
From S2P Require Import Prelude UrmTypes StdString StringFacts Message Resource AuxRoutines TargetRegistry ResourceRegistry Extensions.
From S2P Require Import Double ClientDataManager RateLimiter Request Server Wire UrmPlatformAL SignalRegistry SignalHandler Classifier ClassifierFacts Plugins.
Open Scope string_scope.
Open Scope list_scope.
Open Scope Z_scope.

(** ** Strings *)
Lemma app_str_inj_l (p s t : string) : p +:+ s = p +:+ t -> s = t.
Proof. induction p as [|c p IH]; [done|]. rewrite !app_cons. intros [= E]. by apply IH. Qed.

Lemma app_str_inj_r (s t q : string) : s +:+ q = t +:+ q -> s = t.
Proof.
  revert t. induction s as [|c s IH]; intros [|d t] E; [done| | |].
  - apply (f_equal String.length) in E. rewrite !length_str_app in E. cbn in E. lia.
  - apply (f_equal String.length) in E. rewrite !length_str_app in E. cbn in E. lia.
  - rewrite !app_cons in E. injection E as -> E. f_equal. by apply IH.
Qed.

Lemma path_inj (p q : string) s t : p +:+ (s +:+ q) = p +:+ (t +:+ q) -> s = t.
Proof. intros E. by apply app_str_inj_r with q, app_str_inj_l with p. Qed.

(** ** Files that read the same *)

(** To read a file is to read its first line, which is all that the callbacks read, save and write. *)
Definition reads_same (fs fs' : FileSystem) : Prop := forall path, readFromFile fs path = readFromFile fs' path.

(** Everything but the contents of the files. *)
Definition same_frame (fs fs' : FileSystem) : Prop :=
  fs_dirs fs = fs_dirs fs' /\ fs_openable_w fs = fs_openable_w fs' /\ fs_access_w fs = fs_access_w fs'.

Lemma writeToFile_frame fs path v : same_frame fs (writeToFile fs path v).
Proof. unfold writeToFile. by repeat case_if. Qed.

Lemma same_frame_trans fs1 fs2 fs3 : same_frame fs1 fs2 -> same_frame fs2 fs3 -> same_frame fs1 fs3.
Proof. intros (A1 & A2 & A3) (B1 & B2 & B3). unfold same_frame. split_and!; congruence. Qed.

Lemma writeLine_writeToFile fs path v : (writeLineToFile fs path v).2 = writeToFile fs path v.
Proof. unfold writeLineToFile, writeToFile. destruct path; [done|]. cbn. by case_if. Qed.

Lemma readFromFile_first fs path : (path =? "")%string = false ->
  readFromFile fs path = match fs_files fs !! path with Some content => first_line content | None => "" end.
Proof. unfold readFromFile. by destruct path. Qed.

Lemma readLine_read fs path v : readLineFromFile fs path = Some v -> readFromFile fs path = v.
Proof.
  unfold readLineFromFile. destruct (path =? "")%string eqn:E; [done|]. rewrite readFromFile_first by done.
  destruct (fs_files fs !! path) as [[|c s]|]; [done|by intros [= <-]|done].
Qed.

(** What a file reads after a write to one. *)
Lemma read_write fs path v q : fs_openable_w fs path = true -> path <> "" ->
  readFromFile (writeToFile fs path v) q = if decide (q = path) then first_line v else readFromFile fs q.
Proof.
  intros Ho Hp. unfold writeToFile, readFromFile. replace (String.length path =? 0)%nat with false by (by destruct path).
  rewrite Ho. cbn [negb set_files fs_files]. destruct (decide (q = path)) as [->|Hne].
  - rewrite lookup_insert_eq. by destruct path.
  - by rewrite lookup_insert_ne.
Qed.

(** Values written to distinct files are read back, the others read as before. *)
Lemma restore_reads (backup : list (string * string)) : forall fs,
  NoDup backup.*1 -> Forall (fun kv => fs_openable_w fs kv.1 = true /\ kv.1 <> "" /\ lacks newline kv.2 = true) backup ->
  same_frame fs (restore backup fs) /\
  forall q, readFromFile (restore backup fs) q =
    match (list_to_map backup : gmap string string) !! q with Some v => v | None => readFromFile fs q end.
Proof.
  induction backup as [|[p v] backup IH]; intros fs Hd Hf; [by split|].
  cbn [fmap list_fmap fst] in Hd. apply NoDup_cons in Hd as [Hp Hd]. apply Forall_cons in Hf as [(Ho & Hne & Hv) Hf].
  cbn [fst snd] in *. destruct (IH (writeToFile fs p v)) as [Hfr Hr]; [done| |].
  { eapply Forall_impl; [exact Hf|]. intros kv. by rewrite (proj1 (proj2 (writeToFile_frame fs p v))). }
  split; [eapply same_frame_trans; [apply writeToFile_frame|exact Hfr]|].
  intros q. unfold restore in *. cbn [foldl fst snd list_to_map foldr]. rewrite Hr, read_write by done.
  destruct (decide (q = p)) as [->|Hq].
  - rewrite lookup_insert_eq, first_line_text by done.
    by rewrite (not_elem_of_list_to_map_1 _ _ Hp).
  - by rewrite lookup_insert_ne.
Qed.

(** ** Saving and writing *)

(** [fs'] is [fs] with [value] in the files of [saved], whose first lines [saved] keeps. *)
Record wrote (value : string) (fs : FileSystem) (saved : list (string * string)) (fs' : FileSystem) : Prop := {
  wr_frame : same_frame fs fs';
  wr_nodup : NoDup saved.*1;
  wr_saved : Forall (fun kv => fs_openable_w fs kv.1 = true /\ kv.1 <> "" /\ kv.2 = readFromFile fs kv.1) saved;
  wr_value : forall q, q ∈ saved.*1 -> readFromFile fs' q = first_line value;
  wr_other : forall q, q ∉ saved.*1 -> readFromFile fs' q = readFromFile fs q;
  wr_exists : forall q, fileExists fs' q = fileExists fs q || bool_decide (q ∈ saved.*1);
  wr_none : saved = [] -> fs' = fs
}.

Lemma writeToFile_exists fs p v q : fs_openable_w fs p = true -> p <> "" ->
  fileExists (writeToFile fs p v) q = fileExists fs q || bool_decide (q = p).
Proof.
  intros Ho Hp. unfold fileExists, writeToFile. replace (String.length p =? 0)%nat with false by (by destruct p).
  rewrite Ho. cbn [negb set_files fs_files fs_dirs]. destruct (decide (q = p)) as [->|Hne].
  - rewrite lookup_insert_eq, (bool_decide_true (p = p)) by done. by rewrite orb_true_r.
  - by rewrite lookup_insert_ne, (bool_decide_false (q = p)), orb_false_r.
Qed.

Lemma wrote_nil value fs : wrote value fs [] fs.
Proof.
  split; try done; [constructor|by intros q Hq%elem_of_nil|]. intros q. by rewrite orb_false_r.
Qed.

Lemma wrote_cons value fs p saved fs' : fs_openable_w fs p = true -> p <> "" -> p ∉ saved.*1 ->
  wrote value (writeToFile fs p value) saved fs' -> wrote value fs ((p, readFromFile fs p) :: saved) fs'.
Proof.
  intros Ho Hne Hp [Hf Hd Hs Hv Hot Hex _]. pose proof (writeToFile_frame fs p value) as Hw. split.
  - eapply same_frame_trans; [exact Hw|exact Hf].
  - cbn. by constructor.
  - constructor; [done|]. rewrite Forall_forall in Hs |- *. intros kv Hin. destruct (Hs kv Hin) as (H1 & H2 & H3).
    rewrite (proj1 (proj2 Hw)). split_and!; [done..|]. rewrite H3, read_write by done. rewrite decide_False; [done|].
    intros E. apply Hp. rewrite <- E. by apply list_elem_of_fmap_2.
  - cbn. intros q [->|Hq]%elem_of_cons; [|by apply Hv]. rewrite Hot, read_write by done. by rewrite decide_True.
  - cbn. intros q [Hq1 Hq2]%not_elem_of_cons. rewrite Hot, read_write by done. by rewrite decide_False.
  - cbn. intros q. rewrite Hex, writeToFile_exists, <- orb_assoc by done. f_equal.
    rewrite <- bool_decide_or. apply bool_decide_ext. by rewrite elem_of_cons.
  - done.
Qed.

(** Writing the saved lines back makes every file read as before. *)
Lemma wrote_restore value fs saved fs' : wrote value fs saved fs' ->
  same_frame fs (restore saved fs') /\ reads_same fs (restore saved fs').
Proof.
  intros [Hf Hd Hs Hv Hot _ _]. destruct (restore_reads saved fs' Hd) as [Hf' Hr].
  { eapply Forall_impl; [exact Hs|]. intros kv (H1 & H2 & H3). rewrite <- (proj1 (proj2 Hf)).
    split_and!; [done..|]. rewrite H3. apply readFromFile_lacks. }
  split; [by eapply same_frame_trans|]. intros q. rewrite Hr.
  destruct (list_to_map saved !! q) as [v|] eqn:E.
  - apply elem_of_list_to_map_2 in E. rewrite Forall_forall in Hs. destruct (Hs _ E) as (_ & _ & Ev). exact (eq_sym Ev).
  - rewrite Hot; [done|]. by apply not_elem_of_list_to_map.
Qed.

(** Files that [access] says can be written can be opened. *)
Definition access_sound (fs : FileSystem) : Prop := forall p, fs_access_w fs p = true -> fs_openable_w fs p = true.
Lemma access_sound_frame fs fs' : same_frame fs fs' -> access_sound fs -> access_sound fs'.
Proof. intros (_ & E1 & E2) H p. rewrite <- E1, <- E2. apply H. Qed.

(** A file that the appliers write: it can be written, and has a line. *)
Definition settable (fs : FileSystem) (path : string) : Prop :=
  isWritable fs path = true /\ is_Some (readLineFromFile fs path).

Lemma settable_write fs p v q : q <> p -> settable fs q -> settable (writeToFile fs p v) q.
Proof.
  intros Hne [Hw Hr]. unfold settable, isWritable, fileWritable, readLineFromFile, writeToFile in *.
  repeat case_if; try done. cbn [set_files fs_files fs_access_w] in *. by rewrite lookup_insert_ne.
Qed.

Lemma save_and_write_wrote file_of value entries : forall backup fs,
  NoDup (omap file_of entries) -> access_sound fs ->
  exists saved fs', save_and_write file_of value entries backup fs = (backup ++ saved, fs') /\
    wrote value fs saved fs' /\ saved.*1 ⊆ omap file_of entries /\
    (forall q, q ∈ omap file_of entries -> settable fs q -> q ∈ saved.*1).
Proof.
  induction entries as [|e entries IH]; intros backup fs Hd Ha.
  { exists [], fs. rewrite app_nil_r. split_and!; [done|apply wrote_nil|set_solver|set_solver]. }
  cbn [save_and_write omap list_omap] in *. destruct (file_of e) as [file|]; [|by apply IH].
  apply NoDup_cons in Hd as [Hn Hd].
  assert (forall b, exists saved fs', save_and_write file_of value entries b fs = (b ++ saved, fs') /\
    wrote value fs saved fs' /\ saved.*1 ⊆ file :: omap file_of entries /\
    (forall q, q ∈ file :: omap file_of entries -> settable fs q -> q <> file -> q ∈ saved.*1)) as Hskip.
  { intros b. destruct (IH b fs Hd Ha) as (saved & fs' & E & Hw & Hs & Hall). exists saved, fs'.
    split_and!; [done..|set_solver|]. intros q [->|Hq]%elem_of_cons; [done|eauto]. }
  assert (~ settable fs file -> exists saved fs', save_and_write file_of value entries backup fs = (backup ++ saved, fs') /\
    wrote value fs saved fs' /\ saved.*1 ⊆ file :: omap file_of entries /\
    (forall q, q ∈ file :: omap file_of entries -> settable fs q -> q ∈ saved.*1)) as Hnot.
  { intros Hns. destruct (Hskip backup) as (saved & fs' & E & Hw & Hs & Hall). exists saved, fs'. split_and!; [done..|].
    intros q Hq Hset. apply Hall; [done..|]. by intros ->. }
  destruct (isWritable fs file) eqn:Hw; cbn [negb]; [|apply Hnot; intros [? _]; congruence].
  destruct (readLineFromFile fs file) as [old|] eqn:Hr; [|apply Hnot; intros [_ [? ?]]; congruence].
  unfold isWritable in Hw. apply andb_true_iff in Hw as [Hne%negb_true_iff%String.eqb_neq Hacc].
  rewrite writeLine_writeToFile.
  destruct (IH (backup ++ [(file, old)]) (writeToFile fs file value) Hd) as (saved & fs' & E & Hwr & Hs & Hall).
  { by eapply access_sound_frame; [apply writeToFile_frame|]. }
  exists ((file, old) :: saved), fs'. rewrite E, <- app_assoc. split_and!; [done| |set_solver|].
  - apply readLine_read in Hr as <-. apply wrote_cons; [by apply Ha|done|set_solver|done].
  - intros q [->|Hq]%elem_of_cons Hset; [by left|]. right. apply Hall; [done|]. apply settable_write; [|done].
    intros ->. done.
Qed.

(** ** Applying and tearing *)

(** The state between the two: untouched, or written with all that is needed to go back. *)
Definition saved_ok (fs : FileSystem) (s : Saved) (fs' : FileSystem) : Prop :=
  (sv_applied s = false /\ fs' = fs) \/
  (sv_applied s = true /\ same_frame fs (restore (sv_backup s) fs') /\ reads_same fs (restore (sv_backup s) fs')).

Lemma apply_dir_ok dir file_of value s fs :
  (forall entries, fs_dirs fs dir = Some entries -> NoDup (omap file_of (map fst entries))) -> access_sound fs ->
  sv_applied s = false ->
  saved_ok fs (apply_dir dir file_of value s fs).1 (apply_dir dir file_of value s fs).2.
Proof.
  intros Hd Ha Hs. unfold apply_dir. destruct (fs_dirs fs dir) as [entries|] eqn:E; [|left; by rewrite Hs].
  destruct (save_and_write_wrote file_of value (map fst entries) [] fs (Hd _ eq_refl) Ha) as (saved & fs' & -> & Hw & _ & _).
  cbn [app fst snd]. destruct saved as [|kv saved].
  - left. split; [done|]. by apply (wr_none _ _ _ _ Hw).
  - right. split; [done|]. by apply wrote_restore with value.
Qed.

(** The files of a directory that can be written read the value. *)
Lemma apply_dir_writes dir file_of value s fs entries :
  fs_dirs fs dir = Some entries -> NoDup (omap file_of (map fst entries)) -> access_sound fs ->
  forall q, q ∈ omap file_of (map fst entries) -> settable fs q ->
  readFromFile (apply_dir dir file_of value s fs).2 q = first_line value.
Proof.
  intros E Hd Ha q Hq Hset. unfold apply_dir. rewrite E.
  destruct (save_and_write_wrote file_of value (map fst entries) [] fs Hd Ha) as (saved & fs' & -> & Hw & _ & Hall).
  cbn [app fst snd]. by apply (wr_value _ _ _ _ Hw), Hall.
Qed.

Lemma tear_ok fs s fs' : saved_ok fs s fs' ->
  sv_applied (tear_saved s fs').1 = false /\ reads_same fs (tear_saved s fs').2.
Proof. unfold tear_saved. intros [[E ->]|(E & _ & H)]; rewrite E; cbn; by split. Qed.

Lemma gov_file_inj e e' p : gov_file e = Some p -> gov_file e' = Some p -> e = e'.
Proof. unfold gov_file. case_if; [|done]. case_if; [|done]. intros [= <-] [= E]. symmetry. by eapply path_inj. Qed.
Lemma smp_file_inj e e' p : smp_file e = Some p -> smp_file e' = Some p -> e = e'.
Proof. unfold smp_file. case_if; [|done]. case_if; [|done]. intros [= <-] [= E]. symmetry. by eapply path_inj. Qed.
Lemma cpumask_file_inj e e' p : cpumask_file e = Some p -> cpumask_file e' = Some p -> e = e'.
Proof. unfold cpumask_file. case_if; [done|]. case_if; [done|]. intros [= <-] [= E]. symmetry. by eapply path_inj. Qed.

Lemma omap_NoDup {A B} (f : A -> option B) l :
  (forall x y z, f x = Some z -> f y = Some z -> x = y) -> NoDup l -> NoDup (omap f l).
Proof.
  intros Hf. induction 1 as [|x l Hx _ IH]; cbn; [constructor|]. destruct (f x) as [z|] eqn:E; [|done].
  constructor; [|done]. intros (y & Hy & E')%list_elem_of_omap. apply Hx. by rewrite (Hf x y z E E').
Qed.

Lemma saved_ok_step (fs : FileSystem) (apply : Saved -> FileSystem -> Saved * FileSystem) s fs' :
  (forall s0, sv_applied s0 = false -> saved_ok fs (apply s0 fs).1 (apply s0 fs).2) ->
  (forall s0 f0, sv_applied s0 = true -> apply s0 f0 = (s0, f0)) ->
  saved_ok fs s fs' -> saved_ok fs (apply s fs').1 (apply s fs').2.
Proof.
  intros Hnew Hold Hs. pose proof Hs as [[E ->]|(E & _)]; [by apply Hnew|]. by rewrite Hold.
Qed.

(** The mask does not depend on how often it has been asked for. *)
Lemma getClusterInfo_idem k t c t' : getClusterInfo k t = (c, t') -> getClusterInfo k t' = (c, t').
Proof.
  unfold getClusterInfo, map_index. destruct (mPhysicalClusters t !! k) as [o|] eqn:E; cbn; intros [= <- <-]; cbn.
  - by rewrite E.
  - by rewrite lookup_insert_eq.
Qed.

Lemma getClusterInfo_mapping k t c t' : getClusterInfo k t = (c, t') -> forall l, getPhysicalClusterId l t' = getPhysicalClusterId l t.
Proof. unfold getClusterInfo. destruct (map_index _ _ _). by intros [= _ <-]. Qed.

Lemma maskStr_idem cfg t m t' : maskStr cfg t = Ok (m, t') -> maskStr cfg t' = Ok (m, t').
Proof.
  unfold maskStr. intros ([hexMask t1] & E & E1)%bind_ok. apply bind_ok in E1 as (valid & Ev & E1).
  injection E1 as <- <-. unfold getValidMask, GET_TARGET_INFO in Ev |- *. cbn in E, Ev |- *. rewrite Ev.
  destruct (chk_s 32 (mTotalClusterCount cfg - 1)) as [cl|]; [|done]. cbn in E |- *.
  destruct (getClusterInfo (getPhysicalClusterId cl t) t) as [o t2] eqn:Eg. cbn in E.
  assert (t1 = t2) as ->.
  { destruct o; [|by injection E]. by apply bind_ok in E as (? & _ & [= _ ->]). }
  rewrite (getClusterInfo_mapping _ _ _ _ Eg), (getClusterInfo_idem _ _ _ _ Eg). cbn.
  destruct o as [c|]; [|by injection E as <-]. apply bind_ok in E as (mk & -> & E). by injection E as <-.
Qed.

(** A callback called again and again. *)
Fixpoint repeatM {A} (n : nat) (f : A -> result A) (x : A) : result A :=
  match n with
  | O => Ok x
  | S n => y ← f x; repeatM n f y
  end.

Lemma repeatM_saved cfg dir file_of fs t mask :
  (forall s0, sv_applied s0 = false -> saved_ok fs (apply_dir dir file_of mask s0 fs).1 (apply_dir dir file_of mask s0 fs).2) ->
  maskStr cfg t = Ok (mask, t) -> forall n s fs', saved_ok fs s fs' ->
  exists s2 fs2, repeatM n (fun x => if sv_applied x.1.1 then Ok (x.1.1, x.1.2, x.2) else
      '(m, t) ← maskStr cfg x.2; Ok (apply_dir dir file_of m x.1.1 x.1.2, t)) (s, fs', t) = Ok (s2, fs2, t) /\ saved_ok fs s2 fs2.
Proof.
  intros Hd Hm. induction n as [|n IH]; intros s fs' Hs; cbn [repeatM]; [by exists s, fs'|]. cbn [fst snd].
  destruct (sv_applied s) eqn:Ea; [by apply IH|]. rewrite Hm. cbn [mbind result_bind].
  assert (fs' = fs) as -> by (destruct Hs as [[_ ->]|[E _]]; congruence).
  pose proof (Hd s Ea) as Hs2. destruct (apply_dir dir file_of mask s fs) as [s2 fs2]. by apply IH.
Qed.

(** The settings are as they were, and nothing is kept. *)
Definition restored {S} (applied : S -> bool) (fs : FileSystem) (x : S * FileSystem) : Prop :=
  applied x.1 = false /\ reads_same fs x.2.

Lemma callback_restored cfg dir file_of fs t mask t1 n :
  (forall entries, fs_dirs fs dir = Some entries -> NoDup (omap file_of (map fst entries))) -> access_sound fs ->
  maskStr cfg t = Ok (mask, t1) ->
  exists s2 fs2 t2, repeatM n (fun x => if sv_applied x.1.1 then Ok (x.1.1, x.1.2, x.2) else
      '(m, t) ← maskStr cfg x.2; Ok (apply_dir dir file_of m x.1.1 x.1.2, t)) (Saved_init, fs, t) = Ok (s2, fs2, t2) /\
    restored sv_applied fs (tear_saved s2 fs2).
Proof.
  intros Hd Ha Hm. pose proof (fun s0 => apply_dir_ok dir file_of mask s0 fs Hd Ha) as Hn.
  destruct n as [|n]; cbn [repeatM].
  { exists Saved_init, fs, t. split; [done|]. apply tear_ok. by left. }
  cbn [fst snd sv_applied Saved_init]. rewrite Hm. cbn [mbind result_bind].
  pose proof (Hn Saved_init eq_refl) as Hs. destruct (apply_dir dir file_of mask Saved_init fs) as [s1 fs1].
  destruct (repeatM_saved cfg dir file_of fs t1 mask Hn (maskStr_idem _ _ _ _ Hm) n s1 fs1 Hs) as (s2 & fs2 & E & Hs2).
  exists s2, fs2, t1. split; [exact E|]. by apply tear_ok.
Qed.

(** The trace switch: it holds one line, or was never touched. *)
Lemma tracing_restored fs n : access_sound fs ->
  let x := Nat.iter n (fun x => tracingApplierCallback x.1 x.2) (Tracing_init, fs) in
  restored gTracingApplied fs (tracingTearCallback x.1 x.2).
Proof.
  intros Ha x.
  assert ((gTracingApplied x.1 = false /\ x.2 = fs) \/
    (gTracingApplied x.1 = true /\ exists old, gTracingBackup x.1 = old /\ readFromFile fs TRACING_ON_PATH = old /\
       fs_openable_w fs TRACING_ON_PATH = true /\ x.2 = writeToFile fs TRACING_ON_PATH "0")) as Hx.
  { subst x. induction n as [|n IH]; [by left|]. rewrite Nat.iter_succ.
    destruct (Nat.iter n _ _) as [s f]. cbn [fst snd] in *. unfold tracingApplierCallback.
    destruct IH as [[E ->]|(E & H)]; rewrite E; [|by right].
    destruct (isWritable fs TRACING_ON_PATH) eqn:Hw; cbn [negb]; [|by left].
    destruct (readLineFromFile fs TRACING_ON_PATH) as [old|] eqn:Hr; [|by left].
    pose proof (writeLine_writeToFile fs TRACING_ON_PATH "0") as Ewr.
    assert (fs_openable_w fs TRACING_ON_PATH = true) as Ho by (apply Ha; unfold isWritable in Hw; by apply andb_true_iff in Hw as [_ Hw]).
    assert ((writeLineToFile fs TRACING_ON_PATH "0").1 = 0) as Erc by (unfold writeLineToFile; by rewrite Ho).
    destruct (writeLineToFile fs TRACING_ON_PATH "0") as [rc f]. cbn [fst snd] in *. subst rc f. cbn. right.
    split; [done|]. exists old. apply readLine_read in Hr. done. }
  unfold tracingTearCallback. destruct Hx as [[E ->]|(E & old & Eo & Hr & Ho & ->)]; rewrite E; cbn [negb]; [by split|].
  split; [done|]. cbn [snd]. rewrite writeLine_writeToFile. intros q.
  rewrite read_write; [|by rewrite <- (proj1 (proj2 (writeToFile_frame fs TRACING_ON_PATH "0")))|done].
  destruct (decide (q = TRACING_ON_PATH)) as [->|Hq].
  - by rewrite Eo, <- Hr, first_line_text by apply readFromFile_lacks.
  - by rewrite read_write, decide_False.
Qed.

(** ** Interrupts affined by the predefined callback *)
Definition irq_path (entry : string) : string := "/proc/irq/" +:+ entry +:+ "/" +:+ "smp_affinity".

Lemma irq_path_inj e e' : irq_path e = irq_path e' -> e = e'.
Proof. intros E. by eapply path_inj. Qed.
Lemma irq_path_nonempty e : irq_path e <> "".
Proof. done. Qed.

Lemma fileExists_write fs p v q : q <> p -> fileExists (writeToFile fs p v) q = fileExists fs q.
Proof.
  intros Hne. unfold fileExists, writeToFile. repeat case_if; [done..|]. cbn. by rewrite lookup_insert_ne.
Qed.

Lemma affine_all_wrote value entries : forall backup fs, NoDup entries ->
  (forall e, fileExists fs (irq_path e) = true -> fs_openable_w fs (irq_path e) = true) ->
  exists saved fs', Predef.affine_all value entries backup fs = (backup ++ saved, fs') /\ wrote value fs saved fs' /\
    (forall q, q ∈ saved.*1 <-> exists e, e ∈ entries /\ q = irq_path e /\ fileExists fs q = true).
Proof.
  induction entries as [|e entries IH]; intros backup fs Hd Ho.
  { exists [], fs. rewrite app_nil_r. split_and!; [done|apply wrote_nil|set_solver]. }
  apply NoDup_cons in Hd as [He Hd]. cbn [Predef.affine_all]. change (_ +:+ e +:+ _) with (irq_path e).
  destruct (fileExists fs (irq_path e)) eqn:Hex.
  - assert (forall e', e' ∈ entries -> fileExists (writeToFile fs (irq_path e) value) (irq_path e') = fileExists fs (irq_path e')) as Hfe.
    { intros e' Hin. apply fileExists_write. intros E%irq_path_inj. by subst. }
    pose proof (writeToFile_frame fs (irq_path e) value) as Hfr.
    destruct (IH (backup ++ [(irq_path e, readFromFile fs (irq_path e))]) (writeToFile fs (irq_path e) value) Hd) as (saved & fs' & E & Hw & Hq).
    { intros e' Hex'. rewrite <- (proj1 (proj2 Hfr)). destruct (decide (e' = e)) as [->|Hne]; [by apply Ho|].
      apply Ho. rewrite fileExists_write in Hex'; [done|]. by intros ?%irq_path_inj. }
    exists ((irq_path e, readFromFile fs (irq_path e)) :: saved), fs'. rewrite E, <- app_assoc. split_and!; [done| |].
    + apply wrote_cons; [by apply Ho|done| |done]. rewrite Hq. intros (e' & Hin & E'%irq_path_inj & _). by subst.
    + intros q. cbn [fmap list_fmap fst]. rewrite elem_of_cons, Hq. split.
      * intros [->|(e' & Hin & -> & Hx)]; [by exists e; split; [left|]|]. exists e'. rewrite <- Hfe by done.
        by split; [right|].
      * intros (e' & [->|Hin]%elem_of_cons & -> & Hx); [by left|]. right. exists e'. by rewrite Hfe.
  - destruct (IH backup fs Hd Ho) as (saved & fs' & E & Hw & Hq). exists saved, fs'. split_and!; [done..|].
    intros q. rewrite Hq. split.
    + intros (e' & Hin & H). exists e'. by split; [right|].
    + intros (e' & [->|Hin]%elem_of_cons & -> & Hx); [congruence|by exists e'].
Qed.

Lemma irq_apply r m fs entries backup :
  fs_dirs fs "/proc/irq/" = Some entries -> NoDup (map fst entries) ->
  (forall e, fileExists fs (irq_path e) = true -> fs_openable_w fs (irq_path e) = true) ->
  Predef.values_mask (Z.to_nat (getValuesCount r)) 0 r 0 = Ok m ->
  exists saved fs', Predef.irqAffinityApplierCallback (Some r) backup fs = Ok (saved, fs') /\
    wrote (cpuMaskToHex m) fs saved fs' /\
    (forall q, q ∈ saved.*1 <-> exists e, e ∈ map fst entries /\ q = irq_path e /\ fileExists fs q = true).
Proof.
  intros Hdir Hd Ho Hm. unfold Predef.irqAffinityApplierCallback. rewrite Hm, Hdir. cbn [mbind result_bind].
  destruct (affine_all_wrote (cpuMaskToHex m) (map fst entries) [] fs Hd Ho) as (saved & fs' & -> & Hw). by exists saved, fs'.
Qed.

Lemma hex_digit_line n : 0 <= n < 16 -> Ascii.eqb (hex_digit n) newline = false.
Proof.
  intros H. assert (n ∈ seqZ 0 16) as Hin by (apply elem_of_seqZ; lia).
  clear H. revert n Hin. apply Forall_forall. vm_compute. repeat constructor.
Qed.

Lemma hex_digits_lacks fuel : forall n acc, lacks newline acc = true -> 0 <= n -> lacks newline (hex_digits fuel n acc) = true.
Proof.
  induction fuel as [|fuel IH]; intros n acc Ha Hn; [done|]. cbn [hex_digits].
  assert (lacks newline (String (hex_digit (n mod 16)) acc) = true) as Hl.
  { unfold lacks in *. cbn [all_of]. rewrite Ha, hex_digit_line; [done|]. apply Z.mod_pos_bound. lia. }
  case_if; [done|]. apply IH; [done|]. apply Z.div_pos; lia.
Qed.

Lemma values_mask_nonneg n : forall i r m0 m, 0 <= m0 -> Predef.values_mask n i r m0 = Ok m -> 0 <= m.
Proof.
  induction n as [|n IH]; intros i r m0 m H0; cbn [Predef.values_mask]; [by intros [= <-]|].
  intros (v & _ & E)%bind_ok. destruct ((v <? 0) || (v >=? 64)) eqn:Hv; [done|]. apply IH in E; [done|].
  apply Z.lor_nonneg. split; [done|]. apply Z.shiftl_nonneg. lia.
Qed.

(** ** Hexadecimal *)
Lemma hex_digit_value d : 0 <= d < 16 -> digit_in 16 (hex_digit d) = Some d /\ isspace (hex_digit d) = false /\
  is_char 45 (hex_digit d) = false /\ is_char 43 (hex_digit d) = false.
Proof.
  intros H. assert (d ∈ seqZ 0 16) as Hin by (apply elem_of_seqZ; lia).
  clear H. revert d Hin. apply Forall_forall. vm_compute. repeat constructor.
Qed.

Lemma hex_digits_value fuel : forall n acc, 0 <= n < 16 ^ Z.of_nat fuel -> (0 < fuel)%nat ->
  exists d s k, 0 <= d < 16 /\ 0 <= k /\ hex_digits fuel n acc = String (hex_digit d) s /\
    forall a, digits 16 a (hex_digits fuel n acc) = digits 16 (a * 16 ^ k + n) acc.
Proof.
  induction fuel as [|fuel IH]; intros n acc Hn Hf; [lia|]. cbn [hex_digits].
  pose proof (Z.mod_pos_bound n 16 ltac:(lia)) as Hm. pose proof (Z.div_mod n 16 ltac:(lia)) as Hdm.
  destruct (hex_digit_value (n mod 16) Hm) as (Hd & _).
  destruct (Z.eqb_spec (n / 16) 0) as [E|E].
  - exists (n mod 16), acc, 1. split_and!; [lia..|done|]. intros a. cbn [digits]. rewrite Hd. f_equal. lia.
  - rewrite Nat2Z.inj_succ, Z.pow_succ_r in Hn by lia.
    assert (0 <= n / 16 < 16 ^ Z.of_nat fuel) as Hq by (split; [apply Z.div_pos; lia|apply Z.div_lt_upper_bound; lia]).
    assert (0 < fuel)%nat as Hf'.
    { destruct fuel; [|lia]. change (16 ^ Z.of_nat 0) with 1 in Hq. lia. }
    destruct (IH (n / 16) (String (hex_digit (n mod 16)) acc) Hq Hf') as (d & s & k & Hd' & Hk & Es & Ev).
    exists d, s, (k + 1). split_and!; [lia..|done|]. intros a. rewrite Ev. cbn [digits]. rewrite Hd. f_equal.
    rewrite Z.pow_add_r by lia. lia.
Qed.

(** The digits of a mask: hexadecimal ones, as many as it takes. *)
Definition is_hex (c : ascii) : bool := bool_decide (is_Some (digit_in 16 c)).

Lemma hex_digits_shape fuel : forall n acc, 0 <= n -> all_of is_hex acc = true ->
  all_of is_hex (hex_digits fuel n acc) = true /\
  forall k, (0 < k <= fuel)%nat -> n < 16 ^ Z.of_nat k -> (String.length (hex_digits fuel n acc) <= k + String.length acc)%nat.
Proof.
  induction fuel as [|fuel IH]; intros n acc Hn Ha; cbn [hex_digits]; [split; [done|lia]|].
  pose proof (Z.mod_pos_bound n 16 ltac:(lia)) as Hm. destruct (hex_digit_value (n mod 16) Hm) as (Hd & _).
  assert (all_of is_hex (String (hex_digit (n mod 16)) acc) = true) as Hacc.
  { cbn [all_of]. rewrite Ha, andb_true_r. unfold is_hex. rewrite Hd. by apply bool_decide_eq_true_2. }
  destruct (Z.eqb_spec (n / 16) 0) as [E|E].
  - split; [done|]. intros k Hk _. cbn [String.length]. lia.
  - destruct (IH (n / 16) _ (Z.div_pos n 16 Hn ltac:(lia)) Hacc) as [H1 H2]. split; [done|]. intros k Hk Hlt.
    destruct k as [|k]; [lia|]. destruct k as [|k].
    { change (16 ^ Z.of_nat 1) with 16 in Hlt. by rewrite Z.div_small in E by lia. }
    specialize (H2 (S k)). cbn [String.length] in H2. rewrite Nat2Z.inj_succ, Z.pow_succ_r in Hlt by lia.
    assert (n / 16 < 16 ^ Z.of_nat (S k)) by (apply Z.div_lt_upper_bound; lia). lia.
Qed.

(** Read as one hexadecimal number, the digits give the mask back. *)
Lemma hex_roundtrip m : in_u 64 m -> stoul 16 (cpuMaskToHex m) = inl m.
Proof.
  intros Hm. unfold in_u in Hm.
  destruct (hex_digits_value 16 m "" ltac:(change (16 ^ Z.of_nat 16) with (2 ^ 64); lia) ltac:(lia)) as (d & s & k & Hd & _ & Es & Ev).
  destruct (hex_digit_value d Hd) as (Hv & Hsp & Hm1 & Hm2).
  unfold stoul, parse_int, cpuMaskToHex. rewrite Es. cbn [skip_spaces]. rewrite Hsp, Hm1, Hm2.
  unfold parse_magnitude. cbn [Z.eqb]. unfold starts_digit. rewrite Hv, bool_decide_true by (by eexists).
  rewrite <- Es, Ev. cbn [digits]. rewrite Z.mul_0_l, Z.add_0_l.
  replace (Z.abs m <? 2 ^ 64) with true by lia. f_equal. unfold wrap_u. apply Z.mod_small. lia.
Qed.

Lemma getValidMask_spec cfg t : in_s 32 (mTotalCoreCount cfg) ->
  (0 < mTotalCoreCount cfg < 64 -> getValidMask cfg t = Ok (Z.ones (mTotalCoreCount cfg))) /\
  (~ (0 < mTotalCoreCount cfg < 64) -> getValidMask cfg t = Fault OutOfRange).
Proof.
  intros Hn. unfold getValidMask. change (GET_TARGET_INFO GET_CORE_COUNT 0 [] cfg t) with (Ok (wrap_u 64 (mTotalCoreCount cfg), t)).
  cbn [mbind result_bind]. unfold in_s, wrap_u in *. rewrite Z.gtb_ltb, Z.geb_leb. split; intros Hr.
  - rewrite Z.mod_small by lia. replace (mTotalCoreCount cfg =? 0) with false by lia.
    replace (64 <? mTotalCoreCount cfg) with false by lia. cbn [orb].
    replace (64 <=? mTotalCoreCount cfg) with false by lia. by rewrite Z.shiftl_1_l, Z.ones_equiv, Z.sub_1_r.
  - destruct (_ || _) eqn:Hor; [done|]. apply orb_false_iff in Hor as [H1 H2]. zb.
    assert (mTotalCoreCount cfg `mod` 2 ^ 64 = if mTotalCoreCount cfg <? 0 then mTotalCoreCount cfg + 2 ^ 64 else mTotalCoreCount cfg) as E.
    { destruct (Z.ltb_spec (mTotalCoreCount cfg) 0); [|by rewrite Z.mod_small by lia].
      rewrite <- (Z.mod_add _ 1), Z.mod_small by lia. lia. }
    rewrite E in *. destruct (Z.ltb_spec (mTotalCoreCount cfg) 0); [lia|].
    by replace (64 <=? mTotalCoreCount cfg) with true by lia.
Qed.

(** The value of the mask. *)
Lemma maskStr_spec cfg t p start c :
  in_s 32 (mTotalClusterCount cfg - 1) -> mLogicalToPhysicalClusterMapping t !! (mTotalClusterCount cfg - 1) = Some p ->
  mPhysicalClusters t !! p = Some (Some c) -> cluster_ok c start -> 0 < mNumCpus c -> in_s 32 (mTotalCoreCount cfg) ->
  (0 < mTotalCoreCount cfg < 64 -> exists m, maskStr cfg t = Ok (cpuMaskToHex m, t) /\ in_u 64 m /\
     forall i, 0 <= i -> Z.testbit m i = (i <? mTotalCoreCount cfg) && negb (i =? start + mNumCpus c - 1)) /\
  (~ (0 < mTotalCoreCount cfg < 64) -> maskStr cfg t = Fault OutOfRange).
Proof.
  intros Hcl Hl Hc Hok Hpos Hn. destruct (cluster_mask_spec c start (-1) Hok) as (hexMask & Em & Hb); [unfold in_s; lia|unfold min_s; lia|].
  assert (forall A (k : Z * TargetRegistry -> result A), (x ← GET_TARGET_INFO GET_MASK 2 [GET_MAX_CLUSTER; -1] cfg t; k x) = k (hexMask, t)) as Eg.
  { intros A k. unfold GET_TARGET_INFO. cbn. rewrite chk_s_ok by done. cbn.
    unfold getPhysicalClusterId. by rewrite Hl, (getClusterInfo_hit t p c Hc), Em. }
  destruct (getValidMask_spec cfg t Hn) as [Hv Hbad]. unfold maskStr. rewrite Eg. split; intros Hr; [|by rewrite (Hbad Hr)].
  rewrite (Hv Hr). cbn [mbind result_bind]. set (m := Z.land _ _). exists m. split; [done|].
  assert (forall i, 0 <= i -> Z.testbit m i = (i <? mTotalCoreCount cfg) && negb (i =? start + mNumCpus c - 1)) as Hbit.
  { intros i Hi. subst m. unfold wrap_u. rewrite Z.land_spec. destruct (Z.ltb_spec i (mTotalCoreCount cfg)).
    - rewrite Z.ones_spec_low, andb_true_r by lia. rewrite Z.mod_pow2_bits_low, Z.lnot_spec, Hb by lia.
      unfold mask_first, mask_count. cbn [Z.eqb Z.ltb Z.compare]. change (Z.abs (-1)) with 1. rewrite Z.min_l by lia.
      replace (i <? 64) with true by lia. cbn [andb]. f_equal. zcase.
    - rewrite Z.ones_spec_high by lia. by rewrite andb_false_r. }
  split; [|exact Hbit]. apply testbit_in_u; [lia|]. intros i Hi. rewrite Hbit by lia.
  by replace (i <? mTotalCoreCount cfg) with false by lia.
Qed.

(** ** Threads of a decoder *)
Lemma count_threads_unreadable fs dir sub : forall entries count, 0 <= count -> count + Z.of_nat (length entries) <= max_s 32 ->
  (exists e, e ∈ entries /\ fs_files fs !! (dir +:+ e +:+ "/comm") = None) -> count_threads fs dir sub entries count = Ok 0.
Proof.
  induction entries as [|e entries IH]; intros count Hc Hl (e' & Hin & Hn); [by apply not_elem_of_nil in Hin|].
  cbn [count_threads length] in *. destruct (readLineFromFile fs (dir +:+ e +:+ "/comm")) as [v|] eqn:Hr; [|done].
  apply elem_of_cons in Hin as [->|Hin].
  { unfold readLineFromFile in Hr. rewrite Hn in Hr. destruct (_ =? "")%string; discriminate Hr. }
  destruct (has (toLowerCase v) (toLowerCase sub)).
  - rewrite chk_s_ok by (unfold in_s, max_s in *; lia). cbn [mbind result_bind]. apply IH; [lia..|by exists e'].
  - cbn [mbind result_bind]. apply IH; [lia..|by exists e'].
Qed.

(** ** Properties *)

(** C30: the settings for real-time targets are put back: for governors and tracing always, for
    interrupts and work queues when their mask is defined, that is when [maskStr] returns, which it
    does with 1 to 63 known cpus (see [rt_mask]; otherwise their appliers are undefined
    behaviour).  However often the applier runs before the tear callback, as it does when several
    requests overlap, the first line of every file, which is all that the callbacks read and
    save of it, then is what it was at first, and nothing is kept.  [access] and [open] are
    assumed to agree, and a directory to list an entry once. *)
Theorem rt_callbacks_restore (cfg : TargetConfigs) (t : TargetRegistry) (fs : FileSystem) (n : nat)
    (mask : string) (t1 : TargetRegistry) :
  (forall dir entries, fs_dirs fs dir = Some entries -> NoDup (map fst entries)) -> access_sound fs ->
  (let x := Nat.iter n (fun x => cpufreqGovApplierCallback x.1 x.2) (Saved_init, fs) in
   restored sv_applied fs (cpufreqGovTearCallback x.1 x.2)) /\
  (maskStr cfg t = Ok (mask, t1) ->
   exists s f t', repeatM n (fun x => irqAffinityApplierCallback cfg x.2 x.1.1 x.1.2) (Saved_init, fs, t) = Ok (s, f, t') /\
     restored sv_applied fs (irqAffinityTearCallback s f)) /\
  (maskStr cfg t = Ok (mask, t1) ->
   exists s f t', repeatM n (fun x => workqueueApplierCallback cfg x.2 x.1.1 x.1.2) (Saved_init, fs, t) = Ok (s, f, t') /\
     restored sv_applied fs (workqueueTearCallback s f)) /\
  (let x := Nat.iter n (fun x => tracingApplierCallback x.1 x.2) (Tracing_init, fs) in
   restored gTracingApplied fs (tracingTearCallback x.1 x.2)).
Proof.
  intros Hd Ha.
  assert (forall dir (file_of : string -> option string), (forall x y z, file_of x = Some z -> file_of y = Some z -> x = y) ->
    forall entries, fs_dirs fs dir = Some entries -> NoDup (omap file_of (map fst entries))) as Hf.
  { intros dir file_of Hi entries E. by apply omap_NoDup, (Hd dir). }
  split_and!.
  - apply tear_ok. induction n as [|n IH]; [by left|]. rewrite Nat.iter_succ.
    apply saved_ok_step; [|by intros s0 f0 E; unfold cpufreqGovApplierCallback; rewrite E|exact IH].
    intros s0 E. unfold cpufreqGovApplierCallback. rewrite E. apply apply_dir_ok; [|done..]. apply Hf, gov_file_inj.
  - intros Hm. apply (callback_restored cfg IRQ_DIR_PATH smp_file fs t mask t1 n); [|done..]. apply Hf, smp_file_inj.
  - intros Hm. apply (callback_restored cfg WQ_DIR_PATH cpumask_file fs t mask t1 n); [|done..]. apply Hf, cpumask_file_inj.
  - by apply tracing_restored.
Qed.

(** The callback that affines every interrupt forgets what it replaces.  With one request the
    tear callback puts every file back; but when a second request is applied before the first
    is torn, the values saved are those of the first request, and the tear callback leaves
    its mask in every interrupt for good. *)
Theorem irq_affinity_lost (fs : FileSystem) (entries : list (string * bool)) (r1 r2 : Resource) (m1 m2 : Z) :
  fs_dirs fs "/proc/irq/" = Some entries -> NoDup (map fst entries) ->
  (forall e, fileExists fs (irq_path e) = true -> fs_openable_w fs (irq_path e) = true) ->
  Predef.values_mask (Z.to_nat (getValuesCount r1)) 0 r1 0 = Ok m1 ->
  Predef.values_mask (Z.to_nat (getValuesCount r2)) 0 r2 0 = Ok m2 ->
  exists b1 f1 b2 f2, Predef.irqAffinityApplierCallback (Some r1) [] fs = Ok (b1, f1) /\
    reads_same fs (Predef.irqAffinityTearCallback (Some r1) b1 f1).2 /\
    Predef.irqAffinityApplierCallback (Some r2) b1 f1 = Ok (b2, f2) /\
    (forall e, e ∈ map fst entries -> fileExists fs (irq_path e) = true ->
       readFromFile (Predef.irqAffinityTearCallback (Some r1) b2 f2).2 (irq_path e) = cpuMaskToHex m1).
Proof.
  intros Hdir Hd Ho H1 H2. destruct (irq_apply r1 m1 fs entries [] Hdir Hd Ho H1) as (b1 & f1 & E1 & Hw1 & Hq1).
  pose proof (wr_frame _ _ _ _ Hw1) as (Fd & Fo & Fa).
  assert (forall e, fileExists f1 (irq_path e) = true -> fs_openable_w f1 (irq_path e) = true) as Ho1.
  { intros e Hex. rewrite <- Fo. apply Ho. rewrite (wr_exists _ _ _ _ Hw1) in Hex.
    destruct (fileExists fs (irq_path e)) eqn:Hx; [done|]. apply bool_decide_eq_true, Hq1 in Hex as (e' & _ & _ & Hx').
    congruence. }
  destruct (irq_apply r2 m2 f1 entries b1) as (b2 & f2 & E2 & Hw2 & Hq2); [by rewrite <- Fd|done..|].
  exists b1, f1, b2, f2. split_and!; [done|by apply (wrote_restore (cpuMaskToHex m1))|done|].
  intros e He Hx. cbn [Predef.irqAffinityTearCallback snd].
  rewrite <- (proj2 (wrote_restore _ _ _ _ Hw2)).
  rewrite (wr_value _ _ _ _ Hw1) by (apply Hq1; by exists e).
  apply first_line_text, hex_digits_lacks; [done|]. by eapply values_mask_nonneg.
Qed.

(** C31: the mask of a real-time target.  Let the largest cluster be known: the last logical
    cluster maps to a physical one [c] that has cpus, numbered from [start].  With 1 to 63
    cpus the mask is one hexadecimal numeral, without separators, whose value (as [std::stoul]
    in base 16 gives it) has the bit of every cpu but the last one of [c]; it has at
    most 16 digits, and at most 8 with up to 32 cpus.  The appliers write that numeral to the first
    line of every interrupt and work queue of their directory that can be written and has a line.
    With 64 cpus or more, or none known, the mask and both appliers are undefined behaviour, a
    shift by the width.  What the kernel makes of the numeral is not part of the model. *)
Theorem rt_mask (cfg : TargetConfigs) (t : TargetRegistry) (p start : Z) (c : ClusterInfo) :
  in_s 32 (mTotalClusterCount cfg - 1) -> mLogicalToPhysicalClusterMapping t !! (mTotalClusterCount cfg - 1) = Some p ->
  mPhysicalClusters t !! p = Some (Some c) -> cluster_ok c start -> 0 < mNumCpus c -> in_s 32 (mTotalCoreCount cfg) ->
  (0 < mTotalCoreCount cfg < 64 -> exists s m, maskStr cfg t = Ok (s, t) /\
     all_of is_hex s = true /\ stoul 16 s = inl m /\ (String.length s <= 16)%nat /\
     (mTotalCoreCount cfg <= 32 -> (String.length s <= 8)%nat) /\
     (forall i, 0 <= i -> Z.testbit m i = (i <? mTotalCoreCount cfg) && negb (i =? start + mNumCpus c - 1)) /\
     forall fs, access_sound fs -> exists si fi sw fw,
       irqAffinityApplierCallback cfg t Saved_init fs = Ok (si, fi, t) /\
       workqueueApplierCallback cfg t Saved_init fs = Ok (sw, fw, t) /\
       (forall es q, fs_dirs fs IRQ_DIR_PATH = Some es -> NoDup (map fst es) -> q ∈ omap smp_file (map fst es) ->
          settable fs q -> readFromFile fi q = s) /\
       (forall es q, fs_dirs fs WQ_DIR_PATH = Some es -> NoDup (map fst es) -> q ∈ omap cpumask_file (map fst es) ->
          settable fs q -> readFromFile fw q = s)) /\
  (~ (0 < mTotalCoreCount cfg < 64) -> maskStr cfg t = Fault OutOfRange /\ forall fs,
     irqAffinityApplierCallback cfg t Saved_init fs = Fault OutOfRange /\
     workqueueApplierCallback cfg t Saved_init fs = Fault OutOfRange).
Proof.
  intros Hcl Hl Hc Hok Hpos Hn. destruct (maskStr_spec cfg t p start c Hcl Hl Hc Hok Hpos Hn) as [Hm Hbad]. split; intros Hr.
  2: { unfold irqAffinityApplierCallback, workqueueApplierCallback. by rewrite (Hbad Hr). }
  destruct (Hm Hr) as (m & E & Hu & Hbit). exists (cpuMaskToHex m), m. unfold in_u in Hu.
  destruct (hex_digits_shape 16 m "" (proj1 Hu) eq_refl) as [Hhex Hlen]. cbn [String.length] in Hlen.
  assert (first_line (cpuMaskToHex m) = cpuMaskToHex m) as Hline.
  { apply first_line_text, hex_digits_lacks; [done|lia]. }
  split; [exact E|]. split; [exact Hhex|]. split; [by apply hex_roundtrip|].
  split; [specialize (Hlen 16%nat); change (16 ^ Z.of_nat 16) with (2 ^ 64) in Hlen; unfold cpuMaskToHex; lia|].
  split; [|split; [exact Hbit|]].
  - intros H32. specialize (Hlen 8%nat). change (16 ^ Z.of_nat 8) with (2 ^ 32) in Hlen.
    assert (in_u 32 m) as [_ Hm32]; [|unfold cpuMaskToHex; lia]. apply testbit_in_u; [lia|]. intros i Hi. rewrite Hbit by lia.
    by replace (i <? mTotalCoreCount cfg) with false by lia.
  - intros fs Ha. unfold irqAffinityApplierCallback, workqueueApplierCallback. rewrite E. cbn [sv_applied mbind result_bind].
    change (sv_applied Saved_init) with false. cbn iota.
    destruct (apply_dir IRQ_DIR_PATH smp_file (cpuMaskToHex m) Saved_init fs) as [si fi] eqn:Ei.
    destruct (apply_dir WQ_DIR_PATH cpumask_file (cpuMaskToHex m) Saved_init fs) as [sw fw] eqn:Ew.
    exists si, fi, sw, fw. split; [done|]. split; [done|]. split; intros es q Hes Hnd Hq Hset.
    + pose proof (apply_dir_writes IRQ_DIR_PATH smp_file (cpuMaskToHex m) Saved_init fs es Hes
        (omap_NoDup _ _ smp_file_inj Hnd) Ha q Hq Hset) as Hw. by rewrite Ei, Hline in Hw.
    + pose proof (apply_dir_writes WQ_DIR_PATH cpumask_file (cpuMaskToHex m) Saved_init fs es Hes
        (omap_NoDup _ _ cpumask_file_inj Hnd) Ha q Hq Hset) as Hw. by rewrite Ew, Hline in Hw.
Qed.

(** What the post-processing of applications leads to.  Of an application without a camera
    source, the camera block acquires the default signal all the same.  A decoder
    pipeline always has the type of the lowest load, however many threads decode: the
    directory of its threads lists [.], which has no name to read, and the count is given up.  And
    nothing at all is acquired for Genie, although its callback chooses a signal: the
    classifier reads the handle only. *)
Theorem post_processing (sigs : SignalRegistry) {R : Type} `{!ResourceConfigs R} (reg : R) `{HashOrder}
    (mode maxReq : Z) (lim : RateLimiter) (al : ClientAllocs) (junk : Z) (env : Env) (pid : Z) (line : string) :
  readLineFromFile (e_fs env) (proc_file pid "cmdline") = Some line ->
  let buf := SanitizeNulls line in
  (source_index buf 0 mmSrcList = 0 -> forall h,
     as_post (WorkloadPostprocessCallback sigs reg mode maxReq lim al junk env) pid h =
     ('(handle, gen, st) ← acquireSignal sigs reg mode maxReq lim (e_fs env) al junk URM_SIG_APP_OPEN DEFAULT_SIGNAL_TYPE
         pid pid SIGNAL_EXTRA_ATTRS_COUNT None 0 None (h_generator h) (e_request env WorkloadSlot) (e_junk env)
         (e_blocks env WorkloadSlot) (e_now env) (h_server h);
      Ok (handle, mkHost st gen (h_apps h) (h_ext h) (h_gc h)))) /\
  (forall decoder sigId sigType entries, source_index buf 0 mmSrcList <> 0 -> first_in buf encoderList = None ->
     first_in buf decoderList = Some decoder -> fs_dirs (e_fs env) (proc_file pid "task/") = Some entries ->
     "." ∈ map fst entries -> fs_files (e_fs env) !! (proc_file pid "task/" +:+ "./comm") = None ->
     Z.of_nat (length entries) <= max_s 32 ->
     exists attrs, PostProcess (e_fs env) pid sigId sigType = Ok (URM_SIG_VIDEO_DECODE, 0, Some attrs)) /\
  (forall ev comm cb ext c h, getPostProcessingCallback comm (h_ext h) = (Some cb, ext) -> e_post env cb = as_post genieCallback ->
     post_or_classify sigs reg mode maxReq lim al junk env ev comm (c, h) =
     Ok (c, mkHost (h_server h) (h_generator h) (h_apps h) ext (h_gc h))).
Proof.
  intros Hline buf. split_and!.
  - intros Hsrc h. unfold as_post, WorkloadPostprocessCallback. cbn [mPid mSigId mSigType].
    assert (forall B (k : SigChoice -> result B), (x ← PostProcess (e_fs env) pid URM_SIG_APP_OPEN DEFAULT_SIGNAL_TYPE; k x) =
      k (URM_SIG_APP_OPEN, DEFAULT_SIGNAL_TYPE, None)) as Ep.
    { intros B k. unfold PostProcess, ReadFirstLine. rewrite Hline. destruct line; [done|].
      unfold fetchUsecaseDetails. fold buf. by rewrite Hsrc. }
    rewrite Ep.
    cbn [mbind result_bind]. destruct (acquireSignal _ _ _ _ _ _ _ _ _ _ _ _ _ _ _ _ _ _ _ _ _ _) as [[[handle gen] st]|]; done.
  - intros decoder sigId sigType entries Hsrc Henc Hdec Hdir Hdot Hno Hlen.
    unfold PostProcess, ReadFirstLine. rewrite Hline.
    assert (line <> "") as Hne by (intros ->; done). destruct line as [|ch line0] eqn:El; [done|].
    unfold fetchUsecaseDetails. fold buf. rewrite Henc, Hdec. rewrite (proj2 (Z.eqb_neq _ _) Hsrc).
    unfold countThreadsWithName. change ("/proc/" +:+ to_string pid +:+ "/task/") with (proc_file pid "task/").
    rewrite Hdir, count_threads_unreadable; [|lia|rewrite length_map; lia|by exists "."]. by eexists.
  - intros ev comm cb ext c h Hcb Hpost. unfold post_or_classify. rewrite Hcb, Hpost.
    cbn [as_post genieCallback mbind result_bind mHandleAcq]. unfold trackClient. by destruct (mIsPriorityClient c).
Qed.

(** ** Witnesses *)
Definition irq_fs : FileSystem :=
  mkFS {["/proc/irq/5/smp_affinity" := "ff" +:+ String newline ""]}
    (fun p => if String.eqb p "/proc/irq/" then Some [(".", true); ("..", true); ("5", true)] else None)
    (fun _ => true) (fun _ => true) (fun _ => MkdirOk).

Definition big_cluster : TargetRegistry :=
  set_lgc {[1 := 4]} (set_clusters {[4 := Some (mkCluster 4 (Some 900) (Some 4) 4)]} TargetRegistry_init).
Definition eight_cpus : TargetConfigs := mkTargetConfigs "" 8 2 1.

Lemma irq_fs_entries : forall dir entries, fs_dirs irq_fs dir = Some entries -> NoDup (map fst entries).
Proof.
  intros dir entries. cbn. case_if; [|done]. intros [= <-]. apply (bool_decide_unpack _). vm_compute. exact I.
Qed.

(** Two requests, one tear: the interrupt has its mask back. *)
Lemma rt_callbacks_restore_witness :
  maskStr eight_cpus big_cluster = Ok ("7f", big_cluster) /\
  exists s f t', repeatM 2 (fun x => irqAffinityApplierCallback eight_cpus x.2 x.1.1 x.1.2) (Saved_init, irq_fs, big_cluster) = Ok (s, f, t') /\
    readFromFile f "/proc/irq/5/smp_affinity" = "7f" /\
    readFromFile (irqAffinityTearCallback s f).2 "/proc/irq/5/smp_affinity" = "ff".
Proof.
  assert (maskStr eight_cpus big_cluster = Ok ("7f", big_cluster)) as Hm by (vm_compute; reflexivity).
  split; [exact Hm|].
  destruct (rt_callbacks_restore eight_cpus big_cluster irq_fs 2 "7f" big_cluster irq_fs_entries)
    as (_ & Hirq & _); [intros p _; reflexivity|]. destruct (Hirq Hm) as (s & f & t' & E & _ & Hr).
  exists s, f, t'. split; [exact E|]. split; [|rewrite <- Hr; reflexivity].
  vm_compute in E. by injection E as <- <- <-.
Defined.

Lemma irq_affinity_lost_witness :
  let r1 := mkResource 0x00f00001 0 0 1 (Inline 0 0) 0 in
  let r2 := mkResource 0x00f00001 0 0 1 (Inline 1 0) 0 in
  exists b1 f1 b2 f2, Predef.irqAffinityApplierCallback (Some r1) [] irq_fs = Ok (b1, f1) /\
    Predef.irqAffinityApplierCallback (Some r2) b1 f1 = Ok (b2, f2) /\
    readFromFile irq_fs (irq_path "5") = "ff" /\
    readFromFile (Predef.irqAffinityTearCallback (Some r1) b2 f2).2 (irq_path "5") = "1".
Proof.
  intros r1 r2.
  destruct (irq_affinity_lost irq_fs [(".", true); ("..", true); ("5", true)] r1 r2 1 2)
    as (b1 & f1 & b2 & f2 & E1 & _ & E2 & Hr); [reflexivity|by apply (irq_fs_entries "/proc/irq/")|intros e _; reflexivity|reflexivity..|].
  exists b1, f1, b2, f2. split_and!; [exact E1|exact E2|reflexivity|].
  apply (Hr "5"); [by right; right; left|reflexivity].
Defined.

Lemma rt_mask_witness :
  exists s m, maskStr eight_cpus big_cluster = Ok (s, big_cluster) /\ stoul 16 s = inl m /\ m = 127 /\
    (exists si fi, irqAffinityApplierCallback eight_cpus big_cluster Saved_init irq_fs = Ok (si, fi, big_cluster) /\
       readFromFile fi "/proc/irq/5/smp_affinity" = s) /\
    maskStr (mkTargetConfigs "" 64 2 1) big_cluster = Fault OutOfRange.
Proof.
  assert (cluster_ok (mkCluster 4 (Some 900) (Some 4) 4) 4) as Hok by (split; unfold max_s; cbn; (reflexivity || lia)).
  destruct (rt_mask eight_cpus big_cluster 4 4 (mkCluster 4 (Some 900) (Some 4) 4)) as [H _];
    [unfold in_s; cbn; lia|reflexivity|reflexivity|exact Hok|cbn; lia|unfold in_s; cbn; lia|].
  destruct (rt_mask (mkTargetConfigs "" 64 2 1) big_cluster 4 4 (mkCluster 4 (Some 900) (Some 4) 4)) as [_ H64];
    [unfold in_s; cbn; lia|reflexivity|reflexivity|exact Hok|cbn; lia|unfold in_s; cbn; lia|].
  destruct H as (s & m & E1 & _ & E2 & _ & _ & _ & H); [cbn; lia|].
  exists s, m. split; [exact E1|]. split; [exact E2|]. split.
  { vm_compute in E1. injection E1 as <-. vm_compute in E2. by injection E2 as <-. }
  split; [|apply H64; cbn; lia].
  destruct (H irq_fs) as (si & fi & sw & fw & Ei & _ & Hi & _); [intros p _; reflexivity|].
  exists si, fi. split; [exact Ei|]. apply (Hi [(".", true); ("..", true); ("5", true)]);
    [reflexivity|by apply (irq_fs_entries "/proc/irq/")|vm_compute; by left|split; [reflexivity|by eexists]].
Defined.

(** A pipeline that decodes in thirty threads, and Genie. *)
Definition decoder_env : Env :=
  mkEnv (mkFS {["/proc/10/cmdline" := "gst-launch-1.0 qtiqmmfsrc ! v4l2h264dec"; "/proc/10/task/30/comm" := "v4l2h264dec0:src"]}
           (fun p => if String.eqb p "/proc/10/task/" then Some ((".", true) :: ("..", true) :: replicate 30 ("30", true)) else None)
           (fun _ => true) (fun _ => true) (fun _ => MkdirOk))
    (fun _ => None) (fun _ => ample (fun i => Z.to_pos (i + 1))) zero_msg 1000 (fun _ => CC_APP)
    (fun _ => as_post genieCallback).

Lemma post_processing_witness :
  let h := mkHost (h_server sample_host) 0 ∅ (Extensions_postprocess "genie-t2t-run" 2 Extensions_init) [] in
  let order := sorted_hash_order in
  (exists attrs, PostProcess (e_fs decoder_env) 10 URM_SIG_APP_OPEN 0 = Ok (URM_SIG_VIDEO_DECODE, 0, Some attrs)) /\
  post_or_classify SignalRegistry_init (CocoTable.one_resource HIGHER_BETTER APPLY_GLOBAL) MODE_RESUME 60 default_limiter all_blocks 0
    decoder_env (mkEvent 10 10 CC_APP_OPEN) "genie-t2t-run" (Classifier_init 0, h) = Ok (Classifier_init 0, h).
Proof.
  intros h order.
  destruct (post_processing SignalRegistry_init (CocoTable.one_resource HIGHER_BETTER APPLY_GLOBAL) MODE_RESUME 60
    default_limiter all_blocks 0 decoder_env 10 "gst-launch-1.0 qtiqmmfsrc ! v4l2h264dec") as (_ & Hdec & Hgenie); [reflexivity|].
  split.
  - apply (Hdec "v4l2h264dec" URM_SIG_APP_OPEN 0 ((".", true) :: ("..", true) :: replicate 30 ("30", true)));
      [discriminate|reflexivity|reflexivity|reflexivity|by left|reflexivity|unfold max_s; cbn; lia].
  - apply (Hgenie (mkEvent 10 10 CC_APP_OPEN) "genie-t2t-run" 2%positive (Extensions_postprocess "genie-t2t-run" 2 Extensions_init) (Classifier_init 0) h); reflexivity.
Defined.
