(* ===== verification/Regex.v ===== *)
(** [std::regex] with the ECMAScript grammar, for the patterns the classifier uses: a
    backtracking matcher that takes alternatives in order and repeats as often as it can (or
    as little, for a lazy repetition), with groups and word boundaries; searching, replacing
    and splitting on top of it.  A matcher in continuation-passing style: the continuation
    says whether the rest matches. *)
From Stdlib Require Import Ascii.
From S2P Require Import Prelude StdString StringFacts AuxRoutines.
Open Scope string_scope.
Open Scope list_scope.
Open Scope Z_scope.

Inductive regex :=
  | Eps
  | Chr (p : ascii -> bool)
  | Cat (r s : regex)
  | Alt (r s : regex)
  | Star (r : regex)                 (* greedy *)
  | Lazy (r : regex)                 (* [*?] *)
  | Group (i : nat) (r : regex)      (* a capturing group *)
  | WordB                            (* [\b] *)
  | Bol                              (* [^] *)
  | Eol.                             (* [$] *)

(** ** Abbreviations of the grammar *)
Definition Opt (r : regex) : regex := Alt r Eps.
Definition Plus (r : regex) : regex := Cat r (Star r).
Fixpoint Rep (n : nat) (r : regex) : regex := match n with O => Eps | S n => Cat r (Rep n r) end.
(** [r{n,n+m}], greedy. *)
Fixpoint UpTo (m : nat) (r : regex) : regex := match m with O => Eps | S m => Opt (Cat r (UpTo m r)) end.
Definition Between (n m : nat) (r : regex) : regex := Cat (Rep n r) (UpTo m r).
Definition AtLeast (n : nat) (r : regex) : regex := Cat (Rep n r) (Star r).
Definition Lit (c : ascii) : regex := Chr (Ascii.eqb c).
Definition ILit (c : ascii) : regex := Chr (fun d => Ascii.eqb (tolower c) (tolower d)).   (* [icase] *)
Fixpoint Word (s : string) : regex := match s with EmptyString => Eps | String c s => Cat (Lit c) (Word s) end.
Fixpoint IWord (s : string) : regex := match s with EmptyString => Eps | String c s => Cat (ILit c) (IWord s) end.
Fixpoint Alts (l : list regex) : regex := match l with [] => Chr (fun _ => false) | [r] => r | r :: l => Alt r (Alts l) end.
Definition word_char (c : ascii) : bool := isalnum c || is_char 95 c.
Definition Digit : regex := Chr isdigit.
Definition Space : regex := Chr isspace.
Definition NonSpace : regex := Chr (fun c => negb (isspace c)).
Definition Dot : regex := Chr (fun c => negb (is_char 10 c) && negb (is_char 13 c)).

(** ** Matching

    A position is the character before it and the string after it. *)
Definition Captures : Type := list (nat * string).

Fixpoint str_take (n : nat) (s : string) : string :=
  match n, s with S n, String c s => String c (str_take n s) | _, _ => "" end.

Definition is_word (o : option ascii) : bool := match o with Some c => word_char c | None => false end.
Definition head_of (s : string) : option ascii := match s with String c _ => Some c | EmptyString => None end.
Definition at_boundary (pv : option ascii) (s : string) : bool := xorb (is_word pv) (is_word (head_of s)).

Section Matcher.
Context {A : Type}.

(** An iteration that consumes nothing ends a repetition; [n] is at least the length. *)
Fixpoint iterate (greedy : bool) (body : option ascii -> string -> Captures -> (option ascii -> string -> Captures -> option A) -> option A)
    (n : nat) (pv : option ascii) (s : string) (g : Captures) (k : option ascii -> string -> Captures -> option A) : option A :=
  match n with
  | O => k pv s g
  | S n =>
    let more := body pv s g (fun pv' s' g' =>
      if (String.length s' <? String.length s)%nat then iterate greedy body n pv' s' g' k else None) in
    if greedy then match more with Some x => Some x | None => k pv s g end
    else match k pv s g with Some x => Some x | None => more end
  end.

Fixpoint run (r : regex) (pv : option ascii) (s : string) (g : Captures)
    (k : option ascii -> string -> Captures -> option A) : option A :=
  match r with
  | Eps => k pv s g
  | Chr p => match s with String c s' => if p c then k (Some c) s' g else None | EmptyString => None end
  | Cat r1 r2 => run r1 pv s g (fun pv s g => run r2 pv s g k)
  | Alt r1 r2 => match run r1 pv s g k with Some x => Some x | None => run r2 pv s g k end
  | Star r => iterate true (run r) (String.length s) pv s g k
  | Lazy r => iterate false (run r) (String.length s) pv s g k
  | Group i r =>
    run r pv s g (fun pv' s' g' => k pv' s' ((i, str_take (String.length s - String.length s') s) :: g'))
  | WordB => if at_boundary pv s then k pv s g else None
  | Bol => match pv with None => k pv s g | Some _ => None end
  | Eol => match s with EmptyString => k pv s g | _ => None end
  end.
End Matcher.

(** [regex_match]. *)
Definition regex_match (r : regex) (s : string) : bool :=
  bool_decide (is_Some (run r None s [] (fun _ s' _ => match s' with EmptyString => Some tt | _ => None end))).

(** [regex_search]: what precedes the first match, the match with its groups, the character
    before what follows it, and what follows. *)
Record Found := mkFound { f_prefix : string; f_match : string; f_groups : Captures; f_last : option ascii; f_suffix : string }.
Fixpoint search (r : regex) (pv : option ascii) (s : string) : option Found :=
  match run r pv s [] (fun pv' s' g => Some (mkFound "" (str_take (String.length s - String.length s') s) g pv' s')) with
  | Some f => Some f
  | None =>
    match s with
    | EmptyString => None
    | String c s' =>
      match search r (Some c) s' with
      | Some f => Some (mkFound (String c (f_prefix f)) (f_match f) (f_groups f) (f_last f) (f_suffix f))
      | None => None
      end
    end
  end.
Definition regex_search (r : regex) (s : string) : option Found := search r None s.

(** [regex_replace(s, r, fmt)], for patterns that do not match the empty string. *)
Fixpoint replace_from (n : nat) (r : regex) (fmt : string) (pv : option ascii) (s : string) : string :=
  match n with
  | O => s
  | S n =>
    match search r pv s with
    | None => s
    | Some f => f_prefix f +:+ fmt +:+ replace_from n r fmt (f_last f) (f_suffix f)
    end
  end.
Definition regex_replace (s : string) (r : regex) (fmt : string) : string :=
  replace_from (S (String.length s)) r fmt None s.

(** [sregex_token_iterator(.., r, -1)]: the pieces between the matches; the last piece only
    when it is not empty (an empty input gives one empty piece, which the callers drop). *)
Fixpoint split_from (n : nat) (r : regex) (pv : option ascii) (s : string) : list string :=
  match n with
  | O => []
  | S n =>
    match search r pv s with
    | None => if String.eqb s "" then [] else [s]
    | Some f => f_prefix f :: split_from n r (f_last f) (f_suffix f)
    end
  end.
Definition regex_split (s : string) (r : regex) : list string := split_from (S (String.length s)) r None s.

Example search_lazy : option_map f_match (regex_search (Cat (Lazy Dot) (Lit "b")) "aabab") = Some "aab".
Proof. reflexivity. Qed.
Example replace_hex : regex_replace "a1ff 0001 zz12345" (Cat WordB (Cat (AtLeast 4 Digit) WordB)) "n" = "a1ff n zz12345".
Proof. reflexivity. Qed.

(** ** The language of an expression

    [matches r pv s pv' s']: [r] may go from the position [(pv, s)] to [(pv', s')]. *)
Inductive matches : regex -> option ascii -> string -> option ascii -> string -> Prop :=
  | M_eps pv s : matches Eps pv s pv s
  | M_chr p pv c s : p c = true -> matches (Chr p) pv (String c s) (Some c) s
  | M_cat r1 r2 pv s pv1 s1 pv2 s2 : matches r1 pv s pv1 s1 -> matches r2 pv1 s1 pv2 s2 -> matches (Cat r1 r2) pv s pv2 s2
  | M_alt_l r1 r2 pv s pv' s' : matches r1 pv s pv' s' -> matches (Alt r1 r2) pv s pv' s'
  | M_alt_r r1 r2 pv s pv' s' : matches r2 pv s pv' s' -> matches (Alt r1 r2) pv s pv' s'
  | M_star_stop r pv s : matches (Star r) pv s pv s
  | M_star_more r pv s pv1 s1 pv2 s2 : matches r pv s pv1 s1 -> (String.length s1 < String.length s)%nat ->
      matches (Star r) pv1 s1 pv2 s2 -> matches (Star r) pv s pv2 s2
  | M_lazy r pv s pv' s' : matches (Star r) pv s pv' s' -> matches (Lazy r) pv s pv' s'
  | M_group i r pv s pv' s' : matches r pv s pv' s' -> matches (Group i r) pv s pv' s'
  | M_wordb pv s : at_boundary pv s = true -> matches WordB pv s pv s
  | M_bol s : matches Bol None s None s
  | M_eol pv : matches Eol pv "" pv "".

(** A continuation whose success does not depend on the groups. *)
Definition blind {A} (k : option ascii -> string -> Captures -> option A) : Prop :=
  forall pv s g g', is_Some (k pv s g) <-> is_Some (k pv s g').

Lemma is_Some_alt {A} (x y : option A) : is_Some (match x with Some a => Some a | None => y end) <-> is_Some x \/ is_Some y.
Proof. destruct x; split; [by left|by eauto|by right|by intros [[]|]]. Qed.

Section Sound.
Context {A : Type}.

Lemma iterate_iff greedy r
    (IH : forall pv s g (k : option ascii -> string -> Captures -> option A), blind k ->
       is_Some (run r pv s g k) <-> exists pv' s', matches r pv s pv' s' /\ is_Some (k pv' s' [])) :
  forall n pv s g (k : option ascii -> string -> Captures -> option A), blind k -> (String.length s <= n)%nat ->
    is_Some (iterate greedy (run r) n pv s g k) <-> exists pv' s', matches (Star r) pv s pv' s' /\ is_Some (k pv' s' []).
Proof.
  induction n as [|n IHn]; intros pv s g k Hk Hl; cbn [iterate].
  - split.
    + intros H. exists pv, s. split; [constructor|by apply (Hk pv s g)].
    + intros (pv' & s' & Hm & H). inversion Hm; subst; [by apply (Hk _ _ _ [])|lia].
  - set (k' := fun pv' s' g' => if (String.length s' <? String.length s)%nat then iterate greedy (run r) n pv' s' g' k else None).
    assert (forall pv' s' g', is_Some (k' pv' s' g') <-> (String.length s' < String.length s)%nat /\
      exists pv2 s2, matches (Star r) pv' s' pv2 s2 /\ is_Some (k pv2 s2 [])) as Hk'.
    { intros pv' s' g'. unfold k'. destruct (Nat.ltb_spec (String.length s') (String.length s)) as [Hlt|Hge].
      - rewrite IHn by (done || lia). naive_solver.
      - split; [by intros []|by intros [? _]; lia]. }
    assert (is_Some (run r pv s g k') <-> exists pv1 s1, matches r pv s pv1 s1 /\ is_Some (k' pv1 s1 [])) as Hr.
    { apply IH. intros pv1 s1 g1 g2. by rewrite !Hk'. }
    assert (is_Some (k pv s g) \/ is_Some (run r pv s g k') <-> exists pv' s', matches (Star r) pv s pv' s' /\ is_Some (k pv' s' [])) as Hmain.
    { rewrite Hr. split.
      - intros [H|(pv1 & s1 & Hm & H)].
        + exists pv, s. split; [constructor|by apply (Hk _ _ g)].
        + apply Hk' in H as (Hlt & pv2 & s2 & Hm2 & H). exists pv2, s2. split; [by eapply M_star_more|done].
      - intros (pv' & s' & Hm & H). inversion Hm as [| | | | | |? ? ? pv1 s1 ? ? H1 H2 H3| | | | |]; subst.
        + left. by apply (Hk _ _ _ []).
        + right. exists pv1, s1. split; [done|]. apply Hk'. split; [done|]. by exists pv', s'. }
    rewrite <- Hmain. destruct greedy; rewrite is_Some_alt; [apply or_comm|done].
Qed.

(** The matcher succeeds exactly when some way to match lets the rest succeed. *)
Lemma run_iff : forall r pv s g (k : option ascii -> string -> Captures -> option A), blind k ->
  is_Some (run r pv s g k) <-> exists pv' s', matches r pv s pv' s' /\ is_Some (k pv' s' []).
Proof.
  induction r as [|p|r1 IH1 r2 IH2|r1 IH1 r2 IH2|r IH|r IH|i r IH| | |]; intros pv s g k Hk; cbn [run].
  - rewrite (Hk pv s g []). split; [by exists pv, s; split; [constructor|]|].
    intros (pv' & s' & Hm & H). by inversion Hm; subst.
  - split.
    + destruct s as [|c s]; [by intros []|]. destruct (p c) eqn:E; [|by intros []]. intros H.
      exists (Some c), s. split; [by constructor|by apply (Hk _ _ g)].
    + intros (pv' & s' & Hm & H). inversion Hm as [|? ? c s0 E| | | | | | | | | |]; subst. rewrite E. by apply (Hk _ _ _ []).
  - assert (blind (fun pv s g => run r2 pv s g k)) as Hk2.
    { intros pv1 s1 g1 g2. by rewrite !IH2. }
    rewrite IH1 by done. split.
    + intros (pv1 & s1 & H1 & (pv2 & s2 & H2 & H)%IH2); [|done]. exists pv2, s2. split; [by eapply M_cat|done].
    + intros (pv2 & s2 & Hm & H). inversion Hm as [| |? ? ? ? pv1 s1 ? ? H1 H2| | | | | | | | |]; subst.
      exists pv1, s1. split; [done|]. apply IH2; [done|]. by exists pv2, s2.
  - rewrite is_Some_alt, IH1, IH2 by done. split.
    + intros [(pv' & s' & Hm & H)|(pv' & s' & Hm & H)]; exists pv', s'; split; [by apply M_alt_l| |by apply M_alt_r|]; done.
    + intros (pv' & s' & Hm & H). inversion Hm; subst; [left|right]; by exists pv', s'.
  - by apply iterate_iff.
  - rewrite (iterate_iff false r IH (String.length s) pv s g k Hk) by done. split; intros (pv' & s' & Hm & H); exists pv', s'.
    + split; [by constructor|done].
    + by inversion Hm; subst.
  - rewrite IH by (intros pv1 s1 g1 g2; apply Hk). split; intros (pv' & s' & Hm & H); exists pv', s'.
    + split; [by constructor|by eapply Hk].
    + inversion Hm; subst. split; [done|by eapply Hk].
  - split.
    + destruct (at_boundary pv s) eqn:E; [|by intros []]. intros H. exists pv, s. split; [by constructor|by apply (Hk _ _ g)].
    + intros (pv' & s' & Hm & H). inversion Hm as [| | | | | | | | |? ? E| |]; subst. rewrite E. by apply (Hk _ _ _ []).
  - split.
    + destruct pv; [by intros []|]. intros H. exists None, s. split; [by constructor|by apply (Hk _ _ g)].
    + intros (pv' & s' & Hm & H). inversion Hm; subst. by apply (Hk _ _ _ []).
  - split.
    + destruct s; [|by intros []]. intros H. exists pv, "". split; [by constructor|by apply (Hk _ _ g)].
    + intros (pv' & s' & Hm & H). inversion Hm; subst. by apply (Hk _ _ _ []).
Qed.
End Sound.

(** [regex_match] accepts exactly the strings of the language. *)
Lemma regex_match_iff r s : regex_match r s = true <-> exists pv', matches r None s pv' "".
Proof.
  unfold regex_match. rewrite bool_decide_eq_true, run_iff by (intros pv s0 g g'; by destruct s0). split.
  - intros (pv' & s' & Hm & H). destruct s'; [by exists pv'|by destruct H].
  - intros (pv' & Hm). exists pv', "". by split; [|eexists].
Qed.

(** ** Splitting at single characters *)
Definition cls (p : ascii -> bool) : regex := Chr p.

(** The pieces between the characters of [p]. *)
Fixpoint fields (p : ascii -> bool) (cur s : string) : list string :=
  match s with
  | EmptyString => [cur]
  | String c s => if p c then cur :: fields p "" s else fields p (cur +:+ String c "") s
  end.

Lemma search_chr p : forall s pv,
  search (Chr p) pv s =
  match s with
  | EmptyString => None
  | String c s' =>
    if p c then Some (mkFound "" (String c "") [] (Some c) s')
    else match search (Chr p) (Some c) s' with
         | Some f => Some (mkFound (String c (f_prefix f)) (f_match f) (f_groups f) (f_last f) (f_suffix f))
         | None => None
         end
  end.
Proof.
  intros s pv. destruct s as [|c s]; [done|]. cbn [search run]. destruct (p c); [|done].
  cbn [String.length]. by replace (S (String.length s) - String.length s)%nat with 1%nat by lia.
Qed.

Lemma fields_search p : forall s cur pv, fields p cur s =
  match search (Chr p) pv s with
  | None => [cur +:+ s]
  | Some f => (cur +:+ f_prefix f) :: fields p "" (f_suffix f)
  end.
Proof.
  induction s as [|c s IH]; intros cur pv; rewrite search_chr; cbn [fields]; [by rewrite app_empty_r|].
  destruct (p c); [by cbn [f_prefix f_suffix]; rewrite app_empty_r|].
  rewrite (IH _ (Some c)). destruct (search (Chr p) (Some c) s) as [f|]; cbn [f_prefix f_suffix]; by rewrite app_cons_r.
Qed.

Lemma search_chr_shorter p : forall s pv f, search (Chr p) pv s = Some f -> (String.length (f_suffix f) < String.length s)%nat.
Proof.
  induction s as [|c s IH]; intros pv f; rewrite search_chr; [done|]. cbn [String.length].
  destruct (p c); [intros [= <-]; cbn; lia|].
  destruct (search (Chr p) (Some c) s) as [f'|] eqn:E; [|done]. intros [= <-]. apply IH in E. cbn. lia.
Qed.

Definition non_empty (t : string) : bool := negb (String.eqb t "").

(** Without the empty pieces, splitting at single characters gives the fields between them. *)
Lemma regex_split_fields p s : List.filter non_empty (regex_split s (Chr p)) = List.filter non_empty (fields p "" s).
Proof.
  unfold regex_split. generalize (None : option ascii) as pv.
  assert (String.length s < S (String.length s))%nat as Hn by lia. revert Hn. generalize (S (String.length s)) as n. intros n.
  revert s. induction n as [|n IH]; intros s Hn pv; [lia|]. cbn [split_from].
  rewrite (fields_search p s "" pv). destruct (search (Chr p) pv s) as [f|] eqn:E.
  - apply search_chr_shorter in E. cbn [List.filter]. rewrite IH by lia. by rewrite app_nil.
  - rewrite app_nil. by destruct s.
Qed.

(** ** What a match consumes *)
Definition suffix_of (s' s : string) : Prop := exists w, s = w +:+ s'.
Lemma suffix_refl s : suffix_of s s.
Proof. by exists "". Qed.
Lemma suffix_trans s1 s2 s3 : suffix_of s1 s2 -> suffix_of s2 s3 -> suffix_of s1 s3.
Proof. intros [w ->] [v ->]. exists (v +:+ w). by rewrite app_assoc_str. Qed.

Section Consumed.
Context {A : Type}.

Lemma iterate_suffix greedy r x
    (IH : forall pv s g (k : option ascii -> string -> Captures -> option A), run r pv s g k = Some x ->
       exists pv' s' g', suffix_of s' s /\ k pv' s' g' = Some x) :
  forall n pv s g (k : option ascii -> string -> Captures -> option A), iterate greedy (run r) n pv s g k = Some x ->
  exists pv' s' g', suffix_of s' s /\ k pv' s' g' = Some x.
Proof.
  induction n as [|n IHn]; intros pv s g k; cbn [iterate].
  { intros E. exists pv, s, g. by split; [apply suffix_refl|]. }
  set (k' := fun pv' s' g' => if (String.length s' <? String.length s)%nat then iterate greedy (run r) n pv' s' g' k else None).
  assert (run r pv s g k' = Some x -> exists pv' s' g', suffix_of s' s /\ k pv' s' g' = Some x) as Hr.
  { intros (pv1 & s1 & g1 & H1 & H)%IH. unfold k' in H. destruct (_ <? _)%nat in H; [|done].
    apply IHn in H as (pv2 & s2 & g2 & H2 & H). exists pv2, s2, g2. split; [by eapply suffix_trans|done]. }
  assert (k pv s g = Some x -> exists pv' s' g', suffix_of s' s /\ k pv' s' g' = Some x) as Hk.
  { intros E. exists pv, s, g. by split; [apply suffix_refl|]. }
  destruct greedy.
  - destruct (run r pv s g k') as [y|]; [intros [= ->]; by apply Hr|exact Hk].
  - destruct (k pv s g) as [y|]; [intros [= ->]; by apply Hk|exact Hr].
Qed.

Lemma run_suffix x : forall r pv s g (k : option ascii -> string -> Captures -> option A), run r pv s g k = Some x ->
  exists pv' s' g', suffix_of s' s /\ k pv' s' g' = Some x.
Proof.
  assert (forall pv s g (k : option ascii -> string -> Captures -> option A), k pv s g = Some x ->
    exists pv' s' g', suffix_of s' s /\ k pv' s' g' = Some x) as Hstay.
  { intros pv s g k E. exists pv, s, g. by split; [apply suffix_refl|]. }
  induction r as [|p|r1 IH1 r2 IH2|r1 IH1 r2 IH2|r IH|r IH|i r IH| | |]; intros pv s g k; cbn [run].
  - apply Hstay.
  - destruct s as [|c s]; [done|]. destruct (p c); [|done]. intros E. exists (Some c), s, g. split; [|done].
    by exists (String c "").
  - intros (pv1 & s1 & g1 & H1 & (pv2 & s2 & g2 & H2 & E)%IH2)%IH1. exists pv2, s2, g2. split; [by eapply suffix_trans|done].
  - destruct (run r1 pv s g k) as [y|] eqn:E1; [intros [= ->]; by eapply IH1|apply IH2].
  - by apply iterate_suffix.
  - by apply iterate_suffix.
  - intros (pv' & s' & g' & H & E)%IH. by exists pv', s', ((i, str_take (String.length s - String.length s') s) :: g').
  - case_if; [apply Hstay|done].
  - destruct pv; [done|apply Hstay].
  - destruct s; [apply Hstay|done].
Qed.
End Consumed.

Lemma str_take_app (t w s : string) : t = w +:+ s -> str_take (String.length t - String.length s) t = w.
Proof.
  intros ->. rewrite length_str_app. replace (String.length w + String.length s - String.length s)%nat with (String.length w) by lia.
  induction w as [|c w IH]; [by destruct s|]. rewrite app_cons. cbn. by rewrite IH.
Qed.

(** A search cuts the string in three. *)
Lemma search_parts r : forall s pv f, search r pv s = Some f -> s = f_prefix f +:+ (f_match f +:+ f_suffix f).
Proof.
  induction s as [|c s IH]; intros pv f; cbn [search].
  - destruct (run r pv "" [] _) as [f'|] eqn:E; [|done]. intros [= <-].
    apply run_suffix in E as (pv' & s' & g' & [w Hw] & [= <-]). by destruct w, s'.
  - destruct (run r pv (String c s) [] _) as [f'|] eqn:E.
    + intros [= <-]. apply run_suffix in E as (pv' & s' & g' & [w Hw] & [= <-]). cbn [f_prefix f_match f_suffix].
      rewrite app_nil. rewrite Hw at 1. f_equal. symmetry. exact (str_take_app _ _ _ Hw).
    + destruct (search r (Some c) s) as [f'|] eqn:Es; [|done]. intros [= <-]. cbn [f_prefix f_match f_suffix].
      apply IH in Es. by rewrite app_cons, <- Es.
Qed.

(** Replacing puts no characters in but those of the format. *)
Lemma replace_all_of p r fmt : all_of p fmt = true -> forall n s pv, all_of p s = true -> all_of p (replace_from n r fmt pv s) = true.
Proof.
  intros Hf. induction n as [|n IH]; intros s pv Hs; [done|]. cbn [replace_from].
  destruct (search r pv s) as [f|] eqn:E; [|done]. apply search_parts in E. rewrite E, !all_of_app in Hs.
  apply andb_true_iff in Hs as [Hp [Hm Hs]%andb_true_iff]. by rewrite !all_of_app, Hp, Hf, IH.
Qed.
