(* ===== verification/Features.v ===== *)
(** [contextual-classifier/FeaturePruner.cpp], [FeatureExtractor.cpp] and [MLInference.cpp]: the
    text that describes a process, taken from /proc and from the journal, its cleaning, and
    the class that is made of the model's answer.

    The regular expressions of the source are written as terms of Regex.v.  The links of /proc,
    the output of journalctl and the fastText model are parameters. *)
From Stdlib Require Import Ascii.
From S2P Require Import Prelude UrmTypes StdString StringFacts AuxRoutines Regex Classifier.
Open Scope string_scope.
Open Scope list_scope.
Open Scope Z_scope.

(** ** FeaturePruner.cpp *)
Fixpoint mem_char (c : ascii) (s : string) : bool :=
  match s with String d s => Ascii.eqb c d || mem_char c s | EmptyString => false end.

Definition special_in_class (c : ascii) : bool := is_char 92 c || is_char 93 c || is_char 94 c || is_char 45 c.
Fixpoint escapeForCharClass (d : string) : string :=
  match d with
  | EmptyString => ""
  | String c d => if special_in_class c then String "092"%char (String c (escapeForCharClass d)) else String c (escapeForCharClass d)
  end.

(** What follows the opening bracket of a class, as the grammar reads it: the characters, and
    what follows the class.  A backslash makes the next character plain; the other notations
    ([^], ranges, [[:], [[.], [[=]) do not occur and are an error here. *)
Fixpoint parse_class (s : string) : option string :=
  match s with
  | EmptyString => None
  | String c s' =>
    if is_char 93 c then (match s' with EmptyString => Some "" | _ => None end)
    else if is_char 92 c then
      match s' with
      | String e s'' => if isalnum e then None else String e <$> parse_class s''
      | EmptyString => None
      end
    else if is_char 45 c || is_char 94 c then None
    else if is_char 91 c && (match s' with String e _ => is_char 58 e || is_char 46 e || is_char 61 e | EmptyString => false end) then None
    else String c <$> parse_class s'
  end.

Definition class_regex (delimiters : string) : option regex :=
  cs ← parse_class (escapeForCharClass delimiters +:+ "]"); Some (Chr (fun c => mem_char c cs)).

(** [None]: the constructor of the expression throws. *)
Definition splitString (input delimiters : string) : option (list string) :=
  re ← class_regex delimiters; Some (List.filter non_empty (regex_split input re)).

Definition trim (s : string) : string := trim_right (trim_left s).

Fixpoint strip_end (p : ascii -> bool) (s : string) : string :=
  match s with
  | EmptyString => ""
  | String c s' =>
    match strip_end p s' with
    | EmptyString => if p c then "" else String c ""
    | t => String c t
    end
  end.

Definition normalizeLibraryName (s : string) : string :=
  let result := trim s in
  if String.eqb result "" then result else
  let result := match String.index 0 ".so" result with Some pos => String.substring 0 pos result | None => result end in
  let result := strip_end isdigit result in
  let result := strip_end (fun c => is_char 45 c || is_char 95 c || is_char 46 c) result in
  let result := trim result in
  if String.eqb result "so" then "" else result.

Definition DateSep : regex := Chr (fun c => is_char 45 c || is_char 47 c || is_char 46 c).
Definition Digits (n m : nat) : regex := Between n (m - n) Digit.
Definition date_numeric : regex :=
  Alt (Group 1 (Cat WordB (Cat (Digits 1 2) (Cat DateSep (Cat (Digits 1 2) (Cat DateSep (Cat (Digits 2 4) WordB)))))))
      (Group 2 (Cat WordB (Cat (Digits 4 4) (Cat DateSep (Cat (Digits 1 2) (Cat DateSep (Cat (Digits 1 2) WordB))))))).
Definition Month (head tail : string) : regex := Cat (IWord head) (Opt (IWord tail)).
Definition month_name : regex :=
  Alts [Month "jan" "uary"; Month "feb" "ruary"; Month "mar" "ch"; Month "apr" "il"; IWord "may"; Month "jun" "e";
        Month "jul" "y"; Month "aug" "ust"; Cat (IWord "sep") (Opt (Alt (IWord "t") (IWord "tember")));
        Month "oct" "ober"; Month "nov" "ember"; Month "dec" "ember"].
Definition date_month_name : regex :=
  Alt (Cat WordB (Cat month_name (Cat (Plus Space) (Cat (Digits 1 2)
        (Cat (Opt (Cat (Lit ",") (Star Space))) (Cat (Plus Space) (Cat (Digits 2 4) WordB)))))))
      (Cat WordB (Cat (Digits 1 2) (Cat (Plus Space) (Cat month_name
        (Cat (Opt (Cat (Lit ",") (Star Space))) (Cat (Plus Space) (Cat (Digits 2 4) WordB))))))).
Definition time_hm : regex :=
  Cat WordB (Cat (Digits 1 2) (Cat (Lit ":") (Cat (Digits 2 2) (Cat (Opt (Group 1 (Cat (Lit ":") (Digits 2 2))))
    (Cat (Star Space) (Cat (Opt (Group 2 (Alt (IWord "AM") (IWord "PM")))) WordB)))))).
Definition removeDatesAndTimesFromToken (input : string) : string :=
  let out := regex_replace input date_numeric "" in
  let out := regex_replace out date_month_name "" in
  let out := regex_replace out time_hm "" in
  regex_replace out (AtLeast 2 Space) " ".

Fixpoint keep_chars (p : ascii -> bool) (s : string) : string :=
  match s with String c s => if p c then String c (keep_chars p s) else keep_chars p s | EmptyString => "" end.

Definition ispunct (c : ascii) : bool :=
  let n := ascii_code c in (33 <=? n) && (n <=? 126) && negb (isalnum c).
Definition removePunctuation (s : string) : string := keep_chars (fun c => negb (ispunct c)) s.
Definition isSingleCharToken (s : string) : bool := (String.length s =? 1)%nat.
Definition isAllSpecialChars (token : string) : bool :=
  negb (String.eqb token "") && all_of (fun c => negb (isalnum c)) token.
Definition hasDigit (str : string) : bool := bool_decide (is_Some (regex_search Digit str)).
Definition isDigitsOnly (str : string) : bool := negb (String.eqb str "") && all_of isdigit str.
Definition filterStrings (input : list string) (ignoreSet : gset string) : list string :=
  List.filter (fun s => bool_decide (s ∉ ignoreSet)) input.
Definition removeDoubleQuotes (vec : list string) : list string := map (keep_chars (fun c => negb (is_char 34 c))) vec.
Definition toLowercaseVector (input : list string) : list string := map toLowerCase input.

(** The inner loop, until there is no double dash; each round removes two characters. *)
Fixpoint erase_dashes (n : nat) (s : string) : string :=
  match n with
  | O => s
  | S n =>
    match String.index 0 "--" s with
    | Some pos => erase_dashes n (String.substring 0 pos s +:+ substr_from (pos + 2) s)
    | None => s
    end
  end.
Definition removeDoubleDash (vec : list string) : list string :=
  map (fun s => erase_dashes (S (String.length s)) s) (List.filter (fun s => negb (String.eqb s "--")) vec).

Definition hexchar (c : ascii) : bool := bool_decide (is_Some (digit_in 16 c)).
Definition HexDigit : regex := Chr hexchar.
Definition kUuidRe : regex :=
  Cat WordB (Cat (Rep 8 HexDigit) (Cat (Rep 3 (Cat (Lit "-") (Rep 4 HexDigit))) (Cat (Lit "-") (Cat (Rep 12 HexDigit) WordB)))).
Definition kHexRunRe : regex := Cat WordB (Cat (AtLeast 4 HexDigit) WordB).
Definition kDecRe : regex := Cat WordB (Cat (Opt (Chr (fun c => is_char 43 c || is_char 45 c))) (Cat (Plus Digit) WordB)).
Definition replace_numbers_and_hex_with_N (s : string) : string :=
  regex_replace (regex_replace (regex_replace s kUuidRe "n") kHexRunRe "n") kDecRe "n".
Definition normalize_numbers_inplace (tokens : list string) : list string := map replace_numbers_and_hex_with_N tokens.

(** [getline(iss, key, ':') && getline(iss, values)]. *)
Fixpoint key_values (cur s : string) : option (string * string) :=
  match s with
  | EmptyString => None
  | String c s =>
    if is_char 58 c then (match s with EmptyString => None | _ => Some (cur, s) end) else key_values (cur +:+ String c "") s
  end.
Definition IgnoreMap : Type := gmap string (gset string).
Definition load_line (labels : list string) (ignoreMap : IgnoreMap) (line : string) : IgnoreMap :=
  match key_values "" line with
  | Some (key, values) =>
    if bool_decide (key ∈ labels) then
      foldl (fun m val => let val := trim val in
               if String.eqb val "" then m else <[key := {[val]} ∪ default ∅ (m !! key)]> m)
        ignoreMap (split_on ","%char values)
    else ignoreMap
  | None => ignoreMap
  end.
Definition loadIgnoreMap (fs : FileSystem) (filename : string) (labels : list string) : IgnoreMap :=
  match fs_files fs !! filename with
  | None => ∅
  | Some content => foldl (load_line labels) ∅ (split_on newline content)
  end.

(** ** FeatureExtractor.cpp *)
Record Proc := mkProc {
  pr_fs : FileSystem;
  pr_readlink : string -> option string;
  pr_popen : string -> option (list string)     (* the lines a command prints *)
}.

Definition PATH_MAX : nat := 4096.
Definition readlink (pr : Proc) (path : string) : option string := str_take (PATH_MAX - 1) <$> pr_readlink pr path.

(** The constructor: the ignored tokens, per label, from IGNORE_TOKENS_PATH.  All the other
    functions are static and the daemon constructs no extractor: there the map is empty. *)
Definition labels : list string := ["attr"; "cgroup"; "cmdline"; "comm"; "environ"; "exe"; "logs"; "fds"; "map_files"].
Definition FeatureExtractor (fs : FileSystem) (IGNORE_TOKENS_PATH : string) : IgnoreMap := loadIgnoreMap fs IGNORE_TOKENS_PATH labels.

Section Extractor.
Context (pr : Proc) (mTokenIgnoreMap : IgnoreMap).

Definition IsValidPidViaProc (pid : Z) : bool := bool_decide (is_Some (fs_dirs (pr_fs pr) ("/proc/" +:+ to_string pid))).

(** The delimiters of the source make no expression throw. *)
Definition split (input delimiters : string) : list string := default [] (splitString input delimiters).

Fixpoint join (sep : string) (vec : list string) : string :=
  match vec with [] => "" | [s] => s | s :: vec => s +:+ sep +:+ join sep vec end.
Definition join_vector (vec : list string) : string := join " " vec.

Definition file (path : string) : option string := fs_files (pr_fs pr) !! path.

Definition enforce_re : regex := Cat (Star Space) (Cat (Lit "(") (Cat (Word "enforce") (Lit ")"))).
Definition ParseAttrCurrent (pid : Z) (delimiters : string) : list string :=
  match file (proc_file pid "attr/current") with
  | None | Some EmptyString => []
  | Some content => split (regex_replace (first_line content) enforce_re "") delimiters
  end.

Definition ParseCgroup (pid : Z) (delimiters : string) : list string :=
  match file (proc_file pid "cgroup") with
  | None => []
  | Some content => flat_map (fun line => split line delimiters) (split_on newline content)
  end.

(** The arguments that a null character ends. *)
Fixpoint cmdline_args (cur content : string) : list string :=
  match content with
  | EmptyString => []
  | String c s =>
    if Ascii.eqb c zero then (if String.eqb cur "" then cmdline_args "" s else cur :: cmdline_args "" s)
    else cmdline_args (cur +:+ String c "") s
  end.
Definition clean_arg (delimiters raw : string) : string := trim (keep_chars (fun c => negb (mem_char c delimiters)) raw).
Definition keep_arg (cleaned : string) : bool :=
  negb (String.eqb cleaned "") && negb (isDigitsOnly cleaned) && (1 <? String.length cleaned)%nat.
Definition ParseCmdline (pid : Z) (delimiters : string) : list string :=
  match file (proc_file pid "cmdline") with
  | None => []
  | Some content =>
    flat_map (fun arg => List.filter keep_arg (map (clean_arg delimiters) (split arg delimiters))) (cmdline_args "" content)
  end.

Definition ParseComm (pid : Z) (delimiters : string) : list string :=
  match file (proc_file pid "comm") with
  | None => []
  | Some content =>
    List.filter (fun cleaned => negb (String.eqb cleaned "") && (1 <? String.length cleaned)%nat)
      (map trim (split (first_line content) delimiters))
  end.

(** [if(std::find(...) == end) push_back]. *)
Definition push_new (results : list string) (x : string) : list string :=
  if bool_decide (x ∈ results) then results else results ++ [x].

(** The links of a directory, hidden entries skipped. *)
Definition link_targets (dir_path : string) : list string :=
  match fs_dirs (pr_fs pr) dir_path with
  | None => []
  | Some entries =>
    omap (fun e => if String.prefix "." e.1 then None else readlink pr (dir_path +:+ "/" +:+ e.1)) entries
  end.

Definition map_token (results : list string) (tok : string) : list string :=
  let simplified := normalizeLibraryName tok in
  if String.eqb simplified "" || (String.length simplified <=? 1)%nat then results else
  if isDigitsOnly simplified then results else push_new results simplified.
Definition ParseMapFiles (pid : Z) (delimiters : string) : list string :=
  foldl (fun results target => foldl map_token results (split target delimiters)) [] (link_targets (proc_file pid "map_files")).

Definition fd_token (results : list string) (tok : string) : list string :=
  if String.eqb tok "" then results else
  let cleaned := removeDatesAndTimesFromToken tok in
  if String.eqb cleaned "" then results else
  if all_of isdigit cleaned then results else push_new results cleaned.
Definition ParseFd (pid : Z) (delimiters : string) : list string :=
  foldl (fun results target => foldl fd_token results (split target delimiters)) [] (link_targets (proc_file pid "fd")).

Definition environ_token (delimiters token : string) : option string :=
  let token := keep_chars (fun c => negb (mem_char c delimiters)) token in
  if isAllSpecialChars token then None else
  if negb (String.eqb token "") && negb (hasDigit token) then Some token else None.
Definition ParseEnviron (pid : Z) (delimiters : string) : list string :=
  match file (proc_file pid "environ") with
  | None => []
  | Some content =>
    flat_map (fun entry => omap (environ_token delimiters) (split entry delimiters)) (List.filter non_empty (split_on zero content))
  end.

Definition ParseExe (pid : Z) (delimiters : string) : list string :=
  match readlink pr (proc_file pid "exe") with
  | None => []
  | Some exePath => List.filter (fun part => negb (isDigitsOnly part)) (split exePath delimiters)
  end.

(** The shell command: the name of the process as it is. *)
Definition journal_command (comm : string) (numLines : Z) : string :=
  "journalctl --no-pager -n " +:+ to_string numLines +:+ " _COMM=" +:+ comm.
Definition ReadJournalForPid (pid numLines : Z) : list string :=
  match file (proc_file pid "comm") with
  | None => []
  | Some content => default [] (pr_popen pr (journal_command (first_line content) numLines))
  end.

Definition bracketedTag : regex :=
  Cat (Lit "[") (Cat (Star Space) (Cat (Opt (Group 1 (Alts [IWord "info"; IWord "warn"; IWord "error"; IWord "debug"; IWord "trace"])))
    (Cat (Star Space) (Opt (Lit "]"))))).
Definition log_token (token : string) : list string :=
  let token := removePunctuation token in
  if negb (String.eqb token "") && negb (isSingleCharToken token) && negb (isDigitsOnly token) then [token] else [].
Fixpoint log_tokens (delimiters token s : string) : list string :=
  match s with
  | EmptyString => if String.eqb token "" then [] else log_token token
  | String ch s =>
    if mem_char ch delimiters
    then (if String.eqb token "" then [] else log_token token) ++ log_tokens delimiters "" s
    else log_tokens delimiters (token +:+ String ch "") s
  end.
Definition ParseLog (input delimiters : string) : list string :=
  log_tokens delimiters "" (keep_chars (fun c => negb (is_char 10 c)) (regex_replace input bracketedTag "")).

Definition journal_re : regex :=
  Cat (Lazy Dot) (Cat (Lit " ") (Cat (Group 1 (Plus NonSpace)) (Cat (Lit "[") (Cat (Group 2 (Plus Digit))
    (Cat (Lit "]") (Cat (Lit ":") (Cat (Lit " ") (Group 3 (Star Dot))))))))).
Fixpoint group (i : nat) (g : Captures) : string :=
  match g with (j, s) :: g => if (i =? j)%nat then s else group i g | [] => "" end.
Definition ExtractProcessNameAndMessage (journalLines : list string) : list string :=
  omap (fun line => match regex_search journal_re line with
                    | Some f => Some (group 1 (f_groups f) +:+ ": " +:+ group 3 (f_groups f))
                    | None => None
                    end) journalLines.

Definition ignored (label : string) : gset string := default ∅ (mTokenIgnoreMap !! label).
Definition LOG_LINES : Z := 20.

(** The tokens of one source, in lower case, before and after the ignored ones are removed. *)
Record Tokens := mkTokens { tk_lower : list string; tk_filtered : list string }.
Definition tokens (label : string) (finish : list string -> list string) (raw : list string) : Tokens :=
  let lower := toLowercaseVector raw in mkTokens lower (finish (filterStrings lower (ignored label))).

Record Features := mkFeatures {
  ft_attr : Tokens; ft_cgroup : Tokens; ft_cmdline : Tokens; ft_comm : Tokens; ft_maps : Tokens;
  ft_fds : Tokens; ft_environ : Tokens; ft_exe : Tokens; ft_logs : Tokens
}.
Definition quote : string := String "034"%char "".
Definition collect (pid : Z) : Features :=
  mkFeatures
    (tokens "attr" id (ParseAttrCurrent pid ".:"))
    (tokens "cgroup" normalize_numbers_inplace (ParseCgroup pid (":" +:+ quote +:+ "/")))
    (tokens "cmdline" removeDoubleDash (ParseCmdline pid ".=/!"))
    (tokens "comm" normalize_numbers_inplace (ParseComm pid "."))
    (tokens "map_files" normalize_numbers_inplace (ParseMapFiles pid "/()_:."))
    (tokens "fds" id (ParseFd pid ":[]/()="))
    (tokens "environ" normalize_numbers_inplace (ParseEnviron pid "=@;!-._/:, "))
    (tokens "exe" normalize_numbers_inplace (ParseExe pid "/."))
    (tokens "logs" removeDoubleQuotes
       (flat_map (fun entry => ParseLog entry "=!'&/.,:- ") (ExtractProcessNameAndMessage (ReadJournalForPid pid LOG_LINES)))).

Definition output_data (f : Features) : gmap string string :=
  {[ "attr" := join_vector (tk_filtered (ft_attr f)); "cgroup" := join_vector (tk_filtered (ft_cgroup f));
     "cmdline" := join_vector (tk_filtered (ft_cmdline f)); "comm" := join_vector (tk_filtered (ft_comm f));
     "maps" := join_vector (tk_filtered (ft_maps f)); "fds" := join_vector (tk_filtered (ft_fds f));
     "environ" := join_vector (tk_filtered (ft_environ f)); "exe" := join_vector (tk_filtered (ft_exe f));
     "logs" := join_vector (tk_filtered (ft_logs f)) ]}.
(** ** The two files of [dump_csv] *)
Definition csv_field (vec : list string) : string := "," +:+ quote +:+ join "," vec +:+ quote.
Fixpoint escape_quotes (s : string) : string :=
  match s with
  | String c s => if is_char 34 c then String c (String c (escape_quotes s)) else String c (escape_quotes s)
  | EmptyString => ""
  end.
Definition csv_content (pid : Z) (sel : Tokens -> list string) (f : Features) : string :=
  "PID,attr,cgroup,cmdline,comm,maps,fds,environ,exe,logs" +:+ String newline (to_string pid +:+
  csv_field (sel (ft_attr f)) +:+ csv_field (sel (ft_cgroup f)) +:+ csv_field (sel (ft_cmdline f)) +:+
  csv_field (sel (ft_comm f)) +:+ csv_field (sel (ft_maps f)) +:+ csv_field (sel (ft_fds f)) +:+
  csv_field (map escape_quotes (sel (ft_environ f))) +:+ csv_field (sel (ft_exe f)) +:+ csv_field (sel (ft_logs f)) +:+
  String newline "").

(** What [mkdir] answers is not looked at; whether the files then open is the file system's. *)
Definition make_dir (folder : string) (fs : FileSystem) : FileSystem :=
  if fileExists fs folder then fs else
  match fs_mkdir fs folder with
  | MkdirOk => mkFS (fs_files fs) (fun d => if String.eqb d folder then Some [] else fs_dirs fs d)
                 (fs_openable_w fs) (fs_access_w fs) (fs_mkdir fs)
  | MkdirExists | MkdirError => fs
  end.
Definition csv_name (pid : Z) : string :=
  let processName := match ParseComm pid "." with [] => "unknown_process" | comm :: _ => toLowerCase comm end in
  processName +:+ "_" +:+ to_string pid +:+ "_proc_info.csv".
Definition dump (prunedFolder unfilteredFolder : string) (pid : Z) (f : Features) (fs : FileSystem) : FileSystem :=
  let fs := make_dir unfilteredFolder (make_dir prunedFolder fs) in
  let fileName := csv_name pid in
  let fs := writeToFile fs (unfilteredFolder +:+ "/" +:+ fileName +:+ "_unfiltered.csv") (csv_content pid tk_lower f) in
  writeToFile fs (prunedFolder +:+ "/" +:+ fileName +:+ "_filtered.csv") (csv_content pid tk_filtered f).

(** The result (1: no such process), the features and the files. *)
Definition CollectAndStoreData (prunedFolder unfilteredFolder : string) (pid : Z) (dump_csv : bool)
  : Z * gmap string string * FileSystem :=
  if negb (IsValidPidViaProc pid) then (1, ∅, pr_fs pr) else
  let f := collect pid in
  (0, output_data f, if dump_csv then dump prunedFolder unfilteredFolder pid f (pr_fs pr) else pr_fs pr).
End Extractor.

(** ** MLInference.cpp *)
Definition text_cols_ : list string :=
  ["attr"; "cgroup"; "cmdline"; "cmdline"; "cmdline"; "cmdline"; "cmdline"; "comm"; "comm"; "comm"; "comm"; "comm";
   "maps"; "maps"; "fds"; "environ"; "exe"; "exe"; "exe"; "exe"; "exe"; "logs"].

Definition REMOVE_KEYWORDS : list string :=
  ["unconfined"; "user.slice"; "user-n.slice"; "user@n.service"; "app.slice"; "app-org.gnome.terminal.slice";
   "vte-spawn-n.scope"; "usr"; "bin"; "lib"].
Definition BROWSER_TERMS : list string :=
  ["httrack"; "konqueror"; "amfora"; "luakit"; "epiphany"; "firefox"; "chrome"; "chromium"; "webkit"; "gecko"; "safari";
   "opera"; "brave"; "vivaldi"; "edge"; "lynx"; "w3m"; "falkon"].

Definition user_slice_pattern_ : regex := Cat Bol (Cat (Word "user-") (Cat (Plus Digit) (Cat (Word ".slice") Eol))).
Definition user_service_pattern_ : regex := Cat Bol (Cat (Word "user@") (Cat (Plus Digit) (Cat (Word ".service") Eol))).
Definition vte_spawn_pattern_ : regex := Cat Bol (Cat (Word "vte-spawn-") (Cat (Star Dot) (Cat (Word ".scope") Eol))).
Definition decimal_pattern_ : regex := Cat Bol (Cat (Plus Digit) (Cat (Opt (Group 1 (Cat (Lit ".") (Plus Digit)))) Eol)).
Definition hex_pattern_ : regex :=
  Cat (IWord "0x") (Plus (Chr (fun c => let c := tolower c in isdigit c || ((97 <=? ascii_code c) && (ascii_code c <=? 102))))).
Definition long_number_pattern_ : regex := AtLeast 4 Digit.

Fixpoint map_chars (f : ascii -> ascii) (s : string) : string :=
  match s with String c s => String (f c) (map_chars f s) | EmptyString => "" end.
Definition blank_char (c : ascii) : ascii :=
  if is_char 44 c || is_char 91 c || is_char 93 c || is_char 40 c || is_char 41 c || is_char 123 c || is_char 125 c
  then " "%char else c.

(** [while(iss >> token)]. *)
Fixpoint words_of (cur s : string) : list string :=
  match s with
  | EmptyString => if String.eqb cur "" then [] else [cur]
  | String c s =>
    if isspace c then (if String.eqb cur "" then words_of "" s else cur :: words_of "" s)
    else words_of (cur +:+ String c "") s
  end.

Definition clean_token (tok : string) : option string :=
  let t := trim tok in
  if String.eqb t "" then None else
  if bool_decide (t ∈ REMOVE_KEYWORDS) then None else
  if regex_match user_slice_pattern_ t then None else
  if regex_match user_service_pattern_ t then None else
  if regex_match vte_spawn_pattern_ t then None else
  if regex_match decimal_pattern_ t then None else
  let t := regex_replace t hex_pattern_ "<hex>" in
  let t := regex_replace t long_number_pattern_ "<num>" in
  let is_browser_term := existsb (fun term => contains term t) BROWSER_TERMS in
  if is_browser_term then Some t else
  if negb (String.eqb t "") && (1 <? String.length t)%nat then Some t else None.

Definition CleanTextPython (input : string) : string :=
  if String.eqb input "" then "" else
  join " " (omap clean_token (words_of "" (map_chars blank_char (toLowerCase input)))).

Section Inference.
(** The label the fastText model predicts for a line; [None]: no words, or no prediction. *)
Context (predict : string -> option string).

Definition concatenated_text (rawData : gmap string string) : string :=
  foldl (fun text col => text +:+ match rawData !! col with Some v => v +:+ " " | None => " " end) "" text_cols_.
Definition pop_blank (s : string) : string :=
  if ends_with " " s then String.substring 0 (String.length s - 1) s else s.

Definition strip_label (label : string) : string :=
  if String.prefix "__label__" label then substr_from (String.length "__label__") label else label.

Definition Predict (rawData : gmap string string) : Z * string :=
  let text := pop_blank (concatenated_text rawData) in
  if String.eqb text "" then (1, "Unknown") else
  let cleaned_text := CleanTextPython text in
  if String.eqb cleaned_text "" then (1, "Unknown") else
  match predict (cleaned_text +:+ String newline "") with
  | None => (1, "Unknown")
  | Some label => (0, strip_label label)
  end.

Definition context_of (predicted_label : string) : Z :=
  if String.eqb predicted_label "app" then CC_APP
  else if String.eqb predicted_label "browser" then CC_BROWSER
  else if String.eqb predicted_label "game" then CC_GAME
  else if String.eqb predicted_label "media" then CC_MULTIMEDIA
  else CC_APP.

Definition Classify (pr : Proc) (ignoreMap : IgnoreMap) (pid : Z) : Z :=
  let proc_path := "/proc/" +:+ to_string pid in
  let '(collect_rc, rawData, _) := CollectAndStoreData pr ignoreMap "" "" pid false in
  if negb (collect_rc =? 0) then CC_APP else
  if negb (fileExists (pr_fs pr) proc_path) then CC_APP else
  let has_sufficient_features := existsb (fun kv => negb (String.eqb kv.2 "")) (map_to_list rawData) in
  if negb has_sufficient_features then CC_APP else
  let '(rc, predicted_label) := Predict rawData in
  context_of (if negb (rc =? 0) then "" else predicted_label).
End Inference.
