(* ===== verification/FeaturesFacts.v ===== *)
(** What holds of the text features (Features.v): how a line is split, what the tokens contain,
    and the text the model is given. *)
From Stdlib Require Import Ascii.
From S2P Require Import Prelude UrmTypes StdString StringFacts AuxRoutines Regex Classifier Features.
Open Scope string_scope.
Open Scope list_scope.
Open Scope Z_scope.

(** ** Characters of a string *)
Lemma all_of_keep p s : all_of p s = true -> keep_chars p s = s.
Proof. induction s as [|c s IH]; [done|]. cbn. destruct (p c); [|done]. cbn. intros E. by rewrite IH. Qed.

Lemma all_of_mem p s : all_of p s = true <-> forall c, mem_char c s = true -> p c = true.
Proof.
  induction s as [|c s IH]; cbn; [done|]. rewrite andb_true_iff, IH. split.
  - intros [Hc Hs] d. rewrite orb_true_iff. intros [->%Ascii.eqb_eq|Hd]; [done|by apply Hs].
  - intros H. split; [apply H; by rewrite Ascii.eqb_refl|]. intros d Hd. apply H. by rewrite Hd, orb_true_r.
Qed.

(** ** Splitting *)

(** A bracket that opens a named class, a collating symbol or an equivalence class. *)
Fixpoint posix_class (d : string) : bool :=
  match d with
  | EmptyString => false
  | String c d' =>
    is_char 91 c && (match d' with String e _ => is_char 58 e || is_char 46 e || is_char 61 e | EmptyString => false end)
    || posix_class d'
  end.

Lemma special_not_alnum c : special_in_class c = true ->
  isalnum c = false /\ is_char 91 c = false /\ is_char 58 c || is_char 46 c || is_char 61 c = false.
Proof.
  unfold special_in_class, is_char, isalnum, isdigit, isupper, islower. intros H.
  assert (ascii_code c = 92 \/ ascii_code c = 93 \/ ascii_code c = 94 \/ ascii_code c = 45) as Hc by lia.
  by destruct Hc as [->|[->|[->| ->]]].
Qed.

(** What the next character of the pattern is. *)
Lemma escape_head d : match escapeForCharClass d +:+ "]" with
  | String e _ => is_char 58 e || is_char 46 e || is_char 61 e
  | EmptyString => false end = match d with String e _ => is_char 58 e || is_char 46 e || is_char 61 e | EmptyString => false end.
Proof.
  destruct d as [|c d]; [done|]. cbn [escapeForCharClass]. destruct (special_in_class c) eqn:E; [|done].
  destruct (special_not_alnum c E) as (_ & _ & ->). reflexivity.
Qed.

(** The class that the escaped delimiters denote is the set of the delimiters. *)
Lemma parse_escape d : parse_class (escapeForCharClass d +:+ "]") = if posix_class d then None else Some d.
Proof.
  induction d as [|c d IH]; [done|]. cbn [escapeForCharClass posix_class].
  destruct (special_in_class c) eqn:Es.
  - rewrite !app_cons. cbn [parse_class]. change (is_char 93 "092"%char) with false. change (is_char 92 "092"%char) with true.
    cbn [orb andb]. destruct (special_not_alnum c Es) as (-> & -> & _). rewrite IH. cbn [andb orb].
    by destruct (posix_class d).
  - rewrite app_cons. cbn [parse_class]. unfold special_in_class in Es.
    destruct (is_char 93 c) eqn:E1; [by rewrite orb_true_r in Es|]. destruct (is_char 92 c) eqn:E2; [done|].
    cbn [orb] in Es. apply orb_false_iff in Es as [E3 E4]. rewrite E3, E4. cbn [orb].
    rewrite escape_head, IH. destruct (is_char 91 c && _); [done|]. cbn [orb]. by destruct (posix_class d).
Qed.

Lemma fields_clean p : forall s cur, all_of (fun c => negb (p c)) cur = true ->
  Forall (fun t => all_of (fun c => negb (p c)) t = true) (fields p cur s).
Proof.
  induction s as [|c s IH]; intros cur Hc; cbn [fields]; [by constructor|].
  destruct (p c) eqn:E; [constructor; [done|by apply IH]|]. apply IH. rewrite all_of_app, Hc. cbn. by rewrite E.
Qed.

Lemma splitString_spec input delimiters : posix_class delimiters = false ->
  splitString input delimiters = Some (List.filter non_empty (fields (fun c => mem_char c delimiters) "" input)).
Proof.
  intros Hp. unfold splitString, class_regex. rewrite parse_escape, Hp. cbn [mbind option_bind]. by rewrite regex_split_fields.
Qed.

Lemma split_clean input delimiters : posix_class delimiters = false ->
  Forall (fun t => non_empty t = true /\ all_of (fun c => negb (mem_char c delimiters)) t = true) (split input delimiters).
Proof.
  intros Hp. unfold split. rewrite splitString_spec by done. cbn [default].
  pose proof (fields_clean (fun c => mem_char c delimiters) input "" eq_refl) as Hf. rewrite Forall_forall in Hf |- *.
  intros t [Hin Hne]%list_elem_of_In%filter_In. split; [done|]. apply Hf. by apply list_elem_of_In.
Qed.

(** ** The text for the model *)

(** The characters the cleaned text is made of. *)
Definition model_char (c : ascii) : bool := negb (isspace c) && negb (isupper c) && Ascii.eqb (blank_char c) c.
Definition settled (c : ascii) : bool := negb (isupper c) && Ascii.eqb (blank_char c) c.

Lemma blank_settled c : settled (blank_char (tolower c)) = true.
Proof. by destruct c as [[] [] [] [] [] [] [] []]. Qed.

Lemma blank_all s : all_of settled (map_chars blank_char (toLowerCase s)) = true.
Proof. induction s as [|c s IH]; [done|]. cbn [toLowerCase map_chars all_of]. by rewrite blank_settled, IH. Qed.

Definition model_word (t : string) : Prop := t <> "" /\ all_of model_char t = true.

Lemma words_of_model : forall s cur, all_of settled s = true -> all_of model_char cur = true -> Forall model_word (words_of cur s).
Proof.
  induction s as [|c s IH]; intros cur Hs Hc; cbn [words_of].
  - destruct (String.eqb_spec cur ""); [done|]. by repeat constructor.
  - cbn [all_of] in Hs. apply andb_true_iff in Hs as [H1 Hs]. destruct (isspace c) eqn:Esp.
    + destruct (String.eqb_spec cur ""); [by apply IH|]. constructor; [by split|by apply IH].
    + apply IH; [done|]. rewrite all_of_app, Hc. cbn [all_of]. unfold model_char. unfold settled in H1.
      by rewrite Esp, andb_true_r.
Qed.

Lemma trim_left_all p s : all_of p s = true -> all_of p (trim_left s) = true.
Proof. induction s as [|c s IH]; [done|]. cbn. intros [H1 H2]%andb_true_iff. destruct (is_white c); [by apply IH|]. cbn. by rewrite H1. Qed.
Lemma trim_right_all p s : all_of p s = true -> all_of p (trim_right s) = true.
Proof.
  induction s as [|c s IH]; [done|]. cbn. intros [H1 H2]%andb_true_iff. specialize (IH H2).
  destruct (trim_right s) as [|d t]; [|cbn in *; by rewrite H1]. destruct (is_white c); [done|]. cbn. by rewrite H1.
Qed.

(** A replacement changes nothing, or leaves the characters of the format. *)
Lemma mem_char_app c (s t : string) : mem_char c (s +:+ t) = mem_char c s || mem_char c t.
Proof. induction s as [|d s IH]; [done|]. rewrite app_cons. cbn. by rewrite IH, orb_assoc. Qed.

Lemma replace_or_mem s r fmt c : mem_char c fmt = true ->
  regex_replace s r fmt = s \/ mem_char c (regex_replace s r fmt) = true.
Proof.
  intros Hf. unfold regex_replace. cbn [replace_from]. destruct (search r None s); [right|by left].
  by rewrite !mem_char_app, Hf, orb_true_r.
Qed.

Lemma replace_keeps s r fmt c : mem_char c fmt = true -> mem_char c s = true -> mem_char c (regex_replace s r fmt) = true.
Proof. intros Hf Hs. destruct (replace_or_mem s r fmt c Hf) as [->|]; done. Qed.

Lemma clean_token_word t t' : all_of model_char t = true -> clean_token t = Some t' -> model_word t' /\ t' ∉ REMOVE_KEYWORDS.
Proof.
  intros Ht. unfold clean_token. set (u := trim t). destruct (String.eqb u "") eqn:Eu; [done|].
  case_bool_decide as Hkw; [done|]. do 4 (case_match; [done|]).
  set (v := regex_replace u hex_pattern_ "<hex>"). set (w := regex_replace v long_number_pattern_ "<num>").
  assert (all_of model_char w = true) as Hw.
  { apply replace_all_of; [reflexivity|]. apply replace_all_of; [reflexivity|]. by apply trim_right_all, trim_left_all. }
  assert (w ∉ REMOVE_KEYWORDS) as Hk.
  { assert (w = u \/ mem_char "<"%char w = true) as [->|Hm]; [|done|].
    - destruct (replace_or_mem v long_number_pattern_ "<num>" "<"%char eq_refl) as [E|]; [|by right].
      destruct (replace_or_mem u hex_pattern_ "<hex>" "<"%char eq_refl) as [E'|Hm]; [left; subst w v; congruence|].
      right. subst w. by apply replace_keeps.
    - intros Hin. assert (Forall (fun s => mem_char "<"%char s = false) REMOVE_KEYWORDS) as Hf by (repeat constructor).
      rewrite Forall_forall in Hf. specialize (Hf w Hin). congruence. }
  destruct (existsb _ _) eqn:Eb.
  - intros [= <-]. split; [|done]. split; [|done]. intros E. rewrite E in Eb. vm_compute in Eb. done.
  - destruct (String.eqb_spec w ""); [done|]. cbn [negb andb]. case_match; [|done]. intros [= <-]. by split.
Qed.

Lemma words_of_word (t rest : string) : forall cur, all_of model_char t = true ->
  words_of cur (t +:+ rest) = words_of (cur +:+ t) rest.
Proof.
  induction t as [|c t IH]; intros cur Ht; [by rewrite app_empty_r|]. rewrite app_cons. cbn [words_of].
  cbn [all_of] in Ht. apply andb_true_iff in Ht as [Hc Ht]. unfold model_char in Hc.
  destruct (isspace c); [done|]. rewrite IH by done. f_equal. by rewrite app_cons_r.
Qed.

Lemma words_join ts : Forall model_word ts -> words_of "" (join " " ts) = ts.
Proof.
  induction 1 as [|t ts [Hne Ht] Hf IH]; [done|]. destruct ts as [|t2 ts].
  - cbn [join]. rewrite <- (app_empty_r t) at 1. rewrite words_of_word by done. cbn [words_of]. rewrite app_nil.
    by rewrite (proj2 (String.eqb_neq _ _) Hne).
  - change (join " " (t :: t2 :: ts)) with (t +:+ " " +:+ join " " (t2 :: ts)).
    rewrite words_of_word by done. rewrite app_nil, app_cons. cbn [words_of].
    change (isspace " "%char) with true. rewrite (proj2 (String.eqb_neq _ _) Hne). by rewrite app_nil, IH.
Qed.

(** ** Properties *)

(** C28: splitting through a regular expression is splitting at the delimiters: the class built
    from the escaped delimiters denotes exactly them, and the pieces are the non-empty fields
    between them; only when the delimiters contain an opening bracket before a colon, a dot
    or an equals sign does the expression throw. *)
Theorem splitString_fields (input delimiters : string) :
  splitString input delimiters =
  if posix_class delimiters then None
  else Some (List.filter non_empty (fields (fun c => mem_char c delimiters) "" input)).
Proof.
  destruct (posix_class delimiters) eqn:E; [|by apply splitString_spec].
  unfold splitString, class_regex. by rewrite parse_escape, E.
Qed.

(** The delimiters of the extractor never make it throw, and a token contains none of them: the
    loops that then erase delimiters from the tokens of an argument or of a variable
    erase nothing. *)
Theorem tokens_have_no_delimiter (input : string) :
  forall delimiters, delimiters ∈ [".:"; ":" +:+ quote +:+ "/"; ".=/!"; "."; "/()_:."; ":[]/()="; "=@;!-._/:, "; "/."; "=!'&/.,:- "] ->
  is_Some (splitString input delimiters) /\
  Forall (fun t => t <> "" /\ keep_chars (fun c => negb (mem_char c delimiters)) t = t) (split input delimiters).
Proof.
  intros d Hd. assert (Forall (fun d => posix_class d = false)
    [".:"; ":" +:+ quote +:+ "/"; ".=/!"; "."; "/()_:."; ":[]/()="; "=@;!-._/:, "; "/."; "=!'&/.,:- "]) as Hf by (repeat constructor).
  rewrite Forall_forall in Hf. specialize (Hf d Hd). split; [by rewrite splitString_spec; [eexists|]|].
  eapply Forall_impl; [exact (split_clean input d Hf)|]. intros t [Hne Ha]. split; [by intros ->|by apply all_of_keep].
Qed.

(** C29: the text the model is given is a sequence of words separated by single blanks; each
    is not empty, has no capital letter, no white space, no comma and no bracket, and none is a
    keyword to be removed: reading it word by word gives those words back. *)
Theorem CleanTextPython_words (input : string) :
  exists ts, CleanTextPython input = join " " ts /\ words_of "" (CleanTextPython input) = ts /\
    Forall (fun t => model_word t /\ t ∉ REMOVE_KEYWORDS) ts.
Proof.
  assert (exists ts, CleanTextPython input = join " " ts /\ Forall (fun t => model_word t /\ t ∉ REMOVE_KEYWORDS) ts) as (ts & E & Hf).
  { unfold CleanTextPython. case_if; [by exists []|]. eexists. split; [done|].
    pose proof (words_of_model _ "" (blank_all input) eq_refl) as Hw. rewrite Forall_forall in Hw |- *.
    intros t' (t & Hin & Et)%list_elem_of_omap. destruct (Hw t Hin) as [_ Ht]. by eapply clean_token_word. }
  exists ts. split; [done|]. split; [|done]. rewrite E. apply words_join. eapply Forall_impl; [exact Hf|]. by intros t [? _].
Qed.

(** The class of a process: never "ignore", and that of the predicted label; an ordinary
    application when the process is gone, has no features, or the model has no answer. *)
Theorem Classify_label (predict : string -> option string) (pr : Proc) (ignoreMap : IgnoreMap) (pid : Z) :
  let rawData := output_data (collect pr ignoreMap pid) in
  let class := Classify predict pr ignoreMap pid in
  (class = CC_APP \/ class = CC_BROWSER \/ class = CC_GAME \/ class = CC_MULTIMEDIA) /\
  (class <> CC_APP -> IsValidPidViaProc pr pid = true /\
     exists text label, text = CleanTextPython (pop_blank (concatenated_text rawData)) /\ text <> "" /\
       predict (text +:+ String newline "") = Some label /\ class = context_of (strip_label label)).
Proof.
  intros rawData class. subst class. unfold Classify, CollectAndStoreData.
  assert (forall l, context_of l = CC_APP \/ context_of l = CC_BROWSER \/ context_of l = CC_GAME \/ context_of l = CC_MULTIMEDIA) as Hc.
  { intros l. unfold context_of. repeat case_if; tauto. }
  destruct (IsValidPidViaProc pr pid) eqn:Ev; cbn [negb].
  2: { split; [by left|done]. }
  change (0 =? 0) with true. cbn [negb]. fold rawData.
  destruct (fileExists (pr_fs pr) ("/proc/" +:+ to_string pid)); cbn [negb]; [|by split; [left|]].
  destruct (existsb _ _); cbn [negb]; [|by split; [left|]].
  destruct (Predict predict rawData) as [rc label] eqn:Ep. split; [apply Hc|].
  unfold Predict in Ep. intros Hne.
  assert ((if negb (rc =? 0) then "" else label) = "Unknown" \/ (if negb (rc =? 0) then "" else label) = "" -> False) as Hno.
  { intros [E|E]; rewrite E in Hne; by apply Hne. }
  destruct (String.eqb _ "") in Ep; [injection Ep as <- <-; exfalso; apply Hno; by right|].
  destruct (String.eqb_spec (CleanTextPython (pop_blank (concatenated_text rawData))) "") as [E|E];
    [injection Ep as <- <-; exfalso; apply Hno; by right|].
  destruct (predict _) as [lb|] eqn:El; [|injection Ep as <- <-; exfalso; apply Hno; by right].
  injection Ep as <- <-. split; [done|]. eexists _, lb. by split_and!.
Qed.
