(* ===== verification/Sockets.v ===== *)
(** The two ends of the socket: [client/Comm/Socket/SocketClient.cpp] with the calls of
    [client/APIs/UrmAPIs.cpp] around it, and
    [resource-tuner/core/Server/RestuneListener.cpp] with the start routine of
    [RequestReceiver.cpp].

    What the kernel answers is an argument: the descriptor or the failure of each system
    call, the bytes a read finds, the connections that arrive.  Descriptors are numbers; the
    blocks of a message come from the pools of MemoryPool.v. *)
From S2P Require Import Prelude UrmTypes MemoryPool Wire Signal PropertiesRegistry Pipeline.
Open Scope string_scope.
Open Scope list_scope.
Open Scope Z_scope.

Definition UNIX_PATH_MAX : nat := 108.

(** ** The client's end *)
Module Connection.

(** The descriptors of the process, and who opened them. *)
Inductive Owner := UrmSocket | Application.
Record Client := mkClient {
  sockFd : Z;
  fds : gmap Z Owner;
  sent : list (list Z)      (* what reached the server *)
}.

(** What the kernel answers during one call of the library. *)
Record Answers := mkAnswers {
  a_socket : option Z;
  a_connect : bool;
  a_write : option nat;          (* how many bytes *)
  a_read : option (list Z)       (* none: the server has closed the connection *)
}.

(** [close(fd)]: -1 when it is not open. *)
Definition close (fd : Z) (c : Client) : Z * Client :=
  match fds c !! fd with
  | None => (-1, c)
  | Some _ => (0, mkClient (sockFd c) (delete fd (fds c)) (sent c))
  end.
Definition with_sock (fd : Z) (c : Client) : Client := mkClient fd (fds c) (sent c).

(** The constructor and the destructor of [SocketClient]. *)
Definition SocketClient (c : Client) : Client := with_sock (-1) c.
Definition delete_client (c : Client) : Client := with_sock (-1) (if sockFd c =? -1 then c else (close (sockFd c) c).2).

Section Calls.
Context (RESTUNE_SOCKET_PATH : string).

Definition initiateConnection (a : Answers) (c : Client) : ErrCode * Client :=
  match a_socket a with
  | None => (RC_SOCKET_CONN_NOT_INITIALIZED, with_sock (-1) c)
  | Some fd =>
    let c := mkClient fd (<[fd := UrmSocket]> (fds c)) (sent c) in
    let failed := (RC_SOCKET_CONN_NOT_INITIALIZED, with_sock (-1) (close fd c).2) in
    if (UNIX_PATH_MAX <=? String.length RESTUNE_SOCKET_PATH)%nat then failed else
    if negb (a_connect a) then failed else (RC_SUCCESS, c)
  end.

Definition sendMsg (buf : option (list Z)) (a : Answers) (c : Client) : ErrCode * Client :=
  match buf with
  | None => (RC_BAD_ARG, c)
  | Some buf =>
    match a_write a with
    | None => (RC_SOCKET_FD_WRITE_FAILURE, c)
    | Some n => (RC_SUCCESS, mkClient (sockFd c) (fds c) (sent c ++ [take n buf]))
    end
  end.

(** The bytes put at the start of a buffer of [bufSize] bytes. *)
Definition readMsg (bufSize : nat) (a : Answers) : ErrCode * list Z :=
  if (bufSize =? 0)%nat then (RC_BAD_ARG, []) else
  match a_read a with
  | None => (RC_SOCKET_FD_READ_FAILURE, [])
  | Some bytes => (RC_SUCCESS, take bufSize bytes)
  end.

(** [None]: RC_SOCKET_FD_CLOSE_FAILURE; the field keeps the number of the closed socket. *)
Definition closeConnection (c : Client) : option Z * Client :=
  if sockFd c =? -1 then (None, c) else let '(rc, c) := close (sockFd c) c in (Some rc, c).

(** ** UrmAPIs.cpp: the object [conn] (null if its allocation failed), and the calls *)

(** A call in the scope of a [ConnectionManager], whose destructor closes the connection. *)
Definition in_connection {A} (conn : bool) (body : Client -> A * Client) (c : Client) : A * Client :=
  let '(r, c) := body c in (r, if conn then (closeConnection c).2 else c).

Definition sendMsgHelper (conn : bool) (buf : list Z) (a : Answers) (c : Client) : Z * Client :=
  if negb conn then (-1, c) else
  let '(rc, c) := initiateConnection a c in
  if RC_IS_NOTOK rc then (-1, c) else
  let '(rc, c) := sendMsg (Some buf) a c in
  if RC_IS_NOTOK rc then (-1, c) else (0, c).

Definition readHandleHelper (a : Answers) : Z :=
  let '(rc, bytes) := readMsg 64 a in
  if RC_IS_NOTOK rc then -1 else
  wrap_s 64 (le_val (take 8 (bytes ++ replicate (64 - length bytes) 0))).

(** The end of a call: [m] is the message, if the arguments passed the checks. *)
Definition call (reads : bool) (m : option (list Z)) (conn : bool) (a : Answers) (c : Client) : Z * Client :=
  in_connection conn (fun c =>
    match m with
    | None => (-1, c)
    | Some buf =>
      let '(rc, c) := sendMsgHelper conn buf a c in
      if negb (rc =? 0) then (-1, c) else (if reads then readHandleHelper a else 0, c)
    end) c.

Context (conn : bool) (cm : ClientMgr) (batch : FlatBuffEncoder).

Definition tuneResources (duration properties numRes : Z) (resourceList : option (list SysResource))
    (a : Answers) (c : Client) : result (Z * Client) :=
  m ← Wire.tuneResources cm duration properties numRes resourceList batch; Ok (call true m conn a c).
Definition retuneResources (handle duration : Z) (a : Answers) (c : Client) : result (Z * Client) :=
  m ← Wire.retuneResources cm handle duration batch; Ok (call false m conn a c).
Definition untuneResources (handle : Z) (a : Answers) (c : Client) : result (Z * Client) :=
  m ← Wire.untuneResources cm handle batch; Ok (call false m conn a c).
Definition tuneSignal (sigId sigType duration properties : Z) (appName scenario : option (list Z)) (numArgs : Z)
    (l : option (list Z)) (a : Answers) (c : Client) : result (Z * Client) :=
  m ← Signal.tuneSignal cm sigId sigType duration properties appName scenario numArgs l batch; Ok (call true m conn a c).
Definition relaySignal (sigId sigType duration properties : Z) (appName scenario : option (list Z)) (numArgs : Z)
    (l : option (list Z)) (a : Answers) (c : Client) : result (Z * Client) :=
  m ← Signal.relaySignal cm sigId sigType duration properties appName scenario numArgs l batch; Ok (call false m conn a c).
Definition untuneSignal (handle : Z) (a : Answers) (c : Client) : result (Z * Client) :=
  m ← Signal.untuneSignal cm handle batch; Ok (call false m conn a c).

(** Sending a property's message and reading at most [n] bytes of the answer. *)
Definition exchange (n : nat) (m : list Z) (a : Answers) (c : Client) : option (list Z) * Client :=
  if negb conn then (None, c) else
  let '(rc, c) := initiateConnection a c in
  if RC_IS_NOTOK rc then (None, c) else
  let '(rc, c) := sendMsg (Some m) a c in
  if RC_IS_NOTOK rc then (None, c) else
  let '(rc, bytes) := readMsg n a in
  (if RC_IS_NOTOK rc then None else Some bytes, c).
Definition getProp (prop buffer : option (list Z)) (bufferSize : nat) (defValue : option (list Z))
    (a : Answers) (c : Client) : result ((Z * option (list Z)) * Client) :=
  '(r, filled) ← PropertiesRegistry.getProp (fun m => Ok (exchange bufferSize m a c).1) prop buffer bufferSize defValue batch;
  m ← match prop, buffer with
      | Some prop, Some _ => prop_message prop (Z.of_nat bufferSize) batch
      | _, _ => Ok None
      end;
  Ok (in_connection conn (fun c => ((r, filled), match m with Some m => (exchange bufferSize m a c).2 | None => c end)) c).
End Calls.
End Connection.

(** ** The server's end *)
Module Listener.

(** A message in its two blocks. *)
Record Forward := mkForward { fw_info : block; fw_buffer : block; fw_bytes : list Z }.

Definition INFO : string := "MsgForwardInfo".
Definition BUFFER : string := "char[REQ_BUFFER_SIZE]".

(** [sink]: the state that the callback for a message works on. *)
Record Srv (S : Type) := mkSrv {
  sockFd : Z;
  fds : gset Z;
  mem : PoolWrapper;
  contents : gmap block (list Z);   (* what was last read into a block *)
  sink : S
}.
Arguments mkSrv {S}. Arguments sockFd {S}. Arguments fds {S}. Arguments mem {S}. Arguments contents {S}. Arguments sink {S}.

Definition opened {S} (fd : Z) (sv : Srv S) : Srv S := mkSrv (sockFd sv) ({[fd]} ∪ fds sv) (mem sv) (contents sv) (sink sv).
Definition close {S} (fd : Z) (sv : Srv S) : Srv S := mkSrv (sockFd sv) (fds sv ∖ {[fd]}) (mem sv) (contents sv) (sink sv).
Definition with_sock {S} (fd : Z) (sv : Srv S) : Srv S := mkSrv fd (fds sv) (mem sv) (contents sv) (sink sv).
Definition with_mem {S} (m : PoolWrapper) (sv : Srv S) : Srv S := mkSrv (sockFd sv) (fds sv) m (contents sv) (sink sv).
Definition with_contents {S} (g : gmap block (list Z)) (sv : Srv S) : Srv S := mkSrv (sockFd sv) (fds sv) (mem sv) g (sink sv).
Definition with_sink {S} (m : PoolWrapper) (s : S) (sv : Srv S) : Srv S := mkSrv (sockFd sv) (fds sv) m (contents sv) s.

(** The answers to the calls that open the endpoint. *)
Record Setup := mkSetup {
  su_socket : option Z; su_nonblock : bool; su_bind : bool; su_chmod : bool; su_listen : bool;
  su_epoll : option Z; su_ctl : bool
}.

(** A connection [accept] takes from the backlog, with what [recv] finds on it.  The client's
    socket is blocking: [Silent] is a client that sends nothing and stays. *)
Inductive Recv := Received (bytes : list Z) | WouldBlock | Broken | Silent.
Inductive Accept := Arrives (fd : Z) (r : Recv) | AcceptFails.

(** How far a piece of the loop gets; [Hangs]: blocked in [recv]. *)
Inductive Outcome (S : Type) := Goes (sv : Srv S) | Stops (rc : ErrCode) (sv : Srv S) | Hangs (sv : Srv S).
Arguments Goes {S}. Arguments Stops {S}. Arguments Hangs {S}.

Section Server.
Context {S : Type} (mMessageRecvCb : Z -> Forward -> PoolWrapper -> S -> result (PoolWrapper * S)).
Context (RESTUNE_SOCKET_PATH : string) (junk : block -> list Z).

Definition abandon (fd : Z) (sv : Srv S) : ErrCode * option Z * Srv S :=
  (RC_SOCKET_CONN_NOT_INITIALIZED, None, with_sock (-1) (close fd sv)).

(** The first part of [ListenForClientRequests]: the endpoint and the epoll instance. *)
Definition open_endpoint (su : Setup) (sv : Srv S) : ErrCode * option Z * Srv S :=
  match su_socket su with
  | None => (RC_SOCKET_CONN_NOT_INITIALIZED, None, with_sock (-1) sv)
  | Some fd =>
    let sv := with_sock fd (opened fd sv) in
    if negb (su_nonblock su) then abandon fd sv else
    if (UNIX_PATH_MAX <=? String.length RESTUNE_SOCKET_PATH)%nat then abandon fd sv else
    if negb (su_bind su) then abandon fd sv else
    if negb (su_chmod su) then abandon fd sv else
    if negb (su_listen su) then abandon fd sv else
    match su_epoll su with
    | None => abandon fd sv
    | Some epollFd =>
      let sv := opened epollFd sv in
      if negb (su_ctl su) then abandon fd (close epollFd sv) else (RC_SUCCESS, Some epollFd, sv)
    end
  end.

(** [recv] into the buffer: what the message does not overwrite stays. *)
Definition receive (b : block) (bytes : list Z) (sv : Srv S) : list Z :=
  take (Z.to_nat REQ_BUFFER_SIZE) bytes ++ drop (length bytes) (default (junk b) (contents sv !! b)).

(** The blocks of a message; with what is taken given back when one is missing. *)
Definition get_blocks (m : PoolWrapper) : result (option (block * block) * PoolWrapper) :=
  '(info, m) ← wrapper_getBlock INFO m;
  match info with
  | None => Ok (None, m)
  | Some info =>
    '(buf, m) ← wrapper_getBlock BUFFER m;
    match buf with
    | None => m ← wrapper_freeBlock INFO (Some info) m; Ok (None, m)
    | Some buf => Ok (Some (info, buf), m)
    end
  end.

(** The backlog: [] is EAGAIN. *)
Fixpoint drain (backlog : list Accept) (sv : Srv S) : result (Outcome S) :=
  match backlog with
  | [] => Ok (Goes sv)
  | AcceptFails :: _ => Ok (Stops RC_SOCKET_OP_FAILURE sv)
  | Arrives clientSocket r :: backlog =>
    let sv := opened clientSocket sv in
    '(blocks, m) ← get_blocks (mem sv);
    let sv := with_mem m sv in
    match blocks with
    | None => drain backlog (close clientSocket sv)
    | Some (info, buf) =>
      match r with
      | Silent => Ok (Hangs sv)
      | Broken => Ok (Stops RC_SOCKET_OP_FAILURE sv)
      | WouldBlock | Received [] => drain backlog (close clientSocket sv)
      | Received bytes =>
        let text := receive buf bytes sv in
        let sv := with_contents (<[buf := text]> (contents sv)) sv in
        '(m, s) ← mMessageRecvCb clientSocket (mkForward info buf text) (mem sv) (sink sv);
        drain backlog (close clientSocket (with_sink m s sv))
      end
    end
  end.

(** The events of one [epoll_wait], each with the backlog then found. *)
Fixpoint handle_events (events : list (Z * list Accept)) (sv : Srv S) : result (Outcome S) :=
  match events with
  | [] => Ok (Goes sv)
  | (fd, backlog) :: events =>
    if fd =? sockFd sv then
      o ← drain backlog sv;
      match o with Goes sv => handle_events events sv | Stops rc sv => Ok (Stops rc sv) | Hangs sv => Ok (Hangs sv) end
    else handle_events events sv
  end.

(** One round per time the server is found online; a failed wait has no events. *)
Fixpoint serve (rounds : list (list (Z * list Accept))) (sv : Srv S) : result (Outcome S) :=
  match rounds with
  | [] => Ok (Stops RC_SUCCESS sv)
  | events :: rounds =>
    o ← handle_events events sv;
    match o with Goes sv => serve rounds sv | Stops rc sv => Ok (Stops rc sv) | Hangs sv => Ok (Hangs sv) end
  end.

Definition ListenForClientRequests (su : Setup) (rounds : list (list (Z * list Accept))) (sv : Srv S) : result (Outcome S) :=
  match open_endpoint su sv with
  | (rc, None, sv) => Ok (Stops rc sv)
  | (_, Some _, sv) => serve rounds sv
  end.

(** The destructor; and [closeConnection], whose answer is a failure either way. *)
Definition delete_server (sv : Srv S) : Srv S :=
  if sockFd sv =? -1 then sv else with_sock (-1) (close (sockFd sv) sv).
Definition closeConnection (sv : Srv S) : ErrCode * Srv S := (RC_SOCKET_FD_CLOSE_FAILURE, delete_server sv).

(** [listenerThreadStartRoutine]: the object is made, listens and is deleted.  [None]: it
    never returns. *)
Definition listenerThreadStartRoutine (allocated : bool) (su : Setup) (rounds : list (list (Z * list Accept)))
    (sv : Srv S) : result (option (Srv S)) :=
  if negb allocated then Ok (Some sv) else
  o ← ListenForClientRequests su rounds (with_sock (-1) sv);
  match o with
  | Goes sv | Stops _ sv => Ok (Some (delete_server sv))
  | Hangs _ => Ok None
  end.
End Server.

(** ** The callback: [RequestReceiver::forwardMessage], and the end of a task *)
Record Inbox := mkInbox {
  ib_tasks : list (Task * block * block);
  ib_gen : Z;
  ib_replies : list (Z * Reply)
}.
Definition onMsgRecvCallback (pool : option bool) (clientSocket : Z) (fw : Forward) (m : PoolWrapper) (s : Inbox)
  : result (PoolWrapper * Inbox) :=
  '(task, reply, gen) ← forwardMessage pool (fw_bytes fw) (ib_gen s);
  Ok (m, mkInbox (ib_tasks s ++ match task with Some t => [(t, fw_info fw, fw_buffer fw)] | None => [] end) gen
           (ib_replies s ++ [(clientSocket, reply)])).

(** The last lines of [submitResProvisionReqMsg] and [submitSignalRequest]. *)
Definition free_message (info buf : block) (m : PoolWrapper) : result PoolWrapper :=
  m ← wrapper_freeBlock BUFFER (Some buf) m; wrapper_freeBlock INFO (Some info) m.

(** The listener and the workers, one step each. *)
Inductive Event := Connects (a : Accept) | TaskDone.
Definition event (pool : option bool) (junk : block -> list Z) (e : Event) (sv : Srv Inbox) : result (Outcome Inbox) :=
  match e with
  | Connects a => drain (onMsgRecvCallback pool) junk [a] sv
  | TaskDone =>
    match ib_tasks (sink sv) with
    | [] => Ok (Goes sv)
    | (_, info, buf) :: tasks =>
      m ← free_message info buf (mem sv);
      Ok (Goes (with_sink m (mkInbox tasks (ib_gen (sink sv)) (ib_replies (sink sv))) sv))
    end
  end.
Fixpoint events (pool : option bool) (junk : block -> list Z) (es : list Event) (sv : Srv Inbox) : result (Outcome Inbox) :=
  match es with
  | [] => Ok (Goes sv)
  | e :: es =>
    o ← event pool junk e sv;
    match o with Goes sv => events pool junk es sv | o => Ok o end
  end.
End Listener.
