(* ===== verification/SocketsFacts.v ===== *)
(** What holds of the two ends of the socket (Sockets.v): the descriptors of a client, the answer
    it reads, and the blocks of memory that the listener uses up. *)
From S2P Require Import Prelude UrmTypes AuxRoutines MemoryPool Wire Signal PropertiesRegistry Pipeline Sockets.
Open Scope string_scope.
Open Scope list_scope.
Open Scope Z_scope.

(** ** The client *)
Module ConnectionFacts.
Import Connection.

Lemma close_open fd o c : fds c !! fd = Some o -> close fd c = (0, mkClient (sockFd c) (delete fd (fds c)) (sent c)).
Proof. unfold close. by intros ->. Qed.

(** The socket of a call is closed again, when it could be opened. *)
Lemma call_fds path reads buf a c :
  (forall fd, a_socket a = Some fd -> fds c !! fd = None /\ fd <> -1) ->
  fds (call path reads (Some buf) true a c).2 = fds c.
Proof.
  intros Hf. unfold call, in_connection, sendMsgHelper, initiateConnection. cbn [negb].
  destruct (a_socket a) as [fd|]; [|done]. destruct (Hf fd eq_refl) as [Hfd Hne].
  set (c1 := mkClient fd _ _).
  assert (close fd c1 = (0, mkClient fd (delete fd (fds c1)) (sent c1))) as Ec.
  { apply (close_open fd UrmSocket c1). cbn. apply lookup_insert_eq. }
  rewrite Ec. cbn [fst snd].
  assert (delete fd (fds c1) = fds c) as Ed by (cbn; by rewrite delete_insert_id).
  assert (forall c2, fds c2 = fds c1 -> sockFd c2 = fd -> fds (closeConnection c2).2 = fds c) as Hc.
  { intros c2 E1 E2. unfold closeConnection. rewrite E2. replace (fd =? -1) with false by lia.
    rewrite (close_open fd UrmSocket) by (rewrite E1; apply lookup_insert_eq). cbn [fst snd fds]. by rewrite E1. }
  destruct (UNIX_PATH_MAX <=? _)%nat; [cbn; exact Ed|]. destruct (a_connect a); cbn [negb]; [|cbn; exact Ed].
  cbn [RC_IS_NOTOK RC_IS_OK]. change (RC_IS_NOTOK RC_SUCCESS) with false. cbn iota.
  unfold sendMsg. destruct (a_write a); cbn; [|by apply Hc]. by destruct reads; apply Hc.
Qed.

(** C25: the descriptors of a process that uses the library.  A call whose arguments are accepted
    opens and closes its own socket and touches no other descriptor.  But a refused call closes the
    number that the previous call used, which was closed then: when the application has
    opened a file since, and the kernel gave it that number, the file is closed. *)
Theorem client_descriptors (path : string) (reads : bool) (buf : list Z) (a a2 : Answers) (c : Client)
    (cm : ClientMgr) (batch : FlatBuffEncoder) (handle fd : Z) :
  a_socket a = Some fd -> fds c !! fd = None -> fd <> -1 -> (String.length path < UNIX_PATH_MAX)%nat -> a_connect a = true ->
  handle <= 0 ->
  let c1 := (call path reads (Some buf) true a c).2 in
  let c2 := mkClient (sockFd c1) (<[fd := Application]> (fds c1)) (sent c1) in
  fds c1 = fds c /\ sockFd c1 = fd /\
  exists c3, untuneResources path true cm batch handle a2 c2 = Ok (-1, c3) /\ fds c3 = fds c.
Proof.
  intros Es Hfd Hne Hp Hc Hh c1 c2.
  assert (fds c1 = fds c) as E1.
  { apply call_fds. intros fd'. rewrite Es. by intros [= <-]. }
  assert (sockFd c1 = fd) as E2.
  { subst c1. unfold call, in_connection, sendMsgHelper, initiateConnection. rewrite Es, Hc. cbn [negb].
    rewrite (proj2 (Nat.leb_gt _ _) Hp). change (RC_IS_NOTOK RC_SUCCESS) with false. cbn iota.
    assert (forall c', sockFd c' = fd -> sockFd (closeConnection c').2 = fd) as H.
    { intros c' E. unfold closeConnection, close. rewrite E. replace (fd =? -1) with false by lia. destruct (fds c' !! fd); [reflexivity|exact E]. }
    unfold sendMsg. destruct (a_write a); cbn; [|by apply H]. by destruct reads; apply H. }
  split; [done|]. split; [done|]. unfold untuneResources, Wire.untuneResources. replace (handle <=? 0) with true by lia.
  cbn [mbind result_bind]. eexists. unfold call, in_connection.
  assert (closeConnection c2 = (Some 0, mkClient fd (delete fd (fds c2)) (sent c2))) as ->.
  { unfold closeConnection. cbn [c2 sockFd]. rewrite E2. replace (fd =? -1) with false by lia.
    erewrite close_open by (cbn; apply lookup_insert_eq). cbn. by rewrite E2. }
  split; [reflexivity|]. cbn. rewrite E1. by rewrite delete_insert_id.
Qed.

Lemma client_descriptors_witness :
  let a := mkAnswers (Some 3) true (Some 580%nat) (Some (replicate 8 0)) in
  let c1 := (call "/run/urm.sock" true (Some zero_buf) true a (mkClient (-1) {[0 := Application]} [])).2 in
  sockFd c1 = 3 /\
  exists c3, untuneResources "/run/urm.sock" true (mkClientMgr false 1 1 1) FlatBuffEncoder_init 0 a
    (mkClient 3 (<[3 := Application]> (fds c1)) (sent c1)) = Ok (-1, c3) /\ fds c3 = {[0 := Application]}.
Proof.
  intros a c1.
  destruct (client_descriptors "/run/urm.sock" true zero_buf a a (mkClient (-1) {[0 := Application]} [])
    (mkClientMgr false 1 1 1) FlatBuffEncoder_init 0 3 eq_refl ltac:(cbn [fds]; by rewrite lookup_singleton_ne) ltac:(lia) ltac:(vm_compute; lia) eq_refl ltac:(lia))
    as (_ & E & H). fold c1 in E, H. rewrite E in H. by split.
Defined.

(** The answer to a tune request: the handle that the server wrote; and 0 when the server closed
    the connection without an answer. *)
Theorem tune_answer (path : string) (buf : list Z) (a : Answers) (c : Client) (n : nat) (fd : Z) :
  a_socket a = Some fd -> (String.length path < UNIX_PATH_MAX)%nat -> a_connect a = true -> a_write a = Some n ->
  (forall h, in_s 64 h -> a_read a = Some (le_bytes 8 h) -> (call path true (Some buf) true a c).1 = h) /\
  (a_read a = Some [] -> (call path true (Some buf) true a c).1 = 0).
Proof.
  intros Es Hp Hc Hw.
  assert ((call path true (Some buf) true a c).1 = readHandleHelper a) as ->.
  { unfold call, in_connection, sendMsgHelper, initiateConnection, sendMsg. rewrite Es, Hc, Hw. cbn [negb].
    rewrite (proj2 (Nat.leb_gt _ _) Hp). reflexivity. }
  unfold readHandleHelper, readMsg. cbn [Nat.eqb]. split.
  - intros h Hh ->. change (RC_IS_NOTOK RC_SUCCESS) with false. cbn iota.
    pose proof (length_le_bytes 8 h) as Hl. rewrite (take_ge (le_bytes 8 h)) by lia.
    rewrite take_app_le, take_ge by lia. pose proof (deref_le_id 8 h [] ltac:(lia) Hh) as E.
    unfold deref_and_incr in E. rewrite app_nil_r, Hl in E. cbn [Nat.ltb Nat.leb] in E.
    rewrite take_ge in E by lia. by injection E as E.
  - intros ->. reflexivity.
Qed.
Lemma tune_answer_witness :
  let a r := mkAnswers (Some 3) true (Some 580%nat) (Some r) in
  (call "/run/urm.sock" true (Some zero_buf) true (a (le_bytes 8 77)) (mkClient (-1) ∅ [])).1 = 77 /\
  (call "/run/urm.sock" true (Some zero_buf) true (a []) (mkClient (-1) ∅ [])).1 = 0.
Proof.
  intros a. split.
  - apply (tune_answer "/run/urm.sock" zero_buf (a (le_bytes 8 77)) (mkClient (-1) ∅ []) 580 3 eq_refl ltac:(vm_compute; lia) eq_refl eq_refl);
      [unfold in_s; lia|done].
  - by apply (tune_answer "/run/urm.sock" zero_buf (a []) (mkClient (-1) ∅ []) 580 3 eq_refl ltac:(vm_compute; lia) eq_refl eq_refl).
Defined.
End ConnectionFacts.

(** ** The listener *)
Module ListenerFacts.
Import Listener.

(** An endpoint that could not be opened leaves no descriptor behind. *)
Lemma open_endpoint_failed {S} path su (sv : Srv S) rc sv' :
  (forall fd, su_socket su = Some fd -> (fd ∉ fds sv) /\ su_epoll su <> Some fd) ->
  (forall fd, su_epoll su = Some fd -> fd ∉ fds sv) ->
  open_endpoint path su sv = (rc, None, sv') ->
  rc = RC_SOCKET_CONN_NOT_INITIALIZED /\ sockFd sv' = -1 /\ (fds sv' ≡ fds sv) /\ mem sv' = mem sv.
Proof.
  intros Hs He. unfold open_endpoint, abandon. destruct (su_socket su) as [fd|]; [|by intros [= <- <-]].
  destruct (Hs fd eq_refl) as [Hfd Hne].
  assert (({[fd]} ∪ fds sv) ∖ {[fd]} ≡ fds sv) as E1 by set_solver.
  repeat (case_match; [by intros [= <- <-]|]).
  destruct (su_epoll su) as [e|]; [|by intros [= <- <-]]. specialize (He e eq_refl).
  assert (e <> fd) as Hef by congruence.
  destruct (su_ctl su); [done|]. intros [= <- <-]. split_and!; [done..| |done]. cbn. set_solver.
Qed.

(** ** Blocks *)
Lemma getBlock_ok p held : pool_ok p held -> exists p', getBlock p = Ok (head (mFreeList p), p') /\
  pool_ok p' (held ++ from_option (fun b => [b]) [] (head (mFreeList p))) /\ mFreeList p' = tail (mFreeList p).
Proof.
  intros Hok. destruct (pool_step_ok OpGet p held Hok I) as (o & p' & held' & E & Hok' & -> & Et & ->).
  cbn [pool_step] in E. destruct (getBlock p) as [[b q]|]; [|done]. cbn in E. injection E as -> -> _. by exists p'.
Qed.
Lemma freeBlock_ok p held b : pool_ok p held -> b ∈ held -> exists p', freeBlock (Some b) p = Ok p' /\
  pool_ok p' (filter (fun c => c <> b) held) /\ mFreeList p' = mFreeList p ++ [b].
Proof.
  intros Hok Hb. destruct (pool_step_ok (OpFree b) p held Hok Hb) as (o & p' & held' & E & Hok' & -> & Et & ->).
  cbn [pool_step] in E. destruct (freeBlock (Some b) p) as [q|]; [|done]. cbn in E. injection E as ->. by exists p'.
Qed.

Lemma held_remove p held b rest : pool_ok p held -> held ≡ₚ b :: rest -> filter (fun c => c <> b) held ≡ₚ rest.
Proof.
  intros Hok Hp. destruct Hok as [_ _ Hn _]. apply NoDup_app in Hn as (_ & _ & Hn).
  apply (Permutation_cons_inv (a := b)). rewrite <- Hp, <- filter_ne_perm; [done|done|]. rewrite Hp. set_solver.
Qed.

Lemma pool_insert_eq t p (m : PoolWrapper) : getMemoryPool t (<[t := p]> m) = Some p.
Proof. exact (lookup_insert_eq _ _ _). Qed.
Lemma pool_insert_ne t t' p (m : PoolWrapper) : t <> t' -> getMemoryPool t' (<[t := p]> m) = getMemoryPool t' m.
Proof. exact (lookup_insert_ne _ _ _ _). Qed.

(** Both pools have [n] free blocks; [hi] and [hb] are the blocks handed out. *)
Definition pools (m : PoolWrapper) (n : nat) (hi hb : list block) : Prop :=
  exists pi pb, getMemoryPool INFO m = Some pi /\ getMemoryPool BUFFER m = Some pb /\
    (exists h, pool_ok pi h /\ (h ≡ₚ hi)) /\ (exists h, pool_ok pb h /\ (h ≡ₚ hb)) /\
    length (mFreeList pi) = n /\ length (mFreeList pb) = n.

Lemma pools_perm m n hi hb hi' hb' : pools m n hi hb -> hi ≡ₚ hi' -> hb ≡ₚ hb' -> pools m n hi' hb'.
Proof. intros (pi & pb & ? & ? & (h & ? & ?) & (h' & ? & ?) & ? & ?) E1 E2. exists pi, pb. split_and!; eauto using Permutation_trans. Qed.

Lemma get_blocks_none m hi hb : pools m 0 hi hb -> exists m', get_blocks m = Ok (None, m') /\ pools m' 0 hi hb.
Proof.
  intros (pi & pb & Ei & Eb & (h & Hi & Pi) & Hb & Li & Lb). apply nil_length_inv in Li as Li'.
  destruct (getBlock_ok pi h Hi) as (pi' & Eg & Hi' & Ef). rewrite Li' in Eg, Hi', Ef. cbn in Eg, Hi', Ef. rewrite app_nil_r in Hi'.
  unfold get_blocks, wrapper_getBlock. rewrite Ei, Eg. cbn [mbind result_bind]. eexists. split; [done|].
  exists pi', pb. rewrite pool_insert_eq, pool_insert_ne by done. split_and!; try done; [by exists h|by rewrite Ef].
Qed.

Lemma get_blocks_some m n hi hb : pools m (S n) hi hb ->
  exists i b m', get_blocks m = Ok (Some (i, b), m') /\ pools m' n (i :: hi) (b :: hb).
Proof.
  intros (pi & pb & Ei & Eb & (h & Hi & Pi) & (h' & Hb & Pb) & Li & Lb).
  destruct (getBlock_ok pi h Hi) as (pi' & Eg & Hi' & Ef). destruct (getBlock_ok pb h' Hb) as (pb' & Eg' & Hb' & Ef').
  destruct (mFreeList pi) as [|i fi]; [done|]. destruct (mFreeList pb) as [|b fb]; [done|].
  cbn in Eg, Hi', Ef, Eg', Hb', Ef'. exists i, b.
  unfold get_blocks, wrapper_getBlock. rewrite Ei, Eg. cbn [mbind result_bind].
  rewrite pool_insert_ne by done. rewrite Eb, Eg'. cbn [mbind result_bind]. eexists. split; [done|].
  exists pi', pb'. rewrite pool_insert_ne by done. rewrite !pool_insert_eq. cbn in Li, Lb. rewrite Ef, Ef'.
  split_and!; [done|done| | |lia|lia].
  - eexists. split; [exact Hi'|]. rewrite Pi. apply Permutation_app_comm.
  - eexists. split; [exact Hb'|]. rewrite Pb. apply Permutation_app_comm.
Qed.

Lemma free_message_ok m n hi hb i b : pools m n (i :: hi) (b :: hb) ->
  exists m', free_message i b m = Ok m' /\ pools m' (S n) hi hb.
Proof.
  intros (pi & pb & Ei & Eb & (h & Hi & Pi) & (h' & Hb & Pb) & Li & Lb).
  destruct (freeBlock_ok pi h i Hi) as (pi' & Eg & Hi' & Ef); [rewrite Pi; set_solver|].
  destruct (freeBlock_ok pb h' b Hb) as (pb' & Eg' & Hb' & Ef'); [rewrite Pb; set_solver|].
  unfold free_message, wrapper_freeBlock. rewrite Eb, Eg'. cbn [mbind result_bind].
  rewrite pool_insert_ne by done. rewrite Ei, Eg. cbn [mbind result_bind]. eexists. split; [done|].
  exists pi', pb'. rewrite pool_insert_eq, (pool_insert_ne INFO BUFFER) by done. rewrite pool_insert_eq.
  split_and!; [done|done| | |rewrite Ef, length_app; cbn; lia|rewrite Ef', length_app; cbn; lia].
  - eexists. split; [exact Hi'|]. by eapply held_remove.
  - eexists. split; [exact Hb'|]. by eapply held_remove.
Qed.

(** ** A run of the listener and of the workers *)
Definition task_infos (s : Inbox) : list block := map (fun t => t.1.2) (ib_tasks s).
Definition task_buffers (s : Inbox) : list block := map (fun t => t.2) (ib_tasks s).

(** Of the [k] pairs of blocks, some are free, one is held per pending task, and [lost] is
    held by nobody. *)
Record listening (k : nat) (lost : list (block * block)) (sv : Srv Inbox) : Prop := {
  ln_pools : exists n, pools (mem sv) n (task_infos (sink sv) ++ lost.*1) (task_buffers (sink sv) ++ lost.*2) /\
    (n + length (ib_tasks (sink sv)) + length lost = k)%nat;
  ln_gen : in_s 64 (ib_gen (sink sv));
  ln_contents : forall b t, contents sv !! b = Some t -> length t = Z.to_nat REQ_BUFFER_SIZE
}.

Section Run.
Context (pool : option bool) (junk : block -> list Z).
Hypothesis junk_size : forall b, length (junk b) = Z.to_nat REQ_BUFFER_SIZE.

Lemma receive_length b bytes (sv : Srv Inbox) :
  (forall b t, contents sv !! b = Some t -> length t = Z.to_nat REQ_BUFFER_SIZE) ->
  length (receive junk b bytes sv) = Z.to_nat REQ_BUFFER_SIZE.
Proof.
  intros Hc. unfold receive. rewrite length_app, length_take, length_drop.
  assert (length (default (junk b) (contents sv !! b)) = Z.to_nat REQ_BUFFER_SIZE) as ->; [|lia].
  destruct (contents sv !! b) as [t|] eqn:E; [by eapply Hc|apply junk_size].
Qed.

Lemma forwardMessage_ok buf g : (2 <= length buf)%nat -> in_s 64 g ->
  exists task reply g', forwardMessage pool buf g = Ok (task, reply, g') /\ in_s 64 g'.
Proof.
  intros Hl Hg. destruct buf as [|a [|b rest]]; cbn in Hl; [lia..|]. unfold forwardMessage, deref_and_incr.
  cbn [length Nat.ltb Nat.leb mbind result_bind drop take]. destruct (_ =? RequestType_val REQ_PROP_GET); [by eexists _, _, _|].
  rewrite generateUniqueHandle_spec by done. destruct (Z.ltb_spec g (max_s 64)) as [Hlt|Hge]; cbn [mbind result_bind].
  - assert (in_s 64 (g + 1)) by (unfold in_s, max_s in *; lia). destruct (g + 1 <? 0); [by eexists _, _, _|].
    destruct pool; by eexists _, _, _.
  - by eexists _, _, _.
Qed.

Lemma lost_perm (xs lost : list block) x : x :: xs ++ lost ≡ₚ xs ++ lost ++ [x].
Proof. rewrite (Permutation_app_comm lost [x]). simpl. by rewrite Permutation_middle. Qed.

(** What becomes of the state when a connection is over; [lost] grows by the blocks of a
    connection that makes no task. *)
Lemma connection_step k lost sv fd r : listening k lost sv ->
  exists o, drain (onMsgRecvCallback pool) junk [Arrives fd r] sv = Ok o /\
    forall sv', o = Goes sv' -> exists new, listening k (lost ++ new) sv' /\
      (new = [] \/ ib_tasks (sink sv') = ib_tasks (sink sv)).
Proof.
  intros [(n & Hp & Hk) Hg Hc]. cbn [drain]. set (sv0 := opened fd sv). destruct n as [|n].
  - destruct (get_blocks_none _ _ _ Hp) as (m' & E & Hp'). change (mem sv0) with (mem sv). rewrite E.
    cbn [mbind result_bind]. eexists. split; [done|]. intros sv' [= <-]. exists []. rewrite app_nil_r.
    split; [|by left]. split; [|done|done]. by exists 0%nat.
  - destruct (get_blocks_some _ _ _ _ Hp) as (i & b & m' & E & Hp'). change (mem sv0) with (mem sv). rewrite E.
    cbn [mbind result_bind].
    assert (forall g s c, in_s 64 (ib_gen s) -> ib_tasks s = ib_tasks (sink sv) ->
      (forall b t, g !! b = Some t -> length t = Z.to_nat REQ_BUFFER_SIZE) ->
      listening k (lost ++ [(i, b)]) (close fd (with_sink m' s (with_contents g c)))) as Hlost.
    { intros g s c Hgs Ht Hgc. split; [|done|done]. exists n. unfold task_infos, task_buffers. cbn [sink close with_sink mem].
      rewrite Ht, !fmap_app, length_app. cbn [length fmap list_fmap]. split; [|lia].
      eapply pools_perm; [exact Hp'|apply lost_perm|apply lost_perm]. }
    destruct r as [[|x bytes]| | |]; try (eexists; split; [done|]; done).
    + eexists. split; [done|]. intros sv' [= <-]. exists [(i, b)]. split; [|by right]. by apply (Hlost (contents sv) (sink sv) sv0).
    + set (text := receive _ _ _ _).
      assert (length text = Z.to_nat REQ_BUFFER_SIZE) as Hl by (by apply receive_length).
      unfold onMsgRecvCallback. cbn [fw_bytes].
      destruct (forwardMessage_ok text (ib_gen (sink sv)) ltac:(rewrite Hl; vm_compute; lia) Hg) as (task & reply & g' & Ef & Hg').
      change (sink (with_contents _ _)) with (sink sv). rewrite Ef. cbn [mbind result_bind]. eexists. split; [done|].
      intros sv' [= <-].
      assert (forall b0 t, <[b:=text]> (contents sv) !! b0 = Some t -> length t = Z.to_nat REQ_BUFFER_SIZE) as Hc'.
      { intros b0 t. destruct (decide (b = b0)) as [->|]; [rewrite lookup_insert_eq; by intros [= <-]|].
        rewrite lookup_insert_ne by done. apply Hc. }
      destruct task as [t|].
      * exists []. rewrite app_nil_r. split; [|by left]. split; [|done|done]. exists n. unfold task_infos, task_buffers.
        cbn [sink close with_sink mem ib_tasks fw_info fw_buffer]. rewrite !map_app, length_app. cbn [length map fst snd]. split; [|lia].
        eapply pools_perm; [exact Hp'| |]; rewrite <- app_assoc; cbn; apply Permutation_middle.
      * exists [(i, b)]. cbn [app]. rewrite app_nil_r. split; [|by right]. by apply (Hlost _ (mkInbox (ib_tasks (sink sv)) g' _) (with_mem m' sv0)).
    + eexists. split; [done|]. intros sv' [= <-]. exists [(i, b)]. split; [|by right]. by apply (Hlost (contents sv) (sink sv) sv0).
Qed.

Lemma event_step k lost sv e : listening k lost sv ->
  exists o, event pool junk e sv = Ok o /\ forall sv', o = Goes sv' -> exists new, listening k (lost ++ new) sv'.
Proof.
  intros Hl. destruct e as [[fd r|]|]; cbn [event].
  - destruct (connection_step k lost sv fd r Hl) as (o & E & H). exists o. split; [exact E|].
    intros sv' Ho. destruct (H sv' Ho) as (new & Hn & _). by exists new.
  - eexists. split; [reflexivity|done].
  - destruct Hl as [(n & Hp & Hk) Hg Hc]. destruct (ib_tasks (sink sv)) as [|[[t i] b] tasks] eqn:Et.
    + eexists. split; [done|]. intros sv' [= <-]. exists []. rewrite app_nil_r. split; [|done|done]. exists n. by rewrite Et.
    + unfold task_infos, task_buffers in Hp. rewrite Et in Hp. cbn [map fst snd app] in Hp.
      destruct (free_message_ok _ _ _ _ _ _ Hp) as (m' & E & Hp'). rewrite E. cbn [mbind result_bind]. eexists. split; [done|].
      intros sv' [= <-]. exists []. rewrite app_nil_r. split; [|done|done]. exists (S n). split; [exact Hp'|].
      cbn [sink with_sink ib_tasks length] in *. lia.
Qed.

Lemma events_step es : forall k lost sv, listening k lost sv ->
  exists o, events pool junk es sv = Ok o /\ forall sv', o = Goes sv' -> exists new, listening k (lost ++ new) sv'.
Proof.
  induction es as [|e es IH]; intros k lost sv Hl; cbn [events].
  - eexists. split; [done|]. intros sv' [= <-]. exists []. by rewrite app_nil_r.
  - destruct (event_step k lost sv e Hl) as (o & -> & H). cbn [mbind result_bind]. destruct o as [sv1| |]; [|by eexists..].
    destruct (H sv1 eq_refl) as (new & Hn). destruct (IH _ _ _ Hn) as (o & E & Ho). exists o. split; [exact E|].
    intros sv' Es. destruct (Ho sv' Es) as (new' & Hn'). exists (new ++ new'). by rewrite app_assoc.
Qed.

(** A connection that uses up its blocks: nothing is sent on it, or a property is asked for. *)
Definition wasted (r : Recv) : Prop :=
  match r with
  | WouldBlock | Received [] => True
  | Received (_ :: ty :: _) => ty = RequestType_val REQ_PROP_GET
  | _ => False
  end.

Lemma wasted_step k lost sv fd r : listening k lost sv -> wasted r -> (length lost + length (ib_tasks (sink sv)) < k)%nat ->
  exists x sv', event pool junk (Connects (Arrives fd r)) sv = Ok (Goes sv') /\ listening k (lost ++ [x]) sv' /\
    ib_tasks (sink sv') = ib_tasks (sink sv).
Proof.
  intros [(n & Hp & Hk) Hg Hc] Hw Hlt. cbn [event drain]. set (sv0 := opened fd sv). destruct n as [|n]; [lia|].
  destruct (get_blocks_some _ _ _ _ Hp) as (i & b & m' & E & Hp'). change (mem sv0) with (mem sv). rewrite E.
  cbn [mbind result_bind]. exists (i, b).
  assert (forall g s c, in_s 64 (ib_gen s) -> ib_tasks s = ib_tasks (sink sv) ->
    (forall b t, g !! b = Some t -> length t = Z.to_nat REQ_BUFFER_SIZE) ->
    listening k (lost ++ [(i, b)]) (close fd (with_sink m' s (with_contents g c)))) as Hlost.
  { intros g s c Hgs Ht Hgc. split; [|done|done]. exists n. unfold task_infos, task_buffers. cbn [sink close with_sink mem].
    rewrite Ht, !fmap_app, length_app. cbn [length fmap list_fmap]. split; [|lia].
    eapply pools_perm; [exact Hp'|apply lost_perm|apply lost_perm]. }
  destruct r as [[|x [|ty bytes]]| | |]; try done.
  - eexists. split; [done|]. split; [|done]. by apply (Hlost (contents sv) (sink sv) sv0).
  - cbn in Hw. subst ty. unfold onMsgRecvCallback, receive. cbn [fw_bytes take app length].
    change (Z.to_nat REQ_BUFFER_SIZE) with (S (S 578)). cbn [take app]. set (text := x :: _).
    assert (length text = Z.to_nat REQ_BUFFER_SIZE) as Hl by (apply (receive_length b (x :: 3 :: bytes)); exact Hc).
    assert (forwardMessage pool text (ib_gen (sink sv)) = Ok (None, PropReply, ib_gen (sink sv))) as Ef by reflexivity.
    change (sink (with_contents _ _)) with (sink sv). rewrite Ef. cbn [mbind result_bind]. eexists. split; [done|].
    split; [|cbn; by rewrite app_nil_r]. cbn [fw_info fw_buffer app]. rewrite app_nil_r.
    apply (Hlost _ (mkInbox (ib_tasks (sink sv)) _ _) (with_mem m' sv0)); [done|done|].
    intros b0 t. destruct (decide (b = b0)) as [->|]; [rewrite lookup_insert_eq; by intros [= <-]|].
    rewrite lookup_insert_ne by done. apply Hc.
  - eexists. split; [done|]. split; [|done]. by apply (Hlost (contents sv) (sink sv) sv0).
Qed.

Lemma wasted_run ws : forall k lost sv, listening k lost sv -> Forall (fun c => wasted c.2) ws -> ib_tasks (sink sv) = [] ->
  (length lost + length ws <= k)%nat ->
  exists new sv', events pool junk (map (fun c => Connects (Arrives c.1 c.2)) ws) sv = Ok (Goes sv') /\
    listening k (lost ++ new) sv' /\ length new = length ws /\ ib_tasks (sink sv') = [].
Proof.
  induction ws as [|[fd r] ws IH]; intros k lost sv Hl Hw Ht Hk; cbn [map events].
  - exists [], sv. by rewrite app_nil_r.
  - apply Forall_cons in Hw as [Hr Hw]. cbn [length] in Hk.
    destruct (wasted_step k lost sv fd r Hl Hr) as (x & sv1 & E & Hl1 & Ht1); [rewrite Ht; cbn; lia|].
    cbn [fst snd]. rewrite E. cbn [mbind result_bind]. rewrite Ht in Ht1.
    destruct (IH k (lost ++ [x]) sv1 Hl1 Hw Ht1) as (new & sv' & E' & Hl' & Hn & Ht'); [rewrite length_app; cbn; lia|].
    exists (x :: new), sv'. split; [exact E'|]. rewrite <- app_assoc in Hl'. cbn in *. split_and!; [done|lia|done].
Qed.

(** With all blocks lost, a connection is closed at once, whatever its client sends. *)
Lemma starved_run es : forall k lost sv, listening k lost sv -> length lost = k ->
  Forall (fun e => e <> Connects AcceptFails) es ->
  exists sv', events pool junk es sv = Ok (Goes sv') /\ sink sv' = sink sv.
Proof.
  induction es as [|e es IH]; intros k lost sv Hl Hk Hes; cbn [events]; [by exists sv|].
  apply Forall_cons in Hes as [He Hes].
  assert (exists sv1, event pool junk e sv = Ok (Goes sv1) /\ sink sv1 = sink sv /\ listening k lost sv1) as (sv1 & -> & Es & Hl1).
  { destruct Hl as [(n & Hp & Hn) Hg Hc]. destruct e as [[fd r|]|]; [|done|]; cbn [event drain].
    - assert (n = 0%nat) as -> by lia. destruct (get_blocks_none _ _ _ Hp) as (m' & E & Hp').
      change (mem (opened fd sv)) with (mem sv). rewrite E. cbn [mbind result_bind]. eexists. split; [done|]. split; [done|].
      split; [|done|done]. by exists 0%nat.
    - assert (ib_tasks (sink sv) = []) as -> by (apply nil_length_inv; lia). eexists. split; [done|]. split; [done|].
      split; [|done|done]. by exists n. }
  cbn [mbind result_bind]. destruct (IH k lost sv1 Hl1 Hk Hes) as (sv' & E & E'). exists sv'. by rewrite E', Es.
Qed.
End Run.

(** ** Properties *)

(** The blocks of the listener.  Whatever connections arrive, and however they interleave with
    the ends of tasks, the listener does not fault, and each pair of blocks is free,
    or held by one pending task, or lost for good; lost blocks never come back. *)
Theorem Listener_blocks (pool : option bool) (junk : block -> list Z) (es : list Event) (k : nat)
    (lost : list (block * block)) (sv : Srv Inbox) :
  (forall b, length (junk b) = Z.to_nat REQ_BUFFER_SIZE) -> listening k lost sv ->
  exists o, events pool junk es sv = Ok o /\ forall sv', o = Goes sv' -> exists new, listening k (lost ++ new) sv'.
Proof. intros Hj. by apply events_step. Qed.

(** C24: clients can starve the daemon.  A connection on which nothing is sent, and every property
    query, keeps its blocks for ever; after as many of them as the pools have blocks, every
    further connection is closed unread: no task is made and no client gets an answer. *)
Theorem Listener_starved (pool : option bool) (junk : block -> list Z) (ws : list (Z * Recv)) (es : list Event) (sv : Srv Inbox) :
  (forall b, length (junk b) = Z.to_nat REQ_BUFFER_SIZE) ->
  listening (length ws) [] sv -> ib_tasks (sink sv) = [] -> Forall (fun c => wasted c.2) ws ->
  Forall (fun e => e <> Connects AcceptFails) es ->
  exists sv1 sv2, events pool junk (map (fun c => Connects (Arrives c.1 c.2)) ws) sv = Ok (Goes sv1) /\
    events pool junk es sv1 = Ok (Goes sv2) /\ sink sv2 = sink sv1 /\ ib_tasks (sink sv2) = [].
Proof.
  intros Hj Hl Ht Hw Hes. destruct (wasted_run pool junk Hj ws (length ws) [] sv Hl Hw Ht ltac:(cbn; lia)) as (new & sv1 & E1 & Hl1 & Hn & Ht1).
  destruct (starved_run pool junk es (length ws) ([] ++ new) sv1 Hl1 Hn Hes) as (sv2 & E2 & Es).
  exists sv1, sv2. by rewrite Es.
Qed.

(** A daemon with two pairs of blocks. *)
Definition small : Srv Inbox :=
  mkSrv 5 {[5; 6]} (<[INFO := mkPool [1%positive; 2%positive] 0 2 40]> (<[BUFFER := mkPool [3%positive; 4%positive] 0 2 580]> ∅)) ∅ (mkInbox [] 0 []).
Lemma small_listening : listening 2 [] small.
Proof.
  split; [|unfold in_s; cbn; lia|done]. exists 2%nat. split; [|done].
  exists (mkPool [1%positive; 2%positive] 0 2 40), (mkPool [3%positive; 4%positive] 0 2 580).
  assert (forall x y n, x <> y -> pool_ok (mkPool [x; y] 0 2 n) []) as Hok.
  { intros x y n Hxy. split; cbn; [done|done| |unfold max_s; lia]. apply NoDup_cons. split; [set_solver|apply NoDup_singleton]. }
  split; [exact (pool_insert_eq _ _ _)|].
  split; [etransitivity; [exact (pool_insert_ne INFO BUFFER _ _ ltac:(done))|exact (pool_insert_eq _ _ _)]|].
  split; [exists []; split; [by apply Hok|done]|]. split; [exists []; split; [by apply Hok|done]|done].
Qed.
Definition blank (_ : block) : list Z := replicate (Z.to_nat REQ_BUFFER_SIZE) 0.

Lemma Listener_blocks_witness :
  exists o, events (Some true) blank [Connects (Arrives 7 (Received [0; 0])); Connects (Arrives 7 WouldBlock); TaskDone] small = Ok o /\
    forall sv', o = Goes sv' -> exists new, listening 2 new sv'.
Proof.
  destruct (Listener_blocks (Some true) blank [Connects (Arrives 7 (Received [0; 0])); Connects (Arrives 7 WouldBlock); TaskDone]
    2 [] small (fun _ => eq_refl) small_listening) as (o & E & H). by exists o.
Defined.

Lemma Listener_starved_witness :
  exists sv1 sv2, events (Some true) blank [Connects (Arrives 7 WouldBlock); Connects (Arrives 7 (Received [0; 3]))] small = Ok (Goes sv1) /\
    events (Some true) blank [Connects (Arrives 7 (Received [0; 0]))] sv1 = Ok (Goes sv2) /\ sink sv2 = sink sv1 /\ ib_tasks (sink sv2) = [].
Proof.
  apply (Listener_starved (Some true) blank [(7, WouldBlock); (7, Received [0; 3])] [Connects (Arrives 7 (Received [0; 0]))] small
    (fun _ => eq_refl) small_listening eq_refl).
  - repeat constructor.
  - by repeat constructor.
Defined.
End ListenerFacts.
