(* ===== verification/Cli.v ===== *)
(** [client/ClientCLI.cpp]: the command line client.

    A run prints lines and calls the library, whose functions are an interface ([Api]) over a
    state of the caller's choice; Sockets.v and Wire.v implement it.  [Cli] is the monad of such
    runs, with the exceptions of the number parsers.  [getopt_long] of the C library is
    modelled as far as this program uses it: it permutes its arguments, so that what is
    not an option is skipped. *)
From Stdlib Require Import Ascii.
From S2P Require Import Prelude UrmTypes StdString StringFacts AuxRoutines Wire PropertiesRegistry.
Open Scope string_scope.
Open Scope list_scope.
Open Scope Z_scope.

(** ** The library, as the client sees it *)
Record Api (W : Type) := mkApi {
  api_tuneResources : Z -> Z -> Z -> list SysResource -> W -> result (Z * W);
  api_retuneResources : Z -> Z -> W -> result (Z * W);
  api_untuneResources : Z -> W -> result (Z * W);
  api_getProp : string -> list Z -> string -> W -> result (Z * list Z * W);   (* key, buffer, default *)
  api_tuneSignal : Z -> W -> result (Z * W);       (* the other arguments are 0, empty and null *)
  api_untuneSignal : Z -> W -> result (Z * W)
}.
Arguments mkApi {W}. Arguments api_tuneResources {W}. Arguments api_retuneResources {W}. Arguments api_untuneResources {W}.
Arguments api_getProp {W}. Arguments api_tuneSignal {W}. Arguments api_untuneSignal {W}.

(** ** Runs *)
Definition Cli (W A : Type) : Type := W -> list string -> result ((A + stox_exn) * W * list string).

#[export] Instance cli_ret {W} : MRet (Cli W) := fun A a w out => Ok (inl a, w, out).
#[export] Instance cli_bind {W} : MBind (Cli W) := fun A B k m w out =>
  match m w out with
  | Ok (inl a, w, out) => k a w out
  | Ok (inr e, w, out) => Ok (inr e, w, out)
  | Fault f => Fault f
  end.
Definition print {W} (s : string) : Cli W unit := fun w out => Ok (inl tt, w, out ++ [s]).
Definition throwing {W} (x : stox) : Cli W Z := fun w out => Ok (x, w, out).
Definition lib {W A} (f : W -> result (A * W)) : Cli W A := fun w out =>
  '(a, w) ← f w; Ok (inl a, w, out).
Definition of_result {W A} (r : result A) : Cli W A := fun w out => a ← r; Ok (inl a, w, out).
Fixpoint prints {W} (l : list string) : Cli W unit :=
  match l with [] => mret tt | s :: l => print s ≫= fun _ => prints l end.

(** ** Resources on the command line *)

(** Each resource code with its info and values. *)
Abbreviation ResMap := (gmap Z (Z * list Z)).
Definition entry (k : Z) (m : ResMap) : Z * list Z := default (0, []) (m !! k).

(** [getline(stream, token, d)] until the end. *)
Fixpoint push_values (opCode : string) (values : list string) (m : ResMap) : option ResMap :=
  match values with
  | [] => Some m
  | value :: values =>
    match stol 0 opCode, stoi 10 value with
    | inl code, inl v =>
      let k := wrap_u 32 code in
      push_values opCode values (<[k := ((entry k m).1, (entry k m).2 ++ [v])]> m)
    | _, _ => None
    end
  end.

Definition find_char (c : string) (s : string) : option nat := String.index 0 c s.

(** [None]: the answer -1; an exception leaves the function. *)
Definition parse_resource (token : string) (m : ResMap) : option ResMap + stox_exn :=
  match find_char ":" token with
  | None => inl None
  | Some colonPos =>
    let opCode := String.substring 0 colonPos token in
    let valuesStr := substr_from (colonPos + 1) token in
    let '(opCode, resInfo) :=
      match find_char "#" opCode with
      | Some sepPos => (String.substring 0 sepPos opCode, substr_from (sepPos + 1) opCode)
      | None => (opCode, "")
      end in
    let with_info :=
      if (0 <? String.length resInfo)%nat then
        match stoi 0 resInfo, stol 0 opCode with
        | inl info, inl code => let k := wrap_u 32 code in inl (<[k := (info, (entry k m).2)]> m)
        | inr e, _ => inr e
        | _, inr e => inr e
        end
      else inl m in
    match with_info with
    | inl m => inl (push_values opCode (split_on ","%char valuesStr) m)
    | inr e => inr e
    end
  end.
Fixpoint parse_tokens (tokens : list string) (m : ResMap) : option ResMap + stox_exn :=
  match tokens with
  | [] => inl (Some m)
  | token :: tokens =>
    match parse_resource token m with
    | inl (Some m) => parse_tokens tokens m
    | r => r
    end
  end.
Definition parseResources `{HashOrder} (input : string) : option (list (Z * (Z * list Z))) + stox_exn :=
  match parse_tokens (split_on ";"%char input) ∅ with
  | inl m => inl (hash_order <$> m)
  | inr e => inr e
  end.

(** One element of the array that is sent. *)
Definition sys_resource (r : Z * (Z * list Z)) : SysResource :=
  let '(code, (info, values)) := r in
  let n := wrap_s 32 (Z.of_nat (length values)) in
  mkSys code info 0 n
    (if n =? 1 then Value (default 0 (head values)) else Values (Some values)).

Definition log_resource (idx : nat) (r : Z * (Z * list Z)) : list string :=
  let '(code, (info, values)) := r in
  ["Printing Resource at index = " +:+ to_string (Z.of_nat idx);
   "ResCode for this Resource = " +:+ to_string code;
   "ResInfo for this Resource = " +:+ to_string info;
   "Number of Values for this Resource = " +:+ to_string (Z.of_nat (length values));
   "Printing values"] ++ map to_string values.

Section Client.
Context {W : Type} (api : Api W) `{HashOrder}.

Definition report_handle (failed : string) (handle : Z) : Cli W unit :=
  if handle =? -1 then print failed else print ("Handle Received from Server is: " +:+ to_string handle).
Definition report_status (submitted failed : string) (status : Z) : Cli W unit :=
  if status =? 0 then print submitted else if status =? -1 then print failed else mret tt.

Definition sendTuneRequest (duration priority count : Z) (resourceInfo : string) : Cli W unit :=
  if count <? 0 then print "Invalid resouce count" else
  match parseResources resourceInfo with
  | inr e => throwing (inr e) ≫= fun _ => mret tt
  | inl None => print "Failed to parse Resource List"
  | inl (Some resourceVec) =>
    let n := Z.of_nat (length resourceVec) in
    if n >? count then print "Failed to parse Resource List" else
    _ ← print ("Number of unique resources in the request: " +:+ to_string n);
    _ ← prints (concat (imap log_resource resourceVec));
    let priority := if priority <? REQ_PRIORITY_HIGH then REQ_PRIORITY_HIGH else priority in
    let priority := if priority >? REQ_PRIORITY_LOW then REQ_PRIORITY_LOW else priority in
    handle ← lib (api_tuneResources api duration priority (wrap_s 32 n) (map sys_resource resourceVec));
    report_handle "Failed to send Tune Request" handle
  end.

Definition sendRetuneRequest (handle duration : Z) : Cli W unit :=
  status ← lib (api_retuneResources api handle duration);
  report_status "Retune Request Successfully Submitted" "Retune Request Could not be sent" status.
Definition sendUntuneRequest (handle : Z) : Cli W unit :=
  status ← lib (api_untuneResources api handle);
  report_status "Untune Request Successfully Submitted" "Untune Request Could not be sent" status.

(** [cout << buffer]: up to the terminator. *)
Definition c_string (buffer : list Z) : result string :=
  if bool_decide (0 ∈ buffer) then Ok (string_of_bytes (before_nul buffer)) else Fault OutOfRange.

(** [junk]: what the buffer on the stack held. *)
Definition sendPropRequest (junk : list Z) (prop : string) : Cli W unit :=
  '(status, buffer) ← lib (api_getProp api prop junk "prop_not_found");
  if status =? 0 then
    v ← of_result (c_string buffer); print ("Prop Retrieved, value is: " +:+ v)
  else if status =? -1 then print "Get Prop Request Could not be sent" else mret tt.

Definition sendTuneSignal (scode : string) : Cli W unit :=
  _ ← print ("Sending tuneSignal request for SigCode: " +:+ scode);
  code ← throwing (stol 0 scode);
  handle ← lib (api_tuneSignal api (wrap_u 32 code));
  report_handle "Failed to send tuneSignal Request" handle.
Definition sendUntuneSignal (handle : Z) : Cli W unit :=
  status ← lib (api_untuneSignal api handle);
  report_status "Untune Request Successfully Submitted" "Untune Request Could not be sent" status.

(** ** The persistent mode *)
Definition tune_usage : list string :=
  ["Usage: tune <duration> <priority> <numRes> <resCode>:<value>,<resCode>:<value>...."; "Example: tune 4000 3 2 1:1,2:2"].
Definition tune_usage' : string := "Usage: tune <duration> <priority> <numRes> <resCode>:<value>,<resCode>:<value>".

Definition tune_command (args : list string) : Cli W unit :=
  match args with
  | [d; p; n; res] =>
    match find_char ":" d with
    | None => prints ["Invalid tune request"; tune_usage'; "Example: tune 4000 3 2 1:1,2:2"]
    | Some _ =>
      duration ← throwing (stoi 10 d);
      priority ← throwing (stoi 10 p);
      count ← throwing (stoi 10 n);
      if (duration <? -1) || (duration =? 0) || (count <=? 0)
      then prints ["Invalid Params for Retune request"; tune_usage']
      else sendTuneRequest duration priority count res
    end
  | _ => prints ("Invalid number of arguments for tune request" :: tune_usage)
  end.
Definition untune_command (args : list string) : Cli W unit :=
  match args with
  | [h] =>
    handle ← throwing (stoi 10 h);
    if handle <=? 0 then prints ["Invalid Params for untune request"; "Usage: untune <handle>"] else sendUntuneRequest handle
  | _ => prints ["Invalid number of arguments for Untune request"; "Usage: untune <handle>"; "Example: untune 4"]
  end.
Definition retune_command (args : list string) : Cli W unit :=
  match args with
  | [h; d] =>
    handle ← throwing (stoi 10 h);
    duration ← throwing (stoi 10 d);
    if (handle <=? 0) || (duration =? 0) || (duration <? -1)
    then prints ["Invalid Params for Retune request"; "Usage: retune <handle> <duration>"] else sendRetuneRequest handle duration
  | _ => prints ["Invalid number of arguments for Retune request"; "Usage: retune <handle> <duration>"; "Example: retune 1 5000"]
  end.

(** [input] is the line [getline] reads from the standard input: empty at its end. *)
Definition processCommands (input : string) : Cli W bool :=
  if String.eqb input "" then mret true else
  if String.eqb input "exit" || String.eqb input "stop" then mret false else
  if String.eqb input "help" then _ ← print "Available commands: tune, retune, untune"; mret true else
  _ ← match split_on " "%char input with
      | cmd :: args =>
        if String.eqb cmd "tune" then tune_command args
        else if String.eqb cmd "untune" then untune_command args
        else if String.eqb cmd "retune" then retune_command args
        else print "Invalid command"
      | [] => of_result (Fault OutOfRange)
      end;
  mret true.

(** The loop, [n] rounds of it: the answer is whether it has ended.  The handler is for
    [bad_alloc], so that the exceptions of the parsers end the program. *)
Fixpoint startPersistentMode (n : nat) (stdin : list string) : Cli W bool :=
  match n with
  | O => mret false
  | S n =>
    let '(input, stdin) := match stdin with [] => ("", []) | l :: stdin => (l, stdin) end in
    more ← processCommands input;
    if (more : bool) then startPersistentMode n stdin else mret true
  end.
End Client.

(** ** [getopt_long] *)
Record LongOpt := mkLong { lo_name : string; lo_arg : bool; lo_val : ascii }.

(** An option met, ['?'] for one that is unknown, ambiguous, or lacks its argument. *)
Inductive Opt := mkOpt (c : ascii) (optarg : option string).
Definition bad_opt : Opt := mkOpt "?"%char None.

(** What [shortPrompts] says of a character: whether it takes an argument. *)
Fixpoint short_kind (shortopts : string) (c : ascii) : option bool :=
  match shortopts with
  | EmptyString => None
  | String d rest =>
    if Ascii.eqb c d && negb (Ascii.eqb c ":"%char)
    then Some (match rest with String e _ => Ascii.eqb e ":"%char | EmptyString => false end)
    else short_kind rest c
  end.

(** The options of one argument after its dash; [next] is the argument that follows, and the
    flag says whether it was used. *)
Fixpoint short_cluster (shortopts : string) (next : option string) (s : string) : list Opt * bool :=
  match s with
  | EmptyString => ([], false)
  | String c s =>
    match short_kind shortopts c with
    | None => let '(os, used) := short_cluster shortopts next s in (bad_opt :: os, used)
    | Some false => let '(os, used) := short_cluster shortopts next s in (mkOpt c None :: os, used)
    | Some true =>
      if String.eqb s "" then
        match next with Some a => ([mkOpt c (Some a)], true) | None => ([bad_opt], false) end
      else ([mkOpt c (Some s)], false)
    end
  end.

(** An exact name, or an abbreviation of one option (or of several alike). *)
Definition find_long (longopts : list LongOpt) (name : string) : option LongOpt :=
  match List.filter (fun o => String.eqb (lo_name o) name) longopts with
  | o :: _ => Some o
  | [] =>
    match List.filter (fun o => String.prefix name (lo_name o)) longopts with
    | o :: os => if forallb (fun o' => Bool.eqb (lo_arg o') (lo_arg o) && Ascii.eqb (lo_val o') (lo_val o)) os then Some o else None
    | [] => None
    end
  end.
Definition long_option (longopts : list LongOpt) (next : option string) (s : string) : Opt * bool :=
  let '(name, value) :=
    match find_char "=" s with
    | Some p => (String.substring 0 p s, Some (substr_from (p + 1) s))
    | None => (s, None)
    end in
  match find_long longopts name with
  | None => (bad_opt, false)
  | Some o =>
    match lo_arg o, value, next with
    | false, None, _ => (mkOpt (lo_val o) None, false)
    | false, Some _, _ => (bad_opt, false)
    | true, Some v, _ => (mkOpt (lo_val o) (Some v), false)
    | true, None, Some a => (mkOpt (lo_val o) (Some a), true)
    | true, None, None => (bad_opt, false)
    end
  end.

Fixpoint getopt_long (shortopts : string) (longopts : list LongOpt) (args : list string) : list Opt :=
  match args with
  | [] => []
  | a :: rest =>
    if String.eqb a "--" then [] else
    let '(os, used) :=
      if String.prefix "--" a then let '(o, used) := long_option longopts (head rest) (substr_from 2 a) in ([o], used)
      else if String.prefix "-" a then short_cluster shortopts (head rest) (substr_from 1 a)
      else ([], false) in
    os ++ match rest with
          | _ :: rest' => if (used : bool) then getopt_long shortopts longopts rest' else getopt_long shortopts longopts rest
          | [] => []
          end
  end.

(** ** main *)
Definition shortPrompts : string := "turd:p:l:n:h:s:gk:qm:".
Definition longPrompts : list LongOpt :=
  [mkLong "tune" false "t"; mkLong "untune" false "u"; mkLong "retune" false "r"; mkLong "duration" true "d";
   mkLong "handle" true "h"; mkLong "priority" true "p"; mkLong "res" true "l"; mkLong "num" true "n";
   mkLong "getProp" false "g"; mkLong "key" true "k"; mkLong "persistent" false "s"; mkLong "signal" false "q";
   mkLong "untuneSignal" false "x"; mkLong "scode" true "m"].

(** The local variables of [main]. *)
Record Args := mkArgs {
  ar_requestType : option RequestType; ar_handle : Z; ar_duration : Z; ar_priority : Z; ar_numResources : Z;
  ar_resources : option string; ar_propKey : option string; ar_sigCode : option string; ar_persistent : bool
}.
Definition Args_init : Args := mkArgs None (-1) (-1) (-1) (-1) None None None false.

Definition with_type (t : RequestType) (a : Args) : Args :=
  mkArgs (Some t) (ar_handle a) (ar_duration a) (ar_priority a) (ar_numResources a) (ar_resources a) (ar_propKey a) (ar_sigCode a) (ar_persistent a).
Definition with_numbers (h d p n : Z) (a : Args) : Args :=
  mkArgs (ar_requestType a) h d p n (ar_resources a) (ar_propKey a) (ar_sigCode a) (ar_persistent a).
Definition with_texts (res key sig : option string) (s : bool) (a : Args) : Args :=
  mkArgs (ar_requestType a) (ar_handle a) (ar_duration a) (ar_priority a) (ar_numResources a) res key sig s.

(** The cases of the [switch] whose option has an argument. *)
Definition option_case (o : Opt) (a : Args) : Args + stox_exn :=
  let '(mkOpt c optarg) := o in
  let number (f : Z -> Args) : Args + stox_exn :=
    match stoi 10 (default "" optarg) with inl v => inl (f v) | inr e => inr e end in
  if Ascii.eqb c "t" then inl (with_type REQ_RESOURCE_TUNING a)
  else if Ascii.eqb c "u" then inl (with_type REQ_RESOURCE_UNTUNING a)
  else if Ascii.eqb c "r" then inl (with_type REQ_RESOURCE_RETUNING a)
  else if Ascii.eqb c "d" then number (fun v => with_numbers (ar_handle a) v (ar_priority a) (ar_numResources a) a)
  else if Ascii.eqb c "p" then number (fun v => with_numbers (ar_handle a) (ar_duration a) v (ar_numResources a) a)
  else if Ascii.eqb c "h" then number (fun v => with_numbers v (ar_duration a) (ar_priority a) (ar_numResources a) a)
  else if Ascii.eqb c "l" then inl (with_texts optarg (ar_propKey a) (ar_sigCode a) (ar_persistent a) a)
  else if Ascii.eqb c "n" then number (fun v => with_numbers (ar_handle a) (ar_duration a) (ar_priority a) v a)
  else if Ascii.eqb c "s" then inl (with_texts (ar_resources a) (ar_propKey a) (ar_sigCode a) true a)
  else if Ascii.eqb c "g" then inl (with_type REQ_PROP_GET a)
  else if Ascii.eqb c "k" then inl (with_texts (ar_resources a) optarg (ar_sigCode a) (ar_persistent a) a)
  else if Ascii.eqb c "q" then inl (with_type REQ_SIGNAL_TUNING a)
  else if Ascii.eqb c "x" then inl (with_type REQ_SIGNAL_UNTUNING a)
  else if Ascii.eqb c "m" then inl (with_texts (ar_resources a) (ar_propKey a) optarg (ar_persistent a) a)
  else inl a.
Fixpoint option_loop (os : list Opt) (a : Args) : Args + stox_exn :=
  match os with
  | [] => inl a
  | o :: os => match option_case o a with inl a => option_loop os a | inr e => inr e end
  end.

Definition quoted (s : string) : string := String "034"%char "" +:+ s +:+ String "034"%char "".

Section Main.
Context {W : Type} (api : Api W) `{HashOrder}.

(** The [switch] on the request: the exit status. *)
Definition dispatch (junk : list Z) (a : Args) : Cli W Z :=
  match ar_requestType a with
  | Some REQ_RESOURCE_TUNING =>
    if (ar_duration a =? 0) || (ar_duration a <? -1) || (ar_numResources a <=? 0) || (ar_priority a =? -1) ||
       bool_decide (ar_resources a = None)
    then _ ← prints ["Invalid Params for Tune Request";
                     "Usage: --tune --duration <duration> --priority <priority> --num <numRes> --res " +:+
                     quoted "<resCode[#resInfo]>:<value(s)>;<resCode[#resInfo]>:<value(s)>";
                     "Example: --tune --duration 5000 --priority 0 --num 1 --res " +:+ quoted "0x0005a0d1:897"]; mret 0
    else _ ← sendTuneRequest api (ar_duration a) (ar_priority a) (ar_numResources a) (default "" (ar_resources a)); mret 0
  | Some REQ_RESOURCE_RETUNING =>
    if (ar_duration a =? 0) || (ar_duration a <? -1) || (ar_handle a <=? 0)
    then _ ← prints ["Invalid Params for Retune Request"; "Usage: --retune --handle <handle> --duration <duration>"]; mret 0
    else _ ← sendRetuneRequest api (ar_handle a) (ar_duration a); mret 0
  | Some REQ_RESOURCE_UNTUNING =>
    if ar_handle a <=? 0
    then _ ← prints ["Invalid Params for Untune request"; "Usage: --untune --handle <handle>"]; mret 0
    else _ ← sendUntuneRequest api (ar_handle a); mret 0
  | Some REQ_PROP_GET =>
    match ar_propKey a with
    | None => _ ← prints ["Invalid Params for Get Prop request"; "Usage: --getProp --key <key>"]; mret 0
    | Some key => _ ← sendPropRequest api junk key; mret 0
    end
  | Some REQ_SIGNAL_TUNING =>
    match ar_sigCode a with
    | None => _ ← prints ["Invalid Params for tune signal request"; "Usage: --signal --scode <key>"]; mret 0
    | Some scode => _ ← sendTuneSignal api scode; mret 0
    end
  | Some REQ_SIGNAL_UNTUNING =>
    if ar_handle a <=? 0
    then _ ← prints ["Invalid Params for Untune request"; "Usage: --untune --handle <handle>"]; mret 0
    else _ ← sendUntuneSignal api (ar_handle a); mret 0
  | _ => mret (-1)
  end.

(** [None]: still in the persistent mode after [n] rounds. *)
Definition main (n : nat) (stdin : list string) (junk : list Z) (argv : list string) : Cli W (option Z) :=
  match option_loop (getopt_long shortPrompts longPrompts argv) Args_init with
  | inr e => throwing (inr e) ≫= fun _ => mret None
  | inl a =>
    if ar_persistent a then
      ended ← startPersistentMode api n stdin; mret (if (ended : bool) then Some 0 else None)
    else rc ← dispatch junk a; mret (Some rc)
  end.
End Main.
