(* ===== verification/CliFacts.v ===== *)
(** What holds of the command line client (Cli.v): the resources it reads from its command line, the
    calls it makes, and its persistent mode. *)
From Stdlib Require Import Ascii.
From S2P Require Import Prelude UrmTypes StdString StringFacts AuxRoutines Wire PropertiesRegistry Cli.
Open Scope string_scope.
Open Scope list_scope.
Open Scope Z_scope.

(** ** Cutting a string at a character *)
Lemma substring_all s : String.substring 0 (String.length s) s = s.
Proof. induction s as [|c s IH]; [done|]. cbn. by rewrite IH. Qed.
Lemma substring_prefix a b : String.substring 0 (String.length a) (a +:+ b) = a.
Proof. induction a as [|c a IH]; [by destruct b|]. rewrite app_cons. cbn. by rewrite IH. Qed.
Lemma substring_suffix a b n : String.substring (String.length a) n (a +:+ b) = String.substring 0 n b.
Proof. induction a as [|c a IH]; [done|]. rewrite app_cons. cbn. by rewrite IH. Qed.
Lemma substr_from_suffix a b : substr_from (String.length a) (a +:+ b) = b.
Proof.
  unfold substr_from. rewrite length_str_app, substring_suffix.
  replace (String.length a + String.length b - String.length a)%nat with (String.length b) by lia. apply substring_all.
Qed.

Lemma index_char d a b : lacks d a = true -> find_char (String d "") (a +:+ String d b) = Some (String.length a).
Proof.
  unfold find_char. induction a as [|c a IH]; intros Ha.
  - rewrite app_nil. cbn. destruct (ascii_dec d d); [|done]. by destruct b.
  - cbn in Ha. apply andb_true_iff in Ha as [Hc Ha]. rewrite app_cons. cbn.
    destruct (ascii_dec d c) as [->|]; [by rewrite Ascii.eqb_refl in Hc|].
    by rewrite (IH Ha).
Qed.
Lemma index_none d a : lacks d a = true -> find_char (String d "") a = None.
Proof.
  unfold find_char. induction a as [|c a IH]; intros Ha; [done|].
  cbn in Ha. apply andb_true_iff in Ha as [Hc Ha]. cbn.
  destruct (ascii_dec d c) as [->|]; [by rewrite Ascii.eqb_refl in Hc|]. by rewrite (IH Ha).
Qed.

Lemma cut_at d a b : lacks d a = true ->
  find_char (String d "") (a +:+ String d b) = Some (String.length a) /\
  String.substring 0 (String.length a) (a +:+ String d b) = a /\
  substr_from (String.length a + 1) (a +:+ String d b) = b.
Proof.
  intros Ha. split; [by apply index_char|]. split; [apply substring_prefix|].
  rewrite <- app_cons_r. replace (String.length a + 1)%nat with (String.length (a +:+ String d ""))
    by (rewrite length_str_app; done). apply substr_from_suffix.
Qed.

(** ** Writing resources the way they are read *)
Fixpoint sep_by (d : ascii) (l : list string) : string :=
  match l with [] => "" | [s] => s | s :: l => s +:+ String d (sep_by d l) end.

Lemma split_sep_by d l : Forall (fun s => lacks d s = true /\ s <> "") l -> split_on d (sep_by d l) = l.
Proof.
  induction 1 as [|s l [Hs Hne] Hl IH]; [done|]. destruct l as [|s2 l]; [by apply split_on_last|].
  change (sep_by d (s :: s2 :: l)) with (s +:+ String d (sep_by d (s2 :: l))). by rewrite split_on_delim, IH.
Qed.

Lemma lacks_app d a b : lacks d (a +:+ b) = lacks d a && lacks d b.
Proof. apply all_of_app. Qed.
Lemma lacks_sep_by d e l : d <> e -> Forall (fun s => lacks d s = true) l -> lacks d (sep_by e l) = true.
Proof.
  intros Hne. induction 1 as [|s l Hs Hl IH]; [done|]. destruct l as [|s2 l]; [done|].
  change (sep_by e (s :: s2 :: l)) with (s +:+ String e (sep_by e (s2 :: l))). rewrite lacks_app, Hs. cbn [andb].
  unfold lacks in *. cbn [all_of]. rewrite IH, andb_true_r. apply negb_true_iff. by apply Ascii.eqb_neq.
Qed.

Definition Res : Type := Z * (Z * list Z).
Definition show_resource (r : Res) : string :=
  to_string r.1 +:+ String "#" (to_string r.2.1 +:+ String ":" (sep_by "," (map to_string r.2.2))).
Definition show_resources (l : list Res) : string := sep_by ";" (map show_resource l).

(** What the types of the fields allow, and at least one value. *)
Definition res_ok (r : Res) : Prop :=
  in_u 32 r.1 /\ in_s 32 r.2.1 /\ Forall (in_s 32) r.2.2 /\ r.2.2 <> [].

Lemma numbers_lack d vs : number_char d = false -> Forall (fun s => lacks d s = true /\ s <> "") (map to_string vs).
Proof.
  intros Hd. apply List.Forall_map. apply Forall_forall. intros v _. split; [by apply to_string_lacks|apply to_string_nonempty].
Qed.

Lemma push_shown code vs : in_u 32 code -> Forall (in_s 32) vs -> forall m,
  push_values (to_string code) (map to_string vs) m =
  Some (if decide (vs = []) then m else <[code := ((entry code m).1, (entry code m).2 ++ vs)]> m).
Proof.
  intros Hc Hv. assert (in_s 64 code) as Hc' by (unfold in_u, in_s in *; lia).
  assert (wrap_u 32 code = code) as Hw by (unfold wrap_u, in_u in *; apply Z.mod_small; lia).
  induction Hv as [|v vs Hv Hvs IH]; intros m; [done|]. cbn [map push_values].
  rewrite stol_to_string, stoi_to_string by (done || tauto). rewrite Hw, IH.
  destruct (decide (v :: vs = [])); [done|]. case_decide as E; [by rewrite E|].
  unfold entry. rewrite !lookup_insert_eq. cbn [default from_option fst snd id]. by rewrite insert_insert_eq, <- app_assoc.
Qed.

Lemma parse_shown r m : res_ok r -> m !! r.1 = None -> parse_resource (show_resource r) m = inl (Some (<[r.1 := r.2]> m)).
Proof.
  destruct r as [code [info vs]]. intros (Hc & Hi & Hv & Hne) Hm. cbn [fst snd] in *. unfold show_resource. cbn [fst snd].
  set (V := sep_by "," (map to_string vs)). unfold parse_resource.
  assert (to_string code +:+ String "#" (to_string info +:+ String ":" V) =
          (to_string code +:+ String "#" (to_string info)) +:+ String ":" V) as ->.
  { by rewrite app_assoc_str, app_cons. }
  destruct (cut_at ":" (to_string code +:+ String "#" (to_string info)) V) as (-> & -> & ->).
  { rewrite lacks_app. rewrite to_string_lacks by done. exact (to_string_lacks ":"%char info eq_refl). }
  destruct (cut_at "#" (to_string code) (to_string info)) as (-> & -> & ->); [by apply to_string_lacks|].
  assert ((0 <? String.length (to_string info))%nat = true) as ->.
  { apply Nat.ltb_lt. pose proof (to_string_nonempty info). destruct (to_string info); [done|cbn; lia]. }
  assert (in_s 64 code) as Hc' by (unfold in_u, in_s in *; lia).
  assert (wrap_u 32 code = code) as Hw by (unfold wrap_u, in_u in *; apply Z.mod_small; lia).
  rewrite stoi_to_string, stol_to_string by (done || tauto). rewrite Hw. unfold V.
  rewrite split_sep_by by (by apply numbers_lack). rewrite push_shown by done. rewrite decide_False by done.
  unfold entry. rewrite lookup_insert_eq, Hm. cbn [default from_option fst snd id app]. by rewrite insert_insert_eq.
Qed.

Lemma parse_tokens_shown l : forall m, Forall res_ok l -> NoDup l.*1 -> Forall (fun r => m !! r.1 = None) l ->
  parse_tokens (map show_resource l) m = inl (Some (foldl (fun m r => <[r.1 := r.2]> m) m l)).
Proof.
  induction l as [|r l IH]; intros m Hok Hnd Hm; [done|]. cbn [map parse_tokens foldl].
  apply Forall_cons in Hok as [Hr Hok]. apply Forall_cons in Hm as [Hmr Hm]. rewrite fmap_cons in Hnd. apply NoDup_cons in Hnd as [Hni Hnd].
  rewrite parse_shown by done. apply IH; [done|done|]. rewrite Forall_forall in Hm |- *. intros r' Hr'.
  rewrite lookup_insert_ne; [by apply Hm|]. intros E. apply Hni. rewrite E. by apply list_elem_of_fmap_2.
Qed.

Lemma foldl_insert_to_list (l : list Res) : forall (m : ResMap), NoDup l.*1 -> Forall (fun r => m !! r.1 = None) l ->
  map_to_list (foldl (fun m r => <[r.1 := r.2]> m) m l) ≡ₚ l ++ map_to_list m.
Proof.
  induction l as [|r l IH]; intros m Hnd Hm; [done|]. cbn [foldl]. apply Forall_cons in Hm as [Hmr Hm].
  rewrite fmap_cons in Hnd. apply NoDup_cons in Hnd as [Hni Hnd]. rewrite IH; [|done|].
  - rewrite map_to_list_insert by done. destruct r as [k v]. cbn [fst snd]. by rewrite <- Permutation_middle.
  - rewrite Forall_forall in Hm |- *. intros r' Hr'.
    rewrite lookup_insert_ne; [by apply Hm|]. intros E. apply Hni. rewrite E. by apply list_elem_of_fmap_2.
Qed.

Lemma show_resource_lacks r : lacks ";" (show_resource r) = true /\ show_resource r <> "".
Proof.
  unfold show_resource. split.
  - rewrite lacks_app, to_string_lacks by done. cbn [andb]. change (lacks ";" (to_string r.2.1 +:+ String ":" (sep_by "," (map to_string r.2.2))) = true).
    rewrite lacks_app, to_string_lacks by done. cbn [andb]. change (lacks ";" (sep_by "," (map to_string r.2.2)) = true).
    apply lacks_sep_by; [done|]. eapply Forall_impl; [exact (numbers_lack ";" r.2.2 eq_refl)|]. by intros ? [? _].
  - pose proof (to_string_nonempty r.1). by destruct (to_string r.1).
Qed.

Lemma parseResources_shown `{HashOrder} (l : list Res) : Forall res_ok l -> NoDup l.*1 ->
  exists l', parseResources (show_resources l) = inl (Some l') /\ (l' ≡ₚ l).
Proof.
  intros Hok Hnd. unfold parseResources, show_resources. rewrite split_sep_by.
  - rewrite parse_tokens_shown by (done || by apply Forall_forall). eexists. split; [done|].
    rewrite hash_order_perm, foldl_insert_to_list by (done || by apply Forall_forall). by rewrite map_to_list_empty, app_nil_r.
  - apply List.Forall_map, Forall_forall. intros r _. apply show_resource_lacks.
Qed.

(** ** A library that records the calls *)
Inductive ApiCall :=
  | CallTune (duration properties numRes : Z) (l : list SysResource)
  | CallRetune (handle duration : Z)
  | CallUntune (handle : Z)
  | CallProp (key : string)
  | CallSignal (code : Z)
  | CallUntuneSignal (handle : Z).

(** [answer] is what a call returns, [fill] what a query writes into its buffer. *)
Definition recorder (answer : ApiCall -> Z) (fill : string -> list Z -> list Z) : Api (list ApiCall) :=
  let ask c w := Ok (answer c, w ++ [c]) in
  mkApi (fun d p n l => ask (CallTune d p n l)) (fun h d => ask (CallRetune h d)) (fun h => ask (CallUntune h))
    (fun key buf _ w => Ok (answer (CallProp key), fill key buf, w ++ [CallProp key]))
    (fun c => ask (CallSignal c)) (fun h => ask (CallUntuneSignal h)).

(** What every call of the client satisfies. *)
Definition sound_call (c : ApiCall) : Prop :=
  match c with
  | CallTune d p n l => (d = -1 \/ 0 < d) /\ (p = REQ_PRIORITY_HIGH \/ p = REQ_PRIORITY_LOW) /\ n = Z.of_nat (length l)
  | CallRetune h d => 0 < h /\ (d = -1 \/ 0 < d)
  | CallUntune h | CallUntuneSignal h => 0 < h
  | CallProp _ => True
  | CallSignal code => in_u 32 code
  end.

(** A run makes at most [k] calls, all sound. *)
Definition makes {A} (k : nat) (m : Cli (list ApiCall) A) : Prop :=
  forall w out r w' out', m w out = Ok (r, w', out') -> exists cs, w' = w ++ cs /\ Forall sound_call cs /\ (length cs <= k)%nat.

Lemma makes_bind {A B} k j (m : Cli _ A) (f : A -> Cli _ B) :
  makes k m -> (forall a, makes j (f a)) -> makes (k + j) (m ≫= f).
Proof.
  intros Hm Hf w out r w' out'. unfold mbind, cli_bind. destruct (m w out) as [[[[a|e] w1] out1]|] eqn:E; [| |done].
  - intros E'. destruct (Hm _ _ _ _ _ E) as (cs & -> & H1 & L1). destruct (Hf a _ _ _ _ _ E') as (cs' & -> & H2 & L2).
    exists (cs ++ cs'). rewrite app_assoc, length_app. split; [done|]. split; [by apply Forall_app|lia].
  - intros [= <- <- <-]. destruct (Hm _ _ _ _ _ E) as (cs & -> & H1 & L1). exists cs. split_and!; [done|done|lia].
Qed.
Lemma makes_weaken {A} k j (m : Cli (list ApiCall) A) : makes k m -> (k <= j)%nat -> makes j m.
Proof. intros Hm Hk w out r w' out' E. destruct (Hm _ _ _ _ _ E) as (cs & ? & ? & ?). exists cs. split_and!; [done|done|lia]. Qed.

Lemma makes_none {A} (m : Cli (list ApiCall) A) : (forall w out r w' out', m w out = Ok (r, w', out') -> w' = w) -> makes 0 m.
Proof. intros H w out r w' out' E. exists []. rewrite app_nil_r. split_and!; [by eapply H|done|done]. Qed.
Lemma makes_ret {A} (a : A) : makes 0 (mret a).
Proof. apply makes_none. by intros ????? [= <- <- <-]. Qed.
Lemma makes_print s : makes 0 (print s).
Proof. apply makes_none. by intros ????? [= <- <- <-]. Qed.
Lemma makes_prints l : makes 0 (prints l).
Proof. induction l as [|s l IH]; [apply makes_ret|]. apply (makes_bind 0 0); [apply makes_print|done]. Qed.
Lemma makes_throwing x : makes 0 (throwing x).
Proof. apply makes_none. by intros ????? [= <- <- <-]. Qed.
Lemma makes_of_result {A} (r : result A) : makes 0 (of_result r).
Proof. apply makes_none. intros w out x w' out'. unfold of_result. destruct r; [|done]. cbn. by intros [= <- <- <-]. Qed.
Lemma makes_lib {A} (f : list ApiCall -> result (A * list ApiCall)) c :
  sound_call c -> (forall w a w', f w = Ok (a, w') -> w' = w ++ [c]) -> makes 1 (lib f).
Proof.
  intros Hc Hf w out r w' out'. unfold lib. destruct (f w) as [[a w1]|] eqn:E; [|done]. cbn. intros [= <- <- <-].
  exists [c]. split; [by eapply Hf|]. split; [by constructor|done].
Qed.
#[export] Hint Resolve makes_ret makes_print makes_prints makes_throwing makes_of_result : urm.

(** A sequence in which only the part of [k] calls makes any. *)
Ltac quiet := first [by eauto with urm | apply (makes_bind 0 0); [quiet|intros ?; quiet] | case_match; quiet].
Lemma makes_then {A B} k (m : Cli _ A) (f : A -> Cli _ B) : makes k m -> (forall a, makes 0 (f a)) -> makes k (m ≫= f).
Proof. intros Hm Hf. replace k with (k + 0)%nat by lia. by apply makes_bind. Qed.
Lemma makes_after {A B} k (m : Cli _ A) (f : A -> Cli _ B) : makes 0 m -> (forall a, makes k (f a)) -> makes k (m ≫= f).
Proof. intros Hm Hf. change k with (0 + k)%nat. by apply makes_bind. Qed.

Lemma makes_parsed {A} k x (f : Z -> Cli (list ApiCall) A) : (forall v, x = inl v -> makes k (f v)) -> makes k (throwing x ≫= f).
Proof.
  intros Hf w out r w' out'. unfold mbind, cli_bind, throwing. destruct x as [v|e]; [by apply Hf|].
  intros [= <- <- <-]. exists []. rewrite app_nil_r. split_and!; [done|done|cbn; lia].
Qed.

Section Calls.
Context (answer : ApiCall -> Z) (fill : string -> list Z -> list Z) `{HashOrder}.
Let api := recorder answer fill.

Lemma report_handle_quiet s h : makes 0 (report_handle s h : Cli (list ApiCall) unit).
Proof. unfold report_handle. quiet. Qed.
Lemma report_status_quiet s t h : makes 0 (report_status s t h : Cli (list ApiCall) unit).
Proof. unfold report_status. quiet. Qed.

Lemma makes_tune d p n res : (d = -1 \/ 0 < d) -> in_s 32 n -> makes 1 (sendTuneRequest api d p n res).
Proof.
  intros Hd Hn. unfold sendTuneRequest. destruct (n <? 0); [eapply makes_weaken; [quiet|lia]|].
  destruct (parseResources res) as [[v|]|e]; [|eapply makes_weaken; [quiet|lia]..].
  destruct (Z.gtb_spec (Z.of_nat (length v)) n) as [|Hle]; [eapply makes_weaken; [quiet|lia]|].
  apply makes_after; [quiet|intros _]. apply makes_after; [quiet|intros _].
  apply makes_then; [|intros h; apply report_handle_quiet].
  eapply makes_lib; [|by intros w a w' [= <- <-]]. cbn. split; [done|]. split.
  - unfold REQ_PRIORITY_HIGH, REQ_PRIORITY_LOW in *. destruct (Z.ltb_spec p 0); [by left|]. destruct (Z.gtb_spec p 1); [by right|lia].
  - rewrite length_map, wrap_s_id; [done|done|]. unfold in_s in *. lia.
Qed.

Lemma makes_retune h d : 0 < h -> (d = -1 \/ 0 < d) -> makes 1 (sendRetuneRequest api h d).
Proof.
  intros. apply makes_then; [|intros; apply report_status_quiet]. by eapply makes_lib; [|by intros w a w' [= <- <-]].
Qed.
Lemma makes_untune h : 0 < h -> makes 1 (sendUntuneRequest api h).
Proof.
  intros. apply makes_then; [|intros; apply report_status_quiet]. by eapply makes_lib; [|by intros w a w' [= <- <-]].
Qed.
Lemma makes_untune_signal h : 0 < h -> makes 1 (sendUntuneSignal api h).
Proof.
  intros. apply makes_then; [|intros; apply report_status_quiet]. by eapply makes_lib; [|by intros w a w' [= <- <-]].
Qed.
Lemma makes_prop junk key : makes 1 (sendPropRequest api junk key).
Proof.
  unfold sendPropRequest. apply makes_then; [by eapply (makes_lib _ (CallProp key)); [|by intros w a w' [= <- <-]]|].
  intros [st buf]. quiet.
Qed.
Lemma makes_signal s : makes 1 (sendTuneSignal api s).
Proof.
  unfold sendTuneSignal. apply makes_after; [quiet|intros _]. apply makes_after; [quiet|intros c].
  apply makes_then; [|intros; apply report_handle_quiet]. eapply makes_lib; [|by intros w a w' [= <- <-]].
  cbn. unfold in_u, wrap_u. apply Z.mod_pos_bound. lia.
Qed.

Lemma makes_tune_command args : makes 1 (tune_command api args).
Proof.
  unfold tune_command. repeat (case_match; try (eapply makes_weaken; [quiet|lia])).
  apply makes_after; [quiet|intros d]. apply makes_after; [quiet|intros pr]. apply makes_parsed. intros cnt Hcnt.
  destruct (_ || _) eqn:Ec; [eapply makes_weaken; [quiet|lia]|].
  apply orb_false_iff in Ec as [[Hc1 Hc2]%orb_false_iff Hc3]. apply makes_tune; [lia|by eapply stoi_range].
Qed.
Lemma makes_untune_command args : makes 1 (untune_command api args).
Proof.
  unfold untune_command. repeat (case_match; try (eapply makes_weaken; [quiet|lia])).
  apply makes_after; [quiet|intros h]. destruct (Z.leb_spec h 0); [eapply makes_weaken; [quiet|lia]|by apply makes_untune].
Qed.
Lemma makes_retune_command args : makes 1 (retune_command api args).
Proof.
  unfold retune_command. repeat (case_match; try (eapply makes_weaken; [quiet|lia])).
  apply makes_after; [quiet|intros h]. apply makes_after; [quiet|intros d].
  destruct ((h <=? 0) || (d =? 0) || (d <? -1)) eqn:Ec; [eapply makes_weaken; [quiet|lia]|].
  apply orb_false_iff in Ec as [[Hc1 Hc2]%orb_false_iff Hc3]. apply makes_retune; lia.
Qed.

Lemma makes_command input : makes 1 (processCommands api input).
Proof.
  unfold processCommands. repeat (case_match; try (eapply makes_weaken; [quiet|lia])); (apply makes_then; [|intros; quiet]).
  - eapply makes_weaken; [quiet|lia].
  - apply makes_tune_command.
  - apply makes_untune_command.
  - apply makes_retune_command.
Qed.
Lemma makes_persistent n : forall stdin, makes n (startPersistentMode api n stdin).
Proof.
  induction n as [|n IH]; intros stdin; cbn [startPersistentMode]; [quiet|].
  destruct stdin as [|l stdin]; (apply (makes_bind 1 n); [apply makes_command|]); intros []; (apply IH || (eapply makes_weaken; [quiet|lia])).
Qed.

Lemma option_case_range o a a' : in_s 32 (ar_numResources a) -> option_case o a = inl a' -> in_s 32 (ar_numResources a').
Proof.
  intros Ha. destruct o as [c arg]. unfold option_case.
  repeat (case_match; try (intros [= <-]; cbn; done)); intros [= <-]; cbn; try done; by eapply stoi_range.
Qed.
Lemma option_loop_range os : forall a a', in_s 32 (ar_numResources a) -> option_loop os a = inl a' -> in_s 32 (ar_numResources a').
Proof.
  induction os as [|o os IH]; intros a a' Ha; cbn [option_loop]; [by intros [= <-]|].
  destruct (option_case o a) as [a1|] eqn:E; [|done]. apply IH. by eapply option_case_range.
Qed.

Lemma makes_dispatch junk a : in_s 32 (ar_numResources a) -> makes 1 (dispatch api junk a).
Proof.
  intros Hn. unfold dispatch. destruct (ar_requestType a) as [[]|]; try (eapply makes_weaken; [quiet|lia]).
  - destruct (_ || _) eqn:Ec; [eapply makes_weaken; [quiet|lia]|]. repeat apply orb_false_iff in Ec as [Ec ?].
    apply makes_then; [|intros; quiet]. apply makes_tune; [lia|done].
  - destruct (_ || _) eqn:Ec; [eapply makes_weaken; [quiet|lia]|]. apply orb_false_iff in Ec as [[Hc1 Hc2]%orb_false_iff Hc3].
    apply makes_then; [|intros; quiet]. apply makes_retune; lia.
  - destruct (Z.leb_spec (ar_handle a) 0); [eapply makes_weaken; [quiet|lia]|]. apply makes_then; [by apply makes_untune|intros; quiet].
  - destruct (ar_propKey a); [|eapply makes_weaken; [quiet|lia]]. apply makes_then; [apply makes_prop|intros; quiet].
  - destruct (ar_sigCode a); [|eapply makes_weaken; [quiet|lia]]. apply makes_then; [apply makes_signal|intros; quiet].
  - destruct (Z.leb_spec (ar_handle a) 0); [eapply makes_weaken; [quiet|lia]|]. apply makes_then; [by apply makes_untune_signal|intros; quiet].
Qed.
End Calls.

(** Runs that do not throw. *)
Lemma bind_run {W A B} (m : Cli W A) (f : A -> Cli W B) a w out w' out' :
  m w out = Ok (inl a, w', out') -> (m ≫= f) w out = f a w' out'.
Proof. intros E. unfold mbind, cli_bind. by rewrite E. Qed.
Lemma prints_run {W} l : forall (w : W) out, prints l w out = Ok (inl tt, w, out ++ l).
Proof.
  induction l as [|s l IH]; intros w out; cbn [prints]; [by rewrite app_nil_r|].
  erewrite bind_run by reflexivity. rewrite IH. by rewrite <- app_assoc.
Qed.

Lemma sendTuneRequest_run `{HashOrder} answer fill d p n res l w out :
  0 <= n -> in_s 32 n -> parseResources res = inl (Some l) -> Z.of_nat (length l) <= n ->
  let call := CallTune d (Z.max REQ_PRIORITY_HIGH (Z.min REQ_PRIORITY_LOW p)) (Z.of_nat (length l)) (map sys_resource l) in
  exists out', sendTuneRequest (recorder answer fill) d p n res w out = Ok (inl tt, w ++ [call], out') /\
    last out' = Some (if answer call =? -1 then "Failed to send Tune Request"
                      else "Handle Received from Server is: " +:+ to_string (answer call)).
Proof.
  intros Hn Hn32 El Hl call. unfold sendTuneRequest. rewrite El. replace (n <? 0) with false by lia.
  replace (Z.of_nat (length l) >? n) with false by lia. rewrite wrap_s_id by (done || (unfold in_s in *; lia)).
  assert ((if (if p <? REQ_PRIORITY_HIGH then REQ_PRIORITY_HIGH else p) >? REQ_PRIORITY_LOW then REQ_PRIORITY_LOW
           else if p <? REQ_PRIORITY_HIGH then REQ_PRIORITY_HIGH else p) = Z.max REQ_PRIORITY_HIGH (Z.min REQ_PRIORITY_LOW p)) as E.
  { unfold REQ_PRIORITY_HIGH, REQ_PRIORITY_LOW in *. destruct (Z.ltb_spec p 0).
    - change (0 >? 1) with false. cbn iota. lia.
    - destruct (Z.gtb_spec p 1); lia. }
  cbv zeta. rewrite E. erewrite bind_run by reflexivity. erewrite bind_run by apply prints_run.
  erewrite bind_run by reflexivity. fold call. unfold report_handle.
  destruct (answer call =? -1); (eexists; split; [reflexivity|apply last_snoc]).
Qed.

(** ** Properties *)

(** The resources of a command line: any list of resources with different codes, written
    as the usage line says, is read back, in some order; whatever the hash map's order. *)
Theorem parseResources_roundtrip `{HashOrder} (l : list Res) :
  Forall res_ok l -> NoDup l.*1 -> exists l', parseResources (show_resources l) = inl (Some l') /\ (l' ≡ₚ l).
Proof. apply parseResources_shown. Qed.
Lemma parseResources_roundtrip_witness : exists l', @parseResources sorted_hash_order "196608#0:700;262145#257:5,-6" = inl (Some l') /\
  (l' ≡ₚ [(196608, (0, [700])); (262145, (257, [5; -6]))]).
Proof.
  apply (@parseResources_roundtrip sorted_hash_order [(196608, (0, [700])); (262145, (257, [5; -6]))]).
  - by repeat constructor.
  - apply (bool_decide_unpack _). vm_compute. exact I.
Defined.

(** C26: a tune command line makes exactly one call of the library, with the duration, the bounded
    priority and the resources it says, and prints the handle. *)
Theorem tune_command_line `{HashOrder} (answer : ApiCall -> Z) (fill : string -> list Z -> list Z) (k : nat)
    (stdin : list string) (junk : list Z) (d p n : Z) (l : list Res) (w : list ApiCall) :
  (d = -1 \/ 0 < d) -> in_s 32 d -> p <> -1 -> in_s 32 p -> 0 < n -> in_s 32 n ->
  Forall res_ok l -> NoDup l.*1 -> Z.of_nat (length l) <= n ->
  exists l' out, (l' ≡ₚ l) /\
    let call := CallTune d (Z.max REQ_PRIORITY_HIGH (Z.min REQ_PRIORITY_LOW p)) (Z.of_nat (length l)) (map sys_resource l') in
    main (recorder answer fill) k stdin junk ["--tune"; "--duration"; to_string d; "--priority"; to_string p; "--num"; to_string n;
       "--res"; show_resources l] w [] = Ok (inl (Some 0), w ++ [call], out) /\
    last out = Some (if answer call =? -1 then "Failed to send Tune Request"
                     else "Handle Received from Server is: " +:+ to_string (answer call)).
Proof.
  intros Hd Hd32 Hp Hp32 Hn Hn32 Hok Hnd Hl. destruct (parseResources_shown l Hok Hnd) as (l' & El & Hperm). exists l'.
  set (call := CallTune _ _ _ _). unfold main.
  set (os := getopt_long _ _ _).
  assert (os = [mkOpt "t" None; mkOpt "d" (Some (to_string d)); mkOpt "p" (Some (to_string p)); mkOpt "n" (Some (to_string n));
                mkOpt "l" (Some (show_resources l))]) as -> by reflexivity.
  assert (option_loop [mkOpt "t" None; mkOpt "d" (Some (to_string d)); mkOpt "p" (Some (to_string p)); mkOpt "n" (Some (to_string n));
    mkOpt "l" (Some (show_resources l))] Args_init = inl (mkArgs (Some REQ_RESOURCE_TUNING) (-1) d p n (Some (show_resources l)) None None false)) as ->.
  { cbn -[stoi]. rewrite (stoi_to_string 10 d) by (tauto || done).
    cbn -[stoi]. rewrite (stoi_to_string 10 p) by (tauto || done). cbn -[stoi]. by rewrite (stoi_to_string 10 n) by (tauto || done). }
  cbn [ar_persistent]. unfold dispatch. cbn [ar_requestType ar_duration ar_priority ar_numResources ar_resources].
  rewrite bool_decide_false by done. replace (_ || _) with false by lia. cbn [default from_option].
  assert (length l' = length l) as Hlen by (by rewrite Hperm).
  destruct (sendTuneRequest_run answer fill d p n (show_resources l) l' w [] ltac:(lia) Hn32 El ltac:(lia)) as (out & E & Ho).
  rewrite Hlen in E, Ho. exists out. split; [done|]. split; [|exact Ho].
  erewrite bind_run; [reflexivity|]. erewrite bind_run; [reflexivity|exact E].
Qed.
Lemma tune_command_line_witness : exists l' out, (l' ≡ₚ [(196608, (0, [700]))]) /\
  let call := CallTune 5000 0 1 (map sys_resource l') in
  @main _ (recorder (fun _ => 7) (fun _ b => b)) sorted_hash_order 0 [] [] ["--tune"; "--duration"; "5000"; "--priority"; "0"; "--num"; "1";
    "--res"; "196608#0:700"] [] [] = Ok (inl (Some 0), [call], out) /\ last out = Some "Handle Received from Server is: 7".
Proof.
  destruct (@tune_command_line sorted_hash_order (fun _ => 7) (fun _ b => b) 0 [] [] 5000 0 1 [(196608, (0, [700]))] []) as (l' & out & Hp & E & Ho);
    [lia|unfold in_s; lia|lia|unfold in_s; lia|lia|unfold in_s; lia|by repeat constructor|apply NoDup_singleton|cbn; lia|].
  exists l', out. split; [exact Hp|]. split; [exact E|exact Ho].
Defined.

(** C27: every call the client makes is sound, whatever its command line and its input: a duration is
    positive or -1, a handle is positive, the priority is one of the two, and the count is
    that of the list; and outside the persistent mode there is at most one call. *)
Theorem client_calls `{HashOrder} (answer : ApiCall -> Z) (fill : string -> list Z -> list Z) (n : nat)
    (stdin : list string) (junk : list Z) (argv : list string) r cs out :
  main (recorder answer fill) n stdin junk argv [] [] = Ok (r, cs, out) ->
  Forall sound_call cs /\
  match option_loop (getopt_long shortPrompts longPrompts argv) Args_init with
  | inl a => (length cs <= if ar_persistent a then n else 1)%nat
  | inr _ => cs = []
  end.
Proof.
  unfold main. destruct (option_loop _ _) as [a|e] eqn:Ea; [|by intros [= <- <- <-]].
  assert (in_s 32 (ar_numResources a)) as Hr by (eapply option_loop_range; [|exact Ea]; unfold in_s; cbn; lia).
  intros E. assert (makes (if ar_persistent a then n else 1) (if ar_persistent a then
      ended ← startPersistentMode (recorder answer fill) n stdin; mret (if (ended : bool) then Some 0 else None)
    else rc ← dispatch (recorder answer fill) junk a; mret (Some rc))) as Hm.
  { destruct (ar_persistent a); (apply makes_then; [|intros; apply makes_ret]); [apply makes_persistent|by apply makes_dispatch]. }
  by destruct (Hm _ _ _ _ _ E) as (cs' & -> & Hs & Hl).
Qed.
Lemma client_calls_witness : Forall sound_call [CallUntune 7] /\ (length [CallUntune 7] <= 1)%nat.
Proof.
  exact (@client_calls sorted_hash_order (fun _ => 0) (fun _ b => b) 0 [] [] ["-u"; "--handle=7"] (inl (Some 0)) [CallUntune 7]
    ["Untune Request Successfully Submitted"] eq_refl).
Defined.

(** The persistent mode.  A tune command whose duration is a number is refused, for want of a
    colon in it, and calls nothing: no command as documented is ever sent.  A number that cannot be
    read ends the program.  And at the end of its input the loop goes on for ever. *)
Theorem persistent_mode {W : Type} (api : Api W) `{HashOrder} (line : string) (w : W) (out : list string) :
  (forall d p k res, split_on " "%char line = ["tune"; to_string d; p; k; res] ->
     processCommands api line w out =
     Ok (inl true, w, out ++ ["Invalid tune request"; tune_usage'; "Example: tune 4000 3 2 1:1,2:2"])) /\
  (forall h e rest n, split_on " "%char line = ["untune"; h] -> stoi 10 h = inr e ->
     startPersistentMode api (S n) (line :: rest) w out = Ok (inr e, w, out)) /\
  (forall n, startPersistentMode api n [] w out = Ok (inl false, w, out)).
Proof.
  assert (forall cmd args, split_on " "%char line = cmd :: args -> args <> [] ->
    processCommands api line = (_ ← (if String.eqb cmd "tune" then tune_command api args else if String.eqb cmd "untune" then untune_command api args
        else if String.eqb cmd "retune" then retune_command api args else print "Invalid command"); mret true)) as Hcmd.
  { intros cmd args E Hne. unfold processCommands. rewrite E.
    destruct (String.eqb_spec line "") as [->|]; [done|]. destruct (String.eqb_spec line "exit") as [->|]; [by injection E as <- <-|].
    destruct (String.eqb_spec line "stop") as [->|]; [by injection E as <- <-|].
    destruct (String.eqb_spec line "help") as [->|]; [by injection E as <- <-|]. done. }
  split_and!.
  - intros d p k res E. rewrite (Hcmd _ _ E) by done. change (String.eqb "tune" "tune") with true. cbn iota.
    unfold tune_command. rewrite (index_none ":") by (by apply to_string_lacks). erewrite bind_run by apply prints_run. reflexivity.
  - intros h e rest n E Eh. cbn [startPersistentMode]. rewrite (Hcmd _ _ E) by done. unfold untune_command.
    change (String.eqb "untune" "tune") with false. change (String.eqb "untune" "untune") with true. cbn iota.
    unfold mbind, cli_bind, throwing. by rewrite Eh.
  - intros n. revert w out. induction n as [|n IH]; intros w out; [done|]. cbn [startPersistentMode]. erewrite bind_run by reflexivity. apply IH.
Qed.
Lemma persistent_mode_witness :
  @processCommands _ (recorder (fun _ => 7) (fun _ b => b)) sorted_hash_order "tune 4000 3 2 1:1,2:2" [] [] =
  Ok (inl true, [], ["Invalid tune request"; tune_usage'; "Example: tune 4000 3 2 1:1,2:2"]).
Proof.
  exact (proj1 (@persistent_mode _ (recorder (fun _ => 7) (fun _ b => b)) sorted_hash_order "tune 4000 3 2 1:1,2:2" [] []) 4000 "3" "2" "1:1,2:2" eq_refl).
Defined.

(** The resources of an example in the documentation: the comma separates values, so that one
    resource with the values 700 and 0 is sent. *)
Theorem documented_example `{HashOrder} :
  parseResources "0x00030000:700,0x00040001:155667" = inl (Some [(196608, (0, [700; 0]))]).
Proof.
  unfold parseResources. change (parse_tokens _ ∅) with (inl (Some {[196608 := (0, [700; 0])]}) : option ResMap + stox_exn).
  cbn. do 2 f_equal. apply Permutation_singleton_r. rewrite hash_order_perm. by rewrite map_to_list_singleton.
Qed.
