(* ===== verification/Logger.v ===== *)
(** [modula/Components/Logger.cpp]: the levels, where a line goes, and the messages of [typeLog].

    [vsnprintf] is modelled for the directives that occur; an argument that does not fit its
    directive, or is missing, is a fault.  The time and the text of a floating point number
    are arguments; a line of the system log is kept with its level. *)
From Stdlib Require Import Ascii.
From S2P Require Import Prelude UrmTypes StdString AuxRoutines StringFacts RestuneInit.
Open Scope string_scope.
Open Scope list_scope.
Open Scope Z_scope.

(** ** [vsnprintf] *)

(** The arguments: an [int] or [unsigned], a 64-bit integer, a string, a number of type
    [double] (its text with four decimals). *)
Inductive VArg := VInt (z : Z) | VLong (z : Z) | VStr (s : string) | VDouble (text : string).
Inductive Directive := DInt | DLong | DStr | DHex8 | DFloat4.

(** What a format is made of: text and directives. *)
Inductive Piece := Plain (c : ascii) | Arg (d : Directive).

(** One directive after its percent sign, and what follows it. *)
Definition directive (s : string) : option (Directive * string) :=
  match s with
  | String c s1 =>
    if is_char 100 c then Some (DInt, s1)
    else if is_char 115 c then Some (DStr, s1)
    else if String.prefix "ld" s then Some (DLong, substr_from 2 s)
    else if String.prefix "lld" s then Some (DLong, substr_from 3 s)
    else if String.prefix "08x" s then Some (DHex8, substr_from 3 s)
    else if String.prefix ".4f" s then Some (DFloat4, substr_from 3 s)
    else None
  | EmptyString => None
  end.

(** The pieces; [n] bounds the length of the format. *)
Fixpoint pieces (n : nat) (fmt : string) : option (list Piece) :=
  match n, fmt with
  | _, EmptyString => Some []
  | O, _ => None
  | S n, String c s =>
    if is_char 37 c then '(d, rest) ← directive s; ps ← pieces n rest; Some (Arg d :: ps)
    else ps ← pieces n s; Some (Plain c :: ps)
  end.

Fixpoint zeros (n : nat) : string := match n with O => "" | S n => String "0" (zeros n) end.
Definition hex8 (z : Z) : string := let s := hex_digits 8 (wrap_u 32 z) "" in zeros (8 - String.length s) +:+ s.

Definition directive_text (d : Directive) (a : VArg) : option string :=
  match d, a with
  | DInt, VInt z => Some (to_string (wrap_s 32 z))
  | DLong, VLong z => Some (to_string z)
  | DStr, VStr s => Some s
  | DHex8, VInt z => Some (hex8 z)
  | DFloat4, VDouble t => Some t
  | _, _ => None
  end.
Fixpoint fill (ps : list Piece) (args : list VArg) : result string :=
  match ps with
  | [] => Ok ""
  | Plain c :: ps => s ← fill ps args; Ok (String c s)
  | Arg d :: ps =>
    match args with
    | [] => Fault Indeterminate
    | a :: args => t ← of_option Indeterminate (directive_text d a); s ← fill ps args; Ok (t +:+ s)
    end
  end.
Definition vsnprintf (size : nat) (fmt : string) (args : list VArg) : result string :=
  ps ← of_option Indeterminate (pieces (String.length fmt) fmt); s ← fill ps args; Ok (str_take (size - 1) s).

(** ** Logging a line *)
Record LogOut := mkLogOut { lo_syslog : list (Z * string); lo_fs : FileSystem }.

Definition levelToString (level : Z) : string :=
  if level =? LOG_DEBUG then "DEBUG" else if level =? LOG_INFO then "INFO"
  else if level =? LOG_ERR then "ERROR" else if level =? LOG_WARNING then "WARN" else "".

Definition LOGFILE : string := "/tmp/urm.log".
Definition TRACE_MARKER : string := "/sys/kernel/debug/tracing/trace_marker".

(** An [ofstream] in append mode. *)
Definition append_line (path line : string) (fs : FileSystem) : FileSystem :=
  if fs_openable_w fs path
  then set_files <[path := default "" (fs_files fs !! path) +:+ line +:+ String newline ""]> fs else fs.

Section Logger.
Context (cfg : LoggerConfig) (timestamp : string).

Definition enabled (level : Z) : bool :=
  if mLevelSpecificLogging cfg then level =? mLowestLogLevel cfg else level <=? mLowestLogLevel cfg.

Definition file_line (level : Z) (tag funcName message : string) : string :=
  "[" +:+ timestamp +:+ "] [" +:+ tag +:+ "] [" +:+ levelToString level +:+ "] " +:+ funcName +:+ ": " +:+ message.

Definition log (level : Z) (tag funcName message : string) (o : LogOut) : LogOut :=
  if negb (enabled level) then o else
  match mRedirectOutputTo cfg with
  | LOG_TOSYSLOG =>
    mkLogOut (lo_syslog o ++ [(level, "[" +:+ tag +:+ "] [" +:+ levelToString level +:+ "] " +:+ funcName +:+ ": " +:+ message)]) (lo_fs o)
  | LOG_TOFTRACE => mkLogOut (lo_syslog o) (append_line TRACE_MARKER (file_line level tag funcName message) (lo_fs o))
  | LOG_TOFILE => mkLogOut (lo_syslog o) (append_line LOGFILE (file_line level tag funcName message) (lo_fs o))
  | LOG_TOLOGCAT => o
  end.
End Logger.

(** ** The messages *)
Inductive CommonMessageTypes :=
  | ERRNO_LOG
  | CLIENT_ALLOCATION_FAILURE
  | PROPERTY_RETRIEVAL_FAILED
  | META_CONF_FETCH_FAILED
  | PULSE_MONITOR_INIT_FAILED
  | GARBAGE_COLLECTOR_INIT_FAILED
  | MEMORY_POOL_INVALID_BLOCK_SIZE
  | MEMORY_POOL_BLOCK_RETRIEVAL_FAILURE
  | MEMORY_POOL_ALLOCATION_FAILURE
  | NOTIFY_MODULE_ENABLED
  | NOTIFY_MODULE_NOT_ENABLED
  | SYSTEM_THREAD_CREATION_FAILURE
  | SYSTEM_THREAD_NOT_JOINABLE
  | MODULE_INIT_FAILED
  | REQUEST_MEMORY_ALLOCATION_FAILURE
  | REQUEST_MEMORY_ALLOCATION_FAILURE_HANDLE
  | LISTENER_THREAD_CREATION_SUCCESS
  | LISTENER_THREAD_CREATION_FAILURE
  | NOTIFY_EXTENSIONS_LIB_NOT_PRESENT
  | NOTIFY_EXTENSIONS_LOAD_FAILED
  | NOTIFY_EXTENSIONS_LIB_LOADED_SUCCESS
  | REQUEST_PARSING_FAILURE
  | META_CONFIG_PARSE_FAILURE
  | THREAD_POOL_CREATION_FAILURE
  | THREAD_POOL_INIT_FAILURE
  | THREAD_POOL_THREAD_ALLOCATION_FAILURE
  | THREAD_POOL_THREAD_CREATION_FAILURE
  | THREAD_POOL_THREAD_TERMINATED
  | THREAD_POOL_ENQUEUE_TASK_FAILURE
  | THREAD_POOL_FULL_ALERT
  | TIMER_START_FAILURE
  | VERIFIER_INVALID_OPCODE
  | VERIFIER_INVALID_DEVICE_MODE
  | VERIFIER_INVALID_PRIORITY
  | VERIFIER_VALUE_OUT_OF_BOUNDS
  | VERIFIER_INVALID_PERMISSION
  | VERIFIER_NOT_SUFFICIENT_PERMISSION
  | VERIFIER_LOGICAL_TO_PHYSICAL_MAPPING_FAILED
  | VERIFIER_REQUEST_VALIDATED
  | VERIFIER_STATUS_FAILURE
  | VERIFIER_UNSUPPORTED_SIGNAL_TUNING
  | VERIFIER_NOT_SUFFICIENT_SIGNAL_ACQ_PERMISSION
  | VERIFIER_TARGET_CHECK_FAILED
  | VERIFIER_CGROUP_NOT_FOUND
  | VERIFIER_INVALID_LOGICAL_CORE
  | VERIFIER_INVALID_LOGICAL_CLUSTER
  | VERIFIER_NO_VALID_RESOURCES
  | NOTIFY_COCO_TABLE_INSERT_START
  | NOTIFY_COCO_TABLE_INSERT_SUCCESS
  | NOTIFY_COCO_TABLE_UPDATE_START
  | NOTIFY_COCO_TABLE_REMOVAL_START
  | NOTIFY_COCO_TABLE_REQUEST_EXPIRY
  | NOTIFY_COCO_TABLE_WRITE
  | RATE_LIMITER_RATE_LIMITED
  | RATE_LIMITER_GLOBAL_RATE_LIMIT_HIT
  | YAML_PARSE_ERROR
  | NOTIFY_RESOURCE_TUNER_INIT_START
  | NOTIFY_CURRENT_TARGET_NAME
  | NOTIFY_PARSING_START
  | NOTIFY_PARSING_SUCCESS
  | NOTIFY_PARSING_FAILURE
  | NOTIFY_PARSER_FILE_NOT_FOUND
  | LOGICAL_TO_PHYSICAL_MAPPING_GEN_FAILURE
  | LOGICAL_TO_PHYSICAL_MAPPING_GEN_SUCCESS
  | SIGNAL_REGISTRY_SIGNAL_NOT_FOUND
  | SIGNAL_REGISTRY_PARSING_FAILURE
  | RESOURCE_REGISTRY_RESOURCE_NOT_FOUND
  | RESOURCE_REGISTRY_PARSING_FAILURE
  | CLIENT_ENTRY_CREATION_FAILURE
  | REQUEST_MANAGER_DUPLICATE_FOUND
  | REQUEST_MANAGER_REQUEST_NOT_ACTIVE
  | EXT_FEATURE_CONFIGS_ELEM_LIB_OPEN_FAILED
  | EXT_FEATURE_ROUTINE_NOT_DEFINED
  | CORE_COUNT_EXTRACTION_FAILED
  | CLUSTER_CPU_LIST_EXTRACTION_FAILED
  | CLUSTER_CPU_CAPACITY_EXTRACTION_FAILED
  | NOTIFY_NODE_WRITE
  | NOTIFY_NODE_WRITE_S
  | NOTIFY_NODE_RESET
  | GENERIC_CALL_FAILURE_LOG
  | INV_ATTR_VAL
  | INV_COCO_TBL_INDEX
  | NOTIFY_RESMODE_REJECT
  | NOTIFY_CLASSIFIER_PROC_EVENT
  | NOTIFY_CLASSIFIER_PROC_IGNORE
  | NOTIFY_MODEL_PREDICTION
  | SYSTEM_BUS_CONN_FAILED
  | FILE_OPEN_FAILED
  | FILE_READ_FAILED
  | FILE_WRITE_FAILED.

(** A line with arguments, or a fixed one. *)
Inductive Body := Template (fmt : string) | Text (s : string).
Record MessageSpec := mkSpec { ms_level : Z; ms_tag : string; ms_body : Body }.

(** The cases of the [switch] in [typeLog], in their order, in five parts. *)
Definition server_messages (type : CommonMessageTypes) : option MessageSpec :=
  match type with
  | NOTIFY_MODULE_ENABLED =>
    Some (mkSpec LOG_INFO "RESTUNE_COMPONENT_REGISTRY" (Template
      "Module: [%s] is Enabled, Proceeding with Initialization"))
  | NOTIFY_MODULE_NOT_ENABLED =>
    Some (mkSpec LOG_ERR "RESTUNE_REQUEST_DECODE" (Template
      "Module: [%s] is Not Enabled, Dropping Request"))
  | FILE_OPEN_FAILED =>
    Some (mkSpec LOG_ERR "URM_AUX_ROUTINE" (Template
      "Failed to open file: %s, Error: %s"))
  | FILE_READ_FAILED =>
    Some (mkSpec LOG_ERR "URM_AUX_ROUTINE" (Template
      "Failed to read from file: %s, Error: %s"))
  | FILE_WRITE_FAILED =>
    Some (mkSpec LOG_ERR "URM_AUX_ROUTINE" (Template
      "Failed to write to file: %s, Error: %s"))
  | SYSTEM_THREAD_CREATION_FAILURE =>
    Some (mkSpec LOG_ERR "RESTUNE_SYSTEM_ERROR" (Template
      "[%s] thread could not be created, Error: %s"))
  | LISTENER_THREAD_CREATION_SUCCESS =>
    Some (mkSpec LOG_INFO "URM_SERVER_INIT" (Text
      "Listener Thread Successfully Created, Server ready for Requests"))
  | LISTENER_THREAD_CREATION_FAILURE =>
    Some (mkSpec LOG_ERR "URM_SERVER_INIT" (Text
      "Listener Thread Creation Failed, Aborting Initialization"))
  | CLIENT_ALLOCATION_FAILURE =>
    Some (mkSpec LOG_ERR "RESTUNE_CLIENT_DATA_MANAGER" (Template
      "Memory allocation for Client: [PID: %d, TID: %d]. Failed with Error: %s"))
  | PROPERTY_RETRIEVAL_FAILED =>
    Some (mkSpec LOG_ERR "URM_SERVER_INIT" (Text
      "Failed to Fetch Properties, Boot Configs. URM Initialization Failed."))
  | META_CONF_FETCH_FAILED =>
    Some (mkSpec LOG_ERR "URM_SERVER_INIT" (Text
      "Failed to Fetch Meta Configs, URM Initialization Failed."))
  | META_CONFIG_PARSE_FAILURE =>
    Some (mkSpec LOG_ERR "URM_SERVER_INIT" (Template
      "Fetch Meta Configs failed, with Error %s"))
  | THREAD_POOL_CREATION_FAILURE =>
    Some (mkSpec LOG_ERR "URM_SERVER_INIT" (Template
      "Failed to create Thread Pool. Error: %s"))
  | THREAD_POOL_INIT_FAILURE =>
    Some (mkSpec LOG_ERR "RESTUNE_THREAD_POOL" (Template
      "Could Not Initialize Thread Pool. Error: %s"))
  | THREAD_POOL_THREAD_ALLOCATION_FAILURE =>
    Some (mkSpec LOG_ERR "RESTUNE_THREAD_POOL" (Template
      "Failed to allocate Memory for ThreadNode. Error: %s"))
  | THREAD_POOL_THREAD_CREATION_FAILURE =>
    Some (mkSpec LOG_ERR "RESTUNE_THREAD_POOL" (Template
      "Failed to create New thread, call to std::thread Failed. Error: %s"))
  | THREAD_POOL_THREAD_TERMINATED =>
    Some (mkSpec LOG_ERR "RESTUNE_THREAD_POOL" (Template
      "Thread Terminated with Error: %s"))
  | THREAD_POOL_ENQUEUE_TASK_FAILURE =>
    Some (mkSpec LOG_ERR "RESTUNE_THREAD_POOL" (Template
      "Task Submisission failed with Error: %s"))
  | THREAD_POOL_FULL_ALERT =>
    Some (mkSpec LOG_ERR "RESTUNE_THREAD_POOL" (Text
      "ThreadPool is full, Task Submission Failed"))
  | TIMER_START_FAILURE =>
    Some (mkSpec LOG_ERR "URM_COCO_TABLE" (Template
      "Failed to start Timer for Request [%ld], Dropping Request."))
  | NOTIFY_RESOURCE_TUNER_INIT_START =>
    Some (mkSpec LOG_INFO "URM_SERVER_INIT" (Template
      "Starting URM, PID = [%d]"))
  | _ => None
  end.
Definition init_messages (type : CommonMessageTypes) : option MessageSpec :=
  match type with
  | NOTIFY_CURRENT_TARGET_NAME =>
    Some (mkSpec LOG_INFO "URM_SERVER_INIT" (Template
      "Detected Target: [%s]"))
  | PULSE_MONITOR_INIT_FAILED =>
    Some (mkSpec LOG_ERR "URM_SERVER_INIT" (Text
      "Pulse Monitor Could not be started, Aborting Initialization."))
  | GARBAGE_COLLECTOR_INIT_FAILED =>
    Some (mkSpec LOG_ERR "URM_SERVER_INIT" (Text
      "Client Garbage Collector Could not be started, Aborting Initialization."))
  | MEMORY_POOL_INVALID_BLOCK_SIZE =>
    Some (mkSpec LOG_ERR "RESTUNE_MEMORY_POOL" (Template
      "Invalid block Size Provided [size = %d bytes.]"))
  | MEMORY_POOL_BLOCK_RETRIEVAL_FAILURE =>
    Some (mkSpec LOG_ERR "RESTUNE_MEMORY_POOL" (Template
      "No Free Blocks of Requested Size Available [size = %d bytes.]"))
  | MEMORY_POOL_ALLOCATION_FAILURE =>
    Some (mkSpec LOG_ERR "RESTUNE_MEMORY_POOL" (Template
      "Insufficient Memory to Allocate Desired Number of Blocks[Requested Size = %d bytes, Requested Count = %d, Allocated Count = %d.]"))
  | MODULE_INIT_FAILED =>
    Some (mkSpec LOG_ERR "URM_SERVER_INIT" (Template
      "Failed to Initialize Module: %s, Aborting Server Startup."))
  | NOTIFY_EXTENSIONS_LIB_NOT_PRESENT =>
    Some (mkSpec LOG_INFO "URM_SERVER_INIT" (Text
      "Extension library not present at expected path — ignoring"))
  | NOTIFY_EXTENSIONS_LOAD_FAILED =>
    Some (mkSpec LOG_ERR "URM_SERVER_INIT" (Template
      "Error loading extension lib: [%s], Error: [%s]"))
  | NOTIFY_EXTENSIONS_LIB_LOADED_SUCCESS =>
    Some (mkSpec LOG_INFO "URM_SERVER_INIT" (Template
      "Successfully Loaded: [%d] extension plugins"))
  | NOTIFY_COCO_TABLE_INSERT_START =>
    Some (mkSpec LOG_DEBUG "URM_COCO_TABLE" (Template
      "Inserting in CocoTable: Request Handle: [%ld]"))
  | NOTIFY_COCO_TABLE_INSERT_SUCCESS =>
    Some (mkSpec LOG_DEBUG "URM_COCO_TABLE" (Template
      "Request Handle: [%ld] Successfully inserted in CocoTable"))
  | NOTIFY_COCO_TABLE_UPDATE_START =>
    Some (mkSpec LOG_DEBUG "URM_COCO_TABLE" (Template
      "Updating Request Handle: [%ld], to New Duration: [%ld]"))
  | NOTIFY_COCO_TABLE_REMOVAL_START =>
    Some (mkSpec LOG_DEBUG "URM_COCO_TABLE" (Template
      "Request cleanup for Request Handle: [%ld] initiated"))
  | NOTIFY_COCO_TABLE_REQUEST_EXPIRY =>
    Some (mkSpec LOG_DEBUG "URM_COCO_TABLE" (Template
      "Timer over for Request Handle: [%ld]"))
  | NOTIFY_COCO_TABLE_WRITE =>
    Some (mkSpec LOG_DEBUG "URM_COCO_TABLE" (Template
      "Writing value: [%d], to node [%s]"))
  | REQUEST_MEMORY_ALLOCATION_FAILURE =>
    Some (mkSpec LOG_ERR "URM_REQUEST_ALLOCATION_FAILURE" (Template
      "Memory allocation for Incoming Request. Failed with Error: %s"))
  | REQUEST_MEMORY_ALLOCATION_FAILURE_HANDLE =>
    Some (mkSpec LOG_ERR "URM_SERVER" (Template
      "Memory allocation for Request: [%ld]. Failed with Error: %s"))
  | REQUEST_PARSING_FAILURE =>
    Some (mkSpec LOG_ERR "RESTUNE_REQUEST_PARSING_FAILURE" (Template
      "Request Parsing Failed, Request is Malformed. Error: %s"))
  | ERRNO_LOG =>
    Some (mkSpec LOG_ERR "URM_SYSCALL_FAILURE" (Template
      "Call to %s, Failed with Error: %s"))
  | _ => None
  end.
Definition verifier_messages (type : CommonMessageTypes) : option MessageSpec :=
  match type with
  | CORE_COUNT_EXTRACTION_FAILED =>
    Some (mkSpec LOG_ERR "RESTUNE_TARGET_REGISTRY" (Template
      "Failed to get Online Core Count, Error: %s"))
  | CLUSTER_CPU_LIST_EXTRACTION_FAILED =>
    Some (mkSpec LOG_ERR "RESTUNE_TARGET_REGISTRY" (Template
      "Failed to get the list of CPUs for cluster [%s], Error: %s"))
  | CLUSTER_CPU_CAPACITY_EXTRACTION_FAILED =>
    Some (mkSpec LOG_ERR "RESTUNE_TARGET_REGISTRY" (Template
      "Failed to get the capacity for CPU [%d], Error: %s"))
  | VERIFIER_INVALID_OPCODE =>
    Some (mkSpec LOG_ERR "URM_REQUEST_VERIFIER" (Template
      "Invalid Opcode [0x%08x], Skipping Resource."))
  | VERIFIER_INVALID_DEVICE_MODE =>
    Some (mkSpec LOG_ERR "URM_REQUEST_VERIFIER" (Template
      "Request [%ld], cannot be processed in current Device Mode. Dropping Request."))
  | VERIFIER_INVALID_PERMISSION =>
    Some (mkSpec LOG_ERR "URM_REQUEST_VERIFIER" (Template
      "Permissions for Client [PID: %d, TID: %d] Could not be Fetched, Dropping Request."))
  | VERIFIER_INVALID_PRIORITY =>
    Some (mkSpec LOG_ERR "URM_REQUEST_VERIFIER" (Template
      "Invalid Priority [%d], Dropping Request."))
  | VERIFIER_UNSUPPORTED_SIGNAL_TUNING =>
    Some (mkSpec LOG_ERR "URM_REQUEST_VERIFIER" (Template
      "Specified Signal [0x%08x] is not enabled for provisioning"))
  | VERIFIER_VALUE_OUT_OF_BOUNDS =>
    Some (mkSpec LOG_ERR "URM_REQUEST_VERIFIER" (Template
      "Config Value [%d] does not fall in the Allowed Range for the Resource [0x%08x], Skipping Resource."))
  | VERIFIER_NOT_SUFFICIENT_PERMISSION =>
    Some (mkSpec LOG_ERR "URM_REQUEST_VERIFIER" (Template
      "Permission Check Failed for Resource [0x%08x], Skipping Resource"))
  | VERIFIER_NOT_SUFFICIENT_SIGNAL_ACQ_PERMISSION =>
    Some (mkSpec LOG_ERR "URM_REQUEST_VERIFIER" (Template
      "Permission Check Failed for Signal [0x%08x], Client does not have sufficient Permissions to provision Signal"))
  | VERIFIER_TARGET_CHECK_FAILED =>
    Some (mkSpec LOG_ERR "URM_REQUEST_VERIFIER" (Template
      "Specified Signal [0x%08x] is not enabled for provisioning on this Target"))
  | VERIFIER_CGROUP_NOT_FOUND =>
    Some (mkSpec LOG_ERR "URM_REQUEST_VERIFIER" (Template
      "CGroup with Identifier [%d] does not exist"))
  | VERIFIER_LOGICAL_TO_PHYSICAL_MAPPING_FAILED =>
    Some (mkSpec LOG_ERR "URM_REQUEST_VERIFIER" (Template
      "Logical to Physical Core / Cluster Mapping for the Resource [0x%08x], Failed. Skipping Resource"))
  | VERIFIER_INVALID_LOGICAL_CORE =>
    Some (mkSpec LOG_ERR "URM_REQUEST_VERIFIER" (Template
      "Invalid Logical Core value: [%d], Skipping Resource"))
  | VERIFIER_INVALID_LOGICAL_CLUSTER =>
    Some (mkSpec LOG_ERR "URM_REQUEST_VERIFIER" (Template
      "Invalid Logical Cluster value: [%d], Skipping Resource"))
  | VERIFIER_NO_VALID_RESOURCES =>
    Some (mkSpec LOG_ERR "URM_REQUEST_VERIFIER" (Template
      "No valid resources remain for Request [%lld] after verification, Dropping Request."))
  | VERIFIER_REQUEST_VALIDATED =>
    Some (mkSpec LOG_INFO "URM_REQUEST_VERIFIER" (Template
      "Request with handle: %lld, Successfully Validated."))
  | VERIFIER_STATUS_FAILURE =>
    Some (mkSpec LOG_ERR "URM_REQUEST_VERIFIER" (Template
      "Verification Failed for Request [%lld], Dropping Request."))
  | NOTIFY_NODE_WRITE =>
    Some (mkSpec LOG_INFO "URM_COCO_TABLE" (Template
      "Writing to Node: [%s], Value: [%d]"))
  | _ => None
  end.
Definition registry_messages (type : CommonMessageTypes) : option MessageSpec :=
  match type with
  | NOTIFY_NODE_WRITE_S =>
    Some (mkSpec LOG_INFO "URM_COCO_TABLE" (Template
      "Writing to Node: [%s], Value: [%s]"))
  | NOTIFY_NODE_RESET =>
    Some (mkSpec LOG_INFO "URM_COCO_TABLE" (Template
      "Resetting Node: [%s], to Value: [%s]"))
  | RATE_LIMITER_RATE_LIMITED =>
    Some (mkSpec LOG_INFO "RESTUNE_RATE_LIMITER" (Template
      "Client TID: [%d] Rate Limited, Dropping Request [%lld]."))
  | YAML_PARSE_ERROR =>
    Some (mkSpec LOG_ERR "RESTUNE_YAML_PARSER" (Template
      "Failed to parse file: %s, Error: %s"))
  | NOTIFY_PARSING_START =>
    Some (mkSpec LOG_INFO "URM_SERVER_INIT" (Template
      "Proceeding with [%s] Config Parsing, Path: [%s]"))
  | NOTIFY_PARSING_SUCCESS =>
    Some (mkSpec LOG_INFO "URM_SERVER_INIT" (Template
      "[%s] Configs successfully parsed"))
  | NOTIFY_PARSING_FAILURE =>
    Some (mkSpec LOG_ERR "URM_SERVER_INIT" (Template
      "[%s] Configs Could not be parsed"))
  | NOTIFY_PARSER_FILE_NOT_FOUND =>
    Some (mkSpec LOG_INFO "URM_SERVER_INIT" (Template
      "[%s] Config Parsing Failed, Expected File: [%s] not found."))
  | LOGICAL_TO_PHYSICAL_MAPPING_GEN_FAILURE =>
    Some (mkSpec LOG_ERR "URM_SERVER_INIT" (Text
      "Reading Physical Core, Cluster LOG_INFO Failed, Server Init Failed"))
  | LOGICAL_TO_PHYSICAL_MAPPING_GEN_SUCCESS =>
    Some (mkSpec LOG_INFO "URM_SERVER_INIT" (Text
      "Logical to Physical Core / Cluster mapping successfully created"))
  | SYSTEM_THREAD_NOT_JOINABLE =>
    Some (mkSpec LOG_ERR "URM_SERVER_TERMINATION" (Template
      "[%s] Thread is not joinable"))
  | RATE_LIMITER_GLOBAL_RATE_LIMIT_HIT =>
    Some (mkSpec LOG_ERR "RESTUNE_RATE_LIMITER" (Template
      "Max Concurrent Requests Count hit, Dropping Request [%ld]"))
  | SIGNAL_REGISTRY_SIGNAL_NOT_FOUND =>
    Some (mkSpec LOG_ERR "RESTUNE_SIGNAL_REGISTRY" (Template
      "Signal with: ID [0x%08x] and Type [0x%08x] not found in the registry. Dropping Request."))
  | SIGNAL_REGISTRY_PARSING_FAILURE =>
    Some (mkSpec LOG_ERR "RESTUNE_SIGNAL_REGISTRY" (Template
      "Signal Parsing Failed with Error: %s"))
  | RESOURCE_REGISTRY_RESOURCE_NOT_FOUND =>
    Some (mkSpec LOG_ERR "RESTUNE_RESOURCE_REGISTRY" (Template
      "Resource ID [0x%08x] not found in the registry"))
  | RESOURCE_REGISTRY_PARSING_FAILURE =>
    Some (mkSpec LOG_ERR "RESTUNE_RESOURCE_REGISTRY" (Template
      "Resource Parsing Failed with Error: %s"))
  | CLIENT_ENTRY_CREATION_FAILURE =>
    Some (mkSpec LOG_ERR "URM_SERVER" (Template
      "Client Tracking Entry could not be created for handle [%ld], Dropping Request."))
  | REQUEST_MANAGER_DUPLICATE_FOUND =>
    Some (mkSpec LOG_ERR "RESTUNE_REQUEST_MANAGER" (Template
      "Duplicate Request found for handle [%ld]. Dropping Request"))
  | REQUEST_MANAGER_REQUEST_NOT_ACTIVE =>
    Some (mkSpec LOG_ERR "RESTUNE_REQUEST_MANAGER" (Template
      "No existing request with handle [%ld] found, Dropping this Request"))
  | EXT_FEATURE_CONFIGS_ELEM_LIB_OPEN_FAILED =>
    Some (mkSpec LOG_ERR "RESTUNE_EXT_FEATURES" (Template
      "Lib with the Path: [%s] could not be opened"))
  | EXT_FEATURE_ROUTINE_NOT_DEFINED =>
    Some (mkSpec LOG_ERR "RESTUNE_EXT_FEATURES" (Template
      "No Routine with the Name: [%s] defined by the lib: [%s]"))
  | _ => None
  end.
Definition other_messages (type : CommonMessageTypes) : option MessageSpec :=
  match type with
  | GENERIC_CALL_FAILURE_LOG =>
    Some (mkSpec LOG_ERR "RESTUNE_ORDERED_QUEUE" (Template
      "Call Failed, Error: %s"))
  | INV_ATTR_VAL =>
    Some (mkSpec LOG_ERR "RESTUNE_CONFIG_PROCESSOR" (Template
      "Encountered Attribute with Invalid Value: Attr [%s], Value: [%s]"))
  | INV_COCO_TBL_INDEX =>
    Some (mkSpec LOG_ERR "URM_COCO_TABLE" (Template
      "Encountered Invalid Coco Indexes for Resource: [0x%08x], Primary Index: [%d], Secondary Index: [%d]"))
  | NOTIFY_RESMODE_REJECT =>
    Some (mkSpec LOG_ERR "URM_COCO_TABLE" (Template
      "Configured Value for Resource: [0x%08x] cannot be applied in current Display Mode: [%d], Skipping."))
  | NOTIFY_CLASSIFIER_PROC_EVENT =>
    Some (mkSpec LOG_DEBUG "CONTEXTUAL_CLASSIFIER" (Template
      "Received event: [%s] for pid: [%d]"))
  | NOTIFY_CLASSIFIER_PROC_IGNORE =>
    Some (mkSpec LOG_DEBUG "CONTEXTUAL_CLASSIFIER" (Template
      "Ignoring black listed pid: [%d]"))
  | NOTIFY_MODEL_PREDICTION =>
    Some (mkSpec LOG_INFO "CONTEXTUAL_CLASSIFIER" (Template
      "Prediction complete. PID: %d, Comm: %s, Class: %s, Probability: %.4f"))
  | SYSTEM_BUS_CONN_FAILED =>
    Some (mkSpec LOG_ERR "RESTUNE_COCO_TABLE" (Template
      "Failed to establish connection with system bus, Error: %s"))
  | _ => None
  end.

Definition or_else {A} (a b : option A) : option A := match a with Some _ => a | None => b end.
Definition message_spec (type : CommonMessageTypes) : option MessageSpec :=
  or_else (server_messages type) (or_else (init_messages type)
    (or_else (verifier_messages type) (or_else (registry_messages type) (other_messages type)))).

(** The buffer of a line has 256 characters. *)
Definition typeLog (cfg : LoggerConfig) (timestamp : string) (type : CommonMessageTypes) (funcName : string)
    (args : list VArg) (o : LogOut) : result LogOut :=
  match message_spec type with
  | None => Ok o
  | Some m =>
    match ms_body m with
    | Text s => Ok (log cfg timestamp (ms_level m) (ms_tag m) funcName s o)
    | Template fmt =>
      buffer ← vsnprintf 256 fmt args;
      Ok (log cfg timestamp (ms_level m) (ms_tag m) funcName buffer o)
    end
  end.
