(* ===== verification/LoggerFacts.v ===== *)
(** What holds of the logger (Logger.v): every message is defined, a line is logged exactly when its
    arguments fit, and nothing is written past the buffer. *)
From Stdlib Require Import Ascii.
From S2P Require Import Prelude UrmTypes StdString AuxRoutines StringFacts RestuneInit Logger.
Open Scope string_scope.
Open Scope list_scope.
Open Scope Z_scope.

(** The directives of a format, and the arguments they take. *)
Fixpoint asked (ps : list Piece) : list Directive :=
  match ps with [] => [] | Plain _ :: ps => asked ps | Arg d :: ps => d :: asked ps end.
Fixpoint fits (ds : list Directive) (args : list VArg) : bool :=
  match ds, args with
  | [], _ => true
  | d :: ds, a :: args => bool_decide (is_Some (directive_text d a)) && fits ds args
  | _ :: _, [] => false
  end.

Lemma fill_defined ps : forall args,
  if fits (asked ps) args then exists s, fill ps args = Ok s else fill ps args = Fault Indeterminate.
Proof.
  induction ps as [|[c|d] ps IH]; intros args; cbn [asked fits fill]; [by eexists| |].
  - specialize (IH args). destruct (fits (asked ps) args); [destruct IH as [s ->]; by eexists|by rewrite IH].
  - destruct args as [|a args]; [done|]. specialize (IH args). destruct (directive_text d a) as [t|]; cbn; [|done].
    destruct (fits (asked ps) args); [destruct IH as [s ->]; by eexists|by rewrite IH].
Qed.

Lemma str_take_length n s : (String.length (str_take n s) <= n)%nat.
Proof. revert s. induction n as [|n IH]; intros [|c s]; cbn; try lia. specialize (IH s). lia. Qed.

(** What a message asks for. *)
Definition asks (type : CommonMessageTypes) : option (list Directive) :=
  m ← message_spec type;
  match ms_body m with
  | Text s => if (String.length s <=? 255)%nat then Some [] else None
  | Template fmt => asked <$> pieces (String.length fmt) fmt
  end.

Lemma asks_defined type : is_Some (asks type).
Proof. destruct type; vm_compute; by eexists. Qed.

(** Every message of the program has a case; a call with arguments that fit its
    directives logs one line of at most 255 characters, with the level and the tag of the
    message, and any other call is undefined. *)
Theorem typeLog_defined (cfg : LoggerConfig) (timestamp : string) (type : CommonMessageTypes) (funcName : string)
    (args : list VArg) (o : LogOut) :
  exists m ds, message_spec type = Some m /\ asks type = Some ds /\
    if fits ds args then
      exists line, (String.length line <= 255)%nat /\
        typeLog cfg timestamp type funcName args o = Ok (log cfg timestamp (ms_level m) (ms_tag m) funcName line o)
    else typeLog cfg timestamp type funcName args o = Fault Indeterminate.
Proof.
  destruct (asks_defined type) as [ds E]. unfold asks, typeLog in *. destruct (message_spec type) as [m|]; [|done]. cbn in E.
  exists m, ds. split; [done|]. split; [done|]. destruct (ms_body m) as [fmt|s].
  - unfold vsnprintf. destruct (pieces _ fmt) as [ps|]; [|done]. cbn in E. injection E as <-. cbn [of_option mbind result_bind].
    pose proof (fill_defined ps args) as Hf. destruct (fits (asked ps) args); [|by rewrite Hf].
    destruct Hf as [s ->]. cbn [mbind result_bind]. eexists. split; [apply str_take_length|done].
  - destruct (Nat.leb_spec (String.length s) 255); [|done]. injection E as <-. cbn [fits]. by exists s.
Qed.

(** Where a line goes: nowhere when its level is not enabled or the output is LOGCAT; else it is one
    line more at the chosen output, and nothing else changes. *)
Theorem log_output (cfg : LoggerConfig) (timestamp : string) (level : Z) (tag funcName message : string) (o : LogOut) :
  let o' := log cfg timestamp level tag funcName message o in
  (enabled cfg level = false \/ mRedirectOutputTo cfg = LOG_TOLOGCAT -> o' = o) /\
  (enabled cfg level = true ->
   match mRedirectOutputTo cfg with
   | LOG_TOSYSLOG => exists line, lo_syslog o' = lo_syslog o ++ [(level, line)] /\ lo_fs o' = lo_fs o
   | LOG_TOFILE | LOG_TOFTRACE =>
     let path := match mRedirectOutputTo cfg with LOG_TOFILE => LOGFILE | _ => TRACE_MARKER end in
     lo_syslog o' = lo_syslog o /\
     (fs_openable_w (lo_fs o) path = true ->
      fs_files (lo_fs o') = <[path := default "" (fs_files (lo_fs o) !! path) +:+
        file_line timestamp level tag funcName message +:+ String newline ""]> (fs_files (lo_fs o))) /\
     (fs_openable_w (lo_fs o) path = false -> lo_fs o' = lo_fs o)
   | LOG_TOLOGCAT => True
   end).
Proof.
  cbv zeta. unfold log. split.
  - intros [->|E]; [done|]. rewrite E. by destruct (negb _).
  - intros ->. cbn [negb]. destruct (mRedirectOutputTo cfg); [by eexists| | |done];
      (split; [done|]; cbn [lo_fs]; unfold append_line; split; by intros ->).
Qed.
Lemma log_output_witness :
  let cfg := mkLogger LOG_INFO false LOG_TOLOGCAT in
  log cfg "now" LOG_ERR "T" "f" "m" (mkLogOut [] (mkFS ∅ (fun _ => None) (fun _ => true) (fun _ => true) (fun _ => MkdirOk))) =
  mkLogOut [] (mkFS ∅ (fun _ => None) (fun _ => true) (fun _ => true) (fun _ => MkdirOk)).
Proof. intros cfg. apply (proj1 (log_output cfg "now" LOG_ERR "T" "f" "m" _)). by right. Defined.
