(* ===== verification/DBus.v ===== *)
(** The connections to the system bus: [resource-tuner/dbus-modules/RestuneDBusInternal.cpp] (and its
    stub without D-Bus), and the event loop of [StateDetector.cpp], whose handler of the sleep signal
    is in ClientCleanup.v.

    The answers of libsystemd are arguments; the state counts the objects of the library that
    the program holds a reference to. *)
From S2P Require Import Prelude UrmTypes.
Open Scope string_scope.
Open Scope list_scope.
Open Scope Z_scope.

(** ** RestuneSDBus: starting and stopping units *)
Module Service.
Record Bus := mkBus {
  mBus : bool;                      (* not null *)
  replies : nat;                    (* replies not released *)
  errors : nat;                     (* error texts not released *)
  calls : list (string * string)    (* method and unit *)
}.
Definition RestuneSDBus (connected : bool) : Bus := mkBus connected 0 0 [].

(** [sd_bus_call_method]: a reply on success, an error text on failure. *)
Definition call_method (ok : bool) (method unit : string) (b : Bus) : Bus :=
  mkBus (mBus b) (replies b + if ok then 1 else 0) (errors b + if ok then 0 else 1) (calls b ++ [(method, unit)]).
(** [sd_bus_message_unref(reply)] and [sd_bus_error_free(&error)], of the call just made. *)
Definition release (ok : bool) (b : Bus) : Bus :=
  mkBus (mBus b) (replies b - if ok then 1 else 0) (errors b - if ok then 0 else 1) (calls b).

Definition startService (ok : bool) (unitName : string) (b : Bus) : ErrCode * Bus :=
  if negb (mBus b) then (RC_MODULE_INIT_FAILURE, b) else
  let b := call_method ok "StartUnit" unitName b in
  if negb ok then (RC_DBUS_COMM_FAIL, b) else (RC_SUCCESS, release ok b).
Definition stopService (ok : bool) (unitName : string) (b : Bus) : ErrCode * Bus :=
  if negb (mBus b) then (RC_DBUS_COMM_FAIL, b) else
  let b := call_method ok "StopUnit" unitName b in
  if negb ok then (RC_DBUS_COMM_FAIL, b) else (RC_SUCCESS, release ok b).
Definition restartService (ok : bool) (unitName : string) (b : Bus) : ErrCode * Bus :=
  if negb (mBus b) then (RC_DBUS_COMM_FAIL, b) else
  let b := call_method ok "RestartUnit" unitName b in
  (RC_SUCCESS, release ok b).
Definition getBus (b : Bus) : bool := mBus b.
Definition delete_bus (b : Bus) : Bus := mkBus false (replies b) (errors b) (calls b).

(** RestuneDBusStubs.cpp. *)
Definition stub_service (unitName : string) : ErrCode := RC_SUCCESS.

(** What a call on a unit answers, and what it leaves behind. *)
Theorem services (ok : bool) (unitName : string) (b : Bus) : mBus b = true ->
  (let '(rc, b') := startService ok unitName b in
   rc = (if ok then RC_SUCCESS else RC_DBUS_COMM_FAIL) /\ replies b' = replies b /\ errors b' = (errors b + if ok then 0 else 1)%nat) /\
  (let '(rc, b') := stopService ok unitName b in
   rc = (if ok then RC_SUCCESS else RC_DBUS_COMM_FAIL) /\ replies b' = replies b /\ errors b' = (errors b + if ok then 0 else 1)%nat) /\
  (let '(rc, b') := restartService ok unitName b in rc = RC_SUCCESS /\ replies b' = replies b /\ errors b' = errors b).
Proof.
  intros Hb. unfold startService, stopService, restartService. rewrite Hb. cbn [negb].
  destruct ok; cbn; split_and!; (done || lia).
Qed.
Lemma services_witness : restartService false "systemd-journald.service" (RestuneSDBus true) =
  (RC_SUCCESS, mkBus true 0 0 [("RestartUnit", "systemd-journald.service")]) /\
  fst (restartService false "systemd-journald.service" (RestuneSDBus true)) = RC_SUCCESS.
Proof.
  split; [reflexivity|].
  destruct (services false "systemd-journald.service" (RestuneSDBus true) eq_refl) as (_ & _ & (H & _)). exact H.
Defined.
End Service.

(** ** StateDetector: the event loop *)
Module Detector.

(** The static pointers, and the references held. *)
Record Handles := mkHandles {
  bus : bool; slot : bool; event : bool;
  bus_refs : nat; slot_refs : nat; event_refs : nat
}.
Definition Handles_init : Handles := mkHandles false false false 0 0 0.

Definition cleanup (h : Handles) : Handles :=
  mkHandles false false false (bus_refs h - if bus h then 1 else 0) (slot_refs h - if slot h then 1 else 0)
    (event_refs h - if event h then 1 else 0).

(** The answers of the library.  [sa_loop]: how the event loop ends, [None] if it does not. *)
Record Answers := mkAnswers { sa_bus : bool; sa_event : bool; sa_match : bool; sa_attach : bool; sa_loop : option bool }.

(** [None]: it does not return. *)
Definition initHelper (a : Answers) (h : Handles) : option Handles :=
  if negb (sa_bus a) then Some (cleanup h) else
  let h := mkHandles true (slot h) (event h) (S (bus_refs h)) (slot_refs h) (event_refs h) in
  if negb (sa_event a) then Some (cleanup h) else
  let h := mkHandles (bus h) (slot h) true (bus_refs h) (slot_refs h) (S (event_refs h)) in
  if negb (sa_match a) then Some (cleanup h) else
  let h := mkHandles (bus h) true (event h) (bus_refs h) (S (slot_refs h)) (event_refs h) in
  if negb (sa_attach a) then Some (cleanup h) else
  match sa_loop a with
  | None => None
  | Some _ => Some (cleanup h)
  end.

(** The thread of the loop: none, or how it ended. *)
Inductive Thread := NoThread | Running | Ended (h : Handles).
Definition init (created : bool) (a : Answers) (h : Handles) : ErrCode * Thread :=
  if negb created then (RC_MODULE_INIT_FAILURE, NoThread) else
  (RC_SUCCESS, match initHelper a h with Some h => Ended h | None => Running end).
(** [None]: the join does not return. *)
Definition tear (t : Thread) : option ErrCode :=
  match t with Running => None | NoThread | Ended _ => Some RC_SUCCESS end.

(** The thread releases all it has taken, whichever call fails; and the module cannot be torn
    down once its loop runs, since the terminator of the loop is registered nowhere. *)
Theorem event_loop (created : bool) (a : Answers) :
  let '(rc, t) := init created a Handles_init in
  (rc = RC_SUCCESS <-> created = true) /\
  (forall h, t = Ended h -> h = Handles_init) /\
  (tear t = None <-> created = true /\ sa_bus a = true /\ sa_event a = true /\ sa_match a = true /\ sa_attach a = true /\ sa_loop a = None).
Proof.
  destruct a as [[] [] [] [] [x|]], created; cbn; split_and!; try (intros h [= <-]; reflexivity); try (intros h [=]); naive_solver.
Qed.
End Detector.
