(* ===== verification/ThreadList.v ===== *)
(** [modula/Components/ThreadPool.cpp]: the list of the threads of a pool, [addNewThread] with the
    blocks of the memory pool its nodes come from, the loops of the destructor, and the growth and
    shrinking of the pool over its life.  The tasks and the steps of the threads are in ThreadPool.v.

    A thread is named by a number; [started] is the thread [std::thread] started, [None] when it
    throws.  A block given back to the memory pool is no longer in the heap of the nodes. *)
From S2P Require Import Prelude MemoryPool.
Open Scope list_scope.
Open Scope Z_scope.

Record ThreadNode := mkThreadNode { th : option positive; next : option block }.
Abbreviation ThreadNodes := (gmap block ThreadNode).

Record Threads := mkThreads {
  mThreadQueueHead : option block;
  mThreadQueueTail : option block;
  thread_nodes : ThreadNodes;
  node_pool : MemoryPool
}.
Definition Threads_init (p : MemoryPool) : Threads := mkThreads None None ∅ p.
Definition with_pool (p : MemoryPool) (t : Threads) : Threads :=
  mkThreads (mThreadQueueHead t) (mThreadQueueTail t) (thread_nodes t) p.

Definition addNewThread (started : option positive) (t : Threads) : result (bool * Threads) :=
  '(thNode, p) ← getBlock (node_pool t);
  match thNode, started with
  | None, _ => Ok (false, with_pool p t)
  | Some a, None => p ← freeBlock (Some a) p; Ok (false, with_pool p t)
  | Some a, Some thread =>
    let h := <[a := mkThreadNode (Some thread) None]> (thread_nodes t) in
    match mThreadQueueHead t with
    | None => Ok (true, mkThreads (Some a) (Some a) h p)
    | Some hd =>
      tl ← deref (mThreadQueueTail t);
      n ← of_option WildPtr (h !! tl);
      Ok (true, mkThreads (Some hd) (Some a) (<[tl := mkThreadNode (th n) (Some a)]> h) p)
    end
  end.

(** The loop of the constructor: the number of threads there are, and the list. *)
Fixpoint add_core_threads (desired : nat) (started : nat -> option positive) (t : Threads)
  : result (Z * Threads) :=
  match desired with
  | O => Ok (0, t)
  | S n =>
    '(count, t) ← add_core_threads n started t;
    '(added, t) ← addNewThread (started n) t;
    Ok (count + (if added : bool then 1 else 0), t)
  end.

(** The first loop of the destructor: each thread is joined, then its object deleted. *)
Fixpoint join_loop (fuel : nat) (thNode : option block) (h : ThreadNodes) : result (list positive * ThreadNodes) :=
  match thNode, fuel with
  | None, _ => Ok ([], h)
  | Some _, O => Fault OutOfFuel
  | Some a, S fuel =>
    n ← of_option WildPtr (h !! a);
    '(joined, h) ← join_loop fuel (next n) (<[a := mkThreadNode None (next n)]> h);
    Ok (option_list (th n) ++ joined, h)
  end.

(** The second one: the nodes go back to the memory pool. *)
Fixpoint free_loop (fuel : nat) (thNode : option block) (h : ThreadNodes) (p : MemoryPool)
  : result (ThreadNodes * MemoryPool) :=
  match thNode, fuel with
  | None, _ => Ok (h, p)
  | Some _, O => Fault OutOfFuel
  | Some a, S fuel =>
    n ← of_option WildPtr (h !! a);
    p ← freeBlock (Some a) p;
    free_loop fuel (next n) (delete a h) p
  end.

Definition destroy (t : Threads) : result (list positive * MemoryPool) :=
  let fuel := size (thread_nodes t) in
  '(joined, h) ← join_loop fuel (mThreadQueueHead t) (thread_nodes t);
  '(h, p) ← free_loop fuel (mThreadQueueHead t) h (node_pool t);
  Ok (joined, p).

(** ** The size of a pool over its life *)

(** What changes the number of threads: a task that needs a new thread, an expandable thread that
    was idle for ten minutes. *)
Inductive PoolEvent := Grow (started : option positive) | Idle.

(** The number of threads the pool counts, and their list; whether a thread was added. *)
Definition pool_event (max : Z) (e : PoolEvent) (st : Z * Threads) : result (bool * (Z * Threads)) :=
  let '(count, t) := st in
  match e with
  | Grow started =>
    if count <? max then
      '(added, t) ← addNewThread started t;
      Ok (added, (count + (if added : bool then 1 else 0), t))
    else Ok (false, st)
  | Idle => Ok (false, (count - 1, t))
  end.

Fixpoint pool_life (max : Z) (es : list PoolEvent) (st : Z * Threads) : result (Z * (Z * Threads)) :=
  match es with
  | [] => Ok (0, st)
  | e :: es =>
    '(added, st) ← pool_event max e st;
    '(n, st) ← pool_life max es st;
    Ok ((if added : bool then 1 else 0) + n, st)
  end.

(** ** The list as a sequence *)
Fixpoint linked (h : ThreadNodes) (l : list (block * positive)) : Prop :=
  match l with
  | [] => True
  | (a, thread) :: l => h !! a = Some (mkThreadNode (Some thread) (fst <$> head l)) /\ linked h l
  end.

(** [others]: the blocks of the memory pool held elsewhere. *)
Record list_rep (others : list block) (t : Threads) (l : list (block * positive)) : Prop := {
  lr_head : mThreadQueueHead t = fst <$> head l;
  lr_tail : mThreadQueueTail t = fst <$> last l;
  lr_linked : linked (thread_nodes t) l;
  lr_pool : pool_ok (node_pool t) (others ++ l.*1)
}.

Lemma linked_frame h h' l : (forall a, a ∈ l.*1 -> h' !! a = h !! a) -> linked h l -> linked h' l.
Proof.
  induction l as [|[a x] l IH]; [done|]. cbn. intros Hf [Ha Hl]. split.
  - rewrite Hf by set_solver. done.
  - apply IH; [set_solver|done].
Qed.

Lemma linked_snoc h a x b y : forall l, NoDup ((l ++ [(b, y)]).*1) -> a ∉ (l ++ [(b, y)]).*1 ->
  linked h (l ++ [(b, y)]) ->
  linked (<[b := mkThreadNode (Some y) (Some a)]> (<[a := mkThreadNode (Some x) None]> h)) (l ++ [(b, y); (a, x)]).
Proof.
  induction l as [|[c z] l IH]; cbn; intros Hnd Ha Hl.
  - split; [by rewrite lookup_insert_eq|]. split; [|done].
    rewrite lookup_insert_ne by set_solver. by rewrite lookup_insert_eq.
  - apply NoDup_cons in Hnd as [Hc Hnd]. destruct Hl as [Hcl Hl]. rewrite fmap_app in Hc, Ha. cbn in Hc, Ha.
    split; [|apply IH; [done|rewrite fmap_app; cbn; set_solver|done]].
    rewrite !lookup_insert_ne by set_solver. rewrite Hcl. by destruct l as [|[? ?] ?].
Qed.

Lemma linked_elem h a x : forall l, linked h l -> (a, x) ∈ l -> exists n, h !! a = Some n /\ th n = Some x.
Proof.
  induction l as [|[b y] l IH]; cbn; [set_solver|]. intros [Hb Hl] Hin.
  apply elem_of_cons in Hin as [[= -> ->]|Hin]; eauto.
Qed.

(** A list of [n] nodes is in a heap of at least [n]: the destructor's loops have the fuel. *)
Lemma linked_size h l : linked h l -> NoDup (l.*1) -> (length l <= size h)%nat.
Proof.
  intros Hl Hnd. rewrite <- (length_fmap fst l), <- size_dom, <- (size_list_to_set (C := gset block) l.*1 Hnd).
  apply subseteq_size. intros a Ha%elem_of_list_to_set. apply list_elem_of_fmap in Ha as ([b x] & -> & Hin).
  apply elem_of_dom. destruct (linked_elem h b x l Hl Hin) as (n & Hn & _). cbn. eauto.
Qed.

#[local] Arguments freeBlock : simpl never.
#[local] Arguments getBlock : simpl never.

(** [addNewThread] appends the thread when there are a block and a thread; else nothing changes. *)
Lemma addNewThread_spec others t l started : list_rep others t l ->
  exists added t' l', addNewThread started t = Ok (added, t') /\ list_rep others t' l' /\
    match started, head (mFreeList (node_pool t)) with
    | Some x, Some a => added = true /\ l' = l ++ [(a, x)]
    | _, _ => added = false /\ l' = l
    end /\
    (length (mFreeList (node_pool t')) + length l' = length (mFreeList (node_pool t)) + length l)%nat.
Proof.
  intros [Hh Ht Hl Hp]. unfold addNewThread.
  destruct (pool_step_ok OpGet _ _ Hp I) as (o & p' & held' & Estep & Hp' & -> & Hfl & ->). cbn in Estep.
  destruct (getBlock (node_pool t)) as [[b p1]|f]; cbn in Estep; [|done]. injection Estep as -> ->.
  destruct (mFreeList (node_pool t)) as [|a free] eqn:El; cbn in *.
  { exists false, (with_pool p' t), l. split; [done|]. rewrite app_nil_r in Hp'.
    split; [by split|]. cbn. rewrite Hfl. by destruct started. }
  destruct started as [x|].
  - assert (NoDup (l.*1) /\ a ∉ l.*1) as [Hnd Ha].
    { destruct Hp as [_ _ Hnd _]. rewrite El in Hnd. apply NoDup_app in Hnd as (_ & Hd & Hnd).
      apply NoDup_app in Hnd as (_ & _ & Hnd). split; [done|]. specialize (Hd a). set_solver. }
    rewrite <- app_assoc in Hp'. change [a] with ([(a, x)].*1) in Hp'. rewrite <- fmap_app in Hp'.
    destruct l as [|[b y] l0 _] using rev_ind; cbn.
    + rewrite Hh. cbn. eexists _, _, _. split; [done|]. split; [|split; [done|]].
      * split; cbn; [done|done| |done]. by rewrite lookup_insert_eq.
      * cbn. rewrite Hfl. lia.
    + rewrite Hh, Ht, last_snoc. cbn.
      assert (exists hd, fst <$> head (l0 ++ [(b, y)]) = Some hd) as [hd Ehd] by (destruct l0; cbn; eauto).
      rewrite Ehd. cbn. assert (a <> b) as Hab by (rewrite fmap_app in Ha; set_solver).
      destruct (linked_elem _ b y _ Hl ltac:(set_solver)) as (n & Hb & Hth).
      rewrite lookup_insert_ne by done. rewrite Hb. cbn. eexists _, _, _. split; [done|].
      split; [|split; [done|]].
      * split; cbn [mThreadQueueHead mThreadQueueTail thread_nodes node_pool]; [| | |done].
        -- rewrite <- Ehd. by destruct l0.
        -- by rewrite last_snoc.
        -- rewrite Hth, <- app_assoc. by apply linked_snoc.
      * cbn. rewrite !length_app, Hfl. cbn. lia.
  - assert (others ++ l.*1 = filter (fun c => c <> a) ((others ++ l.*1) ++ [a])) as Efilter.
    { destruct Hp as [_ _ Hnd _]. rewrite El in Hnd. apply NoDup_app in Hnd as (_ & Hd & _).
      rewrite filter_app, filter_cons_False, filter_nil, app_nil_r by (intros Hne; by apply Hne).
      symmetry. assert (a ∉ others ++ l.*1) as Ha by (apply Hd; by left). revert Ha.
      generalize (others ++ l.*1). intros k. induction k as [|c k IH]; [done|]. intros Ha.
      rewrite filter_cons_True by set_solver. f_equal. apply IH. set_solver. }
    assert (a ∈ (others ++ l.*1) ++ [a]) as Hin by (apply elem_of_app; right; by left).
    destruct (pool_step_ok (OpFree a) p' _ Hp' Hin) as (o & p2 & held2 & E2 & Hp2 & _ & Hfl2 & ->).
    cbn in E2. destruct (freeBlock (Some a) p') as [p3|f]; cbn in E2; [|done]. injection E2 as _ ->.
    cbn [mbind result_bind]. eexists _, _, l. split; [done|]. rewrite <- Efilter in Hp2. split; [by split|]. split; [done|].
    cbn. rewrite Hfl2, Hfl, length_app. cbn. lia.
Qed.

Lemma pool_free_spec a others rest p : pool_ok p (others ++ a :: rest) ->
  exists p', freeBlock (Some a) p = Ok p' /\ pool_ok p' (others ++ rest) /\ mFreeList p' = mFreeList p ++ [a].
Proof.
  intros Hp. assert (others ++ rest = filter (fun c => c <> a) (others ++ a :: rest)) as Ef.
  { destruct Hp as [_ _ Hnd _]. apply NoDup_app in Hnd as (_ & _ & Hnd).
    rewrite filter_app, filter_cons_False by (intros Hne; by apply Hne). rewrite <- filter_app.
    assert (a ∉ others ++ rest) as Ha.
    { apply NoDup_app in Hnd as (_ & Hd & Hnd). apply NoDup_cons in Hnd as [? _].
      rewrite elem_of_app. intros [Hin|?]; [|done]. apply (Hd a Hin). by left. }
    revert Ha. generalize (others ++ rest). intros k. induction k as [|c k IH]; [done|]. intros Ha.
    rewrite filter_cons_True by set_solver. f_equal. apply IH. set_solver. }
  destruct (pool_step_ok (OpFree a) p _ Hp ltac:(cbn; set_solver)) as (o & p' & held & E & Hp' & _ & Hfl & ->).
  cbn in E. destruct (freeBlock (Some a) p) as [p2|f]; cbn in E; [|done]. injection E as _ ->.
  exists p'. split; [done|]. by rewrite Ef.
Qed.

(** The joining loop leaves each node in the list, without its thread. *)
Fixpoint unlinked (h : ThreadNodes) (l : list (block * positive)) : Prop :=
  match l with
  | [] => True
  | (a, _) :: l => h !! a = Some (mkThreadNode None (fst <$> head l)) /\ unlinked h l
  end.

Lemma unlinked_frame h h' l : (forall a, a ∈ l.*1 -> h' !! a = h !! a) -> unlinked h l -> unlinked h' l.
Proof.
  induction l as [|[a x] l IH]; [done|]. cbn. intros Hf [Ha Hl]. split.
  - rewrite Hf by set_solver. done.
  - apply IH; [set_solver|done].
Qed.

Lemma join_loop_spec : forall l fuel h, linked h l -> NoDup l.*1 -> (length l <= fuel)%nat ->
  exists h', join_loop fuel (fst <$> head l) h = Ok (l.*2, h') /\ unlinked h' l /\
    (forall a, a ∉ l.*1 -> h' !! a = h !! a).
Proof.
  induction l as [|[a x] l IH]; intros fuel h Hl Hnd Hfuel; [exists h; by destruct fuel|].
  destruct fuel as [|fuel]; [cbn in Hfuel; lia|]. cbn in Hl, Hnd, Hfuel. destruct Hl as [Ha Hl].
  apply NoDup_cons in Hnd as [Hna Hnd]. cbn. rewrite Ha. cbn.
  destruct (IH fuel (<[a := mkThreadNode None (fst <$> head l)]> h)) as (h' & E & Hu & Hf); [|done|lia|].
  { apply (linked_frame h); [|done]. intros b Hb. rewrite lookup_insert_ne; [done|]. by intros ->. }
  rewrite E. cbn. exists h'. split; [done|]. split; [split; [|done]|].
  - rewrite (Hf a Hna). by rewrite lookup_insert_eq.
  - intros b Hb. rewrite Hf by set_solver. rewrite lookup_insert_ne; [done|]. set_solver.
Qed.

Lemma free_loop_spec others : forall l fuel h p, unlinked h l -> (length l <= fuel)%nat ->
  pool_ok p (others ++ l.*1) ->
  exists h' p', free_loop fuel (fst <$> head l) h p = Ok (h', p') /\ pool_ok p' others /\
    mFreeList p' = mFreeList p ++ l.*1.
Proof.
  induction l as [|[a x] l IH]; intros fuel h p Hu Hfuel Hp.
  - exists h, p. cbn in Hp. rewrite app_nil_r in Hp. cbn. rewrite app_nil_r. by destruct fuel.
  - destruct fuel as [|fuel]; [cbn in Hfuel; lia|]. cbn in Hu, Hfuel, Hp. destruct Hu as [Ha Hu].
    destruct (pool_free_spec a others l.*1 p Hp) as (p2 & E & Hp2 & Hfl).
    cbn [fmap option_fmap option_map head fst free_loop]. rewrite Ha. cbn. rewrite E. cbn.
    assert (a ∉ l.*1) as Hna.
    { destruct Hp as [_ _ Hnd _]. apply NoDup_app in Hnd as (_ & _ & Hnd).
      apply NoDup_app in Hnd as (_ & _ & Hnd). by apply NoDup_cons in Hnd as [? _]. }
    destruct (IH fuel (delete a h) p2) as (h' & p' & E' & Hp' & Hfl'); [|lia|done|].
    { apply (unlinked_frame h); [|done]. intros b Hb. rewrite lookup_delete_ne; [done|]. by intros ->. }
    exists h', p'. split; [done|]. split; [done|]. by rewrite Hfl', Hfl, <- app_assoc.
Qed.

(** The destructor joins every thread of the list once, in the order they were created, and gives
    each node back to the memory pool; nothing is freed twice and both loops end. *)
Theorem destroy_joins (others : list block) (t : Threads) (l : list (block * positive)) :
  list_rep others t l ->
  exists p', destroy t = Ok (l.*2, p') /\ pool_ok p' others /\ mFreeList p' = mFreeList (node_pool t) ++ l.*1.
Proof.
  intros [Hh Ht Hl Hp]. unfold destroy. rewrite Hh.
  assert (NoDup l.*1) as Hnd.
  { destruct Hp as [_ _ Hnd _]. apply NoDup_app in Hnd as (_ & _ & Hnd). by apply NoDup_app in Hnd as (_ & _ & ?). }
  pose proof (linked_size _ _ Hl Hnd) as Hsz.
  destruct (join_loop_spec l _ _ Hl Hnd Hsz) as (h & -> & Hu & _). cbn.
  destruct (free_loop_spec others l _ h _ Hu Hsz Hp) as (h' & p' & -> & Hp' & Hfl). cbn. eauto.
Qed.

(** The constructor: every thread that could be started while a node was free is in the list. *)
Lemma add_core_threads_spec others started : forall desired t l, list_rep others t l ->
  exists count t' l', add_core_threads desired started t = Ok (count, t') /\ list_rep others t' l' /\
    Z.of_nat (length l') = Z.of_nat (length l) + count /\ 0 <= count /\
    (length (mFreeList (node_pool t')) + length l' = length (mFreeList (node_pool t)) + length l)%nat.
Proof.
  induction desired as [|n IH]; intros t l Hrep; cbn [add_core_threads].
  - exists 0, t, l. split_and!; try done; lia.
  - destruct (IH t l Hrep) as (count & t1 & l1 & -> & Hrep1 & Hlen & Hc & Hcap). cbn.
    destruct (addNewThread_spec others t1 l1 (started n) Hrep1) as (added & t2 & l2 & -> & Hrep2 & Hadd & Hcap2).
    cbn. eexists _, t2, l2. split; [done|]. split; [done|]. rewrite Hcap in Hcap2.
    assert (Z.of_nat (length l2) = Z.of_nat (length l1) + (if added then 1 else 0)) as Hl2.
    { destruct (started n) as [x|], (head (mFreeList (node_pool t1))) as [a|];
        destruct Hadd as [-> ->]; rewrite ?length_app; cbn; lia. }
    split_and!; [lia|destruct added; lia|done].
Qed.

Lemma pool_event_spec others max e count t l : list_rep others t l ->
  exists added count' t' l', pool_event max e (count, t) = Ok (added, (count', t')) /\ list_rep others t' l' /\
    (length l' = length l + (if added : bool then 1 else 0))%nat /\
    (length (mFreeList (node_pool t')) + length l' = length (mFreeList (node_pool t)) + length l)%nat.
Proof.
  intros Hrep. destruct e as [started|]; cbn [pool_event].
  2: { exists false, (count - 1), t, l. split_and!; try done; lia. }
  destruct (count <? max); [|exists false, count, t, l; split_and!; try done; lia].
  destruct (addNewThread_spec others t l started Hrep) as (added & t2 & l2 & -> & Hrep2 & Hadd & Hcap).
  cbn. eexists _, _, _, _. split; [done|]. split; [done|]. split; [|done].
  destruct started, (head (mFreeList (node_pool t))); destruct Hadd as [-> ->]; rewrite ?length_app; cbn; lia.
Qed.

(** A node of the list is never given back while the pool lives, so that a pool grows at most as
    many times as the memory pool has blocks left: with the blocks the constructor asks for, once
    more than from the desired capacity to the largest one, over its whole life. *)
Theorem growth_is_finite (others : list block) (max : Z) (es : list PoolEvent) (count : Z) (t : Threads)
    (l : list (block * positive)) : list_rep others t l ->
  exists grown count' t' l', pool_life max es (count, t) = Ok (grown, (count', t')) /\ list_rep others t' l' /\
    Z.of_nat (length l') = Z.of_nat (length l) + grown /\
    0 <= grown <= Z.of_nat (length (mFreeList (node_pool t))).
Proof.
  revert count t l. induction es as [|e es IH]; intros count t l Hrep; cbn [pool_life].
  - exists 0, count, t, l. split_and!; try done; lia.
  - destruct (pool_event_spec others max e count t l Hrep) as (added & c1 & t1 & l1 & -> & Hrep1 & Hlen & Hcap). cbn.
    destruct (IH c1 t1 l1 Hrep1) as (grown & c2 & t2 & l2 & -> & Hrep2 & Hl2 & Hg). cbn.
    eexists _, c2, t2, l2. split; [done|]. split; [done|]. destruct added; lia.
Qed.

(** [ThreadPool(2, 3)]: four nodes, so two threads can be added in its whole life. *)
Definition example_pool : MemoryPool :=
  mkPool [1%positive; 2%positive; 3%positive; 4%positive] 0 4 16.
Definition example_threads : result (Z * Threads) :=
  add_core_threads 2 (fun i => Some (Pos.of_nat (S i))) (Threads_init example_pool).

Lemma example_pool_rep : list_rep [] (Threads_init example_pool) [].
Proof.
  split; try done. split; [done|done| |cbn; unfold max_s; lia]. apply (bool_decide_unpack _). vm_compute. exact I.
Qed.

(** After two threads have come and gone the pool counts two threads of three, and a task that
    needs a third one is accepted without it: [enqueueTask] ignores the answer. *)
Example growth_spent :
  ('(core, t) ← example_threads;
   '(grown, (count, t)) ← pool_life 3
     [Grow (Some 11%positive); Idle; Grow (Some 12%positive); Idle; Grow (Some 13%positive); Grow (Some 14%positive)] (core, t);
   '(joined, p) ← destroy t;
   Ok (core, grown, count, joined, mFreeList p)) =
  Ok (2, 2, 2, [1; 2; 11; 12]%positive, [1; 2; 3; 4]%positive).
Proof. vm_compute. reflexivity. Qed.

Lemma destroy_joins_witness :
  exists p', destroy (Threads_init example_pool) = Ok ([], p') /\ pool_ok p' [] /\
    mFreeList p' = mFreeList (node_pool (Threads_init example_pool)) ++ [].
Proof. exact (destroy_joins [] (Threads_init example_pool) [] example_pool_rep). Defined.

Lemma growth_is_finite_witness : exists grown count' t' l',
  pool_life 3 [Grow (Some 11%positive); Idle] (2, Threads_init example_pool) = Ok (grown, (count', t')) /\
  list_rep [] t' l' /\ Z.of_nat (length l') = Z.of_nat (length (A := block * positive) []) + grown /\ 0 <= grown <= 4.
Proof.
  exact (growth_is_finite [] 3 [Grow (Some 11%positive); Idle] 2 (Threads_init example_pool) [] example_pool_rep).
Defined.
