(* ===== verification/TargetTeardown.v ===== *)
(** [TargetRegistry.cpp]: the destructor of the registry and [displayTargetInfo].

    The objects the destructor deletes are listed in its order, by the map and the key that hold
    them; the maps are walked in the order of [HashOrder]. *)
From S2P Require Import Prelude UrmTypes StdString AuxRoutines TargetRegistry.
Open Scope string_scope.
Open Scope list_scope.
Open Scope Z_scope.

Inductive Owned := CGroup (id : Z) | Cluster (id : Z) | Mpam (id : Z) | Cache (type : string).

(** One loop: the objects deleted, and whether the destructor goes on to the next loop (a null
    entry returns from it). *)
Fixpoint delete_loop {K A} (name : K -> Owned) (l : list (K * option A)) : list Owned * bool :=
  match l with
  | [] => ([], true)
  | (_, None) :: _ => ([], false)
  | (k, Some _) :: l => let '(deleted, on) := delete_loop name l in (name k :: deleted, on)
  end.

Section Order.
Context `{HashOrder}.

Definition TargetRegistry_destroy (t : TargetRegistry) : list Owned :=
  let '(cgroups, on) := delete_loop CGroup (hash_order (mCGroupMapping t)) in
  if negb on then cgroups else
  let '(clusters, on) := delete_loop Cluster (hash_order (mPhysicalClusters t)) in
  if negb on then cgroups ++ clusters else
  let '(mpams, on) := delete_loop Mpam (hash_order (mMpamGroupMapping t)) in
  if negb on then cgroups ++ clusters ++ mpams else
  let '(caches, _) := delete_loop Cache (hash_order (Some <$> mCacheInfoMapping t)) in
  cgroups ++ clusters ++ mpams ++ caches.

Definition display_cluster (cluster : Z * option ClusterInfo) : result (list string) :=
  c ← deref cluster.2;
  start ← of_option Indeterminate (mStartCpu c);
  capacity ← of_option Indeterminate (mCapacity c);
  Ok ["Physical ID of cluster: " +:+ to_string cluster.1;
      "Number of Cores in cluster: " +:+ to_string (mNumCpus c);
      "Starting CPU in this cluster: " +:+ to_string start;
      "Cluster Capacity: " +:+ to_string capacity].

(** The messages written under the tag [RESTUNE_SERVER_INIT]. *)
Definition displayTargetInfo (cfg : TargetConfigs) (t : TargetRegistry) : result (list string) :=
  clusters ← mapM display_cluster (hash_order (mPhysicalClusters t));
  Ok (["Displaying Target Info";
       "Number of Cores = " +:+ to_string (mTotalCoreCount cfg);
       "Number of Clusters = " +:+ to_string (mTotalClusterCount cfg)] ++ concat clusters).

(** ** Facts *)

(** The objects a registry owns. *)
Definition owned (t : TargetRegistry) : list Owned :=
  map (fun e => CGroup e.1) (map_to_list (mCGroupMapping t)) ++
  map (fun e => Cluster e.1) (map_to_list (mPhysicalClusters t)) ++
  map (fun e => Mpam e.1) (map_to_list (mMpamGroupMapping t)) ++
  map (fun e => Cache e.1) (map_to_list (mCacheInfoMapping t)).

Definition no_null {K A} `{Countable K} (m : gmap K (option A)) : Prop := map_Forall (fun _ v => is_Some v) m.

Lemma delete_loop_all {K A} (name : K -> Owned) (l : list (K * option A)) :
  Forall (fun e => is_Some e.2) l -> delete_loop name l = (map (fun e => name e.1) l, true).
Proof. induction 1 as [|[k [v|]] l [? Hv] _ IH]; simplify_eq/=; [done|]. by rewrite IH. Qed.

Lemma delete_loop_stops {K A} (name : K -> Owned) (k : K) (l : list (K * option A)) :
  (k, None) ∈ l -> snd (delete_loop name l) = false.
Proof.
  induction l as [|[j [v|]] l IH]; [set_solver| |done]. intros [?|Hin]%elem_of_cons; [done|].
  cbn. specialize (IH Hin). by destruct (delete_loop name l).
Qed.

Lemma hash_order_no_null {K A} `{Countable K} (m : gmap K (option A)) :
  no_null m -> Forall (fun e => is_Some e.2) (hash_order m).
Proof.
  intros Hm. apply Forall_forall. intros [k v] Hin%elem_of_hash_order. exact (Hm k v Hin).
Qed.

(** Without a null entry, the destructor deletes each object of the registry exactly once. *)
Theorem destroy_deletes_all (t : TargetRegistry) :
  no_null (mCGroupMapping t) -> no_null (mPhysicalClusters t) -> no_null (mMpamGroupMapping t) ->
  TargetRegistry_destroy t ≡ₚ owned t.
Proof.
  intros Hg Hc Hm. unfold TargetRegistry_destroy, owned.
  rewrite !delete_loop_all by (apply hash_order_no_null; done). cbn [negb].
  rewrite delete_loop_all.
  2: { apply hash_order_no_null. intros k v Hv. apply lookup_fmap_Some in Hv as (c & <- & _). done. }
  rewrite !hash_order_perm, map_to_list_fmap, map_map. apply Permutation_app; [done|].
  do 2 (apply Permutation_app; [done|]). erewrite map_ext; [reflexivity|]. by intros [].
Qed.

(** One lookup of an unknown control group leaves a null entry, with which the destructor returns
    from its first loop: no cluster, memory partition or cache is deleted. *)
Theorem unknown_cgroup_leaks (cGroupID : Z) (t : TargetRegistry) :
  mCGroupMapping t !! cGroupID = None ->
  exists t', getCGroupConfig cGroupID t = (None, t') /\
    (forall o, o ∈ TargetRegistry_destroy t' -> exists id, o = CGroup id /\ id <> cGroupID).
Proof.
  intros Hid. unfold getCGroupConfig, map_index. rewrite Hid. eexists. split; [done|].
  unfold TargetRegistry_destroy. cbn [mCGroupMapping set_cgroups].
  set (m := <[cGroupID := None]> (mCGroupMapping t)).
  assert (snd (delete_loop CGroup (hash_order m)) = false) as Hstop.
  { apply (delete_loop_stops _ cGroupID). apply elem_of_hash_order. apply lookup_insert_eq. }
  assert (forall l : list (Z * option CGroupConfigInfo), (forall v, (cGroupID, Some v) ∉ l) ->
    forall o, o ∈ fst (delete_loop CGroup l) -> exists id, o = CGroup id /\ id <> cGroupID) as Hl.
  { induction l as [|[k [v|]] l IH]; cbn; intros Hnin o Ho; [set_solver| |set_solver].
    assert (k <> cGroupID) by (intros ->; apply (Hnin v); by left).
    assert (forall v, (cGroupID, Some v) ∉ l) as Hnin' by (intros w Hw; apply (Hnin w); by right).
    specialize (IH Hnin'). destruct (delete_loop CGroup l) as [ds on]. cbn in *.
    apply elem_of_cons in Ho as [->|Ho]; eauto. }
  specialize (Hl (hash_order m)). destruct (delete_loop CGroup (hash_order m)) as [ds on]. cbn in *. subst on.
  cbn. apply Hl. intros v Hv%elem_of_hash_order. unfold m in Hv. by rewrite lookup_insert_eq in Hv.
Qed.
End Order.

Definition example_registry : TargetRegistry :=
  mkTR {[0 := 1]} {[1 := Some (mkCluster 1 (Some 1024) (Some 4) 4)]} {[7 := Some (mkCGroup "camera" 7 true false)]} ∅
    {["L2" := mkCache "L2" 2 true]}.

Lemma destroy_deletes_all_witness :
  let H := sorted_hash_order in
  TargetRegistry_destroy example_registry ≡ₚ [CGroup 7; Cluster 1; Cache "L2"].
Proof.
  intros H. change [CGroup 7; Cluster 1; Cache "L2"] with (owned example_registry).
  apply (@destroy_deletes_all H); apply (bool_decide_unpack _); vm_compute; exact I.
Defined.

Lemma unknown_cgroup_leaks_witness :
  let H := sorted_hash_order in
  exists t', getCGroupConfig 9 example_registry = (None, t') /\
    (forall o, o ∈ TargetRegistry_destroy t' -> exists id, o = CGroup id /\ id <> 9).
Proof. intros H. apply (@unknown_cgroup_leaks H 9 example_registry). reflexivity. Defined.

Example display_example : let H := sorted_hash_order in
  match displayTargetInfo (mkTargetConfigs "" 8 1 0) example_registry with Ok l => length l = 7%nat | Fault _ => False end.
Proof. vm_compute. reflexivity. Qed.
