(* ===== verification/Teardown.v ===== *)
(** The ends of the objects of the daemon that the other files leave out: the destructors of the
    registries of signals and resources ([SignalRegistry.cpp], [ResourceRegistry.cpp]) and of the memory
    pools ([MemoryPool.cpp]), the timers of the two daemons ([PulseMonitor.cpp],
    [ClientGarbageCollector.cpp]), the socket of the classifier ([NetLinkComm.cpp]) and the two functions
    its library exports ([ContextualClassifier.cpp]).

    What a destructor deletes is a list, in its order; the maps are walked in the order of [HashOrder]. *)
From S2P Require Import RestuneInit.
From S2P Require Import Prelude UrmTypes StdString AuxRoutines Resource UrmPlatformAL SignalRegistry.
From S2P Require Import ResourceRegistry MemoryPool Request.
Open Scope string_scope.
Open Scope list_scope.
Open Scope Z_scope.

(** ** SignalRegistry *)
Module Signals.

(** [freeSignalConfig]: the objects deleted, the resources before the configuration that holds them. *)
Inductive Freed := FreedPermissions | FreedDerivatives | FreedResource (r : option Resource) | FreedResources
  | FreedSignal (s : SignalInfo).
Definition freeSignalConfig (signalInfo : option SignalInfo) : list Freed :=
  match signalInfo with
  | None => []
  | Some s =>
    from_option (fun _ => [FreedPermissions]) [] (SignalRegistry.mPermissions s) ++
    from_option (fun _ => [FreedDerivatives]) [] (mDerivatives s) ++
    from_option (fun l => map FreedResource l ++ [FreedResources]) [] (mSignalResources s) ++
    [FreedSignal s]
  end.

(** The configurations of one entry: the default one, then the list of the variants. *)
Definition conf_infos (conf : SignalConf) : list SignalInfo :=
  option_list (mSignalInfo conf) ++ mFeatureSignals conf.

Definition SignalRegistry_destroy `{HashOrder} (r : SignalRegistry) : list Freed :=
  concat (map (fun e => freeSignalConfig (mSignalInfo e.2) ++ concat (map (fun s => freeSignalConfig (Some s)) (mFeatureSignals e.2)))
    (hash_order (mSignalsConfigs r))).

Definition is_signal (f : Freed) : bool := match f with FreedSignal _ => true | _ => false end.
Definition freed_signals (l : list Freed) : list SignalInfo :=
  omap (fun f => match f with FreedSignal s => Some s | _ => None end) l.

Definition stored (m : gmap Z SignalConf) : list SignalInfo :=
  concat (map (fun e => conf_infos e.2) (map_to_list m)).

Lemma freed_signals_app l k : freed_signals (l ++ k) = freed_signals l ++ freed_signals k.
Proof. apply omap_app. Qed.

Lemma freed_one s : freed_signals (freeSignalConfig (Some s)) = [s].
Proof.
  unfold freeSignalConfig. rewrite !freed_signals_app.
  assert (forall l, freed_signals (map FreedResource l) = []) as Hr by (by induction l).
  destruct (SignalRegistry.mPermissions s), (mDerivatives s), (mSignalResources s); cbn;
    rewrite ?freed_signals_app, ?Hr; done.
Qed.

Lemma freed_entry conf :
  freed_signals (freeSignalConfig (mSignalInfo conf) ++ concat (map (fun s => freeSignalConfig (Some s)) (mFeatureSignals conf))) =
  conf_infos conf.
Proof.
  rewrite freed_signals_app. unfold conf_infos. f_equal.
  - destruct (mSignalInfo conf); [apply freed_one|done].
  - induction (mFeatureSignals conf) as [|s l IH]; [done|]. cbn [map concat].
    by rewrite freed_signals_app, freed_one, IH.
Qed.

Lemma freed_destroy `{HashOrder} r : freed_signals (SignalRegistry_destroy r) ≡ₚ stored (mSignalsConfigs r).
Proof.
  unfold SignalRegistry_destroy, stored. rewrite <- (hash_order_perm (mSignalsConfigs r)).
  induction (hash_order (mSignalsConfigs r)) as [|[k conf] l IH]; [done|]. cbn [map concat].
  by rewrite freed_signals_app, freed_entry, IH.
Qed.

(** The other entries are untouched by a registration. *)
Lemma stored_insert k conf m : length (stored (<[k := conf]> m)) =
  (length (conf_infos conf) + length (stored (delete k m)))%nat.
Proof.
  unfold stored. rewrite <- insert_delete_eq.
  rewrite map_to_list_insert by apply lookup_delete_eq. cbn [map concat]. by rewrite length_app.
Qed.

Lemma stored_lookup k conf m : m !! k = Some conf ->
  length (stored m) = (length (conf_infos conf) + length (stored (delete k m)))%nat.
Proof. intros Hk. rewrite <- (insert_id m k conf Hk) at 1. by rewrite stored_insert. Qed.

Lemma stored_none k m : m !! k = None -> length (stored m) = length (stored (delete k m)).
Proof. intros Hk. by rewrite delete_id. Qed.

Lemma replace_duplicate_length s : forall l l' b, replace_duplicate s l = Ok (l', b) -> length l' = length l.
Proof.
  induction l as [|c l IH]; intros l' b E; cbn in E; [by simplify_eq|].
  destruct (isDuplicateConfig c s) as [[]|]; cbn in E; simplify_eq; [done|].
  destruct (replace_duplicate s l) as [[k b']|]; cbn in E; simplify_eq. cbn. by erewrite IH.
Qed.

Lemma chk_s_value w z t : chk_s w z = Ok t -> t = z.
Proof. unfold chk_s. case_match; congruence. Qed.

#[local] Arguments replace_duplicate : simpl never.

(** What a registration does to the number of stored configurations. *)
Lemma registerSignal_count p r r' : registerSignal p r = Ok r' ->
  mTotalSignals r' - Z.of_nat (length (stored (mSignalsConfigs r'))) =
  mTotalSignals r - Z.of_nat (length (stored (mSignalsConfigs r))).
Proof.
  unfold registerSignal. destruct p as [s|]; cbn; [|by intros [= <-]].
  destruct (mSignalCategory s =? 0); [by intros [= <-]|]. unfold map_index.
  destruct (mSignalsConfigs r !! signalBitmap s) as [conf|] eqn:Ek.
  - pose proof (stored_lookup _ _ _ Ek) as Hm. destruct (mHasExtraAttrs s).
    + destruct (mFeatureSignals conf) as [|v l] eqn:El; cbn.
      * intros E. destruct (chk_s 32 _) as [t|] eqn:Et; [|done]. cbn in E. injection E as <-.
        apply chk_s_value in Et as ->. cbn. rewrite stored_insert. unfold conf_infos in *. rewrite El in Hm.
        cbn. rewrite length_app in *. cbn in *. lia.
      * unfold addToFeaturedSigList. destruct (replace_duplicate s (v :: l)) as [[k b]|] eqn:Er; [|done].
        pose proof (replace_duplicate_length _ _ _ _ Er) as Hlen. cbn. unfold conf_infos in Hm. rewrite El in Hm.
        destruct b; cbn.
        -- intros [= <-]. cbn. rewrite stored_insert. unfold conf_infos. cbn in *. rewrite !length_app in *. cbn in *. lia.
        -- intros E. destruct (chk_s 32 _) as [t|] eqn:Et; [|done]. cbn in E. injection E as <-.
           apply chk_s_value in Et as ->. cbn. rewrite stored_insert. unfold conf_infos. cbn in *. rewrite !length_app in *. cbn in *. lia.
    + cbn. intros E. case_bool_decide as Hi.
      * cbn in E. injection E as <-. cbn. rewrite stored_insert. destruct Hi as [d Hd].
        unfold conf_infos in *. rewrite Hd in Hm. cbn in *. lia.
      * destruct (chk_s 32 _) as [t|] eqn:Et; [|done]. cbn in E. injection E as <-. apply chk_s_value in Et as ->.
        cbn. rewrite stored_insert. apply eq_None_not_Some in Hi. unfold conf_infos in *. rewrite Hi in Hm. cbn in *. lia.
  - pose proof (stored_none _ _ Ek) as Hm. intros E.
    destruct (mHasExtraAttrs s); cbn in E; destruct (chk_s 32 _) as [t|] eqn:Et; try done;
      cbn in E; injection E as <-; apply chk_s_value in Et as ->; cbn; rewrite stored_insert, delete_insert_eq; cbn; lia.
Qed.

Definition register (l : list (option SignalInfo)) (r : SignalRegistry) : result SignalRegistry :=
  foldl (fun m p => r ← m; registerSignal p r) (Ok r) l.

(** Whatever is registered, the destructor deletes as many configurations as [getSignalsConfigCount]
    says there are. *)
Theorem destroy_frees_all `{HashOrder} (l : list (option SignalInfo)) (r : SignalRegistry) :
  register l SignalRegistry_init = Ok r ->
  Z.of_nat (length (freed_signals (SignalRegistry_destroy r))) = getSignalsConfigCount r.
Proof.
  intros E. rewrite freed_destroy. unfold getSignalsConfigCount.
  assert (forall l r0, register l r0 = Ok r ->
    mTotalSignals r - Z.of_nat (length (stored (mSignalsConfigs r))) =
    mTotalSignals r0 - Z.of_nat (length (stored (mSignalsConfigs r0)))) as Hl.
  { clear. intros l. unfold register. induction l as [|p l IH]; intros r0 E; cbn in E; [by simplify_eq|].
    destruct (registerSignal p r0) as [r1|f] eqn:E1.
    - rewrite (IH r1 E). by apply registerSignal_count with p.
    - exfalso. clear -E. induction l; cbn in E; [done|auto]. }
  specialize (Hl l _ E). unfold stored at 2 in Hl. cbn [SignalRegistry_init mTotalSignals mSignalsConfigs] in Hl.
  rewrite map_to_list_empty in Hl. cbn in Hl. lia.
Qed.

Lemma destroy_frees_all_witness :
  let H := sorted_hash_order in
  let s ty attrs := mkSignalInfo 1 2 ty "app_open" 0 None None attrs (negb (bool_decide (attrs = [0; 0; 0; 0]))) None in
  let l := [Some (s 0 [0; 0; 0; 0]); None; Some (s 0 [60; 0; 0; 0]); Some (s 0 [30; 0; 0; 0]); Some (s 0 [60; 0; 0; 0])] in
  exists r, register l SignalRegistry_init = Ok r /\ getSignalsConfigCount r = 3 /\
    Z.of_nat (length (freed_signals (SignalRegistry_destroy r))) = 3.
Proof.
  intros H s l. destruct (register l SignalRegistry_init) as [r|] eqn:E; [|vm_compute in E; discriminate].
  exists r. assert (getSignalsConfigCount r = 3) as Hc.
  { assert (option_map getSignalsConfigCount (match register l SignalRegistry_init with Ok r => Some r | _ => None end) = Some 3)
      as Hv by (vm_compute; reflexivity). rewrite E in Hv. by injection Hv. }
  split; [done|]. split; [done|]. rewrite <- Hc. apply (@destroy_frees_all H l r). exact E.
Defined.
End Signals.

(** ** ResourceRegistry *)
Module Resources.

(** The messages of [displayResources], under the tag [RESTUNE_RESOURCE_PROCESSOR]; the permissions and
    modes are not shown. *)
Definition display_one (res : ResConfInfo) : list string :=
  ["Resource Name: " +:+ mResourceName res; "Resource Path: " +:+ mResourcePath res;
   "ResType: " +:+ to_string (mResourceResType res); "ResID: " +:+ to_string (mResourceResID res);
   "High Threshold: " +:+ to_string (mHighThreshold res); "Low Threshold: " +:+ to_string (mLowThreshold res);
   "===================================="].

Fixpoint display_loop (n i : nat) (l : list ResConfInfo) : result (list string) :=
  match n with
  | O => Ok []
  | S n =>
    res ← of_option OutOfRange (l !! i);
    rest ← display_loop n (S i) l;
    Ok (display_one res ++ rest)
  end.
Definition displayResources (r : ResourceRegistry) : result (list string) :=
  display_loop (Z.to_nat (mTotalResources r)) 0 (mResourceConfigs r).

(** The configurations deleted: those of the table, in order. *)
Definition ResourceRegistry_destroy (r : ResourceRegistry) : list ResConfInfo := mResourceConfigs r.

Lemma display_loop_ok l : forall n i, (i + n <= length l)%nat ->
  display_loop n i l = Ok (concat (map display_one (take n (drop i l)))).
Proof.
  induction n as [|n IH]; intros i Hi; [done|]. cbn [display_loop].
  destruct (lookup_lt_is_Some_2 l i) as [c Hc]; [lia|]. rewrite Hc. cbn.
  rewrite IH by lia. cbn. by rewrite (drop_S l c i Hc).
Qed.

(** A table whose count is right is displayed in full, entry by entry. *)
Theorem displayResources_total (r : ResourceRegistry) : mTotalResources r = Z.of_nat (length (mResourceConfigs r)) ->
  displayResources r = Ok (concat (map display_one (mResourceConfigs r))).
Proof.
  intros Ht. unfold displayResources. rewrite Ht, Nat2Z.id, display_loop_ok by lia.
  by rewrite drop_0, firstn_all.
Qed.
Lemma displayResources_total_witness : displayResources ResourceRegistry_init = Ok [].
Proof. exact (displayResources_total ResourceRegistry_init eq_refl). Defined.

(** Registering a resource again puts the new configuration in the place of the old one, which is in
    no list any more: neither the registration nor the destructor deletes it. *)
Theorem overwritten_config_leaks (c old : ResConfInfo) (i : nat) (r : ResourceRegistry) :
  mSILMap r !! resourceBitmap c = Some (Z.of_nat i) -> mResourceConfigs r !! i = Some old ->
  exists r', table_insert c r = Ok r' /\
    ResourceRegistry_destroy r' = take i (ResourceRegistry_destroy r) ++ setLifeCycleCallbacks c :: drop (S i) (ResourceRegistry_destroy r).
Proof.
  intros Hm Hi. pose proof (lookup_lt_Some _ _ _ Hi) as Hlt. unfold table_insert. rewrite Hm.
  replace ((Z.of_nat i <? 0) || (Z.of_nat i >=? Z.of_nat (length (mResourceConfigs r)))) with false by
    (symmetry; apply orb_false_iff; split; [apply Z.ltb_ge; lia|rewrite Z.geb_leb; apply Z.leb_gt; lia]).
  eexists. split; [done|]. cbn. unfold ResourceRegistry_destroy. cbn. rewrite Nat2Z.id.
  rewrite insert_take_drop by done. pose proof (length_take_le (mResourceConfigs r) i ltac:(lia)) as Hl.
  rewrite alter_app_r_alt by lia. by rewrite Hl, Nat.sub_diag.
Qed.
End Resources.

(** ** MemoryPool *)
Module Pools.

(** A node of the allocated list holds no block: what clients still hold is not deleted. *)
Definition MemoryPool_destroy (p : MemoryPool) : list block * nat :=
  (mFreeList p, (length (mFreeList p) + mAllocatedNodes p)%nat).
Definition PoolWrapper_destroy `{HashOrder} (w : PoolWrapper) : list (string * (list block * nat)) :=
  map (fun e => (e.1, MemoryPool_destroy e.2)) (hash_order w).

(** Every block the pool made is either deleted with it or held by a client, and no block is both;
    one node is deleted for each. *)
Theorem pool_blocks_accounted (bs : list block) (size : Z) (ops : list PoolOp) :
  NoDup bs -> Z.of_nat (length bs) <= max_s 32 -> disciplined ops bs [] ->
  exists p out p' held, makeAllocation (Z.of_nat (length bs)) (map Some bs) (MemoryPool_init size) =
      Ok (Z.of_nat (length bs), p) /\
    pool_run ops (p, []) = Ok (out, (p', held)) /\
    pool_ok p' held /\ (MemoryPool_destroy p').2 = length ((MemoryPool_destroy p').1 ++ held) /\
    NoDup ((MemoryPool_destroy p').1 ++ held).
Proof.
  intros Hnd Hlen Hd. unfold makeAllocation. rewrite Nat2Z.id, (addNodes_all bs _ 0 _ eq_refl).
  cbn [MemoryPool_init mFreeList mfreeBlocks mAllocatedNodes mBlockSize app].
  rewrite chk_s_ok by (unfold in_s, max_s in *; lia). cbn [mbind result_bind].
  set (p := mkPool bs 0 _ _).
  assert (pool_ok p []) as Hok by (split; simpl; rewrite ?app_nil_r; done || lia).
  destruct (pool_run_ok ops p [] Hok Hd) as (p' & held & E & Hok').
  exists p, (queue_run ops bs), p', held. split; [done|]. split; [exact E|]. split; [done|].
  destruct Hok' as [_ Ha Hn _]. cbn. rewrite length_app, Ha. done.
Qed.
End Pools.

(** ** The timers of the pulse monitor and of the collector of clients

    Both classes have the same two members and the same operations. *)
Module Daemons.

Record Daemon := mkDaemon { mTimer : option Timer; mDuration : Z }.
Definition PulseMonitor_init (m : MetaConfigs) : Daemon := mkDaemon None (mPulseDuration m).
Definition ClientGarbageCollector_init (m : MetaConfigs) : Daemon := mkDaemon None (mClientGarbageCollectorDuration m).

(** [block]: a block for the timer could be had; [pool] as in [startTimer].  A timer the daemon
    already has is forgotten, not stopped. *)
Definition start (block : bool) (pool : option bool) (d : Daemon) : Daemon * ErrCode :=
  if negb block then (d, RC_MEMORY_ALLOCATION_FAILURE) else
  let '(started, t) := startTimer pool (mDuration d) Timer_init in
  (mkDaemon (Some t) (mDuration d), if started then RC_SUCCESS else RC_WORKER_THREAD_ASSIGNMENT_FAILURE).
Definition startPulseMonitorDaemon := start.
Definition startClientGarbageCollectorDaemon := start.

Definition stop (d : Daemon) : Daemon := mkDaemon (option_map killTimer (mTimer d)) (mDuration d).
Definition stopPulseMonitorDaemon := stop.
Definition stopClientGarbageCollectorDaemon := stop.

(** The destructor: that of the timer kills it. *)
Definition destroy (d : Daemon) : Daemon * option Timer := (mkDaemon None (mDuration d), option_map killTimer (mTimer d)).

(** The functions the daemon calls: [instance] is what [getInstance] answers. *)
Definition start_global (instance : option Daemon) (block : bool) (pool : option bool) : option Daemon * ErrCode :=
  match instance with
  | None => (None, RC_MEMORY_ALLOCATION_FAILURE)
  | Some d => let '(d, rc) := start block pool d in (Some d, rc)
  end.
Definition stop_global (instance : option Daemon) : option Daemon := option_map stop instance.

(** A started daemon is armed unless its duration is -1, in which case it succeeds and never runs; one
    that cannot be started is not armed; and a stopped one does not fire. *)
Theorem start_stop (pool : option bool) (d : Daemon) :
  (exists t rc, start true pool d = (mkDaemon (Some t) (mDuration d), rc) /\
     (rc = RC_SUCCESS <-> mDuration d = -1 \/ 0 < mDuration d /\ pool = Some true) /\
     (tm_armed t = true <-> 0 < mDuration d /\ pool = Some true)) /\
  (forall t, mTimer (stop (fst (start true pool d))) = Some t -> timer_fires t = false).
Proof.
  split.
  - unfold start, startTimer. cbn. destruct (mDuration d =? -1) eqn:E1; zb.
    { eexists _, _. split; [done|]. cbn. split; [split; [by left|done]|split; [done|]]. intros [? _]. lia. }
    destruct (mDuration d =? 0) eqn:E0; zb; cbn.
    { eexists _, _. split; [done|]. cbn. split; (split; [done|]); lia. }
    destruct (mDuration d <? -1) eqn:E2; zb; cbn.
    { eexists _, _. split; [done|]. cbn. split; (split; [done|]); lia. }
    destruct pool as [[]|]; eexists _, _; (split; [done|]); cbn; split; split; try done; try (intros _; right; split; [lia|done]);
      try (intros _; split; [lia|done]); intros; naive_solver.
  - intros t. unfold stop, start. cbn [negb]. destruct (startTimer pool (mDuration d) Timer_init) as [st t0].
    cbn. intros [= <-]. unfold timer_fires, killTimer. cbn. apply andb_false_r.
Qed.

(** [start] is the step of the initialisation that RestuneInit.v takes. *)
Lemma start_is_init_step (mc : Machine) (which : bool) (duration : Z) (d : RestuneInit.Daemon) :
  let '(c, rc) := start (timer_block mc which) (option_map (fun _ => timer_task mc which) (d_timers d))
                    (mkDaemon None duration) in
  start_daemon mc which duration d = (mTimer c, rc).
Proof.
  unfold start, start_daemon. destruct (timer_block mc which); [|done]. cbn [negb mDuration].
  by destruct (startTimer _ duration Timer_init).
Qed.
End Daemons.

(** ** NetLinkComm: the socket of the process events *)
Module NetLink.

(** The descriptor, and the sockets that are open. *)
Record Comm := mkComm { mNlSock : Z; open : list Z }.
Definition NetLinkComm_init : Comm := mkComm (-1) [].

Definition closeSocket (c : Comm) : Comm :=
  if negb (mNlSock c =? -1) then mkComm (-1) (filter (fun fd => fd <> mNlSock c) (open c)) else c.
Definition getSocket (c : Comm) : Z := mNlSock c.

(** [sock]: what [socket] answers, -1 or a descriptor that is not open; [bound]: whether [bind] does. *)
Definition connect (sock : Z) (bound : bool) (c : Comm) : Z * Comm :=
  let c := mkComm sock (if sock =? -1 then open c else sock :: open c) in
  if sock =? -1 then (-1, c) else
  if negb bound then (-1, closeSocket c) else (mNlSock c, c).

(** [setListen] sends one message: its operation, and whether the sending succeeds. *)
Definition cn_mcast (enable : bool) : Z := if enable then 1 else 2.
Definition setListen (sent : bool) : Z := if sent then 0 else -1.

Definition NetLinkComm_destroy (c : Comm) : Comm := closeSocket c.

(** The socket it holds is the only one open. *)
Definition comm_ok (c : Comm) : Prop := open c = if mNlSock c =? -1 then [] else [mNlSock c].

Lemma closeSocket_ok c : comm_ok c -> closeSocket c = NetLinkComm_init.
Proof.
  unfold comm_ok, closeSocket, NetLinkComm_init. destruct c as [fd l]. cbn. intros ->.
  destruct (fd =? -1) eqn:E; zb; cbn; [by subst|]. rewrite decide_False by (intros Hne; by apply Hne). done.
Qed.

Lemma connect_ok sock bound : (fst (connect sock bound NetLinkComm_init) = -1 -> snd (connect sock bound NetLinkComm_init) = NetLinkComm_init) /\
  comm_ok (snd (connect sock bound NetLinkComm_init)).
Proof.
  unfold connect. destruct (sock =? -1) eqn:E; cbn.
  - zb. subst. done.
  - destruct bound; cbn; [|rewrite closeSocket_ok; [done|]; unfold comm_ok; cbn; by rewrite E].
    split; [zb; congruence|]. unfold comm_ok. cbn. by rewrite E.
Qed.
End NetLink.

(** ** The classifier's object *)
Module Library.
Import NetLink.

(** [gClassifier]: its socket, its inference object, and the two threads it has started. *)
Record ContextualClassifier := mkCC { mNetLinkComm : Comm; mInference : bool; mClassifierMain : bool; mNetlinkThread : bool }.
Record Process := mkProcess { gClassifier : option ContextualClassifier; inferences : nat; sockets : list Z }.
Definition Process_init : Process := mkProcess None 0 [].

Definition construct (inference : bool) : ContextualClassifier := mkCC NetLinkComm_init inference false false.

(** What the kernel answers to the three calls of [Init]. *)
Record Answers := mkAnswers { socket_fd : Z; bind_ok : bool; send_ok : bool }.

(** [Init]: [None] when a thread object that is joinable is assigned, which ends the process. *)
Definition Init (a : Answers) (c : ContextualClassifier) : option (ContextualClassifier * ErrCode) :=
  if mClassifierMain c then None else
  let '(fd, comm) := connect (socket_fd a) (bind_ok a) (mNetLinkComm c) in
  if fd =? -1 then Some (mkCC comm (mInference c) true (mNetlinkThread c), RC_SOCKET_OP_FAILURE) else
  if setListen (send_ok a) =? -1 then
    Some (mkCC (closeSocket comm) (mInference c) true (mNetlinkThread c), RC_SOCKET_OP_FAILURE)
  else if mNetlinkThread c then None else Some (mkCC comm (mInference c) true true, RC_SUCCESS).

(** [Terminate], once both threads could be joined (ClassifierThreads.v says when they can). *)
Definition Terminate (c : ContextualClassifier) : ContextualClassifier * ErrCode :=
  (mkCC (closeSocket (mNetLinkComm c)) (mInference c) false false, RC_SUCCESS).

(** The destructor: [Terminate], the inference object, then that of the member. *)
Definition delete_classifier (c : ContextualClassifier) (p : Process) : Process :=
  let '(c, _) := Terminate c in
  let comm := NetLinkComm_destroy (mNetLinkComm c) in
  mkProcess None (inferences p - if mInference c then 1 else 0) (open comm).

Definition ccInit (inference : bool) (a : Answers) (p : Process) : option (Process * ErrCode) :=
  let '(c, n) :=
    match gClassifier p with
    | Some c => (c, inferences p)
    | None => (construct inference, inferences p + if inference then 1 else 0)%nat
    end in
  '(c, rc) ← Init a c;
  Some (mkProcess (Some c) n (open (mNetLinkComm c)), rc).

Definition ccTerminate (p : Process) : Process * ErrCode :=
  match gClassifier p with
  | None => (p, RC_SUCCESS)
  | Some c => let '(c, opStatus) := Terminate c in (delete_classifier c p, opStatus)
  end.

(** However [ccInit] ends, [ccTerminate] after it (when it returns) leaves no object, no inference
    object and no open socket, and the library can be initialised afresh. *)
Theorem init_terminate (inference : bool) (a : Answers) (p : Process) (rc : ErrCode) :
  ccInit inference a Process_init = Some (p, rc) ->
  (rc = RC_SUCCESS <-> socket_fd a <> -1 /\ bind_ok a = true /\ send_ok a = true) /\
  (rc <> RC_SUCCESS -> sockets p = []) /\
  ccTerminate p = (Process_init, RC_SUCCESS).
Proof.
  destruct a as [fd b s]. unfold ccInit, Init. cbn -[connect].
  pose proof (connect_ok fd b) as [Hf Hok]. assert (fst (connect fd b NetLinkComm_init) = -1 <-> fd = -1 \/ b = false) as Hr.
  { unfold connect. destruct (fd =? -1) eqn:E; zb; [subst; naive_solver|]. destruct b; cbn; naive_solver. }
  destruct (connect fd b NetLinkComm_init) as [r comm]. cbn in *. destruct (r =? -1) eqn:Er; zb.
  - intros [= <- <-]. cbn. rewrite (Hf Er). split; [naive_solver|]. split; [done|].
    unfold ccTerminate, delete_classifier. cbn. destruct inference; done.
  - destruct s; cbn; intros [= <- <-]; cbn.
    + assert (fd <> -1 /\ b = true) as [Hfd Hb].
      { split; [intros Hfd; apply Er, Hr; by left|]. destruct b; [done|]. exfalso. apply Er, Hr. by right. }
      split; [by split|]. split; [done|]. unfold ccTerminate, delete_classifier. cbn.
      rewrite (closeSocket_ok comm Hok). destruct inference; done.
    + rewrite (closeSocket_ok comm Hok). split; [naive_solver|]. split; [done|].
      unfold ccTerminate, delete_classifier. cbn. destruct inference; done.
Qed.

(** A second [ccInit] after a failed one ends the process: the worker of the first is still joinable. *)
Theorem second_init_dies (i i' : bool) (a a' : Answers) (p : Process) (rc : ErrCode) :
  ccInit i a Process_init = Some (p, rc) -> ccInit i' a' p = None.
Proof.
  unfold ccInit, Init. cbn -[connect]. destruct (connect _ _ _) as [r comm].
  destruct (r =? -1); [by intros [= <- <-]|]. destruct (send_ok a); cbn; by intros [= <- <-].
Qed.
End Library.
