(* ===== verification/History.v ===== *)
(** The CocoTable does not look back: its operations append to the history of callbacks and never read
    it.  So a world may be judged by any history that explains what is in effect now ([table_ok]), which is
    what remains true when nodes are freed and their addresses used again; and what an operation
    calls takes the resources from the heads of the lists before it to the heads after it
    ([carried]). *)
From S2P Require Import Prelude UrmTypes Message Resource DLManager ResourceRegistry Request CocoTable Events.
Open Scope list_scope.
Open Scope Z_scope.

(** The world with [E] called before. *)
Definition shift (E : list Event) (w : World) : World := mkWorld (store w) (coco w) (E ++ events w).

Lemma shift_emit E ev w : emit ev (shift E w) = shift E (emit ev w).
Proof. unfold emit, shift. cbn. by rewrite app_assoc. Qed.

Section Shift.
Context {R : Type} `{!ResourceConfigs R} (reg : R) (mode : Z) (E : list Event).

Lemma shift_call_applier c x w : call_applier c x (shift E w) = shift E (call_applier c x w).
Proof. unfold call_applier. destruct (mResourceApplierCallback c); [apply shift_emit|done]. Qed.

Lemma shift_applyAction y i p w : applyAction reg mode y i p (shift E w) = shift E <$> applyAction reg mode y i p w.
Proof.
  unfold applyAction. destruct y as [x|]; [|done]. cbn [shift store coco].
  destruct (st_data (store w) !! x) as [r|]; [|done].
  destruct (of_option _ _) as [a|]; [|done]. cbn [mbind result_bind]. destruct (_ || _); [|done].
  destruct (conf_of reg r) as [c|]; [|done]. cbn [mbind result_bind]. destruct (mode_allows mode c); [|done].
  by rewrite shift_call_applier.
Qed.

Lemma shift_fastPathApply x r w : fastPathApply reg mode x r (shift E w) = shift E <$> fastPathApply reg mode x r w.
Proof.
  unfold fastPathApply. destruct (conf_of reg r) as [c|]; [|done]. cbn [mbind result_bind].
  destruct (mode_allows mode c); [|done]. by rewrite shift_call_applier.
Qed.

Lemma shift_removeAction i x r w : removeAction reg i x r (shift E w) = shift E <$> removeAction reg i x r w.
Proof.
  unfold removeAction. destruct (getResConf reg (getResCode r)) as [c|]; [|done].
  destruct (mResourceTearCallback c) as [cb|]; [rewrite shift_emit|]; cbn [shift emit store coco];
    (destruct (of_option _ _) as [a|]; [done|done]).
Qed.

Lemma shift_fastPathReset x r w : fastPathReset reg x r (shift E w) = shift E <$> fastPathReset reg x r w.
Proof.
  unfold fastPathReset. destruct (conf_of reg r) as [c|]; [|done]. cbn [mbind result_bind].
  destruct (mResourceApplierCallback c); [|done]. destruct (mResourceTearCallback c); [|done].
  cbn. by rewrite shift_emit.
Qed.

Definition shift2 {A} (m : A * World) : A * World := (m.1, shift E m.2).

Lemma shift_secondary r p w :
  getCocoTableSecondaryIndex reg r p (shift E w) = shift2 <$> getCocoTableSecondaryIndex reg r p w.
Proof.
  unfold getCocoTableSecondaryIndex. destruct (getResConf reg (getResCode r)) as [c|]; [|done].
  cbn [shift coco]. destruct (mApplyType c); try done.
  - destruct (_ =? -1); [done|]. by destruct (map_index _ _ _).
  - destruct (getValueAt r 0) as [g|]; [|done]. cbn [mbind result_bind]. destruct (g =? -1); [done|].
    by destruct (map_index _ _ _).
Qed.

Lemma shift_reapply n i inc : forall p w,
  reapply_loop reg mode n p i inc (shift E w) = shift2 <$> reapply_loop reg mode n p i inc w.
Proof.
  induction n as [|n IH]; intros p w; [done|]. cbn [reapply_loop shift coco].
  destruct (of_option _ (mCocoTable (coco w) !! _)) as [row|]; [|done]. cbn [mbind result_bind].
  match goal with |- context [(if ?b then Fault OutOfRange else ?o)] => destruct (if b then Fault OutOfRange else o) as [d|] end;
    [|done]. cbn [mbind result_bind].
  destruct (mHead d) as [y|]; [|apply IH].
  destruct (of_option _ _) as [a|]; [|done]. cbn [mbind result_bind].
  change (set_applied ?l (shift E w)) with (shift E (set_applied l w)).
  rewrite shift_applyAction. by destruct (applyAction _ _ _ _ _ _).
Qed.

Lemma shift_after_removal c x r b i p d w :
  after_removal reg mode c x r b i p d (shift E w) = shift E <$> after_removal reg mode c x r b i p d w.
Proof.
  unfold after_removal. destruct (mHead d) as [y|].
  { destruct b; [apply shift_applyAction|done]. }
  assert ((if decide (mApplyType c = APPLY_GLOBAL) then Ok (0, shift E w)
           else getCocoTableSecondaryIndex reg r SYSTEM_HIGH (shift E w)) =
          shift2 <$> (if decide (mApplyType c = APPLY_GLOBAL) then Ok (0, w)
           else getCocoTableSecondaryIndex reg r SYSTEM_HIGH w)) as ->.
  { case_decide; [done|]. apply shift_secondary. }
  destruct (if decide _ then _ else _) as [[inc w1]|]; [|done]. cbn [mbind result_bind fmap result_fmap shift2 fst snd].
  destruct (_ && _); [done|]. rewrite shift_reapply.
  destruct (reapply_loop _ _ _ _ _ _ _) as [[found w2]|]; [|done]. cbn [mbind result_bind fmap result_fmap shift2 fst snd].
  destruct found; [done|]. apply shift_removeAction.
Qed.

Lemma shift_insertInCocoTable y p w :
  insertInCocoTable reg mode y p (shift E w) = shift2 <$> insertInCocoTable reg mode y p w.
Proof.
  unfold insertInCocoTable. destruct y as [x|]; [|done]. cbn [shift store].
  destruct (node_resource (store w) x) as [r|]; [|done]. cbn [mbind result_bind].
  destruct (_ =? RES_SKIP); [done|]. fold (shift E w). rewrite shift_secondary.
  destruct (getCocoTableSecondaryIndex reg r p w) as [[j w1]|]; [|done].
  cbn [mbind result_bind fmap result_fmap shift2 fst snd].
  change (find_slot ?i ?j (shift E w1)) with (find_slot i j w1). destruct (find_slot _ _ w1) as [d|]; [|done].
  destruct (conf_of reg r) as [c|]; [|done]. cbn [mbind result_bind].
  destruct (needsAllocation reg r) as [needs|]; [|done]. cbn [mbind result_bind]. destruct needs; cbn [negb].
  - change (policy_insertion ?q x (shift E w1) d) with (policy_insertion q x w1 d).
    destruct (policy_insertion _ x w1 d) as [m|]; [|done]. destruct m as [[[rc h] d']|]; [|done].
    cbn [mbind result_bind]. destruct (RC_IS_OK rc); [|done].
    destruct (isNodeNth _ _ _ _) as [nth|]; [|done]. cbn [mbind result_bind]. destruct nth; [|done].
    change (set_slot ?i ?j d' (set_links_w h (shift E w1))) with (shift E (set_slot i j d' (set_links_w h w1))).
    rewrite shift_applyAction. by destruct (applyAction _ _ _ _ _ _).
  - destruct (decide (mPolicy c = PASS_THROUGH)).
    + change (set_slot ?i ?j ?d' (shift E w1)) with (shift E (set_slot i j d' w1)).
      rewrite shift_fastPathApply. by destruct (fastPathApply _ _ _ _ _).
    + rewrite shift_fastPathApply. by destruct (fastPathApply _ _ _ _ _).
Qed.

Lemma shift_remove_node x p w : remove_node reg mode x p (shift E w) = shift E <$> remove_node reg mode x p w.
Proof.
  unfold remove_node. cbn [shift store]. destruct (st_data (store w) !! x) as [r|]; [|done].
  destruct (_ =? RES_SKIP); [done|]. fold (shift E w). rewrite shift_secondary.
  destruct (getCocoTableSecondaryIndex reg r p w) as [[j w1]|]; [|done].
  cbn [mbind result_bind fmap result_fmap shift2 fst snd].
  change (find_slot ?i ?j (shift E w1)) with (find_slot i j w1). destruct (find_slot _ _ w1) as [d|]; [|done].
  destruct (conf_of reg r) as [c|]; [|done]. cbn [mbind result_bind].
  destruct (needsAllocation reg r) as [needs|]; [|done]. cbn [mbind result_bind]. destruct needs; cbn [negb].
  - change (store (shift E w1)) with (store w1).
    destruct (isNodeNth _ _ _ _) as [nth|]; [|done]. cbn [mbind result_bind].
    destruct (deleteNode _ _ _) as [[[rc h] d']|]; [|done]. cbn [mbind result_bind].
    change (set_slot ?i ?j d' (set_links_w h (shift E w1))) with (shift E (set_slot i j d' (set_links_w h w1))).
    apply shift_after_removal.
  - destruct (decide (mPolicy c = PASS_THROUGH)); [|apply shift_fastPathReset].
    change (set_slot ?i ?j ?d' (shift E w1)) with (shift E (set_slot i j d' w1)).
    destruct (_ =? 0); [apply shift_fastPathReset|done].
Qed.

Lemma shift_insert_loop k p : forall fuel y acc w,
  insert_loop reg mode fuel k y p acc (shift E w) = shift2 <$> insert_loop reg mode fuel k y p acc w.
Proof.
  induction fuel as [|fuel IH]; intros [x|] acc w; try done. cbn [insert_loop]. rewrite shift_insertInCocoTable.
  destruct (insertInCocoTable reg mode (Some x) p w) as [[b w1]|]; [|done].
  cbn [mbind result_bind fmap result_fmap shift2 fst snd]. change (store (shift E w1)) with (store w1).
  destruct (getNextPtr _ _ _) as [nx|]; [|done]. apply IH.
Qed.

Lemma shift_remove_loop k p : forall fuel y w,
  remove_loop reg mode fuel k y p (shift E w) = shift E <$> remove_loop reg mode fuel k y p w.
Proof.
  induction fuel as [|fuel IH]; intros [x|] w; try done. cbn [remove_loop]. rewrite shift_remove_node.
  destruct (remove_node reg mode x p w) as [w1|]; [|done]. cbn [mbind result_bind fmap result_fmap].
  change (store (shift E w1)) with (store w1). destruct (getNextPtr _ _ _) as [nx|]; [|done]. apply IH.
Qed.

Lemma shift_insertRequest alloc pool req w :
  insertRequest reg mode alloc pool req (shift E w) = shift2 <$> insertRequest reg mode alloc pool req w.
Proof.
  unfold insertRequest. destruct req as [r|]; [|done]. destruct (_ && _); [done|].
  destruct (getResDlMgr _) as [l|]; [|done]. change (store (shift E w)) with (store w). rewrite shift_insert_loop.
  destruct (insert_loop _ _ _ _ _ _ _ _) as [[n w1]|]; [|done]. cbn [mbind result_bind fmap result_fmap shift2 fst snd].
  destruct (n =? 0); [done|]. destruct (_ =? -1); [done|]. by destruct (startTimer _ _ _).
Qed.

Lemma shift_removeRequest req w :
  removeRequest reg mode req (shift E w) = shift2 <$> removeRequest reg mode req w.
Proof.
  unfold removeRequest. destruct req as [r|]; [|done]. cbn [deref mbind result_bind].
  destruct (getResDlMgr r) as [l|]; [|done]. change (store (shift E w)) with (store w). rewrite shift_remove_loop.
  by destruct (remove_loop _ _ _ _ _ _ _).
Qed.
End Shift.

(** ** Judging a world by another history *)
Definition with_events (E : list Event) (w : World) : World := mkWorld (store w) (coco w) E.

Lemma shift_with E w : shift E (with_events [] w) = with_events E w.
Proof. unfold shift, with_events. cbn. by rewrite app_nil_r. Qed.
Lemma with_own_events w : with_events (events w) w = w.
Proof. by destruct w. Qed.

(** The node that leads a row: the head of its first list that is not empty. *)
Definition leader (pend : Pending) (i : nat) : option positive :=
  match first_level pend i with Some q => head (pend i q) | None => None end.

Lemma first_level_same pend pend' i : (forall j, pend i j = pend' i j) -> first_level pend i = first_level pend' i.
Proof.
  intros Hs. unfold first_level.
  rewrite (list_find_ext (fun j => pend i j <> []) (fun j => pend' i j <> [])); [done|]. intros j. by rewrite Hs.
Qed.
Lemma leader_same pend pend' i : (forall j, pend i j = pend' i j) -> leader pend i = leader pend' i.
Proof. intros Hs. unfold leader. rewrite (first_level_same pend pend') by done. destruct (first_level pend' i); [by rewrite Hs|done]. Qed.

Lemma leader_elem pend i x : leader pend i = Some x -> exists j, x ∈ pend i j.
Proof.
  unfold leader. destruct (first_level pend i) as [q|]; [|done]. intros Hx. exists q.
  destruct (pend i q) as [|y l]; [done|]. injection Hx as ->. by left.
Qed.

Section History.
Context {R : Type} `{!ResourceConfigs R} (wf : R -> Prop) `{!ResourceConfigsLaws R wf}.
Context (reg : R) (mode : Z) (Hwf : wf reg).

(** Some history explains what is in effect. *)
Definition table_ok (w : World) (pend : Pending) : Prop :=
  exists E, table_inv reg mode (with_events E w) pend.

(** The history in which each row has applied its leader once. *)
Definition brief_event (w : World) (pend : Pending) (i : nat) : option Event :=
  x ← leader pend i; r ← st_data (store w) !! x;
  if getResourceTableIndex reg (getResCode r) =? Z.of_nat i
  then Some (EvApply defaultGlobalLevelApplierCb x) else None.
Definition brief (w : World) (pend : Pending) : list Event :=
  omap (brief_event w pend) (seq 0 (length (mCocoTable (coco w)))).

(** Callbacks that concern one resource, all of them its leader's. *)
Lemma effect_of_leader s code lead : forall evs e,
  Forall (fun ev => exists y, ev = EvApply defaultGlobalLevelApplierCb y /\ (concerns s code y = true -> lead = Some y)) evs ->
  foldl (effect_step s code) e evs = e \/ foldl (effect_step s code) e evs = lead.
Proof.
  induction evs as [|ev evs IH]; intros e Hall; [by left|].
  apply Forall_cons in Hall as [(y & -> & Hy) Hall]. cbn. destruct (concerns s code y) eqn:Ec.
  - right. rewrite (Hy eq_refl). destruct (IH (Some y) Hall) as [->| ->]; [done|]. by rewrite (Hy eq_refl).
  - destruct (IH e Hall); auto.
Qed.

Lemma effect_of_leader_seen s code x : forall evs e,
  Forall (fun ev => exists y, ev = EvApply defaultGlobalLevelApplierCb y /\ (concerns s code y = true -> Some x = Some y)) evs ->
  concerns s code x = true -> EvApply defaultGlobalLevelApplierCb x ∈ evs -> foldl (effect_step s code) e evs = Some x.
Proof.
  induction evs as [|ev evs IH]; intros e Hall Hx Hin; [by apply not_elem_of_nil in Hin|].
  apply Forall_cons in Hall as [(y & -> & Hy) Hall]. cbn. apply elem_of_cons in Hin as [[= ->]|Hin]; [|by apply IH].
  rewrite Hx. destruct (effect_of_leader s code (Some y) evs (Some y) Hall) as [->| ->]; done.
Qed.

(** The invariant without its last part: only the lists, the applied priorities and the resources. *)
Record rows_ok (w : World) (pend : Pending) : Prop := {
  ro_wf : coco_wf w pend;
  ro_slots : forall code i conf cb tb, is_global reg mode code i conf cb tb ->
    forall j, (j < 4)%nat -> is_Some (slot w i j);
  ro_code : forall code i conf cb tb, is_global reg mode code i conf cb tb ->
    forall j x, x ∈ pend i j -> concerns (store w) code x = true;
  ro_applied : forall code i conf cb tb, is_global reg mode code i conf cb tb ->
    mCurrentlyAppliedPriority (coco w) !! i =
      Some (match first_level pend i with Some q => Z.of_nat q | None => -1 end)
}.

Lemma brief_effect w pend code i conf cb tb : rows_ok w pend -> is_global reg mode code i conf cb tb ->
  in_effect (store w) code (brief w pend) = leader pend i.
Proof.
  intros Hro Hg. unfold in_effect.
  assert (Forall (fun ev => exists y, ev = EvApply defaultGlobalLevelApplierCb y /\
    (concerns (store w) code y = true -> leader pend i = Some y)) (brief w pend)) as Hall.
  { apply Forall_forall. intros ev (k & _ & Hev)%list_elem_of_omap. unfold brief_event in Hev.
    destruct (leader pend k) as [y|] eqn:El; cbn in Hev; [|done].
    destruct (st_data (store w) !! y) as [r|] eqn:Er; cbn in Hev; [|done]. destruct (_ =? _) eqn:Ei; [|done].
    injection Hev as <-. zb. exists y. split; [done|]. intros Hc. unfold concerns in Hc. rewrite Er in Hc. zb. subst code.
    rewrite (ig_index _ _ _ _ _ _ _ Hg) in Ei. apply Nat2Z.inj in Ei as ->. done. }
  destruct (leader pend i) as [x|] eqn:El.
  - destruct (leader_elem _ _ _ El) as [j Hj]. pose proof (ro_code _ _ Hro _ _ _ _ _ Hg j x Hj) as Hc.
    apply effect_of_leader_seen; [done|done|]. apply list_elem_of_omap. exists i. split; revgoals.
    + unfold brief_event. rewrite El. cbn. unfold concerns in Hc. destruct (st_data (store w) !! x) as [r|]; [|done].
      cbn. zb. rewrite Hc, (ig_index _ _ _ _ _ _ _ Hg), Z.eqb_refl. done.
    + apply elem_of_seq. split; [lia|]. destruct (ro_slots _ _ Hro _ _ _ _ _ Hg 0%nat ltac:(lia)) as [d Hd].
      unfold slot in Hd. destruct (mCocoTable (coco w) !! i) as [row|] eqn:Erow; [|done].
      apply lookup_lt_Some in Erow. lia.
  - by destruct (effect_of_leader (store w) code None (brief w pend) None Hall).
Qed.

(** The lists, the priorities and the resources are enough. *)
Lemma table_ok_rows w pend : table_ok w pend <-> rows_ok w pend.
Proof.
  split.
  - intros (E & Hi). split.
    + by apply (coco_wf_ext (with_events E w) w pend); [..|apply (ti_wf _ _ _ _ Hi)].
    + intros code i conf cb tb Hg. apply (gr_slots _ _ _ _ (ti_rows _ _ _ _ Hi _ _ _ _ _ Hg)).
    + intros code i conf cb tb Hg. apply (gr_code _ _ _ _ (ti_rows _ _ _ _ Hi _ _ _ _ _ Hg)).
    + intros code i conf cb tb Hg. apply (gr_applied _ _ _ _ (ti_rows _ _ _ _ Hi _ _ _ _ _ Hg)).
  - intros Hro. exists (brief w pend). split.
    + by apply (coco_wf_ext w); [..|apply Hro].
    + intros code i conf cb tb Hg. split.
      * exact (ro_slots _ _ Hro _ _ _ _ _ Hg).
      * exact (ro_code _ _ Hro _ _ _ _ _ Hg).
      * exact (ro_applied _ _ Hro _ _ _ _ _ Hg).
      * exact (brief_effect _ _ _ _ _ _ _ Hro Hg).
Qed.

(** Nodes that are in no list may be freed, or allocated anew. *)
Lemma table_ok_frame w s' pend :
  (forall i j x, x ∈ pend i j -> st_data s' !! x = st_data (store w) !! x /\
     forall k, link_at (st_links s') k x = link_at (st_links (store w)) k x) ->
  table_ok w pend -> table_ok (mkWorld s' (coco w) (events w)) pend.
Proof.
  rewrite !table_ok_rows. intros Hf [[W1 W2 W3 W4 W5] R2 R3 R4]. split; try done.
  - split; try done.
    + intros i j d Hd. destruct (W1 i j d Hd) as [Hk Hl]. split; [done|].
      eapply is_dll_frame; [|exact Hl]. intros x Hx. by apply (Hf i j x).
    + intros i j x Hx. cbn. destruct (Hf i j x Hx) as [-> _]. by eapply W4.
  - intros code i conf cb tb Hg j x Hx. cbn. unfold concerns. destruct (Hf i j x Hx) as [-> _]. by eapply R3.
Qed.

(** Lists that agree are the same. *)
Lemma table_ok_same w pend pend' : (forall i j, pend i j = pend' i j) -> table_ok w pend -> table_ok w pend'.
Proof.
  rewrite !table_ok_rows. intros Hs [[W1 W2 W3 W4 W5] R2 R3 R4]. split; try done.
  - split; [|intros; rewrite <- Hs; auto| | |done].
    + intros i j d Hd. rewrite <- Hs. auto.
    + intros i j i' j' x. rewrite <- !Hs. apply W3.
    + intros i j x. rewrite <- Hs. apply W4.
  - intros code i conf cb tb Hg j x. rewrite <- Hs. by eapply R3.
  - intros code i conf cb tb Hg. rewrite (R4 _ _ _ _ _ Hg). by rewrite (first_level_same pend pend' i) by done.
Qed.

(** What a list of callbacks makes of the resource in effect: from the leaders of the rows before it
    to those after it. *)
Definition carried (s : Store) (pend : Pending) (evs : list Event) (pend' : Pending) : Prop :=
  forall code i conf cb tb, is_global reg mode code i conf cb tb ->
    foldl (effect_step s code) (leader pend i) evs = leader pend' i.

Lemma carried_of w w' E evs pend pend' :
  table_inv reg mode (with_events E w) pend -> table_inv reg mode (with_events (E ++ evs) w') pend' ->
  st_data (store w') = st_data (store w) -> carried (store w) pend evs pend'.
Proof.
  intros Hi Hi' Hdata code i conf cb tb Hg.
  pose proof (gr_effect _ _ _ _ (ti_rows _ _ _ _ Hi _ _ _ _ _ Hg)) as H1.
  pose proof (gr_effect _ _ _ _ (ti_rows _ _ _ _ Hi' _ _ _ _ _ Hg)) as H2.
  cbn [with_events store events] in H1, H2. rewrite (in_effect_data (store w)) in H2 by done. unfold in_effect in *.
  rewrite foldl_app, H1 in H2. exact H2.
Qed.

(** The two operations on requests, under the weaker invariant. *)
Lemma insertRequest_ok w pend pend' req l xs prio alloc pool :
  table_ok w pend -> mResourceList req = Some l ->
  mLinkerInUse l = REQUEST_DL_NR -> is_dll (st_links (store w)) l xs -> live (store w) xs <> [] ->
  getPriority (req_msg req) = Z.of_nat prio ->
  op_steps reg mode w pend (map (fun x => OpInsert x prio) (live (store w) xs)) pend' ->
  mDuration (req_msg req) = -1 \/ alloc = true ->
  exists w' evs, insertRequest reg mode alloc pool (Some req) w =
      Ok ((mDuration (req_msg req) =? -1) ||
          ((mDuration (req_msg req) >? 0) && bool_decide (pool = Some true)),
          Some (setTimer (request_timer pool (mDuration (req_msg req))) req), w') /\
    events w' = events w ++ evs /\ table_ok w' pend' /\ same_nodes w w' /\ carried (store w) pend evs pend' /\
    Forall (good_event reg (store w)) evs.
Proof.
  intros (E & Hi) Hl Hk Hd Hne Hprio Hs Hdur.
  assert (op_steps reg mode (with_events E w) pend (map (fun x => OpInsert x prio) (live (store w) xs)) pend') as Hs'.
  { eapply op_steps_nodes; [|exact Hs]. done. }
  destruct (insertRequest_run wf reg mode Hwf (with_events E w) pend pend' req l xs prio alloc pool)
    as (w1 & E1 & Hi1 & Hn1); try done.
  rewrite <- (shift_with E w), shift_insertRequest in E1.
  destruct (insertRequest reg mode alloc pool (Some req) (with_events [] w)) as [[[b r'] m]|] eqn:Em; [|done].
  cbn in E1. injection E1 as Eb Er <-. exists (shift (events w) m), (events m).
  rewrite <- (with_own_events w) at 1. rewrite <- shift_with, shift_insertRequest, Em. cbn. rewrite Eb, Er.
  split; [done|]. split; [done|]. split; [by exists (E ++ events m)|]. split.
  - etrans; [|etrans; [exact Hn1|]]; done.
  - split; [eapply (carried_of w m E); [exact Hi|exact Hi1|apply (sn_data _ _ Hn1)]|].
    apply insertRequest_kept in Em as [_ Hkept]. by apply Hkept.
Qed.

Lemma removeRequest_ok w pend pend' req l xs prio :
  table_ok w pend -> mResourceList req = Some l ->
  mLinkerInUse l = REQUEST_DL_NR -> is_dll (st_links (store w)) l xs ->
  getPriority (req_msg req) = Z.of_nat prio ->
  op_steps reg mode w pend (map (fun x => OpRemove x prio) (live (store w) xs)) pend' ->
  exists w' evs, removeRequest reg mode (Some req) w = Ok (0, w') /\
    events w' = events w ++ evs /\ table_ok w' pend' /\ same_nodes w w' /\ carried (store w) pend evs pend' /\
    Forall (good_event reg (store w)) evs.
Proof.
  intros (E & Hi) Hl Hk Hd Hprio Hs.
  assert (op_steps reg mode (with_events E w) pend (map (fun x => OpRemove x prio) (live (store w) xs)) pend') as Hs'.
  { eapply op_steps_nodes; [|exact Hs]. done. }
  destruct (removeRequest_run wf reg mode Hwf (with_events E w) pend pend' req l xs prio)
    as (w1 & E1 & Hi1 & Hn1); try done.
  rewrite <- (shift_with E w), shift_removeRequest in E1.
  destruct (removeRequest reg mode (Some req) (with_events [] w)) as [[n m]|] eqn:Em; [|done].
  cbn in E1. injection E1 as En <-. exists (shift (events w) m), (events m).
  rewrite <- (with_own_events w) at 1. rewrite <- shift_with, shift_removeRequest, Em. cbn. rewrite En.
  split; [done|]. split; [done|]. split; [by exists (E ++ events m)|]. split.
  - etrans; [|etrans; [exact Hn1|]]; done.
  - split; [eapply (carried_of w m E); [exact Hi|exact Hi1|apply (sn_data _ _ Hn1)]|].
    apply removeRequest_kept in Em as [_ Hkept]. by apply Hkept.
Qed.
End History.
