(* ===== verification/Lifecycle.v ===== *)
(** The life of a request in the server, from the queue to the files and back: what the consumer of
    [RequestQueue.cpp] (Server.v), the CocoTable (CocoTable.v), the timer of the request (Request.v)
    and the callbacks on the files (Effects.v) make of it together.

    The lists of the table are given by [pend], as in CocoTable.v; a request of priority [prio] holds
    the nodes [xs].  The theorems are about requests
    whose nodes, but for the skipped ones ([RES_SKIP], which the table leaves alone and the request frees),
    are applied globally, and about the turns of [consumable]. *)
From S2P Require Import Prelude UrmTypes Message Resource DLManager AuxRoutines TargetRegistry.
From S2P Require Import ResourceRegistry Request RequestHandler Double CocoTable ClientDataManager OrderedQueue RequestManager RateLimiter.
From S2P Require Import Events History Server.
Open Scope list_scope.
Open Scope Z_scope.

(** [xs] taken out of every list. *)
Definition without (xs : list positive) (pend : Pending) : Pending :=
  fun i j => filter (fun y => y ∉ xs) (pend i j).

(** Two states of the lists that agree everywhere. *)
Definition same_lists (pend pend' : Pending) : Prop := forall i j, pend i j = pend' i j.
#[export] Instance same_lists_equiv : Equivalence same_lists.
Proof. split; [by intros ? ? ?|by intros ? ? Hs ? ?|]. intros p1 p2 p3 H1 H2 i j. by rewrite H1. Qed.

Lemma filter_notin_id (xs l : list positive) : (forall y, y ∈ l -> y ∉ xs) -> filter (fun y => y ∉ xs) l = l.
Proof.
  induction l as [|y l IH]; intros Hl; [done|]. rewrite filter_cons_True by (apply Hl; by left).
  f_equal. apply IH. intros z Hz. apply Hl. by right.
Qed.

Lemma filter_notin_ext (xs ys l : list positive) : (forall y, y ∈ l -> (y ∈ xs <-> y ∈ ys)) ->
  filter (fun y => y ∉ xs) l = filter (fun y => y ∉ ys) l.
Proof.
  induction l as [|y l IH]; intros Hl; [done|]. pose proof (Hl y ltac:(by left)) as Hy.
  destruct (decide (y ∈ xs)) as [Hin|Hin].
  - rewrite !filter_cons_False by tauto. apply IH. intros z Hz. apply Hl. by right.
  - rewrite !filter_cons_True by tauto. f_equal. apply IH. intros z Hz. apply Hl. by right.
Qed.

Lemma without_nil pend : same_lists (without [] pend) pend.
Proof. intros i j. apply filter_notin_id. set_solver. Qed.

Lemma without_without xs ys pend : same_lists (without xs (without ys pend)) (without (ys ++ xs) pend).
Proof. intros i j. unfold without. rewrite list_filter_filter. apply list_filter_iff. set_solver. Qed.

Lemma without_comm xs ys pend : same_lists (without xs (without ys pend)) (without ys (without xs pend)).
Proof. intros i j. unfold without. rewrite !list_filter_filter. apply list_filter_iff. set_solver. Qed.

Lemma without_elem xs pend i j y : (y ∈ without xs pend i j) <-> (y ∉ xs) /\ (y ∈ pend i j).
Proof. unfold without. by rewrite list_elem_of_filter. Qed.

Lemma without_same xs pend pend' : same_lists pend pend' -> same_lists (without xs pend) (without xs pend').
Proof. intros Hs i j. unfold without. by rewrite Hs. Qed.

Lemma delete_elem_without x l : filter (fun y => y ∉ [x]) l = delete_elem x l.
Proof.
  unfold delete_elem. induction l as [|y l IH]; [done|]. destruct (decide (y = x)) as [->|Hne].
  - rewrite !filter_cons_False by set_solver. done.
  - rewrite !filter_cons_True by set_solver. by rewrite IH.
Qed.

(** Taking a node out of a list it was inserted into gives the list back. *)
Lemma policy_list_without p s x l : x ∉ l -> filter (fun y => y ∉ [x]) (policy_list p s x l) = l.
Proof.
  intros Hx. assert (filter (fun y => y ∉ [x]) l = l) as Hl by (apply filter_notin_id; set_solver).
  assert (forall better, filter (fun y => y ∉ [x]) (policy_insert better x l) = l) as Hins.
  { intros better. clear Hl. induction l as [|y l IH]; cbn [policy_insert].
    - rewrite filter_cons_False by set_solver. done.
    - destruct (better y).
      + rewrite filter_cons_False by set_solver. apply filter_notin_id. set_solver.
      + rewrite filter_cons_True by set_solver. f_equal. apply IH. set_solver. }
  assert (filter (fun y => y ∉ [x]) (l ++ [x]) = l) as Happ.
  { rewrite filter_app, Hl, (filter_cons_False _ x) by set_solver. by rewrite filter_nil, app_nil_r. }
  destruct p; cbn [policy_list]; try apply Hins; try exact Happ.
  rewrite filter_cons_False by set_solver. exact Hl.
Qed.

Section Steps.
Context {R : Type} `{!ResourceConfigs R} (reg : R) (mode : Z).

(** [x] is pending in the list of its resource, at [prio]. *)
Definition pending_at (w : World) (pend : Pending) (prio : nat) (x : positive) : Prop :=
  exists r i conf cb tb, st_data (store w) !! x = Some r /\ getResAction r <> RES_SKIP /\
    is_global reg mode (getResCode r) i conf cb tb /\ (prio < 4)%nat /\ x ∈ pend i prio.

(** What a sequence of insertions makes of the lists: the nodes are different, each is pending in its
    list, and without them the lists are what they were. *)
Lemma inserted_nodes w prio : forall xs pend pend',
  op_steps reg mode w pend (map (fun x => OpInsert x prio) xs) pend' ->
  same_lists (without xs pend') pend /\ Forall (pending_at w pend' prio) xs /\
  (forall x, x ∈ xs -> forall i j, x ∉ pend i j) /\ NoDup xs.
Proof.
  induction xs as [|x xs IH]; intros pend pend' Hs; inversion Hs as [|? ? pend1 ? ? Hs1 Hs2]; subst.
  { split_and!; [apply without_nil|constructor|set_solver|constructor]. }
  inversion Hs1 as [? ? r i conf cb tb Hq Ha Hg Hp|]; subst. clear Hs1.
  destruct (IH _ _ Hs2) as (Hsame & Hall & Hfresh & Hnd).
  pose proof (q_fresh _ _ _ _ Hq) as Hx. set (l := policy_list (mPolicy conf) (store w) x (pend i prio)) in *.
  assert (x ∈ l) as Hxl by (unfold l; rewrite policy_list_Permutation; by left).
  assert (same_lists (without [x] (upd pend i prio l)) pend) as H1.
  { intros i' j'. unfold without. destruct (decide (i' = i /\ j' = prio)) as [[-> ->]|Hne].
    - rewrite upd_eq. by apply policy_list_without.
    - rewrite upd_ne by done. apply filter_notin_id. intros y Hy Hin. apply list_elem_of_singleton in Hin as ->.
      by apply (Hx i' j'). }
  assert (x ∉ xs) as Hxs.
  { intros Hin. apply (Hfresh x Hin i prio). by rewrite upd_eq. }
  split_and!.
  - etrans; [symmetry; apply (without_without xs [x])|]. etrans; [apply without_comm|].
    etrans; [by apply without_same|]. exact H1.
  - constructor; [|done]. exists r, i, conf, cb, tb. split_and!; [apply Hq|done|done|done|].
    assert (x ∈ without xs pend' i prio) as Hin by (rewrite Hsame, upd_eq; done).
    by apply without_elem in Hin as [_ ?].
  - intros y [->|Hy]%elem_of_cons; [done|]. intros i' j' Hin. apply (Hfresh y Hy i' j').
    destruct (decide (i' = i /\ j' = prio)) as [[-> ->]|Hne]; [|by rewrite upd_ne].
    rewrite upd_eq. unfold l. rewrite policy_list_Permutation. by right.
  - by constructor.
Qed.

(** No node is in two lists. *)
Definition disjoint_lists (pend : Pending) : Prop :=
  forall i j i' j' x, x ∈ pend i j -> x ∈ pend i' j' -> i = i' /\ j = j'.

(** The removals of pending nodes are steps of the table. *)
Lemma removal_steps w prio : forall xs pend, NoDup xs -> disjoint_lists pend ->
  Forall (pending_at w pend prio) xs ->
  exists pend', op_steps reg mode w pend (map (fun x => OpRemove x prio) xs) pend' /\
    same_lists pend' (without xs pend).
Proof.
  induction xs as [|x xs IH]; intros pend Hnd Hdis Hall.
  { exists pend. split; [constructor|]. symmetry. apply without_nil. }
  apply NoDup_cons in Hnd as [Hx Hnd].
  apply Forall_cons in Hall as [(r & i & conf & cb & tb & Hr & Ha & Hg & Hp & Hin) Hall].
  set (pend1 := upd pend i prio (delete_elem x (pend i prio))).
  assert (same_lists pend1 (without [x] pend)) as H1.
  { intros i' j'. unfold pend1, without. destruct (decide (i' = i /\ j' = prio)) as [[-> ->]|Hne].
    - rewrite upd_eq. symmetry. apply delete_elem_without.
    - rewrite upd_ne by done. symmetry. apply filter_notin_id. intros y Hy Hyx.
      apply list_elem_of_singleton in Hyx as ->. by destruct (Hdis i' j' i prio x Hy Hin) as [-> ->]; destruct Hne. }
  assert (forall i' j' y, y ∈ pend1 i' j' -> y ∈ pend i' j') as Hsub.
  { intros i' j' y. rewrite H1. by intros [_ ?]%without_elem. }
  destruct (IH pend1 Hnd) as (pend' & Hs & Hsame).
  { intros i1 j1 i2 j2 y H2 H3. eauto. }
  { apply Forall_forall. intros y Hy. rewrite Forall_forall in Hall.
    destruct (Hall y Hy) as (r' & i' & conf' & cb' & tb' & H2 & H3 & H4 & H5 & H6).
    exists r', i', conf', cb', tb'. split_and!; try done. rewrite H1. apply without_elem. split; [|done].
    intros Hyx. apply list_elem_of_singleton in Hyx as ->. done. }
  exists pend'. split.
  - eapply steps_cons; [|exact Hs]. by eapply step_remove.
  - etrans; [exact Hsame|]. etrans; [by apply without_same|]. apply (without_without xs [x]).
Qed.
End Steps.

(** The node whose value each resource has, as the callbacks called so far have set it. *)
Definition View : Type := Z -> option positive.

(** ** The consumer *)
Section Consumer.
Context {R : Type} `{!ResourceConfigs R} (wf : R -> Prop) `{!ResourceConfigsLaws R wf}.
Context (reg : R) (mode : Z) (Hwf : wf reg) (tb : bool) (tp : option bool).

(** The request at [p] is a tune request of priority [prio] with the nodes [xs], under the handle of
    which the manager has the status [st]; the client's thread is known. *)
Record tuning (p : positive) (r : Request) (xs : list positive) (prio : nat) (st : Z) (sv : Server)
  : Prop := {
  tn_req : sv_requests sv !! p = Some r;
  tn_type : is_type r REQ_RESOURCE_TUNING = true;
  tn_list : req_list (sv_store sv) r xs;
  tn_some : xs <> [];
  tn_prio : getPriority (req_msg r) = Z.of_nat prio;
  tn_active : mActiveRequests (sv_manager sv) !! getHandle (req_msg r) = Some ((Some p, st) : RequestInfo);
  tn_client : exists d, live_tid (getClientTID (req_msg r)) d (sv_clients sv)
}.

Lemma req_list_nodes w w' r xs : same_nodes w w' -> req_list (store w) r xs -> req_list (store w') r xs.
Proof.
  intros Hn. unfold req_list. destruct (mResourceList r) as [l|]; [|done]. intros [Hk Hd]. split; [done|].
  eapply is_dll_frame; [|exact Hd]. intros y _. rewrite Hk. apply (sn_request _ _ Hn).
Qed.

Lemma tuning_list p r xs prio st sv : tuning p r xs prio st sv ->
  exists l, mResourceList r = Some l /\ mLinkerInUse l = REQUEST_DL_NR /\ is_dll (st_links (sv_store sv)) l xs.
Proof.
  intros [_ _ Hl Hne _ _ _]. unfold req_list in Hl. destruct (mResourceList r) as [l|]; [|done].
  destruct Hl. by exists l.
Qed.

(** A tune request taken from the queue: its nodes are in the table, and its status is complete. *)
Lemma consume_tune_applied p r xs prio st sv pend pend' :
  tuning p r xs prio st sv -> has_flag st REQ_CANCELLED = false -> has_flag st REQ_COMPLETED = false ->
  table_ok reg mode (sv_world sv) pend -> live (sv_store sv) xs <> [] ->
  op_steps reg mode (sv_world sv) pend (map (fun x => OpInsert x prio) (live (sv_store sv) xs)) pend' ->
  (mDuration (req_msg r) = -1 \/ 0 < mDuration (req_msg r) /\ tb = true /\ tp = Some true) ->
  exists w' evs, consume_request reg mode tb tp p sv =
      Ok (sv_set_requests (<[p := setTimer (request_timer tp (mDuration (req_msg r))) r]> (sv_requests sv))
            (sv_set_world w' (sv_set_manager (markRequestAsComplete (getHandle (req_msg r)) (sv_manager sv)) sv))) /\
    events w' = events (sv_world sv) ++ evs /\ table_ok reg mode w' pend' /\ same_nodes (sv_world sv) w' /\
    carried reg mode (sv_store sv) pend evs pend' /\ Forall (good_event reg (sv_store sv)) evs.
Proof.
  intros Ht Hc Hn Hi Hlv Hs Hdur. destruct (tuning_list _ _ _ _ _ _ Ht) as (l & El & Hk & Hd).
  destruct Ht as [Hreq Hty _ Hne Hprio Ha _].
  destruct (insertRequest_ok wf reg mode Hwf (sv_world sv) pend pend' r l xs prio tb tp)
    as (w' & evs & E & Hev & Hi' & Hsn & Hca & Hgood); try done; [by destruct Hdur as [?|(_ & ? & _)]; auto|].
  exists w', evs. split; [|done]. unfold consume_request, request_at. cbn [deref mbind result_bind].
  rewrite Hreq. cbn [of_option mbind result_bind]. rewrite Hty. unfold consume_tune.
  rewrite (status_active _ _ _ Ha). cbn [snd]. rewrite Hc, Hn. cbn [orb sv_set_manager sv_world]. rewrite E.
  cbn [mbind result_bind deref].
  assert ((mDuration (req_msg r) =? -1) || (mDuration (req_msg r) >? 0) && bool_decide (tp = Some true) = true)
    as ->; [|done].
  destruct Hdur as [->|(Hpos & _ & ->)]; [done|]. apply orb_true_iff. right.
  rewrite bool_decide_eq_true_2, andb_true_r by done. zb. lia.
Qed.

Lemma table_ok_disjoint w pend : table_ok reg mode w pend -> disjoint_lists pend.
Proof. intros Hi%table_ok_rows i j i' j' x; [|done..]. apply (wf_disjoint _ _ (ro_wf _ _ _ _ Hi)). Qed.

(** An untune request taken from the queue, of a request that is in the table: its nodes leave the
    table, both requests and the nodes are freed, and the handle is forgotten. *)
Lemma consume_untune_applied p u r ru xs prio st sv pend d :
  tuning p r xs prio st sv -> p <> u ->
  sv_requests sv !! u = Some ru -> is_type ru REQ_RESOURCE_UNTUNING = true -> mResourceList ru = None ->
  getHandle (req_msg ru) = getHandle (req_msg r) ->
  has_flag st REQ_COMPLETED = true -> has_flag st REQ_NOT_FOUND = false ->
  live_tid (getClientTID (req_msg r)) d (sv_clients sv) ->
  table_ok reg mode (sv_world sv) pend -> NoDup xs ->
  Forall (pending_at reg mode (sv_world sv) pend prio) (live (sv_store sv) xs) ->
  (forall i j x, x ∈ pend i j -> x ∈ xs -> x ∈ live (sv_store sv) xs) ->
  exists w' s' evs, consume_request reg mode tb tp u sv =
      Ok (mkServer (set_store s' w') (delete p (delete u (sv_requests sv)))
            (put_tid (getClientTID (req_msg r))
               (with_handles (mClientHandles d ∖ {[getHandle (req_msg r)]}) d) (sv_clients sv))
            (set_active (delete (getHandle (req_msg r)) (mActiveRequests (sv_manager sv))) (sv_manager sv))
            (sv_queue sv) (sv_target sv)) /\
    events w' = events (sv_world sv) ++ evs /\ table_ok reg mode (set_store s' w') (without (live (sv_store sv) xs) pend) /\
    same_nodes (sv_world sv) w' /\ (carried reg mode (sv_store sv) pend evs (without (live (sv_store sv) xs) pend) /\
      Forall (good_event reg (sv_store sv)) evs) /\
    st_links s' = st_links (store w') /\ st_freed s' = list_to_set xs ∪ st_freed (sv_store sv) /\
    (forall y, st_data s' !! y = if decide (y ∈ xs) then None else st_data (sv_store sv) !! y).
Proof.
  intros Ht Hpu Hu Htu Hlu Hh Hc Hf Hd Hi Hnd Hall Honly.
  destruct (tuning_list _ _ _ _ _ _ Ht) as (l & El & Hk & Hdl).
  destruct Ht as [Hreq Hty Hl Hne Hprio Ha _].
  destruct (removal_steps reg mode (sv_world sv) prio (live (sv_store sv) xs) pend (live_NoDup _ _ Hnd) (table_ok_disjoint _ _ Hi) Hall)
    as (pend' & Hs & Hsame).
  destruct (removeRequest_ok wf reg mode Hwf (sv_world sv) pend pend' r l xs prio)
    as (w' & evs & E & Hev & Hi' & Hsn & Hca & Hgood); try done.
  unfold consume_request, request_at. cbn [deref mbind result_bind]. rewrite Hu.
  cbn [of_option mbind result_bind]. rewrite (is_type_other ru) by (unfold is_other; by rewrite Htu).
  rewrite Hh, (getRequest_active _ _ _ Ha), Hf, Htu. unfold consume_untune. rewrite Hc. cbn [negb].
  unfold request_at. cbn [deref mbind result_bind]. rewrite Hreq. cbn [of_option mbind result_bind].
  rewrite E. cbn [mbind result_bind]. unfold RequestManager.removeRequest.
  cbn [sv_set_world sv_clients sv_manager]. rewrite (deleteRequest_live _ _ _ _ Hd). cbn [mbind result_bind].
  rewrite (cleanUp_plain u ru) by done. cbn [mbind result_bind].
  match goal with |- context [cleanUp p ?sv1] =>
    destruct (cleanUp_ok p r xs sv1) as (s' & -> & Hs' & Hlk & Hfr);
      [cbn; by rewrite lookup_delete_ne|cbn; by apply (req_list_nodes (sv_world sv))|] end.
  destruct (clearResources_spec (store w') r xs) as (s2 & r2 & E2 & _ & _ & _ & Hdata);
    [by apply (req_list_nodes (sv_world sv))|].
  assert (s2 = s') as ->.
  { change (cleanUpRequest (store w') (Some r) = Ok (s', xs)) in Hs'. unfold cleanUpRequest in Hs'.
    rewrite E2 in Hs'. by injection Hs'. }
  rewrite (sn_data _ _ Hsn) in Hdata. change (st_freed s' = list_to_set xs ∪ st_freed (store w')) in Hfr. rewrite (sn_freed _ _ Hsn) in Hfr.
  exists w', s', evs. split; [done|]. split; [done|]. split; [|split; [done|split; [|done]]].
  - change (st_links s' = st_links (store w')) in Hlk. apply (table_ok_frame reg mode w' s').
    + intros i j x [Hx Hin]%without_elem. assert (x ∉ xs) as Hxs by (intros ?; by eapply Hx, Honly).
      rewrite Hdata, decide_False, (sn_data _ _ Hsn), Hlk by done. done.
    + by eapply table_ok_same.
  - split; [|done]. intros code i conf cb tb' Hg. etrans; [exact (Hca _ _ _ _ _ Hg)|]. apply leader_same. intros j. apply Hsame.
Qed.

(** A request whose timer does not start: its nodes are in the table by then, and are freed there. *)
Lemma consume_tune_refused p r xs prio st sv pend pend' d :
  tuning p r xs prio st sv -> has_flag st REQ_CANCELLED = false -> has_flag st REQ_COMPLETED = false ->
  live_tid (getClientTID (req_msg r)) d (sv_clients sv) ->
  table_ok reg mode (sv_world sv) pend -> live (sv_store sv) xs <> [] ->
  op_steps reg mode (sv_world sv) pend (map (fun x => OpInsert x prio) (live (sv_store sv) xs)) pend' ->
  0 < mDuration (req_msg r) -> tb = true -> tp <> Some true ->
  exists sv' w' s', consume_request reg mode tb tp p sv = Ok sv' /\
    table_ok reg mode w' pend' /\ same_nodes (sv_world sv) w' /\ sv_world sv' = set_store s' w' /\
    st_links s' = st_links (store w') /\ st_freed s' = list_to_set xs ∪ st_freed (sv_store sv) /\
    sv_requests sv' = delete p (sv_requests sv) /\
    mActiveRequests (sv_manager sv') = delete (getHandle (req_msg r)) (mActiveRequests (sv_manager sv)).
Proof.
  intros Ht Hc Hn Hd Hi Hlv Hs Hpos Htb Htp. destruct (tuning_list _ _ _ _ _ _ Ht) as (l & El & Hk & Hdl).
  destruct Ht as [Hreq Hty Hl Hne Hprio Ha _].
  destruct (insertRequest_ok wf reg mode Hwf (sv_world sv) pend pend' r l xs prio tb tp)
    as (w' & evs & E & Hev & Hi' & Hsn & Hca); try done; [by right|].
  unfold consume_request, request_at. cbn [deref mbind result_bind].
  rewrite Hreq. cbn [of_option mbind result_bind]. rewrite Hty. unfold consume_tune.
  rewrite (status_active _ _ _ Ha). cbn [snd]. rewrite Hc, Hn. cbn [orb sv_set_manager sv_world]. rewrite E.
  cbn [mbind result_bind deref].
  assert ((mDuration (req_msg r) =? -1) || (mDuration (req_msg r) >? 0) && bool_decide (tp = Some true) = false) as ->.
  { rewrite bool_decide_eq_false_2, andb_false_r by done. zb. lia. }
  set (r' := setTimer _ r). unfold forget, request_at. cbn [deref mbind result_bind].
  set (sv1 := sv_set_requests _ _). assert (sv_requests sv1 !! p = Some r') as Hp1 by apply lookup_insert_eq.
  rewrite Hp1. cbn [of_option mbind result_bind]. unfold RequestManager.removeRequest.
  change (sv_clients sv1) with (sv_clients sv). change (getClientTID (req_msg r')) with (getClientTID (req_msg r)).
  rewrite (deleteRequest_live _ _ _ _ Hd). cbn [mbind result_bind].
  match goal with |- context [cleanUp p ?sv2] =>
    destruct (cleanUp_ok p r' xs sv2 Hp1 (req_list_nodes (sv_world sv) w' r xs Hsn Hl)) as (s' & E' & _ & Hlk & Hfr) end.
  eexists _, w', s'. split; [exact E'|]. split; [done|]. split; [done|]. split; [done|]. split; [exact Hlk|].
  split; [etrans; [exact Hfr|]; f_equal; apply (sn_freed _ _ Hsn)|]. split.
  - cbn. by rewrite delete_insert_eq.
  - cbn. rewrite (markComplete_active _ _ _ Ha). cbn. by rewrite delete_insert_eq.
Qed.

(** A request dropped before it reached the table: cancelled and not complete. *)
Lemma consume_tune_cancelled p r xs prio st sv pend d :
  tuning p r xs prio st sv -> has_flag st REQ_CANCELLED = true ->
  live_tid (getClientTID (req_msg r)) d (sv_clients sv) ->
  table_ok reg mode (sv_world sv) pend -> (forall i j x, x ∈ pend i j -> x ∉ xs) ->
  exists s', consume_request reg mode tb tp p sv =
      Ok (mkServer (set_store s' (sv_world sv)) (delete p (sv_requests sv))
            (put_tid (getClientTID (req_msg r))
               (with_handles (mClientHandles d ∖ {[getHandle (req_msg r)]}) d) (sv_clients sv))
            (set_active (delete (getHandle (req_msg r)) (mActiveRequests (sv_manager sv))) (sv_manager sv))
            (sv_queue sv) (sv_target sv)) /\
    table_ok reg mode (set_store s' (sv_world sv)) pend /\ st_links s' = st_links (sv_store sv) /\
    (forall y, st_data s' !! y = if decide (y ∈ xs) then None else st_data (sv_store sv) !! y).
Proof.
  intros [Hreq Hty Hl Hne Hprio Ha _] Hc Hd Hi Hfree.
  destruct (consume_cancelled reg mode tb tp p r xs sv d st Hreq Hty Hl Hd Ha Hc) as (s' & Es & Hlk & _ & E).
  destruct (clearResources_spec (sv_store sv) r xs Hl) as (s2 & r2 & E2 & _ & _ & _ & Hdata).
  unfold cleanUpRequest in Es. rewrite E2 in Es. injection Es as ->.
  exists s'. split; [exact E|]. split; [|done]. apply (table_ok_frame reg mode (sv_world sv) s'); [|done].
  intros i j x Hx. rewrite Hdata, decide_False by (by eapply Hfree). by rewrite Hlk.
Qed.

(** ** The server over its whole life *)

(** A node that can be inserted at [prio]. *)
Definition tunable (w : World) (prio : nat) (x : positive) : Prop :=
  exists r i conf cb tb, st_data (store w) !! x = Some r /\ res_ok r /\ getResAction r <> RES_SKIP /\
    is_global reg mode (getResCode r) i conf cb tb /\ (prio < 4)%nat /\ is_Some (link_at (st_links (store w)) 1 x).

Lemma insertion_steps w prio : forall xs pend, NoDup xs -> Forall (tunable w prio) xs ->
  (forall x, x ∈ xs -> forall i j, x ∉ pend i j) ->
  exists pend', op_steps reg mode w pend (map (fun x => OpInsert x prio) xs) pend'.
Proof.
  induction xs as [|x xs IH]; intros pend Hnd Hall Hfresh; [exists pend; constructor|].
  apply NoDup_cons in Hnd as [Hx Hnd].
  apply Forall_cons in Hall as [(r & i & conf & cb & tb' & Hr & Hok & Ha & Hg & Hp & Hlk) Hall].
  destruct (IH (upd pend i prio (policy_list (mPolicy conf) (store w) x (pend i prio))) Hnd Hall) as (pend' & Hs).
  { intros y Hy i' j' Hin. apply (Hfresh y ltac:(by right) i' j').
    destruct (decide (i' = i /\ j' = prio)) as [[-> ->]|Hne]; [|by rewrite upd_ne in Hin].
    rewrite upd_eq, policy_list_Permutation in Hin. apply elem_of_cons in Hin as [->|Hin]; done. }
  exists pend'. eapply steps_cons; [|exact Hs]. eapply step_insert; try done.
  split; try done. intros i' j'. apply Hfresh. by left.
Qed.

(** What the consumer can take next: a tune request that is neither cancelled nor complete, with a node
    that is not skipped, whose nodes can be inserted unless they are skipped, and whose timer, if it
    needs one, starts; one that was cancelled before it
    was complete; an untune request of a complete one; a retune request, of one that has a timer if
    it is complete; an untune request of one that is unknown or
    not complete. *)
Inductive consumable (sv : Server) : positive -> Prop :=
  | fresh_tune p r xs prio st : tuning p r xs prio st sv ->
      has_flag st REQ_CANCELLED = false -> has_flag st REQ_COMPLETED = false ->
      NoDup xs -> live (sv_store sv) xs <> [] -> Forall (tunable (sv_world sv) prio) (live (sv_store sv) xs) ->
      (mDuration (req_msg r) = -1 \/ 0 < mDuration (req_msg r) /\ tb = true /\ tp = Some true) -> consumable sv p
  | dropped_tune p r xs prio st : tuning p r xs prio st sv ->
      has_flag st REQ_CANCELLED = true -> has_flag st REQ_COMPLETED = false -> consumable sv p
  | late_untune p u r ru xs prio st : tuning p r xs prio st sv ->
      sv_requests sv !! u = Some ru -> is_type ru REQ_RESOURCE_UNTUNING = true -> mResourceList ru = None ->
      getHandle (req_msg ru) = getHandle (req_msg r) ->
      has_flag st REQ_COMPLETED = true -> has_flag st REQ_NOT_FOUND = false -> consumable sv u
  | retune p u r ru xs prio st : tuning p r xs prio st sv ->
      sv_requests sv !! u = Some ru -> is_type ru REQ_RESOURCE_RETUNING = true -> mResourceList ru = None ->
      getHandle (req_msg ru) = getHandle (req_msg r) -> has_flag st REQ_NOT_FOUND = false ->
      (has_flag st REQ_COMPLETED = true -> is_Some (mTimer r)) -> consumable sv u
  | early_untune u ru : sv_requests sv !! u = Some ru -> is_type ru REQ_RESOURCE_UNTUNING = true ->
      mResourceList ru = None ->
      match mActiveRequests (sv_manager sv) !! getHandle (req_msg ru) with
      | None => True
      | Some (_, st) => has_flag st REQ_COMPLETED = false
      end -> consumable sv u.

(** Different requests have different nodes. *)
Definition server_disjoint (sv : Server) : Prop := forall p q r r' xs ys prio prio' st st',
  tuning p r xs prio st sv -> tuning q r' ys prio' st' sv -> p <> q -> xs ## ys.

(** Everything else that happens between two turns of the consumer, seen from the table: requests
    arrive with nodes of their own, and requests are cancelled or change their duration.
    [admitted_traffic], [cancelled_traffic] and [retuned_traffic] below are such steps, and so is the whole of
    [processIncomingRequest] ([stage_traffic] of Intake.v). *)
Record traffic (sv sv' : Server) : Prop := {
  tr_table : coco (sv_world sv') = coco (sv_world sv) /\ events (sv_world sv') = events (sv_world sv);
  tr_keep : forall q r xs prio st, tuning q r xs prio st sv ->
    exists r' st', tuning q r' xs prio st' sv' /\ has_flag st' REQ_COMPLETED = has_flag st REQ_COMPLETED;
  tr_new : forall q r xs prio st, tuning q r xs prio st sv' -> has_flag st REQ_COMPLETED = true ->
    exists r' st', tuning q r' xs prio st' sv /\ has_flag st' REQ_COMPLETED = true;
  tr_nodes : forall q r xs prio st x, tuning q r xs prio st sv -> has_flag st REQ_COMPLETED = true -> x ∈ xs ->
    st_data (sv_store sv') !! x = st_data (sv_store sv) !! x /\
    forall k, link_at (st_links (sv_store sv')) k x = link_at (st_links (sv_store sv)) k x;
  tr_disjoint : server_disjoint sv'
}.


Inductive server_step : Server * View -> Server * View -> Prop :=
  | consumes u sv sv' evs v : consumable sv u -> consume_request reg mode tb tp u sv = Ok sv' ->
      events (sv_world sv') = events (sv_world sv) ++ evs ->
      server_step (sv, v) (sv', fun code => foldl (effect_step (sv_store sv) code) (v code) evs)
  | moves sv sv' v : traffic sv sv' -> server_step (sv, v) (sv', v).

(** The invariant: the nodes in the table are those of the complete requests that are not skipped, each
    in its list. *)
Record server_ok (sv : Server) (pend : Pending) : Prop := {
  so_table : table_ok reg mode (sv_world sv) pend;
  so_owner : forall i j x, x ∈ pend i j -> exists p r xs prio st, tuning p r xs prio st sv /\
    has_flag st REQ_COMPLETED = true /\ x ∈ live (sv_store sv) xs;
  so_pending : forall p r xs prio st, tuning p r xs prio st sv -> has_flag st REQ_COMPLETED = true ->
    NoDup xs /\ Forall (pending_at reg mode (sv_world sv) pend prio) (live (sv_store sv) xs);
  so_disjoint : server_disjoint sv
}.

(** *** Requests the step is not about *)
Lemma dlseg_unique h k : forall xs ys p p', head xs = head ys -> length xs = length ys ->
  dlseg h k p xs None -> dlseg h k p' ys None -> xs = ys.
Proof.
  induction xs as [|x xs IH]; intros [|y ys] p p' Hh Hlen Hx Hy; try done.
  injection Hh as ->. destruct Hx as [Ex Hx], Hy as [Ey Hy]. rewrite Ex in Ey. injection Ey as En _.
  f_equal. apply (IH ys (Some y) (Some y)); [|by injection Hlen|done|done].
  by rewrite !hd_or_head in En.
Qed.

Lemma req_list_unique s r xs ys : req_list s r xs -> req_list s r ys -> xs = ys.
Proof.
  unfold req_list. destruct (mResourceList r) as [l|]; [|congruence]. intros [_ Hx] [_ Hy].
  eapply dlseg_unique; [by rewrite <- (dll_head _ _ _ Hx), (dll_head _ _ _ Hy)| |apply Hx|apply Hy].
  apply Nat2Z.inj. by rewrite <- (dll_size _ _ _ Hx), (dll_size _ _ _ Hy).
Qed.

Lemma tuning_unique p r r' xs xs' prio prio' st st' sv : tuning p r xs prio st sv -> tuning p r' xs' prio' st' sv ->
  r' = r /\ xs' = xs /\ prio' = prio /\ st' = st.
Proof.
  intros [A1 _ A3 _ A5 A6 _] [B1 _ B3 _ B5 B6 _]. assert (r' = r) as -> by congruence.
  split_and!; [done|by eapply req_list_unique|apply Nat2Z.inj; congruence|congruence].
Qed.

(** The two states differ for the requests in [out] and the handle [h] only. *)
Record others (out : list positive) (h : Z) (sv sv' : Server) : Prop := {
  ot_requests : forall q, q ∉ out -> sv_requests sv' !! q = sv_requests sv !! q;
  ot_active : forall k, k <> h -> mActiveRequests (sv_manager sv') !! k = mActiveRequests (sv_manager sv) !! k;
  ot_links : forall y, link_at (st_links (sv_store sv')) 0 y = link_at (st_links (sv_store sv)) 0 y;
  ot_live : forall tid, (exists d, live_tid tid d (sv_clients sv)) <-> (exists d, live_tid tid d (sv_clients sv'))
}.

Lemma others_tuning out h sv sv' q r xs prio st : others out h sv sv' -> q ∉ out ->
  getHandle (req_msg r) <> h -> tuning q r xs prio st sv <-> tuning q r xs prio st sv'.
Proof.
  intros [O1 O2 O3 O4] Hq Hh.
  assert (req_list (sv_store sv) r xs <-> req_list (sv_store sv') r xs) as Hl.
  { unfold req_list. destruct (mResourceList r) as [l|]; [|done].
    split; intros [Hk Hd]; (split; [done|]); (eapply is_dll_frame; [|exact Hd]); intros y _; rewrite Hk; [|symmetry]; apply O3. }
  split; intros [A1 A2 A3 A4 A5 A6 A7]; split; try done.
  - by rewrite O1.
  - by apply Hl.
  - by rewrite O2.
  - by apply O4.
  - by rewrite <- O1.
  - by apply Hl.
  - by rewrite <- O2.
  - by apply O4.
Qed.

Lemma put_tid_live tid d d' c tid' : live_tid tid d c ->
  (exists e, live_tid tid' e c) <-> (exists e, live_tid tid' e (put_tid tid d' c)).
Proof.
  unfold live_tid, put_tid, set_tids. cbn. intros Hd. destruct (decide (tid = tid')) as [<-|Hne].
  - rewrite lookup_insert_eq. split; eauto.
  - by rewrite lookup_insert_ne.
Qed.

(** Two requests of different blocks have different handles. *)
Lemma tuning_handles p q r r' xs xs' prio prio' st st' sv : tuning p r xs prio st sv -> tuning q r' xs' prio' st' sv ->
  p <> q -> getHandle (req_msg r') <> getHandle (req_msg r).
Proof. intros [_ _ _ _ _ A _] [_ _ _ _ _ B _] Hne Heq. rewrite Heq in B. congruence. Qed.

Lemma or_completed_flag i : has_flag (or_status REQ_COMPLETED i).2 REQ_COMPLETED = true.
Proof.
  unfold has_flag, or_status. cbn [snd]. apply negb_true_iff, Z.eqb_neq. intros E.
  apply (f_equal (fun z => Z.testbit z 2)) in E.
  rewrite Z.land_spec, wrap_s_testbit, Z.lor_spec in E by lia. simpl in E. by rewrite orb_true_r in E.
Qed.

(** *** Each kind of turn keeps the invariant *)
Lemma pending_at_mono w w' pend pend' prio x : st_data (store w') !! x = st_data (store w) !! x ->
  (forall i, x ∈ pend i prio -> x ∈ pend' i prio) ->
  pending_at reg mode w pend prio x -> pending_at reg mode w' pend' prio x.
Proof.
  intros Hd Hp (r & i & conf & cb & tb' & H1 & H2 & H3 & H4 & H5). exists r, i, conf, cb, tb'.
  rewrite Hd. split_and!; auto.
Qed.

Lemma freed_data (s s' : Store) (xs : list positive) :
  (forall y, st_data s' !! y = if decide (y ∈ xs) then None else st_data s !! y) -> st_data s' ⊆ st_data s.
Proof. intros H. apply map_subseteq_spec. intros y r. rewrite H. by case_decide. Qed.

(** The nodes of a request that is not complete are in no list. *)
Lemma unapplied_nodes p r xs prio st sv pend : server_ok sv pend -> tuning p r xs prio st sv ->
  has_flag st REQ_COMPLETED = false -> forall x, x ∈ xs -> forall i j, x ∉ pend i j.
Proof.
  intros Hok Hp Hn x Hx i j Hin. destruct (so_owner _ _ Hok i j x Hin) as (q & r' & ys & prio' & st' & Hq & Hc' & Hxy).
  apply live_subseteq in Hxy. destruct (decide (p = q)) as [<-|Hne].
  - destruct (tuning_unique _ _ _ _ _ _ _ _ _ _ Hp Hq) as (-> & -> & -> & ->). congruence.
  - by apply (so_disjoint _ _ Hok p q _ _ _ _ _ _ _ _ Hp Hq Hne x).
Qed.

(** A skipped node is in no list. *)
Lemma listed_live p r xs prio st sv pend : server_ok sv pend -> tuning p r xs prio st sv ->
  forall i j x, x ∈ pend i j -> x ∈ xs -> x ∈ live (sv_store sv) xs.
Proof.
  intros Hok Hp i j x Hx Hxs. destruct (so_owner _ _ Hok i j x Hx) as (q & r' & ys & prio' & st' & _ & _ & [Hsk _]%live_elem).
  by apply live_elem.
Qed.
Lemma without_live p r xs prio st sv pend : server_ok sv pend -> tuning p r xs prio st sv ->
  same_lists (without (live (sv_store sv) xs) pend) (without xs pend).
Proof.
  intros Hok Hp i j. apply filter_notin_ext. intros x Hx. split; [apply live_subseteq|].
  by eapply listed_live.
Qed.

(** What a turn does beside changing the lists: the callbacks it calls, and the nodes it frees. *)
Record turn (sv sv' : Server) (pend : Pending) (evs : list Event) (pend' : Pending) : Prop := {
  tu_events : events (sv_world sv') = events (sv_world sv) ++ evs;
  tu_carried : carried reg mode (sv_store sv) pend evs pend';
  tu_good : Forall (good_event reg (sv_store sv)) evs;
  tu_data : st_data (sv_store sv') ⊆ st_data (sv_store sv)
}.

Lemma tune_turn p r xs prio st sv pend : server_ok sv pend -> tuning p r xs prio st sv ->
  has_flag st REQ_CANCELLED = false -> has_flag st REQ_COMPLETED = false ->
  NoDup xs -> live (sv_store sv) xs <> [] -> Forall (tunable (sv_world sv) prio) (live (sv_store sv) xs) ->
  (mDuration (req_msg r) = -1 \/ 0 < mDuration (req_msg r) /\ tb = true /\ tp = Some true) ->
  exists sv' evs pend', consume_request reg mode tb tp p sv = Ok sv' /\
    server_ok sv' pend' /\ turn sv sv' pend evs pend' /\ same_lists (without (live (sv_store sv) xs) pend') pend /\
    exists r', tuning p r' xs prio (or_status REQ_COMPLETED (Some p, st)).2 sv' /\ req_msg r' = req_msg r /\
      sv_requests sv' = <[p := r']> (sv_requests sv) /\ same_nodes (sv_world sv) (sv_world sv') /\
      sv_queue sv' = sv_queue sv.
Proof.
  intros Hok Hp Hc Hn Hnd Hlv Htun Hdur. pose proof (unapplied_nodes _ _ _ _ _ _ _ Hok Hp Hn) as Hfresh.
  destruct Hok as [Ht Hown Hpend Hdis].
  destruct (insertion_steps (sv_world sv) prio (live (sv_store sv) xs) pend (live_NoDup _ _ Hnd) Htun) as (pend' & Hs).
  { intros x Hx. by apply Hfresh, (live_subseteq (sv_store sv)). }
  destruct (consume_tune_applied p r xs prio st sv pend pend' Hp Hc Hn Ht Hlv Hs Hdur)
    as (w' & evs & E & Hev & Ht' & Hsn & Hca & Hgood).
  destruct (inserted_nodes reg mode (sv_world sv) prio (live (sv_store sv) xs) pend pend' Hs) as (Hsame & Hat & _ & _).
  pose proof Hp as [Hreq Hty Hl Hne Hprio Ha Hcl]. rewrite (markComplete_active _ _ _ Ha) in E.
  set (r1 := setTimer _ r) in E. set (st1 := (or_status REQ_COMPLETED (Some p, st)).2).
  set (sv' := sv_set_requests _ _) in E.
  assert (others [p] (getHandle (req_msg r)) sv sv') as Hoth.
  { split; cbn; [intros q Hq; apply lookup_insert_ne; set_solver|intros k Hk; by apply lookup_insert_ne|apply Hsn|done]. }
  assert (tuning p r1 xs prio st1 sv') as Hp'.
  { split; try done; cbn; [apply lookup_insert_eq|by apply (req_list_nodes (sv_world sv))|apply lookup_insert_eq]. }
  exists sv', evs, pend'. split; [exact E|].
  split; [|split; [split; [done..|]|split; [done|exists r1; by split_and!]]]; last first.
  { change (st_data (store w') ⊆ st_data (store (sv_world sv))). by rewrite (sn_data _ _ Hsn). }
  assert (has_flag st1 REQ_COMPLETED = true) as Hst1 by (apply or_completed_flag).
  assert (forall q r' ys prio' st', q <> p -> tuning q r' ys prio' st' sv' -> tuning q r' ys prio' st' sv) as Hback.
  { intros q r' ys prio' st' Hqp Hq. apply (others_tuning [p] (getHandle (req_msg r)) sv sv'); [done|set_solver| |done].
    by apply (tuning_handles p q _ _ _ _ _ _ _ _ _ Hp' Hq). }
  assert (forall q r' ys prio' st', q <> p -> tuning q r' ys prio' st' sv -> tuning q r' ys prio' st' sv') as Hforth.
  { intros q r' ys prio' st' Hqp Hq. apply (others_tuning [p] (getHandle (req_msg r)) sv sv'); [done|set_solver| |done].
    by apply (tuning_handles p q _ _ _ _ _ _ _ _ _ Hp Hq). }
  assert (forall x i j, x ∈ pend i j -> x ∈ pend' i j) as Hgrow.
  { intros x i j Hx. rewrite <- Hsame in Hx. by apply without_elem in Hx as [_ ?]. }
  assert (forall ys, live (sv_store sv') ys = live (sv_store sv) ys) as Hlive.
  { intros ys. apply (live_nodes (sv_world sv) w' ys Hsn). }
  split; [done| | |].
  - intros i j x Hx. setoid_rewrite Hlive. destruct (decide (x ∈ live (sv_store sv) xs)) as [Hin|Hin].
    + exists p, r1, xs, prio, st1. done.
    + assert (x ∈ pend i j) as Hx' by (rewrite <- Hsame; by apply without_elem).
      destruct (Hown i j x Hx') as (q & r' & ys & prio' & st' & Hq & Hc' & Hxy).
      exists q, r', ys, prio', st'. split; [|done]. apply Hforth; [|done]. intros ->.
      destruct (tuning_unique _ _ _ _ _ _ _ _ _ _ Hp Hq) as (-> & -> & -> & ->). congruence.
  - intros q r' ys prio' st' Hq Hc'. rewrite Hlive. destruct (decide (q = p)) as [->|Hqp].
    + destruct (tuning_unique _ _ _ _ _ _ _ _ _ _ Hp' Hq) as (-> & -> & -> & ->). split; [done|].
      eapply Forall_impl; [exact Hat|]. intros x. apply pending_at_mono; [|done]. cbn. by rewrite (sn_data _ _ Hsn).
    + destruct (Hpend q r' ys prio' st' (Hback _ _ _ _ _ Hqp Hq) Hc') as [Hnd' Hall]. split; [done|].
      eapply Forall_impl; [exact Hall|]. intros x. apply pending_at_mono; [|auto]. cbn. by rewrite (sn_data _ _ Hsn).
  - intros q1 q2 r2 r3 xs2 xs3 prio2 prio3 st2 st3 H1 H2 Hne12.
    destruct (decide (q1 = p)) as [->|N1]; [|destruct (decide (q2 = p)) as [->|N2]; [|by eauto]].
    + destruct (tuning_unique _ _ _ _ _ _ _ _ _ _ Hp' H1) as (-> & -> & -> & ->).
      eapply (Hdis p q2); [exact Hp|apply Hback; [congruence|exact H2]|done].
    + destruct (tuning_unique _ _ _ _ _ _ _ _ _ _ Hp' H2) as (-> & -> & -> & ->).
      eapply (Hdis q1 p); [apply Hback; [done|exact H1]|exact Hp|done].
Qed.

(** The nodes [xs] leave the table with their request. *)
Lemma leaving_ok xs sv sv' pend pend' : server_ok sv pend -> table_ok reg mode (sv_world sv') pend' ->
  same_lists pend' (without xs pend) ->
  (forall q r ys prio st, tuning q r ys prio st sv' -> tuning q r ys prio st sv /\ ys ## xs) ->
  (forall q r ys prio st x, tuning q r ys prio st sv -> has_flag st REQ_COMPLETED = true -> x ∈ ys -> x ∉ xs ->
     tuning q r ys prio st sv') ->
  (forall x, x ∉ xs -> st_data (sv_store sv') !! x = st_data (sv_store sv) !! x) ->
  server_ok sv' pend'.
Proof.
  intros [Ht Hown Hpend Hdis] Ht' Hsame Hback Hforth Hdata. split; [done| | |].
  - intros i j x. rewrite Hsame. intros [Hx Hin]%without_elem.
    destruct (Hown i j x Hin) as (q & r & ys & prio & st & Hq & Hc & [Hsk Hxy]%live_elem).
    exists q, r, ys, prio, st. split; [by apply (Hforth q r ys prio st x)|]. split; [done|]. apply live_elem.
    by rewrite (skipped_data (sv_store sv)) by by apply Hdata.
  - intros q r ys prio st [Hq Hys]%Hback Hc. destruct (Hpend _ _ _ _ _ Hq Hc) as [Hnd Hall]. split; [done|].
    rewrite (live_data (sv_store sv)) by (intros y Hy; apply Hdata; intros ?; by apply (Hys y)).
    rewrite Forall_forall in Hall |- *. intros x Hx.
    assert (x ∉ xs) as Hxs by (intros ?; apply (Hys x); [by eapply live_subseteq|done]).
    eapply pending_at_mono; [by apply Hdata| |by apply Hall]. intros i Hin. rewrite Hsame. by apply without_elem.
  - intros q1 q2 r1 r2 ys1 ys2 prio1 prio2 st1 st2 [H1 _]%Hback [H2 _]%Hback. by eapply Hdis.
Qed.

Lemma not_tuning u ru q r xs prio st sv : sv_requests sv !! u = Some ru -> is_other ru = true ->
  tuning q r xs prio st sv -> q <> u.
Proof.
  intros Hu Htu [Hq Hty _ _ _ _ _] ->. rewrite Hu in Hq. injection Hq as ->.
  by rewrite (is_type_other r Htu) in Hty.
Qed.

(** A request that is forgotten: what is left of the other requests. *)
Lemma forgotten_tuning out h p r xs prio st sv sv' : server_disjoint sv -> tuning p r xs prio st sv ->
  others out (getHandle (req_msg r)) sv sv' -> p ∈ out ->
  (forall q, q ∈ out -> sv_requests sv' !! q = None) -> h = getHandle (req_msg r) ->
  mActiveRequests (sv_manager sv') !! h = None ->
  (forall q r' ys prio' st', tuning q r' ys prio' st' sv -> q ∈ out -> q = p) ->
  (forall q r' ys prio' st', tuning q r' ys prio' st' sv' -> tuning q r' ys prio' st' sv /\ ys ## xs) /\
  (forall q r' ys prio' st', tuning q r' ys prio' st' sv -> q <> p -> tuning q r' ys prio' st' sv').
Proof.
  intros Hdis Hp Hoth Hpo Hout -> Hh Honly. split.
  - intros q r' ys prio' st' Hq. assert (q ∉ out) as Hqo.
    { intros Hin. pose proof (tn_req _ _ _ _ _ _ Hq) as E. by rewrite Hout in E. }
    assert (tuning q r' ys prio' st' sv) as Hq'.
    { apply (others_tuning out (getHandle (req_msg r)) sv sv'); [done..| |done]. intros E.
      pose proof (tn_active _ _ _ _ _ _ Hq) as E'. rewrite E in E'. pose proof (eq_trans (eq_sym Hh) E'). done. }
    split; [done|]. eapply (Hdis q p); [exact Hq'|exact Hp|]. by intros ->.
  - intros q r' ys prio' st' Hq Hqp. apply (others_tuning out (getHandle (req_msg r)) sv sv'); [done| | |done].
    + intros Hin. by apply Hqp, (Honly q r' ys prio' st').
    + eapply tuning_handles; [exact Hp|exact Hq|done].
Qed.

Lemma untune_turn p u r ru xs prio st sv pend : server_ok sv pend -> tuning p r xs prio st sv ->
  sv_requests sv !! u = Some ru -> is_type ru REQ_RESOURCE_UNTUNING = true -> mResourceList ru = None ->
  getHandle (req_msg ru) = getHandle (req_msg r) ->
  has_flag st REQ_COMPLETED = true -> has_flag st REQ_NOT_FOUND = false ->
  exists sv' evs, consume_request reg mode tb tp u sv = Ok sv' /\
    server_ok sv' (without (live (sv_store sv) xs) pend) /\ turn sv sv' pend evs (without (live (sv_store sv) xs) pend) /\
    sv_requests sv' = delete p (delete u (sv_requests sv)) /\
    st_freed (sv_store sv') = list_to_set xs ∪ st_freed (sv_store sv) /\
    mActiveRequests (sv_manager sv') = delete (getHandle (req_msg r)) (mActiveRequests (sv_manager sv)).
Proof.
  intros Hok Hp Hu Htu Hlu Hh Hc Hf. assert (is_other ru = true) as Ho by (unfold is_other; by rewrite Htu).
  pose proof (tn_client _ _ _ _ _ _ Hp) as [d Hd].
  destruct (so_pending _ _ Hok _ _ _ _ _ Hp Hc) as [Hnd Hall].
  pose proof (not_tuning _ _ _ _ _ _ _ _ Hu Ho Hp) as Hpu.
  destruct (consume_untune_applied p u r ru xs prio st sv pend d)
    as (w' & s' & evs & E & Hev & Ht' & Hsn & [Hca Hgood] & Hlk & Hfr & Hdata); try done; [apply Hok|by eapply listed_live|].
  eexists _, evs. split; [exact E|]. split; [|split; [|done]]; last first.
  { split; [done..|]. by eapply freed_data. } set (sv' := mkServer _ _ _ _ _ _).
  assert (others [p; u] (getHandle (req_msg r)) sv sv') as Hoth.
  { split; cbn.
    - intros q Hq. by rewrite !lookup_delete_ne by set_solver.
    - intros k Hk. by apply lookup_delete_ne.
    - intros y. rewrite Hlk. apply Hsn.
    - intros tid. by apply (put_tid_live _ d). }
  destruct (forgotten_tuning [p; u] (getHandle (req_msg r)) p r xs prio st sv sv') as [Hback Hforth]; try done.
  - apply Hok.
  - by left.
  - cbn. intros q [->|[->|[]%elem_of_nil]%elem_of_cons]%elem_of_cons; [apply lookup_delete_eq|].
    rewrite lookup_delete_ne by done. apply lookup_delete_eq.
  - cbn. apply lookup_delete_eq.
  - intros q r' ys prio' st' Hq [->|[->|[]%elem_of_nil]%elem_of_cons]%elem_of_cons; [done|].
    by destruct (not_tuning _ _ _ _ _ _ _ _ Hu Ho Hq).
  - apply (leaving_ok xs sv sv' pend); [done|exact Ht'|by eapply without_live|done| |].
    + intros q r' ys prio' st' x Hq _ Hx Hxs. apply Hforth; [done|]. intros ->.
      by destruct (tuning_unique _ _ _ _ _ _ _ _ _ _ Hp Hq) as (-> & -> & -> & ->).
    + intros x Hx. change (st_data s' !! x = st_data (sv_store sv) !! x). by rewrite Hdata, decide_False.
Qed.

Lemma dropped_turn p r xs prio st sv pend : server_ok sv pend -> tuning p r xs prio st sv ->
  has_flag st REQ_CANCELLED = true -> has_flag st REQ_COMPLETED = false ->
  exists sv', consume_request reg mode tb tp p sv = Ok sv' /\ turn sv sv' pend [] pend /\ server_ok sv' pend.
Proof.
  intros Hok Hp Hc Hn. pose proof (tn_client _ _ _ _ _ _ Hp) as [d Hd].
  assert (forall i j x, x ∈ pend i j -> x ∉ xs) as Hfree.
  { intros i j x Hx Hxs. by eapply unapplied_nodes. }
  destruct (consume_tune_cancelled p r xs prio st sv pend d) as (s' & E & Ht' & Hlk & Hdata); try done; [apply Hok|].
  eexists. split; [exact E|]. split.
  { split; [by rewrite app_nil_r|done|done|]. by eapply freed_data. }
  set (sv' := mkServer _ _ _ _ _ _).
  assert (others [p] (getHandle (req_msg r)) sv sv') as Hoth.
  { split; cbn.
    - intros q Hq. by rewrite lookup_delete_ne by set_solver.
    - intros k Hk. by apply lookup_delete_ne.
    - intros y. by rewrite Hlk.
    - intros tid. by apply (put_tid_live _ d). }
  destruct (forgotten_tuning [p] (getHandle (req_msg r)) p r xs prio st sv sv') as [Hback Hforth]; try done.
  - apply Hok.
  - by left.
  - cbn. intros q ->%list_elem_of_singleton. apply lookup_delete_eq.
  - cbn. apply lookup_delete_eq.
  - by intros q r' ys prio' st' Hq ->%list_elem_of_singleton.
  - apply (leaving_ok xs sv sv' pend); [done|exact Ht'| |done| |].
    + intros i j. symmetry. apply filter_notin_id. eauto.
    + intros q r' ys prio' st' x Hq Hc' Hx Hxs. apply Hforth; [done|]. intros ->.
      by destruct (tuning_unique _ _ _ _ _ _ _ _ _ _ Hp Hq) as (-> & -> & -> & ->).
    + intros x Hx. change (st_data s' !! x = st_data (sv_store sv) !! x). by rewrite Hdata, decide_False.
Qed.

(** A request that is not a tune request is freed. *)
Lemma other_freed u ru sv pend : server_ok sv pend -> sv_requests sv !! u = Some ru -> is_other ru = true ->
  server_ok (sv_set_requests (delete u (sv_requests sv)) sv) pend.
Proof.
  intros Hok Hu Ho. set (sv' := sv_set_requests _ _).
  apply (leaving_ok [] sv sv' pend); [done|apply Hok|symmetry; apply without_nil| | |done].
  - intros q r xs prio st [B1 B2 B3 B4 B5 B6 B7]. split; [|set_solver]. split; try done.
    cbn in B1. by apply lookup_delete_Some in B1 as [_ ?].
  - intros q r xs prio st x Hq _ _ _. pose proof (not_tuning _ _ _ _ _ _ _ _ Hu Ho Hq) as Hne.
    destruct Hq as [B1 B2 B3 B4 B5 B6 B7]. split; try done. cbn. by rewrite lookup_delete_ne.
Qed.

(** What happens between two turns keeps it too. *)
Lemma traffic_ok sv sv' pend : server_ok sv pend -> traffic sv sv' -> server_ok sv' pend.
Proof.
  intros [Ht Hown Hpend Hdis] [[Hco Hev] Hkeep Hnew Hnodes Hdis']. split; [| | |done].
  - assert (sv_world sv' = mkWorld (sv_store sv') (coco (sv_world sv)) (events (sv_world sv))) as ->.
    { rewrite <- Hco, <- Hev. by destruct sv' as [[] ? ? ? ? ?]. }
    apply table_ok_frame; [|done]. intros i j x Hx.
    destruct (Hown i j x Hx) as (q & r & xs & prio & st & Hq & Hc & Hin%live_subseteq). by eapply Hnodes.
  - intros i j x Hx. destruct (Hown i j x Hx) as (q & r & xs & prio & st & Hq & Hc & Hin).
    destruct (Hkeep _ _ _ _ _ Hq) as (r' & st' & Hq' & Hc'). exists q, r', xs, prio, st'. rewrite Hc'.
    split; [done|]. split; [done|]. by rewrite (live_data (sv_store sv)) by (intros y Hy; by eapply Hnodes).
  - intros q r xs prio st Hq Hc. destruct (Hnew _ _ _ _ _ Hq Hc) as (r' & st' & Hq' & Hc').
    destruct (Hpend _ _ _ _ _ Hq' Hc') as [Hnd Hall]. split; [done|].
    rewrite (live_data (sv_store sv)) by (intros y Hy; by eapply Hnodes). rewrite Forall_forall in Hall |- *.
    intros x Hx. eapply pending_at_mono; [|done|by apply Hall]. eapply Hnodes; [exact Hq'|exact Hc'|].
    by eapply live_subseteq.
Qed.

(** *** Traffic *)

(** The two requests differ in their durations and timers only. *)
Definition same_but_timing (r r' : Request) : Prop :=
  mResourceList r' = mResourceList r /\ exists d, req_msg r' = setDuration d (req_msg r).

Lemma same_but_timing_sym r r' : same_but_timing r r' -> same_but_timing r' r.
Proof.
  intros (Hl & d & Hm). split; [done|]. exists (mDuration (req_msg r)). rewrite Hm. by destruct (req_msg r).
Qed.

Lemma rewritten_tuning t r0 r1 sv q r xs prio st : sv_requests sv !! t = Some r0 -> same_but_timing r0 r1 ->
  tuning q r xs prio st sv -> exists r', tuning q r' xs prio st (sv_set_requests (<[t := r1]> (sv_requests sv)) sv).
Proof.
  intros Ht (Hl & d & Hm) [B1 B2 B3 B4 B5 B6 B7]. destruct (decide (t = q)) as [->|Hne].
  - rewrite Ht in B1. injection B1 as ->. exists r1. split; cbn; rewrite ?Hm; try done.
    + by rewrite lookup_insert_eq.
    + unfold is_type. by rewrite Hm.
    + unfold req_list. by rewrite Hl.
  - exists r. split; cbn; try done. by rewrite lookup_insert_ne.
Qed.

Lemma retuned_traffic t r0 r1 sv : server_disjoint sv -> sv_requests sv !! t = Some r0 -> same_but_timing r0 r1 ->
  traffic sv (sv_set_requests (<[t := r1]> (sv_requests sv)) sv).
Proof.
  intros Hdis Ht Hsame. set (sv' := sv_set_requests _ _).
  assert (forall q r xs prio st, tuning q r xs prio st sv' -> exists r', tuning q r' xs prio st sv) as Hback.
  { intros q r xs prio st Hq.
    destruct (rewritten_tuning t r1 r0 sv' q r xs prio st) as [r' Hr'];
      [cbn; by rewrite lookup_insert_eq|by apply same_but_timing_sym|done|].
    exists r'. cbn in Hr'. rewrite insert_insert_eq, insert_id in Hr' by done. by destruct sv. }
  split; try done.
  - intros q r xs prio st Hq. destruct (rewritten_tuning t r0 r1 sv q r xs prio st Ht Hsame Hq) as [r' Hr'].
    by exists r', st.
  - intros q r xs prio st Hq Hc. destruct (Hback _ _ _ _ _ Hq) as [r' Hr']. by exists r', st.
  - intros p q r r' xs ys prio prio' st st' H1 H2 Hne.
    destruct (Hback _ _ _ _ _ H1) as [r2 H1'], (Hback _ _ _ _ _ H2) as [r3 H2']. by eapply Hdis.
Qed.

Lemma has_completed s : has_flag s REQ_COMPLETED = Z.testbit s 2.
Proof.
  unfold has_flag. assert (Z.land s REQ_COMPLETED = if Z.testbit s 2 then 4 else 0) as ->; [|by destruct (Z.testbit s 2)].
  apply Z.bits_inj'. intros i Hi. rewrite Z.land_spec. change REQ_COMPLETED with (2 ^ 2). rewrite Z.pow2_bits_eqb by lia.
  destruct (Z.eqb_spec 2 i) as [<-|Hne].
  - rewrite andb_true_r. by destruct (Z.testbit s 2).
  - rewrite andb_false_r. destruct (Z.testbit s 2); [|by rewrite Z.testbit_0_l].
    change 4 with (2 ^ 2). symmetry. by apply Z.pow2_bits_false.
Qed.

Lemma or_cancelled_completed i : has_flag (or_status REQ_CANCELLED i).2 REQ_COMPLETED = has_flag i.2 REQ_COMPLETED.
Proof.
  rewrite !has_completed. unfold or_status. cbn [snd]. rewrite wrap_s_testbit, Z.lor_spec by lia.
  change REQ_CANCELLED with 2. by rewrite orb_false_r.
Qed.

(** An untune request that arrives cancels the request of its handle. *)
Lemma cancelled_traffic h ok rm sv : server_disjoint sv -> disableRequestProcessing h (sv_manager sv) = Ok (ok, rm) ->
  traffic sv (sv_set_manager rm sv).
Proof.
  intros Hdis E.
  assert (forall k, mActiveRequests rm !! k = if decide (k = h) then or_status REQ_CANCELLED <$> mActiveRequests (sv_manager sv) !! k
            else mActiveRequests (sv_manager sv) !! k) as Hrm.
  { intros k. unfold disableRequestProcessing in E. destruct (mActiveRequests (sv_manager sv) !! h) as [i|] eqn:Eh.
    - injection E as <- <-. cbn. case_decide as Hk; [subst k|by apply lookup_insert_ne].
      by rewrite lookup_insert_eq, Eh.
    - destruct (MinLRUCache_insert _ _) as [c|]; [|done]. injection E as <- <-. cbn.
      case_decide as Hk; [subst k|done]. by rewrite Eh. }
  split; [done| | |done|].
  - intros q r xs prio st [B1 B2 B3 B4 B5 B6 B7].
    exists r, (if decide (getHandle (req_msg r) = h) then (or_status REQ_CANCELLED (Some q, st)).2 else st). split.
    + split; try done. cbn. rewrite Hrm. case_decide; rewrite B6; done.
    + case_decide; [|done]. apply or_cancelled_completed.
  - intros q r xs prio st [B1 B2 B3 B4 B5 B6 B7] Hc. cbn in B6. rewrite Hrm in B6. case_decide.
    + destruct (mActiveRequests (sv_manager sv) !! _) as [[q' st']|] eqn:Eq; [|done]. injection B6 as -> <-.
      exists r, st'. split; [by split|]. etrans; [symmetry; apply (or_cancelled_completed (Some q, st'))|exact Hc].
    + by exists r, st.
  - assert (forall q r xs prio st, tuning q r xs prio st (sv_set_manager rm sv) -> exists st', tuning q r xs prio st' sv) as Hback.
    { intros q r xs prio st [B1 B2 B3 B4 B5 B6 B7]. cbn in B6. rewrite Hrm in B6. case_decide; [|by exists st].
      destruct (mActiveRequests (sv_manager sv) !! _) as [[q' st']|] eqn:Eq; [|done]. injection B6 as -> <-. by exists st'. }
    intros q1 q2 r1 r2 xs ys prio1 prio2 st1 st2 H1 H2 Hne.
    destruct (Hback _ _ _ _ _ H1) as [st3 H1'], (Hback _ _ _ _ _ H2) as [st4 H2']. by eapply Hdis.
Qed.

(** A tune request that arrives, with nodes of its own, and is admitted by the manager. *)
Lemma admitted_traffic maxReq p r xs s' rm c q sv : server_disjoint sv ->
  sv_requests sv !! p = None -> req_list s' r xs ->
  (forall q r' st, sv_requests sv !! q = Some r' ->
     mActiveRequests (sv_manager sv) !! getHandle (req_msg r') = Some ((Some q, st) : RequestInfo) ->
     exists ys, req_list (sv_store sv) r' ys /\ ys ## xs) ->
  (forall y, y ∉ xs -> st_data s' !! y = st_data (sv_store sv) !! y /\
     forall k, link_at (st_links s') k y = link_at (st_links (sv_store sv)) k y) ->
  addRequest maxReq (<[p := r]> (sv_requests sv)) (Some p) (sv_manager sv) (sv_clients sv) = Ok (true, rm, c) ->
  traffic sv (mkServer (set_store s' (sv_world sv)) (<[p := r]> (sv_requests sv)) c rm q (sv_target sv)).
Proof.
  intros Hdis Hp Hxs Hnew Hs E. set (sv' := mkServer _ _ _ _ _ _).
  unfold addRequest in E. destruct (at_capacity _ _); [done|]. unfold request_at in E. cbn [deref mbind result_bind] in E.
  rewrite lookup_insert_eq in E. cbn [of_option mbind result_bind] in E.
  destruct (mActiveRequests (sv_manager sv) !! getHandle (req_msg r)) as [|] eqn:Eh; [done|].
  destruct (MinLRUCache_isPresent _ _); [done|]. destruct (chk_s 64 _) as [total|]; [|done].
  cbn [mbind result_bind] in E. injection E as <- <-.
  assert (forall tid, (exists d, live_tid tid d (sv_clients sv)) <-> exists d, live_tid tid d (sv_clients sv')) as Hlive.
  { intros tid. cbn. unfold insertRequestByClientId, map_index, live_tid, set_tids.
    destruct (mClientTidRepo (sv_clients sv) !! getClientTID (req_msg r)) as [[d|]|] eqn:Ed; cbn;
      (destruct (decide (tid = getClientTID (req_msg r))) as [->|Hne];
       [rewrite ?lookup_insert_eq, ?Ed|by rewrite ?lookup_insert_ne]); try done; split; (intros [? ?]; eauto; done). }
  assert (forall r' ys, req_list (sv_store sv) r' ys -> ys ## xs -> req_list s' r' ys) as Hlist.
  { intros r' ys. unfold req_list. destruct (mResourceList r') as [l|]; [|done]. intros [Hk Hd] Hys. split; [done|].
    eapply is_dll_frame; [|exact Hd]. intros y Hy. apply Hs. intros Hx. by apply (Hys y). }
  assert (forall q0 r' ys prio st, q0 <> p -> tuning q0 r' ys prio st sv' -> tuning q0 r' ys prio st sv /\ ys ## xs) as Hback.
  { intros q0 r' ys prio st Hne [B1 B2 B3 B4 B5 B6 B7]. cbn in B1, B6. rewrite lookup_insert_ne in B1 by done.
    destruct (decide (getHandle (req_msg r') = getHandle (req_msg r))) as [Heq|Hh].
    { rewrite Heq, lookup_insert_eq in B6. by injection B6. }
    rewrite lookup_insert_ne in B6 by done. destruct (Hnew _ _ _ B1 B6) as (ys' & Hl & Hys).
    assert (ys = ys') as -> by (eapply req_list_unique; [exact B3|by apply Hlist]).
    split; [|done]. split; try done. by apply Hlive. }
  assert (forall q0 r' ys prio st, tuning q0 r' ys prio st sv -> tuning q0 r' ys prio st sv' /\ ys ## xs) as Hforth.
  { intros q0 r' ys prio st [B1 B2 B3 B4 B5 B6 B7]. destruct (Hnew _ _ _ B1 B6) as (ys' & Hl & Hys).
    assert (ys = ys') as -> by (by eapply req_list_unique). split; [|done]. split; try done; cbn.
    - rewrite lookup_insert_ne; [done|]. by intros ->; rewrite Hp in B1.
    - by apply Hlist.
    - rewrite lookup_insert_ne; [done|]. intros Heq. rewrite <- Heq, Eh in B6. done.
    - by apply Hlive. }
  assert (forall r' ys prio st, tuning p r' ys prio st sv' -> ys = xs /\ has_flag st REQ_COMPLETED = false) as Hmine.
  { intros r' ys prio st [B1 B2 B3 B4 B5 B6 B7]. cbn in B1, B6. rewrite lookup_insert_eq in B1. injection B1 as <-.
    rewrite lookup_insert_eq in B6. injection B6 as <-. split; [by eapply req_list_unique|done]. }
  split; [done| | | |].
  - intros q0 r' ys prio st Hq. exists r', st. split; [by apply Hforth|done].
  - intros q0 r' ys prio st Hq Hc. destruct (decide (q0 = p)) as [->|Hne].
    + destruct (Hmine _ _ _ _ Hq) as [_ Hc']. congruence.
    + exists r', st. split; [by apply Hback|done].
  - intros q0 r' ys prio st x Hq _ Hx. apply Hs. intros Hxs'. by destruct (Hforth _ _ _ _ _ Hq) as [_ Hys]; apply (Hys x).
  - intros q1 q2 r1 r2 ys1 ys2 prio1 prio2 st1 st2 H1 H2 Hne.
    destruct (decide (q1 = p)) as [->|N1]; [|destruct (decide (q2 = p)) as [->|N2]].
    + destruct (Hmine _ _ _ _ H1) as [-> _], (Hback _ _ _ _ _ (not_eq_sym Hne) H2) as [_ Hys]. by intros x Hx Hy; apply (Hys x).
    + by destruct (Hmine _ _ _ _ H2) as [-> _], (Hback _ _ _ _ _ N1 H1) as [_ ?].
    + destruct (Hback _ _ _ _ _ N1 H1) as [H1' _], (Hback _ _ _ _ _ N2 H2) as [H2' _]. by eapply Hdis.
Qed.

Lemma early_turn u ru sv pend : server_ok sv pend ->
  sv_requests sv !! u = Some ru -> is_type ru REQ_RESOURCE_UNTUNING = true -> mResourceList ru = None ->
  match mActiveRequests (sv_manager sv) !! getHandle (req_msg ru) with
  | None => True
  | Some (_, st) => has_flag st REQ_COMPLETED = false
  end ->
  exists sv', consume_request reg mode tb tp u sv = Ok sv' /\ sv_world sv' = sv_world sv /\ server_ok sv' pend.
Proof.
  intros Hok Hu Htu Hlu Ha. pose proof (consume_untune_early reg mode tb tp u ru sv Hu Htu Hlu Ha) as E.
  eexists. split; [exact E|]. split; [done|]. apply (other_freed u ru); [done|done|].
  unfold is_other. by rewrite Htu.
Qed.

(** Retuning changes the timing of the request only. *)
Lemma updateRequest_timing (r : Request) d : is_Some (mTimer r) ->
  exists b r1, updateRequest tb tp (Some r) d = Ok (b, Some r1) /\ same_but_timing r r1.
Proof.
  intros [t Ht]. assert (same_but_timing r r) as Hr.
  { split; [done|]. exists (mDuration (req_msg r)). by destruct (req_msg r). }
  unfold updateRequest. destruct (_ || _); [by exists false, r|].
  unfold getTimer. rewrite Ht. cbn [deref mbind result_bind]. destruct (negb tb).
  { eexists _, _. split; [done|]. split; [done|]. by exists d. }
  destruct (startTimer _ _ _) as [ok t']. eexists _, _. split; [done|]. split; [done|]. by exists d.
Qed.

Lemma retune_turn p u r ru xs prio st sv pend : server_ok sv pend -> tuning p r xs prio st sv ->
  sv_requests sv !! u = Some ru -> is_type ru REQ_RESOURCE_RETUNING = true -> mResourceList ru = None ->
  getHandle (req_msg ru) = getHandle (req_msg r) -> has_flag st REQ_NOT_FOUND = false ->
  (has_flag st REQ_COMPLETED = true -> is_Some (mTimer r)) ->
  exists sv', consume_request reg mode tb tp u sv = Ok sv' /\ sv_world sv' = sv_world sv /\ server_ok sv' pend.
Proof.
  intros Hok Hp Hu Htu Hlu Hh Hf Hti. assert (is_other ru = true) as Ho by (unfold is_other; by rewrite Htu, orb_true_r).
  pose proof (not_tuning _ _ _ _ _ _ _ _ Hu Ho Hp) as Hpu.
  destruct Hp as [Hreq Hty Hl Hne Hprio Ha Hcl].
  assert (forall r1, same_but_timing r r1 -> exists sv',
    cleanUp u (sv_set_requests (<[p := r1]> (sv_requests sv)) sv) = Ok sv' /\ sv_world sv' = sv_world sv /\ server_ok sv' pend)
    as Hfin.
  { intros r1 Hr1. set (sv1 := sv_set_requests _ _).
    assert (sv_requests sv1 !! u = Some ru) as Hu1 by (cbn; by rewrite lookup_insert_ne).
    rewrite (cleanUp_plain u ru sv1 Hu1 Hlu). eexists. split; [done|]. split; [done|].
    apply (other_freed u ru sv1); [|done..]. apply (traffic_ok sv); [done|].
    apply (retuned_traffic p r r1 sv); [apply Hok|done|done]. }
  assert (is_type ru REQ_RESOURCE_UNTUNING = false) as Hun.
  { apply is_type_eq in Htu. unfold is_type. by rewrite Htu. }
  unfold consume_request, request_at. cbn [deref mbind result_bind]. rewrite Hu.
  cbn [of_option mbind result_bind]. rewrite (is_type_other ru Ho).
  rewrite Hh, (getRequest_active _ _ _ Ha), Hf, Hun, Htu. unfold consume_retune, request_at.
  cbn [deref mbind result_bind]. rewrite Hreq. cbn [of_option mbind result_bind].
  destruct (has_flag st REQ_COMPLETED) eqn:Ec; cbn [negb].
  - destruct (updateRequest_timing r (getDuration (req_msg ru)) (Hti eq_refl)) as (b & r1 & -> & Hr1).
    cbn [mbind result_bind deref]. by apply Hfin.
  - cbn [mbind result_bind]. apply Hfin. split; [done|]. by eexists.
Qed.

(** A turn of the consumer never faults and keeps the invariant. *)
Lemma turn_ok u sv pend : server_ok sv pend -> consumable sv u ->
  exists sv' evs pend', consume_request reg mode tb tp u sv = Ok sv' /\ server_ok sv' pend' /\ turn sv sv' pend evs pend'.
Proof.
  intros Hok Hcons. assert (forall sv', sv_world sv' = sv_world sv -> turn sv sv' pend [] pend) as Hquiet.
  { intros sv' E. split; [by rewrite E, app_nil_r|done|done|]. unfold sv_store. by rewrite E. }
  destruct Hcons as [p r xs prio st Hp Hc Hn Hnd Hlv Htun Hdur|p r xs prio st Hp Hc Hn|p u r ru xs prio st Hp Hu Htu Hlu Hh Hc Hf
    |p u r ru xs prio st Hp Hu Htu Hlu Hh Hf Hti|u ru Hu Htu Hlu Ha].
  - destruct (tune_turn p r xs prio st sv pend) as (sv' & evs & pend' & ? & ? & ? & _); eauto 10.
  - destruct (dropped_turn p r xs prio st sv pend) as (sv' & ? & ? & ?); try done. by exists sv', [], pend.
  - destruct (untune_turn p u r ru xs prio st sv pend) as (sv' & evs & ? & ? & ? & _); eauto 10.
  - destruct (retune_turn p u r ru xs prio st sv pend) as (sv' & ? & Hw & ?); try done. exists sv', [], pend. auto.
  - destruct (early_turn u ru sv pend) as (sv' & ? & Hw & ?); try done. exists sv', [], pend. auto.
Qed.

(** The lists of the table are made of the nodes of the complete requests. *)
Lemma lists_are_the_complete sv pend : server_ok sv pend ->
  forall i j x, x ∈ pend i j <-> exists p r xs st, tuning p r xs j st sv /\ has_flag st REQ_COMPLETED = true /\
    x ∈ xs /\ exists res conf cb tb', st_data (sv_store sv) !! x = Some res /\ getResAction res <> RES_SKIP /\
    is_global reg mode (getResCode res) i conf cb tb'.
Proof.
  intros Hok i j x. split.
  - intros Hx. destruct (so_owner _ _ Hok i j x Hx) as (p & r & xs & prio & st & Hp & Hc & Hin).
    destruct (so_pending _ _ Hok _ _ _ _ _ Hp Hc) as [_ Hall]. rewrite Forall_forall in Hall.
    destruct (Hall x Hin) as (res & i' & conf & cb & tb' & Hr & Ha & Hg & _ & Hx').
    destruct (table_ok_disjoint _ _ (so_table _ _ Hok) i j i' prio x Hx Hx') as [-> ->].
    apply live_subseteq in Hin. exists p, r, xs, st. split_and!; try done. by exists res, conf, cb, tb'.
  - intros (p & r & xs & st & Hp & Hc & Hin & res & conf & cb & tb' & Hr & Ha & Hg).
    destruct (so_pending _ _ Hok _ _ _ _ _ Hp Hc) as [_ Hall]. rewrite Forall_forall in Hall.
    assert (x ∈ live (sv_store sv) xs) as Hlx.
    { apply live_elem. split; [|done]. unfold skipped. rewrite Hr. by apply Z.eqb_neq. }
    destruct (Hall x Hlx) as (res' & i' & conf' & cb' & tb'' & Hr' & _ & Hg' & _ & Hx').
    change (st_data (sv_store sv) !! x = Some res') in Hr'. assert (res' = res) as -> by congruence.
    pose proof (ig_index _ _ _ _ _ _ _ Hg) as E1. pose proof (ig_index _ _ _ _ _ _ _ Hg') as E2.
    assert (i' = i) as -> by lia. done.
Qed.

(** A state of the server and of the resources that the lists explain. *)
Definition explained (c : Server * View) : Prop := exists pend, server_ok c.1 pend /\
  forall code i conf cb tb', is_global reg mode code i conf cb tb' -> c.2 code = leader pend i.

Lemma step_ok c c' : server_step c c' -> explained c -> explained c'.
Proof.
  intros [u sv sv' evs v Hcons E Hev|sv sv' v Htr] (pend & Hok & Hv); cbn [fst snd] in *.
  - destruct (turn_ok u sv pend Hok Hcons) as (sv2 & evs2 & pend' & E2 & Hok2 & Htu).
    rewrite E in E2. injection E2 as <-. pose proof (tu_events _ _ _ _ _ Htu) as Hev2. rewrite Hev in Hev2.
    apply app_inv_head in Hev2 as <-.
    exists pend'. split; [done|]. cbn. intros code i conf cb tb' Hg. rewrite (Hv _ _ _ _ _ Hg).
    by eapply (tu_carried _ _ _ _ _ Htu).
  - exists pend. split; [by eapply traffic_ok|done].
Qed.

Lemma run_ok c c' : rtc server_step c c' -> explained c -> explained c'.
Proof. induction 1 as [|c1 c2 c3 Hs _ IH]; [done|]. intros Hc. by apply IH, (step_ok c1). Qed.

Lemma carried_data s s' pend evs pend' : st_data s' = st_data s -> carried reg mode s pend evs pend' ->
  carried reg mode s' pend evs pend'.
Proof.
  intros Hd Hca code i conf cb tb' Hg. rewrite <- (Hca _ _ _ _ _ Hg).
  assert (forall e, foldl (effect_step s' code) e evs = foldl (effect_step s code) e evs) as H; [|apply H].
  clear -Hd. induction evs as [|ev evs IH]; intros e; [done|]. cbn. rewrite IH. f_equal.
  destruct ev; cbn; unfold concerns; by rewrite Hd.
Qed.

Lemma carried_app s pend1 evs1 pend2 evs2 pend3 : carried reg mode s pend1 evs1 pend2 ->
  carried reg mode s pend2 evs2 pend3 -> carried reg mode s pend1 (evs1 ++ evs2) pend3.
Proof.
  intros H1 H2 code i conf cb tb' Hg. rewrite foldl_app, (H1 _ _ _ _ _ Hg). by eapply H2.
Qed.

(** The untune request at [u] has arrived: it cancels the request of its handle, and is queued ([other_checks]
    and [enqueue]). *)
Definition untune_arrived (u : positive) (ru : Request) (q : OrderedQueue QueueItem) (sv : Server) : result Server :=
  '(_, rm) ← disableRequestProcessing (getHandle (req_msg ru)) (sv_manager sv);
  Ok (sv_set_queue q (sv_set_requests (<[u := ru]> (sv_requests sv)) (sv_set_manager rm sv))).

(** A retune or untune request that arrives, and the queue. *)
Lemma other_traffic u ru q0 sv : server_disjoint sv -> sv_requests sv !! u = None -> is_other ru = true ->
  traffic sv (sv_set_queue q0 (sv_set_requests (<[u := ru]> (sv_requests sv)) sv)).
Proof.
  intros Hdis Hu Ho. set (sv' := sv_set_queue _ _).
  assert (forall q r xs prio st, tuning q r xs prio st sv <-> tuning q r xs prio st sv') as Hq.
  { intros q r xs prio st. split; intros H; destruct H as [B1 B2 B3 B4 B5 B6 B7]; split; try done; cbn in *.
    - rewrite lookup_insert_ne; [done|]. intros ->. congruence.
    - destruct (decide (u = q)) as [->|Hne]; [|by rewrite lookup_insert_ne in B1].
      rewrite lookup_insert_eq in B1. injection B1 as ->. by rewrite (is_type_other r Ho) in B2. }
  split; try done.
  - intros q r xs prio st H%Hq. by exists r, st.
  - intros q r xs prio st H%Hq Hc. by exists r, st.
  - intros p q r r' xs ys prio prio' st st' H1%Hq H2%Hq. by eapply Hdis.
Qed.

Lemma untune_arrived_ok p u r ru xs prio st q sv pend : server_ok sv pend -> tuning p r xs prio st sv ->
  sv_requests sv !! u = None -> is_other ru = true -> getHandle (req_msg ru) = getHandle (req_msg r) ->
  exists sv', untune_arrived u ru q sv = Ok sv' /\ server_ok sv' pend /\
    tuning p r xs prio (or_status REQ_CANCELLED (Some p, st)).2 sv' /\ sv_world sv' = sv_world sv /\
    sv_requests sv' = <[u := ru]> (sv_requests sv).
Proof.
  intros Hok Hp Hu Ho Hh. pose proof Hp as [B1 B2 B3 B4 B5 B6 B7].
  assert (exists rm, disableRequestProcessing (getHandle (req_msg ru)) (sv_manager sv) = Ok (true, rm) /\
    mActiveRequests rm !! getHandle (req_msg r) = Some (or_status REQ_CANCELLED (Some p, st))) as (rm & Erm & Ha).
  { unfold disableRequestProcessing. rewrite Hh, B6. eexists. split; [done|]. apply lookup_insert_eq. }
  unfold untune_arrived. rewrite Erm. cbn [mbind result_bind]. eexists. split; [done|].
  set (sv1 := sv_set_manager rm sv). assert (server_ok sv1 pend) as Hok1.
  { apply (traffic_ok sv); [done|]. by eapply cancelled_traffic, Erm; apply Hok. }
  split; [apply (traffic_ok sv1); [done|]; apply (other_traffic u ru q sv1); [apply Hok1|done|done]|].
  split; [|done]. split; try done. cbn. rewrite lookup_insert_ne; [done|]. intros ->. congruence.
Qed.

(** A server at rest. *)
Lemma boot_ok sv s clusters cgroups nCores nClusters nCGroups :
  sv_world sv = mkWorld s (CocoTable_init reg clusters cgroups nCores nClusters nCGroups) [] ->
  mActiveRequests (sv_manager sv) = ∅ -> server_ok sv (fun _ _ => []).
Proof.
  intros Hw Hact. assert (forall p r xs prio st, ~ tuning p r xs prio st sv) as Hnone.
  { intros p r xs prio st Hp. pose proof (tn_active _ _ _ _ _ _ Hp) as E. by rewrite Hact in E. }
  split; [|set_solver|..].
  - rewrite Hw. exists []. apply (table_inv_init wf reg mode Hwf s).
  - intros p r xs prio st Hp. by destruct (Hnone _ _ _ _ _ Hp).
  - intros p q r r' xs ys prio prio' st st' Hp. by destruct (Hnone _ _ _ _ _ Hp).
Qed.
End Consumer.

(** ** Properties *)

(** C2: the server over its whole life, on [consumable] requests. The consumer starts on an empty CocoTable with
    no active request. Each turn takes, in any order, a tune with some non-skipped node, all such nodes
    applied globally at priority < 4, whose timer, if it has a duration, starts; a cancelled tune; an
    untune; or a retune of a known request, incomplete or with a timer. Refused timers (freed nodes stay
    listed), retunes of complete requests without a timer (a null dereference) and non-global nodes are
    excluded. Between turns, arrivals with nodes of their own, cancellations, retunes ([traffic]). Then
    the listed nodes are exactly the non-skipped global ones of the complete requests, by resource and
    priority, so none was freed; for each globally applied resource the value the callbacks left in
    effect is that of the head of its first non-empty list, none if all are empty; the recorded priority
    is that list; and the next consumable request is consumed without a fault. *)
Theorem server_lifecycle {R : Type} `{!ResourceConfigs R} (wf : R -> Prop) `{!ResourceConfigsLaws R wf}
    (reg : R) (mode : Z) (tb : bool) (tp : option bool) (sv0 sv : Server) (v : View) (s : Store)
    (clusters cgroups : list Z) (nCores nClusters nCGroups : Z) :
  wf reg ->
  sv_world sv0 = mkWorld s (CocoTable_init reg clusters cgroups nCores nClusters nCGroups) [] ->
  mActiveRequests (sv_manager sv0) = ∅ ->
  rtc (server_step reg mode tb tp) (sv0, fun _ => None) (sv, v) ->
  exists pend : Pending,
    (forall i j d, slot (sv_world sv) i j = Some d -> is_dll (st_links (sv_store sv)) d (pend i j)) /\
    (forall i j x, x ∈ pend i j <-> exists p r xs st, tuning p r xs j st sv /\ has_flag st REQ_COMPLETED = true /\
       x ∈ xs /\ exists res conf cb tb', st_data (sv_store sv) !! x = Some res /\ getResAction res <> RES_SKIP /\
       is_global reg mode (getResCode res) i conf cb tb') /\
    (forall code i conf cb tb', is_global reg mode code i conf cb tb' ->
       v code = match first_level pend i with Some q => head (pend i q) | None => None end /\
       mCurrentlyAppliedPriority (coco (sv_world sv)) !! i =
         Some (match first_level pend i with Some q => Z.of_nat q | None => -1 end)) /\
    (forall u, consumable reg mode tb tp sv u -> exists sv', consume_request reg mode tb tp u sv = Ok sv').
Proof.
  intros Hwf Hw Hact Hrun.
  destruct (run_ok wf reg mode Hwf tb tp _ _ Hrun) as (pend & Hok & Hv).
  { exists (fun _ _ => []). split; [by eapply boot_ok|done]. }
  cbn [fst snd] in Hok, Hv. exists pend. destruct (proj1 (table_ok_rows reg mode _ _) (so_table _ _ _ _ Hok)) as [Hcw _ _ Happ].
  split_and!.
  - intros i j d Hd. apply (wf_slot _ _ Hcw i j d Hd).
  - apply (lists_are_the_complete reg mode sv pend Hok).
  - intros code i conf cb tb' Hg. split; [exact (Hv _ _ _ _ _ Hg)|by eapply Happ].
  - intros u Hu. destruct (turn_ok wf reg mode Hwf tb tp u sv pend Hok Hu) as (sv' & evs & pend' & E & _). by exists sv'.
Qed.

(** A server at rest with one node to give out. *)

Definition sample_heap : Heap * DLManager :=
  match insert (fresh_heap 3 2) (DLManager_init 0) (Some 1%positive) with
  | Ok (_, h, l) => (h, l)
  | Fault _ => (fresh_heap 3 2, DLManager_init 0)
  end.
Definition sample_request (duration : Z) : Request :=
  mkRequest (mkMessage 6 duration 2 7 8 0) None (Some sample_heap.2) 0.
Definition sample_server : Server :=
  mkServer (mkWorld (mkStore sample_heap.1 (st_data (three_nodes 0 0 0)) ∅) (CocoTable_init sample_reg [] [] 8 2 0) [])
    ∅ (put_tid 8 (mkTidData ∅ 5 (d_of_Z 100)) ClientDataManager_init) RequestManager_init OrderedQueue_init
    TargetRegistry_init.
Lemma sample_list : is_dll sample_heap.1 sample_heap.2 [1%positive].
Proof.
  destruct (insert_refines (fresh_heap 3 2) (DLManager_init 0) [] 1) as (h & l & El & Hl & _).
  { by apply is_dll_init. } { split; [vm_compute; eauto|set_solver]. }
  unfold sample_heap. by rewrite El.
Qed.

(** A tune request with one node arrives at it. *)
Lemma sample_arrival duration : exists sv,
  traffic sample_server sv /\
  tuning 1 (sample_request duration) [1%positive] 2 REQ_UNCHANGED sv /\ server_ok sample_reg 1 sv (fun _ _ => []) /\
  (live (sv_store sv) [1%positive] = [1%positive] /\ Forall (tunable sample_reg 1 (sv_world sv) 2) [1%positive]) /\
  sv_world sv = sv_world sample_server /\ sv_requests sv = {[1%positive := sample_request duration]} /\
  sv_queue sv = OrderedQueue_init.
Proof.
  set (r := sample_request duration). set (sv0 := sample_server).
  assert (exists rm c, addRequest 60 (<[1%positive := r]> (sv_requests sv0)) (Some 1%positive) (sv_manager sv0)
    (sv_clients sv0) = Ok (true, rm, c) /\ mActiveRequests rm !! 6 = Some ((Some 1%positive, REQ_UNCHANGED) : RequestInfo) /\
    is_Some (mClientTidRepo c !! 8 ≫= id)) as (rm & c & Ea & Hrm & Hc).
  { eexists _, _. split; [by vm_compute|]. split; [by vm_compute|]. eexists. by vm_compute. }
  set (sv1 := mkServer (set_store (sv_store sv0) (sv_world sv0)) (<[1%positive := r]> (sv_requests sv0)) c rm
                (sv_queue sv0) (sv_target sv0)).
  assert (server_ok sample_reg 1 sv0 (fun _ _ => [])) as Hok0.
  { by apply (boot_ok reg_wf _ _ (one_resource_wf _ _) sv0 (sv_store sv0) [] [] 8 2 0). }
  assert (traffic sv0 sv1) as Htr.
  { apply (admitted_traffic 60 1 r [1%positive] (sv_store sv0) rm c); [|done| | |done|exact Ea].
    - apply Hok0.
    - split; [by vm_compute|exact sample_list].
    - done. }
  exists sv1. split; [done|]. split; [|split; [by apply (traffic_ok _ _ sv0)|split; [|done]]].
  - split; try done; [split; [by vm_compute|exact sample_list]|]. destruct Hc as [d Hd]. exists d.
    unfold live_tid. cbn [sv1 sv_clients]. change (getClientTID (req_msg r)) with 8. destruct (mClientTidRepo c !! 8) as [o|]; [cbn in Hd; by rewrite Hd|done].
  - split; [by vm_compute|]. apply Forall_singleton. exists (sample_res 0 10), 0%nat, (setLifeCycleCallbacks (sample_conf 3 7 HIGHER_BETTER APPLY_GLOBAL)),
      defaultGlobalLevelApplierCb, defaultGlobalLevelTearCb.
    split_and!; [done|apply sample_res_ok; unfold in_u; lia|done|exact sample_global|lia|by vm_compute; eauto].
Qed.

Lemma server_lifecycle_witness : exists sv v pend,
  v 196615 = match first_level pend 0 with Some q => head (pend 0%nat q) | None => None end /\
  (1%positive ∈ pend 0%nat 2%nat) /\
  rtc (server_step sample_reg 1 true None) (sample_server, fun _ => None) (sv, v) /\
  forall u, consumable sample_reg 1 true None sv u -> exists sv', consume_request sample_reg 1 true None u sv = Ok sv'.
Proof.
  destruct (sample_arrival (-1)) as (sv1 & Hs1 & Hp & Hok & [Hlv Hall] & Hw & Hr & _).
  destruct (tune_turn reg_wf sample_reg 1 (one_resource_wf _ _) true None 1 (sample_request (-1)) [1%positive] 2 REQ_UNCHANGED
    sv1 _ Hok Hp) as (sv2 & evs & pend2 & E & _ & [Hev _ _ _] & _ & r2 & Hp2 & _ & _ & Hsn & _);
    [done|done|apply NoDup_singleton|by rewrite Hlv|by rewrite Hlv|by left|].
  assert (rtc (server_step sample_reg 1 true None) (sample_server, fun _ => None)
    (sv2, fun code => foldl (effect_step (sv_store sv1) code) None evs)) as Hrun.
  { eapply rtc_l; [apply moves, Hs1|]. apply rtc_once, (consumes _ _ _ _ 1); [|exact E|exact Hev].
    apply (fresh_tune _ _ _ _ _ 1 (sample_request (-1)) [1%positive] 2 REQ_UNCHANGED); try done;
      [apply NoDup_singleton|by rewrite Hlv|by rewrite Hlv|by left]. }
  destruct (server_lifecycle reg_wf sample_reg 1 true None sample_server sv2 _
    (sv_store sample_server) [] [] 8 2 0 (one_resource_wf _ _) eq_refl eq_refl Hrun) as (pend & _ & Hin & Hg & Hu).
  assert (1%positive ∈ pend 0%nat 2%nat) as H1.
  { apply Hin. exists 1%positive, r2, [1%positive], (or_status REQ_COMPLETED (Some 1%positive, REQ_UNCHANGED)).2.
    split_and!; [done|done|by left|]. exists (sample_res 0 10). do 3 eexists. split; [|split; [done|exact sample_global]].
    unfold sv_store. rewrite (sn_data _ _ Hsn), Hw. done. }
  eexists sv2, _, pend. split; [|done]. exact (proj1 (Hg _ _ _ _ _ sample_global)).
Defined.

(** C4: tuning and untuning, in a state of the server invariant [server_ok]. A tune request with distinct nodes,
    at least one of them not skipped, and the non-skipped ones all applied globally at priority < 4,
    whose timer can start (duration -1, or its block and the pool's task are there), is consumed; its
    untune request arrives, which cancels it, and is consumed in turn. Neither turn faults. In between,
    every non-skipped node is in the list of its resource and priority (skipped ones are in no list). At
    the end the lists of the table are what they were before, the callbacks called on the way take every
    globally applied resource from the value it had back to that value, the recorded priorities are
    those of before, both requests and all the nodes, skipped ones included, are given back and nothing
    else is, and the handle is unknown to the manager. *)
Theorem tune_untune_restores {R : Type} `{!ResourceConfigs R} (wf : R -> Prop) `{!ResourceConfigsLaws R wf}
    (reg : R) (mode : Z) (tb : bool) (tp : option bool) (sv : Server) (pend : Pending)
    (p u : positive) (r ru : Request) (xs : list positive) (prio : nat) (q : OrderedQueue QueueItem) :
  wf reg -> server_ok reg mode sv pend -> tuning p r xs prio REQ_UNCHANGED sv ->
  NoDup xs -> live (sv_store sv) xs <> [] -> Forall (tunable reg mode (sv_world sv) prio) (live (sv_store sv) xs) ->
  (mDuration (req_msg r) = -1 \/ 0 < mDuration (req_msg r) /\ tb = true /\ tp = Some true) ->
  sv_requests sv !! u = None -> is_type ru REQ_RESOURCE_UNTUNING = true -> mResourceList ru = None ->
  getHandle (req_msg ru) = getHandle (req_msg r) ->
  exists sv1 sv2 sv3 evs pend1 pend3,
    consume_request reg mode tb tp p sv = Ok sv1 /\ server_ok reg mode sv1 pend1 /\
    Forall (pending_at reg mode (sv_world sv1) pend1 prio) (live (sv_store sv) xs) /\
    untune_arrived u ru q sv1 = Ok sv2 /\
    consume_request reg mode tb tp u sv2 = Ok sv3 /\ server_ok reg mode sv3 pend3 /\
    same_lists pend3 pend /\
    events (sv_world sv3) = events (sv_world sv) ++ evs /\
    (forall code i conf cb tb', is_global reg mode code i conf cb tb' ->
       foldl (effect_step (sv_store sv) code) (leader pend i) evs = leader pend i /\
       mCurrentlyAppliedPriority (coco (sv_world sv3)) !! i = mCurrentlyAppliedPriority (coco (sv_world sv)) !! i) /\
    sv_requests sv3 = delete p (sv_requests sv) /\
    st_freed (sv_store sv3) = list_to_set xs ∪ st_freed (sv_store sv) /\
    verifyHandle (getHandle (req_msg r)) (sv_manager sv3) = false.
Proof.
  intros Hwf Hok Hp Hnd Hlv Htun Hdur Hu Htu Hlu Hh.
  destruct (tune_turn wf reg mode Hwf tb tp p r xs prio REQ_UNCHANGED sv pend)
    as (sv1 & evs1 & pend1 & E1 & Hok1 & [Hev1 Hca1 _ _] & Hsame1 & r1 & Hp1 & Hm1 & Hr1 & Hsn1 & _); try done.
  destruct (so_pending _ _ _ _ Hok1 _ _ _ _ _ Hp1 eq_refl) as [_ Hall1].
  assert (live (sv_store sv1) xs = live (sv_store sv) xs) as Hl1 by apply (live_nodes (sv_world sv) (sv_world sv1) xs Hsn1).
  rewrite Hl1 in Hall1.
  assert (is_other ru = true) as Ho by (unfold is_other; by rewrite Htu).
  assert (p <> u) as Hpu by (intros ->; pose proof (tn_req _ _ _ _ _ _ Hp); congruence).
  destruct (untune_arrived_ok reg mode p u r1 ru xs prio _ q sv1 pend1 Hok1 Hp1) as (sv2 & E2 & Hok2 & Hp2 & Hw2 & Hr2);
    [by rewrite Hr1, lookup_insert_ne|done|by rewrite Hm1|].
  destruct (untune_turn wf reg mode Hwf tb tp p u r1 ru xs prio _ sv2 pend1 Hok2 Hp2)
    as (sv3 & evs2 & E3 & Hok3 & [Hev3 Hca3 _ _] & Hr3 & Hf3 & Ha3);
    [by rewrite Hr2, lookup_insert_eq|done|done|by rewrite Hm1|done|done|].
  assert (live (sv_store sv2) xs = live (sv_store sv) xs) as Hl2 by (unfold sv_store at 1; rewrite Hw2; exact Hl1).
  rewrite Hl2 in *. exists sv1, sv2, sv3, (evs1 ++ evs2), pend1, (without (live (sv_store sv) xs) pend1).
  assert (carried reg mode (sv_store sv) pend (evs1 ++ evs2) pend) as Hca.
  { eapply carried_app; [exact Hca1|]. intros code i conf cb tb' Hg. rewrite <- (leader_same _ pend i (Hsame1 i)).
    refine (carried_data reg mode _ _ _ _ _ _ Hca3 code i conf cb tb' Hg). unfold sv_store. rewrite Hw2. symmetry. apply Hsn1. }
  split_and!; try done.
  - by rewrite Hev3, Hw2, Hev1, app_assoc.
  - intros code i conf cb tb' Hg. split; [by eapply Hca|].
    pose proof (proj1 (table_ok_rows reg mode _ _) (so_table _ _ _ _ Hok3)) as Hro3.
    pose proof (proj1 (table_ok_rows reg mode _ _) (so_table _ _ _ _ Hok)) as Hro.
    rewrite (ro_applied _ _ _ _ Hro3 _ _ _ _ _ Hg), (ro_applied _ _ _ _ Hro _ _ _ _ _ Hg).
    by rewrite (first_level_same _ pend i (Hsame1 i)).
  - rewrite Hr3, Hr2, delete_insert_eq, Hr1, delete_insert_ne by done. rewrite delete_insert_eq. f_equal. by apply delete_id.
  - rewrite Hf3. unfold sv_store. rewrite Hw2. f_equal. apply Hsn1.
  - unfold verifyHandle. rewrite Ha3, Hm1. by rewrite lookup_delete_eq.
Qed.

Lemma tune_untune_restores_witness :
  let ru := mkRequest (mkMessage 6 (-1) 0 7 8 2) None None 0 in
  exists sv sv1 sv2 sv3, consume_request sample_reg 1 true None 1 sv = Ok sv1 /\
    untune_arrived 2 ru OrderedQueue_init sv1 = Ok sv2 /\ consume_request sample_reg 1 true None 2 sv2 = Ok sv3 /\ sv_requests sv3 = ∅.
Proof.
  intros ru. destruct (sample_arrival (-1)) as (sv & _ & Hp & Hok & [Hlv Hall] & _ & Hr & _).
  destruct (tune_untune_restores reg_wf sample_reg 1 true None sv _ 1 2 (sample_request (-1)) ru [1%positive] 2
    OrderedQueue_init (one_resource_wf _ _) Hok Hp) as (sv1 & sv2 & sv3 & evs & pend1 & pend3 & E1 & _ & _ & E2 & E3 & _ & _ & _ & _ & Hr3 & _);
    [apply NoDup_singleton|by rewrite Hlv|by rewrite Hlv|by left|by rewrite Hr|done|done|done|].
  exists sv, sv1, sv2, sv3. split; [done|]. split; [done|]. split; [done|]. rewrite Hr3, Hr. apply delete_singleton_eq.
Defined.

(** C10: a timer that cannot be started.  A tune request of finite duration, whose nodes are all globally
    applied and not skipped, is refused after they have been inserted when the pool takes no timer.  The consumer then forgets it: the handle is
    unknown and the request is gone, and its nodes are freed; but each of them is still in its
    list of the table, which from then on reaches freed memory. *)
Theorem refused_timer_dangles {R : Type} `{!ResourceConfigs R} (wf : R -> Prop) `{!ResourceConfigsLaws R wf}
    (reg : R) (mode : Z) (tp : option bool) (sv : Server) (pend : Pending)
    (p : positive) (r : Request) (xs : list positive) (prio : nat) :
  wf reg -> server_ok reg mode sv pend -> tuning p r xs prio REQ_UNCHANGED sv ->
  NoDup xs -> Forall (tunable reg mode (sv_world sv) prio) xs ->
  0 < mDuration (req_msg r) -> tp <> Some true ->
  exists sv', consume_request reg mode true tp p sv = Ok sv' /\
    verifyHandle (getHandle (req_msg r)) (sv_manager sv') = false /\ sv_requests sv' = delete p (sv_requests sv) /\
    forall x, x ∈ xs -> (x ∈ st_freed (sv_store sv')) /\
      exists i d ys, slot (sv_world sv') i prio = Some d /\ is_dll (st_links (sv_store sv')) d ys /\ x ∈ ys.
Proof.
  intros Hwf Hok Hp Hnd Htun Hpos Htp. pose proof (tn_client _ _ _ _ _ _ Hp) as [d Hd].
  assert (live (sv_store sv) xs = xs) as Hlive.
  { apply live_all. intros x Hx. rewrite Forall_forall in Htun. destruct (Htun x Hx) as (res & ? & ? & ? & ? & Hr & _ & Ha & _).
    unfold skipped, sv_store. rewrite Hr. by apply Z.eqb_neq. }
  destruct (insertion_steps reg mode (sv_world sv) prio xs pend Hnd Htun) as (pend' & Hs).
  { by eapply unapplied_nodes. }
  destruct (inserted_nodes reg mode (sv_world sv) prio xs pend pend' Hs) as (_ & Hat & _ & _).
  destruct (consume_tune_refused wf reg mode Hwf true tp p r xs prio REQ_UNCHANGED sv pend pend' d)
    as (sv' & w' & s' & E & Hi' & Hsn & Hw & Hlk & Hfr & Hr & Ha); try done; [apply Hok|rewrite Hlive; apply Hp|by rewrite Hlive|].
  exists sv'. split; [done|]. split; [unfold verifyHandle; rewrite Ha; by rewrite lookup_delete_eq|].
  split; [done|]. intros x Hx. split.
  { unfold sv_store. rewrite Hw. cbn. rewrite Hfr. set_solver. }
  rewrite Forall_forall in Hat. destruct (Hat x Hx) as (res & i & conf & cb & tb' & _ & _ & Hg & Hprio & Hin).
  pose proof (proj1 (table_ok_rows reg mode _ _) Hi') as [Hcw Hsl _ _].
  destruct (Hsl _ _ _ _ _ Hg prio Hprio) as [dl Hdl]. exists i, dl, (pend' i prio). unfold sv_store. rewrite Hw. cbn.
  split; [exact Hdl|]. split; [|done]. rewrite Hlk. apply (wf_slot _ _ Hcw _ _ _ Hdl).
Qed.

Lemma refused_timer_dangles_witness : exists sv sv' d ys, consume_request sample_reg 1 true None 1 sv = Ok sv' /\
  (1%positive ∈ st_freed (sv_store sv')) /\ is_dll (st_links (sv_store sv')) d ys /\ 1%positive ∈ ys.
Proof.
  destruct (sample_arrival 100) as (sv & _ & Hp & Hok & [_ Hall] & _ & _).
  destruct (refused_timer_dangles reg_wf sample_reg 1 None sv _ 1 (sample_request 100) [1%positive] 2
    (one_resource_wf _ _) Hok Hp) as (sv' & E & _ & _ & Hx); [apply NoDup_singleton|done|done|done|].
  destruct (Hx 1%positive) as (Hf & i & d & ys & _ & Hd & Hin); [by left|]. by exists sv, sv', d, ys.
Defined.

(** C9: expiry, in a state of the server invariant [server_ok]: the non-skipped nodes of every complete request
    are globally applied and in their lists. When the timer of a complete request fires, a fresh block
    for the untune request is given out, and the request queue is well formed and holds fewer than the
    largest int32, the untune request is queued under the priority of the request. When the consumer
    takes it, in that state, it does not fault: the request's non-skipped nodes leave the lists and
    nothing else does, the callbacks take every globally applied resource from the value of its leader
    before to that of the next in line, the request, the untune request and the nodes are given back,
    and the handle is unknown to the manager. *)
Theorem expiry_untunes {R : Type} `{!ResourceConfigs R} (wf : R -> Prop) `{!ResourceConfigsLaws R wf}
    (reg : R) (mode : Z) (tb : bool) (tp : option bool) (sv : Server) (pend : Pending)
    (p u : positive) (r : Request) (xs : list positive) (prio : nat) (st : Z) (junk : Message) :
  wf reg -> server_ok reg mode sv pend -> tuning p r xs prio st sv ->
  has_flag st REQ_COMPLETED = true -> has_flag st REQ_NOT_FOUND = false -> sv_requests sv !! u = None ->
  queue_wf (sv_queue sv) -> mElementCount (sv_queue sv) < max_s 32 ->
  exists sv1 sv2 evs, expire p (Some u) junk sv = Ok sv1 /\ server_ok reg mode sv1 pend /\
    mOrderedQueue (sv_queue sv1) = mOrderedQueue (sv_queue sv) ++ [(Z.of_nat prio, QRequest u)] /\
    consume_request reg mode tb tp u sv1 = Ok sv2 /\ server_ok reg mode sv2 (without (live (sv_store sv) xs) pend) /\
    events (sv_world sv2) = events (sv_world sv) ++ evs /\
    (forall code i conf cb tb', is_global reg mode code i conf cb tb' ->
       foldl (effect_step (sv_store sv) code) (leader pend i) evs = leader (without (live (sv_store sv) xs) pend) i) /\
    sv_requests sv2 = delete p (sv_requests sv) /\
    st_freed (sv_store sv2) = list_to_set xs ∪ st_freed (sv_store sv) /\
    verifyHandle (getHandle (req_msg r)) (sv_manager sv2) = false.
Proof.
  intros Hwf Hok Hp Hc Hf Hu Hq Hroom. pose proof Hp as [B1 B2 B3 B4 B5 B6 B7].
  set (ru := populateUntuneRequest r (Request_init junk)).
  set (sv0 := sv_set_requests (<[u := ru]> (sv_requests sv)) sv).
  destruct (enqueue_ok u ru sv0) as (q & Eq & _ & Hq'); [apply lookup_insert_eq|done|done| |].
  { change (getPriority (req_msg ru)) with (getPriority (req_msg r)). rewrite B5. unfold SERVER_CLEANUP_TRIGGER_PRIORITY. lia. }
  assert (p <> u) as Hpu by congruence. set (sv1 := sv_set_queue q sv0) in *.
  assert (server_ok reg mode sv1 pend) as Hok1.
  { apply (traffic_ok reg mode sv); [done|]. by apply (other_traffic u ru q sv); [apply Hok|..]. }
  assert (tuning p r xs prio st sv1) as Hp1 by (split; try done; cbn; by rewrite lookup_insert_ne).
  destruct (untune_turn wf reg mode Hwf tb tp p u r ru xs prio st sv1 pend Hok1 Hp1)
    as (sv2 & evs & E2 & Hok2 & [Hev Hca _ _] & Hr2 & Hf2 & Ha2); [apply lookup_insert_eq|done..|].
  exists sv1, sv2, evs. split; [|split; [done|split]].
  - unfold expire, request_at. cbn [deref mbind result_bind]. rewrite B1. exact Eq.
  - cbn [sv1 sv_set_queue sv_queue]. rewrite Hq'. change (getPriority (req_msg ru)) with (getPriority (req_msg r)). by rewrite B5.
  - do 4 (split; [done|]). split; [rewrite Hr2; cbn; rewrite delete_insert_eq; f_equal; by apply delete_id|].
    split; [exact Hf2|]. unfold verifyHandle. by rewrite Ha2, lookup_delete_eq.
Qed.

Lemma expiry_untunes_witness : exists sv sv1 sv2,
  expire 1 (Some 2%positive) (mkMessage 0 0 0 0 0 0) sv = Ok sv1 /\
  consume_request sample_reg 1 true None 2 sv1 = Ok sv2 /\ sv_requests sv2 = ∅.
Proof.
  destruct (sample_arrival (-1)) as (sv0 & _ & Hp & Hok & [Hlv Hall] & Hw & Hr & Hq).
  destruct (tune_turn reg_wf sample_reg 1 (one_resource_wf _ _) true None 1 (sample_request (-1)) [1%positive] 2 REQ_UNCHANGED
    sv0 _ Hok Hp) as (sv & evs & pend & E & Hok' & _ & _ & r & Hp' & _ & Hr' & _ & Hq');
    [done|done|apply NoDup_singleton|by rewrite Hlv|by rewrite Hlv|by left|].
  destruct (expiry_untunes reg_wf sample_reg 1 true None sv pend 1 2 r [1%positive] 2 _ (mkMessage 0 0 0 0 0 0)
    (one_resource_wf _ _) Hok' Hp') as (sv1 & sv2 & evs2 & E1 & _ & _ & E2 & _ & _ & _ & Hr2 & _);
    [done|done|by rewrite Hr', Hr|by rewrite Hq', Hq|by rewrite Hq', Hq|].
  exists sv, sv1, sv2. split; [done|]. split; [done|]. rewrite Hr2, Hr', Hr. rewrite delete_insert_eq. apply delete_singleton_eq.
Defined.
