(* ===== verification/Intake.v ===== *)
(** The admission of a request (Server.v) seen from the requests that are in the server already: whatever
    [processIncomingRequest] decides on a request that arrives with nodes of its own, the others are left
    in place ([intake_is_traffic]), so that the theorems of Lifecycle.v hold across it. *)
From S2P Require Import Prelude UrmTypes Message Resource DLManager AuxRoutines TargetRegistry ResourceRegistry.
From S2P Require Import Request RequestHandler Double CocoTable ClientDataManager OrderedQueue RequestManager RateLimiter.
From S2P Require Import Server Lifecycle.
Open Scope list_scope.
Open Scope Z_scope.

(** ** Clients *)

(** The known threads are still known. *)
Definition live_kept (c c' : ClientDataManager) : Prop :=
  forall tid, (exists d, live_tid tid d c) -> exists d, live_tid tid d c'.

Lemma live_refl c : live_kept c c.
Proof. by intros tid. Qed.
Lemma live_trans c1 c2 c3 : live_kept c1 c2 -> live_kept c2 c3 -> live_kept c1 c3.
Proof. intros H1 H2 tid H. by apply H2, H1. Qed.
Lemma live_set tid d c : live_kept c (set_tids (<[tid := Some d]> (mClientTidRepo c)) c).
Proof.
  intros tid' [d' Hd']. unfold live_tid in *. cbn. destruct (decide (tid = tid')) as [<-|Hne].
  - exists d. apply lookup_insert_eq.
  - exists d'. by rewrite lookup_insert_ne.
Qed.
Lemma live_map_index tid c : live_kept c (set_tids (map_index None tid (mClientTidRepo c)).2 c).
Proof.
  intros tid' [d' Hd']. exists d'. unfold live_tid in *. cbn. rewrite map_index_lookup.
  case_decide; [subst|done]. by rewrite Hd'.
Qed.

Lemma live_update tid f c c' : update_tid tid f c = Ok c' -> live_kept c c'.
Proof.
  unfold update_tid. intros H. apply bind_ok in H as ([d|] & _ & H); injection H as <-; [apply live_set|apply live_refl].
Qed.

Lemma live_getRequests tid c : live_kept c (getRequestsByClientID tid c).2.
Proof.
  unfold getRequestsByClientID. pose proof (live_map_index tid c) as H.
  by destruct (map_index None tid (mClientTidRepo c)).
Qed.

Lemma live_insertRequest tid h c : live_kept c (insertRequestByClientId tid h c).
Proof.
  unfold insertRequestByClientId. pose proof (live_map_index tid c) as H.
  destruct (map_index None tid (mClientTidRepo c)) as [[d|] m]; [|done].
  eapply live_trans; [exact H|]. apply (live_set tid _ (set_tids m c)).
Qed.

Lemma live_createNewClient fs al junk pid tid c ok c' :
  createNewClient fs al junk pid tid c = Ok (ok, c') -> live_kept c c'.
Proof.
  unfold createNewClient. destruct (clientExists pid tid c); [intros [= _ <-]; apply live_refl|].
  destruct (negb _); [intros [= _ <-]; apply live_refl|].
  set (c1 := set_tids _ c). assert (live_kept c c1) as H1 by apply live_set.
  destruct (mClientRepo c1 !! pid) as [info|].
  - destruct (_ <? _); [|by intros [= _ <-]]. intros H. apply bind_ok in H as (i & _ & [= _ <-]). exact H1.
  - destruct (negb _); [by intros [= _ <-]|]. intros H. apply bind_ok in H as (i & _ & H).
    apply bind_ok in H as (root & _ & [= _ <-]). exact H1.
Qed.

Lemma live_rate l now tid c ok c' : isRateLimitHonored l now tid c = Ok (ok, c') -> live_kept c c'.
Proof.
  unfold isRateLimitHonored, shouldBeProcessed. intros H. apply bind_ok in H as (health & _ & H).
  destruct (d_le _ _); [injection H as _ <-; apply live_refl|].
  apply bind_ok in H as (last & _ & H). apply bind_ok in H as (h & _ & H).
  apply bind_ok in H as (c1 & E1 & H). apply live_update in E1.
  destruct (d_le _ _); [by injection H as _ <-|].
  apply bind_ok in H as (c2 & E2 & H). apply live_update in E2. injection H as _ <-. by eapply live_trans.
Qed.

Lemma live_shouldBeAdded `{HashOrder} maxReq s rq req rm c ok c' :
  shouldRequestBeAdded maxReq s rq req rm c = Ok (ok, c') -> live_kept c c'.
Proof.
  unfold shouldRequestBeAdded. intros H1. apply bind_ok in H1 as (sane & _ & H1).
  destruct (negb sane); [injection H1 as _ <-; apply live_refl|].
  apply bind_ok in H1 as (r & _ & H1). destruct (at_capacity _ _); [injection H1 as _ <-; apply live_refl|].
  apply bind_ok in H1 as ([dup c1] & E & H1). injection H1 as _ <-.
  unfold requestMatch in E. pose proof (live_getRequests (getClientTID (req_msg r)) c) as Hl.
  destruct (getRequestsByClientID _ c) as [[hs|] c2]; cbn [snd] in Hl; [|by injection E as _ <-].
  destruct (_ =? _)%nat; [by injection E as _ <-|]. apply bind_ok in E as (b & _ & E). by injection E as _ <-.
Qed.

(** ** What a stage of the admission leaves as it was *)

(** The stage is about the request at [p], whose nodes are [xs]. *)
Record stage (p : positive) (xs : list positive) (sv sv' : Server) : Prop := {
  sg_table : st_same_table sv sv';
  sg_requests : forall q, q <> p -> sv_requests sv' !! q = sv_requests sv !! q;
  sg_list : forall r', sv_requests sv' !! p = Some r' ->
    exists r, sv_requests sv !! p = Some r /\ mResourceList r' = mResourceList r;
  sg_data : forall y, y ∉ xs -> st_data (sv_store sv') !! y = st_data (sv_store sv) !! y;
  sg_kept : forall h q st, q <> p -> mActiveRequests (sv_manager sv) !! h = Some ((Some q, st) : RequestInfo) ->
    exists st', mActiveRequests (sv_manager sv') !! h = Some ((Some q, st') : RequestInfo) /\
      has_flag st' REQ_COMPLETED = has_flag st REQ_COMPLETED;
  sg_new : forall h q st', mActiveRequests (sv_manager sv') !! h = Some ((Some q, st') : RequestInfo) ->
    q = p /\ has_flag st' REQ_COMPLETED = false \/
    exists st, mActiveRequests (sv_manager sv) !! h = Some ((Some q, st) : RequestInfo) /\
      has_flag st' REQ_COMPLETED = has_flag st REQ_COMPLETED;
  sg_live : live_kept (sv_clients sv) (sv_clients sv')
}.

Lemma stage_quiet p xs sv sv' : sv_world sv' = sv_world sv -> sv_requests sv' = sv_requests sv ->
  sv_manager sv' = sv_manager sv -> live_kept (sv_clients sv) (sv_clients sv') -> stage p xs sv sv'.
Proof.
  intros Hw Hr Hm Hc. split; unfold st_same_table, sv_store; rewrite ?Hw, ?Hr, ?Hm; try done; eauto.
Qed.

Lemma stage_trans p xs sv1 sv2 sv3 : stage p xs sv1 sv2 -> stage p xs sv2 sv3 -> stage p xs sv1 sv3.
Proof.
  intros [(A1 & A2 & A3) B C D E F G] [(A1' & A2' & A3') B' C' D' E' F' G']. split.
  - unfold st_same_table. split_and!; congruence.
  - intros q Hq. by rewrite B', B.
  - intros r' H. destruct (C' _ H) as (r & Hr & El). destruct (C _ Hr) as (r0 & Hr0 & El0). exists r0. split; congruence.
  - intros y Hy. by rewrite D', D.
  - intros h q st Hq H. destruct (E _ _ _ Hq H) as (st' & H' & <-). by apply E'.
  - intros h q st' H. destruct (F' _ _ _ H) as [[-> Hc]|(st & H2 & Hc)]; [by left|].
    destruct (F _ _ _ H2) as [[-> Hc']|(st0 & H3 & Hc')]; [left|right].
    + split; [done|congruence].
    + exists st0. split; [done|congruence].
  - by eapply live_trans.
Qed.

(** The nodes of the request are [xs] as long as it is there. *)
Definition mine (p : positive) (xs : list positive) (sv : Server) : Prop :=
  forall r, sv_requests sv !! p = Some r -> req_list (sv_store sv) r xs.

Lemma stage_mine p xs sv sv' : mine p xs sv -> stage p xs sv sv' -> mine p xs sv'.
Proof.
  intros Hm [(_ & _ & A) _ C _ _ _ _] r' Hr'. destruct (C _ Hr') as (r & Hr & El). specialize (Hm _ Hr).
  unfold req_list in *. by rewrite El, A.
Qed.

Lemma stage_cleanUp p xs sv sv' : mine p xs sv -> cleanUp p sv = Ok sv' -> stage p xs sv sv'.
Proof.
  intros Hm. unfold cleanUp, request_at. cbn [deref mbind result_bind].
  destruct (sv_requests sv !! p) as [r|] eqn:Hr; [|done]. cbn [of_option mbind result_bind].
  destruct (clearResources_spec _ _ _ (Hm _ Hr)) as (s' & r' & E & _ & Hl & _ & Hd).
  unfold cleanUpRequest. rewrite E. cbn [mbind result_bind]. intros [= <-]. split; cbn.
  - by split_and!.
  - intros q Hq. by apply lookup_delete_ne.
  - intros r0 H. by rewrite lookup_delete_eq in H.
  - intros y Hy. by rewrite Hd, decide_False.
  - eauto.
  - eauto.
  - apply live_refl.
Qed.

Lemma stage_enqueue p q xs sv sv' : enqueue q sv = Ok sv' -> stage p xs sv sv'.
Proof.
  unfold enqueue. intros H. apply bind_ok in H as (r & _ & H). apply bind_ok in H as ([b q'] & _ & H).
  injection H as <-. apply stage_quiet; try done. apply live_refl.
Qed.

Lemma stage_disable p xs h ok rm sv : disableRequestProcessing h (sv_manager sv) = Ok (ok, rm) ->
  stage p xs sv (sv_set_manager rm sv).
Proof.
  unfold disableRequestProcessing. destruct (mActiveRequests (sv_manager sv) !! h) as [[q0 st0]|] eqn:Eh; intros H.
  - injection H as _ <-. pose proof (or_cancelled_completed (q0, st0)) as Hoc. cbn [snd] in Hoc.
    split; cbn; try done; [by intros r' ?; exists r'| | |apply live_refl].
    + intros h' q st _ H. destruct (decide (h' = h)) as [->|Hne]; [|rewrite lookup_insert_ne by done; eauto].
      pose proof (eq_trans (eq_sym Eh) H) as E0. injection E0 as -> ->.
      rewrite lookup_insert_eq. eexists. split; [done|exact Hoc].
    + intros h' q st' H. right. destruct (decide (h' = h)) as [->|Hne]; [|rewrite lookup_insert_ne in H by done; eauto].
      rewrite lookup_insert_eq in H. injection H as -> <-. exists st0. split; [exact Eh|exact Hoc].
  - apply bind_ok in H as (c & _ & H). injection H as _ <-. split; cbn; try done; eauto. apply live_refl.
Qed.

Lemma stage_add `{HashOrder} maxReq p xs r sv ok sv' : sv_requests sv !! p = Some r ->
  mActiveRequests (sv_manager sv) !! getHandle (req_msg r) = None ->
  addToRequestManager maxReq p sv = Ok (ok, sv') -> stage p xs sv sv'.
Proof.
  intros Hr Hh. unfold addToRequestManager, request_at. cbn [deref mbind result_bind]. rewrite Hr.
  cbn [of_option mbind result_bind]. intros H1. apply bind_ok in H1 as ([added c] & E & H1).
  apply live_shouldBeAdded in E. destruct added; [|injection H1 as _ <-; by apply stage_quiet].
  apply bind_ok in H1 as ([[ok' rm] c'] & Ea & H1). injection H1 as _ <-.
  unfold addRequest in Ea. cbn [sv_set_clients sv_requests sv_manager sv_clients] in Ea.
  destruct (at_capacity _ _); [injection Ea as _ <- <-; by apply stage_quiet|].
  unfold request_at in Ea. cbn [deref mbind result_bind] in Ea. rewrite Hr in Ea. cbn [of_option mbind result_bind] in Ea.
  rewrite Hh in Ea. destruct (MinLRUCache_isPresent _ _); [injection Ea as _ <- <-; by apply stage_quiet|].
  apply bind_ok in Ea as (total & _ & Ea). injection Ea as _ <- <-.
  split; cbn; try done; [by intros r' ?; exists r'| | |].
  - intros h q st _ Hq. exists st. split; [|done]. rewrite lookup_insert_ne; [done|]. intros <-.
    pose proof (eq_trans (eq_sym Hh) Hq). done.
  - intros h q st' Hq. destruct (decide (getHandle (req_msg r) = h)) as [<-|Hne].
    + rewrite lookup_insert_eq in Hq. injection Hq as <- <-. by left.
    + rewrite lookup_insert_ne in Hq by done. right. by exists st'.
  - eapply live_trans; [exact E|apply live_insertRequest].
Qed.

(** ** The verification *)
Lemma verify_loop_frame {R} `{!ResourceConfigs R} (reg : R) perm : forall nodes n s t o s' t',
  verify_loop reg nodes perm n s t = Ok (o, s', t') ->
  st_links s' = st_links s /\ forall y, y ∉ nodes -> st_data s' !! y = st_data s !! y.
Proof.
  induction nodes as [|x nodes IH]; intros n s t o s' t' H; cbn in H; [by injection H as _ <- _|].
  destruct (st_data s !! x) as [res|]; [|by injection H as _ <- _].
  apply bind_ok in H as ([[fwd res'] t1] & _ & H). destruct (IH _ _ _ _ _ _ H) as [Hl Hd]. split; [done|].
  intros y [Hy1 Hy2]%not_elem_of_cons. rewrite Hd by done. cbn. by rewrite lookup_insert_ne.
Qed.

Lemma verify_frame {R} `{!ResourceConfigs R} (reg : R) mode r c s t xs ok r' s' t' : req_list s r xs ->
  VerifyIncomingRequest reg mode r c s t = Ok (ok, r', s', t') ->
  mResourceList r' = mResourceList r /\ getHandle (req_msg r') = getHandle (req_msg r) /\
  st_links s' = st_links s /\ forall y, y ∉ xs -> st_data s' !! y = st_data s !! y.
Proof.
  intros Hl. unfold VerifyIncomingRequest. destruct (_ || _); [by intros [= _ <- <- _]|].
  destruct (negb _); [by intros [= _ <- <- _]|]. destruct (_ =? -1); [by intros [= _ <- <- _]|].
  destruct (_ || _); [by intros [= _ <- <- _]|]. destruct (_ =? -1); [by intros [= _ <- <- _]|].
  unfold getResDlMgr. cbn [with_msg mResourceList]. unfold req_list in Hl.
  destruct (mResourceList r) as [l|] eqn:El; [|by intros [= _ <- <- _]]. destruct Hl as [_ Hd].
  rewrite (DL_ITERATE_refines _ _ _ Hd). cbn [mbind result_bind]. intros H.
  apply bind_ok in H as ([[n s1] t1] & E & H). injection H as _ <- <- _.
  apply verify_loop_frame in E as [E1 E2]. by split_and!.
Qed.

(** ** The whole admission *)

(** A stage that lets the request through leaves its record and the manager alone. *)
Definition let_through (sv sv' : Server) : Prop :=
  sv_manager sv' = sv_manager sv /\ sv_requests sv' = sv_requests sv.

(** A verdict: the request is freed when it is against it. *)
Lemma stage_verdict p xs sv1 sv2 go (ok : bool) : mine p xs sv1 ->
  (if ok then Ok (sv1, true) else sv ← cleanUp p sv1; Ok (sv, false)) = Ok (sv2, go) ->
  stage p xs sv1 sv2 /\ (go = true -> sv2 = sv1).
Proof.
  intros Hm H. destruct ok.
  - injection H as <- <-. split; [|done]. by apply stage_quiet; try apply live_refl.
  - apply bind_ok in H as (sv & E & H). injection H as <- <-. split; [by apply stage_cleanUp|done].
Qed.

Lemma stage_tune_checks maxReq fs al junk p r xs sv sv' go : mine p xs sv ->
  tune_checks maxReq fs al junk p r sv = Ok (sv', go) -> stage p xs sv sv' /\ (go = true -> let_through sv sv').
Proof.
  intros Hm. unfold tune_checks. destruct (negb _).
  { intros H. apply (stage_verdict p xs sv sv' go false) in H as [Hs Hgo]; [|done].
    split; [done|]. intros E. by rewrite (Hgo E). }
  destruct (clientExists _ _ _).
  { intros [= <- <-]. split; [by apply stage_quiet; try apply live_refl|done]. }
  intros H. apply bind_ok in H as ([ok c] & E & H). apply live_createNewClient in E.
  assert (stage p xs sv (sv_set_clients c sv)) as Hc by by apply stage_quiet.
  apply stage_verdict with (xs := xs) in H as [Hs Hgo]; [|by eapply stage_mine].
  split; [by eapply stage_trans|]. intros Eg. by rewrite (Hgo Eg).
Qed.

Lemma stage_other_checks p r xs isValidated sv sv' go : mine p xs sv ->
  other_checks p r isValidated sv = Ok (sv', go) -> stage p xs sv sv'.
Proof.
  intros Hm. unfold other_checks. destruct (_ && _).
  { intros H. by apply (stage_verdict p xs sv sv' go false) in H as [Hs _]. }
  destruct (is_type r REQ_RESOURCE_UNTUNING); [|intros [= <- <-]; by apply stage_quiet; try apply live_refl].
  intros H. apply bind_ok in H as ([ok rm] & E & H). apply (stage_disable p xs) in E.
  apply stage_verdict with (xs := xs) in H as [Hs _]; [|by eapply stage_mine]. by eapply stage_trans.
Qed.

Lemma stage_rate_check lim p r xs isValidated now sv sv' go : mine p xs sv ->
  rate_check lim p r isValidated now sv = Ok (sv', go) -> stage p xs sv sv' /\ (go = true -> let_through sv sv').
Proof.
  intros Hm. unfold rate_check. destruct isValidated.
  { intros [= <- <-]. split; [by apply stage_quiet; try apply live_refl|done]. }
  intros H. apply bind_ok in H as ([ok c] & E & H). apply live_rate in E.
  assert (stage p xs sv (sv_set_clients c sv)) as Hc by by apply stage_quiet.
  apply stage_verdict with (xs := xs) in H as [Hs Hgo]; [|by eapply stage_mine].
  split; [by eapply stage_trans|]. intros Eg. by rewrite (Hgo Eg).
Qed.

Lemma stage_admit `{HashOrder} maxReq p xs r sv sv' : mine p xs sv -> sv_requests sv !! p = Some r ->
  mActiveRequests (sv_manager sv) !! getHandle (req_msg r) = None ->
  admit_tune maxReq p sv = Ok sv' -> stage p xs sv sv'.
Proof.
  intros Hm Hr Hh. unfold admit_tune. intros H1. apply bind_ok in H1 as ([added sv1] & E & H1).
  pose proof (stage_add maxReq p xs r sv added sv1 Hr Hh E) as Hs. eapply stage_trans; [exact Hs|].
  destruct added; [by eapply stage_enqueue|]. eapply stage_cleanUp; [by eapply stage_mine|done].
Qed.

Section Admission.
Context {R : Type} `{!ResourceConfigs R} (reg : R) `{HashOrder}.
Context (mode maxReq : Z) (lim : RateLimiter) (fs : FileSystem) (al : ClientAllocs) (junk : Z).

Lemma stage_verify p xs r isValidated sv sv' : mine p xs sv -> sv_requests sv !! p = Some r ->
  mActiveRequests (sv_manager sv) !! getHandle (req_msg r) = None ->
  verify_and_admit reg mode maxReq p r isValidated sv = Ok sv' -> stage p xs sv sv'.
Proof.
  intros Hm Hr Hh. unfold verify_and_admit. destruct isValidated; [by eapply stage_admit|].
  intros H1. apply bind_ok in H1 as ([[[ok r'] s'] t'] & E & H1).
  destruct (verify_frame _ _ _ _ _ _ xs _ _ _ _ (Hm _ Hr) E) as (El & Eh & Elk & Ed).
  set (sv1 := sv_set_target t' _) in H1. assert (stage p xs sv sv1) as Hs.
  { split; cbn; try done; eauto.
    - intros q Hq. by apply lookup_insert_ne.
    - intros r1 H2. rewrite lookup_insert_eq in H2. injection H2 as <-. by exists r.
    - apply live_refl. }
  pose proof (stage_mine _ _ _ _ Hm Hs) as Hm1. eapply stage_trans; [exact Hs|].
  destruct ok; [|by apply stage_cleanUp].
  eapply (stage_admit maxReq p xs r'); [done|apply lookup_insert_eq|by rewrite Eh|done].
Qed.

Lemma stage_process p xs isValidated now sv sv' : mine p xs sv ->
  (forall r, sv_requests sv !! p = Some r -> is_other r = false ->
     mActiveRequests (sv_manager sv) !! getHandle (req_msg r) = None) ->
  processIncomingRequest reg mode maxReq lim fs al junk p isValidated now sv = Ok sv' -> stage p xs sv sv'.
Proof.
  intros Hm Hfresh. unfold processIncomingRequest, request_at. cbn [deref mbind result_bind].
  destruct (sv_requests sv !! p) as [r|] eqn:Hr; [|done]. cbn [of_option mbind result_bind]. fold (is_other r).
  intros H1. apply bind_ok in H1 as ([sv1 go1] & E1 & H1).
  assert (stage p xs sv sv1 /\ (go1 = true -> let_through sv sv1)) as [S1 T1].
  { destruct (is_type r REQ_RESOURCE_TUNING); [by eapply stage_tune_checks|].
    injection E1 as <- <-. split; [by apply stage_quiet; try apply live_refl|done]. }
  pose proof (stage_mine _ _ _ _ Hm S1) as M1. destruct go1; cbn [negb] in H1; [|by injection H1 as <-].
  apply bind_ok in H1 as ([sv2 go2] & E2 & H1).
  assert (stage p xs sv1 sv2 /\ (is_other r = false -> sv2 = sv1)) as [S2 T2].
  { destruct (is_other r); [split; [by eapply stage_other_checks|done]|].
    injection E2 as <- <-. split; [by apply stage_quiet; try apply live_refl|done]. }
  pose proof (stage_mine _ _ _ _ M1 S2) as M2. pose proof (stage_trans _ _ _ _ _ S1 S2) as S12.
  destruct go2; cbn [negb] in H1; [|by injection H1 as <-].
  apply bind_ok in H1 as ([sv3 go3] & E3 & H1). destruct (stage_rate_check _ _ _ xs _ _ _ _ _ M2 E3) as [S3 T3].
  pose proof (stage_mine _ _ _ _ M2 S3) as M3. pose proof (stage_trans _ _ _ _ _ S12 S3) as S13.
  destruct go3; cbn [negb] in H1; [|by injection H1 as <-]. eapply stage_trans; [exact S13|].
  destruct (is_other r) eqn:Ho.
  - destruct (verifyHandle _ _); [by eapply stage_enqueue|by apply stage_cleanUp].
  - destruct (T1 eq_refl) as [Em1 Er1], (T3 eq_refl) as [Em3 Er3]. rewrite (T2 eq_refl) in *.
    eapply (stage_verify p xs r); [done|by rewrite Er3, Er1|rewrite Em3, Em1; by apply Hfresh|done].
Qed.
End Admission.

(** The other active requests have nodes apart from [xs], and their clients are known. *)
Definition others_apart (xs : list positive) (sv : Server) : Prop :=
  forall q r st, sv_requests sv !! q = Some r ->
    mActiveRequests (sv_manager sv) !! getHandle (req_msg r) = Some ((Some q, st) : RequestInfo) ->
    (exists ys, req_list (sv_store sv) r ys /\ ys ## xs) /\ exists d, live_tid (getClientTID (req_msg r)) d (sv_clients sv).

Section Apart.
Context (p : positive) (r : Request) (xs : list positive) (sv sv' : Server).
Hypotheses (Hr : sv_requests sv !! p = Some r) (Hl : req_list (sv_store sv) r xs) (Hno : no_ref p (sv_manager sv)).
Hypotheses (Hap : others_apart xs sv) (Hst : stage p xs sv sv').

Lemma stage_list r1 ys : req_list (sv_store sv') r1 ys <-> req_list (sv_store sv) r1 ys.
Proof. unfold req_list. by rewrite (proj2 (proj2 (sg_table _ _ _ _ Hst))). Qed.

Lemma stage_apart q r1 ys prio st : tuning q r1 ys prio st sv -> q <> p /\ ys ## xs.
Proof.
  intros [B1 B2 B3 B4 B5 B6 B7]. split; [intros ->; by apply (Hno _ _ B6)|].
  destruct (Hap _ _ _ B1 B6) as [(ys' & Hys & Hd) _]. by rewrite (req_list_unique _ _ _ _ B3 Hys).
Qed.

Lemma stage_keeps q r1 ys prio st : tuning q r1 ys prio st sv -> exists st', tuning q r1 ys prio st' sv' /\
  has_flag st' REQ_COMPLETED = has_flag st REQ_COMPLETED.
Proof.
  intros Hq. destruct (stage_apart _ _ _ _ _ Hq) as [Hqp _]. destruct Hq as [B1 B2 B3 B4 B5 B6 B7].
  destruct (sg_kept _ _ _ _ Hst _ _ _ Hqp B6) as (st' & E' & Hc). exists st'. split; [|done].
  split; try done; [by rewrite (sg_requests _ _ _ _ Hst)|by apply stage_list|by apply (sg_live _ _ _ _ Hst)].
Qed.

Lemma stage_back q r1 ys prio st' : tuning q r1 ys prio st' sv' ->
  q = p /\ ys = xs /\ has_flag st' REQ_COMPLETED = false \/
  exists st, tuning q r1 ys prio st sv /\ has_flag st' REQ_COMPLETED = has_flag st REQ_COMPLETED.
Proof.
  intros [B1 B2 B3 B4 B5 B6 B7]. destruct (sg_new _ _ _ _ Hst _ _ _ B6) as [[-> Hc]|(st & H & Hc)].
  - left. split_and!; try done. destruct (sg_list _ _ _ _ Hst _ B1) as (r0 & Hr0 & El). rewrite Hr in Hr0. injection Hr0 as <-.
    eapply req_list_unique; [exact B3|]. apply stage_list. unfold req_list. by rewrite El.
  - right. assert (q <> p) as Hqp by (intros ->; by apply (Hno _ _ H)). exists st. split; [|done].
    rewrite (sg_requests _ _ _ _ Hst) in B1 by done.
    split; try done; [by apply stage_list|]. by destruct (Hap _ _ _ B1 H).
Qed.

Lemma stage_traffic : server_disjoint sv -> traffic sv sv'.
Proof.
  intros Hdis. split.
  - split; apply (sg_table _ _ _ _ Hst).
  - intros q r1 ys prio st Hq. destruct (stage_keeps _ _ _ _ _ Hq) as (st' & Hq' & Hc). by exists r1, st'.
  - intros q r1 ys prio st Hq Hc. destruct (stage_back _ _ _ _ _ Hq) as [(_ & _ & Hn)|(st' & Hq' & Hc')]; [congruence|].
    exists r1, st'. split; [done|congruence].
  - intros q r1 ys prio st x Hq _ Hx. split; [|intros k; by rewrite (proj2 (proj2 (sg_table _ _ _ _ Hst)))].
    apply (sg_data _ _ _ _ Hst). intros Hxs. exact (proj2 (stage_apart _ _ _ _ _ Hq) x Hx Hxs).
  - intros q1 q2 r1 r2 ys1 ys2 prio1 prio2 st1 st2 H1 H2 Hne.
    destruct (stage_back _ _ _ _ _ H1) as [(-> & -> & _)|(st3 & H1' & _)],
      (stage_back _ _ _ _ _ H2) as [(-> & -> & _)|(st4 & H2' & _)]; [done| | |].
    + intros x Hx Hy. exact (proj2 (stage_apart _ _ _ _ _ H2') x Hy Hx).
    + apply (stage_apart _ _ _ _ _ H1').
    + by eapply Hdis.
Qed.
End Apart.

(** ** Properties *)

(** C7: admission leaves what is applied alone.  Under the conditions of [processIncomingRequest_ownership],
    for a priority of -2 or more, in a server that satisfies the invariant [server_ok] of
    [server_lifecycle], and for a request whose nodes
    belong to no other and, unless it is an untune or retune request, whose handle is
    new: [processIncomingRequest] does not fault, queues or frees the request, calls no callback, and
    the lists of the table are still exactly those of the complete requests: every other request
    keeps its record, its nodes, its client and whether it is complete. *)
Theorem admission_keeps_server {R : Type} `{!ResourceConfigs R} (reg : R) `{HashOrder} (mode maxReq : Z) (lim : RateLimiter) (fs : FileSystem) (al : ClientAllocs) (junk : Z)
    (p : positive) (r : Request) (xs : list positive) (rs : list Resource) (sv : Server) (pend : Pending)
    (isValidated : bool) (now level : Z) :
  server_ok reg mode sv pend -> ready p r xs rs sv -> others_apart xs sv ->
  (is_other r = false -> mActiveRequests (sv_manager sv) !! getHandle (req_msg r) = None) ->
  clock now -> isRootProcess fs (getClientPID (req_msg r)) = Ok level ->
  is_type r REQ_RESOURCE_TUNING || is_other r = true -> SERVER_CLEANUP_TRIGGER_PRIORITY <= getPriority (req_msg r) ->
  exists sv', processIncomingRequest reg mode maxReq lim fs al junk p isValidated now sv = Ok sv' /\
    intake_outcome p r xs sv sv' /\ server_ok reg mode sv' pend /\
    events (sv_world sv') = events (sv_world sv) /\
    forall q rq ys prio st, tuning q rq ys prio st sv -> exists st', tuning q rq ys prio st' sv' /\
      has_flag st' REQ_COMPLETED = has_flag st REQ_COMPLETED.
Proof.
  intros Hok Hr Hap Hfresh Hnow Hroot Hty Hp.
  assert (exists sv', processIncomingRequest reg mode maxReq lim fs al junk p isValidated now sv = Ok sv' /\
    intake_outcome p r xs sv sv') as (sv' & E & Hout).
  { apply orb_true_iff in Hty as [Hty|Hty]; [by eapply intake_tune|by eapply intake_other]. }
  assert (stage p xs sv sv') as Hst.
  { eapply stage_process; [| |exact E]; intros r0 Hr0; rewrite (rd_req _ _ _ _ _ Hr) in Hr0; injection Hr0 as <-;
      [apply Hr|exact Hfresh]. }
  pose proof (stage_traffic p r xs sv sv' (rd_req _ _ _ _ _ Hr) (rd_list _ _ _ _ _ Hr) (rd_noref _ _ _ _ _ Hr) Hap Hst
    (so_disjoint _ _ _ _ Hok)) as Htr.
  exists sv'. split; [done|]. split; [done|]. split; [by eapply traffic_ok|]. split; [apply Htr|].
  intros q rq ys prio st Hq. by eapply (stage_keeps p xs sv sv' (rd_noref _ _ _ _ _ Hr) Hap Hst).
Qed.

Lemma admission_keeps_server_witness :
  let order := sorted_hash_order in
  let fs := fs_with {["/proc/7/status"%string := "Name: x"%string]} in
  let sv := mkServer (sv_world sample_server) {[1%positive := sample_request (-1)]} ClientDataManager_init
    RequestManager_init OrderedQueue_init TargetRegistry_init in
  exists sv', processIncomingRequest sample_reg MODE_RESUME 60 default_limiter fs all_blocks 0 1 false 1000 sv = Ok sv' /\
    server_ok sample_reg MODE_RESUME sv' (fun _ _ => []) /\ map snd (mOrderedQueue (sv_queue sv')) = [QRequest 1].
Proof.
  intros order fs sv.
  destruct (admission_keeps_server sample_reg MODE_RESUME 60 default_limiter fs all_blocks 0 1 (sample_request (-1))
    [1%positive] [sample_res 0 10] sv (fun _ _ => []) false 1000 1) as (sv' & E & _ & Hok & _).
  - by apply (boot_ok reg_wf _ _ (one_resource_wf _ _) sv (sv_store sv) [] [] 8 2 0).
  - split; try done.
    + split; [by vm_compute|exact sample_list].
    + split; [by repeat constructor|]. repeat constructor; simpl; lia || (unfold in_u; lia).
    + exists []. split; [split_and!; [done|done|constructor]|reflexivity].
  - intros q r st _ H. cbn in H. pose proof (eq_trans (eq_sym (lookup_empty _)) H) as E0. done.
  - reflexivity.
  - unfold clock. lia.
  - vm_compute. reflexivity.
  - reflexivity.
  - vm_compute. discriminate.
  - exists sv'. split; [exact E|]. split; [exact Hok|]. vm_compute in E. by injection E as <-.
Defined.
