(* ===== verification/ServerFiles.v ===== *)
(** The life of the server (Lifecycle.v) on the files of the device: every callback a turn of the
    consumer calls is carried out by the hooks of [ResourceHooks.cpp] (Effects.v), on the nodes as they are
    during that turn. *)
From S2P Require Import Prelude UrmTypes Message Resource DLManager AuxRoutines TargetRegistry ResourceRegistry.
From S2P Require Import StringFacts Request CocoTable ClientDataManager RequestManager Events ResourceHooks HookFacts Effects.
From S2P Require Import History Server Lifecycle.
Open Scope list_scope.
Open Scope Z_scope.

(** Every node of a resource of the registry holds one value, and that resource is a globally applied
    one with the default callbacks, whose file can be opened.  Nodes of unknown resources, which the
    callbacks are never called on, hold anything. *)
Definition plain_store {K : Type} (reg : ResourceRegistry) (d : Device K) (s : Store) : Prop :=
  forall x r conf, st_data s !! x = Some r -> getResConf reg (getResCode r) = Some conf ->
    res_ok r /\ mNumValues r <> 2 /\ plain_global d conf.

(** What the file of a resource reads when [x] leads its row, in the device that started as [d0]. *)
Definition shown {K : Type} (d0 : Device K) (s : Store) (x : option positive) (path : string) : string :=
  match x with Some x => to_string (node_value s x) | None => readFromFile (dev_fs d0) path end.

Section Files.
Context {K : Type} `{!Scheduler K} (reg : ResourceRegistry) (mode : Z) (Hwf : reg_wf reg) (tb : bool) (tp : option bool).
Context (d0 : Device K).
Hypothesis Hpaths : forall c1 c2 conf1 conf2, getResConf reg c1 = Some conf1 -> getResConf reg c2 = Some conf2 ->
  mApplyType conf1 = APPLY_GLOBAL -> mApplyType conf2 = APPLY_GLOBAL ->
  mResourcePath conf1 = mResourcePath conf2 -> c1 = c2.
Hypothesis Hreg : forall code, registry_getResConf (dev_reg d0) code = getResConf reg code.
Hypothesis Hdef : forall code conf, getResConf reg code = Some conf -> mApplyType conf = APPLY_GLOBAL ->
  mDefaultValueStore (dev_reg d0) !! mResourcePath conf = Some (readFromFile (dev_fs d0) (mResourcePath conf)).

(** A turn of the consumer with its callbacks, or something else that happens in between. *)
Inductive file_step : Server * Device K -> Server * Device K -> Prop :=
  | writes u sv sv' evs d d' : consumable reg mode tb tp sv u -> consume_request reg mode tb tp u sv = Ok sv' ->
      events (sv_world sv') = events (sv_world sv) ++ evs -> replay (sv_store sv) evs d = Ok d' ->
      file_step (sv, d) (sv', d')
  | keeps sv sv' d : traffic sv sv' -> plain_store reg d0 (sv_store sv') -> file_step (sv, d) (sv', d).

(** The files show the leaders. *)
Record on_files (pend : Pending) (sv : Server) (d : Device K) : Prop := {
  of_server : server_ok reg mode sv pend;
  of_plain : plain_store reg d0 (sv_store sv);
  of_reg : dev_reg d = dev_reg d0;
  of_open : forall q, fs_openable_w (dev_fs d) q = fs_openable_w (dev_fs d0) q;
  of_read : forall code i conf cb tb', is_global reg mode code i conf cb tb' ->
    readFromFile (dev_fs d) (mResourcePath conf) = shown d0 (sv_store sv) (leader pend i) (mResourcePath conf)
}.

Lemma shown_data s s' x path :
  (forall y, x = Some y -> st_data s' !! y = st_data s !! y) -> shown d0 s' x path = shown d0 s x path.
Proof. intros H. destruct x as [y|]; [|done]. cbn. unfold node_value. by rewrite H. Qed.

Lemma plain_global_open (d : Device K) conf : (forall q, fs_openable_w (dev_fs d) q = fs_openable_w (dev_fs d0) q) ->
  plain_global d0 conf -> plain_global d conf.
Proof. intros Ho [H1 H2 H3 H4 H5]. split; try done. unfold openable. by rewrite Ho. Qed.

(** The callbacks of a turn can be carried out, and the files show the new leaders. *)
Lemma turn_on_files pend sv d u : on_files pend sv d -> consumable reg mode tb tp sv u ->
  exists sv' evs d' pend', consume_request reg mode tb tp u sv = Ok sv' /\
    events (sv_world sv') = events (sv_world sv) ++ evs /\ replay (sv_store sv) evs d = Ok d' /\
    on_files pend' sv' d'.
Proof.
  intros [Hok Hpl Hr Ho Hrd] Hu.
  destruct (turn_ok reg_wf reg mode Hwf tb tp u sv pend Hok Hu) as (sv' & evs & pend' & E & Hok' & [Hev Hca Hgood Hdata]).
  rewrite map_subseteq_spec in Hdata.
  destruct (replay_replayed reg (sv_store sv) d) with (dflt := readFromFile (dev_fs d0))
    (tracked := fun code => exists i conf cb tb', is_global reg mode code i conf cb tb')
    (v0 := fun code => leader pend (Z.to_nat (getResourceTableIndex reg code))) (evs := evs) as (d' & Er & [R1 R2 R3]).
  - intros x r conf Hx Hc. destruct (Hpl x r conf Hx Hc) as (? & ? & Hp). split_and!; try done.
    by apply plain_global_open.
  - exact Hpaths.
  - intros code. rewrite Hr. apply Hreg.
  - intros code conf Hc Hg. rewrite Hr. split; [by eapply Hdef|apply readFromFile_lacks].
  - intros code conf (i & conf' & cb & tb' & Hg) Hc _. assert (conf' = conf) as -> by (pose proof (ig_conf _ _ _ _ _ _ _ Hg); congruence).
    rewrite (Hrd _ _ _ _ _ Hg). unfold expected, after. cbn [foldl]. by rewrite (ig_index _ _ _ _ _ _ _ Hg), Nat2Z.id.
  - exact Hgood.
  - exists sv', evs, d', pend'. split; [done|]. split; [done|]. split; [done|]. split; [done| | | |].
    + intros x r conf Hx. apply (Hpl x r). by apply Hdata.
    + congruence.
    + intros q. by rewrite R2.
    + intros code i conf cb tb' Hg. rewrite (R3 code conf) by (eauto 6; apply Hg). unfold expected, after.
      rewrite (ig_index _ _ _ _ _ _ _ Hg), Nat2Z.id, (Hca _ _ _ _ _ Hg).
      change (shown d0 (sv_store sv) (leader pend' i) (mResourcePath conf) = shown d0 (sv_store sv') (leader pend' i) (mResourcePath conf)).
      apply shown_data. intros y Hy. destruct (leader_elem _ _ _ Hy) as [j Hj].
      pose proof (proj1 (table_ok_rows reg mode _ _) (so_table _ _ _ _ Hok')) as [Hcw _ _ _].
      destruct (wf_data _ _ Hcw i j y Hj) as (r & Hyr & _). rewrite (Hdata _ _ Hyr). by symmetry.
Qed.

Lemma file_step_ok c c' : file_step c c' -> (exists pend, on_files pend c.1 c.2) -> exists pend, on_files pend c'.1 c'.2.
Proof.
  intros [u sv sv' evs d d' Hu E Hev Er|sv sv' d Htr Hpl] [pend Hof]; cbn [fst snd] in *.
  - destruct (turn_on_files pend sv d u Hof Hu) as (sv2 & evs2 & d2 & pend' & E2 & Hev2 & Er2 & Hof').
    rewrite E in E2. injection E2 as <-. rewrite Hev in Hev2. apply app_inv_head in Hev2 as <-.
    rewrite Er in Er2. injection Er2 as <-. by exists pend'.
  - exists pend. destruct Hof as [Hok Hp Hr Ho Hrd]. split; try done; [by eapply traffic_ok|].
    intros code i conf cb tb' Hg. rewrite (Hrd _ _ _ _ _ Hg). symmetry. apply shown_data. intros y Hy.
    destruct (leader_elem _ _ _ Hy) as [j Hj].
    destruct (so_owner _ _ _ _ Hok i j y Hj) as (p & r & xs & prio & st & Hp' & Hc & Hin).
    apply live_subseteq in Hin. by destruct (tr_nodes _ _ Htr p r xs prio st y Hp' Hc Hin).
Qed.
End Files.

(** ** Properties *)

(** C1: what the files of the device read. The consumer starts on an empty CocoTable. Nodes of known resources
    are plain, on arrival too: one value, a global resource, default callbacks, an openable file of its
    own, its default registered. Turns take [consumable] requests in any order: a tune with some
    non-skipped node, all such nodes global at priority < 4, whose timer, if any, starts; a cancelled
    tune; an untune; a retune of a known request, incomplete or with a timer. Refused timers (freed
    nodes stay listed) and retunes of complete requests without a timer (null dereference) are excluded.
    Between turns, arrivals with nodes of their own, cancellations, retunes ([traffic]). Then the listed
    nodes are the non-skipped global ones of the complete requests, by resource and priority; a
    resource's file reads the value of the head of its first non-empty list, or what it read at the
    start if all are empty; and the next consumable request runs, callbacks included, without a fault. *)
Theorem server_on_files {K : Type} `{!Scheduler K} (reg : ResourceRegistry) (mode : Z) (tb : bool) (tp : option bool)
    (sv0 sv : Server) (d0 d : Device K) (s : Store) (clusters cgroups : list Z) (nCores nClusters nCGroups : Z) :
  reg_wf reg ->
  sv_world sv0 = mkWorld s (CocoTable_init reg clusters cgroups nCores nClusters nCGroups) [] ->
  mActiveRequests (sv_manager sv0) = ∅ -> plain_store reg d0 s ->
  (forall c1 c2 conf1 conf2, getResConf reg c1 = Some conf1 -> getResConf reg c2 = Some conf2 ->
     mApplyType conf1 = APPLY_GLOBAL -> mApplyType conf2 = APPLY_GLOBAL ->
     mResourcePath conf1 = mResourcePath conf2 -> c1 = c2) ->
  (forall code, registry_getResConf (dev_reg d0) code = getResConf reg code) ->
  (forall code conf, getResConf reg code = Some conf -> mApplyType conf = APPLY_GLOBAL ->
     mDefaultValueStore (dev_reg d0) !! mResourcePath conf =
       Some (readFromFile (dev_fs d0) (mResourcePath conf))) ->
  rtc (file_step reg mode tb tp d0) (sv0, d0) (sv, d) ->
  exists pend : Pending,
    (forall i j x, x ∈ pend i j <-> exists p r xs st, tuning p r xs j st sv /\ has_flag st REQ_COMPLETED = true /\
       x ∈ xs /\ exists res conf cb tb', st_data (sv_store sv) !! x = Some res /\ getResAction res <> RES_SKIP /\
       is_global reg mode (getResCode res) i conf cb tb') /\
    (forall code i conf cb tb', is_global reg mode code i conf cb tb' ->
       readFromFile (dev_fs d) (mResourcePath conf) =
         match (match first_level pend i with Some q => head (pend i q) | None => None end) with
         | Some x => to_string (node_value (sv_store sv) x)
         | None => readFromFile (dev_fs d0) (mResourcePath conf)
         end) /\
    (forall u, consumable reg mode tb tp sv u -> exists sv' evs d',
       consume_request reg mode tb tp u sv = Ok sv' /\ events (sv_world sv') = events (sv_world sv) ++ evs /\
       replay (sv_store sv) evs d = Ok d').
Proof.
  intros Hwf Hw Hact Hpl Hpaths Hreg Hdef Hrun.
  assert (forall c c', rtc (file_step reg mode tb tp d0) c c' -> (exists pend, on_files reg mode d0 pend c.1 c.2) ->
    exists pend, on_files reg mode d0 pend c'.1 c'.2) as Hall.
  { induction 1 as [|c1 c2 c3 Hs _ IH]; [done|]. intros Hc.
    by apply IH, (file_step_ok reg mode Hwf tb tp d0 Hpaths Hreg Hdef c1). }
  destruct (Hall _ _ Hrun) as (pend & Hof).
  { exists (fun _ _ => []). split; cbn [fst snd].
    - by eapply (boot_ok reg_wf reg mode Hwf sv0 s).
    - unfold sv_store. by rewrite Hw.
    - done.
    - done.
    - done. }
  cbn [fst snd] in Hof. exists pend. split; [|split].
  - apply (lists_are_the_complete reg mode sv pend (of_server _ _ _ _ _ _ Hof)).
  - exact (of_read _ _ _ _ _ _ Hof).
  - intros u Hu. destruct (turn_on_files reg mode Hwf tb tp d0 Hpaths Hreg Hdef pend sv d u Hof Hu)
      as (sv' & evs & d' & pend' & ? & ? & ? & _). by exists sv', evs, d'.
Qed.

(** The value 10 of the one request of [sample_arrival] reaches the file. *)
Lemma server_on_files_witness : exists sv d pend,
  rtc (file_step sample_reg 1 true None file_device) (sample_server, file_device) (sv, d) /\
  (1%positive ∈ pend 0%nat 2%nat) /\
  readFromFile (dev_fs d) "/sys/r" =
    match (match first_level pend 0 with Some q => head (pend 0%nat q) | None => None end) with
    | Some x => to_string (node_value (sv_store sv) x)
    | None => "5"%string
    end.
Proof.
  destruct (sample_arrival (-1)) as (sv1 & Htr & Hp & Hok & [Hlv Hall] & Hw & Hr & _).
  assert (plain_store sample_reg file_device (sv_store sv1)) as Hpl.
  { unfold sv_store. rewrite Hw. exact sample_nodes. }
  assert (consumable sample_reg 1 true None sv1 1) as Hcons.
  { apply (fresh_tune _ _ _ _ _ 1 (sample_request (-1)) [1%positive] 2 REQ_UNCHANGED); try done;
      [apply NoDup_singleton|by rewrite Hlv|by rewrite Hlv|by left]. }
  destruct (tune_turn reg_wf sample_reg 1 (one_resource_wf _ _) true None 1 (sample_request (-1)) [1%positive] 2 REQ_UNCHANGED
    sv1 _ Hok Hp) as (sv2 & _ & _ & E & _ & _ & _ & r2 & Hp2 & _ & _ & Hsn & _);
    [done|done|apply NoDup_singleton|by rewrite Hlv|by rewrite Hlv|by left|].
  destruct (turn_on_files sample_reg 1 (one_resource_wf _ _) true None file_device)
    with (pend := fun _ _ : nat => @nil positive) (sv := sv1) (d := file_device) (u := 1%positive)
    as (sv3 & evs & d' & _ & E3 & Hev & Er & _); try done.
  { intros c1 c2 conf1 conf2 H1 H2 _ _ _. by eapply sample_paths. }
  { intros code conf Hc _. by apply (sample_defaults code). }
  rewrite E in E3. injection E3 as <-.
  assert (rtc (file_step sample_reg 1 true None file_device) (sample_server, file_device) (sv2, d')) as Hrun.
  { eapply rtc_l; [by apply keeps|]. apply rtc_once. by eapply writes. }
  destruct (server_on_files sample_reg 1 true None sample_server sv2 file_device d' (sv_store sample_server) [] [] 8 2 0)
    as (pend & Hin & Hrd & _); try done.
  { apply one_resource_wf. }
  { exact sample_nodes. }
  { intros c1 c2 conf1 conf2 H1 H2 _ _ _. by eapply sample_paths. }
  { intros code conf Hc _. by apply (sample_defaults code). }
  exists sv2, d', pend. split; [done|]. split; [|exact (Hrd _ _ _ _ _ sample_global)].
  apply Hin. exists 1%positive, r2, [1%positive], (or_status REQ_COMPLETED (Some 1%positive, REQ_UNCHANGED)).2.
  split_and!; [done|done|by left|]. exists (sample_res 0 10). do 3 eexists. split; [|split; [done|exact sample_global]].
  unfold sv_store. rewrite (sn_data _ _ Hsn), Hw. done.
Defined.
